(* ===== verification/_CoqProject ===== *)
-Q . S2P
Prelude.v
Monad.v
CString.v
Types.v
Kernel.v
Kalloc.v
KallocFacts.v
Vm.v
VmFacts.v
UserMem.v
Transfer.v
Uart.v
Printf.v
Echo.v
Console.v
ConsoleFacts.v
Bio.v
Lru.v
BioFacts.v
BioProps.v
Log.v
LogSpace.v
LogFacts.v
LogCrash.v
LogOps.v
Tx.v
Workset.v
TxFacts.v
FsBlock.v
FsCtx.v
Bitmap.v
Inode.v
FileData.v
FileGrow.v
Dir.v
DirFacts.v
FileWrite.v
File.v
FileProps.v
DirProps.v
TruncProps.v
PipeFacts.v
Sysfile.v
Proc.v
Exec.v
Sysproc.v
Virtio.v
Systx.v
Syscall.v
Trap.v
Asm.v
AsmFacts.v
Sched.v
VirtioFacts.v
SystxFacts.v
SyscallFacts.v
Demo.v
TxDemo.v
DemoFacts.v
Examples.v
CacheExamples.v
FileExamples.v
Ulib.v
PrintFacts.v
Sh.v
ShFacts.v
Grep.v
GrepFacts.v
Utils.v
Umalloc.v
UmallocFacts.v
UtBasic.v
UtMem.v
TxTests.v
Stress.v
Mkfs.v
Spinlock.v
SleepLock.v
UnitExamples.v
KernelExamples.v
