(* ===== verification/Prelude.v ===== *)
(** * txv6: a verification development of the transactional xv6 kernel

    txv6 is the xv6-riscv teaching kernel with transactions on the file
    system added: between [txbegin] and [txcommit] a process works on shadow
    copies of the inodes and buffers it uses, which the commit makes the
    stable data and an abort throws away.  This library models the kernel
    ([src/kernel]), the image builder ([src/mkfs]) and the user programs
    ([src/user]) as Rocq functions, and proves the properties that make its
    components correct.

    ** The program and its model

    The kernel is C code on one shared memory.  Its state is the record [kst]
    (file Types): the heap of allocated pages, the static tables (buffers,
    log, inodes, files, processes), the disk with the list of all writes made
    to it, the locks held, and the devices.  A page of the heap holds what the
    code stores in it, as a value of [pobj]: a link of the free list, inode or
    buffer data, a transaction, a trap frame, a pipe, a page table, or bytes.
    A C function is a function of the same name in the monad of file Monad: it
    returns, panics, gives up the CPU with a resumption, leaves by [klongjmp],
    or gets stuck where C gives no meaning (a dangling pointer).  Integers are
    [Z] with the wrap-around of their C type written out.

    The parts, from the bottom up, with the files that model them and the
    files that hold their theorems:

    - Prelude (this file), Monad: integers, byte sequences, the effect monad,
      total correctness [wp], tactics and the hint database.
    - CString: [string.c].  [memmove] is right for every overlap.
    - Types, Kernel: [param.h], the structures of the header files, locks as seen from one
      CPU, [sleep] and [wakeup] of [proc.c], [sleeplock.c].  Spinlock:
      [spinlock.c] with several CPUs that interleave; locks exclude and
      interrupts stay off.  SleepLock: [sleeplock.c], [sleep], [wakeup],
      [yield], [kkill], [sched] and the scheduler as sequences of operations
      that several CPUs interleave; a sleep lock has one holder, no wakeup is
      lost, and the panics of [acquire], [release] and [sched] are not reached.
    - Kalloc: [kalloc.c].  KallocFacts: no page is given out twice or lost.
    - Vm: [vm.c].  VmFacts: [mappages] maps exactly what it is asked to, on
      trees of tables that share nothing.  UserMem: [copyout] and [copyin]
      across pages.  Transfer: the classes [Sink] and [Source] of places that
      [either_copyout] and [either_copyin] reach, with user memory and the
      kernel stack as instances.
    - Uart, Printf, Console: [uart.c], [printf.c], [console.c].  Echo: messages
      are printed character by character when the port is idle, and change
      only devices.  ConsoleFacts:
      the interrupt handler implements the line discipline.  PrintFacts:
      numbers are printed within their buffer and read back.
    - Bio: [bio.c].  Lru, BioFacts, BioProps: the doubly linked list is a list
      of distinct buffers in order of use; [bread] gives the contents of the
      block, [bget] recycles the least recently used buffer, [bwrite] changes
      one block.  The cache uses the block operation [disk_rw].
    - Virtio: [virtio_disk.c].  VirtioFacts: the driver with any conforming
      device implements [disk_rw], so what is proved of the cache holds of it.
    - Log: [log.c].  LogFacts, LogCrash: a commit is atomic under a crash
      after any of its disk writes, followed by recovery.  LogOps: absorption.
      LogSpace: no sequence of operations overflows the log, and [log_write]
      returns while an operation has room left in its share; it is stated with
      the class [KeepsLog] of code that leaves the log header alone.
    - Tx: [tx.c] up to the shadow copies.  Workset, TxFacts: the workset is
      sorted and searched correctly, a shadow is a private copy, a transaction
      reads what it wrote, no two transactions use the same object.
    - FsBlock, Inode, Dir: [fs.c] and the inode and buffer operations of
      [tx.c].  FsCtx: the frame in which an operation of [fs.c] runs between
      [begin_op] and [end_op], and the rules of [bread], [log_write] and
      [brelse] in it.  Bitmap: the rules of [balloc] and [bfree].  FileData,
      FileGrow, FileWrite: a file as a sequence of bytes spread over direct
      and indirect blocks, what taking a block does to it, and the rules of
      [bmap], [readi], [iupdate] and [writei].  FileProps: the theorems that
      follow; a file written is read back, nothing else changes, the disk can
      be full, and a [writei] of a chunk of [filewrite] logs no more blocks
      than [begin_op] reserves.
      DirFacts: path names are split as they should be, directory entries and
      inodes survive the trip to disk.  DirProps: a directory as a table of
      names; [dirlookup] finds the first entry of a name, [dirlink] adds one
      at the first free slot.  TruncProps: [itrunc] gives back exactly the
      blocks of the file.
    - File: [file.c], [pipe.c].  PipeFacts: a pipe is a bounded queue.
    - Sysfile, Proc, Exec, Sysproc: [sysfile.c], [proc.c], [exec.c],
      [sysproc.c].
    - Systx: [systx.c].  SystxFacts: what commit, abort, begin and the calls
      deferred in a transaction do, and what becomes of a refused shadow.
    - Syscall: [syscall.c].  SyscallFacts: a system call aborted by a conflict
      returns to user mode as a failed [txbegin].
    - Trap: [trap.c], [plic.c], [start.c].
    - Asm: [entry.S], [swtch.S], [kjmp.S], [kernelvec.S], [trampoline.S], the
      stubs of [usys.pl] and the inline assembly of [riscv.h], as lists of
      instructions that [exec] runs on a hart with registers and memory.
      AsmFacts: [swtch] and [klongjmp] come back to where the registers were
      saved, with every register the calling convention calls callee-saved, which the outcomes [Block] and [Longjmp] of the monad rely on; a
      trap from user mode, and an interrupt in the kernel, leave the registers
      alone; each hart boots on its own stack; every stub reaches its handler.
    - Sched: [main.c] and the scheduler of [proc.c]; a process that sleeps is
      woken and runs again.
    - Ulib, Umalloc: the user library [ulib.c], [printf.c], [umalloc.c].  A user program is a tree of the system calls it makes.
      UmallocFacts: the blocks of the allocator partition the heap.
    - Sh: [sh.c].  ShFacts: the parser ends on every line with a tree inside
      the line; a command given to [tx] is never committed.
    - Grep: [grep.c], [wc.c], [cat.c], [echo.c], parts of [ls.c] and the
      random numbers of [grind.c].  GrepFacts: the matcher decides regular-expression search.
      Utils: [init.c], [ls.c] and the [main] functions of the utilities.
    - UtBasic, UtMem: the tests of [usertests.c] and their driver.  TxTests:
      [test_helpers.c], [txtest.c] and [txtiming_test.c]; the [sort] of the
      helpers sorts.  Stress: [grind.c],
      [forktest.c], [stressfs.c], [logstress.c], [dorphan.c], [forphan.c].
    - Mkfs: [mkfs.c].
    - Demo, TxDemo, DemoFacts, Examples, CacheExamples, FileExamples,
      UnitExamples, KernelExamples: a small formatted disk and a booted kernel, boolean
      checkers for the invariants, and each theorem with hypotheses applied to
      a concrete state.

    ** Parameters

    What the linker and the assembly files decide (where the kernel ends,
    where the tables are, the entry points of the trampoline) is the class
    [Layout] of file Types.  Reads of device registers take their values from
    the stream [v_in] of the devices.  The disk device is a parameter of
    VirtioFacts with the hypothesis [device_ok] (once notified it carries out
    the request it was offered, writes status 0 and puts the chain in the used ring), and
    what a kernel thread does between two context switches is the parameter
    [swtch] of the scheduler.  KernelExamples gives an instance of each.
    In Asm the translation of addresses by the MMU is the parameter [walk],
    and the addresses of symbols and of code are [symbol] and [link]; nothing
    is assumed of them but where the theorems say which slots are mapped.

    ** Loops and fuel

    A [while] loop is [loop] with fuel.  Where the loop has a bound in the
    code (the bytes to copy, the buffers of the cache, the entries of a
    directory or of the workset, the characters of a path or a line) the fuel
    is that bound and one more, and the theorems show that the result is
    reached; for the shell's parser this is the theorem itself.  A loop that
    waits for a condition is retried [WAKEUPS] times, each time after a
    wakeup; it models a finite part of a wait that C does not bound.  Loops of
    user programs that end with their input take the number of turns as an
    argument; those of the test programs that go on for longer than that are
    cut off there ([UCut]).

    ** Not modelled

    - The machine code of the C functions: the C model and the model of the
      assembly files are two levels.  In C a context switch is the outcome
      [Block] and [klongjmp] the outcome [Longjmp] that [syscall] catches.
    - [kernel.ld] and [user.ld], which only choose addresses, and the
      prototypes of [defs.h] and the names of types in [types.h].
    - Interleaving of kernel threads inside a function: it can happen where a
      thread blocks, and in the step relations of Spinlock, SleepLock, LogSpace
      and TxFacts; elsewhere a function runs with its locks held to its end.
      Memory barriers have no meaning in this model.
    - The interrupt flag of the CPU outside Spinlock: [sched] of Kernel and
      SleepLock leaves out the check of [intr_get()] and the saving of
      [intena], and takes the number of locks held for [noff].
    - The overflow of the signed counters that only count references and
      operations ([ref] of inodes and files, [n] and [outstanding] of the log,
      [nextpid]), which are plain integers.
    - Several requests in the queue of the disk at once: VirtioFacts follows
      one request from its start to its end, and the cache takes the block
      operation for atomic.
    - The names of locks, and [fileinit], [printfinit] and [trapinit], which
      only initialise a lock.
    - The memory the shell allocates for its command tree, which is a value
      here, and the failure of that allocation.
    - The memory of a user program behind its variables: buffers are values,
      and an access at a computed address is an event that the machine
      answers.  In particular the arrays of [logstress.c] and of the tests
      have no neighbours. *)

From stdpp Require Import base numbers list gmap strings sorting.
From Stdlib Require Import ZArith Lia.

Open Scope Z_scope.

(** ** Fixed-width C integers

    A C value of an unsigned type of width [w] is a [Z] in [0, 2^w); a value
    of a signed type is a [Z] in [-2^(w-1), 2^(w-1)).  Conversions and
    wrap-around are written out with these functions. *)

Definition wrap (w x : Z) : Z := x mod 2 ^ w.

Definition swrap (w x : Z) : Z := (x + 2 ^ (w - 1)) mod 2 ^ w - 2 ^ (w - 1).

Notation u8 := (wrap 8).
Notation u16 := (wrap 16).
Notation u32 := (wrap 32).
Notation u64 := (wrap 64).
Notation s8 := (swrap 8).
Notation s16 := (swrap 16).
Notation s32 := (swrap 32).
Notation s64 := (swrap 64).

(** ** Byte sequences *)

(** little-endian bytes of the low [n] bytes of [x] *)
Fixpoint le_bytes (n : nat) (x : Z) : list Z :=
  match n with
  | O => []
  | S n => x mod 256 :: le_bytes n (x / 256)
  end.

Fixpoint le_value (l : list Z) : Z :=
  match l with
  | [] => 0
  | b :: l => b + 256 * le_value l
  end.

(** the [n] elements of [l] from index [off] on *)
Definition slice {A} (off n : nat) (l : list A) : list A := take n (drop off l).

(** [l] with the segment from [off] on overwritten by [new] *)
Definition splice {A} (off : nat) (new l : list A) : list A :=
  take off l ++ new ++ drop (off + length new) l.

Definition is_byte (b : Z) : Prop := 0 <= b < 256.

(** ** Automation *)

Create HintDb txv6.
Create Rewrite HintDb txlen.

(** case analysis on every boolean or decidable test in the goal *)
Ltac bool_cases :=
  repeat match goal with
  | |- context [if ?b then _ else _] =>
      let E := fresh "E" in destruct b eqn:E
  end.

(** turn boolean comparisons on [Z] into propositions *)
Ltac zbool :=
  repeat match goal with
  | H : (_ =? _) = true |- _ => apply Z.eqb_eq in H
  | H : (_ =? _) = false |- _ => apply Z.eqb_neq in H
  | H : (_ <? _) = true |- _ => apply Z.ltb_lt in H
  | H : (_ <? _) = false |- _ => apply Z.ltb_ge in H
  | H : (_ <=? _) = true |- _ => apply Z.leb_le in H
  | H : (_ <=? _) = false |- _ => apply Z.leb_gt in H
  | H : andb _ _ = true |- _ => apply andb_true_iff in H; destruct H
  | H : orb _ _ = false |- _ => apply orb_false_iff in H; destruct H
  | H : negb _ = true |- _ => apply negb_true_iff in H
  | H : negb _ = false |- _ => apply negb_false_iff in H
  end.

(** ** Lemmas on integers *)

Lemma wrap_small w x : 0 <= x < 2 ^ w -> wrap w x = x.
Proof. intros H. unfold wrap. by apply Z.mod_small. Qed.

Lemma wrap_range w x : 0 <= w -> 0 <= wrap w x < 2 ^ w.
Proof. intros Hw. unfold wrap. apply Z.mod_pos_bound, Z.pow_pos_nonneg; lia. Qed.

Lemma wrap_wrap w x : wrap w (wrap w x) = wrap w x.
Proof. unfold wrap. apply Zmod_mod. Qed.

Lemma swrap_small w x : 0 < w -> - 2 ^ (w - 1) <= x < 2 ^ (w - 1) -> swrap w x = x.
Proof.
  intros Hw H. unfold swrap.
  assert (2 ^ w = 2 * 2 ^ (w - 1)) as Hp.
  { rewrite <-Z.pow_succ_r by lia. f_equal. lia. }
  rewrite Z.mod_small; lia.
Qed.

Lemma swrap_range w x : 0 < w -> - 2 ^ (w - 1) <= swrap w x < 2 ^ (w - 1).
Proof.
  intros Hw. unfold swrap.
  assert (2 ^ w = 2 * 2 ^ (w - 1)) as Hp.
  { rewrite <-Z.pow_succ_r by lia. f_equal. lia. }
  pose proof (Z.mod_pos_bound (x + 2 ^ (w - 1)) (2 ^ w)). lia.
Qed.

(** reading a signed value back from its unsigned representation *)
Lemma swrap_wrap w x : 0 < w -> - 2 ^ (w - 1) <= x < 2 ^ (w - 1) -> swrap w (wrap w x) = x.
Proof.
  intros Hw H. unfold swrap, wrap.
  rewrite Zplus_mod_idemp_l. fold (swrap w x). by apply swrap_small.
Qed.

(** ** Lemmas on byte sequences *)

Lemma length_le_bytes n x : length (le_bytes n x) = n.
Proof. revert x. induction n; intros; simpl; auto. Qed.

Lemma le_bytes_bytes n x : Forall is_byte (le_bytes n x).
Proof.
  revert x. induction n; intros x; simpl; constructor; auto.
  unfold is_byte. apply Z.mod_pos_bound. lia.
Qed.

Lemma le_value_bytes n x : le_value (le_bytes n x) = x mod 2 ^ (8 * Z.of_nat n).
Proof.
  revert x. induction n; intros x; simpl le_bytes; simpl le_value.
  - rewrite Z.mul_0_r, Z.pow_0_r, Z.mod_1_r. done.
  - rewrite IHn.
    replace (8 * Z.of_nat (S n)) with (8 + 8 * Z.of_nat n) by lia.
    rewrite Z.pow_add_r by lia. change (2 ^ 8) with 256.
    rewrite Z.rem_mul_r by lia. done.
Qed.

Lemma le_value_range l : Forall is_byte l -> 0 <= le_value l < 2 ^ (8 * Z.of_nat (length l)).
Proof.
  induction 1 as [|b l Hb Hl IH]; simpl le_value; simpl length.
  - change (8 * Z.of_nat 0) with 0. lia.
  - replace (8 * Z.of_nat (S (length l))) with (8 + 8 * Z.of_nat (length l)) by lia.
    rewrite Z.pow_add_r by lia. change (2 ^ 8) with 256.
    unfold is_byte in Hb. lia.
Qed.

Lemma le_bytes_value l : Forall is_byte l -> le_bytes (length l) (le_value l) = l.
Proof.
  induction 1 as [|b l Hb Hl IH]; simpl; [done|]. unfold is_byte in Hb.
  f_equal.
  - rewrite Z.mul_comm, Z_mod_plus_full. apply Z.mod_small. lia.
  - rewrite Z.mul_comm, Z.div_add by lia. rewrite (Z.div_small b) by lia. done.
Qed.

Lemma length_splice {A} off (new l : list A) :
  (off + length new <= length l)%nat -> length (splice off new l) = length l.
Proof. intros H. unfold splice. rewrite !length_app, length_take, length_drop. lia. Qed.

Lemma length_slice {A} off n (l : list A) :
  (off + n <= length l)%nat -> length (slice off n l) = n.
Proof. intros H. unfold slice. rewrite length_take, length_drop. lia. Qed.

Lemma slice_splice_eq {A} off (new l : list A) :
  (off + length new <= length l)%nat -> slice off (length new) (splice off new l) = new.
Proof.
  intros H. unfold slice, splice.
  rewrite drop_app_length' by (rewrite length_take; lia).
  by rewrite take_app_length.
Qed.

Lemma lookup_slice {A} off n (l : list A) i :
  (i < n)%nat -> slice off n l !! i = l !! (off + i)%nat.
Proof. intros H. unfold slice. by rewrite lookup_take_lt, lookup_drop by done. Qed.

Lemma lookup_splice_ne {A} off (new l : list A) i :
  (off + length new <= length l)%nat ->
  (i < off \/ off + length new <= i)%nat ->
  splice off new l !! i = l !! i.
Proof.
  intros Hb Hi. unfold splice. destruct Hi as [Hi|Hi].
  - rewrite lookup_app_l by (rewrite length_take; lia).
    by rewrite lookup_take_lt by lia.
  - rewrite lookup_app_r by (rewrite length_take; lia).
    rewrite length_take, Nat.min_l by lia.
    rewrite lookup_app_r by lia. rewrite lookup_drop. f_equal. lia.
Qed.

Lemma lookup_splice_in {A} off (new l : list A) i :
  (off + length new <= length l)%nat ->
  (off <= i < off + length new)%nat ->
  splice off new l !! i = new !! (i - off)%nat.
Proof.
  intros Hb Hi. unfold splice.
  rewrite lookup_app_r by (rewrite length_take; lia).
  rewrite length_take, Nat.min_l by lia.
  by rewrite lookup_app_l by lia.
Qed.

Lemma splice_nil {A} off (l : list A) : splice off [] l = l.
Proof. unfold splice. simpl. rewrite Nat.add_0_r. apply take_drop. Qed.

(** two adjacent pieces *)
Lemma splice_app {A} off (a b l : list A) :
  (off + length a + length b <= length l)%nat ->
  splice (off + length a) b (splice off a l) = splice off (a ++ b) l.
Proof.
  intros H. unfold splice. rewrite length_app.
  rewrite (app_assoc (take off l)), take_app_length' by (rewrite length_app, length_take; lia).
  rewrite drop_app_ge by (rewrite length_app, length_take; lia).
  rewrite length_app, length_take, drop_drop, <- !app_assoc. do 4 f_equal. lia.
Qed.

Lemma slice_app {A} k m m' (l : list A) : slice k m l ++ slice (k + m) m' l = slice k (m + m') l.
Proof. unfold slice. rewrite <- drop_drop. apply take_take_drop. Qed.

Lemma slice_slice {A} k m i n (l : list A) :
  (i + n <= m)%nat -> slice i n (slice k m l) = slice (k + i) n l.
Proof.
  intros H. apply list_eq. intros j. destruct (decide (j < n)%nat) as [Hj|Hj].
  - rewrite !lookup_slice by lia. f_equal. lia.
  - unfold slice. by rewrite !lookup_take_ge by lia.
Qed.

Lemma slice_splice_ne {A} off (new l : list A) off' n :
  (off + length new <= length l)%nat ->
  (off' + n <= off \/ off + length new <= off')%nat ->
  slice off' n (splice off new l) = slice off' n l.
Proof.
  intros Hb Hd. apply list_eq. intros i.
  destruct (decide (i < n)%nat) as [Hi|Hi].
  - rewrite !lookup_slice by done. apply lookup_splice_ne; lia.
  - unfold slice. rewrite !lookup_take_ge by lia. done.
Qed.

Lemma splice_Forall {A} (P : A -> Prop) off (new l : list A) :
  Forall P new -> Forall P l -> Forall P (splice off new l).
Proof.
  intros Hn Hl. unfold splice.
  apply Forall_app; split; [by apply Forall_take|].
  apply Forall_app; split; [done|by apply Forall_drop].
Qed.

Lemma slice_Forall {A} (P : A -> Prop) off n (l : list A) :
  Forall P l -> Forall P (slice off n l).
Proof. intros Hl. unfold slice. by apply Forall_take, Forall_drop. Qed.

#[export] Hint Rewrite length_le_bytes @length_take @length_drop @length_app
  @length_insert @length_replicate : txlen.
#[export] Hint Resolve le_bytes_bytes splice_Forall slice_Forall : txv6.

(** ** Lemmas on prefixes *)

Lemma elem_of_take_in {A} (x : A) k l : x ∈ take k l -> x ∈ l.
Proof.
  intros (i & Hi)%list_elem_of_lookup. apply lookup_take_Some in Hi as [Hi _].
  by eapply list_elem_of_lookup_2.
Qed.

Lemma NoDup_take_lookup {A} (l : list A) k x : NoDup l -> l !! k = Some x -> x ∉ take k l.
Proof.
  intros Hd Hk (i & Hi)%list_elem_of_lookup. apply lookup_take_Some in Hi as [Hi Hlt].
  rewrite (NoDup_lookup _ _ _ _ Hd Hi Hk) in Hlt. lia.
Qed.

(** ** Lemmas on sorted lists *)

Lemma sorted_lookup {A} (R : A -> A -> Prop) l i j a b :
  StronglySorted R l -> l !! i = Some a -> l !! j = Some b -> (i < j)%nat -> R a b.
Proof.
  intros Hs. revert i j. induction Hs as [|x l Hs IH Hx]; intros i j Ha Hb Hij; [done|].
  destruct j as [|j]; [lia|]. simpl in Hb. destruct i as [|i]; simpl in Ha.
  - injection Ha as <-. eapply Forall_lookup_1; [exact Hx|done].
  - apply (IH i j); [done|done|lia].
Qed.
