(* ===== verification/Monad.v ===== *)
(** * The effect monad of kernel code

    A kernel function is a function from a state to a result.  Besides
    returning, C code of this kernel can call [panic] (which never returns),
    give up the CPU in [sleep] until another thread calls [wakeup] on its
    channel, leave through [klongjmp], or do something the C language gives no
    meaning to (dereference a null or dangling pointer); each is a
    constructor of [res].  [Block ch s k] is a thread that has given up the
    CPU in state [s]: the scheduler later resumes it by [k] in the state the
    other threads have left.  [wp m s Q] is total correctness: [m] started in
    [s] returns without blocking, and [Q] holds of the returned value and
    state. *)

From S2P Require Import Prelude.
From stdpp Require Import base numbers list gmap strings.
From Stdlib Require Import ZArith Lia.

Open Scope Z_scope.

(** ** Identities of locks, channels and transactional objects *)

(** a transactional object header: an entry of [itable.inode] or of
    [bcache.buf], by its index *)
Inductive obj := HInode (i : nat) | HBuf (i : nat).

#[export] Instance obj_eq_dec : EqDecision obj.
Proof. solve_decision. Defined.

(** the spinlocks of the kernel; [Lsleep o] is the spinlock inside the
    sleep-lock of [o], [Lxobj o] the one inside its [tx_data] *)
Inductive lockid :=
  | Lkmem | Lbcache | Llog | Litable | Lftable | Lpid | Lwait | Lticks
  | Lproc (i : nat) | Lsleep (o : obj) | Lxobj (o : obj) | Lpipe (a : Z)
  | Lcons | Lvdisk | Luart | Lpr.

#[export] Instance lockid_eq_dec : EqDecision lockid.
Proof. solve_decision. Defined.

(** the wait channels passed to [sleep] and [wakeup]; [ChNone] marks a thread
    that has left the CPU without waiting for anything *)
Inductive wchan :=
  | ChLog | ChSleep (o : obj) | ChProc (i : nat) | ChTicks
  | ChPipeRead (a : Z) | ChPipeWrite (a : Z) | ChCons | ChUart
  | ChBuf (i : nat) | ChDiskFree
  | ChNone.

#[export] Instance wchan_eq_dec : EqDecision wchan.
Proof. solve_decision. Defined.

(** ** Results *)

Inductive res (S A : Type) :=
  | Ok (a : A) (s : S)
  | Panic (msg : string)
  | Block (ch : wchan) (s : S) (k : S -> res S A)
  | Longjmp (s : S)
  | Stuck.
Arguments Ok {S A} a s.
Arguments Panic {S A} msg.
Arguments Block {S A} ch s k.
Arguments Longjmp {S A} s.
Arguments Stuck {S A}.

Definition ST (S A : Type) : Type := S -> res S A.

#[export] Instance ST_ret S : MRet (ST S) := fun A a s => Ok a s.

Fixpoint res_bind {S A B} (f : A -> ST S B) (r : res S A) : res S B :=
  match r with
  | Ok a s => f a s
  | Panic msg => Panic msg
  | Block ch s k => Block ch s (fun s' => res_bind f (k s'))
  | Longjmp s => Longjmp s
  | Stuck => Stuck
  end.

#[export] Instance ST_bind S : MBind (ST S) := fun A B f m s => res_bind f (m s).

Section Ops.
Context {S : Type}.

Definition gets {A} (f : S -> A) : ST S A := fun s => Ok (f s) s.

Definition modify (f : S -> S) : ST S unit := fun s => Ok tt (f s).

Definition panic {A} (msg : string) : ST S A := fun _ => Panic msg.

Definition stuck {A} : ST S A := fun _ => Stuck.

(** [klongjmp] to the frame saved by [ksetjmp] *)
Definition klongjmp {A} : ST S A := fun s => Longjmp s.

(** dereference: [None] is a null or dangling pointer *)
Definition deref {A} (f : S -> option A) : ST S A := fun s =>
  match f s with Some a => Ok a s | None => Stuck end.

Definition when (b : bool) (m : ST S unit) : ST S unit := if b then m else mret tt.

(** [for (x in l) f x] *)
Fixpoint for_each {X} (l : list X) (f : X -> ST S unit) : ST S unit :=
  match l with
  | [] => mret tt
  | x :: l => f x;; for_each l f
  end.

(** [for (x in l)] whose body may leave the loop with a value *)
Fixpoint for_find {X R} (l : list X) (f : X -> ST S (option R)) : ST S (option R) :=
  match l with
  | [] => mret None
  | x :: l => r ← f x; match r with Some v => mret (Some v) | None => for_find l f end
  end.

(** a [while] loop: the body gives the next loop state or the result *)
Fixpoint loop {X R} (fuel : nat) (body : X -> ST S (X + R)) (x : X) : ST S R :=
  match fuel with
  | O => stuck
  | Datatypes.S fuel =>
      r ← body x; match r with inl x' => loop fuel body x' | inr v => mret v end
  end.

Definition wp {A} (m : ST S A) (s : S) (Q : A -> S -> Prop) : Prop :=
  match m s with Ok a s' => Q a s' | _ => False end.

End Ops.

(** ** Rules *)

Section Rules.
Context {S : Type}.

Lemma bind_ok {A B} (m : ST S A) (k : A -> ST S B) s a s' :
  m s = Ok a s' -> (m ≫= k) s = k a s'.
Proof. intros H. unfold mbind, ST_bind. by rewrite H. Qed.

Lemma bind_block {A B} (m : ST S A) (f : A -> ST S B) s ch s' k :
  m s = Block ch s' k -> (m ≫= f) s = Block ch s' (fun s'' => res_bind f (k s'')).
Proof. intros H. unfold mbind, ST_bind. by rewrite H. Qed.

Lemma bind_inv {A B} (m : ST S A) (k : A -> ST S B) s b s'' :
  (m ≫= k) s = Ok b s'' -> exists a s', m s = Ok a s' /\ k a s' = Ok b s''.
Proof.
  unfold mbind, ST_bind. destruct (m s); try done. simpl. eauto.
Qed.

Lemma wp_bind {A B} (m : ST S A) (k : A -> ST S B) s Q :
  wp m s (fun a s' => wp (k a) s' Q) -> wp (m ≫= k) s Q.
Proof. unfold wp, mbind, ST_bind. by destruct (m s). Qed.

Lemma wp_bind_inv {A B} (m : ST S A) (k : A -> ST S B) s Q :
  wp (m ≫= k) s Q -> wp m s (fun a s' => wp (k a) s' Q).
Proof. unfold wp, mbind, ST_bind. by destruct (m s). Qed.

Lemma wp_bind_eq {A B} (m m' : ST S A) (k : A -> ST S B) s Q :
  m s = m' s -> wp (m' ≫= k) s Q -> wp (m ≫= k) s Q.
Proof. unfold wp, mbind, ST_bind. by intros ->. Qed.

Lemma wp_mono {A} (m : ST S A) s (Q Q' : A -> S -> Prop) :
  wp m s Q -> (forall a s', Q a s' -> Q' a s') -> wp m s Q'.
Proof. unfold wp. destruct (m s); auto. Qed.

Lemma wp_ok {A} (m : ST S A) s Q :
  wp m s Q <-> exists a s', m s = Ok a s' /\ Q a s'.
Proof.
  unfold wp. split.
  - destruct (m s) eqn:E; try done. eauto.
  - intros (a & s' & -> & HQ). done.
Qed.

Lemma wp_ret {A} (a : A) s (Q : A -> S -> Prop) : Q a s -> wp (mret a) s Q.
Proof. done. Qed.

Lemma wp_gets {A} (f : S -> A) s (Q : A -> S -> Prop) : Q (f s) s -> wp (gets f) s Q.
Proof. done. Qed.

Lemma wp_modify (f : S -> S) s (Q : unit -> S -> Prop) : Q tt (f s) -> wp (modify f) s Q.
Proof. done. Qed.

Lemma wp_deref {A} (f : S -> option A) s a (Q : A -> S -> Prop) :
  f s = Some a -> Q a s -> wp (deref f) s Q.
Proof. unfold wp, deref. by intros ->. Qed.

Lemma wp_for_each {X} (l : list X) (f : X -> ST S unit) (I : list X -> S -> Prop) s Q :
  I [] s ->
  (forall done x todo s, l = done ++ x :: todo -> I done s ->
     wp (f x) s (fun _ s' => I (done ++ [x]) s')) ->
  (forall s', I l s' -> Q tt s') ->
  wp (for_each l f) s Q.
Proof.
  intros H0 Hstep Hend.
  assert (forall todo done s, l = done ++ todo -> I done s -> wp (for_each todo f) s Q) as H.
  { clear H0 s. induction todo as [|x todo IH]; intros dn s Hl HI; simpl.
    - apply wp_ret, Hend. rewrite app_nil_r in Hl. by subst.
    - apply wp_bind. eapply wp_mono; [by eapply Hstep|].
      intros [] s' HI'. apply (IH (dn ++ [x])); [|done].
      by rewrite <-app_assoc. }
  by apply (H l []).
Qed.

(** a search whose body reads the state without changing it *)
Fixpoint find_map {X R} (g : X -> option R) (l : list X) : option R :=
  match l with
  | [] => None
  | x :: l => match g x with Some v => Some v | None => find_map g l end
  end.

Lemma for_find_pure {X R} (l : list X) (f : X -> ST S (option R)) (g : X -> option R) s :
  (forall x, x ∈ l -> f x s = Ok (g x) s) -> for_find l f s = Ok (find_map g l) s.
Proof.
  induction l as [|x l IH]; intros H; simpl; [done|].
  erewrite bind_ok by (apply H; by left). destruct (g x); [done|]. apply IH. intros y Hy. apply H. by right.
Qed.

(** the C loop [for(i = 0; i < n; i++)] *)
Lemma wp_for_range (n : nat) (f : Z -> ST S unit) (I : nat -> S -> Prop) s Q :
  I 0%nat s ->
  (forall k s, (k < n)%nat -> I k s -> wp (f (Z.of_nat k)) s (fun _ s' => I (Datatypes.S k) s')) ->
  (forall s', I n s' -> Q tt s') ->
  wp (for_each (seqZ 0 (Z.of_nat n)) f) s Q.
Proof.
  intros H0 Hstep Hend. apply (wp_for_each _ _ (fun dn => I (length dn))); [done| |].
  - intros dn x todo s0 Hl HI.
    assert (seqZ 0 (Z.of_nat n) !! length dn = Some x) as Hx.
    { rewrite Hl, lookup_app_r, Nat.sub_diag by lia. done. }
    apply lookup_seqZ in Hx as [-> Hlt]. rewrite length_app, Nat.add_1_r.
    apply Hstep; [lia|done].
  - intros s'. rewrite length_seqZ, Nat2Z.id. apply Hend.
Qed.

(** a loop that stops at the first success *)
Lemma wp_for_find {X R} (l : list X) (f : X -> ST S (option R)) (I : list X -> S -> Prop) s Q :
  I [] s ->
  (forall done x todo s, l = done ++ x :: todo -> I done s ->
     wp (f x) s (fun r s' => match r with Some v => Q (Some v) s' | None => I (done ++ [x]) s' end)) ->
  (forall s', I l s' -> Q None s') ->
  wp (for_find l f) s Q.
Proof.
  intros H0 Hstep Hend.
  assert (forall todo done s, l = done ++ todo -> I done s -> wp (for_find todo f) s Q) as H.
  { clear H0 s. induction todo as [|x todo IH]; intros dn s Hl HI; simpl.
    - apply wp_ret, Hend. rewrite app_nil_r in Hl. by subst.
    - apply wp_bind. eapply wp_mono; [by eapply Hstep|]. intros [v|] s' HQ; [by apply wp_ret|].
      apply (IH (dn ++ [x])); [by rewrite <- app_assoc|done]. }
  by apply (H l []).
Qed.

Lemma wp_for_find_range {R} (n : nat) (f : Z -> ST S (option R)) (I : nat -> S -> Prop) s Q :
  I 0%nat s ->
  (forall k s, (k < n)%nat -> I k s ->
     wp (f (Z.of_nat k)) s (fun r s' => match r with Some v => Q (Some v) s' | None => I (Datatypes.S k) s' end)) ->
  (forall s', I n s' -> Q None s') ->
  wp (for_find (seqZ 0 (Z.of_nat n)) f) s Q.
Proof.
  intros H0 Hstep Hend. apply (wp_for_find _ _ (fun dn => I (length dn))); [done| |].
  - intros dn x todo s0 Hl HI.
    assert (seqZ 0 (Z.of_nat n) !! length dn = Some x) as Hx.
    { rewrite Hl, lookup_app_r, Nat.sub_diag by lia. done. }
    apply lookup_seqZ in Hx as [-> Hlt]. rewrite length_app, Nat.add_1_r.
    apply Hstep; [lia|done].
  - intros s'. rewrite length_seqZ, Nat2Z.id. apply Hend.
Qed.

Lemma loop_next {X R} n (body : X -> ST S (X + R)) x x' s s' :
  body x s = Ok (inl x') s' -> loop (Datatypes.S n) body x s = loop n body x' s'.
Proof. intros H. cbn [loop]. by erewrite bind_ok by exact H. Qed.

Lemma loop_done {X R} n (body : X -> ST S (X + R)) x v s s' :
  body x s = Ok (inr v) s' -> loop (Datatypes.S n) body x s = Ok v s'.
Proof. intros H. cbn [loop]. by erewrite bind_ok by exact H. Qed.

(** a loop whose body decreases a measure returns *)
Lemma wp_loop {X R} (body : X -> ST S (X + R)) (m : X -> nat) (I : X -> S -> Prop)
    fuel x s Q :
  I x s -> (m x < fuel)%nat ->
  (forall x s, I x s ->
     wp (body x) s (fun r s' => match r with
       | inl x' => I x' s' /\ (m x' < m x)%nat
       | inr v => Q v s' end)) ->
  wp (loop fuel body x) s Q.
Proof.
  revert x s. induction fuel as [|fuel IH]; intros x s HI Hm Hstep; [lia|].
  simpl. apply wp_bind. eapply wp_mono; [by apply Hstep|].
  intros [x'|v] s' H; [|by apply wp_ret]. destruct H as [H H'].
  apply IH; [done|lia|done].
Qed.

End Rules.

(** symbolic execution of the primitive operations *)
Ltac wp_prim1 :=
  lazymatch goal with
  | |- wp (mbind _ _) _ _ => apply wp_bind
  | |- wp (mret _) _ _ => apply wp_ret
  | |- wp (gets _) _ _ => apply wp_gets
  | |- wp (modify _) _ _ => apply wp_modify
  | |- wp (when true _) _ _ => unfold when
  | |- wp (when false _) _ _ => unfold when
  end.

Ltac wp_prim := repeat wp_prim1.
