(* ===== verification/CString.v ===== *)
(** * Memory and string routines ([string.c])

    Characters are bytes as [Z] ([char] is unsigned on RISC-V).  A pointer to
    characters a routine only reads is the list of the bytes from it on;
    reading past the end of the list gives a nul, so a C string is a list with
    or without its terminator.  The routines that write give the new contents
    of the memory they write to; [memmove], whose regions may overlap, works
    on one memory and two offsets. *)

From S2P Require Import Prelude Monad.
From stdpp Require Import base numbers list strings.
From Stdlib Require Import ZArith Lia.

Open Scope Z_scope.

(** [*p] *)
Definition ch (p : list Z) : Z := match p with c :: _ => c | [] => 0 end.

Definition memset (dst : list Z) (c n : Z) : list Z :=
  foldl (fun m i => <[i := u8 c]> m) dst (seq 0 (Z.to_nat n)).

Fixpoint memcmp (s1 s2 : list Z) (n : nat) : Z :=
  match n with
  | O => 0
  | S n =>
      if negb (ch s1 =? ch s2) then ch s1 - ch s2
      else memcmp (tail s1) (tail s2) n
  end.

(** the two loops of [memmove] *)
Fixpoint copy_up (m : list Z) (d s n : nat) : list Z :=
  match n with
  | O => m
  | S n => copy_up (<[d := nth s m 0]> m) (S d) (S s) n
  end.

Fixpoint copy_down (m : list Z) (d s n : nat) : list Z :=
  match n with
  | O => m
  | S n => copy_down (<[(d + n)%nat := nth (s + n) m 0]> m) d s n
  end.

Definition memmove (m : list Z) (dst src n : nat) : list Z :=
  if (n =? 0)%nat then m
  else if ((src <? dst) && (dst <? src + n))%nat then copy_down m dst src n
  else copy_up m dst src n.

Definition memcpy (m : list Z) (dst src n : nat) : list Z := memmove m dst src n.

Fixpoint strncmp (p q : list Z) (n : nat) : Z :=
  match n with
  | O => 0
  | S n =>
      if negb (ch p =? 0) && (ch p =? ch q) then strncmp (tail p) (tail q) n
      else ch p - ch q
  end.

(** the bytes [strncpy(s, t, n)] stores from [s] on *)
Fixpoint strncpy (t : list Z) (n : nat) : list Z :=
  match n with
  | O => []
  | S n => ch t :: (if ch t =? 0 then replicate n 0 else strncpy (tail t) n)
  end.

(** the bytes [safestrcpy(s, t, n)] stores from [s] on; after a nul it stores
    one more *)
Fixpoint safestrcpy (t : list Z) (n : nat) : list Z :=
  match n with
  | O => []
  | S O => [0]
  | S n => ch t :: (if ch t =? 0 then [0] else safestrcpy (tail t) n)
  end.

Fixpoint strlen (s : list Z) : Z :=
  match s with
  | [] => 0
  | c :: s => if c =? 0 then 0 else strlen s + 1
  end.

(** a string literal *)
Definition chars (s : string) : list Z :=
  map (fun a => Z.of_nat (Ascii.nat_of_ascii a)) (String.list_ascii_of_string s).

(** the characters of a C string: those before the first nul *)
Fixpoint cstr (s : list Z) : list Z :=
  match s with
  | [] => []
  | c :: s => if c =? 0 then [] else c :: cstr s
  end.

(** ** memmove *)

Lemma lookup_copy_up m d s n i :
  (d <= s \/ s + n <= d)%nat -> (d + n <= length m)%nat -> (s + n <= length m)%nat ->
  copy_up m d s n !! i = (if decide (d <= i < d + n)%nat then m !! (s + (i - d))%nat else m !! i).
Proof.
  revert m d s. induction n as [|n IH]; intros m d s Hov Hd Hs; simpl.
  { case_decide; [lia|done]. }
  assert (exists v, m !! s = Some v) as [v Hv] by (apply lookup_lt_is_Some; lia).
  rewrite (nth_lookup_Some _ _ _ _ Hv), IH; rewrite ?length_insert; try lia.
  repeat case_decide; try lia.
  - rewrite list_lookup_insert_ne by lia. f_equal. lia.
  - assert (i = d) as -> by lia. rewrite list_lookup_insert_eq, Nat.sub_diag, Nat.add_0_r by lia. done.
  - by rewrite list_lookup_insert_ne by lia.
Qed.

Lemma lookup_copy_down m d s n i :
  (s <= d)%nat -> (d + n <= length m)%nat ->
  copy_down m d s n !! i = (if decide (d <= i < d + n)%nat then m !! (s + (i - d))%nat else m !! i).
Proof.
  revert m. induction n as [|n IH]; intros m Hov Hd; simpl.
  { case_decide; [lia|done]. }
  assert (exists v, m !! (s + n)%nat = Some v) as [v Hv] by (apply lookup_lt_is_Some; lia).
  rewrite (nth_lookup_Some _ _ _ _ Hv), IH; rewrite ?length_insert; try lia.
  repeat case_decide; try lia.
  - rewrite list_lookup_insert_ne by lia. done.
  - assert (i = (d + n)%nat) as -> by lia. rewrite list_lookup_insert_eq by lia.
    rewrite <- Hv. f_equal. lia.
  - by rewrite list_lookup_insert_ne by lia.
Qed.

(** [memmove] copies as if through a temporary buffer, whether or not the
    two regions overlap, and changes nothing outside the destination. *)
Theorem memmove_correct m dst src n :
  (dst + n <= length m)%nat -> (src + n <= length m)%nat ->
  memmove m dst src n = splice dst (slice src n m) m.
Proof.
  intros Hd Hs. assert (length (slice src n m) = n) as Hl by (rewrite length_slice; lia).
  apply list_eq. intros i.
  assert (splice dst (slice src n m) m !! i =
    (if decide (dst <= i < dst + n)%nat then m !! (src + (i - dst))%nat else m !! i)) as ->.
  { case_decide as Hi.
    - rewrite lookup_splice_in by lia. rewrite lookup_slice by lia. done.
    - rewrite lookup_splice_ne; [done|lia|lia]. }
  unfold memmove. destruct (n =? 0)%nat eqn:En; [apply Nat.eqb_eq in En; case_decide; [lia|done]|].
  destruct ((src <? dst) && (dst <? src + n))%nat eqn:Eo.
  - apply andb_true_iff in Eo as [E1%Nat.ltb_lt E2%Nat.ltb_lt]. apply lookup_copy_down; lia.
  - apply lookup_copy_up; [|lia|lia]. apply andb_false_iff in Eo as [E%Nat.ltb_ge|E%Nat.ltb_ge]; lia.
Qed.

(** ** Strings *)

Lemma ch_cstr s : ch (cstr s) = ch s.
Proof. destruct s as [|c s]; simpl; [done|]. destruct (c =? 0) eqn:E; zbool; [by subst|done]. Qed.

Lemma cstr_cons s : ch s <> 0 -> cstr s = ch s :: cstr (tail s).
Proof. destruct s as [|c s]; simpl; [done|]. intros H. by rewrite (proj2 (Z.eqb_neq _ _) H). Qed.

Lemma cstr_nil s : ch s = 0 -> cstr s = [].
Proof. destruct s as [|c s]; simpl; [done|]. intros ->. done. Qed.

(** [strncmp] finds equal exactly the strings that agree up to [n] characters *)
Lemma strncmp_eq p q n : strncmp p q n = 0 <-> take n (cstr p) = take n (cstr q).
Proof.
  revert p q. induction n as [|n IH]; intros p q; simpl; [by rewrite !take_0|].
  destruct (ch p =? 0) eqn:Ep; simpl; zbool.
  - rewrite (cstr_nil p Ep). destruct (decide (ch q = 0)) as [Eq|Eq].
    + rewrite (cstr_nil q Eq). split; [done|lia].
    + rewrite (cstr_cons q Eq). simpl. split; [lia|done].
  - rewrite (cstr_cons p Ep). destruct (ch p =? ch q) eqn:E; zbool.
    + rewrite (cstr_cons q) by congruence. rewrite IH. simpl. rewrite E. split; [by intros ->|by intros [= ->]].
    + destruct (decide (ch q = 0)) as [Eq|Eq].
      * rewrite (cstr_nil q Eq). simpl. split; [lia|done].
      * rewrite (cstr_cons q Eq). simpl. split; [lia|by intros [= ?]].
Qed.

Lemma length_strncpy t n : length (strncpy t n) = n.
Proof.
  revert t. induction n as [|n IH]; intros t; simpl; [done|].
  destruct (ch t =? 0); [by rewrite length_replicate|by rewrite IH].
Qed.

Lemma take_strncpy t n : take n (cstr (strncpy t n)) = take n (cstr t).
Proof.
  revert t. induction n as [|n IH]; intros t; simpl; [by rewrite !take_0|].
  destruct (ch t =? 0) eqn:E; zbool.
  - by rewrite (cstr_nil t E).
  - rewrite (cstr_cons t E). simpl. by rewrite IH.
Qed.

Lemma strlen_cstr s : strlen s = Z.of_nat (length (cstr s)).
Proof. induction s as [|c s IH]; simpl; [done|]. destruct (c =? 0); simpl; lia. Qed.
