(* ===== verification/Types.v ===== *)
(** * Constants, C structures and the kernel state

    The constants of [param.h], [fs.h], [riscv.h], [memlayout.h], [tx.h] and
    [fcntl.h], the structures of the kernel as records, and the record [kst]
    of all the memory the modelled code works on.

    - A pointer into an array of structures ([itable.inode], [bcache.buf],
      [ftable.file], [proc]) is the index of the element; the address of an
      inode or a buffer, which the transaction code compares, is [obj_addr].
    - A pointer to a page obtained from [kalloc] is its physical address, a
      [Z] with 0 for NULL; [k_heap] maps it to what was last stored in the
      page ([pobj]).
    - An [int] used only as a flag is a [bool].
    - [bcache.head] is element [NBUF] of [k_bcache].
    - [struct proc] is split in two tables with the same indices: [k_psched]
      holds the fields a [wakeup] or [kill] by another process changes, and
      [k_procs] the rest.
    - [k_held] lists the spinlocks the running CPU holds, the latest first.
    - [k_dwrites] is the history of the block writes the disk has made
      durable, in their order; a crash keeps a prefix of them. *)

From S2P Require Import Prelude Monad.
From stdpp Require Import base numbers list gmap strings.
From Stdlib Require Import ZArith Lia.

Open Scope Z_scope.

(** ** Constants *)

Definition NPROC : nat := 64.
Definition NOFILE : nat := 16.
Definition NFILE : nat := 100.
Definition NINODE : nat := 50.
Definition NDEV : Z := 10.
Definition ROOTDEV : Z := 1.
Definition MAXARG : nat := 32.
Definition MAXOPBLOCKS : Z := 10.
Definition LOGBLOCKS : Z := MAXOPBLOCKS * 3.
Definition NBUF : nat := 30.
Definition FSSIZE : Z := 2000.
Definition MAXPATH : Z := 128.
Definition USERSTACK : Z := 1.
Definition SBRK_EAGER : Z := 1.
Definition SBRK_LAZY : Z := 2.

Definition ROOTINO : Z := 1.
Definition BSIZE : Z := 1024.
Definition FSMAGIC : Z := 0x10203040.
Definition NDIRECT : Z := 12.
Definition NINDIRECT : Z := BSIZE / 4.
Definition MAXFILE : Z := NDIRECT + NINDIRECT.
Definition sizeof_dinode : Z := 64.
Definition IPB : Z := BSIZE / sizeof_dinode.
Definition BPB : Z := BSIZE * 8.
Definition DIRSIZ : Z := 14.
Definition sizeof_dirent : Z := 16.

Definition T_DIR : Z := 1.
Definition T_FILE : Z := 2.
Definition T_DEVICE : Z := 3.

Definition O_RDONLY : Z := 0.
Definition O_WRONLY : Z := 1.
Definition O_RDWR : Z := 2.
Definition O_CREATE : Z := 0x200.
Definition O_TRUNC : Z := 0x400.

Definition TX_INACTIVE : Z := 0.
Definition TX_ACTIVE : Z := 1.
Definition TX_ABORTED : Z := 2.
Definition TX_COMMITTED : Z := 3.
Definition MAX_WORKSET : Z := 16.
Definition MAX_UNDO : Z := 16.

Definition PGSIZE : Z := 4096.
Definition KERNBASE : Z := 0x80000000.
Definition PHYSTOP : Z := KERNBASE + 128 * 1024 * 1024.

Definition PIPESIZE : Z := 512.

(** ** Addresses fixed by the linker

    [kend] is the symbol [end], the first address after the kernel;
    [itable_addr] and [bcache_addr] are the addresses of [itable.inode[0]]
    and [bcache.buf[0]]; [tramp_addr] is the page of [trampoline.S],
    [etext] the end of the kernel's code; the others are the addresses of
    [forkret], [kernelvec] and [usertrap] and the offsets of [uservec] and
    [userret] in the trampoline page.  The laws are what [kernel.ld] and the C
    object model guarantee. *)

Definition sizeof_inode : Z := 120.
Definition sizeof_buf : Z := 136.

Class Layout := {
  kend : Z;
  itable_addr : Z;
  bcache_addr : Z;
  tramp_addr : Z;
  etext : Z;
  forkret_addr : Z;
  kernelvec_addr : Z;
  usertrap_addr : Z;
  uservec_off : Z;
  userret_off : Z;
  kend_range : KERNBASE < kend < PHYSTOP;
  itable_pos : KERNBASE <= itable_addr;
  bcache_pos : KERNBASE <= bcache_addr;
  tables_disjoint :
    itable_addr + Z.of_nat NINODE * sizeof_inode <= bcache_addr \/
    bcache_addr + Z.of_nat NBUF * sizeof_buf <= itable_addr;
}.

Definition obj_addr `{Layout} (o : obj) : Z :=
  match o with
  | HInode i => itable_addr + Z.of_nat i * sizeof_inode
  | HBuf i => bcache_addr + Z.of_nat i * sizeof_buf
  end.

Definition obj_ok (o : obj) : Prop :=
  match o with HInode i => (i < NINODE)%nat | HBuf i => (i < NBUF)%nat end.

(** ** C structures *)

Record superblock := Mk_superblock {
  sb_magic : Z;
  sb_size : Z;
  sb_nblocks : Z;
  sb_ninodes : Z;
  sb_nlog : Z;
  sb_logstart : Z;
  sb_inodestart : Z;
  sb_bmapstart : Z;
}.

Record sleeplock := Mk_sleeplock {
  sl_locked : bool;
  sl_pid : Z;
}.

Record tx_data := Mk_tx_data {
  xo_writer : Z;
  xo_reader_count : Z;
}.

Record inode_data := Mk_inode_data {
  d_type : Z;
  d_major : Z;
  d_minor : Z;
  d_nlink : Z;
  d_size : Z;
  d_addrs : list Z;
}.

Record inode := Mk_inode {
  i_dev : Z;
  i_inum : Z;
  i_ref : Z;
  i_lock : sleeplock;
  i_valid : bool;
  i_xobj : tx_data;
  i_data : Z;
}.

Record buf := Mk_buf {
  b_valid : bool;
  b_disk : bool;
  b_dev : Z;
  b_blockno : Z;
  b_lock : sleeplock;
  b_refcnt : Z;
  b_prev : nat;
  b_next : nat;
  b_xobj : tx_data;
  b_data : Z;
}.

Record logstate := Mk_logstate {
  l_start : Z;
  l_outstanding : Z;
  l_committing : bool;
  l_dev : Z;
  l_n : Z;
  l_block : list Z;
}.

Inductive fdtype := FD_NONE | FD_PIPE | FD_INODE | FD_DEVICE.

#[export] Instance fdtype_eq_dec : EqDecision fdtype.
Proof. solve_decision. Defined.

Record file := Mk_file {
  f_type : fdtype;
  f_ref : Z;
  f_readable : bool;
  f_writable : bool;
  f_pipe : Z;
  f_ip : option nat;
  f_off : Z;
  f_major : Z;
}.

Record pipe := Mk_pipe {
  pi_data : list Z;
  pi_nread : Z;
  pi_nwrite : Z;
  pi_readopen : bool;
  pi_writeopen : bool;
}.

(** the two static [struct tx_ops] of [tx.c] *)
Inductive tx_ops := inode_ops | buffer_ops.

(** the functions an undo entry can name *)
Inductive undo_fn := undo_iunlock | undo_buf_unlock | undo_b | undo_c.

Record workset_entry := Mk_workset_entry {
  we_header : option obj;
  we_shadow : Z;
  we_read_only : bool;
  we_newly_allocated : bool;
  we_ops : option tx_ops;
}.

Record transaction := Mk_transaction {
  tx_status : Z;
  tx_retry_count : Z;
  tx_start_time : Z;
  tx_saved_tf : Z;
  tx_kjmp_valid : bool;
  tx_workset : list workset_entry;
  tx_workset_size : Z;
  tx_undo_args : list (option obj);
  tx_undo_ops : list (option undo_fn);
  tx_undo_size : Z;
}.

Inductive procstate := UNUSED | USED | SLEEPING | RUNNABLE | RUNNING | ZOMBIE.

#[export] Instance procstate_eq_dec : EqDecision procstate.
Proof. solve_decision. Defined.

Record psched := Mk_psched {
  ps_state : procstate;
  ps_chan : option wchan;
  ps_killed : bool;
  ps_xstate : Z;
}.

Record proc := Mk_proc {
  p_pid : Z;
  p_parent : option nat;
  p_kstack : Z;
  p_sz : Z;
  p_pagetable : Z;
  p_trapframe : Z;
  p_context : list Z;
  p_ofile : list (option nat);
  p_cwd : option nat;
  p_name : list Z;
  p_tx : Z;
}.

(** what a page of physical memory holds: the junk [memset] by [kalloc] and
    [kfree], a link of the free list, one of the structures the kernel keeps
    in pages of their own, a page of PTEs, or user bytes *)
Inductive pobj :=
  | PJunk (c : Z)
  | PRun (next : Z)
  | PInode (d : inode_data)
  | PBuf (bytes : list Z)
  | PTx (t : transaction)
  | PTf (words : list Z)
  | PPipe (p : pipe)
  | PPte (ptes : list Z)
  | PBytes (bytes : list Z).

(** the console input buffer [cons] *)
Record console := Mk_console {
  cs_buf : list Z;
  cs_r : Z;
  cs_w : Z;
  cs_e : Z;
}.

(** the control and status registers [trap.c] uses, and [tp] *)
Record csr := Mk_csr {
  cr_stvec : Z;
  cr_sepc : Z;
  cr_scause : Z;
  cr_sstatus : Z;
  cr_stval : Z;
  cr_satp : Z;
  cr_time : Z;
  cr_stimecmp : Z;
  cr_tp : Z;
}.

(** an address the disk driver gives to the device: a command header
    [disk.ops[i]], the data of a buffer, or a status byte [disk.info[i].status] *)
Inductive vaddr := VNull | VOp (i : nat) | VData (pa : Z) | VStatus (i : nat).

Record vdesc := Mk_vdesc {
  vd_addr : vaddr;
  vd_len : Z;
  vd_flags : Z;
  vd_next : Z;
}.

Record vreq := Mk_vreq {
  vr_type : Z;
  vr_reserved : Z;
  vr_sector : Z;
}.

(** [struct disk] of [virtio_disk.c] with the queues it points to
    ([vk_used_didx] is [disk.used->idx], which the device advances) *)
Record vdisk := Mk_vdisk {
  vk_desc : list vdesc;
  vk_avail_ring : list Z;
  vk_avail_idx : Z;
  vk_used_ring : list Z;
  vk_used_didx : Z;
  vk_free : list bool;
  vk_used_idx : Z;
  vk_info_b : list (option nat);
  vk_status : list Z;
  vk_ops : list vreq;
}.

(** devices: the values the next reads of memory-mapped registers give
    ([v_in]: hardware is free to answer anything) and the register writes made
    so far, in order; the driver variables; [v_first] is the static of
    [forkret] *)
Record devst := Mk_devst {
  v_in : list Z;
  v_out : list (Z * Z);
  v_cons : console;
  v_tx_busy : bool;
  v_panicking : bool;
  v_panicked : bool;
  v_csr : csr;
  v_vdisk : vdisk;
  v_kpgtbl : Z;
  v_first : bool;
}.

Record kst := Kst {
  k_held : list lockid;
  k_freelist : Z;
  k_heap : gmap Z pobj;
  k_disk : gmap Z (list Z);
  k_dwrites : list (Z * list Z);
  k_bcache : list buf;
  k_log : logstate;
  k_sb : superblock;
  k_itable : list inode;
  k_ftable : list file;
  k_procs : list proc;
  k_psched : list psched;
  k_cur : option nat;
  k_initproc : option nat;
  k_nextpid : Z;
  k_ticks : Z;
  k_kbuf : list Z;
  k_dev : devst;
}.

(** ** Field updates *)

Definition set_sl_locked (g : bool -> bool) (s : sleeplock) : sleeplock :=
  Mk_sleeplock (g (sl_locked s)) (sl_pid s).
Definition set_sl_pid (g : Z -> Z) (s : sleeplock) : sleeplock :=
  Mk_sleeplock (sl_locked s) (g (sl_pid s)).

Definition set_xo_writer (g : Z -> Z) (s : tx_data) : tx_data :=
  Mk_tx_data (g (xo_writer s)) (xo_reader_count s).
Definition set_xo_reader_count (g : Z -> Z) (s : tx_data) : tx_data :=
  Mk_tx_data (xo_writer s) (g (xo_reader_count s)).

Definition set_d_type (g : Z -> Z) (s : inode_data) : inode_data :=
  Mk_inode_data (g (d_type s)) (d_major s) (d_minor s) (d_nlink s) (d_size s) (d_addrs s).
Definition set_d_major (g : Z -> Z) (s : inode_data) : inode_data :=
  Mk_inode_data (d_type s) (g (d_major s)) (d_minor s) (d_nlink s) (d_size s) (d_addrs s).
Definition set_d_minor (g : Z -> Z) (s : inode_data) : inode_data :=
  Mk_inode_data (d_type s) (d_major s) (g (d_minor s)) (d_nlink s) (d_size s) (d_addrs s).
Definition set_d_nlink (g : Z -> Z) (s : inode_data) : inode_data :=
  Mk_inode_data (d_type s) (d_major s) (d_minor s) (g (d_nlink s)) (d_size s) (d_addrs s).
Definition set_d_size (g : Z -> Z) (s : inode_data) : inode_data :=
  Mk_inode_data (d_type s) (d_major s) (d_minor s) (d_nlink s) (g (d_size s)) (d_addrs s).
Definition set_d_addrs (g : (list Z) -> (list Z)) (s : inode_data) : inode_data :=
  Mk_inode_data (d_type s) (d_major s) (d_minor s) (d_nlink s) (d_size s) (g (d_addrs s)).

Definition set_i_dev (g : Z -> Z) (s : inode) : inode :=
  Mk_inode (g (i_dev s)) (i_inum s) (i_ref s) (i_lock s) (i_valid s) (i_xobj s) (i_data s).
Definition set_i_inum (g : Z -> Z) (s : inode) : inode :=
  Mk_inode (i_dev s) (g (i_inum s)) (i_ref s) (i_lock s) (i_valid s) (i_xobj s) (i_data s).
Definition set_i_ref (g : Z -> Z) (s : inode) : inode :=
  Mk_inode (i_dev s) (i_inum s) (g (i_ref s)) (i_lock s) (i_valid s) (i_xobj s) (i_data s).
Definition set_i_lock (g : sleeplock -> sleeplock) (s : inode) : inode :=
  Mk_inode (i_dev s) (i_inum s) (i_ref s) (g (i_lock s)) (i_valid s) (i_xobj s) (i_data s).
Definition set_i_valid (g : bool -> bool) (s : inode) : inode :=
  Mk_inode (i_dev s) (i_inum s) (i_ref s) (i_lock s) (g (i_valid s)) (i_xobj s) (i_data s).
Definition set_i_xobj (g : tx_data -> tx_data) (s : inode) : inode :=
  Mk_inode (i_dev s) (i_inum s) (i_ref s) (i_lock s) (i_valid s) (g (i_xobj s)) (i_data s).
Definition set_i_data (g : Z -> Z) (s : inode) : inode :=
  Mk_inode (i_dev s) (i_inum s) (i_ref s) (i_lock s) (i_valid s) (i_xobj s) (g (i_data s)).

Definition set_b_valid (g : bool -> bool) (s : buf) : buf :=
  Mk_buf (g (b_valid s)) (b_disk s) (b_dev s) (b_blockno s) (b_lock s) (b_refcnt s) (b_prev s) 
(b_next s) (b_xobj s) (b_data s).
Definition set_b_disk (g : bool -> bool) (s : buf) : buf :=
  Mk_buf (b_valid s) (g (b_disk s)) (b_dev s) (b_blockno s) (b_lock s) (b_refcnt s) (b_prev s) 
(b_next s) (b_xobj s) (b_data s).
Definition set_b_dev (g : Z -> Z) (s : buf) : buf :=
  Mk_buf (b_valid s) (b_disk s) (g (b_dev s)) (b_blockno s) (b_lock s) (b_refcnt s) (b_prev s) 
(b_next s) (b_xobj s) (b_data s).
Definition set_b_blockno (g : Z -> Z) (s : buf) : buf :=
  Mk_buf (b_valid s) (b_disk s) (b_dev s) (g (b_blockno s)) (b_lock s) (b_refcnt s) (b_prev s) 
(b_next s) (b_xobj s) (b_data s).
Definition set_b_lock (g : sleeplock -> sleeplock) (s : buf) : buf :=
  Mk_buf (b_valid s) (b_disk s) (b_dev s) (b_blockno s) (g (b_lock s)) (b_refcnt s) (b_prev s) 
(b_next s) (b_xobj s) (b_data s).
Definition set_b_refcnt (g : Z -> Z) (s : buf) : buf :=
  Mk_buf (b_valid s) (b_disk s) (b_dev s) (b_blockno s) (b_lock s) (g (b_refcnt s)) (b_prev s) 
(b_next s) (b_xobj s) (b_data s).
Definition set_b_prev (g : nat -> nat) (s : buf) : buf :=
  Mk_buf (b_valid s) (b_disk s) (b_dev s) (b_blockno s) (b_lock s) (b_refcnt s) (g (b_prev s)) 
(b_next s) (b_xobj s) (b_data s).
Definition set_b_next (g : nat -> nat) (s : buf) : buf :=
  Mk_buf (b_valid s) (b_disk s) (b_dev s) (b_blockno s) (b_lock s) (b_refcnt s) (b_prev s) (g 
(b_next s)) (b_xobj s) (b_data s).
Definition set_b_xobj (g : tx_data -> tx_data) (s : buf) : buf :=
  Mk_buf (b_valid s) (b_disk s) (b_dev s) (b_blockno s) (b_lock s) (b_refcnt s) (b_prev s) (b_next 
s) (g (b_xobj s)) (b_data s).
Definition set_b_data (g : Z -> Z) (s : buf) : buf :=
  Mk_buf (b_valid s) (b_disk s) (b_dev s) (b_blockno s) (b_lock s) (b_refcnt s) (b_prev s) (b_next 
s) (b_xobj s) (g (b_data s)).

Definition set_l_start (g : Z -> Z) (s : logstate) : logstate :=
  Mk_logstate (g (l_start s)) (l_outstanding s) (l_committing s) (l_dev s) (l_n s) (l_block s).
Definition set_l_outstanding (g : Z -> Z) (s : logstate) : logstate :=
  Mk_logstate (l_start s) (g (l_outstanding s)) (l_committing s) (l_dev s) (l_n s) (l_block s).
Definition set_l_committing (g : bool -> bool) (s : logstate) : logstate :=
  Mk_logstate (l_start s) (l_outstanding s) (g (l_committing s)) (l_dev s) (l_n s) (l_block s).
Definition set_l_dev (g : Z -> Z) (s : logstate) : logstate :=
  Mk_logstate (l_start s) (l_outstanding s) (l_committing s) (g (l_dev s)) (l_n s) (l_block s).
Definition set_l_n (g : Z -> Z) (s : logstate) : logstate :=
  Mk_logstate (l_start s) (l_outstanding s) (l_committing s) (l_dev s) (g (l_n s)) (l_block s).
Definition set_l_block (g : (list Z) -> (list Z)) (s : logstate) : logstate :=
  Mk_logstate (l_start s) (l_outstanding s) (l_committing s) (l_dev s) (l_n s) (g (l_block s)).

Definition set_f_type (g : fdtype -> fdtype) (s : file) : file :=
  Mk_file (g (f_type s)) (f_ref s) (f_readable s) (f_writable s) (f_pipe s) (f_ip s) (f_off s) 
(f_major s).
Definition set_f_ref (g : Z -> Z) (s : file) : file :=
  Mk_file (f_type s) (g (f_ref s)) (f_readable s) (f_writable s) (f_pipe s) (f_ip s) (f_off s) 
(f_major s).
Definition set_f_readable (g : bool -> bool) (s : file) : file :=
  Mk_file (f_type s) (f_ref s) (g (f_readable s)) (f_writable s) (f_pipe s) (f_ip s) (f_off s) 
(f_major s).
Definition set_f_writable (g : bool -> bool) (s : file) : file :=
  Mk_file (f_type s) (f_ref s) (f_readable s) (g (f_writable s)) (f_pipe s) (f_ip s) (f_off s) 
(f_major s).
Definition set_f_pipe (g : Z -> Z) (s : file) : file :=
  Mk_file (f_type s) (f_ref s) (f_readable s) (f_writable s) (g (f_pipe s)) (f_ip s) (f_off s) 
(f_major s).
Definition set_f_ip (g : (option nat) -> (option nat)) (s : file) : file :=
  Mk_file (f_type s) (f_ref s) (f_readable s) (f_writable s) (f_pipe s) (g (f_ip s)) (f_off s) 
(f_major s).
Definition set_f_off (g : Z -> Z) (s : file) : file :=
  Mk_file (f_type s) (f_ref s) (f_readable s) (f_writable s) (f_pipe s) (f_ip s) (g (f_off s)) 
(f_major s).
Definition set_f_major (g : Z -> Z) (s : file) : file :=
  Mk_file (f_type s) (f_ref s) (f_readable s) (f_writable s) (f_pipe s) (f_ip s) (f_off s) (g 
(f_major s)).

Definition set_pi_data (g : (list Z) -> (list Z)) (s : pipe) : pipe :=
  Mk_pipe (g (pi_data s)) (pi_nread s) (pi_nwrite s) (pi_readopen s) (pi_writeopen s).
Definition set_pi_nread (g : Z -> Z) (s : pipe) : pipe :=
  Mk_pipe (pi_data s) (g (pi_nread s)) (pi_nwrite s) (pi_readopen s) (pi_writeopen s).
Definition set_pi_nwrite (g : Z -> Z) (s : pipe) : pipe :=
  Mk_pipe (pi_data s) (pi_nread s) (g (pi_nwrite s)) (pi_readopen s) (pi_writeopen s).
Definition set_pi_readopen (g : bool -> bool) (s : pipe) : pipe :=
  Mk_pipe (pi_data s) (pi_nread s) (pi_nwrite s) (g (pi_readopen s)) (pi_writeopen s).
Definition set_pi_writeopen (g : bool -> bool) (s : pipe) : pipe :=
  Mk_pipe (pi_data s) (pi_nread s) (pi_nwrite s) (pi_readopen s) (g (pi_writeopen s)).

Definition set_we_header (g : (option obj) -> (option obj)) (s : workset_entry) : workset_entry :=
  Mk_workset_entry (g (we_header s)) (we_shadow s) (we_read_only s) (we_newly_allocated s) (we_ops 
s).
Definition set_we_shadow (g : Z -> Z) (s : workset_entry) : workset_entry :=
  Mk_workset_entry (we_header s) (g (we_shadow s)) (we_read_only s) (we_newly_allocated s) (we_ops 
s).
Definition set_we_read_only (g : bool -> bool) (s : workset_entry) : workset_entry :=
  Mk_workset_entry (we_header s) (we_shadow s) (g (we_read_only s)) (we_newly_allocated s) (we_ops 
s).
Definition set_we_newly_allocated (g : bool -> bool) (s : workset_entry) : workset_entry :=
  Mk_workset_entry (we_header s) (we_shadow s) (we_read_only s) (g (we_newly_allocated s)) (we_ops 
s).
Definition set_we_ops (g : (option tx_ops) -> (option tx_ops)) (s : workset_entry) : workset_entry 
:=
  Mk_workset_entry (we_header s) (we_shadow s) (we_read_only s) (we_newly_allocated s) (g (we_ops 
s)).

Definition set_tx_status (g : Z -> Z) (s : transaction) : transaction :=
  Mk_transaction (g (tx_status s)) (tx_retry_count s) (tx_start_time s) (tx_saved_tf s) 
(tx_kjmp_valid s) (tx_workset s) (tx_workset_size s) (tx_undo_args s) (tx_undo_ops s) (tx_undo_size 
s).
Definition set_tx_retry_count (g : Z -> Z) (s : transaction) : transaction :=
  Mk_transaction (tx_status s) (g (tx_retry_count s)) (tx_start_time s) (tx_saved_tf s) 
(tx_kjmp_valid s) (tx_workset s) (tx_workset_size s) (tx_undo_args s) (tx_undo_ops s) (tx_undo_size 
s).
Definition set_tx_start_time (g : Z -> Z) (s : transaction) : transaction :=
  Mk_transaction (tx_status s) (tx_retry_count s) (g (tx_start_time s)) (tx_saved_tf s) 
(tx_kjmp_valid s) (tx_workset s) (tx_workset_size s) (tx_undo_args s) (tx_undo_ops s) (tx_undo_size 
s).
Definition set_tx_saved_tf (g : Z -> Z) (s : transaction) : transaction :=
  Mk_transaction (tx_status s) (tx_retry_count s) (tx_start_time s) (g (tx_saved_tf s)) 
(tx_kjmp_valid s) (tx_workset s) (tx_workset_size s) (tx_undo_args s) (tx_undo_ops s) (tx_undo_size 
s).
Definition set_tx_kjmp_valid (g : bool -> bool) (s : transaction) : transaction :=
  Mk_transaction (tx_status s) (tx_retry_count s) (tx_start_time s) (tx_saved_tf s) (g 
(tx_kjmp_valid s)) (tx_workset s) (tx_workset_size s) (tx_undo_args s) (tx_undo_ops s) 
(tx_undo_size s).
Definition set_tx_workset (g : (list workset_entry) -> (list workset_entry)) (s : transaction) : 
transaction :=
  Mk_transaction (tx_status s) (tx_retry_count s) (tx_start_time s) (tx_saved_tf s) (tx_kjmp_valid 
s) (g (tx_workset s)) (tx_workset_size s) (tx_undo_args s) (tx_undo_ops s) (tx_undo_size s).
Definition set_tx_workset_size (g : Z -> Z) (s : transaction) : transaction :=
  Mk_transaction (tx_status s) (tx_retry_count s) (tx_start_time s) (tx_saved_tf s) (tx_kjmp_valid 
s) (tx_workset s) (g (tx_workset_size s)) (tx_undo_args s) (tx_undo_ops s) (tx_undo_size s).
Definition set_tx_undo_args (g : (list (option obj)) -> (list (option obj))) (s : transaction) : 
transaction :=
  Mk_transaction (tx_status s) (tx_retry_count s) (tx_start_time s) (tx_saved_tf s) (tx_kjmp_valid 
s) (tx_workset s) (tx_workset_size s) (g (tx_undo_args s)) (tx_undo_ops s) (tx_undo_size s).
Definition set_tx_undo_ops (g : (list (option undo_fn)) -> (list (option undo_fn))) (s : 
transaction) : transaction :=
  Mk_transaction (tx_status s) (tx_retry_count s) (tx_start_time s) (tx_saved_tf s) (tx_kjmp_valid 
s) (tx_workset s) (tx_workset_size s) (tx_undo_args s) (g (tx_undo_ops s)) (tx_undo_size s).
Definition set_tx_undo_size (g : Z -> Z) (s : transaction) : transaction :=
  Mk_transaction (tx_status s) (tx_retry_count s) (tx_start_time s) (tx_saved_tf s) (tx_kjmp_valid 
s) (tx_workset s) (tx_workset_size s) (tx_undo_args s) (tx_undo_ops s) (g (tx_undo_size s)).

Definition set_ps_state (g : procstate -> procstate) (s : psched) : psched :=
  Mk_psched (g (ps_state s)) (ps_chan s) (ps_killed s) (ps_xstate s).
Definition set_ps_chan (g : (option wchan) -> (option wchan)) (s : psched) : psched :=
  Mk_psched (ps_state s) (g (ps_chan s)) (ps_killed s) (ps_xstate s).
Definition set_ps_killed (g : bool -> bool) (s : psched) : psched :=
  Mk_psched (ps_state s) (ps_chan s) (g (ps_killed s)) (ps_xstate s).
Definition set_ps_xstate (g : Z -> Z) (s : psched) : psched :=
  Mk_psched (ps_state s) (ps_chan s) (ps_killed s) (g (ps_xstate s)).

Definition set_p_pid (g : Z -> Z) (s : proc) : proc :=
  Mk_proc (g (p_pid s)) (p_parent s) (p_kstack s) (p_sz s) (p_pagetable s) (p_trapframe s) 
(p_context s) (p_ofile s) (p_cwd s) (p_name s) (p_tx s).
Definition set_p_parent (g : (option nat) -> (option nat)) (s : proc) : proc :=
  Mk_proc (p_pid s) (g (p_parent s)) (p_kstack s) (p_sz s) (p_pagetable s) (p_trapframe s) 
(p_context s) (p_ofile s) (p_cwd s) (p_name s) (p_tx s).
Definition set_p_kstack (g : Z -> Z) (s : proc) : proc :=
  Mk_proc (p_pid s) (p_parent s) (g (p_kstack s)) (p_sz s) (p_pagetable s) (p_trapframe s) 
(p_context s) (p_ofile s) (p_cwd s) (p_name s) (p_tx s).
Definition set_p_sz (g : Z -> Z) (s : proc) : proc :=
  Mk_proc (p_pid s) (p_parent s) (p_kstack s) (g (p_sz s)) (p_pagetable s) (p_trapframe s) 
(p_context s) (p_ofile s) (p_cwd s) (p_name s) (p_tx s).
Definition set_p_pagetable (g : Z -> Z) (s : proc) : proc :=
  Mk_proc (p_pid s) (p_parent s) (p_kstack s) (p_sz s) (g (p_pagetable s)) (p_trapframe s) 
(p_context s) (p_ofile s) (p_cwd s) (p_name s) (p_tx s).
Definition set_p_trapframe (g : Z -> Z) (s : proc) : proc :=
  Mk_proc (p_pid s) (p_parent s) (p_kstack s) (p_sz s) (p_pagetable s) (g (p_trapframe s)) 
(p_context s) (p_ofile s) (p_cwd s) (p_name s) (p_tx s).
Definition set_p_context (g : (list Z) -> (list Z)) (s : proc) : proc :=
  Mk_proc (p_pid s) (p_parent s) (p_kstack s) (p_sz s) (p_pagetable s) (p_trapframe s) (g 
(p_context s)) (p_ofile s) (p_cwd s) (p_name s) (p_tx s).
Definition set_p_ofile (g : (list (option nat)) -> (list (option nat))) (s : proc) : proc :=
  Mk_proc (p_pid s) (p_parent s) (p_kstack s) (p_sz s) (p_pagetable s) (p_trapframe s) (p_context 
s) (g (p_ofile s)) (p_cwd s) (p_name s) (p_tx s).
Definition set_p_cwd (g : (option nat) -> (option nat)) (s : proc) : proc :=
  Mk_proc (p_pid s) (p_parent s) (p_kstack s) (p_sz s) (p_pagetable s) (p_trapframe s) (p_context 
s) (p_ofile s) (g (p_cwd s)) (p_name s) (p_tx s).
Definition set_p_name (g : (list Z) -> (list Z)) (s : proc) : proc :=
  Mk_proc (p_pid s) (p_parent s) (p_kstack s) (p_sz s) (p_pagetable s) (p_trapframe s) (p_context 
s) (p_ofile s) (p_cwd s) (g (p_name s)) (p_tx s).
Definition set_p_tx (g : Z -> Z) (s : proc) : proc :=
  Mk_proc (p_pid s) (p_parent s) (p_kstack s) (p_sz s) (p_pagetable s) (p_trapframe s) (p_context 
s) (p_ofile s) (p_cwd s) (p_name s) (g (p_tx s)).

Definition set_cs_buf (g : (list Z) -> (list Z)) (s : console) : console :=
  Mk_console (g (cs_buf s)) (cs_r s) (cs_w s) (cs_e s).
Definition set_cs_r (g : Z -> Z) (s : console) : console :=
  Mk_console (cs_buf s) (g (cs_r s)) (cs_w s) (cs_e s).
Definition set_cs_w (g : Z -> Z) (s : console) : console :=
  Mk_console (cs_buf s) (cs_r s) (g (cs_w s)) (cs_e s).
Definition set_cs_e (g : Z -> Z) (s : console) : console :=
  Mk_console (cs_buf s) (cs_r s) (cs_w s) (g (cs_e s)).

Definition set_cr_stvec (g : Z -> Z) (s : csr) : csr :=
  Mk_csr (g (cr_stvec s)) (cr_sepc s) (cr_scause s) (cr_sstatus s) (cr_stval s) (cr_satp s)
    (cr_time s) (cr_stimecmp s) (cr_tp s).
Definition set_cr_sepc (g : Z -> Z) (s : csr) : csr :=
  Mk_csr (cr_stvec s) (g (cr_sepc s)) (cr_scause s) (cr_sstatus s) (cr_stval s) (cr_satp s)
    (cr_time s) (cr_stimecmp s) (cr_tp s).
Definition set_cr_scause (g : Z -> Z) (s : csr) : csr :=
  Mk_csr (cr_stvec s) (cr_sepc s) (g (cr_scause s)) (cr_sstatus s) (cr_stval s) (cr_satp s)
    (cr_time s) (cr_stimecmp s) (cr_tp s).
Definition set_cr_sstatus (g : Z -> Z) (s : csr) : csr :=
  Mk_csr (cr_stvec s) (cr_sepc s) (cr_scause s) (g (cr_sstatus s)) (cr_stval s) (cr_satp s)
    (cr_time s) (cr_stimecmp s) (cr_tp s).
Definition set_cr_stval (g : Z -> Z) (s : csr) : csr :=
  Mk_csr (cr_stvec s) (cr_sepc s) (cr_scause s) (cr_sstatus s) (g (cr_stval s)) (cr_satp s)
    (cr_time s) (cr_stimecmp s) (cr_tp s).
Definition set_cr_satp (g : Z -> Z) (s : csr) : csr :=
  Mk_csr (cr_stvec s) (cr_sepc s) (cr_scause s) (cr_sstatus s) (cr_stval s) (g (cr_satp s))
    (cr_time s) (cr_stimecmp s) (cr_tp s).
Definition set_cr_time (g : Z -> Z) (s : csr) : csr :=
  Mk_csr (cr_stvec s) (cr_sepc s) (cr_scause s) (cr_sstatus s) (cr_stval s) (cr_satp s) (g
    (cr_time s)) (cr_stimecmp s) (cr_tp s).
Definition set_cr_stimecmp (g : Z -> Z) (s : csr) : csr :=
  Mk_csr (cr_stvec s) (cr_sepc s) (cr_scause s) (cr_sstatus s) (cr_stval s) (cr_satp s) (cr_time
    s) (g (cr_stimecmp s)) (cr_tp s).
Definition set_cr_tp (g : Z -> Z) (s : csr) : csr :=
  Mk_csr (cr_stvec s) (cr_sepc s) (cr_scause s) (cr_sstatus s) (cr_stval s) (cr_satp s) (cr_time
    s) (cr_stimecmp s) (g (cr_tp s)).

Definition set_vd_addr (g : vaddr -> vaddr) (s : vdesc) : vdesc :=
  Mk_vdesc (g (vd_addr s)) (vd_len s) (vd_flags s) (vd_next s).
Definition set_vd_len (g : Z -> Z) (s : vdesc) : vdesc :=
  Mk_vdesc (vd_addr s) (g (vd_len s)) (vd_flags s) (vd_next s).
Definition set_vd_flags (g : Z -> Z) (s : vdesc) : vdesc :=
  Mk_vdesc (vd_addr s) (vd_len s) (g (vd_flags s)) (vd_next s).
Definition set_vd_next (g : Z -> Z) (s : vdesc) : vdesc :=
  Mk_vdesc (vd_addr s) (vd_len s) (vd_flags s) (g (vd_next s)).

Definition set_vr_type (g : Z -> Z) (s : vreq) : vreq :=
  Mk_vreq (g (vr_type s)) (vr_reserved s) (vr_sector s).
Definition set_vr_reserved (g : Z -> Z) (s : vreq) : vreq :=
  Mk_vreq (vr_type s) (g (vr_reserved s)) (vr_sector s).
Definition set_vr_sector (g : Z -> Z) (s : vreq) : vreq :=
  Mk_vreq (vr_type s) (vr_reserved s) (g (vr_sector s)).

Definition set_vk_desc (g : (list vdesc) -> (list vdesc)) (s : vdisk) : vdisk :=
  Mk_vdisk (g (vk_desc s)) (vk_avail_ring s) (vk_avail_idx s) (vk_used_ring s) (vk_used_didx s)
    (vk_free s) (vk_used_idx s) (vk_info_b s) (vk_status s) (vk_ops s).
Definition set_vk_avail_ring (g : (list Z) -> (list Z)) (s : vdisk) : vdisk :=
  Mk_vdisk (vk_desc s) (g (vk_avail_ring s)) (vk_avail_idx s) (vk_used_ring s) (vk_used_didx s)
    (vk_free s) (vk_used_idx s) (vk_info_b s) (vk_status s) (vk_ops s).
Definition set_vk_avail_idx (g : Z -> Z) (s : vdisk) : vdisk :=
  Mk_vdisk (vk_desc s) (vk_avail_ring s) (g (vk_avail_idx s)) (vk_used_ring s) (vk_used_didx s)
    (vk_free s) (vk_used_idx s) (vk_info_b s) (vk_status s) (vk_ops s).
Definition set_vk_used_ring (g : (list Z) -> (list Z)) (s : vdisk) : vdisk :=
  Mk_vdisk (vk_desc s) (vk_avail_ring s) (vk_avail_idx s) (g (vk_used_ring s)) (vk_used_didx s)
    (vk_free s) (vk_used_idx s) (vk_info_b s) (vk_status s) (vk_ops s).
Definition set_vk_used_didx (g : Z -> Z) (s : vdisk) : vdisk :=
  Mk_vdisk (vk_desc s) (vk_avail_ring s) (vk_avail_idx s) (vk_used_ring s) (g (vk_used_didx s))
    (vk_free s) (vk_used_idx s) (vk_info_b s) (vk_status s) (vk_ops s).
Definition set_vk_free (g : (list bool) -> (list bool)) (s : vdisk) : vdisk :=
  Mk_vdisk (vk_desc s) (vk_avail_ring s) (vk_avail_idx s) (vk_used_ring s) (vk_used_didx s) (g
    (vk_free s)) (vk_used_idx s) (vk_info_b s) (vk_status s) (vk_ops s).
Definition set_vk_used_idx (g : Z -> Z) (s : vdisk) : vdisk :=
  Mk_vdisk (vk_desc s) (vk_avail_ring s) (vk_avail_idx s) (vk_used_ring s) (vk_used_didx s)
    (vk_free s) (g (vk_used_idx s)) (vk_info_b s) (vk_status s) (vk_ops s).
Definition set_vk_info_b (g : (list (option nat)) -> (list (option nat))) (s : vdisk) : vdisk :=
  Mk_vdisk (vk_desc s) (vk_avail_ring s) (vk_avail_idx s) (vk_used_ring s) (vk_used_didx s)
    (vk_free s) (vk_used_idx s) (g (vk_info_b s)) (vk_status s) (vk_ops s).
Definition set_vk_status (g : (list Z) -> (list Z)) (s : vdisk) : vdisk :=
  Mk_vdisk (vk_desc s) (vk_avail_ring s) (vk_avail_idx s) (vk_used_ring s) (vk_used_didx s)
    (vk_free s) (vk_used_idx s) (vk_info_b s) (g (vk_status s)) (vk_ops s).
Definition set_vk_ops (g : (list vreq) -> (list vreq)) (s : vdisk) : vdisk :=
  Mk_vdisk (vk_desc s) (vk_avail_ring s) (vk_avail_idx s) (vk_used_ring s) (vk_used_didx s)
    (vk_free s) (vk_used_idx s) (vk_info_b s) (vk_status s) (g (vk_ops s)).

Definition set_v_in (g : (list Z) -> (list Z)) (s : devst) : devst :=
  Mk_devst (g (v_in s)) (v_out s) (v_cons s) (v_tx_busy s) (v_panicking s) (v_panicked s) (v_csr
    s) (v_vdisk s) (v_kpgtbl s) (v_first s).
Definition set_v_out (g : (list (Z * Z)) -> (list (Z * Z))) (s : devst) : devst :=
  Mk_devst (v_in s) (g (v_out s)) (v_cons s) (v_tx_busy s) (v_panicking s) (v_panicked s) (v_csr
    s) (v_vdisk s) (v_kpgtbl s) (v_first s).
Definition set_v_cons (g : console -> console) (s : devst) : devst :=
  Mk_devst (v_in s) (v_out s) (g (v_cons s)) (v_tx_busy s) (v_panicking s) (v_panicked s) (v_csr
    s) (v_vdisk s) (v_kpgtbl s) (v_first s).
Definition set_v_tx_busy (g : bool -> bool) (s : devst) : devst :=
  Mk_devst (v_in s) (v_out s) (v_cons s) (g (v_tx_busy s)) (v_panicking s) (v_panicked s) (v_csr
    s) (v_vdisk s) (v_kpgtbl s) (v_first s).
Definition set_v_panicking (g : bool -> bool) (s : devst) : devst :=
  Mk_devst (v_in s) (v_out s) (v_cons s) (v_tx_busy s) (g (v_panicking s)) (v_panicked s) (v_csr
    s) (v_vdisk s) (v_kpgtbl s) (v_first s).
Definition set_v_panicked (g : bool -> bool) (s : devst) : devst :=
  Mk_devst (v_in s) (v_out s) (v_cons s) (v_tx_busy s) (v_panicking s) (g (v_panicked s)) (v_csr
    s) (v_vdisk s) (v_kpgtbl s) (v_first s).
Definition set_v_csr (g : csr -> csr) (s : devst) : devst :=
  Mk_devst (v_in s) (v_out s) (v_cons s) (v_tx_busy s) (v_panicking s) (v_panicked s) (g (v_csr
    s)) (v_vdisk s) (v_kpgtbl s) (v_first s).
Definition set_v_vdisk (g : vdisk -> vdisk) (s : devst) : devst :=
  Mk_devst (v_in s) (v_out s) (v_cons s) (v_tx_busy s) (v_panicking s) (v_panicked s) (v_csr s) (g
    (v_vdisk s)) (v_kpgtbl s) (v_first s).
Definition set_v_kpgtbl (g : Z -> Z) (s : devst) : devst :=
  Mk_devst (v_in s) (v_out s) (v_cons s) (v_tx_busy s) (v_panicking s) (v_panicked s) (v_csr s)
    (v_vdisk s) (g (v_kpgtbl s)) (v_first s).
Definition set_v_first (g : bool -> bool) (s : devst) : devst :=
  Mk_devst (v_in s) (v_out s) (v_cons s) (v_tx_busy s) (v_panicking s) (v_panicked s) (v_csr s)
    (v_vdisk s) (v_kpgtbl s) (g (v_first s)).

Definition set_k_held (g : (list lockid) -> (list lockid)) (s : kst) : kst :=
  Kst (g (k_held s)) (k_freelist s) (k_heap s) (k_disk s) (k_dwrites s) (k_bcache s) (k_log s) 
(k_sb s) (k_itable s) (k_ftable s) (k_procs s) (k_psched s) (k_cur s) (k_initproc s) (k_nextpid s) 
(k_ticks s) (k_kbuf s) (k_dev s).
Definition set_k_freelist (g : Z -> Z) (s : kst) : kst :=
  Kst (k_held s) (g (k_freelist s)) (k_heap s) (k_disk s) (k_dwrites s) (k_bcache s) (k_log s) 
(k_sb s) (k_itable s) (k_ftable s) (k_procs s) (k_psched s) (k_cur s) (k_initproc s) (k_nextpid s) 
(k_ticks s) (k_kbuf s) (k_dev s).
Definition set_k_heap (g : (gmap Z pobj) -> (gmap Z pobj)) (s : kst) : kst :=
  Kst (k_held s) (k_freelist s) (g (k_heap s)) (k_disk s) (k_dwrites s) (k_bcache s) (k_log s) 
(k_sb s) (k_itable s) (k_ftable s) (k_procs s) (k_psched s) (k_cur s) (k_initproc s) (k_nextpid s) 
(k_ticks s) (k_kbuf s) (k_dev s).
Definition set_k_disk (g : (gmap Z (list Z)) -> (gmap Z (list Z))) (s : kst) : kst :=
  Kst (k_held s) (k_freelist s) (k_heap s) (g (k_disk s)) (k_dwrites s) (k_bcache s) (k_log s) 
(k_sb s) (k_itable s) (k_ftable s) (k_procs s) (k_psched s) (k_cur s) (k_initproc s) (k_nextpid s) 
(k_ticks s) (k_kbuf s) (k_dev s).
Definition set_k_dwrites (g : (list (Z * list Z)) -> (list (Z * list Z))) (s : kst) : kst :=
  Kst (k_held s) (k_freelist s) (k_heap s) (k_disk s) (g (k_dwrites s)) (k_bcache s) (k_log s) 
(k_sb s) (k_itable s) (k_ftable s) (k_procs s) (k_psched s) (k_cur s) (k_initproc s) (k_nextpid s) 
(k_ticks s) (k_kbuf s) (k_dev s).
Definition set_k_bcache (g : (list buf) -> (list buf)) (s : kst) : kst :=
  Kst (k_held s) (k_freelist s) (k_heap s) (k_disk s) (k_dwrites s) (g (k_bcache s)) (k_log s) 
(k_sb s) (k_itable s) (k_ftable s) (k_procs s) (k_psched s) (k_cur s) (k_initproc s) (k_nextpid s) 
(k_ticks s) (k_kbuf s) (k_dev s).
Definition set_k_log (g : logstate -> logstate) (s : kst) : kst :=
  Kst (k_held s) (k_freelist s) (k_heap s) (k_disk s) (k_dwrites s) (k_bcache s) (g (k_log s)) 
(k_sb s) (k_itable s) (k_ftable s) (k_procs s) (k_psched s) (k_cur s) (k_initproc s) (k_nextpid s) 
(k_ticks s) (k_kbuf s) (k_dev s).
Definition set_k_sb (g : superblock -> superblock) (s : kst) : kst :=
  Kst (k_held s) (k_freelist s) (k_heap s) (k_disk s) (k_dwrites s) (k_bcache s) (k_log s) (g (k_sb 
s)) (k_itable s) (k_ftable s) (k_procs s) (k_psched s) (k_cur s) (k_initproc s) (k_nextpid s) 
(k_ticks s) (k_kbuf s) (k_dev s).
Definition set_k_itable (g : (list inode) -> (list inode)) (s : kst) : kst :=
  Kst (k_held s) (k_freelist s) (k_heap s) (k_disk s) (k_dwrites s) (k_bcache s) (k_log s) (k_sb s) 
(g (k_itable s)) (k_ftable s) (k_procs s) (k_psched s) (k_cur s) (k_initproc s) (k_nextpid s) 
(k_ticks s) (k_kbuf s) (k_dev s).
Definition set_k_ftable (g : (list file) -> (list file)) (s : kst) : kst :=
  Kst (k_held s) (k_freelist s) (k_heap s) (k_disk s) (k_dwrites s) (k_bcache s) (k_log s) (k_sb s) 
(k_itable s) (g (k_ftable s)) (k_procs s) (k_psched s) (k_cur s) (k_initproc s) (k_nextpid s) 
(k_ticks s) (k_kbuf s) (k_dev s).
Definition set_k_procs (g : (list proc) -> (list proc)) (s : kst) : kst :=
  Kst (k_held s) (k_freelist s) (k_heap s) (k_disk s) (k_dwrites s) (k_bcache s) (k_log s) (k_sb s) 
(k_itable s) (k_ftable s) (g (k_procs s)) (k_psched s) (k_cur s) (k_initproc s) (k_nextpid s) 
(k_ticks s) (k_kbuf s) (k_dev s).
Definition set_k_psched (g : (list psched) -> (list psched)) (s : kst) : kst :=
  Kst (k_held s) (k_freelist s) (k_heap s) (k_disk s) (k_dwrites s) (k_bcache s) (k_log s) (k_sb s) 
(k_itable s) (k_ftable s) (k_procs s) (g (k_psched s)) (k_cur s) (k_initproc s) (k_nextpid s) 
(k_ticks s) (k_kbuf s) (k_dev s).
Definition set_k_cur (g : (option nat) -> (option nat)) (s : kst) : kst :=
  Kst (k_held s) (k_freelist s) (k_heap s) (k_disk s) (k_dwrites s) (k_bcache s) (k_log s) (k_sb s) 
(k_itable s) (k_ftable s) (k_procs s) (k_psched s) (g (k_cur s)) (k_initproc s) (k_nextpid s) 
(k_ticks s) (k_kbuf s) (k_dev s).
Definition set_k_initproc (g : (option nat) -> (option nat)) (s : kst) : kst :=
  Kst (k_held s) (k_freelist s) (k_heap s) (k_disk s) (k_dwrites s) (k_bcache s) (k_log s) (k_sb s) 
(k_itable s) (k_ftable s) (k_procs s) (k_psched s) (k_cur s) (g (k_initproc s)) (k_nextpid s) 
(k_ticks s) (k_kbuf s) (k_dev s).
Definition set_k_nextpid (g : Z -> Z) (s : kst) : kst :=
  Kst (k_held s) (k_freelist s) (k_heap s) (k_disk s) (k_dwrites s) (k_bcache s) (k_log s) (k_sb s) 
(k_itable s) (k_ftable s) (k_procs s) (k_psched s) (k_cur s) (k_initproc s) (g (k_nextpid s)) 
(k_ticks s) (k_kbuf s) (k_dev s).
Definition set_k_ticks (g : Z -> Z) (s : kst) : kst :=
  Kst (k_held s) (k_freelist s) (k_heap s) (k_disk s) (k_dwrites s) (k_bcache s) (k_log s) (k_sb s) 
(k_itable s) (k_ftable s) (k_procs s) (k_psched s) (k_cur s) (k_initproc s) (k_nextpid s) (g 
(k_ticks s)) (k_kbuf s) (k_dev s).
Definition set_k_kbuf (g : (list Z) -> (list Z)) (s : kst) : kst :=
  Kst (k_held s) (k_freelist s) (k_heap s) (k_disk s) (k_dwrites s) (k_bcache s) (k_log s) (k_sb s) 
(k_itable s) (k_ftable s) (k_procs s) (k_psched s) (k_cur s) (k_initproc s) (k_nextpid s) (k_ticks 
s) (g (k_kbuf s)) (k_dev s).
Definition set_k_dev (g : devst -> devst) (s : kst) : kst :=
  Kst (k_held s) (k_freelist s) (k_heap s) (k_disk s) (k_dwrites s) (k_bcache s) (k_log s) (k_sb
    s) (k_itable s) (k_ftable s) (k_procs s) (k_psched s) (k_cur s) (k_initproc s) (k_nextpid s)
    (k_ticks s) (k_kbuf s) (g (k_dev s)).

(** ** Simplification

    [ksimpl] reduces a field of an updated record and nothing else. *)

Ltac ksimpl := cbn [
    cs_buf cs_r cs_w cs_e set_cs_buf set_cs_r set_cs_w set_cs_e cr_stvec cr_sepc
    cr_scause cr_sstatus cr_stval cr_satp cr_time cr_stimecmp cr_tp set_cr_stvec
    set_cr_sepc set_cr_scause set_cr_sstatus set_cr_stval set_cr_satp set_cr_time
    set_cr_stimecmp set_cr_tp vd_addr vd_len vd_flags vd_next set_vd_addr set_vd_len
    set_vd_flags set_vd_next vr_type vr_reserved vr_sector set_vr_type
    set_vr_reserved set_vr_sector vk_desc vk_avail_ring vk_avail_idx vk_used_ring
    vk_used_didx vk_free vk_used_idx vk_info_b vk_status vk_ops set_vk_desc
    set_vk_avail_ring set_vk_avail_idx set_vk_used_ring set_vk_used_didx set_vk_free
    set_vk_used_idx set_vk_info_b set_vk_status set_vk_ops v_in v_out v_cons
    v_tx_busy v_panicking v_panicked v_csr v_vdisk v_kpgtbl v_first set_v_in
    set_v_out set_v_cons set_v_tx_busy set_v_panicking set_v_panicked set_v_csr
    set_v_vdisk set_v_kpgtbl set_v_first
    sb_magic sb_size sb_nblocks sb_ninodes sb_nlog sb_logstart sb_inodestart
    sb_bmapstart sl_locked sl_pid set_sl_locked set_sl_pid xo_writer xo_reader_count
    set_xo_writer set_xo_reader_count d_type d_major d_minor d_nlink d_size d_addrs
    set_d_type set_d_major set_d_minor set_d_nlink set_d_size set_d_addrs i_dev i_inum
    i_ref i_lock i_valid i_xobj i_data set_i_dev set_i_inum set_i_ref set_i_lock
    set_i_valid set_i_xobj set_i_data b_valid b_disk b_dev b_blockno b_lock b_refcnt
    b_prev b_next b_xobj b_data set_b_valid set_b_disk set_b_dev set_b_blockno
    set_b_lock set_b_refcnt set_b_prev set_b_next set_b_xobj set_b_data l_start
    l_outstanding l_committing l_dev l_n l_block set_l_start set_l_outstanding
    set_l_committing set_l_dev set_l_n set_l_block f_type f_ref f_readable f_writable
    f_pipe f_ip f_off f_major set_f_type set_f_ref set_f_readable set_f_writable
    set_f_pipe set_f_ip set_f_off set_f_major pi_data pi_nread pi_nwrite pi_readopen
    pi_writeopen set_pi_data set_pi_nread set_pi_nwrite set_pi_readopen set_pi_writeopen
    we_header we_shadow we_read_only we_newly_allocated we_ops set_we_header
    set_we_shadow set_we_read_only set_we_newly_allocated set_we_ops tx_status
    tx_retry_count tx_start_time tx_saved_tf tx_kjmp_valid tx_workset tx_workset_size
    tx_undo_args tx_undo_ops tx_undo_size set_tx_status set_tx_retry_count
    set_tx_start_time set_tx_saved_tf set_tx_kjmp_valid set_tx_workset
    set_tx_workset_size set_tx_undo_args set_tx_undo_ops set_tx_undo_size ps_state
    ps_chan ps_killed ps_xstate set_ps_state set_ps_chan set_ps_killed set_ps_xstate
    p_pid p_parent p_kstack p_sz p_pagetable p_trapframe p_context p_ofile p_cwd p_name
    p_tx set_p_pid set_p_parent set_p_kstack set_p_sz set_p_pagetable set_p_trapframe
    set_p_context set_p_ofile set_p_cwd set_p_name set_p_tx k_held k_freelist k_heap
    k_disk k_dwrites k_bcache k_log k_sb k_itable k_ftable k_procs k_psched k_cur
    k_initproc k_nextpid k_ticks k_kbuf set_k_held set_k_freelist set_k_heap set_k_disk
    set_k_dwrites set_k_bcache set_k_log set_k_sb set_k_itable set_k_ftable set_k_procs
    set_k_psched set_k_cur set_k_initproc set_k_nextpid set_k_ticks set_k_kbuf k_dev set_k_dev ].

Tactic Notation "ksimpl" "in" "*" := cbn [
    cs_buf cs_r cs_w cs_e set_cs_buf set_cs_r set_cs_w set_cs_e cr_stvec cr_sepc
    cr_scause cr_sstatus cr_stval cr_satp cr_time cr_stimecmp cr_tp set_cr_stvec
    set_cr_sepc set_cr_scause set_cr_sstatus set_cr_stval set_cr_satp set_cr_time
    set_cr_stimecmp set_cr_tp vd_addr vd_len vd_flags vd_next set_vd_addr set_vd_len
    set_vd_flags set_vd_next vr_type vr_reserved vr_sector set_vr_type
    set_vr_reserved set_vr_sector vk_desc vk_avail_ring vk_avail_idx vk_used_ring
    vk_used_didx vk_free vk_used_idx vk_info_b vk_status vk_ops set_vk_desc
    set_vk_avail_ring set_vk_avail_idx set_vk_used_ring set_vk_used_didx set_vk_free
    set_vk_used_idx set_vk_info_b set_vk_status set_vk_ops v_in v_out v_cons
    v_tx_busy v_panicking v_panicked v_csr v_vdisk v_kpgtbl v_first set_v_in
    set_v_out set_v_cons set_v_tx_busy set_v_panicking set_v_panicked set_v_csr
    set_v_vdisk set_v_kpgtbl set_v_first
    sb_magic sb_size sb_nblocks sb_ninodes sb_nlog sb_logstart sb_inodestart
    sb_bmapstart sl_locked sl_pid set_sl_locked set_sl_pid xo_writer xo_reader_count
    set_xo_writer set_xo_reader_count d_type d_major d_minor d_nlink d_size d_addrs
    set_d_type set_d_major set_d_minor set_d_nlink set_d_size set_d_addrs i_dev i_inum
    i_ref i_lock i_valid i_xobj i_data set_i_dev set_i_inum set_i_ref set_i_lock
    set_i_valid set_i_xobj set_i_data b_valid b_disk b_dev b_blockno b_lock b_refcnt
    b_prev b_next b_xobj b_data set_b_valid set_b_disk set_b_dev set_b_blockno
    set_b_lock set_b_refcnt set_b_prev set_b_next set_b_xobj set_b_data l_start
    l_outstanding l_committing l_dev l_n l_block set_l_start set_l_outstanding
    set_l_committing set_l_dev set_l_n set_l_block f_type f_ref f_readable f_writable
    f_pipe f_ip f_off f_major set_f_type set_f_ref set_f_readable set_f_writable
    set_f_pipe set_f_ip set_f_off set_f_major pi_data pi_nread pi_nwrite pi_readopen
    pi_writeopen set_pi_data set_pi_nread set_pi_nwrite set_pi_readopen set_pi_writeopen
    we_header we_shadow we_read_only we_newly_allocated we_ops set_we_header
    set_we_shadow set_we_read_only set_we_newly_allocated set_we_ops tx_status
    tx_retry_count tx_start_time tx_saved_tf tx_kjmp_valid tx_workset tx_workset_size
    tx_undo_args tx_undo_ops tx_undo_size set_tx_status set_tx_retry_count
    set_tx_start_time set_tx_saved_tf set_tx_kjmp_valid set_tx_workset
    set_tx_workset_size set_tx_undo_args set_tx_undo_ops set_tx_undo_size ps_state
    ps_chan ps_killed ps_xstate set_ps_state set_ps_chan set_ps_killed set_ps_xstate
    p_pid p_parent p_kstack p_sz p_pagetable p_trapframe p_context p_ofile p_cwd p_name
    p_tx set_p_pid set_p_parent set_p_kstack set_p_sz set_p_pagetable set_p_trapframe
    set_p_context set_p_ofile set_p_cwd set_p_name set_p_tx k_held k_freelist k_heap
    k_disk k_dwrites k_bcache k_log k_sb k_itable k_ftable k_procs k_psched k_cur
    k_initproc k_nextpid k_ticks k_kbuf set_k_held set_k_freelist set_k_heap set_k_disk
    set_k_dwrites set_k_bcache set_k_log set_k_sb set_k_itable set_k_ftable set_k_procs
  set_k_psched set_k_cur set_k_initproc set_k_nextpid set_k_ticks set_k_kbuf k_dev set_k_dev ] in
    *.

Tactic Notation "ksimpl" "in" hyp(H) := cbn [
    cs_buf cs_r cs_w cs_e set_cs_buf set_cs_r set_cs_w set_cs_e cr_stvec cr_sepc
    cr_scause cr_sstatus cr_stval cr_satp cr_time cr_stimecmp cr_tp set_cr_stvec
    set_cr_sepc set_cr_scause set_cr_sstatus set_cr_stval set_cr_satp set_cr_time
    set_cr_stimecmp set_cr_tp vd_addr vd_len vd_flags vd_next set_vd_addr set_vd_len
    set_vd_flags set_vd_next vr_type vr_reserved vr_sector set_vr_type
    set_vr_reserved set_vr_sector vk_desc vk_avail_ring vk_avail_idx vk_used_ring
    vk_used_didx vk_free vk_used_idx vk_info_b vk_status vk_ops set_vk_desc
    set_vk_avail_ring set_vk_avail_idx set_vk_used_ring set_vk_used_didx set_vk_free
    set_vk_used_idx set_vk_info_b set_vk_status set_vk_ops v_in v_out v_cons
    v_tx_busy v_panicking v_panicked v_csr v_vdisk v_kpgtbl v_first set_v_in
    set_v_out set_v_cons set_v_tx_busy set_v_panicking set_v_panicked set_v_csr
    set_v_vdisk set_v_kpgtbl set_v_first
    sb_magic sb_size sb_nblocks sb_ninodes sb_nlog sb_logstart sb_inodestart
    sb_bmapstart sl_locked sl_pid set_sl_locked set_sl_pid xo_writer xo_reader_count
    set_xo_writer set_xo_reader_count d_type d_major d_minor d_nlink d_size d_addrs
    set_d_type set_d_major set_d_minor set_d_nlink set_d_size set_d_addrs i_dev i_inum
    i_ref i_lock i_valid i_xobj i_data set_i_dev set_i_inum set_i_ref set_i_lock
    set_i_valid set_i_xobj set_i_data b_valid b_disk b_dev b_blockno b_lock b_refcnt
    b_prev b_next b_xobj b_data set_b_valid set_b_disk set_b_dev set_b_blockno
    set_b_lock set_b_refcnt set_b_prev set_b_next set_b_xobj set_b_data l_start
    l_outstanding l_committing l_dev l_n l_block set_l_start set_l_outstanding
    set_l_committing set_l_dev set_l_n set_l_block f_type f_ref f_readable f_writable
    f_pipe f_ip f_off f_major set_f_type set_f_ref set_f_readable set_f_writable
    set_f_pipe set_f_ip set_f_off set_f_major pi_data pi_nread pi_nwrite pi_readopen
    pi_writeopen set_pi_data set_pi_nread set_pi_nwrite set_pi_readopen set_pi_writeopen
    we_header we_shadow we_read_only we_newly_allocated we_ops set_we_header
    set_we_shadow set_we_read_only set_we_newly_allocated set_we_ops tx_status
    tx_retry_count tx_start_time tx_saved_tf tx_kjmp_valid tx_workset tx_workset_size
    tx_undo_args tx_undo_ops tx_undo_size set_tx_status set_tx_retry_count
    set_tx_start_time set_tx_saved_tf set_tx_kjmp_valid set_tx_workset
    set_tx_workset_size set_tx_undo_args set_tx_undo_ops set_tx_undo_size ps_state
    ps_chan ps_killed ps_xstate set_ps_state set_ps_chan set_ps_killed set_ps_xstate
    p_pid p_parent p_kstack p_sz p_pagetable p_trapframe p_context p_ofile p_cwd p_name
    p_tx set_p_pid set_p_parent set_p_kstack set_p_sz set_p_pagetable set_p_trapframe
    set_p_context set_p_ofile set_p_cwd set_p_name set_p_tx k_held k_freelist k_heap
    k_disk k_dwrites k_bcache k_log k_sb k_itable k_ftable k_procs k_psched k_cur
    k_initproc k_nextpid k_ticks k_kbuf set_k_held set_k_freelist set_k_heap set_k_disk
    set_k_dwrites set_k_bcache set_k_log set_k_sb set_k_itable set_k_ftable set_k_procs
  set_k_psched set_k_cur set_k_initproc set_k_nextpid set_k_ticks set_k_kbuf k_dev set_k_dev ] in
    H.

(** ** Extensionality *)

Lemma inode_ext (s s' : inode) :
  i_dev s = i_dev s' ->
  i_inum s = i_inum s' ->
  i_ref s = i_ref s' ->
  i_lock s = i_lock s' ->
  i_valid s = i_valid s' ->
  i_xobj s = i_xobj s' ->
  i_data s = i_data s' ->
  s = s'.
Proof. destruct s, s'. ksimpl. intros. by subst. Qed.

Lemma buf_ext (s s' : buf) :
  b_valid s = b_valid s' ->
  b_disk s = b_disk s' ->
  b_dev s = b_dev s' ->
  b_blockno s = b_blockno s' ->
  b_lock s = b_lock s' ->
  b_refcnt s = b_refcnt s' ->
  b_prev s = b_prev s' ->
  b_next s = b_next s' ->
  b_xobj s = b_xobj s' ->
  b_data s = b_data s' ->
  s = s'.
Proof. destruct s, s'. ksimpl. intros. by subst. Qed.

Lemma transaction_ext (s s' : transaction) :
  tx_status s = tx_status s' ->
  tx_retry_count s = tx_retry_count s' ->
  tx_start_time s = tx_start_time s' ->
  tx_saved_tf s = tx_saved_tf s' ->
  tx_kjmp_valid s = tx_kjmp_valid s' ->
  tx_workset s = tx_workset s' ->
  tx_workset_size s = tx_workset_size s' ->
  tx_undo_args s = tx_undo_args s' ->
  tx_undo_ops s = tx_undo_ops s' ->
  tx_undo_size s = tx_undo_size s' ->
  s = s'.
Proof. destruct s, s'. ksimpl. intros. by subst. Qed.

Lemma kst_ext (s s' : kst) :
  k_held s = k_held s' ->
  k_freelist s = k_freelist s' ->
  k_heap s = k_heap s' ->
  k_disk s = k_disk s' ->
  k_dwrites s = k_dwrites s' ->
  k_bcache s = k_bcache s' ->
  k_log s = k_log s' ->
  k_sb s = k_sb s' ->
  k_itable s = k_itable s' ->
  k_ftable s = k_ftable s' ->
  k_procs s = k_procs s' ->
  k_psched s = k_psched s' ->
  k_cur s = k_cur s' ->
  k_initproc s = k_initproc s' ->
  k_nextpid s = k_nextpid s' ->
  k_ticks s = k_ticks s' ->
  k_kbuf s = k_kbuf s' ->
  k_dev s = k_dev s' ->
  s = s'.
Proof. destruct s, s'. ksimpl. intros. by subst. Qed.

(** equality of updated kernel states, field by field *)
Ltac kst_eq := apply kst_ext; ksimpl; try done.
