(* ===== verification/Kernel.v ===== *)
(** * Locks, the current process, sleep and wakeup

    The operations of [spinlock.c] (as a single kernel thread sees them),
    [sleeplock.c], and the sleep/wakeup part of [proc.c], on the kernel
    state.  [k_held] abstracts the spinlocks: [acquire] panics on a lock this
    CPU already holds and [release] on one it does not hold, exactly the
    conditions under which [holding] makes the C code panic.  A lock held by
    another CPU only delays [acquire]. *)

From S2P Require Import Prelude Monad Types.
From stdpp Require Import base numbers list gmap strings.
From Stdlib Require Import ZArith Lia.

Open Scope Z_scope.

Create Rewrite HintDb kst.

Notation K := (ST kst).

(** ** Spinlocks *)

Definition holding (l : lockid) : K bool := gets (fun s => bool_decide (l ∈ k_held s)).

Fixpoint drop_lock (l : lockid) (h : list lockid) : list lockid :=
  match h with
  | [] => []
  | l' :: h => if bool_decide (l = l') then h else l' :: drop_lock l h
  end.

Definition acquire (l : lockid) : K unit :=
  h ← holding l;
  if (h : bool) then panic "acquire" else modify (set_k_held (cons l)).

Definition release (l : lockid) : K unit :=
  h ← holding l;
  if (h : bool) then modify (set_k_held (drop_lock l)) else panic "release".

(** ** Memory *)

Definition load (a : Z) : K pobj := deref (fun s => k_heap s !! a).

Definition store (a : Z) (o : pobj) : K unit := modify (set_k_heap <[a := o]>).

Definition as_tx (o : pobj) : option transaction :=
  match o with PTx t => Some t | _ => None end.
Definition as_inode (o : pobj) : option inode_data :=
  match o with PInode d => Some d | _ => None end.
Definition as_buf (o : pobj) : option (list Z) :=
  match o with PBuf b => Some b | _ => None end.
Definition as_tf (o : pobj) : option (list Z) :=
  match o with PTf w => Some w | _ => None end.

Definition load_tx (a : Z) : K transaction := deref (fun s => k_heap s !! a ≫= as_tx).
Definition load_inode (a : Z) : K inode_data := deref (fun s => k_heap s !! a ≫= as_inode).
Definition load_buf (a : Z) : K (list Z) := deref (fun s => k_heap s !! a ≫= as_buf).
Definition load_tf (a : Z) : K (list Z) := deref (fun s => k_heap s !! a ≫= as_tf).

Definition upd_tx (a : Z) (f : transaction -> transaction) : K unit :=
  t ← load_tx a; store a (PTx (f t)).
Definition upd_inode_data (a : Z) (f : inode_data -> inode_data) : K unit :=
  d ← load_inode a; store a (PInode (f d)).
Definition upd_buf_data (a : Z) (f : list Z -> list Z) : K unit :=
  b ← load_buf a; store a (PBuf (f b)).

(** ** Tables *)

Definition get_buf (i : nat) : K buf := deref (fun s => k_bcache s !! i).
Definition upd_buf (i : nat) (f : buf -> buf) : K unit := modify (set_k_bcache (alter f i)).
Definition get_ip (i : nat) : K inode := deref (fun s => k_itable s !! i).
Definition upd_ip (i : nat) (f : inode -> inode) : K unit := modify (set_k_itable (alter f i)).
Definition get_proc (i : nat) : K proc := deref (fun s => k_procs s !! i).
Definition upd_proc (i : nat) (f : proc -> proc) : K unit := modify (set_k_procs (alter f i)).
Definition get_psched (i : nat) : K psched := deref (fun s => k_psched s !! i).
Definition upd_psched (i : nat) (f : psched -> psched) : K unit :=
  modify (set_k_psched (alter f i)).

(** ** The current process and its transaction *)

(** [myproc()] where the caller dereferences the result *)
Definition myproc : K nat := deref k_cur.

(** the test [p->tx && p->tx->status == TX_ACTIVE] with [p = myproc()] *)
Definition tx_active : K bool :=
  p ← myproc;
  pr ← get_proc p;
  if p_tx pr =? 0 then mret false
  else t ← load_tx (p_tx pr); mret (tx_status t =? TX_ACTIVE).

(** ** sleep and wakeup *)

(** [sched()]: the checks on the locks and on the state of the process, then
    [swtch] to the scheduler.  [noff] is the number of locks held.  The check
    of [intr_get()] and the saving of [intena] are about the interrupt flag of
    the CPU, which is not part of this state: Spinlock has it, and shows that
    interrupts are off while any lock is held. *)
Definition sched (ch : wchan) : K unit :=
  p ← myproc;
  h ← holding (Lproc p);
  if negb h then panic "sched p->lock" else
  n ← gets (fun s => length (k_held s));
  if negb (n =? 1)%nat then panic "sched locks" else
  ps ← get_psched p;
  if bool_decide (ps_state ps = RUNNING) then panic "sched RUNNING" else
  fun s => Block ch s (fun s' => Ok tt s').

Definition sleep (ch : wchan) (lk : lockid) : K unit :=
  p ← myproc;
  acquire (Lproc p);;
  release lk;;
  upd_psched p (set_ps_chan (fun _ => Some ch));;
  upd_psched p (set_ps_state (fun _ => SLEEPING));;
  sched ch;;
  upd_psched p (set_ps_chan (fun _ => None));;
  release (Lproc p);;
  acquire lk.

Definition wakeup_one (ch : wchan) (i : nat) : K unit :=
  c ← gets k_cur;
  if bool_decide (Some i = c) then mret tt else
  acquire (Lproc i);;
  ps ← get_psched i;
  when (bool_decide (ps_state ps = SLEEPING) && bool_decide (ps_chan ps = Some ch))
    (upd_psched i (set_ps_state (fun _ => RUNNABLE)));;
  release (Lproc i).

Definition wakeup (ch : wchan) : K unit := for_each (seq 0 NPROC) (wakeup_one ch).

Definition setkilled (p : nat) : K unit :=
  acquire (Lproc p);;
  upd_psched p (set_ps_killed (fun _ => true));;
  release (Lproc p).

Definition killed (p : nat) : K bool :=
  acquire (Lproc p);;
  ps ← get_psched p;
  release (Lproc p);;
  mret (ps_killed ps).

(** [kkill(pid)] *)
Definition kkill (pid : Z) : K Z :=
  r ← for_find (seq 0 NPROC) (fun i =>
    acquire (Lproc i);;
    pr ← get_proc i;
    if p_pid pr =? pid then
      upd_psched i (set_ps_killed (fun _ => true));;
      ps ← get_psched i;
      when (bool_decide (ps_state ps = SLEEPING))
        (upd_psched i (set_ps_state (fun _ => RUNNABLE)));;
      release (Lproc i);;
      mret (Some 0)
    else release (Lproc i);; mret None);
  mret (default (-1) r).

(** ** Sleep-locks *)

(** how many times a waiting loop is retried; each retry follows a wakeup *)
Definition WAKEUPS : nat := 1000.

Definition slock_of (o : obj) (s : kst) : option sleeplock :=
  match o with
  | HBuf i => b_lock <$> k_bcache s !! i
  | HInode i => i_lock <$> k_itable s !! i
  end.

Definition set_slock (o : obj) (f : sleeplock -> sleeplock) : kst -> kst :=
  match o with
  | HBuf i => set_k_bcache (alter (set_b_lock f) i)
  | HInode i => set_k_itable (alter (set_i_lock f) i)
  end.

Definition get_slock (o : obj) : K sleeplock := deref (slock_of o).

Definition upd_slock (o : obj) (f : sleeplock -> sleeplock) : K unit := modify (set_slock o f).

Definition unlocked_slock : sleeplock := Mk_sleeplock false 0.

Definition initsleeplock (o : obj) : K unit := upd_slock o (fun _ => unlocked_slock).

Definition acquiresleep (o : obj) : K unit :=
  acquire (Lsleep o);;
  loop WAKEUPS (fun _ : unit =>
    l ← get_slock o;
    if sl_locked l then sleep (ChSleep o) (Lsleep o);; mret (inl tt)
    else mret (inr tt)) tt;;
  upd_slock o (set_sl_locked (fun _ => true));;
  p ← myproc;
  pr ← get_proc p;
  upd_slock o (set_sl_pid (fun _ => p_pid pr));;
  release (Lsleep o).

Definition releasesleep (o : obj) : K unit :=
  acquire (Lsleep o);;
  upd_slock o (set_sl_locked (fun _ => false));;
  upd_slock o (set_sl_pid (fun _ => 0));;
  wakeup (ChSleep o);;
  release (Lsleep o).

Definition holdingsleep (o : obj) : K bool :=
  acquire (Lsleep o);;
  l ← get_slock o;
  p ← myproc;
  pr ← get_proc p;
  let r := sl_locked l && (sl_pid l =? p_pid pr) in
  release (Lsleep o);;
  mret r.

(** ** What wakeup does to the scheduling table *)

Definition wake1 (ch : wchan) (c : option nat) (i : nat) (ps : psched) : psched :=
  if bool_decide (Some i = c) then ps
  else if bool_decide (ps_state ps = SLEEPING) && bool_decide (ps_chan ps = Some ch)
  then set_ps_state (fun _ => RUNNABLE) ps else ps.

Definition wakeup_table (ch : wchan) (c : option nat) (l : list psched) : list psched :=
  imap (wake1 ch c) l.

(** the kernel thread of process [p] is running *)
Record running (p : nat) (pr : proc) (s : kst) : Prop := {
  running_cur : k_cur s = Some p;
  running_proc : k_procs s !! p = Some pr;
  running_psched : length (k_psched s) = NPROC;
}.

(** no [p->lock] is held *)
Definition no_plock (s : kst) : Prop := forall i, Lproc i ∉ k_held s.

(** ** Lemmas *)

Ltac kunfold :=
  unfold load, store, load_tx, load_inode, load_buf, upd_tx, upd_inode_data,
    upd_buf_data, get_buf, upd_buf, get_ip, upd_ip, get_proc, upd_proc,
    get_psched, upd_psched, myproc in *.

Lemma wp_run {S A} (m : ST S A) s a s' (Q : A -> S -> Prop) :
  m s = Ok a s' -> Q a s' -> wp m s Q.
Proof. unfold wp. by intros ->. Qed.

Lemma run_wp {S A} (m : ST S A) s a s' :
  wp m s (fun a' s'' => a' = a /\ s'' = s') -> m s = Ok a s'.
Proof. intros (a' & s'' & E & -> & ->)%wp_ok. done. Qed.

Lemma acquire_ok l s :
  l ∉ k_held s -> acquire l s = Ok tt (set_k_held (cons l) s).
Proof.
  intros H. unfold acquire, holding. apply run_wp. wp_prim.
  rewrite bool_decide_false by done. wp_prim. done.
Qed.

Lemma acquire_panic l s : l ∈ k_held s -> acquire l s = Panic "acquire".
Proof.
  intros H. unfold acquire, holding, mbind, ST_bind, gets. simpl.
  by rewrite bool_decide_true.
Qed.

Lemma drop_lock_head l h : drop_lock l (l :: h) = h.
Proof. simpl. by rewrite bool_decide_true. Qed.

Lemma release_ok l s :
  l ∈ k_held s -> release l s = Ok tt (set_k_held (drop_lock l) s).
Proof.
  intros H. unfold release, holding. apply run_wp. wp_prim.
  rewrite bool_decide_true by done. wp_prim. done.
Qed.

Lemma wp_acquire l s (Q : unit -> kst -> Prop) :
  l ∉ k_held s -> Q tt (set_k_held (cons l) s) -> wp (acquire l) s Q.
Proof. intros H. apply wp_run. by apply acquire_ok. Qed.

Lemma wp_release l h s (Q : unit -> kst -> Prop) :
  k_held s = l :: h -> Q tt (set_k_held (fun _ => h) s) -> wp (release l) s Q.
Proof.
  intros H HQ. eapply wp_run; [apply release_ok; rewrite H; by left|].
  replace (set_k_held (drop_lock l) s) with (set_k_held (fun _ => h) s); [done|].
  unfold set_k_held. by rewrite H, drop_lock_head.
Qed.

Lemma length_wakeup_table ch c l : length (wakeup_table ch c l) = length l.
Proof. apply length_imap. Qed.

Definition wake_upto (k : nat) (ch : wchan) (c : option nat) (l : list psched) : list psched :=
  imap (fun i ps => if decide (i < k)%nat then wake1 ch c i ps else ps) l.

Lemma wake_upto_0 ch c l : wake_upto 0 ch c l = l.
Proof.
  apply list_eq. intros i. unfold wake_upto. rewrite list_lookup_imap.
  by destruct (l !! i).
Qed.

Lemma wake_upto_S k ch c l :
  wake_upto (S k) ch c l = alter (wake1 ch c k) k (wake_upto k ch c l).
Proof.
  apply list_eq. intros i. unfold wake_upto.
  rewrite list_lookup_imap, list_lookup_alter, !list_lookup_imap.
  destruct (decide (k = i)) as [->|Hne].
  - destruct (l !! i); simpl; [|done]. repeat case_decide; try lia; done.
  - destruct (l !! i); simpl; [|done]. repeat case_decide; try lia; done.
Qed.

Lemma alter_ext_at {A} (f g : A -> A) (l : list A) i :
  (forall x, l !! i = Some x -> f x = g x) -> alter f i l = alter g i l.
Proof. intros H. by apply list_alter_ext. Qed.

Lemma alter_id_at {A} (f : A -> A) (l : list A) i :
  (forall x, l !! i = Some x -> f x = x) -> alter f i l = l.
Proof.
  intros H. apply list_eq. intros j. rewrite list_lookup_alter.
  case_decide as Hij; [subst|done]. destruct (l !! j) eqn:E; simpl; [|done].
  f_equal. by apply H.
Qed.

Lemma alter_alter_at {A} (f g h : A -> A) (l : list A) i :
  (forall x, l !! i = Some x -> f (g x) = h x) -> alter f i (alter g i l) = alter h i l.
Proof.
  intros H. apply list_eq. intros j. rewrite !list_lookup_alter.
  repeat case_decide; try done. subst. destruct (l !! j) eqn:E; simpl; [|done].
  f_equal. by apply H.
Qed.

Lemma alter_comp {A} (f g : A -> A) (l : list A) i :
  alter f i (alter g i l) = alter (f ∘ g) i l.
Proof. by apply alter_alter_at. Qed.

Lemma wakeup_one_ok ch i s :
  (i < length (k_psched s))%nat -> Lproc i ∉ k_held s ->
  wakeup_one ch i s = Ok tt (set_k_psched (alter (wake1 ch (k_cur s) i) i) s).
Proof.
  intros [ps Hps]%lookup_lt_is_Some Hno. apply run_wp. unfold wakeup_one. kunfold.
  apply wp_bind, wp_gets. case_bool_decide as Hcur.
  { apply wp_ret. split; [done|]. unfold set_k_psched. rewrite alter_id_at; [by destruct s|].
    intros x Hx. unfold wake1. by rewrite bool_decide_true. }
  apply wp_bind, wp_acquire; [done|]. apply wp_bind. eapply wp_deref; [done|].
  apply wp_bind.
  destruct (bool_decide (ps_state ps = SLEEPING) && bool_decide (ps_chan ps = Some ch)) eqn:Ew;
    unfold when; [apply wp_modify|apply wp_ret]; (eapply wp_release; [done|]; split; [done|]);
    unfold set_k_held, set_k_psched; cbn.
  - f_equal. apply alter_ext_at. intros x Hx. rewrite Hps in Hx. simplify_eq.
    unfold wake1. by rewrite bool_decide_false, Ew.
  - rewrite (alter_id_at (wake1 _ _ _)); [by destruct s|].
    intros x Hx. rewrite Hps in Hx. simplify_eq. unfold wake1.
    by rewrite bool_decide_false, Ew.
Qed.

Lemma wakeup_ok ch s :
  length (k_psched s) = NPROC -> no_plock s ->
  wakeup ch s = Ok tt (set_k_psched (wakeup_table ch (k_cur s)) s).
Proof.
  intros Hlen Hno. apply run_wp. unfold wakeup.
  apply (wp_for_each _ _ (fun dn s' =>
    s' = set_k_psched (wake_upto (length dn) ch (k_cur s)) s)).
  - unfold set_k_psched. simpl length. rewrite wake_upto_0. by destruct s.
  - intros dn i todo s' Hl ->.
    assert (i = length dn /\ (i < NPROC)%nat) as [-> Hlt].
    { assert (seq 0 NPROC !! length dn = Some i) as Hs.
      { rewrite Hl, lookup_app_r, Nat.sub_diag by lia. done. }
      apply lookup_seq in Hs. lia. }
    rewrite length_app, Nat.add_1_r.
    eapply wp_run; [apply wakeup_one_ok|].
    + cbn. unfold wake_upto. rewrite length_imap. lia.
    + apply Hno.
    + unfold set_k_psched. cbn. f_equal. by rewrite wake_upto_S.
  - intros s' ->. split; [done|]. unfold set_k_psched. f_equal.
    unfold wakeup_table, wake_upto. apply list_eq. intros i.
    rewrite !list_lookup_imap, length_seq.
    destruct (k_psched s !! i) eqn:E; simpl; [|done].
    apply lookup_lt_Some in E. rewrite decide_True by lia. done.
Qed.

(** ** Sleep-lock lemmas *)

Lemma set_slock_held o f g s :
  set_slock o f (set_k_held g s) = set_k_held g (set_slock o f s).
Proof. by destruct o, s. Qed.

Lemma k_held_set_slock o f s : k_held (set_slock o f s) = k_held s.
Proof. by destruct o. Qed.
Lemma k_cur_set_slock o f s : k_cur (set_slock o f s) = k_cur s.
Proof. by destruct o. Qed.
Lemma k_procs_set_slock o f s : k_procs (set_slock o f s) = k_procs s.
Proof. by destruct o. Qed.
Lemma k_psched_set_slock o f s : k_psched (set_slock o f s) = k_psched s.
Proof. by destruct o. Qed.
Lemma k_heap_set_slock o f s : k_heap (set_slock o f s) = k_heap s.
Proof. by destruct o. Qed.

#[export] Hint Rewrite k_held_set_slock k_cur_set_slock k_procs_set_slock
  k_psched_set_slock k_heap_set_slock : kst.

Lemma slock_of_held o g s : slock_of o (set_k_held g s) = slock_of o s.
Proof. by destruct o. Qed.

Lemma set_slock_compose o f g h s :
  (forall l, slock_of o s = Some l -> f (g l) = h l) ->
  set_slock o f (set_slock o g s) = set_slock o h s.
Proof.
  intros H. destruct o; cbn in *; unfold set_k_bcache, set_k_itable; cbn; f_equal;
    apply alter_alter_at; intros x Hx; cbn; rewrite Hx in H; specialize (H _ eq_refl); destruct x; cbn in *;
    unfold set_b_lock, set_i_lock; cbn; by rewrite H.
Qed.

Lemma acquiresleep_ok o s p pr l :
  running p pr s -> slock_of o s = Some l -> sl_locked l = false -> Lsleep o ∉ k_held s ->
  acquiresleep o s = Ok tt (set_slock o (fun _ => Mk_sleeplock true (p_pid pr)) s).
Proof.
  intros [Hc Hp _] Hl Hu Hno. apply run_wp. unfold acquiresleep, get_slock, upd_slock. kunfold.
  apply wp_bind, wp_acquire; [done|]. apply wp_bind.
  eapply (wp_run _ _ tt).
  { change WAKEUPS with (S 999). cbn [loop]. apply run_wp. do 2 apply wp_bind.
    eapply wp_deref; [by rewrite slock_of_held|]. rewrite Hu.
    do 2 apply wp_ret. split; reflexivity. }
  apply wp_bind, wp_modify. rewrite set_slock_held.
  apply wp_bind. eapply wp_deref; [cbn; by autorewrite with kst|].
  apply wp_bind. eapply wp_deref; [cbn; by autorewrite with kst|].
  apply wp_bind, wp_modify. rewrite set_slock_held.
  erewrite set_slock_compose; [|intros; reflexivity].
  eapply wp_release; [cbn; by autorewrite with kst|]. split; [done|].
  unfold set_k_held; cbn. by destruct o, s.
Qed.

(** [sleep] gives up the CPU holding only [p->lock], marked SLEEPING on its
    channel, with the condition lock released. *)
Lemma sleep_blocks ch lk s p pr ps :
  running p pr s -> k_held s = [lk] -> lk <> Lproc p -> k_psched s !! p = Some ps ->
  exists k, sleep ch lk s = Block ch
    (set_k_psched (alter (fun ps => set_ps_state (fun _ => SLEEPING)
                                      (set_ps_chan (fun _ => Some ch) ps)) p)
       (set_k_held (fun _ => [Lproc p]) s)) k.
Proof.
  intros [Hc Hp _] Hh Hne Hps. unfold sleep, myproc, upd_psched.
  erewrite bind_ok by (unfold deref; by rewrite Hc).
  erewrite bind_ok by (apply acquire_ok; rewrite Hh; set_solver).
  erewrite bind_ok by (apply release_ok; cbn; rewrite Hh; set_solver).
  do 2 (erewrite bind_ok by reflexivity).
  eexists. apply bind_block.
  match goal with |- sched _ ?s1 = _ =>
    assert (s1 = set_k_psched (alter (fun ps => set_ps_state (fun _ => SLEEPING)
       (set_ps_chan (fun _ => Some ch) ps)) p) (set_k_held (fun _ => [Lproc p]) s)) as ->
  end.
  { unfold set_k_psched, set_k_held. cbn. rewrite Hh. f_equal.
    - cbn. rewrite bool_decide_false by done. cbn. by rewrite bool_decide_true.
    - by apply alter_alter_at. }
  unfold sched, myproc, get_psched, holding.
  erewrite bind_ok by (unfold deref; cbn; by rewrite Hc).
  erewrite bind_ok by reflexivity. cbn [k_held set_k_psched set_k_held].
  rewrite bool_decide_true by set_solver. cbn [negb].
  erewrite bind_ok by reflexivity. cbn [k_held set_k_psched set_k_held length Nat.eqb negb].
  erewrite bind_ok by (unfold deref; cbn; by rewrite list_lookup_alter_eq, Hps).
  reflexivity.
Qed.

Lemma acquiresleep_blocks o s p pr l ps :
  running p pr s -> slock_of o s = Some l -> sl_locked l = true ->
  k_held s = [] -> k_psched s !! p = Some ps ->
  exists k, acquiresleep o s = Block (ChSleep o)
    (set_k_psched (alter (fun ps => set_ps_state (fun _ => SLEEPING)
                            (set_ps_chan (fun _ => Some (ChSleep o)) ps)) p)
       (set_k_held (fun _ => [Lproc p]) s)) k.
Proof.
  intros Hr Hl Hk Hh Hps. unfold acquiresleep, get_slock.
  erewrite bind_ok by (apply acquire_ok; rewrite Hh; set_solver).
  destruct (sleep_blocks (ChSleep o) (Lsleep o) (set_k_held (cons (Lsleep o)) s) p pr ps)
    as [k Hsl]; [by destruct Hr|cbn; by rewrite Hh|done|done|].
  eexists. apply bind_block. change WAKEUPS with (S 999). cbn [loop]. apply bind_block.
  erewrite bind_ok by (unfold deref; by rewrite slock_of_held, Hl). rewrite Hk.
  apply bind_block. exact Hsl.
Qed.

Lemma releasesleep_ok o s l :
  length (k_psched s) = NPROC -> slock_of o s = Some l -> Lsleep o ∉ k_held s -> no_plock s ->
  releasesleep o s = Ok tt (set_k_psched (wakeup_table (ChSleep o) (k_cur s))
    (set_slock o (fun _ => unlocked_slock) s)).
Proof.
  intros Hlen Hl Hno Hnp. apply run_wp. unfold releasesleep, upd_slock.
  apply wp_bind, wp_acquire; [done|]. apply wp_bind, wp_modify. apply wp_bind, wp_modify.
  rewrite !set_slock_held. erewrite set_slock_compose; [|intros; reflexivity].
  apply wp_bind. eapply wp_run.
  { apply wakeup_ok; [cbn; by autorewrite with kst|]. intros i. cbn. autorewrite with kst.
    intros [?|?%Hnp]%elem_of_cons; done. }
  eapply wp_release; [cbn; by autorewrite with kst|]. split; [done|].
  unfold set_k_held, set_k_psched, unlocked_slock; cbn. by destruct o, s.
Qed.

Lemma holdingsleep_ok o s p pr l :
  running p pr s -> slock_of o s = Some l -> Lsleep o ∉ k_held s ->
  holdingsleep o s = Ok (sl_locked l && (sl_pid l =? p_pid pr)) s.
Proof.
  intros [Hc Hp _] Hl Hno. apply run_wp. unfold holdingsleep, get_slock. kunfold.
  apply wp_bind, wp_acquire; [done|]. wp_prim.
  eapply wp_deref; [by rewrite slock_of_held|]. wp_prim.
  eapply wp_deref; [done|]. wp_prim. eapply wp_deref; [done|]. wp_prim.
  eapply wp_release; [done|]. wp_prim. split; [done|]. by destruct s.
Qed.
