(* ===== verification/Kalloc.v ===== *)
(** * The physical page allocator ([kalloc.c])

    The free list is threaded through the free pages themselves: a free page
    holds [PRun next] and [k_freelist] is the address of the first.  The
    abstract view is the list of free pages ([free_list]); [kalloc] pops it
    and [kfree] pushes on it. *)

From S2P Require Import Prelude Monad Types Kernel.
From stdpp Require Import base numbers list gmap strings.
From Stdlib Require Import ZArith Lia.

Open Scope Z_scope.

Definition PGROUNDUP (sz : Z) : Z := Z.land (u64 (sz + PGSIZE - 1)) (Z.lnot (PGSIZE - 1)).
Definition PGROUNDDOWN (a : Z) : Z := Z.land a (Z.lnot (PGSIZE - 1)).

Section Kalloc.
Context {L : Layout}.

Definition kfree (pa : Z) : K unit :=
  if negb (pa mod PGSIZE =? 0) || (pa <? kend) || (PHYSTOP <=? pa) then panic "kfree" else
  store pa (PJunk 1);;
  acquire Lkmem;;
  next ← gets k_freelist;
  store pa (PRun next);;
  modify (set_k_freelist (fun _ => pa));;
  release Lkmem.

Definition as_run (o : pobj) : option Z := match o with PRun n => Some n | _ => None end.

Definition kalloc : K Z :=
  acquire Lkmem;;
  r ← gets k_freelist;
  when (negb (r =? 0))
    (next ← deref (fun s => k_heap s !! r ≫= as_run);
     modify (set_k_freelist (fun _ => next)));;
  release Lkmem;;
  when (negb (r =? 0)) (store r (PJunk 5));;
  mret r.

(** the loop runs once per page, so the number of bytes is fuel enough *)
Definition freerange (pa_start pa_end : Z) : K unit :=
  loop (S (Z.to_nat (pa_end - pa_start))) (fun p =>
    if p + PGSIZE <=? pa_end then kfree p;; mret (inl (p + PGSIZE)) else mret (inr tt))
    (PGROUNDUP pa_start).

Definition kinit : K unit := freerange kend PHYSTOP.

(** ** Abstract view *)

Definition page_ok (pa : Z) : Prop := pa mod PGSIZE = 0 /\ kend <= pa < PHYSTOP.

(** the pages reachable from [head] are [l] *)
Fixpoint chain (h : gmap Z pobj) (head : Z) (l : list Z) : Prop :=
  match l with
  | [] => head = 0
  | pa :: l => head = pa /\ exists next, h !! pa = Some (PRun next) /\ chain h next l
  end.

Record free_list (s : kst) (l : list Z) : Prop := {
  free_chain : chain (k_heap s) (k_freelist s) l;
  free_nodup : NoDup l;
  free_pages : Forall page_ok l;
}.

(** ** Lemmas *)

Lemma page_ok_pos pa : page_ok pa -> pa <> 0.
Proof. intros [_ H]. pose proof kend_range. unfold KERNBASE in *. lia. Qed.

Lemma chain_frame h head l pa o : pa ∉ l -> chain h head l -> chain (<[pa := o]> h) head l.
Proof.
  revert head. induction l as [|x l IH]; intros head Hni; simpl; [done|].
  intros [-> (next & Hx & Hc)]. split; [done|]. exists next.
  rewrite lookup_insert_ne by set_solver. split; [done|]. apply IH; set_solver.
Qed.

Lemma chain_heap_ext h h' head l :
  (forall pa, pa ∈ l -> h' !! pa = h !! pa) -> chain h head l -> chain h' head l.
Proof.
  revert head. induction l as [|x l IH]; intros head He; simpl; [done|].
  intros [-> (next & Hx & Hc)]. split; [done|]. exists next.
  rewrite He by set_solver. split; [done|]. apply IH; [set_solver|done].
Qed.

(** a page of the free list holds nothing else *)
Lemma chain_run h head l pa : chain h head l -> pa ∈ l -> exists next, h !! pa = Some (PRun next).
Proof.
  revert head. induction l as [|x l IH]; intros head Hc Hin; [set_solver|].
  destruct Hc as [-> (next & Hx & Hc)]. apply elem_of_cons in Hin as [->|Hin]; eauto.
Qed.

Lemma free_list_ext s s' l :
  (forall pa, pa ∈ l -> k_heap s' !! pa = k_heap s !! pa) ->
  k_freelist s' = k_freelist s -> free_list s l -> free_list s' l.
Proof.
  intros He Hf [Hc Hn Hp]. split; [|done|done]. rewrite Hf. by eapply chain_heap_ext.
Qed.

Lemma kalloc_run_nil s : k_freelist s = 0 -> Lkmem ∉ k_held s -> kalloc s = Ok 0 s.
Proof.
  intros Hf Hno. apply run_wp. unfold kalloc.
  apply wp_bind, wp_acquire; [done|]. wp_prim. cbn. rewrite Hf. cbn. wp_prim.
  eapply wp_release; [done|]. wp_prim. split; [done|]. kst_eq.
Qed.

Lemma kalloc_run_cons s pa next :
  k_freelist s = pa -> pa <> 0 -> k_heap s !! pa = Some (PRun next) -> Lkmem ∉ k_held s ->
  kalloc s = Ok pa (set_k_heap <[pa := PJunk 5]> (set_k_freelist (fun _ => next) s)).
Proof.
  intros Hf Hpa Hh Hno. apply run_wp. unfold kalloc, store.
  apply wp_bind, wp_acquire; [done|]. apply wp_bind, wp_gets. cbn [k_freelist set_k_held].
  rewrite Hf. rewrite (proj2 (Z.eqb_neq pa 0)) by done. cbn [negb when].
  do 2 apply wp_bind. eapply wp_deref; [cbn; by rewrite Hh|]. apply wp_modify.
  apply wp_bind. eapply wp_release; [done|]. apply wp_bind, wp_modify, wp_ret.
  split; [done|]. kst_eq.
Qed.

Lemma kfree_run s pa :
  page_ok pa -> Lkmem ∉ k_held s ->
  kfree pa s = Ok tt (set_k_freelist (fun _ => pa)
                        (set_k_heap <[pa := PRun (k_freelist s)]> s)).
Proof.
  intros [Hm Hr] Hno. apply run_wp. unfold kfree, store.
  rewrite Hm. rewrite (proj2 (Z.ltb_ge pa kend)), (proj2 (Z.leb_gt PHYSTOP pa)) by lia.
  cbn [negb orb Z.eqb]. apply wp_bind, wp_modify. apply wp_bind, wp_acquire; [done|].
  apply wp_bind, wp_gets. apply wp_bind, wp_modify. apply wp_bind, wp_modify.
  eapply wp_release; [done|]. split; [done|].
  kst_eq. by rewrite insert_insert_eq.
Qed.

Lemma kfree_bad s pa : ~ page_ok pa -> kfree pa s = Panic "kfree".
Proof.
  intros Hp. unfold kfree.
  destruct (negb (pa mod PGSIZE =? 0) || (pa <? kend) || (PHYSTOP <=? pa)) eqn:E; [done|].
  zbool. destruct Hp. unfold page_ok. lia.
Qed.

Lemma kalloc_spec s l :
  free_list s l -> Lkmem ∉ k_held s ->
  match l with
  | [] => kalloc s = Ok 0 s
  | pa :: l' => exists s', kalloc s = Ok pa s' /\ free_list s' l' /\
      exists next, s' = set_k_heap <[pa := PJunk 5]> (set_k_freelist (fun _ => next) s)
  end.
Proof.
  intros [Hc Hn Hp] Hno. destruct l as [|pa l]; simpl in Hc.
  { by apply kalloc_run_nil. }
  destruct Hc as [Hf (next & Hh & Hc)]. inversion Hp as [|?? Hpa Hp']. subst x l0.
  apply NoDup_cons in Hn as [Hni Hn].
  eexists. split; [apply kalloc_run_cons; eauto using page_ok_pos|].
  split; [|by exists next]. split; [|done|done]. cbn. by apply chain_frame.
Qed.

Lemma kfree_spec s l pa :
  free_list s l -> page_ok pa -> pa ∉ l -> Lkmem ∉ k_held s ->
  exists s', kfree pa s = Ok tt s' /\ free_list s' (pa :: l) /\
    s' = set_k_freelist (fun _ => pa) (set_k_heap <[pa := PRun (k_freelist s)]> s).
Proof.
  intros [Hc Hn Hp] Hpa Hni Hno. eexists. split; [by apply kfree_run|]. split; [|done].
  split; cbn.
  - split; [done|]. exists (k_freelist s). rewrite lookup_insert_eq. split; [done|].
    by apply chain_frame.
  - by constructor.
  - by constructor.
Qed.

End Kalloc.
