(* ===== verification/KallocFacts.v ===== *)
(** * Page allocation: initialisation and histories

    [kinit] puts every page of free memory on the free list, and in any
    history of allocations, frees and writes to allocated pages the free list
    and the allocated pages partition the memory. *)

From S2P Require Import Prelude Monad Types Kernel Kalloc.
From stdpp Require Import base numbers list gmap strings.
From Stdlib Require Import ZArith Lia.

Open Scope Z_scope.

(** ** Rounding *)

Lemma land_page x : Z.land x (Z.lnot (PGSIZE - 1)) = x - x mod PGSIZE.
Proof.
  change (PGSIZE - 1) with (Z.ones 12). rewrite <- Z.ldiff_land, Z.ldiff_ones_r by lia.
  rewrite Z.shiftl_mul_pow2, Z.shiftr_div_pow2 by lia. change (2 ^ 12) with PGSIZE.
  pose proof (Z.div_mod x PGSIZE). unfold PGSIZE in *. lia.
Qed.

(** [PGROUNDUP] is the next multiple of the page size, unless the sum wraps *)
Lemma pgroundup_spec x :
  0 <= x < 2 ^ 64 - PGSIZE ->
  x <= PGROUNDUP x < x + PGSIZE /\ PGROUNDUP x mod PGSIZE = 0.
Proof.
  intros Hx. unfold PGROUNDUP. rewrite wrap_small by (unfold PGSIZE in *; lia). rewrite land_page.
  set (y := x + PGSIZE - 1). pose proof (Z.mod_pos_bound y PGSIZE).
  pose proof (Z.div_mod y PGSIZE). unfold PGSIZE in *.
  split; [lia|]. replace (y - y mod 4096) with (y / 4096 * 4096) by lia. apply Z.mod_mul. lia.
Qed.

Lemma pgrounddown_spec x :
  x - PGSIZE < PGROUNDDOWN x <= x /\ PGROUNDDOWN x mod PGSIZE = 0.
Proof.
  unfold PGROUNDDOWN. rewrite land_page. pose proof (Z.mod_pos_bound x PGSIZE).
  pose proof (Z.div_mod x PGSIZE). unfold PGSIZE in *.
  split; [lia|]. replace (x - x mod 4096) with (x / 4096 * 4096) by lia. apply Z.mod_mul. lia.
Qed.

Section KallocFacts.
Context {L : Layout}.

(** ** Initialisation *)

(** the pages of free memory, lowest first *)
Definition first_page : Z := PGROUNDUP kend.
Definition npages : nat := Z.to_nat ((PHYSTOP - first_page) / PGSIZE).
Definition page (i : nat) : Z := first_page + Z.of_nat i * PGSIZE.
Definition pages : list Z := page <$> seq 0 npages.

Lemma first_page_spec : kend <= first_page < kend + PGSIZE /\ first_page mod PGSIZE = 0.
Proof.
  apply pgroundup_spec. pose proof kend_range. unfold PHYSTOP, KERNBASE, PGSIZE in *. lia.
Qed.

Lemma page_in i : (i < npages)%nat -> page_ok (page i) /\ page i + PGSIZE <= PHYSTOP.
Proof.
  intros Hi. destruct first_page_spec as [Hf Hm]. unfold npages in Hi.
  pose proof (Z.mul_div_le (PHYSTOP - first_page) PGSIZE ltac:(done)) as Hd.
  unfold page, page_ok. rewrite Z.mod_add, Hm by done. unfold PGSIZE in *. lia.
Qed.

Lemma page_out : PHYSTOP < page npages + PGSIZE.
Proof.
  unfold page, npages. pose proof (Z.mul_succ_div_gt (PHYSTOP - first_page) PGSIZE ltac:(done)).
  destruct (decide (PHYSTOP < first_page)) as [Hlt|Hge].
  - unfold PGSIZE in *. lia.
  - pose proof (Z.div_pos (PHYSTOP - first_page) PGSIZE ltac:(lia) ltac:(done)). unfold PGSIZE in *. lia.
Qed.

Lemma page_inj i j : page i = page j -> i = j.
Proof. unfold page, PGSIZE. lia. Qed.

Lemma pages_nodup : NoDup pages.
Proof. apply NoDup_fmap_2; [|apply NoDup_seq]. intros i j. apply page_inj. Qed.

Lemma kinit_ok s :
  k_freelist s = 0 -> Lkmem ∉ k_held s ->
  exists s', kinit s = Ok tt s' /\ Lkmem ∉ k_held s' /\ free_list s' (reverse pages).
Proof.
  intros Hf Hl.
  assert (wp kinit s (fun _ s' => Lkmem ∉ k_held s' /\ free_list s' (reverse pages))) as Hwp.
  2:{ apply wp_ok in Hwp as ([] & s' & E & H). eauto. }
  unfold kinit, freerange. fold first_page. destruct first_page_spec as [Hfp _].
  pose proof kend_range as Hkr.
  apply (wp_loop _ (fun p => Z.to_nat (PHYSTOP - p))
    (fun p s' => exists i, p = page i /\ (i <= npages)%nat /\ Lkmem ∉ k_held s' /\
       free_list s' (reverse (page <$> seq 0 i)))).
  - exists 0%nat. split; [unfold page; lia|]. split; [lia|]. split; [done|].
    split; simpl; [done|constructor|constructor].
  - unfold PHYSTOP, KERNBASE, PGSIZE in *. lia.
  - intros p s1 (i & -> & Hi & Hl1 & Hfl).
    destruct (page i + PGSIZE <=? PHYSTOP) eqn:E; zbool.
    + assert (i < npages)%nat as Hlt.
      { destruct (decide (i = npages)) as [->|?]; [|lia]. pose proof page_out. lia. }
      destruct (page_in i Hlt) as [Hpg Hle].
      destruct (kfree_spec s1 (reverse (page <$> seq 0 i)) (page i)) as (s2 & E2 & F2 & Es2); [done|done| |done|].
      { rewrite elem_of_reverse, list_elem_of_fmap. intros (j & Ej%page_inj & Hj%elem_of_seq). lia. }
      apply wp_bind. eapply wp_run; [exact E2|]. apply wp_ret. split.
      * exists (S i). split; [unfold page; lia|]. split; [lia|].
        split; [rewrite Es2; by ksimpl|]. by rewrite seq_S, fmap_app, reverse_app.
      * unfold PGSIZE in *. lia.
    + apply wp_ret. assert (i = npages) as ->; [|done].
      destruct (decide (i < npages)%nat) as [Hlt|?]; [|lia]. destruct (page_in i Hlt). lia.
Qed.

(** ** Histories *)

(** the kernel state and the pages that are allocated *)
Inductive page_step : kst * list Z -> kst * list Z -> Prop :=
  | step_kalloc s al pa s' :
      kalloc s = Ok pa s' -> pa <> 0 -> page_step (s, al) (s', pa :: al)
  | step_kfree s al1 pa al2 s' :
      kfree pa s = Ok tt s' -> page_step (s, al1 ++ pa :: al2) (s', al1 ++ al2)
  | step_write s al pa v :
      pa ∈ al -> page_step (s, al) (set_k_heap <[pa := v]> s, al).

Definition page_inv (c : kst * list Z) : Prop :=
  Lkmem ∉ k_held c.1 /\ exists l, free_list c.1 l /\ l ++ c.2 ≡ₚ pages.

Lemma page_inv_disjoint l al pa : l ++ al ≡ₚ pages -> pa ∈ l -> pa ∈ al -> False.
Proof.
  intros Hp H1 H2. pose proof pages_nodup as Hd. rewrite <- Hp in Hd.
  apply NoDup_app in Hd as (_ & Hd & _). by apply (Hd pa).
Qed.

Lemma page_in_ok pa : pa ∈ pages -> page_ok pa.
Proof. intros (i & -> & Hi%elem_of_seq)%list_elem_of_fmap. apply page_in. lia. Qed.

Lemma page_step_inv c c' : page_inv c -> page_step c c' -> page_inv c'.
Proof.
  intros [Hl (l & Hf & Hp)] Hs. destruct Hs as [s al pa s' E H0|s al1 pa al2 s' E|s al pa v Hin]; simpl in *.
  - pose proof (kalloc_spec s l Hf Hl) as H. destruct l as [|pa' l]; [rewrite H in E; simplify_eq; done|].
    destruct H as (s1 & E1 & F1 & next & Es1). rewrite E1 in E. injection E as <- <-.
    split; [simpl; rewrite Es1; by ksimpl|]. exists l. split; [done|]. simpl. rewrite <- Hp.
    simpl. by rewrite <- Permutation_middle.
  - assert (pa ∈ pages) as Hin by (rewrite <- Hp; set_solver).
    destruct (kfree_spec s l pa Hf (page_in_ok _ Hin)) as (s1 & E1 & F1 & Es1); [|done|].
    { intros H. eapply (page_inv_disjoint l _ pa Hp H). set_solver. }
    rewrite E1 in E. injection E as <-. split; [simpl; rewrite Es1; by ksimpl|].
    exists (pa :: l). split; [done|]. simpl. rewrite <- Hp. by rewrite <- Permutation_middle, <- Permutation_middle.
  - split; [done|]. exists l. split; [|done]. apply (free_list_ext s); [|done|done].
    intros pa' Hpa'. cbn [fst snd]; ksimpl. rewrite lookup_insert_ne; [done|]. intros ->.
    by apply (page_inv_disjoint l al pa').
Qed.

(** C22. No page is handed out twice and none is lost: after [kinit] and any
    sequence of allocations, frees of allocated pages and writes to allocated
    pages, the next [kalloc] either returns a page-aligned page of free memory
    that is not allocated, or returns 0, and then every page of free memory is
    allocated. *)
Theorem kalloc_history s0 s1 s al :
  k_freelist s0 = 0 -> Lkmem ∉ k_held s0 -> kinit s0 = Ok tt s1 ->
  rtc page_step (s1, []) (s, al) ->
  exists pa s', kalloc s = Ok pa s' /\
    ((pa ∈ pages /\ pa ∉ al /\ pa mod PGSIZE = 0) \/ (pa = 0 /\ s' = s /\ al ≡ₚ pages)).
Proof.
  intros Hf0 Hl0 E1 Hr. destruct (kinit_ok s0 Hf0 Hl0) as (s1' & E1' & Hl1 & F1).
  rewrite E1 in E1'. injection E1' as <-.
  assert (page_inv (s1, [])) as HI.
  { split; [done|]. exists (reverse pages). split; [done|]. simpl.
    by rewrite app_nil_r, reverse_Permutation. }
  assert (page_inv (s, al)) as [Hl (l & Hf & Hp)] by (clear -HI Hr; induction Hr; eauto using page_step_inv).
  simpl in *. pose proof (kalloc_spec s l Hf Hl) as H. destruct l as [|pa l].
  - exists 0, s. split; [done|]. by right.
  - destruct H as (s' & E & _ & _). exists pa, s'. split; [done|]. left.
    assert (pa ∈ pages) as Hin by (rewrite <- Hp; by left). split; [done|].
    split; [|apply (page_in_ok _ Hin)]. intros Ha. by apply (page_inv_disjoint (pa :: l) al pa Hp); [left|].
Qed.

End KallocFacts.
