(* ===== verification/Vm.v ===== *)
(** * Page tables and user memory ([vm.c])

    A page-table page is a heap page [PPte] of 512 entries, a page of user
    memory a heap page [PBytes] of 4096 bytes.  A [pte_t *] is the pair of the
    page and the index of the entry.  [copyin] and [copyinstr] give the bytes
    they have stored at [dst], also when they fail half way. *)

From S2P Require Import Prelude Monad Types Kernel Kalloc.
From stdpp Require Import base numbers list gmap strings.
From Stdlib Require Import ZArith Lia.

Open Scope Z_scope.

Definition PTE_V : Z := 1.
Definition PTE_R : Z := 2.
Definition PTE_W : Z := 4.
Definition PTE_X : Z := 8.
Definition PTE_U : Z := 16.

Definition PA2PTE (pa : Z) : Z := Z.shiftl (Z.shiftr pa 12) 10.
Definition PTE2PA (pte : Z) : Z := Z.shiftl (Z.shiftr pte 10) 12.
Definition PTE_FLAGS (pte : Z) : Z := Z.land pte 0x3FF.
Definition PXSHIFT (level : Z) : Z := 12 + 9 * level.
Definition PX (level va : Z) : Z := Z.land (Z.shiftr va (PXSHIFT level)) 0x1FF.
Definition MAXVA : Z := 2 ^ (9 + 9 + 9 + 12 - 1).
Definition TRAMPOLINE : Z := MAXVA - PGSIZE.
Definition KSTACK (p : Z) : Z := TRAMPOLINE - (p + 1) * 2 * PGSIZE.
Definition TRAPFRAME : Z := TRAMPOLINE - PGSIZE.
Definition UART0 : Z := 0x10000000.
Definition VIRTIO0 : Z := 0x10001000.
Definition PLIC : Z := 0x0c000000.

Definition has (pte flag : Z) : bool := negb (Z.land pte flag =? 0).

Definition zero_ptes : pobj := PPte (replicate 512 0).
Definition zero_page : pobj := PBytes (replicate (Z.to_nat PGSIZE) 0).

Definition as_ptes (o : pobj) : option (list Z) := match o with PPte l => Some l | _ => None end.
Definition as_bytes (o : pobj) : option (list Z) := match o with PBytes l => Some l | _ => None end.

Definition pteptr : Type := Z * nat.

Definition load_pte (q : pteptr) : K Z :=
  deref (fun s => (k_heap s !! q.1 ≫= as_ptes) ≫= (fun l : list Z => l !! q.2)).

Definition store_pte (q : pteptr) (v : Z) : K unit :=
  l ← deref (fun s => k_heap s !! q.1 ≫= as_ptes);
  store q.1 (PPte (<[q.2 := v]> l)).

Definition load_bytes (a : Z) : K (list Z) := deref (fun s => k_heap s !! a ≫= as_bytes).

Section Vm.
Context {L : Layout}.

(** the loop of [walk] over the levels 2 and 1 *)
Fixpoint walk_levels (levels : list Z) (pagetable va : Z) (alloc : bool) : K (option Z) :=
  match levels with
  | [] => mret (Some pagetable)
  | level :: levels =>
      let pte := (pagetable, Z.to_nat (PX level va)) in
      v ← load_pte pte;
      if has v PTE_V then walk_levels levels (PTE2PA v) va alloc
      else if negb alloc then mret None else
      pt ← kalloc;
      if pt =? 0 then mret None else
      store pt zero_ptes;;
      store_pte pte (Z.lor (PA2PTE pt) PTE_V);;
      walk_levels levels pt va alloc
  end.

Definition walk (pagetable va : Z) (alloc : bool) : K (option pteptr) :=
  if MAXVA <=? va then panic "walk" else
  r ← walk_levels [2; 1] pagetable va alloc;
  mret ((fun pt => (pt, Z.to_nat (PX 0 va))) <$> r).

Definition walkaddr (pagetable va : Z) : K Z :=
  if MAXVA <=? va then mret 0 else
  r ← walk pagetable va false;
  match r with
  | None => mret 0
  | Some pte =>
      v ← load_pte pte;
      if negb (has v PTE_V) then mret 0
      else if negb (has v PTE_U) then mret 0
      else mret (PTE2PA v)
  end.

Definition mappages (pagetable va size pa perm : Z) : K Z :=
  if negb (va mod PGSIZE =? 0) then panic "mappages: va not aligned" else
  if negb (size mod PGSIZE =? 0) then panic "mappages: size not aligned" else
  if size =? 0 then panic "mappages: size" else
  let last := u64 (va + size - PGSIZE) in
  loop (S (Z.to_nat (size / PGSIZE))) (fun '(a, pa) =>
    r ← walk pagetable a true;
    match r with
    | None => mret (inr (-1))
    | Some pte =>
        v ← load_pte pte;
        if has v PTE_V then panic "mappages: remap" else
        store_pte pte (Z.lor (Z.lor (PA2PTE pa) perm) PTE_V);;
        if a =? last then mret (inr 0)
        else mret (inl (u64 (a + PGSIZE), u64 (pa + PGSIZE)))
    end) (va, pa).

Definition uvmcreate : K Z :=
  pagetable ← kalloc;
  if pagetable =? 0 then mret 0 else
  store pagetable zero_ptes;;
  mret pagetable.

Definition uvmunmap (pagetable va npages : Z) (do_free : bool) : K unit :=
  if negb (va mod PGSIZE =? 0) then panic "uvmunmap: not aligned" else
  loop (S (Z.to_nat npages)) (fun a =>
    if a <? u64 (va + npages * PGSIZE) then
      r ← walk pagetable a false;
      match r with
      | None => mret (inl (u64 (a + PGSIZE)))
      | Some pte =>
          v ← load_pte pte;
          if negb (has v PTE_V) then mret (inl (u64 (a + PGSIZE))) else
          when do_free (kfree (PTE2PA v));;
          store_pte pte 0;;
          mret (inl (u64 (a + PGSIZE)))
      end
    else mret (inr tt)) va.

Definition uvmdealloc (pagetable oldsz newsz : Z) : K Z :=
  if oldsz <=? newsz then mret oldsz else
  when (PGROUNDUP newsz <? PGROUNDUP oldsz)
    (uvmunmap pagetable (PGROUNDUP newsz)
       (s32 ((PGROUNDUP oldsz - PGROUNDUP newsz) / PGSIZE)) true);;
  mret newsz.

Definition uvmalloc (pagetable oldsz newsz xperm : Z) : K Z :=
  if newsz <? oldsz then mret oldsz else
  let oldsz := PGROUNDUP oldsz in
  loop (S (Z.to_nat ((newsz - oldsz) / PGSIZE + 1))) (fun a =>
    if a <? newsz then
      mem ← kalloc;
      if mem =? 0 then
        uvmdealloc pagetable a oldsz;; mret (inr 0)
      else
        store mem zero_page;;
        r ← mappages pagetable a PGSIZE mem (Z.lor (Z.lor PTE_R PTE_U) xperm);
        if negb (r =? 0) then
          kfree mem;;
          uvmdealloc pagetable a oldsz;;
          mret (inr 0)
        else mret (inl (u64 (a + PGSIZE)))
    else mret (inr newsz)) oldsz.

(** [freewalk] recurses once per page-table level; Sv39 has three *)
Fixpoint freewalk (depth : nat) (pagetable : Z) : K unit :=
  match depth with
  | O => stuck
  | S depth =>
      for_each (seq 0 512) (fun i =>
        pte ← load_pte (pagetable, i);
        if has pte PTE_V && negb (has pte (Z.lor (Z.lor PTE_R PTE_W) PTE_X)) then
          freewalk depth (PTE2PA pte);;
          store_pte (pagetable, i) 0
        else if has pte PTE_V then panic "freewalk: leaf"
        else mret tt);;
      kfree pagetable
  end.

Definition uvmfree (pagetable sz : Z) : K unit :=
  when (0 <? sz) (uvmunmap pagetable 0 (PGROUNDUP sz / PGSIZE) true);;
  freewalk 3 pagetable.

Definition uvmcopy (old new sz : Z) : K Z :=
  loop (S (Z.to_nat (sz / PGSIZE + 1))) (fun i =>
    if i <? sz then
      r ← walk old i false;
      match r with
      | None => mret (inl (i + PGSIZE))
      | Some pte =>
          v ← load_pte pte;
          if negb (has v PTE_V) then mret (inl (i + PGSIZE)) else
          mem ← kalloc;
          if mem =? 0 then
            uvmunmap new 0 (i / PGSIZE) true;; mret (inr (-1))
          else
            src ← load (PTE2PA v);
            store mem src;;
            r ← mappages new i PGSIZE mem (PTE_FLAGS v);
            if negb (r =? 0) then
              kfree mem;;
              uvmunmap new 0 (i / PGSIZE) true;;
              mret (inr (-1))
            else mret (inl (i + PGSIZE))
      end
    else mret (inr 0)) 0.

Definition uvmclear (pagetable va : Z) : K unit :=
  r ← walk pagetable va false;
  match r with
  | None => panic "uvmclear"
  | Some pte => v ← load_pte pte; store_pte pte (Z.land v (Z.lnot PTE_U))
  end.

Definition ismapped (pagetable va : Z) : K bool :=
  r ← walk pagetable va false;
  match r with
  | None => mret false
  | Some pte => v ← load_pte pte; mret (has v PTE_V)
  end.

Definition vmfault (pagetable va : Z) : K Z :=
  p ← myproc;
  pr ← get_proc p;
  if p_sz pr <=? va then mret 0 else
  let va := PGROUNDDOWN va in
  m ← ismapped pagetable va;
  if (m : bool) then mret 0 else
  mem ← kalloc;
  if mem =? 0 then mret 0 else
  store mem zero_page;;
  r ← mappages (p_pagetable pr) va PGSIZE mem (Z.lor (Z.lor PTE_W PTE_U) PTE_R);
  if negb (r =? 0) then kfree mem;; mret 0 else mret mem.

Definition copyout (pagetable dstva : Z) (src : list Z) : K Z :=
  loop (S (S (length src))) (fun '(dstva, src) =>
    if 0 <? Z.of_nat (length src) then
      let va0 := PGROUNDDOWN dstva in
      if MAXVA <=? va0 then mret (inr (-1)) else
      pa0 ← walkaddr pagetable va0;
      pa0 ← (if pa0 =? 0 then vmfault pagetable va0 else mret pa0);
      if pa0 =? 0 then mret (inr (-1)) else
      r ← walk pagetable va0 false;
      match r with
      | None => stuck
      | Some pte =>
          v ← load_pte pte;
          if negb (has v PTE_W) then mret (inr (-1)) else
          let n := Z.min (PGSIZE - (dstva - va0)) (Z.of_nat (length src)) in
          page ← load_bytes pa0;
          store pa0 (PBytes (splice (Z.to_nat (dstva - va0)) (take (Z.to_nat n) src) page));;
          mret (inl (u64 (va0 + PGSIZE), drop (Z.to_nat n) src))
      end
    else mret (inr 0)) (dstva, src).

Definition copyin (pagetable srcva len : Z) : K (list Z * Z) :=
  loop (S (S (Z.to_nat len))) (fun '(srcva, len, dst) =>
    if 0 <? len then
      let va0 := PGROUNDDOWN srcva in
      pa0 ← walkaddr pagetable va0;
      pa0 ← (if pa0 =? 0 then vmfault pagetable va0 else mret pa0);
      if pa0 =? 0 then mret (inr (dst, -1)) else
      let n := Z.min (PGSIZE - (srcva - va0)) len in
      page ← load_bytes pa0;
      mret (inl (u64 (va0 + PGSIZE), len - n,
                 dst ++ slice (Z.to_nat (srcva - va0)) (Z.to_nat n) page))
    else mret (inr (dst, 0))) (srcva, len, []).

(** the inner loop of [copyinstr]: copy from [p] until a nul byte or [n] bytes;
    gives the bytes stored and whether the nul was reached *)
Fixpoint copystr (p : list Z) : list Z * bool :=
  match p with
  | [] => ([], false)
  | c :: p => if c =? 0 then ([0], true) else let '(d, b) := copystr p in (c :: d, b)
  end.

Definition copyinstr (pagetable srcva max : Z) : K (list Z * Z) :=
  loop (S (S (Z.to_nat max))) (fun '(srcva, max, dst) =>
    if 0 <? max then
      let va0 := PGROUNDDOWN srcva in
      pa0 ← walkaddr pagetable va0;
      if pa0 =? 0 then mret (inr (dst, -1)) else
      let n := Z.min (PGSIZE - (srcva - va0)) max in
      page ← load_bytes pa0;
      let '(d, got_null) := copystr (slice (Z.to_nat (srcva - va0)) (Z.to_nat n) page) in
      if (got_null : bool) then mret (inr (dst ++ d, 0))
      else mret (inl (u64 (va0 + PGSIZE), max - n, dst ++ d))
    else mret (inr (dst, -1))) (srcva, max, []).

Definition kvmmap (kpgtbl va pa sz perm : Z) : K unit :=
  r ← mappages kpgtbl va sz pa perm;
  if negb (r =? 0) then panic "kvmmap" else mret tt.

(** [proc_mapstacks] of [proc.c] *)
Definition proc_mapstacks (kpgtbl : Z) : K unit :=
  for_each (seqZ 0 (Z.of_nat NPROC)) (fun i =>
    pa ← kalloc;
    if pa =? 0 then panic "kalloc" else
    kvmmap kpgtbl (KSTACK i) pa PGSIZE (Z.lor PTE_R PTE_W)).

Definition kvmmake : K Z :=
  kpgtbl ← kalloc;
  if kpgtbl =? 0 then stuck else
  store kpgtbl zero_ptes;;
  kvmmap kpgtbl UART0 UART0 PGSIZE (Z.lor PTE_R PTE_W);;
  kvmmap kpgtbl VIRTIO0 VIRTIO0 PGSIZE (Z.lor PTE_R PTE_W);;
  kvmmap kpgtbl PLIC PLIC 0x4000000 (Z.lor PTE_R PTE_W);;
  kvmmap kpgtbl KERNBASE KERNBASE (etext - KERNBASE) (Z.lor PTE_R PTE_X);;
  kvmmap kpgtbl etext etext (PHYSTOP - etext) (Z.lor PTE_R PTE_W);;
  kvmmap kpgtbl TRAMPOLINE tramp_addr PGSIZE (Z.lor PTE_R PTE_X);;
  proc_mapstacks kpgtbl;;
  mret kpgtbl.

End Vm.

(** an address that is either a user virtual address or a place in the kernel:
    the structure on the kernel stack the caller passes ([k_kbuf]) or a page *)
Inductive kaddr := AUser (va : Z) | AStack (off : Z) | APage (pa : Z).

Definition kaddr_add (a : kaddr) (n : Z) : kaddr :=
  match a with
  | AUser va => AUser (u64 (va + n))
  | AStack off => AStack (off + n)
  | APage pa => APage (pa + n)
  end.

Section Either.
Context {L : Layout}.

(** [either_copyout] and [either_copyin] of [proc.c]; the flag [user_dst] is
    the constructor of the address *)
Definition either_copyout (dst : kaddr) (src : list Z) : K Z :=
  p ← myproc;
  pr ← get_proc p;
  match dst with
  | AUser va => copyout (p_pagetable pr) va src
  | AStack off => modify (set_k_kbuf (splice (Z.to_nat off) src));; mret 0
  | APage pa =>
      let base := PGROUNDDOWN pa in
      page ← load_bytes base;
      store base (PBytes (splice (Z.to_nat (pa - base)) src page));;
      mret 0
  end.

Definition either_copyin (src : kaddr) (len : Z) : K (list Z * Z) :=
  p ← myproc;
  pr ← get_proc p;
  match src with
  | AUser va => copyin (p_pagetable pr) va len
  | AStack off => b ← gets k_kbuf; mret (slice (Z.to_nat off) (Z.to_nat len) b, 0)
  | APage pa =>
      let base := PGROUNDDOWN pa in
      page ← load_bytes base;
      mret (slice (Z.to_nat (pa - base)) (Z.to_nat len) page, 0)
  end.

End Either.
