(* ===== verification/VmFacts.v ===== *)
(** * Page tables: mapping and translating

    The three-level tree is read through [subtable] and [translate], which
    look only at the heap.  [pt_ok] says that the tables of a tree are pages of
    512 entries, no two of them the same page.  [mappages] keeps it, adds the
    translations it was asked for and changes no other. *)

From S2P Require Import Prelude Monad Types Kernel Kalloc KallocFacts Vm.
From stdpp Require Import base numbers list gmap strings.
From Stdlib Require Import ZArith Lia.

Open Scope Z_scope.

(** ** Page-table entries *)

Lemma PX_div level va : 0 <= level -> PX level va = (va / 2 ^ (12 + 9 * level)) mod 512.
Proof.
  intros H. unfold PX, PXSHIFT. change 0x1FF with (Z.ones 9).
  by rewrite Z.land_ones, Z.shiftr_div_pow2 by lia.
Qed.

Lemma PX_range level va : 0 <= level -> 0 <= PX level va < 512.
Proof. intros H. rewrite PX_div by done. by apply Z.mod_pos_bound. Qed.

(** the index of an entry in its table *)
Definition pxi (level va : Z) : nat := Z.to_nat (PX level va).

Lemma pxi_inj level va va' : 0 <= level -> pxi level va = pxi level va' -> PX level va = PX level va'.
Proof. intros H. unfold pxi. pose proof (PX_range level va H). pose proof (PX_range level va' H). lia. Qed.

(** the three indices determine the page *)
Lemma PX_page va va' :
  0 <= va < MAXVA -> 0 <= va' < MAXVA ->
  PX 2 va = PX 2 va' -> PX 1 va = PX 1 va' -> PX 0 va = PX 0 va' -> va / PGSIZE = va' / PGSIZE.
Proof.
  rewrite !PX_div by lia. unfold PGSIZE. change MAXVA with 274877906944.
  change (2 ^ (12 + 9 * 2)) with (4096 * 262144). change (2 ^ (12 + 9 * 1)) with (4096 * 512).
  change (2 ^ (12 + 9 * 0)) with 4096. intros Ha Ha'.
  rewrite <- !Zdiv_Zdiv by lia.
  assert (0 <= va / 4096 < 67108864) by (split; [apply Z.div_pos; lia|apply Z.div_lt_upper_bound; lia]).
  assert (0 <= va' / 4096 < 67108864) by (split; [apply Z.div_pos; lia|apply Z.div_lt_upper_bound; lia]).
  generalize dependent (va / 4096). generalize dependent (va' / 4096). intros y ? x ? H2 H1 H0.
  Z.to_euclidean_division_equations. lia.
Qed.

Lemma shiftr_lor_small x f n : 0 <= n -> 0 <= f < 2 ^ n -> Z.shiftr (Z.lor (Z.shiftl x n) f) n = x.
Proof.
  intros Hn Hf. rewrite Z.shiftr_lor, Z.shiftr_shiftl_l, Z.sub_diag, Z.shiftl_0_r by lia.
  rewrite (Z.shiftr_div_pow2 f), Z.div_small by lia. apply Z.lor_0_r.
Qed.

Lemma PTE2PA_of pa f : pa mod PGSIZE = 0 -> 0 <= f < 1024 -> PTE2PA (Z.lor (PA2PTE pa) f) = pa.
Proof.
  intros Ha Hf. unfold PTE2PA, PA2PTE. rewrite shiftr_lor_small by (change (2 ^ 10) with 1024; lia).
  rewrite Z.shiftl_mul_pow2, Z.shiftr_div_pow2 by lia. change (2 ^ 12) with PGSIZE.
  pose proof (Z.div_mod pa PGSIZE ltac:(done)). lia.
Qed.

(** the entry [mappages] stores *)
Definition leaf_pte (pa perm : Z) : Z := Z.lor (Z.lor (PA2PTE pa) perm) PTE_V.

Lemma lor_range x y n : 0 <= n -> 0 <= x < 2 ^ n -> 0 <= y < 2 ^ n -> 0 <= Z.lor x y < 2 ^ n.
Proof.
  intros Hn Hx Hy. rewrite <- (Z.mod_small x (2 ^ n) Hx), <- (Z.mod_small y (2 ^ n) Hy).
  rewrite <- !Z.land_ones, <- Z.land_lor_distr_l, Z.land_ones by lia.
  apply Z.mod_pos_bound, Z.pow_pos_nonneg; lia.
Qed.

Lemma PTE2PA_leaf pa perm : pa mod PGSIZE = 0 -> 0 <= perm < 1024 -> PTE2PA (leaf_pte pa perm) = pa.
Proof.
  intros Ha Hp. unfold leaf_pte. rewrite <- Z.lor_assoc. apply PTE2PA_of; [done|].
  by apply (lor_range _ _ 10).
Qed.

Lemma has_V x : has (Z.lor x PTE_V) PTE_V = true.
Proof.
  unfold has. rewrite Z.land_lor_distr_l. change (Z.land PTE_V PTE_V) with 1.
  apply negb_true_iff, Z.eqb_neq. intros H. apply (f_equal (fun z => Z.testbit z 0)) in H.
  rewrite Z.lor_spec, orb_true_r in H. done.
Qed.

(** ** Reading the tree *)

Definition pte_at (h : gmap Z pobj) (q : pteptr) : option Z :=
  (h !! q.1 ≫= as_ptes) ≫= (fun l : list Z => l !! q.2).

Definition is_table (h : gmap Z pobj) (a : Z) : Prop :=
  exists l, h !! a = Some (PPte l) /\ length l = 512%nat.

(** the table the entry [i] of table [a] points at *)
Definition subtable (h : gmap Z pobj) (a : Z) (i : nat) : option Z :=
  v ← pte_at h (a, i); if has v PTE_V then Some (PTE2PA v) else None.

Definition leaf_slot (h : gmap Z pobj) (pt va : Z) : option pteptr :=
  a ← subtable h pt (pxi 2 va); b ← subtable h a (pxi 1 va); Some (b, pxi 0 va).

(** the valid entry for [va], if there is one *)
Definition translate (h : gmap Z pobj) (pt va : Z) : option Z :=
  v ← (leaf_slot h pt va ≫= pte_at h); if has v PTE_V then Some v else None.

Record pt_ok (h : gmap Z pobj) (pt : Z) : Prop := {
  po_root : is_table h pt;
  po_1 i a : subtable h pt i = Some a -> is_table h a /\ a <> pt;
  po_0 i a j b : subtable h pt i = Some a -> subtable h a j = Some b ->
    is_table h b /\ b <> pt /\ forall i', subtable h pt i' <> Some b;
  po_inj1 i i' a : subtable h pt i = Some a -> subtable h pt i' = Some a -> i = i';
  po_inj0 i a j i' a' j' b :
    subtable h pt i = Some a -> subtable h a j = Some b ->
    subtable h pt i' = Some a' -> subtable h a' j' = Some b -> i = i' /\ j = j'
}.

(** ** Changing the tree *)

Lemma pte_at_store h a l i v x k :
  h !! a = Some (PPte l) -> (i < length l)%nat ->
  pte_at (<[a := PPte (<[i := v]> l)]> h) (x, k) =
  if decide (x = a /\ k = i) then Some v else pte_at h (x, k).
Proof.
  intros Ha Hi. unfold pte_at. simpl. destruct (decide (x = a)) as [->|Hne].
  - rewrite lookup_insert_eq, Ha. simpl. destruct (decide (k = i)) as [->|Hk].
    + rewrite decide_True by done. by apply list_lookup_insert_eq.
    + rewrite decide_False by tauto. by apply list_lookup_insert_ne.
  - rewrite lookup_insert_ne by done. rewrite decide_False by tauto. done.
Qed.

Lemma is_table_store h a l i v x :
  h !! a = Some (PPte l) -> is_table h x -> is_table (<[a := PPte (<[i := v]> l)]> h) x.
Proof.
  intros Ha [l' [Hx Hl]]. destruct (decide (x = a)) as [->|Hne].
  - simplify_eq. exists (<[i := v]> l). by rewrite lookup_insert_eq, length_insert.
  - exists l'. by rewrite lookup_insert_ne.
Qed.

Lemma subtable_None_not h n k : h !! n ≫= as_ptes = None -> subtable h n k = None.
Proof. unfold subtable, pte_at. simpl. by intros ->. Qed.

Lemma not_table h n : h !! n ≫= as_ptes = None -> ~ is_table h n.
Proof. intros H (l & E & _). by rewrite E in H. Qed.

(** a new empty table [n] hung into entry [i] of table [a] *)
Record linked (h : gmap Z pobj) (a : Z) (i : nat) (n : Z) (h' : gmap Z pobj) : Prop := {
  ln_fresh : h !! n ≫= as_ptes = None;
  ln_new : is_table h' n;
  ln_empty k v : pte_at h' (n, k) = Some v -> has v PTE_V = false;
  ln_sub x k : subtable h' x k = if decide (x = a /\ k = i) then Some n else subtable h x k;
  ln_pte x k : x <> n -> ~ (x = a /\ k = i) -> pte_at h' (x, k) = pte_at h (x, k);
  ln_table x : is_table h x -> is_table h' x
}.

Lemma linked_intro h a l i n :
  h !! a = Some (PPte l) -> (i < length l)%nat -> h !! n ≫= as_ptes = None ->
  n mod PGSIZE = 0 ->
  linked h a i n (<[a := PPte (<[i := Z.lor (PA2PTE n) PTE_V]> l)]> (<[n := zero_ptes]> h)).
Proof.
  intros Ha Hi Hn Hm. assert (Hne : a <> n) by (intros ->; by rewrite Ha in Hn).
  set (h1 := <[n := zero_ptes]> h).
  assert (Ha1 : h1 !! a = Some (PPte l)) by (unfold h1; by rewrite lookup_insert_ne).
  assert (Hz : forall k v, pte_at h1 (n, k) = Some v -> has v PTE_V = false).
  { intros k v. unfold pte_at, h1. simpl fst. rewrite lookup_insert_eq. cbn [zero_ptes mbind option_bind as_ptes snd].
    intros H. apply lookup_replicate in H as [-> _]. done. }
  assert (Hpte : forall x k, x <> n -> pte_at h1 (x, k) = pte_at h (x, k)).
  { intros x k Hx. unfold pte_at, h1. simpl fst. by rewrite lookup_insert_ne. }
  assert (Hsub : forall x k, subtable h1 x k = subtable h x k).
  { intros x k. destruct (decide (x = n)) as [->|Hx].
    - rewrite (subtable_None_not h) by done. unfold subtable.
      destruct (pte_at h1 (n, k)) as [v|] eqn:E; simpl; [|done]. by rewrite (Hz _ _ E).
    - unfold subtable. by rewrite Hpte. }
  assert (Hsub2 : forall x k,
    subtable (<[a := PPte (<[i := Z.lor (PA2PTE n) PTE_V]> l)]> h1) x k =
    if decide (x = a /\ k = i) then Some n else subtable h x k).
  { intros x k. unfold subtable at 1. rewrite (pte_at_store _ _ _ _ _ _ _ Ha1) by done.
    case_decide; [|apply Hsub]. simpl. by rewrite has_V, PTE2PA_of by (done || unfold PTE_V; lia). }
  split; try done.
  - apply (is_table_store _ _ _ _ _ _ Ha1). exists (replicate 512 0). unfold h1. by rewrite lookup_insert_eq.
  - intros k v. rewrite (pte_at_store _ _ _ _ _ _ _ Ha1), decide_False by (done || (intros [? _]; congruence)). apply Hz.
  - intros x k Hx Hk. rewrite (pte_at_store _ _ _ _ _ _ _ Ha1), decide_False by done. by apply Hpte.
  - intros x Hx. apply (is_table_store _ _ _ _ _ _ Ha1). destruct Hx as (l' & E & Hl).
    exists l'. split; [|done]. unfold h1. rewrite lookup_insert_ne; [done|]. intros ->. by rewrite E in Hn.
Qed.

(** the tables of the tree at [pt] of the two upper levels *)
Definition upper (h : gmap Z pobj) (pt a : Z) : Prop :=
  a = pt \/ exists i, subtable h pt i = Some a.

Lemma upper_table h pt a : pt_ok h pt -> upper h pt a -> is_table h a.
Proof. intros Hok [->|[i Hi]]; [by apply po_root|]. by eapply po_1. Qed.

Lemma subtable_linked h a i n h' x k y :
  linked h a i n h' -> subtable h' x k = Some y ->
  (x = a /\ k = i /\ y = n) \/ subtable h x k = Some y.
Proof. intros Hl. rewrite (ln_sub _ _ _ _ _ Hl). case_decide; naive_solver. Qed.

Lemma subtable_linked_keep h a i n h' x k y :
  linked h a i n h' -> subtable h a i = None -> subtable h x k = Some y -> subtable h' x k = Some y.
Proof. intros Hl Hn. rewrite (ln_sub _ _ _ _ _ Hl). case_decide; naive_solver. Qed.

Lemma linked_not_new h a i n h' k : linked h a i n h' -> is_table h a -> subtable h' n k = None.
Proof.
  intros Hl Ha. rewrite (ln_sub _ _ _ _ _ Hl), decide_False.
  - apply subtable_None_not, Hl.
  - intros [-> _]. by eapply not_table, Ha; apply Hl.
Qed.

(** the new table points nowhere and nothing else pointed at it *)
Lemma linked_fresh h pt a i n h' :
  pt_ok h pt -> linked h a i n h' ->
  n <> pt /\ (forall k, subtable h pt k <> Some n) /\
  (forall k x j, subtable h pt k = Some x -> subtable h x j <> Some n).
Proof.
  intros Hok Hl. pose proof (not_table _ _ (ln_fresh _ _ _ _ _ Hl)) as Hn. split_and!.
  - intros ->. apply Hn. by apply po_root.
  - intros k E. apply Hn. by eapply (po_1 h pt Hok).
  - intros k x j E E'. apply Hn. by eapply (po_0 h pt Hok).
Qed.

Lemma pt_ok_linked h pt a i n h' :
  pt_ok h pt -> upper h pt a -> subtable h a i = None -> linked h a i n h' -> pt_ok h' pt.
Proof.
  intros Hok Hup Hnone Hl. pose proof (upper_table _ _ _ Hok Hup) as Ha.
  destruct (linked_fresh _ _ _ _ _ _ Hok Hl) as (F0 & F1 & F2).
  assert (E1 : forall k x, subtable h' pt k = Some x ->
    (a = pt /\ k = i /\ x = n) \/ subtable h pt k = Some x).
  { intros k x H. destruct (subtable_linked _ _ _ _ _ _ _ _ Hl H); naive_solver. }
  assert (E2 : forall k x j b, subtable h' pt k = Some x -> subtable h' x j = Some b ->
    subtable h pt k = Some x /\ ((x = a /\ j = i /\ b = n) \/ subtable h x j = Some b)).
  { intros k x j b H H'. destruct (E1 _ _ H) as [(_ & _ & ->)|Hx].
    - by rewrite (linked_not_new _ _ _ _ _ _ Hl) in H'.
    - split; [done|]. by eapply subtable_linked. }
  split.
  - apply Hl. by apply po_root.
  - intros k x H. destruct (E1 _ _ H) as [(_ & _ & ->)|Hx]; [by split; [apply Hl|]|].
    destruct (po_1 _ _ Hok _ _ Hx). split; [by apply Hl|done].
  - intros k x j b H H'. destruct (E2 _ _ _ _ H H') as [Hx [(-> & -> & ->)|Hb]].
    + destruct (po_1 _ _ Hok _ _ Hx) as [_ Hne]. split_and!; [apply Hl|done|].
      intros k' Hk'. destruct (E1 _ _ Hk') as [(? & _)|?]; [done|by eapply F1].
    + destruct (po_0 _ _ Hok _ _ _ _ Hx Hb) as (? & ? & Hnot). split_and!; [by apply Hl|done|].
      intros k' Hk'. destruct (E1 _ _ Hk') as [(_ & _ & ->)|?]; [by eapply F2|by eapply Hnot].
  - intros k k' x H H'.
    destruct (E1 _ _ H) as [(_ & -> & ->)|Hx], (E1 _ _ H') as [(_ & -> & E)|Hx'];
      subst; [done|by destruct (F1 k')|by destruct (F1 k)|by eapply po_inj1].
  - intros k x j k' x' j' b H1 H2 H3 H4.
    destruct (E2 _ _ _ _ H1 H2) as [Hx [(-> & -> & ->)|Hb]],
             (E2 _ _ _ _ H3 H4) as [Hx' [(E & -> & E')|Hb']]; subst.
    + split; [by eapply po_inj1|done].
    + by destruct (F2 _ _ _ Hx' Hb').
    + by destruct (F2 _ _ _ Hx Hb).
    + by eapply po_inj0.
Qed.

Lemma translate_linked h pt a i n h' va :
  pt_ok h pt -> upper h pt a -> subtable h a i = None -> linked h a i n h' ->
  translate h' pt va = translate h pt va.
Proof.
  intros Hok Hup Hnone Hl. pose proof (upper_table _ _ _ Hok Hup) as Ha.
  unfold translate, leaf_slot. rewrite (ln_sub _ _ _ _ _ Hl pt). case_decide as E.
  { destruct E as [E1 E2]. subst a. rewrite <- E2 in Hnone. rewrite Hnone. cbn.
    by rewrite (linked_not_new _ _ _ _ _ _ Hl). }
  destruct (subtable h pt (pxi 2 va)) as [x|] eqn:Hx; cbn; [|done].
  rewrite (ln_sub _ _ _ _ _ Hl x). case_decide as E'.
  { destruct E' as [-> <-]. rewrite Hnone. cbn.
    destruct (pte_at h' (n, pxi 0 va)) as [v|] eqn:Hv; cbn; [|done].
    by rewrite (ln_empty _ _ _ _ _ Hl _ _ Hv). }
  destruct (subtable h x (pxi 1 va)) as [b|] eqn:Hb; cbn; [|done].
  destruct (po_0 _ _ Hok _ _ _ _ Hx Hb) as (Hbt & Hbp & Hb1).
  rewrite (ln_pte _ _ _ _ _ Hl); [done| |].
  - intros ->. by eapply not_table, Hbt; apply Hl.
  - intros [-> _]. destruct Hup as [->|[k Hk]]; [done|by eapply Hb1].
Qed.

(** ** Writing a leaf *)

Section Leaf.
Context (h : gmap Z pobj) (pt a b : Z) (i j k : nat) (l : list Z) (v : Z).
Context (Hok : pt_ok h pt) (Ha : subtable h pt i = Some a) (Hb : subtable h a j = Some b).
Context (Hl : h !! b = Some (PPte l)) (Hk : (k < length l)%nat).

Let h' : gmap Z pobj := <[b := PPte (<[k := v]> l)]> h.

Lemma leaf_upper x m : upper h pt x -> subtable h' x m = subtable h x m.
Proof.
  intros Hup. unfold subtable, h'. rewrite (pte_at_store _ _ _ _ _ _ _ Hl Hk), decide_False; [done|].
  intros [-> _]. destruct (po_0 _ _ Hok _ _ _ _ Ha Hb) as (_ & Hne & Hno).
  destruct Hup as [?|[q Hq]]; [done|by eapply Hno].
Qed.

Lemma leaf_pt_ok : pt_ok h' pt.
Proof.
  assert (E0 : forall m, subtable h' pt m = subtable h pt m) by (intros; apply leaf_upper; by left).
  assert (E1 : forall q x m, subtable h pt q = Some x -> subtable h' x m = subtable h x m).
  { intros q x m Hq. apply leaf_upper. right. eauto. }
  split.
  - by apply (is_table_store _ _ _ _ _ _ Hl), po_root.
  - intros q x. rewrite E0. intros H. destruct (po_1 _ _ Hok _ _ H).
    split; [by apply (is_table_store _ _ _ _ _ _ Hl)|done].
  - intros q x m y. rewrite E0. intros Hq. rewrite (E1 _ _ _ Hq). intros Hm.
    destruct (po_0 _ _ Hok _ _ _ _ Hq Hm) as (? & ? & ?).
    split_and!; [by apply (is_table_store _ _ _ _ _ _ Hl)|done|]. intros q'. by rewrite E0.
  - intros q q' x. rewrite !E0. by apply po_inj1.
  - intros q x m q' x' m' y. rewrite !E0. intros Hq Hm Hq' Hm'.
    rewrite (E1 _ _ _ Hq) in Hm. rewrite (E1 _ _ _ Hq') in Hm'. by eapply po_inj0.
Qed.

Lemma leaf_slot_same va : leaf_slot h' pt va = leaf_slot h pt va.
Proof.
  unfold leaf_slot. rewrite leaf_upper by (by left).
  destruct (subtable h pt (pxi 2 va)) as [x|] eqn:E; cbn; [|done].
  rewrite leaf_upper by (right; eauto). done.
Qed.

Lemma leaf_translate va :
  translate h' pt va =
  if decide (i = pxi 2 va /\ j = pxi 1 va /\ k = pxi 0 va)
  then (if has v PTE_V then Some v else None) else translate h pt va.
Proof.
  unfold translate. rewrite leaf_slot_same. case_decide as E.
  - destruct E as (-> & -> & ->). unfold leaf_slot. rewrite Ha. cbn. rewrite Hb. cbn.
    unfold h'. by rewrite (pte_at_store _ _ _ _ _ _ _ Hl Hk), decide_True.
  - destruct (leaf_slot h pt va) as [[y m]|] eqn:Es; cbn; [|done].
    unfold h'. rewrite (pte_at_store _ _ _ _ _ _ _ Hl Hk), decide_False; [done|].
    intros [-> ->]. unfold leaf_slot in Es.
    destruct (subtable h pt (pxi 2 va)) as [x|] eqn:Hx; cbn in Es; [|done].
    destruct (subtable h x (pxi 1 va)) as [y|] eqn:Hy; cbn in Es; [|done]. simplify_eq.
    destruct (po_inj0 _ _ Hok _ _ _ _ _ _ _ Ha Hb Hx Hy). tauto.
Qed.
End Leaf.

(** ** A new page table *)

Lemma subtable_zero h pt i : h !! pt = Some zero_ptes -> subtable h pt i = None.
Proof.
  intros H. unfold subtable, pte_at. cbn [fst snd]. rewrite H. cbn [zero_ptes mbind option_bind as_ptes].
  destruct (replicate 512 0 !! i) as [v|] eqn:E; cbn; [|done]. by apply lookup_replicate in E as [-> _].
Qed.

Lemma pt_ok_zero h pt : h !! pt = Some zero_ptes -> pt_ok h pt.
Proof.
  intros H. pose proof (subtable_zero h pt) as Hs. split; intros; try (by rewrite Hs in * by done).
  exists (replicate 512 0). split; [done|apply length_replicate].
Qed.

Lemma translate_zero h pt va : h !! pt = Some zero_ptes -> translate h pt va = None.
Proof. intros H. unfold translate, leaf_slot. by rewrite subtable_zero. Qed.

(** ** Pages that are not tables *)

Lemma pte_at_other h x o q :
  h !! x ≫= as_ptes = None -> as_ptes o = None -> pte_at (<[x := o]> h) q = pte_at h q.
Proof.
  intros H Ho. unfold pte_at. destruct (decide (q.1 = x)) as [->|Hne].
  - rewrite lookup_insert_eq, H. cbn. by rewrite Ho.
  - by rewrite lookup_insert_ne.
Qed.

Section Other.
Context (h : gmap Z pobj) (x : Z) (o : pobj).
Context (Hx : h !! x ≫= as_ptes = None) (Ho : as_ptes o = None).

Lemma subtable_other a i : subtable (<[x := o]> h) a i = subtable h a i.
Proof. unfold subtable. by rewrite pte_at_other. Qed.

Lemma leaf_slot_other pt va : leaf_slot (<[x := o]> h) pt va = leaf_slot h pt va.
Proof.
  unfold leaf_slot. rewrite subtable_other. destruct (subtable h pt _) as [a|]; cbn; [|done].
  by rewrite subtable_other.
Qed.

Lemma translate_other pt va : translate (<[x := o]> h) pt va = translate h pt va.
Proof.
  unfold translate. rewrite leaf_slot_other. destruct (leaf_slot h pt va); cbn; [|done].
  by rewrite pte_at_other.
Qed.

Lemma is_table_other a : is_table h a -> is_table (<[x := o]> h) a.
Proof.
  intros (l & E & Hl). exists l. split; [|done]. rewrite lookup_insert_ne; [done|].
  intros ->. by rewrite E in Hx.
Qed.

Lemma pt_ok_other pt : pt_ok h pt -> pt_ok (<[x := o]> h) pt.
Proof.
  intros Hok. split.
  - apply is_table_other, Hok.
  - intros i a. rewrite subtable_other. intros H. destruct (po_1 _ _ Hok _ _ H).
    by split; [apply is_table_other|].
  - intros i a j b. rewrite !subtable_other. intros H H'.
    destruct (po_0 _ _ Hok _ _ _ _ H H') as (? & ? & ?). split_and!; [by apply is_table_other|done|].
    intros i'. by rewrite subtable_other.
  - intros i i' a. rewrite !subtable_other. by apply po_inj1.
  - intros i a j i' a' j' b. rewrite !subtable_other. by apply po_inj0.
Qed.
End Other.

(** ** [walk] *)

Section Walk.
Context {L : Layout}.

Lemma load_pte_ok s a i v : pte_at (k_heap s) (a, i) = Some v -> load_pte (a, i) s = Ok v s.
Proof. unfold load_pte, deref, pte_at. simpl. by intros ->. Qed.

Lemma table_pte h a i : is_table h a -> (i < 512)%nat -> exists v, pte_at h (a, i) = Some v.
Proof.
  intros (l & E & Hl) Hi. unfold pte_at. simpl. rewrite E. simpl. apply lookup_lt_is_Some. lia.
Qed.

Lemma pxi_lt level va : 0 <= level -> (pxi level va < 512)%nat.
Proof. intros H. unfold pxi. pose proof (PX_range level va H). lia. Qed.

(** without allocation, [walk] reads the tree *)
Lemma walk_levels_read s pt va :
  pt_ok (k_heap s) pt ->
  walk_levels [2; 1] pt va false s =
  Ok (a ← subtable (k_heap s) pt (pxi 2 va); subtable (k_heap s) a (pxi 1 va)) s.
Proof.
  intros Hok. cbn [walk_levels]. fold (pxi 2 va) (pxi 1 va).
  destruct (table_pte _ pt (pxi 2 va) (po_root _ _ Hok) ltac:(by apply pxi_lt)) as [v Hv].
  assert (Hs : subtable (k_heap s) pt (pxi 2 va) = if has v PTE_V then Some (PTE2PA v) else None)
    by (unfold subtable; by rewrite Hv).
  erewrite bind_ok by (by apply load_pte_ok). rewrite Hs. cbv beta.
  destruct (has v PTE_V) eqn:E; [|done].
  destruct (po_1 _ _ Hok _ _ Hs) as [Ht _].
  destruct (table_pte _ _ (pxi 1 va) Ht ltac:(by apply pxi_lt)) as [w Hw].
  erewrite bind_ok by (by apply load_pte_ok). cbn. unfold subtable. rewrite Hw. cbn.
  by destruct (has w PTE_V).
Qed.

Lemma walk_read s pt va :
  pt_ok (k_heap s) pt -> va < MAXVA ->
  walk pt va false s = Ok (leaf_slot (k_heap s) pt va) s.
Proof.
  intros Hok Hva. unfold walk. rewrite (proj2 (Z.leb_gt MAXVA va)) by done.
  erewrite bind_ok by (by apply walk_levels_read). unfold leaf_slot. fold (pxi 0 va).
  destruct (subtable _ pt _) as [a|]; cbn; [|done]. by destruct (subtable _ a _).
Qed.

(** the tree at [pt] has grown from [s] to [s'] by pages of the free list *)
Record grown (pt : Z) (s : kst) (fl : list Z) (s' : kst) (fl' : list Z) : Prop := {
  gr_free : free_list s' fl';
  gr_suffix : exists used, fl = used ++ fl';
  gr_ok : pt_ok (k_heap s') pt;
  gr_translate va : translate (k_heap s') pt va = translate (k_heap s) pt va;
  gr_rest : s' = set_k_heap (fun _ => k_heap s') (set_k_freelist (fun _ => k_freelist s') s);
  gr_heap x : x ∉ fl -> k_heap s !! x ≫= as_ptes = None -> k_heap s' !! x = k_heap s !! x;
  gr_sub a i n : upper (k_heap s) pt a -> subtable (k_heap s) a i = Some n ->
    subtable (k_heap s') a i = Some n
}.

Lemma grown_refl pt s fl : free_list s fl -> pt_ok (k_heap s) pt -> grown pt s fl s fl.
Proof. intros Hf Hok. split; try done; [by exists []|kst_eq]. Qed.

Lemma grown_upper pt s fl s' fl' a : grown pt s fl s' fl' -> upper (k_heap s) pt a -> upper (k_heap s') pt a.
Proof.
  intros Hg [->|[i Hi]]; [by left|]. right. exists i. eapply gr_sub; [done| |done]. by left.
Qed.

Lemma chain_not_table s fl x : free_list s fl -> x ∈ fl -> k_heap s !! x ≫= as_ptes = None.
Proof.
  intros Hf Hx. destruct (chain_run _ _ _ _ (free_chain _ _ Hf) Hx) as [next ->]. done.
Qed.

Lemma grown_trans pt s fl s1 fl1 s2 fl2 :
  free_list s fl -> grown pt s fl s1 fl1 -> grown pt s1 fl1 s2 fl2 -> grown pt s fl s2 fl2.
Proof.
  intros Hf G1 G2. split.
  - apply G2.
  - destruct (gr_suffix _ _ _ _ _ G1) as [u1 ->], (gr_suffix _ _ _ _ _ G2) as [u2 ->].
    exists (u1 ++ u2). by rewrite app_assoc.
  - apply G2.
  - intros va. by rewrite (gr_translate _ _ _ _ _ G2), (gr_translate _ _ _ _ _ G1).
  - rewrite (gr_rest _ _ _ _ _ G2) at 1. rewrite (gr_rest _ _ _ _ _ G1). kst_eq.
  - intros x Hx Hn. destruct (gr_suffix _ _ _ _ _ G1) as [u1 ->].
    assert (E : k_heap s1 !! x = k_heap s !! x) by (by apply (gr_heap _ _ _ _ _ G1)).
    rewrite (gr_heap _ _ _ _ _ G2); [done|set_solver|by rewrite E].
  - intros a i n Hup Hs. eapply (gr_sub _ _ _ _ _ G2); [by eapply grown_upper|].
    by eapply (gr_sub _ _ _ _ _ G1).
Qed.

(** hanging a page just allocated into the tree *)
Lemma grown_link pt s fl a i l n s1 next fl1 :
  free_list s fl -> fl = n :: fl1 -> pt_ok (k_heap s) pt -> upper (k_heap s) pt a ->
  k_heap s !! a = Some (PPte l) -> (i < length l)%nat -> subtable (k_heap s) a i = None ->
  s1 = set_k_heap <[n := PJunk 5]> (set_k_freelist (fun _ => next) s) -> free_list s1 fl1 ->
  let s2 := set_k_heap <[a := PPte (<[i := Z.lor (PA2PTE n) PTE_V]> l)]>
              (set_k_heap <[n := zero_ptes]> s1) in
  grown pt s fl s2 fl1 /\ subtable (k_heap s2) a i = Some n.
Proof.
  intros Hf -> Hok Hup Ha Hi Hnone -> Hf1 s2.
  assert (Hn : k_heap s !! n ≫= as_ptes = None) by (eapply chain_not_table; [done|set_solver]).
  assert (Hpn : page_ok n) by (pose proof (free_pages _ _ Hf) as Hp; by inversion Hp).
  pose proof (linked_intro _ _ _ _ _ Ha Hi Hn (proj1 Hpn)) as Hl.
  set (h' := <[a := _]> (<[n := zero_ptes]> (k_heap s))) in Hl.
  assert (Eh : k_heap s2 = h').
  { unfold s2, h'. cbn. by rewrite insert_insert_eq. }
  assert (Hane : a ∉ fl1).
  { intros Hin. assert (E : k_heap s !! a ≫= as_ptes = None).
    { eapply chain_not_table; [done|]. by right. } by rewrite Ha in E. }
  assert (Hnn : n ∉ fl1) by (pose proof (free_nodup _ _ Hf) as Hd; by apply NoDup_cons in Hd as [? _]).
  split; [|rewrite Eh, (ln_sub _ _ _ _ _ Hl); by rewrite decide_True].
  split.
  - eapply free_list_ext; [| |exact Hf1]; [|done]. intros x Hx. unfold s2. cbn.
    rewrite lookup_insert_ne by (intros ->; done). by rewrite lookup_insert_ne by (intros ->; done).
  - by exists [n].
  - rewrite Eh. by eapply pt_ok_linked.
  - intros va. rewrite Eh. by eapply translate_linked.
  - unfold s2. kst_eq.
  - intros x Hx Hnt. rewrite Eh. unfold h'. rewrite lookup_insert_ne by (intros ->; by rewrite Ha in Hnt).
    rewrite lookup_insert_ne by (intros ->; set_solver). done.
  - intros x k y _ Hs. rewrite Eh. by eapply subtable_linked_keep.
Qed.

(** one level of [walk] with allocation *)
Lemma walk_step level levels pt a va s fl Q :
  free_list s fl -> Lkmem ∉ k_held s -> pt_ok (k_heap s) pt -> upper (k_heap s) pt a -> 0 <= level ->
  (fl = [] -> Q None s) ->
  (forall n s' fl', grown pt s fl s' fl' -> subtable (k_heap s') a (pxi level va) = Some n ->
     wp (walk_levels levels n va true) s' Q) ->
  wp (walk_levels (level :: levels) a va true) s Q.
Proof.
  intros Hf Hno Hok Hup Hlev Hnil Hrec. cbn [walk_levels]. fold (pxi level va).
  pose proof (upper_table _ _ _ Hok Hup) as Ht.
  destruct (table_pte _ a (pxi level va) Ht ltac:(by apply pxi_lt)) as [v Hv].
  apply wp_bind. eapply wp_run; [by apply load_pte_ok|].
  assert (Hs : subtable (k_heap s) a (pxi level va) = if has v PTE_V then Some (PTE2PA v) else None)
    by (unfold subtable; by rewrite Hv).
  destruct (has v PTE_V) eqn:E.
  { eapply Hrec; [by apply grown_refl|done]. }
  cbn [negb]. apply wp_bind. pose proof (kalloc_spec s fl Hf Hno) as Hk. destruct fl as [|n fl1].
  { eapply wp_run; [exact Hk|]. apply wp_ret. by apply Hnil. }
  destruct Hk as (s1 & Hk & Hf1 & next & Es1). eapply wp_run; [exact Hk|].
  assert (Hpn : page_ok n) by (pose proof (free_pages _ _ Hf) as Hp; by inversion Hp).
  rewrite (proj2 (Z.eqb_neq n 0)) by (by apply page_ok_pos).
  destruct Ht as (l & Ha & Hl512).
  assert (Hi : (pxi level va < length l)%nat) by (rewrite Hl512; by apply pxi_lt).
  destruct (grown_link pt s _ a (pxi level va) l n s1 next fl1 Hf eq_refl Hok Hup Ha Hi Hs Es1 Hf1) as [Hg Hsub].
  apply wp_bind, wp_modify, wp_bind. unfold store_pte. apply wp_bind. simpl fst. simpl snd.
  eapply wp_deref.
  { cbn. rewrite lookup_insert_ne; [|intros ->].
    - rewrite Es1. cbn. rewrite lookup_insert_ne; [by rewrite Ha|]. intros ->.
      pose proof (chain_not_table _ _ _ Hf ltac:(by left)) as Hc. by rewrite Ha in Hc.
    - pose proof (chain_not_table _ _ a Hf ltac:(by left)) as Hc. by rewrite Ha in Hc. }
  apply wp_modify. eapply Hrec; [exact Hg|exact Hsub].
Qed.

Lemma walk_alloc pt va s fl :
  free_list s fl -> Lkmem ∉ k_held s -> pt_ok (k_heap s) pt -> va < MAXVA ->
  wp (walk pt va true) s (fun r s' => exists fl', grown pt s fl s' fl' /\
    match r with
    | Some (b, k) => k = pxi 0 va /\ exists a,
        subtable (k_heap s') pt (pxi 2 va) = Some a /\ subtable (k_heap s') a (pxi 1 va) = Some b
    | None => fl' = []
    end).
Proof.
  intros Hf Hno Hok Hva. unfold walk. rewrite (proj2 (Z.leb_gt MAXVA va)) by done. apply wp_bind.
  apply (walk_step 2 [1] pt pt va s fl); [done..|by left|done| |].
  { intros Hnil. apply wp_ret. exists fl. split; [by apply grown_refl|done]. }
  intros a s1 fl1 G1 Ha1. assert (Hno1 : Lkmem ∉ k_held s1).
  { rewrite (gr_rest _ _ _ _ _ G1). done. }
  apply (walk_step 1 [] pt a va s1 fl1); [apply G1|done|apply G1|by right; eauto|done| |].
  { intros Hnil. apply wp_ret. eauto. }
  intros b s2 fl2 G2 Hb2. cbn [walk_levels]. apply wp_ret, wp_ret. exists fl2.
  split; [by eapply grown_trans|]. cbn. split; [done|]. exists a. split; [|done].
  eapply (gr_sub _ _ _ _ _ G2); [by left|done].
Qed.

(** ** [mappages] *)

(** the first [k] pages from [va] on are mapped to the pages from [pa] on, and
    nothing else has changed in the tree *)
Record mapped (pt va pa perm k : Z) (s : kst) (fl : list Z) (s' : kst) (fl' : list Z) : Prop := {
  mp_free : free_list s' fl';
  mp_suffix : exists used, fl = used ++ fl';
  mp_ok : pt_ok (k_heap s') pt;
  mp_translate va' : 0 <= va' < MAXVA ->
    translate (k_heap s') pt va' =
    let p := va' / PGSIZE - va / PGSIZE in
    if (0 <=? p) && (p <? k) then Some (leaf_pte (pa + p * PGSIZE) perm)
    else translate (k_heap s) pt va';
  mp_rest : s' = set_k_heap (fun _ => k_heap s') (set_k_freelist (fun _ => k_freelist s') s);
  mp_heap x : x ∉ fl -> k_heap s !! x ≫= as_ptes = None -> k_heap s' !! x = k_heap s !! x
}.

Lemma mapped_0 pt va pa perm s fl :
  free_list s fl -> pt_ok (k_heap s) pt -> mapped pt va pa perm 0 s fl s fl.
Proof.
  intros Hf Hok. split; [done|by exists []|done| |kst_eq|done].
  intros va' _. cbv zeta. destruct (0 <=? _) eqn:E; zbool; [|done].
  by rewrite (proj2 (Z.ltb_ge _ 0)).
Qed.

(** the indices of the pages [va + k * PGSIZE] and [va'] *)
Lemma same_page va k va' :
  va mod PGSIZE = 0 -> 0 <= va + k * PGSIZE < MAXVA -> 0 <= va' < MAXVA ->
  (pxi 2 (va + k * PGSIZE) = pxi 2 va' /\ pxi 1 (va + k * PGSIZE) = pxi 1 va' /\
   pxi 0 (va + k * PGSIZE) = pxi 0 va') <-> va' / PGSIZE - va / PGSIZE = k.
Proof.
  intros Hm H1 H2.
  assert (Hd : (va + k * PGSIZE) / PGSIZE = va / PGSIZE + k) by (apply Z.div_add; done).
  split.
  - intros (E2 & E1 & E0). apply pxi_inj in E2, E1, E0; [|done..].
    pose proof (PX_page _ _ H1 H2 E2 E1 E0). lia.
  - intros E. assert (Hq : (va + k * PGSIZE) / PGSIZE = va' / PGSIZE) by lia.
    unfold pxi. rewrite !PX_div by lia.
    change (2 ^ (12 + 9 * 2)) with (PGSIZE * 262144). change (2 ^ (12 + 9 * 1)) with (PGSIZE * 512).
    change (2 ^ (12 + 9 * 0)) with PGSIZE. rewrite <- !Zdiv_Zdiv by (done || lia). by rewrite Hq.
Qed.

(** one more page, whose walk gave the slot [(b, pxi 0 a)] *)
Lemma mapped_S pt va pa perm k s fl s1 fl1 s2 fl2 t b l :
  va mod PGSIZE = 0 -> 0 <= k -> 0 <= va + k * PGSIZE < MAXVA ->
  mapped pt va pa perm k s fl s1 fl1 -> grown pt s1 fl1 s2 fl2 ->
  subtable (k_heap s2) pt (pxi 2 (va + k * PGSIZE)) = Some t ->
  subtable (k_heap s2) t (pxi 1 (va + k * PGSIZE)) = Some b ->
  k_heap s2 !! b = Some (PPte l) -> (pxi 0 (va + k * PGSIZE) < length l)%nat ->
  mapped pt va pa perm (k + 1) s fl
    (set_k_heap <[b := PPte (<[pxi 0 (va + k * PGSIZE) := leaf_pte (pa + k * PGSIZE) perm]> l)]> s2) fl2.
Proof.
  intros Hm Hk0 Hva M G Ht Hb Hl Hk.
  pose proof (gr_ok _ _ _ _ _ G) as Hok2.
  split.
  - eapply free_list_ext; [| |apply G]; [|done]. intros x Hx. cbn.
    apply lookup_insert_ne. intros <-.
    pose proof (chain_not_table _ _ _ (gr_free _ _ _ _ _ G) Hx) as Hc. by rewrite Hl in Hc.
  - destruct (mp_suffix _ _ _ _ _ _ _ _ _ M) as [u1 ->], (gr_suffix _ _ _ _ _ G) as [u2 ->].
    exists (u1 ++ u2). by rewrite app_assoc.
  - cbn. by eapply leaf_pt_ok.
  - intros va' Hva'. cbn. rewrite (leaf_translate _ _ _ _ _ _ _ _ _ Hok2 Ht Hb Hl Hk).
    unfold leaf_pte at 1. rewrite has_V. cbv zeta.
    pose proof (same_page va k va' Hm Hva Hva') as Hsp. case_decide as E.
    + apply Hsp in E as <-. rewrite (proj2 (Z.leb_le 0 _)), (proj2 (Z.ltb_lt _ _)) by lia. done.
    + rewrite (gr_translate _ _ _ _ _ G), (mp_translate _ _ _ _ _ _ _ _ _ M) by done. cbv zeta.
      assert (Hne : va' / PGSIZE - va / PGSIZE <> k) by tauto.
      destruct (0 <=? _) eqn:E0; [|done]. cbn [andb].
      destruct (_ <? k) eqn:E1, (_ <? k + 1) eqn:E2; zbool; (done || lia).
  - rewrite (gr_rest _ _ _ _ _ G), (mp_rest _ _ _ _ _ _ _ _ _ M). kst_eq.
  - intros x Hx Hn. assert (E1 : k_heap s1 !! x = k_heap s !! x) by (by apply (mp_heap _ _ _ _ _ _ _ _ _ M)).
    assert (E2 : k_heap s2 !! x = k_heap s1 !! x).
    { apply (gr_heap _ _ _ _ _ G); [|by rewrite E1].
      destruct (mp_suffix _ _ _ _ _ _ _ _ _ M) as [u ->]. set_solver. }
    cbn. rewrite lookup_insert_ne; [congruence|]. intros ->.
    rewrite E2, E1 in Hl. by rewrite Hl in Hn.
Qed.

Section Mappages.
Context (pt va pa perm n : Z) (s : kst) (fl : list Z).
Context (Hf : free_list s fl) (Hno : Lkmem ∉ k_held s) (Hok : pt_ok (k_heap s) pt).
Context (Hn : 0 < n) (Hva : 0 <= va) (Hvm : va mod PGSIZE = 0) (Hend : va + n * PGSIZE <= MAXVA).
Context (Hpa : 0 <= pa) (Hpend : pa + n * PGSIZE < 2 ^ 64).
Context (Hnew : forall i, 0 <= i < n -> translate (k_heap s) pt (va + i * PGSIZE) = None).

(** the loop of [mappages] at page [k] *)
Lemma mappages_turn k s1 fl1 :
  0 <= k < n -> mapped pt va pa perm k s fl s1 fl1 ->
  wp (r ← walk pt (va + k * PGSIZE) true;
      match r with
      | None => mret (inr (-1))
      | Some pte =>
          v ← load_pte pte;
          if has v PTE_V then panic "mappages: remap" else
          store_pte pte (Z.lor (Z.lor (PA2PTE (pa + k * PGSIZE)) perm) PTE_V);;
          if va + k * PGSIZE =? u64 (va + n * PGSIZE - PGSIZE) then mret (inr 0)
          else mret (inl (u64 (va + k * PGSIZE + PGSIZE), u64 (pa + k * PGSIZE + PGSIZE)))
      end) s1 (fun r s2 =>
        exists fl2, match r with
        | inl (a, p) => k + 1 < n /\ a = va + (k + 1) * PGSIZE /\ p = pa + (k + 1) * PGSIZE /\
            mapped pt va pa perm (k + 1) s fl s2 fl2
        | inr v => (v = 0 /\ mapped pt va pa perm n s fl s2 fl2) \/
            (v = -1 /\ fl2 = [] /\ mapped pt va pa perm k s fl s2 fl2)
        end).
Proof using All.
  intros Hk M. set (a := va + k * PGSIZE).
  assert (Ha : 0 <= a < MAXVA) by (unfold a, PGSIZE in *; lia).
  apply wp_bind. eapply wp_mono.
  { apply (walk_alloc pt a s1 fl1); [apply M| |apply M|lia].
    rewrite (mp_rest _ _ _ _ _ _ _ _ _ M). done. }
  intros r s2 (fl2 & G & Hr). destruct r as [[b q]|].
  - destruct Hr as (-> & t & Ht & Hb). destruct (po_0 _ _ (gr_ok _ _ _ _ _ G) _ _ _ _ Ht Hb) as (Htab & _).
    destruct (table_pte _ b (pxi 0 a) Htab ltac:(by apply pxi_lt)) as [v Hv].
    apply wp_bind. eapply wp_run; [by apply load_pte_ok|].
    assert (Hnv : has v PTE_V = false).
    { assert (E : translate (k_heap s2) pt a = None).
      { rewrite (gr_translate _ _ _ _ _ G), (mp_translate _ _ _ _ _ _ _ _ _ M) by done. cbv zeta.
        assert (Hd : a / PGSIZE - va / PGSIZE = k)
          by (unfold a; rewrite Z.div_add by done; lia).
        rewrite Hd, (proj2 (Z.ltb_ge k k)), andb_false_r by lia. by apply Hnew. }
      unfold translate, leaf_slot in E. rewrite Ht in E. cbn in E. rewrite Hb in E. cbn in E.
      rewrite Hv in E. cbn in E. by destruct (has v PTE_V). }
    rewrite Hnv. destruct Htab as (l & Hl & Hl512).
    assert (Hlt : (pxi 0 a < length l)%nat) by (rewrite Hl512; by apply pxi_lt).
    pose proof (mapped_S _ _ _ _ _ _ _ _ _ _ _ _ _ _ Hvm (proj1 Hk) Ha M G Ht Hb Hl Hlt) as M2.
    apply wp_bind. unfold store_pte. apply wp_bind. eapply wp_deref; [cbn [fst]; by rewrite Hl|].
    apply wp_modify. fold (leaf_pte (pa + k * PGSIZE) perm).
    rewrite !wrap_small by (unfold a, MAXVA, PGSIZE in *; lia).
    destruct (a =? va + n * PGSIZE - PGSIZE) eqn:E; zbool; apply wp_ret; exists fl2.
    + left. split; [done|]. replace n with (k + 1) by (unfold a, PGSIZE in *; lia). exact M2.
    + split_and!; [unfold a, PGSIZE in *; lia..|exact M2].
  - apply wp_ret. subst fl2. exists []. right. split_and!; [done..|]. split.
    + apply G.
    + destruct (mp_suffix _ _ _ _ _ _ _ _ _ M) as [u1 ->], (gr_suffix _ _ _ _ _ G) as [u2 ->].
      exists (u1 ++ u2). by rewrite app_assoc.
    + apply G.
    + intros va' Hva'. by rewrite (gr_translate _ _ _ _ _ G), (mp_translate _ _ _ _ _ _ _ _ _ M).
    + rewrite (gr_rest _ _ _ _ _ G) at 1. rewrite (mp_rest _ _ _ _ _ _ _ _ _ M). kst_eq.
    + intros x Hx Hnt. assert (E1 : k_heap s1 !! x = k_heap s !! x) by (by apply (mp_heap _ _ _ _ _ _ _ _ _ M)).
      rewrite (gr_heap _ _ _ _ _ G); [done| |by rewrite E1].
      destruct (mp_suffix _ _ _ _ _ _ _ _ _ M) as [u ->]. set_solver.
Qed.

(** C24. [mappages] maps what it is asked to and nothing else.  On a page table
    whose tables are distinct pages, for a page-aligned range that has no
    mapping yet, it either returns 0, with every page of the range translated
    to the corresponding physical page with the permissions given, or returns
    -1 because memory ran out, with a prefix of the range mapped.  In both
    cases every other address translates as before, the tables stay distinct
    and no page that is not a table or free is written. *)
Theorem mappages_maps :
  exists r s' fl', mappages pt va (n * PGSIZE) pa perm s = Ok r s' /\
    ((r = 0 /\ mapped pt va pa perm n s fl s' fl') \/
     (r = -1 /\ fl' = [] /\ exists k, 0 <= k < n /\ mapped pt va pa perm k s fl s' fl')).
Proof using All.
  enough (H : wp (mappages pt va (n * PGSIZE) pa perm) s (fun r s' => exists fl',
    (r = 0 /\ mapped pt va pa perm n s fl s' fl') \/
    (r = -1 /\ fl' = [] /\ exists k, 0 <= k < n /\ mapped pt va pa perm k s fl s' fl'))).
  { apply wp_ok in H as (r & s' & E & fl' & H). eauto. }
  unfold mappages. rewrite Hvm, Z.mod_mul by done. cbn [negb Z.eqb].
  rewrite (proj2 (Z.eqb_neq (n * PGSIZE) 0)) by (unfold PGSIZE; lia). cbv zeta.
  rewrite Z.div_mul by done.
  apply (wp_loop _ (fun x : Z * Z => Z.to_nat ((va + n * PGSIZE - x.1) / PGSIZE))
    (fun x s1 => exists k fl1, 0 <= k < n /\ x = (va + k * PGSIZE, pa + k * PGSIZE) /\
       mapped pt va pa perm k s fl s1 fl1)).
  - exists 0, fl. split_and!; [lia..| |by apply mapped_0]. f_equal; lia.
  - simpl. replace (va + n * PGSIZE - va) with (n * PGSIZE) by lia. rewrite Z.div_mul by done. lia.
  - intros x s1 (k & fl1 & Hk & -> & M). eapply wp_mono; [by eapply mappages_turn|].
    intros [[a p]|v] s2 (fl2 & H).
    + destruct H as (Hk1 & -> & -> & M2). split; [exists (k + 1), fl2; split_and!; (done || lia)|].
      simpl. replace (va + n * PGSIZE - (va + (k + 1) * PGSIZE)) with ((n - k - 1) * PGSIZE) by lia.
      replace (va + n * PGSIZE - (va + k * PGSIZE)) with ((n - k) * PGSIZE) by lia.
      rewrite !Z.div_mul by done. lia.
    + exists fl2. destruct H as [?|(-> & -> & M2)]; [by left|]. right. eauto 6.
Qed.
End Mappages.
End Walk.
