(* ===== verification/UserMem.v ===== *)
(** * User memory: [copyin] and [copyout]

    [ubyte] is the byte a process sees at a virtual address.  [copyin] gives
    the bytes of a range, across page boundaries, and [copyout] changes that
    range and no other byte. *)

From S2P Require Import Prelude Monad Types Kernel Kalloc KallocFacts Vm VmFacts.
From stdpp Require Import base numbers list gmap strings.
From Stdlib Require Import ZArith Lia.

Open Scope Z_scope.

(** the physical page of a user address *)
Definition user_page (h : gmap Z pobj) (pt va : Z) : option Z :=
  v ← translate h pt va; if has v PTE_U then Some (PTE2PA v) else None.

Definition ubyte (h : gmap Z pobj) (pt va : Z) : option Z :=
  pa ← user_page h pt va; l ← h !! pa ≫= as_bytes; l !! Z.to_nat (va mod PGSIZE).

Definition uwritable (h : gmap Z pobj) (pt va : Z) : Prop :=
  exists v l, translate h pt va = Some v /\ has v PTE_U = true /\ has v PTE_W = true /\
    h !! PTE2PA v = Some (PBytes l) /\ length l = Z.to_nat PGSIZE.

(** no two pages of the address space share a physical page *)
Definition unshared (h : gmap Z pobj) (pt : Z) : Prop :=
  forall va va' pa, 0 <= va < MAXVA -> 0 <= va' < MAXVA ->
    user_page h pt va = Some pa -> user_page h pt va' = Some pa -> va / PGSIZE = va' / PGSIZE.

(** ** The page of an address *)

Lemma pxi_page level va va' :
  0 <= level -> va / PGSIZE = va' / PGSIZE -> pxi level va = pxi level va'.
Proof.
  intros Hl H. unfold pxi. rewrite !PX_div by done. rewrite Z.pow_add_r by lia.
  change (2 ^ 12) with PGSIZE. rewrite <- !Zdiv_Zdiv by (done || (apply Z.pow_nonneg; lia)). by rewrite H.
Qed.

Lemma translate_page h pt va va' :
  va / PGSIZE = va' / PGSIZE -> translate h pt va = translate h pt va'.
Proof.
  intros H. unfold translate, leaf_slot.
  by rewrite (pxi_page 2 va va'), (pxi_page 1 va va'), (pxi_page 0 va va') by (done || lia).
Qed.

Lemma rounddown_eq va : PGROUNDDOWN va = va - va mod PGSIZE.
Proof. apply land_page. Qed.

Lemma rounddown_page va : PGROUNDDOWN va / PGSIZE = va / PGSIZE.
Proof.
  rewrite rounddown_eq. pose proof (Z.div_mod va PGSIZE ltac:(done)).
  replace (va - va mod PGSIZE) with (va / PGSIZE * PGSIZE) by lia. by apply Z.div_mul.
Qed.

(** an address [j] bytes further in the same page *)
Lemma page_offset va j :
  0 <= j < PGSIZE - va mod PGSIZE ->
  (va + j) / PGSIZE = va / PGSIZE /\ (va + j) mod PGSIZE = va mod PGSIZE + j.
Proof.
  intros Hj. pose proof (Z.div_mod va PGSIZE ltac:(done)).
  pose proof (Z.mod_pos_bound va PGSIZE ltac:(done)).
  split; [symmetry; apply (Z.div_unique_pos _ _ _ (va mod PGSIZE + j))
         |symmetry; apply (Z.mod_unique_pos _ _ (va / PGSIZE))]; lia.
Qed.

Lemma ubyte_inv h pt va c :
  ubyte h pt va = Some c ->
  exists pa l, user_page h pt va = Some pa /\ h !! pa = Some (PBytes l) /\
    l !! Z.to_nat (va mod PGSIZE) = Some c.
Proof.
  unfold ubyte. destruct (user_page h pt va) as [pa|]; cbn; [|done].
  destruct (h !! pa) as [o|] eqn:E; cbn; [|done]. destruct o; cbn; try done. eauto.
Qed.

Section UserMem.
Context {L : Layout}.

Lemma walkaddr_user s pt va pa :
  pt_ok (k_heap s) pt -> va < MAXVA -> user_page (k_heap s) pt va = Some pa ->
  walkaddr pt va s = Ok pa s.
Proof.
  intros Hok Hva Hu. unfold walkaddr. rewrite (proj2 (Z.leb_gt MAXVA va)) by done.
  erewrite bind_ok by (by apply walk_read). unfold user_page, translate in Hu.
  destruct (leaf_slot (k_heap s) pt va) as [[b k]|]; cbn in Hu; [|done].
  destruct (pte_at (k_heap s) (b, k)) as [v|] eqn:Hv; cbn in Hu; [|done].
  erewrite bind_ok by (by apply load_pte_ok).
  destruct (has v PTE_V); cbn in *; [|done]. destruct (has v PTE_U); simplify_eq. done.
Qed.

Lemma user_page_down h pt va pa : user_page h pt va = Some pa -> user_page h pt (PGROUNDDOWN va) = Some pa.
Proof. unfold user_page. by rewrite (translate_page _ _ (PGROUNDDOWN va) va) by apply rounddown_page. Qed.

Lemma user_page_at h pt va j :
  0 <= j < PGSIZE - va mod PGSIZE -> user_page h pt (va + j) = user_page h pt va.
Proof. intros Hj. unfold user_page. by rewrite (translate_page _ _ (va + j) va) by apply page_offset, Hj. Qed.

(** ** [copyin] *)

Section Copyin.
Context (pt va : Z) (s : kst) (bytes : list Z).
Context (Hok : pt_ok (k_heap s) pt) (H0 : k_heap s !! 0 ≫= as_bytes = None).
Context (Hva : 0 <= va) (Hend : va + Z.of_nat (length bytes) <= MAXVA).
Context (Hbytes : forall i, (i < length bytes)%nat ->
  ubyte (k_heap s) pt (va + Z.of_nat i) = bytes !! i).

(** the bytes of the range that lie in the page of its [k]-th byte *)
Lemma copyin_segment k m page pa :
  (k + m <= length bytes)%nat -> Z.of_nat m <= PGSIZE - (va + Z.of_nat k) mod PGSIZE ->
  user_page (k_heap s) pt (va + Z.of_nat k) = Some pa -> k_heap s !! pa = Some (PBytes page) ->
  slice (Z.to_nat ((va + Z.of_nat k) mod PGSIZE)) m page = slice k m bytes.
Proof using Hbytes.
  intros Hk Hm Hpa Hpage. apply list_eq. intros j. destruct (decide (j < m)%nat) as [Hj|Hj].
  - rewrite !lookup_slice by done. rewrite <- Hbytes by lia. unfold ubyte.
    replace (va + Z.of_nat (k + j)) with (va + Z.of_nat k + Z.of_nat j) by lia.
    rewrite user_page_at by lia. rewrite Hpa. cbn. rewrite Hpage. cbn. f_equal.
    rewrite (proj2 (page_offset (va + Z.of_nat k) (Z.of_nat j) ltac:(lia))).
    pose proof (Z.mod_pos_bound (va + Z.of_nat k) PGSIZE ltac:(done)). lia.
  - unfold slice. by rewrite !lookup_take_ge by lia.
Qed.

Lemma copyin_ok : copyin pt va (Z.of_nat (length bytes)) s = Ok (bytes, 0) s.
Proof using All.
  apply run_wp. unfold copyin. set (n := length bytes) in *.
  apply (wp_loop _ (fun x : Z * Z * list Z => Z.to_nat x.1.2)
    (fun x s1 => s1 = s /\ exists w k, (k <= n)%nat /\
       x = (w, Z.of_nat n - Z.of_nat k, take k bytes) /\ ((k < n)%nat -> w = va + Z.of_nat k))).
  { split; [done|]. exists va, 0%nat. rewrite take_0. split_and!; [lia| |lia]. f_equal. f_equal. lia. }
  { simpl. lia. }
  intros x s1 (-> & w & k & Hk & -> & Hw). cbv beta iota.
  destruct (0 <? Z.of_nat n - Z.of_nat k) eqn:E; zbool.
  2: { apply wp_ret. split; [|done]. rewrite take_ge by lia. done. }
  rewrite Hw by lia. clear Hw. set (a := va + Z.of_nat k). cbv zeta.
  destruct (lookup_lt_is_Some_2 bytes k ltac:(lia)) as [c Hc].
  destruct (ubyte_inv (k_heap s) pt a c) as (pa & page & Hpa & Hpage & _); [by rewrite <- Hc, <- Hbytes by lia|].
  pose proof (pgrounddown_spec a) as [Hd _]. unfold PGSIZE in Hd.
  apply wp_bind. eapply wp_run; [apply walkaddr_user; [done|unfold a in *; lia|by apply user_page_down]|].
  assert (Hpa0 : pa <> 0) by (intros ->; by rewrite Hpage in H0). rewrite (proj2 (Z.eqb_neq pa 0)) by done.
  apply wp_bind, wp_ret. rewrite (proj2 (Z.eqb_neq pa 0)) by done.
  apply wp_bind. eapply wp_deref; [by rewrite Hpage|]. apply wp_ret.
  rewrite rounddown_eq. replace (a - (a - a mod PGSIZE)) with (a mod PGSIZE) by lia.
  pose proof (Z.mod_pos_bound a PGSIZE ltac:(done)) as Hm.
  set (m := Z.min (PGSIZE - a mod PGSIZE) (Z.of_nat n - Z.of_nat k)).
  assert (Hm0 : 0 < m) by lia.
  split; [|simpl; lia]. split; [done|]. exists (u64 (a - a mod PGSIZE + PGSIZE)), (k + Z.to_nat m)%nat.
  split_and!; [lia| |].
  - pose proof (copyin_segment k (Z.to_nat m) page pa) as Hseg. fold a n in Hseg.
    rewrite Hseg by (done || lia).
    unfold slice. rewrite take_take_drop. f_equal. f_equal. lia.
  - intros Hlt. rewrite wrap_small by (unfold MAXVA, PGSIZE in *; unfold a in *; lia). lia.
Qed.
End Copyin.

(** ** [copyout] *)

(** the first [k] bytes of [src] have been stored from [va] on *)
Record copied (pt va : Z) (src : list Z) (k : nat) (h h1 : gmap Z pobj) : Prop := {
  cp_ok : pt_ok h1 pt;
  cp_translate va' : translate h1 pt va' = translate h pt va';
  cp_writable va' : uwritable h pt va' -> uwritable h1 pt va';
  cp_byte va' : 0 <= va' < MAXVA ->
    ubyte h1 pt va' = if (va <=? va') && (va' <? va + Z.of_nat k) then src !! Z.to_nat (va' - va)
                      else ubyte h pt va';
  cp_frame x : h !! x ≫= as_bytes = None -> h1 !! x = h !! x
}.

Lemma copied_0 pt va src h : pt_ok h pt -> copied pt va src 0 h h.
Proof.
  intros Hok. split; try done. intros va' _. destruct (va <=? va') eqn:E; zbool; [|done].
  by rewrite (proj2 (Z.ltb_ge _ _)) by lia.
Qed.

Lemma copied_page pt va src k h h1 va' :
  copied pt va src k h h1 -> user_page h1 pt va' = user_page h pt va'.
Proof. intros C. unfold user_page. by rewrite (cp_translate _ _ _ _ _ _ C). Qed.

(** [m] more bytes, all in the page of address [va + k] *)
Lemma copied_more pt va src k m h h1 pa page :
  let a := va + Z.of_nat k in
  copied pt va src k h h1 -> unshared h pt -> 0 <= a -> a + Z.of_nat m <= MAXVA ->
  (k + m <= length src)%nat -> (0 < m)%nat -> Z.of_nat m <= PGSIZE - a mod PGSIZE ->
  user_page h pt a = Some pa -> h1 !! pa = Some (PBytes page) -> length page = Z.to_nat PGSIZE ->
  copied pt va src (k + m) h
    (<[pa := PBytes (splice (Z.to_nat (a mod PGSIZE)) (slice k m src) page)]> h1).
Proof.
  intros a C Hun Ha Hmax Hlen Hm0 Hm Hpa Hpage Hpl.
  assert (Hnt : h1 !! pa ≫= as_ptes = None) by (by rewrite Hpage).
  pose proof (Z.mod_pos_bound a PGSIZE ltac:(done)) as Hmod.
  assert (Hsl : length (slice k m src) = m) by (by apply length_slice).
  assert (Hsp : (Z.to_nat (a mod PGSIZE) + length (slice k m src) <= length page)%nat) by lia.
  split.
  - apply pt_ok_other; [done|done|apply C].
  - intros va'. rewrite translate_other by done. apply C.
  - intros va' Hw. destruct (cp_writable _ _ _ _ _ _ C va' Hw) as (v & l & Ht & HU & HW & Hl & Hll).
    destruct (decide (PTE2PA v = pa)) as [E|E].
    + exists v. eexists. rewrite translate_other by done. rewrite E, lookup_insert_eq.
      split_and!; [done..|]. rewrite length_splice; done.
    + exists v, l. rewrite translate_other, lookup_insert_ne by done. done.
  - intros va' Hva'. pose proof (cp_byte _ _ _ _ _ _ C va' Hva') as Hold.
    set (old := ubyte h pt va') in *. clearbody old. unfold ubyte in Hold |- *.
    assert (Hup : user_page (<[pa := PBytes (splice (Z.to_nat (a mod PGSIZE)) (slice k m src) page)]> h1) pt va'
      = user_page h pt va').
    { unfold user_page. by rewrite translate_other, (cp_translate _ _ _ _ _ _ C). }
    rewrite (copied_page _ _ _ _ _ _ _ C) in Hold. rewrite Hup.
    assert (Hin : a <= va' < a + Z.of_nat m -> user_page h pt va' = Some pa).
    { intros H. replace va' with (a + (va' - a)) by lia. by rewrite user_page_at by lia. }
    destruct (decide (user_page h pt va' = Some pa)) as [Ep|Ep].
    + rewrite Ep in Hold |- *. cbn in Hold |- *. rewrite lookup_insert_eq. rewrite Hpage in Hold. cbn in Hold |- *.
      assert (Hsame : va' / PGSIZE = a / PGSIZE) by (eapply Hun; eauto; lia).
      pose proof (Z.div_mod va' PGSIZE ltac:(done)) as D1. pose proof (Z.div_mod a PGSIZE ltac:(done)) as D2.
      pose proof (Z.mod_pos_bound va' PGSIZE ltac:(done)).
      assert (Hdiff : va' - a = va' mod PGSIZE - a mod PGSIZE) by lia.
      destruct (decide (a <= va' < a + Z.of_nat m)) as [Hi|Hi].
      * rewrite (proj2 (Z.leb_le va va')), (proj2 (Z.ltb_lt va' _)) by (unfold a in *; lia). cbn [andb].
        rewrite lookup_splice_in by lia. rewrite lookup_slice by lia. f_equal. unfold a in *. lia.
      * rewrite lookup_splice_ne by lia. rewrite Hold. unfold a in *.
        destruct (va <=? va') eqn:E1, (va' <? va + Z.of_nat k) eqn:E2, (va' <? va + Z.of_nat (k + m)) eqn:E3;
          zbool; (done || lia).
    + assert (Hni : ~ (a <= va' < a + Z.of_nat m)) by tauto.
      destruct (user_page h pt va') as [pa'|] eqn:Ep'; cbn in Hold |- *.
      1: rewrite lookup_insert_ne by congruence.
      all: rewrite Hold; unfold a in *;
        destruct (va <=? va') eqn:E1, (va' <? va + Z.of_nat k) eqn:E2, (va' <? va + Z.of_nat (k + m)) eqn:E3;
        zbool; (done || lia).
  - intros x Hx. rewrite lookup_insert_ne; [by apply C|]. intros <-.
    pose proof (cp_frame _ _ _ _ _ _ C pa Hx) as E. rewrite E in Hpage. by rewrite Hpage in Hx.
Qed.

Section Copyout.
Context (pt va : Z) (src : list Z) (s : kst).
Context (Hok : pt_ok (k_heap s) pt) (H0 : k_heap s !! 0 ≫= as_bytes = None) (Hun : unshared (k_heap s) pt).
Context (Hva : 0 <= va) (Hend : va + Z.of_nat (length src) <= MAXVA).
Context (Hw : forall i, (i < length src)%nat -> uwritable (k_heap s) pt (va + Z.of_nat i)).

Lemma copyout_wp :
  wp (copyout pt va src) s (fun r s' => r = 0 /\
    copied pt va src (length src) (k_heap s) (k_heap s') /\ s' = set_k_heap (fun _ => k_heap s') s).
Proof using All.
  unfold copyout. set (n := length src) in *.
  apply (wp_loop _ (fun x : Z * list Z => length x.2)
    (fun x s1 => exists w k, (k <= n)%nat /\ x = (w, drop k src) /\
       ((k < n)%nat -> w = va + Z.of_nat k) /\
       copied pt va src k (k_heap s) (k_heap s1) /\ s1 = set_k_heap (fun _ => k_heap s1) s)).
  { exists va, 0%nat. rewrite drop_0. split_and!; [lia|done|lia|by apply copied_0|kst_eq]. }
  { simpl. lia. }
  intros x s1 (w & k & Hk & -> & Hwk & C & Es). cbv beta iota. rewrite length_drop. fold n.
  destruct (0 <? Z.of_nat (n - k)) eqn:E; zbool.
  2: { apply wp_ret. replace n with k by lia. done. }
  rewrite Hwk by lia. clear Hwk. set (a := va + Z.of_nat k). cbv zeta.
  destruct (cp_writable _ _ _ _ _ _ C _ (Hw k ltac:(lia))) as (v & page & Ht & HU & HW & Hpage & Hpl). fold a in Ht.
  pose proof (pgrounddown_spec a) as [Hd _]. unfold PGSIZE in Hd.
  rewrite (proj2 (Z.leb_gt MAXVA _)) by (unfold a in *; lia).
  assert (Hup : user_page (k_heap s1) pt a = Some (PTE2PA v)) by (unfold user_page; rewrite Ht; cbn; by rewrite HU).
  apply wp_bind. eapply wp_run; [apply walkaddr_user; [apply C|unfold a in *; lia|by apply user_page_down]|].
  assert (Hpa0 : PTE2PA v <> 0).
  { intros Hz. rewrite Hz in Hpage. rewrite (cp_frame _ _ _ _ _ _ C) in Hpage by done.
    by rewrite Hpage in H0. }
  rewrite (proj2 (Z.eqb_neq _ 0)) by done. apply wp_bind, wp_ret. rewrite (proj2 (Z.eqb_neq _ 0)) by done.
  apply wp_bind. eapply wp_run; [apply walk_read; [apply C|unfold a in *; lia]|].
  assert (Ht' : translate (k_heap s1) pt (PGROUNDDOWN a) = Some v)
    by (by rewrite (translate_page _ _ (PGROUNDDOWN a) a) by apply rounddown_page).
  unfold translate in Ht'. destruct (leaf_slot (k_heap s1) pt (PGROUNDDOWN a)) as [[b q]|]; cbn in Ht'; [|done].
  destruct (pte_at (k_heap s1) (b, q)) as [v'|] eqn:Hv'; cbn in Ht'; [|done].
  destruct (has v' PTE_V); simplify_eq.
  apply wp_bind. eapply wp_run; [by apply load_pte_ok|]. rewrite HW. cbn [negb].
  apply wp_bind. eapply wp_deref; [by rewrite Hpage|].
  apply wp_bind, wp_modify, wp_ret.
  rewrite rounddown_eq. replace (a - (a - a mod PGSIZE)) with (a mod PGSIZE) by lia.
  pose proof (Z.mod_pos_bound a PGSIZE ltac:(done)) as Hm.
  set (m := Z.min (PGSIZE - a mod PGSIZE) (Z.of_nat (n - k))).
  assert (Hm0 : 0 < m) by lia.
  split; [|cbn [snd]; rewrite !length_drop; fold n; lia].
  exists (u64 (a - a mod PGSIZE + PGSIZE)), (k + Z.to_nat m)%nat. split_and!.
  - lia.
  - by rewrite drop_drop.
  - intros Hlt. rewrite wrap_small by (unfold MAXVA, PGSIZE in *; unfold a in *; lia). lia.
  - cbn. apply (copied_more pt va src k (Z.to_nat m) (k_heap s) (k_heap s1)); fold a; (done || (unfold n, a in *; lia) || idtac).
    by rewrite <- (copied_page _ _ _ _ _ _ _ C).
  - rewrite Es at 1. kst_eq.
Qed.

(** C25. [copyout] stores a buffer in user memory, whatever pages it spans: for
    a range of writable user pages none of which shares its physical page, it
    returns 0, every byte of the range is the byte of the buffer, and every
    other byte of the address space is as before.  [copyin] of the same range
    then gives the buffer back. *)
Theorem copyout_copyin :
  exists s', copyout pt va src s = Ok 0 s' /\
    (forall va', 0 <= va' < MAXVA ->
       ubyte (k_heap s') pt va' =
       if (va <=? va') && (va' <? va + Z.of_nat (length src)) then src !! Z.to_nat (va' - va)
       else ubyte (k_heap s) pt va') /\
    copyin pt va (Z.of_nat (length src)) s' = Ok (src, 0) s'.
Proof using All.
  pose proof copyout_wp as H. apply wp_ok in H as (r & s' & E & -> & C & Es).
  exists s'. split_and!; [done|apply C|]. apply copyin_ok; [apply C| |done|done|].
  - by rewrite (cp_frame _ _ _ _ _ _ C).
  - intros i Hi. rewrite (cp_byte _ _ _ _ _ _ C) by lia.
    rewrite (proj2 (Z.leb_le _ _)), (proj2 (Z.ltb_lt _ _)) by lia. cbn [andb]. f_equal. lia.
Qed.
End Copyout.
End UserMem.

(** ** Memory seen by a process *)

(** the address space of [pt] after the first [k] bytes of [src] were stored
    from [addr] on *)
Record viewed (pt addr : Z) (src : list Z) (k : nat) (h h1 : gmap Z pobj) : Prop := {
  vw_ok : pt_ok h1 pt;
  vw_translate va : translate h1 pt va = translate h pt va;
  vw_writable va : uwritable h pt va -> uwritable h1 pt va;
  vw_byte va : 0 <= va < MAXVA ->
    ubyte h1 pt va = if (addr <=? va) && (va <? addr + Z.of_nat k) then src !! Z.to_nat (va - addr)
                     else ubyte h pt va;
  vw_null : h1 !! 0 ≫= as_bytes = None
}.

Lemma viewed_0 pt addr src h : pt_ok h pt -> h !! 0 ≫= as_bytes = None -> viewed pt addr src 0 h h.
Proof.
  intros Hok H0. split; try done. intros va _. destruct (addr <=? va) eqn:E; zbool; [|done].
  by rewrite (proj2 (Z.ltb_ge _ _)) by lia.
Qed.

Lemma viewed_unshared pt addr src k h h1 :
  viewed pt addr src k h h1 -> unshared h pt -> unshared h1 pt.
Proof.
  intros V Hun va va' pa Hva Hva' H H'. unfold user_page in H, H'.
  rewrite !(vw_translate _ _ _ _ _ _ V) in *. by eapply Hun.
Qed.
