(* ===== verification/Transfer.v ===== *)
(** * Copying to and from a process or the kernel

    [either_copyout] and [either_copyin] move bytes between the kernel and a
    user address, a buffer on the kernel stack or a page.  The classes [Sink]
    and [Source] say what the callers that move data in pieces rely on; there
    is an instance for each kind of address.  What a process sees depends only
    on pages of bytes and page tables ([umem_eq]), so changes elsewhere do not
    matter. *)

From S2P Require Import Prelude Monad Types Kernel Kalloc KallocFacts Vm VmFacts UserMem.
From stdpp Require Import base numbers list gmap strings.
From Stdlib Require Import ZArith Lia.

Open Scope Z_scope.

(** ** Memory up to pages that are no user memory *)

Definition umem_eq (h h' : gmap Z pobj) : Prop :=
  forall a, h !! a ≫= as_bytes = h' !! a ≫= as_bytes /\ h !! a ≫= as_ptes = h' !! a ≫= as_ptes.

#[export] Instance umem_equivalence : Equivalence umem_eq.
Proof.
  split.
  - by intros h a.
  - intros h h' H a. destruct (H a). by split.
  - intros h1 h2 h3 H H' a. destruct (H a), (H' a). split; congruence.
Qed.

#[export] Instance pte_at_proper : Proper (umem_eq ==> eq ==> eq) pte_at.
Proof. intros h h' H q ? <-. unfold pte_at. by rewrite (proj2 (H q.1)). Qed.

#[export] Instance subtable_proper : Proper (umem_eq ==> eq ==> eq ==> eq) subtable.
Proof. intros h h' H a ? <- i ? <-. unfold subtable. by rewrite H. Qed.

#[export] Instance translate_proper : Proper (umem_eq ==> eq ==> eq ==> eq) translate.
Proof.
  intros h h' H pt ? <- va ? <-. unfold translate.
  assert (leaf_slot h pt va = leaf_slot h' pt va) as ->.
  { unfold leaf_slot. rewrite H. destruct (subtable h' pt _) as [a|]; cbn; [|done]. by rewrite H. }
  destruct (leaf_slot h' pt va); cbn; [|done]. by rewrite H.
Qed.

#[export] Instance user_page_proper : Proper (umem_eq ==> eq ==> eq ==> eq) user_page.
Proof. intros h h' H pt ? <- va ? <-. unfold user_page. by rewrite H. Qed.

#[export] Instance ubyte_proper : Proper (umem_eq ==> eq ==> eq ==> eq) ubyte.
Proof.
  intros h h' H pt ? <- va ? <-. unfold ubyte. rewrite H.
  destruct (user_page h' pt va) as [pa|]; cbn; [|done]. by rewrite (proj1 (H pa)).
Qed.

Lemma as_ptes_some (o : option pobj) l : o ≫= as_ptes = Some l -> o = Some (PPte l).
Proof. destruct o as [[]|]; cbn; intros; by simplify_eq. Qed.
Lemma as_bytes_some (o : option pobj) l : o ≫= as_bytes = Some l -> o = Some (PBytes l).
Proof. destruct o as [[]|]; cbn; intros; by simplify_eq. Qed.

#[export] Instance is_table_proper : Proper (umem_eq ==> eq ==> iff) is_table.
Proof.
  assert (forall h h' a, umem_eq h h' -> is_table h a -> is_table h' a) as H.
  { intros h h' a H (l & Hl & Hn). exists l. split; [|done]. apply as_ptes_some.
    by rewrite <- (proj2 (H a)), Hl. }
  intros h h' Hh a ? <-. split; apply H; [done|by symmetry].
Qed.

#[export] Instance uwritable_proper : Proper (umem_eq ==> eq ==> eq ==> iff) uwritable.
Proof.
  assert (forall h h' pt va, umem_eq h h' -> uwritable h pt va -> uwritable h' pt va) as H.
  { intros h h' pt va H (v & l & H1 & H2 & H3 & H4 & H5). exists v, l.
    split_and!; [by rewrite <- H|done|done| |done]. apply as_bytes_some. by rewrite <- (proj1 (H (PTE2PA v))), H4. }
  intros h h' Hh pt ? <- va ? <-. split; apply H; [done|by symmetry].
Qed.

#[export] Instance pt_ok_proper : Proper (umem_eq ==> eq ==> iff) pt_ok.
Proof.
  assert (forall h h' pt, umem_eq h h' -> pt_ok h pt -> pt_ok h' pt) as H.
  { intros h h' pt H [P1 P2 P3 P4 P5]. split.
    - by rewrite <- H.
    - intros i a. rewrite <- !H. apply P2.
    - intros i a j b. rewrite <- !H. intros E1 E2. destruct (P3 _ _ _ _ E1 E2) as (? & ? & Hn).
      split_and!; try done. intros i'. rewrite <- H. apply Hn.
    - intros i i' a. rewrite <- !H. apply P4.
    - intros i a j i' a' j' b. rewrite <- !H. apply P5. }
  intros h h' Hh pt ? <-. split; apply H; [done|by symmetry].
Qed.

(** ** Destinations and sources *)

Lemma kaddr_add_add d x y : kaddr_add (kaddr_add d x) y = kaddr_add d (x + y).
Proof.
  destruct d; cbn; f_equal; [|lia|lia]. unfold wrap. rewrite Zplus_mod_idemp_l. f_equal. lia.
Qed.

(** [got dn h kb]: the bytes [dn] have arrived, in pages [h] and stack buffer [kb] *)
Class Sink (p : nat) (pr : proc) (dst : kaddr) (n : nat)
    (got : list Z -> gmap Z pobj -> list Z -> Prop) `{Layout} : Prop := {
  sink_start : kaddr_add dst 0 = dst;
  sink_proper dn h h' kb : umem_eq h h' -> got dn h kb -> got dn h' kb;
  sink_put s dn src :
    running p pr s -> got dn (k_heap s) (k_kbuf s) -> src <> [] -> (length dn + length src <= n)%nat ->
    exists h kb, either_copyout (kaddr_add dst (Z.of_nat (length dn))) src s =
      Ok 0 (set_k_kbuf (fun _ => kb) (set_k_heap (fun _ => h) s)) /\ got (dn ++ src) h kb /\
      forall a, k_heap s !! a ≫= as_bytes = None -> h !! a = k_heap s !! a
}.

(** [has h kb]: the source holds the bytes [data] *)
Class Source (p : nat) (pr : proc) (src : kaddr) (data : list Z)
    (has : gmap Z pobj -> list Z -> Prop) `{Layout} : Prop := {
  source_start : kaddr_add src 0 = src;
  source_proper h h' kb : umem_eq h h' -> has h kb -> has h' kb;
  source_get s k m :
    running p pr s -> has (k_heap s) (k_kbuf s) -> (0 < m)%nat -> (k + m <= length data)%nat ->
    either_copyin (kaddr_add src (Z.of_nat k)) (Z.of_nat m) s = Ok (slice k m data, 0) s
}.

Lemma sink_weaken `{Layout} p pr dst n n' got : Sink p pr dst n got -> (n' <= n)%nat -> Sink p pr dst n' got.
Proof.
  intros HS Hn. split; [apply HS|apply HS|]. intros s dn src Hr Hg Hne Hl. apply sink_put; [done..|lia].
Qed.

Section Instances.
Context {L : Layout} (p : nat) (pr : proc).

(** *** User memory *)

Section User.
Context (va : Z) (h0 : gmap Z pobj).
Let pt : Z := p_pagetable pr.

Definition user_got (dn : list Z) (h : gmap Z pobj) (kb : list Z) : Prop :=
  viewed pt va dn (length dn) h0 h.

Lemma viewed_app dn src h1 h2 :
  viewed pt va dn (length dn) h0 h1 ->
  copied pt (va + Z.of_nat (length dn)) src (length src) h1 h2 ->
  viewed pt va (dn ++ src) (length (dn ++ src)) h0 h2.
Proof using Type.
  intros [V1 V2 V3 V4 V5] [C1 C2 C3 C4 C5]. split; [done| |auto| |by rewrite C5].
  - intros a. by rewrite C2.
  - intros a Ha. rewrite C4, V4 by done. rewrite length_app, Nat2Z.inj_add.
    set (x := Z.of_nat (length dn)). set (y := Z.of_nat (length src)).
    assert (0 <= x /\ 0 <= y) as [Hx0 Hy0] by (unfold x, y; lia).
    destruct (decide (va <= a < va + x)).
    + rewrite (proj2 (Z.leb_gt (va + x) a)), (proj2 (Z.leb_le va a)), !(proj2 (Z.ltb_lt a _)) by lia.
      cbn [andb]. by rewrite lookup_app_l by (unfold x in *; lia).
    + destruct (decide (va + x <= a < va + x + y)).
      * rewrite (proj2 (Z.leb_le (va + x) a)), (proj2 (Z.ltb_lt a (va + x + y))), (proj2 (Z.leb_le va a)),
          (proj2 (Z.ltb_lt a (va + (x + y)))) by lia. cbn [andb].
        rewrite lookup_app_r by (unfold x in *; lia). f_equal. unfold x in *. lia.
      * destruct (va + x <=? a) eqn:E1, (a <? va + x + y) eqn:E2, (va <=? a) eqn:E3,
          (a <? va + x) eqn:E4, (a <? va + (x + y)) eqn:E5; zbool; (done || lia).
Qed.

#[export] Instance user_sink n :
  unshared h0 pt -> 0 <= va -> va + Z.of_nat n <= MAXVA ->
  (forall i, (i < n)%nat -> uwritable h0 pt (va + Z.of_nat i)) -> Sink p pr (AUser va) n user_got.
Proof using Type.
  intros Hun Hva Hend Hw. split.
  - cbn. by rewrite Z.add_0_r, wrap_small by (unfold MAXVA in *; lia).
  - intros dn h h' kb E [V1 V2 V3 V4 V5]. split.
    + by rewrite <- E.
    + intros a. by rewrite <- E.
    + intros a Ha. rewrite <- E. auto.
    + intros a Ha. rewrite <- E. auto.
    + by rewrite <- (proj1 (E 0)).
  - intros s dn src [Hc Hp _] V Hne Hlen. set (a := va + Z.of_nat (length dn)).
    assert (wp (copyout pt a src) s (fun r s' => r = 0 /\
      copied pt a src (length src) (k_heap s) (k_heap s') /\ s' = set_k_heap (fun _ => k_heap s') s)) as Hwp.
    { apply copyout_wp; [apply V|apply V|by eapply viewed_unshared|unfold a; lia..|].
      intros i Hi. apply V. unfold a. rewrite <- Z.add_assoc, <- Nat2Z.inj_add. apply Hw. lia. }
    apply wp_ok in Hwp as (r & s' & E & -> & C & Es). exists (k_heap s'), (k_kbuf s). split_and!.
    + unfold either_copyout, myproc, get_proc.
      erewrite bind_ok by (unfold deref; by rewrite Hc).
      erewrite bind_ok by (unfold deref; by rewrite Hp). cbn [kaddr_add].
      rewrite wrap_small by (unfold MAXVA in *; lia). fold pt a. rewrite E. f_equal. rewrite Es at 1. kst_eq.
    + by eapply viewed_app.
    + apply C.
Qed.

Definition user_has (data : list Z) (h : gmap Z pobj) (kb : list Z) : Prop :=
  pt_ok h pt /\ h !! 0 ≫= as_bytes = None /\
  forall i, (i < length data)%nat -> ubyte h pt (va + Z.of_nat i) = data !! i.

#[export] Instance user_source data :
  0 <= va -> va + Z.of_nat (length data) <= MAXVA -> Source p pr (AUser va) data (user_has data).
Proof using Type.
  intros Hva Hend. split.
  - cbn. by rewrite Z.add_0_r, wrap_small by (unfold MAXVA in *; lia).
  - intros h h' kb E (H1 & H2 & H3). split_and!.
    + by rewrite <- E.
    + by rewrite <- (proj1 (E 0)).
    + intros i Hi. rewrite <- E. auto.
  - intros s k m [Hc Hp _] (H1 & H2 & H3) Hm Hk.
    unfold either_copyin, myproc, get_proc.
    erewrite bind_ok by (unfold deref; by rewrite Hc).
    erewrite bind_ok by (unfold deref; by rewrite Hp). cbn [kaddr_add].
    rewrite wrap_small by (unfold MAXVA in *; lia).
    assert (length (slice k m data) = m) as Hl by (by apply length_slice). rewrite <- Hl at 1.
    apply copyin_ok; [done|done|lia|lia|]. rewrite Hl. intros i Hi.
    rewrite lookup_slice, <- H3 by lia. f_equal. lia.
Qed.

End User.

(** *** A buffer on the kernel stack *)

Section Stack.
Context (off : Z) (kb0 : list Z) (Hoff : 0 <= off).

Definition stack_got (dn : list Z) (h : gmap Z pobj) (kb : list Z) : Prop :=
  kb = splice (Z.to_nat off) dn kb0.

#[export] Instance stack_sink n :
  (Z.to_nat off + n <= length kb0)%nat -> Sink p pr (AStack off) n stack_got.
Proof using Hoff.
  intros Hn. split; [cbn; f_equal; apply Z.add_0_r|done|]. intros s dn src [Hc Hp _] Hgot Hne Hlen.
  exists (k_heap s), (splice (Z.to_nat off) (dn ++ src) kb0). split_and!; [|done|done].
  unfold either_copyout, myproc, get_proc.
  erewrite bind_ok by (unfold deref; by rewrite Hc).
  erewrite bind_ok by (unfold deref; by rewrite Hp). cbn [kaddr_add].
  erewrite bind_ok by reflexivity. unfold mret, ST_ret. f_equal. kst_eq. rewrite Hgot.
  rewrite Z2Nat.inj_add, Nat2Z.id by lia. apply splice_app. lia.
Qed.

Definition stack_has (data : list Z) (h : gmap Z pobj) (kb : list Z) : Prop :=
  slice (Z.to_nat off) (length data) kb = data.

#[export] Instance stack_source data : Source p pr (AStack off) data (stack_has data).
Proof using Hoff.
  split; [cbn; f_equal; apply Z.add_0_r|done|]. intros s k m [Hc Hp _] Hhas Hm Hk. unfold either_copyin, myproc, get_proc.
  erewrite bind_ok by (unfold deref; by rewrite Hc).
  erewrite bind_ok by (unfold deref; by rewrite Hp). cbn [kaddr_add].
  erewrite bind_ok by reflexivity. unfold mret, ST_ret. f_equal. f_equal.
  rewrite Nat2Z.id, Z2Nat.inj_add, Nat2Z.id by lia. unfold stack_has in Hhas.
  transitivity (slice k m (slice (Z.to_nat off) (length data) (k_kbuf s))); [|by rewrite Hhas].
  by rewrite slice_slice.
Qed.

End Stack.

End Instances.
