(* ===== verification/Uart.v ===== *)
(** * The UART driver ([uart.c]) and memory-mapped registers

    A read of a device register gives the next value of [v_in], whatever it
    is; a write is appended to [v_out] with the register's address.  A loop
    that polls a register runs at most as often as there are values left. *)

From S2P Require Import Prelude Monad Types Kernel Vm.
From stdpp Require Import base numbers list gmap strings.
From Stdlib Require Import ZArith Lia.

Open Scope Z_scope.

(** ** Registers *)

Definition upd_dev (f : devst -> devst) : K unit := modify (set_k_dev f).

Definition mmio_read (addr : Z) : K Z := fun s =>
  match v_in (k_dev s) with
  | x :: l => Ok x (set_k_dev (set_v_in (fun _ => l)) s)
  | [] => Stuck
  end.

Definition mmio_write (addr v : Z) : K unit :=
  upd_dev (set_v_out (fun l => l ++ [(addr, v)])).

(** how often a polling loop can run *)
Definition mmio_fuel : K nat := gets (fun s => S (length (v_in (k_dev s)))).

(** ** The 16550 *)

Definition Reg (reg : Z) : Z := UART0 + reg.
Definition ReadReg (reg : Z) : K Z := x ← mmio_read (Reg reg); mret (u8 x).
Definition WriteReg (reg v : Z) : K unit := mmio_write (Reg reg) (u8 v).

Definition RHR : Z := 0.
Definition THR : Z := 0.
Definition IER : Z := 1.
Definition IER_RX_ENABLE : Z := 1.
Definition IER_TX_ENABLE : Z := 2.
Definition FCR : Z := 2.
Definition FCR_FIFO_ENABLE : Z := 1.
Definition FCR_FIFO_CLEAR : Z := 6.
Definition ISR : Z := 2.
Definition LCR : Z := 3.
Definition LCR_EIGHT_BITS : Z := 3.
Definition LCR_BAUD_LATCH : Z := 128.
Definition LSR : Z := 5.
Definition LSR_RX_READY : Z := 1.
Definition LSR_TX_IDLE : Z := 32.

Definition uartinit : K unit :=
  WriteReg IER 0x00;;
  WriteReg LCR LCR_BAUD_LATCH;;
  WriteReg 0 0x03;;
  WriteReg 1 0x00;;
  WriteReg LCR LCR_EIGHT_BITS;;
  WriteReg FCR (Z.lor FCR_FIFO_ENABLE FCR_FIFO_CLEAR);;
  WriteReg IER (Z.lor IER_TX_ENABLE IER_RX_ENABLE).

Definition uartwrite (buf : list Z) : K unit :=
  acquire Luart;;
  for_each buf (fun c =>
    loop WAKEUPS (fun _ : unit =>
      busy ← gets (fun s => v_tx_busy (k_dev s));
      if (busy : bool) then sleep ChUart Luart;; mret (inl tt) else mret (inr tt)) tt;;
    WriteReg THR c;;
    upd_dev (set_v_tx_busy (fun _ => true)));;
  release Luart.

Definition uartputc_sync (c : Z) : K unit :=
  panicked ← gets (fun s => v_panicked (k_dev s));
  if (panicked : bool) then stuck else
  fuel ← mmio_fuel;
  loop fuel (fun _ : unit =>
    lsr ← ReadReg LSR;
    if Z.land lsr LSR_TX_IDLE =? 0 then mret (inl tt) else mret (inr tt)) tt;;
  WriteReg THR c.

Definition uartgetc : K Z :=
  lsr ← ReadReg LSR;
  if negb (Z.land lsr LSR_RX_READY =? 0) then ReadReg RHR else mret (-1).
