(* ===== verification/Printf.v ===== *)
(** * Formatted console output ([printf.c], [consputc], [procdump])

    [printint], [printptr] and [format] give the characters the C code passes
    to [consputc], in order; [kprintf] sends them.  The variable arguments
    are a list: a number is its 64-bit register value, a string its bytes
    ([None] for a null pointer).  [format] is [None] where the C code would
    fetch an argument that was not passed. *)

From S2P Require Import Prelude Monad CString Types Kernel Uart.
From stdpp Require Import base numbers list gmap strings.
From Stdlib Require Import ZArith Lia.

Open Scope Z_scope.

Definition BACKSPACE : Z := 0x100.

Definition consputc (c : Z) : K unit :=
  if c =? BACKSPACE then uartputc_sync 8;; uartputc_sync 32;; uartputc_sync 8
  else uartputc_sync c.

Definition digits : list Z := chars "0123456789abcdef".

(** the [do ... while] loop of [printint]: the digits of [x], the last first.
    The quotient shrinks at each turn, so 64 turns are enough for 64 bits *)
Fixpoint digit_loop (fuel : nat) (x base : Z) : list Z :=
  match fuel with
  | O => []
  | S fuel =>
      nth (Z.to_nat (x mod base)) digits 0 ::
      (if x / base =? 0 then [] else digit_loop fuel (x / base) base)
  end.

(** [buf] after the loop and the sign of [printint] *)
Definition printint_buf (xx base : Z) (sign : bool) : list Z :=
  let xx := s64 xx in
  let sign := sign && (xx <? 0) in
  let x := u64 (if sign then - xx else xx) in
  digit_loop 64 x base ++ (if sign then [45] else []).

Definition printint (xx base : Z) (sign : bool) : list Z := rev (printint_buf xx base sign).

Definition printptr (x : Z) : list Z :=
  48 :: 120 ::
  map (fun i => nth (Z.to_nat (Z.shiftr (u64 (Z.shiftl x (4 * i))) 60)) digits 0) (seqZ 0 16).

Inductive parg := ANum (x : Z) | AStr (s : option (list Z)).

Fixpoint format (fmt : list Z) (ap : list parg) : option (list Z) :=
  match fmt with
  | [] => Some []
  | cx :: f0 =>
      if cx =? 0 then Some []
      else if negb (cx =? 37) then (cons cx) <$> format f0 ap
      else
        match f0 with
        | [] => Some []
        | c0 :: f1 =>
            let c1 := if c0 =? 0 then 0 else ch f1 in
            let c2 := if c1 =? 0 then 0 else ch (tail f1) in
            let num (conv : Z -> list Z) (rest : list parg -> option (list Z)) :=
              match ap with ANum x :: ap => (app (conv x)) <$> rest ap | _ => None end in
            let skip1 ap := match f1 with _ :: f2 => format f2 ap | [] => Some [] end in
            let skip2 ap := match f1 with _ :: _ :: f3 => format f3 ap | _ => Some [] end in
            if c0 =? 100 then num (fun x => printint (s32 x) 10 true) (format f1)
            else if (c0 =? 108) && (c1 =? 100) then num (fun x => printint x 10 true) skip1
            else if (c0 =? 108) && (c1 =? 108) && (c2 =? 100)
              then num (fun x => printint x 10 true) skip2
            else if c0 =? 117 then num (fun x => printint (u32 x) 10 false) (format f1)
            else if (c0 =? 108) && (c1 =? 117) then num (fun x => printint x 10 false) skip1
            else if (c0 =? 108) && (c1 =? 108) && (c2 =? 117)
              then num (fun x => printint x 10 false) skip2
            else if c0 =? 120 then num (fun x => printint (u32 x) 16 false) (format f1)
            else if (c0 =? 108) && (c1 =? 120) then num (fun x => printint x 16 false) skip1
            else if (c0 =? 108) && (c1 =? 108) && (c2 =? 120)
              then num (fun x => printint x 16 false) skip2
            else if c0 =? 112 then num printptr (format f1)
            else if c0 =? 99 then num (fun x => [u32 x]) (format f1)
            else if c0 =? 115 then
              match ap with
              | AStr s :: ap => (app (cstr (default (chars "(null)") s))) <$> format f1 ap
              | _ => None
              end
            else if c0 =? 37 then (cons 37) <$> format f1 ap
            else if c0 =? 0 then Some []
            else (fun l => 37 :: c0 :: l) <$> format f1 ap
        end
  end.

Definition kprintf (fmt : list Z) (ap : list parg) : K unit :=
  panicking ← gets (fun s => v_panicking (k_dev s));
  when (negb panicking) (acquire Lpr);;
  out ← deref (fun _ => format fmt ap);
  for_each out consputc;;
  when (negb panicking) (release Lpr).

(** [panic] up to its final endless loop, which [Panic] stands for in callers *)
Definition panic_print (msg : list Z) : K unit :=
  upd_dev (set_v_panicking (fun _ => true));;
  kprintf (chars "panic: ") [];;
  kprintf (chars "%s" ++ [10]) [AStr (Some msg)];;
  upd_dev (set_v_panicked (fun _ => true)).

(** ** procdump *)

Definition state_name (st : procstate) : list Z :=
  chars (match st with
         | UNUSED => "unused" | USED => "used" | SLEEPING => "sleep "
         | RUNNABLE => "runble" | RUNNING => "run   " | ZOMBIE => "zombie"
         end).

Definition procdump : K unit :=
  kprintf [10] [];;
  for_each (seq 0 NPROC) (fun i =>
    ps ← get_psched i;
    if bool_decide (ps_state ps = UNUSED) then mret tt else
    pr ← get_proc i;
    kprintf (chars "%d %s %s")
      [ANum (p_pid pr); AStr (Some (state_name (ps_state ps))); AStr (Some (p_name pr))];;
    kprintf [10] []).
