(* ===== verification/Echo.v ===== *)
(** * Output on an idle serial port

    [echo_ready n d]: the UART accepts the next [n] characters at once.  Then a
    character and a message are printed, [printed] being the devices with the
    characters put out, and nothing but the state of the devices changes. *)

From S2P Require Import Prelude Monad CString Types Kernel Uart Printf.
From stdpp Require Import base numbers list gmap strings.
From Stdlib Require Import ZArith Lia.

Open Scope Z_scope.

(** the UART accepts the next [n] characters at once *)
Definition echo_ready (n : nat) (d : devst) : Prop :=
  v_panicked d = false /\ (n <= length (v_in d))%nat /\
  Forall (fun x => Z.land (u8 x) LSR_TX_IDLE <> 0) (v_in d).

Lemma uartputc_echo c n s :
  echo_ready (S n) (k_dev s) ->
  wp (uartputc_sync c) s (fun _ s' => exists d', s' = set_k_dev (fun _ => d') s /\
    echo_ready n d' /\ v_cons d' = v_cons (k_dev s)).
Proof.
  intros (Hp & Hn & Hi). unfold uartputc_sync. apply wp_bind, wp_gets. rewrite Hp.
  apply wp_bind, wp_gets. destruct (v_in (k_dev s)) as [|x l] eqn:E; [simpl in Hn; lia|].
  apply Forall_cons in Hi as [Hx Hl]. apply wp_bind. cbn [length loop]. apply wp_bind, wp_bind.
  unfold ReadReg. apply wp_bind. unfold mmio_read at 1. unfold wp at 1. rewrite E. apply wp_ret.
  rewrite (proj2 (Z.eqb_neq _ 0)) by done. do 2 apply wp_ret. apply wp_modify.
  eexists. split; [kst_eq|]. cbn. simpl in Hn. unfold echo_ready. cbn. split_and!; (done || lia).
Qed.

Lemma consputc_echo c n s :
  echo_ready (3 + n) (k_dev s) ->
  wp (consputc c) s (fun _ s' => exists d', s' = set_k_dev (fun _ => d') s /\
    echo_ready n d' /\ v_cons d' = v_cons (k_dev s)).
Proof.
  intros H. unfold consputc. destruct (c =? BACKSPACE).
  - apply wp_bind. eapply wp_mono; [by apply (uartputc_echo 8 (2 + n))|].
    intros _ s1 (d1 & -> & H1 & E1). apply wp_bind.
    eapply wp_mono; [by apply (uartputc_echo 32 (1 + n))|].
    intros _ s2 (d2 & -> & H2 & E2). eapply wp_mono; [by apply (uartputc_echo 8 n)|].
    intros _ s3 (d3 & -> & H3 & E3). exists d3. split_and!; [kst_eq|done|]. cbn in *. congruence.
  - eapply wp_mono; [apply (uartputc_echo c n)|done]. destruct H as (? & ? & ?). split_and!; (done || lia).
Qed.

(** ** Messages *)

Lemma echo_ready_le n m d : (n <= m)%nat -> echo_ready m d -> echo_ready n d.
Proof. intros Hn (Hp & Hm & Hi). split_and!; (done || lia). Qed.

Lemma puts_echo out n s :
  echo_ready (3 * length out + n) (k_dev s) ->
  wp (for_each out consputc) s (fun _ s' => exists d', s' = set_k_dev (fun _ => d') s /\ echo_ready n d').
Proof.
  revert s. induction out as [|c out IH]; intros s H; simpl for_each.
  - apply wp_ret. exists (k_dev s). split; [kst_eq|done].
  - apply wp_bind. eapply wp_mono; [apply (consputc_echo c (3 * length out + n))|].
    { eapply echo_ready_le; [|exact H]. simpl. lia. }
    intros _ s1 (d1 & -> & H1 & _). eapply wp_mono; [by apply IH|].
    intros _ s2 (d2 & -> & H2). exists d2. split; [kst_eq|done].
Qed.

Lemma kprintf_echo fmt ap out n s :
  format fmt ap = Some out -> Lpr ∉ k_held s -> echo_ready (3 * length out + n) (k_dev s) ->
  wp (kprintf fmt ap) s (fun _ s' => exists d', s' = set_k_dev (fun _ => d') s /\ echo_ready n d').
Proof.
  intros Hf Hl He. unfold kprintf. apply wp_bind, wp_gets. destruct (v_panicking (k_dev s)); cbn [negb when].
  - apply wp_bind, wp_ret, wp_bind. eapply wp_deref; [done|]. apply wp_bind.
    eapply wp_mono; [by apply (puts_echo out n)|]. intros [] s1 H. by apply wp_ret.
  - apply wp_bind, wp_acquire; [done|]. apply wp_bind. eapply wp_deref; [done|]. apply wp_bind.
    eapply wp_mono; [by apply (puts_echo out n)|]. intros _ s1 (d & -> & H).
    eapply wp_release; [done|]. exists d. split; [kst_eq|done].
Qed.

(** *** What is printed *)

(** the devices after the characters [out]: the status register has been read
    once for each of them, and each has been written to the transmit register *)
Definition printed (out : list Z) (d : devst) : devst :=
  set_v_out (fun l => l ++ ((fun c => (Reg THR, u8 c)) <$> out)) (set_v_in (drop (length out)) d).

Lemma printed_nil d : printed [] d = d.
Proof. unfold printed, set_v_out, set_v_in. destruct d. cbn. by rewrite app_nil_r. Qed.

Lemma printed_cons c out d : printed out (printed [c] d) = printed (c :: out) d.
Proof.
  unfold printed, set_v_out, set_v_in. destruct d. cbn. f_equal; [by rewrite drop_drop|].
  by rewrite <- app_assoc.
Qed.

Lemma uartputc_prints c s :
  echo_ready 1 (k_dev s) -> uartputc_sync c s = Ok tt (set_k_dev (printed [c]) s).
Proof.
  intros (Hp & Hn & Hi). apply run_wp. unfold uartputc_sync. apply wp_bind, wp_gets. rewrite Hp.
  apply wp_bind, wp_gets. destruct (v_in (k_dev s)) as [|x l] eqn:E; [simpl in Hn; lia|].
  apply Forall_cons in Hi as [Hx Hl]. apply wp_bind. cbn [length loop]. apply wp_bind, wp_bind.
  unfold ReadReg. apply wp_bind. unfold mmio_read at 1. unfold wp at 1. rewrite E. apply wp_ret.
  rewrite (proj2 (Z.eqb_neq _ 0)) by done. do 2 apply wp_ret. apply wp_modify. split; [done|].
  kst_eq. unfold printed. destruct (k_dev s). cbn in *. by rewrite E.
Qed.

Lemma echo_ready_printed n c d : echo_ready (S n) d -> echo_ready n (printed [c] d).
Proof.
  intros (Hp & Hn & Hi). destruct d as [l]. cbn in *. destruct l as [|x l]; [simpl in Hn; lia|].
  apply Forall_cons in Hi as [_ Hi]. unfold echo_ready, printed. cbn. rewrite drop_0. simpl in Hn. split_and!; (done || lia).
Qed.

Lemma puts_prints out s :
  Forall (fun c => c <> BACKSPACE) out -> echo_ready (length out) (k_dev s) ->
  for_each out consputc s = Ok tt (set_k_dev (printed out) s).
Proof.
  revert s. induction out as [|c out IH]; intros s Hb H; simpl for_each.
  - unfold mret, ST_ret. f_equal. kst_eq. by rewrite printed_nil.
  - apply Forall_cons in Hb as [Hc Hb].
    erewrite bind_ok by (unfold consputc; rewrite (proj2 (Z.eqb_neq _ _) Hc); apply uartputc_prints;
      by apply (echo_ready_le _ (S (length out))); [lia|]).
    rewrite IH; [|done|by apply echo_ready_printed]. f_equal. kst_eq. apply printed_cons.
Qed.

Lemma kprintf_prints fmt ap out s :
  format fmt ap = Some out -> Forall (fun c => c <> BACKSPACE) out ->
  Lpr ∉ k_held s -> echo_ready (length out) (k_dev s) ->
  kprintf fmt ap s = Ok tt (set_k_dev (printed out) s).
Proof.
  intros Hf Hb Hl He. apply run_wp. unfold kprintf. apply wp_bind, wp_gets.
  destruct (v_panicking (k_dev s)); cbn [negb when].
  - apply wp_bind, wp_ret, wp_bind. eapply wp_deref; [done|]. apply wp_bind.
    eapply wp_run; [by apply puts_prints|]. by apply wp_ret.
  - apply wp_bind, wp_acquire; [done|]. apply wp_bind. eapply wp_deref; [done|]. apply wp_bind.
    eapply wp_run; [by apply puts_prints|]. eapply wp_release; [done|]. split; [done|kst_eq].
Qed.

(** a run that returns has changed only the devices *)
Definition only_dev {A} (m : K A) : Prop :=
  forall s a s', m s = Ok a s' -> exists d, s' = set_k_dev (fun _ => d) s.

Lemma only_dev_ret {A} (a : A) : only_dev (mret a).
Proof. intros s b s' [= _ <-]. exists (k_dev s). kst_eq. Qed.

Lemma only_dev_bind {A B} (m : K A) (f : A -> K B) :
  only_dev m -> (forall a, only_dev (f a)) -> only_dev (m ≫= f).
Proof.
  intros Hm Hf s b s' H. apply bind_inv in H as (a & s1 & E1 & E2).
  apply Hm in E1 as [d1 ->]. apply Hf in E2 as [d2 ->]. exists d2. kst_eq.
Qed.

Lemma only_dev_gets {A} (f : kst -> A) : only_dev (gets f).
Proof. intros s b s' [= _ <-]. exists (k_dev s). kst_eq. Qed.

Lemma only_dev_ReadReg r : only_dev (ReadReg r).
Proof.
  apply only_dev_bind; [|intros; apply only_dev_ret]. intros s a s'. unfold mmio_read.
  destruct (v_in (k_dev s)); [done|]. intros [= _ <-]. eexists. kst_eq.
Qed.

Lemma only_dev_uartputc c : only_dev (uartputc_sync c).
Proof.
  apply only_dev_bind; [apply only_dev_gets|]. intros []; [by intros s a s'|].
  apply only_dev_bind; [apply only_dev_gets|]. intros fuel. apply only_dev_bind.
  - induction fuel as [|fuel IH]; [by intros s a s'|]. cbn [loop].
    apply only_dev_bind; [|intros [[]|]; [exact IH|apply only_dev_ret]].
    apply only_dev_bind; [apply only_dev_ReadReg|]. intros x. destruct (_ =? 0); apply only_dev_ret.
  - intros _ s a s' [= _ <-]. eexists. kst_eq.
Qed.

Lemma only_dev_puts out : only_dev (for_each out consputc).
Proof.
  induction out as [|c out IH]; simpl; [apply only_dev_ret|]. apply only_dev_bind; [|done].
  unfold consputc. destruct (c =? BACKSPACE); repeat (apply only_dev_bind; [|intros _]);
    apply only_dev_uartputc.
Qed.

Lemma only_dev_kprintf fmt ap : only_dev (kprintf fmt ap).
Proof.
  intros s a s' H. unfold kprintf in H. erewrite bind_ok in H by reflexivity.
  apply bind_inv in H as ([] & s1 & E1 & H). apply bind_inv in H as (out & s2 & E2 & H).
  apply bind_inv in H as ([] & s3 & E3 & H). apply only_dev_puts in E3 as [d ->].
  unfold deref in E2. destruct (format fmt ap); [|done]. injection E2 as <- <-.
  destruct (v_panicking (k_dev s)); cbn [negb when] in *.
  - injection E1 as <-. injection H as _ <-. by exists d.
  - unfold acquire, release, holding in *. erewrite bind_ok in E1, H by reflexivity.
    destruct (bool_decide _) in E1; [done|]. injection E1 as <-. cbn in H.
    destruct (bool_decide _); [|done]. injection H as _ <-. exists d. kst_eq; apply drop_lock_head.
Qed.

(** ** The length of a number *)

Lemma length_digit_loop fuel x base k :
  1 < base -> 0 <= x < base ^ Z.of_nat (S k) -> (length (digit_loop fuel x base) <= S k)%nat.
Proof.
  intros Hb. revert x k. induction fuel as [|fuel IH]; intros x k Hx; simpl length; [lia|].
  destruct (x / base =? 0) eqn:E; simpl length; [lia|]. zbool. destruct k as [|k].
  - rewrite Z.pow_1_r in Hx. by rewrite Z.div_small in E.
  - apply le_n_S, IH. split; [apply Z.div_pos; lia|]. apply Z.div_lt_upper_bound; [lia|].
    rewrite (Nat2Z.inj_succ (S k)), Z.pow_succ_r in Hx by lia. lia.
Qed.

Lemma length_digits y : 0 <= y <= 2147483648 -> (length (digit_loop 64 (u64 y) 10) <= 10)%nat.
Proof.
  intros Hy. rewrite wrap_small by (change (2 ^ 64) with 18446744073709551616; lia).
  apply length_digit_loop; [lia|]. change (10 ^ Z.of_nat 10) with 10000000000. lia.
Qed.

Lemma length_printint x : (length (printint (s32 x) 10 true) <= 11)%nat.
Proof.
  pose proof (swrap_range 32 x ltac:(lia)) as H. change (2 ^ (32 - 1)) with 2147483648 in H.
  unfold printint, printint_buf. cbv zeta. rewrite length_rev, length_app.
  rewrite (swrap_small 64) by (change (2 ^ (64 - 1)) with 9223372036854775808; lia).
  rewrite andb_true_l. destruct (Z.ltb_spec (s32 x) 0).
  - pose proof (length_digits (- s32 x) ltac:(lia)). change (length [45]) with 1%nat. lia.
  - pose proof (length_digits (s32 x) ltac:(lia)). change (length (@nil Z)) with 0%nat. lia.
Qed.
