(* ===== verification/Console.v ===== *)
(** * The console ([console.c]) and the UART interrupt

    Input characters go through the circular buffer [cons.buf]; its indices
    [r], [w] and [e] only grow, modulo 2^32. *)

From S2P Require Import Prelude Monad CString Types Kernel Vm Uart Printf.
From stdpp Require Import base numbers list gmap strings.
From Stdlib Require Import ZArith Lia.

Open Scope Z_scope.

Definition INPUT_BUF_SIZE : Z := 128.

(** [C(x)]: Control-x *)
Definition Ctl (x : Z) : Z := x - 64.

Definition get_cons : K console := gets (fun s => v_cons (k_dev s)).
Definition upd_cons (f : console -> console) : K unit := upd_dev (set_v_cons f).

Section Console.
Context {L : Layout}.

Definition consolewrite (src : kaddr) (n : Z) : K Z :=
  loop (S (Z.to_nat n)) (fun i =>
    if i <? n then
      let nn := Z.min 32 (n - i) in
      c ← either_copyin (kaddr_add src i) nn;
      if c.2 =? -1 then mret (inr i) else
      uartwrite c.1;;
      mret (inl (i + nn))
    else mret (inr i)) 0.

(** the wait loop of [consoleread]; [false] when the process was killed *)
Definition cons_wait : K bool :=
  loop WAKEUPS (fun _ : unit =>
    c ← get_cons;
    if cs_r c =? cs_w c then
      p ← myproc;
      k ← killed p;
      if (k : bool) then release Lcons;; mret (inr false)
      else sleep ChCons Lcons;; mret (inl tt)
    else mret (inr true)) tt.

(** [cons.buf[cons.r++ % INPUT_BUF_SIZE]] *)
Definition cons_pop : K Z :=
  c ← get_cons;
  x ← deref (fun _ => cs_buf c !! Z.to_nat (cs_r c mod INPUT_BUF_SIZE));
  upd_cons (set_cs_r (fun r => u32 (r + 1)));;
  mret x.

(** the loop of [consoleread] from [n]; the result is the [n] it ends with, or
    [None] when the process was killed *)
Definition consoleread_loop (target : Z) (dst : kaddr) (n : Z) : K (option Z) :=
  loop (S (Z.to_nat n)) (fun '(dst, n) =>
    if 0 <? n then
      ok ← cons_wait;
      if negb ok then mret (inr None) else
      c ← cons_pop;
      if c =? Ctl 68 then
        when (n <? target) (upd_cons (set_cs_r (fun r => u32 (r - 1))));;
        mret (inr (Some n))
      else
        e ← either_copyout dst [u8 c];
        if e =? -1 then mret (inr (Some n)) else
        if c =? 10 then mret (inr (Some (n - 1)))
        else mret (inl (kaddr_add dst 1, n - 1))
    else mret (inr (Some n))) (dst, n).

Definition consoleread (dst : kaddr) (n : Z) : K Z :=
  let target := u32 n in
  acquire Lcons;;
  r ← consoleread_loop target dst n;
  match r with
  | None => mret (-1)
  | Some n => release Lcons;; mret (s32 (target - n))
  end.

(** [cons.buf[(cons.e - 1) % INPUT_BUF_SIZE]] *)
Definition cons_last (c : console) : option Z :=
  cs_buf c !! Z.to_nat (u32 (cs_e c - 1) mod INPUT_BUF_SIZE).

(** Control-U; each turn moves [e] one step back towards [w] *)
Definition cons_kill : K unit :=
  loop (S (Z.to_nat INPUT_BUF_SIZE)) (fun _ : unit =>
    c ← get_cons;
    if cs_e c =? cs_w c then mret (inr tt) else
    x ← deref (fun _ => cons_last c);
    if x =? 10 then mret (inr tt) else
    upd_cons (set_cs_e (fun e => u32 (e - 1)));;
    consputc BACKSPACE;;
    mret (inl tt)) tt.

Definition consoleintr (c : Z) : K unit :=
  acquire Lcons;;
  (if c =? Ctl 80 then procdump
   else if c =? Ctl 85 then cons_kill
   else if (c =? Ctl 72) || (c =? 0x7f) then
     cs ← get_cons;
     if negb (cs_e cs =? cs_w cs) then
       upd_cons (set_cs_e (fun e => u32 (e - 1)));;
       consputc BACKSPACE
     else mret tt
   else
     cs ← get_cons;
     if negb (c =? 0) && (u32 (cs_e cs - cs_r cs) <? INPUT_BUF_SIZE) then
       let c := if c =? 13 then 10 else c in
       consputc c;;
       upd_cons (fun cs =>
         set_cs_e (fun e => u32 (e + 1))
           (set_cs_buf <[Z.to_nat (cs_e cs mod INPUT_BUF_SIZE) := u8 c]> cs));;
       cs ← get_cons;
       if (c =? 10) || (c =? Ctl 68) || (u32 (cs_e cs - cs_r cs) =? INPUT_BUF_SIZE) then
         upd_cons (fun cs => set_cs_w (fun _ => cs_e cs) cs);;
         wakeup ChCons
       else mret tt
     else mret tt);;
  release Lcons.

(** [uartintr] of [uart.c] *)
Definition uartintr : K unit :=
  ReadReg ISR;;
  acquire Luart;;
  lsr ← ReadReg LSR;
  when (negb (Z.land lsr LSR_TX_IDLE =? 0))
    (upd_dev (set_v_tx_busy (fun _ => false));;
     wakeup ChUart);;
  release Luart;;
  fuel ← mmio_fuel;
  loop fuel (fun _ : unit =>
    c ← uartgetc;
    if c =? -1 then mret (inr tt) else
    consoleintr c;;
    mret (inl tt)) tt.

(** [consoleinit]; the [devsw] entries it fills are in [devsw_read] and
    [devsw_write] *)
Definition consoleinit : K unit := uartinit.

Definition CONSOLE : Z := 1.

Definition devsw_read (major : Z) : option (kaddr -> Z -> K Z) :=
  if major =? CONSOLE then Some consoleread else None.

Definition devsw_write (major : Z) : option (kaddr -> Z -> K Z) :=
  if major =? CONSOLE then Some consolewrite else None.

End Console.
