(* ===== verification/ConsoleFacts.v ===== *)
(** * Line editing on the console

    What is typed and not yet read is a sequence of characters that readers can
    have and the line being edited.  [cons_rep] relates them to the circular
    buffer; [type_char] says what a character does to them; [consoleintr]
    implements it. *)

From S2P Require Import Prelude Monad CString Types Kernel Vm Uart Printf Echo Console.
From stdpp Require Import base numbers list gmap strings.
From Stdlib Require Import ZArith Lia.

Open Scope Z_scope.

(** ** The line discipline *)

Definition line_end (c : Z) : bool := (c =? 10) || (c =? Ctl 68).

(** the characters available to readers and the line being edited, after [c] *)
Definition type_char (c : Z) (st : list Z * list Z) : list Z * list Z :=
  let '(pend, edit) := st in
  if c =? Ctl 85 then (pend, [])
  else if (c =? Ctl 72) || (c =? 0x7f) then (pend, removelast edit)
  else if negb (c =? 0) && (Z.of_nat (length (pend ++ edit)) <? INPUT_BUF_SIZE) then
    let c := if c =? 13 then 10 else c in
    let edit := edit ++ [c] in
    if line_end c || (Z.of_nat (length (pend ++ edit)) =? INPUT_BUF_SIZE)
    then (pend ++ edit, []) else (pend, edit)
  else (pend, edit).

Record cons_ring (cs : console) (pend edit : list Z) : Prop := {
  cr_buf : length (cs_buf cs) = Z.to_nat INPUT_BUF_SIZE;
  cr_r : 0 <= cs_r cs < 2 ^ 32;
  cr_w : cs_w cs = u32 (cs_r cs + Z.of_nat (length pend));
  cr_e : cs_e cs = u32 (cs_r cs + Z.of_nat (length (pend ++ edit)));
  cr_size : Z.of_nat (length (pend ++ edit)) <= INPUT_BUF_SIZE;
  cr_chars k x : (pend ++ edit) !! k = Some x ->
    cs_buf cs !! Z.to_nat ((cs_r cs + Z.of_nat k) mod INPUT_BUF_SIZE) = Some x
}.

(** no line ends inside the line being edited *)
Definition cons_rep (cs : console) (pend edit : list Z) : Prop :=
  cons_ring cs pend edit /\ Forall (fun c => line_end c = false) edit.

(** ** The circular buffer *)

Lemma u32_mod_cons x : u32 x mod INPUT_BUF_SIZE = x mod INPUT_BUF_SIZE.
Proof.
  unfold wrap. change (2 ^ 32) with (INPUT_BUF_SIZE * 33554432).
  rewrite Z.rem_mul_r by (unfold INPUT_BUF_SIZE; lia).
  by rewrite Z.mul_comm, Z_mod_plus_full, Zmod_mod.
Qed.

Lemma u32_sub a b n : 0 <= n < 2 ^ 32 -> b = u32 (a + n) -> u32 (b - a) = n.
Proof.
  intros Hn ->. unfold wrap. rewrite Zminus_mod_idemp_l. replace (a + n - a) with n by lia.
  by apply Z.mod_small.
Qed.

Lemma cons_edit_empty cs pend edit :
  cons_ring cs pend edit -> (cs_e cs =? cs_w cs) = bool_decide (edit = []).
Proof.
  intros [_ Hr Hw He Hs _]. rewrite He, Hw, length_app. rewrite length_app in Hs.
  change INPUT_BUF_SIZE with 128 in Hs. destruct edit as [|x edit]; simpl length in *.
  - rewrite bool_decide_true, Nat.add_0_r by done. apply Z.eqb_refl.
  - rewrite bool_decide_false by done. apply Z.eqb_neq. unfold wrap.
    change (2 ^ 32) with 4294967296 in *. Z.to_euclidean_division_equations. lia.
Qed.

Lemma cons_fill cs pend edit :
  cons_ring cs pend edit -> u32 (cs_e cs - cs_r cs) = Z.of_nat (length (pend ++ edit)).
Proof.
  intros [_ Hr Hw He Hs _]. apply u32_sub; [|done]. change INPUT_BUF_SIZE with 128 in Hs.
  change (2 ^ 32) with 4294967296. lia.
Qed.

(** the character before [e] *)
Lemma cons_last_ring cs pend edit x :
  cons_ring cs pend (edit ++ [x]) -> cons_last cs = Some x.
Proof.
  intros [_ Hr Hw He Hs Hc]. unfold cons_last. rewrite He.
  rewrite u32_mod_cons, Zminus_mod, u32_mod_cons, <- Zminus_mod.
  rewrite app_assoc, length_app. simpl length.
  replace (cs_r cs + Z.of_nat (length (pend ++ edit) + 1) - 1) with
    (cs_r cs + Z.of_nat (length (pend ++ edit))) by lia.
  apply Hc. rewrite app_assoc, lookup_app_r, Nat.sub_diag by lia. done.
Qed.

(** [cons.e--] *)
Lemma cons_ring_back cs pend edit x :
  cons_ring cs pend (edit ++ [x]) ->
  cons_ring (set_cs_e (fun e => u32 (e - 1)) cs) pend edit.
Proof.
  intros [Hb Hr Hw He Hs Hc]. split; cbn [cs_buf cs_r cs_w cs_e set_cs_e]; try done.
  - rewrite He. rewrite app_assoc, length_app. simpl length. unfold wrap. rewrite Zminus_mod_idemp_l.
    f_equal. lia.
  - rewrite app_assoc, length_app in Hs. simpl in Hs. lia.
  - intros k y Hk. apply Hc. by rewrite app_assoc, lookup_app_l by (by eapply lookup_lt_Some).
Qed.

(** storing a character at [e] *)
Lemma cons_ring_store cs pend edit x :
  cons_ring cs pend edit -> Z.of_nat (length (pend ++ edit)) < INPUT_BUF_SIZE ->
  cons_ring (set_cs_e (fun e => u32 (e + 1))
    (set_cs_buf <[Z.to_nat (cs_e cs mod INPUT_BUF_SIZE) := x]> cs)) pend (edit ++ [x]).
Proof.
  intros [Hb Hr Hw He Hs Hc] Hlt.
  pose proof (Z.mod_pos_bound (cs_r cs + Z.of_nat (length (pend ++ edit))) INPUT_BUF_SIZE ltac:(done)).
  split; cbn [cs_buf cs_r cs_w cs_e set_cs_e set_cs_buf]; try done.
  - by rewrite length_insert.
  - rewrite He, app_assoc, (length_app (pend ++ edit)). simpl length. unfold wrap. rewrite Zplus_mod_idemp_l.
    f_equal. lia.
  - rewrite app_assoc, length_app. simpl length. lia.
  - intros k y. rewrite app_assoc. intros Hk. rewrite He, u32_mod_cons.
    destruct (decide (k = length (pend ++ edit))) as [->|Hne].
    + rewrite lookup_app_r, Nat.sub_diag in Hk by lia. simpl in Hk. simplify_eq.
      apply list_lookup_insert_eq. lia.
    + apply lookup_lt_Some in Hk as Hk'. rewrite (length_app (pend ++ edit)) in Hk'. simpl in Hk'.
      rewrite lookup_app_l in Hk by lia. rewrite list_lookup_insert_ne; [by apply Hc|].
      clear - Hne Hk' Hlt. set (n := length (pend ++ edit)) in *. intros E.
      apply Z2Nat.inj in E; [|by apply Z.mod_pos_bound..].
      unfold INPUT_BUF_SIZE in *. revert E Hlt. Z.to_euclidean_division_equations. lia.
Qed.

(** [cons.w = cons.e] *)
Lemma cons_ring_commit cs pend edit :
  cons_ring cs pend edit -> cons_ring (set_cs_w (fun _ => cs_e cs) cs) (pend ++ edit) [].
Proof.
  intros [Hb Hr Hw He Hs Hc].
  split; cbn [cs_buf cs_r cs_w cs_e set_cs_w]; rewrite ?app_nil_r; done.
Qed.

(** ** [consoleintr] *)

Section Echo.
Context {L : Layout}.

Lemma wp_upd_cons f s (Q : unit -> kst -> Prop) :
  Q tt (set_k_dev (set_v_cons f) s) -> wp (upd_cons f) s Q.
Proof. done. Qed.

Lemma echo_ready_cons n f d : echo_ready n (set_v_cons f d) <-> echo_ready n d.
Proof. done. Qed.

(** Control-U takes the whole line being edited *)
Lemma cons_kill_ok pend edit s :
  cons_rep (v_cons (k_dev s)) pend edit -> echo_ready (3 * length edit) (k_dev s) ->
  wp cons_kill s (fun _ s' => exists d', s' = set_k_dev (fun _ => d') s /\ cons_rep (v_cons d') pend []).
Proof.
  intros [Hring Hclean] Hecho. unfold cons_kill.
  assert (Hf : (length edit < S (Z.to_nat INPUT_BUF_SIZE))%nat).
  { pose proof (cr_size _ _ _ Hring) as H. rewrite length_app in H. lia. }
  generalize dependent (S (Z.to_nat INPUT_BUF_SIZE)). revert s Hring Hclean Hecho.
  induction edit as [|x edit IH] using rev_ind; intros s Hring Hclean Hecho fuel Hf;
    (destruct fuel as [|fuel]; [lia|]); cbn [loop]; apply wp_bind, wp_bind, wp_gets;
    rewrite (cons_edit_empty _ _ _ Hring).
  { apply wp_ret, wp_ret. exists (k_dev s). split; [kst_eq|by split; [|constructor]]. }
  rewrite bool_decide_false by (by destruct edit). apply wp_bind.
  eapply wp_deref; [by eapply cons_last_ring|]. apply Forall_app in Hclean as [Hclean Hx].
  apply Forall_cons in Hx as [Hx _]. unfold line_end in Hx. apply orb_false_iff in Hx as [-> _].
  apply wp_bind, wp_upd_cons. rewrite length_app in Hf, Hecho. simpl in Hf. apply wp_bind.
  eapply wp_mono; [apply (consputc_echo BACKSPACE (3 * length edit)); cbn; apply echo_ready_cons|].
  { destruct Hecho as (? & Hn & ?). simpl in Hn. split_and!; cbn; (done || lia). }
  intros _ s1 (d1 & -> & Hecho1 & E1). apply wp_ret.
  eapply wp_mono; [apply IH; cbn|].
  - cbn in E1. rewrite E1. by eapply cons_ring_back.
  - done.
  - done.
  - lia.
  - intros _ s2 (d2 & -> & H2). exists d2. split; [kst_eq|done].
Qed.

(** from [s] only the devices and, by [wakeup], the process table have changed,
    and the console now represents [st] *)
Definition cons_post (s : kst) (st : list Z * list Z) (s' : kst) : Prop :=
  exists d' procs, s' = set_k_psched (fun _ => procs) (set_k_dev (fun _ => d') s) /\
    cons_rep (v_cons d') st.1 st.2.

Section Intr.
Context (c : Z) (pend edit : list Z) (s : kst).
Context (Hrep : cons_rep (v_cons (k_dev s)) pend edit).
Context (Hecho : echo_ready (3 + 3 * length edit) (k_dev s)).
Context (Hc : 0 <= c < 256) (Hp : c <> Ctl 80).
Context (Hlen : length (k_psched s) = NPROC) (Hno : no_plock s) (Hlock : Lcons ∉ k_held s).

Local Notation post := (cons_post s).

(** an ordinary character, when there is room *)
Lemma store_ok s1 x :
  s1 = set_k_held (cons Lcons) s -> 0 <= x < 256 ->
  Z.of_nat (length (pend ++ edit)) < INPUT_BUF_SIZE ->
  wp (consputc x;;
      upd_cons (fun cs =>
         set_cs_e (fun e => u32 (e + 1))
           (set_cs_buf <[Z.to_nat (cs_e cs mod INPUT_BUF_SIZE) := u8 x]> cs));;
      cs ← get_cons;
      if (x =? 10) || (x =? Ctl 68) || (u32 (cs_e cs - cs_r cs) =? INPUT_BUF_SIZE) then
        upd_cons (fun cs => set_cs_w (fun _ => cs_e cs) cs);; wakeup ChCons
      else mret tt) s1
    (fun _ s2 => k_held s2 = Lcons :: k_held s /\
       post (if line_end x || (Z.of_nat (length (pend ++ edit ++ [x])) =? INPUT_BUF_SIZE)
             then (pend ++ edit ++ [x], []) else (pend, edit ++ [x]))
            (set_k_held (fun _ => k_held s) s2)).
Proof using Hrep Hecho Hlen Hno.
  clear c Hc Hp Hlock. intros -> Hx Hroom. destruct Hrep as [Hring Hclean].
  assert (Hu : u8 x = x) by (by apply wrap_small). apply wp_bind.
  eapply wp_mono; [by apply (consputc_echo x (3 * length edit))|].
  intros _ s1 (d1 & -> & _ & E1). apply wp_bind, wp_upd_cons. apply wp_bind, wp_gets. cbn in E1.
  cbn [k_dev set_k_dev v_cons set_v_cons]. rewrite Hu, E1.
  pose proof (cons_ring_store _ _ _ x Hring Hroom) as Hr2. rewrite (cons_fill _ _ _ Hr2).
  fold (line_end x).
  destruct (line_end x || (Z.of_nat (length (pend ++ edit ++ [x])) =? INPUT_BUF_SIZE)) eqn:E.
  - apply wp_bind, wp_upd_cons. eapply wp_run; [apply wakeup_ok; [exact Hlen|]|].
    { intros j. cbn. specialize (Hno j). set_solver. }
    split; [done|]. unfold cons_post. eexists _, _. split; [kst_eq|]. cbn. rewrite E1.
    split; [by apply cons_ring_commit|constructor].
  - apply orb_false_iff in E as [Ex _]. apply wp_ret. split; [done|]. unfold cons_post. eexists _, _.
    split; [kst_eq|]. cbn. rewrite E1. split; [done|]. apply Forall_app. by split; [|constructor].
Qed.

(** C29. The console implements the line discipline: a character typed (other
    than Control-P, which lists the processes) changes what readers can have
    and the line being edited exactly as [type_char] says, whatever the
    positions in the circular buffer, and the interrupt handler returns with
    its lock released. *)
Theorem consoleintr_edits :
  exists s', consoleintr c s = Ok tt s' /\ post (type_char c (pend, edit)) s'.
Proof using All.
  enough (H : wp (consoleintr c) s (fun _ s' => post (type_char c (pend, edit)) s')).
  { apply wp_ok in H as ([] & s' & E & H). eauto. }
  unfold consoleintr. apply wp_bind, wp_acquire; [done|]. apply wp_bind.
  rewrite (proj2 (Z.eqb_neq c (Ctl 80))) by done. unfold type_char.
  set (s1 := set_k_held (cons Lcons) s).
  assert (Hrel : forall s2 st, k_held s2 = Lcons :: k_held s ->
    post st (set_k_held (fun _ => k_held s) s2) -> wp (release Lcons) s2 (fun _ s' => post st s')).
  { intros s2 st Hh Hpost. eapply wp_release; [done|exact Hpost]. }
  assert (Hsame : post (pend, edit) (set_k_held (fun _ => k_held s) s1)).
  { exists (k_dev s), (k_psched s). split; [kst_eq|done]. }
  destruct (c =? Ctl 85).
  { eapply wp_mono; [apply (cons_kill_ok pend edit); [done|]|].
    - destruct Hecho as (? & ? & ?). cbn. split_and!; (done || lia).
    - intros _ s2 (d2 & -> & H2). apply Hrel; [done|]. exists d2, (k_psched s). split; [kst_eq|done]. }
  destruct ((c =? Ctl 72) || (c =? 0x7f)).
  { apply wp_bind, wp_gets. cbn [k_dev set_k_held s1]. destruct Hrep as [Hring Hclean].
    rewrite (cons_edit_empty _ _ _ Hring). destruct edit as [|x ed _] using rev_ind.
    - rewrite bool_decide_true by done. apply wp_ret, Hrel; [done|]. 
      exists (k_dev s), (k_psched s). split; [kst_eq|done].
    - rewrite bool_decide_false by (by destruct ed). cbn [negb]. apply wp_bind, wp_upd_cons.
      eapply wp_mono; [apply (consputc_echo BACKSPACE (3 * length ed)); cbn|].
      { destruct Hecho as (? & Hn & ?). rewrite length_app in Hn. simpl in Hn. split_and!; cbn; (done || lia). }
      intros _ s2 (d2 & -> & _ & E2). apply Hrel; [done|]. rewrite removelast_last.
      exists d2, (k_psched s). split; [kst_eq|]. cbn in E2 |- *. rewrite E2.
      split; [by eapply cons_ring_back|]. by apply Forall_app in Hclean as [? _]. }
  apply wp_bind, wp_gets. cbn [k_dev set_k_held s1]. rewrite (cons_fill _ _ _ (proj1 Hrep)).
  destruct (negb (c =? 0) && (Z.of_nat (length (pend ++ edit)) <? INPUT_BUF_SIZE)) eqn:E.
  - apply andb_true_iff in E as [_ E]. zbool. cbv zeta.
    eapply wp_mono; [apply store_ok; [done| |done]; by destruct (c =? 13)|].
    intros _ s2 [Hh Hpost]. by apply Hrel.
  - apply wp_ret, Hrel; [done|exact Hsame].
Qed.
End Intr.
End Echo.
