(* ===== verification/Bio.v ===== *)
(** * The buffer cache ([bio.c])

    [bcache.buf] with its list head is [k_bcache]; the LRU list is the chain
    of [b_prev]/[b_next] links, as in the C code, and [lru] relates it to the
    list of buffer indices it represents, most recently used first. *)

From S2P Require Import Prelude Monad Types Kernel Kalloc.
From stdpp Require Import base numbers list gmap strings.
From Stdlib Require Import ZArith Lia.

Open Scope Z_scope.

(** index of [bcache.head] *)
Definition HEAD : nat := NBUF.

(** [initxobj] of [tx.c] *)
Definition init_xobj : tx_data := Mk_tx_data 0 0.

Definition get_xobj (o : obj) : K tx_data :=
  match o with
  | HBuf i => b ← get_buf i; mret (b_xobj b)
  | HInode i => ip ← get_ip i; mret (i_xobj ip)
  end.

Definition upd_xobj (o : obj) (f : tx_data -> tx_data) : K unit :=
  match o with
  | HBuf i => upd_buf i (set_b_xobj f)
  | HInode i => upd_ip i (set_i_xobj f)
  end.

Definition initxobj (o : obj) : K unit := upd_xobj o (fun _ => init_xobj).

(** What a call of [virtio_disk_rw] does to the buffer's page and the disk
    when the device completes the request.  A request outside the disk makes
    the device report an error, on which the driver panics. *)
Definition disk_rw (i : nat) (write : bool) : K unit :=
  b ← get_buf i;
  old ← gets (fun s => k_disk s !! b_blockno b);
  match old with
  | None => panic "virtio_disk_intr status"
  | Some blk =>
      if write then
        bytes ← load_buf (b_data b);
        modify (set_k_disk <[b_blockno b := bytes]>);;
        modify (set_k_dwrites (fun w => w ++ [(b_blockno b, bytes)]))
      else store (b_data b) (PBuf blk)
  end.

Section Bio.
Context {L : Layout}.

(** one iteration of the loop of [binit] *)
Definition binit1 (b : nat) : K unit :=
  h ← get_buf HEAD;
  upd_buf b (set_b_next (fun _ => b_next h));;
  upd_buf b (set_b_prev (fun _ => HEAD));;
  initxobj (HBuf b);;
  a ← kalloc;
  upd_buf b (set_b_data (fun _ => a));;
  if a =? 0 then panic "binit: out of memory" else
  initsleeplock (HBuf b);;
  h ← get_buf HEAD;
  upd_buf (b_next h) (set_b_prev (fun _ => b));;
  upd_buf HEAD (set_b_next (fun _ => b)).

Definition binit : K unit :=
  upd_buf HEAD (set_b_prev (fun _ => HEAD));;
  upd_buf HEAD (set_b_next (fun _ => HEAD));;
  for_each (seq 0 NBUF) binit1.

End Bio.

(** the two scans of [bget]: follow [nxt] from [b] to the list head, stopping
    at the first buffer satisfying [P]; the list has [NBUF] buffers *)
Definition bscan (nxt : buf -> nat) (P : buf -> bool) (b : nat) : K (option nat) :=
  loop (S (S NBUF)) (fun b =>
    if (b =? HEAD)%nat then mret (inr None) else
    bb ← get_buf b;
    if P bb then mret (inr (Some b)) else mret (inl (nxt bb))) b.

Definition is_block (dev blockno : Z) (b : buf) : bool :=
  (b_dev b =? dev) && (b_blockno b =? blockno).

Definition is_free (b : buf) : bool := b_refcnt b =? 0.

Definition bget (dev blockno : Z) : K nat :=
  acquire Lbcache;;
  h ← get_buf HEAD;
  r ← bscan b_next (is_block dev blockno) (b_next h);
  match r with
  | Some b =>
      upd_buf b (set_b_refcnt (fun n => u32 (n + 1)));;
      release Lbcache;;
      acquiresleep (HBuf b);;
      mret b
  | None =>
      h ← get_buf HEAD;
      r ← bscan b_prev is_free (b_prev h);
      match r with
      | Some b =>
          upd_buf b (set_b_dev (fun _ => dev));;
          upd_buf b (set_b_blockno (fun _ => blockno));;
          upd_buf b (set_b_valid (fun _ => false));;
          upd_buf b (set_b_refcnt (fun _ => 1));;
          release Lbcache;;
          acquiresleep (HBuf b);;
          mret b
      | None => panic "bget: no buffers"
      end
  end.

Definition bread (dev blockno : Z) : K nat :=
  b ← bget dev blockno;
  bb ← get_buf b;
  when (negb (b_valid bb))
    (disk_rw b false;; upd_buf b (set_b_valid (fun _ => true)));;
  mret b.

Definition bwrite (b : nat) : K unit :=
  h ← holdingsleep (HBuf b);
  if negb h then panic "bwrite" else disk_rw b true.

Definition brelse (b : nat) : K unit :=
  h ← holdingsleep (HBuf b);
  if negb h then panic "brelse" else
  releasesleep (HBuf b);;
  acquire Lbcache;;
  upd_buf b (set_b_refcnt (fun n => u32 (n - 1)));;
  bb ← get_buf b;
  when (b_refcnt bb =? 0)
    (upd_buf (b_next bb) (set_b_prev (fun _ => b_prev bb));;
     bb ← get_buf b;
     upd_buf (b_prev bb) (set_b_next (fun _ => b_next bb));;
     h ← get_buf HEAD;
     upd_buf b (set_b_next (fun _ => b_next h));;
     upd_buf b (set_b_prev (fun _ => HEAD));;
     h ← get_buf HEAD;
     upd_buf (b_next h) (set_b_prev (fun _ => b));;
     upd_buf HEAD (set_b_next (fun _ => b)));;
  release Lbcache.

Definition bpin (b : nat) : K unit :=
  acquire Lbcache;;
  upd_buf b (set_b_refcnt (fun n => u32 (n + 1)));;
  release Lbcache.

Definition bunpin (b : nat) : K unit :=
  acquire Lbcache;;
  upd_buf b (set_b_refcnt (fun n => u32 (n - 1)));;
  release Lbcache.

(** access to [bp->data->bytes] *)
Definition bdata_get (b : nat) : K (list Z) := bb ← get_buf b; load_buf (b_data bb).
Definition bdata_upd (b : nat) (f : list Z -> list Z) : K unit :=
  bb ← get_buf b; upd_buf_data (b_data bb) f.
