(* ===== verification/Lru.v ===== *)
(** * Doubly linked circular lists, and the LRU list of the buffer cache

    The generic part is about any [next]/[prev] pointer functions; the second
    part shows that the pointer surgery of [binit] and [brelse] pushes a
    buffer on the front of the list and moves a buffer to the front, and that
    the scans of [bget] visit the list in order and in reverse order. *)

From S2P Require Import Prelude Monad Types Kernel Kalloc Bio.
From stdpp Require Import base numbers list gmap strings.
From Stdlib Require Import ZArith Lia.

(** ** Segments *)

Section Dll.

Implicit Types N P : nat -> option nat.

(** the links lead from [x] through [l] to [y], and back *)
Fixpoint dseg N P (x : nat) (l : list nat) (y : nat) : Prop :=
  match l with
  | [] => N x = Some y /\ P y = Some x
  | z :: l => N x = Some z /\ P z = Some x /\ dseg N P z l y
  end.

Lemma dseg_frame N P N' P' x l y :
  (forall z, z ∈ x :: l -> N' z = N z) -> (forall z, z ∈ l ++ [y] -> P' z = P z) ->
  dseg N P x l y -> dseg N' P' x l y.
Proof.
  revert x. induction l as [|z l IH]; intros x HN HP; simpl.
  - rewrite HN, HP by set_solver. done.
  - rewrite HN, HP by set_solver. intros (? & ? & ?). split_and!; [done..|].
    apply IH; set_solver.
Qed.

Lemma dseg_app N P x l1 z l2 y :
  dseg N P x (l1 ++ z :: l2) y <-> dseg N P x l1 z /\ dseg N P z l2 y.
Proof. revert x. induction l1 as [|w l1 IH]; intros x; simpl; [tauto|]. rewrite IH. tauto. Qed.

(** the last element before [y] is its predecessor *)
Lemma dseg_prev N P x l y : dseg N P x l y -> exists p, P y = Some p /\ p ∈ x :: l /\
  (l <> [] -> p ∈ l).
Proof.
  revert x. induction l as [|z l IH]; intros x; simpl.
  - intros [_ H]. exists x. set_solver.
  - intros (_ & _ & (p & Hp & Hin & Hl)%IH). exists p. set_solver.
Qed.

Lemma dseg_next N P x l y : dseg N P x l y -> exists n, N x = Some n /\ n ∈ l ++ [y].
Proof.
  destruct l as [|z l]; simpl; [intros [? _]; exists y|intros (? & _); exists z];
    (split; [done|set_solver]).
Qed.

(** taking [b] out of the list *)
Lemma dseg_unlink N P N' P' x l1 b l2 y p n :
  dseg N P x (l1 ++ b :: l2) y ->
  P b = Some p -> N b = Some n ->
  NoDup (x :: l1 ++ b :: l2) -> NoDup (l1 ++ b :: l2 ++ [y]) ->
  (forall z, N' z = if decide (z = p) then Some n else N z) ->
  (forall z, P' z = if decide (z = n) then Some p else P z) ->
  dseg N' P' x (l1 ++ l2) y.
Proof.
  intros [H1 H2]%dseg_app Hp Hn HdN HdP HN HP.
  revert x H1 HdN. induction l1 as [|a l1 IH]; intros x H1 HdN; simpl in *.
  - destruct H1 as [Hx Hbx]. rewrite Hp in Hbx. injection Hbx as ->.
    apply NoDup_cons in HdN as [Hx' HdN]. apply NoDup_cons in HdN as [Hb HdN].
    destruct l2 as [|z l2]; simpl in *.
    + destruct H2 as [H2 H2']. rewrite Hn in H2. injection H2 as ->.
      by rewrite HN, HP, !decide_True by done.
    + destruct H2 as (H2 & H2' & H2''). rewrite Hn in H2. injection H2 as ->.
      rewrite HN, HP, !decide_True by done. split_and!; [done..|].
      apply NoDup_cons in HdP as [Hbz HdP]. apply NoDup_cons in HdP as [Hz _].
      eapply dseg_frame; [| |done]; intros w Hw; [rewrite HN|rewrite HP];
        rewrite decide_False; set_solver.
  - destruct H1 as (H1 & H1' & H1'').
    apply NoDup_cons in HdN as [Hx HdN]. apply NoDup_cons in HdP as [Ha HdP].
    pose proof (dseg_prev _ _ _ _ _ H1'') as (p' & Hp' & Hin & _).
    rewrite Hp in Hp'. injection Hp' as <-.
    pose proof (dseg_next _ _ _ _ _ H2) as (n' & Hn' & Hin').
    rewrite Hn in Hn'. injection Hn' as <-.
    rewrite HN, HP, !decide_False by set_solver. split_and!; [done..|].
    by apply IH.
Qed.

(** pushing [b] after the list head [h] *)
Lemma dseg_push N P N' P' h l b f :
  dseg N P h l h -> N h = Some f -> h ∉ l -> b ∉ l -> b <> h -> NoDup l ->
  (forall z, N' z = if decide (z = h) then Some b else if decide (z = b) then Some f else N z) ->
  (forall z, P' z = if decide (z = f) then Some b else if decide (z = b) then Some h else P z) ->
  dseg N' P' h (b :: l) h.
Proof.
  intros H Hf Hh Hb Hbh Hd HN HP. simpl.
  assert (f ∈ l ++ [h]) as Hfl.
  { destruct (dseg_next _ _ _ _ _ H) as (n & Hn & ?). congruence. }
  rewrite HN, HP, decide_True, (decide_False (P := b = f)), decide_True by set_solver.
  split_and!; [done..|]. destruct l as [|z l]; simpl in *.
  - destruct H as [H _]. rewrite H in Hf. injection Hf as <-.
    rewrite HN, HP, decide_False, !decide_True by done. done.
  - destruct H as (H & _ & H'). rewrite H in Hf. injection Hf as <-.
    rewrite HN, HP, decide_False, !decide_True by done. split_and!; [done..|].
    apply NoDup_cons in Hd as [Hz Hd].
    eapply dseg_frame; [| |done]; intros w Hw; [rewrite HN|rewrite HP];
      rewrite !decide_False; set_solver.
Qed.

End Dll.

(** ** The LRU list *)

Definition nextf (bc : list buf) (x : nat) : option nat := b_next <$> bc !! x.
Definition prevf (bc : list buf) (x : nat) : option nat := b_prev <$> bc !! x.

(** [l] is the list of buffers from [head.next] to [head.prev] *)
Definition linked (bc : list buf) (l : list nat) : Prop :=
  dseg (nextf bc) (prevf bc) HEAD l HEAD.

Record lru (bc : list buf) (l : list nat) : Prop := {
  lru_linked : linked bc l;
  lru_perm : l ≡ₚ seq 0 NBUF;
  lru_len : length bc = S NBUF;
}.

Lemma lru_nodup bc l : lru bc l -> NoDup l.
Proof. intros [_ Hp _]. rewrite Hp. apply NoDup_seq. Qed.

Lemma lru_elem bc l i : lru bc l -> i ∈ l <-> (i < NBUF)%nat.
Proof. intros [_ Hp _]. rewrite Hp, elem_of_seq. lia. Qed.

Lemma lru_head bc l : lru bc l -> HEAD ∉ l.
Proof. intros Hl. rewrite (lru_elem _ _ _ Hl). unfold HEAD. lia. Qed.

Lemma lru_lookup bc l i : lru bc l -> (i <= NBUF)%nat -> exists b, bc !! i = Some b.
Proof. intros [_ _ Hlen] Hi. apply lookup_lt_is_Some. rewrite Hlen. lia. Qed.

Lemma nextf_alter f k bc x :
  nextf (alter f k bc) x = if decide (k = x) then b_next ∘ f <$> bc !! x else nextf bc x.
Proof.
  unfold nextf. rewrite list_lookup_alter. case_decide; [|done]. subst.
  by destruct (bc !! x).
Qed.

Lemma prevf_alter f k bc x :
  prevf (alter f k bc) x = if decide (k = x) then b_prev ∘ f <$> bc !! x else prevf bc x.
Proof.
  unfold prevf. rewrite list_lookup_alter. case_decide; [|done]. subst.
  by destruct (bc !! x).
Qed.

(** an update that keeps the links keeps the list *)
Lemma lru_alter bc l f k :
  (forall b, b_next (f b) = b_next b /\ b_prev (f b) = b_prev b) ->
  lru bc l -> lru (alter f k bc) l.
Proof.
  intros Hf [Hl Hp Hlen]. split; [|done|by rewrite length_alter].
  eapply dseg_frame; [| |exact Hl]; intros z _; [rewrite nextf_alter|rewrite prevf_alter];
    case_decide; try done; unfold nextf, prevf; destruct (bc !! z) as [b|]; simpl; try done;
    f_equal; apply Hf.
Qed.

(** ** The scans of [bget] *)

Fixpoint path (nxt : buf -> nat) (bc : list buf) (x : nat) (l : list nat) : Prop :=
  match l with
  | [] => x = HEAD
  | y :: l => x = y /\ y <> HEAD /\ exists b, bc !! y = Some b /\ path nxt bc (nxt b) l
  end.

Definition bufP (P : buf -> bool) (bc : list buf) (i : nat) : bool :=
  match bc !! i with Some b => P b | None => false end.

Lemma dseg_path bc x l h b :
  HEAD ∉ l -> dseg (nextf bc) (prevf bc) x l h -> h = HEAD -> bc !! x = Some b ->
  path b_next bc (b_next b) l.
Proof.
  intros Hh H -> Hb. revert x b Hb H. induction l as [|z l IH]; intros x b Hb; simpl; unfold nextf.
  - rewrite Hb. simpl. intros [[= <-] _]. done.
  - rewrite Hb. simpl. intros ([= <-] & Hz & H). split; [done|]. split; [set_solver|].
    unfold prevf in Hz. destruct (bc !! b_next b) as [b'|] eqn:E; [|done].
    exists b'. split; [done|]. eapply IH; [set_solver|done|done].
Qed.

Lemma dseg_rev N P x l y : dseg N P x l y -> dseg P N y (reverse l) x.
Proof.
  revert x. induction l as [|z l IH]; intros x; simpl.
  - tauto.
  - intros (? & ? & H%IH). rewrite reverse_cons. apply dseg_app. simpl. tauto.
Qed.

Lemma dseg_path_prev bc x l h b :
  HEAD ∉ l -> dseg (prevf bc) (nextf bc) x l h -> h = HEAD -> bc !! x = Some b ->
  path b_prev bc (b_prev b) l.
Proof.
  intros Hh H -> Hb. revert x b Hb H. induction l as [|z l IH]; intros x b Hb; simpl; unfold prevf.
  - rewrite Hb. simpl. intros [[= <-] _]. done.
  - rewrite Hb. simpl. intros ([= <-] & Hz & H). split; [done|]. split; [set_solver|].
    unfold nextf in Hz. destruct (bc !! b_prev b) as [b'|] eqn:E; [|done].
    exists b'. split; [done|]. eapply IH; [set_solver|done|done].
Qed.

Lemma bscan_path nxt P bc x l s :
  k_bcache s = bc -> path nxt bc x l -> (length l <= NBUF)%nat ->
  bscan nxt P x s = Ok (List.find (bufP P bc) l) s.
Proof.
  intros Hbc Hp Hlen. unfold bscan.
  assert (length l < S (S NBUF))%nat as Hf by lia. clear Hlen. revert Hf.
  generalize (S (S NBUF)) as fuel. intros fuel. revert x l Hp.
  induction fuel as [|fuel IH]; intros x l Hp Hf; [lia|]. cbn [loop].
  destruct l as [|y l]; simpl in Hp.
  - subst x. by rewrite Nat.eqb_refl.
  - destruct Hp as (-> & Hy & b & Hb & Hp).
    rewrite (proj2 (Nat.eqb_neq _ _)) by done. apply run_wp. wp_prim. unfold get_buf.
    eapply wp_deref; [by rewrite Hbc|]. cbn [List.find]. unfold bufP at 1. rewrite Hb.
    destruct (P b); wp_prim; [done|].
    eapply wp_run; [apply IH; [done|simpl in Hf; lia]|done].
Qed.

Lemma bscan_next P bc l h s :
  k_bcache s = bc -> lru bc l -> bc !! HEAD = Some h ->
  bscan b_next P (b_next h) s = Ok (List.find (bufP P bc) l) s.
Proof.
  intros Hbc Hl Hh. eapply bscan_path; [done| |].
  - eapply dseg_path; [by eapply lru_head|apply Hl|done|done].
  - rewrite (Permutation_length (lru_perm _ _ Hl)), length_seq. done.
Qed.

Lemma bscan_prev P bc l h s :
  k_bcache s = bc -> lru bc l -> bc !! HEAD = Some h ->
  bscan b_prev P (b_prev h) s = Ok (List.find (bufP P bc) (reverse l)) s.
Proof.
  intros Hbc Hl Hh. eapply bscan_path; [done| |].
  - eapply dseg_path_prev; [|apply dseg_rev, Hl|done|done].
    rewrite elem_of_reverse. by eapply lru_head.
  - rewrite length_reverse, (Permutation_length (lru_perm _ _ Hl)), length_seq. done.
Qed.

(** ** Moving a buffer to the front *)

(** the pointer updates of [brelse] *)
Definition unlink_buf (b : nat) (bc : list buf) : list buf :=
  match bc !! b with
  | None => bc
  | Some bb =>
      alter (set_b_next (fun _ => b_next bb)) (b_prev bb)
        (alter (set_b_prev (fun _ => b_prev bb)) (b_next bb) bc)
  end.

Definition push_buf (b : nat) (bc : list buf) : list buf :=
  match bc !! HEAD with
  | None => bc
  | Some h =>
      alter (set_b_next (fun _ => b)) HEAD
        (alter (set_b_prev (fun _ => b)) (b_next h)
          (alter (set_b_prev (fun _ => HEAD)) b
            (alter (set_b_next (fun _ => b_next h)) b bc)))
  end.

Lemma nextf_set_next v k bc x :
  (k < length bc)%nat ->
  nextf (alter (set_b_next (fun _ => v)) k bc) x = if decide (x = k) then Some v else nextf bc x.
Proof.
  intros Hk. rewrite nextf_alter. repeat case_decide; try done; try congruence. subst.
  apply lookup_lt_is_Some in Hk as [b ->]. done.
Qed.
Lemma prevf_set_prev v k bc x :
  (k < length bc)%nat ->
  prevf (alter (set_b_prev (fun _ => v)) k bc) x = if decide (x = k) then Some v else prevf bc x.
Proof.
  intros Hk. rewrite prevf_alter. repeat case_decide; try done; try congruence. subst.
  apply lookup_lt_is_Some in Hk as [b ->]. done.
Qed.
Lemma nextf_set_prev v k bc x : nextf (alter (set_b_prev v) k bc) x = nextf bc x.
Proof. rewrite nextf_alter. case_decide; [|done]. subst. unfold nextf. by destruct (bc !! x). Qed.
Lemma prevf_set_next v k bc x : prevf (alter (set_b_next v) k bc) x = prevf bc x.
Proof. rewrite prevf_alter. case_decide; [|done]. subst. unfold prevf. by destruct (bc !! x). Qed.

Lemma nextf_lt bc x y : nextf bc x = Some y -> (x < length bc)%nat.
Proof. unfold nextf. intros H. apply lookup_lt_is_Some. destruct (bc !! x); eauto. done. Qed.
Lemma prevf_lt bc x y : prevf bc x = Some y -> (x < length bc)%nat.
Proof. unfold prevf. intros H. apply lookup_lt_is_Some. destruct (bc !! x); eauto. done. Qed.

Lemma dseg_bounds bc x l y :
  dseg (nextf bc) (prevf bc) x l y -> Forall (fun z => z < length bc)%nat (x :: l ++ [y]).
Proof.
  revert x. induction l as [|z l IH]; intros x; simpl.
  - intros [?%nextf_lt ?%prevf_lt]. auto.
  - intros (?%nextf_lt & _ & ?%IH). auto.
Qed.

Lemma length_unlink b bc : length (unlink_buf b bc) = length bc.
Proof. unfold unlink_buf. destruct (bc !! b); [|done]. by rewrite !length_alter. Qed.

Lemma unlink_linked bc l1 b l2 :
  linked bc (l1 ++ b :: l2) -> NoDup (HEAD :: l1 ++ b :: l2) ->
  linked (unlink_buf b bc) (l1 ++ l2).
Proof.
  intros H Hd. unfold unlink_buf. pose proof (proj1 (dseg_app _ _ _ _ _ _ _) H) as [H1 H2].
  destruct (dseg_prev _ _ _ _ _ H1) as (p & Hp & Hpin & _).
  destruct (dseg_next _ _ _ _ _ H2) as (n & Hn & Hnin).
  pose proof (dseg_bounds _ _ _ _ H) as Hb. rewrite Forall_forall in Hb.
  assert (p < length bc)%nat as Hpl by (apply Hb; set_solver).
  assert (n < length bc)%nat as Hnl by (apply Hb; set_solver).
  unfold nextf, prevf in Hp, Hn. destruct (bc !! b) as [bb|] eqn:E; [|done].
  simpl in Hp, Hn. injection Hp as Hp. injection Hn as Hn. rewrite Hp, Hn.
  eapply dseg_unlink with (p := p) (n := n); [exact H| | |done| | |].
  - unfold prevf. rewrite E. by simpl; rewrite Hp.
  - unfold nextf. rewrite E. by simpl; rewrite Hn.
  - apply NoDup_cons in Hd as [Hh Hd]. rewrite app_comm_cons, app_assoc.
    apply NoDup_app. split_and!; [done| |apply NoDup_singleton]. set_solver.
  - intros z. rewrite nextf_set_next by (by rewrite length_alter). by rewrite nextf_set_prev.
  - intros z. rewrite prevf_set_next, prevf_set_prev by done. done.
Qed.

Lemma push_linked bc l b :
  linked bc l -> HEAD ∉ l -> b ∉ l -> b <> HEAD -> NoDup l -> (b < length bc)%nat ->
  linked (push_buf b bc) (b :: l).
Proof.
  intros H Hh Hb Hne Hd Hlen. unfold push_buf.
  destruct (dseg_next _ _ _ _ _ H) as (f & Hf & Hfin).
  pose proof (dseg_bounds _ _ _ _ H) as Hbd. rewrite Forall_forall in Hbd.
  assert (f < length bc)%nat as Hfl by (apply Hbd; set_solver).
  assert (HEAD < length bc)%nat as Hhl by (apply Hbd; set_solver).
  unfold nextf in Hf. destruct (bc !! HEAD) as [h|] eqn:E; [|done].
  simpl in Hf. injection Hf as Hf. rewrite Hf.
  assert (b <> f) as Hbf by set_solver.
  eapply dseg_push with (f := f); [exact H| |done..| |].
  - unfold nextf. rewrite E. simpl. by rewrite Hf.
  - intros z. rewrite nextf_set_next by (by rewrite !length_alter).
    rewrite !nextf_set_prev, nextf_set_next by done. done.
  - intros z. rewrite prevf_set_next, prevf_set_prev by (by rewrite !length_alter).
    rewrite prevf_set_prev, prevf_set_next by (by rewrite !length_alter). done.
Qed.
