(* ===== verification/BioFacts.v ===== *)
(** * What the buffer cache promises

    [bio_inv] is the invariant of the cache between operations; [bview] is the
    abstract disk the cache presents, [refs] and [blocked] the reference count
    and the lock of a block.  The operations of [bio.c] are specified in these
    terms: [bread] and [brelse] leave the view alone, [bwrite] makes the disk
    agree with it. *)

From S2P Require Import Prelude Monad Types Kernel Kalloc Bio Lru.
From stdpp Require Import base numbers list gmap strings.
From Stdlib Require Import ZArith Lia.

Open Scope Z_scope.

(** ** The abstraction *)

Definition heap_bytes (s : kst) (a : Z) : option (list Z) := k_heap s !! a ≫= as_buf.

Definition cbuf (s : kst) (i : nat) (b : buf) : Prop :=
  (i < NBUF)%nat /\ k_bcache s !! i = Some b.

(** the indices of the buffers, without the list head *)
Definition buf_indices (bc : list buf) : list nat := seq 0 (Nat.min (length bc - 1) NBUF).

(** the buffer that caches block [bno] *)
Definition cached (s : kst) (bno : Z) : option nat :=
  List.find (bufP (is_block ROOTDEV bno) (k_bcache s)) (buf_indices (k_bcache s)).
Definition centry (s : kst) (bno : Z) : option buf :=
  i ← cached s bno; k_bcache s !! i.

(** the contents of the blocks, as the users of the cache see them *)
Definition bview (s : kst) (bno : Z) : option (list Z) :=
  match centry s bno with
  | Some b => heap_bytes s (b_data b)
  | None => k_disk s !! bno
  end.

Definition refs (s : kst) (bno : Z) : Z :=
  match centry s bno with Some b => b_refcnt b | None => 0 end.

Definition lock_pid (b : buf) : option Z :=
  if sl_locked (b_lock b) then Some (sl_pid (b_lock b)) else None.
Definition blocked (s : kst) (bno : Z) : option Z := centry s bno ≫= lock_pid.

(** the number of buffers that can be recycled *)
Definition free01 (b : buf) : nat := if is_free b then 1 else 0.
Definition nfree (s : kst) : nat := sum_list (free01 <$> take NBUF (k_bcache s)).

Record buf_ok (s : kst) (b : buf) : Prop := {
  bo_ref : 0 <= b_refcnt b < 2 ^ 32;
  bo_lock : b_refcnt b = 0 -> sl_locked (b_lock b) = false;
  bo_dev : (b_dev b = 0 /\ b_refcnt b = 0) \/
    (b_dev b = ROOTDEV /\ b_valid b = true /\
     exists bytes, heap_bytes s (b_data b) = Some bytes /\
       (b_refcnt b = 0 -> k_disk s !! b_blockno b = Some bytes));
}.

Record bio_inv (s : kst) (l : list nat) : Prop := {
  bi_lru : lru (k_bcache s) l;
  bi_buf : forall i b, cbuf s i b -> buf_ok s b;
  bi_uniq : forall i j b b' bno, cbuf s i b -> cbuf s j b' ->
    is_block ROOTDEV bno b = true -> is_block ROOTDEV bno b' = true -> i = j;
  bi_data : forall i j b b', cbuf s i b -> cbuf s j b' -> b_data b = b_data b' -> i = j;
}.

(** everything but the cache, the buffers' pages, the disk and the scheduling
    table is the same *)
Record cframe (s s' : kst) : Prop := {
  cf_rest : s' = set_k_psched (fun _ => k_psched s') (set_k_bcache (fun _ => k_bcache s')
    (set_k_heap (fun _ => k_heap s') (set_k_disk (fun _ => k_disk s')
      (set_k_dwrites (fun _ => k_dwrites s') s))));
  cf_psched : length (k_psched s') = length (k_psched s);
  cf_data : forall i, b_data <$> k_bcache s' !! i = b_data <$> k_bcache s !! i;
  cf_heap : forall a, (forall i b, cbuf s i b -> b_data b <> a) -> k_heap s' !! a = k_heap s !! a;
  cf_pages : forall a, k_heap s' !! a = k_heap s !! a \/ exists bytes, k_heap s' !! a = Some (PBuf bytes);
}.

(** ** The abstraction functions *)

Lemma cbuf_fun s i b b' : cbuf s i b -> cbuf s i b' -> b = b'.
Proof. intros [_ H] [_ H']. congruence. Qed.

Lemma is_block_spec dev bno b : is_block dev bno b = true <-> b_dev b = dev /\ b_blockno b = bno.
Proof. unfold is_block. rewrite andb_true_iff, !Z.eqb_eq. done. Qed.

Lemma find_some_iff (f : nat -> bool) l i :
  (forall j, j ∈ l -> f j = true -> j = i) -> i ∈ l -> f i = true -> List.find f l = Some i.
Proof.
  intros Hu Hi Hf. destruct (List.find f l) as [j|] eqn:E.
  - apply List.find_some in E as [Hj Hfj]. f_equal. apply Hu; [by apply list_elem_of_In|done].
  - exfalso. eapply List.find_none in E; [|by apply list_elem_of_In]. congruence.
Qed.

Lemma find_split {A} (f : A -> bool) l x :
  List.find f l = Some x -> exists l1 l2, l = l1 ++ x :: l2 /\ forall y, y ∈ l1 -> f y = false.
Proof.
  induction l as [|z l IH]; simpl; [done|]. destruct (f z) eqn:E.
  - intros [= ->]. exists [], l. split; [done|]. set_solver.
  - intros (l1 & l2 & -> & H)%IH. exists (z :: l1), l2. split; [done|]. set_solver.
Qed.

Lemma find_ext {A} (f g : A -> bool) l : (forall x, f x = g x) -> List.find f l = List.find g l.
Proof. intros H. induction l as [|x l IH]; simpl; [done|]. by rewrite H, IH. Qed.

Section Inv.
Context (s : kst) (l : list nat) (HI : bio_inv s l).

Lemma indices_elem i : (i < NBUF)%nat -> i ∈ buf_indices (k_bcache s).
Proof using HI.
  intros Hi. apply elem_of_seq. rewrite (lru_len _ _ (bi_lru _ _ HI)). lia.
Qed.

Lemma cached_find bno : List.find (bufP (is_block ROOTDEV bno) (k_bcache s)) l = cached s bno.
Proof using HI.
  unfold cached. destruct (List.find _ (buf_indices _)) as [i|] eqn:E.
  - apply List.find_some in E as [Hi Hf]. apply list_elem_of_In, elem_of_seq in Hi.
    apply find_some_iff; [|apply (lru_elem _ _ _ (bi_lru _ _ HI)); lia|done].
    intros j Hj Hfj. apply (lru_elem _ _ _ (bi_lru _ _ HI)) in Hj. unfold bufP in *.
    destruct (k_bcache s !! i) as [b|] eqn:Eb; [|done].
    destruct (k_bcache s !! j) as [b'|] eqn:Eb'; [|done].
    eapply (bi_uniq _ _ HI); [split; [|exact Eb']; lia|split; [|exact Eb]; lia|done|done].
  - destruct (List.find _ l) as [i|] eqn:E'; [|done]. exfalso.
    apply List.find_some in E' as [Hi Hf]. apply list_elem_of_In, (lru_elem _ _ _ (bi_lru _ _ HI)) in Hi.
    eapply List.find_none in E; [|apply list_elem_of_In, indices_elem, Hi]. congruence.
Qed.

Lemma cached_intro bno i b :
  cbuf s i b -> is_block ROOTDEV bno b = true -> cached s bno = Some i.
Proof using HI.
  intros Hb Hbl. apply find_some_iff.
  - intros j Hj Hf. apply elem_of_seq in Hj. unfold bufP in Hf.
    destruct (k_bcache s !! j) as [b'|] eqn:E; [|done].
    eapply (bi_uniq _ _ HI); [split; [|exact E]; lia|exact Hb|done|done].
  - apply indices_elem, Hb.
  - unfold bufP. by rewrite (proj2 Hb).
Qed.

Lemma cached_elim bno i :
  cached s bno = Some i -> exists b, cbuf s i b /\ is_block ROOTDEV bno b = true.
Proof using Type.
  intros E. apply List.find_some in E as [Hi Hf]. apply list_elem_of_In, elem_of_seq in Hi.
  unfold bufP in Hf. destruct (k_bcache s !! i) as [b|] eqn:Eb; [|done].
  exists b. split; [split; [lia|done]|done].
Qed.

Lemma centry_intro bno i b :
  cbuf s i b -> is_block ROOTDEV bno b = true -> centry s bno = Some b.
Proof using HI.
  intros Hb Hbl. unfold centry. rewrite (cached_intro bno i b) by done. simpl. apply Hb.
Qed.

Lemma centry_elim bno b :
  centry s bno = Some b -> exists i, cbuf s i b /\ is_block ROOTDEV bno b = true.
Proof using Type.
  unfold centry. destruct (cached s bno) as [i|] eqn:E; [|done]. simpl.
  apply cached_elim in E as (b' & Hb' & Hbl). intros Hb. exists i.
  assert (b = b') as -> by (destruct Hb'; congruence). done.
Qed.

Lemma centry_none bno :
  centry s bno = None -> cached s bno = None.
Proof using Type.
  unfold centry. destruct (cached s bno) as [i|] eqn:E; [|done]. simpl.
  apply cached_elim in E as (b' & [_ Hb'] & _). congruence.
Qed.

Lemma centry_none_iff bno :
  (forall i b, cbuf s i b -> is_block ROOTDEV bno b = false) -> centry s bno = None.
Proof using Type.
  intros H. destruct (centry s bno) as [b|] eqn:E; [|done].
  apply centry_elim in E as (i & Hb & Hbl). rewrite (H _ _ Hb) in Hbl. done.
Qed.

Lemma cbuf_head : exists h, k_bcache s !! HEAD = Some h.
Proof using HI. eapply lru_lookup; [apply (bi_lru _ _ HI)|unfold HEAD; lia]. Qed.

Lemma cbuf_lookup i : (i < NBUF)%nat -> exists b, cbuf s i b.
Proof using HI.
  intros Hi. destruct (lru_lookup _ _ i (bi_lru _ _ HI)) as [b Hb]; [lia|]. by exists b.
Qed.

End Inv.

(** ** Frames *)

#[export] Instance cframe_refl : Reflexive cframe.
Proof. intros s. split; [by destruct s|done|done|done|by left]. Qed.

#[export] Instance cframe_trans : Transitive cframe.
Proof.
  intros s1 s2 s3 [H1 P1 D1 M1 G1] [H2 P2 D2 M2 G2]. split.
  - rewrite H2 at 1. rewrite H1 at 1. by destruct s1.
  - congruence.
  - intros i. by rewrite D2, D1.
  - intros a Ha. rewrite M2, M1; [done|done|]. intros i b [Hi Hb].
    specialize (D1 i). rewrite Hb in D1. simpl in D1.
    destruct (k_bcache s1 !! i) as [b'|] eqn:E; [|done]. injection D1 as ->.
    eapply Ha. by split.
  - intros a. destruct (G2 a) as [E2|]; [|by right]. rewrite E2. apply G1.
Qed.

Lemma cframe_running p pr s s' : cframe s s' -> running p pr s -> running p pr s'.
Proof.
  intros [-> HP _ _ _] [Hc Hp Hs]. split; ksimpl; [done|done|]. ksimpl in HP. congruence.
Qed.

Lemma cframe_held s s' : cframe s s' -> k_held s' = k_held s.
Proof. intros [-> _ _ _]. by ksimpl. Qed.
Lemma cframe_log s s' : cframe s s' -> k_log s' = k_log s.
Proof. intros [-> _ _ _]. by ksimpl. Qed.

(** ** How [bget] runs *)

(** the buffer after [bget] found it, and after [bget] recycled it *)
Definition take_buf (pid : Z) (b : buf) : buf :=
  set_b_lock (fun _ => Mk_sleeplock true pid) (set_b_refcnt (fun n => u32 (n + 1)) b).
Definition recycle_buf (pid dev bno : Z) (b : buf) : buf :=
  set_b_lock (fun _ => Mk_sleeplock true pid) (set_b_refcnt (fun _ => 1)
    (set_b_valid (fun _ => false) (set_b_blockno (fun _ => bno) (set_b_dev (fun _ => dev) b)))).

Section Runs.
Context (s : kst) (l : list nat) (p : nat) (pr : proc).
Context (HI : bio_inv s l) (HR : running p pr s) (HH : k_held s = []).

Lemma running_set_bcache f s0 : running p pr s0 -> running p pr (set_k_bcache f s0).
Proof using Type. by intros [? ? ?]; split. Qed.

Lemma bget_hit bno i b :
  cached s bno = Some i -> cbuf s i b -> sl_locked (b_lock b) = false ->
  bget ROOTDEV bno s = Ok i (set_k_bcache (alter (take_buf (p_pid pr)) i) s).
Proof using HI HR HH.
  intros Hc [Hi Hb] Hl. destruct (cbuf_head _ _ HI) as [h Hh].
  apply run_wp. unfold bget. apply wp_bind, wp_acquire; [rewrite HH; set_solver|].
  apply wp_bind. unfold get_buf at 1. eapply wp_deref; [done|].
  apply wp_bind. eapply wp_run; [eapply bscan_next; [done|apply HI|done]|].
  rewrite (cached_find _ _ HI), Hc.
  apply wp_bind. unfold upd_buf. apply wp_modify. apply wp_bind.
  eapply wp_release; [by ksimpl|]. apply wp_bind.
  eapply wp_run; [eapply acquiresleep_ok with (l := b_lock b)|].
  - destruct HR. by split.
  - cbn. by rewrite list_lookup_alter, decide_True, Hb by done.
  - done.
  - ksimpl. rewrite HH. set_solver.
  - apply wp_ret. split; [done|]. cbn [set_slock]. kst_eq. unfold compose.
    by apply alter_alter_at.
Qed.

Lemma bget_miss bno i b :
  cached s bno = None -> List.find (bufP is_free (k_bcache s)) (reverse l) = Some i ->
  cbuf s i b ->
  bget ROOTDEV bno s = Ok i (set_k_bcache (alter (recycle_buf (p_pid pr) ROOTDEV bno) i) s).
Proof using HI HR HH.
  intros Hc Hf [Hi Hb]. destruct (cbuf_head _ _ HI) as [h Hh].
  assert (sl_locked (b_lock b) = false) as Hl.
  { apply (bi_buf _ _ HI i b); [by split|]. apply List.find_some in Hf as [_ Hf].
    unfold bufP in Hf. rewrite Hb in Hf. by apply Z.eqb_eq. }
  apply run_wp. unfold bget. apply wp_bind, wp_acquire; [rewrite HH; set_solver|].
  apply wp_bind. unfold get_buf at 1. eapply wp_deref; [done|].
  apply wp_bind. eapply wp_run; [eapply bscan_next; [done|apply HI|done]|].
  rewrite (cached_find _ _ HI), Hc.
  apply wp_bind. unfold get_buf at 1. eapply wp_deref; [done|].
  apply wp_bind. eapply wp_run; [eapply bscan_prev; [done|apply HI|done]|]. ksimpl. rewrite Hf.
  do 4 (apply wp_bind; unfold upd_buf at 1; apply wp_modify).
  apply wp_bind. eapply wp_release; [by ksimpl|]. apply wp_bind.
  eapply wp_run; [eapply acquiresleep_ok with (l := b_lock b)|].
  - destruct HR. by split.
  - cbn. by rewrite !list_lookup_alter, !decide_True, Hb by done.
  - done.
  - ksimpl. rewrite HH. set_solver.
  - apply wp_ret. split; [done|]. cbn [set_slock]. kst_eq. unfold compose.
    by rewrite !alter_comp.
Qed.

Lemma bget_full bno :
  cached s bno = None -> List.find (bufP is_free (k_bcache s)) (reverse l) = None ->
  bget ROOTDEV bno s = Panic "bget: no buffers".
Proof using HI HH.
  clear HR. intros Hc Hf. destruct (cbuf_head _ _ HI) as [h Hh]. unfold bget.
  erewrite bind_ok by (apply acquire_ok; rewrite HH; set_solver).
  erewrite bind_ok by (unfold get_buf, deref; ksimpl; by rewrite Hh).
  erewrite bind_ok by (eapply bscan_next; [done|apply HI|done]).
  rewrite (cached_find _ _ HI), Hc.
  erewrite bind_ok by (unfold get_buf, deref; ksimpl; by rewrite Hh).
  erewrite bind_ok by (eapply bscan_prev; [done|apply HI|done]). ksimpl. by rewrite Hf.
Qed.

End Runs.

(** ** Counting free buffers *)

Lemma sum_list_alter {A} (g : A -> nat) (f : A -> A) (l : list A) i x :
  l !! i = Some x -> (sum_list (g <$> alter f i l) + g x = sum_list (g <$> l) + g (f x))%nat.
Proof.
  revert i. induction l as [|y l IH]; intros [|i] H; simplify_eq/=.
  - lia.
  - rewrite <- Nat.add_assoc. etransitivity; [apply f_equal, (IH _ H)|]. lia.
Qed.

Lemma nfree_alter s f i b :
  cbuf s i b ->
  (nfree (set_k_bcache (alter f i) s) + free01 b = nfree s + free01 (f b))%nat.
Proof.
  intros [Hi Hb]. unfold nfree. ksimpl. rewrite take_alter, decide_True by done.
  apply sum_list_alter. rewrite lookup_take_lt by done. done.
Qed.

Lemma sum_list_pos (l : list nat) : (0 < sum_list l)%nat -> exists i n, l !! i = Some n /\ (0 < n)%nat.
Proof.
  induction l as [|n l IH]; simpl; intros H; [lia|].
  destruct (decide (0 < n)%nat) as [Hn|Hn]; [by exists 0%nat, n|].
  destruct IH as (i & m & ? & ?); [lia|]. by exists (S i), m.
Qed.

Lemma nfree_find s l :
  bio_inv s l -> (0 < nfree s)%nat ->
  exists i b, List.find (bufP is_free (k_bcache s)) (reverse l) = Some i /\ cbuf s i b /\
    b_refcnt b = 0.
Proof.
  intros HI (i & n & Hi & Hn)%sum_list_pos.
  rewrite list_lookup_fmap in Hi. apply fmap_Some in Hi as (b & Hb & ->).
  apply lookup_take_Some in Hb as [Hb Hi]. unfold free01 in Hn.
  destruct (is_free b) eqn:Hf; [|lia].
  destruct (List.find _ (reverse l)) as [j|] eqn:E.
  - pose proof E as E'. apply List.find_some in E as [Hj Hfj]. unfold bufP in Hfj.
    destruct (k_bcache s !! j) as [b'|] eqn:Eb; [|done].
    exists j, b'. split; [done|]. split; [|by apply Z.eqb_eq]. split; [|done].
    apply list_elem_of_In in Hj. rewrite elem_of_reverse in Hj.
    by apply (lru_elem _ _ _ (bi_lru _ _ HI)).
  - exfalso. eapply List.find_none in E.
    + unfold bufP in E. rewrite Hb, Hf in E. done.
    + apply list_elem_of_In. rewrite elem_of_reverse.
      by apply (lru_elem _ _ _ (bi_lru _ _ HI)).
Qed.

(** ** Changing one buffer *)

Lemma cbuf_alter s f i b j c :
  cbuf s i b -> cbuf (set_k_bcache (alter f i) s) j c <-> (j = i /\ c = f b) \/ (j <> i /\ cbuf s j c).
Proof.
  intros [Hi Hb]. unfold cbuf. ksimpl. rewrite list_lookup_alter. case_decide as E.
  - subst. rewrite Hb. simpl. naive_solver.
  - naive_solver.
Qed.

Lemma heap_bytes_bcache f s a : heap_bytes (set_k_bcache f s) a = heap_bytes s a.
Proof. done. Qed.

Definition same_links (f : buf -> buf) : Prop :=
  forall b, b_next (f b) = b_next b /\ b_prev (f b) = b_prev b.
Definition same_ident (f : buf -> buf) : Prop :=
  forall b, b_dev (f b) = b_dev b /\ b_blockno (f b) = b_blockno b /\ b_data (f b) = b_data b.

Lemma is_block_ident f dev bno b : same_ident f -> is_block dev bno (f b) = is_block dev bno b.
Proof. intros Hf. unfold is_block. destruct (Hf b) as (-> & -> & _). done. Qed.

Section Alter.
Context (s : kst) (l : list nat) (HI : bio_inv s l).
Context (i : nat) (b : buf) (Hb : cbuf s i b).
Context (f : buf -> buf) (Hlinks : same_links f) (Hident : same_ident f).

Lemma bio_inv_alter : buf_ok s (f b) -> bio_inv (set_k_bcache (alter f i) s) l.
Proof using HI Hb Hlinks Hident.
  intros Hok. destruct HI as [H1 H2 H3 H4]. split.
  - by apply lru_alter.
  - intros j c [[-> ->]|[_ Hc]]%(cbuf_alter _ _ _ _ _ _ Hb).
    + destruct Hok. by split.
    + destruct (H2 _ _ Hc). by split.
  - intros j k c d x Hc Hd. apply (cbuf_alter _ _ _ _ _ _ Hb) in Hc, Hd.
    destruct Hc as [[-> ->]|[_ Hc]], Hd as [[-> ->]|[_ Hd]];
      rewrite ?(is_block_ident f) by done; [done|by eapply H3..].
  - intros j k c d Hc Hd. apply (cbuf_alter _ _ _ _ _ _ Hb) in Hc, Hd.
    destruct (Hident b) as (_ & _ & Ed).
    destruct Hc as [[-> ->]|[_ Hc]], Hd as [[-> ->]|[_ Hd]];
      rewrite ?Ed; [done|by eapply H4..].
Qed.

Lemma cached_alter x : cached (set_k_bcache (alter f i) s) x = cached s x.
Proof using Hb Hident.
  unfold cached, buf_indices. ksimpl. rewrite length_alter. apply find_ext. intros j. unfold bufP. rewrite list_lookup_alter. case_decide as E; [subst|done].
  rewrite (proj2 Hb). simpl. by rewrite is_block_ident.
Qed.

Lemma centry_alter x : centry (set_k_bcache (alter f i) s) x =
  if is_block ROOTDEV x b then Some (f b) else centry s x.
Proof using HI Hb Hident.
  unfold centry. rewrite cached_alter. destruct (is_block ROOTDEV x b) eqn:E.
  - rewrite (cached_intro _ _ HI x i b) by done. simpl. rewrite list_lookup_alter, decide_True by done.
    by rewrite (proj2 Hb).
  - destruct (cached s x) as [j|] eqn:Ec; [|done]. simpl.
    rewrite list_lookup_alter, decide_False; [done|]. intros <-.
    apply cached_elim in Ec as (b' & Hb' & Hbl). rewrite (cbuf_fun _ _ _ _ Hb Hb') in E. congruence.
Qed.

Lemma bview_alter x : bview (set_k_bcache (alter f i) s) x = bview s x.
Proof using HI Hb Hident.
  unfold bview. rewrite centry_alter. destruct (is_block ROOTDEV x b) eqn:E; [|done].
  rewrite (centry_intro _ _ HI x i b) by done. destruct (Hident b) as (_ & _ & ->). done.
Qed.

Lemma cframe_alter : cframe s (set_k_bcache (alter f i) s).
Proof using Hident.
  split; [kst_eq|done| |done|by left].
  intros j. ksimpl. rewrite list_lookup_alter. case_decide as E; [|done].
  destruct E. destruct (k_bcache s !! i) as [c|]; simpl; [|done]. f_equal. apply Hident.
Qed.

End Alter.

(** ** Recycling a buffer *)

Section Recycle.
Context (s : kst) (l : list nat) (HI : bio_inv s l).
Context (i : nat) (b : buf) (Hb : cbuf s i b) (Href : b_refcnt b = 0).
Context (bno : Z) (blk : list Z) (Hdisk : k_disk s !! bno = Some blk).
Context (Hnone : cached s bno = None).
Context (f : buf -> buf) (Hlinks : same_links f).
Context (Hdev : b_dev (f b) = ROOTDEV) (Hbno : b_blockno (f b) = bno)
  (Hdata : b_data (f b) = b_data b) (Hfref : b_refcnt (f b) = 1)
  (Hvalid : b_valid (f b) = true).

Let s' : kst := set_k_heap <[b_data b := PBuf blk]> (set_k_bcache (alter f i) s).

Lemma recycle_cbuf j c : cbuf s' j c <-> (j = i /\ c = f b) \/ (j <> i /\ cbuf s j c).
Proof using Hb. by apply cbuf_alter. Qed.

Lemma recycle_heap_ne j c : j <> i -> cbuf s j c -> heap_bytes s' (b_data c) = heap_bytes s (b_data c).
Proof using HI Hb.
  intros Hj Hc. unfold heap_bytes, s'. ksimpl. rewrite lookup_insert_ne; [done|].
  intros E. apply Hj. by eapply (bi_data _ _ HI).
Qed.

Lemma recycle_heap_eq : heap_bytes s' (b_data b) = Some blk.
Proof using Type. unfold heap_bytes, s'. ksimpl. by rewrite lookup_insert_eq. Qed.

Lemma recycle_block x : is_block ROOTDEV x (f b) = bool_decide (x = bno).
Proof using Hdev Hbno.
  unfold is_block. rewrite Hdev, Hbno, Z.eqb_refl. simpl. case_bool_decide; zbool; lia.
Qed.

Lemma recycle_other j c : cbuf s j c -> is_block ROOTDEV bno c = false.
Proof using HI Hnone.
  intros Hc. destruct (is_block ROOTDEV bno c) eqn:E; [|done].
  by rewrite (cached_intro _ _ HI bno j c) in Hnone.
Qed.

Lemma recycle_inv : bio_inv s' l.
Proof using HI Hb Hlinks Hdev Hbno Hdata Hfref Hvalid Hnone.
  destruct HI as [H1 H2 H3 H4]. split.
  - by apply lru_alter.
  - intros j c [[-> ->]|[Hj Hc]]%recycle_cbuf.
    + split; rewrite ?Hfref; [lia|done|]. right. split_and!; [done..|].
      exists blk. rewrite Hdata. split; [apply recycle_heap_eq|done].
    + destruct (H2 _ _ Hc). split; [done..|]. by rewrite (recycle_heap_ne j).
  - intros j k c d x Hc Hd. apply recycle_cbuf in Hc, Hd.
    destruct Hc as [[-> ->]|[_ Hc]], Hd as [[-> ->]|[_ Hd]]; [done| | |by eapply H3];
      rewrite recycle_block, bool_decide_eq_true.
    + intros -> E. by rewrite (recycle_other _ _ Hd) in E.
    + intros E ->. by rewrite (recycle_other _ _ Hc) in E.
  - intros j k c d Hc Hd. apply recycle_cbuf in Hc, Hd.
    destruct Hc as [[-> ->]|[_ Hc]], Hd as [[-> ->]|[_ Hd]];
      rewrite ?Hdata; [done|by eapply H4..].
Qed.

Lemma recycle_centry x : centry s' x =
  if bool_decide (x = bno) then Some (f b)
  else if is_block ROOTDEV x b then None else centry s x.
Proof using HI Hb Hlinks Hdev Hbno Hdata Hfref Hvalid Hnone.
  case_bool_decide as Ex.
  { apply (centry_intro _ _ recycle_inv x i).
    - apply recycle_cbuf. by left.
    - rewrite recycle_block. by apply bool_decide_true. }
  destruct (is_block ROOTDEV x b) eqn:E.
  - apply centry_none_iff. intros j c [[-> ->]|[Hj Hc]]%recycle_cbuf.
    + rewrite recycle_block. by apply bool_decide_false.
    + destruct (is_block ROOTDEV x c) eqn:E'; [|done]. exfalso. apply Hj.
      by eapply (bi_uniq _ _ HI).
  - destruct (centry s x) as [c|] eqn:Ec.
    + apply centry_elim in Ec as (j & Hc & Hbl). apply (centry_intro _ _ recycle_inv x j); [|done].
      apply recycle_cbuf. right. split; [|done]. intros ->.
      rewrite (cbuf_fun _ _ _ _ Hc Hb) in Hbl. congruence.
    + apply centry_none in Ec. apply centry_none_iff. intros j c [[-> ->]|[Hj Hc]]%recycle_cbuf.
      * rewrite recycle_block. by apply bool_decide_false.
      * destruct (is_block ROOTDEV x c) eqn:E'; [|done].
        by rewrite (cached_intro _ _ HI x j c) in Ec.
Qed.

(** the recycled buffer's old block is clean, so the view does not change *)
Lemma recycle_bview x : bview s' x = bview s x.
Proof using HI Hb Href Hdisk Hlinks Hdev Hbno Hdata Hfref Hvalid Hnone.
  unfold bview. rewrite recycle_centry. case_bool_decide as Ex.
  - subst x. rewrite Hdata, recycle_heap_eq. destruct (centry s bno) as [c|] eqn:Ec; [|done].
    apply centry_elim in Ec as (j & Hc & Hbl). by rewrite (recycle_other _ _ Hc) in Hbl.
  - destruct (is_block ROOTDEV x b) eqn:E.
    + rewrite (centry_intro _ _ HI x i b) by done. apply is_block_spec in E as [Ed Eb].
      destruct (bo_dev _ _ (bi_buf _ _ HI _ _ Hb)) as [[Hd0 _]|(_ & _ & bytes & -> & Hcl)];
        [rewrite Hd0 in Ed; done|].
      unfold s'. ksimpl. rewrite <- Eb. by apply Hcl.
    + destruct (centry s x) as [c|] eqn:Ec; [|done].
      apply centry_elim in Ec as (j & Hc & Hbl). apply (recycle_heap_ne j); [|done].
      intros ->. rewrite (cbuf_fun _ _ _ _ Hc Hb) in Hbl. congruence.
Qed.

Lemma recycle_frame : (forall c, b_data (f c) = b_data c) -> cframe s s'.
Proof using Hb.
  intros Hf. split; [unfold s'; kst_eq|done| | |].
  - intros j. unfold s'. ksimpl. rewrite list_lookup_alter. case_decide as E; [|done].
    destruct E, (k_bcache s !! i) as [c|]; simpl; [|done]. f_equal. apply Hf.
  - intros a Ha. unfold s'. ksimpl. rewrite lookup_insert_ne; [done|]. by eapply Ha.
  - intros a. unfold s'. ksimpl. rewrite lookup_insert. case_decide; [right; eauto|by left].
Qed.

End Recycle.

(** ** bread *)

(** what a caller of [bread] gets: buffer [i], locked, holding block [bno] *)
Record bread_post (pid bno : Z) (s : kst) (i : nat) (s' : kst) (l : list nat) : Prop := {
  br_inv : bio_inv s' l;
  br_cached : cached s' bno = Some i;
  br_disk : k_disk s' = k_disk s;
  br_dwrites : k_dwrites s' = k_dwrites s;
  br_psched : k_psched s' = k_psched s;
  br_frame : cframe s s';
  br_view : forall x, bview s' x = bview s x;
  br_refs : forall x, refs s' x = if bool_decide (x = bno) then refs s x + 1 else refs s x;
  br_blocked : forall x, blocked s' x = if bool_decide (x = bno) then Some pid else blocked s x;
  br_nfree : nfree s' = if refs s bno =? 0 then (nfree s - 1)%nat else nfree s;
  br_stable : forall y, refs s y <> 0 -> cached s' y = cached s y;
}.

Lemma is_block_at b x bno :
  b_dev b = ROOTDEV -> b_blockno b = bno -> is_block ROOTDEV x b = bool_decide (x = bno).
Proof. intros Hd <-. unfold is_block. rewrite Hd. case_bool_decide; zbool; lia. Qed.

Section Bread.
Context (s : kst) (l : list nat) (p : nat) (pr : proc).
Context (HI : bio_inv s l) (HR : running p pr s) (HH : k_held s = []).

Lemma bread_hit bno i b :
  cached s bno = Some i -> cbuf s i b -> sl_locked (b_lock b) = false ->
  b_refcnt b + 1 < 2 ^ 32 ->
  exists s', bread ROOTDEV bno s = Ok i s' /\ bread_post (p_pid pr) bno s i s' l.
Proof using HI HR HH.
  intros Hc Hb Hl Hr. set (f := take_buf (p_pid pr)).
  assert (is_block ROOTDEV bno b = true) as Hbl.
  { apply cached_elim in Hc as (b' & Hb' & Hbl). by rewrite (cbuf_fun _ _ _ _ Hb Hb'). }
  apply is_block_spec in Hbl as [Hd Hn].
  assert (same_links f) as Hlk by done. assert (same_ident f) as Hid by done.
  pose proof (bi_buf _ _ HI _ _ Hb) as Hok.
  destruct (bo_dev _ _ Hok) as [[Hd0 _]|(_ & Hv & bytes & Hby & Hcl)]; [by rewrite Hd0 in Hd|].
  assert (b_refcnt (f b) = b_refcnt b + 1) as Hfr.
  { unfold f, take_buf. ksimpl. apply wrap_small. pose proof (bo_ref _ _ Hok). lia. }
  exists (set_k_bcache (alter f i) s). split.
  - apply run_wp. unfold bread. apply wp_bind.
    eapply wp_run; [by eapply bget_hit|]. apply wp_bind. unfold get_buf.
    eapply wp_deref; [ksimpl; rewrite list_lookup_alter, decide_True, (proj2 Hb) by done; done|].
    simpl. rewrite Hv. simpl. apply wp_bind, wp_ret, wp_ret. done.
  - split; try done.
    + apply (bio_inv_alter _ _ HI _ _ Hb); [done..|]. pose proof (bo_ref _ _ Hok). split.
      * lia.
      * rewrite Hfr. lia.
      * right. split_and!; [done..|]. exists bytes. split; [done|]. rewrite Hfr. lia.
    + by rewrite (cached_alter _ _ _ Hb).
    + by apply cframe_alter.
    + intros x. by apply (bview_alter _ _ HI _ _ Hb).
    + intros x. unfold refs. rewrite (centry_alter _ _ HI _ _ Hb _ Hid), (is_block_at _ _ bno) by done.
      case_bool_decide; [subst x|done]. rewrite (centry_intro _ _ HI bno i b Hb); [done|].
      by apply is_block_spec.
    + intros x. unfold blocked. rewrite (centry_alter _ _ HI _ _ Hb _ Hid), (is_block_at _ _ bno) by done.
      by case_bool_decide.
    + pose proof (nfree_alter s f i b Hb) as E. unfold refs.
      rewrite (centry_intro _ _ HI bno i b Hb) by (by apply is_block_spec).
      unfold free01, is_free in E. rewrite Hfr in E. pose proof (bo_ref _ _ Hok).
      destruct (b_refcnt b + 1 =? 0) eqn:E1; zbool; [lia|].
      destruct (b_refcnt b =? 0) eqn:E2; zbool; lia.
    + intros y _. by rewrite (cached_alter _ _ _ Hb).
Qed.

Lemma bread_miss bno blk :
  cached s bno = None -> (0 < nfree s)%nat -> k_disk s !! bno = Some blk ->
  exists i s', bread ROOTDEV bno s = Ok i s' /\ bread_post (p_pid pr) bno s i s' l.
Proof using HI HR HH.
  intros Hc (i & b & Hf & Hb & Hr)%(nfree_find _ _ HI) Hd. exists i.
  set (f := set_b_valid (fun _ => true) ∘ recycle_buf (p_pid pr) ROOTDEV bno).
  set (s' := set_k_heap <[b_data b := PBuf blk]> (set_k_bcache (alter f i) s)).
  assert (same_links f) as Hlk by done.
  assert (bio_inv s' l) as HI' by (by eapply recycle_inv).
  assert (forall x, centry s' x = if bool_decide (x = bno) then Some (f b)
    else if is_block ROOTDEV x b then None else centry s x) as Hce by (intros; by eapply recycle_centry).
  assert (forall x, is_block ROOTDEV x b = true -> centry s x = Some b) as Hcb
    by (intros; by eapply centry_intro).
  assert (centry s bno = None) as Hcn by (unfold centry; by rewrite Hc).
  exists s'. split.
  - apply run_wp. unfold bread. apply wp_bind.
    eapply wp_run; [by eapply bget_miss|]. apply wp_bind. unfold get_buf at 1.
    eapply wp_deref; [ksimpl; rewrite list_lookup_alter, decide_True, (proj2 Hb) by done; done|].
    simpl. apply wp_bind. unfold disk_rw. do 2 apply wp_bind. unfold get_buf at 1.
    eapply wp_deref; [ksimpl; rewrite list_lookup_alter, decide_True, (proj2 Hb) by done; done|].
    apply wp_bind, wp_gets. ksimpl. cbn. rewrite Hd. unfold store. apply wp_modify.
    split; [done|]. unfold s'. kst_eq.
    by rewrite alter_comp.
  - split; try done.
    + apply (cached_intro _ _ HI' bno i (f b)); [|by apply is_block_spec].
      apply cbuf_alter with (b := b); [done|]. by left.
    + by apply (recycle_frame _ _ _ Hb).
    + intros x. by eapply recycle_bview.
    + intros x. unfold refs. rewrite Hce. case_bool_decide; [subst x; by rewrite Hcn|].
      destruct (is_block ROOTDEV x b) eqn:E; [|done]. by rewrite (Hcb _ E), Hr.
    + intros x. unfold blocked. rewrite Hce. case_bool_decide; [done|].
      destruct (is_block ROOTDEV x b) eqn:E; [|done]. rewrite (Hcb _ E). simpl.
      unfold lock_pid. by rewrite (bo_lock _ _ (bi_buf _ _ HI _ _ Hb) Hr).
    + pose proof (nfree_alter s f i b Hb) as E. unfold refs. rewrite Hcn. simpl.
      unfold free01, is_free in E. rewrite Hr in E. simpl in E.
      change (nfree s') with (nfree (set_k_bcache (alter f i) s)). lia.
    + intros y Hy. unfold refs in Hy. destruct (centry s y) as [c|] eqn:E; [|done].
      apply centry_elim in E as (j & Hcj & Hbl). rewrite (cached_intro _ _ HI _ _ _ Hcj Hbl).
      apply (cached_intro _ _ HI' y j c); [|done]. apply cbuf_alter with (b := b); [done|].
      right. split; [|done]. intros ->. rewrite (cbuf_fun _ _ _ _ Hcj Hb) in Hy. done.
Qed.

(** [bread] returns a locked buffer with the block's contents, whichever way
    the block is cached *)
Lemma bread_ok bno bytes :
  bview s bno = Some bytes -> blocked s bno = None -> refs s bno + 1 < 2 ^ 32 ->
  (refs s bno = 0 -> (0 < nfree s)%nat) ->
  exists i s', bread ROOTDEV bno s = Ok i s' /\ bread_post (p_pid pr) bno s i s' l.
Proof using HI HR HH.
  unfold bview, refs, blocked. destruct (centry s bno) as [b|] eqn:E; intros Hv Hl Hr Hf.
  - apply centry_elim in E as (i & Hb & Hbl). exists i. apply (bread_hit bno i b); [|done| |done].
    + by apply (cached_intro _ _ HI bno i b).
    + simpl in Hl. unfold lock_pid in Hl. by destruct (sl_locked (b_lock b)).
  - apply (bread_miss bno bytes); [by apply centry_none|by apply Hf|done].
Qed.

End Bread.

(** ** Changing only the links *)

Definition strip (b : buf) : buf := set_b_next (fun _ => 0%nat) (set_b_prev (fun _ => 0%nat) b).

Section Links.
Context (s : kst) (bc' : list buf) (Hbc : strip <$> bc' = strip <$> k_bcache s).
Let s' : kst := set_k_bcache (fun _ => bc') s.

Lemma links_lookup i : strip <$> bc' !! i = strip <$> k_bcache s !! i.
Proof using Hbc. by rewrite <- !list_lookup_fmap, Hbc. Qed.

Lemma links_cbuf i b' : cbuf s' i b' -> exists b, cbuf s i b /\ strip b' = strip b.
Proof using Hbc.
  intros [Hi Hb]. change (k_bcache s') with bc' in Hb. pose proof (links_lookup i) as E.
  rewrite Hb in E. destruct (k_bcache s !! i) as [b|] eqn:Eb; [|done].
  exists b. split; [done|]. simpl in E. congruence.
Qed.

Lemma strip_block dev x b b' : strip b' = strip b -> is_block dev x b' = is_block dev x b.
Proof using Type.
  intros E. unfold is_block. pose proof (f_equal b_dev E) as E1. pose proof (f_equal b_blockno E) as E2.
  simpl in *. by rewrite E1, E2.
Qed.

Lemma links_cached x : cached s' x = cached s x.
Proof using Hbc.
  unfold cached, buf_indices. change (k_bcache s') with bc'.
  pose proof (f_equal length Hbc) as El. rewrite !length_fmap in El. rewrite El.
  apply find_ext. intros i. unfold bufP.
  pose proof (links_lookup i) as E.
  destruct (bc' !! i) as [b'|], (k_bcache s !! i) as [b|]; try done.
  apply strip_block. simpl in E. congruence.
Qed.

Lemma links_centry x : strip <$> centry s' x = strip <$> centry s x.
Proof using Hbc.
  unfold centry. rewrite links_cached. destruct (cached s x) as [i|]; [|done]. simpl.
  apply links_lookup.
Qed.

Lemma links_abs x :
  bview s' x = bview s x /\ refs s' x = refs s x /\ blocked s' x = blocked s x.
Proof using Hbc.
  pose proof (links_centry x) as E. unfold bview, refs, blocked.
  destruct (centry s' x) as [b'|], (centry s x) as [b|]; try done. simpl in E.
  apply (inj Some) in E. pose proof (f_equal b_data E) as E1. pose proof (f_equal b_refcnt E) as E2.
  pose proof (f_equal b_lock E) as E3. simpl in *. unfold lock_pid. by rewrite E1, E2, E3.
Qed.

Lemma links_nfree : nfree s' = nfree s.
Proof using Hbc.
  unfold nfree. change (k_bcache s') with bc'.
  assert (forall bc, free01 <$> take NBUF bc = take NBUF (free01 <$> (strip <$> bc))) as H.
  { intros bc. by rewrite fmap_take, <- list_fmap_compose. }
  by rewrite !H, Hbc.
Qed.

Lemma links_inv l l' : bio_inv s l -> lru bc' l' -> bio_inv s' l'.
Proof using Hbc.
  intros [H1 H2 H3 H4] Hl. split; [done| | |].
  - intros i b' (b & Hb & E)%links_cbuf. destruct (H2 _ _ Hb) as [O1 O2 O3].
    destruct b, b'. simplify_eq/=. by split.
  - intros i j b' c' x (b & Hb & Eb)%links_cbuf (c & Hc & Ec)%links_cbuf.
    rewrite (strip_block _ _ _ _ Eb), (strip_block _ _ _ _ Ec). by eapply H3.
  - intros i j b' c' (b & Hb & Eb)%links_cbuf (c & Hc & Ec)%links_cbuf E.
    eapply H4; [done..|]. apply (f_equal b_data) in Eb, Ec. simpl in *. congruence.
Qed.

Lemma links_frame : cframe s s'.
Proof using Hbc.
  split; [unfold s'; kst_eq|done| |done|by left]. intros i. change (k_bcache s') with bc'.
  pose proof (links_lookup i) as E. destruct (bc' !! i) as [b'|], (k_bcache s !! i) as [b|]; try done.
  simpl in *. apply (inj Some) in E. f_equal. by apply (f_equal b_data) in E.
Qed.

End Links.

Lemma strip_alter f (i : nat) (bc : list buf) : (forall b, strip (f b) = strip b) -> strip <$> alter f i bc = strip <$> bc.
Proof.
  intros Hf. apply list_eq. intros j. rewrite !list_lookup_fmap, list_lookup_alter.
  case_decide as E; [destruct E|done]. destruct (bc !! i); simpl; [|done]. by rewrite Hf.
Qed.

Lemma strip_unlink b bc : strip <$> unlink_buf b bc = strip <$> bc.
Proof. unfold unlink_buf. destruct (bc !! b); [|done]. by rewrite !strip_alter. Qed.
Lemma strip_push b bc : strip <$> push_buf b bc = strip <$> bc.
Proof. unfold push_buf. destruct (bc !! HEAD); [|done]. by rewrite !strip_alter. Qed.

(** moving a buffer to the front of the LRU list *)
Definition to_front (b : nat) (l : list nat) : list nat := b :: filter (fun x => x <> b) l.

Lemma filter_all {A} (P : A -> Prop) `{forall x, Decision (P x)} (l : list A) :
  (forall x, x ∈ l -> P x) -> filter P l = l.
Proof.
  induction l as [|x l IH]; intros Hl; [done|].
  rewrite filter_cons_True by set_solver. rewrite IH; [done|set_solver].
Qed.

Lemma lru_to_front bc l b :
  lru bc l -> (b < NBUF)%nat -> lru (push_buf b (unlink_buf b bc)) (to_front b l).
Proof.
  intros Hl Hb. pose proof (lru_nodup _ _ Hl) as Hd. pose proof (lru_head _ _ Hl) as Hh.
  destruct (list_elem_of_split l b) as (l1 & l2 & ->); [by apply (lru_elem _ _ _ Hl)|].
  destruct Hl as [H1 H2 H3].
  assert (b ∉ l1 ++ l2) as Hb12.
  { rewrite Permutation_app_comm in Hd. simpl in Hd. apply NoDup_cons in Hd. set_solver. }
  assert (NoDup (l1 ++ l2)) as Hd12.
  { apply NoDup_app in Hd as (? & ? & [? ?]%NoDup_cons). apply NoDup_app. set_solver. }
  assert (to_front b (l1 ++ b :: l2) = b :: l1 ++ l2) as ->.
  { unfold to_front. rewrite filter_app, filter_cons_False by tauto.
    rewrite <- filter_app, filter_all; [done|]. intros x Hx ->. done. }
  split.
  - apply push_linked; [|set_solver|done|unfold HEAD; lia|done|rewrite length_unlink; lia].
    apply unlink_linked; [done|]. by apply NoDup_cons.
  - rewrite <- H2. apply Permutation_middle.
  - pose proof (f_equal length (strip_push b (unlink_buf b bc))) as E.
    rewrite !length_fmap, length_unlink in E. lia.
Qed.

(** ** brelse *)

Definition drop_buf (b : buf) : buf :=
  set_b_refcnt (fun n => u32 (n - 1)) (set_b_lock (fun _ => unlocked_slock) b).

Lemma linked_next_ne bc l i b :
  lru bc l -> (i < NBUF)%nat -> bc !! i = Some b -> b_next b <> i.
Proof.
  intros Hl Hi Hb. pose proof (lru_nodup _ _ Hl) as Hd. pose proof (lru_head _ _ Hl) as Hh.
  destruct (list_elem_of_split l i) as (l1 & l2 & ->); [by apply (lru_elem _ _ _ Hl)|].
  destruct (proj1 (dseg_app _ _ _ _ _ _ _) (lru_linked _ _ Hl)) as [_ H2].
  apply dseg_next in H2 as (n & Hn & Hin). unfold nextf in Hn. rewrite Hb in Hn. simpl in Hn.
  injection Hn as ->. intros ->. apply NoDup_app in Hd as (_ & _ & [? ?]%NoDup_cons).
  unfold HEAD in *. apply elem_of_app in Hin as [?|?%list_elem_of_singleton]; [done|lia].
Qed.

(** moving buffer [i] to the front of the list *)
Lemma relink_wp s l i b (Q : unit -> kst -> Prop) :
  lru (k_bcache s) l -> (i < NBUF)%nat -> k_bcache s !! i = Some b ->
  Q tt (set_k_bcache (fun bc => push_buf i (unlink_buf i bc)) s) ->
  wp (upd_buf (b_next b) (set_b_prev (fun _ => b_prev b));;
      bb ← get_buf i;
      upd_buf (b_prev bb) (set_b_next (fun _ => b_next bb));;
      h ← get_buf HEAD;
      upd_buf i (set_b_next (fun _ => b_next h));;
      upd_buf i (set_b_prev (fun _ => HEAD));;
      h ← get_buf HEAD;
      upd_buf (b_next h) (set_b_prev (fun _ => i));;
      upd_buf HEAD (set_b_next (fun _ => i))) s Q.
Proof.
  intros Hl Hi Hb HQ. pose proof (linked_next_ne _ _ _ _ Hl Hi Hb) as Hne.
  assert (i <> HEAD) as HiH by (unfold HEAD; lia).
  apply wp_bind. unfold upd_buf at 1. apply wp_modify. apply wp_bind. unfold get_buf at 1.
  eapply wp_deref; [ksimpl; by rewrite list_lookup_alter, decide_False, Hb by done|].
  apply wp_bind. unfold upd_buf at 1. apply wp_modify. set (s2 := set_k_bcache _ _).
  assert (k_bcache s2 = unlink_buf i (k_bcache s)) as Hs2 by (unfold s2, unlink_buf; by rewrite Hb).
  destruct (lru_lookup _ _ HEAD Hl) as [h0 Hh0]; [unfold HEAD; lia|].
  assert (exists h, k_bcache s2 !! HEAD = Some h) as [h Hh].
  { rewrite Hs2. apply lookup_lt_is_Some. rewrite length_unlink. by eapply lookup_lt_Some. }
  apply wp_bind. unfold get_buf at 1. eapply wp_deref; [done|].
  do 2 (apply wp_bind; unfold upd_buf at 1; apply wp_modify).
  apply wp_bind. unfold get_buf at 1.
  eapply wp_deref; [ksimpl; by rewrite !list_lookup_alter, !decide_False, Hh by done|].
  apply wp_bind. unfold upd_buf at 1. apply wp_modify. unfold upd_buf. apply wp_modify.
  match goal with |- Q tt ?x => enough (x = set_k_bcache (fun bc => push_buf i (unlink_buf i bc)) s) as -> by done end.
  apply kst_ext; ksimpl; try done. rewrite <- Hs2. unfold push_buf. by rewrite Hh.
Qed.

Section Brelse.
Context (s : kst) (l : list nat) (p : nat) (pr : proc).
Context (HI : bio_inv s l) (HR : running p pr s) (HH : k_held s = []).
Context (i : nat) (b : buf) (Hb : cbuf s i b) (Hown : lock_pid b = Some (p_pid pr)).

Lemma own_holding : holdingsleep (HBuf i) s = Ok true s.
Proof using HR HH Hb Hown.
  unfold lock_pid in Hown. destruct (sl_locked (b_lock b)) eqn:E; [|done]. injection Hown as Hp.
  erewrite (holdingsleep_ok (HBuf i) s p pr (b_lock b)); [|done| |rewrite HH; clear; set_solver].
  - by rewrite E, Hp, Z.eqb_refl.
  - simpl. by rewrite (proj2 Hb).
Qed.

Lemma own_refcnt : 1 <= b_refcnt b < 2 ^ 32.
Proof using HI Hb Hown.
  pose proof (bi_buf _ _ HI _ _ Hb) as [H1 H2 _]. unfold lock_pid in Hown.
  destruct (sl_locked (b_lock b)) eqn:E; [|done].
  destruct (decide (b_refcnt b = 0)) as [E0|]; [by specialize (H2 E0)|lia].
Qed.

Definition brelse_bc (bc : list buf) : list buf :=
  if b_refcnt b =? 1 then push_buf i (unlink_buf i (alter drop_buf i bc)) else alter drop_buf i bc.

Lemma brelse_run :
  brelse i s = Ok tt (set_k_psched (wakeup_table (ChSleep (HBuf i)) (k_cur s))
    (set_k_bcache brelse_bc s)).
Proof using HI HR HH Hb Hown.
  pose proof own_refcnt as Href. apply run_wp. unfold brelse. apply wp_bind.
  eapply wp_run; [apply own_holding|]. simpl. apply wp_bind.
  eapply wp_run.
  { eapply releasesleep_ok; [apply HR| |rewrite HH; clear; set_solver|].
    - simpl. by rewrite (proj2 Hb).
    - intros j. rewrite HH. clear. set_solver. }
  apply wp_bind, wp_acquire; [ksimpl; cbn; rewrite HH; clear; set_solver|].
  apply wp_bind. unfold upd_buf at 1. apply wp_modify. cbn [set_slock].
  assert (lru (alter drop_buf i (k_bcache s)) l) as Hl by (apply lru_alter; [done|apply HI]).
  set (s1 := set_k_bcache _ _).
  assert (k_bcache s1 = alter drop_buf i (k_bcache s)) as Hs1.
  { unfold s1. ksimpl. by rewrite alter_comp. }
  assert (k_bcache s1 !! i = Some (drop_buf b)) as Hi1.
  { rewrite Hs1, list_lookup_alter, decide_True, (proj2 Hb) by done. done. }
  assert (b_refcnt (drop_buf b) = b_refcnt b - 1) as Hr1 by (apply wrap_small; lia).
  apply wp_bind. unfold get_buf at 1. eapply wp_deref; [done|]. rewrite Hr1. apply wp_bind.
  replace (b_refcnt b - 1 =? 0) with (b_refcnt b =? 1)
    by (destruct (b_refcnt b =? 1) eqn:E; symmetry; zbool; lia).
  assert (k_held s1 = [Lbcache]) as Hh1 by (unfold s1; ksimpl; by rewrite HH).
  assert (s1 = set_k_psched (wakeup_table (ChSleep (HBuf i)) (k_cur s))
    (set_k_held (cons Lbcache) (set_k_bcache (fun _ => k_bcache s1) s))) as Es1.
  { unfold s1. kst_eq. }
  unfold brelse_bc. destruct (b_refcnt b =? 1) eqn:E1; unfold when.
  - eapply relink_wp; [by rewrite Hs1|apply Hb|done|].
    eapply wp_release; [done|]. split; [done|]. rewrite Es1. cbn [k_bcache set_k_bcache set_k_psched].
    rewrite Hs1. kst_eq.
  - apply wp_ret. eapply wp_release; [done|]. split; [done|]. rewrite Es1, Hs1. kst_eq.
Qed.

End Brelse.

(** what [brelse] of the buffer of block [bno] does *)
Record brelse_post (bno : Z) (s s' : kst) (i : nat) (l : list nat) : Prop := {
  bl_inv : bio_inv s' (if refs s bno =? 1 then to_front i l else l);
  bl_disk : k_disk s' = k_disk s;
  bl_dwrites : k_dwrites s' = k_dwrites s;
  bl_psched : k_psched s' = wakeup_table (ChSleep (HBuf i)) (k_cur s) (k_psched s);
  bl_frame : cframe s s';
  bl_view : forall x, bview s' x = bview s x;
  bl_refs : forall x, refs s' x = if bool_decide (x = bno) then refs s x - 1 else refs s x;
  bl_blocked : forall x, blocked s' x = if bool_decide (x = bno) then None else blocked s x;
  bl_nfree : nfree s' = if refs s bno =? 1 then S (nfree s) else nfree s;
  bl_stable : forall y, cached s' y = cached s y;
}.

Lemma cached_centry s l bno i :
  bio_inv s l -> cached s bno = Some i ->
  exists b, cbuf s i b /\ b_dev b = ROOTDEV /\ b_blockno b = bno /\ centry s bno = Some b.
Proof.
  intros HI (b & Hb & Hbl)%cached_elim. exists b. split; [done|].
  pose proof Hbl as [? ?]%is_block_spec. split_and!; [done..|]. by eapply centry_intro.
Qed.

(** a change of the scheduling table is invisible to the cache *)
Lemma bio_inv_psched f s l : bio_inv s l -> bio_inv (set_k_psched f s) l.
Proof.
  intros [H1 H2 H3 H4]. split; [done| |exact H3|exact H4].
  intros i b Hb. destruct (H2 i b Hb). by split.
Qed.

Lemma cframe_psched f s :
  length (f (k_psched s)) = length (k_psched s) -> cframe s (set_k_psched f s).
Proof. intros H. split; [kst_eq|done|done|done|by left]. Qed.

Section BrelseSpec.
Context (s : kst) (l : list nat) (p : nat) (pr : proc).
Context (HI : bio_inv s l) (HR : running p pr s) (HH : k_held s = []).
Context (bno : Z) (i : nat) (Hc : cached s bno = Some i) (Hown : blocked s bno = Some (p_pid pr)).

Lemma drop_ok b :
  cbuf s i b -> centry s bno = Some b -> 1 <= b_refcnt b < 2 ^ 32 -> b_blockno b = bno ->
  (refs s bno = 1 -> k_disk s !! bno = bview s bno) -> buf_ok s (drop_buf b).
Proof using HI.
  intros Hb Hce Hr Hbn Hcl. pose proof (bi_buf _ _ HI _ _ Hb) as [H1 H2 H3].
  assert (b_refcnt (drop_buf b) = b_refcnt b - 1) as Hr1 by (apply wrap_small; lia).
  split; [lia|done|]. destruct H3 as [[_ ?]|(Hd & Hv & bytes & Hby & _)]; [lia|].
  right. split_and!; [done..|]. exists bytes. split; [done|]. rewrite Hr1. intros E. simpl.
  rewrite Hbn, Hcl.
  - unfold bview. by rewrite Hce.
  - unfold refs. rewrite Hce. lia.
Qed.

Lemma brelse_ok :
  (refs s bno = 1 -> k_disk s !! bno = bview s bno) ->
  exists s', brelse i s = Ok tt s' /\ brelse_post bno s s' i l.
Proof using HI HR HH Hc Hown.
  intros Hcl. destruct (cached_centry _ _ _ _ HI Hc) as (b & Hb & Hd & Hbn & Hce).
  assert (lock_pid b = Some (p_pid pr)) as Hlk by (unfold blocked in Hown; by rewrite Hce in Hown).
  pose proof (own_refcnt _ _ _ HI _ _ Hb Hlk) as Hr.
  eexists. split; [by eapply brelse_run|].
  assert (refs s bno = b_refcnt b) as Hrefs by (unfold refs; by rewrite Hce).
  set (f := drop_buf). assert (same_links f) as Hli by done. assert (same_ident f) as Hid by done.
  pose proof (bio_inv_alter _ _ HI _ _ Hb f Hli Hid (drop_ok b Hb Hce Hr Hbn Hcl)) as HI1.
  pose proof (nfree_alter s f i b Hb) as Hnf.
  pose proof (centry_alter _ _ HI _ _ Hb f Hid) as Hce1.
  pose proof (bview_alter _ _ HI _ _ Hb f Hid) as Hv1.
  pose proof (cached_alter _ _ _ Hb f Hid) as Hca1.
  pose proof (cframe_alter s i f Hid) as Hf1.
  set (s1 := set_k_bcache (alter f i) s) in *.
  set (bc' := brelse_bc i b (k_bcache s)).
  assert (strip <$> bc' = strip <$> k_bcache s1) as Hst.
  { unfold bc', brelse_bc. destruct (_ =? 1); [|done]. by rewrite strip_push, strip_unlink. }
  change (set_k_bcache (brelse_bc i b) s) with (set_k_bcache (fun _ => bc') s1).
  assert (bio_inv (set_k_bcache (fun _ => bc') s1) (if refs s bno =? 1 then to_front i l else l)) as HI2.
  { eapply links_inv; [done|done|]. unfold bc', brelse_bc. rewrite Hrefs.
    destruct (_ =? 1); [|apply HI1]. apply lru_to_front; [apply HI1|apply Hb]. }
  pose proof (links_abs s1 bc' Hst) as Habs.
  assert (forall x, is_block ROOTDEV x b = bool_decide (x = bno)) as Hblk
    by (intros; by apply is_block_at).
  split; try done.
  - by apply bio_inv_psched.
  - etransitivity; [apply Hf1|]. etransitivity; [by apply links_frame|].
    apply cframe_psched, length_wakeup_table.
  - intros x. destruct (Habs x) as (E & _ & _). unfold bview in *. etransitivity; [exact E|]. apply Hv1.
  - intros x. destruct (Habs x) as (_ & E & _). etransitivity; [exact E|]. unfold refs. rewrite Hce1, Hblk.
    case_bool_decide; [subst x|done]. rewrite Hce. apply wrap_small. lia.
  - intros x. destruct (Habs x) as (_ & _ & E). etransitivity; [exact E|]. unfold blocked. rewrite Hce1, Hblk.
    by case_bool_decide.
  - etransitivity; [apply (links_nfree s1 bc' Hst)|]. rewrite Hrefs.
    assert (b_refcnt (f b) = b_refcnt b - 1) as Hfr by (apply wrap_small; lia).
    unfold free01, is_free in Hnf. rewrite Hfr in Hnf.
    destruct (b_refcnt b =? 1) eqn:E1, (b_refcnt b =? 0) eqn:E2, (b_refcnt b - 1 =? 0) eqn:E3; zbool; lia.
  - intros y. etransitivity; [apply (links_cached s1 bc' Hst)|]. apply Hca1.
Qed.

End BrelseSpec.

(** ** Operations on a locked buffer *)

(** the disk, the write history, the view and the reference counts after an
    operation that neither locks, unlocks nor moves a buffer *)
Record bchange (s s' : kst) (l : list nat) (disk' : gmap Z (list Z)) (dw' : list (Z * list Z))
    (view' : Z -> option (list Z)) (refs' : Z -> Z) : Prop := {
  bc_inv : bio_inv s' l;
  bc_disk : k_disk s' = disk';
  bc_dwrites : k_dwrites s' = dw';
  bc_psched : k_psched s' = k_psched s;
  bc_frame : cframe s s';
  bc_view : forall x, bview s' x = view' x;
  bc_refs : forall x, refs s' x = refs' x;
  bc_blocked : forall x, blocked s' x = blocked s x;
  bc_nfree : nfree s' = nfree s;
  bc_cached : forall x, cached s' x = cached s x;
}.

Section Locked.
Context (s : kst) (l : list nat) (p : nat) (pr : proc).
Context (HI : bio_inv s l) (HR : running p pr s) (HH : k_held s = []).
Context (bno : Z) (i : nat) (Hc : cached s bno = Some i) (Hown : blocked s bno = Some (p_pid pr)).

Lemma locked_entry : exists b bytes, cbuf s i b /\ b_dev b = ROOTDEV /\ b_blockno b = bno /\
  centry s bno = Some b /\ lock_pid b = Some (p_pid pr) /\ 1 <= b_refcnt b < 2 ^ 32 /\
  heap_bytes s (b_data b) = Some bytes /\ bview s bno = Some bytes.
Proof using HI Hc Hown.
  destruct (cached_centry _ _ _ _ HI Hc) as (b & Hb & Hd & Hbn & Hce).
  assert (lock_pid b = Some (p_pid pr)) as Hlk by (unfold blocked in Hown; by rewrite Hce in Hown).
  pose proof (own_refcnt _ _ _ HI _ _ Hb Hlk) as Hr.
  destruct (bo_dev _ _ (bi_buf _ _ HI _ _ Hb)) as [[E _]|(_ & _ & bytes & Hby & _)];
    [by rewrite E in Hd|].
  exists b, bytes. unfold bview. by rewrite Hce.
Qed.

Lemma locked_refs : 1 <= refs s bno < 2 ^ 32.
Proof using HI Hc Hown.
  destruct locked_entry as (b & _ & _ & _ & _ & Hce & _ & Hr & _). unfold refs. by rewrite Hce.
Qed.

Lemma bwrite_ok bytes :
  bview s bno = Some bytes -> is_Some (k_disk s !! bno) ->
  exists s', bwrite i s = Ok tt s' /\
    bchange s s' l (<[bno := bytes]> (k_disk s)) (k_dwrites s ++ [(bno, bytes)]) (bview s) (refs s).
Proof using HI HR HH Hc Hown.
  intros Hv [old Hold]. destruct locked_entry as (b & by' & Hb & Hd & Hbn & Hce & Hlk & Hr & Hby & Hv').
  rewrite Hv in Hv'. injection Hv' as <-.
  eexists. split.
  - apply run_wp. unfold bwrite. apply wp_bind.
    eapply wp_run; [by eapply own_holding|]. simpl. unfold disk_rw. apply wp_bind.
    unfold get_buf. eapply wp_deref; [apply Hb|]. apply wp_bind, wp_gets. rewrite Hbn, Hold.
    apply wp_bind. unfold load_buf. eapply wp_deref; [exact Hby|]. split; [done|reflexivity].
  - split; try done.
    + destruct HI as [H1 H2 H3 H4]. split; [done| |exact H3|exact H4].
      intros j c Hcj. destruct (H2 _ _ Hcj) as [O1 O2 O3]. split; [done..|].
      destruct O3 as [?|(Hcd & ? & by'' & ? & Hcl)]; [by left|right].
      split_and!; [done..|]. exists by''. split; [done|]. intros Hz. ksimpl.
      rewrite lookup_insert_ne; [by apply Hcl|]. intros E.
      assert (j = i) as -> by (apply (H3 j i c b bno); [done|done|apply is_block_spec..];
        split; congruence).
      rewrite (cbuf_fun _ _ _ _ Hcj Hb) in Hz. lia.
    + split; [kst_eq|done|done|done|by left].
    + intros x. unfold bview. change (centry _ x) with (centry s x). ksimpl.
      destruct (centry s x) as [c|] eqn:Ex; [done|]. rewrite lookup_insert_ne; [done|].
      intros E. rewrite <- E, Hce in Ex. done.
Qed.

Lemma bdata_get_ok bytes : bview s bno = Some bytes -> bdata_get i s = Ok bytes s.
Proof using HI Hc Hown.
  intros Hv. destruct locked_entry as (b & by' & Hb & _ & _ & _ & _ & _ & Hby & Hv').
  rewrite Hv in Hv'. injection Hv' as <-. apply run_wp. unfold bdata_get. apply wp_bind.
  unfold get_buf, load_buf. eapply wp_deref; [apply Hb|]. eapply wp_deref; [exact Hby|]. done.
Qed.

Lemma bdata_upd_ok g bytes :
  bview s bno = Some bytes ->
  exists s', bdata_upd i g s = Ok tt s' /\
    bchange s s' l (k_disk s) (k_dwrites s)
      (fun x => if bool_decide (x = bno) then Some (g bytes) else bview s x) (refs s).
Proof using HI Hc Hown.
  intros Hv. destruct locked_entry as (b & by' & Hb & Hd & Hbn & Hce & Hlk & Hr & Hby & Hv').
  rewrite Hv in Hv'. injection Hv' as <-.
  assert (forall j c, j <> i -> cbuf s j c -> b_data b <> b_data c) as Hne.
  { intros j c Hj Hcj E. apply Hj. eapply (bi_data _ _ HI); [exact Hcj|exact Hb|done]. }
  eexists. split.
  - apply run_wp. unfold bdata_upd. apply wp_bind. unfold get_buf. eapply wp_deref; [apply Hb|].
    unfold upd_buf_data. apply wp_bind. unfold load_buf. eapply wp_deref; [exact Hby|].
    split; [done|reflexivity].
  - split; try done.
    + destruct HI as [H1 H2 H3 H4]. split; [done| |exact H3|exact H4].
      intros j c Hcj. destruct (decide (j = i)) as [->|Hj].
      * rewrite (cbuf_fun _ _ _ _ Hcj Hb). pose proof (H2 _ _ Hb) as [O1 O2 O3]. split; [done..|].
        right. destruct O3 as [[? ?]|(? & ? & _)]; [lia|]. split_and!; [done..|].
        exists (g bytes). split; [|lia]. unfold heap_bytes. ksimpl. by rewrite lookup_insert_eq.
      * destruct (H2 _ _ Hcj) as [O1 O2 O3]. split; [done..|]. unfold heap_bytes. ksimpl.
        rewrite lookup_insert_ne; [done|]. by eapply Hne.
    + split; [kst_eq|done|done| |]; intros a; ksimpl.
      * intros Ha. rewrite lookup_insert_ne; [done|]. by eapply Ha.
      * rewrite lookup_insert. case_decide; [right; eauto|by left].
    + intros x. unfold bview, heap_bytes. change (centry _ x) with (centry s x). ksimpl.
      case_bool_decide as Ex; [subst x; by rewrite Hce, lookup_insert_eq|].
      destruct (centry s x) as [c|] eqn:Ecx; [|done]. rewrite lookup_insert_ne; [done|].
      apply centry_elim in Ecx as (j & Hcj & [_ Hbl]%is_block_spec). apply (Hne j); [|done].
      intros ->. apply Ex. rewrite <- Hbl, (cbuf_fun _ _ _ _ Hcj Hb). done.
Qed.

(** [bpin] and [bunpin] of a locked buffer *)
Lemma refcnt_step g n :
  (forall b, cbuf s i b -> b_refcnt b = refs s bno -> u32 (g (b_refcnt b)) = n) -> 1 <= n < 2 ^ 32 ->
  bchange s (set_k_bcache (alter (set_b_refcnt (fun r => u32 (g r))) i) s) l (k_disk s) (k_dwrites s)
    (bview s) (fun x => if bool_decide (x = bno) then n else refs s x).
Proof using HI Hc Hown.
  intros Hg Hn. destruct locked_entry as (b & bytes & Hb & Hd & Hbn & Hce & Hlk & Hr & Hby & Hv).
  specialize (Hg b Hb ltac:(unfold refs; by rewrite Hce)).
  set (f := set_b_refcnt (fun r => u32 (g r))).
  assert (same_links f) as Hli by done. assert (same_ident f) as Hid by done.
  assert (b_refcnt (f b) = n) as Hfr by done.
  assert (forall x, is_block ROOTDEV x b = bool_decide (x = bno)) as Hblk
    by (intros; by apply is_block_at).
  split; try done.
  - apply (bio_inv_alter _ _ HI _ _ Hb); [done..|]. pose proof (bi_buf _ _ HI _ _ Hb) as [O1 O2 O3].
    split; rewrite ?Hfr; [lia|lia|]. destruct O3 as [[? ?]|(? & ? & by' & ? & ?)]; [lia|].
    right. split_and!; [done..|]. exists by'. split; [done|lia].
  - by apply cframe_alter.
  - intros x. by apply (bview_alter _ _ HI _ _ Hb).
  - intros x. unfold refs. rewrite (centry_alter _ _ HI _ _ Hb _ Hid), Hblk. by case_bool_decide.
  - intros x. unfold blocked. rewrite (centry_alter _ _ HI _ _ Hb _ Hid), Hblk.
    case_bool_decide; [subst x; by rewrite Hce|done].
  - pose proof (nfree_alter s f i b Hb) as E. unfold free01, is_free in E. rewrite Hfr in E.
    destruct (n =? 0) eqn:E1, (b_refcnt b =? 0) eqn:E2; zbool; lia.
  - intros x. by rewrite (cached_alter _ _ _ Hb).
Qed.

Lemma bunpin_ok :
  2 <= refs s bno ->
  exists s', bunpin i s = Ok tt s' /\
    bchange s s' l (k_disk s) (k_dwrites s) (bview s)
      (fun x => if bool_decide (x = bno) then refs s bno - 1 else refs s x).
Proof using HI HH Hc Hown.
  clear HR. intros Hr. pose proof locked_refs as Hr'.
  exists (set_k_bcache (alter (set_b_refcnt (fun r => u32 (r - 1))) i) s). split.
  - apply run_wp. unfold bunpin. apply wp_bind, wp_acquire; [rewrite HH; clear; set_solver|].
    apply wp_bind. unfold upd_buf. apply wp_modify. eapply wp_release; [done|]. split; [done|kst_eq].
  - apply (refcnt_step (fun r => r - 1)); [|lia].
    intros b _ ->. apply wrap_small. lia.
Qed.

Lemma bpin_ok :
  refs s bno + 1 < 2 ^ 32 ->
  exists s', bpin i s = Ok tt s' /\
    bchange s s' l (k_disk s) (k_dwrites s) (bview s)
      (fun x => if bool_decide (x = bno) then refs s bno + 1 else refs s x).
Proof using HI HH Hc Hown.
  clear HR. intros Hr. pose proof locked_refs as Hr'.
  exists (set_k_bcache (alter (set_b_refcnt (fun r => u32 (r + 1))) i) s). split.
  - apply run_wp. unfold bpin. apply wp_bind, wp_acquire; [rewrite HH; clear; set_solver|].
    apply wp_bind. unfold upd_buf. apply wp_modify. eapply wp_release; [done|]. split; [done|kst_eq].
  - apply (refcnt_step (fun r => r + 1)); [|lia].
    intros b _ ->. apply wrap_small. lia.
Qed.

End Locked.

(** ** Facts about the view *)

(** an unreferenced block is clean *)
Lemma clean_view s l x : bio_inv s l -> refs s x = 0 -> k_disk s !! x = bview s x.
Proof.
  intros HI. unfold refs, bview. destruct (centry s x) as [b|] eqn:E; [|done]. intros Hr.
  apply centry_elim in E as (i & Hb & [Hd Hbn]%is_block_spec).
  destruct (bo_dev _ _ (bi_buf _ _ HI _ _ Hb)) as [[E _]|(_ & _ & bytes & Hby & Hcl)];
    [by rewrite E in Hd|]. by rewrite Hby, <- Hbn, Hcl.
Qed.

Lemma bview_some s l x : bio_inv s l -> is_Some (k_disk s !! x) -> is_Some (bview s x).
Proof.
  intros HI Hd. unfold bview. destruct (centry s x) as [b|] eqn:E; [|done].
  apply centry_elim in E as (i & Hb & [Hdev Hbn]%is_block_spec).
  destruct (bo_dev _ _ (bi_buf _ _ HI _ _ Hb)) as [[E _]|(_ & _ & bytes & Hby & _)];
    [by rewrite E in Hdev|]. rewrite Hby. eauto.
Qed.

Lemma refs_nonneg s l x : bio_inv s l -> 0 <= refs s x.
Proof.
  intros HI. unfold refs. destruct (centry s x) as [b|] eqn:E; [|done].
  apply centry_elim in E as (i & Hb & _). pose proof (bo_ref _ _ (bi_buf _ _ HI _ _ Hb)). lia.
Qed.

Lemma refs_cases s x :
  (exists i b, cbuf s i b /\ is_block ROOTDEV x b = true /\ refs s x = b_refcnt b /\
    blocked s x = lock_pid b) \/ (refs s x = 0 /\ blocked s x = None).
Proof.
  unfold refs, blocked. destruct (centry s x) as [b|] eqn:E; [left|by right].
  apply centry_elim in E as (i & Hb & Hbl). by exists i, b.
Qed.

(** the cache does not depend on the state of the log or the held locks *)
Lemma bview_log f s x : bview (set_k_log f s) x = bview s x.
Proof. done. Qed.
Lemma refs_log f s x : refs (set_k_log f s) x = refs s x.
Proof. done. Qed.
Lemma blocked_log f s x : blocked (set_k_log f s) x = blocked s x.
Proof. done. Qed.
Lemma nfree_log f s : nfree (set_k_log f s) = nfree s.
Proof. done. Qed.
Lemma bio_inv_log f s l : bio_inv s l -> bio_inv (set_k_log f s) l.
Proof.
  intros [H1 H2 H3 H4]. split; [done| |exact H3|exact H4].
  intros i b Hb. destruct (H2 i b Hb). by split.
Qed.

Lemma bview_dev f s x : bview (set_k_dev f s) x = bview s x.
Proof. done. Qed.
Lemma bio_inv_dev f s l : bio_inv s l -> bio_inv (set_k_dev f s) l.
Proof.
  intros [H1 H2 H3 H4]. split; [done| |exact H3|exact H4].
  intros i b Hb. destruct (H2 i b Hb). by split.
Qed.

(** nor on pages that hold no buffer *)
Definition keeps_bufs (h h' : gmap Z pobj) : Prop :=
  forall a v, h !! a = Some v -> is_Some (as_buf v) -> h' !! a = Some v.

Lemma heap_bytes_keep s s' a bytes :
  keeps_bufs (k_heap s) (k_heap s') -> heap_bytes s a = Some bytes -> heap_bytes s' a = Some bytes.
Proof.
  intros Hk. unfold heap_bytes. destruct (k_heap s !! a) as [v|] eqn:E; [|done]. cbn. intros Hv.
  rewrite (Hk a v); [done|done|by exists bytes].
Qed.

Lemma bio_inv_ext s s' l :
  k_bcache s' = k_bcache s -> k_disk s' = k_disk s -> keeps_bufs (k_heap s) (k_heap s') ->
  bio_inv s l -> bio_inv s' l.
Proof.
  intros Eb Ed Hk [H1 H2 H3 H4].
  assert (forall i b, cbuf s' i b <-> cbuf s i b) as Hcb by (intros; unfold cbuf; by rewrite Eb).
  split; [by rewrite Eb| | |].
  - intros i b [B1 B2 B3]%Hcb%H2. split; [done|done|]. rewrite Ed.
    destruct B3 as [?|(Hd & Hv & bytes & Hby & Hc)]; [by left|]. right. split_and!; [done|done|].
    exists bytes. split; [by apply (heap_bytes_keep s)|done].
  - intros i j b b' bno Hi Hj. apply (H3 i j b b' bno); by apply Hcb.
  - intros i j b b' Hi Hj. apply (H4 i j b b'); by apply Hcb.
Qed.

Lemma bview_ext s s' l x :
  bio_inv s l -> k_bcache s' = k_bcache s -> k_disk s' = k_disk s ->
  keeps_bufs (k_heap s) (k_heap s') -> bview s' x = bview s x.
Proof.
  intros HI Eb Ed Hk. unfold bview. replace (centry s' x) with (centry s x)
    by (unfold centry, cached; by rewrite Eb).
  destruct (centry s x) as [b|] eqn:E; [|by rewrite Ed].
  apply centry_elim in E as (i & Hb & [Hd _]%is_block_spec).
  destruct (bo_dev _ _ (bi_buf _ _ HI _ _ Hb)) as [[E _]|(_ & _ & bytes & Hby & _)];
    [by rewrite E in Hd|]. rewrite Hby. by apply (heap_bytes_keep s).
Qed.

Lemma cached_ext s s' x : k_bcache s' = k_bcache s -> cached s' x = cached s x.
Proof. unfold cached. by intros ->. Qed.
Lemma refs_ext s s' x : k_bcache s' = k_bcache s -> refs s' x = refs s x.
Proof. unfold refs, centry, cached. by intros ->. Qed.
Lemma blocked_ext s s' x : k_bcache s' = k_bcache s -> blocked s' x = blocked s x.
Proof. unfold blocked, centry, cached. by intros ->. Qed.

(** ** Counting buffers *)

Definition busy (s : kst) : list Z :=
  b_blockno <$> filter (fun b => is_free b = false) (take NBUF (k_bcache s)).

Lemma nfree_busy s l : bio_inv s l -> (nfree s + length (busy s) = NBUF)%nat.
Proof.
  intros HI. unfold nfree, busy. rewrite length_fmap.
  assert (length (take NBUF (k_bcache s)) = NBUF) as Hl
    by (rewrite length_take, (lru_len _ _ (bi_lru _ _ HI)); lia).
  rewrite <- Hl at 3. clear Hl HI. induction (take NBUF (k_bcache s)) as [|b bc IH]; [done|].
  rewrite filter_cons. cbn. unfold free01 at 1. destruct (is_free b); case_decide; try done; cbn; lia.
Qed.

Lemma lookup_busy s b : b ∈ take NBUF (k_bcache s) <-> exists i, cbuf s i b.
Proof.
  rewrite list_elem_of_lookup. unfold cbuf. split; intros [i Hi]; exists i.
  - by apply lookup_take_Some in Hi as [? ?].
  - apply lookup_take_Some. naive_solver.
Qed.

Lemma elem_of_busy s l x : bio_inv s l -> x ∈ busy s <-> refs s x <> 0.
Proof.
  intros HI. unfold busy, refs. rewrite list_elem_of_fmap. split.
  - intros (b & -> & [Hf (i & Hb)%lookup_busy]%list_elem_of_filter). unfold is_free in Hf. zbool.
    destruct (bo_dev _ _ (bi_buf _ _ HI _ _ Hb)) as [[_ E]|(Hd & _)]; [done|].
    rewrite (centry_intro _ _ HI (b_blockno b) i b Hb); [done|]. by apply is_block_spec.
  - destruct (centry s x) as [b|] eqn:E; [|done]. intros Hr.
    apply centry_elim in E as (i & Hb & [_ Hx]%is_block_spec). exists b. split; [done|].
    apply list_elem_of_filter. split; [unfold is_free; by apply Z.eqb_neq|]. apply lookup_busy. eauto.
Qed.

Lemma NoDup_busy s l : bio_inv s l -> NoDup (busy s).
Proof.
  intros HI. unfold busy.
  assert (forall i j b b', take NBUF (k_bcache s) !! i = Some b -> take NBUF (k_bcache s) !! j = Some b' ->
    is_free b = false -> is_free b' = false -> b_blockno b = b_blockno b' -> i = j) as H.
  { intros i j b b' [Hi Hlt]%lookup_take_Some [Hj Hlt']%lookup_take_Some Hf Hf' E. unfold is_free in *. zbool.
    assert (forall k c, cbuf s k c -> b_refcnt c <> 0 -> b_dev c = ROOTDEV) as Hd.
    { intros k c Hc Hr. destruct (bo_dev _ _ (bi_buf _ _ HI _ _ Hc)) as [[_ ?]|(? & _)]; done. }
    apply (bi_uniq _ _ HI i j b b' (b_blockno b)); [by split|by split|..]; apply is_block_spec.
    - split; [by apply (Hd i)|done].
    - split; [by apply (Hd j)|done]. }
  induction (take NBUF (k_bcache s)) as [|b bc IH]; [constructor|]. rewrite filter_cons.
  assert (NoDup (b_blockno <$> filter (fun b => is_free b = false) bc)) as Hbc.
  { apply IH. intros i j c c' Hi Hj Hf Hf' E. by specialize (H (S i) (S j) c c' Hi Hj Hf Hf' E) as [= ?]. }
  case_decide as Hb; [|done]. cbn. constructor; [|done].
  intros (c & E & [Hf (j & Hj)%list_elem_of_lookup]%list_elem_of_filter)%list_elem_of_fmap.
  by specialize (H 0%nat (S j) b c eq_refl Hj Hb Hf E).
Qed.

(** newly referenced blocks take one buffer each *)
Lemma nfree_grow s l s' l' new :
  bio_inv s l -> bio_inv s' l' -> (forall x, refs s' x <> 0 -> refs s x <> 0 \/ x ∈ new) ->
  (nfree s <= nfree s' + length new)%nat.
Proof.
  intros HI HI' H. pose proof (nfree_busy _ _ HI). pose proof (nfree_busy _ _ HI').
  assert (length (busy s') <= length (busy s ++ new))%nat as Hle.
  { apply submseteq_length, NoDup_submseteq; [by eapply NoDup_busy|]. intros x Hx.
    apply elem_of_app. rewrite (elem_of_busy _ _ x HI). apply H. by rewrite <- (elem_of_busy _ _ x HI'). }
  rewrite length_app in Hle. lia.
Qed.

(** clients use the lemmas above, and unfolding these is slow *)
#[global] Opaque cached nfree bview refs blocked.
