(* ===== verification/BioProps.v ===== *)
(** * Properties of the buffer cache

    Initialisation establishes the invariant; the operations keep it and do
    what their users rely on. *)

From S2P Require Import Prelude Monad Types Kernel Kalloc Bio Lru BioFacts.
From stdpp Require Import base numbers list gmap strings.
From Stdlib Require Import ZArith Lia.

Open Scope Z_scope.

Section BioProps.
Context {L : Layout}.

(** ** binit *)

(** what the loop of [binit] stores in a buffer besides its links *)
Definition init_buf (a : Z) (b : buf) : buf :=
  set_b_lock (fun _ => unlocked_slock) (set_b_data (fun _ => a) (set_b_xobj (fun _ => init_xobj) b)).

Lemma binit1_ok s b a l :
  free_list s (a :: l) -> Lkmem ∉ k_held s -> b <> HEAD -> is_Some (k_bcache s !! HEAD) ->
  exists s', binit1 b s = Ok tt s' /\ k_held s' = k_held s /\ free_list s' l /\
    k_bcache s' = push_buf b (alter (init_buf a) b (k_bcache s)).
Proof.
  intros HF Hl Hb [h Hh].
  set (s1 := set_k_bcache (alter (fun c => set_b_xobj (fun _ => init_xobj)
    (set_b_prev (fun _ => HEAD) (set_b_next (fun _ => b_next h) c))) b) s).
  destruct (kalloc_spec s1 (a :: l)) as (s2 & E2 & F2 & next & Es2).
  { by apply (free_list_ext s). }
  { done. }
  assert (a <> 0) as Ha by (destruct HF as [_ _ Hpg]; apply Forall_cons in Hpg as [Hpg _]; by apply page_ok_pos).
  assert (k_bcache s2 !! HEAD = Some h) as Hh2.
  { rewrite Es2. unfold s1. ksimpl. by rewrite list_lookup_alter, decide_False. }
  eexists. split.
  - unfold binit1. erewrite bind_ok by (unfold get_buf, deref; by rewrite Hh).
    do 2 erewrite bind_ok by reflexivity. erewrite bind_ok by (unfold initxobj; reflexivity).
    match goal with |- (_ ≫= _) ?st = _ => replace st with s1 end.
    2:{ unfold s1. kst_eq. by rewrite !alter_comp. }
    erewrite bind_ok by exact E2. erewrite bind_ok by reflexivity.
    rewrite (proj2 (Z.eqb_neq a 0) Ha). erewrite bind_ok by reflexivity.
    erewrite bind_ok.
    2:{ unfold get_buf, deref. cbn [set_slock]. ksimpl.
        rewrite !list_lookup_alter, !decide_False by done. by rewrite Hh2. }
    erewrite bind_ok by reflexivity. reflexivity.
  - rewrite Es2. cbn [set_slock]. ksimpl. split; [done|]. split.
    + eapply free_list_ext; [| |exact F2]; by rewrite Es2.
    + unfold s1. ksimpl. unfold push_buf. rewrite list_lookup_alter, decide_False, Hh by done.
      by rewrite !alter_comp.
Qed.

(** after [k] iterations *)
Record binit_inv (k : nat) (l : list Z) (s : kst) : Prop := {
  bn_held : Lkmem ∉ k_held s;
  bn_len : length (k_bcache s) = S NBUF;
  bn_linked : linked (k_bcache s) (reverse (seq 0 k));
  bn_free : free_list s (drop k l);
  bn_buf : forall i b, k_bcache s !! i = Some b -> (i < NBUF)%nat ->
    b_dev b = 0 /\ b_refcnt b = 0 /\ b_valid b = false /\ sl_locked (b_lock b) = false /\
    ((i < k)%nat -> l !! i = Some (b_data b));
}.

Lemma strip_fields b b' : strip b' = strip b ->
  b_dev b' = b_dev b /\ b_refcnt b' = b_refcnt b /\ b_valid b' = b_valid b /\
  b_lock b' = b_lock b /\ b_data b' = b_data b.
Proof. destruct b, b'. intros E. simplify_eq/=. done. Qed.

Lemma binit_step k l s a :
  binit_inv k l s -> (k < NBUF)%nat -> l !! k = Some a ->
  wp (binit1 k) s (fun _ s' => binit_inv (S k) l s').
Proof.
  intros [B1 B2 B3 B4 B5] Hk Ha. rewrite (drop_S _ _ _ Ha) in B4.
  assert (k <> HEAD) as HkH by (unfold HEAD; lia).
  assert (is_Some (k_bcache s !! HEAD)) as HH by (apply lookup_lt_is_Some; rewrite B2; unfold HEAD; lia).
  destruct (binit1_ok s k a (drop (S k) l) B4 B1 HkH HH) as (s' & E & Hh & HF & Hbc).
  eapply wp_run; [exact E|].
  assert (strip <$> k_bcache s' = strip <$> alter (init_buf a) k (k_bcache s)) as Hst
    by (rewrite Hbc; apply strip_push).
  split; [by rewrite Hh| | |done|].
  - apply (f_equal length) in Hst. rewrite !length_fmap, length_alter in Hst. lia.
  - rewrite Hbc, seq_S, reverse_app. simpl. apply push_linked.
    + eapply dseg_frame; [| |exact B3]; intros z _; [rewrite nextf_alter|rewrite prevf_alter];
        case_decide as E'; try done; destruct E'; unfold nextf, prevf; by destruct (k_bcache s !! k).
    + rewrite elem_of_reverse, elem_of_seq. unfold HEAD. lia.
    + rewrite elem_of_reverse, elem_of_seq. lia.
    + done.
    + rewrite reverse_Permutation; apply NoDup_seq.
    + rewrite length_alter, B2. lia.
  - intros i b Hi Hlt. pose proof (f_equal (fun m => m !! i) Hst) as Es. cbn in Es.
    rewrite !list_lookup_fmap, Hi, list_lookup_alter in Es.
    assert (exists b0, k_bcache s !! i = Some b0) as [b0 Eb] by (apply lookup_lt_is_Some; lia).
    destruct (B5 i b0 Eb Hlt) as (D1 & D2 & D3 & D4 & D5).
    case_decide as Eik; [subst i|]; rewrite Eb in Es; simpl in Es; apply (inj Some), strip_fields in Es as (S1 & S2 & S3 & S4 & S5);
      rewrite S1, S2, S3, S4, S5; (split_and!; [done..|]).
    + by intros _.
    + intros Hik. apply D5. lia.
Qed.

(** [binit] sets up the buffer cache: from zeroed buffers and enough free
    pages it terminates, every buffer is on the LRU list, the cache is empty
    and its invariant holds. *)
Theorem binit_establishes s l :
  k_bcache s = replicate (S NBUF) (Mk_buf false false 0 0 unlocked_slock 0 0 0 init_xobj 0) ->
  free_list s l -> (NBUF <= length l)%nat -> Lkmem ∉ k_held s ->
  exists s', binit s = Ok tt s' /\ bio_inv s' (reverse (seq 0 NBUF)) /\ free_list s' (drop NBUF l).
Proof.
  intros Hbc HF Hlen Hl.
  assert (wp binit s (fun _ s' => binit_inv NBUF l s')) as (u & s' & E & HI)%wp_ok.
  { unfold binit. do 2 (apply wp_bind; unfold upd_buf at 1; apply wp_modify).
    apply (wp_for_each _ _ (fun dn s' => binit_inv (length dn) l s')).
    - split; ksimpl; rewrite ?Hbc; [done|by rewrite !length_alter, length_replicate| |by apply (free_list_ext s)|].
      + vm_compute. done.
      + intros i b Hi Hlt. rewrite !list_lookup_alter, !decide_False in Hi by (unfold HEAD; lia).
        apply lookup_replicate in Hi as [-> _]. simpl. split_and!; try done. lia.
    - intros dn x todo s1 Hsq HI. assert (x = length dn /\ (x < NBUF)%nat) as [-> Hlt].
      { assert (seq 0 NBUF !! length dn = Some x) as Hx
          by (rewrite Hsq, lookup_app_r, Nat.sub_diag by lia; done).
        apply lookup_seq in Hx. lia. }
      rewrite length_app, Nat.add_1_r. destruct (lookup_lt_is_Some_2 l (length dn)) as [a Ha]; [lia|].
      by apply (binit_step _ l s1 a).
    - intros s1. by rewrite length_seq. }
  destruct u. exists s'. destruct HI as [_ B2 B3 B4 B5]. split; [done|]. split; [|done]. split.
  - split; [done|apply reverse_Permutation|done].
  - intros i b [Hi Hb]. destruct (B5 i b Hb Hi) as (D1 & D2 & D3 & D4 & _).
    split; [rewrite D2; lia|done|by left].
  - intros i j b c x [Hi Hb] _ [Hd _]%is_block_spec. destruct (B5 i b Hb Hi) as (D1 & _). by rewrite D1 in Hd.
  - intros i j b c [Hi Hb] [Hj Hc] Eq. destruct (B5 i b Hb Hi) as (_ & _ & _ & _ & D).
    destruct (B5 j c Hc Hj) as (_ & _ & _ & _ & D'). specialize (D Hi). specialize (D' Hj).
    rewrite Eq in D. eapply NoDup_lookup; [apply (free_nodup _ _ HF)|exact D|exact D'].
Qed.

(** ** The operations *)

(** C35. [bread] returns the block's current contents, cached or not: when the
    block is not locked and there is a buffer for it, [bread] terminates with a
    buffer, locked by this process, whose data is the block's contents; no
    other process's view of any block changes, and nothing is written. *)
Theorem bread_returns_block s l p pr bno bytes :
  bio_inv s l -> running p pr s -> k_held s = [] ->
  bview s bno = Some bytes -> blocked s bno = None -> refs s bno + 1 < 2 ^ 32 ->
  (refs s bno = 0 -> (0 < nfree s)%nat) ->
  exists i s', bread ROOTDEV bno s = Ok i s' /\ bdata_get i s' = Ok bytes s' /\ bio_inv s' l /\
    blocked s' bno = Some (p_pid pr) /\ refs s' bno = refs s bno + 1 /\
    (forall x, bview s' x = bview s x) /\ k_disk s' = k_disk s /\ k_dwrites s' = k_dwrites s.
Proof.
  intros HI HR HH Hv Hb Hr Hroom.
  destruct (bread_ok s l p pr HI HR HH bno bytes Hv Hb Hr Hroom) as (i & s' & E & P).
  exists i, s'. destruct P as [I C D W _ _ V R B _ _].
  assert (blocked s' bno = Some (p_pid pr)) as Bb by (by rewrite B, bool_decide_true).
  split_and!; try done.
  - eapply (bdata_get_ok s' l pr I bno i C Bb). by rewrite V.
  - by rewrite R, bool_decide_true.
Qed.

(** [bget] recycles the least recently used free buffer: when the block is
    not cached, the buffer it takes is unreferenced and every buffer used less
    recently than it is referenced. *)
Theorem bget_takes_lru s l p pr bno :
  bio_inv s l -> running p pr s -> k_held s = [] -> cached s bno = None -> (0 < nfree s)%nat ->
  exists i s' l1 l2 b, bget ROOTDEV bno s = Ok i s' /\ l = l1 ++ i :: l2 /\
    k_bcache s !! i = Some b /\ b_refcnt b = 0 /\
    (forall j c, j ∈ l2 -> k_bcache s !! j = Some c -> b_refcnt c <> 0).
Proof.
  intros HI HR HH Hc Hn. destruct (nfree_find _ _ HI Hn) as (i & b & Hf & Hb & Hr).
  destruct (find_split _ _ _ Hf) as (k1 & k2 & Hl & Hk).
  eexists i, _, (reverse k2), (reverse k1), b. split; [by eapply bget_miss|]. split_and!.
  - apply (f_equal reverse) in Hl. rewrite reverse_involutive, reverse_app, reverse_cons in Hl.
    rewrite Hl, <- app_assoc. done.
  - apply Hb.
  - done.
  - intros j c Hj Hcj. rewrite elem_of_reverse in Hj. specialize (Hk j Hj). unfold bufP in Hk.
    rewrite Hcj in Hk. unfold is_free in Hk. by zbool.
Qed.

(** [bget] panics when every buffer is referenced and the block is not
    cached: the cache never gives away a buffer in use. *)
Theorem bget_no_buffers s l bno :
  bio_inv s l -> k_held s = [] -> cached s bno = None ->
  (forall i b, (i < NBUF)%nat -> k_bcache s !! i = Some b -> b_refcnt b <> 0) ->
  bget ROOTDEV bno s = Panic "bget: no buffers".
Proof.
  intros HI HH Hc Hall. eapply bget_full; [done..|].
  destruct (List.find _ (reverse l)) as [i|] eqn:E; [|done]. exfalso.
  apply List.find_some in E as [Hi Hf]. apply list_elem_of_In in Hi. rewrite elem_of_reverse in Hi.
  apply (lru_elem _ _ _ (bi_lru _ _ HI)) in Hi. unfold bufP in Hf.
  destruct (k_bcache s !! i) as [b|] eqn:Eb; [|done]. unfold is_free in Hf. zbool. by apply (Hall i b).
Qed.

(** [brelse] makes the buffer the most recently used one when its last
    reference goes, and otherwise leaves the list alone; the block is unlocked
    and no view changes.  (Its hypothesis: the last reference to a block is
    dropped only when the disk has its contents.) *)
Theorem brelse_moves_to_front s l p pr bno i :
  bio_inv s l -> running p pr s -> k_held s = [] -> cached s bno = Some i ->
  blocked s bno = Some (p_pid pr) -> (refs s bno = 1 -> k_disk s !! bno = bview s bno) ->
  exists s', brelse i s = Ok tt s' /\
    bio_inv s' (if refs s bno =? 1 then i :: filter (fun j => j <> i) l else l) /\
    blocked s' bno = None /\ refs s' bno = refs s bno - 1 /\ (forall x, bview s' x = bview s x).
Proof.
  intros HI HR HH Hc Hb Hcl. destruct (brelse_ok s l p pr HI HR HH bno i Hc Hb Hcl) as (s' & E & P).
  exists s'. destruct P as [I _ _ _ _ V R B _ _]. split_and!; try done.
  - by rewrite B, bool_decide_true.
  - by rewrite R, bool_decide_true.
Qed.

(** [bwrite] makes the disk agree with the cached contents of exactly one
    block, by exactly one disk write. *)
Theorem bwrite_persists s l p pr bno i bytes :
  bio_inv s l -> running p pr s -> k_held s = [] -> cached s bno = Some i ->
  blocked s bno = Some (p_pid pr) -> bview s bno = Some bytes -> is_Some (k_disk s !! bno) ->
  exists s', bwrite i s = Ok tt s' /\ bio_inv s' l /\ k_disk s' = <[bno := bytes]> (k_disk s) /\
    k_dwrites s' = k_dwrites s ++ [(bno, bytes)] /\ (forall x, bview s' x = bview s x).
Proof.
  intros HI HR HH Hc Hb Hv Hd.
  destruct (bwrite_ok s l p pr HI HR HH bno i Hc Hb bytes Hv Hd) as (s' & E & P).
  exists s'. by destruct P.
Qed.

End BioProps.
