(* ===== verification/Log.v ===== *)
(** * The write-ahead log ([log.c])

    [k_log] is [struct log]; the header is [l_n] and [l_block] ([LOGBLOCKS]
    entries), encoded in the block at [l_start] as 32-bit little-endian words:
    word 0 is [n], word [i+1] is [block[i]]. *)

From S2P Require Import Prelude Monad CString Types Kernel Kalloc Uart Printf Bio.
From stdpp Require Import base numbers list gmap strings.
From Stdlib Require Import ZArith Lia.

Open Scope Z_scope.

(** the [i]-th 32-bit word of a byte array, as [uint] and as [int] *)
Definition word_at (bytes : list Z) (i : Z) : Z := le_value (slice (Z.to_nat (4 * i)) 4 bytes).
Definition int_at (bytes : list Z) (i : Z) : Z := s32 (word_at bytes i).
Definition put_word (i : Z) (v : Z) (bytes : list Z) : list Z :=
  splice (Z.to_nat (4 * i)) (le_bytes 4 v) bytes.

Definition upd_log (f : logstate -> logstate) : K unit := modify (set_k_log f).
Definition get_log : K logstate := gets k_log.

(** [log.lh.block[i]]; reading outside the array has no meaning *)
Definition lh_block (i : Z) : K Z :=
  deref (fun s => if 0 <=? i then l_block (k_log s) !! Z.to_nat i else None).

Definition recovering_msg : list Z := chars "recovering tail %d dst %d" ++ [10].

Definition install_trans (recovering : bool) : K unit :=
  l0 ← get_log;
  for_each (seqZ 0 (l_n l0)) (fun tail =>
    when recovering (
      dst ← lh_block tail;
      kprintf recovering_msg [ANum tail; ANum dst]);;
    l ← get_log;
    lbuf ← bread (l_dev l) (u32 (l_start l + tail + 1));
    blk ← lh_block tail;
    dbuf ← bread (l_dev l) (u32 blk);
    src ← bdata_get lbuf;
    bdata_upd dbuf (fun _ => src);;
    bwrite dbuf;;
    when (negb recovering) (bunpin dbuf);;
    brelse lbuf;;
    brelse dbuf).

Definition read_head : K unit :=
  l ← get_log;
  b ← bread (l_dev l) (u32 (l_start l));
  bytes ← bdata_get b;
  upd_log (set_l_n (fun _ => int_at bytes 0));;
  l ← get_log;
  for_each (seqZ 0 (l_n l)) (fun i =>
    if i <? LOGBLOCKS
    then upd_log (set_l_block (fun bl => <[Z.to_nat i := int_at bytes (i + 1)]> bl))
    else stuck);;
  brelse b.

Definition write_head : K unit :=
  l ← get_log;
  b ← bread (l_dev l) (u32 (l_start l));
  bdata_upd b (put_word 0 (l_n l));;
  for_each (seqZ 0 (l_n l)) (fun i =>
    blk ← lh_block i;
    bdata_upd b (put_word (i + 1) blk));;
  bwrite b;;
  brelse b.

Definition recover_from_log : K unit :=
  read_head;;
  install_trans true;;
  upd_log (set_l_n (fun _ => 0));;
  write_head.

Definition sizeof_logheader : Z := 4 * (LOGBLOCKS + 1).

Definition initlog (dev : Z) (sb : superblock) : K unit :=
  if BSIZE <=? sizeof_logheader then panic "initlog: too big logheader" else
  upd_log (set_l_start (fun _ => s32 (sb_logstart sb)));;
  upd_log (set_l_dev (fun _ => dev));;
  recover_from_log.

Definition begin_op : K unit :=
  act ← tx_active;
  if (act : bool) then mret tt else
  acquire Llog;;
  loop WAKEUPS (fun _ : unit =>
    l ← get_log;
    if l_committing l then sleep ChLog Llog;; mret (inl tt)
    else if LOGBLOCKS <? l_n l + (l_outstanding l + 1) * MAXOPBLOCKS then
      sleep ChLog Llog;; mret (inl tt)
    else
      upd_log (set_l_outstanding (fun n => n + 1));;
      release Llog;;
      mret (inr tt)) tt.

Definition write_log : K unit :=
  l0 ← get_log;
  for_each (seqZ 0 (l_n l0)) (fun tail =>
    l ← get_log;
    to ← bread (l_dev l) (u32 (l_start l + tail + 1));
    blk ← lh_block tail;
    from ← bread (l_dev l) (u32 blk);
    src ← bdata_get from;
    bdata_upd to (fun _ => src);;
    bwrite to;;
    brelse from;;
    brelse to).

Definition commit : K unit :=
  l ← get_log;
  when (0 <? l_n l)
    (write_log;;
     write_head;;
     install_trans false;;
     upd_log (set_l_n (fun _ => 0));;
     write_head).

Definition end_op : K unit :=
  act ← tx_active;
  if (act : bool) then mret tt else
  acquire Llog;;
  upd_log (set_l_outstanding (fun n => n - 1));;
  l ← get_log;
  if l_committing l then panic "log.committing" else
  (if l_outstanding l =? 0
   then upd_log (set_l_committing (fun _ => true))
   else wakeup ChLog);;
  release Llog;;
  when (l_outstanding l =? 0)
    (commit;;
     acquire Llog;;
     upd_log (set_l_committing (fun _ => false));;
     wakeup ChLog;;
     release Llog).

Definition log_write (b : nat) : K unit :=
  act ← tx_active;
  if (act : bool) then mret tt else
  acquire Llog;;
  l ← get_log;
  if LOGBLOCKS <=? l_n l then panic "too big a transaction" else
  if l_outstanding l <? 1 then panic "log_write outside of trans" else
  bb ← get_buf b;
  r ← for_find (seqZ 0 (l_n l)) (fun i =>
    blk ← lh_block i;
    mret (if u32 blk =? b_blockno bb then Some i else None));
  let i := default (l_n l) r in
  upd_log (set_l_block (fun bl => <[Z.to_nat i := s32 (b_blockno bb)]> bl));;
  when (i =? l_n l)
    (bpin b;; upd_log (set_l_n (fun n => n + 1)));;
  release Llog.
