(* ===== verification/LogSpace.v ===== *)
(** * The log never runs out of space

    [begin_op] admits an operation only when the log has room for everything
    the admitted operations may still write.  The invariant counts, for every
    outstanding operation, the blocks it has added to the log. *)

From S2P Require Import Prelude Monad Types Kernel Kalloc Uart Printf Bio Log.
From stdpp Require Import base numbers list gmap strings.
From Stdlib Require Import ZArith Lia.

Open Scope Z_scope.

(** ** Runs with waiting

    A thread that waits is resumed in a state other threads have left; what it
    does between two waits is a segment.  [segs Q s r]: every segment of the
    run [r] that returns, from the state in which it began to the one in which
    it returned, has [Q]; [s] is the beginning of the current segment. *)

Fixpoint segs {A} (Q : kst -> A -> kst -> Prop) (s : kst) (r : res kst A) : Prop :=
  match r with
  | Ok a s' => Q s a s'
  | Block _ _ k => forall s2, segs Q s2 (k s2)
  | _ => True
  end.

Lemma segs_mono {A} (Q Q' : kst -> A -> kst -> Prop) s r :
  (forall s a s', Q s a s' -> Q' s a s') -> segs Q s r -> segs Q' s r.
Proof. intros H. revert s. induction r; simpl; auto. Qed.

Lemma segs_bind {A B} (m : K A) (f : A -> K B) Q s0 s :
  segs (fun s0 a s' => segs Q s0 (f a s')) s0 (m s) -> segs Q s0 ((m ≫= f) s).
Proof. unfold mbind, ST_bind. generalize (m s). intros r. revert s0. induction r; simpl; auto. Qed.

(** a run that began in [s] gives the result [r]; its last segment went from
    [sl] to the return in [s'] *)
Inductive ends {A} : kst -> res kst A -> kst -> A -> kst -> Prop :=
| ends_ok s a s' : ends s (Ok a s') s a s'
| ends_block s ch s1 k s2 sl a s' : ends s2 (k s2) sl a s' -> ends s (Block ch s1 k) sl a s'.

Lemma segs_ends {A} (Q : kst -> A -> kst -> Prop) s r sl a s' :
  segs Q s r -> ends s r sl a s' -> Q sl a s'.
Proof. intros H E. induction E; simpl in H; auto. Qed.

(** ** Code that leaves the log header alone

    [KeepsLog m]: in each segment of [m] the in-memory log stays as it was. *)

Class KeepsLog {A} (m : K A) : Prop :=
  keeps_log s0 s : k_log s = k_log s0 -> segs (fun s0 _ s' => k_log s' = k_log s0) s0 (m s).

Lemma keeps_run {A} (m : K A) s a s' : KeepsLog m -> m s = Ok a s' -> k_log s' = k_log s.
Proof. intros Hm E. specialize (Hm s s eq_refl). by rewrite E in Hm. Qed.

#[export] Instance keeps_ret {A} (a : A) : KeepsLog (mret a).
Proof. by intros s0 s H. Qed.

#[export] Instance keeps_bind {A B} (m : K A) (f : A -> K B) :
  KeepsLog m -> (forall a, KeepsLog (f a)) -> KeepsLog (m ≫= f).
Proof.
  intros Hm Hf s0 s H. apply segs_bind. eapply segs_mono; [|by apply Hm].
  intros s1 a s' E. by apply Hf.
Qed.

#[export] Instance keeps_gets {A} (f : kst -> A) : KeepsLog (gets f).
Proof. by intros s0 s H. Qed.

#[export] Instance keeps_deref {A} (f : kst -> option A) : KeepsLog (deref f).
Proof. intros s0 s H. unfold deref. by destruct (f s). Qed.

#[export] Instance keeps_panic {A} msg : KeepsLog (@panic kst A msg).
Proof. by intros s0 s H. Qed.

#[export] Instance keeps_stuck {A} : KeepsLog (@stuck kst A).
Proof. by intros s0 s H. Qed.

#[export] Instance keeps_if {A} (c : bool) (m1 m2 : K A) :
  KeepsLog m1 -> KeepsLog m2 -> KeepsLog (if c then m1 else m2).
Proof. by destruct c. Qed.

#[export] Instance keeps_when (c : bool) (m : K unit) : KeepsLog m -> KeepsLog (when c m).
Proof. intros H. unfold when. apply _. Qed.

#[export] Instance keeps_option {A B} (o : option A) (f : A -> K B) (m : K B) :
  (forall a, KeepsLog (f a)) -> KeepsLog m ->
  KeepsLog (match o with Some a => f a | None => m end).
Proof. by destruct o. Qed.

#[export] Instance keeps_for_each {X} (l : list X) (f : X -> K unit) :
  (forall x, KeepsLog (f x)) -> KeepsLog (for_each l f).
Proof. intros H. induction l; simpl; apply _. Qed.

#[export] Instance keeps_for_find {X R} (l : list X) (f : X -> K (option R)) :
  (forall x, KeepsLog (f x)) -> KeepsLog (for_find l f).
Proof. intros H. induction l; simpl; apply _. Qed.

#[export] Instance keeps_loop {X R} n (body : X -> K (X + R)) x :
  (forall x, KeepsLog (body x)) -> KeepsLog (loop n body x).
Proof.
  intros H. revert x. induction n as [|n IH]; intros x; simpl; [apply _|].
  apply keeps_bind; [apply H|]. intros [x'|v]; [apply IH|apply _].
Qed.

Lemma keeps_modify f : (forall s, k_log (f s) = k_log s) -> KeepsLog (modify f).
Proof. intros H s0 s E. simpl. by rewrite H. Qed.

#[export] Hint Extern 1 (KeepsLog (modify _)) =>
  apply keeps_modify; intros; reflexivity : typeclass_instances.

#[export] Instance keeps_sched ch : KeepsLog (sched ch).
Proof.
  unfold sched, holding. kunfold.
  repeat (apply keeps_bind; [apply _|intros ?]; try (apply keeps_if; [apply _|])).
  by intros s0 s H s2.
Qed.

(** functions below the log; the search for an instance does not unfold them *)
#[local] Typeclasses Opaque acquire release sleep wakeup acquiresleep releasesleep holdingsleep
  bscan disk_rw bget bread bwrite brelse bpin bunpin mmio_read kprintf write_log write_head
  install_trans.
Ltac keeps := intros; unfold acquire, release, holding; kunfold; apply _.

#[export] Instance keeps_acquire l : KeepsLog (acquire l). Proof. keeps. Qed.
#[export] Instance keeps_release l : KeepsLog (release l). Proof. keeps. Qed.
#[export] Instance keeps_sleep ch lk : KeepsLog (sleep ch lk). Proof. unfold sleep. keeps. Qed.
#[export] Instance keeps_wakeup ch : KeepsLog (wakeup ch).
Proof. unfold wakeup, wakeup_one. keeps. Qed.

Lemma k_log_set_slock o f s : k_log (set_slock o f s) = k_log s.
Proof. by destruct o. Qed.

#[export] Hint Extern 2 (KeepsLog (modify _)) =>
  apply keeps_modify; intros; apply k_log_set_slock : typeclass_instances.

#[export] Instance keeps_acquiresleep `{Layout} o : KeepsLog (acquiresleep o).
Proof. unfold acquiresleep, get_slock, upd_slock. keeps. Qed.
#[export] Instance keeps_releasesleep `{Layout} o : KeepsLog (releasesleep o).
Proof. unfold releasesleep, get_slock, upd_slock. keeps. Qed.
#[export] Instance keeps_holdingsleep `{Layout} o : KeepsLog (holdingsleep o).
Proof. unfold holdingsleep, get_slock, upd_slock. keeps. Qed.
#[export] Instance keeps_bscan `{Layout} next test i : KeepsLog (bscan next test i).
Proof. unfold bscan. keeps. Qed.
#[export] Instance keeps_disk_rw `{Layout} b w : KeepsLog (disk_rw b w).
Proof. unfold disk_rw. keeps. Qed.
#[export] Instance keeps_bget `{Layout} dev bno : KeepsLog (bget dev bno).
Proof. unfold bget. keeps. Qed.
#[export] Instance keeps_bread `{Layout} dev bno : KeepsLog (bread dev bno).
Proof. unfold bread. keeps. Qed.
#[export] Instance keeps_bwrite `{Layout} b : KeepsLog (bwrite b).
Proof. unfold bwrite. keeps. Qed.
#[export] Instance keeps_brelse `{Layout} b : KeepsLog (brelse b).
Proof. unfold brelse. keeps. Qed.
#[export] Instance keeps_bpin `{Layout} b : KeepsLog (bpin b).
Proof. unfold bpin. keeps. Qed.
#[export] Instance keeps_bunpin `{Layout} b : KeepsLog (bunpin b).
Proof. unfold bunpin. keeps. Qed.
#[export] Instance keeps_mmio_read addr : KeepsLog (mmio_read addr).
Proof. intros s0 s H. unfold mmio_read. by destruct (v_in (k_dev s)). Qed.
#[export] Instance keeps_kprintf fmt ap : KeepsLog (kprintf fmt ap).
Proof.
  unfold kprintf, consputc, uartputc_sync, ReadReg, WriteReg, mmio_write, mmio_fuel, upd_dev. keeps.
Qed.
#[export] Instance keeps_write_log `{Layout} : KeepsLog write_log.
Proof. unfold write_log, get_log, lh_block, bdata_get, bdata_upd, upd_buf_data. keeps. Qed.
#[export] Instance keeps_write_head `{Layout} : KeepsLog write_head.
Proof. unfold write_head, get_log, lh_block, bdata_get, bdata_upd, upd_buf_data. keeps. Qed.
#[export] Instance keeps_install_trans `{Layout} r : KeepsLog (install_trans r).
Proof. unfold install_trans, get_log, lh_block, bdata_get, bdata_upd, upd_buf_data. keeps. Qed.

Section Space.
Context {L : Layout}.

(** [begin_op] returns only from a segment that found room *)
Definition admitted (sl s' : kst) : Prop :=
  l_committing (k_log sl) = false /\
  l_n (k_log sl) + (l_outstanding (k_log sl) + 1) * MAXOPBLOCKS <= LOGBLOCKS /\
  k_log s' = set_l_outstanding (fun n => n + 1) (k_log sl).

Notation begin_loop n := (loop n (fun _ : unit =>
    l ← get_log;
    if l_committing l then sleep ChLog Llog;; mret (inl tt)
    else if LOGBLOCKS <? l_n l + (l_outstanding l + 1) * MAXOPBLOCKS then
      sleep ChLog Llog;; mret (inl tt)
    else
      upd_log (set_l_outstanding (fun n => n + 1));;
      release Llog;;
      mret (inr tt)) tt).

Lemma begin_loop_segs n s0 s :
  k_log s = k_log s0 -> segs (fun sl _ s' => admitted sl s') s0 (begin_loop n s).
Proof.
  revert s0 s. induction n as [|n IH]; intros s0 s E; [done|]. cbn [loop].
  assert (Hwait : segs (fun s1 r s2 => match r with inl _ => k_log s2 = k_log s1 | inr _ => False end) s0
    ((sleep ChLog Llog;; mret (inl tt) : K (unit + unit)) s)).
  { apply segs_bind. eapply segs_mono; [|by apply keeps_sleep]. by intros s1 [] s2 H. }
  apply segs_bind, segs_bind. cbn [segs get_log gets].
  destruct (l_committing (k_log s)) eqn:Ec.
  { eapply segs_mono; [|exact Hwait]. intros s1 [[]|[]] s2 H; [by apply IH|done]. }
  destruct (LOGBLOCKS <? _) eqn:El.
  { eapply segs_mono; [|exact Hwait]. intros s1 [[]|[]] s2 H; [by apply IH|done]. }
  zbool. apply segs_bind. cbn [segs upd_log modify]. apply segs_bind.
  unfold release, holding. apply segs_bind. cbn [segs gets].
  destruct (bool_decide _); [|done]. cbn. rewrite E in Ec, El. split_and!; [done|lia|].
  cbn. by rewrite E.
Qed.

Lemma begin_op_admits s sl s' :
  tx_active s = Ok false s -> ends s (begin_op s) sl tt s' -> admitted sl s'.
Proof.
  intros Hno. apply (segs_ends (fun sl _ s' => admitted sl s')). unfold begin_op.
  erewrite bind_ok by exact Hno. apply segs_bind. eapply segs_mono; [|by apply keeps_acquire].
  intros s1 a s2 E. by apply begin_loop_segs.
Qed.

(** ** What the other calls do to the log header *)

(** from a call that returned, to the log being as before *)
Ltac keep E :=
  match type of E with
  | ?m ?s = Ok ?a ?s' =>
      let H := fresh in assert (H : KeepsLog m) by apply _; apply (keeps_run m s a s' H) in E; clear H
  end.

Lemma log_write_effect b s s' :
  tx_active s = Ok false s -> log_write b s = Ok tt s' ->
  (l_n (k_log s') = l_n (k_log s) \/ l_n (k_log s') = l_n (k_log s) + 1) /\
  l_outstanding (k_log s') = l_outstanding (k_log s) /\
  l_committing (k_log s') = l_committing (k_log s) /\
  length (l_block (k_log s')) = length (l_block (k_log s)).
Proof.
  intros Hno H. unfold log_write in H. erewrite bind_ok in H by exact Hno.
  apply bind_inv in H as ([] & s1 & E1 & H). keep E1.
  unfold get_log in H. erewrite bind_ok in H by reflexivity.
  destruct (LOGBLOCKS <=? _); [done|]. destruct (_ <? 1); [done|].
  apply bind_inv in H as (bb & s2 & E2 & H). unfold get_buf in E2. keep E2.
  apply bind_inv in H as (r & s3 & E3 & H). unfold lh_block in E3. keep E3.
  cbv zeta in H. erewrite bind_ok in H by reflexivity.
  apply bind_inv in H as ([] & s4 & E4 & H). keep H. rewrite H. clear H.
  destruct (default _ r =? _); cbn [when] in E4.
  - apply bind_inv in E4 as ([] & s5 & E5 & E4). keep E5.
    unfold upd_log in E4. injection E4 as <-. cbn. rewrite E5. cbn. rewrite length_insert, E3, E2, E1. auto.
  - injection E4 as <-. cbn. rewrite length_insert, E3, E2, E1. auto.
Qed.

(** the arguments of a call of [log_write] *)
Record writable (b : nat) (s : kst) : Prop := {
  wb_tx : tx_active s = Ok false s;
  wb_log : Llog ∉ k_held s;
  wb_cache : Lbcache ∉ k_held s;
  wb_buf : is_Some (k_bcache s !! b);
}.

(** with room in the header and an open operation [log_write] returns *)
Lemma log_write_returns b s :
  writable b s -> length (l_block (k_log s)) = Z.to_nat LOGBLOCKS ->
  0 <= l_n (k_log s) < LOGBLOCKS -> 1 <= l_outstanding (k_log s) -> exists s', log_write b s = Ok tt s'.
Proof.
  intros [W1 W2 W3 [bb W4]] Hlen Hn Ho.
  assert (wp (log_write b) s (fun _ _ => True)) as (u & s' & E & _)%wp_ok; [|destruct u; by exists s'].
  unfold log_write. apply wp_bind. eapply wp_run; [exact W1|]. cbn iota.
  apply wp_bind, wp_acquire; [done|]. apply wp_bind, wp_gets. ksimpl.
  rewrite (proj2 (Z.leb_gt _ _)), (proj2 (Z.ltb_ge _ _)) by lia.
  apply wp_bind. unfold get_buf. eapply wp_deref; [exact W4|]. apply wp_bind.
  eapply wp_run; [apply (for_find_pure _ _ (fun i => if u32 (nth (Z.to_nat i) (l_block (k_log s)) 0) =? b_blockno bb then Some i else None))|].
  { intros i Hi%elem_of_seqZ. unfold lh_block. ksimpl.
    destruct (lookup_lt_is_Some_2 (l_block (k_log s)) (Z.to_nat i)) as [x Hx]; [lia|].
    erewrite bind_ok by (unfold deref; ksimpl; by rewrite (proj2 (Z.leb_le 0 i)), Hx by lia).
    by rewrite (nth_lookup_Some _ _ _ _ Hx). }
  cbv zeta. apply wp_bind, wp_modify, wp_bind. unfold when. destruct (_ =? _).
  - unfold bpin. apply wp_bind, wp_bind, wp_acquire; [ksimpl; by apply not_elem_of_cons|].
    apply wp_bind, wp_modify. eapply wp_release; [by ksimpl|]. apply wp_modify. by eapply wp_release.
  - apply wp_ret. by eapply wp_release.
Qed.

(** a full header is found out before the search for the block *)
Lemma log_write_full b s :
  writable b s -> l_n (k_log s) = LOGBLOCKS -> log_write b s = Panic "too big a transaction".
Proof.
  intros [W1 W2 W3 W4] Hn. unfold log_write. erewrite bind_ok by exact W1. cbn iota.
  erewrite bind_ok by (by apply acquire_ok). erewrite bind_ok by reflexivity. ksimpl. by rewrite Hn.
Qed.

Lemma commit_effect s s' :
  commit s = Ok tt s' ->
  k_log s' = if 0 <? l_n (k_log s) then set_l_n (fun _ => 0) (k_log s) else k_log s.
Proof.
  intros H. unfold commit, get_log in H. erewrite bind_ok in H by reflexivity.
  destruct (0 <? l_n (k_log s)); cbn [when] in H; [|by injection H as <-].
  apply bind_inv in H as ([] & s1 & E1 & H). keep E1.
  apply bind_inv in H as ([] & s2 & E2 & H). keep E2.
  apply bind_inv in H as ([] & s3 & E3 & H). keep E3.
  unfold upd_log in H. erewrite bind_ok in H by reflexivity. keep H.
  rewrite H. cbn. by rewrite E3, E2, E1.
Qed.

Lemma end_op_effect s s' :
  tx_active s = Ok false s -> end_op s = Ok tt s' ->
  l_committing (k_log s) = false /\ l_committing (k_log s') = false /\
  l_outstanding (k_log s') = l_outstanding (k_log s) - 1 /\
  l_n (k_log s') = (if (l_outstanding (k_log s) =? 1) && (0 <? l_n (k_log s)) then 0 else l_n (k_log s)) /\
  l_block (k_log s') = l_block (k_log s).
Proof.
  intros Hno H. unfold end_op in H. erewrite bind_ok in H by exact Hno.
  apply bind_inv in H as ([] & s1 & E1 & H). keep E1.
  unfold upd_log, get_log in H. do 2 (erewrite bind_ok in H by reflexivity).
  cbn -[wakeup commit acquire release] in H.
  rewrite E1 in H. destruct (l_committing (k_log s)) eqn:Ec; [done|]. split; [done|].
  assert (Eo : (l_outstanding (k_log s) - 1 =? 0) = (l_outstanding (k_log s) =? 1)).
  { destruct (_ =? 0) eqn:A, (_ =? 1) eqn:B; zbool; (done || lia). }
  rewrite Eo in H. destruct (l_outstanding (k_log s) =? 1) eqn:E.
  - erewrite bind_ok in H by reflexivity.
    apply bind_inv in H as ([] & s2 & E2 & H). keep E2. cbn [when] in H.
    apply bind_inv in H as ([] & s3 & E3 & H). apply commit_effect in E3.
    apply bind_inv in H as ([] & s4 & E4 & H). keep E4.
    erewrite bind_ok in H by reflexivity.
    apply bind_inv in H as ([] & s5 & E5 & H). keep E5.
    keep H. rewrite H, E5. cbn. rewrite E4, E3, E2. cbn. rewrite E1.
    cbn [andb]. destruct (0 <? l_n (k_log s)); cbn; auto.
  - apply bind_inv in H as ([] & s2 & E2 & H). keep E2.
    apply bind_inv in H as ([] & s3 & E3 & H). keep E3.
    cbn [when] in H. injection H as <-. rewrite E3, E2. cbn. rewrite E1. auto.
Qed.

(** ** Operations on the log *)

(** A step of some process; the list gives, for each outstanding operation, the
    number of blocks it has added to the log.  An operation logs at most
    [MAXOPBLOCKS] different blocks: the bound the file system is written to
    respect.  Everything else the kernel does leaves the log alone. *)
Inductive log_step : kst * list Z -> kst * list Z -> Prop :=
| step_begin s sl s' ws :
    tx_active s = Ok false s -> ends s (begin_op s) sl tt s' ->
    log_step (sl, ws) (s', 0 :: ws)
| step_write s s' b ws1 w ws2 :
    tx_active s = Ok false s -> log_write b s = Ok tt s' ->
    w + (l_n (k_log s') - l_n (k_log s)) <= MAXOPBLOCKS ->
    log_step (s, ws1 ++ w :: ws2) (s', ws1 ++ (w + (l_n (k_log s') - l_n (k_log s))) :: ws2)
| step_end s s' ws1 w ws2 :
    tx_active s = Ok false s -> end_op s = Ok tt s' ->
    log_step (s, ws1 ++ w :: ws2) (s', ws1 ++ ws2)
| step_other s s' ws :
    k_log s' = k_log s -> log_step (s, ws) (s', ws).

(** what the outstanding operations may still write *)
Definition reserved (ws : list Z) : Z := foldr (fun w n => MAXOPBLOCKS - w + n) 0 ws.

Record log_space (c : kst * list Z) : Prop := {
  sp_committing : l_committing (k_log c.1) = false;
  sp_outstanding : l_outstanding (k_log c.1) = Z.of_nat (length c.2);
  sp_n : 0 <= l_n (k_log c.1);
  sp_len : length (l_block (k_log c.1)) = Z.to_nat LOGBLOCKS;
  sp_used : Forall (fun w => 0 <= w <= MAXOPBLOCKS) c.2;
  sp_room : l_n (k_log c.1) + reserved c.2 <= LOGBLOCKS
}.

Lemma reserved_app ws1 ws2 : reserved (ws1 ++ ws2) = reserved ws1 + reserved ws2.
Proof. induction ws1 as [|w ws1 IH]; simpl; [done|]. rewrite IH. lia. Qed.

Lemma reserved_bounds ws :
  Forall (fun w => 0 <= w <= MAXOPBLOCKS) ws ->
  0 <= reserved ws <= Z.of_nat (length ws) * MAXOPBLOCKS.
Proof. induction 1 as [|w ws Hw Hws IH]; simpl in *; lia. Qed.

Lemma log_step_space c c' : log_space c -> log_step c c' -> log_space c'.
Proof.
  intros [H1 H2 H3 H6 H4 H5] Hstep. destruct Hstep as [s sl s' ws Hno He|s s' b ws1 w ws2 Hno Hw Hmax|s s' ws1 w ws2 Hno He|s s' ws E]; simpl in *.
  - destruct (begin_op_admits _ _ _ Hno He) as (_ & Hroom & El).
    pose proof (reserved_bounds _ H4). split; simpl; rewrite ?El; cbn; try done; [lia| |].
    + constructor; [unfold MAXOPBLOCKS; lia|done].
    + rewrite H2 in Hroom. lia.
  - destruct (log_write_effect _ _ _ Hno Hw) as (Hn & Ho & Hc & Hb).
    rewrite length_app in H2. simpl in H2. rewrite reserved_app in H5. simpl in H5.
    apply Forall_app in H4 as [H4 H4']. apply Forall_cons in H4' as [Hw4 H4'].
    split; simpl; [congruence| |lia|congruence| |].
    + rewrite Ho, H2, length_app. done.
    + apply Forall_app. split; [done|]. constructor; [lia|done].
    + rewrite reserved_app. simpl. lia.
  - destruct (end_op_effect _ _ Hno He) as (_ & Hc & Ho & Hn & Hb).
    rewrite length_app in H2. simpl in H2. rewrite reserved_app in H5. simpl in H5.
    apply Forall_app in H4 as [H4 H4']. apply Forall_cons in H4' as [Hw4 H4'].
    assert (Hnn : l_n (k_log s') = 0 \/ l_n (k_log s') = l_n (k_log s)) by (rewrite Hn; case_match; auto).
    assert (H4'' : Forall (fun w => 0 <= w <= MAXOPBLOCKS) (ws1 ++ ws2)) by (by apply Forall_app).
    split; simpl; [done| |lia|congruence|done|].
    + rewrite Ho, H2, length_app. lia.
    + rewrite reserved_app. lia.
  - split; simpl; rewrite ?E; done.
Qed.

(** no operation is under way and nothing is logged *)
Definition log_fresh (s : kst) : Prop :=
  l_n (k_log s) = 0 /\ l_outstanding (k_log s) = 0 /\ l_committing (k_log s) = false /\
  length (l_block (k_log s)) = Z.to_nat LOGBLOCKS.

(** C13. The log never overflows.  From an empty log, through any sequence of
    [begin_op], [log_write] and [end_op] by any number of processes in which no
    operation adds more than [MAXOPBLOCKS] blocks, and including calls of
    [begin_op] that had to wait, the header never holds more than [LOGBLOCKS]
    blocks.  While some operation has not used up its share, [log_write]
    returns, for any buffer.  When all operations have used up theirs and the
    header is full, [log_write] panics, also for a block that is in the log
    already and would need no room. *)
Theorem log_never_overflows s0 s ws :
  log_fresh s0 ->
  rtc log_step (s0, []) (s, ws) ->
  l_n (k_log s) <= LOGBLOCKS /\ l_outstanding (k_log s) = Z.of_nat (length ws) /\
  forall b, writable b s ->
    (forall w, In w ws -> w < MAXOPBLOCKS -> exists s', log_write b s = Ok tt s') /\
    (l_n (k_log s) = LOGBLOCKS -> log_write b s = Panic "too big a transaction").
Proof.
  intros (Hn & Ho & Hc & Hb) Hrun.
  assert (Hinv : log_space (s, ws)).
  { assert (Hi : log_space (s0, [])).
    { split; simpl; rewrite ?Hn, ?Ho, ?Hc; unfold LOGBLOCKS, MAXOPBLOCKS; simpl; (done || lia || constructor). }
    revert Hi. generalize dependent (s0, @nil Z). intros c Hrun. generalize dependent (s, ws).
    intros c' Hrun. induction Hrun; eauto using log_step_space. }
  destruct Hinv as [_ H2 H3 H6 H4 H5]. simpl in *. pose proof (reserved_bounds _ H4).
  split_and!; [lia|done|]. intros b Hwb. split; [|by apply log_write_full]. intros w Hin Hw.
  apply in_split in Hin as (ws1 & ws2 & ->). rewrite reserved_app in H5. simpl in H5.
  apply Forall_app in H4 as [Ha Hf]. apply Forall_cons in Hf as [_ Hf].
  pose proof (reserved_bounds _ Ha). pose proof (reserved_bounds _ Hf). rewrite length_app in H2. simpl in H2.
  apply log_write_returns; [done|done|lia|lia].
Qed.
End Space.
