(* ===== verification/LogFacts.v ===== *)
(** * The write-ahead log: what [commit] writes

    The operations of [log.c] are specified on the abstract view of the
    buffer cache: [write_log] writes the modified blocks to the log,
    [write_head] writes the header, [install_trans] writes the blocks home.
    The exact sequence of disk writes is part of the statement, because file
    LogCrash cuts it at an arbitrary point. *)

From S2P Require Import Prelude Monad Types Kernel Kalloc Uart Printf Echo Bio Lru BioFacts Log.
From stdpp Require Import base numbers list gmap strings.
From Stdlib Require Import ZArith Lia.

Open Scope Z_scope.

(** ** Sequences of disk writes *)

Notation writes := (list (Z * list Z)).

Definition apply_writes (W : writes) (d : gmap Z (list Z)) : gmap Z (list Z) :=
  fold_left (fun d w => <[w.1 := w.2]> d) W d.

Definition vapply (W : writes) (v : Z -> option (list Z)) : Z -> option (list Z) :=
  fold_left (fun v w x => if bool_decide (x = w.1) then Some w.2 else v x) W v.

Lemma apply_writes_app W1 W2 d : apply_writes (W1 ++ W2) d = apply_writes W2 (apply_writes W1 d).
Proof. apply fold_left_app. Qed.
Lemma vapply_app W1 W2 v : vapply (W1 ++ W2) v = vapply W2 (vapply W1 v).
Proof. apply fold_left_app. Qed.

Lemma vapply_ext W v v' x : (forall x, v x = v' x) -> vapply W v x = vapply W v' x.
Proof.
  revert v v'. induction W as [|w W IH]; intros v v' H; simpl; [apply H|].
  apply IH. intros y. by rewrite H.
Qed.

Lemma apply_writes_lookup W d x : apply_writes W d !! x = vapply W (fun y => d !! y) x.
Proof.
  revert d. induction W as [|w W IH]; intros d; simpl; [done|]. rewrite IH.
  apply vapply_ext. intros y. case_bool_decide; [subst; by rewrite lookup_insert_eq|].
  by rewrite lookup_insert_ne.
Qed.

Lemma vapply_ne W v x : x ∉ W.*1 -> vapply W v x = v x.
Proof.
  revert v. induction W as [|w W IH]; intros v Hx; simpl; [done|].
  rewrite IH by set_solver. rewrite bool_decide_false; [done|]. set_solver.
Qed.

Lemma vapply_eq W v x bytes :
  (forall w, w ∈ W -> w.1 = x -> w.2 = bytes) -> x ∈ W.*1 -> vapply W v x = Some bytes.
Proof.
  revert v. induction W as [|w W IH]; intros v Hw Hx; [set_solver|]. simpl.
  destruct (decide (x ∈ W.*1)) as [Hin|Hnin]; [apply IH; set_solver|].
  rewrite vapply_ne by done. rewrite bool_decide_true by set_solver.
  f_equal. apply Hw; set_solver.
Qed.

Lemma apply_writes_is_Some W d x : is_Some (d !! x) -> is_Some (apply_writes W d !! x).
Proof.
  revert d. induction W as [|w W IH]; intros d H; simpl; [done|]. apply IH.
  destruct (decide (w.1 = x)) as [->|?]; [by rewrite lookup_insert_eq|by rewrite lookup_insert_ne].
Qed.

(** ** Header blocks *)

Fixpoint put_blocks (k : Z) (bls : list Z) (bytes : list Z) : list Z :=
  match bls with
  | [] => bytes
  | b :: bls => put_blocks (k + 1) bls (put_word k b bytes)
  end.

(** the header block [write_head] makes from the header block it read *)
Definition head_bytes (bls bytes : list Z) : list Z :=
  put_blocks 1 bls (put_word 0 (Z.of_nat (length bls)) bytes).

Lemma put_blocks_snoc k bls b bytes :
  put_blocks k (bls ++ [b]) bytes = put_word (k + Z.of_nat (length bls)) b (put_blocks k bls bytes).
Proof.
  revert k bytes. induction bls as [|c bls IH]; intros k bytes; simpl.
  - by rewrite Z.add_0_r.
  - rewrite IH. f_equal. lia.
Qed.

Lemma length_put_word k v bytes :
  0 <= k -> 4 * k + 4 <= Z.of_nat (length bytes) -> length (put_word k v bytes) = length bytes.
Proof. intros. unfold put_word. apply length_splice. rewrite length_le_bytes. lia. Qed.

Lemma word_put_eq k v bytes :
  0 <= k -> 4 * k + 4 <= Z.of_nat (length bytes) -> word_at (put_word k v bytes) k = u32 v.
Proof.
  intros Hk Hl. unfold word_at, put_word.
  rewrite <- (length_le_bytes 4 v) at 1. rewrite slice_splice_eq by (rewrite length_le_bytes; lia).
  apply le_value_bytes.
Qed.

Lemma word_put_ne k j v bytes :
  0 <= k -> 0 <= j -> j <> k -> 4 * k + 4 <= Z.of_nat (length bytes) ->
  word_at (put_word k v bytes) j = word_at bytes j.
Proof.
  intros Hk Hj Hne Hl. unfold word_at, put_word. f_equal.
  apply slice_splice_ne; rewrite ?length_le_bytes; lia.
Qed.

Lemma length_put_blocks k bls bytes :
  0 <= k -> 4 * (k + Z.of_nat (length bls)) <= Z.of_nat (length bytes) ->
  length (put_blocks k bls bytes) = length bytes.
Proof.
  revert k bytes. induction bls as [|b bls IH]; intros k bytes Hk Hl; simpl in *; [done|].
  rewrite IH, ?length_put_word; rewrite ?length_put_word; lia.
Qed.

Lemma put_blocks_before k bls bytes j :
  0 <= j < k -> 4 * (k + Z.of_nat (length bls)) <= Z.of_nat (length bytes) ->
  word_at (put_blocks k bls bytes) j = word_at bytes j.
Proof.
  revert k bytes. induction bls as [|b bls IH]; intros k bytes Hj Hl; simpl in *; [done|].
  rewrite IH by (rewrite ?length_put_word; lia). apply word_put_ne; lia.
Qed.

Lemma put_blocks_lookup k bls bytes i b :
  0 <= k -> 4 * (k + Z.of_nat (length bls)) <= Z.of_nat (length bytes) -> bls !! i = Some b ->
  word_at (put_blocks k bls bytes) (k + Z.of_nat i) = u32 b.
Proof.
  revert k bytes i. induction bls as [|c bls IH]; intros k bytes [|i] Hk Hl Hb; simplify_eq/=.
  - rewrite Z.add_0_r, put_blocks_before by (rewrite ?length_put_word; lia).
    apply word_put_eq; lia.
  - replace (k + Z.of_nat (S i)) with (k + 1 + Z.of_nat i) by lia.
    apply IH; [lia|rewrite length_put_word; lia|done].
Qed.

Section Header.
Context (bls bytes : list Z) (Hlen : 4 * (1 + Z.of_nat (length bls)) <= Z.of_nat (length bytes)).

Lemma length_head : length (head_bytes bls bytes) = length bytes.
Proof using Hlen. unfold head_bytes. rewrite length_put_blocks, length_put_word; rewrite ?length_put_word; lia. Qed.

Lemma head_n : word_at (head_bytes bls bytes) 0 = u32 (Z.of_nat (length bls)).
Proof using Hlen.
  unfold head_bytes. rewrite put_blocks_before by (rewrite ?length_put_word; lia).
  apply word_put_eq; lia.
Qed.

Lemma head_block i b : bls !! i = Some b -> word_at (head_bytes bls bytes) (1 + Z.of_nat i) = u32 b.
Proof using Hlen.
  intros Hb. apply put_blocks_lookup; [lia|rewrite length_put_word; lia|done].
Qed.

End Header.

(** ** The effect of a piece of log code *)

(** [s'] is [s] after the disk writes [W], as far as the cache can tell;
    no lock is held that was not held before *)
Record clog (s s' : kst) (W : writes) (refs' : Z -> Z) : Prop := {
  cl_inv : exists l, bio_inv s' l;
  cl_frame : cframe s s';
  cl_disk : k_disk s' = apply_writes W (k_disk s);
  cl_dwrites : k_dwrites s' = k_dwrites s ++ W;
  cl_view : forall x, bview s' x = vapply W (bview s) x;
  cl_refs : forall x, refs s' x = refs' x;
  cl_blocked : forall x, blocked s' x = blocked s x;
  cl_nfree : (nfree s <= nfree s')%nat;
}.

(** ** Copying a block to another one *)

(** the buffers [bread] of block [x] takes from the free ones *)
Definition need (s : kst) (x : Z) : nat := if refs s x =? 0 then 1 else 0.

(** the buffers for blocks [x] and [y], both locked by this process *)
Record two_bufs (pid x y : Z) (s : kst) (i j : nat) (s' : kst) : Prop := {
  tb_inv : exists l, bio_inv s' l;
  tb_frame : cframe s s';
  tb_x : cached s' x = Some i;
  tb_y : cached s' y = Some j;
  tb_disk : k_disk s' = k_disk s;
  tb_dwrites : k_dwrites s' = k_dwrites s;
  tb_view : forall z, bview s' z = bview s z;
  tb_refs : forall z, refs s' z =
    refs s z + (if bool_decide (z = x) then 1 else 0) + (if bool_decide (z = y) then 1 else 0);
  tb_blocked : forall z, blocked s' z =
    if bool_decide (z = x \/ z = y) then Some pid else blocked s z;
  tb_nfree : nfree s' = (nfree s - need s x - need s y)%nat;
}.

(** releasing both buffers, that of [u] first *)
Lemma brelse_two p pr s4 l4 u v iu iv :
  bio_inv s4 l4 -> running p pr s4 -> k_held s4 = [] -> u <> v ->
  cached s4 u = Some iu -> cached s4 v = Some iv ->
  blocked s4 u = Some (p_pid pr) -> blocked s4 v = Some (p_pid pr) ->
  (refs s4 u = 1 -> k_disk s4 !! u = bview s4 u) ->
  (refs s4 v = 1 -> k_disk s4 !! v = bview s4 v) ->
  exists s6, (brelse iu;; brelse iv) s4 = Ok tt s6 /\
    (exists l6, bio_inv s6 l6) /\ cframe s4 s6 /\ k_disk s6 = k_disk s4 /\
    k_dwrites s6 = k_dwrites s4 /\ (forall w, bview s6 w = bview s4 w) /\
    (forall w, refs s6 w = if bool_decide (w = u \/ w = v) then refs s4 w - 1 else refs s4 w) /\
    (forall w, blocked s6 w = if bool_decide (w = u \/ w = v) then None else blocked s4 w) /\
    nfree s6 = (nfree s4 + (if Z.eqb (refs s4 u) 1 then 1 else 0)
      + (if Z.eqb (refs s4 v) 1 then 1 else 0))%nat.
Proof.
  intros I4 R4 H4 Huv Cu Cv Bu Bv Lu Lv.
  destruct (brelse_ok s4 l4 p pr I4 R4 H4 u iu Cu Bu Lu) as (s5 & E5 & P5).
  destruct P5 as [I5 D5 W5 _ F5 V5 Q5 B5 N5 C5].
  assert (refs s5 v = refs s4 v) as Ev by (rewrite Q5; by rewrite bool_decide_false).
  destruct (brelse_ok s5 _ p pr I5 (cframe_running _ _ _ _ F5 R4)
    ltac:(by rewrite (cframe_held _ _ F5)) v iv ltac:(by rewrite C5)
    ltac:(rewrite B5; by rewrite bool_decide_false)) as (s6 & E6 & P6).
  { rewrite Ev, D5, V5. exact Lv. }
  destruct P6 as [I6 D6 W6 _ F6 V6 Q6 B6 N6 C6].
  exists s6. split; [by erewrite bind_ok by exact E5|]. split_and!.
  - eauto.
  - by etransitivity.
  - congruence.
  - congruence.
  - intros w. by rewrite V6, V5.
  - intros w. rewrite Q6, Q5. repeat case_bool_decide; lia.
  - intros w. rewrite B6, B5. repeat case_bool_decide; first [reflexivity|exfalso; lia].
  - rewrite N6, N5, Ev. destruct (refs s4 u =? 1), (refs s4 v =? 1); lia.
Qed.

(** [bunpin] of the locked buffer [j] of block [y], unless [recovering] *)
Lemma unpin_unless s l pr y j recovering :
  bio_inv s l -> k_held s = [] -> cached s y = Some j -> blocked s y = Some (p_pid pr) ->
  (recovering = false -> 2 <= refs s y) ->
  exists s', when (negb recovering) (bunpin j) s = Ok tt s' /\
    bchange s s' l (k_disk s) (k_dwrites s) (bview s)
      (fun w => if negb recovering && bool_decide (w = y) then refs s w - 1 else refs s w).
Proof.
  intros HI HH Hc Hb Hr. unfold when. destruct recovering; simpl.
  - exists s. split; [done|]. by split.
  - destruct (bunpin_ok s l pr HI HH y j Hc Hb (Hr eq_refl)) as (s' & E & P).
    exists s'. split; [done|]. destruct P. split; try done.
    intros w. rewrite bc_refs. case_bool_decide; [by subst|done].
Qed.

Section Copy.
Context (s : kst) (l : list nat) (p : nat) (pr : proc).
Context (HI : bio_inv s l) (HR : running p pr s) (HH : k_held s = []).
Context (x y : Z) (Hxy : x <> y).
Context (Hdx : is_Some (k_disk s !! x)) (Hdy : is_Some (k_disk s !! y)).
Context (Hbx : blocked s x = None) (Hby : blocked s y = None).
Context (Hrx : refs s x + 1 < 2 ^ 32) (Hry : refs s y + 1 < 2 ^ 32).
Context (Hroom : (need s x + need s y <= nfree s)%nat).

Lemma two_bread : exists i j s1 s2, bread ROOTDEV x s = Ok i s1 /\ k_log s1 = k_log s /\
  bread ROOTDEV y s1 = Ok j s2 /\ two_bufs (p_pid pr) x y s i j s2.
Proof using HI HR HH Hxy Hdx Hdy Hbx Hby Hrx Hry Hroom.
  destruct (bview_some _ _ _ HI Hdx) as [vx Hvx]. destruct (bview_some _ _ _ HI Hdy) as [vy Hvy].
  destruct (bread_ok _ _ _ _ HI HR HH x vx Hvx Hbx Hrx) as (i & s1 & E1 & P1).
  { intros E. unfold need in Hroom. rewrite E in Hroom. simpl in Hroom. lia. }
  pose proof (br_frame _ _ _ _ _ _ P1) as F1.
  assert (refs s1 y = refs s y) as Hy1 by (rewrite (br_refs _ _ _ _ _ _ P1), bool_decide_false by done; done).
  destruct (bread_ok s1 l p pr (br_inv _ _ _ _ _ _ P1) (cframe_running _ _ _ _ F1 HR)
    ltac:(by rewrite (cframe_held _ _ F1)) y vy) as (j & s2 & E2 & P2).
  - by rewrite (br_view _ _ _ _ _ _ P1).
  - by rewrite (br_blocked _ _ _ _ _ _ P1), bool_decide_false.
  - lia.
  - intros E. rewrite (br_nfree _ _ _ _ _ _ P1). rewrite Hy1 in E. unfold need in Hroom. rewrite E in Hroom.
    destruct (refs s x =? 0); simpl in Hroom; lia.
  - exists i, j, s1, s2. split; [done|]. split; [by apply cframe_log|]. split; [done|].
    destruct P1 as [I1 C1 D1 W1 S1 _ V1 R1 B1 N1 _], P2 as [I2 C2 D2 W2 S2 F2 V2 R2 B2 N2 T2]. split.
    + eauto.
    + by etransitivity.
    + rewrite T2; [exact C1|]. rewrite R1, bool_decide_true by done.
      pose proof (refs_nonneg _ _ x HI). lia.
    + exact C2.
    + congruence.
    + congruence.
    + intros z. by rewrite V2, V1.
    + intros z. rewrite R2, R1. repeat case_bool_decide; lia.
    + intros z. rewrite B2, B1. repeat case_bool_decide; first [reflexivity|exfalso; lia].
    + unfold need. rewrite N2, N1, Hy1. destruct (refs s x =? 0), (refs s y =? 0); lia.
Qed.

(** the two buffers after [src] has been copied into block [z], which is [x]
    or [y], and [z] has been written to the disk *)
Definition copy_to (k : nat) (src : list Z) : K unit := bdata_upd k (fun _ => src);; bwrite k.

Lemma copy_to_ok i j s2 z k src :
  two_bufs (p_pid pr) x y s i j s2 -> (z = x /\ k = i) \/ (z = y /\ k = j) ->
  exists s4 l4, copy_to k src s2 = Ok tt s4 /\
    bchange s2 s4 l4 (<[z := src]> (k_disk s2)) (k_dwrites s2 ++ [(z, src)])
      (fun w => if bool_decide (w = z) then Some src else bview s2 w) (refs s2).
Proof using HR HH Hdx Hdy.
  intros T Hz. destruct (tb_inv _ _ _ _ _ _ _ T) as [l2 I2].
  pose proof (tb_frame _ _ _ _ _ _ _ T) as F2. pose proof (cframe_running _ _ _ _ F2 HR) as R2.
  assert (k_held s2 = []) as H2 by (by rewrite (cframe_held _ _ F2)).
  assert (cached s2 z = Some k) as C2 by (destruct Hz as [[-> ->]|[-> ->]]; apply T).
  assert (blocked s2 z = Some (p_pid pr)) as B2.
  { rewrite (tb_blocked _ _ _ _ _ _ _ T), bool_decide_true; [done|]. destruct Hz as [[-> _]|[-> _]]; auto. }
  assert (is_Some (k_disk s2 !! z)) as D2.
  { rewrite (tb_disk _ _ _ _ _ _ _ T). by destruct Hz as [[-> _]|[-> _]]. }
  destruct (bview_some _ _ _ I2 D2) as [old Hold].
  destruct (bdata_upd_ok _ _ _ I2 z k C2 B2 (fun _ => src) old Hold) as (s3 & E3 & P3).
  destruct P3 as [I3 D3 W3 S3 F3 V3 Q3 B3 N3 C3].
  destruct (bwrite_ok s3 l2 p pr I3 (cframe_running _ _ _ _ F3 R2)
    ltac:(by rewrite (cframe_held _ _ F3)) z k ltac:(by rewrite C3) ltac:(by rewrite B3) src)
    as (s4 & E4 & P4).
  { rewrite V3. by rewrite bool_decide_true. }
  { by rewrite D3. }
  destruct P4 as [I4 D4 W4 S4 F4 V4 Q4 B4 N4 C4].
  exists s4, l2. split; [unfold copy_to; by erewrite bind_ok by exact E3|].
  split; [done|congruence|congruence|congruence|by etransitivity| | | |congruence|].
  - intros w. by rewrite V4, V3.
  - intros w. by rewrite Q4, Q3.
  - intros w. by rewrite B4, B3.
  - intros w. by rewrite C4, C3.
Qed.

(** the tail of the loop body of [write_log]: [to] is [x]'s buffer *)
Lemma log_copy i j s2 vy :
  two_bufs (p_pid pr) x y s i j s2 -> bview s y = Some vy ->
  exists s6, (src ← bdata_get j; bdata_upd i (fun _ => src);; bwrite i;; brelse j;; brelse i) s2
    = Ok tt s6 /\ clog s s6 [(x, vy)] (refs s).
Proof using HI HR HH Hxy Hdx Hdy Hbx Hby Hroom.
  intros T Hvy. destruct (copy_to_ok i j s2 x i vy T) as (s4 & l4 & E4 & P4); [by left|].
  destruct T as [[l2 I2] F2 C2x C2y D2 W2 V2 Q2 B2 N2].
  destruct P4 as [I4 D4 W4 _ F4 V4 Q4 B4 N4 C4].
  assert (blocked s2 x = Some (p_pid pr) /\ blocked s2 y = Some (p_pid pr)) as [Bx By].
  { rewrite !B2, !bool_decide_true by auto. done. }
  assert (refs s4 x = refs s x + 1 /\ refs s4 y = refs s y + 1) as [Rx Ry].
  { rewrite !Q4, !Q2. repeat case_bool_decide; try congruence; lia. }
  pose proof (cframe_trans _ _ _ F2 F4) as F24.
  assert (refs s4 y = 1 -> k_disk s4 !! y = bview s4 y) as Ly.
  { intros E. rewrite D4, V4, lookup_insert_ne, bool_decide_false, D2, V2 by congruence.
    apply (clean_view _ _ _ HI). lia. }
  assert (k_disk s4 !! x = bview s4 x) as Lx
    by (rewrite D4, V4, lookup_insert_eq, bool_decide_true; reflexivity).
  destruct (brelse_two p pr s4 l4 y x j i I4 (cframe_running _ _ _ _ F24 HR)
    ltac:(by rewrite (cframe_held _ _ F24)) (not_eq_sym Hxy) ltac:(by rewrite C4)
    ltac:(by rewrite C4) ltac:(by rewrite B4) ltac:(by rewrite B4) Ly (fun _ => Lx))
    as (s6 & E6 & I6 & F6 & D6 & W6 & V6 & Q6 & B6 & N6).
  exists s6. split.
  - erewrite bind_ok by (eapply (bdata_get_ok s2 l2 pr I2 y j C2y By vy); by rewrite V2).
    apply bind_inv in E4 as ([] & s3 & E3 & E4).
    erewrite bind_ok by exact E3. erewrite bind_ok by exact E4. exact E6.
  - split; [done|by etransitivity| | | | | |].
    + by rewrite D6, D4, D2.
    + by rewrite W6, W4, W2.
    + intros w. rewrite V6, V4, V2. done.
    + intros w. rewrite Q6, Q4, Q2. repeat case_bool_decide; lia.
    + intros w. rewrite B6, B4, B2. repeat case_bool_decide; first [reflexivity|congruence|exfalso; lia|subst].
      all: destruct H as [->| ->]; done.
    + rewrite N6, N4, N2, Rx, Ry. unfold need in *.
      destruct (refs s x =? 0) eqn:Z1, (refs s y =? 0) eqn:Z2, (refs s x + 1 =? 1) eqn:Z3,
        (refs s y + 1 =? 1) eqn:Z4; zbool; lia.
Qed.

(** the tail of the loop body of [install_trans]: [dbuf] is [y]'s buffer *)
Lemma install_copy i j s2 vx recovering :
  two_bufs (p_pid pr) x y s i j s2 -> bview s x = Some vx ->
  (recovering = false -> 1 <= refs s y) ->
  exists s6, (src ← bdata_get i; bdata_upd j (fun _ => src);; bwrite j;;
      when (negb recovering) (bunpin j);; brelse i;; brelse j) s2 = Ok tt s6 /\
    clog s s6 [(y, vx)]
      (fun w => if negb recovering && bool_decide (w = y) then refs s w - 1 else refs s w).
Proof using HI HR HH Hxy Hdx Hdy Hbx Hby Hroom.
  intros T Hvx Hpin. destruct (copy_to_ok i j s2 y j vx T) as (s4 & l4 & E4 & P4); [by right|].
  destruct T as [[l2 I2] F2 C2x C2y D2 W2 V2 Q2 B2 N2].
  assert (blocked s2 x = Some (p_pid pr) /\ blocked s2 y = Some (p_pid pr)) as [Bx By].
  { rewrite !B2, !bool_decide_true by auto. done. }
  pose proof (cframe_trans _ _ _ F2 (bc_frame _ _ _ _ _ _ _ P4)) as F24.
  pose proof (refs_nonneg _ _ y HI) as Hny.
  set (unp := fun w => if negb recovering && bool_decide (w = y) then refs s4 w - 1 else refs s4 w).
  destruct (unpin_unless s4 l4 pr y j recovering) as (s5 & E5 & P5).
  { apply P4. }
  { by rewrite (cframe_held _ _ F24). }
  { by rewrite (bc_cached _ _ _ _ _ _ _ P4). }
  { by rewrite (bc_blocked _ _ _ _ _ _ _ P4). }
  { intros E. specialize (Hpin E). rewrite (bc_refs _ _ _ _ _ _ _ P4), Q2. repeat case_bool_decide; lia. }
  fold unp in P5.
  destruct P4 as [I4 D4 W4 _ F4 V4 Q4 B4 N4 C4], P5 as [I5 D5 W5 _ F5 V5 Q5 B5 N5 C5].
  pose proof (cframe_trans _ _ _ F24 F5) as F25.
  assert (refs s5 x = refs s x + 1) as Rx.
  { rewrite Q5. unfold unp. rewrite bool_decide_false, andb_false_r by done.
    rewrite Q4, Q2. repeat case_bool_decide; try congruence; lia. }
  assert (refs s5 y = refs s y + (if recovering then 1 else 0)) as Ry.
  { rewrite Q5. unfold unp. rewrite bool_decide_true, andb_true_r by done.
    rewrite !Q4, !Q2. destruct recovering; simpl; repeat case_bool_decide; try congruence; lia. }
  assert (refs s5 x = 1 -> k_disk s5 !! x = bview s5 x) as Lx.
  { intros E. rewrite D5, V5, D4, V4, lookup_insert_ne, bool_decide_false, D2, V2 by congruence.
    apply (clean_view _ _ _ HI). lia. }
  assert (k_disk s5 !! y = bview s5 y) as Ly
    by (rewrite D5, V5, D4, V4, lookup_insert_eq, bool_decide_true; reflexivity).
  destruct (brelse_two p pr s5 l4 x y i j I5 (cframe_running _ _ _ _ F25 HR)
    ltac:(by rewrite (cframe_held _ _ F25)) Hxy ltac:(by rewrite C5, C4)
    ltac:(by rewrite C5, C4) ltac:(by rewrite B5, B4) ltac:(by rewrite B5, B4) Lx (fun _ => Ly))
    as (s6 & E6 & I6 & F6 & D6 & W6 & V6 & Q6 & B6 & N6).
  exists s6. split.
  - erewrite bind_ok by (eapply (bdata_get_ok s2 l2 pr I2 x i C2x Bx vx); by rewrite V2).
    apply bind_inv in E4 as ([] & s3 & E3 & E4).
    erewrite bind_ok by exact E3. erewrite bind_ok by exact E4. erewrite bind_ok by exact E5. exact E6.
  - split; [done|by etransitivity| | | | | |].
    + by rewrite D6, D5, D4, D2.
    + by rewrite W6, W5, W4, W2.
    + intros w. rewrite V6, V5, V4, V2. done.
    + intros w. rewrite Q6, Q5. unfold unp. rewrite Q4, Q2.
      destruct recovering; simpl; repeat case_bool_decide; try congruence; lia.
    + intros w. rewrite B6, B5, B4, B2.
      repeat case_bool_decide; [|done]. destruct H as [->| ->]; done.
    + rewrite N6, N5, N4, N2, Rx, Ry. unfold need in *.
      destruct recovering, (refs s x =? 0) eqn:Z1, (refs s y =? 0) eqn:Z2; zbool;
        rewrite ?Z1, ?Z2; simpl; try specialize (Hpin eq_refl); try lia;
        repeat match goal with |- context [?a =? 1] => destruct (a =? 1) eqn:?; zbool end; lia.
Qed.

End Copy.

(** ** Sequencing *)

Lemma clog_trans s s1 s2 W1 W2 r1 r2 :
  clog s s1 W1 r1 -> clog s1 s2 W2 r2 -> clog s s2 (W1 ++ W2) r2.
Proof.
  intros [I1 F1 D1 H1 V1 R1 B1 N1] [I2 F2 D2 H2 V2 R2 B2 N2]. split; [done|by etransitivity| | | |done| |lia].
  - by rewrite D2, D1, apply_writes_app.
  - by rewrite H2, H1, app_assoc.
  - intros x. rewrite V2, vapply_app. by apply vapply_ext.
  - intros x. by rewrite B2, B1.
Qed.

Lemma clog_refl s l : bio_inv s l -> clog s s [] (refs s).
Proof. intros HI. split; [eauto|done|done|by rewrite app_nil_r|done|done|done|done]. Qed.

(** ** The state of the log *)

(** The log is at [start], and [bls] are the blocks of the current
    transaction; they are not in the log area. *)
Record log_ok (s : kst) (start : Z) (bls : list Z) : Prop := {
  lo_dev : l_dev (k_log s) = ROOTDEV;
  lo_start : l_start (k_log s) = start;
  lo_n : l_n (k_log s) = Z.of_nat (length bls);
  lo_blocks : forall i b, bls !! i = Some b -> l_block (k_log s) !! i = Some b;
  lo_range : 0 < start /\ start + LOGBLOCKS < 2 ^ 31;
  lo_len : Z.of_nat (length bls) <= LOGBLOCKS;
  lo_dom : forall b, b ∈ bls -> 0 <= b < 2 ^ 31 /\ ~ (start <= b <= start + LOGBLOCKS) /\
    is_Some (k_disk s !! b);
  lo_region : forall x, start <= x <= start + LOGBLOCKS -> is_Some (k_disk s !! x);
  lo_nodup : NoDup bls;
}.

(** nobody uses the log area, and there is a buffer to work with *)
Record log_quiet (s : kst) (start : Z) (bls : list Z) : Prop := {
  lq_inv : exists l, bio_inv s l;
  lq_log : forall x, start <= x <= start + LOGBLOCKS -> refs s x = 0 /\ blocked s x = None;
  lq_bls : forall b, b ∈ bls -> blocked s b = None;
  lq_refs : forall x, refs s x + 1 < 2 ^ 32;
  lq_room : (1 <= nfree s)%nat;
}.

Lemma clog_log s s' W r start bls :
  clog s s' W r -> log_ok s start bls -> log_ok s' start bls.
Proof.
  intros C [H1 H2 H3 H4 H5 H6 H7 H8 H9].
  assert (forall x, is_Some (k_disk s !! x) -> is_Some (k_disk s' !! x)) as Hd.
  { intros x. rewrite (cl_disk _ _ _ _ C). apply apply_writes_is_Some. }
  split; rewrite ?(cframe_log _ _ (cl_frame _ _ _ _ C)); auto.
  intros b Hb. destruct (H7 b Hb) as (? & ? & ?). auto.
Qed.

Lemma clog_quiet s s' W r start bls :
  clog s s' W r -> (forall x, r x <= refs s x) -> log_quiet s start bls -> log_quiet s' start bls.
Proof.
  intros C Hr [[l HI] H2 H3 H4 H5]. destruct C as [[l' I1] F1 D1 W1 V1 R1 B1 N1]. split.
  - eauto.
  - intros x [E ?]%H2. rewrite B1. split; [|done]. pose proof (refs_nonneg _ _ x I1).
    specialize (Hr x). rewrite R1 in *. lia.
  - intros b Hb. rewrite B1. auto.
  - intros x. rewrite R1. specialize (Hr x). specialize (H4 x). lia.
  - lia.
Qed.

(** ** write_log *)

Definition log_writes (start : Z) (bls : list Z) (v : Z -> option (list Z)) : writes :=
  imap (fun i b => (start + 1 + Z.of_nat i, default [] (v b))) bls.

Lemma log_writes_elem start bls v w :
  w ∈ log_writes start bls v -> exists i b, bls !! i = Some b /\
    w = (start + 1 + Z.of_nat i, default [] (v b)).
Proof.
  intros (i & Hi)%list_elem_of_lookup. unfold log_writes in Hi. rewrite list_lookup_imap in Hi.
  destruct (bls !! i) as [b|] eqn:E; [|done]. simpl in Hi. exists i, b. split; congruence.
Qed.

Lemma log_writes_dom start bls v x :
  x ∈ (log_writes start bls v).*1 -> start + 1 <= x <= start + Z.of_nat (length bls).
Proof.
  intros (w & -> & Hw)%list_elem_of_fmap. apply log_writes_elem in Hw as (i & b & Hi & ->). simpl.
  apply lookup_lt_Some in Hi. lia.
Qed.

Lemma take_log_writes start bls v k :
  take k (log_writes start bls v) = log_writes start (take k bls) v.
Proof.
  apply list_eq. intros i. unfold log_writes. rewrite list_lookup_imap, !lookup_take, list_lookup_imap.
  by case_decide.
Qed.

Section WriteLog.
Context (p : nat) (pr : proc) (start : Z) (bls : list Z).

Lemma lh_block_ok s s' k b :
  log_ok s start bls -> k_log s' = k_log s -> bls !! k = Some b ->
  lh_block (Z.of_nat k) s' = Ok b s'.
Proof using Type.
  intros HL El Hb. unfold lh_block, deref. rewrite (proj2 (Z.leb_le _ _)), Nat2Z.id, El by lia.
  by rewrite (lo_blocks _ _ _ HL _ _ Hb).
Qed.

Lemma blk_range s b : log_ok s start bls -> b ∈ bls -> u32 b = b.
Proof using Type. intros HL Hb. apply wrap_small. destruct (lo_dom _ _ _ HL b Hb). lia. Qed.

Lemma log_range s k : log_ok s start bls -> (k < length bls)%nat ->
  u32 (start + Z.of_nat k + 1) = start + 1 + Z.of_nat k /\
  start <= start + 1 + Z.of_nat k <= start + LOGBLOCKS.
Proof using Type.
  intros HL Hk. pose proof (lo_range _ _ _ HL). pose proof (lo_len _ _ _ HL).
  split; [|lia]. rewrite wrap_small; lia.
Qed.

(** the beginning of the loop bodies of [write_log] and [install_trans] *)
Lemma pair_bread s k b (kont : nat -> nat -> K unit) :
  running p pr s -> k_held s = [] -> log_ok s start bls -> log_quiet s start bls ->
  bls !! k = Some b -> (1 + need s b <= nfree s)%nat ->
  exists i j s',
    (l ← get_log; to ← bread (l_dev l) (u32 (l_start l + Z.of_nat k + 1));
     blk ← lh_block (Z.of_nat k); from ← bread (l_dev l) (u32 blk); kont to from) s = kont i j s' /\
    two_bufs (p_pid pr) (start + 1 + Z.of_nat k) b s i j s'.
Proof using Type.
  intros HR HH HL HQ Hb Hroom. pose proof (list_elem_of_lookup_2 _ _ _ Hb) as Hbin.
  destruct (log_range s k HL (lookup_lt_Some _ _ _ Hb)) as [Ex Hx].
  set (x := start + 1 + Z.of_nat k) in *.
  destruct (lo_dom _ _ _ HL b Hbin) as (_ & Hnb & Hdb).
  destruct (lq_inv _ _ _ HQ) as [l1 HI1]. destruct (lq_log _ _ _ HQ x Hx) as [Rx Bx].
  destruct (two_bread s l1 p pr HI1 HR HH x b ltac:(lia) (lo_region _ _ _ HL x Hx) Hdb Bx
    (lq_bls _ _ _ HQ b Hbin) (lq_refs _ _ _ HQ x) (lq_refs _ _ _ HQ b))
    as (i & j & s2 & s3 & E2 & G2 & E3 & T).
  { unfold need in *. rewrite Rx. simpl. lia. }
  exists i, j, s3. split; [|done].
  erewrite bind_ok by reflexivity. rewrite (lo_dev _ _ _ HL), (lo_start _ _ _ HL), Ex.
  erewrite bind_ok by exact E2. erewrite bind_ok by (by apply (lh_block_ok s)).
  rewrite (blk_range s) by done. by erewrite bind_ok by exact E3.
Qed.

(** one iteration of [write_log] *)
Lemma write_log_step s k b vb :
  running p pr s -> k_held s = [] -> log_ok s start bls -> log_quiet s start bls ->
  bls !! k = Some b -> 1 <= refs s b -> bview s b = Some vb ->
  exists s',
    (l ← get_log; to ← bread (l_dev l) (u32 (l_start l + Z.of_nat k + 1));
     blk ← lh_block (Z.of_nat k); from ← bread (l_dev l) (u32 blk); src ← bdata_get from;
     bdata_upd to (fun _ => src);; bwrite to;; brelse from;; brelse to) s = Ok tt s' /\
    clog s s' [(start + 1 + Z.of_nat k, vb)] (refs s).
Proof using Type.
  intros HR HH HL HQ Hb Rb Hvb. pose proof (list_elem_of_lookup_2 _ _ _ Hb) as Hbin.
  assert (need s b = 0%nat) as Hnd by (unfold need; destruct (refs s b =? 0) eqn:Z; zbool; lia).
  pose proof (lq_room _ _ _ HQ) as Hrm.
  destruct (pair_bread s k b (fun to from => src ← bdata_get from; bdata_upd to (fun _ => src);;
    bwrite to;; brelse from;; brelse to) HR HH HL HQ Hb ltac:(lia)) as (i & j & s3 & -> & T).
  destruct (log_range s k HL (lookup_lt_Some _ _ _ Hb)) as [_ Hx].
  destruct (lo_dom _ _ _ HL b Hbin) as (_ & Hnb & Hdb).
  destruct (lq_inv _ _ _ HQ) as [l1 HI1]. destruct (lq_log _ _ _ HQ _ Hx) as [Rx Bx].
  apply (log_copy s l1 p pr HI1 HR HH (start + 1 + Z.of_nat k) b); try done.
  - lia.
  - by apply (lo_region _ _ _ HL).
  - by apply (lq_bls _ _ _ HQ).
  - rewrite Hnd. unfold need. rewrite Rx. simpl. lia.
Qed.

Lemma write_log_ok s :
  running p pr s -> k_held s = [] -> log_ok s start bls -> log_quiet s start bls ->
  (forall b, b ∈ bls -> 1 <= refs s b) ->
  exists s', write_log s = Ok tt s' /\ clog s s' (log_writes start bls (bview s)) (refs s).
Proof using Type.
  intros HR HH HL HQ Hpin. destruct (lq_inv _ _ _ HQ) as [l0 HI0].
  assert (wp write_log s (fun _ s' => clog s s' (log_writes start bls (bview s)) (refs s))) as Hwp.
  2:{ apply wp_ok in Hwp as ([] & s' & E & C). eauto. }
  unfold write_log. apply wp_bind, wp_gets. rewrite (lo_n _ _ _ HL).
  apply (wp_for_range _ _ (fun k s' => clog s s' (take k (log_writes start bls (bview s))) (refs s))).
  - by eapply clog_refl.
  - intros k s1 Hk C. pose proof (cl_frame _ _ _ _ C) as F1.
    destruct (lookup_lt_is_Some_2 bls k Hk) as [b Hb].
    pose proof (list_elem_of_lookup_2 _ _ _ Hb) as Hbin.
    destruct (lo_dom _ _ _ HL b Hbin) as (_ & Hnb & Hdb).
    destruct (bview_some _ _ _ HI0 Hdb) as [vb Hvb].
    destruct (write_log_step s1 k b vb (cframe_running _ _ _ _ F1 HR)
      ltac:(by rewrite (cframe_held _ _ F1)) (clog_log _ _ _ _ _ _ C HL)
      (clog_quiet _ _ _ _ _ _ C ltac:(done) HQ) Hb) as (s6 & E6 & C6).
    { rewrite (cl_refs _ _ _ _ C). by apply Hpin. }
    { rewrite (cl_view _ _ _ _ C), vapply_ne; [done|].
      rewrite take_log_writes. intros Hin%log_writes_dom. rewrite length_take in Hin.
      pose proof (lo_len _ _ _ HL). lia. }
    eapply wp_run; [exact E6|].
    erewrite take_S_r; [|unfold log_writes; by rewrite list_lookup_imap, Hb].
    rewrite Hvb. eapply clog_trans; [done|]. destruct C6. split; try done.
    intros z. rewrite cl_refs0. apply C.
  - intros s' C. rewrite firstn_all2 in C; [done|]. unfold log_writes. by rewrite length_imap.
Qed.

End WriteLog.

(** ** install_trans *)

Definition install_writes (start : Z) (bls : list Z) (v : Z -> option (list Z)) : writes :=
  imap (fun i b => (b, default [] (v (start + 1 + Z.of_nat i)))) bls.

Lemma install_writes_dom start bls v : (install_writes start bls v).*1 = bls.
Proof.
  apply list_eq. intros i. unfold install_writes. rewrite list_lookup_fmap, list_lookup_imap.
  by destruct (bls !! i).
Qed.

Lemma take_install_writes start bls v k :
  take k (install_writes start bls v) = install_writes start (take k bls) v.
Proof.
  apply list_eq. intros i. unfold install_writes.
  rewrite list_lookup_imap, !lookup_take, list_lookup_imap. by case_decide.
Qed.

(** [install_trans] drops the pin of every block, except when recovering *)
Definition unpinned (recovering : bool) (bls : list Z) (r : Z -> Z) (w : Z) : Z :=
  if negb recovering && bool_decide (w ∈ bls) then r w - 1 else r w.

Lemma unpinned_le recovering bls r w : unpinned recovering bls r w <= r w.
Proof. unfold unpinned. destruct (_ && _); lia. Qed.

Lemma unpinned_snoc recovering bls b r w :
  b ∉ bls ->
  unpinned recovering [b] (unpinned recovering bls r) w = unpinned recovering (bls ++ [b]) r w.
Proof.
  intros Hb. unfold unpinned. destruct recovering; simpl; [done|].
  repeat case_bool_decide; set_solver.
Qed.

Section Install.
Context (p : nat) (pr : proc) (start : Z) (bls : list Z) (recovering : bool).

Lemma install_step s k b vx :
  running p pr s -> k_held s = [] -> log_ok s start bls -> log_quiet s start bls ->
  bls !! k = Some b -> (1 + need s b <= nfree s)%nat -> (recovering = false -> 1 <= refs s b) ->
  bview s (start + 1 + Z.of_nat k) = Some vx ->
  exists s',
    (l ← get_log; lbuf ← bread (l_dev l) (u32 (l_start l + Z.of_nat k + 1));
     blk ← lh_block (Z.of_nat k); dbuf ← bread (l_dev l) (u32 blk); src ← bdata_get lbuf;
     bdata_upd dbuf (fun _ => src);; bwrite dbuf;; when (negb recovering) (bunpin dbuf);;
     brelse lbuf;; brelse dbuf) s = Ok tt s' /\
    clog s s' [(b, vx)] (unpinned recovering [b] (refs s)).
Proof using Type.
  intros HR HH HL HQ Hb Hroom Rb Hvx. pose proof (list_elem_of_lookup_2 _ _ _ Hb) as Hbin.
  destruct (pair_bread p pr start bls s k b (fun lbuf dbuf => src ← bdata_get lbuf;
    bdata_upd dbuf (fun _ => src);; bwrite dbuf;; when (negb recovering) (bunpin dbuf);;
    brelse lbuf;; brelse dbuf) HR HH HL HQ Hb Hroom) as (i & j & s3 & -> & T).
  destruct (log_range start bls s k HL (lookup_lt_Some _ _ _ Hb)) as [_ Hx].
  destruct (lo_dom _ _ _ HL b Hbin) as (_ & Hnb & Hdb).
  destruct (lq_inv _ _ _ HQ) as [l1 HI1]. destruct (lq_log _ _ _ HQ _ Hx) as [Rx Bx].
  destruct (install_copy s l1 p pr HI1 HR HH (start + 1 + Z.of_nat k) b) with
    (i := i) (j := j) (s2 := s3) (vx := vx) (recovering := recovering) as (s6 & E6 & C6); try done.
  - lia.
  - by apply (lo_region _ _ _ HL).
  - by apply (lq_bls _ _ _ HQ).
  - unfold need in *. rewrite Rx. simpl. lia.
  - exists s6. split; [done|]. destruct C6 as [I6 F6 D6 W6 V6 Q6 B6 N6]. split; try done.
    intros w. rewrite Q6. unfold unpinned. repeat case_bool_decide; set_solver.
Qed.

(** the body of the loop without the message *)
Definition install_one (tail : Z) : K unit :=
  l ← get_log; lbuf ← bread (l_dev l) (u32 (l_start l + tail + 1));
  blk ← lh_block tail; dbuf ← bread (l_dev l) (u32 blk); src ← bdata_get lbuf;
  bdata_upd dbuf (fun _ => src);; bwrite dbuf;; when (negb recovering) (bunpin dbuf);;
  brelse lbuf;; brelse dbuf.

Notation W s := (install_writes start bls (bview s)).

(** [s1] is reached from [s] by installing the first [k] blocks *)
Notation installed s k s1 := (clog s s1 (take k (W s)) (unpinned recovering (take k bls) (refs s))).

Lemma install_iter s s1 k :
  running p pr s -> k_held s = [] -> log_ok s start bls -> log_quiet s start bls ->
  (recovering = false -> forall b, b ∈ bls -> 1 <= refs s b) ->
  (recovering = true -> (2 <= nfree s)%nat) ->
  (k < length bls)%nat -> installed s k s1 ->
  wp (install_one (Z.of_nat k)) s1 (fun _ s' => installed s (S k) s').
Proof using Type.
  intros HR HH HL HQ Hpin Hroom Hk C. destruct (lq_inv _ _ _ HQ) as [l0 HI0].
  pose proof (cl_frame _ _ _ _ C) as F1. destruct (lookup_lt_is_Some_2 bls k Hk) as [b Hb].
  pose proof (list_elem_of_lookup_2 _ _ _ Hb) as Hbin.
  destruct (log_range start bls s k HL Hk) as [_ Hx].
  destruct (bview_some _ _ _ HI0 (lo_region _ _ _ HL _ Hx)) as [vx Hvx].
  pose proof (NoDup_take_lookup _ _ _ (lo_nodup _ _ _ HL) Hb) as Hnin.
  assert (refs s1 b = refs s b) as Rb.
  { rewrite (cl_refs _ _ _ _ C). unfold unpinned. by rewrite bool_decide_false, andb_false_r. }
  pose proof (cl_nfree _ _ _ _ C) as Hnf. pose proof (lq_room _ _ _ HQ) as Hrm.
  destruct (install_step s1 k b vx (cframe_running _ _ _ _ F1 HR)
    ltac:(by rewrite (cframe_held _ _ F1)) (clog_log _ _ _ _ _ _ C HL)
    (clog_quiet _ _ _ _ _ _ C ltac:(intros; apply unpinned_le) HQ) Hb) as (s6 & E6 & C6).
  { unfold need. rewrite Rb. destruct recovering; [specialize (Hroom eq_refl); destruct (_ =? 0); lia|].
    specialize (Hpin eq_refl b Hbin). destruct (refs s b =? 0) eqn:Z; zbool; lia. }
  { rewrite Rb. auto. }
  { rewrite (cl_view _ _ _ _ C), vapply_ne; [done|].
    rewrite take_install_writes, install_writes_dom. intros Hi%elem_of_take_in.
    destruct (lo_dom _ _ _ HL _ Hi) as (_ & ? & _). lia. }
  eapply wp_run; [exact E6|].
  erewrite (take_S_r (W s)); [|unfold install_writes; by rewrite list_lookup_imap, Hb].
  simpl. rewrite Hvx. eapply clog_trans; [done|]. destruct C6 as [I6 F6 D6 W6 V6 Q6 B6 N6]. split; try done.
  intros w. rewrite Q6, (take_S_r _ _ b), <- unpinned_snoc by done.
  unfold unpinned at 1 3. by rewrite (cl_refs _ _ _ _ C).
Qed.

Lemma installed_0 s : log_quiet s start bls -> installed s 0%nat s.
Proof using Type.
  intros HQ. destruct (lq_inv _ _ _ HQ) as [l0 HI0]. destruct (clog_refl _ _ HI0). split; try done.
  intros w. unfold unpinned. by rewrite andb_false_r.
Qed.

Lemma installed_all s s' :
  installed s (length bls) s' -> clog s s' (W s) (unpinned recovering bls (refs s)).
Proof using Type.
  intros C. rewrite !firstn_all2 in C; [done|done|]. unfold install_writes. by rewrite length_imap.
Qed.

End Install.

Lemma install_commit p pr start bls s :
  running p pr s -> k_held s = [] -> log_ok s start bls -> log_quiet s start bls ->
  (forall b, b ∈ bls -> 1 <= refs s b) ->
  exists s', install_trans false s = Ok tt s' /\
    clog s s' (install_writes start bls (bview s)) (unpinned false bls (refs s)).
Proof.
  intros HR HH HL HQ Hpin.
  assert (wp (install_trans false) s (fun _ s' =>
    clog s s' (install_writes start bls (bview s)) (unpinned false bls (refs s)))) as Hwp.
  2:{ apply wp_ok in Hwp as ([] & s' & E & C). eauto. }
  unfold install_trans. apply wp_bind, wp_gets. rewrite (lo_n _ _ _ HL).
  apply (wp_for_range _ _ (fun k s' => clog s s' (take k (install_writes start bls (bview s)))
    (unpinned false (take k bls) (refs s)))).
  - by apply installed_0.
  - intros k s1 Hk C. apply wp_bind, wp_ret.
    by apply (install_iter p pr start bls false s s1 k HR HH HL HQ (fun _ => Hpin)).
  - intros s'. apply installed_all.
Qed.

(** Recovery also prints a message for each block.  The cache and the log do
    not depend on the devices. *)

Lemma log_ok_dev d s start bls : log_ok s start bls -> log_ok (set_k_dev (fun _ => d) s) start bls.
Proof. intros []. by split. Qed.

Lemma log_quiet_dev d s start bls : log_quiet s start bls -> log_quiet (set_k_dev (fun _ => d) s) start bls.
Proof. intros [[l HI] H2 H3 H4 H5]. split; try done. exists l. by apply bio_inv_dev. Qed.

Lemma clog_dev d s s' Ws r :
  clog s s' Ws r -> clog (set_k_dev (fun _ => d) s) (set_k_dev (fun _ => d) s') Ws r.
Proof.
  intros [[l HI] [F1 F2 F3 F4 F5] H3 H4 H5 H6 H7 H8]. split; try done.
  - exists l. by apply bio_inv_dev.
  - split; try done. rewrite F1 at 1. kst_eq.
Qed.

Lemma recovering_length x y :
  exists out, format recovering_msg [ANum x; ANum y] = Some out /\ (length out <= 44)%nat.
Proof.
  eexists. split; [reflexivity|]. pose proof (length_printint x). pose proof (length_printint y).
  simpl length. rewrite !length_app. simpl length. rewrite !length_app. simpl length. lia.
Qed.

Lemma install_recover p pr start bls s :
  running p pr s -> k_held s = [] -> log_ok s start bls -> log_quiet s start bls ->
  (2 <= nfree s)%nat -> echo_ready (132 * length bls) (k_dev s) ->
  exists d s', install_trans true s = Ok tt s' /\ clog (set_k_dev (fun _ => d) s) s'
    (install_writes start bls (bview s)) (unpinned true bls (refs s)).
Proof.
  intros HR HH HL HQ Hroom He.
  assert (wp (install_trans true) s (fun _ s' => exists d, clog (set_k_dev (fun _ => d) s) s'
    (install_writes start bls (bview s)) (unpinned true bls (refs s)))) as Hwp.
  2:{ apply wp_ok in Hwp as ([] & s' & E & d & C). eauto. }
  unfold install_trans. apply wp_bind, wp_gets. rewrite (lo_n _ _ _ HL).
  apply (wp_for_range _ _ (fun k s1 => exists d, echo_ready (132 * (length bls - k)) d /\
    clog (set_k_dev (fun _ => d) s) s1 (take k (install_writes start bls (bview s)))
      (unpinned true (take k bls) (refs s)))).
  - exists (k_dev s). rewrite Nat.sub_0_r. split; [done|].
    replace (set_k_dev _ s) with s by kst_eq. by apply installed_0.
  - intros k s1 Hk (d & Hd & C). destruct (lookup_lt_is_Some_2 bls k Hk) as [b Hb].
    pose proof (cl_frame _ _ _ _ C) as F1. cbn [when]. apply wp_bind, wp_bind.
    eapply wp_run; [by apply (lh_block_ok start bls s s1 k b HL (cframe_log _ _ F1))|].
    destruct (recovering_length (Z.of_nat k) b) as (out & Hf & Hlen).
    assert (k_dev s1 = d) as Ed by (by rewrite (cf_rest _ _ F1)).
    eapply wp_mono; [apply (kprintf_echo _ _ out (132 * (length bls - S k)) s1 Hf)|].
    { rewrite (cframe_held _ _ F1). ksimpl. rewrite HH. apply not_elem_of_nil. }
    { rewrite Ed. eapply echo_ready_le; [|exact Hd]. lia. }
    intros _ s2 (d' & -> & Hd'). apply (clog_dev d') in C.
    eapply wp_mono; [apply (install_iter p pr start bls true (set_k_dev (fun _ => d') s))|].
    + by destruct HR.
    + done.
    + by apply log_ok_dev.
    + by apply log_quiet_dev.
    + done.
    + done.
    + exact Hk.
    + exact C.
    + intros [] s3 C3. by exists d'.
  - intros s' (d & _ & C). exists d. by apply (installed_all start bls true (set_k_dev (fun _ => d) s)) in C.
Qed.

(** ** write_head *)

Lemma bchange_trans s s1 s2 l d1 w1 v1 r1 d2 w2 v2 r2 :
  bchange s s1 l d1 w1 v1 r1 -> bchange s1 s2 l d2 w2 v2 r2 -> bchange s s2 l d2 w2 v2 r2.
Proof.
  intros [I1 D1 W1 S1 F1 V1 R1 B1 N1 C1] [I2 D2 W2 S2 F2 V2 R2 B2 N2 C2].
  split; [done|done|done|congruence|by etransitivity|done|done| |congruence|].
  - intros x. by rewrite B2, B1.
  - intros x. by rewrite C2, C1.
Qed.

Section WriteHead.
Context (p : nat) (pr : proc) (start : Z) (bls : list Z) (old : list Z).

(** filling in the header, with block [start] locked in buffer [i] *)
Lemma fill_head s l i :
  bio_inv s l -> log_ok s start bls -> bview s start = Some old ->
  cached s start = Some i -> blocked s start = Some (p_pid pr) ->
  exists s', (bdata_upd i (put_word 0 (Z.of_nat (length bls)));;
      for_each (seqZ 0 (Z.of_nat (length bls))) (fun k =>
        blk ← lh_block k; bdata_upd i (put_word (k + 1) blk))) s = Ok tt s' /\
    bchange s s' l (k_disk s) (k_dwrites s)
      (fun x => if bool_decide (x = start) then Some (head_bytes bls old) else bview s x) (refs s).
Proof using Type.
  intros HI HL Hv Hc Hb. set (n := Z.of_nat (length bls)).
  set (V := fun k x => if bool_decide (x = start)
    then Some (put_blocks 1 (take k bls) (put_word 0 n old)) else bview s x).
  assert (wp (bdata_upd i (put_word 0 n);; for_each (seqZ 0 n) (fun k =>
    blk ← lh_block k; bdata_upd i (put_word (k + 1) blk))) s (fun _ s' =>
      bchange s s' l (k_disk s) (k_dwrites s) (V (length bls)) (refs s))) as Hwp.
  2:{ apply wp_ok in Hwp as ([] & s' & E & C). exists s'. split; [done|].
      unfold V in C. rewrite firstn_all in C. done. }
  destruct (bdata_upd_ok s l pr HI start i Hc Hb (put_word 0 n) old Hv) as (s1 & E1 & P1).
  apply wp_bind. eapply wp_run; [exact E1|].
  apply (wp_for_range _ _ (fun k s' => bchange s s' l (k_disk s) (k_dwrites s) (V k) (refs s))); [done| |done].
  intros k s2 Hk P2. destruct (lookup_lt_is_Some_2 bls k Hk) as [b Hbk].
  apply wp_bind. eapply wp_run.
  { apply (lh_block_ok start bls s); [done| |done]. by apply cframe_log, P2. }
  destruct (bdata_upd_ok s2 l pr (bc_inv _ _ _ _ _ _ _ P2) start i
    ltac:(by rewrite (bc_cached _ _ _ _ _ _ _ P2)) ltac:(by rewrite (bc_blocked _ _ _ _ _ _ _ P2))
    (put_word (Z.of_nat k + 1) b) (put_blocks 1 (take k bls) (put_word 0 n old)))
    as (s3 & E3 & P3).
  { rewrite (bc_view _ _ _ _ _ _ _ P2). unfold V. by rewrite bool_decide_true. }
  eapply wp_run; [exact E3|]. pose proof (bchange_trans _ _ _ _ _ _ _ _ _ _ _ _ P2 P3) as P23.
  destruct P2 as [_ D2 W2 _ _ V2 R2 _ _ _], P23 as [I3 D3 W3 S3 F3 V3 R3 B3 N3 C3].
  split; try done; [congruence..| |].
  - intros x. rewrite V3, V2. unfold V. rewrite (take_S_r _ _ b), put_blocks_snoc by done.
    rewrite length_take, Nat.min_l by lia. case_bool_decide; [|done]. do 2 f_equal. lia.
  - intros x. by rewrite R3, R2.
Qed.

Lemma write_head_ok s :
  running p pr s -> k_held s = [] -> log_ok s start bls -> log_quiet s start bls ->
  bview s start = Some old ->
  exists s', write_head s = Ok tt s' /\ clog s s' [(start, head_bytes bls old)] (refs s).
Proof using Type.
  intros HR HH HL HQ Hv. destruct (lq_inv _ _ _ HQ) as [l HI].
  pose proof (lo_range _ _ _ HL) as Hrg.
  assert (start <= start <= start + LOGBLOCKS) as Hst by (unfold LOGBLOCKS, MAXOPBLOCKS; lia).
  destruct (lq_log _ _ _ HQ start Hst) as [R0 B0]. pose proof (lq_room _ _ _ HQ) as Hrm.
  destruct (bread_ok s l p pr HI HR HH start old Hv B0 (lq_refs _ _ _ HQ start) (fun _ => Hrm))
    as (i & s1 & E1 & P1). destruct P1 as [I1 C1 D1 W1 _ F1 V1 R1 B1 N1 _].
  assert (blocked s1 start = Some (p_pid pr)) as Bs by (rewrite B1; by rewrite bool_decide_true).
  assert (log_ok s1 start bls) as HL1.
  { destruct HL. split; rewrite ?(cframe_log _ _ F1), ?D1; auto. }
  destruct (fill_head s1 l i I1 HL1 ltac:(by rewrite V1) C1 Bs) as (s2 & E2 & P2).
  destruct P2 as [I2 D2 W2 _ F2 V2 R2 B2 N2 C2]. pose proof (cframe_trans _ _ _ F1 F2) as F02.
  destruct (bwrite_ok s2 l p pr I2 (cframe_running _ _ _ _ F02 HR)
    ltac:(by rewrite (cframe_held _ _ F02)) start i ltac:(by rewrite C2) ltac:(by rewrite B2)
    (head_bytes bls old)) as (s3 & E3 & P3).
  { rewrite V2. by rewrite bool_decide_true. }
  { rewrite D2, D1. by apply (lo_region _ _ _ HL). }
  destruct P3 as [I3 D3 W3 _ F3 V3 R3 B3 N3 C3]. pose proof (cframe_trans _ _ _ F02 F3) as F03.
  destruct (brelse_ok s3 l p pr I3 (cframe_running _ _ _ _ F03 HR)
    ltac:(by rewrite (cframe_held _ _ F03)) start i ltac:(by rewrite C3, C2)
    ltac:(by rewrite B3, B2)) as (s4 & E4 & P4).
  { intros _. by rewrite D3, lookup_insert_eq, V3, V2, bool_decide_true. }
  destruct P4 as [I4 D4 W4 _ F4 V4 R4 B4 N4 C4].
  exists s4. split.
  - unfold write_head. erewrite bind_ok by reflexivity.
    rewrite (lo_dev _ _ _ HL), (lo_start _ _ _ HL), (lo_n _ _ _ HL).
    rewrite wrap_small by lia. erewrite bind_ok by exact E1.
    apply bind_inv in E2 as ([] & s1' & E1' & E2').
    erewrite bind_ok by exact E1'. erewrite bind_ok by exact E2'.
    erewrite bind_ok by exact E3. exact E4.
  - split.
    + eauto.
    + by etransitivity.
    + by rewrite D4, D3, D2, D1.
    + by rewrite W4, W3, W2, W1.
    + intros x. rewrite V4, V3, V2, V1. done.
    + intros x. rewrite R4, R3, R2, R1. case_bool_decide; lia.
    + intros x. rewrite B4, B3, B2, B1. case_bool_decide; [by subst|done].
    + rewrite N4, N3, N2, N1, R3, R2, R1, bool_decide_true, R0 by done. simpl. lia.
Qed.

End WriteHead.

(** ** commit *)

Definition home_writes (bls : list Z) (v : Z -> option (list Z)) : writes :=
  (fun b => (b, default [] (v b))) <$> bls.

(** the header blocks [commit] writes, from the header block in the cache *)
Definition head1 (start : Z) (bls : list Z) (v : Z -> option (list Z)) : list Z :=
  head_bytes bls (default [] (v start)).
Definition head2 (start : Z) (bls : list Z) (v : Z -> option (list Z)) : list Z :=
  head_bytes [] (head1 start bls v).

(** everything [commit] writes, in order *)
Definition commit_writes (start : Z) (bls : list Z) (v : Z -> option (list Z)) : writes :=
  log_writes start bls v ++ [(start, head1 start bls v)] ++
  home_writes bls v ++ [(start, head2 start bls v)].

Lemma log_writes_view start bls v v0 i b :
  bls !! i = Some b ->
  vapply (log_writes start bls v) v0 (start + 1 + Z.of_nat i) = Some (default [] (v b)).
Proof.
  intros Hb. apply vapply_eq.
  - intros w (j & c & Hj & ->)%log_writes_elem E. simpl in *.
    assert (i = j) as -> by lia. congruence.
  - apply list_elem_of_fmap. exists (start + 1 + Z.of_nat i, default [] (v b)). split; [done|].
    apply list_elem_of_lookup. exists i. unfold log_writes. by rewrite list_lookup_imap, Hb.
Qed.

(** after [write_log] and [write_head] the log area holds the new blocks *)
Lemma install_home start bls v h v0 :
  (forall x, v0 x = vapply (log_writes start bls v ++ [(start, h)]) v x) ->
  install_writes start bls v0 = home_writes bls v.
Proof.
  intros Hv0. apply list_eq. intros i. unfold install_writes, home_writes.
  rewrite list_lookup_imap, list_lookup_fmap. destruct (bls !! i) as [b|] eqn:Hb; [|done]. simpl.
  rewrite Hv0, vapply_app. simpl. rewrite bool_decide_false by lia.
  by rewrite (log_writes_view _ _ _ _ _ _ Hb).
Qed.

(** the state after [commit] *)
Record commit_post (s s' : kst) (start : Z) (bls : list Z) : Prop := {
  cp_inv : exists l, bio_inv s' l;
  cp_disk : k_disk s' = apply_writes (commit_writes start bls (bview s)) (k_disk s);
  cp_dwrites : k_dwrites s' = k_dwrites s ++ commit_writes start bls (bview s);
  cp_view : forall x, bview s' x = vapply (commit_writes start bls (bview s)) (bview s) x;
  cp_refs : forall x, refs s' x = unpinned false bls (refs s) x;
  cp_blocked : forall x, blocked s' x = blocked s x;
  cp_log : k_log s' = set_l_n (fun _ => 0) (k_log s);
  cp_frame : cframe (set_k_log (set_l_n (fun _ => 0)) s) s';
}.

Lemma cframe_set_log f s s' : cframe s s' -> cframe (set_k_log f s) (set_k_log f s').
Proof.
  intros [H1 H2 H3 H4 H5]. split; [|done|done|done|done].
  rewrite H1 at 1. kst_eq.
Qed.

Lemma log_ok_nil s start bls f :
  log_ok s start bls -> f = set_l_n (fun _ => 0) -> log_ok (set_k_log f s) start [].
Proof.
  intros [H1 H2 H3 H4 H5 H6 H7 H8 H9] ->. split; try done.
  - intros b Hb. by apply elem_of_nil in Hb.
  - constructor.
Qed.

Lemma log_quiet_nil s start bls f : log_quiet s start bls -> log_quiet (set_k_log f s) start [].
Proof.
  intros [[l HI] H2 H3 H4 H5]. split.
  - exists l. by apply bio_inv_log.
  - intros x. rewrite refs_log, blocked_log. apply H2.
  - intros b Hb. by apply elem_of_nil in Hb.
  - intros x. rewrite refs_log. apply H4.
  - by rewrite nfree_log.
Qed.

Section Commit.
Context (p : nat) (pr : proc) (start : Z) (bls : list Z) (hd : list Z) (s : kst).
Context (HR : running p pr s) (HH : k_held s = []).
Context (HL : log_ok s start bls) (HQ : log_quiet s start bls).
Context (Hhd : bview s start = Some hd) (Hlen : Z.of_nat (length hd) = BSIZE).
Context (Hpin : forall b, b ∈ bls -> 1 <= refs s b).

Lemma head_fits : 4 * (1 + Z.of_nat (length bls)) <= Z.of_nat (length hd).
Proof using HL Hlen.
  pose proof (lo_len _ _ _ HL) as H. unfold LOGBLOCKS, MAXOPBLOCKS in H. unfold BSIZE in Hlen. lia.
Qed.

(** up to and including the write of the header: the commit point *)
Lemma commit_phase1 : exists s1 s2, write_log s = Ok tt s1 /\ write_head s1 = Ok tt s2 /\
  clog s s2 (log_writes start bls (bview s) ++ [(start, head1 start bls (bview s))]) (refs s).
Proof using HR HH HL HQ Hhd Hlen Hpin.
  destruct (write_log_ok p pr start bls s HR HH HL HQ Hpin) as (s1 & E1 & C1).
  pose proof (cl_frame _ _ _ _ C1) as F1.
  destruct (write_head_ok p pr start bls hd s1 (cframe_running _ _ _ _ F1 HR)
    ltac:(by rewrite (cframe_held _ _ F1)) (clog_log _ _ _ _ _ _ C1 HL)
    (clog_quiet _ _ _ _ _ _ C1 ltac:(done) HQ)) as (s2 & E2 & C2).
  { rewrite (cl_view _ _ _ _ C1), vapply_ne; [done|]. intros Hin%log_writes_dom. lia. }
  exists s1, s2. split; [done|]. split; [done|]. unfold head1. rewrite Hhd.
  pose proof (clog_trans _ _ _ _ _ _ _ C1 C2) as [I F D W V R B N]. split; try done.
  intros x. rewrite R. apply C1.
Qed.

Lemma commit_ok : bls <> [] -> exists s', commit s = Ok tt s' /\ commit_post s s' start bls.
Proof using HR HH HL HQ Hhd Hlen Hpin.
  intros Hne. destruct commit_phase1 as (s1 & s2 & E1 & E2 & C2).
  pose proof (cl_frame _ _ _ _ C2) as F2. pose proof (clog_log _ _ _ _ _ _ C2 HL) as HL2.
  pose proof (clog_quiet _ _ _ _ _ _ C2 ltac:(done) HQ) as HQ2.
  destruct (install_commit p pr start bls s2 (cframe_running _ _ _ _ F2 HR)
    ltac:(by rewrite (cframe_held _ _ F2)) HL2 HQ2) as (s3 & E3 & C3).
  { intros b Hb. rewrite (cl_refs _ _ _ _ C2). auto. }
  rewrite (install_home _ _ (bview s) (head1 start bls (bview s))) in C3 by apply C2.
  pose proof (clog_trans _ _ _ _ _ _ _ C2 C3) as C23. rewrite <- app_assoc in C23.
  assert (forall x, unpinned false bls (refs s2) x = unpinned false bls (refs s) x) as Hunp.
  { intros x. unfold unpinned. by rewrite (cl_refs _ _ _ _ C2). }
  set (s3' := set_k_log (set_l_n (fun _ => 0)) s3).
  pose proof (cframe_trans _ _ _ F2 (cl_frame _ _ _ _ C3)) as F3.
  assert (running p pr s3') as R3 by (destruct (cframe_running _ _ _ _ F3 HR); by split).
  assert (k_held s3' = []) as H3 by (by rewrite <- HH, <- (cframe_held _ _ F3)).
  destruct (write_head_ok p pr start [] (head1 start bls (bview s)) s3' R3 H3) as (s4 & E4 & C4).
  { apply (log_ok_nil _ _ bls); [|done]. by apply (clog_log _ _ _ _ _ _ C3). }
  { apply (log_quiet_nil _ _ bls).
    apply (clog_quiet _ _ _ _ _ _ C3); [intros; apply unpinned_le|done]. }
  { unfold s3'. rewrite bview_log, (cl_view _ _ _ _ C23), app_assoc, vapply_app, vapply_ne.
    - rewrite vapply_app. simpl. by rewrite bool_decide_true.
    - unfold home_writes. rewrite <- list_fmap_compose, list_fmap_id.
      intros Hin. destruct (lo_dom _ _ _ HL _ Hin) as (_ & Hn & _).
      unfold LOGBLOCKS, MAXOPBLOCKS in Hn. lia. }
  exists s4. split.
  - unfold commit. erewrite bind_ok by reflexivity. rewrite (lo_n _ _ _ HL).
    destruct (0 <? Z.of_nat (length bls)) eqn:Hz; zbool; [|destruct bls; simpl in *; [done|lia]].
    unfold when. erewrite bind_ok by exact E1. erewrite bind_ok by exact E2.
    erewrite bind_ok by exact E3. erewrite bind_ok by reflexivity. exact E4.
  - destruct C4 as [I4 F4 D4 W4 V4 Q4 B4 _], C23 as [I3 _ D3 W3 V3 Q3 B3 _].
    assert (commit_writes start bls (bview s) = (log_writes start bls (bview s) ++
      [(start, head1 start bls (bview s))] ++ home_writes bls (bview s)) ++
      [(start, head2 start bls (bview s))]) as Hcw by (unfold commit_writes; by rewrite !app_assoc).
    split; rewrite ?Hcw.
    + done.
    + by rewrite D4, apply_writes_app, <- D3.
    + rewrite W4. unfold s3'. ksimpl. by rewrite W3, <- app_assoc.
    + intros x. rewrite V4, vapply_app. apply vapply_ext. intros y. unfold s3'. by rewrite bview_log.
    + intros x. rewrite Q4. unfold s3'. by rewrite refs_log, Q3, Hunp.
    + intros x. rewrite B4. unfold s3'. by rewrite blocked_log, B3.
    + rewrite (cframe_log _ _ F4). unfold s3'. ksimpl. by rewrite (cframe_log _ _ F3).
    + etransitivity; [by apply cframe_set_log|done].
Qed.

End Commit.
