(* ===== verification/LogCrash.v ===== *)
(** * Crash recovery

    [recover_disk] is what recovery should make of a disk; [initlog] is shown
    to compute it, and a crash anywhere in [commit] followed by recovery is
    shown to give either the blocks before the transaction or all the blocks
    after it. *)

From S2P Require Import Prelude Monad Types Kernel Kalloc Uart Echo Bio Lru BioFacts Log LogFacts.
From stdpp Require Import base numbers list gmap strings.
From Stdlib Require Import ZArith Lia.

Open Scope Z_scope.

(** ** The specification of recovery *)

(** the blocks a header block lists *)
Definition logged (hd : list Z) : list Z :=
  (fun k => int_at hd (k + 1)) <$> seqZ 0 (int_at hd 0).

Definition recover_disk (start : Z) (d : gmap Z (list Z)) : gmap Z (list Z) :=
  match d !! start with
  | None => d
  | Some hd =>
      apply_writes (install_writes start (logged hd) (fun x => d !! x) ++
        [(start, head_bytes [] hd)]) d
  end.

Definition in_log (start x : Z) : Prop := start <= x <= start + LOGBLOCKS.

(** a disk on which recovery makes sense *)
Record recoverable (start : Z) (d : gmap Z (list Z)) : Prop := {
  rc_range : 0 < start /\ start + LOGBLOCKS < 2 ^ 31;
  rc_head : exists hd, d !! start = Some hd /\ Z.of_nat (length hd) = BSIZE /\
    0 <= int_at hd 0 <= LOGBLOCKS /\ NoDup (logged hd) /\
    forall b, b ∈ logged hd -> 0 <= b < 2 ^ 31 /\ ~ in_log start b /\ is_Some (d !! b);
  rc_region : forall x, in_log start x -> is_Some (d !! x);
}.

(** the kernel just before [initlog]: a process runs, no lock is held, the
    buffer cache is unused, the serial port takes the messages *)
Record rebooted (p : nat) (pr : proc) (r : kst) : Prop := {
  rb_running : running p pr r;
  rb_held : k_held r = [];
  rb_inv : exists l, bio_inv r l;
  rb_refs : forall x, refs r x = 0 /\ blocked r x = None;
  rb_room : (2 <= nfree r)%nat;
  rb_blocks : length (l_block (k_log r)) = Z.to_nat LOGBLOCKS;
  rb_echo : echo_ready (132 * Z.to_nat LOGBLOCKS) (k_dev r);
}.

(** ** Reading the header *)

Lemma length_logged hd : 0 <= int_at hd 0 -> Z.of_nat (length (logged hd)) = int_at hd 0.
Proof. intros H. unfold logged. rewrite length_fmap, length_seqZ. lia. Qed.

Lemma lookup_logged hd i : (i < length (logged hd))%nat ->
  logged hd !! i = Some (int_at hd (Z.of_nat i + 1)).
Proof.
  intros Hi. unfold logged in *. rewrite length_fmap, length_seqZ in Hi.
  rewrite list_lookup_fmap, lookup_seqZ_lt by lia. done.
Qed.

(** the loop of [read_head] *)
Lemma read_loop_ok hd s n :
  n = length (logged hd) -> Z.of_nat n <= LOGBLOCKS ->
  length (l_block (k_log s)) = Z.to_nat LOGBLOCKS ->
  exists bl, for_each (seqZ 0 (Z.of_nat n)) (fun i =>
      if i <? LOGBLOCKS
      then upd_log (set_l_block (fun bl => <[Z.to_nat i := int_at hd (i + 1)]> bl))
      else stuck) s = Ok tt (set_k_log (set_l_block (fun _ => bl)) s) /\
    length bl = Z.to_nat LOGBLOCKS /\ forall i b, logged hd !! i = Some b -> bl !! i = Some b.
Proof.
  intros Hn Hle Hlen.
  match goal with |- exists bl, ?m s = _ /\ _ =>
    assert (wp m s (fun _ s' => exists bl, s' = set_k_log (set_l_block (fun _ => bl)) s /\
      length bl = Z.to_nat LOGBLOCKS /\ forall i b, logged hd !! i = Some b -> bl !! i = Some b)) as Hwp
  end.
  2:{ apply wp_ok in Hwp as ([] & s' & E & bl & -> & ?). eauto. }
  apply (wp_for_range _ _ (fun k s' => exists bl, s' = set_k_log (set_l_block (fun _ => bl)) s /\
    length bl = Z.to_nat LOGBLOCKS /\
    forall i b, (i < k)%nat -> logged hd !! i = Some b -> bl !! i = Some b)).
  - exists (l_block (k_log s)). split; [by destruct s as [? ? ? ? ? ? []]|]. split; [done|lia].
  - intros k s' Hk (bl & -> & Hbl & Hlk). rewrite (proj2 (Z.ltb_lt _ _)) by lia.
    unfold upd_log. apply wp_modify.
    exists (<[k := int_at hd (Z.of_nat k + 1)]> bl). split; [|split].
    + rewrite Nat2Z.id. kst_eq.
    + by rewrite length_insert.
    + intros i b Hi Hb. destruct (decide (i = k)) as [->|Hne].
      * rewrite list_lookup_insert_eq by lia. rewrite lookup_logged in Hb by lia. done.
      * rewrite list_lookup_insert_ne by done. apply Hlk; [lia|done].
  - intros s' (bl & -> & Hbl & Hlk). exists bl. split; [done|]. split; [done|].
    intros i b Hb. apply Hlk; [|done]. apply lookup_lt_Some in Hb. lia.
Qed.

(** the state after [read_head]: the header is in [log.lh] *)
Lemma read_head_ok p pr s start hd :
  rebooted p pr s -> recoverable start (k_disk s) -> k_disk s !! start = Some hd ->
  l_dev (k_log s) = ROOTDEV -> l_start (k_log s) = start ->
  exists s' f, read_head s = Ok tt s' /\ log_ok s' start (logged hd) /\ log_quiet s' start (logged hd) /\
    cframe (set_k_log f s) s' /\ k_disk s' = k_disk s /\ k_dwrites s' = k_dwrites s /\
    (forall x, bview s' x = bview s x) /\ (2 <= nfree s')%nat.
Proof.
  intros [HR HH [l HI] Hrf Hroom Hbl] [Hrg Hhead Hreg] Hd Hdev Hst.
  destruct Hhead as (hd' & Hd' & Hlen & Hn & Hnd & Hdom). rewrite Hd in Hd'. injection Hd' as <-.
  destruct (Hrf start) as [R0 B0].
  assert (bview s start = Some hd) as Hv by (rewrite <- (clean_view _ _ _ HI R0); done).
  destruct (bread_ok s l p pr HI HR HH start hd Hv B0 ltac:(lia) ltac:(lia)) as (i & s1 & E1 & P1).
  destruct P1 as [I1 C1 D1 W1 _ F1 V1 R1 B1 N1 _].
  assert (blocked s1 start = Some (p_pid pr)) as Bs by (rewrite B1; by rewrite bool_decide_true).
  pose proof (bdata_get_ok s1 l pr I1 start i C1 Bs hd ltac:(by rewrite V1)) as E2.
  set (s2 := set_k_log (set_l_n (fun _ => int_at hd 0)) s1).
  pose proof (length_logged hd ltac:(lia)) as Hll.
  destruct (read_loop_ok hd s2 (length (logged hd)) eq_refl ltac:(lia)) as (bl & E3 & Hbl' & Hlk).
  { unfold s2. ksimpl. by rewrite (cframe_log _ _ F1). }
  set (f := fun lg => set_l_block (fun _ => bl) (set_l_n (fun _ => int_at hd 0) lg)).
  set (s3 := set_k_log (set_l_block (fun _ => bl)) s2) in *.
  assert (s3 = set_k_log f s1) as Es3 by (unfold s3, s2, f; kst_eq).
  assert (cframe (set_k_log f s) s3) as F3 by (rewrite Es3; by apply cframe_set_log).
  assert (running p pr s3) as R3 by (destruct (cframe_running _ _ _ _ F1 HR); by split).
  assert (k_held s3 = []) as H3 by (by rewrite (cframe_held _ _ F3)).
  destruct (brelse_ok s3 l p pr ltac:(rewrite Es3; by apply bio_inv_log) R3 H3 start i) as (s4 & E4 & P4).
  { exact C1. }
  { by rewrite Es3, blocked_log. }
  { intros _. rewrite Es3, bview_log, V1. ksimpl. by rewrite D1, Hd. }
  destruct P4 as [I4 D4 W4 _ F4 V4 R4 B4 N4 C4].
  assert (k_log s4 = f (k_log s)) as Hlog by (rewrite (cframe_log _ _ F4), Es3; ksimpl; by rewrite (cframe_log _ _ F1)).
  exists s4, f. split; [|split_and!].
  - unfold read_head. erewrite bind_ok by reflexivity. rewrite Hdev, Hst, wrap_small by lia.
    erewrite bind_ok by exact E1. erewrite bind_ok by exact E2. erewrite bind_ok by reflexivity.
    erewrite bind_ok by reflexivity. rewrite Hll in E3. erewrite bind_ok by exact E3. exact E4.
  - split; rewrite ?Hlog; unfold f; ksimpl; try done; [lia| |].
    + intros b Hb. rewrite D4, Es3. ksimpl. rewrite D1. by apply Hdom.
    + intros x Hx. rewrite D4, Es3. ksimpl. rewrite D1. by apply Hreg.
  - assert (forall x, refs s4 x = 0 /\ blocked s4 x = None) as Hz.
    { intros x. destruct (Hrf x). rewrite R4, B4, Es3, refs_log, blocked_log, R1, B1.
      case_bool_decide; split; first [done|lia]. }
    split; [eauto|intros; apply Hz|intros; apply Hz|intros x; rewrite (proj1 (Hz x)); lia|].
    rewrite N4, Es3, refs_log, nfree_log, R1, bool_decide_true, R0, N1, R0 by done. simpl. lia.
  - by etransitivity.
  - by rewrite D4, Es3.
  - by rewrite W4, Es3.
  - intros x. by rewrite V4, Es3, bview_log, V1.
  - rewrite N4, Es3, refs_log, nfree_log, R1, bool_decide_true, R0, N1, R0 by done. simpl. lia.
Qed.

(** ** initlog *)

Lemma logged_zero hd : int_at hd 0 = 0 -> logged hd = [].
Proof. intros H. unfold logged. by rewrite H. Qed.

(** recovery computes [recover_disk] and empties the log *)
Lemma initlog_ok p pr s sb start :
  rebooted p pr s -> recoverable start (k_disk s) -> s32 (sb_logstart sb) = start ->
  exists s', initlog ROOTDEV sb s = Ok tt s' /\ k_disk s' = recover_disk start (k_disk s) /\
    l_n (k_log s') = 0 /\ l_start (k_log s') = start /\ l_dev (k_log s') = ROOTDEV.
Proof.
  intros HB HC Hsb. set (g := fun lg => set_l_dev (fun _ => ROOTDEV) (set_l_start (fun _ => start) lg)).
  set (s0 := set_k_log g s).
  assert (rebooted p pr s0) as HB0.
  { destruct HB as [HR HH [l HI] Hrf Hroom Hbl He]. split; [by destruct HR; split|done| | | |done|done].
    - exists l. by apply bio_inv_log.
    - intros x. unfold s0. rewrite refs_log, blocked_log. apply Hrf.
    - unfold s0. by rewrite nfree_log. }
  destruct (rc_head _ _ HC) as (hd & Hd & Hlen & Hn & Hnd & Hdom).
  destruct (read_head_ok p pr s0 start hd HB0 HC Hd eq_refl eq_refl)
    as (s1 & f & E1 & HL1 & HQ1 & F1 & D1 & W1 & V1 & N1).
  assert (running p pr s1) as R1.
  { apply (cframe_running _ _ _ _ F1). destruct (rb_running _ _ _ HB0); by split. }
  assert (k_held s1 = []) as H1 by (rewrite (cframe_held _ _ F1); apply (rb_held _ _ _ HB0)).
  destruct (install_recover p pr start (logged hd) s1 R1 H1 HL1 HQ1) as (d & s2 & E2 & C2); [done| |].
  { rewrite (cf_rest _ _ F1). eapply echo_ready_le; [|apply (rb_echo _ _ _ HB)].
    pose proof (length_logged hd ltac:(lia)). unfold LOGBLOCKS, MAXOPBLOCKS in *. lia. }
  set (s3 := set_k_log (set_l_n (fun _ => 0)) s2). pose proof (cl_frame _ _ _ _ C2) as F2.
  destruct (rb_inv _ _ _ HB0) as [l0 I0].
  assert (forall x, bview s1 x = k_disk s !! x) as Vd.
  { intros x. rewrite V1, <- (clean_view _ _ _ I0); [done|]. apply (rb_refs _ _ _ HB0). }
  assert (start ∉ logged hd) as Hst.
  { intros Hin. destruct (Hdom _ Hin) as (_ & Hnl & _). apply Hnl. unfold in_log, LOGBLOCKS, MAXOPBLOCKS. lia. }
  destruct (write_head_ok p pr start [] hd s3) as (s4 & E4 & C4).
  { destruct (cframe_running _ _ _ _ F2 ltac:(by destruct R1)). by split. }
  { by rewrite <- H1, <- (cframe_held _ _ F2 : _ = k_held s1). }
  { apply (log_ok_nil _ _ (logged hd)); [|done]. apply (clog_log _ _ _ _ _ _ C2). by apply log_ok_dev. }
  { apply (log_quiet_nil _ _ (logged hd)).
    apply (clog_quiet _ _ _ _ _ _ C2); [intros; apply unpinned_le|by apply log_quiet_dev]. }
  { unfold s3. rewrite bview_log, (cl_view _ _ _ _ C2), vapply_ne by (by rewrite install_writes_dom).
    by rewrite bview_dev, Vd. }
  exists s4. pose proof (cframe_log _ _ (cl_frame _ _ _ _ C4)) as L4.
  split; [|split_and!].
  - unfold initlog. simpl. erewrite bind_ok by reflexivity. erewrite bind_ok by reflexivity.
    unfold recover_from_log. rewrite Hsb. change (set_k_log _ (set_k_log _ s)) with s0.
    erewrite bind_ok by exact E1. erewrite bind_ok by exact E2. erewrite bind_ok by reflexivity. exact E4.
  - rewrite (cl_disk _ _ _ _ C4). unfold s3. ksimpl. rewrite (cl_disk _ _ _ _ C2). ksimpl. rewrite D1.
    unfold recover_disk. rewrite Hd, apply_writes_app. unfold s0. ksimpl.
    f_equal. f_equal. unfold install_writes. apply imap_ext. intros i b _. by rewrite Vd.
  - rewrite L4. done.
  - rewrite L4. unfold s3. ksimpl. rewrite (cframe_log _ _ F2). apply (lo_start _ _ _ HL1).
  - rewrite L4. unfold s3. ksimpl. rewrite (cframe_log _ _ F2). apply (lo_dev _ _ _ HL1).
Qed.

(** ** A crash inside commit *)

(** recovery of a disk with header [h], outside the log area *)
Lemma recover_lookup start d h x :
  d !! start = Some h -> ~ in_log start x ->
  recover_disk start d !! x = vapply (install_writes start (logged h) (fun y => d !! y)) (fun y => d !! y) x.
Proof.
  intros Hd Hx. unfold recover_disk. rewrite Hd, apply_writes_lookup, vapply_app. simpl.
  rewrite bool_decide_false; [done|]. intros ->. apply Hx. unfold in_log, LOGBLOCKS, MAXOPBLOCKS. lia.
Qed.

Section Crash.
Context (start : Z) (bls : list Z) (v : Z -> option (list Z)) (d0 : gmap Z (list Z)) (hd : list Z).
Context (Hd0 : d0 !! start = Some hd) (Hv0 : v start = Some hd).
Context (Hlen : Z.of_nat (length hd) = BSIZE) (Hn0 : int_at hd 0 = 0).
Context (Hbls : forall b, b ∈ bls -> 0 <= b < 2 ^ 31 /\ ~ in_log start b /\ is_Some (v b)).
Context (Hle : Z.of_nat (length bls) <= LOGBLOCKS) (Hnd : NoDup bls).

Lemma hd_fits : 4 * (1 + Z.of_nat (length bls)) <= Z.of_nat (length hd).
Proof using All. unfold LOGBLOCKS, MAXOPBLOCKS in Hle. unfold BSIZE in Hlen. lia. Qed.

Lemma hd_n : int_at (head_bytes bls hd) 0 = Z.of_nat (length bls).
Proof using All.
  pose proof hd_fits as Hf. unfold LOGBLOCKS, MAXOPBLOCKS in Hle.
  unfold int_at. rewrite head_n by done. apply swrap_wrap; lia.
Qed.

Lemma logged_head1 : logged (head_bytes bls hd) = bls.
Proof using All.
  pose proof hd_fits as Hf. pose proof hd_n as En. unfold LOGBLOCKS, MAXOPBLOCKS in Hle.
  apply list_eq. intros i. unfold logged. rewrite En, list_lookup_fmap.
  destruct (decide (i < length bls)%nat) as [Hi|Hi].
  - rewrite lookup_seqZ_lt by lia. simpl. destruct (lookup_lt_is_Some_2 bls i Hi) as [b Hb].
    rewrite Hb. unfold int_at. f_equal. replace (0 + Z.of_nat i + 1) with (1 + Z.of_nat i) by lia.
    rewrite (head_block _ _ Hf i b Hb). destruct (Hbls b) as [Hr _]; [by eapply list_elem_of_lookup_2|].
    apply swrap_wrap; lia.
  - rewrite lookup_seqZ_ge, (proj2 (lookup_ge_None bls i)) by lia. done.
Qed.

Lemma logged_head2 : logged (head2 start bls v) = [].
Proof using All.
  pose proof hd_fits as Hf. apply logged_zero. unfold head2, head1, int_at. rewrite Hv0. simpl.
  rewrite head_n; [done|]. rewrite length_head by done. simpl. lia.
Qed.

Lemma log_writes_region x bls' : x ∈ (log_writes start bls' v).*1 -> (length bls' <= length bls)%nat ->
  in_log start x /\ x <> start.
Proof using All. intros H%log_writes_dom Hl. unfold in_log. lia. Qed.

Lemma home_dom bls' : (home_writes bls' v).*1 = bls'.
Proof using All. unfold home_writes. by rewrite <- list_fmap_compose, list_fmap_id. Qed.

(** the disk after the log is written and [bls'] are home *)
Definition committed (bls' : list Z) : writes :=
  log_writes start bls v ++ (start, head1 start bls v) :: home_writes bls' v.

Lemma committed_log bls' i b :
  bls !! i = Some b -> (forall c, c ∈ bls' -> c ∈ bls) ->
  apply_writes (committed bls') d0 !! (start + 1 + Z.of_nat i) = v b.
Proof using All.
  intros Hb Hsub. rewrite apply_writes_lookup. unfold committed. rewrite cons_middle, !vapply_app.
  assert (in_log start (start + 1 + Z.of_nat i)) as Hin by (apply lookup_lt_Some in Hb; unfold in_log; lia).
  rewrite vapply_ne.
  2:{ rewrite home_dom. intros Hc%Hsub. by destruct (Hbls _ Hc) as (_ & ? & _). }
  simpl. rewrite bool_decide_false by lia. rewrite (log_writes_view _ _ _ _ _ _ Hb).
  destruct (Hbls b) as (_ & _ & [? ->]); [by eapply list_elem_of_lookup_2|]. done.
Qed.

Lemma committed_head bls' : (forall c, c ∈ bls' -> c ∈ bls) ->
  apply_writes (committed bls') d0 !! start = Some (head_bytes bls hd).
Proof using All.
  intros Hsub. rewrite apply_writes_lookup. unfold committed. rewrite cons_middle, !vapply_app.
  rewrite vapply_ne.
  2:{ rewrite home_dom. intros Hc%Hsub. destruct (Hbls _ Hc) as (_ & Hn & _). apply Hn.
      unfold in_log, LOGBLOCKS, MAXOPBLOCKS. lia. }
  simpl. rewrite bool_decide_true by done. unfold head1. by rewrite Hv0.
Qed.

Lemma home_value bls' x (f : Z -> option (list Z)) :
  (forall c, c ∈ bls' -> c ∈ bls) -> vapply (home_writes bls' v) f x =
  if bool_decide (x ∈ bls') then v x else f x.
Proof using All.
  intros Hsub. case_bool_decide as Hx.
  - destruct (Hbls x) as (_ & _ & [by' Hby]); [by apply Hsub|]. rewrite Hby. apply vapply_eq.
    + intros w (c & -> & _)%list_elem_of_fmap. simpl. intros ->. by rewrite Hby.
    + by rewrite home_dom.
  - apply vapply_ne. by rewrite home_dom.
Qed.

(** all the writes together *)
Lemma commit_value (f : Z -> option (list Z)) x : ~ in_log start x ->
  vapply (commit_writes start bls v) f x = if bool_decide (x ∈ bls) then v x else f x.
Proof using All.
  intros Hx. assert (x <> start) as Hs by (intros ->; apply Hx; unfold in_log, LOGBLOCKS, MAXOPBLOCKS; lia).
  unfold commit_writes. rewrite !vapply_app. simpl. rewrite bool_decide_false by done.
  rewrite home_value by auto. case_bool_decide; [done|]. rewrite bool_decide_false by done.
  apply vapply_ne. intros Hin. by destruct (log_writes_region x bls Hin).
Qed.

Lemma committed_value bls' x : ~ in_log start x -> (forall c, c ∈ bls' -> c ∈ bls) ->
  apply_writes (committed bls') d0 !! x = if bool_decide (x ∈ bls') then v x else d0 !! x.
Proof using All.
  intros Hx Hsub. rewrite apply_writes_lookup. unfold committed. rewrite cons_middle, !vapply_app.
  rewrite home_value by done. case_bool_decide; [done|]. simpl.
  rewrite bool_decide_false by (intros ->; apply Hx; unfold in_log, LOGBLOCKS, MAXOPBLOCKS; lia).
  apply vapply_ne. intros Hin. by destruct (log_writes_region x bls Hin).
Qed.

(** recovery after the commit point installs all the blocks *)
Lemma recover_committed bls' x : ~ in_log start x -> (forall c, c ∈ bls' -> c ∈ bls) ->
  recover_disk start (apply_writes (committed bls') d0) !! x =
    if bool_decide (x ∈ bls) then v x else d0 !! x.
Proof using All.
  intros Hx Hsub. rewrite (recover_lookup start _ _ _ (committed_head bls' Hsub) Hx), logged_head1.
  case_bool_decide as Hin.
  - destruct (Hbls x Hin) as (_ & _ & [by' Hby]). rewrite Hby. apply vapply_eq.
    + intros w (i & Hi)%list_elem_of_lookup Ew. unfold install_writes in Hi. rewrite list_lookup_imap in Hi.
      destruct (bls !! i) as [b|] eqn:Hb; [|done]. simpl in Hi. injection Hi as <-. simpl in *. subst b.
      by rewrite (committed_log bls' i x Hb Hsub), Hby.
    + by rewrite install_writes_dom.
  - rewrite vapply_ne by (by rewrite install_writes_dom).
    rewrite committed_value, bool_decide_false by auto. done.
Qed.

(** where a prefix of the writes of [commit] can end *)
Inductive crash_point (k : nat) : writes -> Prop :=
  | crash_log : (k <= length bls)%nat -> crash_point k (log_writes start (take k bls) v)
  | crash_home bls' : (length bls < k)%nat -> (forall c, c ∈ bls' -> c ∈ bls) ->
      crash_point k (committed bls')
  | crash_done : (length bls < k)%nat ->
      crash_point k (committed bls ++ [(start, head2 start bls v)]).

Lemma crash_cases k : crash_point k (take k (commit_writes start bls v)).
Proof using All.
  unfold commit_writes. set (n := length bls).
  assert (length (log_writes start bls v) = n) as Hll by (unfold log_writes; by rewrite length_imap).
  assert (length (home_writes bls v) = n) as Hhl by (unfold home_writes; by rewrite length_fmap).
  destruct (decide (k <= n)%nat) as [Hk|Hk]; [|destruct (decide (k <= n + 1 + n)%nat) as [Hk2|Hk2]].
  - rewrite take_app_le, take_log_writes by lia. by constructor.
  - rewrite take_app_ge, Hll by lia.
    assert (take (k - n) ([(start, head1 start bls v)] ++ home_writes bls v ++ [(start, head2 start bls v)])
      = (start, head1 start bls v) :: home_writes (take (k - n - 1) bls) v) as ->.
    { destruct (k - n)%nat as [|m] eqn:Em; [lia|]. simpl. f_equal. rewrite take_app_le by lia.
      unfold home_writes. rewrite fmap_take, Nat.sub_0_r. done. }
    apply (crash_home _ (take (k - n - 1) bls)); [lia|]. intros c. apply elem_of_take_in.
  - rewrite firstn_all2 by (rewrite !length_app; simpl; lia).
    replace (log_writes start bls v ++ [(start, head1 start bls v)] ++ home_writes bls v ++
      [(start, head2 start bls v)]) with (committed bls ++ [(start, head2 start bls v)])
      by (unfold committed; by rewrite <- app_assoc).
    apply crash_done. lia.
Qed.

Lemma crash_log_same bls' y : (length bls' <= length bls)%nat -> ~ in_log start y \/ y = start ->
  apply_writes (log_writes start bls' v) d0 !! y = d0 !! y.
Proof using All.
  intros Hl Hy. rewrite apply_writes_lookup. apply vapply_ne.
  intros Hin. destruct (log_writes_region y _ Hin Hl). tauto.
Qed.

(** the header a crash leaves behind lists either nothing or [bls] *)
Lemma crash_head k : exists h,
  apply_writes (take k (commit_writes start bls v)) d0 !! start = Some h /\
  length h = length hd /\
  ((int_at h 0 = 0 /\ logged h = []) \/
   (int_at h 0 = Z.of_nat (length bls) /\ logged h = bls)).
Proof using All.
  pose proof hd_fits as Hf. destruct (crash_cases k) as [Hk|bls' Hk Hsub|Hk].
  - exists hd. rewrite crash_log_same by (rewrite ?length_take; auto; lia).
    split_and!; [done|done|]. left. split; [done|]. by apply logged_zero.
  - exists (head_bytes bls hd). rewrite committed_head by done. rewrite length_head by done.
    split_and!; [done|done|]. right. split; [apply hd_n|apply logged_head1].
  - assert (length (head1 start bls v) = length hd) as Hl1
      by (unfold head1; rewrite Hv0; simpl; by rewrite length_head).
    assert (4 * (1 + Z.of_nat (@length Z [])) <= Z.of_nat (length (head1 start bls v))) as Hf1
      by (simpl; lia).
    exists (head2 start bls v). split_and!.
    + rewrite apply_writes_app. apply lookup_insert_eq.
    + unfold head2. by rewrite length_head.
    + left. split; [|apply logged_head2]. unfold int_at, head2. by rewrite head_n.
Qed.

Lemma crash_recover k x : ~ in_log start x ->
  recover_disk start (apply_writes (take k (commit_writes start bls v)) d0) !! x =
  if bool_decide (k <= length bls)%nat then d0 !! x
  else if bool_decide (x ∈ bls) then v x else d0 !! x.
Proof using All.
  intros Hx. destruct (crash_cases k) as [Hk|bls' Hk Hsub|Hk].
  - rewrite bool_decide_true by lia.
    assert (length (take k bls) <= length bls)%nat as Hl by (rewrite length_take; lia).
    rewrite (recover_lookup start _ hd) by (rewrite ?crash_log_same; auto).
    rewrite logged_zero by done. simpl. by apply crash_log_same; [|left].
  - rewrite bool_decide_false by lia. by apply recover_committed.
  - rewrite bool_decide_false by lia. rewrite apply_writes_app. simpl.
    rewrite (recover_lookup start _ (head2 start bls v)), logged_head2 by (try apply lookup_insert_eq; done).
    simpl. rewrite lookup_insert_ne by (intros ->; apply Hx; unfold in_log, LOGBLOCKS, MAXOPBLOCKS; lia).
    apply (committed_value bls); auto.
Qed.

Lemma crash_recoverable k :
  0 < start /\ start + LOGBLOCKS < 2 ^ 31 ->
  (forall x, in_log start x \/ x ∈ bls -> is_Some (d0 !! x)) ->
  recoverable start (apply_writes (take k (commit_writes start bls v)) d0).
Proof using All.
  intros Hrg Hdom. split; [done| |].
  - destruct (crash_head k) as (h & Hh & Hl & Hc). exists h. split; [done|]. split; [lia|].
    destruct Hc as [[-> ->]|[-> ->]].
    + split; [unfold LOGBLOCKS, MAXOPBLOCKS; lia|]. split; [constructor|].
      intros b Hb. by apply elem_of_nil in Hb.
    + split; [lia|]. split; [done|]. intros b Hb. destruct (Hbls b Hb) as (? & ? & _).
      split_and!; [lia|lia|done|]. apply apply_writes_is_Some. auto.
  - intros x Hx. apply apply_writes_is_Some. auto.
Qed.

End Crash.

(** ** The properties *)

(** what [end_op] guarantees when it calls [commit]: the transaction's blocks
    are pinned, nobody holds a buffer of the transaction or of the log, the
    header on disk is empty and the log area is on the disk *)
Record commit_ready (p : nat) (pr : proc) (s : kst) (start : Z) (bls : list Z) : Prop := {
  cr_running : running p pr s;
  cr_held : k_held s = [];
  cr_log : log_ok s start bls;
  cr_quiet : log_quiet s start bls;
  cr_pinned : forall b, b ∈ bls -> 1 <= refs s b;
  cr_head : exists hd, k_disk s !! start = Some hd /\ Z.of_nat (length hd) = BSIZE /\ int_at hd 0 = 0;
}.

Lemma ready_head p pr s start bls :
  commit_ready p pr s start bls -> exists hd, k_disk s !! start = Some hd /\ bview s start = Some hd /\
    Z.of_nat (length hd) = BSIZE /\ int_at hd 0 = 0.
Proof.
  intros [HR HH HL HQ Hpin (hd & Hd & Hl & Hz)]. exists hd. split_and!; [done| |done|done].
  destruct (lq_inv _ _ _ HQ) as [l HI]. rewrite <- (clean_view _ _ _ HI); [done|].
  apply (lq_log _ _ _ HQ). unfold LOGBLOCKS, MAXOPBLOCKS. lia.
Qed.

(** C1. The log makes a transaction atomic with respect to crashes: [commit]
    terminates, and if the machine stops after any number [k] of its disk
    writes, running [initlog] on the disk that is left terminates with an empty
    log and a disk that is, outside the log area, either exactly the disk before
    the commit (when the header had not been written) or the disk with every
    block of the transaction updated to its cached contents. *)
Theorem commit_crash_atomic p pr s start bls sb :
  commit_ready p pr s start bls -> bls <> [] -> s32 (sb_logstart sb) = start ->
  exists s' W, commit s = Ok tt s' /\ k_dwrites s' = k_dwrites s ++ W /\
    forall k q qr r, rebooted q qr r -> k_disk r = apply_writes (take k W) (k_disk s) ->
      exists r', initlog ROOTDEV sb r = Ok tt r' /\ l_n (k_log r') = 0 /\
        forall x, ~ in_log start x -> k_disk r' !! x =
          if bool_decide (k <= length bls)%nat then k_disk s !! x
          else if bool_decide (x ∈ bls) then bview s x else k_disk s !! x.
Proof.
  intros HC Hne Hsb. destruct (ready_head _ _ _ _ _ HC) as (hd & Hd & Hv & Hlen & Hz).
  destruct HC as [HR HH HL HQ Hpin _]. destruct (lq_inv _ _ _ HQ) as [l HI].
  destruct (commit_ok p pr start bls hd s HR HH HL HQ Hv Hlen Hpin Hne) as (s' & E & P).
  exists s', (commit_writes start bls (bview s)). split; [done|]. split; [apply P|].
  assert (forall b, b ∈ bls -> 0 <= b < 2 ^ 31 /\ ~ in_log start b /\ is_Some (bview s b)) as Hb.
  { intros b Hb. destruct (lo_dom _ _ _ HL b Hb) as (? & ? & ?).
    split_and!; [lia|lia|done|]. by apply (bview_some _ _ _ HI). }
  intros k q qr r HB Hdr.
  assert (recoverable start (k_disk r)) as Hrc.
  { rewrite Hdr. apply (crash_recoverable start bls (bview s) (k_disk s) hd); try done; try apply HL.
    intros x [Hx|Hx]; [by apply (lo_region _ _ _ HL)|by apply (lo_dom _ _ _ HL)]. }
  destruct (initlog_ok q qr r sb start HB Hrc Hsb) as (r' & E' & D' & N' & _).
  exists r'. split; [done|]. split; [done|]. intros x Hx. rewrite D', Hdr.
  apply (crash_recover start bls (bview s) (k_disk s) hd); try done; apply HL.
Qed.

(** the header block on the disk, after the last of the writes of [commit] *)
Lemma commit_header start bls v d hd :
  Z.of_nat (length bls) <= LOGBLOCKS -> v start = Some hd -> Z.of_nat (length hd) = BSIZE ->
  exists hd', apply_writes (commit_writes start bls v) d !! start = Some hd' /\
    Z.of_nat (length hd') = BSIZE /\ int_at hd' 0 = 0.
Proof.
  intros Hn Hv Hlen. assert (4 * (1 + Z.of_nat (length bls)) <= Z.of_nat (length hd)) as Hf
    by (unfold LOGBLOCKS, MAXOPBLOCKS in Hn; unfold BSIZE in Hlen; lia).
  assert (length (head1 start bls v) = length hd) as Hl by (unfold head1; rewrite Hv; by apply length_head).
  exists (head2 start bls v). split_and!.
  - rewrite apply_writes_lookup. unfold commit_writes. rewrite !app_assoc, vapply_app. simpl. by rewrite bool_decide_true.
  - unfold head2. rewrite length_head; simpl; lia.
  - unfold int_at, head2. rewrite head_n; [done|simpl; lia].
Qed.

(** C2. A commit that is not interrupted puts every block of the transaction
    home, leaves the rest of the disk alone outside the log area, does not
    change what any process reads through the cache outside the log area,
    and drops exactly the transaction's pins.  The log is empty afterwards, in
    memory and on the disk: the header block has been erased, so that recovery
    would install nothing. *)
Theorem commit_installs p pr s start bls :
  commit_ready p pr s start bls -> bls <> [] ->
  exists s', commit s = Ok tt s' /\ l_n (k_log s') = 0 /\
    (exists hd, k_disk s' !! start = Some hd /\ Z.of_nat (length hd) = BSIZE /\ int_at hd 0 = 0) /\
    (forall x, ~ in_log start x -> bview s' x = bview s x) /\
    (forall b, b ∈ bls -> k_disk s' !! b = bview s b) /\
    (forall x, ~ in_log start x -> x ∉ bls -> k_disk s' !! x = k_disk s !! x) /\
    (forall x, refs s' x = if bool_decide (x ∈ bls) then refs s x - 1 else refs s x).
Proof.
  intros HC Hne. destruct (ready_head _ _ _ _ _ HC) as (hd & Hd & Hv & Hlen & Hz).
  destruct HC as [HR HH HL HQ Hpin _]. destruct (lq_inv _ _ _ HQ) as [l HI].
  destruct (commit_ok p pr start bls hd s HR HH HL HQ Hv Hlen Hpin Hne) as (s' & E & P).
  assert (forall b, b ∈ bls -> 0 <= b < 2 ^ 31 /\ ~ in_log start b /\ is_Some (bview s b)) as Hb.
  { intros b Hb. destruct (lo_dom _ _ _ HL b Hb) as (? & ? & ?).
    split_and!; [lia|lia|done|]. by apply (bview_some _ _ _ HI). }
  assert (forall x (f : Z -> option (list Z)), ~ in_log start x ->
    vapply (commit_writes start bls (bview s)) f x =
    if bool_decide (x ∈ bls) then bview s x else f x) as Hval.
  { intros x f Hx. by apply (commit_value start bls (bview s) (k_disk s) hd); try done; apply HL. }
  destruct P as [_ D _ V R _ L _]. exists s'. split_and!; [done|by rewrite L|rewrite D; apply (commit_header _ _ _ _ hd); try done; apply HL| | | |].
  - intros x Hx. rewrite V, Hval by done. by case_bool_decide.
  - intros b Hin. rewrite D, apply_writes_lookup, Hval by (by apply Hb). by rewrite bool_decide_true.
  - intros x Hx Hnin. rewrite D, apply_writes_lookup, Hval by done. by rewrite bool_decide_false.
  - intros x. rewrite R. done.
Qed.
