(* ===== verification/LogOps.v ===== *)
(** * File-system operations and the log

    [log_write] records a block once (log absorption) and pins it; [begin_op]
    admits an operation only when the log has room for it, so that operations
    that write at most [MAXOPBLOCKS] blocks never overflow the log. *)

From S2P Require Import Prelude Monad Types Kernel Kalloc Bio Lru BioFacts Log LogFacts LogCrash.
From stdpp Require Import base numbers list gmap strings.
From Stdlib Require Import ZArith Lia.

Open Scope Z_scope.

(** ** log_write *)

(** the running process is not in an active transaction *)
Definition no_tx (s : kst) : Prop := tx_active s = Ok false s.

(** the log header array after [log_write] of block [bno] *)
Definition absorb (bls : list Z) (bno : Z) : list Z :=
  if bool_decide (bno ∈ bls) then bls else bls ++ [bno].

(** the search of [log_write] *)
Definition log_slot (bls : list Z) (bno : Z) : Z :=
  default (Z.of_nat (length bls)) (find_map (fun i =>
    if u32 (default 0 (bls !! Z.to_nat i)) =? bno then Some i else None)
    (seqZ 0 (Z.of_nat (length bls)))).

Lemma find_map_some {X R} (g : X -> option R) l v :
  find_map g l = Some v -> exists x, x ∈ l /\ g x = Some v.
Proof.
  induction l as [|x l IH]; simpl; [done|]. destruct (g x) eqn:E.
  - intros [= ->]. exists x. split; [by left|done].
  - intros (y & ? & ?)%IH. exists y. split; [by right|done].
Qed.

Lemma find_map_none {X R} (g : X -> option R) l x : find_map g l = None -> x ∈ l -> g x = None.
Proof.
  induction l as [|y l IH]; simpl; [set_solver|]. destruct (g y) eqn:E; [done|].
  intros Hn [->|Hx]%elem_of_cons; auto.
Qed.

Lemma log_slot_spec bls bno :
  (forall b, b ∈ bls -> 0 <= b < 2 ^ 31) ->
  (exists k, log_slot bls bno = Z.of_nat k /\ bls !! k = Some bno) \/
  (bno ∉ bls /\ log_slot bls bno = Z.of_nat (length bls)).
Proof.
  intros Hr. unfold log_slot. destruct (find_map _ _) as [v|] eqn:E; simpl.
  - left. apply find_map_some in E as (i & Hi%elem_of_seqZ & Hv).
    destruct (lookup_lt_is_Some_2 bls (Z.to_nat i)) as [b Hb]; [lia|]. rewrite Hb in Hv. simpl in Hv.
    rewrite wrap_small in Hv by (specialize (Hr b (list_elem_of_lookup_2 _ _ _ Hb)); lia).
    destruct (b =? bno) eqn:Eb; zbool; [|done]. injection Hv as <-. exists (Z.to_nat i).
    split; [lia|]. by subst.
  - right. split; [|done]. intros (k & Hk)%list_elem_of_lookup.
    eapply (find_map_none _ _ (Z.of_nat k)) in E.
    + cbv beta in E. rewrite Nat2Z.id, Hk in E. simpl in E.
      rewrite wrap_small, Z.eqb_refl in E; [done|]. specialize (Hr bno (list_elem_of_lookup_2 _ _ _ Hk)). lia.
    + apply elem_of_seqZ. apply lookup_lt_Some in Hk. lia.
Qed.

Section LogWrite.
Context (s : kst) (l : list nat) (start : Z) (bls : list Z) (bno : Z) (i : nat).
Context (HI : bio_inv s l) (HH : k_held s = []) (HN : no_tx s) (HL : log_ok s start bls).
Context (Harr : length (l_block (k_log s)) = Z.to_nat LOGBLOCKS).
Context (Hc : cached s bno = Some i).
Context (Hbno : 0 <= bno < 2 ^ 31).
Context (Hroom : Z.of_nat (length bls) < LOGBLOCKS) (Hout : 1 <= l_outstanding (k_log s)).

(** the log state after the call *)
Definition logged_state (lg : logstate) : logstate :=
  if bool_decide (bno ∈ bls) then lg
  else set_l_n (fun n => n + 1) (set_l_block <[length bls := bno]> lg).

Lemma log_search s' : k_log s' = k_log s ->
  for_find (seqZ 0 (Z.of_nat (length bls))) (fun k => blk ← lh_block k;
    mret (if u32 blk =? bno then Some k else None)) s' =
  Ok (find_map (fun k => if u32 (default 0 (bls !! Z.to_nat k)) =? bno then Some k else None)
    (seqZ 0 (Z.of_nat (length bls)))) s'.
Proof using HL.
  clear Hroom Harr Hout Hbno. intros El. apply for_find_pure. intros k Hk%elem_of_seqZ.
  destruct (lookup_lt_is_Some_2 bls (Z.to_nat k)) as [b Hb]; [lia|].
  erewrite bind_ok.
  2:{ rewrite <- (Z2Nat.id k) by lia. by apply (lh_block_ok start bls s). }
  by rewrite Hb.
Qed.

Lemma log_write_run :
  log_write i s = Ok tt (set_k_log logged_state (if bool_decide (bno ∈ bls) then s
    else set_k_bcache (alter (set_b_refcnt (fun n => u32 (n + 1))) i) s)).
Proof using HI HH HN HL Harr Hc Hbno Hroom Hout.
  destruct (cached_centry _ _ _ _ HI Hc) as (b & [_ Hb] & _ & Hbn & _).
  unfold log_write. erewrite bind_ok by exact HN. cbv beta iota.
  erewrite bind_ok by (apply acquire_ok; rewrite HH; clear; set_solver).
  erewrite bind_ok by reflexivity. ksimpl. rewrite (lo_n _ _ _ HL).
  rewrite (proj2 (Z.leb_gt _ _)), (proj2 (Z.ltb_ge _ _)) by lia.
  erewrite bind_ok by (unfold get_buf, deref; ksimpl; by rewrite Hb). rewrite Hbn.
  erewrite bind_ok by (by apply log_search). fold (log_slot bls bno). unfold logged_state.
  assert (s32 bno = bno) as Es by (apply swrap_small; lia). rewrite Es.
  destruct (log_slot_spec bls bno) as [(k & -> & Hk)|[Hnin ->]].
  { intros c Hcin. by destruct (lo_dom _ _ _ HL c Hcin). }
  - pose proof (lookup_lt_Some _ _ _ Hk) as Hlt. rewrite Nat2Z.id.
    rewrite bool_decide_true by (by eapply list_elem_of_lookup_2).
    erewrite bind_ok by reflexivity.
    rewrite (proj2 (Z.eqb_neq _ _)) by lia. erewrite bind_ok by reflexivity.
    apply run_wp. eapply wp_release; [by ksimpl|]. split; [done|]. kst_eq.
    unfold set_l_block. rewrite list_insert_id by (by apply (lo_blocks _ _ _ HL)). by destruct (k_log s).
  - rewrite Nat2Z.id, bool_decide_false, Z.eqb_refl by done. erewrite bind_ok by reflexivity.
    apply run_wp. apply wp_bind, wp_bind. unfold bpin.
    apply wp_bind, wp_acquire; [ksimpl; rewrite HH; clear; set_solver|].
    apply wp_bind. unfold upd_buf. apply wp_modify. eapply wp_release; [by ksimpl|].
    unfold upd_log. apply wp_modify. eapply wp_release; [by ksimpl|]. split; [done|]. kst_eq.
Qed.

Lemma log_ok_absorb s' :
  k_disk s' = k_disk s -> k_log s' = logged_state (k_log s) ->
  ~ in_log start bno -> is_Some (k_disk s !! bno) -> log_ok s' start (absorb bls bno).
Proof using HL Harr Hbno Hroom.
  clear HH HI HN Hc Hout.
  intros Ed El Hnl Hd. unfold absorb, logged_state in *. destruct HL as [H1 H2 H3 H4 H5 H6 H7 H8 H9].
  case_bool_decide as Hin; split; rewrite ?El, ?Ed; ksimpl; try done.
  - rewrite length_app. simpl. lia.
  - intros k b Hk. apply lookup_app_Some in Hk as [Hk|[Hge Hk]].
    + apply lookup_lt_Some in Hk as Hlt. rewrite list_lookup_insert_ne by lia. by apply H4.
    + apply list_lookup_singleton_Some in Hk as [Hk <-]. replace k with (length bls) by lia.
      apply list_lookup_insert_eq. lia.
  - rewrite length_app. simpl. lia.
  - intros b [Hb| ->%list_elem_of_singleton]%elem_of_app; [by apply H7|]. done.
  - apply NoDup_app. split_and!; [done| |apply NoDup_singleton]. set_solver.
Qed.

End LogWrite.

(** [log_write] records a block in the transaction exactly once and pins
    it when it is new: afterwards the log lists the block (at its old place if
    it was already there), nothing is written to disk, and no block's contents
    change. *)
Theorem log_write_absorbs s l pr start bls bno i :
  bio_inv s l -> k_held s = [] -> no_tx s -> log_ok s start bls ->
  length (l_block (k_log s)) = Z.to_nat LOGBLOCKS ->
  cached s bno = Some i -> blocked s bno = Some (p_pid pr) -> 0 <= bno < 2 ^ 31 ->
  ~ in_log start bno -> is_Some (k_disk s !! bno) -> refs s bno + 1 < 2 ^ 32 ->
  Z.of_nat (length bls) < LOGBLOCKS -> 1 <= l_outstanding (k_log s) ->
  exists s', log_write i s = Ok tt s' /\ log_ok s' start (absorb bls bno) /\ bio_inv s' l /\
    (forall x, bview s' x = bview s x) /\ k_disk s' = k_disk s /\ k_dwrites s' = k_dwrites s /\
    (forall x, refs s' x = if bool_decide (x = bno /\ bno ∉ bls) then refs s bno + 1 else refs s x).
Proof.
  intros HI HH HN HL Harr Hc Hb Hr Hnl Hd Href Hroom Hout.
  pose proof (log_write_run s l start bls bno i HI HH HN HL Harr Hc Hr Hroom Hout) as E.
  eexists. split; [exact E|]. split.
  - apply (log_ok_absorb s start bls bno); try done; by case_bool_decide.
  - case_bool_decide as Hin.
    + split_and!; [by apply bio_inv_log|intros; by rewrite bview_log|done|done|].
      intros x. rewrite refs_log, bool_decide_false; [done|]. tauto.
    + destruct (refcnt_step s l pr HI bno i Hc Hb (fun n => n + 1) (refs s bno + 1))
        as [I D W _ _ V R _ _ _].
      { intros b _ ->. apply wrap_small. pose proof (refs_nonneg _ _ bno HI). lia. }
      { pose proof (refs_nonneg _ _ bno HI). lia. }
      split_and!; [by apply bio_inv_log|intros; rewrite bview_log; apply V|done|done|].
      intros x. rewrite refs_log, R. repeat case_bool_decide; try done; tauto.
Qed.
