(* ===== verification/Tx.v ===== *)
(** * Transactions: worksets and shadow copies ([tx.c], first part)

    A transaction keeps a workset: the objects (inodes and buffers) it has
    touched, each with a private shadow copy of the object's data, in an array
    sorted by the address of the object.  [txshadow] finds or creates the
    shadow, [txdata] and [bdata] give the data pointer the current context
    must use.  A [struct workset_entry *] is the index of the entry. *)

From S2P Require Import Prelude Monad CString Types Kernel Kalloc Uart Printf Bio Log.
From stdpp Require Import base numbers list gmap strings.
From Stdlib Require Import ZArith Lia.

Open Scope Z_scope.

Definition zero_entry : workset_entry := Mk_workset_entry None 0 false false None.

(** a transaction after [memset(tx, 0, sizeof( *tx))] *)
Definition zero_tx : transaction :=
  Mk_transaction 0 0 0 0 false
    (replicate (Z.to_nat MAX_WORKSET) zero_entry) 0
    (replicate (Z.to_nat MAX_UNDO) None) (replicate (Z.to_nat MAX_UNDO) None) 0.

Section Tx.
Context {L : Layout}.

Definition txalloc : K Z :=
  tx ← kalloc;
  if tx =? 0 then mret 0 else
  store tx (PTx zero_tx);;
  upd_tx tx (set_tx_retry_count (fun _ => 0));;
  upd_tx tx (set_tx_start_time (fun _ => 0));;
  upd_tx tx (set_tx_status (fun _ => TX_INACTIVE));;
  upd_tx tx (set_tx_kjmp_valid (fun _ => false));;
  mret tx.

Definition txfree (tx : Z) : K unit := kfree tx.

(** the [header] of an entry, as the address the C code compares *)
Definition hdr (e : workset_entry) : Z :=
  match we_header e with Some o => obj_addr o | None => 0 end.

Definition ws_entry (t : transaction) (i : Z) : K workset_entry :=
  deref (fun _ : kst => if 0 <=? i then tx_workset t !! Z.to_nat i else None).

(** binary search; an interval of at most 16 entries is halved at most 5
    times, so [MAX_WORKSET] iterations are enough *)
Definition find_workset_entry (t : transaction) (header : obj) : K (option nat) :=
  loop (S (Z.to_nat MAX_WORKSET)) (fun '(lo, hi) =>
    if lo <=? hi then
      let mid := lo + Z.quot (hi - lo) 2 in
      e ← ws_entry t mid;
      if hdr e =? obj_addr header then mret (inr (Some (Z.to_nat mid)))
      else if hdr e <? obj_addr header then mret (inl (mid + 1, hi))
      else mret (inl (lo, mid - 1))
    else mret (inr None)) (0, tx_workset_size t - 1).

Definition get_data_ptr (o : obj) : K Z :=
  match o with
  | HBuf i => b ← get_buf i; mret (b_data b)
  | HInode i => ip ← get_ip i; mret (i_data ip)
  end.

Definition set_data_ptr (o : obj) (a : Z) : K unit :=
  match o with
  | HBuf i => upd_buf i (set_b_data (fun _ => a))
  | HInode i => upd_ip i (set_i_data (fun _ => a))
  end.

(** the sorting loop of [txshadow]: move entry [i] down to its place *)
Fixpoint sort_workset (i : nat) (ws : list workset_entry) : list workset_entry :=
  match i with
  | O => ws
  | S j =>
      match ws !! j, ws !! i with
      | Some a, Some b =>
          if hdr b <? hdr a then sort_workset j (<[j := b]> (<[i := a]> ws)) else ws
      | _, _ => ws
      end
  end.

Definition upd_entry (tx : Z) (k : nat) (f : workset_entry -> workset_entry) : K unit :=
  upd_tx tx (set_tx_workset (alter f k)).

Definition full_msg : list Z := chars "DEBUG: txshadow -- workset full" ++ [10].
Definition conflict_msg : list Z :=
  chars "DEBUG: txshadow -- aborting due to detection of another active tx" ++ [10].

Definition txshadow (header : obj) (read_only : bool) (ops : tx_ops) : K Z :=
  p ← myproc;
  pr ← get_proc p;
  let tx := p_tx pr in
  t ← load_tx tx;
  existing ← find_workset_entry t header;
  match existing with
  | Some k => e ← ws_entry t (Z.of_nat k); mret (we_shadow e)
  | None =>
      if MAX_WORKSET <=? tx_workset_size t then kprintf full_msg [];; mret 0 else
      acquire (Lxobj header);;
      x ← get_xobj header;
      if negb (xo_writer x =? 0) && negb (xo_writer x =? tx) then
        kprintf conflict_msg [];; release (Lxobj header);; mret 0
      else
        upd_xobj header (set_xo_writer (fun _ => tx));;
        release (Lxobj header);;
        let k := Z.to_nat (tx_workset_size t) in
        upd_tx tx (set_tx_workset_size (fun n => n + 1));;
        upd_entry tx k (set_we_header (fun _ => Some header));;
        upd_entry tx k (set_we_read_only (fun _ => read_only));;
        sh ← kalloc;
        upd_entry tx k (set_we_shadow (fun _ => sh));;
        if sh =? 0 then panic "txshadow: out of memory" else
        upd_entry tx k (set_we_ops (fun _ => Some ops));;
        src ← get_data_ptr header;
        v ← load src;
        store sh v;;
        upd_tx tx (set_tx_workset (sort_workset k));;
        mret sh
  end.

Definition txdata (header : obj) (read_only : bool) (ops : tx_ops) : K Z :=
  act ← tx_active;
  if (act : bool) then txshadow header read_only ops else get_data_ptr header.

(** the [buf_data] pointer for the current context *)
Definition bdata (bp : nat) : K Z :=
  c ← gets k_cur;
  act ← match c with None => mret false | Some _ => tx_active end;
  if (act : bool) then
    p ← myproc;
    pr ← get_proc p;
    t ← load_tx (p_tx pr);
    let old_size := tx_workset_size t in
    d ← txshadow (HBuf bp) false buffer_ops;
    if d =? 0 then panic "bdata: txshadow failed" else
    t ← load_tx (p_tx pr);
    when (old_size <? tx_workset_size t)
      (bpin bp;;
       e ← find_workset_entry t (HBuf bp);
       match e with
       | Some k =>
           b ← get_buf bp;
           upd_entry (p_tx pr) k (set_we_newly_allocated (fun _ => b_refcnt b =? 1))
       | None => mret tt
       end);;
    mret d
  else b ← get_buf bp; mret (b_data b).

End Tx.
