(* ===== verification/Workset.v ===== *)
(** * The workset of a transaction

    The workset is an array sorted by the address of the object.  The binary
    search of [find_workset_entry] is shown to agree with a linear search, and
    the sorting loop of [txshadow] to insert the new entry at its place. *)

From S2P Require Import Prelude Monad Types Kernel Kalloc Bio Log Tx.
From stdpp Require Import base numbers list gmap strings sorting.
From Stdlib Require Import ZArith Lia.

Open Scope Z_scope.

Section Workset.
Context {L : Layout}.

(** ** Definitions *)

(** the entries in use *)
Definition entries (t : transaction) : list workset_entry :=
  take (Z.to_nat (tx_workset_size t)) (tx_workset t).

(** reference definition of the search: the first entry for [o] *)
Definition linear_find (t : transaction) (o : obj) : option nat :=
  fst <$> list_find (fun e => we_header e = Some o) (entries t).

(** reference definition of the insertion *)
Fixpoint insert_entry (e : workset_entry) (l : list workset_entry) : list workset_entry :=
  match l with
  | [] => [e]
  | a :: l => if hdr e <? hdr a then e :: a :: l else a :: insert_entry e l
  end.

Definition entry_ok (e : workset_entry) : Prop := exists o, we_header e = Some o /\ obj_ok o.

Definition hdr_lt (a b : workset_entry) : Prop := hdr a < hdr b.

Record ws_ok (t : transaction) : Prop := {
  ws_size : 0 <= tx_workset_size t <= MAX_WORKSET;
  ws_len : Z.of_nat (length (tx_workset t)) = MAX_WORKSET;
  ws_entries : Forall entry_ok (entries t);
  ws_sorted : StronglySorted hdr_lt (entries t);
}.

(** ** Addresses *)

Lemma obj_addr_inj o o' : obj_ok o -> obj_ok o' -> obj_addr o = obj_addr o' -> o = o'.
Proof.
  pose proof tables_disjoint as H. unfold obj_addr, obj_ok, sizeof_inode, sizeof_buf in *.
  destruct o as [i|i], o' as [j|j]; intros Hi Hj E; first [f_equal; lia|exfalso; lia].
Qed.

Lemma hdr_eq e o : entry_ok e -> obj_ok o -> hdr e = obj_addr o <-> we_header e = Some o.
Proof.
  intros (o' & He & Ho') Ho. unfold hdr. rewrite He. split.
  - intros E. f_equal. by apply obj_addr_inj.
  - intros [= ->]. done.
Qed.

(** ** The entries as a list *)

Section Entries.
Context (t : transaction) (Ht : ws_ok t).

Lemma length_entries : length (entries t) = Z.to_nat (tx_workset_size t).
Proof using Ht.
  unfold entries. rewrite length_take. pose proof (ws_size _ Ht). pose proof (ws_len _ Ht). lia.
Qed.

Lemma entries_lookup i : (i < Z.to_nat (tx_workset_size t))%nat -> entries t !! i = tx_workset t !! i.
Proof using Type. intros Hi. unfold entries. by apply lookup_take_lt. Qed.

Lemma entries_lt i j a b :
  entries t !! i = Some a -> entries t !! j = Some b -> (i < j)%nat -> hdr a < hdr b.
Proof using Ht. intros Ha Hb Hij. by eapply (sorted_lookup hdr_lt _ i j); [apply (ws_sorted _ Ht)|..]. Qed.

Lemma entries_pos i j a b :
  entries t !! i = Some a -> entries t !! j = Some b -> hdr a < hdr b -> (i < j)%nat.
Proof using Ht.
  intros Ha Hb Hlt. destruct (decide (i < j)%nat) as [|Hge]; [done|].
  destruct (decide (i = j)) as [->|Hne].
  - rewrite Ha in Hb. injection Hb as <-. lia.
  - pose proof (entries_lt j i b a Hb Ha ltac:(lia)). lia.
Qed.

Lemma linear_find_some o k e :
  obj_ok o -> entries t !! k = Some e -> hdr e = obj_addr o -> linear_find t o = Some k.
Proof using Ht.
  intros Ho Hk He. unfold linear_find.
  assert (list_find (fun e => we_header e = Some o) (entries t) = Some (k, e)) as ->; [|done].
  apply list_find_Some. split_and!.
  - done.
  - apply hdr_eq; [|done|done]. by eapply Forall_lookup_1; [apply (ws_entries _ Ht)|].
  - intros j y Hj Hlt Hy. pose proof (entries_lt _ _ _ _ Hj Hk Hlt) as H.
    assert (hdr y = obj_addr o) as E by (unfold hdr; by rewrite Hy). lia.
Qed.

Lemma linear_find_none o :
  obj_ok o -> (forall k e, entries t !! k = Some e -> hdr e <> obj_addr o) -> linear_find t o = None.
Proof using Ht.
  intros Ho Hno. unfold linear_find.
  assert (list_find (fun e => we_header e = Some o) (entries t) = None) as ->; [|done].
  apply list_find_None, Forall_forall. intros e (k & Hk)%list_elem_of_lookup He.
  apply (Hno _ _ Hk). unfold hdr. by rewrite He.
Qed.

Lemma ws_entry_ok k e s : entries t !! k = Some e -> ws_entry t (Z.of_nat k) s = Ok e s.
Proof using Ht.
  intros Hk. pose proof (lookup_lt_Some _ _ _ Hk) as Hlt. rewrite length_entries in Hlt.
  rewrite entries_lookup in Hk by lia. unfold ws_entry, deref.
  rewrite (proj2 (Z.leb_le _ _)), Nat2Z.id, Hk by lia. done.
Qed.

(** ** The binary search *)

(** everything below [lo] is smaller, everything above [hi] larger *)
Definition window (o : obj) (w : Z * Z) : Prop :=
  0 <= w.1 /\ w.2 < tx_workset_size t /\ w.1 <= w.2 + 1 /\
  (forall k e, entries t !! k = Some e -> Z.of_nat k < w.1 -> hdr e < obj_addr o) /\
  (forall k e, entries t !! k = Some e -> w.2 < Z.of_nat k -> obj_addr o < hdr e).

Lemma find_workset_entry_eq o s :
  obj_ok o -> find_workset_entry t o s = Ok (linear_find t o) s.
Proof using Ht.
  intros Ho. apply run_wp. unfold find_workset_entry.
  pose proof (ws_size _ Ht) as Hsz.
  apply (wp_loop _ (fun w => Z.to_nat (w.2 - w.1 + 1)) (fun w s' => window o w /\ s' = s)).
  - split; [|done]. split_and!; simpl; [lia..| |].
    + intros k e _ Hk. lia.
    + intros k e Hk Hk'. apply lookup_lt_Some in Hk. rewrite length_entries in Hk. lia.
  - simpl. unfold MAX_WORKSET in *. lia.
  - intros [lo hi] s' [(H1 & H2 & H3 & H4 & H5) ->]. simpl in *.
    destruct (lo <=? hi) eqn:E; zbool; [|apply wp_ret; split; [|done]].
    + set (mid := lo + Z.quot (hi - lo) 2).
      assert (lo <= mid <= hi) as Hmid.
      { unfold mid. rewrite Z.quot_div_nonneg by lia.
        pose proof (Z.div_pos (hi - lo) 2). pose proof (Z.div_le_upper_bound (hi - lo) 2 (hi - lo)). lia. }
      destruct (lookup_lt_is_Some_2 (entries t) (Z.to_nat mid)) as [e He].
      { rewrite length_entries. lia. }
      apply wp_bind. eapply wp_run.
      { rewrite <- (Z2Nat.id mid) by lia. by apply ws_entry_ok. }
      destruct (hdr e =? obj_addr o) eqn:Eq; zbool.
      { apply wp_ret. split; [|done]. by erewrite linear_find_some. }
      destruct (hdr e <? obj_addr o) eqn:Elt; zbool; apply wp_ret; simpl;
        (split; [split; [split_and!; simpl; try lia; try done|done]|lia]).
      * intros k e' Hk Hlt. destruct (decide (k = Z.to_nat mid)) as [->|Hne].
        { rewrite He in Hk. injection Hk as <-. lia. }
        pose proof (entries_lt _ _ _ _ Hk He ltac:(lia)). lia.
      * intros k e' Hk Hlt. destruct (decide (k = Z.to_nat mid)) as [->|Hne].
        { rewrite He in Hk. injection Hk as <-. lia. }
        pose proof (entries_lt _ _ _ _ He Hk ltac:(lia)). lia.
    + symmetry. apply linear_find_none; [done|]. intros k e Hk Eh.
      destruct (decide (Z.of_nat k < lo)) as [Hlt|Hge].
      * specialize (H4 _ _ Hk Hlt). lia.
      * specialize (H5 _ _ Hk ltac:(lia)). lia.
Qed.

End Entries.

(** ** The insertion *)

Lemma insert_entry_snoc e l a :
  hdr e < hdr a -> insert_entry e (l ++ [a]) = insert_entry e l ++ [a].
Proof.
  intros Hlt. induction l as [|b l IH]; simpl.
  - by rewrite (proj2 (Z.ltb_lt _ _)).
  - destruct (hdr e <? hdr b); [done|]. by rewrite IH.
Qed.

Lemma insert_entry_last e l :
  Forall (fun a => hdr a <= hdr e) l -> insert_entry e l = l ++ [e].
Proof.
  induction 1 as [|a l Ha Hl IH]; simpl; [done|].
  rewrite (proj2 (Z.ltb_ge _ _)) by lia. by rewrite IH.
Qed.

Lemma insert_entry_perm e l : insert_entry e l ≡ₚ e :: l.
Proof.
  induction l as [|a l IH]; simpl; [done|]. destruct (hdr e <? hdr a); [done|].
  rewrite IH. apply Permutation_swap.
Qed.

Lemma insert_entry_sorted e l :
  StronglySorted hdr_lt l -> Forall (fun a => hdr a <> hdr e) l ->
  StronglySorted hdr_lt (insert_entry e l).
Proof.
  induction 1 as [|a l Hs IH Ha]; intros Hne; simpl.
  - repeat constructor.
  - inversion Hne as [|?? Hae Hle]. subst. destruct (hdr e <? hdr a) eqn:E; zbool.
    + constructor; [by constructor|]. constructor; [done|].
      eapply Forall_impl; [exact Ha|]. unfold hdr_lt. simpl. lia.
    + constructor; [auto|]. rewrite insert_entry_perm. constructor; [unfold hdr_lt; lia|done].
Qed.

(** the sorting loop inserts the entry after the first [length pre] ones *)
Lemma sort_workset_insert pre e post :
  StronglySorted hdr_lt pre ->
  sort_workset (length pre) (pre ++ e :: post) = insert_entry e pre ++ post.
Proof.
  revert post. induction pre as [|a pre IH] using rev_ind; intros post Hs; [done|].
  rewrite length_app, Nat.add_1_r, <- app_assoc. cbn [sort_workset app].
  rewrite lookup_app_r, Nat.sub_diag by lia. cbn [lookup list_lookup].
  rewrite lookup_app_r by lia. replace (S (length pre) - length pre)%nat with 1%nat by lia.
  cbn [lookup list_lookup]. apply StronglySorted_app in Hs as (Hpa & Hpre & _).
  destruct (hdr e <? hdr a) eqn:E; zbool.
  - rewrite insert_entry_snoc, <- app_assoc by done. simpl. rewrite <- IH by done. f_equal.
    rewrite insert_app_r_alt by lia. replace (S (length pre) - length pre)%nat with 1%nat by lia.
    cbn [insert list_insert]. rewrite insert_app_r_alt, Nat.sub_diag by lia. done.
  - rewrite insert_entry_last, <- !app_assoc; [done|]. apply Forall_app. split; [|by repeat constructor].
    apply Forall_forall. intros b Hb. specialize (Hpa b a Hb ltac:(by left)). unfold hdr_lt in Hpa. lia.
Qed.

(** adding an entry for a new object keeps the workset well formed *)
Definition add_entry (e : workset_entry) (t : transaction) : transaction :=
  set_tx_workset (fun ws => insert_entry e (entries t) ++ drop (S (Z.to_nat (tx_workset_size t))) ws)
    (set_tx_workset_size (fun n => n + 1) t).

Lemma entries_add e t :
  ws_ok t -> tx_workset_size t < MAX_WORKSET -> entries (add_entry e t) = insert_entry e (entries t).
Proof.
  intros Ht Hlt. unfold entries at 1, add_entry. ksimpl. pose proof (ws_size _ Ht) as Hsz.
  assert (Z.to_nat (tx_workset_size t + 1) = length (insert_entry e (entries t))) as ->.
  { rewrite (Permutation_length (insert_entry_perm e (entries t))). simpl.
    rewrite (length_entries _ Ht). lia. }
  apply take_app_length.
Qed.

Lemma add_entry_ok e t :
  ws_ok t -> tx_workset_size t < MAX_WORKSET -> entry_ok e ->
  (forall a, a ∈ entries t -> hdr a <> hdr e) -> ws_ok (add_entry e t).
Proof.
  intros Ht Hlt He Hnew. pose proof (ws_size _ Ht) as Hsz. pose proof (ws_len _ Ht) as Hlen. split.
  - unfold add_entry. ksimpl. lia.
  - unfold add_entry. ksimpl. rewrite length_app, (Permutation_length (insert_entry_perm _ _)).
    simpl. rewrite length_drop, (length_entries _ Ht). lia.
  - rewrite entries_add, insert_entry_perm by done. constructor; [done|apply Ht].
  - rewrite entries_add by done. apply insert_entry_sorted; [apply Ht|]. by apply Forall_forall.
Qed.

(** an object that is not in the workset has a new address *)
Lemma linear_find_new t o a :
  ws_ok t -> obj_ok o -> linear_find t o = None -> a ∈ entries t -> hdr a <> obj_addr o.
Proof.
  intros Ht Ho Hn (k & Hk)%list_elem_of_lookup E. by rewrite (linear_find_some _ Ht o k a) in Hn.
Qed.

Lemma linear_find_entry t o k :
  linear_find t o = Some k -> exists e, entries t !! k = Some e /\ we_header e = Some o.
Proof.
  unfold linear_find. destruct (list_find _ _) as [[j e]|] eqn:E; [|done]. simpl. intros [= ->].
  apply list_find_Some in E as (? & ? & _). eauto.
Qed.

Lemma linear_find_is_Some t o :
  is_Some (linear_find t o) <-> exists e, e ∈ entries t /\ we_header e = Some o.
Proof.
  split.
  - intros [k (e & Hk & He)%linear_find_entry]. exists e. split; [by eapply list_elem_of_lookup_2|done].
  - intros (e & Hin & He). unfold linear_find. destruct (list_find _ _) as [[]|] eqn:E; [by eexists|].
    apply list_find_None in E. rewrite Forall_forall in E. by destruct (E e Hin).
Qed.

Lemma linear_find_add t o e :
  ws_ok t -> tx_workset_size t < MAX_WORKSET -> we_header e <> Some o ->
  is_Some (linear_find (add_entry e t) o) <-> is_Some (linear_find t o).
Proof.
  intros Ht Hlt Hne. rewrite !linear_find_is_Some, entries_add by done.
  split; intros (a & Hin & Ha); exists a; (split; [|done]).
  - rewrite insert_entry_perm in Hin. apply elem_of_cons in Hin as [->|?]; [congruence|done].
  - rewrite insert_entry_perm. by right.
Qed.

End Workset.
