(* ===== verification/TxFacts.v ===== *)
(** * What shadow copies promise

    [txshadow] is run on every branch: the object is already in the workset,
    the workset is full, another transaction has the object, memory is short,
    or a new shadow is made.  From the runs follow the isolation of the stable
    data, read-your-writes, and the exclusion of two transactions writing the
    same object. *)

From S2P Require Import Prelude Monad Types Kernel Kalloc Bio Log Uart Printf Echo Tx Workset.
From stdpp Require Import base numbers list gmap strings sorting.
From Stdlib Require Import ZArith Lia.

Open Scope Z_scope.

(** ** Pure accessors *)

Definition data_ptr (s : kst) (o : obj) : option Z :=
  match o with
  | HBuf i => b_data <$> k_bcache s !! i
  | HInode i => i_data <$> k_itable s !! i
  end.

Definition xobj_of (s : kst) (o : obj) : option tx_data :=
  match o with
  | HBuf i => b_xobj <$> k_bcache s !! i
  | HInode i => i_xobj <$> k_itable s !! i
  end.

Definition set_xobj (o : obj) (f : tx_data -> tx_data) : kst -> kst :=
  match o with
  | HBuf i => set_k_bcache (alter (set_b_xobj f) i)
  | HInode i => set_k_itable (alter (set_i_xobj f) i)
  end.

Definition writer (s : kst) (o : obj) : option Z := xo_writer <$> xobj_of s o.

(** pages that hold the data of an inode or a buffer *)
Definition is_data (v : pobj) : Prop :=
  match v with PInode _ | PBuf _ => True | _ => False end.

(** the committed data of an object: what a context without a transaction reads *)
Definition stable (s : kst) (o : obj) : option pobj := a ← data_ptr s o; k_heap s !! a.

Definition tx_at (s : kst) (a : Z) : option transaction := k_heap s !! a ≫= as_tx.

Lemma tx_at_heap s a t : tx_at s a = Some t <-> k_heap s !! a = Some (PTx t).
Proof.
  unfold tx_at. destruct (k_heap s !! a) as [[]|]; simpl; split; intros; simplify_eq; done.
Qed.

(** ** Running the primitives *)

Lemma get_xobj_ok o s x : xobj_of s o = Some x -> get_xobj o s = Ok x s.
Proof.
  destruct o as [i|i]; simpl; intros H; apply run_wp; apply wp_bind; unfold get_ip, get_buf;
    [destruct (k_itable s !! i) as [y|] eqn:E|destruct (k_bcache s !! i) as [y|] eqn:E]; try done;
    simpl in H; injection H as <-; (eapply wp_deref; [exact E|]); by apply wp_ret.
Qed.

Lemma get_data_ptr_ok o s a : data_ptr s o = Some a -> get_data_ptr o s = Ok a s.
Proof.
  destruct o as [i|i]; simpl; intros H; apply run_wp; apply wp_bind; unfold get_ip, get_buf;
    [destruct (k_itable s !! i) as [y|] eqn:E|destruct (k_bcache s !! i) as [y|] eqn:E]; try done;
    simpl in H; injection H as <-; (eapply wp_deref; [exact E|]); by apply wp_ret.
Qed.

Lemma upd_xobj_ok o f s : upd_xobj o f s = Ok tt (set_xobj o f s).
Proof. by destruct o. Qed.

Lemma load_tx_ok s a t : k_heap s !! a = Some (PTx t) -> load_tx a s = Ok t s.
Proof. intros H. unfold load_tx, deref. by rewrite H. Qed.

Lemma upd_tx_ok s a t f :
  k_heap s !! a = Some (PTx t) -> upd_tx a f s = Ok tt (set_k_heap <[a := PTx (f t)]> s).
Proof. intros H. unfold upd_tx. by erewrite bind_ok by (by apply load_tx_ok). Qed.

(** a second update of the same transaction *)
Lemma upd_tx_again s a t f :
  upd_tx a f (set_k_heap <[a := PTx t]> s) = Ok tt (set_k_heap <[a := PTx (f t)]> s).
Proof.
  erewrite upd_tx_ok by (ksimpl; apply lookup_insert_eq). f_equal. kst_eq.
  by rewrite insert_insert_eq.
Qed.

Lemma k_heap_set_xobj o f s : k_heap (set_xobj o f s) = k_heap s.
Proof. by destruct o. Qed.
Lemma k_held_set_xobj o f s : k_held (set_xobj o f s) = k_held s.
Proof. by destruct o. Qed.
Lemma k_freelist_set_xobj o f s : k_freelist (set_xobj o f s) = k_freelist s.
Proof. by destruct o. Qed.
Lemma set_xobj_held o f g s : set_xobj o f (set_k_held g s) = set_k_held g (set_xobj o f s).
Proof. by destruct o, s. Qed.

Lemma data_ptr_set_xobj o f s o' : data_ptr (set_xobj o f s) o' = data_ptr s o'.
Proof.
  destruct o as [i|i], o' as [j|j]; simpl; try done; rewrite list_lookup_alter;
    (case_decide as E; [|done]); rewrite <- E; [by destruct (k_itable s !! i)|by destruct (k_bcache s !! i)].
Qed.

Lemma xobj_of_set_xobj o f s o' :
  xobj_of (set_xobj o f s) o' = if decide (o' = o) then f <$> xobj_of s o' else xobj_of s o'.
Proof.
  destruct o as [i|i], o' as [j|j]; simpl; rewrite ?list_lookup_alter; repeat case_decide; simplify_eq; try done.
  - by destruct (k_itable s !! _).
  - by destruct (k_bcache s !! _).
Qed.

Section Shadow.
Context {L : Layout}.

(** ** The context of a call *)

(** process [p] runs in the transaction [t], stored at [tx] *)
Record in_tx (p : nat) (pr : proc) (t : transaction) (s : kst) : Prop := {
  it_running : running p pr s;
  it_tx : tx_at s (p_tx pr) = Some t;
  it_ws : ws_ok t;
}.

Context (p : nat) (pr : proc) (t : transaction) (s : kst) (HT : in_tx p pr t s).
Context (o : obj) (Ho : obj_ok o) (ro : bool) (ops : tx_ops).

Lemma txshadow_prefix (r : res kst Z) :
  match linear_find t o with
  | Some k => e ← ws_entry t (Z.of_nat k); mret (we_shadow e)
  | None =>
      if MAX_WORKSET <=? tx_workset_size t then kprintf full_msg [];; mret 0 else
      acquire (Lxobj o);;
      x ← get_xobj o;
      if negb (xo_writer x =? 0) && negb (xo_writer x =? p_tx pr) then
        kprintf conflict_msg [];; release (Lxobj o);; mret 0
      else
        upd_xobj o (set_xo_writer (fun _ => p_tx pr));;
        release (Lxobj o);;
        let k := Z.to_nat (tx_workset_size t) in
        upd_tx (p_tx pr) (set_tx_workset_size (fun n => n + 1));;
        upd_entry (p_tx pr) k (set_we_header (fun _ => Some o));;
        upd_entry (p_tx pr) k (set_we_read_only (fun _ => ro));;
        sh ← kalloc;
        upd_entry (p_tx pr) k (set_we_shadow (fun _ => sh));;
        if sh =? 0 then panic "txshadow: out of memory" else
        upd_entry (p_tx pr) k (set_we_ops (fun _ => Some ops));;
        src ← get_data_ptr o;
        v ← load src;
        store sh v;;
        upd_tx (p_tx pr) (set_tx_workset (sort_workset k));;
        mret sh
  end s = r -> txshadow o ro ops s = r.
Proof using HT Ho.
  intros H. destruct HT as [[Hc Hp _] Ht Hws]. apply tx_at_heap in Ht. unfold txshadow, myproc, get_proc.
  erewrite bind_ok by (unfold deref; by rewrite Hc).
  erewrite bind_ok by (unfold deref; by rewrite Hp).
  erewrite bind_ok by (by apply load_tx_ok).
  erewrite bind_ok by (by apply find_workset_entry_eq). exact H.
Qed.

(** the object is in the workset: its shadow, nothing changes *)
Lemma txshadow_hit k e :
  linear_find t o = Some k -> entries t !! k = Some e -> txshadow o ro ops s = Ok (we_shadow e) s.
Proof using HT Ho.
  intros Hf He. apply txshadow_prefix. rewrite Hf.
  by erewrite bind_ok by (apply ws_entry_ok; [apply HT|done]).
Qed.

Lemma txshadow_full :
  linear_find t o = None -> MAX_WORKSET <= tx_workset_size t ->
  txshadow o ro ops s = (kprintf full_msg [];; mret 0) s.
Proof using HT Ho.
  intros Hf Hsz. apply txshadow_prefix. by rewrite Hf, (proj2 (Z.leb_le _ _)) by done.
Qed.

Lemma txshadow_conflict x :
  linear_find t o = None -> tx_workset_size t < MAX_WORKSET ->
  xobj_of s o = Some x -> xo_writer x <> 0 -> xo_writer x <> p_tx pr -> Lxobj o ∉ k_held s ->
  txshadow o ro ops s =
    (kprintf conflict_msg [];; release (Lxobj o);; mret 0) (set_k_held (cons (Lxobj o)) s).
Proof using HT Ho.
  intros Hf Hsz Hx H0 H1 Hl. apply txshadow_prefix. rewrite Hf, (proj2 (Z.leb_gt _ _)) by done.
  erewrite bind_ok by (by apply acquire_ok).
  erewrite bind_ok by (apply get_xobj_ok; by destruct o).
  by rewrite (proj2 (Z.eqb_neq _ _) H0), (proj2 (Z.eqb_neq _ _) H1).
Qed.

(** a refused object: the workset has no room, or another transaction is the writer *)
Definition refused : Prop :=
  linear_find t o = None /\ Lxobj o ∉ k_held s /\
  (MAX_WORKSET <= tx_workset_size t \/ exists w, writer s o = Some w /\ w <> 0 /\ w <> p_tx pr).

Lemma txshadow_refused :
  refused ->
  txshadow o ro ops s = (kprintf full_msg [];; mret 0) s \/
  txshadow o ro ops s =
    (kprintf conflict_msg [];; release (Lxobj o);; mret 0) (set_k_held (cons (Lxobj o)) s).
Proof using HT Ho.
  intros (Hf & Hl & Hr). destruct (decide (MAX_WORKSET <= tx_workset_size t)) as [Hsz|Hsz].
  { left. by apply txshadow_full. }
  destruct Hr as [?|(w & Hw & H0 & H1)]; [done|]. right.
  unfold writer in Hw. destruct (xobj_of s o) as [x|] eqn:Ex; [|done]. injection Hw as <-.
  apply (txshadow_conflict x); try done. by apply Z.nle_gt.
Qed.

(** the message: a full workset is found out first *)
Definition refusal_msg : list Z := if MAX_WORKSET <=? tx_workset_size t then full_msg else conflict_msg.

Lemma refused_runs :
  refused -> Lpr ∉ k_held s -> echo_ready (length refusal_msg) (k_dev s) ->
  txshadow o ro ops s = Ok 0 (set_k_dev (printed refusal_msg) s).
Proof using HT Ho.
  intros (Hf & Hl & Hr) Hp He. unfold refusal_msg in *. destruct (Z.leb_spec MAX_WORKSET (tx_workset_size t)) as [Hsz|Hsz].
  - rewrite txshadow_full by done. erewrite bind_ok; [done|].
    apply kprintf_prints; [done|by apply (bool_decide_unpack _); vm_compute|done|done].
  - destruct Hr as [?|(w & Hw & H0 & H1)]; [lia|].
    unfold writer in Hw. destruct (xobj_of s o) as [x|] eqn:Ex; [|done]. injection Hw as <-.
    rewrite (txshadow_conflict x) by done.
    erewrite bind_ok by (apply (kprintf_prints _ _ conflict_msg);
      [done|by apply (bool_decide_unpack _); vm_compute|ksimpl; by apply not_elem_of_cons|done]).
    apply run_wp, wp_bind. eapply wp_release; [by ksimpl|]. apply wp_ret. split; [done|kst_eq].
Qed.

Lemma refused_returns r s' :
  refused -> txshadow o ro ops s = Ok r s' -> exists d', s' = set_k_dev (fun _ => d') s.
Proof using HT Ho.
  intros Hr. destruct (txshadow_refused Hr) as [->| ->]; intros E;
    apply bind_inv in E as (u & s1 & E1 & E); apply only_dev_kprintf in E1 as [d ->].
  - injection E as _ <-. by exists d.
  - erewrite bind_ok in E by (apply release_ok; ksimpl; by left). injection E as _ <-.
    exists d. kst_eq. apply drop_lock_head.
Qed.

(** ** A new shadow *)

Context (Hnew : linear_find t o = None) (Hroom : tx_workset_size t < MAX_WORKSET).
Context (x : tx_data) (Hx : xobj_of s o = Some x) (Hw : xo_writer x = 0 \/ xo_writer x = p_tx pr).
Context (Hlx : Lxobj o ∉ k_held s) (Hlk : Lkmem ∉ k_held s).

Let tx : Z := p_tx pr.
Let k : nat := Z.to_nat (tx_workset_size t).
Let s1 : kst := set_xobj o (set_xo_writer (fun _ => tx)) s.

(** up to the allocation of the shadow page *)
Definition begin_entry (t : transaction) : transaction :=
  set_tx_workset (alter (fun e => set_we_read_only (fun _ => ro) (set_we_header (fun _ => Some o) e)) k)
    (set_tx_workset_size (fun n => n + 1) t).

Lemma txshadow_alloc (r : res kst Z) :
  (sh ← kalloc;
   upd_entry tx k (set_we_shadow (fun _ => sh));;
   if sh =? 0 then panic "txshadow: out of memory" else
   upd_entry tx k (set_we_ops (fun _ => Some ops));;
   src ← get_data_ptr o;
   v ← load src;
   store sh v;;
   upd_tx tx (set_tx_workset (sort_workset k));;
   mret sh) (set_k_heap <[tx := PTx (begin_entry t)]> s1) = r ->
  txshadow o ro ops s = r.
Proof using HT Ho Hnew Hroom Hx Hw Hlx.
  intros H. apply txshadow_prefix. rewrite Hnew, (proj2 (Z.leb_gt _ _)) by done.
  erewrite bind_ok by (by apply acquire_ok).
  erewrite bind_ok by (apply get_xobj_ok; by destruct o).
  assert (negb (xo_writer x =? 0) && negb (xo_writer x =? p_tx pr) = false) as ->.
  { destruct Hw as [->| ->]; [done|]. rewrite Z.eqb_refl. by rewrite andb_false_r. }
  erewrite bind_ok by apply upd_xobj_ok. rewrite set_xobj_held.
  erewrite bind_ok.
  2:{ apply release_ok. ksimpl. by left. }
  replace (set_k_held (drop_lock (Lxobj o)) (set_k_held (cons (Lxobj o)) _)) with s1.
  2:{ unfold s1. kst_eq. symmetry. apply drop_lock_head. }
  cbv zeta. fold tx k.
  assert (k_heap s1 !! tx = Some (PTx t)) as Ht.
  { unfold s1. rewrite k_heap_set_xobj. apply tx_at_heap, HT. }
  erewrite bind_ok by (by apply upd_tx_ok).
  erewrite bind_ok by apply upd_tx_again.
  erewrite bind_ok by apply upd_tx_again. rewrite <- H. f_equal. f_equal. f_equal. f_equal.
  unfold begin_entry. apply transaction_ext; ksimpl; try done. by rewrite alter_comp.
Qed.

Lemma txshadow_nomem : k_freelist s = 0 -> txshadow o ro ops s = Panic "txshadow: out of memory".
Proof using HT Ho Hnew Hroom Hx Hw Hlx Hlk.
  intros Hf. apply txshadow_alloc.
  erewrite bind_ok.
  2:{ apply kalloc_run_nil; ksimpl; unfold s1; by rewrite ?k_freelist_set_xobj, ?k_held_set_xobj. }
  erewrite bind_ok by apply upd_tx_again. done.
Qed.

(** the entry [txshadow] makes, from the contents of the slot *)
Definition new_entry (e0 : workset_entry) (sh : Z) : workset_entry :=
  set_we_ops (fun _ => Some ops) (set_we_shadow (fun _ => sh)
    (set_we_read_only (fun _ => ro) (set_we_header (fun _ => Some o) e0))).

Lemma slot_entry : exists e0, tx_workset t !! k = Some e0.
Proof using HT Hroom.
  apply lookup_lt_is_Some. pose proof (ws_len _ (it_ws _ _ _ _ HT)).
  pose proof (ws_size _ (it_ws _ _ _ _ HT)). unfold k. lia.
Qed.

(** what the updates and the sorting loop do to the transaction *)
Lemma sorted_entry e0 sh : tx_workset t !! k = Some e0 ->
  set_tx_workset (sort_workset k) (set_tx_workset (alter (set_we_ops (fun _ => Some ops)) k)
    (set_tx_workset (alter (set_we_shadow (fun _ => sh)) k) (begin_entry t))) =
  add_entry (new_entry e0 sh) t.
Proof using HT Hroom.
  intros He0. apply transaction_ext; try done. unfold begin_entry, add_entry. ksimpl.
  rewrite !alter_comp. set (f := _ ∘ _).
  assert (alter f k (tx_workset t) = entries t ++ new_entry e0 sh :: drop (S k) (tx_workset t)) as ->.
  { unfold entries. fold k. rewrite <- (take_drop_middle _ _ _ He0) at 1.
    rewrite alter_app_r_alt.
    - rewrite length_take, Nat.min_l by (apply lookup_lt_Some in He0; lia). by rewrite Nat.sub_diag.
    - rewrite length_take. lia. }
  replace k with (length (entries t)) at 1 by (by rewrite (length_entries _ (it_ws _ _ _ _ HT))).
  apply sort_workset_insert, HT.
Qed.

(** the state with the new shadow *)
Definition shadow_state (e0 : workset_entry) (sh next : Z) (v : pobj) : kst :=
  set_k_heap (fun h => <[tx := PTx (add_entry (new_entry e0 sh) t)]> (<[sh := v]> h))
    (set_k_freelist (fun _ => next) s1).

Lemma txshadow_new sh next a v e0 :
  k_freelist s = sh -> sh <> 0 -> k_heap s !! sh = Some (PRun next) ->
  data_ptr s o = Some a -> k_heap s !! a = Some v -> is_data v -> tx_workset t !! k = Some e0 ->
  txshadow o ro ops s = Ok sh (shadow_state e0 sh next v).
Proof using HT Ho Hnew Hroom Hx Hw Hlx Hlk.
  intros Hf Hsh Hrun Ha Hv Hd He0. apply txshadow_alloc.
  pose proof (proj1 (tx_at_heap _ _ _) (it_tx _ _ _ _ HT)) as Ht. fold tx in Ht.
  assert (tx <> sh) as Hts by (intros E; rewrite E in Ht; congruence).
  assert (a <> sh) as Has by (intros E; rewrite E in Hv; simplify_eq; done).
  assert (a <> tx) as Hat by (intros E; rewrite E in Hv; simplify_eq; done).
  set (t0 := begin_entry t).
  erewrite bind_ok.
  2:{ apply (kalloc_run_cons _ sh next); ksimpl; unfold s1;
        rewrite ?k_freelist_set_xobj, ?k_held_set_xobj, ?k_heap_set_xobj; try done.
      by rewrite lookup_insert_ne. }
  erewrite bind_ok.
  2:{ apply (upd_tx_ok _ _ t0). ksimpl. rewrite lookup_insert_ne by done. apply lookup_insert_eq. }
  rewrite (proj2 (Z.eqb_neq sh 0)) by done.
  erewrite bind_ok by apply upd_tx_again.
  erewrite bind_ok by (apply get_data_ptr_ok; rewrite <- Ha; apply data_ptr_set_xobj).
  erewrite bind_ok.
  2:{ unfold load, deref. ksimpl. unfold s1. rewrite k_heap_set_xobj.
      rewrite !lookup_insert_ne by done. by rewrite Hv. }
  erewrite bind_ok by reflexivity.
  erewrite bind_ok.
  2:{ apply upd_tx_ok. ksimpl. rewrite lookup_insert_ne by done. apply lookup_insert_eq. }
  unfold mret, ST_ret. f_equal. unfold shadow_state. rewrite <- (sorted_entry e0 sh He0). kst_eq.
  unfold s1. rewrite k_heap_set_xobj. apply map_eq. intros z.
  rewrite !lookup_insert. repeat case_decide; first [reflexivity|congruence].
Qed.

End Shadow.

(** ** Consequences *)

Section Props.
Context {L : Layout}.

(** everything a call that makes a new shadow needs *)
Record can_shadow (p : nat) (pr : proc) (t : transaction) (s : kst) (o : obj) (v : pobj)
    (sh : Z) (free : list Z) : Prop := {
  cs_tx : in_tx p pr t s;
  cs_obj : obj_ok o;
  cs_new : linear_find t o = None;
  cs_room : tx_workset_size t < MAX_WORKSET;
  cs_writer : writer s o = Some 0 \/ writer s o = Some (p_tx pr);
  cs_stable : stable s o = Some v;
  cs_data : is_data v;
  cs_free : free_list s (sh :: free);
  cs_held : Lxobj o ∉ k_held s /\ Lkmem ∉ k_held s;
}.

Lemma stable_shadow pr t s o ro ops e0 sh next v o' w :
  tx_at s (p_tx pr) = Some t -> k_heap s !! sh = Some (PRun next) ->
  stable s o' = Some w -> is_data w ->
  stable (shadow_state pr t s o ro ops e0 sh next v) o' = Some w.
Proof.
  intros Ht Hrun Hs Hd. apply tx_at_heap in Ht. unfold stable in *.
  assert (data_ptr (shadow_state pr t s o ro ops e0 sh next v) o' = data_ptr s o') as E.
  { etransitivity; [|apply (data_ptr_set_xobj o (set_xo_writer (fun _ => p_tx pr)))]. by destruct o'. }
  rewrite E. destruct (data_ptr s o') as [a|]; [|done]. simpl in *. unfold shadow_state. ksimpl.
  rewrite k_heap_set_xobj, !lookup_insert_ne; [done|intros Eq; rewrite Eq in *; simplify_eq; done..].
Qed.

(** the run of [can_shadow], with the resulting state *)
Lemma can_shadow_run p pr t s o v sh free ro ops :
  can_shadow p pr t s o v sh free ->
  exists e0 next, txshadow o ro ops s = Ok sh (shadow_state pr t s o ro ops e0 sh next v) /\
    k_heap s !! sh = Some (PRun next) /\ tx_workset t !! Z.to_nat (tx_workset_size t) = Some e0 /\
    chain (k_heap s) next free.
Proof.
  intros [HT Ho Hnew Hroom Hw Hst Hd [Hch _ Hpg] [Hl1 Hl2]].
  destruct Hch as [Hf (next & Hrun & Hch)].
  destruct (slot_entry p pr t s HT Hroom) as [e0 He0]. exists e0, next.
  split; [|done]. unfold stable in Hst. destruct (data_ptr s o) as [a|] eqn:Ea; [|done]. simpl in Hst.
  unfold writer in Hw. destruct (xobj_of s o) as [x|] eqn:Ex; [|naive_solver]. simpl in Hw.
  eapply (txshadow_new p pr t s HT o Ho ro ops Hnew Hroom x Ex); try done.
  - destruct Hw as [[= ->]|[= ->]]; auto.
  - inversion Hpg. by apply page_ok_pos.
Qed.

Lemma tx_at_shadow pr t s o ro ops e0 sh next v :
  tx_at (shadow_state pr t s o ro ops e0 sh next v) (p_tx pr)
    = Some (add_entry (new_entry o ro ops e0 sh) t).
Proof. apply tx_at_heap. unfold shadow_state. ksimpl. apply lookup_insert_eq. Qed.

Lemma new_entry_ok p pr t s o v sh free ro ops e0 :
  can_shadow p pr t s o v sh free -> ws_ok (add_entry (new_entry o ro ops e0 sh) t).
Proof.
  intros [HT Ho Hnew Hroom _ _ _ _ _]. apply add_entry_ok; [apply HT|done|by exists o|].
  intros a Ha. unfold new_entry, hdr at 2. simpl.
  by apply (linear_find_new t); [apply HT|..].
Qed.

Lemma shadow_free pr t s o ro ops e0 sh next v free :
  tx_at s (p_tx pr) = Some t -> free_list s (sh :: free) -> k_heap s !! sh = Some (PRun next) ->
  chain (k_heap s) next free ->
  free_list (shadow_state pr t s o ro ops e0 sh next v) free.
Proof.
  intros Ht [_ Hnd Hpg] Hrun Hch. apply tx_at_heap in Ht.
  apply NoDup_cons in Hnd as [Hni Hnd]. apply Forall_cons in Hpg as [_ Hpg].
  split; [|done|done]. unfold shadow_state. ksimpl.
  rewrite k_heap_set_xobj. eapply chain_heap_ext; [|exact Hch]. intros pa Hpa.
  rewrite !lookup_insert_ne; [done|by intros ->|]. intros <-.
  destruct (chain_run _ _ _ _ Hch Hpa) as [n2 Hn2]. congruence.
Qed.

(** C3. The first use of an object in a transaction makes a private copy and
    nothing else: [txshadow] returns a page taken from the free list that holds
    a copy of the object's data; the object is added to the workset, which
    stays sorted; the transaction becomes the object's writer; and the stable
    data of every object (this one included) is what it was, so contexts
    outside the transaction see no change. *)
Theorem txshadow_isolates p pr t s o v sh free ro ops :
  can_shadow p pr t s o v sh free ->
  exists s' t', txshadow o ro ops s = Ok sh s' /\ k_heap s' !! sh = Some v /\
    tx_at s' (p_tx pr) = Some t' /\ ws_ok t' /\
    (exists k e, linear_find t' o = Some k /\ entries t' !! k = Some e /\ we_shadow e = sh) /\
    (forall o', o' <> o -> is_Some (linear_find t' o') <-> is_Some (linear_find t o')) /\
    writer s' o = Some (p_tx pr) /\ free_list s' free /\
    (forall o' w, stable s o' = Some w -> is_data w -> stable s' o' = Some w).
Proof.
  intros HC. destruct (can_shadow_run _ _ _ _ _ _ _ _ ro ops HC) as (e0 & next & E & Hrun & He0 & Hch).
  pose proof (new_entry_ok _ _ _ _ _ _ _ _ ro ops e0 HC) as Hws'. destruct HC as [HT Ho Hnew Hroom Hw Hst Hd Hfr _].
  set (e := new_entry o ro ops e0 sh). set (t' := add_entry e t) in *.
  set (s' := shadow_state pr t s o ro ops e0 sh next v) in *.
  pose proof (it_ws _ _ _ _ HT) as Hws. pose proof (proj1 (tx_at_heap _ _ _) (it_tx _ _ _ _ HT)) as Ht.
  assert (p_tx pr <> sh) as Hts by (intros Eq; rewrite Eq in Ht; congruence).
  exists s', t'. split_and!; [done| |apply tx_at_shadow|done| | | | |].
  - unfold s', shadow_state. ksimpl. by rewrite lookup_insert_ne, lookup_insert_eq.
  - assert (e ∈ entries t') as Hin'.
    { unfold t'. rewrite entries_add, insert_entry_perm by done. by left. }
    apply list_elem_of_lookup in Hin' as (k & Hk). exists k, e. split_and!; [|done|done].
    by apply (linear_find_some t' Hws' o k e).
  - intros o' Ho'. apply linear_find_add; [done|done|]. simpl. congruence.
  - unfold writer. change (xobj_of s' o) with (xobj_of (set_xobj o (set_xo_writer (fun _ => p_tx pr)) s) o).
    rewrite xobj_of_set_xobj, decide_True by done. unfold writer in Hw. by destruct (xobj_of s o); [|naive_solver].
  - by apply (shadow_free pr t s o ro ops e0 sh next v free); [apply HT|..].
  - intros o' w Hs Hw'. apply stable_shadow; [apply HT|exact Hrun|done|done].
Qed.

(** C4. Read your writes: once an object has a shadow, every later access of
    the transaction gets the same page, whatever has been written to it, and
    what has been written to it is invisible in the stable data of every
    object. *)
Theorem read_your_writes p pr t s o v sh free ro ops :
  can_shadow p pr t s o v sh free ->
  exists s', txshadow o ro ops s = Ok sh s' /\
    forall w ro' ops', let s'' := set_k_heap <[sh := w]> s' in
      txshadow o ro' ops' s'' = Ok sh s'' /\
      forall o' w', stable s o' = Some w' -> is_data w' -> stable s'' o' = Some w'.
Proof.
  intros HC. destruct (can_shadow_run _ _ _ _ _ _ _ _ ro ops HC) as (e0 & next & E & Hrun & He0 & _).
  pose proof (new_entry_ok _ _ _ _ _ _ _ _ ro ops e0 HC) as Hws'.
  destruct HC as [HT Ho Hnew Hroom Hw Hst Hd _ _].
  set (e := new_entry o ro ops e0 sh). set (t' := add_entry e t) in *.
  set (s' := shadow_state pr t s o ro ops e0 sh next v) in *.
  exists s'. split; [done|]. intros w ro' ops' s''.
  pose proof (proj1 (tx_at_heap _ _ _) (it_tx _ _ _ _ HT)) as Ht.
  assert (p_tx pr <> sh) as Hts by (intros Eq; rewrite Eq in Ht; congruence).
  assert (in_tx p pr t' s'') as HT'.
  { destruct HT as [[Hc Hp Hps] _ _]. split; [split|..]; try done.
    - by destruct o.
    - by destruct o.
    - by destruct o.
    - apply tx_at_heap. unfold s''. ksimpl. rewrite lookup_insert_ne by done.
      by apply tx_at_heap, tx_at_shadow. }
  assert (e ∈ entries t') as (k & Hk)%list_elem_of_lookup.
  { unfold t'. rewrite entries_add, insert_entry_perm by (try done; apply HT). by left. }
  split.
  - apply (txshadow_hit p pr t' s'' HT' o Ho ro' ops' k e); [|done].
    apply (linear_find_some t' Hws' o k e); [exact Ho|exact Hk|reflexivity].
  - intros o' w' Hs Hd'.
    assert (data_ptr s'' o' = data_ptr s o') as Ea.
    { etransitivity; [|apply (data_ptr_set_xobj o (set_xo_writer (fun _ => p_tx pr)))]. by destruct o'. }
    pose proof (stable_shadow pr t s o ro ops e0 sh next v o' w' (it_tx _ _ _ _ HT) Hrun Hs Hd') as Hs'.
    unfold stable in *. rewrite Ea. fold s' in Hs'. change (data_ptr s'' o') with (data_ptr s' o') in Ea.
    rewrite Ea in Hs'. destruct (data_ptr s o') as [a|]; [|done]. simpl in *.
    unfold s''. ksimpl. rewrite lookup_insert_ne; [done|]. intros <-. by simplify_eq.
Qed.

(** ** Exclusion between transactions *)

(** the transaction at [a] is the writer of every object of its workset *)
Definition owns (s : kst) (a : Z) : Prop :=
  forall t o, tx_at s a = Some t -> is_Some (linear_find t o) -> writer s o = Some a.

(** the kernel between system calls, as far as transactions go *)
Record tx_inv (s : kst) : Prop := {
  ti_held : k_held s = [];
  ti_psched : length (k_psched s) = NPROC;
  ti_free : exists l, free_list s l;
  ti_tx : forall p pr, k_procs s !! p = Some pr -> p_tx pr <> 0 ->
    exists t, tx_at s (p_tx pr) = Some t /\ ws_ok t /\ owns s (p_tx pr);
}.

(** Any process can run next; the running process can use any object whose
    data is in memory. *)
Inductive tx_step : kst -> kst -> Prop :=
  | step_switch p s : tx_step s (set_k_cur (fun _ => Some p) s)
  | step_use p pr o v ro ops r s s' :
      k_cur s = Some p -> k_procs s !! p = Some pr -> p_tx pr <> 0 ->
      obj_ok o -> is_Some (writer s o) -> stable s o = Some v -> is_data v ->
      txshadow o ro ops s = Ok r s' -> tx_step s s'.

Lemma writer_shadow pr t s o ro ops e0 sh next v o' :
  is_Some (writer s o) ->
  writer (shadow_state pr t s o ro ops e0 sh next v) o' =
    if decide (o' = o) then Some (p_tx pr) else writer s o'.
Proof.
  intros Hw. unfold writer in *.
  change (xobj_of (shadow_state pr t s o ro ops e0 sh next v) o')
    with (xobj_of (set_xobj o (set_xo_writer (fun _ => p_tx pr)) s) o').
  rewrite xobj_of_set_xobj. case_decide; [subst|done]. destruct (xobj_of s o); [done|].
  by apply is_Some_None in Hw.
Qed.

(** a call that returns changes nothing but the devices, or makes a new shadow *)
Lemma txshadow_outcomes p pr t s o v ro ops r s' l :
  in_tx p pr t s -> obj_ok o -> k_held s = [] -> is_Some (writer s o) ->
  stable s o = Some v -> is_data v -> free_list s l -> txshadow o ro ops s = Ok r s' ->
  (exists d', s' = set_k_dev (fun _ => d') s) \/
  exists sh free, l = sh :: free /\ can_shadow p pr t s o v sh free.
Proof.
  intros HT Ho HH [w Hw] Hst Hd Hfr E.
  destruct (linear_find t o) as [k|] eqn:Hf.
  { left. destruct (linear_find_entry _ _ _ Hf) as (e & He & _).
    rewrite (txshadow_hit p pr t s HT o Ho ro ops k e Hf He) in E. injection E as _ <-.
    exists (k_dev s). kst_eq. }
  assert (Hl : Lxobj o ∉ k_held s) by (rewrite HH; set_solver).
  pose proof Hw as Hw'. unfold writer in Hw'. destruct (xobj_of s o) as [x|] eqn:Ex; [|done].
  simpl in Hw'. injection Hw' as Hx. rewrite <- Hx in Hw.
  destruct (decide (MAX_WORKSET <= tx_workset_size t)) as [Hsz|Hsz].
  { left. apply (refused_returns p pr t s HT o Ho ro ops r); [|done]. by split_and!; [..|left]. }
  destruct (decide (xo_writer x = 0 \/ xo_writer x = p_tx pr)) as [Hok|Hno].
  2:{ left. apply (refused_returns p pr t s HT o Ho ro ops r); [|done]. split_and!; [done..|].
      right. exists (xo_writer x). naive_solver. }
  right. destruct l as [|sh free].
  { exfalso. rewrite (txshadow_nomem p pr t s HT o Ho ro ops Hf ltac:(lia) x Ex Hok) in E; [done|..];
      [rewrite HH; set_solver..|apply Hfr]. }
  exists sh, free. split; [done|]. split; try done; [lia| |rewrite HH; set_solver].
  rewrite Hw. destruct Hok as [->| ->]; auto.
Qed.

Lemma tx_inv_dev d s : tx_inv s -> tx_inv (set_k_dev (fun _ => d) s).
Proof.
  intros [HH HP [l Hl] HX]. split; [done|done| |exact HX]. exists l. by apply (free_list_ext s).
Qed.

Lemma tx_step_inv s s' : tx_inv s -> tx_step s s' -> tx_inv s'.
Proof.
  intros HI0 Hs. pose proof HI0 as HI. destruct Hs as [q s1|p pr o v ro ops r s1 s2 Hc Hp Htx Ho Hw Hst Hd E];
    destruct HI as [HH HP [l Hfr] HX].
  { split; [done|done| |exact HX]. exists l. by apply (free_list_ext s1). }
  destruct (HX p pr Hp Htx) as (t & Ht & Hws & Hown).
  assert (in_tx p pr t s1) as HT by (split; [by split|done|done]).
  destruct (txshadow_outcomes p pr t s1 o v ro ops r s2 l HT Ho HH Hw Hst Hd Hfr E)
    as [[d ->]|(sh & free & -> & HC)]; [by apply tx_inv_dev|].
  destruct (can_shadow_run _ _ _ _ _ _ _ _ ro ops HC) as (e0 & next & E' & Hrun & He0 & Hch).
  pose proof (new_entry_ok _ _ _ _ _ _ _ _ ro ops e0 HC) as Hws'.
  rewrite E' in E. injection E as _ <-. split.
  - by destruct o.
  - by destruct o.
  - exists free. by apply shadow_free.
  - intros q qr Hq Hb. replace (k_procs _) with (k_procs s1) in Hq by (by destruct o).
    destruct (decide (p_tx qr = p_tx pr)) as [Eb|Hne].
    + rewrite Eb. eexists. split; [apply tx_at_shadow|]. split; [done|].
      intros t' o' Ht' Hin. rewrite tx_at_shadow in Ht'. injection Ht' as <-.
      rewrite writer_shadow by done. case_decide as Eo; [done|].
      rewrite linear_find_add in Hin; [|done|apply HC|simpl; congruence]. by apply (Hown t).
    + destruct (HX q qr Hq Hb) as (tq & Htq & Hwq & Howq).
      assert (tx_at (shadow_state pr t s1 o ro ops e0 sh next v) (p_tx qr) = Some tq) as Htq'.
      { apply tx_at_heap in Htq. apply tx_at_heap. unfold shadow_state. ksimpl.
        rewrite k_heap_set_xobj, !lookup_insert_ne; [done|intros Eq; rewrite Eq in *; congruence..]. }
      exists tq. split; [done|]. split; [done|]. intros t' o' Ht' Hin.
      rewrite Htq' in Ht'. injection Ht' as <-. rewrite writer_shadow by done.
      pose proof (Howq _ _ Htq Hin) as Hwo. case_decide as Eo; [subst|done].
      destruct (cs_writer _ _ _ _ _ _ _ _ HC) as [E0|E0]; rewrite Hwo in E0; simplify_eq; done.
Qed.

(** C6. Two transactions never have the same object in their worksets: from a
    state where every transaction is the registered writer of its objects (in
    particular when all worksets are empty), after any sequence of context
    switches and object accesses by any processes, the worksets of two
    different transactions are disjoint. *)
Theorem worksets_disjoint s s' p pr q qr t u o :
  tx_inv s -> rtc tx_step s s' ->
  k_procs s' !! p = Some pr -> k_procs s' !! q = Some qr ->
  p_tx pr <> 0 -> p_tx qr <> 0 -> p_tx pr <> p_tx qr ->
  tx_at s' (p_tx pr) = Some t -> tx_at s' (p_tx qr) = Some u ->
  is_Some (linear_find t o) -> linear_find u o = None.
Proof.
  intros HI Hr Hp Hq Hp0 Hq0 Hne Ht Hu Hin.
  assert (tx_inv s') as [_ _ _ HX] by (clear -HI Hr; induction Hr; eauto using tx_step_inv).
  destruct (linear_find u o) eqn:Eu; [|done]. exfalso. apply Hne.
  destruct (HX p pr Hp Hp0) as (t' & Ht' & _ & Ho). destruct (HX q qr Hq Hq0) as (u' & Hu' & _ & Ho').
  pose proof (Ho t o Ht Hin) as E1. pose proof (Ho' u o Hu ltac:(by rewrite Eu)) as E2. congruence.
Qed.

(** C7. The binary search of the workset finds exactly what a linear search
    finds, and ends within the loop's bound: on a well-formed workset
    [find_workset_entry] returns the index of the entry for the object, or
    nothing when there is none. *)
Theorem find_workset_entry_correct t o s :
  ws_ok t -> obj_ok o -> find_workset_entry t o s = Ok (linear_find t o) s.
Proof. intros Ht Ho. by apply find_workset_entry_eq. Qed.

End Props.
