(* ===== verification/FsBlock.v ===== *)
(** * Disk blocks: super block, zeroing, allocation bitmap ([fs.c]) *)

From S2P Require Import Prelude Monad CString Types Kernel Kalloc Uart Printf Bio Log Tx.
From stdpp Require Import base numbers list gmap strings.
From Stdlib Require Import ZArith Lia.

Open Scope Z_scope.

Definition IBLOCK (i : Z) (sb : superblock) : Z := u32 (i / IPB + sb_inodestart sb).
Definition BBLOCK (b : Z) (sb : superblock) : Z := u32 (b / BPB + sb_bmapstart sb).

Definition get_sb : K superblock := gets k_sb.

(** the eight words of [struct superblock] at the start of block 1 *)
Definition decode_sb (bytes : list Z) : superblock :=
  Mk_superblock (word_at bytes 0) (word_at bytes 1) (word_at bytes 2) (word_at bytes 3)
    (word_at bytes 4) (word_at bytes 5) (word_at bytes 6) (word_at bytes 7).

Definition readsb (dev : Z) : K unit :=
  bp ← bread dev 1;
  bytes ← bdata_get bp;
  modify (set_k_sb (fun _ => decode_sb bytes));;
  brelse bp.

Definition byte_at (bytes : list Z) (i : Z) : K Z := deref (fun _ : kst => bytes !! Z.to_nat i).

Definition put_byte (i v : Z) (bytes : list Z) : list Z := <[Z.to_nat i := u8 v]> bytes.

Section FsBlock.
Context {L : Layout}.

Definition bzero (dev bno : Z) : K unit :=
  bp ← bread dev bno;
  d ← bdata bp;
  upd_buf_data d (fun _ => replicate (Z.to_nat BSIZE) 0);;
  log_write bp;;
  brelse bp.

(** the inner loop of [balloc], over the bits of one bitmap block *)
Definition balloc_scan (dev b : Z) (bp : nat) (bi : Z) : K (option Z) :=
  let m := Z.shiftl 1 (bi mod 8) in
  d ← bdata bp;
  bytes ← load_buf d;
  v ← byte_at bytes (bi / 8);
  if Z.land v m =? 0 then
    d ← bdata bp;
    bytes ← load_buf d;
    v ← byte_at bytes (bi / 8);
    upd_buf_data d (put_byte (bi / 8) (Z.lor v m));;
    log_write bp;;
    brelse bp;;
    bzero dev (b + bi);;
    mret (Some (b + bi))
  else mret None.

Definition balloc (dev : Z) : K Z :=
  sb ← get_sb;
  r ← for_find (map (Z.mul BPB) (seqZ 0 ((sb_size sb + BPB - 1) / BPB))) (fun b =>
    bp ← bread dev (BBLOCK b sb);
    r ← for_find (seqZ 0 (Z.min BPB (sb_size sb - b))) (balloc_scan dev b bp);
    match r with
    | Some a => mret (Some a)
    | None => brelse bp;; mret None
    end);
  match r with
  | Some a => mret a
  | None => kprintf (chars "balloc: out of blocks" ++ [10]) [];; mret 0
  end.

Definition bfree (dev b : Z) : K unit :=
  sb ← get_sb;
  bp ← bread dev (BBLOCK b sb);
  let bi := b mod BPB in
  let m := Z.shiftl 1 (bi mod 8) in
  d ← bdata bp;
  bytes ← load_buf d;
  v ← byte_at bytes (bi / 8);
  if Z.land v m =? 0 then panic "freeing free block" else
  d ← bdata bp;
  bytes ← load_buf d;
  v ← byte_at bytes (bi / 8);
  upd_buf_data d (put_byte (bi / 8) (Z.land v (Z.lnot m)));;
  log_write bp;;
  brelse bp.

End FsBlock.
