(* ===== verification/FsCtx.v ===== *)
(** * Blocks inside a file-system operation

    Between [begin_op] and [end_op] the functions of [fs.c] read and change
    blocks by [bread], [bdata], [log_write] and [brelse].  [fs_ctx] is what
    holds between these calls, outside transactions: the cache invariant, the
    log header with its pinned blocks, and every block that is not logged is
    clean.  [fstep] relates the state an operation has reached to the one it
    started in: the view of the disk it has produced, the blocks it has logged
    and the buffers it holds.  The rules below run one call each. *)

From S2P Require Import Prelude Monad CString Types Kernel Kalloc Uart Printf Echo Bio Lru BioFacts Log LogFacts LogCrash LogOps Tx FsBlock.
From stdpp Require Import base numbers list gmap strings.
From Stdlib Require Import ZArith Lia.

Open Scope Z_scope.

(** ** Views *)

Definition vset (x : Z) (bytes : list Z) (v : Z -> option (list Z)) (y : Z) : option (list Z) :=
  if bool_decide (y = x) then Some bytes else v y.

Lemma vset_eq x bytes v : vset x bytes v x = Some bytes.
Proof. unfold vset. by rewrite bool_decide_true. Qed.

Lemma vset_ne x bytes v y : y <> x -> vset x bytes v y = v y.
Proof. intros H. unfold vset. by rewrite bool_decide_false. Qed.

(** ** References of others *)

(** the references to a block that are neither the log's nor its lock holder's *)
Definition lockref (o : option Z) : Z := match o with Some _ => 1 | None => 0 end.
Definition pinref (bls : list Z) (x : Z) : Z := if bool_decide (x ∈ bls) then 1 else 0.
Definition others (s : kst) (bls : list Z) (x : Z) : Z :=
  refs s x - lockref (blocked s x) - pinref bls x.

Lemma pinref_absorb bls x y :
  pinref (absorb bls x) y = if bool_decide (y = x /\ x ∉ bls) then pinref bls y + 1 else pinref bls y.
Proof.
  unfold pinref, absorb. repeat case_bool_decide; set_solver.
Qed.

(** ** What a function of [fs.c] leaves alone *)

Definition unchanged (s : kst) :=
  (k_held s, k_freelist s, k_disk s, k_dwrites s, k_sb s, k_itable s, k_ftable s, k_procs s,
   k_cur s, k_initproc s, k_nextpid s, k_ticks s).

Record fframe (s s' : kst) : Prop := {
  ff_rest : unchanged s' = unchanged s;
  ff_psched : length (k_psched s') = length (k_psched s);
  ff_data : forall i, b_data <$> k_bcache s' !! i = b_data <$> k_bcache s !! i;
  ff_out : l_outstanding (k_log s') = l_outstanding (k_log s);
}.

(** the pages that are not the data of a buffer *)
Definition nonbuf (s : kst) (a : Z) : Prop := forall i b, cbuf s i b -> b_data b <> a.

Lemma data_cbuf s s' i b :
  (forall i, b_data <$> k_bcache s' !! i = b_data <$> k_bcache s !! i) -> cbuf s' i b ->
  exists b0, cbuf s i b0 /\ b_data b0 = b_data b.
Proof.
  intros H [Hi Hb]. specialize (H i). rewrite Hb in H. cbn in H.
  destruct (k_bcache s !! i) as [b0|] eqn:E; [|done]. exists b0. by simplify_eq/=.
Qed.

Lemma nonbuf_data s s' a : fframe s s' -> nonbuf s a -> nonbuf s' a.
Proof.
  intros F H i b Hb. destruct (data_cbuf s s' i b (ff_data _ _ F) Hb) as (b0 & H0 & <-). eauto.
Qed.

Lemma fframe_refl s : fframe s s.
Proof. by split. Qed.

Lemma fframe_trans s1 s2 s3 : fframe s1 s2 -> fframe s2 s3 -> fframe s1 s3.
Proof. intros [A1 A2 A3 A4] [B1 B2 B3 B4]. split; congruence. Qed.

Lemma fframe_cache s s' :
  cframe s s' -> k_disk s' = k_disk s -> k_dwrites s' = k_dwrites s -> fframe s s'.
Proof.
  intros [H1 H2 H3 _ _] Hd Hw. split; [|done|done|by rewrite H1].
  unfold unchanged. rewrite Hd, Hw, H1. done.
Qed.

Lemma unchanged_sb s s' : unchanged s' = unchanged s -> k_sb s' = k_sb s.
Proof. by intros [=]. Qed.
Lemma unchanged_itable s s' : unchanged s' = unchanged s -> k_itable s' = k_itable s.
Proof. by intros [=]. Qed.
Lemma unchanged_disk s s' : unchanged s' = unchanged s -> k_disk s' = k_disk s.
Proof. by intros [=]. Qed.

(** ** The context of an operation *)

Definition tx_idle (pr : proc) (s : kst) : Prop :=
  p_tx pr = 0 \/ exists t, k_heap s !! p_tx pr = Some (PTx t) /\ tx_status t <> TX_ACTIVE.

(** blocks that may go to the log *)
Definition loggable (start : Z) (d : gmap Z (list Z)) (x : Z) : Prop :=
  0 <= x < 2 ^ 31 /\ ~ in_log start x /\ is_Some (d !! x).

Record fs_ctx (p : nat) (pr : proc) (start : Z) (s : kst) (bls : list Z) : Prop := {
  fx_running : running p pr s;
  fx_held : k_held s = [];
  fx_idle : tx_idle pr s;
  fx_txpage : nonbuf s (p_tx pr);
  fx_inv : exists l, bio_inv s l;
  fx_log : log_ok s start bls;
  fx_array : length (l_block (k_log s)) = Z.to_nat LOGBLOCKS;
  fx_out : 1 <= l_outstanding (k_log s);
  fx_others : forall x, 0 <= others s bls x < 2 ^ 31;
  fx_clean : forall x, x ∉ bls -> bview s x = k_disk s !! x;
}.

Lemma tx_idle_no_tx p pr s : running p pr s -> tx_idle pr s -> no_tx s.
Proof.
  intros [Hc Hp _] Hi. unfold no_tx, tx_active, myproc, get_proc.
  erewrite bind_ok by (unfold deref; by rewrite Hc).
  erewrite bind_ok by (unfold deref; by rewrite Hp).
  destruct Hi as [->|(t & Ht & Hs)]; [done|]. destruct (p_tx pr =? 0); [done|].
  erewrite bind_ok by (unfold load_tx, deref; by rewrite Ht). by rewrite (proj2 (Z.eqb_neq _ _) Hs).
Qed.

(** the pages that are not buffers, the buffers on the stack, and the devices *)
Record outer := Mk_outer { o_heap : gmap Z pobj; o_kbuf : list Z; o_dev : devst }.
Definition outer_of (s : kst) : outer := Mk_outer (k_heap s) (k_kbuf s) (k_dev s).

Section Steps.
Context (p : nat) (pr : proc) (start : Z) (s0 : kst) (b0 : list Z).

(** The operation that started in [s0] has reached [s]: it has logged [bls],
    the blocks read as [v], it holds the buffers [lks], and outside the cache
    the machine is [m]. *)
Record fstep (s : kst) (bls : list Z) (v : Z -> option (list Z)) (lks : list (Z * nat))
    (m : outer) : Prop := {
  fp_ctx : fs_ctx p pr start s bls;
  fp_frame : fframe s0 s;
  fp_heap : forall a, nonbuf s0 a -> k_heap s !! a = o_heap m !! a;
  fp_pages : forall a, nonbuf s0 a \/ k_heap s !! a = k_heap s0 !! a \/
    exists bytes, k_heap s !! a = Some (PBuf bytes);
  fp_kbuf : k_kbuf s = o_kbuf m;
  fp_dev : k_dev s = o_dev m;
  fp_view : forall x, bview s x = v x;
  fp_blocked : forall x, blocked s x =
    if bool_decide (x ∈ lks.*1) then Some (p_pid pr) else blocked s0 x;
  fp_free : forall x, x ∈ lks.*1 -> blocked s0 x = None;
  fp_cached : forall x i, (x, i) ∈ lks -> cached s x = Some i;
  fp_nodup : NoDup lks.*1;
  fp_others : forall x, others s bls x = others s0 b0 x;
  fp_bls : b0 `prefix_of` bls;
}.

Lemma fstep_refl : fs_ctx p pr start s0 b0 -> fstep s0 b0 (bview s0) [] (outer_of s0).
Proof. intros H. split; try done; [by right; left|set_solver|set_solver|constructor]. Qed.

Lemma fstep_view s bls v v' lks m : (forall x, v' x = v x) -> fstep s bls v lks m -> fstep s bls v' lks m.
Proof. intros H []. split; try done. intros x. by rewrite H. Qed.

Lemma fstep_outer s bls v lks m m' :
  (forall a, nonbuf s0 a -> o_heap m' !! a = o_heap m !! a) -> o_kbuf m' = o_kbuf m -> o_dev m' = o_dev m ->
  fstep s bls v lks m -> fstep s bls v lks m'.
Proof.
  intros H1 H2 H3 []. split; try done; [|by rewrite H2|by rewrite H3]. intros a Ha. by rewrite H1, fp_heap0.
Qed.

Lemma fstep_refs s bls v lks m x :
  fstep s bls v lks m ->
  refs s x = others s bls x + lockref (blocked s x) + pinref bls x.
Proof. intros _. unfold others. lia. Qed.

(** the buffers still free *)
Lemma fstep_room s bls v lks m :
  fs_ctx p pr start s0 b0 -> fstep s bls v lks m ->
  (nfree s0 + length b0 <= nfree s + length bls + length lks)%nat.
Proof.
  intros H0 H. destruct (fx_inv _ _ _ _ _ H0) as [l0 I0]. destruct (fx_inv _ _ _ _ _ (fp_ctx _ _ _ _ _ H)) as [l I].
  destruct (fp_bls _ _ _ _ _ H) as [new Hnew].
  pose proof (nfree_grow s0 l0 s l (new ++ lks.*1) I0 I) as Hg. rewrite length_app, length_fmap in Hg.
  rewrite Hnew, length_app. enough (nfree s0 <= nfree s + (length new + length lks))%nat by lia.
  apply Hg. intros x Hx. destruct (decide (x ∈ new ++ lks.*1)) as [|Hn]; [by right|left].
  apply not_elem_of_app in Hn as [Hn1 Hn2]. rewrite (fstep_refs _ _ _ _ _ x H) in Hx.
  rewrite (fp_others _ _ _ _ _ H), (fp_blocked _ _ _ _ _ H), bool_decide_false in Hx by done.
  unfold others in Hx. replace (pinref bls x) with (pinref b0 x) in Hx; [lia|].
  unfold pinref. rewrite Hnew. repeat case_bool_decide; set_solver.
Qed.

Context (H0 : fs_ctx p pr start s0 b0).

(** *** Locking and unlocking *)

Lemma running_frame s s' : fframe s s' -> running p pr s -> running p pr s'.
Proof using Type.
  intros [F1 F2 _ _] [R1 R2 R3]. injection F1 as _ _ _ _ _ _ _ Ep Ec _ _ _.
  split; [by rewrite Ec|by rewrite Ep|by rewrite F2].
Qed.

(** the transaction's page, if there is one, is as before *)
Definition same_tx (s s' : kst) : Prop := p_tx pr = 0 \/ k_heap s' !! p_tx pr = k_heap s !! p_tx pr.

Lemma tx_idle_pages s s' : same_tx s s' -> tx_idle pr s -> tx_idle pr s'.
Proof using Type.
  intros [?|E] Hi; [by left|]. destruct Hi as [?|(t & Ht & Hs)]; [by left|]. right. exists t. by rewrite E.
Qed.

(** a change of the cache and the log keeps the context *)
Lemma fs_ctx_step s s' bls bls' :
  fs_ctx p pr start s bls -> fframe s s' -> same_tx s s' ->
  (exists l, bio_inv s' l) -> log_ok s' start bls' ->
  length (l_block (k_log s')) = length (l_block (k_log s)) ->
  (forall x, others s' bls' x = others s bls x) ->
  (forall x, x ∉ bls' -> bview s' x = k_disk s !! x) -> fs_ctx p pr start s' bls'.
Proof using Type.
  intros [C1 C2 C3 C4 C5 C6 C7 C8 C9 C10] F Ht HI HL Hb Ho Hc.
  pose proof (ff_rest _ _ F) as [= Eh _ Ed _ _ _ _ _ _ _ _ _].
  split; [by apply (running_frame s)|congruence|by apply (tx_idle_pages s)| |done|done|congruence| | |].
  - by apply (nonbuf_data s).
  - by rewrite (ff_out _ _ F).
  - intros x. by rewrite Ho.
  - intros x Hx. by rewrite Ed, Hc.
Qed.

(** memory outside the cache after a change of the cache *)
Definition outside (s : kst) (m : outer) : Prop :=
  (forall a, nonbuf s0 a -> k_heap s !! a = o_heap m !! a) /\
  (forall a, nonbuf s0 a \/ k_heap s !! a = k_heap s0 !! a \/ exists bytes, k_heap s !! a = Some (PBuf bytes)) /\
  k_kbuf s = o_kbuf m /\ k_dev s = o_dev m.

Lemma outside_cache s s' m : fframe s0 s -> cframe s s' -> outside s m -> outside s' m.
Proof using Type.
  intros F C (H1 & H2 & H3 & H4). split_and!.
  - intros a Ha. rewrite (cf_heap _ _ C); [auto|]. by apply (nonbuf_data s0).
  - intros a. destruct (cf_pages _ _ C a) as [->|?]; [apply H2|by right; right].
  - by rewrite (cf_rest _ _ C).
  - by rewrite (cf_rest _ _ C).
Qed.

Lemma wp_bread_fs s bls v lks m x bytes (Q : nat -> kst -> Prop) :
  fstep s bls v lks m -> v x = Some bytes -> x ∉ lks.*1 -> blocked s0 x = None ->
  (length bls + length lks < nfree s0 + length b0)%nat ->
  (forall i s', fstep s' bls v ((x, i) :: lks) m -> Q i s') -> wp (bread ROOTDEV x) s Q.
Proof using H0.
  intros H Hx Hn Hb Hroom HQ. pose proof (fstep_room _ _ _ _ _ H0 H) as Hr.
  destruct H as [C F M1 M2 M3 M4 V B Fr Ca N O P]. pose proof C as [C1 C2 C3 C4 [l C5] C6 C7 C8 C9 C10].
  assert (blocked s x = None) as Bx by (rewrite B, bool_decide_false; done).
  destruct (bread_ok s l p pr C5 C1 C2 x bytes) as (i & s' & E & R).
  { by rewrite V. }
  { done. }
  { specialize (C9 x). unfold others in C9. rewrite Bx in C9. unfold pinref in C9. cbn in C9.
    case_bool_decide; lia. }
  { lia. }
  eapply wp_run; [exact E|]. apply HQ. destruct R as [R1 R2 R3 R4 R5 R6 R7 R8 R9 R10 R11].
  pose proof (fframe_cache _ _ R6 R3 R4) as F1.
  assert (forall y, others s' bls y = others s bls y) as O1.
  { intros y. unfold others. rewrite R8, R9. case_bool_decide; [subst y|done]. rewrite Bx. cbn. lia. }
  destruct (outside_cache s s' m F R6) as (N1 & N2 & N3 & N4); [by split_and!|].
  split; [|by eapply fframe_trans|done|done|done|done| | | | | | |done].
  - apply (fs_ctx_step s s' bls); [done|done|by right; apply (cf_heap _ _ R6)|eauto| |by rewrite (cframe_log _ _ R6)|done|].
    + destruct C6 as [L1 L2 L3 L4 L5 L6 L7 L8 L9]. split; rewrite ?(cframe_log _ _ R6), ?R3; done.
    + intros y Hy. by rewrite R7, C10.
  - intros y. by rewrite R7.
  - intros y. rewrite R9, B, fmap_cons. repeat case_bool_decide; set_solver.
  - intros y. rewrite fmap_cons. intros [->|Hy]%elem_of_cons; [done|auto].
  - intros y j [[= -> ->]|Hy]%elem_of_cons; [done|]. rewrite R11; [by apply Ca|].
    assert (y ∈ lks.*1) as Hy1 by (apply list_elem_of_fmap; by exists (y, j)).
    specialize (C9 y). unfold others in C9. rewrite B, bool_decide_true in C9 by done. cbn in C9.
    unfold pinref in C9. case_bool_decide; lia.
  - rewrite fmap_cons. by constructor.
  - intros y. by rewrite O1.
Qed.

Lemma fstep_owned s bls v lks m x i :
  fstep s bls v lks m -> (x, i) ∈ lks -> cached s x = Some i /\ blocked s x = Some (p_pid pr).
Proof using Type.
  intros H Hx. split; [by apply (fp_cached _ _ _ _ _ H)|].
  rewrite (fp_blocked _ _ _ _ _ H), bool_decide_true; [done|]. apply list_elem_of_fmap. by exists (x, i).
Qed.

Lemma wp_brelse_fs s bls v lks m x i (Q : unit -> kst -> Prop) :
  fstep s bls v ((x, i) :: lks) m -> (forall s', fstep s' bls v lks m -> Q tt s') -> wp (brelse i) s Q.
Proof using H0.
  intros H HQ. destruct (fstep_owned _ _ _ _ _ x i H ltac:(by left)) as [Hc Ho].
  destruct H as [C F M1 M2 M3 M4 V B Fr Ca N O P]. pose proof C as [C1 C2 C3 C4 [l C5] C6 C7 C8 C9 C10].
  rewrite fmap_cons in B, Fr, N. apply NoDup_cons in N as [Nx N].
  destruct (brelse_ok s l p pr C5 C1 C2 x i Hc Ho) as (s' & E & R).
  { intros Hr. rewrite C10; [done|]. intros Hin. specialize (C9 x). unfold others, pinref in C9.
    rewrite Ho, Hr, bool_decide_true in C9 by done. cbn in C9. lia. }
  eapply wp_run; [exact E|]. apply HQ. destruct R as [R1 R2 R3 R4 R5 R6 R7 R8 R9 R10].
  pose proof (fframe_cache _ _ R5 R2 R3) as F1.
  assert (forall y, others s' bls y = others s bls y) as O1.
  { intros y. unfold others. rewrite R7, R8. case_bool_decide; [subst y|done]. rewrite Ho. cbn. lia. }
  destruct (outside_cache s s' m F R5) as (N1 & N2 & N3 & N4); [by split_and!|].
  split; [|by eapply fframe_trans|done|done|done|done| | | | |done| |done].
  - apply (fs_ctx_step s s' bls); [done|done|by right; apply (cf_heap _ _ R5)|eauto| |by rewrite (cframe_log _ _ R5)|done|].
    + destruct C6 as [L1 L2 L3 L4 L5 L6 L7 L8 L9]. split; rewrite ?(cframe_log _ _ R5), ?R2; done.
    + intros y Hy. by rewrite R6, C10.
  - intros y. by rewrite R6.
  - intros y. rewrite R8, B. specialize (Fr x ltac:(by left)). repeat case_bool_decide; set_solver.
  - intros y Hy. apply Fr. by right.
  - intros y j Hy. rewrite R10. apply Ca. by right.
  - intros y. by rewrite O1.
Qed.

(** *** The data of a buffer *)

Definition dptr (i : nat) : Z := default 0 (b_data <$> k_bcache s0 !! i).

Lemma fstep_entry s bls v lks m x i :
  fstep s bls v lks m -> (x, i) ∈ lks ->
  exists b bytes, cbuf s i b /\ b_data b = dptr i /\ heap_bytes s (dptr i) = Some bytes /\ v x = Some bytes.
Proof using Type.
  intros H Hx. destruct (fstep_owned _ _ _ _ _ x i H Hx) as [Hc Ho].
  destruct (fx_inv _ _ _ _ _ (fp_ctx _ _ _ _ _ H)) as [l HI].
  destruct (locked_entry s l pr HI x i Hc Ho) as (b & bytes & Hb & _ & _ & _ & _ & _ & Hby & Hv).
  assert (b_data b = dptr i) as E.
  { pose proof (ff_data _ _ (fp_frame _ _ _ _ _ H) i) as Hd. rewrite (proj2 Hb) in Hd. unfold dptr.
    by rewrite <- Hd. }
  exists b, bytes. rewrite <- E. split_and!; try done. by rewrite <- (fp_view _ _ _ _ _ H).
Qed.

Lemma fstep_no_tx s bls v lks m : fstep s bls v lks m -> no_tx s.
Proof using Type. intros [C _ _ _ _ _ _ _ _ _ _ _]. by apply (tx_idle_no_tx p pr); apply C. Qed.

Lemma bdata_fs {L : Layout} s bls v lks m x i :
  fstep s bls v lks m -> (x, i) ∈ lks -> bdata i s = Ok (dptr i) s.
Proof using Type.
  intros H Hx. destruct (fstep_entry _ _ _ _ _ _ _ H Hx) as (b & bytes & [_ Hb] & Hd & _ & _).
  unfold bdata. erewrite bind_ok by reflexivity.
  rewrite (running_cur _ _ _ (fx_running _ _ _ _ _ (fp_ctx _ _ _ _ _ H))).
  erewrite bind_ok by (eapply fstep_no_tx; exact H). cbv beta iota.
  unfold get_buf. erewrite bind_ok by (unfold deref; by rewrite Hb). by rewrite Hd.
Qed.

Lemma load_buf_fs s bls v lks m x i bytes :
  fstep s bls v lks m -> (x, i) ∈ lks -> v x = Some bytes -> load_buf (dptr i) s = Ok bytes s.
Proof using Type.
  intros H Hx Hv. destruct (fstep_entry _ _ _ _ _ _ _ H Hx) as (b & bytes' & _ & _ & Hby & Hv').
  rewrite Hv in Hv'. injection Hv' as <-. unfold load_buf, deref. unfold heap_bytes in Hby. by rewrite Hby.
Qed.

Lemma bdata_get_fs s bls v lks m x i bytes :
  fstep s bls v lks m -> (x, i) ∈ lks -> v x = Some bytes -> bdata_get i s = Ok bytes s.
Proof using Type.
  intros H Hx Hv. destruct (fstep_entry _ _ _ _ _ _ _ H Hx) as (b & _ & [_ Hb] & Hd & _ & _).
  unfold bdata_get, get_buf. erewrite bind_ok by (unfold deref; by rewrite Hb). rewrite Hd.
  by apply (load_buf_fs s bls v lks m x i).
Qed.

Lemma bdata_upd_fs s bls v lks m x i g :
  fstep s bls v lks m -> (x, i) ∈ lks -> bdata_upd i g s = upd_buf_data (dptr i) g s.
Proof using Type.
  intros H Hx. destruct (fstep_entry _ _ _ _ _ _ _ H Hx) as (b & _ & [_ Hb] & Hd & _ & _).
  unfold bdata_upd, get_buf. erewrite bind_ok by (unfold deref; by rewrite Hb). by rewrite Hd.
Qed.

(** *** Changing a block *)

Lemma fframe_log f s : l_outstanding (f (k_log s)) = l_outstanding (k_log s) -> fframe s (set_k_log f s).
Proof using Type. intros H. by split. Qed.

Lemma wp_write_fs {B} s bls v lks m x i g bytes (K : unit -> kst -> res kst B) (Q : B -> kst -> Prop) :
  fstep s bls v lks m -> (x, i) ∈ lks -> v x = Some bytes -> loggable start (k_disk s0) x ->
  Z.of_nat (length bls) < LOGBLOCKS ->
  (forall s', fstep s' (absorb bls x) (vset x (g bytes) v) lks m -> wp (K tt) s' Q) ->
  wp (upd_buf_data (dptr i) g ≫= fun _ => log_write i ≫= K) s Q.
Proof using H0.
  intros H Hx Hv (Hr & Hnl & Hd) Hroom HQ. destruct (fstep_owned _ _ _ _ _ x i H Hx) as [Hc Ho].
  pose proof (bdata_upd_fs _ _ _ _ _ x i g H Hx) as Eu.
  destruct H as [C F M1 M2 M3 M4 V B' Fr Ca N O P]. pose proof C as [C1 C2 C3 C4 [l C5] C6 C7 C8 C9 C10].
  pose proof (unchanged_disk _ _ (ff_rest _ _ F)) as Ed. rewrite <- Ed in Hd.
  destruct (bdata_upd_ok s l pr C5 x i Hc Ho g bytes ltac:(by rewrite V)) as (s1 & E1 & R).
  rewrite Eu in E1. apply wp_bind. eapply wp_run; [exact E1|].
  destruct R as [R1 R2 R3 R4 R5 R6 R7 R8 R9 R10]. pose proof (cframe_log _ _ R5) as L1.
  pose proof (fframe_cache _ _ R5 R2 R3) as F1. apply wp_bind.
  assert (log_ok s1 start bls) as HL1.
  { destruct C6 as [K1 K2 K3 K4 K5 K6 K7 K8 K9]. split; rewrite ?L1, ?R2; done. }
  eapply wp_run.
  { apply (log_write_run s1 l start bls x i R1); try done.
    - by rewrite (cframe_held _ _ R5).
    - apply (tx_idle_no_tx p pr); [by apply (cframe_running _ _ s)|].
      apply (tx_idle_pages s); [by right; apply (cf_heap _ _ R5)|done].
    - by rewrite L1.
    - by rewrite R10.
    - by rewrite L1. }
  set (s1' := if bool_decide (x ∈ bls) then s1 else _). set (s2 := set_k_log _ s1').
  assert (bchange s1 s1' l (k_disk s1) (k_dwrites s1) (bview s1)
    (fun y => if bool_decide (y = x /\ x ∉ bls) then refs s1 x + 1 else refs s1 y)) as T.
  { unfold s1'. case_bool_decide as Hin.
    - split; try done. intros y. rewrite bool_decide_false; [done|tauto].
    - destruct (refcnt_step s1 l pr R1 x i ltac:(by rewrite R10) ltac:(by rewrite R8) (fun n => n + 1)
        (refs s1 x + 1)) as [T1 T2 T3 T4 T5 T6 T7 T8 T9 T10].
      { intros b _ ->. apply wrap_small. pose proof (refs_nonneg _ _ x R1). specialize (C9 x).
        unfold others, pinref in C9. rewrite Ho, R7 in *. rewrite bool_decide_false in C9 by done. cbn in C9. lia. }
      { pose proof (refs_nonneg _ _ x R1). specialize (C9 x).
        unfold others, pinref in C9. rewrite Ho, R7 in *. rewrite bool_decide_false in C9 by done. cbn in C9. lia. }
      split; try done. intros y. rewrite T7. repeat case_bool_decide; (done || tauto). }
  destruct T as [T1 T2 T3 T4 T5 T6 T7 T8 T9 T10].
  assert (fframe s s2) as F2.
  { eapply fframe_trans; [exact F1|]. eapply fframe_trans; [by apply fframe_cache|].
    apply fframe_log. unfold logged_state. by case_bool_decide. }
  assert (forall y, others s2 (absorb bls x) y = others s bls y) as O2.
  { intros y. unfold others, s2. rewrite refs_log, blocked_log, T7, T8, R8, pinref_absorb, !R7.
    case_bool_decide as E; [destruct E as [-> _]|]; lia. }
  assert (forall y, bview s2 y = vset x (g bytes) v y) as V2.
  { intros y. unfold s2. rewrite bview_log, T6, R6. unfold vset. case_bool_decide; [done|apply V]. }
  destruct (outside_cache s1 s1' m (fframe_trans _ _ _ F F1) T5) as (N1 & N2 & N3 & N4).
  { by apply (outside_cache s); [..|split_and!]. }
  assert (k_heap s1' !! p_tx pr = k_heap s !! p_tx pr) as Ht2
    by (rewrite N1, M1; [done|apply H0..]).
  apply HQ. split; [|by eapply fframe_trans|done|done|done|done|done| |done| |done| |].
  - apply (fs_ctx_step s s2 bls); [done|done|by right|exists l; by apply bio_inv_log| | |done|].
    + apply (log_ok_absorb s1 start bls x HL1); try done; [by rewrite L1| |by rewrite R2].
      unfold s2. ksimpl. by rewrite (cframe_log _ _ T5).
    + unfold s2. ksimpl. rewrite (cframe_log _ _ T5), L1. unfold logged_state.
      case_bool_decide; [done|]. cbn. by rewrite length_insert.
    + intros y Hy. assert (y <> x /\ y ∉ bls) as [Hne Hnb].
      { unfold absorb in Hy. case_bool_decide; set_solver. }
      by rewrite V2, vset_ne, <- V, C10.
  - intros y. unfold s2. by rewrite blocked_log, T8, R8, B'.
  - intros y j Hy. transitivity (cached s1' y); [by apply cached_ext|]. rewrite T10, R10. by apply Ca.
  - intros y. by rewrite O2.
  - unfold absorb. case_bool_decide; [done|]. by apply prefix_app_r.
Qed.

Lemma wp_write_last s bls v lks m x i g bytes (Q : unit -> kst -> Prop) :
  fstep s bls v lks m -> (x, i) ∈ lks -> v x = Some bytes -> loggable start (k_disk s0) x ->
  Z.of_nat (length bls) < LOGBLOCKS ->
  (forall s', fstep s' (absorb bls x) (vset x (g bytes) v) lks m -> Q tt s') ->
  wp (upd_buf_data (dptr i) g;; log_write i) s Q.
Proof using H0.
  intros H Hx Hv Hl Hroom HQ.
  pose proof (wp_write_fs s bls v lks m x i g bytes mret Q H Hx Hv Hl Hroom
    (fun s' H' => wp_ret tt s' Q (HQ s' H'))) as Hw.
  apply wp_bind. eapply wp_mono; [exact (wp_bind_inv _ _ _ _ Hw)|]. intros u s1 Hs. cbn beta in Hs.
  eapply wp_mono; [exact (wp_bind_inv _ _ _ _ Hs)|]. by intros [] s2.
Qed.

(** *** Changes outside the cache *)

Lemma fstep_other s bls v lks m h kb :
  fstep s bls v lks m -> keeps_bufs (k_heap s) h ->
  p_tx pr = 0 \/ h !! p_tx pr = k_heap s !! p_tx pr ->
  (forall a, nonbuf s0 a \/ h !! a = k_heap s !! a) ->
  fstep (set_k_kbuf (fun _ => kb) (set_k_heap (fun _ => h) s)) bls v lks (Mk_outer h kb (o_dev m)).
Proof using Type.
  intros [C F M1 M2 M3 M4 V B Fr Ca N O P] Hk Ht Hh. set (s' := set_k_kbuf _ _).
  pose proof C as [C1 C2 C3 C4 [l C5] C6 C7 C8 C9 C10].
  assert (fframe s s') as F1 by (by split).
  assert (forall x, bview s' x = bview s x) as V1 by (intros x; by apply (bview_ext s s' l)).
  assert (forall x, others s' bls x = others s bls x) as O1.
  { intros x. unfold others. by rewrite (refs_ext s s'), (blocked_ext s s'). }
  split; [|by eapply fframe_trans|done| |done|done| | |done| |done| |done].
  - apply (fs_ctx_step s s' bls); [done|done|done| |by destruct C6|done|done|].
    + exists l. by apply (bio_inv_ext s).
    + intros x Hx. by rewrite V1, C10.
  - intros a. destruct (Hh a) as [|E]; [by left|]. destruct (M2 a) as [|M2a]; [by left|right].
    change (k_heap s' !! a) with (h !! a). by rewrite E.
  - intros x. by rewrite V1.
  - intros x. by rewrite (blocked_ext s s').
  - intros x i Hi. rewrite (cached_ext s s') by done. by apply Ca.
  - intros x. by rewrite O1.
Qed.

End Steps.

(** *** Messages *)

Lemma fs_ctx_dev p pr start d s bls :
  fs_ctx p pr start s bls -> fs_ctx p pr start (set_k_dev (fun _ => d) s) bls.
Proof.
  intros [C1 C2 C3 C4 [l C5] C6 C7 C8 C9 C10].
  split; try done; [by destruct C1|exists l; by apply bio_inv_dev|by apply log_ok_dev].
Qed.

Definition set_o_dev (d : devst) (m : outer) : outer := Mk_outer (o_heap m) (o_kbuf m) d.

Lemma fstep_dev p pr start s0 b0 d s bls v lks m :
  fstep p pr start s0 b0 s bls v lks m ->
  fstep p pr start s0 b0 (set_k_dev (fun _ => d) s) bls v lks (set_o_dev d m).
Proof.
  intros [C F M1 M2 M3 M4 V B Fr Ca N O P]. split; try done; [by apply fs_ctx_dev|]. by destruct F.
Qed.
