(* ===== verification/Bitmap.v ===== *)
(** * The allocation bitmap

    [used sb v b]: the bit of block [b] in the bitmap of the view [v].
    [balloc] takes the first block whose bit is clear, sets the bit and zeroes
    the block, or prints a message and returns 0 when every bit is set;
    [bfree] clears a bit. *)

From S2P Require Import Prelude Monad CString Types Kernel Kalloc Uart Printf Echo Bio Lru BioFacts Log LogFacts LogCrash LogOps Tx FsBlock FsCtx.
From stdpp Require Import base numbers list gmap strings.
From Stdlib Require Import ZArith Lia.

Open Scope Z_scope.

(** ** Bits of a block *)

Definition byte_of (bytes : list Z) (i : Z) : Z := nth (Z.to_nat (i / 8)) bytes 0.
Definition bit_at (bytes : list Z) (i : Z) : bool := Z.testbit (byte_of bytes i) (i mod 8).

Definition mark_bit (i : Z) (bytes : list Z) : list Z :=
  put_byte (i / 8) (Z.lor (byte_of bytes i) (Z.shiftl 1 (i mod 8))) bytes.
Definition clear_bit (i : Z) (bytes : list Z) : list Z :=
  put_byte (i / 8) (Z.land (byte_of bytes i) (Z.lnot (Z.shiftl 1 (i mod 8)))) bytes.

Lemma shiftl_1_testbit k j : 0 <= k -> 0 <= j -> Z.testbit (Z.shiftl 1 k) j = (j =? k).
Proof.
  intros Hk Hj. rewrite Z.shiftl_spec by lia. destruct (Z.eqb_spec j k) as [->|Hne].
  - by rewrite Z.sub_diag.
  - destruct (Z.testbit 1 (j - k)) eqn:E; [|done]. destruct (decide (j - k = 0)); [lia|].
    destruct (decide (j - k < 0)); [by rewrite Z.testbit_neg_r in E by lia|].
    rewrite Z.bits_above_log2 in E; simpl; (done || lia).
Qed.

Lemma land_bit v k : 0 <= k -> (Z.land v (Z.shiftl 1 k) =? 0) = negb (Z.testbit v k).
Proof.
  intros Hk. apply Bool.eq_iff_eq_true. rewrite Z.eqb_eq, negb_true_iff. split.
  - intros E. pose proof (f_equal (fun z => Z.testbit z k) E) as Hb. cbn in Hb.
    by rewrite Z.land_spec, shiftl_1_testbit, Z.eqb_refl, andb_true_r, Z.bits_0 in Hb by lia.
  - intros E. apply Z.bits_inj'. intros j Hj. rewrite Z.land_spec, shiftl_1_testbit, Z.bits_0 by lia.
    destruct (Z.eqb_spec j k) as [->|]; [by rewrite E|by rewrite andb_false_r].
Qed.

Lemma testbit_u8 x k : 0 <= k < 8 -> Z.testbit (u8 x) k = Z.testbit x k.
Proof. intros Hk. apply Z.mod_pow2_bits_low. lia. Qed.

Lemma byte_of_put i j x bytes :
  0 <= i < 8 * Z.of_nat (length bytes) -> 0 <= j ->
  byte_of (put_byte (i / 8) x bytes) j = if j / 8 =? i / 8 then u8 x else byte_of bytes j.
Proof.
  intros Hi Hj. unfold byte_of, put_byte. rewrite !nth_lookup.
  assert (0 <= i / 8) by (apply Z.div_pos; lia). assert (0 <= j / 8) by (apply Z.div_pos; lia).
  assert (i / 8 < Z.of_nat (length bytes)) by (apply Z.div_lt_upper_bound; lia).
  destruct (Z.eqb_spec (j / 8) (i / 8)) as [->|Hne].
  - by rewrite list_lookup_insert_eq by lia.
  - by rewrite list_lookup_insert_ne by lia.
Qed.

Lemma same_bit i j : i / 8 = j / 8 -> i mod 8 = j mod 8 -> i = j.
Proof. intros. rewrite (Z.div_mod i 8), (Z.div_mod j 8) by lia. lia. Qed.

Lemma bit_at_mark i j bytes :
  0 <= i < 8 * Z.of_nat (length bytes) -> 0 <= j ->
  bit_at (mark_bit i bytes) j = if j =? i then true else bit_at bytes j.
Proof.
  intros Hi Hj. unfold bit_at, mark_bit. rewrite byte_of_put by done.
  pose proof (Z.mod_pos_bound j 8). pose proof (Z.mod_pos_bound i 8).
  destruct (Z.eqb_spec (j / 8) (i / 8)) as [E|E].
  - rewrite testbit_u8, Z.lor_spec, shiftl_1_testbit by lia.
    replace (byte_of bytes i) with (byte_of bytes j) by (unfold byte_of; by rewrite E).
    destruct (Z.eqb_spec (j mod 8) (i mod 8)) as [Em|Em]; destruct (Z.eqb_spec j i) as [->|Hne].
    + by rewrite orb_true_r.
    + by destruct Hne; apply same_bit.
    + done.
    + by rewrite orb_false_r.
  - destruct (Z.eqb_spec j i) as [->|]; [done|done].
Qed.

Lemma bit_at_clear i j bytes :
  0 <= i < 8 * Z.of_nat (length bytes) -> 0 <= j ->
  bit_at (clear_bit i bytes) j = if j =? i then false else bit_at bytes j.
Proof.
  intros Hi Hj. unfold bit_at, clear_bit. rewrite byte_of_put by done.
  pose proof (Z.mod_pos_bound j 8). pose proof (Z.mod_pos_bound i 8).
  destruct (Z.eqb_spec (j / 8) (i / 8)) as [E|E].
  - rewrite testbit_u8, Z.land_spec, Z.lnot_spec, shiftl_1_testbit by lia.
    replace (byte_of bytes i) with (byte_of bytes j) by (unfold byte_of; by rewrite E).
    destruct (Z.eqb_spec (j mod 8) (i mod 8)) as [Em|Em]; destruct (Z.eqb_spec j i) as [->|Hne].
    + by rewrite andb_false_r.
    + by destruct Hne; apply same_bit.
    + done.
    + by rewrite andb_true_r.
  - destruct (Z.eqb_spec j i) as [->|]; [done|done].
Qed.

Lemma length_mark i bytes : length (mark_bit i bytes) = length bytes.
Proof. apply length_insert. Qed.
Lemma length_clear i bytes : length (clear_bit i bytes) = length bytes.
Proof. apply length_insert. Qed.

Lemma byte_at_ok bytes i (s : kst) :
  0 <= i < 8 * Z.of_nat (length bytes) -> byte_at bytes (i / 8) s = Ok (byte_of bytes i) s.
Proof.
  intros Hi. unfold byte_at, deref, byte_of.
  assert (0 <= i / 8) by (apply Z.div_pos; lia).
  assert (i / 8 < Z.of_nat (length bytes)) by (apply Z.div_lt_upper_bound; lia).
  destruct (lookup_lt_is_Some_2 bytes (Z.to_nat (i / 8))) as [x Hx]; [lia|].
  by rewrite (nth_lookup_Some _ _ _ _ Hx), Hx.
Qed.

(** ** The bitmap of a view *)

Definition used (sb : superblock) (v : Z -> option (list Z)) (b : Z) : bool :=
  match v (BBLOCK b sb) with Some bytes => bit_at bytes (b mod BPB) | None => true end.

Definition zero_block : list Z := replicate (Z.to_nat BSIZE) 0.

(** the view after block [b] has been taken *)
Definition taken (sb : superblock) (b : Z) (v : Z -> option (list Z)) : Z -> option (list Z) :=
  vset b zero_block (vset (BBLOCK b sb) (mark_bit (b mod BPB) (default [] (v (BBLOCK b sb)))) v).

Lemma BBLOCK_row k bi sb : 0 <= bi < BPB -> BBLOCK (BPB * k + bi) sb = BBLOCK (BPB * k) sb.
Proof.
  intros H. unfold BBLOCK. f_equal. f_equal.
  rewrite (Z.mul_comm BPB k), Z.div_add_l, Z.div_mul, (Z.div_small bi) by (done || lia). lia.
Qed.

Lemma mod_row k bi : 0 <= bi < BPB -> (BPB * k + bi) mod BPB = bi.
Proof. intros H. rewrite Z.add_comm, Z.mul_comm, Z.mod_add by done. by apply Z.mod_small. Qed.

Section Bitmap.
Context {L : Layout} (p : nat) (pr : proc) (start : Z) (s0 : kst) (b0 : list Z).
Context (H0 : fs_ctx p pr start s0 b0).
Context (sb : superblock) (Hsb : k_sb s0 = sb).

Notation fstep := (fstep p pr start s0 b0).

(** The bitmap blocks can be read and written, and so can the free blocks;
    blocks of the bitmap, the log and block 0 are never free. *)
Record space (v : Z -> option (list Z)) : Prop := {
  sp_size : 0 < sb_size sb < 2 ^ 31;
  sp_zero : used sb v 0 = true;
  sp_map : forall b, 0 <= b < sb_size sb ->
    loggable start (k_disk s0) (BBLOCK b sb) /\ blocked s0 (BBLOCK b sb) = None /\
    exists bytes, v (BBLOCK b sb) = Some bytes /\ Z.of_nat (length bytes) = BSIZE;
  sp_free : forall b, 0 <= b < sb_size sb -> used sb v b = false ->
    loggable start (k_disk s0) b /\ blocked s0 b = None /\ is_Some (v b) /\
    forall b', 0 <= b' < sb_size sb -> BBLOCK b' sb <> b;
}.

(** the buffers held are of blocks in use, not of the bitmap *)
Definition apart (v : Z -> option (list Z)) (lks : list (Z * nat)) : Prop :=
  forall x, x ∈ lks.*1 -> (forall b, 0 <= b < sb_size sb -> BBLOCK b sb <> x) /\
    (0 <= x < sb_size sb -> used sb v x = true).

Lemma fstep_sb s bls v lks h : fstep s bls v lks h -> k_sb s = sb.
Proof using Hsb. intros H. by rewrite (unchanged_sb _ _ (ff_rest _ _ (fp_frame _ _ _ _ _ _ _ _ _ _ H))). Qed.

(** *** [bzero] *)

Lemma wp_bzero s bls v lks h x (Q : unit -> kst -> Prop) :
  fstep s bls v lks h -> is_Some (v x) -> x ∉ lks.*1 -> blocked s0 x = None ->
  loggable start (k_disk s0) x -> Z.of_nat (length bls) < LOGBLOCKS ->
  (length bls + length lks < nfree s0 + length b0)%nat ->
  (forall s', fstep s' (absorb bls x) (vset x zero_block v) lks h -> Q tt s') ->
  wp (bzero ROOTDEV x) s Q.
Proof using H0.
  intros H [bytes Hx] Hn Hb Hl Hlog Hroom HQ. unfold bzero. apply wp_bind.
  eapply wp_bread_fs; [done|exact H|done..|]. intros i s1 H1. apply wp_bind.
  eapply wp_run; [eapply bdata_fs; [exact H1|by left]|].
  eapply wp_write_fs; [done|exact H1|by left|done|done|done|]. intros s2 H2.
  by eapply wp_brelse_fs.
Qed.

(** *** [balloc] *)

Lemma absorb_length bls x : (length (absorb bls x) <= S (length bls))%nat.
Proof. unfold absorb. case_bool_decide; rewrite ?length_app; simpl; lia. Qed.

(** one bit *)
Lemma wp_balloc_scan s bls v lks h k bp bi (Q : option Z -> kst -> Prop) :
  let b := BPB * k in let bm := BBLOCK b sb in
  fstep s bls v ((bm, bp) :: lks) h -> space v -> apart v lks ->
  0 <= k -> 0 <= bi < BPB -> b + bi < sb_size sb ->
  Z.of_nat (length bls) + 1 < LOGBLOCKS -> (length bls + length lks + 1 < nfree s0 + length b0)%nat ->
  (used sb v (b + bi) = true -> Q None s) ->
  (forall s', used sb v (b + bi) = false ->
     fstep s' (absorb (absorb bls bm) (b + bi)) (taken sb (b + bi) v) lks h -> Q (Some (b + bi)) s') ->
  wp (balloc_scan ROOTDEV b bp bi) s Q.
Proof using H0.
  intros b bm H HS HL Hk Hbi Hsz Hlog Hroom Hused Hfree.
  assert (0 <= b) as Hb by (by apply Z.mul_nonneg_nonneg).
  assert (0 <= b + bi < sb_size sb) as Hin by lia.
  destruct (sp_map _ HS (b + bi) Hin) as (Hml & Hmb & bytes & Hv & Hlen).
  assert (BBLOCK (b + bi) sb = bm) as Ebm by (by apply BBLOCK_row). rewrite Ebm in *.
  assert ((b + bi) mod BPB = bi) as Emod by (by apply mod_row).
  assert (used sb v (b + bi) = bit_at bytes bi) as Eu.
  { unfold used. by rewrite Ebm, Hv, Emod. }
  assert (0 <= bi < 8 * Z.of_nat (length bytes)) as Hbits by (rewrite Hlen; unfold BPB in Hbi; lia).
  unfold balloc_scan. apply wp_bind. eapply wp_run; [eapply bdata_fs; [exact H|by left]|].
  apply wp_bind. eapply wp_run; [eapply load_buf_fs; [exact H|by left|exact Hv]|].
  apply wp_bind. eapply wp_run; [by apply byte_at_ok|].
  rewrite land_bit by (apply Z.mod_pos_bound; lia). fold (bit_at bytes bi). rewrite <- Eu.
  destruct (used sb v (b + bi)) eqn:Ef; cbn [negb]; [by apply wp_ret, Hused|].
  apply wp_bind. eapply wp_run; [eapply bdata_fs; [exact H|by left]|].
  apply wp_bind. eapply wp_run; [eapply load_buf_fs; [exact H|by left|exact Hv]|].
  apply wp_bind. eapply wp_run; [by apply byte_at_ok|]. fold (mark_bit bi bytes).
  eapply wp_write_fs; [done|exact H|by left|exact Hv|done|lia|]. intros s2 H2.
  apply wp_bind. eapply wp_brelse_fs; [done|exact H2|]. intros s3 H3. apply wp_bind.
  destruct (sp_free _ HS (b + bi) Hin Ef) as (Hl & Hlk & Hsome & Hne).
  pose proof (absorb_length bls bm) as Hab.
  eapply wp_bzero; [exact H3| | |done|done|lia|lia|].
  { rewrite vset_ne; [done|]. intros E. apply (Hne (b + bi) Hin). by rewrite Ebm. }
  { intros Hx. destruct (HL _ Hx) as [_ Hu]. rewrite Hu in Ef; done. }
  intros s4 H4. apply wp_ret, Hfree; [done|]. eapply fstep_view; [|exact H4].
  intros y. unfold taken. by rewrite Ebm, Hv, Emod.
Qed.

(** all blocks below [n] are in use *)
Definition full_below (v : Z -> option (list Z)) (n : Z) : Prop :=
  forall b, 0 <= b < n -> b < sb_size sb -> used sb v b = true.

(** one bitmap block *)
Lemma wp_balloc_row s bls v lks h k (Q : option Z -> kst -> Prop) :
  fstep s bls v lks h -> space v -> apart v lks -> 0 <= k -> BPB * k < sb_size sb ->
  full_below v (BPB * k) ->
  Z.of_nat (length bls) + 1 < LOGBLOCKS -> (length bls + length lks + 1 < nfree s0 + length b0)%nat ->
  (forall s', full_below v (BPB * (k + 1)) -> fstep s' bls v lks h -> Q None s') ->
  (forall s' b, 0 <= b < sb_size sb -> used sb v b = false -> full_below v b ->
     fstep s' (absorb (absorb bls (BBLOCK b sb)) b) (taken sb b v) lks h -> Q (Some b) s') ->
  wp (bp ← bread ROOTDEV (BBLOCK (BPB * k) sb);
      r ← for_find (seqZ 0 (Z.min BPB (sb_size sb - BPB * k))) (balloc_scan ROOTDEV (BPB * k) bp);
      match r with Some a => mret (Some a) | None => brelse bp;; mret None end) s Q.
Proof using H0.
  intros H HS HL Hk Hsz Hfull Hlog Hroom Hnone Hsome.
  assert (0 <= BPB * k) as Hb by (by apply Z.mul_nonneg_nonneg).
  destruct (sp_map _ HS (BPB * k) ltac:(lia)) as (_ & Hmb & bytes & Hv & _).
  assert (BBLOCK (BPB * k) sb ∉ lks.*1) as Hn.
  { intros Hx. destruct (HL _ Hx) as [Hne _]. by apply (Hne (BPB * k)); [lia|]. }
  apply wp_bind. eapply wp_bread_fs; [done|exact H|exact Hv|done|done|lia|].
  intros bp s1 H1. apply wp_bind. set (m := Z.min BPB (sb_size sb - BPB * k)).
  assert (0 <= m) as Hm by (unfold m, BPB, BSIZE in *; lia). rewrite <- (Z2Nat.id m Hm).
  apply (wp_for_find_range _ _ (fun j s' => s' = s1 /\ full_below v (BPB * k + Z.of_nat j))).
  - split; [done|]. by rewrite Z.add_0_r.
  - intros j s2 Hj [-> Hf]. eapply wp_balloc_scan; try done; [unfold m in *; lia..| |].
    + intros Hu. split; [done|]. intros c Hc Hcs. destruct (decide (c = BPB * k + Z.of_nat j)); [by subst|].
      apply Hf; lia.
    + intros s3 Hu H3. apply wp_ret. apply Hsome; [unfold m in *; lia|done|done|].
      by rewrite BBLOCK_row by (unfold m in *; lia).
  - intros s2 [-> Hf]. apply wp_bind. eapply wp_brelse_fs; [done|exact H1|]. intros s3 H3.
    apply wp_ret, Hnone; [|done]. intros c Hc Hcs. apply Hf; [|done]. rewrite Z2Nat.id by done.
    unfold m. lia.
Qed.

Lemma wp_balloc s bls v lks h (Q : Z -> kst -> Prop) :
  fstep s bls v lks h -> space v -> apart v lks ->
  Z.of_nat (length bls) + 1 < LOGBLOCKS -> (length bls + length lks + 1 < nfree s0 + length b0)%nat ->
  echo_ready 66 (o_dev h) ->
  (forall s' d, (forall b, 0 <= b < sb_size sb -> used sb v b = true) -> fstep s' bls v lks (set_o_dev d h) ->
     Q 0 s') ->
  (forall s' b, 0 < b < sb_size sb -> used sb v b = false -> full_below v b ->
     fstep s' (absorb (absorb bls (BBLOCK b sb)) b) (taken sb b v) lks h -> Q b s') ->
  wp (balloc ROOTDEV) s Q.
Proof using H0 Hsb.
  intros H HS HL Hlog Hroom Hecho Hnone Hsome. pose proof (sp_size _ HS) as Hsize.
  unfold balloc. apply wp_bind, wp_gets. rewrite (fstep_sb _ _ _ _ _ H). apply wp_bind.
  set (n := (sb_size sb + BPB - 1) / BPB).
  apply (wp_for_find _ _ (fun dn s' => fstep s' bls v lks h /\ full_below v (BPB * Z.of_nat (length dn)))).
  - split; [done|]. intros b Hb. simpl in Hb. lia.
  - intros dn x todo s1 Hl [H1 Hf].
    assert (map (Z.mul BPB) (seqZ 0 n) !! length dn = Some x) as Hx
      by (by rewrite Hl, lookup_app_r, Nat.sub_diag by lia).
    apply list_lookup_fmap_Some in Hx as (k & -> & Hk). apply lookup_seqZ in Hk as [-> Hlt].
    rewrite Z.add_0_l, length_app. simpl length.
    assert (BPB * Z.of_nat (length dn) < sb_size sb) as Hrow.
    { assert (Z.of_nat (length dn) + 1 <= n) as Hle by lia. unfold n in Hle.
      pose proof (Z.mul_div_le (sb_size sb + BPB - 1) BPB ltac:(done)). unfold BPB, BSIZE in *. lia. }
    eapply wp_balloc_row; try done; [lia| |].
    + intros s2 Hf2 H2. split; [done|]. by rewrite Nat2Z.inj_add.
    + intros s2 b Hb Hu Hfb H2. apply wp_ret, Hsome; try done. destruct (decide (b = 0)) as [->|]; [|lia].
      by rewrite (sp_zero _ HS) in Hu.
  - intros s1 [H1 Hf]. rewrite length_map, length_seqZ in Hf.
    assert (forall b, 0 <= b < sb_size sb -> used sb v b = true) as Hall.
    { intros b Hb. apply Hf; [|lia]. split; [lia|]. pose proof (Z.div_mod (sb_size sb + BPB - 1) BPB ltac:(done)) as Hd.
      pose proof (Z.mod_pos_bound (sb_size sb + BPB - 1) BPB ltac:(done)). fold n in Hd.
      unfold BPB, BSIZE in *. lia. }
    apply wp_bind.
    eapply wp_mono; [apply (kprintf_echo _ _ (chars "balloc: out of blocks" ++ [10]) 0)|].
    + reflexivity.
    + rewrite (fx_held _ _ _ _ _ (fp_ctx _ _ _ _ _ _ _ _ _ _ H1)). apply not_elem_of_nil.
    + rewrite (fp_dev _ _ _ _ _ _ _ _ _ _ H1). by apply (echo_ready_le _ 66); [vm_compute; lia|].
    + intros _ s2 (d & -> & _). apply wp_ret. eapply Hnone; [done|by apply fstep_dev].
Qed.

(** *** The bitmap after [balloc] *)

Lemma same_block b c : BBLOCK b sb = BBLOCK c sb -> 0 <= b < sb_size sb -> 0 <= c < sb_size sb ->
  sb_size sb < 2 ^ 31 -> b mod BPB = c mod BPB -> b = c.
Proof using Type.
  intros E Hb Hc Hs Hm. unfold BBLOCK, wrap in E.
  rewrite (Z.div_mod b BPB), (Z.div_mod c BPB), Hm by done. f_equal. f_equal.
  pose proof (Z.div_pos b BPB ltac:(lia) ltac:(done)). pose proof (Z.div_pos c BPB ltac:(lia) ltac:(done)).
  assert (forall z, 0 <= z < sb_size sb -> z / BPB < 2 ^ 31) as Hlt.
  { intros z Hz. apply Z.div_lt_upper_bound; [done|]. unfold BPB, BSIZE. lia. }
  pose proof (Hlt b Hb). pose proof (Hlt c Hc).
  assert ((b / BPB + sb_bmapstart sb - (c / BPB + sb_bmapstart sb)) mod 2 ^ 32 = 0) as Hz.
  { rewrite Zminus_mod, E, Z.sub_diag. done. }
  apply Z.mod_divide in Hz as [q Hq]; [|done]. lia.
Qed.

(** the bit of [b] set to [x] in the bitmap *)
Lemma used_vset v b bytes bytes' x c :
  sb_size sb < 2 ^ 31 -> 0 <= b < sb_size sb -> 0 <= c < sb_size sb ->
  v (BBLOCK b sb) = Some bytes ->
  (forall j, 0 <= j -> bit_at bytes' j = if j =? b mod BPB then x else bit_at bytes j) ->
  used sb (vset (BBLOCK b sb) bytes' v) c = if c =? b then x else used sb v c.
Proof using Type.
  intros Hs Hb Hc Hv Hbit. unfold used. destruct (decide (BBLOCK c sb = BBLOCK b sb)) as [E|E].
  - rewrite E, vset_eq, Hv, Hbit by (apply Z.mod_pos_bound; done).
    destruct (Z.eqb_spec (c mod BPB) (b mod BPB)) as [Em|Em], (Z.eqb_spec c b) as [->|Hne]; try done.
    destruct Hne. by apply same_block.
  - rewrite vset_ne by done. destruct (Z.eqb_spec c b) as [->|]; [done|done].
Qed.

Lemma mod_bits b (bytes : list Z) : Z.of_nat (length bytes) = BSIZE -> 0 <= b mod BPB < 8 * Z.of_nat (length bytes).
Proof using Type. intros ->. pose proof (Z.mod_pos_bound b BPB ltac:(done)). unfold BPB in *. lia. Qed.

Lemma used_taken v b c :
  space v -> 0 <= b < sb_size sb -> used sb v b = false -> 0 <= c < sb_size sb ->
  used sb (taken sb b v) c = if c =? b then true else used sb v c.
Proof using Type.
  intros HS Hb Hu Hc. destruct (sp_map _ HS b Hb) as (_ & _ & bytes & Hv & Hlen).
  destruct (sp_free _ HS b Hb Hu) as (_ & _ & _ & Hne). pose proof (sp_size _ HS).
  transitivity (used sb (vset (BBLOCK b sb) (mark_bit (b mod BPB) bytes) v) c).
  { unfold used, taken. rewrite vset_ne by (by apply Hne). by rewrite Hv. }
  apply (used_vset v b bytes _ true); [lia|done|done|done|].
  intros j Hj. by apply bit_at_mark; [apply mod_bits|].
Qed.

Lemma space_taken v b : space v -> 0 <= b < sb_size sb -> used sb v b = false -> space (taken sb b v).
Proof using Type.
  intros HS Hb Hu. destruct (sp_free _ HS b Hb Hu) as (_ & _ & _ & Hne).
  pose proof HS as [S1 S2 S3 S4]. split; [done| | |].
  - rewrite used_taken by (done || lia). by destruct (0 =? b).
  - intros c Hc. destruct (S3 c Hc) as (M1 & M2 & bytes & M3 & M4). split_and!; [done|done|].
    unfold taken. rewrite vset_ne by (by apply Hne). unfold vset. case_bool_decide as E; [|eauto].
    eexists. split; [done|]. rewrite length_mark, <- E, M3. done.
  - intros c Hc Huc. rewrite used_taken in Huc by done. destruct (Z.eqb_spec c b) as [|Hcb]; [done|].
    destruct (S4 c Hc Huc) as (F1 & F2 & F3 & F4). split_and!; try done. unfold taken.
    rewrite vset_ne, vset_ne by (by (apply not_eq_sym, F4) || done). done.
Qed.

(** *** [bfree] *)

(** the view after block [b] has been given back *)
Definition released (b : Z) (v : Z -> option (list Z)) : Z -> option (list Z) :=
  vset (BBLOCK b sb) (clear_bit (b mod BPB) (default [] (v (BBLOCK b sb)))) v.

Lemma wp_bfree s bls v lks h b (Q : unit -> kst -> Prop) :
  fstep s bls v lks h -> space v -> apart v lks -> 0 <= b < sb_size sb -> used sb v b = true ->
  Z.of_nat (length bls) < LOGBLOCKS -> (length bls + length lks < nfree s0 + length b0)%nat ->
  (forall s', fstep s' (absorb bls (BBLOCK b sb)) (released b v) lks h -> Q tt s') ->
  wp (bfree ROOTDEV b) s Q.
Proof using H0 Hsb.
  intros H HS HL Hb Hu Hlog Hroom HQ.
  destruct (sp_map _ HS b Hb) as (Hml & Hmb & bytes & Hv & Hlen). pose proof (mod_bits b bytes Hlen) as Hbits.
  unfold used in Hu. rewrite Hv in Hu.
  unfold bfree. apply wp_bind, wp_gets. rewrite (fstep_sb _ _ _ _ _ H). apply wp_bind.
  eapply wp_bread_fs; [done|exact H|exact Hv| |done|done|].
  { intros Hx. destruct (HL _ Hx) as [Hne _]. by apply (Hne b). }
  intros bp s1 H1. cbv zeta.
  apply wp_bind. eapply wp_run; [eapply bdata_fs; [exact H1|by left]|].
  apply wp_bind. eapply wp_run; [eapply load_buf_fs; [exact H1|by left|exact Hv]|].
  apply wp_bind. eapply wp_run; [by apply byte_at_ok|].
  rewrite land_bit by (apply Z.mod_pos_bound; lia). fold (bit_at bytes (b mod BPB)). rewrite Hu. cbn [negb].
  apply wp_bind. eapply wp_run; [eapply bdata_fs; [exact H1|by left]|].
  apply wp_bind. eapply wp_run; [eapply load_buf_fs; [exact H1|by left|exact Hv]|].
  apply wp_bind. eapply wp_run; [by apply byte_at_ok|]. fold (clear_bit (b mod BPB) bytes).
  eapply wp_write_fs; [done|exact H1|by left|exact Hv|done|done|]. intros s2 H2.
  eapply wp_brelse_fs; [done|exact H2|]. intros s3 H3. apply HQ.
  eapply fstep_view; [|exact H3]. intros y. unfold released. by rewrite Hv.
Qed.

Lemma used_released v b c :
  space v -> 0 <= b < sb_size sb -> 0 <= c < sb_size sb ->
  used sb (released b v) c = if c =? b then false else used sb v c.
Proof using Type.
  intros HS Hb Hc. destruct (sp_map _ HS b Hb) as (_ & _ & bytes & Hv & Hlen). pose proof (sp_size _ HS).
  unfold released. rewrite Hv. apply (used_vset v b bytes _ false); [lia|done|done|done|].
  intros j Hj. by apply bit_at_clear; [apply mod_bits|].
Qed.

End Bitmap.
