(* ===== verification/Inode.v ===== *)
(** * The inode table and inode contents ([fs.c]), and the per-object
      transaction operations ([tx.c], second part)

    [struct inode *] is an index of [k_itable].  The C code of the two files
    is mutually recursive: [iput] reaches [itrunc] and [idata], and [idata]
    reaches [tx_abort_now], which calls [iput] on the objects of the workset.
    At that point the transaction is active, so [iput] returns at its first
    test; [iput_body] has [itrunc] as an argument to cut the cycle there
    ([iput_deferred]; file SystxFacts shows that the two agree in an active
    transaction). *)

From S2P Require Import Prelude Monad CString Types Kernel Kalloc Vm Uart Printf Bio Log Tx FsBlock.
From stdpp Require Import base numbers list gmap strings.
From Stdlib Require Import ZArith Lia.

Open Scope Z_scope.

(** ** The on-disk inode *)

Definition encode_dinode (d : inode_data) : list Z :=
  le_bytes 2 (d_type d) ++ le_bytes 2 (d_major d) ++ le_bytes 2 (d_minor d) ++
  le_bytes 2 (d_nlink d) ++ le_bytes 4 (d_size d) ++ concat (map (le_bytes 4) (d_addrs d)).

Definition short_at (bytes : list Z) (off : nat) : Z := s16 (le_value (slice off 2 bytes)).

Definition decode_dinode (bytes : list Z) : inode_data :=
  Mk_inode_data (short_at bytes 0) (short_at bytes 2) (short_at bytes 4) (short_at bytes 6)
    (le_value (slice 8 4 bytes))
    (map (fun i => le_value (slice (12 + 4 * i) 4 bytes)) (seq 0 13)).

(** byte offset of inode [inum] in its block *)
Definition dinode_off (inum : Z) : nat := Z.to_nat (inum mod IPB * sizeof_dinode).

Definition zero_inode_data : inode_data := Mk_inode_data 0 0 0 0 0 (replicate 13 0).

Section Inode.
Context {L : Layout}.

(** ** The inode table *)

Definition iinit : K unit :=
  for_each (seq 0 NINODE) (fun i =>
    initsleeplock (HInode i);;
    upd_ip i (set_i_data (fun _ => 0))).

(** the scan of [iget]: the entry that holds the inode, and the first free one *)
Fixpoint iget_scan (dev inum : Z) (l : list nat) (empty : option nat) :
    K (option nat * option nat) :=
  match l with
  | [] => mret (None, empty)
  | i :: l =>
      ip ← get_ip i;
      if (0 <? i_ref ip) && (i_dev ip =? dev) && (i_inum ip =? inum)
      then mret (Some i, empty)
      else
        iget_scan dev inum l
          (match empty with
           | None => if i_ref ip =? 0 then Some i else None
           | Some _ => empty
           end)
  end.

Definition iget (dev inum : Z) : K nat :=
  acquire Litable;;
  r ← iget_scan dev inum (seq 0 NINODE) None;
  match r with
  | (Some i, _) =>
      upd_ip i (set_i_ref (fun n => n + 1));;
      release Litable;;
      mret i
  | (None, None) => panic "iget: no inodes"
  | (None, Some i) =>
      upd_ip i (set_i_dev (fun _ => dev));;
      upd_ip i (set_i_inum (fun _ => inum));;
      upd_ip i (set_i_ref (fun _ => 1));;
      upd_ip i (set_i_valid (fun _ => false));;
      initxobj (HInode i);;
      ip ← get_ip i;
      (if i_data ip =? 0 then
         a ← kalloc;
         upd_ip i (set_i_data (fun _ => a));;
         if a =? 0 then panic "iget: kalloc inode_data failed"
         else store a (PInode zero_inode_data)
       else mret tt);;
      release Litable;;
      mret i
  end.

Definition ialloc (dev type : Z) : K (option nat) :=
  sb ← get_sb;
  r ← for_find (seqZ 1 (sb_ninodes sb - 1)) (fun inum =>
    bp ← bread dev (IBLOCK inum sb);
    bytes ← bdata_get bp;
    if d_type (decode_dinode (slice (dinode_off inum) 64 bytes)) =? 0 then
      bdata_upd bp (splice (dinode_off inum) (replicate 64 0));;
      bdata_upd bp (splice (dinode_off inum) (le_bytes 2 type));;
      log_write bp;;
      brelse bp;;
      ip ← iget dev inum;
      mret (Some ip)
    else brelse bp;; mret None);
  match r with
  | Some ip => mret (Some ip)
  | None => kprintf (chars "ialloc: no inodes" ++ [10]) [];; mret None
  end.

Definition iupdate (ip : nat) : K unit :=
  act ← tx_active;
  if (act : bool) then mret tt else
  sb ← get_sb;
  i ← get_ip ip;
  bp ← bread (i_dev i) (IBLOCK (i_inum i) sb);
  d ← load_inode (i_data i);
  bdata_upd bp (splice (dinode_off (i_inum i)) (encode_dinode d));;
  log_write bp;;
  brelse bp.

Definition idup (ip : nat) : K nat :=
  acquire Litable;;
  upd_ip ip (set_i_ref (fun n => n + 1));;
  release Litable;;
  mret ip.

Definition ilock (ip : nat) : K unit :=
  i ← get_ip ip;
  if i_ref i <? 1 then panic "ilock" else
  acquiresleep (HInode ip);;
  i ← get_ip ip;
  when (negb (i_valid i))
    (sb ← get_sb;
     bp ← bread (i_dev i) (IBLOCK (i_inum i) sb);
     bytes ← bdata_get bp;
     upd_inode_data (i_data i)
       (fun _ => decode_dinode (slice (dinode_off (i_inum i)) 64 bytes));;
     brelse bp;;
     upd_ip ip (set_i_valid (fun _ => true));;
     d ← load_inode (i_data i);
     if d_type d =? 0 then panic "ilock: no type" else mret tt).

Definition iunlock (ip : nat) : K unit :=
  h ← holdingsleep (HInode ip);
  i ← get_ip ip;
  if negb h || (i_ref i <? 1) then panic "iunlock" else releasesleep (HInode ip).

(** the test of [iput] for an inode to be freed on disk *)
Definition iput_last (i : inode) : K bool :=
  if (i_ref i =? 1) && i_valid i
  then d ← load_inode (i_data i); mret (d_nlink d =? 0) else mret false.

Definition iput_body (itrunc : nat -> K unit) (ip : nat) : K unit :=
  act ← tx_active;
  if (act : bool) then mret tt else
  acquire Litable;;
  i ← get_ip ip;
  last ← iput_last i;
  when last
    (acquiresleep (HInode ip);;
     release Litable;;
     itrunc ip;;
     i ← get_ip ip;
     upd_inode_data (i_data i) (set_d_type (fun _ => 0));;
     iupdate ip;;
     upd_ip ip (set_i_valid (fun _ => false));;
     i ← get_ip ip;
     kfree (i_data i);;
     upd_ip ip (set_i_data (fun _ => 0));;
     releasesleep (HInode ip);;
     acquire Litable);;
  upd_ip ip (set_i_ref (fun n => n - 1));;
  release Litable.

(** ** Transaction operations on inodes and buffers *)

(** [(struct inode * )e->header] and [(struct buf * )e->header] *)
Definition hdr_inode (e : workset_entry) : K nat :=
  match we_header e with Some (HInode i) => mret i | _ => stuck end.
Definition hdr_buf (e : workset_entry) : K nat :=
  match we_header e with Some (HBuf i) => mret i | _ => stuck end.

(** [e->field] through the pointer [e = &tx->workset[k]] *)
Definition get_entry (tx : Z) (k : nat) : K workset_entry :=
  t ← load_tx tx; ws_entry t (Z.of_nat k).

Definition inode_commit (iput : nat -> K unit) (tx : Z) (k : nat) : K unit :=
  e ← get_entry tx k;
  ip ← hdr_inode e;
  begin_op;;
  e ← get_entry tx k;
  when (negb (we_read_only e)) (iupdate ip);;
  iput ip;;
  end_op.

Definition inode_abort (iput : nat -> K unit) (tx : Z) (k : nat) : K unit :=
  e ← get_entry tx k;
  when (negb (we_shadow e =? 0)) (kfree (we_shadow e));;
  e ← get_entry tx k;
  ip ← hdr_inode e;
  iput ip.

Definition buf_commit (tx : Z) (k : nat) : K unit :=
  e ← get_entry tx k;
  bp ← hdr_buf e;
  begin_op;;
  log_write bp;;
  end_op;;
  bunpin bp.

Definition buf_abort (tx : Z) (k : nat) : K unit :=
  e ← get_entry tx k;
  bp ← hdr_buf e;
  when (we_newly_allocated e)
    (begin_op;;
     b ← get_buf bp;
     bfree (b_dev b) (b_blockno b);;
     end_op);;
  e ← get_entry tx k;
  when (negb (we_shadow e =? 0)) (kfree (we_shadow e));;
  bunpin bp.

Definition inode_lock (tx : Z) (k : nat) : K unit :=
  e ← get_entry tx k; ip ← hdr_inode e; ilock ip.
Definition inode_unlock (tx : Z) (k : nat) : K unit :=
  e ← get_entry tx k; ip ← hdr_inode e; iunlock ip.
Definition buf_lock (tx : Z) (k : nat) : K unit :=
  e ← get_entry tx k; bp ← hdr_buf e; acquiresleep (HBuf bp).
Definition buf_unlock (tx : Z) (k : nat) : K unit :=
  e ← get_entry tx k; bp ← hdr_buf e; releasesleep (HBuf bp).

(** the function pointers of the two [struct tx_ops] *)
Definition lock_fn (ops : tx_ops) : Z -> nat -> K unit :=
  match ops with inode_ops => inode_lock | buffer_ops => buf_lock end.

Definition unlock_fn (ops : tx_ops) : Z -> nat -> K unit :=
  match ops with inode_ops => inode_unlock | buffer_ops => buf_unlock end.

Definition commit_fn (iput : nat -> K unit) (ops : tx_ops) : Z -> nat -> K unit :=
  match ops with inode_ops => inode_commit iput | buffer_ops => buf_commit end.

Definition abort_fn (iput : nat -> K unit) (ops : tx_ops) : Z -> nat -> K unit :=
  match ops with inode_ops => inode_abort iput | buffer_ops => buf_abort end.

Definition run_undo (f : undo_fn) (arg : option obj) : K unit :=
  match f, arg with
  | undo_iunlock, Some (HInode i) => iunlock i
  | undo_buf_unlock, Some (HBuf i) => releasesleep (HBuf i)
  | undo_b, _ => mret tt
  | undo_c, _ => mret tt
  | _, _ => stuck
  end.

(** [for (i = 0; i < tx->workset_size; i++) f(&tx->workset[i])]; the size is
    read again at each iteration and never exceeds [MAX_WORKSET] *)
Definition for_workset (tx : Z) (f : tx_ops -> Z -> nat -> K unit) : K unit :=
  loop (S (Z.to_nat MAX_WORKSET)) (fun i =>
    t ← load_tx tx;
    if Z.of_nat i <? tx_workset_size t then
      e ← ws_entry t (Z.of_nat i);
      ops ← deref (fun _ => we_ops e);
      f ops tx i;;
      mret (inl (S i))
    else mret (inr tt)) O.

Definition tx_abort_now (iput : nat -> K unit) : K unit :=
  p ← myproc;
  pr ← get_proc p;
  let tx := p_tx pr in
  if tx =? 0 then panic "tx_abort_now: no active transaction" else
  t ← load_tx tx;
  if negb (tx_status t =? TX_ACTIVE) then panic "tx_abort_now: no active transaction" else
  for_each (rev (seqZ 0 (tx_undo_size t))) (fun i =>
    t ← load_tx tx;
    f ← deref (fun _ => mjoin (tx_undo_ops t !! Z.to_nat i));
    arg ← deref (fun _ => tx_undo_args t !! Z.to_nat i);
    run_undo f arg);;
  for_workset tx (abort_fn iput);;
  t ← load_tx tx;
  if tx_kjmp_valid t then klongjmp else panic "tx_abort_now: no kjmp set".

(** [iput] as [tx_abort_now] meets it *)
Definition iput_deferred : nat -> K unit := iput_body (fun _ => stuck).

Definition idata_ (read_only : bool) (ip : nat) : K Z :=
  d ← txdata (HInode ip) read_only inode_ops;
  when (d =? 0) (iunlock ip;; tx_abort_now iput_deferred);;
  mret d.

Definition idata : nat -> K Z := idata_ false.
Definition idata_ro : nat -> K Z := idata_ true.

(** ** Inode contents *)

Definition itrunc (ip : nat) : K unit :=
  d ← idata ip;
  act ← tx_active;
  for_each (seqZ 0 NDIRECT) (fun i =>
    dd ← load_inode d;
    a ← deref (fun _ => d_addrs dd !! Z.to_nat i);
    when (negb (a =? 0))
      (ii ← get_ip ip;
       when (negb act) (bfree (i_dev ii) a);;
       upd_inode_data d (set_d_addrs <[Z.to_nat i := 0]>)));;
  dd ← load_inode d;
  a ← deref (fun _ => d_addrs dd !! Z.to_nat NDIRECT);
  when (negb (a =? 0))
    (when (negb act)
       (ii ← get_ip ip;
        bp ← bread (i_dev ii) a;
        q ← bdata bp;
        for_each (seqZ 0 NINDIRECT) (fun j =>
          bytes ← load_buf q;
          when (negb (word_at bytes j =? 0)) (bfree (i_dev ii) (word_at bytes j)));;
        brelse bp;;
        bfree (i_dev ii) a);;
     upd_inode_data d (set_d_addrs <[Z.to_nat NDIRECT := 0]>));;
  upd_inode_data d (set_d_size (fun _ => 0));;
  iupdate ip.

Definition iput : nat -> K unit := iput_body itrunc.

Definition iunlockput (ip : nat) : K unit := iunlock ip;; iput ip.

Definition ireclaim (dev : Z) : K unit :=
  sb ← get_sb;
  for_each (seqZ 1 (sb_ninodes sb - 1)) (fun inum =>
    bp ← bread dev (IBLOCK inum sb);
    bytes ← bdata_get bp;
    let di := decode_dinode (slice (dinode_off inum) 64 bytes) in
    ip ← (if negb (d_type di =? 0) && (d_nlink di =? 0)
          then kprintf (chars "ireclaim: orphaned inode %d" ++ [10]) [ANum inum];;
               i ← iget dev inum; mret (Some i)
          else mret None);
    brelse bp;;
    match ip with
    | Some ip => begin_op;; ilock ip;; iunlock ip;; iput ip;; end_op
    | None => mret tt
    end).

Definition fsinit (dev : Z) : K unit :=
  readsb dev;;
  sb ← get_sb;
  if negb (sb_magic sb =? FSMAGIC) then panic "invalid file system" else
  initlog dev sb;;
  ireclaim dev.

Definition bmap (ip : nat) (bn : Z) : K Z :=
  d ← idata ip;
  ii ← get_ip ip;
  dd ← load_inode d;
  if bn <? NDIRECT then
    a ← deref (fun _ => d_addrs dd !! Z.to_nat bn);
    if negb (a =? 0) then mret a else
    a ← balloc (i_dev ii);
    if a =? 0 then mret 0 else
    upd_inode_data d (set_d_addrs <[Z.to_nat bn := a]>);;
    mret a
  else
    let bn := bn - NDIRECT in
    if bn <? NINDIRECT then
      a ← deref (fun _ => d_addrs dd !! Z.to_nat NDIRECT);
      a ← (if negb (a =? 0) then mret a else
           a ← balloc (i_dev ii);
           when (negb (a =? 0)) (upd_inode_data d (set_d_addrs <[Z.to_nat NDIRECT := a]>));;
           mret a);
      if a =? 0 then mret 0 else
      bp ← bread (i_dev ii) a;
      q ← bdata bp;
      bytes ← load_buf q;
      a ← (if negb (word_at bytes bn =? 0) then mret (word_at bytes bn) else
           a ← balloc (i_dev ii);
           when (negb (a =? 0)) (upd_buf_data q (put_word bn a);; log_write bp);;
           mret a);
      brelse bp;;
      mret a
    else panic "bmap: out of range".

(** [stati]: the fields of [struct stat] *)
Record stat := Mk_stat { st_dev : Z; st_ino : Z; st_type : Z; st_nlink : Z; st_size : Z }.

Definition stati (ip : nat) : K stat :=
  d ← idata ip;
  ii ← get_ip ip;
  dd ← load_inode d;
  mret (Mk_stat (s32 (i_dev ii)) (i_inum ii) (d_type dd) (d_nlink dd) (d_size dd)).

(** [readi] and [writei]: every iteration moves at least one byte, so [n] is
    fuel enough *)
Definition readi (ip : nat) (dst : kaddr) (off n : Z) : K Z :=
  d ← idata ip;
  dd ← load_inode d;
  if (d_size dd <? off) || (u32 (off + n) <? off) then mret 0 else
  let n := if d_size dd <? u32 (off + n) then d_size dd - off else n in
  tot ← loop (S (Z.to_nat n)) (fun '(tot, off, dst) =>
    if tot <? n then
      addr ← bmap ip (off / BSIZE);
      if addr =? 0 then mret (inr tot) else
      ii ← get_ip ip;
      bp ← bread (i_dev ii) addr;
      let m := Z.min (n - tot) (BSIZE - off mod BSIZE) in
      q ← bdata bp;
      bytes ← load_buf q;
      r ← either_copyout dst (slice (Z.to_nat (off mod BSIZE)) (Z.to_nat m) bytes);
      if r =? -1 then brelse bp;; mret (inr (-1)) else
      brelse bp;;
      mret (inl (tot + m, off + m, kaddr_add dst m))
    else mret (inr tot)) (0, off, dst);
  mret (s32 tot).

Definition writei (ip : nat) (src : kaddr) (off n : Z) : K Z :=
  d ← idata ip;
  dd ← load_inode d;
  if (d_size dd <? off) || (u32 (off + n) <? off) then mret (-1) else
  if MAXFILE * BSIZE <? u32 (off + n) then mret (-1) else
  r ← loop (S (Z.to_nat n)) (fun '(tot, off, src) =>
    if tot <? n then
      addr ← bmap ip (off / BSIZE);
      if addr =? 0 then mret (inr (tot, off)) else
      ii ← get_ip ip;
      bp ← bread (i_dev ii) addr;
      let m := Z.min (n - tot) (BSIZE - off mod BSIZE) in
      q ← bdata bp;
      c ← either_copyin src m;
      upd_buf_data q (splice (Z.to_nat (off mod BSIZE)) c.1);;
      if c.2 =? -1 then brelse bp;; mret (inr (tot, off)) else
      log_write bp;;
      brelse bp;;
      mret (inl (tot + m, off + m, kaddr_add src m))
    else mret (inr (tot, off))) (0, off, src);
  dd ← load_inode d;
  when (d_size dd <? r.2) (upd_inode_data d (set_d_size (fun _ => r.2)));;
  iupdate ip;;
  mret (s32 r.1).

End Inode.
