(* ===== verification/FileData.v ===== *)
(** * The contents of files

    [faddr v dd bn] is the block that holds block [bn] of the file with inode
    [dd], [fbyte v dd i] its byte [i].  [readi] gives the bytes of the file;
    [writei] changes exactly the range it is asked to write, allocating blocks
    as needed, and no block of another file. *)

From S2P Require Import Prelude Monad CString Types Kernel Kalloc Vm VmFacts UserMem Transfer Uart Printf Echo Bio Lru BioFacts Log LogFacts LogCrash LogOps Tx FsBlock FsCtx Bitmap Inode.
From stdpp Require Import base numbers list gmap strings.
From Stdlib Require Import ZArith Lia.

Open Scope Z_scope.

(** ** The block map of an inode *)

Definition ind_addr (dd : inode_data) : Z := nth (Z.to_nat NDIRECT) (d_addrs dd) 0.

Definition faddr (v : Z -> option (list Z)) (dd : inode_data) (bn : Z) : Z :=
  if bn <? NDIRECT then nth (Z.to_nat bn) (d_addrs dd) 0
  else if ind_addr dd =? 0 then 0
  else match v (ind_addr dd) with Some bytes => word_at bytes (bn - NDIRECT) | None => 0 end.

Definition fbyte (v : Z -> option (list Z)) (dd : inode_data) (i : Z) : Z :=
  nth (Z.to_nat (i mod BSIZE)) (default [] (v (faddr v dd (i / BSIZE)))) 0.

Definition fslice (v : Z -> option (list Z)) (dd : inode_data) (off n : Z) : list Z :=
  map (fbyte v dd) (seqZ off n).

Lemma fslice_app v dd off n m :
  0 <= n -> 0 <= m -> fslice v dd off (n + m) = fslice v dd off n ++ fslice v dd (off + n) m.
Proof. intros Hn Hm. unfold fslice. by rewrite seqZ_app, map_app by done. Qed.

Lemma length_fslice v dd off n : length (fslice v dd off n) = Z.to_nat n.
Proof. unfold fslice. by rewrite length_map, length_seqZ. Qed.

(** the part of a range that lies in one block *)
Lemma fslice_block v dd off m bytes :
  0 <= off -> 0 <= m -> off mod BSIZE + m <= BSIZE -> Z.of_nat (length bytes) = BSIZE ->
  v (faddr v dd (off / BSIZE)) = Some bytes ->
  slice (Z.to_nat (off mod BSIZE)) (Z.to_nat m) bytes = fslice v dd off m.
Proof.
  intros Hoff Hm Hb Hl Hv. pose proof (Z.mod_pos_bound off BSIZE ltac:(done)) as Hmod.
  apply list_eq. intros j. destruct (decide (j < Z.to_nat m)%nat) as [Hj|Hj].
  - rewrite lookup_slice by done. unfold fslice. rewrite list_lookup_fmap, lookup_seqZ_lt by lia. cbn.
    assert ((off + Z.of_nat j) / BSIZE = off / BSIZE /\
      (off + Z.of_nat j) mod BSIZE = off mod BSIZE + Z.of_nat j) as [E1 E2].
    { pose proof (Z.div_mod off BSIZE ltac:(done)).
      split; symmetry; [apply (Z.div_unique_pos _ _ _ (off mod BSIZE + Z.of_nat j))
                       |apply (Z.mod_unique_pos _ _ (off / BSIZE))]; lia. }
    unfold fbyte. rewrite E1, E2, Hv. cbn.
    destruct (lookup_lt_is_Some_2 bytes (Z.to_nat (off mod BSIZE) + j)) as [x Hx]; [lia|].
    rewrite Hx. f_equal. symmetry. apply nth_lookup_Some.
    by replace (Z.to_nat (off mod BSIZE + Z.of_nat j)) with (Z.to_nat (off mod BSIZE) + j)%nat by lia.
  - unfold slice. rewrite lookup_take_ge by lia. symmetry. apply lookup_ge_None.
    rewrite length_fslice. lia.
Qed.

Section File.
Context {L : Layout} (p : nat) (pr : proc) (start : Z) (s0 : kst) (b0 : list Z).
Context (H0 : fs_ctx p pr start s0 b0) (sb : superblock) (Hsb : k_sb s0 = sb).
Context (ip : nat) (ii : inode) (Hip : k_itable s0 !! ip = Some ii) (Hdev : i_dev ii = ROOTDEV).
Context (Hdata : i_data ii <> 0) (Hpage : nonbuf s0 (i_data ii)).

Notation fstep := (fstep p pr start s0 b0).
Notation a := (i_data ii).

(** a block that belongs to a file *)
Record fblock (v : Z -> option (list Z)) (x : Z) : Prop := {
  fb_range : 0 < x < sb_size sb;
  fb_used : used sb v x = true;
  fb_log : loggable start (k_disk s0) x;
  fb_free : blocked s0 x = None;
  fb_data : exists bytes, v x = Some bytes /\ Z.of_nat (length bytes) = BSIZE;
  fb_map : forall b, 0 <= b < sb_size sb -> BBLOCK b sb <> x;
}.

Record file_ok (v : Z -> option (list Z)) (dd : inode_data) : Prop := {
  fo_len : length (d_addrs dd) = 13%nat;
  fo_ind : ind_addr dd <> 0 -> fblock v (ind_addr dd);
  fo_blk : forall bn, 0 <= bn < MAXFILE -> faddr v dd bn <> 0 ->
    fblock v (faddr v dd bn) /\ faddr v dd bn <> ind_addr dd;
  fo_inj : forall bn bn', 0 <= bn < MAXFILE -> 0 <= bn' < MAXFILE -> faddr v dd bn <> 0 ->
    faddr v dd bn = faddr v dd bn' -> bn = bn';
  fo_size : 0 <= d_size dd <= MAXFILE * BSIZE;
  fo_alloc : forall bn, 0 <= bn -> bn * BSIZE < d_size dd -> faddr v dd bn <> 0;
}.

(** *** The inode in memory *)

Lemma get_ip_fs s bls v lks m : fstep s bls v lks m -> get_ip ip s = Ok ii s.
Proof using Hip.
  intros H. unfold get_ip, deref.
  by rewrite (unchanged_itable _ _ (ff_rest _ _ (fp_frame _ _ _ _ _ _ _ _ _ _ H))), Hip.
Qed.

Lemma idata_fs s bls v lks m : fstep s bls v lks m -> idata ip s = Ok a s.
Proof using Hip Hdata.
  intros H. unfold idata, idata_, txdata.
  erewrite bind_ok; [by rewrite (proj2 (Z.eqb_neq _ _) Hdata)|].
  erewrite bind_ok by (eapply fstep_no_tx; exact H). cbv beta iota. unfold get_data_ptr.
  by erewrite bind_ok by (by eapply get_ip_fs).
Qed.

Lemma load_inode_fs s bls v lks m dd :
  fstep s bls v lks m -> o_heap m !! a = Some (PInode dd) -> load_inode a s = Ok dd s.
Proof using Hpage.
  intros H Hm. unfold load_inode, deref. by rewrite (fp_heap _ _ _ _ _ _ _ _ _ _ H), Hm.
Qed.

(** *** [bmap] of a block that is there *)

Lemma wp_bmap_hit s bls v lks m dd bn (Q : Z -> kst -> Prop) :
  fstep s bls v lks m -> o_heap m !! a = Some (PInode dd) -> file_ok v dd ->
  0 <= bn < MAXFILE -> faddr v dd bn <> 0 -> ind_addr dd ∉ lks.*1 ->
  (length bls + length lks < nfree s0 + length b0)%nat ->
  (forall s', fstep s' bls v lks m -> Q (faddr v dd bn) s') -> wp (bmap ip bn) s Q.
Proof using H0 Hip Hdev Hdata Hpage.
  intros H Hm HF Hbn Hne Hnl Hroom HQ. unfold bmap.
  apply wp_bind. eapply wp_run; [by eapply idata_fs|].
  apply wp_bind. eapply wp_run; [by eapply get_ip_fs|].
  apply wp_bind. eapply wp_run; [by eapply load_inode_fs|].
  pose proof (fo_len _ _ HF) as Hlen. specialize (HQ). unfold faddr in *.
  destruct (bn <? NDIRECT) eqn:E; zbool.
  - destruct (lookup_lt_is_Some_2 (d_addrs dd) (Z.to_nat bn)) as [x Hx]; [rewrite Hlen; unfold NDIRECT in *; lia|].
    apply wp_bind. eapply wp_deref; [exact Hx|]. rewrite (nth_lookup_Some _ _ _ _ Hx) in *.
    rewrite (proj2 (Z.eqb_neq _ _) Hne). by apply wp_ret, HQ.
  - destruct (ind_addr dd =? 0) eqn:Ei; [done|]. zbool.
    rewrite (proj2 (Z.ltb_lt (bn - NDIRECT) NINDIRECT)) by (unfold MAXFILE in Hbn; lia).
    destruct (lookup_lt_is_Some_2 (d_addrs dd) (Z.to_nat NDIRECT)) as [x Hx]; [rewrite Hlen; unfold NDIRECT; lia|].
    assert (ind_addr dd = x) as Ex by (unfold ind_addr; by apply nth_lookup_Some). rewrite Ex in *.
    apply wp_bind. eapply wp_deref; [exact Hx|]. rewrite (proj2 (Z.eqb_neq x 0)) by done. apply wp_bind, wp_ret.
    rewrite (proj2 (Z.eqb_neq x 0)) by done.
    pose proof (fo_ind _ _ HF) as Hb. rewrite Ex in Hb. destruct (Hb Ei) as [B1 B2 B3 B4 (bytes & B5 & B6) B7].
    rewrite B5 in *. rewrite Hdev. apply wp_bind.
    eapply wp_bread_fs; [done|exact H|exact B5|done|done|done|]. intros i s1 H1.
    apply wp_bind. eapply wp_run; [eapply bdata_fs; [exact H1|by left]|].
    apply wp_bind. eapply wp_run; [eapply load_buf_fs; [exact H1|by left|exact B5]|].
    rewrite (proj2 (Z.eqb_neq _ _) Hne). apply wp_bind, wp_ret, wp_bind.
    eapply wp_brelse_fs; [done|exact H1|]. intros s2 H2. by apply wp_ret, HQ.
Qed.

(** *** [readi] *)

(** buffers hold no user memory *)
Definition umem_apart : Prop := forall x,
  is_Some (k_heap s0 !! x ≫= as_bytes) \/ is_Some (k_heap s0 !! x ≫= as_ptes) -> nonbuf s0 x.

Context (Hum : umem_apart).

Lemma fstep_nonbuf s bls v lks m x :
  fstep s bls v lks m ->
  is_Some (k_heap s !! x ≫= as_bytes) \/ is_Some (k_heap s !! x ≫= as_ptes) -> nonbuf s0 x.
Proof using Hum.
  intros H Hx. destruct (fp_pages _ _ _ _ _ _ _ _ _ _ H x) as [?|[E|[bytes E]]]; [done|..].
  - rewrite E in Hx. by apply Hum.
  - rewrite E in Hx. by destruct Hx as [[? ?]|[? ?]].
Qed.

(** what processes see does not depend on the cache *)
Lemma fstep_umem s bls v lks s' bls' v' lks' m m' :
  umem_eq (o_heap m) (o_heap m') ->
  fstep s bls v lks m -> fstep s' bls' v' lks' m' -> umem_eq (k_heap s) (k_heap s').
Proof using Hum.
  intros Hm H H' x.
  assert (forall {X} (f : pobj -> option X), o_heap m !! x ≫= f = o_heap m' !! x ≫= f ->
    (is_Some (k_heap s !! x ≫= f) -> nonbuf s0 x) -> (is_Some (k_heap s' !! x ≫= f) -> nonbuf s0 x) ->
    k_heap s !! x ≫= f = k_heap s' !! x ≫= f) as Hf.
  { intros X f E F1 F2. pose proof (fp_heap _ _ _ _ _ _ _ _ _ _ H x) as E1.
    pose proof (fp_heap _ _ _ _ _ _ _ _ _ _ H' x) as E2. rewrite <- not_eq_None_Some in F1, F2.
    destruct (k_heap s !! x ≫= f) eqn:G1; [rewrite <- G1, E1, E, <- E2 by (by apply F1); done|].
    destruct (k_heap s' !! x ≫= f) eqn:G2; [|done].
    rewrite <- G1, E1, E, <- E2, G2 by (by apply F2). done. }
  destruct (Hm x) as [Hm1 Hm2].
  split; (apply Hf; [done|intros Hx; by eapply (fstep_nonbuf s); eauto|intros Hx; by eapply (fstep_nonbuf s'); eauto]).
Qed.

(** a page of bytes is neither the inode nor a transaction *)
Lemma put_pages s bls v lks m h kb :
  fstep s bls v lks m ->
  (forall x, k_heap s !! x ≫= as_bytes = None -> h !! x = k_heap s !! x) ->
  fstep (set_k_kbuf (fun _ => kb) (set_k_heap (fun _ => h) s)) bls v lks (Mk_outer h kb (o_dev m)).
Proof using Hum.
  intros H Hh. eapply fstep_other; [exact H| | |].
  - intros x o Ho Hb. rewrite Hh; [done|]. rewrite Ho. by destruct o, Hb.
  - destruct (fx_idle _ _ _ _ _ (fp_ctx _ _ _ _ _ _ _ _ _ _ H)) as [E|(t & Ht & _)]; [by left|right].
    apply Hh. by rewrite Ht.
  - intros x. destruct (k_heap s !! x ≫= as_bytes) eqn:E; [left|right; by apply Hh].
    eapply fstep_nonbuf; [exact H|]. left. by rewrite E.
Qed.

(** the file has a block for every byte below its size *)
Lemma file_block v dd i :
  file_ok v dd -> 0 <= i < d_size dd -> 0 <= i / BSIZE < MAXFILE /\ faddr v dd (i / BSIZE) <> 0.
Proof using Type.
  intros HF Hi. pose proof (fo_size _ _ HF). assert (0 <= i / BSIZE) by (apply Z.div_pos; [lia|done]).
  split; [split; [done|apply Z.div_lt_upper_bound; [done|lia]]|]. apply (fo_alloc _ _ HF); [done|].
  pose proof (Z.mul_div_le i BSIZE ltac:(done)). lia.
Qed.

(** the buffers held are not of this file *)
Definition not_held (v : Z -> option (list Z)) (dd : inode_data) (lks : list (Z * nat)) : Prop :=
  forall x, x ∈ lks.*1 -> x <> ind_addr dd /\ forall bn, 0 <= bn < MAXFILE -> x <> faddr v dd bn.

Lemma wp_readi s bls v lks m dd dst off n got (Q : Z -> kst -> Prop) :
  let r := Z.max 0 (Z.min n (d_size dd - off)) in
  fstep s bls v lks m -> o_heap m !! a = Some (PInode dd) -> file_ok v dd -> not_held v dd lks ->
  0 <= off -> 0 <= n -> off + n < 2 ^ 31 ->
  Sink p pr dst (Z.to_nat n) got -> got [] (k_heap s) (k_kbuf s) ->
  (length bls + length lks < nfree s0 + length b0)%nat ->
  (forall s' m', fstep s' bls v lks m' -> o_heap m' !! a = Some (PInode dd) -> o_dev m' = o_dev m ->
     got (fslice v dd off r) (k_heap s') (k_kbuf s') -> Q r s') ->
  wp (readi ip dst off n) s Q.
Proof using H0 Hip Hdev Hdata Hpage Hum.
  intros r H Hm HF Hnh Hoff Hn Hmax HS Hgot Hroom HQ. unfold readi.
  apply wp_bind. eapply wp_run; [by eapply idata_fs|].
  apply wp_bind. eapply wp_run; [by eapply load_inode_fs|].
  rewrite (wrap_small 32) by lia. rewrite (proj2 (Z.ltb_ge (off + n) off)), orb_false_r by lia.
  destruct (d_size dd <? off) eqn:Eo; zbool.
  { apply wp_ret. assert (r = 0) as Er by (unfold r; lia). rewrite <- Er. eapply HQ; [exact H|done|done|].
    by rewrite Er. }
  set (n' := if d_size dd <? off + n then d_size dd - off else n).
  assert (n' = r) as En by (unfold n', r; destruct (d_size dd <? off + n) eqn:E; zbool; lia).
  rewrite En. assert (0 <= r <= n /\ off + r <= d_size dd) as Hr by (unfold r; lia). clearbody r n'.
  apply wp_bind.
  apply (wp_loop _ (fun x : Z * Z * kaddr => Z.to_nat (r - x.1.1)) (fun x s1 => exists tot m1,
    x = (tot, off + tot, kaddr_add dst tot) /\ 0 <= tot <= r /\ fstep s1 bls v lks m1 /\
    o_heap m1 !! a = Some (PInode dd) /\ o_dev m1 = o_dev m /\ got (fslice v dd off tot) (k_heap s1) (k_kbuf s1))).
  { exists 0, m. rewrite sink_start, Z.add_0_r. split_and!; (done || lia). }
  { simpl. lia. }
  intros x s1 (tot & m1 & -> & Htot & H1 & Hm1 & Hd1 & Hg1). cbv beta iota.
  destruct (tot <? r) eqn:Et; zbool.
  2:{ apply wp_ret. assert (tot = r) as -> by lia. apply wp_ret. rewrite swrap_small by lia. by eapply HQ. }
  destruct (file_block v dd (off + tot) HF ltac:(lia)) as [Hbn Hne].
  destruct (fo_blk _ _ HF _ Hbn Hne) as [[B1 B2 B3 B4 (bytes & B5 & B6) B7] Hni].
  set (x := faddr v dd ((off + tot) / BSIZE)) in *.
  assert (x ∉ lks.*1) as Hx by (intros Hx; by destruct (Hnh _ Hx) as [_ Hb]; apply (Hb _ Hbn)).
  assert (ind_addr dd ∉ lks.*1) as Hi by (intros Hi; by destruct (Hnh _ Hi)).
  apply wp_bind. eapply wp_bmap_hit; [exact H1|done..|]. intros s2 H2. fold x.
  rewrite (proj2 (Z.eqb_neq x 0)) by done. apply wp_bind. eapply wp_run; [by eapply get_ip_fs|].
  rewrite Hdev. apply wp_bind. eapply wp_bread_fs; [done|exact H2|exact B5|done|done|done|].
  intros bp s3 H3. cbv zeta. set (k := Z.min (r - tot) (BSIZE - (off + tot) mod BSIZE)).
  apply wp_bind. eapply wp_run; [eapply bdata_fs; [exact H3|by left]|].
  apply wp_bind. eapply wp_run; [eapply load_buf_fs; [exact H3|by left|exact B5]|].
  pose proof (Z.mod_pos_bound (off + tot) BSIZE ltac:(done)) as Hmod.
  rewrite (fslice_block v dd) by (done || (unfold k; lia)).
  assert (0 < k) as Hk by (unfold k; lia).
  destruct (sink_put s3 (fslice v dd off tot) (fslice v dd (off + tot) k)) as (h & kb & E & Hg & Hh).
  { apply H3. }
  { eapply sink_proper; [by eapply fstep_umem; [|exact H1|exact H3]|].
    replace (k_kbuf s3) with (k_kbuf s1); [done|].
    by rewrite (fp_kbuf _ _ _ _ _ _ _ _ _ _ H1), (fp_kbuf _ _ _ _ _ _ _ _ _ _ H3). }
  { intros E%(f_equal length). rewrite length_fslice in E. simpl in E. lia. }
  { rewrite !length_fslice. unfold k in *. lia. }
  rewrite length_fslice, Z2Nat.id in E by lia. apply wp_bind. eapply wp_run; [exact E|].
  pose proof (put_pages _ _ _ _ _ h kb H3 Hh) as H4. apply wp_bind.
  eapply wp_brelse_fs; [done|exact H4|]. intros s5 H5. apply wp_ret.
  split; [|simpl; lia]. exists (tot + k), (Mk_outer h kb (o_dev m1)). rewrite kaddr_add_add, Z.add_assoc.
  split_and!; [done|lia|unfold k; lia|done| |done|].
  - cbn. rewrite Hh; rewrite (fp_heap _ _ _ _ _ _ _ _ _ _ H3) by done; by rewrite Hm1.
  - rewrite fslice_app by lia. eapply sink_proper; [by eapply fstep_umem; [|exact H4|exact H5]|].
    by rewrite (fp_kbuf _ _ _ _ _ _ _ _ _ _ H5).
Qed.

End File.
