(* ===== verification/FileGrow.v ===== *)
(** * Files that grow

    What taking a free block for a file does to the file and to the rest of
    the disk: the blocks the file has stay where they are with their bytes,
    every block of another file keeps its bytes, and the log gains bitmap
    blocks, the indirect block and the new block. *)

From S2P Require Import Prelude Monad CString Types Kernel Kalloc Vm VmFacts UserMem Transfer Uart Printf Echo Bio Lru BioFacts Log LogFacts LogCrash LogOps Tx FsBlock FsCtx Bitmap Inode FileData.
From stdpp Require Import base numbers list gmap strings.
From Stdlib Require Import ZArith Lia.

Open Scope Z_scope.

(** ** Entries of the indirect block *)

Lemma le_value_zeros l : (forall x, x ∈ l -> x = 0) -> le_value l = 0.
Proof.
  induction l as [|x l IH]; [done|]. intros H. simpl. rewrite (H x), IH by set_solver. done.
Qed.

Lemma word_zero_block i : word_at zero_block i = 0.
Proof.
  unfold word_at. apply le_value_zeros. intros x Hx. unfold slice in Hx.
  apply elem_of_take_in in Hx. apply list_elem_of_lookup in Hx as [j Hj]. rewrite lookup_drop in Hj.
  by apply lookup_replicate_1 in Hj as [-> _].
Qed.

Lemma word_at_put k j x bytes :
  0 <= k -> 0 <= j -> 4 * k + 4 <= Z.of_nat (length bytes) -> 0 <= x < 2 ^ 32 ->
  word_at (put_word k x bytes) j = if j =? k then x else word_at bytes j.
Proof.
  intros Hk Hj Hl Hx. destruct (Z.eqb_spec j k) as [->|Hne].
  - rewrite word_put_eq by done. by apply wrap_small.
  - by apply word_put_ne.
Qed.

(** ** Views *)

Section Views.
Context (start : Z) (s0 : kst) (sb : superblock).

Notation space := (space start s0 sb).
Notation fblock := (fblock start s0 sb).
Notation file_ok := (file_ok start s0 sb).

Definition unmapped (x : Z) : Prop := forall b, 0 <= b < sb_size sb -> BBLOCK b sb <> x.

(** a block that is neither free nor of the file nor of the bitmap *)
Record foreign (v : Z -> option (list Z)) (dd : inode_data) (x : Z) : Prop := {
  fg_used : 0 <= x < sb_size sb -> used sb v x = true;
  fg_ind : x = ind_addr dd -> x = 0;
  fg_blk : forall bn, 0 <= bn < MAXFILE -> x = faddr v dd bn -> x = 0;
  fg_map : unmapped x;
}.

Lemma used_ext v v' c :
  0 <= c < sb_size sb -> (forall b, 0 <= b < sb_size sb -> v' (BBLOCK b sb) = v (BBLOCK b sb)) ->
  used sb v' c = used sb v c.
Proof. intros Hc H. unfold used. by rewrite H. Qed.

Lemma space_vset v x bytes : space v -> unmapped x -> space (vset x bytes v).
Proof.
  intros [S1 S2 S3 S4] Hx.
  assert (forall b, 0 <= b < sb_size sb -> vset x bytes v (BBLOCK b sb) = v (BBLOCK b sb)) as Hv
    by (intros b Hb; apply vset_ne; by apply Hx).
  split; [done|by rewrite (used_ext v) by (done || lia)| |].
  - intros b Hb. rewrite Hv by done. by apply S3.
  - intros b Hb Hu. rewrite (used_ext v) in Hu by done. destruct (S4 b Hb Hu) as (F1 & F2 & F3 & F4).
    split_and!; try done. unfold vset. by case_bool_decide.
Qed.

Lemma faddr_ext v v' dd bn : (ind_addr dd <> 0 -> v' (ind_addr dd) = v (ind_addr dd)) -> faddr v' dd bn = faddr v dd bn.
Proof.
  intros H. unfold faddr. destruct (bn <? NDIRECT); [done|]. destruct (ind_addr dd =? 0) eqn:E; [done|].
  zbool. by rewrite H.
Qed.

Lemma fblock_vset v x y bytes :
  fblock v y -> unmapped x -> Z.of_nat (length bytes) = BSIZE -> fblock (vset x bytes v) y.
Proof.
  intros [B1 B2 B3 B4 B5 B6] Hx Hl. split; try done.
  - rewrite (used_ext v); [done|lia|]. intros b Hb. apply vset_ne. by apply Hx.
  - unfold vset. case_bool_decide; eauto.
Qed.

(** writing a block that is not the indirect one *)
Lemma file_ok_vset v dd x bytes :
  file_ok v dd -> unmapped x -> (x = ind_addr dd -> x = 0) -> Z.of_nat (length bytes) = BSIZE ->
  file_ok (vset x bytes v) dd /\ forall bn, faddr (vset x bytes v) dd bn = faddr v dd bn.
Proof.
  intros [F1 F2 F3 F4 F5 F6] Hx Hi Hl.
  assert (forall bn, faddr (vset x bytes v) dd bn = faddr v dd bn) as Hf.
  { intros bn. apply faddr_ext. intros Hne. apply vset_ne. intros E. apply Hne. rewrite E. by apply Hi. }
  split; [|done]. split; [done| | | |done|].
  - intros Hne. by apply fblock_vset; [apply F2|..].
  - intros bn Hbn. rewrite Hf. intros Hne. destruct (F3 bn Hbn Hne). split; [by apply fblock_vset|done].
  - intros bn bn'. rewrite !Hf. apply F4.
  - intros bn. rewrite Hf. apply F6.
Qed.

(** ** Growth *)

(** [v'], [dd'] have the file of [v], [dd], perhaps with more blocks *)
Record fgrown (v : Z -> option (list Z)) (dd : inode_data)
    (v' : Z -> option (list Z)) (dd' : inode_data) : Prop := {
  gr_space : space v';
  gr_ok : file_ok v' dd';
  gr_meta : dd' = set_d_addrs (fun _ => d_addrs dd') dd;
  gr_ind : ind_addr dd <> 0 -> ind_addr dd' = ind_addr dd;
  gr_addr : forall bn, 0 <= bn < MAXFILE -> faddr v dd bn <> 0 -> faddr v' dd' bn = faddr v dd bn;
  gr_new : forall x, x = ind_addr dd' \/ (exists bn, 0 <= bn < MAXFILE /\ x = faddr v' dd' bn) -> x <> 0 ->
    x = ind_addr dd \/ (exists bn, 0 <= bn < MAXFILE /\ x = faddr v dd bn) \/
    0 <= x < sb_size sb /\ used sb v x = false;
  gr_used : forall x, 0 <= x < sb_size sb -> used sb v x = true -> used sb v' x = true;
  gr_data : forall bn, 0 <= bn < MAXFILE -> faddr v dd bn <> 0 -> v' (faddr v dd bn) = v (faddr v dd bn);
  gr_foreign : forall x, foreign v dd x -> v' x = v x;
}.

Lemma fgrown_refl v dd : space v -> file_ok v dd -> fgrown v dd v dd.
Proof. intros HS HF. split; try done; [by destruct dd|]. intros x [->|H] _; auto. Qed.

Lemma foreign_grown v dd v' dd' x : fgrown v dd v' dd' -> foreign v dd x -> foreign v' dd' x.
Proof.
  intros G [F1 F2 F3 F4].
  assert (forall y, y = ind_addr dd' \/ (exists bn, 0 <= bn < MAXFILE /\ y = faddr v' dd' bn) -> x = y -> x = 0) as Hy.
  { intros y Hy <-. destruct (decide (x = 0)) as [|Hne]; [done|].
    destruct (gr_new _ _ _ _ G x Hy Hne) as [?|[(bn & Hbn & ?)|[Hr Hu]]]; [auto|eauto|].
    by rewrite F1 in Hu. }
  split; [|by intros E; apply (Hy (ind_addr dd')); [left|]|by intros bn Hbn E; apply (Hy (faddr v' dd' bn)); eauto|done].
  intros Hr. apply (gr_used _ _ _ _ G); auto.
Qed.

Lemma fgrown_trans v1 d1 v2 d2 v3 d3 : fgrown v1 d1 v2 d2 -> fgrown v2 d2 v3 d3 -> fgrown v1 d1 v3 d3.
Proof.
  intros G1 G2. split; try apply G2.
  - rewrite (gr_meta _ _ _ _ G2) at 1. by rewrite (gr_meta _ _ _ _ G1).
  - intros Hne. rewrite <- (gr_ind _ _ _ _ G1) by done. apply (gr_ind _ _ _ _ G2).
    by rewrite (gr_ind _ _ _ _ G1).
  - intros bn Hbn Hne. pose proof (gr_addr _ _ _ _ G1 bn Hbn Hne) as E. rewrite <- E.
    apply (gr_addr _ _ _ _ G2); [done|congruence].
  - intros x Hx Hne. destruct (gr_new _ _ _ _ G2 x Hx Hne) as [E|[E|[Hr Hu]]].
    + apply (gr_new _ _ _ _ G1); auto.
    + apply (gr_new _ _ _ _ G1); auto.
    + right; right. split; [done|]. destruct (used sb v1 x) eqn:Eu; [|done].
      by rewrite (gr_used _ _ _ _ G1) in Hu.
  - intros x Hr Hu. apply (gr_used _ _ _ _ G2); [done|]. by apply (gr_used _ _ _ _ G1).
  - intros bn Hbn Hne. pose proof (gr_addr _ _ _ _ G1 bn Hbn Hne) as E.
    rewrite <- (gr_data _ _ _ _ G1), <- E by done. apply (gr_data _ _ _ _ G2); [done|congruence].
  - intros x Hx. rewrite (gr_foreign _ _ _ _ G2); [by apply (gr_foreign _ _ _ _ G1)|].
    by apply (foreign_grown v1 d1).
Qed.

(** *** Taking a block *)

Lemma taken_ne v b y : y <> b -> y <> BBLOCK b sb -> taken sb b v y = v y.
Proof. intros H1 H2. unfold taken. by rewrite !vset_ne. Qed.

Lemma length_zero_block : Z.of_nat (length zero_block) = BSIZE.
Proof. done. Qed.

Lemma fblock_taken v b y :
  space v -> 0 <= b < sb_size sb -> used sb v b = false -> fblock v y -> fblock (taken sb b v) y.
Proof.
  intros HS Hb Hu [B1 B2 B3 B4 B5 B6]. split; try done.
  - rewrite (used_taken start s0) by (done || lia). by destruct (y =? b).
  - rewrite taken_ne; [done| |]; [intros ->; congruence|]. intros E. by apply (B6 b).
Qed.

Lemma fblock_new v b : space v -> 0 < b < sb_size sb -> used sb v b = false -> fblock (taken sb b v) b.
Proof.
  intros HS Hb Hu. destruct (sp_free _ _ _ _ HS b ltac:(lia) Hu) as (F1 & F2 & F3 & F4).
  split; try done; [by rewrite (used_taken start s0), Z.eqb_refl by (done || lia)|].
  exists zero_block. split; [unfold taken; apply vset_eq|done].
Qed.

(** the view after [b] has been taken and perhaps written to the indirect block *)
Definition filled (v : Z -> option (list Z)) (dd : inode_data) (b : Z) (v' : Z -> option (list Z)) : Prop :=
  v' = taken sb b v \/ ind_addr dd <> 0 /\ exists bytes, Z.of_nat (length bytes) = BSIZE /\
    v' = vset (ind_addr dd) bytes (taken sb b v).

Lemma filled_facts v dd b v' :
  space v -> file_ok v dd -> 0 < b < sb_size sb -> used sb v b = false -> filled v dd b v' ->
  space v' /\ (forall y, fblock v y \/ y = b -> fblock v' y) /\
  (forall c, 0 <= c < sb_size sb -> used sb v c = true -> used sb v' c = true) /\
  (forall y, y <> b -> y <> BBLOCK b sb -> y <> ind_addr dd \/ y = 0 -> v' y = v y).
Proof.
  intros HS HF Hb Hu Hv'. pose proof (space_taken start s0 sb v b HS ltac:(lia) Hu) as HS'.
  assert (forall y, fblock v y \/ y = b -> fblock (taken sb b v) y) as Hfb.
  { intros y [Hy| ->]; [by apply fblock_taken; [|lia|..]|by apply fblock_new]. }
  assert (forall c, 0 <= c < sb_size sb -> used sb v c = true -> used sb (taken sb b v) c = true) as Hus.
  { intros c Hc Huc. rewrite (used_taken start s0) by (done || lia). by destruct (c =? b). }
  destruct Hv' as [->|(Hne & bytes & Hl & ->)]; [by split_and!; auto using taken_ne|].
  pose proof (fb_map _ _ _ _ _ (fo_ind _ _ _ _ _ HF Hne)) as Hm. split_and!.
  - by apply space_vset.
  - intros y Hy. apply fblock_vset; auto.
  - intros c Hc Huc. rewrite (used_ext (taken sb b v)); auto. intros d Hd. apply vset_ne. by apply Hm.
  - intros y Hy1 Hy2 Hy3. rewrite vset_ne; [by apply taken_ne|]. destruct Hy3; congruence.
Qed.

(** The file after a free block [b] has become its indirect block or one of
    its data blocks. *)
Lemma grown_by v dd v' dd' b :
  space v -> file_ok v dd -> 0 < b < sb_size sb -> used sb v b = false -> filled v dd b v' ->
  length (d_addrs dd') = 13%nat -> dd' = set_d_addrs (fun _ => d_addrs dd') dd ->
  ind_addr dd' = ind_addr dd \/ ind_addr dd = 0 /\ ind_addr dd' = b ->
  (forall c, 0 <= c < MAXFILE -> faddr v' dd' c = faddr v dd c \/ faddr v dd c = 0 /\ faddr v' dd' c = b) ->
  (forall c, 0 <= c < MAXFILE -> faddr v' dd' c = b -> ind_addr dd' <> b /\
     forall c', 0 <= c' < MAXFILE -> faddr v' dd' c' = b -> c = c') ->
  fgrown v dd v' dd'.
Proof.
  intros HS HF Hb Hu Hv' Hlen Hmeta Hind Hadr Huniq. pose proof HF as [F1 F2 F3 F4 F5 F6].
  destruct (filled_facts v dd b v' HS HF Hb Hu Hv') as (G1 & G2 & G3 & G4).
  assert (d_size dd' = d_size dd) as Hsz by (rewrite Hmeta; by destruct dd).
  assert (forall y, fblock v y -> y <> b) as Hold
    by (intros y Hy ->; by rewrite (fb_used _ _ _ _ _ Hy) in Hu).
  split; try done.
  - split; [done| | | |by rewrite Hsz|].
    + intros Hne. apply G2. destruct Hind as [E|[_ E]]; rewrite E in *; auto.
    + intros bn Hbn Hne. destruct (Hadr bn Hbn) as [E|[E0 E]].
      * rewrite E in *. destruct (F3 bn Hbn Hne) as [Hx Hi]. split; [auto|].
        destruct Hind as [->|[_ ->]]; [done|by apply Hold].
      * split; [auto|]. rewrite E. apply not_eq_sym. by apply (Huniq bn).
    + intros bn bn' Hbn Hbn' Hne E. destruct (decide (faddr v' dd' bn = b)) as [Eb|Nb].
      { apply (Huniq bn); congruence. }
      destruct (Hadr bn Hbn) as [E1|[_ E1]]; [|done]. destruct (Hadr bn' Hbn') as [E2|[_ E2]]; [|congruence].
      apply F4; congruence.
    + intros bn Hbn Hs. rewrite Hsz in Hs. pose proof (F6 bn Hbn Hs) as Hne.
      destruct (Hadr bn) as [->|[? _]]; [|done..]. split; [done|]. unfold BSIZE in *. nia.
  - intros Hne. by destruct Hind as [|[? _]].
  - intros bn Hbn Hne. by destruct (Hadr bn Hbn) as [|[? _]].
  - intros x [->|(bn & Hbn & ->)] Hne.
    + destruct Hind as [|[_ ->]]; [by left|]. right; right. split; [lia|done].
    + right. destruct (Hadr bn Hbn) as [->|[_ ->]]; [left; eauto|right]. split; [lia|done].
  - intros bn Hbn Hne. destruct (F3 bn Hbn Hne) as [Hx Hi].
    apply G4; [by apply Hold| |by left]. apply not_eq_sym, (fb_map _ _ _ _ _ Hx). lia.
  - intros x [X1 X2 X3 X4]. apply G4; [intros ->; rewrite X1 in Hu; [done|lia]| |].
    + apply not_eq_sym, X4. lia.
    + destruct (decide (x = ind_addr dd)); [right|left]; auto.
Qed.

(** *** The three ways [bmap] takes a block *)

Section Cases.
Context (v : Z -> option (list Z)) (dd : inode_data) (b : Z).
Context (HS : space v) (HF : file_ok v dd) (Hb : 0 < b < sb_size sb) (Hu : used sb v b = false).

Lemma file_not_new y : fblock v y -> y <> b.
Proof using Hu. intros Hy ->. by rewrite (fb_used _ _ _ _ _ Hy) in Hu. Qed.

Lemma faddr_not_new c : 0 <= c < MAXFILE -> faddr v dd c <> b.
Proof using HF Hu Hb.
  intros Hc E. apply (file_not_new b); [|done]. rewrite <- E. apply (fo_blk _ _ _ _ _ HF c Hc). lia.
Qed.

Lemma taken_ind : ind_addr dd <> 0 -> taken sb b v (ind_addr dd) = v (ind_addr dd).
Proof using HF Hu Hb.
  intros Hne. pose proof (fo_ind _ _ _ _ _ HF Hne) as Hi. apply taken_ne; [by apply file_not_new|].
  apply not_eq_sym, (fb_map _ _ _ _ _ Hi). lia.
Qed.

Lemma grown_direct bn :
  0 <= bn < NDIRECT -> faddr v dd bn = 0 ->
  let dd' := set_d_addrs <[Z.to_nat bn := b]> dd in
  fgrown v dd (taken sb b v) dd' /\ faddr (taken sb b v) dd' bn = b /\ ind_addr dd' = ind_addr dd.
Proof using HS HF Hb Hu.
  intros Hbn H0 dd'. pose proof (fo_len _ _ _ _ _ HF) as Hlen. unfold NDIRECT in Hbn.
  assert (ind_addr dd' = ind_addr dd) as Ei.
  { unfold ind_addr, dd'. destruct dd. cbn in *. rewrite !nth_lookup, list_lookup_insert_ne by (unfold NDIRECT; lia). done. }
  assert (forall c, 0 <= c < MAXFILE -> faddr (taken sb b v) dd' c = if c =? bn then b else faddr v dd c) as Hf.
  { intros c Hc. transitivity (faddr v dd' c).
    { apply faddr_ext. rewrite Ei. apply taken_ind. }
    unfold faddr. rewrite Ei. destruct (c <? NDIRECT) eqn:E; zbool.
    - unfold dd'. destruct dd. cbn in *. rewrite !nth_lookup. destruct (Z.eqb_spec c bn) as [->|Hne].
      + by rewrite list_lookup_insert_eq by lia.
      + by rewrite list_lookup_insert_ne by lia.
    - rewrite (proj2 (Z.eqb_neq c bn)) by (unfold NDIRECT in *; lia). done. }
  split_and!; [|by rewrite Hf, Z.eqb_refl by (change MAXFILE with 268; lia)|done].
  apply (grown_by v dd _ dd' b); try done; [by left| |by left| |].
  - unfold dd'. destruct dd. cbn in *. by rewrite length_insert.
  - intros c Hc. rewrite Hf by done. destruct (Z.eqb_spec c bn) as [->|]; auto.
  - intros c Hc. rewrite Hf by done. destruct (Z.eqb_spec c bn) as [->|].
    + intros _. rewrite Ei. split.
      * destruct (decide (ind_addr dd = 0)); [lia|]. by apply file_not_new, (fo_ind _ _ _ _ _ HF).
      * intros c' Hc'. rewrite Hf by done. destruct (Z.eqb_spec c' bn) as [->|]; [done|].
        intros E. by apply faddr_not_new in E.
    + intros E. by apply faddr_not_new in E.
Qed.

Lemma grown_indirect :
  ind_addr dd = 0 ->
  let dd' := set_d_addrs <[Z.to_nat NDIRECT := b]> dd in
  fgrown v dd (taken sb b v) dd' /\ ind_addr dd' = b /\ taken sb b v b = Some zero_block.
Proof using HS HF Hb Hu.
  intros H0 dd'. pose proof (fo_len _ _ _ _ _ HF) as Hlen.
  assert (ind_addr dd' = b) as Ei.
  { unfold ind_addr, dd'. destruct dd. cbn in *. by rewrite nth_lookup, list_lookup_insert_eq by (rewrite Hlen; vm_compute; lia). }
  assert (taken sb b v b = Some zero_block) as Hz by (unfold taken; apply vset_eq).
  assert (forall c, 0 <= c < MAXFILE -> faddr (taken sb b v) dd' c = faddr v dd c) as Hf.
  { intros c Hc. unfold faddr. rewrite Ei, H0, Hz. destruct (c <? NDIRECT) eqn:E; zbool.
    - unfold dd'. destruct dd. cbn in *. by rewrite !nth_lookup, list_lookup_insert_ne by (unfold NDIRECT in *; lia).
    - rewrite (proj2 (Z.eqb_neq b 0)) by lia. apply word_zero_block. }
  split_and!; [|done|done].
  apply (grown_by v dd _ dd' b); try done; [by left| |by right|by left; apply Hf|].
  - unfold dd'. destruct dd. cbn in *. by rewrite length_insert.
  - intros c Hc. rewrite Hf by done. intros E. by apply faddr_not_new in E.
Qed.

Lemma grown_entry bn bytes :
  NDIRECT <= bn < MAXFILE -> ind_addr dd <> 0 -> v (ind_addr dd) = Some bytes ->
  word_at bytes (bn - NDIRECT) = 0 ->
  let v' := vset (ind_addr dd) (put_word (bn - NDIRECT) b bytes) (taken sb b v) in
  fgrown v dd v' dd /\ faddr v' dd bn = b.
Proof using HS HF Hb Hu.
  intros Hbn Hne Hv H0 v'.
  destruct (fb_data _ _ _ _ _ (fo_ind _ _ _ _ _ HF Hne)) as (bytes' & Hv2 & Hl). rewrite Hv in Hv2. simplify_eq.
  assert (4 * (bn - NDIRECT) + 4 <= Z.of_nat (length bytes')) as Hfit
    by (rewrite Hl; change MAXFILE with 268 in *; unfold BSIZE, NDIRECT in *; lia).
  pose proof (sp_size _ _ _ _ HS) as Hsz.
  assert (forall c, 0 <= c < MAXFILE -> faddr v' dd c = if c =? bn then b else faddr v dd c) as Hf.
  { intros c Hc. unfold faddr, v'. rewrite vset_eq, Hv. destruct (c <? NDIRECT) eqn:E; zbool.
    - by rewrite (proj2 (Z.eqb_neq c bn)) by lia.
    - rewrite (proj2 (Z.eqb_neq (ind_addr dd) 0)), word_at_put by (done || lia).
      destruct (Z.eqb_spec c bn) as [->|]; [by rewrite Z.eqb_refl|].
      by rewrite (proj2 (Z.eqb_neq (c - NDIRECT) (bn - NDIRECT))) by lia. }
  assert (0 <= bn < MAXFILE) as Hbn' by (unfold NDIRECT in *; lia).
  split; [|by rewrite Hf, Z.eqb_refl].
  apply (grown_by v dd _ dd b); try done; [|by apply HF|by destruct dd|by left| |].
  - right. split; [done|]. eexists. split; [|done]. rewrite length_put_word by (done || lia). done.
  - intros c Hc. rewrite Hf by done. destruct (Z.eqb_spec c bn) as [->|]; [right|by left]. split; [|done].
    unfold faddr. rewrite (proj2 (Z.ltb_ge bn NDIRECT)), (proj2 (Z.eqb_neq (ind_addr dd) 0)), Hv by (done || lia). done.
  - intros c Hc. rewrite Hf by done. destruct (Z.eqb_spec c bn) as [->|]; [|intros E; by apply faddr_not_new in E].
    intros _. split; [by apply file_not_new, (fo_ind _ _ _ _ _ HF)|].
    intros c' Hc'. rewrite Hf by done. destruct (Z.eqb_spec c' bn) as [->|]; [done|].
    intros E. by apply faddr_not_new in E.
Qed.

End Cases.

(** ** Writing

    [v1], [dd1] hold the file of [v], [dd] after the first [tot] bytes of [data]
    have been written at [off]; the size is as before. *)
Record wrote (off : Z) (data : list Z) (v : Z -> option (list Z)) (dd : inode_data)
    (v1 : Z -> option (list Z)) (dd1 : inode_data) (tot : Z) : Prop := {
  wr_space : space v1;
  wr_ok : file_ok v1 dd1;
  wr_meta : dd1 = set_d_addrs (fun _ => d_addrs dd1) dd;
  wr_new : fslice v1 dd1 off tot = slice 0 (Z.to_nat tot) data;
  wr_alloc : forall bn, 0 <= bn -> bn * BSIZE < off + tot -> faddr v1 dd1 bn <> 0;
  wr_old : forall i, 0 <= i < d_size dd -> ~ off <= i < off + tot -> fbyte v1 dd1 i = fbyte v dd i;
  wr_foreign : forall x, foreign v dd x -> foreign v1 dd1 x /\ v1 x = v x;
  wr_used : forall x, 0 <= x < sb_size sb -> used sb v x = true -> used sb v1 x = true;
}.

Lemma fbyte_grown v dd v' dd' i :
  fgrown v dd v' dd' -> 0 <= i < MAXFILE * BSIZE -> faddr v dd (i / BSIZE) <> 0 -> fbyte v' dd' i = fbyte v dd i.
Proof.
  intros G Hi Hne. assert (0 <= i / BSIZE < MAXFILE) as Hb.
  { split; [apply Z.div_pos; [lia|done]|apply Z.div_lt_upper_bound; [done|lia]]. }
  unfold fbyte. by rewrite (gr_addr _ _ _ _ G), (gr_data _ _ _ _ G).
Qed.

Lemma block_start i : 0 <= i -> 0 <= i / BSIZE /\ i / BSIZE * BSIZE <= i.
Proof.
  intros Hi. split; [apply Z.div_pos; [lia|done]|]. rewrite Z.mul_comm. by apply Z.mul_div_le.
Qed.

Lemma wrote_start off data v dd : space v -> file_ok v dd -> off <= d_size dd -> wrote off data v dd v dd 0.
Proof.
  intros HS HF Ho. split; try done; [by destruct dd|]. intros bn Hbn Hlt. apply (fo_alloc _ _ _ _ _ HF); lia.
Qed.

Lemma wrote_grown off data v dd v1 dd1 v2 dd2 tot :
  0 <= off -> 0 <= tot -> off + tot <= MAXFILE * BSIZE ->
  wrote off data v dd v1 dd1 tot -> fgrown v1 dd1 v2 dd2 -> wrote off data v dd v2 dd2 tot.
Proof.
  intros Hoff Htot Hmax [W1 W2 W3 W4 W5 W6 W7 W8] G. split; try apply G.
  - rewrite (gr_meta _ _ _ _ G) at 1. by rewrite W3.
  - rewrite <- W4. apply map_ext_in. intros i [Hi1 Hi2]%list_elem_of_In%elem_of_seqZ.
    apply (fbyte_grown v1 dd1); [done|lia|]. destruct (block_start i ltac:(lia)). apply W5; lia.
  - intros bn Hbn Hlt. assert (bn < MAXFILE) by (unfold BSIZE in *; nia).
    pose proof (W5 bn Hbn Hlt). by rewrite (gr_addr _ _ _ _ G).
  - intros i Hi Hn. rewrite <- W6 by done. pose proof (fo_size _ _ _ _ _ W2) as Hs.
    assert (d_size dd1 = d_size dd) as Hd by (rewrite W3; by destruct dd).
    apply (fbyte_grown v1 dd1); [done|lia|]. destruct (block_start i ltac:(lia)).
    apply (fo_alloc _ _ _ _ _ W2); lia.
  - intros x Hx. destruct (W7 x Hx) as [Hx1 <-]. split; [by eapply foreign_grown|].
    by apply (gr_foreign _ _ _ _ G).
  - intros x Hr Hu. apply (gr_used _ _ _ _ G); auto.
Qed.

(** a byte outside the range that is written *)
Lemma fbyte_outside v dd o c bytes i :
  let x := faddr v dd (o / BSIZE) in
  file_ok v dd -> 0 <= o < MAXFILE * BSIZE -> o mod BSIZE + Z.of_nat (length c) <= BSIZE ->
  x <> 0 -> v x = Some bytes -> Z.of_nat (length bytes) = BSIZE ->
  0 <= i < MAXFILE * BSIZE -> ~ o <= i < o + Z.of_nat (length c) ->
  fbyte (vset x (splice (Z.to_nat (o mod BSIZE)) c bytes) v) dd i = fbyte v dd i.
Proof.
  intros x HF Ho Hin Hx Hv Hl Hi Hn. pose proof (Z.mod_pos_bound o BSIZE ltac:(done)) as Hmod.
  assert (forall j, 0 <= j < MAXFILE * BSIZE -> 0 <= j / BSIZE < MAXFILE) as Hr.
  { intros j Hj. split; [apply Z.div_pos; [lia|done]|apply Z.div_lt_upper_bound; [done|lia]]. }
  destruct (fo_blk _ _ _ _ _ HF _ (Hr o Ho) Hx) as [Hfb Hni].
  unfold fbyte. rewrite (faddr_ext v). 2:{ intros _. by apply vset_ne, not_eq_sym. }
  unfold vset. case_bool_decide as E; [|done].
  assert (i / BSIZE = o / BSIZE) as Eb by (apply (fo_inj _ _ _ _ _ HF); auto; by rewrite E).
  rewrite E, Hv. cbn. rewrite !nth_lookup. f_equal. apply lookup_splice_ne; [lia|].
  pose proof (Z.div_mod i BSIZE ltac:(done)). pose proof (Z.div_mod o BSIZE ltac:(done)).
  pose proof (Z.mod_pos_bound i BSIZE ltac:(done)). rewrite Eb in *. lia.
Qed.

(** one block is written *)
Lemma wrote_block off data v dd v1 dd1 tot k bytes :
  let x := faddr v1 dd1 ((off + tot) / BSIZE) in
  let v2 := vset x (splice (Z.to_nat ((off + tot) mod BSIZE)) (slice (Z.to_nat tot) (Z.to_nat k) data) bytes) v1 in
  0 <= off -> 0 <= tot -> 0 < k -> (off + tot) mod BSIZE + k <= BSIZE ->
  off + tot + k <= MAXFILE * BSIZE -> tot + k <= Z.of_nat (length data) ->
  wrote off data v dd v1 dd1 tot -> x <> 0 -> v1 x = Some bytes -> Z.of_nat (length bytes) = BSIZE ->
  wrote off data v dd v2 dd1 (tot + k).
Proof.
  intros x v2 Hoff Htot Hk Hin Hmax Hlen [W1 W2 W3 W4 W5 W6 W7 W8] Hx Hv Hl.
  set (c := slice (Z.to_nat tot) (Z.to_nat k) data) in *.
  pose proof (Z.mod_pos_bound (off + tot) BSIZE ltac:(done)) as Hmod.
  assert (length c = Z.to_nat k) as Hc by (apply length_slice; lia).
  set (bn := (off + tot) / BSIZE) in *. assert (0 <= bn < MAXFILE) as Hbn.
  { unfold bn. split; [apply Z.div_pos; [lia|done]|apply Z.div_lt_upper_bound; [done|lia]]. }
  destruct (fo_blk _ _ _ _ _ W2 bn Hbn Hx) as [Hfb Hni].
  assert (Z.of_nat (length (splice (Z.to_nat ((off + tot) mod BSIZE)) c bytes)) = BSIZE) as Hl2
    by (rewrite length_splice; lia).
  destruct (file_ok_vset v1 dd1 x _ W2 (fb_map _ _ _ _ _ Hfb) ltac:(done) Hl2) as [HF2 Hf]. fold v2 in HF2, Hf.
  assert (forall i, 0 <= i < MAXFILE * BSIZE -> ~ off + tot <= i < off + tot + k -> fbyte v2 dd1 i = fbyte v1 dd1 i) as Hout.
  { intros i Hi Hn. apply (fbyte_outside v1 dd1 (off + tot)); (done || lia). }
  split; try done.
  - by apply space_vset; [|exact (fb_map _ _ _ _ _ Hfb)].
  - rewrite fslice_app by lia. rewrite Z2Nat.inj_add, <- slice_app by lia. f_equal.
    + rewrite <- W4. apply map_ext_in. intros i [Hi1 Hi2]%list_elem_of_In%elem_of_seqZ. apply Hout; lia.
    + simpl. fold c. rewrite <- (fslice_block v2 dd1 (off + tot) k
        (splice (Z.to_nat ((off + tot) mod BSIZE)) c bytes)); try lia.
      * rewrite <- Hc. apply slice_splice_eq. lia.
      * rewrite Hf. apply vset_eq.
  - intros bn' Hb' Hlt. rewrite Hf. destruct (decide (bn' = bn)) as [->|Hne]; [done|]. apply W5; [done|].
    pose proof (Z.div_mod (off + tot) BSIZE ltac:(done)) as Hdm. fold bn in Hdm. unfold BSIZE in *. nia.
  - intros i Hi Hn. rewrite Hout; [apply W6; lia| |lia]. pose proof (fo_size _ _ _ _ _ W2).
    assert (d_size dd1 = d_size dd) as Hd by (rewrite W3; by destruct dd). lia.
  - intros y Hy. destruct (W7 y Hy) as [[Y1 Y2 Y3 Y4] Hvy].
    assert (y <> x) as Hne by (intros ->; by apply Hx, (Y3 bn)).
    split; [|unfold v2; by rewrite vset_ne]. split; [|done| |done].
    + intros Hr. rewrite (used_ext v1); [auto|done|]. intros d Hd. apply vset_ne. by apply (fb_map _ _ _ _ _ Hfb).
    + intros bn' Hb'. rewrite Hf. by apply Y3.
  - intros y Hr Hu. rewrite (used_ext v1); [auto|done|]. intros d Hd. apply vset_ne. by apply (fb_map _ _ _ _ _ Hfb).
Qed.

End Views.
