(* ===== verification/Dir.v ===== *)
(** * Directories and path names ([fs.c], second part)

    [struct dirent] is read and written through a buffer on the kernel stack
    ([k_kbuf]); a path is the list of its characters.  [namex] gives the inode
    and the final contents of the caller's [name] buffer. *)

From S2P Require Import Prelude Monad CString Types Kernel Kalloc Vm Bio Log Tx FsBlock Inode.
From stdpp Require Import base numbers list gmap strings.
From Stdlib Require Import ZArith Lia.

Open Scope Z_scope.

Definition SLASH : Z := 47.

(** ** Directory entries *)

Record dirent := Mk_dirent { de_inum : Z; de_name : list Z }.

Definition decode_dirent (bytes : list Z) : dirent :=
  Mk_dirent (le_value (slice 0 2 bytes)) (slice 2 (Z.to_nat DIRSIZ) bytes).

Definition encode_dirent (de : dirent) : list Z := le_bytes 2 (de_inum de) ++ de_name de.

Definition namecmp (s t : list Z) : Z := strncmp s t (Z.to_nat DIRSIZ).

(** ** Path elements *)

(** while path points at a slash: path++ *)
Fixpoint skip_slashes (path : list Z) : list Z :=
  match path with
  | c :: p => if c =? SLASH then skip_slashes p else path
  | [] => []
  end.

(** the loop over the characters of the element: what was passed over, and the rest *)
Fixpoint path_elem (path : list Z) : list Z * list Z :=
  match path with
  | c :: p =>
      if (c =? SLASH) || (c =? 0) then ([], path)
      else let '(s, rest) := path_elem p in (c :: s, rest)
  | [] => ([], [])
  end.

Definition skipelem (path name : list Z) : option (list Z * list Z) :=
  let path := skip_slashes path in
  if ch path =? 0 then None else
  let '(s, rest) := path_elem path in
  let name :=
    if DIRSIZ <=? Z.of_nat (length s) then splice 0 (take (Z.to_nat DIRSIZ) s) name
    else splice 0 (s ++ [0]) name in
  Some (skip_slashes rest, name).

Section Dir.
Context {L : Layout}.

(** [readi(dp, 0, &de, off, sizeof(de)) != sizeof(de)] panics *)
Definition read_dirent (dp : nat) (off : Z) (msg : string) : K dirent :=
  r ← readi dp (AStack 0) off sizeof_dirent;
  if negb (r =? sizeof_dirent) then panic msg else
  b ← gets k_kbuf;
  mret (decode_dirent b).

(** how many entries a directory of this size has, and one more turn *)
Definition dir_fuel (size : Z) : nat := S (S (Z.to_nat (size / sizeof_dirent))).

Definition dirlookup (dp : nat) (name : list Z) : K (option (nat * Z)) :=
  d ← idata dp;
  dd ← load_inode d;
  if negb (d_type dd =? T_DIR) then panic "dirlookup not DIR" else
  loop (dir_fuel (d_size dd)) (fun off =>
    dd ← load_inode d;
    if off <? d_size dd then
      de ← read_dirent dp off "dirlookup read";
      if de_inum de =? 0 then mret (inl (u32 (off + sizeof_dirent))) else
      if namecmp name (de_name de) =? 0 then
        i ← get_ip dp;
        ip ← iget (i_dev i) (de_inum de);
        mret (inr (Some (ip, off)))
      else mret (inl (u32 (off + sizeof_dirent)))
    else mret (inr None)) 0.

(** the search for an empty entry in [dirlink] *)
Definition dirlink_slot (dp : nat) : K Z :=
  d ← idata dp;
  dd ← load_inode d;
  loop (dir_fuel (d_size dd)) (fun off =>
    dd ← load_inode d;
    if off <? d_size dd then
      de ← read_dirent dp off "dirlink read";
      if de_inum de =? 0 then mret (inr off) else mret (inl (off + sizeof_dirent))
    else mret (inr off)) 0.

Definition dirlink (dp : nat) (name : list Z) (inum : Z) : K Z :=
  r ← dirlookup dp name;
  match r with
  | Some (ip, _) => iput ip;; mret (-1)
  | None =>
      off ← dirlink_slot dp;
      modify (set_k_kbuf (fun _ =>
        encode_dirent (Mk_dirent (u16 inum) (strncpy name (Z.to_nat DIRSIZ)))));;
      r ← writei dp (AStack 0) off sizeof_dirent;
      mret (if negb (r =? sizeof_dirent) then -1 else 0)
  end.

(** ** Path lookup *)

Definition namex (path : list Z) (parent : bool) (name : list Z) : K (option nat * list Z) :=
  ip ← (if ch path =? SLASH then iget ROOTDEV ROOTINO
        else p ← myproc; pr ← get_proc p; cwd ← deref (fun _ => p_cwd pr); idup cwd);
  loop (S (length path)) (fun '(ip, path, name) =>
    match skipelem path name with
    | None =>
        if (parent : bool) then iput ip;; mret (inr (None, name))
        else mret (inr (Some ip, name))
    | Some (path, name) =>
        ilock ip;;
        d ← idata ip;
        dd ← load_inode d;
        if negb (d_type dd =? T_DIR) then
          idata_ro ip;; iunlockput ip;; mret (inr (None, name))
        else if parent && (ch path =? 0) then
          iunlock ip;; mret (inr (Some ip, name))
        else
          next ← dirlookup ip name;
          match next with
          | None => idata_ro ip;; iunlockput ip;; mret (inr (None, name))
          | Some (next, _) =>
              idata_ro ip;; iunlockput ip;; mret (inl (next, path, name))
          end
    end) (ip, path, name).

(** [name] is an uninitialised local of [namei]; its contents are never used *)
Definition namei (path : list Z) : K (option nat) :=
  r ← namex path false (replicate (Z.to_nat DIRSIZ) 0);
  mret r.1.

Definition nameiparent (path name : list Z) : K (option nat * list Z) := namex path true name.

End Dir.
