(* ===== verification/DirFacts.v ===== *)
(** * Names, directory entries and on-disk inodes

    [skipelem] against a reference definition that splits a path at its
    slashes; the names a directory entry matches; and the round trips of
    [struct dirent] and [struct dinode] through the bytes of a block. *)

From S2P Require Import Prelude Monad CString Types Kernel Bio FsBlock Inode Dir.
From stdpp Require Import base numbers list gmap strings.
From Stdlib Require Import ZArith Lia.

Open Scope Z_scope.

(** ** The elements of a path *)

(** reference: split at the slashes, drop the empty pieces *)
Fixpoint split_slash (cur path : list Z) : list (list Z) :=
  match path with
  | [] => if decide (cur = []) then [] else [cur]
  | c :: p =>
      if decide (c = SLASH) then
        (if decide (cur = []) then [] else [cur]) ++ split_slash [] p
      else split_slash (cur ++ [c]) p
  end.

Definition path_elems (path : list Z) : list (list Z) := split_slash [] (cstr path).

Lemma path_elems_skip path : path_elems (skip_slashes path) = path_elems path.
Proof.
  unfold path_elems. induction path as [|c p IH]; simpl; [done|].
  destruct (c =? SLASH) eqn:E; [|done]. apply Z.eqb_eq in E as ->.
  rewrite IH. done.
Qed.

Lemma skip_slashes_ch path : ch (skip_slashes path) <> SLASH.
Proof.
  induction path as [|c p IH]; simpl; [done|]. destruct (c =? SLASH) eqn:E; zbool; done.
Qed.

Lemma skip_slashes_length path : (length (skip_slashes path) <= length path)%nat.
Proof. induction path as [|c p IH]; simpl; [done|]. destruct (c =? SLASH); simpl; lia. Qed.

(** [path_elem] takes the characters up to the next slash or the end *)
Lemma path_elem_spec path s rest :
  path_elem path = (s, rest) ->
  path = s ++ rest /\ Forall (fun c => c <> SLASH /\ c <> 0) s /\
  (ch rest = SLASH \/ ch rest = 0).
Proof.
  revert s rest. induction path as [|c p IH]; intros s rest; simpl.
  - intros [= <- <-]. eauto.
  - destruct ((c =? SLASH) || (c =? 0)) eqn:E.
    + intros [= <- <-]. apply orb_true_iff in E as [E|E]; zbool; subst; simpl; eauto.
    + destruct (path_elem p) as [s' r'] eqn:Ep. intros [= <- <-].
      destruct (IH _ _ eq_refl) as (-> & Hs & Hr). apply orb_false_iff in E as [E1 E2]. zbool.
      split_and!; [done| |done]. by constructor.
Qed.

Lemma cstr_app s rest :
  Forall (fun c => c <> SLASH /\ c <> 0) s -> cstr (s ++ rest) = s ++ cstr rest.
Proof.
  induction 1 as [|c s [_ Hc] _ IH]; simpl; [done|].
  by rewrite (proj2 (Z.eqb_neq _ _) Hc), IH.
Qed.

Lemma split_slash_app cur s rest :
  Forall (fun c => c <> SLASH /\ c <> 0) s ->
  split_slash cur (s ++ rest) = split_slash (cur ++ s) rest.
Proof.
  intros Hs. revert cur. induction Hs as [|c s [Hc _] _ IH]; intros cur; simpl.
  - by rewrite app_nil_r.
  - rewrite decide_False by done. by rewrite IH, <- app_assoc.
Qed.

Lemma split_slash_rest e rest :
  e <> [] -> ch rest = SLASH \/ ch rest = 0 ->
  split_slash e (cstr rest) = e :: path_elems rest.
Proof.
  intros He [H|H].
  - rewrite (cstr_cons rest) by (rewrite H; done). unfold path_elems.
    rewrite (cstr_cons rest) by (rewrite H; done). rewrite H. simpl.
    by rewrite decide_False.
  - unfold path_elems. rewrite (cstr_nil rest H). simpl. by rewrite decide_False.
Qed.

(** what [skipelem] leaves in [name] for the element [s] *)
Lemma stored_name s name :
  Forall (fun c => c <> SLASH /\ c <> 0) s -> length name = Z.to_nat DIRSIZ ->
  let name' := if DIRSIZ <=? Z.of_nat (length s) then splice 0 (take (Z.to_nat DIRSIZ) s) name
               else splice 0 (s ++ [0]) name in
  length name' = Z.to_nat DIRSIZ /\
  take (Z.to_nat DIRSIZ) (cstr name') = take (Z.to_nat DIRSIZ) s.
Proof.
  intros Hs Hn. cbv zeta. change DIRSIZ with 14 in *.
  destruct (14 <=? Z.of_nat (length s)) eqn:E; zbool.
  - rewrite length_splice by (rewrite length_take; lia). split; [done|].
    unfold splice. rewrite take_0, length_take_le, drop_ge by lia. simpl app. rewrite app_nil_r.
    rewrite <- (app_nil_r (take _ s)) at 1. rewrite cstr_app by (by apply Forall_take).
    simpl. rewrite app_nil_r. by rewrite take_take, Nat.min_id.
  - rewrite length_splice by (rewrite length_app; simpl; lia). split; [done|].
    unfold splice. rewrite take_0. simpl app. rewrite <- app_assoc, cstr_app by done.
    simpl. by rewrite app_nil_r.
Qed.

(** C36. [skipelem] takes a path apart as splitting it at its slashes does: it
    finds no element exactly when there is none, and otherwise leaves the
    first element in [name], cut to [DIRSIZ] characters, and a shorter path
    that holds the remaining elements. *)
Theorem skipelem_splits path name :
  length name = Z.to_nat DIRSIZ ->
  match skipelem path name with
  | None => path_elems path = []
  | Some (path', name') =>
      exists e, path_elems path = e :: path_elems path' /\ e <> [] /\ ~ In SLASH e /\
        take (Z.to_nat DIRSIZ) (cstr name') = take (Z.to_nat DIRSIZ) e /\
        length name' = Z.to_nat DIRSIZ /\ (length path' < length path)%nat
  end.
Proof.
  intros Hn. unfold skipelem. rewrite <- (path_elems_skip path).
  pose proof (skip_slashes_ch path) as Hns. pose proof (skip_slashes_length path) as Hl.
  generalize dependent (skip_slashes path). intros q Hns Hl.
  destruct (ch q =? 0) eqn:E0; zbool.
  { unfold path_elems. by rewrite cstr_nil. }
  destruct (path_elem q) as [s rest] eqn:Ep.
  destruct (path_elem_spec _ _ _ Ep) as (-> & Hs & Hr).
  assert (Hne : s <> []) by (intros ->; simpl in *; tauto).
  destruct (stored_name s name Hs Hn) as [H1 H2].
  exists s. rewrite path_elems_skip. split_and!; try done.
  - unfold path_elems at 1. rewrite cstr_app, split_slash_app by done. simpl app.
    by apply split_slash_rest.
  - intros Hin. rewrite Forall_forall in Hs. destruct (Hs SLASH); [by apply list_elem_of_In|done].
  - pose proof (skip_slashes_length rest). rewrite length_app in Hl.
    destruct s; simpl in *; [done|lia].
Qed.

(** ** Records in the bytes of a block *)

Lemma slice_app_l {A} n (a b : list A) : length a = n -> slice 0 n (a ++ b) = a.
Proof. intros <-. unfold slice. by rewrite drop_0, take_app_length. Qed.

Lemma slice_app_r {A} off n (a b : list A) :
  (length a <= off)%nat -> slice off n (a ++ b) = slice (off - length a) n b.
Proof. intros H. unfold slice. by rewrite drop_app_ge. Qed.

Lemma slice_all {A} n (a : list A) : length a = n -> slice 0 n a = a.
Proof. intros H. rewrite <- (app_nil_r a) at 1. by apply slice_app_l. Qed.

Lemma le_value_u16 x : 0 <= x < 2 ^ 16 -> le_value (le_bytes 2 x) = x.
Proof. intros H. rewrite le_value_bytes. by apply Z.mod_small. Qed.

Lemma le_value_u32 x : 0 <= x < 2 ^ 32 -> le_value (le_bytes 4 x) = x.
Proof. intros H. rewrite le_value_bytes. by apply Z.mod_small. Qed.

Lemma s16_le_value x : - 2 ^ 15 <= x < 2 ^ 15 -> s16 (le_value (le_bytes 2 x)) = x.
Proof. intros H. rewrite le_value_bytes. by apply (swrap_wrap 16). Qed.

(** A directory entry written by [dirlink] and read back by [dirlookup]
    has the inode number it was given, and [namecmp] finds it for exactly the
    names that agree with the one linked on their first [DIRSIZ] characters. *)
Theorem dirent_roundtrip name inum name' :
  0 <= inum < 2 ^ 16 ->
  let bytes := encode_dirent (Mk_dirent (u16 inum) (strncpy name (Z.to_nat DIRSIZ))) in
  let de := decode_dirent bytes in
  Z.of_nat (length bytes) = sizeof_dirent /\ de_inum de = inum /\
  (namecmp name' (de_name de) = 0 <->
   take (Z.to_nat DIRSIZ) (cstr name') = take (Z.to_nat DIRSIZ) (cstr name)).
Proof.
  intros Hi. cbv zeta. unfold encode_dirent, decode_dirent. cbn [de_inum de_name].
  assert (Hu : u16 inum = inum) by (by apply wrap_small). rewrite Hu.
  split_and!.
  - by rewrite length_app, length_le_bytes, length_strncpy.
  - rewrite slice_app_l by apply length_le_bytes. by apply le_value_u16.
  - rewrite slice_app_r by (by rewrite length_le_bytes). rewrite length_le_bytes, Nat.sub_diag.
    rewrite slice_all by apply length_strncpy. unfold namecmp. by rewrite strncmp_eq, take_strncpy.
Qed.

(** the values the fields of [struct dinode] can hold *)
Record dinode_ok (d : inode_data) : Prop := {
  dk_type : - 2 ^ 15 <= d_type d < 2 ^ 15;
  dk_major : - 2 ^ 15 <= d_major d < 2 ^ 15;
  dk_minor : - 2 ^ 15 <= d_minor d < 2 ^ 15;
  dk_nlink : - 2 ^ 15 <= d_nlink d < 2 ^ 15;
  dk_size : 0 <= d_size d < 2 ^ 32;
  dk_len : length (d_addrs d) = 13%nat;
  dk_addrs : Forall (fun a => 0 <= a < 2 ^ 32) (d_addrs d)
}.

Lemma length_words l : length (concat (map (le_bytes 4) l)) = (4 * length l)%nat.
Proof.
  induction l as [|x l IH]; [done|]. cbn [map concat length].
  rewrite length_app, length_le_bytes, IH. lia.
Qed.

Lemma length_encode_dinode d : length (d_addrs d) = 13%nat -> length (encode_dinode d) = 64%nat.
Proof.
  intros H. unfold encode_dinode. by rewrite !length_app, !length_le_bytes, length_words, H.
Qed.

Lemma decode_words l :
  Forall (fun a => 0 <= a < 2 ^ 32) l ->
  map (fun i => le_value (slice (4 * i) 4 (concat (map (le_bytes 4) l)))) (seq 0 (length l)) = l.
Proof.
  induction 1 as [|x l Hx _ IH]; [done|]. cbn [length seq map concat]. f_equal.
  - rewrite slice_app_l by apply length_le_bytes. by apply le_value_u32.
  - rewrite <- seq_shift, map_map. etrans; [|exact IH]. apply map_ext. intros i.
    rewrite slice_app_r by (rewrite length_le_bytes; lia). rewrite length_le_bytes.
    by replace (4 * S i - 4)%nat with (4 * i)%nat by lia.
Qed.

Lemma decode_encode_dinode d : dinode_ok d -> decode_dinode (encode_dinode d) = d.
Proof.
  intros H. destruct d as [ty ma mi nl sz ad]. destruct H as [H1 H2 H3 H4 H5 H6 H7]. simpl in *.
  unfold decode_dinode, encode_dinode, short_at.
  cbn [d_type d_major d_minor d_nlink d_size d_addrs]. f_equal.
  all: repeat (rewrite slice_app_r by (rewrite length_le_bytes; lia);
               rewrite length_le_bytes; cbn [Nat.sub]).
  1-4: rewrite slice_app_l by apply length_le_bytes; by apply s16_le_value.
  { rewrite slice_app_l by apply length_le_bytes. by apply le_value_u32. }
  etrans; [|exact (decode_words ad H7)]. rewrite H6. apply map_ext. intros i.
  repeat (rewrite slice_app_r by (rewrite length_le_bytes; lia); rewrite length_le_bytes).
  f_equal. f_equal. lia.
Qed.

(** The on-disk inode [inum] written to its block by [iupdate] reads back
    as the same inode by [ilock], and the other inodes of the block keep their
    contents. *)
Theorem dinode_roundtrip (d : inode_data) (inum inum' : Z) (blk : list Z) :
  dinode_ok d -> length blk = Z.to_nat BSIZE ->
  let blk' := splice (dinode_off inum) (encode_dinode d) blk in
  decode_dinode (slice (dinode_off inum) 64 blk') = d /\ length blk' = length blk /\
  (inum' mod IPB <> inum mod IPB ->
   slice (dinode_off inum') 64 blk' = slice (dinode_off inum') 64 blk).
Proof.
  intros Hd Hl. cbv zeta. pose proof (length_encode_dinode d (dk_len d Hd)) as He.
  unfold dinode_off. change IPB with 16. change sizeof_dinode with 64. change BSIZE with 1024 in Hl.
  pose proof (Z.mod_pos_bound inum 16 ltac:(lia)). pose proof (Z.mod_pos_bound inum' 16 ltac:(lia)).
  split_and!.
  - rewrite <- He at 1. rewrite slice_splice_eq by lia. by apply decode_encode_dinode.
  - apply length_splice. lia.
  - intros Hne. apply slice_splice_ne; lia.
Qed.
