(* ===== verification/FileWrite.v ===== *)
(** * Allocating and writing the blocks of a file

    [bmap] gives the block of a file, taking free blocks as needed; [writei]
    changes exactly the range it is asked to write, stops short only when the
    disk is full, writes the inode back, and changes no block of another file.
    The number of blocks it logs is bounded by the blocks it writes, the
    bitmap, the indirect block and the block of the inode. *)

From S2P Require Import Prelude Monad CString Types Kernel Kalloc Vm VmFacts UserMem Transfer Uart Printf Echo Bio Lru BioFacts Log LogFacts LogCrash LogOps Tx FsBlock FsCtx Bitmap Inode FileData FileGrow Dir DirFacts.
From stdpp Require Import base numbers list gmap strings.
From Stdlib Require Import ZArith Lia.

Open Scope Z_scope.

Definition bitmap_blocks (sb : superblock) : list Z :=
  map (fun k => BBLOCK (BPB * k) sb) (seqZ 0 ((sb_size sb + BPB - 1) / BPB)).

Lemma elem_of_bitmap_blocks sb b : 0 <= b < sb_size sb -> BBLOCK b sb ∈ bitmap_blocks sb.
Proof.
  intros Hb. apply list_elem_of_fmap. exists (b / BPB). pose proof (Z.mod_pos_bound b BPB ltac:(done)) as Hm. split.
  - rewrite (Z.div_mod b BPB) at 1 by done. by apply BBLOCK_row.
  - apply elem_of_seqZ. split; [apply Z.div_pos; [lia|done]|]. rewrite Z.add_0_l.
    apply Z.div_lt_upper_bound; [done|]. pose proof (Z.div_mod (sb_size sb + BPB - 1) BPB ltac:(done)).
    pose proof (Z.mod_pos_bound (sb_size sb + BPB - 1) BPB ltac:(done)). unfold BPB, BSIZE in *. lia.
Qed.

(** the indirect block, if there is one *)
Definition inds (dd : inode_data) : list Z := if ind_addr dd =? 0 then [] else [ind_addr dd].

Lemma elem_of_absorb bls x y : y ∈ absorb bls x <-> y ∈ bls \/ y = x.
Proof. unfold absorb. case_bool_decide; set_solver. Qed.

Definition set_o_page (a : Z) (o : pobj) (m : outer) : outer :=
  Mk_outer (<[a := o]> (o_heap m)) (o_kbuf m) (o_dev m).

Lemma set_o_page_id a o m : o_heap m !! a = Some o -> set_o_page a o m = m.
Proof. intros H. unfold set_o_page. rewrite insert_id by done. by destruct m. Qed.

Lemma set_o_page_twice a o o' m : set_o_page a o (set_o_page a o' m) = set_o_page a o m.
Proof. unfold set_o_page. cbn. by rewrite insert_insert_eq. Qed.

(** logged blocks: those from before, of the bitmap, the indirect block, and of the file *)
Lemma logged_more (b0 M I E bls bls' : list Z) x :
  bls ⊆ b0 ++ M ++ I ++ E -> (forall y, y ∈ bls' -> y ∈ bls \/ y ∈ M \/ y ∈ I \/ y = x) ->
  bls' ⊆ b0 ++ M ++ I ++ x :: E.
Proof. intros H H' y Hy. specialize (H y). specialize (H' y Hy). set_solver. Qed.

Lemma logged_ind (b0 M E bls bls' : list Z) x :
  bls ⊆ b0 ++ M ++ [] ++ E -> (forall y, y ∈ bls' -> y ∈ bls \/ y ∈ M \/ y = x) -> bls' ⊆ b0 ++ M ++ [x] ++ E.
Proof. intros H H' y Hy. specialize (H y). specialize (H' y Hy). set_solver. Qed.

Lemma dinode_fits inum : (dinode_off inum + 64 <= Z.to_nat BSIZE)%nat.
Proof.
  unfold dinode_off. pose proof (Z.mod_pos_bound inum IPB ltac:(done)) as H.
  change IPB with 16 in *. unfold sizeof_dinode, BSIZE. lia.
Qed.

Lemma file_ok_size start s0 sb v dd sz :
  file_ok start s0 sb v dd -> 0 <= sz <= MAXFILE * BSIZE ->
  (forall bn, 0 <= bn -> bn * BSIZE < sz -> faddr v dd bn <> 0) ->
  file_ok start s0 sb v (set_d_size (fun _ => sz) dd).
Proof. intros [F1 F2 F3 F4 F5 F6] H1 H2. destruct dd. by split. Qed.

Lemma umem_page h x dd dd' : h !! x = Some (PInode dd) -> umem_eq h (<[x := PInode dd']> h).
Proof.
  intros H y. destruct (decide (y = x)) as [->|Hne]; [by rewrite lookup_insert_eq, H|by rewrite lookup_insert_ne].
Qed.

(** the blocks [tot], [tot + k] cross *)
Lemma block_step off n tot :
  let k := Z.min (n - tot) (BSIZE - (off + tot) mod BSIZE) in
  0 <= off -> 0 <= tot < n ->
  0 < k /\ tot + k <= n /\ (off + tot) mod BSIZE + k <= BSIZE /\
  (off + tot) / BSIZE <= (off + n - 1) / BSIZE /\
  (tot + k < n -> (off + (tot + k)) / BSIZE = (off + tot) / BSIZE + 1).
Proof.
  intros k Hoff Htot. pose proof (Z.mod_pos_bound (off + tot) BSIZE ltac:(done)) as Hmod. unfold k.
  split_and!; [lia|lia|lia|apply Z.div_le_mono; [done|lia]|]. intros Hk.
  rewrite Z.min_r by lia. pose proof (Z.div_mod (off + tot) BSIZE ltac:(done)) as Hd.
  symmetry. apply (Z.div_unique_pos _ _ _ 0); unfold BSIZE in *; lia.
Qed.

Section Write.
Context {L : Layout} (p : nat) (pr : proc) (start : Z) (s0 : kst) (b0 : list Z).
Context (H0 : fs_ctx p pr start s0 b0) (sb : superblock) (Hsb : k_sb s0 = sb).
Context (ip : nat) (ii : inode) (Hip : k_itable s0 !! ip = Some ii) (Hdev : i_dev ii = ROOTDEV).
Context (Hdata : i_data ii <> 0) (Hpage : nonbuf s0 (i_data ii)) (Hum : umem_apart s0).

Notation fstep := (fstep p pr start s0 b0).
Notation space := (space start s0 sb).
Notation file_ok := (file_ok start s0 sb).
Notation fgrown := (fgrown start s0 sb).
Notation a := (i_data ii).

(** ** Room *)

(** the operation may log up to [K] blocks *)
Context (K : nat) (HlogK : Z.of_nat (length b0) + Z.of_nat K + 2 <= LOGBLOCKS).
Context (HcacheK : (K + 2 < nfree s0)%nat).

Lemma fstep_budget s bls v lks m E :
  fstep s bls v lks m -> bls ⊆ b0 ++ E -> (length E <= K)%nat -> (length bls <= length b0 + K)%nat.
Proof using All.
  intros H Hs HE. pose proof (lo_nodup _ _ _ (fx_log _ _ _ _ _ (fp_ctx _ _ _ _ _ _ _ _ _ _ H))) as Hn.
  assert (bls ⊆+ b0 ++ E) as Hm by (apply NoDup_submseteq; done).
  apply submseteq_length in Hm. rewrite length_app in Hm. lia.
Qed.

Definition disk_full (v : Z -> option (list Z)) : Prop :=
  forall b, 0 <= b < sb_size sb -> used sb v b = true.

Lemma wp_balloc_in s bls v lks m E (Q : Z -> kst -> Prop) :
  fstep s bls v lks m -> space v -> apart sb v lks -> (length lks <= 1)%nat ->
  bls ⊆ b0 ++ E -> (length E <= K)%nat -> echo_ready 66 (o_dev m) ->
  (forall s' d, disk_full v -> fstep s' bls v lks (set_o_dev d m) -> Q 0 s') ->
  (forall s' bls' b, 0 < b < sb_size sb -> used sb v b = false ->
     (forall y, y ∈ bls' -> y ∈ bls \/ y ∈ bitmap_blocks sb \/ y = b) ->
     fstep s' bls' (taken sb b v) lks m -> Q b s') ->
  wp (balloc ROOTDEV) s Q.
Proof using All.
  intros H HS HL Hl Hs HE Hecho Hno Hyes. pose proof (fstep_budget _ _ _ _ _ _ H Hs HE) as Hn.
  eapply (wp_balloc p pr start s0 b0 H0 sb Hsb); try done; [lia|lia|].
  intros s' b Hb Hu _ H'. eapply Hyes; [done|done| |exact H'].
  intros y. rewrite !elem_of_absorb. intros [[?| ->]| ->]; auto.
  right; left. apply elem_of_bitmap_blocks. lia.
Qed.

Lemma wp_upd_inode_fs s bls v lks m dd f (Q : unit -> kst -> Prop) :
  fstep s bls v lks m -> o_heap m !! a = Some (PInode dd) ->
  (forall s', fstep s' bls v lks (set_o_page a (PInode (f dd)) m) -> Q tt s') ->
  wp (upd_inode_data a f) s Q.
Proof using All.
  intros H Hm HQ. unfold upd_inode_data. apply wp_bind.
  eapply wp_run; [by eapply (load_inode_fs p pr start s0 b0 ii Hpage)|].
  assert (k_heap s !! a = Some (PInode dd)) as Ha by (by rewrite (fp_heap _ _ _ _ _ _ _ _ _ _ H)).
  unfold store. eapply wp_run; [reflexivity|]. apply HQ.
  replace (set_k_heap <[a := PInode (f dd)]> s) with
    (set_k_kbuf (fun _ => k_kbuf s) (set_k_heap (fun _ => <[a := PInode (f dd)]> (k_heap s)) s)) by (by destruct s).
  eapply fstep_outer; [| | |eapply fstep_other; [exact H|..]].
  - intros x Hx. cbn. destruct (decide (x = a)) as [->|Hne]; [by rewrite !lookup_insert_eq|].
    rewrite !lookup_insert_ne by done. by rewrite (fp_heap _ _ _ _ _ _ _ _ _ _ H).
  - cbn. by rewrite (fp_kbuf _ _ _ _ _ _ _ _ _ _ H).
  - done.
  - intros x o Ho Hb. rewrite lookup_insert_ne; [done|]. intros <-. rewrite Ha in Ho.
    injection Ho as <-. by destruct Hb.
  - destruct (fx_idle _ _ _ _ _ (fp_ctx _ _ _ _ _ _ _ _ _ _ H)) as [?|(t & Ht & _)]; [by left|right].
    apply lookup_insert_ne. intros E. by rewrite E, Ht in Ha.
  - intros x. destruct (decide (x = a)) as [->|]; [by left|right]. by apply lookup_insert_ne.
Qed.

(** ** [bmap] *)

(** what [bmap] may do: give block [bn] of the file, or report a full disk *)
Definition mapped (v : Z -> option (list Z)) (dd : inode_data) (m : outer) (bn : Z) (E : list Z)
    (Q : Z -> kst -> Prop) : Prop :=
  (forall s' bls' v' dd', fgrown v dd v' dd' -> faddr v' dd' bn <> 0 ->
     bls' ⊆ b0 ++ bitmap_blocks sb ++ inds dd' ++ faddr v' dd' bn :: E ->
     fstep s' bls' v' [] (set_o_page a (PInode dd') m) -> Q (faddr v' dd' bn) s') /\
  (forall s' bls' v' dd' d, fgrown v dd v' dd' -> disk_full v' -> bls' ⊆ b0 ++ bitmap_blocks sb ++ inds dd' ++ E ->
     fstep s' bls' v' [] (set_o_dev d (set_o_page a (PInode dd') m)) -> Q 0 s').

Lemma mapped_grown v dd v' dd' m bn E Q :
  fgrown v dd v' dd' -> mapped v dd m bn E Q -> mapped v' dd' (set_o_page a (PInode dd') m) bn E Q.
Proof using All.
  intros G [M1 M2]. split.
  - intros s' bls' v2 d2 G2. rewrite set_o_page_twice. apply M1. by eapply fgrown_trans.
  - intros s' bls' v2 d2 d G2. rewrite set_o_page_twice. apply M2. by eapply fgrown_trans.
Qed.

Lemma wp_bmap_direct s bls v m dd bn E Q :
  fstep s bls v [] m -> o_heap m !! a = Some (PInode dd) -> file_ok v dd -> space v ->
  0 <= bn < NDIRECT -> faddr v dd bn = 0 -> echo_ready 66 (o_dev m) ->
  bls ⊆ b0 ++ bitmap_blocks sb ++ inds dd ++ E ->
  (length (bitmap_blocks sb ++ inds dd ++ E) <= K)%nat -> mapped v dd m bn E Q ->
  wp (x ← balloc ROOTDEV; if x =? 0 then mret 0 else
      upd_inode_data a (set_d_addrs <[Z.to_nat bn := x]>);; mret x) s Q.
Proof using All.
  intros H Hm HF HS Hbn Hz Hecho Hsub Hroom [M1 M2]. apply wp_bind.
  eapply wp_balloc_in; [exact H|done|by intros x Hx%elem_of_nil|simpl; lia|exact Hsub|done|done| |].
  - intros s1 d Hfull H1. rewrite Z.eqb_refl. apply wp_ret. eapply M2; [by apply fgrown_refl|done|done|].
    by rewrite (set_o_page_id a) by done.
  - intros s1 bls1 b Hb Hu Hbls H1. rewrite (proj2 (Z.eqb_neq b 0)) by lia.
    destruct (grown_direct start s0 sb v dd b HS HF Hb Hu bn Hbn Hz) as (G & Ef & Ei).
    apply wp_bind. eapply wp_upd_inode_fs; [exact H1|done|]. intros s2 H2. apply wp_ret.
    rewrite <- Ef at 1. eapply M1; [exact G| | |exact H2]; rewrite Ef; [lia|].
    unfold inds in *. rewrite Ei. eapply logged_more; [exact Hsub|]. intros y Hy. destruct (Hbls y Hy) as [?|[?|?]]; auto.
Qed.

(** the entry of the indirect block *)
Lemma wp_bmap_entry s bls v m dd bn E Q :
  fstep s bls v [] m -> o_heap m !! a = Some (PInode dd) -> file_ok v dd -> space v ->
  NDIRECT <= bn < MAXFILE -> ind_addr dd <> 0 -> echo_ready 66 (o_dev m) ->
  bls ⊆ b0 ++ bitmap_blocks sb ++ inds dd ++ E ->
  (length (bitmap_blocks sb ++ inds dd ++ E) < K)%nat -> mapped v dd m bn E Q ->
  wp (bp ← bread ROOTDEV (ind_addr dd);
      q ← bdata bp;
      bytes ← load_buf q;
      x ← (if negb (word_at bytes (bn - NDIRECT) =? 0) then mret (word_at bytes (bn - NDIRECT)) else
           x ← balloc ROOTDEV;
           when (negb (x =? 0)) (upd_buf_data q (put_word (bn - NDIRECT) x);; log_write bp);;
           mret x);
      brelse bp;; mret x) s Q.
Proof using All.
  intros H Hm HF HS Hbn Hi Hecho Hsub Hroom [M1 M2].
  pose proof (fo_ind _ _ _ _ _ HF Hi) as Hfi. destruct (fb_data _ _ _ _ _ Hfi) as (bytes & Hv & Hl).
  pose proof (fstep_budget _ _ _ _ _ _ H Hsub ltac:(lia)) as Hlen.
  assert (faddr v dd bn = word_at bytes (bn - NDIRECT)) as Ef.
  { unfold faddr. by rewrite (proj2 (Z.ltb_ge bn NDIRECT)), (proj2 (Z.eqb_neq (ind_addr dd) 0)), Hv by (done || lia). }
  apply wp_bind. eapply wp_bread_fs; [done|exact H|exact Hv|set_solver|apply Hfi|simpl; lia|].
  intros bp s1 H1. apply wp_bind. eapply wp_run; [eapply bdata_fs; [exact H1|by left]|].
  apply wp_bind. eapply wp_run; [eapply load_buf_fs; [exact H1|by left|exact Hv]|].
  destruct (word_at bytes (bn - NDIRECT) =? 0) eqn:Ew; zbool; simpl negb; cbv iota.
  2:{ apply wp_bind, wp_ret, wp_bind. eapply wp_brelse_fs; [done|exact H1|]. intros s2 H2. apply wp_ret.
      rewrite <- Ef. eapply M1; [by apply fgrown_refl|congruence| |by rewrite (set_o_page_id a)].
      by eapply logged_more; [exact Hsub|]; auto. }
  apply wp_bind, wp_bind. eapply wp_balloc_in; [exact H1|done| |simpl; lia|exact Hsub|lia|done| |].
  { intros x. rewrite fmap_cons, list_elem_of_singleton. cbn. intros ->. split; [apply Hfi|]. intros _. apply Hfi. }
  - intros s2 d Hfull H2. rewrite Z.eqb_refl. apply wp_bind, wp_ret, wp_ret, wp_bind.
    eapply wp_brelse_fs; [done|exact H2|]. intros s3 H3. apply wp_ret.
    eapply M2; [by apply fgrown_refl|done|done|]. by rewrite (set_o_page_id a).
  - intros s2 bls2 b Hb Hu Hbls H2. rewrite (proj2 (Z.eqb_neq b 0)) by lia. simpl negb. cbv iota.
    destruct (grown_entry start s0 sb v dd b HS HF Hb Hu bn bytes Hbn Hi Hv Ew) as (G & Eb).
    assert (Z.of_nat (length bls2) < LOGBLOCKS) as Hl2.
    { enough (length bls2 <= length b0 + K)%nat by lia.
      apply (fstep_budget _ _ _ _ _ (bitmap_blocks sb ++ inds dd ++ b :: E) H2).
      - eapply logged_more; [exact Hsub|]. intros y Hy. destruct (Hbls y Hy) as [?|[?|?]]; auto.
      - rewrite !length_app in *. simpl. lia. }
    assert (taken sb b v (ind_addr dd) = Some bytes) as Ht.
    { rewrite <- Hv. by apply (taken_ind start s0 sb v dd b HF). }
    unfold when. apply wp_bind. eapply wp_write_last; [done|exact H2|by left|exact Ht|apply Hfi|done|].
    intros s3 H3. apply wp_ret, wp_bind. eapply wp_brelse_fs; [done|exact H3|]. intros s4 H4. apply wp_ret.
    rewrite <- Eb at 1. eapply M1; [exact G| | |]; rewrite ?Eb; [lia| |by rewrite (set_o_page_id a)].
    eapply logged_more; [exact Hsub|]. intros y. rewrite elem_of_absorb. unfold inds.
    rewrite (proj2 (Z.eqb_neq (ind_addr dd) 0)) by done. rewrite list_elem_of_singleton.
    intros [Hy|?]; [destruct (Hbls y Hy) as [?|[?|?]]|]; auto.
Qed.

Lemma wp_bmap s bls v m dd bn E Q :
  fstep s bls v [] m -> o_heap m !! a = Some (PInode dd) -> file_ok v dd -> space v ->
  0 <= bn < MAXFILE -> echo_ready 66 (o_dev m) ->
  bls ⊆ b0 ++ bitmap_blocks sb ++ inds dd ++ E ->
  (length (bitmap_blocks sb) + 2 + length E <= K)%nat -> mapped v dd m bn E Q -> wp (bmap ip bn) s Q.
Proof using All.
  intros H Hm HF HS Hbn Hecho Hsub Hroom HM.
  assert (forall d, length (inds d) <= 1)%nat as Hin by (intros d; unfold inds; destruct (ind_addr d =? 0); simpl; lia).
  assert (forall d, length (bitmap_blocks sb ++ inds d ++ E) < K)%nat as HK
    by (intros d; rewrite !length_app; specialize (Hin d); lia).
  pose proof (fo_len _ _ _ _ _ HF) as Hlen. unfold bmap.
  apply wp_bind. eapply wp_run; [by eapply (idata_fs p pr start s0 b0)|].
  apply wp_bind. eapply wp_run; [by eapply (get_ip_fs p pr start s0 b0)|].
  apply wp_bind. eapply wp_run; [by eapply (load_inode_fs p pr start s0 b0)|]. rewrite Hdev.
  assert (forall k, (k < 13)%nat -> d_addrs dd !! k = Some (nth k (d_addrs dd) 0)) as Hnth.
  { intros k Hk. destruct (lookup_lt_is_Some_2 (d_addrs dd) k) as [x Hx]; [lia|].
    by rewrite (nth_lookup_Some _ _ _ _ Hx). }
  destruct (bn <? NDIRECT) eqn:En; zbool.
  - apply wp_bind. eapply wp_deref; [apply Hnth; unfold NDIRECT in En; lia|].
    assert (faddr v dd bn = nth (Z.to_nat bn) (d_addrs dd) 0) as Ef
      by (unfold faddr; by rewrite (proj2 (Z.ltb_lt bn NDIRECT))).
    rewrite <- Ef. destruct (faddr v dd bn =? 0) eqn:Ez; zbool; simpl negb; cbv iota.
    + eapply wp_bmap_direct; [exact H|done|done|done|lia|done|done|exact Hsub| |done]. specialize (HK dd). lia.
    + apply wp_ret. eapply HM; [by apply fgrown_refl|done| |by rewrite (set_o_page_id a)].
      by eapply logged_more; [exact Hsub|]; auto.
  - rewrite (proj2 (Z.ltb_lt (bn - NDIRECT) NINDIRECT)) by (unfold MAXFILE in Hbn; lia).
    apply wp_bind. eapply wp_deref; [apply Hnth; unfold NDIRECT; lia|]. fold (ind_addr dd).
    destruct (ind_addr dd =? 0) eqn:Ei; zbool; simpl negb; cbv iota.
    + apply wp_bind, wp_bind. eapply wp_balloc_in; [exact H|done|by intros x Hx%elem_of_nil|simpl; lia|exact Hsub|by specialize (HK dd); lia|done| |].
      * intros s1 d Hfull H1. apply wp_bind, wp_ret, wp_ret. rewrite Z.eqb_refl. apply wp_ret.
        eapply HM; [by apply fgrown_refl|done|done|]. by rewrite (set_o_page_id a).
      * intros s1 bls1 b Hb Hu Hbls H1. rewrite (proj2 (Z.eqb_neq b 0)) by lia. simpl negb. cbv iota.
        destruct (grown_indirect start s0 sb v dd b HS HF Hb Hu Ei) as (G & Eb & Hz).
        unfold when. apply wp_bind. eapply wp_upd_inode_fs; [exact H1|done|]. intros s2 H2.
        apply wp_ret. rewrite (proj2 (Z.eqb_neq b 0)) by lia.
        set (dd' := set_d_addrs _ dd) in *. rewrite <- Eb.
        eapply wp_bmap_entry; [exact H2| |by apply G|by apply G|lia|lia|done| |by apply HK|by eapply mapped_grown].
        { by apply lookup_insert_eq. }
        unfold inds. rewrite Eb, (proj2 (Z.eqb_neq b 0)) by lia.
        unfold inds in Hsub. rewrite Ei in Hsub. by eapply logged_ind.
    + apply wp_bind, wp_ret. rewrite (proj2 (Z.eqb_neq (ind_addr dd) 0)) by done.
      eapply wp_bmap_entry; [exact H|done|done|done|lia|done|done|exact Hsub|apply HK|done].
Qed.

(** ** [writei] *)

Let ib : Z := IBLOCK (i_inum ii) sb.

(** the block of the inode *)
Record inode_block (v : Z -> option (list Z)) (dd : inode_data) (ibytes : list Z) : Prop := {
  ib_foreign : foreign sb v dd ib;
  ib_bytes : v ib = Some ibytes;
  ib_len : Z.of_nat (length ibytes) = BSIZE;
  ib_log : loggable start (k_disk s0) ib;
  ib_free : blocked s0 ib = None;
}.

(** the first [r] bytes of [data] are in the file, and the inode is in its block *)
Record written (off : Z) (data ibytes : list Z) (v : Z -> option (list Z)) (dd : inode_data)
    (v' : Z -> option (list Z)) (dd' : inode_data) (r : Z) : Prop := {
  wn_space : space v';
  wn_ok : file_ok v' dd';
  wn_meta : dd' = set_d_size (fun _ => Z.max (d_size dd) (off + r)) (set_d_addrs (fun _ => d_addrs dd') dd);
  wn_new : fslice v' dd' off r = slice 0 (Z.to_nat r) data;
  wn_old : forall i, 0 <= i < d_size dd -> ~ off <= i < off + r -> fbyte v' dd' i = fbyte v dd i;
  wn_inode : v' ib = Some (splice (dinode_off (i_inum ii)) (encode_dinode dd') ibytes);
  wn_foreign : forall x, foreign sb v dd x -> x <> ib -> v' x = v x;
  wn_used : forall x, 0 <= x < sb_size sb -> used sb v x = true -> used sb v' x = true;
}.

Lemma wrote_done off data ibytes v dd v1 dd1 tot :
  let dd2 := set_d_size (fun _ => Z.max (d_size dd) (off + tot)) dd1 in
  0 <= off -> 0 <= tot -> off + tot <= MAXFILE * BSIZE -> inode_block v dd ibytes ->
  wrote start s0 sb off data v dd v1 dd1 tot ->
  written off data ibytes v dd (vset ib (splice (dinode_off (i_inum ii)) (encode_dinode dd2) ibytes) v1) dd2 tot.
Proof using All.
  intros dd2 Hoff Htot Hmax [I1 I2 I3 I4 I5] [W1 W2 W3 W4 W5 W6 W7 W8].
  destruct (W7 _ I1) as [[J1 J2 J3 J4] Jv].
  assert (d_size dd1 = d_size dd) as Hd by (rewrite W3; by destruct dd).
  assert (file_ok v1 dd2) as HF.
  { pose proof (fo_size _ _ _ _ _ W2). apply file_ok_size; [done|lia|]. intros bn Hbn Hlt.
    destruct (decide (bn * BSIZE < off + tot)); [auto|]. apply (fo_alloc _ _ _ _ _ W2); lia. }
  set (ibytes' := splice _ _ ibytes).
  assert (Z.of_nat (length ibytes') = BSIZE) as Hl.
  { unfold ibytes'. pose proof (dinode_fits (i_inum ii)). rewrite length_splice; [done|].
    rewrite length_encode_dinode by (apply HF). lia. }
  destruct (file_ok_vset start s0 sb v1 dd2 ib ibytes' HF J4) as [HF2 Hf]; [by destruct dd1|done|].
  assert (forall i, 0 <= i < MAXFILE * BSIZE -> faddr v1 dd1 (i / BSIZE) <> 0 ->
    fbyte (vset ib ibytes' v1) dd2 i = fbyte v1 dd1 i) as Hb.
  { intros i Hi Hne. unfold fbyte. rewrite Hf. change (faddr v1 dd2 (i / BSIZE)) with (faddr v1 dd1 (i / BSIZE)).
    rewrite vset_ne; [done|]. intros E. apply Hne. rewrite E. apply (J3 (i / BSIZE)); [|done].
    split; [apply Z.div_pos; [lia|done]|apply Z.div_lt_upper_bound; [done|lia]]. }
  split; try done.
  - by apply space_vset.
  - unfold dd2. rewrite W3 at 1. by destruct dd.
  - rewrite <- W4. apply map_ext_in. intros i [Hi1 Hi2]%list_elem_of_In%elem_of_seqZ.
    destruct (block_start i ltac:(lia)). apply Hb; [lia|]. apply W5; lia.
  - intros i Hi Hn. rewrite <- W6 by done. destruct (block_start i ltac:(lia)).
    pose proof (fo_size _ _ _ _ _ W2). apply Hb; [lia|]. apply (fo_alloc _ _ _ _ _ W2); lia.
  - apply vset_eq.
  - intros x Hx Hne. rewrite vset_ne by done. by apply W7.
  - intros x Hr Hu. rewrite (used_ext sb v1); [auto|done|]. intros d Hd'. apply vset_ne. by apply J4.
Qed.

Lemma wp_iupdate s bls v m dd bytes (Q : unit -> kst -> Prop) :
  fstep s bls v [] m -> o_heap m !! a = Some (PInode dd) ->
  v ib = Some bytes -> loggable start (k_disk s0) ib -> blocked s0 ib = None ->
  Z.of_nat (length bls) < LOGBLOCKS -> (length bls < nfree s0 + length b0)%nat ->
  (forall s', fstep s' (absorb bls ib) (vset ib (splice (dinode_off (i_inum ii)) (encode_dinode dd) bytes) v) [] m ->
     Q tt s') -> wp (iupdate ip) s Q.
Proof using All.
  intros H Hm Hv Hl Hb Hlog Hroom HQ. unfold iupdate.
  apply wp_bind. eapply wp_run; [eapply fstep_no_tx; exact H|]. cbv iota.
  apply wp_bind, wp_gets. rewrite (fstep_sb p pr start s0 b0 sb Hsb _ _ _ _ _ H).
  apply wp_bind. eapply wp_run; [by eapply (get_ip_fs p pr start s0 b0)|]. rewrite Hdev. fold ib.
  apply wp_bind. eapply wp_bread_fs; [done|exact H|exact Hv|set_solver|done|simpl; lia|]. intros bp s1 H1.
  apply wp_bind. eapply wp_run; [by eapply (load_inode_fs p pr start s0 b0)|].
  eapply wp_bind_eq; [eapply bdata_upd_fs; [exact H1|by left]|].
  eapply wp_write_fs; [done|exact H1|by left|exact Hv|done|done|]. intros s2 H2.
  eapply wp_brelse_fs; [done|exact H2|]. done.
Qed.

(** the end of [writei]: the size and the inode *)
Lemma wp_writei_end s bls v v1 m dd dd1 d off data ibytes tot (Q : Z -> kst -> Prop) :
  fstep s bls v1 [] (set_o_dev d (set_o_page a (PInode dd1) m)) ->
  inode_block v dd ibytes -> wrote start s0 sb off data v dd v1 dd1 tot ->
  0 <= off -> 0 <= tot -> off + tot <= MAXFILE * BSIZE -> (length bls <= length b0 + K)%nat ->
  (forall s' bls' v' dd', written off data ibytes v dd v' dd' tot ->
     (forall b, 0 <= b < sb_size sb -> used sb v1 b = true -> used sb v' b = true) ->
     (length bls' <= length b0 + K + 1)%nat ->
     fstep s' bls' v' [] (set_o_dev d (set_o_page a (PInode dd') m)) -> Q tot s') ->
  wp (dd ← load_inode a;
      when (d_size dd <? off + tot) (upd_inode_data a (set_d_size (fun _ => off + tot)));;
      iupdate ip;; mret (s32 tot)) s Q.
Proof using All.
  intros H HI HW Hoff Htot Hmax Hlen HQ.
  assert (o_heap (set_o_dev d (set_o_page a (PInode dd1) m)) !! a = Some (PInode dd1)) as Hm
    by apply lookup_insert_eq.
  assert (d_size dd1 = d_size dd) as Hd by (rewrite (wr_meta _ _ _ _ _ _ _ _ _ _ HW); by destruct dd).
  apply wp_bind. eapply wp_run; [by eapply (load_inode_fs p pr start s0 b0)|].
  set (dd2 := set_d_size (fun _ => Z.max (d_size dd) (off + tot)) dd1). apply wp_bind.
  assert (forall s1, fstep s1 bls v1 [] (set_o_dev d (set_o_page a (PInode dd2) m)) ->
    wp (iupdate ip;; mret (s32 tot)) s1 Q) as Hend.
  { intros s1 H1. destruct (wr_foreign _ _ _ _ _ _ _ _ _ _ HW _ (ib_foreign _ _ _ HI)) as [J Jv].
    apply wp_bind. eapply wp_iupdate; [exact H1|by apply lookup_insert_eq| |by apply HI|by apply HI|lia|lia|].
    { rewrite Jv. apply HI. }
    intros s2 H2. apply wp_ret. change (MAXFILE * BSIZE) with 274432 in Hmax. rewrite swrap_small by lia.
    eapply HQ; [by apply wrote_done| | |exact H2].
    - intros b Hb Hu. rewrite (used_ext sb v1); [done|done|]. intros b' Hb'. apply vset_ne. by apply J.
    - pose proof (absorb_length bls ib). lia. }
  unfold when. destruct (d_size dd1 <? off + tot) eqn:E; zbool.
  - eapply wp_upd_inode_fs; [exact H|exact Hm|]. intros s1 H1. apply Hend.
    replace dd2 with (set_d_size (fun _ => off + tot) dd1); [|unfold dd2; by rewrite Z.max_r by lia].
    unfold set_o_page, set_o_dev in *. cbn in H1. by rewrite insert_insert_eq in H1.
  - apply wp_ret, Hend. replace dd2 with dd1; [done|]. unfold dd2. rewrite Z.max_l, <- Hd by lia. by destruct dd1.
Qed.

(** the state after [tot] bytes *)
Record writing (off n : Z) (data : list Z) (v : Z -> option (list Z)) (dd : inode_data) (m : outer)
    (has : gmap Z pobj -> list Z -> Prop) (tot : Z) (s : kst) : Prop := {
  wg_range : 0 <= tot <= n;
  wg_state : exists bls v1 dd1 E,
    fstep s bls v1 [] (set_o_page a (PInode dd1) m) /\ wrote start s0 sb off data v dd v1 dd1 tot /\
    bls ⊆ b0 ++ bitmap_blocks sb ++ inds dd1 ++ E /\
    Z.of_nat (length E) <= (off + n - 1) / BSIZE - off / BSIZE + 1 /\
    (tot < n -> Z.of_nat (length E) <= (off + tot) / BSIZE - off / BSIZE);
  wg_has : has (k_heap s) (k_kbuf s);
}.

(** one round: a block of the file is found or taken, and written *)
Lemma wp_writei_round off n data v dd m has src tot s (Q : Z * Z * kaddr + Z * Z -> kst -> Prop) :
  let k := Z.min (n - tot) (BSIZE - (off + tot) mod BSIZE) in
  o_heap m !! a = Some (PInode dd) -> 0 <= off -> n = Z.of_nat (length data) -> off + n <= MAXFILE * BSIZE ->
  Source p pr src data has -> echo_ready 66 (o_dev m) ->
  Z.of_nat (length (bitmap_blocks sb)) + ((off + n - 1) / BSIZE - off / BSIZE) + 2 <= Z.of_nat K ->
  writing off n data v dd m has tot s -> tot < n ->
  (forall s', writing off n data v dd m has (tot + k) s' ->
     Q (inl (tot + k, off + tot + k, kaddr_add (kaddr_add src tot) k)) s') ->
  (forall s' bls v1 dd1 d, fstep s' bls v1 [] (set_o_dev d (set_o_page a (PInode dd1) m)) ->
     wrote start s0 sb off data v dd v1 dd1 tot -> (length bls <= length b0 + K)%nat -> disk_full v1 ->
     Q (inr (tot, off + tot)) s') ->
  wp (addr ← bmap ip ((off + tot) / BSIZE);
      if addr =? 0 then mret (inr (tot, off + tot)) else
      ii ← get_ip ip;
      bp ← bread (i_dev ii) addr;
      let m := Z.min (n - tot) (BSIZE - (off + tot) mod BSIZE) in
      q ← bdata bp;
      c ← either_copyin (kaddr_add src tot) m;
      upd_buf_data q (splice (Z.to_nat ((off + tot) mod BSIZE)) c.1);;
      if c.2 =? -1 then brelse bp;; mret (inr (tot, off + tot)) else
      log_write bp;;
      brelse bp;;
      mret (inl (tot + m, off + tot + m, kaddr_add (kaddr_add src tot) m))) s Q.
Proof using All.
  intros k Hm Hoff Hn Hmax HSrc Hecho HK [Htot (bls & v1 & dd1 & E & H & HW & Hsub & HE1 & HE2) Hhas] Hlt Hnext Hstop.
  destruct (block_step off n tot Hoff ltac:(lia)) as (K1 & K2 & K3 & K4 & K5). fold k in K1, K2, K3, K5.
  pose proof (HE2 Hlt) as HE. assert (0 <= (off + tot) / BSIZE < MAXFILE) as Hbn.
  { split; [apply Z.div_pos; [lia|done]|apply Z.div_lt_upper_bound; [done|lia]]. }
  apply wp_bind. eapply wp_bmap; [exact H|by apply lookup_insert_eq|by apply HW|by apply HW|done|done|exact Hsub|lia|].
  assert (forall dd2, length (inds dd2) <= 1)%nat as Hi
    by (intros dd2; unfold inds; destruct (ind_addr dd2 =? 0); simpl; lia).
  split.
  2:{ intros s1 bls1 v2 dd2 d G Hfull Hsub2 H1. rewrite set_o_page_twice in H1. rewrite Z.eqb_refl. apply wp_ret.
      eapply Hstop; [exact H1|eapply wrote_grown; [..|exact HW|exact G]; lia| |done].
      apply (fstep_budget _ _ _ _ _ _ H1 Hsub2). rewrite !length_app. specialize (Hi dd2). lia. }
  intros s1 bls1 v2 dd2 G Hne Hsub2 H1. rewrite set_o_page_twice in H1.
  assert (wrote start s0 sb off data v dd v2 dd2 tot) as HW2 by (eapply wrote_grown; [..|exact HW|exact G]; lia).
  destruct (fo_blk _ _ _ _ _ (wr_ok _ _ _ _ _ _ _ _ _ _ HW2) _ Hbn Hne) as [Hfb _].
  set (x := faddr v2 dd2 ((off + tot) / BSIZE)) in *. destruct (fb_data _ _ _ _ _ Hfb) as (bytes & Hv & Hl).
  assert (length bls1 <= length b0 + K)%nat as Hlen.
  { apply (fstep_budget _ _ _ _ _ _ H1 Hsub2). rewrite !length_app. simpl. specialize (Hi dd2). lia. }
  rewrite (proj2 (Z.eqb_neq x 0)) by done. apply wp_bind. eapply wp_run; [by eapply (get_ip_fs p pr start s0 b0)|].
  rewrite Hdev. apply wp_bind. eapply wp_bread_fs; [done|exact H1|exact Hv|set_solver|apply Hfb|simpl; lia|].
  intros bp s2 H2. cbv zeta. fold k. apply wp_bind. eapply wp_run; [eapply bdata_fs; [exact H2|by left]|].
  assert (has (k_heap s2) (k_kbuf s2)) as Hhas2.
  { rewrite (fp_kbuf _ _ _ _ _ _ _ _ _ _ H2). rewrite (fp_kbuf _ _ _ _ _ _ _ _ _ _ H) in Hhas.
    eapply source_proper; [|exact Hhas]. eapply (fstep_umem p pr start s0 b0 Hum); [|exact H|exact H2].
    cbn. etrans; [symmetry|]; by eapply umem_page. }
  apply wp_bind. eapply wp_run.
  { pose proof (source_get s2 (Z.to_nat tot) (Z.to_nat k) (fx_running _ _ _ _ _ (fp_ctx _ _ _ _ _ _ _ _ _ _ H2)) Hhas2) as Hg.
    rewrite !Z2Nat.id in Hg by lia. apply Hg; lia. }
  cbn [fst snd]. change (0 =? -1) with false. cbv iota.
  eapply wp_write_fs; [done|exact H2|by left|exact Hv|apply Hfb|lia|]. intros s3 H3.
  apply wp_bind. eapply wp_brelse_fs; [done|exact H3|]. intros s4 H4. apply wp_ret, Hnext.
  split; [lia| |].
  - exists (absorb bls1 x), (vset x (splice (Z.to_nat ((off + tot) mod BSIZE)) (slice (Z.to_nat tot) (Z.to_nat k) data) bytes) v2), dd2, (x :: E).
    split_and!; [exact H4| | |simpl length; lia|intros Hk; rewrite K5 by done; simpl length; lia].
    + apply wrote_block; (done || lia).
    + intros y. rewrite elem_of_absorb. intros [Hy| ->]; [by apply Hsub2|]. rewrite !elem_of_app, elem_of_cons. auto.
  - rewrite (fp_kbuf _ _ _ _ _ _ _ _ _ _ H4), <- (fp_kbuf _ _ _ _ _ _ _ _ _ _ H2).
    eapply source_proper; [|exact Hhas2]. by eapply (fstep_umem p pr start s0 b0 Hum); [|exact H2|exact H4].
Qed.

Lemma wp_writei s v m dd src off data ibytes has (Q : Z -> kst -> Prop) :
  let n := Z.of_nat (length data) in
  fstep s b0 v [] m -> o_heap m !! a = Some (PInode dd) -> file_ok v dd -> space v -> inode_block v dd ibytes ->
  0 <= off -> off <= d_size dd -> off + n <= MAXFILE * BSIZE ->
  Source p pr src data has -> has (k_heap s) (k_kbuf s) -> echo_ready 66 (o_dev m) ->
  Z.of_nat (length (bitmap_blocks sb)) + ((off + n - 1) / BSIZE - off / BSIZE) + 2 <= Z.of_nat K ->
  (forall r s' bls' v' dd' d, 0 <= r <= n -> r = n \/ disk_full v' -> written off data ibytes v dd v' dd' r ->
     (length bls' <= length b0 + K + 1)%nat ->
     fstep s' bls' v' [] (set_o_dev d (set_o_page a (PInode dd') m)) -> Q r s') ->
  wp (writei ip src off n) s Q.
Proof using All.
  intros n H Hm HF HS HI Hoff Hsize Hmax HSrc Hhas Hecho HK HQ. unfold writei.
  assert (0 <= n) as Hn by (unfold n; lia).
  apply wp_bind. eapply wp_run; [by eapply (idata_fs p pr start s0 b0)|].
  apply wp_bind. eapply wp_run; [by eapply (load_inode_fs p pr start s0 b0)|].
  assert (off + n < 2 ^ 32) as H32 by (change (MAXFILE * BSIZE) with 274432 in Hmax; lia).
  rewrite (wrap_small 32), (proj2 (Z.ltb_ge (d_size dd) off)), (proj2 (Z.ltb_ge (off + n) off)) by lia.
  cbn [orb]. rewrite (proj2 (Z.ltb_ge (MAXFILE * BSIZE) (off + n))) by lia. apply wp_bind.
  apply (wp_loop _ (fun x : Z * Z * kaddr => Z.to_nat (n - x.1.1)) (fun x s1 => exists tot,
    x = (tot, off + tot, kaddr_add src tot) /\ writing off n data v dd m has tot s1)).
  { exists 0. rewrite source_start, Z.add_0_r. split; [done|]. split; [lia| |done].
    exists b0, v, dd, []. rewrite (set_o_page_id a) by done.
    split_and!; [done|by apply wrote_start|set_solver| |rewrite Z.add_0_r; simpl; lia].
    simpl. pose proof (Z.div_le_mono (off - BSIZE) (off + n - 1) BSIZE ltac:(done) ltac:(unfold BSIZE; lia)) as Hd.
    replace (off - BSIZE) with (off + -1 * BSIZE) in Hd by lia. rewrite Z.div_add in Hd by done. lia. }
  { simpl. lia. }
  intros x s1 (tot & -> & HG). cbv beta iota. pose proof (wg_range _ _ _ _ _ _ _ _ _ HG) as Htot.
  destruct (tot <? n) eqn:Et; zbool.
  - eapply wp_writei_round; try done.
    + intros s2 HG2. destruct (block_step off n tot Hoff ltac:(lia)) as (K1 & _).
      split; [|simpl; lia]. eexists. split; [|exact HG2]. rewrite kaddr_add_add. by rewrite Z.add_assoc.
    + intros s2 bls v1 dd1 d H2 HW Hlen Hfull.
      cbn [fst snd]. eapply (wp_writei_end s2 bls v v1 m dd dd1 d off data);
        [exact H2|done|done|lia|lia|lia|done|].
      intros s3 bls3 v3 dd3 HN Hu Hl3 H3. eapply HQ; [lia| |exact HN|exact Hl3|exact H3].
      right. intros b Hb. apply Hu; auto.
  - apply wp_ret. assert (tot = n) as -> by lia.
    destruct HG as [_ (bls & v1 & dd1 & E & H1 & HW & Hsub & HE1 & _) _].
    cbn [fst snd]. eapply (wp_writei_end s1 bls v v1 m dd dd1 (o_dev m) off data); [exact H1|done|done|lia|lia|lia| |].
    + apply (fstep_budget _ _ _ _ _ _ H1 Hsub). rewrite !length_app.
      assert (length (inds dd1) <= 1)%nat by (unfold inds; destruct (ind_addr dd1 =? 0); simpl; lia). lia.
    + intros s3 bls3 v3 dd3 HN _ Hl3 H3. eapply HQ; [lia|by left|exact HN|exact Hl3|exact H3].
Qed.

End Write.
