(* ===== verification/File.v ===== *)
(** * Open files and pipes ([file.c], [pipe.c])

    [struct file *] is an index of [k_ftable]; a pipe is a heap page. *)

From S2P Require Import Prelude Monad CString Types Kernel Kalloc Vm Uart Printf Console Bio Log Tx FsBlock Inode Dir.
From stdpp Require Import base numbers list gmap strings.
From Stdlib Require Import ZArith Lia.

Open Scope Z_scope.

Definition get_file (f : nat) : K file := deref (fun s => k_ftable s !! f).
Definition upd_file (f : nat) (g : file -> file) : K unit := modify (set_k_ftable (alter g f)).

Definition as_pipe (o : pobj) : option pipe := match o with PPipe p => Some p | _ => None end.
Definition load_pipe (a : Z) : K pipe := deref (fun s => k_heap s !! a ≫= as_pipe).
Definition upd_pipe (a : Z) (g : pipe -> pipe) : K unit := p ← load_pipe a; store a (PPipe (g p)).

(** ** The file table *)

Definition filealloc : K (option nat) :=
  acquire Lftable;;
  r ← for_find (seq 0 NFILE) (fun i =>
    f ← get_file i;
    if f_ref f =? 0 then
      upd_file i (set_f_ref (fun _ => 1));;
      release Lftable;;
      mret (Some i)
    else mret None);
  match r with
  | Some i => mret (Some i)
  | None => release Lftable;; mret None
  end.

Definition filedup (f : nat) : K nat :=
  acquire Lftable;;
  ff ← get_file f;
  if f_ref ff <? 1 then panic "filedup" else
  upd_file f (set_f_ref (fun n => n + 1));;
  release Lftable;;
  mret f.

(** ** Pipes *)

Section File.
Context {L : Layout}.

Definition pipeclose (pi : Z) (writable : bool) : K unit :=
  acquire (Lpipe pi);;
  (if writable then
     upd_pipe pi (set_pi_writeopen (fun _ => false));;
     wakeup (ChPipeRead pi)
   else
     upd_pipe pi (set_pi_readopen (fun _ => false));;
     wakeup (ChPipeWrite pi));;
  p ← load_pipe pi;
  if negb (pi_readopen p) && negb (pi_writeopen p) then
    release (Lpipe pi);;
    kfree pi
  else release (Lpipe pi).

(** every turn of the loop copies a byte or follows a wakeup *)
Definition pipewrite (pi addr n : Z) : K Z :=
  p ← myproc;
  pr ← get_proc p;
  acquire (Lpipe pi);;
  r ← loop (S (Z.to_nat n + WAKEUPS)) (fun i =>
    if i <? n then
      q ← load_pipe pi;
      k ← (if negb (pi_readopen q) then mret true else killed p);
      if (k : bool) then release (Lpipe pi);; mret (inr None) else
      if pi_nwrite q =? u32 (pi_nread q + PIPESIZE) then
        wakeup (ChPipeRead pi);;
        sleep (ChPipeWrite pi) (Lpipe pi);;
        mret (inl i)
      else
        c ← copyin (p_pagetable pr) (u64 (addr + i)) 1;
        if c.2 =? -1 then mret (inr (Some i)) else
        upd_pipe pi (fun q =>
          set_pi_nwrite (fun w => u32 (w + 1))
            (set_pi_data <[Z.to_nat (pi_nwrite q mod PIPESIZE) := ch c.1]> q));;
        mret (inl (i + 1))
    else mret (inr (Some i))) 0;
  match r with
  | None => mret (-1)
  | Some i => wakeup (ChPipeRead pi);; release (Lpipe pi);; mret i
  end.

(** the wait loop of [piperead]; [false] when the process was killed *)
Definition piperead_wait (pi : Z) (p : nat) : K bool :=
  loop WAKEUPS (fun _ : unit =>
    q ← load_pipe pi;
    if (pi_nread q =? pi_nwrite q) && pi_writeopen q then
      k ← killed p;
      if (k : bool) then release (Lpipe pi);; mret (inr false)
      else sleep (ChPipeRead pi) (Lpipe pi);; mret (inl tt)
    else mret (inr true)) tt.

Definition piperead (pi addr n : Z) : K Z :=
  p ← myproc;
  pr ← get_proc p;
  acquire (Lpipe pi);;
  ok ← piperead_wait pi p;
  if negb ok then mret (-1) else
  i ← loop (S (Z.to_nat n)) (fun i =>
    if i <? n then
      q ← load_pipe pi;
      if pi_nread q =? pi_nwrite q then mret (inr i) else
      c ← deref (fun _ => pi_data q !! Z.to_nat (pi_nread q mod PIPESIZE));
      r ← copyout (p_pagetable pr) (u64 (addr + i)) [c];
      if r =? -1 then mret (inr (if i =? 0 then -1 else i)) else
      upd_pipe pi (set_pi_nread (fun x => u32 (x + 1)));;
      mret (inl (i + 1))
    else mret (inr i)) 0;
  wakeup (ChPipeWrite pi);;
  release (Lpipe pi);;
  mret i.

(** ** Closing *)

Definition fileclose (f : nat) : K unit :=
  acquire Lftable;;
  ff ← get_file f;
  if f_ref ff <? 1 then panic "fileclose" else
  upd_file f (set_f_ref (fun n => n - 1));;
  if 0 <? f_ref ff - 1 then release Lftable else
  ff ← get_file f;
  upd_file f (fun g => set_f_type (fun _ => FD_NONE) (set_f_ref (fun _ => 0) g));;
  release Lftable;;
  match f_type ff with
  | FD_PIPE => pipeclose (f_pipe ff) (f_writable ff)
  | FD_INODE | FD_DEVICE =>
      begin_op;;
      ip ← deref (fun _ => f_ip ff);
      iput ip;;
      end_op
  | FD_NONE => mret tt
  end.

(** a page [kalloc] has filled with 5s becomes a pipe; [data] is not initialised *)
Definition new_pipe : pipe := Mk_pipe (replicate (Z.to_nat PIPESIZE) 5) 0 0 true true.

Definition close_opt (f : option nat) : K unit :=
  match f with Some f => fileclose f | None => mret tt end.

Definition pipealloc : K (option (nat * nat)) :=
  f0 ← filealloc;
  f1 ← (match f0 with None => mret None | Some _ => filealloc end);
  match f0, f1 with
  | Some g0, Some g1 =>
      pi ← kalloc;
      if pi =? 0 then close_opt f0;; close_opt f1;; mret None else
      store pi (PPipe new_pipe);;
      upd_file g0 (fun g => set_f_pipe (fun _ => pi) (set_f_writable (fun _ => false)
        (set_f_readable (fun _ => true) (set_f_type (fun _ => FD_PIPE) g))));;
      upd_file g1 (fun g => set_f_pipe (fun _ => pi) (set_f_writable (fun _ => true)
        (set_f_readable (fun _ => false) (set_f_type (fun _ => FD_PIPE) g))));;
      mret (Some (g0, g1))
  | _, _ => close_opt f0;; close_opt f1;; mret None
  end.

(** ** Reading and writing *)

(** [struct stat] as it is in memory: 4 bytes of padding before [size] *)
Definition encode_stat (st : stat) : list Z :=
  le_bytes 4 (st_dev st) ++ le_bytes 4 (st_ino st) ++ le_bytes 2 (st_type st) ++
  le_bytes 2 (st_nlink st) ++ replicate 4 0 ++ le_bytes 8 (st_size st).

Definition filestat (f : nat) (addr : Z) : K Z :=
  p ← myproc;
  pr ← get_proc p;
  ff ← get_file f;
  match f_type ff with
  | FD_INODE | FD_DEVICE =>
      ip ← deref (fun _ => f_ip ff);
      ilock ip;;
      st ← stati ip;
      iunlock ip;;
      r ← copyout (p_pagetable pr) addr (encode_stat st);
      mret (if r <? 0 then -1 else 0)
  | _ => mret (-1)
  end.

Definition fileread (f : nat) (addr n : Z) : K Z :=
  ff ← get_file f;
  if negb (f_readable ff) then mret (-1) else
  match f_type ff with
  | FD_PIPE => piperead (f_pipe ff) addr n
  | FD_DEVICE =>
      if (f_major ff <? 0) || (NDEV <=? f_major ff) then mret (-1) else
      match devsw_read (f_major ff) with
      | None => mret (-1)
      | Some read => read (AUser addr) n
      end
  | FD_INODE =>
      ip ← deref (fun _ => f_ip ff);
      ilock ip;;
      g ← get_file f;
      r ← readi ip (AUser addr) (f_off g) (u32 n);
      when (0 <? r) (upd_file f (set_f_off (fun off => u32 (off + r))));;
      iunlock ip;;
      mret r
  | FD_NONE => panic "fileread"
  end.

(** at most this many bytes in one operation *)
Definition WRITE_MAX : Z := ((MAXOPBLOCKS - 1 - 1 - 2) / 2) * BSIZE.

Definition filewrite (f : nat) (addr n : Z) : K Z :=
  ff ← get_file f;
  if negb (f_writable ff) then mret (-1) else
  match f_type ff with
  | FD_PIPE => pipewrite (f_pipe ff) addr n
  | FD_DEVICE =>
      if (f_major ff <? 0) || (NDEV <=? f_major ff) then mret (-1) else
      match devsw_write (f_major ff) with
      | None => mret (-1)
      | Some write => write (AUser addr) n
      end
  | FD_INODE =>
      i ← loop (S (Z.to_nat n)) (fun i =>
        if i <? n then
          let n1 := Z.min (n - i) WRITE_MAX in
          begin_op;;
          ip ← deref (fun _ => f_ip ff);
          ilock ip;;
          g ← get_file f;
          r ← writei ip (AUser (u64 (addr + i))) (f_off g) n1;
          when (0 <? r) (upd_file f (set_f_off (fun off => u32 (off + r))));;
          iunlock ip;;
          end_op;;
          if negb (r =? n1) then mret (inr i) else mret (inl (i + r))
        else mret (inr i)) 0;
      mret (if i =? n then n else -1)
  | FD_NONE => panic "filewrite"
  end.

End File.
