(* ===== verification/FileProps.v ===== *)
(** * What the operations of fs.c on blocks and files promise

    [balloc] and [bfree] on the bitmap, [readi] and [writei] on an open file,
    stated on the states before and after, and the two composed: what has been
    written is read back. *)

From S2P Require Import Prelude Monad CString Types Kernel Kalloc Vm VmFacts UserMem Transfer Uart Printf Echo Bio Lru BioFacts Log LogFacts LogCrash LogOps Tx FsBlock FsCtx Bitmap Inode FileData FileGrow Dir DirFacts FileWrite File.
From stdpp Require Import base numbers list gmap strings.
From Stdlib Require Import ZArith Lia.

Open Scope Z_scope.

(** ** Views that agree *)

Section Agree.
Context (start : Z) (s s' : kst) (sb : superblock) (v v' : Z -> option (list Z)).
Context (Hdisk : k_disk s' = k_disk s) (Hblk : forall x, blocked s' x = blocked s x).
Context (Hv : forall x, v' x = v x).

Lemma used_agree c : used sb v' c = used sb v c.
Proof using Hv. unfold used. by rewrite Hv. Qed.

Lemma faddr_agree dd bn : faddr v' dd bn = faddr v dd bn.
Proof using Hv. unfold faddr. by rewrite Hv. Qed.

Lemma fbyte_agree dd i : fbyte v' dd i = fbyte v dd i.
Proof using Hv. unfold fbyte. by rewrite faddr_agree, Hv. Qed.

Lemma fslice_agree dd off n : fslice v' dd off n = fslice v dd off n.
Proof using Hv. apply map_ext. intros i. apply fbyte_agree. Qed.

Lemma space_agree : space start s sb v -> space start s' sb v'.
Proof using Hdisk Hblk Hv.
  intros [S1 S2 S3 S4]. split; [done|by rewrite used_agree| |].
  - intros b Hb. rewrite Hdisk, Hblk, Hv. auto.
  - intros b Hb. rewrite used_agree, Hdisk, Hblk, Hv. auto.
Qed.

Lemma fblock_agree x : fblock start s sb v x -> fblock start s' sb v' x.
Proof using Hdisk Hblk Hv. intros []. split; rewrite ?used_agree, ?Hdisk, ?Hblk, ?Hv; done. Qed.

Lemma file_ok_agree dd : file_ok start s sb v dd -> file_ok start s' sb v' dd.
Proof using Hdisk Hblk Hv.
  intros [F1 F2 F3 F4 F5 F6]. split; [done| | | |done|].
  - intros Hne. apply fblock_agree. auto.
  - intros bn Hbn. rewrite faddr_agree. intros Hne. destruct (F3 bn Hbn Hne). split; [by apply fblock_agree|done].
  - intros bn bn'. rewrite !faddr_agree. apply F4.
  - intros bn. rewrite faddr_agree. apply F6.
Qed.

Lemma written_agree ii off data ibytes w dd dd' r :
  written start s sb ii off data ibytes w dd v dd' r -> written start s' sb ii off data ibytes w dd v' dd' r.
Proof using Hdisk Hblk Hv.
  intros [W1 W2 W3 W4 W5 W6 W7 W8]. split; [by apply space_agree|by apply file_ok_agree|done|..].
  - by rewrite fslice_agree.
  - intros i Hi Hn. rewrite fbyte_agree. auto.
  - by rewrite Hv.
  - intros x Hx Hne. rewrite Hv. auto.
  - intros x Hr Hu. rewrite used_agree. auto.
Qed.

End Agree.

Section Props.
Context {L : Layout} (p : nat) (pr : proc) (start : Z) (sb : superblock).

(** ** The bitmap *)

Record after_step (s s' : kst) (bls : list Z) : Prop := {
  as_ctx : fs_ctx p pr start s' bls;
  as_rest : unchanged s' = unchanged s;
  as_blocked : forall x, blocked s' x = blocked s x;
}.

Lemma fstep_after s b0 s' bls v m : fstep p pr start s b0 s' bls v [] m -> after_step s s' bls.
Proof using Type.
  intros [C F _ _ _ _ _ B _ _ _ _ _]. split; [done|apply F|]. intros x. by rewrite B.
Qed.

(** the bitmap and the blocks after [balloc] has taken [b] *)
Record took (s s' : kst) (b : Z) : Prop := {
  tk_range : 0 < b < sb_size sb;
  tk_free : used sb (bview s) b = false;
  tk_first : forall c, 0 <= c < b -> used sb (bview s) c = true;
  tk_used : forall c, 0 <= c < sb_size sb -> used sb (bview s') c = if c =? b then true else used sb (bview s) c;
  tk_zero : bview s' b = Some zero_block;
  tk_other : forall x, x <> b -> x <> BBLOCK b sb -> bview s' x = bview s x;
}.

Lemma fstep_agree s b0 s' bls v m :
  fstep p pr start s b0 s' bls v [] m ->
  k_disk s' = k_disk s /\ (forall x, blocked s' x = blocked s x) /\ forall x, bview s' x = v x.
Proof using Type.
  intros H. split_and!; [|apply (fstep_after _ _ _ _ _ _ H)|apply H].
  by apply unchanged_disk, (fstep_after _ _ _ _ _ _ H).
Qed.

(** C17. Taking a block.  In a file system operation with room in the log and
    two buffers to work with, [balloc] terminates.  Either it returns the first
    block that is free in the bitmap, and then that block is marked as used,
    reads as zeros, no other bit and no other block has changed, and at most
    two blocks were logged; or every block is in use, and it prints its
    message, returns 0 and changes neither the blocks nor the log. *)
Theorem balloc_takes_first_free s bls :
  fs_ctx p pr start s bls -> k_sb s = sb -> space start s sb (bview s) ->
  Z.of_nat (length bls) + 1 < LOGBLOCKS -> (1 < nfree s)%nat -> echo_ready 66 (k_dev s) ->
  exists b s', balloc ROOTDEV s = Ok b s' /\ exists bls', after_step s s' bls' /\ space start s' sb (bview s') /\
    (took s s' b /\ k_dev s' = k_dev s /\ (length bls' <= length bls + 2)%nat \/
     b = 0 /\ disk_full sb (bview s) /\ bls' = bls /\ forall x, bview s' x = bview s x).
Proof using Type.
  intros HC Hsb HS Hlog Hfree Hecho. pose proof (fstep_refl p pr start s bls HC) as H.
  apply (proj1 (wp_ok _ _ _)).
  eapply (wp_balloc p pr start s bls HC sb Hsb); [exact H|done|by intros x Hx%elem_of_nil|done|simpl; lia|done| |].
  - intros s' d Hfull H'. destruct (fstep_agree _ _ _ _ _ _ H') as (A1 & A2 & A3). exists bls.
    split_and!; [by eapply fstep_after|by apply (space_agree start s s' sb (bview s))|]. right. split_and!; done.
  - intros s' b Hb Hu Hfirst H'. destruct (fstep_agree _ _ _ _ _ _ H') as (A1 & A2 & A3). eexists.
    split_and!; [by eapply fstep_after| |].
    { apply (space_agree start s s' sb (taken sb b (bview s))); [done..|]. apply space_taken; (done || lia). }
    left. split_and!; [|by rewrite (fp_dev _ _ _ _ _ _ _ _ _ _ H')|].
    + split; [done|done| | | |].
      * intros c Hc. apply Hfirst; lia.
      * intros c Hc. rewrite (used_agree sb (taken sb b (bview s))) by done. apply (used_taken start s); (done || lia).
      * rewrite A3. unfold taken. apply vset_eq.
      * intros x Hx Hx'. rewrite A3. by apply taken_ne.
    + pose proof (absorb_length bls (BBLOCK b sb)). pose proof (absorb_length (absorb bls (BBLOCK b sb)) b). lia.
Qed.

(** C28. Giving a block back.  [bfree] clears exactly the bit of the block and
    changes no other block; freeing a block that is free panics. *)
Theorem bfree_frees s bls b :
  fs_ctx p pr start s bls -> k_sb s = sb -> space start s sb (bview s) -> 0 <= b < sb_size sb ->
  Z.of_nat (length bls) < LOGBLOCKS -> (0 < nfree s)%nat ->
  if used sb (bview s) b then
    exists s', bfree ROOTDEV b s = Ok tt s' /\ after_step s s' (absorb bls (BBLOCK b sb)) /\
      (forall c, 0 <= c < sb_size sb -> used sb (bview s') c = if c =? b then false else used sb (bview s) c) /\
      (forall x, x <> BBLOCK b sb -> bview s' x = bview s x)
  else bfree ROOTDEV b s = Panic "freeing free block".
Proof using Type.
  intros HC Hsb HS Hb Hlog Hfree. pose proof (fstep_refl p pr start s bls HC) as H.
  destruct (used sb (bview s) b) eqn:Hu.
  - assert (wp (bfree ROOTDEV b) s (fun _ s' => after_step s s' (absorb bls (BBLOCK b sb)) /\
      forall x, bview s' x = released sb b (bview s) x)) as Hw.
    { eapply (wp_bfree p pr start s bls HC sb Hsb); [exact H|done|by intros x Hx%elem_of_nil|done|done|done|simpl; lia|].
      intros s' H'. split; [by eapply fstep_after|apply H']. }
    apply wp_ok in Hw as ([] & s' & E & Ha & Hv). exists s'. split_and!; [done|done| |].
    + intros c Hc. rewrite (used_agree sb (released sb b (bview s))) by done. by apply (used_released start s).
    + intros x Hx. rewrite Hv. unfold released. by apply vset_ne.
  - destruct (sp_map _ _ _ _ HS b Hb) as (Hml & Hmb & bytes & Hv & Hlen). pose proof (mod_bits b bytes Hlen) as Hbits.
    unfold used in Hu. rewrite Hv in Hu.
    assert (wp (bread ROOTDEV (BBLOCK b sb)) s (fun i s' =>
      fstep p pr start s bls s' bls (bview s) [(BBLOCK b sb, i)] (outer_of s))) as Hw.
    { eapply wp_bread_fs; [done|exact H|exact Hv|apply not_elem_of_nil|done|simpl; lia|done]. }
    apply wp_ok in Hw as (i & s1 & E & H1). unfold bfree. erewrite bind_ok by reflexivity. rewrite Hsb.
    erewrite bind_ok by exact E. cbv zeta.
    erewrite bind_ok by (eapply bdata_fs; [exact H1|by left]).
    erewrite bind_ok by (eapply load_buf_fs; [exact H1|by left|exact Hv]).
    erewrite bind_ok by (by apply byte_at_ok).
    rewrite land_bit by (apply Z.mod_pos_bound; lia). fold (bit_at bytes (b mod BPB)). by rewrite Hu.
Qed.

(** ** Open files *)

(** entry [ip] of the inode table holds the inode [dd] of a file, in an
    operation that has logged [bls] *)
Record on_file (s : kst) (bls : list Z) (ip : nat) (ii : inode) (dd : inode_data) : Prop := {
  of_ctx : fs_ctx p pr start s bls;
  of_sb : k_sb s = sb;
  of_ip : k_itable s !! ip = Some ii;
  of_dev : i_dev ii = ROOTDEV;
  of_data : i_data ii <> 0;
  of_page : nonbuf s (i_data ii);
  of_inode : k_heap s !! i_data ii = Some (PInode dd);
  of_file : file_ok start s sb (bview s) dd;
  of_user : umem_apart s;
}.

Lemma on_file_step s b0 ip ii dd s' bls v m dd' :
  on_file s b0 ip ii dd -> fstep p pr start s b0 s' bls v [] m -> o_heap m !! i_data ii = Some (PInode dd') ->
  file_ok start s sb v dd' -> on_file s' bls ip ii dd'.
Proof using Type.
  intros [O1 O2 O3 O4 O5 O6 O7 O8 O9] H Hm HF. pose proof (fp_frame _ _ _ _ _ _ _ _ _ _ H) as Fr.
  destruct (fstep_agree _ _ _ _ _ _ H) as (A1 & A2 & A3). split; try done; [apply H|..].
  - by rewrite (unchanged_sb _ _ (ff_rest _ _ Fr)).
  - by rewrite (unchanged_itable _ _ (ff_rest _ _ Fr)).
  - by apply (nonbuf_data s).
  - by rewrite (fp_heap _ _ _ _ _ _ _ _ _ _ H).
  - by apply (file_ok_agree start s s' sb v).
  - intros x Hx. apply (nonbuf_data s); [done|]. by eapply (fstep_nonbuf p pr start s b0 O9).
Qed.

(** C16. Reading a file.  [readi] terminates, returns the number of bytes asked
    for, cut at the end of the file (0 when the offset is past it), and delivers
    to its destination, user memory or kernel memory, exactly these bytes of the
    file, through the direct and the indirect block map and across block
    boundaries.  No block, no inode and nothing in the log changes. *)
Theorem readi_reads s bls ip ii dd dst off n got :
  on_file s bls ip ii dd -> 0 <= off -> 0 <= n -> off + n < 2 ^ 31 -> (0 < nfree s)%nat ->
  Sink p pr dst (Z.to_nat n) got -> got [] (k_heap s) (k_kbuf s) ->
  let r := Z.max 0 (Z.min n (d_size dd - off)) in
  exists s', readi ip dst off n s = Ok r s' /\ got (fslice (bview s) dd off r) (k_heap s') (k_kbuf s') /\
    on_file s' bls ip ii dd /\ (forall x, bview s' x = bview s x) /\ after_step s s' bls.
Proof using Type.
  intros O Hoff Hn Hmax Hfree HS Hgot r. pose proof O as [O1 O2 O3 O4 O5 O6 O7 O8 O9].
  assert (wp (readi ip dst off n) s (fun k s' => k = r /\ got (fslice (bview s) dd off r) (k_heap s') (k_kbuf s') /\
    on_file s' bls ip ii dd /\ (forall x, bview s' x = bview s x) /\ after_step s s' bls)) as Hw.
  { eapply (wp_readi p pr start s bls O1 sb ip ii O3 O4 O5 O6 O9);
      [by apply fstep_refl|done|done|by intros x Hx%elem_of_nil|done|done|done|done|done|simpl; lia|].
    intros s' m' H' Hm' _ Hg. split_and!; [done|done|by eapply on_file_step|apply H'|by eapply fstep_after]. }
  apply wp_ok in Hw as (k & s' & E & -> & ?). eauto.
Qed.

(** the blocks a write of [n] bytes at [off] may log *)
Definition write_cost (off n : Z) : Z :=
  Z.of_nat (length (bitmap_blocks sb)) + ((off + n - 1) / BSIZE - off / BSIZE) + 3.


Section Write.
Context (s : kst) (bls : list Z) (ip : nat) (ii : inode) (dd : inode_data).
Context (src : kaddr) (off : Z) (data ibytes : list Z) (has : gmap Z pobj -> list Z -> Prop).
Let n : Z := Z.of_nat (length data).

Record can_write : Prop := {
  cw_file : on_file s bls ip ii dd;
  cw_space : space start s sb (bview s);
  cw_inode : inode_block start s sb ii (bview s) dd ibytes;
  cw_off : 0 <= off /\ off + n < 2 ^ 32;
  cw_src : Source p pr src data has;
  cw_has : has (k_heap s) (k_kbuf s);
  cw_echo : echo_ready 66 (k_dev s);
  cw_log : Z.of_nat (length bls) + write_cost off n + 1 <= LOGBLOCKS;
  cw_cache : write_cost off n + 1 < Z.of_nat (nfree s);
}.

Lemma wp_can_write (Q : Z -> kst -> Prop) :
  can_write -> off <= d_size dd -> off + n <= MAXFILE * BSIZE ->
  (forall r s' bls' v' dd' d, 0 <= r <= n -> r = n \/ disk_full sb v' ->
     written start s sb ii off data ibytes (bview s) dd v' dd' r ->
     Z.of_nat (length bls') <= Z.of_nat (length bls) + write_cost off n ->
     fstep p pr start s bls s' bls' v' [] (set_o_dev d (set_o_page (i_data ii) (PInode dd') (outer_of s))) -> Q r s') ->
  wp (writei ip src off n) s Q.
Proof using Type.
  intros [[O1 O2 O3 O4 O5 O6 O7 O8 O9] W2 W3 [W4 W4'] W5 W6 W7 W8 W9] Hsz Hmax HQ.
  assert (-1 <= (off + n - 1) / BSIZE - off / BSIZE) as Hlo.
  { pose proof (Z.div_le_mono (off - BSIZE) (off + n - 1) BSIZE ltac:(done) ltac:(unfold n, BSIZE; lia)) as Hd.
    replace (off - BSIZE) with (off + -1 * BSIZE) in Hd by lia. rewrite Z.div_add in Hd by done. lia. }
  unfold write_cost in *.
  eapply (wp_writei p pr start s bls O1 sb O2 ip ii O3 O4 O5 O6 O9
    (Z.to_nat (Z.of_nat (length (bitmap_blocks sb)) + ((off + n - 1) / BSIZE - off / BSIZE) + 2)));
    [lia|lia|by apply fstep_refl|done|done|done|exact W3|done|done|done|exact W5|done|done|fold n; lia|].
  intros r s' bls' v' dd' d Hr Hfull HW Hl H'. eapply HQ; [done|done|done| |exact H']. lia.
Qed.

Lemma writei_refuses :
  can_write -> d_size dd < off \/ MAXFILE * BSIZE < off + n -> writei ip src off n s = Ok (-1) s.
Proof using Type.
  intros [[O1 O2 O3 O4 O5 O6 O7 O8 O9] W2 W3 W4 W5 W6 W7 W8 W9] H.
  pose proof (fstep_refl p pr start s bls O1) as H0. unfold writei.
  erewrite bind_ok by (by eapply (idata_fs p pr start s bls)).
  erewrite bind_ok by (by eapply (load_inode_fs p pr start s bls)).
  assert (0 <= n) by (unfold n; lia). rewrite (wrap_small 32), (proj2 (Z.ltb_ge (off + n) off)), orb_false_r by lia.
  destruct (d_size dd <? off) eqn:E; [done|]. zbool. by rewrite (proj2 (Z.ltb_lt (MAXFILE * BSIZE) (off + n))) by lia.
Qed.

(** C14. Writing a file.  For an offset within the file and an end within the
    largest file, [writei] terminates and returns the number [r] of bytes
    written, all of them unless every block of the disk is in use.  Then the
    bytes of the file from the offset on are the first [r] bytes of the source
    and all others are as before; the size is the larger of the old one and the
    end of the range; the inode is in its disk block; no block of another file,
    of another inode, or outside the bitmap and this file has changed; the file
    is still well formed, and at most [write_cost] blocks were logged.
    Otherwise it returns -1 and changes nothing. *)
Theorem writei_writes :
  can_write ->
  exists r s', writei ip src off n s = Ok r s' /\
    if (off <=? d_size dd) && (off + n <=? MAXFILE * BSIZE) then
      0 <= r <= n /\ (r = n \/ disk_full sb (bview s')) /\
      exists dd' bls', written start s' sb ii off data ibytes (bview s) dd (bview s') dd' r /\
        on_file s' bls' ip ii dd' /\ after_step s s' bls' /\
        Z.of_nat (length bls') <= Z.of_nat (length bls) + write_cost off n
    else r = -1 /\ s' = s.
Proof using Type.
  intros HW. destruct (off <=? d_size dd) eqn:E1; zbool; [destruct (off + n <=? MAXFILE * BSIZE) eqn:E2; zbool|]; cbn [andb].
  - apply (proj1 (wp_ok _ _ _)). apply wp_can_write; try done.
    intros r s' bls' v' dd' d Hr Hfull HN Hl H'. destruct (fstep_agree _ _ _ _ _ _ H') as (A1 & A2 & A3).
    split_and!; [lia|lia| |].
    + destruct Hfull as [|Hfull]; [by left|right]. intros b Hb. rewrite (used_agree sb v') by done. auto.
    + exists dd', bls'. split_and!; [by apply (written_agree start s s' sb v')| |by eapply fstep_after|done].
      eapply on_file_step; [apply HW|exact H'|apply lookup_insert_eq|apply HN].
  - exists (-1), s. split; [|done]. apply (writei_refuses HW). by right.
  - exists (-1), s. split; [|done]. apply (writei_refuses HW). by left.
Qed.



(** C15. What has been written is read back: [writei] followed by [readi] of
    the same range delivers the bytes of the source to the destination, whether
    or not the write had to stop on a full disk. *)
Theorem write_read_roundtrip dst got :
  can_write -> off <= d_size dd -> off + n <= MAXFILE * BSIZE ->
  Sink p pr dst (length data) got -> got [] (k_heap s) (k_kbuf s) ->
  exists r s', (k ← writei ip src off n; j ← readi ip dst off k; mret (k, j)) s = Ok (r, r) s' /\
    got (slice 0 (Z.to_nat r) data) (k_heap s') (k_kbuf s') /\ (r = n \/ disk_full sb (bview s')).
Proof using Type.
  intros HW Hsz Hmax HSink Hgot.
  assert (wp (k ← writei ip src off n; j ← readi ip dst off k; mret (k, j)) s (fun '(k, j) s' =>
    k = j /\ got (slice 0 (Z.to_nat k) data) (k_heap s') (k_kbuf s') /\ (k = n \/ disk_full sb (bview s')))) as Hw.
  { apply wp_bind, wp_can_write; try done. intros r s1 bls1 v1 dd1 d Hr Hfull HN Hl H1.
    pose proof HW as [[O1 O2 O3 O4 O5 O6 O7 O8 O9] W2 W3 W4 W5 W6 W7 W8 W9].
    change (MAXFILE * BSIZE) with 274432 in Hmax.
    assert (Sink p pr dst (Z.to_nat r) got) as HSink' by (eapply sink_weaken; [exact HSink|unfold n in Hr; lia]).
    assert (d_size dd1 = Z.max (d_size dd) (off + r)) as Hd
      by (rewrite (wn_meta _ _ _ _ _ _ _ _ _ _ _ _ HN); by destruct dd).
    apply wp_bind. eapply (wp_readi p pr start s bls O1 sb ip ii O3 O4 O5 O6 O9);
      [exact H1|by apply lookup_insert_eq|by apply HN|by intros x Hx%elem_of_nil|lia|lia|lia|exact HSink'| | |].
    - rewrite (fp_kbuf _ _ _ _ _ _ _ _ _ _ H1). eapply sink_proper; [|exact Hgot].
      eapply (fstep_umem p pr start s bls O9); [|by apply fstep_refl|exact H1]. cbn. by eapply umem_page.
    - unfold write_cost in *. simpl. lia.
    - intros s2 m2 H2 Hm2 _ Hg2. apply wp_ret. rewrite Hd in *.
      replace (Z.max 0 (Z.min r (Z.max (d_size dd) (off + r) - off))) with r in * by lia.
      rewrite (wn_new _ _ _ _ _ _ _ _ _ _ _ _ HN) in Hg2. split_and!; [done|done|].
      destruct Hfull as [|Hfull]; [by left|right]. intros b Hb. rewrite (used_agree sb v1); [auto|apply H2]. }
  apply wp_ok in Hw as ([k j] & s' & E & <- & ? & ?). eauto.
Qed.

End Write.

End Props.
