(* ===== verification/DirProps.v ===== *)
(** * Directories as tables of names

    The entries of a directory are the records of 16 bytes its contents
    consist of; those with inode number 0 are empty.  [dirlookup] finds the
    first entry with the name, and after [dirlink] the name is found. *)

From S2P Require Import Prelude Monad CString Types Kernel Kalloc Vm VmFacts UserMem Transfer Uart Printf Echo Bio Lru BioFacts Log LogFacts LogCrash LogOps Tx FsBlock FsCtx Bitmap Inode FileData FileGrow Dir DirFacts FileWrite File FileProps.
From stdpp Require Import base numbers list gmap strings.
From Stdlib Require Import ZArith Lia.

Open Scope Z_scope.

(** ** The table *)

Definition dentry (v : Z -> option (list Z)) (dd : inode_data) (i : Z) : dirent :=
  decode_dirent (fslice v dd (sizeof_dirent * i) sizeof_dirent).

Definition dentries (v : Z -> option (list Z)) (dd : inode_data) : list dirent :=
  dentry v dd <$> seqZ 0 (d_size dd / sizeof_dirent).

(** an entry in use that has the name *)
Definition has_name (name : list Z) (de : dirent) : Prop :=
  de_inum de <> 0 /\ namecmp name (de_name de) = 0.

#[export] Instance has_name_dec name de : Decision (has_name name de).
Proof. unfold has_name. apply _. Defined.

Definition empty_slot (de : dirent) : Prop := de_inum de = 0.

#[export] Instance empty_slot_dec de : Decision (empty_slot de).
Proof. unfold empty_slot. apply _. Defined.

Record directory (dd : inode_data) : Prop := {
  dr_type : d_type dd = T_DIR;
  dr_size : d_size dd mod sizeof_dirent = 0;
}.

Lemma dentries_lookup v dd i :
  0 <= i -> dentries v dd !! Z.to_nat i =
    if i <? d_size dd / sizeof_dirent then Some (dentry v dd i) else None.
Proof.
  intros Hi. unfold dentries. rewrite list_lookup_fmap.
  destruct (Z.ltb_spec i (d_size dd / sizeof_dirent)).
  - rewrite lookup_seqZ_lt by lia. simpl. do 2 f_equal. lia.
  - by rewrite lookup_seqZ_ge by lia.
Qed.

Lemma slice_prefix {A} off n (l k : list A) :
  (off + n <= length l)%nat -> slice off n (l ++ k) = slice off n l.
Proof. intros H. unfold slice. rewrite drop_app_le, take_app_le by (rewrite ?length_drop; lia). done. Qed.

Lemma decode_splice l kb : length l = 16%nat -> decode_dirent (splice 0 l kb) = decode_dirent l.
Proof.
  intros Hl. unfold decode_dirent, splice. rewrite take_0. simpl app.
  change (Z.to_nat DIRSIZ) with 14%nat. by rewrite !slice_prefix by lia.
Qed.

(** ** Loops that leave through a continuation *)

Lemma loop_exit {S X R R'} (body : X -> ST S (X + R)) (body' : X -> ST S (X + R')) (cont : R' -> ST S R) :
  (forall x s r s', body' x s = Ok r s' ->
     match r with
     | inl x' => body x s = Ok (inl x') s'
     | inr v => forall w s'', cont v s' = Ok w s'' -> body x s = Ok (inr w) s''
     end) ->
  forall fuel x s v s', loop fuel body' x s = Ok v s' ->
  forall w s'', cont v s' = Ok w s'' -> loop fuel body x s = Ok w s''.
Proof.
  intros Hb fuel. induction fuel as [|fuel IH]; intros x s v s' E w s'' Ec; [done|].
  simpl in E. apply bind_inv in E as (r & s1 & E1 & E2). specialize (Hb _ _ _ _ E1).
  destruct r as [x'|v'].
  - erewrite loop_next by exact Hb. by eapply IH.
  - injection E2 as -> ->. by erewrite loop_done by (by apply Hb).
Qed.

(** the first entry with a property *)
Lemma find_first P `{forall de, Decision (P de)} v dd i :
  0 <= i < d_size dd / sizeof_dirent -> P (dentry v dd i) -> (forall j, 0 <= j < i -> ~ P (dentry v dd j)) ->
  list_find P (dentries v dd) = Some (Z.to_nat i, dentry v dd i).
Proof.
  intros Hi HP Hj. apply list_find_Some. split_and!; [|done|].
  - rewrite dentries_lookup by lia. by rewrite (proj2 (Z.ltb_lt _ _)) by lia.
  - intros j y Hy Hlt. replace j with (Z.to_nat (Z.of_nat j)) in Hy by lia. rewrite dentries_lookup in Hy by lia.
    destruct (Z.of_nat j <? d_size dd / sizeof_dirent); [|done]. injection Hy as <-. apply Hj. lia.
Qed.

Lemma find_none P `{forall de, Decision (P de)} v dd :
  (forall j, 0 <= j < d_size dd / sizeof_dirent -> ~ P (dentry v dd j)) -> list_find P (dentries v dd) = None.
Proof.
  intros Hj. apply list_find_None, Forall_forall. intros y Hy. apply list_elem_of_fmap in Hy as (j & -> & Hin).
  apply elem_of_seqZ in Hin. apply Hj. lia.
Qed.

(** the first empty entry, or the one behind the last *)
Definition free_slot (v : Z -> option (list Z)) (dd : inode_data) : Z :=
  match list_find empty_slot (dentries v dd) with
  | Some (i, _) => Z.of_nat i
  | None => d_size dd / sizeof_dirent
  end.

(** ** Reading entries *)

Section Search.
Context {L : Layout} (p : nat) (pr : proc) (start : Z) (s0 : kst) (b0 : list Z).
Context (H0 : fs_ctx p pr start s0 b0) (sb : superblock) (Hsb : k_sb s0 = sb).
Context (ip : nat) (ii : inode) (Hip : k_itable s0 !! ip = Some ii) (Hdev : i_dev ii = ROOTDEV).
Context (Hdata : i_data ii <> 0) (Hpage : nonbuf s0 (i_data ii)) (Hum : umem_apart s0).
Context (v : Z -> option (list Z)) (dd : inode_data) (HF : file_ok start s0 sb v dd) (HD : directory dd).
Context (Hroom : (length b0 < nfree s0 + length b0)%nat).

Notation fstep := (fstep p pr start s0 b0).
Notation a := (i_data ii).

(** the state while a directory is searched: nothing has changed but the buffer
    on the stack, which has room for an entry *)
Record searching (s : kst) (d : devst) : Prop := {
  sr_step : exists m, fstep s b0 v [] m /\ o_heap m !! a = Some (PInode dd) /\ o_dev m = d;
  sr_kbuf : (Z.to_nat sizeof_dirent <= length (k_kbuf s))%nat;
}.

Let n : Z := d_size dd / sizeof_dirent.

Lemma size_entries : d_size dd = sizeof_dirent * n /\ 0 <= n /\ sizeof_dirent * n <= MAXFILE * BSIZE.
Proof using All.
  pose proof (Z.div_mod (d_size dd) sizeof_dirent ltac:(done)) as Hd. rewrite (dr_size _ HD), Z.add_0_r in Hd.
  pose proof (fo_size _ _ _ _ _ HF). unfold n. rewrite <- Hd. split_and!; [done| |lia]. apply Z.div_pos; [lia|done].
Qed.

Lemma wp_read_dirent s d i msg (Q : dirent -> kst -> Prop) :
  searching s d -> 0 <= i < n -> (forall s', searching s' d -> Q (dentry v dd i) s') ->
  wp (read_dirent ip (sizeof_dirent * i) msg) s Q.
Proof using All.
  intros [(m & Hm & Ha & Hd) Hk] Hi HQ. destruct size_entries as (Hs & _ & Hmax).
  change (MAXFILE * BSIZE) with 274432 in Hmax. unfold sizeof_dirent in *. unfold read_dirent, sizeof_dirent. apply wp_bind.
  eapply (wp_readi p pr start s0 b0 H0 sb ip ii Hip Hdev Hdata Hpage Hum _ _ _ _ _ dd _ _ _ (stack_got 0 (k_kbuf s)));
    [exact Hm|done|exact HF|by intros x Hx%elem_of_nil|lia|lia|lia|apply stack_sink; [done|simpl; lia]|done|simpl; lia|].
  intros s' m' H' Ha' Hd' Hg. rewrite Hs in *. replace (Z.max 0 (Z.min 16 (16 * n - 16 * i))) with 16 in * by lia.
  cbn [Z.eqb Pos.eqb negb]. apply wp_bind, wp_gets, wp_ret.
  unfold stack_got in Hg. change (Z.to_nat 0) with 0%nat in Hg. rewrite Hg, decode_splice by apply length_fslice.
  apply HQ. split; [exists m'; split_and!; [done|done|congruence]|].
  rewrite Hg, length_splice; [done|]. rewrite length_fslice. unfold sizeof_dirent in Hk. simpl in *. lia.
Qed.

Lemma load_searching s d : searching s d -> load_inode a s = Ok dd s.
Proof using Hpage. intros [(m & Hm & Ha & _) _]. by eapply (load_inode_fs p pr start s0 b0). Qed.

Lemma idata_searching s d : searching s d -> idata ip s = Ok a s.
Proof using Hip Hdata. intros [(m & Hm & _) _]. by eapply (idata_fs p pr start s0 b0). Qed.


(** the search of [dirlookup], without the [iget] at its end *)
Definition find_turn (name : list Z) (off : Z) : K (Z + option (Z * Z)) :=
  dd ← load_inode a;
  if off <? d_size dd then
    de ← read_dirent ip off "dirlookup read";
    if de_inum de =? 0 then mret (inl (u32 (off + sizeof_dirent))) else
    if namecmp name (de_name de) =? 0 then mret (inr (Some (off, de_inum de)))
    else mret (inl (u32 (off + sizeof_dirent)))
  else mret (inr None).

Lemma wp_find name s d (Q : option (Z * Z) -> kst -> Prop) :
  searching s d ->
  (forall s', searching s' d ->
     Q ((fun x => (sizeof_dirent * Z.of_nat x.1, de_inum x.2)) <$> list_find (has_name name) (dentries v dd)) s') ->
  wp (loop (dir_fuel (d_size dd)) (find_turn name) 0) s Q.
Proof using All.
  intros H HQ. destruct size_entries as (Hs & Hn & Hmax). change (MAXFILE * BSIZE) with 274432 in Hmax.
  apply (wp_loop _ (fun off => Z.to_nat (n - off / sizeof_dirent)) (fun off s' => searching s' d /\
    exists i, off = sizeof_dirent * i /\ 0 <= i <= n /\ forall j, 0 <= j < i -> ~ has_name name (dentry v dd j))).
  { split; [done|]. exists 0. split_and!; [done|lia|lia|]. intros j Hj. lia. }
  { unfold dir_fuel. fold n. rewrite Z.div_0_l by done. lia. }
  intros off s1 [H1 (i & -> & Hi & Hno)]. unfold find_turn.
  apply wp_bind. eapply wp_run; [by eapply load_searching|]. rewrite Hs.
  destruct (Z.ltb_spec (sizeof_dirent * i) (sizeof_dirent * n)) as [Hlt|Hge].
  - assert (i < n) by (unfold sizeof_dirent in Hlt; lia). apply wp_bind.
    apply (wp_read_dirent s1 d i); [done|lia|]. intros s2 Hs2.
    assert (u32 (sizeof_dirent * i + sizeof_dirent) = sizeof_dirent * (i + 1)) as Hu.
    { unfold sizeof_dirent in *. rewrite wrap_small; lia. }
    assert ((Z.to_nat (n - sizeof_dirent * (i + 1) / sizeof_dirent) < Z.to_nat (n - sizeof_dirent * i / sizeof_dirent))%nat) as Hdec.
    { rewrite !(Z.mul_comm sizeof_dirent), !Z.div_mul by done. lia. }
    assert (~ has_name name (dentry v dd i) ->
      forall j, 0 <= j < i + 1 -> ~ has_name name (dentry v dd j)) as Hnext.
    { intros Hx j Hj. destruct (decide (j = i)) as [->|]; [done|]. apply Hno. lia. }
    destruct (Z.eqb_spec (de_inum (dentry v dd i)) 0) as [E|E].
    { apply wp_ret. rewrite Hu. split; [|done]. split; [done|]. exists (i + 1). split_and!; [done|lia|lia|].
      apply Hnext. by intros []. }
    destruct (Z.eqb_spec (namecmp name (de_name (dentry v dd i))) 0) as [E'|E']; apply wp_ret.
    + specialize (HQ s2 Hs2). rewrite (find_first (has_name name) v dd i) in HQ; [|fold n; lia|done|done].
      simpl in HQ. by rewrite Z2Nat.id in HQ by lia.
    + rewrite Hu. split; [|done]. split; [done|]. exists (i + 1). split_and!; [done|lia|lia|].
      apply Hnext. by intros [].
  - apply wp_ret. specialize (HQ s1 H1). rewrite find_none in HQ; [done|]. fold n. intros j Hj. apply Hno.
    unfold sizeof_dirent in Hge. lia.
Qed.

(** ** [dirlookup] *)

Lemma dirlookup_loop name s d r s' :
  searching s d -> loop (dir_fuel (d_size dd)) (find_turn name) 0 s = Ok r s' -> searching s' d ->
  match r with
  | None => dirlookup ip name s = Ok None s'
  | Some (off, inum) => forall jp s'', iget ROOTDEV inum s' = Ok jp s'' -> dirlookup ip name s = Ok (Some (jp, off)) s''
  end.
Proof using All.
  intros H E H'. unfold dirlookup.
  erewrite bind_ok by (by eapply idata_searching). erewrite bind_ok by (by eapply load_searching).
  rewrite (dr_type _ HD), Z.eqb_refl. cbn [negb].
  set (cont := fun r : option (Z * Z) => match r with
    | None => mret None
    | Some (off, inum) => i ← get_ip ip; jp ← iget (i_dev i) inum; mret (Some (jp, off)) end : K (option (nat * Z))).
  enough (forall w s'', cont r s' = Ok w s'' -> loop (dir_fuel (d_size dd)) (fun off =>
    dd ← load_inode a;
    if off <? d_size dd then
      de ← read_dirent ip off "dirlookup read";
      if de_inum de =? 0 then mret (inl (u32 (off + sizeof_dirent))) else
      if namecmp name (de_name de) =? 0 then
        i ← get_ip ip;
        ip ← iget (i_dev i) (de_inum de);
        mret (inr (Some (ip, off)))
      else mret (inl (u32 (off + sizeof_dirent)))
    else mret (inr None)) 0 s = Ok w s'') as Hl.
  { destruct r as [[off inum]|]; [intros jp s'' Hg|]; apply Hl; simpl; [|done].
    destruct (sr_step _ _ H') as (m & Hm & _). erewrite bind_ok by (by eapply (get_ip_fs p pr start s0 b0)).
    rewrite Hdev. by erewrite bind_ok by exact Hg. }
  refine (fun w s'' Hc => loop_exit _ (find_turn name) cont _ _ 0 s r s' E w s'' Hc).
  clear -cont. intros x s r s' E. unfold find_turn in E.
  apply bind_inv in E as (dd' & s1 & E1 & E). 
  destruct (x <? d_size dd') eqn:Ex; [|injection E as <- <-; intros w s'' [= <- <-]; erewrite bind_ok by exact E1; by rewrite Ex].
  apply bind_inv in E as (de & s2 & E2 & E).
  destruct (de_inum de =? 0) eqn:Ei; [injection E as <- <-|destruct (namecmp name (de_name de) =? 0) eqn:En; injection E as <- <-].
  1, 3: erewrite bind_ok by exact E1; rewrite Ex; erewrite bind_ok by exact E2; rewrite Ei, ?En; done.
  intros w s'' Hc. erewrite bind_ok by exact E1. rewrite Ex. erewrite bind_ok by exact E2. rewrite Ei, En. simpl in Hc.
  apply bind_inv in Hc as (i & s3 & E3 & Hc). apply bind_inv in Hc as (jp & s4 & E4 & Hc).
  erewrite bind_ok by exact E3. erewrite bind_ok by exact E4. by injection Hc as <- <-.
Qed.


(** ** The place for a new entry *)

Lemma wp_slot s d (Q : Z -> kst -> Prop) :
  searching s d -> (forall s', searching s' d -> Q (sizeof_dirent * free_slot v dd) s') -> wp (dirlink_slot ip) s Q.
Proof using All.
  intros H HQ. destruct size_entries as (Hs & Hn & Hmax). change (MAXFILE * BSIZE) with 274432 in Hmax.
  unfold dirlink_slot. apply wp_bind. eapply wp_run; [by eapply idata_searching|].
  apply wp_bind. eapply wp_run; [by eapply load_searching|].
  apply (wp_loop _ (fun off => Z.to_nat (n - off / sizeof_dirent)) (fun off s' => searching s' d /\
    exists i, off = sizeof_dirent * i /\ 0 <= i <= n /\ forall j, 0 <= j < i -> ~ empty_slot (dentry v dd j))).
  { split; [done|]. exists 0. split_and!; [done|lia|lia|]. intros j Hj. lia. }
  { unfold dir_fuel. fold n. rewrite Z.div_0_l by done. lia. }
  intros off s1 [H1 (i & -> & Hi & Hno)].
  apply wp_bind. eapply wp_run; [by eapply load_searching|]. rewrite Hs. unfold free_slot in HQ.
  destruct (Z.ltb_spec (sizeof_dirent * i) (sizeof_dirent * n)) as [Hlt|Hge].
  - assert (i < n) by (unfold sizeof_dirent in Hlt; lia). apply wp_bind.
    apply (wp_read_dirent s1 d i); [done|lia|]. intros s2 Hs2.
    destruct (Z.eqb_spec (de_inum (dentry v dd i)) 0) as [E|E]; apply wp_ret.
    + specialize (HQ s2 Hs2). rewrite (find_first empty_slot v dd i) in HQ; [|fold n; lia|done|done].
      by rewrite Z2Nat.id in HQ by lia.
    + split; [|rewrite !(Z.mul_comm sizeof_dirent), <- Z.mul_succ_l, !Z.div_mul by done; lia]. split; [done|].
      exists (i + 1). split_and!; [unfold sizeof_dirent; lia|lia|lia|].
      intros j Hj. destruct (decide (j = i)) as [->|]; [done|]. apply Hno. lia.
  - apply wp_ret. assert (i = n) as -> by (unfold sizeof_dirent in Hge; lia).
    specialize (HQ s1 H1). rewrite find_none in HQ; [done|]. fold n. intros j Hj. apply Hno. lia.
Qed.

End Search.

(** ** The table after an entry has been written *)

Definition set_entry (i : nat) (de : dirent) (l : list dirent) : list dirent := take i l ++ de :: drop (S i) l.

Lemma lookup_set_entry i de l j :
  (i <= length l)%nat -> set_entry i de l !! j = if decide (j = i) then Some de else l !! j.
Proof.
  intros Hi. unfold set_entry. case_decide as E.
  - subst. rewrite lookup_app_r by (rewrite length_take; lia). rewrite length_take, Nat.min_l, Nat.sub_diag by lia. done.
  - destruct (decide (j < i)%nat).
    + rewrite lookup_app_l by (rewrite length_take; lia). by apply lookup_take_lt.
    + rewrite lookup_app_r by (rewrite length_take; lia). rewrite length_take, Nat.min_l by lia.
      destruct (j - i)%nat as [|k] eqn:Ek; [lia|]. simpl. rewrite lookup_drop. f_equal. lia.
Qed.

Lemma length_set_entry i de l : (i <= length l)%nat -> length (set_entry i de l) = Nat.max (length l) (S i).
Proof. intros Hi. unfold set_entry. rewrite length_app, length_take. simpl. rewrite length_drop. lia. Qed.

(** a name that was not there is found in the new entry *)
Lemma find_set_entry P `{forall de, Decision (P de)} i de l :
  (i <= length l)%nat -> list_find P l = None -> P de -> list_find P (set_entry i de l) = Some (i, de).
Proof.
  intros Hi Hn HP. apply list_find_Some. rewrite lookup_set_entry, decide_True by done. split_and!; [done|done|].
  intros j y Hy Hlt. rewrite lookup_set_entry, decide_False in Hy by lia.
  apply list_find_None in Hn. rewrite Forall_forall in Hn. apply Hn. by eapply list_elem_of_lookup_2.
Qed.

Lemma length_dentries v dd : length (dentries v dd) = Z.to_nat (d_size dd / sizeof_dirent).
Proof. unfold dentries. by rewrite length_fmap, length_seqZ. Qed.

Lemma free_slot_range v dd : 0 <= d_size dd -> 0 <= free_slot v dd <= d_size dd / sizeof_dirent.
Proof.
  intros Hs. assert (0 <= d_size dd / sizeof_dirent) by (apply Z.div_pos; [done|done]). unfold free_slot.
  destruct (list_find _ _) as [[i de]|] eqn:E; [|lia].
  apply list_find_Some in E as (Hl & _). apply lookup_lt_Some in Hl. rewrite length_dentries in Hl. lia.
Qed.

Lemma written_size start s sb ii off data ibytes v dd v' dd' r :
  written start s sb ii off data ibytes v dd v' dd' r -> d_size dd' = Z.max (d_size dd) (off + r).
Proof. intros HW. rewrite (wn_meta _ _ _ _ _ _ _ _ _ _ _ _ HW). by destruct dd. Qed.

Lemma directory_written start s sb ii slot data ibytes v dd v' dd' :
  written start s sb ii (sizeof_dirent * slot) data ibytes v dd v' dd' sizeof_dirent -> directory dd -> directory dd'.
Proof.
  intros HW [Ht Hs]. split; [rewrite (wn_meta _ _ _ _ _ _ _ _ _ _ _ _ HW); by destruct dd|].
  rewrite (written_size _ _ _ _ _ _ _ _ _ _ _ _ HW).
  destruct (Z.max_spec (d_size dd) (sizeof_dirent * slot + sizeof_dirent)) as [[_ ->]|[_ ->]]; [|done].
  replace (sizeof_dirent * slot + sizeof_dirent) with ((slot + 1) * sizeof_dirent) by (unfold sizeof_dirent; lia).
  by apply Z_mod_mult.
Qed.

Lemma dentries_written start s sb ii slot data ibytes v dd v' dd' :
  written start s sb ii (sizeof_dirent * slot) data ibytes v dd v' dd' sizeof_dirent ->
  directory dd -> 0 <= slot <= d_size dd / sizeof_dirent -> length data = 16%nat ->
  dentries v' dd' = set_entry (Z.to_nat slot) (decode_dirent data) (dentries v dd).
Proof.
  intros HW HD Hslot Hdata.
  assert (d_size dd = sizeof_dirent * (d_size dd / sizeof_dirent)) as Hs.
  { pose proof (Z.div_mod (d_size dd) sizeof_dirent ltac:(done)) as Hd. rewrite (dr_size _ HD) in Hd. lia. }
  set (n := d_size dd / sizeof_dirent) in *.
  assert (d_size dd' / sizeof_dirent = Z.max n (slot + 1)) as Hn'.
  { rewrite (written_size _ _ _ _ _ _ _ _ _ _ _ _ HW), Hs.
    replace (Z.max (sizeof_dirent * n) (sizeof_dirent * slot + sizeof_dirent)) with (Z.max n (slot + 1) * sizeof_dirent)
      by (unfold sizeof_dirent; lia). by apply Z.div_mul. }
  apply list_eq. intros k. rewrite lookup_set_entry by (rewrite length_dentries; fold n; lia).
  replace k with (Z.to_nat (Z.of_nat k)) by lia. rewrite !dentries_lookup by lia. rewrite Hn'. fold n.
  case_decide as E.
  - assert (Z.of_nat k = slot) as -> by lia. rewrite (proj2 (Z.ltb_lt _ _)) by lia. f_equal. unfold dentry. f_equal.
    rewrite (wn_new _ _ _ _ _ _ _ _ _ _ _ _ HW). by apply slice_all.
  - destruct (Z.ltb_spec (Z.of_nat k) n) as [Hk|Hk]; [|by rewrite (proj2 (Z.ltb_ge _ _)) by lia].
    rewrite (proj2 (Z.ltb_lt _ _)) by lia. f_equal. unfold dentry. f_equal. apply map_ext_in.
    intros i [Hi1 Hi2]%list_elem_of_In%elem_of_seqZ. unfold sizeof_dirent in *.
    apply (wn_old _ _ _ _ _ _ _ _ _ _ _ _ HW); lia.
Qed.

(** ** [dirlookup] and [dirlink] *)

Section Ops.
Context {L : Layout} (p : nat) (pr : proc) (start : Z) (sb : superblock).
Context (s : kst) (bls : list Z) (ip : nat) (ii : inode) (dd : inode_data).

Record on_dir : Prop := {
  od_file : on_file p pr start sb s bls ip ii dd;
  od_dir : directory dd;
  od_room : (0 < nfree s)%nat;
  od_kbuf : (Z.to_nat sizeof_dirent <= length (k_kbuf s))%nat;
}.

Lemma od_searching : on_dir -> searching p pr start s bls ii (bview s) dd s (k_dev s).
Proof using Type.
  intros [[O1 O2 O3 O4 O5 O6 O7 O8 O9] HD Hr Hk]. split; [|done].
  exists (outer_of s). split_and!; [by apply fstep_refl|done|done].
Qed.

(** what a search leaves as it was *)
Record searched (s' : kst) : Prop := {
  sd_file : on_file p pr start sb s' bls ip ii dd;
  sd_view : forall x, bview s' x = bview s x;
  sd_after : after_step p pr start s s' bls;
  sd_dev : k_dev s' = k_dev s;
}.

Lemma searching_done s' : on_dir -> searching p pr start s bls ii (bview s) dd s' (k_dev s) -> searched s'.
Proof using Type.
  intros HO [(m & Hm & Ha & Hd) _]. destruct HO as [O _ _ _]. split.
  - eapply on_file_step; [exact O|exact Hm|done|apply O].
  - apply Hm.
  - by eapply fstep_after.
  - by rewrite (fp_dev _ _ _ _ _ _ _ _ _ _ Hm).
Qed.

(** C21. Looking up a name.  [dirlookup] reads the entries of the directory in
    order; it stops at the first entry in use that has the name on its first
    [DIRSIZ] characters, and then returns its offset and the inode that [iget]
    gives for its number; it returns null if there is none.  The search changes
    no block, no inode and nothing in the log. *)
Theorem dirlookup_finds name :
  on_dir ->
  exists s', searched s' /\
    match list_find (has_name name) (dentries (bview s) dd) with
    | None => dirlookup ip name s = Ok None s'
    | Some (i, de) => forall jp s'', iget ROOTDEV (de_inum de) s' = Ok jp s'' ->
        dirlookup ip name s = Ok (Some (jp, sizeof_dirent * Z.of_nat i)) s''
    end.
Proof using Type.
  intros HO. pose proof (od_searching HO) as HS. pose proof HO as [[O1 O2 O3 O4 O5 O6 O7 O8 O9] HD Hr Hk].
  assert (length bls < nfree s + length bls)%nat as Hroom by lia.
  pose proof (wp_find p pr start s bls O1 sb O2 ip ii O3 O4 O5 O6 O9 (bview s) dd O8 HD Hroom name s (k_dev s)
    (fun r s' => r = (fun x => (sizeof_dirent * Z.of_nat x.1, de_inum x.2)) <$> list_find (has_name name) (dentries (bview s) dd) /\
       searching p pr start s bls ii (bview s) dd s' (k_dev s)) HS (fun s' H => conj eq_refl H)) as Hw.
  apply wp_ok in Hw as (r & s' & E & Hrr & HS'). exists s'. split; [by apply searching_done|].
  pose proof (dirlookup_loop p pr start s bls O1 sb O2 ip ii O3 O4 O5 O6 O9 (bview s) dd O8 HD Hroom name s (k_dev s)
    r s' HS E HS') as Hl. rewrite Hrr in Hl. by destruct (list_find _ _) as [[i de]|].
Qed.


(** ** A new name *)

Context (ibytes : list Z).

Record can_link : Prop := {
  cl_dir : on_dir;
  cl_space : space start s sb (bview s);
  cl_inode : inode_block start s sb ii (bview s) dd ibytes;
  cl_echo : echo_ready 66 (k_dev s);
  cl_log : Z.of_nat (length bls) + Z.of_nat (length (bitmap_blocks sb)) + 4 <= LOGBLOCKS;
  cl_cache : (length (bitmap_blocks sb) + 4 < nfree s)%nat;
  cl_max : sizeof_dirent * free_slot (bview s) dd + sizeof_dirent <= MAXFILE * BSIZE;
}.

Definition new_entry (name : list Z) (inum : Z) : list Z :=
  encode_dirent (Mk_dirent (u16 inum) (strncpy name (Z.to_nat DIRSIZ))).

Lemma length_new_entry name inum : length (new_entry name inum) = 16%nat.
Proof using. unfold new_entry, encode_dirent. rewrite length_app. cbn [de_name]. by rewrite length_strncpy. Qed.

Lemma searching_kbuf s1 d kb :
  on_dir -> searching p pr start s bls ii (bview s) dd s1 d ->
  exists m, fstep p pr start s bls (set_k_kbuf (fun _ => kb) s1) bls (bview s) [] m /\
    o_heap m !! i_data ii = Some (PInode dd) /\ o_dev m = d /\ o_kbuf m = kb.
Proof using Type.
  intros [O _ _ _] [(m & Hm & Ha & Hd) _].
  assert (set_k_kbuf (fun _ => kb) s1 = set_k_kbuf (fun _ => kb) (set_k_heap (fun _ => k_heap s1) s1)) as -> by kst_eq.
  eexists. split; [eapply (put_pages p pr start s bls (of_user _ _ _ _ _ _ _ _ _ O)); [exact Hm|done]|]. simpl.
  split_and!; [|done|done]. rewrite (fp_heap _ _ _ _ _ _ _ _ _ _ Hm); [done|apply O].
Qed.

Lemma wp_dirlink name inum (Q : Z -> kst -> Prop) :
  can_link -> list_find (has_name name) (dentries (bview s) dd) = None ->
  (forall r s' bls' v' dd' m', r = sizeof_dirent \/ disk_full sb v' ->
     written start s sb ii (sizeof_dirent * free_slot (bview s) dd) (new_entry name inum) ibytes (bview s) dd v' dd' r ->
     o_heap m' !! i_data ii = Some (PInode dd') -> length (o_kbuf m') = 16%nat ->
     (length bls' <= length bls + length (bitmap_blocks sb) + 3)%nat -> fstep p pr start s bls s' bls' v' [] m' ->
     Q (if negb (r =? sizeof_dirent) then -1 else 0) s') ->
  wp (dirlink ip name inum) s Q.
Proof using Type.
  intros [HO C2 C3 C4 C5 C6 C7] Hno HQ. pose proof (od_searching HO) as HS.
  pose proof HO as [[O1 O2 O3 O4 O5 O6 O7 O8 O9] HD Hr Hk].
  assert (length bls < nfree s + length bls)%nat as Hroom by lia.
  set (n := d_size dd / sizeof_dirent).
  pose proof (free_slot_range (bview s) dd (proj1 (fo_size _ _ _ _ _ O8))) as Hslot.
  set (slot := free_slot (bview s) dd) in *.
  pose proof (wp_find p pr start s bls O1 sb O2 ip ii O3 O4 O5 O6 O9 (bview s) dd O8 HD Hroom name s (k_dev s)
    (fun r s' => r = None /\ searching p pr start s bls ii (bview s) dd s' (k_dev s)) HS) as Hw.
  rewrite Hno in Hw. specialize (Hw (fun s' H => conj eq_refl H)). apply wp_ok in Hw as (r & s1 & E & -> & H1).
  pose proof (dirlookup_loop p pr start s bls O1 sb O2 ip ii O3 O4 O5 O6 O9 (bview s) dd O8 HD Hroom name s (k_dev s)
    None s1 HS E H1) as Hl. unfold dirlink. apply wp_bind. eapply wp_run; [exact Hl|].
  apply wp_bind. apply (wp_slot p pr start s bls O1 sb O2 ip ii O3 O4 O5 O6 O9 (bview s) dd O8 HD Hroom s1 (k_dev s) _ H1).
  intros s2 H2. fold slot. apply wp_bind, wp_modify. fold (new_entry name inum).
  destruct (searching_kbuf s2 (k_dev s) (new_entry name inum) HO H2) as (m & Hm & Ha & Hd & Hkb).
  assert (sizeof_dirent = Z.of_nat (length (new_entry name inum))) as Hn by by rewrite length_new_entry.
  assert ((sizeof_dirent * slot + sizeof_dirent - 1) / BSIZE = sizeof_dirent * slot / BSIZE) as Hblk
    by (unfold sizeof_dirent, BSIZE; Z.to_euclidean_division_equations; lia).
  assert (0 <= sizeof_dirent * slot <= d_size dd) as Hoff
    by (unfold sizeof_dirent in *; Z.to_euclidean_division_equations; lia).
  apply wp_bind. rewrite Hn at 2.
  eapply (wp_writei p pr start s bls O1 sb O2 ip ii O3 O4 O5 O6 O9 (length (bitmap_blocks sb) + 2) ltac:(lia) ltac:(lia)
    _ (bview s) m dd (AStack 0) _ (new_entry name inum) ibytes (stack_has 0 (new_entry name inum)));
    [exact Hm|exact Ha|exact O8|exact C2|exact C3|apply Hoff|apply Hoff|
     rewrite <- Hn; exact C7|by apply stack_source| |by rewrite Hd|rewrite <- Hn, Hblk; lia|].
  { by apply slice_all. }
  intros r s3 bls3 v3 dd3 d Hr' Hfull HW Hl3 H3. apply wp_ret. rewrite <- Hn in Hfull.
  eapply HQ; [exact Hfull|exact HW| | | |exact H3]; [apply lookup_insert_eq| |lia]. cbn. rewrite Hkb. apply length_new_entry.
Qed.

End Ops.

Lemma has_new_entry name inum : 0 < inum < 2 ^ 16 -> has_name name (decode_dirent (new_entry name inum)).
Proof.
  intros Hi. destruct (dirent_roundtrip name inum name ltac:(lia)) as (_ & Hn & Hc).
  fold (new_entry name inum) in *. split; [lia|]. by apply Hc.
Qed.

(** C20. Linking a name.  If the directory has no entry of the name, [dirlink]
    puts one with the number given at the first free slot, or at the end if no
    slot is free, and returns 0: the entries are otherwise the same, a search
    finds the new one at that slot, the directory is well formed and ready for
    the next operation, and no block of another file has changed.  It returns
    -1 only if every block of the disk is in use. *)
Theorem dirlink_adds {L : Layout} p pr start sb s bls ip ii dd ibytes name inum :
  can_link p pr start sb s bls ip ii dd ibytes -> 0 < inum < 2 ^ 16 ->
  list_find (has_name name) (dentries (bview s) dd) = None ->
  let slot := Z.to_nat (free_slot (bview s) dd) in
  let de := decode_dirent (new_entry name inum) in
  exists r s', dirlink ip name inum s = Ok r s' /\
    (r = -1 /\ disk_full sb (bview s') \/
     r = 0 /\ exists dd' bls', on_dir p pr start sb s' bls' ip ii dd' /\
       de_inum de = inum /\ dentries (bview s') dd' = set_entry slot de (dentries (bview s) dd) /\
       list_find (has_name name) (dentries (bview s') dd') = Some (slot, de) /\
       written start s' sb ii (sizeof_dirent * Z.of_nat slot) (new_entry name inum) ibytes (bview s) dd (bview s') dd' sizeof_dirent).
Proof.
  intros HC Hi Hno slot de. pose proof HC as [HO C2 C3 C4 C5 C6 C7]. pose proof HO as [O HD Hr Hk].
  pose proof (free_slot_range (bview s) dd (proj1 (fo_size _ _ _ _ _ (of_file _ _ _ _ _ _ _ _ _ O)))) as Hslot.
  assert (Z.of_nat slot = free_slot (bview s) dd) as Es by (unfold slot; lia).
  apply (proj1 (wp_ok _ _ _)). eapply wp_dirlink; [exact HC|exact Hno|].
  intros r s' bls' v' dd' m' Hfull HW Ha Hkb Hlen H'. destruct (fstep_agree _ _ _ _ _ _ _ _ _ H') as (A1 & A2 & A3).
  destruct (Z.eqb_spec r sizeof_dirent) as [->|Hne]; cbn [negb]; [right|left].
  - split; [done|]. exists dd', bls'. rewrite Es.
    assert (written start s' sb ii (sizeof_dirent * free_slot (bview s) dd) (new_entry name inum) ibytes (bview s) dd
      (bview s') dd' sizeof_dirent) as HW' by by apply (written_agree start s s' sb v').
    pose proof (dentries_written _ _ _ _ _ _ _ _ _ _ _ HW' HD Hslot (length_new_entry name inum)) as Hd.
    split_and!; [|exact (proj1 (proj2 (dirent_roundtrip name inum name (conj (Z.lt_le_incl _ _ (proj1 Hi)) (proj2 Hi)))))|exact Hd| |exact HW'].
    + split; [eapply on_file_step; [exact O|exact H'|exact Ha|apply HW]|by eapply directory_written| |].
      * pose proof (fstep_room _ _ _ _ _ _ _ _ _ _ (of_ctx _ _ _ _ _ _ _ _ _ O) H'). simpl in *. lia.
      * by rewrite (fp_kbuf _ _ _ _ _ _ _ _ _ _ H'), Hkb.
    + rewrite Hd. apply find_set_entry; [rewrite length_dentries; lia|done|by apply has_new_entry].
  - split; [done|]. destruct Hfull as [|Hfull]; [done|]. intros b Hb. rewrite (used_agree sb v') by done. auto.
Qed.
