(* ===== verification/TruncProps.v ===== *)
(** * Truncating a file

    [itrunc] gives back the direct blocks of a file, the blocks named in its
    indirect block and the indirect block itself, and leaves an empty file; no
    other block changes.  It is what [open] with [O_TRUNC] and the last [iput]
    of a removed file do. *)

From S2P Require Import Prelude Monad CString Types Kernel Kalloc Vm VmFacts UserMem Transfer Uart Printf Echo Bio Lru BioFacts Log LogFacts LogCrash LogOps Tx FsBlock FsCtx Bitmap Inode FileData FileGrow Dir DirFacts FileWrite File FileProps.
From stdpp Require Import base numbers list gmap strings.
From Stdlib Require Import ZArith Lia.

Open Scope Z_scope.

(** ** Addresses set to zero one after the other *)

Definition cleared (k : nat) (dd : inode_data) : inode_data :=
  set_d_addrs (fun l => replicate k 0 ++ drop k l) dd.

Lemma cleared_0 dd : cleared 0 dd = dd.
Proof. by destruct dd. Qed.

Lemma lookup_cleared k dd : d_addrs (cleared k dd) !! k = d_addrs dd !! k.
Proof.
  unfold cleared. destruct dd. simpl. rewrite lookup_app_r by (by rewrite length_replicate).
  by rewrite length_replicate, Nat.sub_diag, lookup_drop, Nat.add_0_r.
Qed.

Lemma cleared_insert k dd x :
  d_addrs dd !! k = Some x -> set_d_addrs <[k := 0]> (cleared k dd) = cleared (S k) dd.
Proof.
  unfold cleared. destruct dd as [ty mj mi nl sz l]. unfold set_d_addrs. cbn [d_addrs]. intros H. f_equal.
  rewrite insert_app_r_alt by (by rewrite length_replicate). rewrite length_replicate, Nat.sub_diag.
  rewrite (drop_S _ _ _ H). cbn [insert list_insert replicate]. by rewrite replicate_cons_app, <- app_assoc.
Qed.

Lemma cleared_skip k dd : d_addrs dd !! k = Some 0 -> cleared (S k) dd = cleared k dd.
Proof.
  unfold cleared. destruct dd as [ty mj mi nl sz l]. unfold set_d_addrs. cbn [d_addrs]. intros H. f_equal.
  rewrite (drop_S _ _ _ H). cbn [replicate]. by rewrite replicate_cons_app, <- app_assoc.
Qed.

(** the inode of the empty file *)
Definition emptied (dd : inode_data) : inode_data := set_d_size (fun _ => 0) (set_d_addrs (fun _ => replicate 13 0) dd).

Lemma cleared_all dd : length (d_addrs dd) = 13%nat -> set_d_size (fun _ => 0) (cleared 13 dd) = emptied dd.
Proof.
  intros H. unfold cleared, emptied, set_d_size, set_d_addrs. destruct dd as [ty mj mi nl sz l]. cbn [d_addrs] in *.
  by rewrite drop_ge, app_nil_r by lia.
Qed.

Lemma faddr_emptied v dd bn : faddr v (emptied dd) bn = 0.
Proof.
  unfold faddr, ind_addr, emptied, set_d_size, set_d_addrs. destruct dd. ksimpl.
  destruct (bn <? NDIRECT); [|done]. exact (nth_repeat 0 13 (Z.to_nat bn)).
Qed.

Section Trunc.
Context {L : Layout} (start : Z) (s0 : kst) (sb : superblock).
Context (v0 : Z -> option (list Z)) (dd : inode_data).

Notation space := (space start s0 sb).
Notation file_ok := (file_ok start s0 sb).

(** ** Giving back a set of blocks *)

Record freeing (F : Z -> Prop) (v : Z -> option (list Z)) : Prop := {
  fr_space : space v;
  fr_used : forall c, 0 <= c < sb_size sb -> used sb v c = true <-> used sb v0 c = true /\ ~ F c;
  fr_other : forall x, unmapped sb x -> v x = v0 x;
}.

Lemma space_released v b :
  space v -> 0 < b < sb_size sb -> loggable start (k_disk s0) b -> blocked s0 b = None -> is_Some (v b) ->
  unmapped sb b -> space (released sb b v).
Proof using Type.
  intros HS Hb Hl Hbl Hv Hu. pose proof HS as [S1 S2 S3 S4].
  assert (forall x, unmapped sb x -> released sb b v x = v x) as Hne.
  { intros x Hx. unfold released. apply vset_ne, not_eq_sym, Hx. lia. }
  split; [done| | |].
  - rewrite (used_released start s0) by (done || lia). by destruct (Z.eqb_spec 0 b); [lia|].
  - intros c Hc. destruct (S3 c Hc) as (M1 & M2 & bytes & M3 & M4). split_and!; [done|done|].
    unfold released, vset. case_bool_decide as E; [|eauto]. eexists. split; [done|]. by rewrite length_clear, <- E, M3.
  - intros c Hc Huc. rewrite (used_released start s0) in Huc by (done || lia).
    destruct (Z.eqb_spec c b) as [->|Hcb]; [by rewrite Hne|].
    destruct (S4 c Hc Huc) as (F1 & F2 & F3 & F4). by rewrite Hne.
Qed.

Lemma freeing_step F F' v x :
  freeing F v -> fblock start s0 sb v0 x -> (forall c, F' c <-> F c \/ c = x) -> freeing F' (released sb x v).
Proof using Type.
  intros [R1 R2 R3] [B1 B2 B3 B4 (bytes & B5 & _) B6] HF. split.
  - apply space_released; try done. rewrite R3 by done. by exists bytes.
  - intros c Hc. rewrite (used_released start s0) by (done || lia). rewrite HF.
    destruct (Z.eqb_spec c x) as [->|Hne]; [naive_solver|]. rewrite R2 by done. naive_solver.
  - intros y Hy. unfold released. rewrite vset_ne; [by apply R3|]. apply not_eq_sym, Hy. lia.
Qed.

Lemma freeing_ext F F' v : freeing F v -> (forall c, F' c <-> F c) -> freeing F' v.
Proof using Type. intros [R1 R2 R3] HF. split; [done| |done]. intros c Hc. rewrite HF. by apply R2. Qed.

(** ** The blocks of the file *)

(** the first [k] blocks of the file that are there *)
Definition first_blocks (k c : Z) : Prop := c <> 0 /\ exists bn, 0 <= bn < k /\ c = faddr v0 dd bn.

Definition file_block (c : Z) : Prop := first_blocks MAXFILE c \/ c <> 0 /\ c = ind_addr dd.

Lemma first_next k c : 0 <= k -> faddr v0 dd k <> 0 -> first_blocks (k + 1) c <-> first_blocks k c \/ c = faddr v0 dd k.
Proof using Type.
  intros Hk Hne. split.
  - intros (Hc & bn & Hbn & ->). destruct (decide (bn = k)) as [->|]; [by right|left]. split; [done|]. exists bn. split; [lia|done].
  - intros [(Hc & bn & Hbn & ->)| ->]; (split; [done|]); [exists bn|exists k]; (split; [lia|done]).
Qed.

Lemma first_skip k k' c :
  0 <= k <= k' -> (forall bn, k <= bn < k' -> faddr v0 dd bn = 0) -> first_blocks k' c <-> first_blocks k c.
Proof using Type.
  intros Hk Hz. split; intros (Hc & bn & Hbn & ->); (split; [done|]); exists bn; (split; [|done]); [|lia].
  destruct (decide (bn < k)); [lia|]. destruct Hc. apply Hz. lia.
Qed.

Lemma first_fresh k : file_ok v0 dd -> 0 <= k < MAXFILE -> faddr v0 dd k <> 0 -> ~ first_blocks k (faddr v0 dd k).
Proof using Type.
  intros HF Hk Hne (_ & bn & Hbn & E). pose proof (fo_inj _ _ _ _ _ HF k bn Hk ltac:(lia) Hne E). lia.
Qed.

Lemma ind_fresh k : file_ok v0 dd -> k <= MAXFILE -> ~ first_blocks k (ind_addr dd).
Proof using Type.
  intros HF Hk (Hne & bn & Hbn & E). destruct (fo_blk _ _ _ _ _ HF bn ltac:(lia)) as [_ H]; [by rewrite <- E|]. by destruct H.
Qed.

Context (p : nat) (pr : proc) (b0 : list Z) (H0 : fs_ctx p pr start s0 b0) (Hsb : k_sb s0 = sb).
Context (ip : nat) (ii : inode) (Hip : k_itable s0 !! ip = Some ii) (Hdev : i_dev ii = ROOTDEV).
Context (Hdata : i_data ii <> 0) (Hpage : nonbuf s0 (i_data ii)) (Hum : umem_apart s0).

Notation fstep := (fstep p pr start s0 b0).
Notation a := (i_data ii).

(** only blocks of the bitmap are logged, so there is room *)
Context (HlogK : Z.of_nat (length b0) + Z.of_nat (length (bitmap_blocks sb)) + 2 <= LOGBLOCKS).
Context (HcacheK : (length (bitmap_blocks sb) + 2 < nfree s0)%nat).

Definition logs_bitmap (bls : list Z) : Prop := bls ⊆ b0 ++ bitmap_blocks sb.

Lemma logs_room s bls v lks m :
  fstep s bls v lks m -> logs_bitmap bls -> (length bls <= length b0 + length (bitmap_blocks sb))%nat.
Proof using All. intros H Hb. by eapply (fstep_budget p pr start s0 b0 H0 sb Hsb ip ii). Qed.

Lemma wp_free F F' s bls v lks m x (Q : unit -> kst -> Prop) :
  fstep s bls v lks m -> freeing F v -> logs_bitmap bls -> apart sb v lks -> (length lks <= 1)%nat ->
  fblock start s0 sb v0 x -> ~ F x -> (forall c, F' c <-> F c \/ c = x) ->
  (forall s' bls' v', fstep s' bls' v' lks m -> freeing F' v' -> logs_bitmap bls' -> Q tt s') ->
  wp (bfree ROOTDEV x) s Q.
Proof using All.
  intros H HF HB HA Hl Hx Hn HF' HQ. pose proof (logs_room _ _ _ _ _ H HB) as Hr. pose proof Hx as [B1 B2 _ _ _ _].
  eapply (wp_bfree p pr start s0 b0 H0 sb Hsb); [exact H|apply HF|done|lia|by apply (fr_used _ _ HF); [lia|]|lia|lia|].
  intros s' H'. eapply HQ; [exact H'|by eapply freeing_step|].
  intros y [Hy| ->]%elem_of_absorb; [by apply HB|]. apply elem_of_app. right. apply elem_of_bitmap_blocks. lia.
Qed.

(** ** The direct blocks *)

Context (m : outer) (Hm : o_heap m !! a = Some (PInode dd)) (HF : file_ok v0 dd).

Definition truncing (k : nat) (s : kst) : Prop :=
  exists bls v, fstep s bls v [] (set_o_page a (PInode (cleared k dd)) m) /\
    freeing (first_blocks (Z.of_nat k)) v /\ logs_bitmap bls.

Lemma addr_direct k : (k < 12)%nat -> d_addrs dd !! k = Some (faddr v0 dd (Z.of_nat k)).
Proof using All.
  intros Hk. unfold faddr. rewrite (proj2 (Z.ltb_lt _ _)) by (unfold NDIRECT; lia). rewrite Nat2Z.id.
  destruct (lookup_lt_is_Some_2 (d_addrs dd) k) as [x Hx]; [rewrite (fo_len _ _ _ _ _ HF); lia|].
  by rewrite Hx, (nth_lookup_Some _ _ _ _ Hx).
Qed.

Lemma wp_trunc_direct s (Q : unit -> kst -> Prop) :
  truncing 0 s -> (forall s', truncing 12 s' -> Q tt s') ->
  wp (for_each (seqZ 0 NDIRECT) (fun i =>
    dd ← load_inode a;
    x ← deref (fun _ => d_addrs dd !! Z.to_nat i);
    when (negb (x =? 0))
      (ii ← get_ip ip;
       when true (bfree (i_dev ii) x);;
       upd_inode_data a (set_d_addrs <[Z.to_nat i := 0]>)))) s Q.
Proof using All.
  intros H HQ. change NDIRECT with (Z.of_nat 12). apply (wp_for_range 12 _ truncing); [done| |done].
  clear s H. intros k s Hk (bls & v & H & Hfr & HB). pose proof (addr_direct k Hk) as Ha.
  apply wp_bind. eapply wp_run; [eapply (load_inode_fs p pr start s0 b0 ii Hpage); [exact H|apply lookup_insert_eq]|].
  apply wp_bind. rewrite Nat2Z.id. eapply wp_deref; [by rewrite lookup_cleared|].
  unfold when. destruct (Z.eqb_spec (faddr v0 dd (Z.of_nat k)) 0) as [E|E]; cbn [negb].
  - apply wp_ret. exists bls, v. rewrite cleared_skip by (by rewrite Ha, E). split_and!; [done| |done].
    eapply freeing_ext; [exact Hfr|]. intros c. apply (first_skip (Z.of_nat k)); [lia|].
    intros bn Hbn. assert (bn = Z.of_nat k) as -> by lia. done.
  - assert (0 <= Z.of_nat k < MAXFILE) as Hr by (change MAXFILE with 268; lia).
    apply wp_bind. eapply wp_run; [by eapply (get_ip_fs p pr start s0 b0)|]. rewrite Hdev. apply wp_bind.
    eapply wp_free; [exact H|exact Hfr|done|by intros x Hx%elem_of_nil|simpl; lia|by apply HF|by apply first_fresh| |].
    { intros c. by apply first_next; [lia|]. }
    intros s1 bls1 v1 H1 Hfr1 HB1. eapply (wp_upd_inode_fs p pr start s0 b0); try done; [apply lookup_insert_eq|].
    intros s2 H2. exists bls1, v1. rewrite set_o_page_twice in H2. erewrite cleared_insert in H2 by exact Ha.
    rewrite Nat2Z.inj_succ. done.
Qed.

(** ** The indirect block *)

Lemma addr_ind : d_addrs dd !! Z.to_nat NDIRECT = Some (ind_addr dd).
Proof using All.
  unfold ind_addr. destruct (lookup_lt_is_Some_2 (d_addrs dd) (Z.to_nat NDIRECT)) as [x Hx].
  { rewrite (fo_len _ _ _ _ _ HF). unfold NDIRECT. lia. }
  by rewrite Hx, (nth_lookup_Some _ _ _ _ Hx).
Qed.

(** blocks behind the indirect block [x], which is held in [bp] *)
Definition trunc_entries (x : Z) (bp k : nat) (s : kst) : Prop :=
  exists bls v, fstep s bls v [(x, bp)] (set_o_page a (PInode (cleared 12 dd)) m) /\
    freeing (first_blocks (NDIRECT + Z.of_nat k)) v /\ logs_bitmap bls.

Lemma wp_trunc_entries bp s (Q : unit -> kst -> Prop) :
  ind_addr dd <> 0 -> trunc_entries (ind_addr dd) bp 0 s ->
  (forall s', trunc_entries (ind_addr dd) bp 256 s' -> Q tt s') ->
  wp (for_each (seqZ 0 NINDIRECT) (fun j =>
    bytes ← load_buf (dptr s0 bp);
    when (negb (word_at bytes j =? 0)) (bfree ROOTDEV (word_at bytes j)))) s Q.
Proof using All.
  intros Hi H HQ. change NINDIRECT with (Z.of_nat 256).
  apply (wp_for_range 256 _ (trunc_entries (ind_addr dd) bp)); [done| |done].
  clear s H. intros k s Hk (bls & v & H & Hfr & HB). pose proof (fo_ind _ _ _ _ _ HF Hi) as [B1 B2 B3 B4 (bytes & B5 & B6) B7].
  assert (0 <= NDIRECT + Z.of_nat k < MAXFILE) as Hr by (change MAXFILE with 268; unfold NDIRECT; lia).
  assert (faddr v0 dd (NDIRECT + Z.of_nat k) = word_at bytes (Z.of_nat k)) as Hf.
  { unfold faddr. rewrite (proj2 (Z.ltb_ge _ _)), (proj2 (Z.eqb_neq _ _) Hi), B5 by lia.
    by rewrite Z.add_simpl_l. }
  apply wp_bind. eapply wp_run; [eapply load_buf_fs; [exact H|by left|by rewrite (fr_other _ _ Hfr)]|].
  rewrite <- Hf. unfold when.
  destruct (Z.eqb_spec (faddr v0 dd (NDIRECT + Z.of_nat k)) 0) as [E|E]; cbn [negb].
  - apply wp_ret. exists bls, v. split_and!; [done| |done]. eapply freeing_ext; [exact Hfr|].
    intros c. apply (first_skip (NDIRECT + Z.of_nat k)); [lia|]. intros bn Hbn.
    assert (bn = NDIRECT + Z.of_nat k) as -> by lia. done.
  - eapply wp_free; [exact H|exact Hfr|done| |simpl; lia|by apply HF|by apply first_fresh| |].
    + intros x ->%list_elem_of_singleton. cbn [fst]. split; [done|]. intros _. apply (fr_used _ _ Hfr); [lia|].
      split; [done|]. apply ind_fresh; [done|lia].
    + intros c. by apply first_next; [lia|].
    + intros s1 bls1 v1 H1 Hfr1 HB1. exists bls1, v1. rewrite Nat2Z.inj_succ, Z.add_succ_r. done.
Qed.

Definition truncated_mem (s : kst) : Prop :=
  exists bls v, fstep s bls v [] (set_o_page a (PInode (cleared 13 dd)) m) /\ freeing file_block v /\ logs_bitmap bls.

Lemma wp_trunc_indirect s (Q : unit -> kst -> Prop) :
  truncing 12 s -> (forall s', truncated_mem s' -> Q tt s') ->
  wp (when (negb (ind_addr dd =? 0))
    (when true
       (ii ← get_ip ip;
        bp ← bread (i_dev ii) (ind_addr dd);
        q ← bdata bp;
        for_each (seqZ 0 NINDIRECT) (fun j =>
          bytes ← load_buf q;
          when (negb (word_at bytes j =? 0)) (bfree (i_dev ii) (word_at bytes j)));;
        brelse bp;;
        bfree (i_dev ii) (ind_addr dd));;
     upd_inode_data a (set_d_addrs <[Z.to_nat NDIRECT := 0]>))) s Q.
Proof using All.
  intros (bls & v & H & Hfr & HB) HQ. pose proof addr_ind as Ha. unfold when.
  destruct (Z.eqb_spec (ind_addr dd) 0) as [E|E]; cbn [negb].
  - apply wp_ret, HQ. exists bls, v. rewrite cleared_skip by (by rewrite <- E). split_and!; [done| |done].
    eapply freeing_ext; [exact Hfr|]. intros c. unfold file_block. rewrite (first_skip NDIRECT MAXFILE).
    + naive_solver.
    + done.
    + intros bn Hbn. unfold faddr. by rewrite (proj2 (Z.ltb_ge _ _)), E by lia.
  - pose proof (fo_ind _ _ _ _ _ HF E) as HI. pose proof HI as [B1 B2 B3 B4 (bytes & B5 & B6) B7].
    pose proof (logs_room _ _ _ _ _ H HB) as Hr.
    apply wp_bind, wp_bind. eapply wp_run; [by eapply (get_ip_fs p pr start s0 b0)|]. rewrite Hdev. apply wp_bind.
    eapply wp_bread_fs; [done|exact H|by rewrite (fr_other _ _ Hfr)|apply not_elem_of_nil|done|simpl; lia|].
    intros bp s1 H1. apply wp_bind. eapply wp_run; [eapply bdata_fs; [exact H1|by left]|].
    apply wp_bind. apply wp_trunc_entries; [done|by exists bls, v|]. intros s2 (bls2 & v2 & H2 & Hfr2 & HB2).
    apply wp_bind. eapply wp_brelse_fs; [done|exact H2|]. intros s3 H3.
    eapply (wp_free _ file_block); [exact H3|exact Hfr2|done|by intros x Hx%elem_of_nil|simpl; lia|done|by apply ind_fresh| |].
    { intros c. change (NDIRECT + Z.of_nat 256) with MAXFILE. unfold file_block.
      split; [intros [?|[_ ?]]; auto|]. intros [?| ->]; auto. }
    intros s4 bls4 v4 H4 Hfr4 HB4. eapply (wp_upd_inode_fs p pr start s0 b0); try done; [apply lookup_insert_eq|].
    intros s5 H5. apply HQ. exists bls4, v4. rewrite set_o_page_twice in H5.
    change (Z.to_nat NDIRECT) with 12%nat in *. by erewrite cleared_insert in H5 by exact Ha.
Qed.

(** ** [itrunc] *)

Record truncated (ibytes : list Z) (v : Z -> option (list Z)) : Prop := {
  tc_space : space v;
  tc_used : forall c, 0 <= c < sb_size sb -> used sb v c = true <-> used sb v0 c = true /\ ~ file_block c;
  tc_inode : v (IBLOCK (i_inum ii) sb) = Some (splice (dinode_off (i_inum ii)) (encode_dinode (emptied dd)) ibytes);
  tc_other : forall x, unmapped sb x -> x <> IBLOCK (i_inum ii) sb -> v x = v0 x;
}.

Lemma truncated_done ibytes v :
  freeing file_block v -> inode_block start s0 sb ii v0 dd ibytes ->
  truncated ibytes (vset (IBLOCK (i_inum ii) sb) (splice (dinode_off (i_inum ii)) (encode_dinode (emptied dd)) ibytes) v).
Proof using All.
  intros [R1 R2 R3] [[_ _ _ I1] _ _ _ _]. split.
  - by apply space_vset.
  - intros c Hc. rewrite <- R2 by done. rewrite (used_ext sb v); [done|done|]. intros b Hb. apply vset_ne. by apply I1.
  - apply vset_eq.
  - intros x Hx Hne. rewrite vset_ne by done. by apply R3.
Qed.

Lemma wp_itrunc s ibytes (Q : unit -> kst -> Prop) :
  fstep s b0 v0 [] m -> space v0 -> inode_block start s0 sb ii v0 dd ibytes ->
  (forall s' bls' v', truncated ibytes v' -> (length bls' <= length b0 + length (bitmap_blocks sb) + 1)%nat ->
     fstep s' bls' v' [] (set_o_page a (PInode (emptied dd)) m) -> Q tt s') ->
  wp (itrunc ip) s Q.
Proof using All.
  intros H HS HI HQ. unfold itrunc.
  apply wp_bind. eapply wp_run; [by eapply (idata_fs p pr start s0 b0)|].
  apply wp_bind. eapply wp_run; [eapply fstep_no_tx; exact H|]. cbn [negb].
  apply wp_bind. apply wp_trunc_direct.
  { exists b0, v0. rewrite cleared_0, set_o_page_id by done. split_and!; [done| |set_solver].
    split; [done| |done]. intros c Hc. split; [|by intros [? _]]. intros Hu. split; [done|]. intros (_ & bn & Hbn & _). lia. }
  intros s1 H1. pose proof H1 as (bls1 & v1 & F1 & _ & _).
  apply wp_bind. eapply wp_run; [eapply (load_inode_fs p pr start s0 b0 ii Hpage); [exact F1|apply lookup_insert_eq]|].
  apply wp_bind. eapply wp_deref; [change (Z.to_nat NDIRECT) with 12%nat; rewrite lookup_cleared; exact addr_ind|].
  apply wp_bind. apply wp_trunc_indirect; [exact H1|]. intros s2 (bls2 & v2 & H2 & Hfr & HB).
  apply wp_bind. eapply (wp_upd_inode_fs p pr start s0 b0); try done; [apply lookup_insert_eq|].
  intros s3 H3. rewrite set_o_page_twice, cleared_all in H3 by apply HF.
  pose proof (logs_room _ _ _ _ _ H3 HB) as Hr. pose proof HI as [[_ _ _ I1] I2 I3 I4 I5].
  eapply (wp_iupdate p pr start s0 b0 H0 sb Hsb ip ii Hip Hdev Hdata Hpage Hum (length (bitmap_blocks sb)) HlogK HcacheK);
    [exact H3|apply lookup_insert_eq|by rewrite (fr_other _ _ Hfr)|done|done|lia|lia|].
  intros s4 H4. eapply HQ; [by apply truncated_done| |exact H4]. pose proof (absorb_length bls2 (IBLOCK (i_inum ii) sb)). lia.
Qed.

End Trunc.

Lemma file_ok_emptied start s sb v dd : file_ok start s sb v (emptied dd).
Proof.
  assert (ind_addr (emptied dd) = 0) as Hi by (by destruct dd).
  split; [by destruct dd|done| | |by destruct dd|].
  - intros bn _ Hne. by rewrite faddr_emptied in Hne.
  - intros bn bn' _ _ Hne. by rewrite faddr_emptied in Hne.
  - intros bn Hbn Hs. assert (d_size (emptied dd) = 0) as E by (by destruct dd). rewrite E in Hs. unfold BSIZE in Hs. lia.
Qed.

Record can_trunc {L : Layout} p pr start sb s bls ip ii dd ibytes : Prop := {
  ct_file : on_file p pr start sb s bls ip ii dd;
  ct_space : space start s sb (bview s);
  ct_inode : inode_block start s sb ii (bview s) dd ibytes;
  ct_log : Z.of_nat (length bls) + Z.of_nat (length (bitmap_blocks sb)) + 2 <= LOGBLOCKS;
  ct_cache : (length (bitmap_blocks sb) + 2 < nfree s)%nat;
}.

(** C19. Truncating a file.  [itrunc] terminates without a panic and leaves an
    empty file with the same type and links, in memory and in its disk block.
    Exactly the blocks of the file have been marked as free: the direct ones,
    those named in the indirect block and the indirect block.  No block other
    than the bitmap and that of the inode has changed, and at most the blocks
    of the bitmap and one more were logged. *)
Theorem itrunc_frees {L : Layout} p pr start sb s bls ip ii dd ibytes :
  can_trunc p pr start sb s bls ip ii dd ibytes ->
  exists s' bls', itrunc ip s = Ok tt s' /\ on_file p pr start sb s' bls' ip ii (emptied dd) /\
    truncated start s' sb (bview s) dd ii ibytes (bview s') /\ after_step p pr start s s' bls' /\
    (length bls' <= length bls + length (bitmap_blocks sb) + 1)%nat.
Proof.
  intros [O C2 C3 C4 C5]. pose proof O as [O1 O2 O3 O4 O5 O6 O7 O8 O9].
  assert (wp (itrunc ip) s (fun _ s' => exists bls', on_file p pr start sb s' bls' ip ii (emptied dd) /\
    truncated start s' sb (bview s) dd ii ibytes (bview s') /\ after_step p pr start s s' bls' /\
    (length bls' <= length bls + length (bitmap_blocks sb) + 1)%nat)) as Hw.
  { eapply (wp_itrunc start s sb (bview s) dd p pr bls O1 O2 ip ii O3 O4 O5 O6 O9 C4 C5 (outer_of s) O7 O8);
      [by apply fstep_refl|done|exact C3|].
    intros s' bls' v' [T1 T2 T3 T4] Hl H'. destruct (fstep_agree _ _ _ _ _ _ _ _ _ H') as (A1 & A2 & A3). exists bls'.
    split_and!; [|split|by eapply fstep_after|done].
    - eapply on_file_step; [exact O|exact H'|apply lookup_insert_eq|apply file_ok_emptied].
    - by apply (space_agree start s s' sb v').
    - intros c Hc. rewrite (used_agree sb v') by done. by apply T2.
    - by rewrite A3.
    - intros x Hx Hne. rewrite A3. by apply T4. }
  apply wp_ok in Hw as ([] & s' & E & bls' & ?). eauto.
Qed.
