(* ===== verification/PipeFacts.v ===== *)
(** * Pipes are bounded queues of bytes

    The counters [nread] and [nwrite] of a pipe run modulo [2^32] over a buffer
    of [PIPESIZE] bytes; [pipe_rep q c] says that the pipe [q] holds the bytes
    [c], oldest first.  [pipewrite] appends the bytes of user memory to the
    queue, [piperead] moves bytes from its front to user memory. *)

From S2P Require Import Prelude Monad CString Types Kernel Kalloc KallocFacts Vm VmFacts UserMem Bio Log Tx FsBlock Inode Dir File.
From stdpp Require Import base numbers list gmap strings.
From Stdlib Require Import ZArith Lia.

Open Scope Z_scope.

(** ** The ring buffer *)

Record pipe_rep (q : pipe) (c : list Z) : Prop := {
  pr_data : length (pi_data q) = Z.to_nat PIPESIZE;
  pr_nread : 0 <= pi_nread q < 2 ^ 32;
  pr_nwrite : pi_nwrite q = u32 (pi_nread q + Z.of_nat (length c));
  pr_size : (length c <= Z.to_nat PIPESIZE)%nat;
  pr_bytes k x : c !! k = Some x ->
    pi_data q !! Z.to_nat ((pi_nread q + Z.of_nat k) mod PIPESIZE) = Some x
}.

(** the size of the buffer divides the range of the counters *)
Lemma u32_mod_pipe x : u32 x mod PIPESIZE = x mod PIPESIZE.
Proof.
  unfold wrap. change (2 ^ 32) with (PIPESIZE * 8388608). rewrite Z.rem_mul_r by (unfold PIPESIZE; lia).
  rewrite Z.mul_comm, Z_mod_plus_full, Zmod_mod. done.
Qed.

Lemma pipe_empty q c : pipe_rep q c -> (pi_nread q =? pi_nwrite q) = bool_decide (c = []).
Proof.
  intros [H1 H2 H3 H4 _]. rewrite H3. change PIPESIZE with 512 in H4. destruct c as [|x c].
  - rewrite bool_decide_true by done. simpl. rewrite Z.add_0_r, wrap_small by done. apply Z.eqb_refl.
  - rewrite bool_decide_false by done. apply Z.eqb_neq. unfold wrap. simpl length in *.
    change (2 ^ 32) with 4294967296 in *. Z.to_euclidean_division_equations. lia.
Qed.

Lemma pipe_full q c :
  pipe_rep q c ->
  (pi_nwrite q =? u32 (pi_nread q + PIPESIZE)) = bool_decide (length c = Z.to_nat PIPESIZE).
Proof.
  intros [H1 H2 H3 H4 _]. rewrite H3. change PIPESIZE with 512 in *.
  case_bool_decide as E; [rewrite E; apply Z.eqb_refl|]. apply Z.eqb_neq. unfold wrap.
  change (2 ^ 32) with 4294967296 in *. Z.to_euclidean_division_equations. lia.
Qed.

Lemma ring_distinct a i j :
  0 <= i < PIPESIZE -> 0 <= j < PIPESIZE -> i <> j -> (a + i) mod PIPESIZE <> (a + j) mod PIPESIZE.
Proof. unfold PIPESIZE. intros. Z.to_euclidean_division_equations. lia. Qed.

Definition push (x : Z) (q : pipe) : pipe :=
  set_pi_nwrite (fun w => u32 (w + 1)) (set_pi_data <[Z.to_nat (pi_nwrite q mod PIPESIZE) := x]> q).

Lemma pipe_push q c x :
  pipe_rep q c -> (length c < Z.to_nat PIPESIZE)%nat -> pipe_rep (push x q) (c ++ [x]).
Proof.
  intros [H1 H2 H3 H4 H5] Hlt. unfold push.
  pose proof (Z.mod_pos_bound (pi_nread q + Z.of_nat (length c)) PIPESIZE ltac:(done)).
  split; cbn [pi_data pi_nread pi_nwrite set_pi_nwrite set_pi_data].
  - by rewrite length_insert.
  - done.
  - rewrite H3, length_app. simpl length. unfold wrap. rewrite Zplus_mod_idemp_l. f_equal. lia.
  - rewrite length_app. simpl length. lia.
  - intros k y Hk. rewrite H3, u32_mod_pipe.
    destruct (decide (k = length c)) as [->|Hne].
    + rewrite lookup_app_r, Nat.sub_diag in Hk by lia. simpl in Hk. simplify_eq.
      apply list_lookup_insert_eq. lia.
    + apply lookup_lt_Some in Hk as Hk'. rewrite length_app in Hk'. simpl in Hk'.
      rewrite lookup_app_l in Hk by lia. rewrite list_lookup_insert_ne; [by apply H5|].
      pose proof (ring_distinct (pi_nread q) (Z.of_nat (length c)) (Z.of_nat k)) as Hd.
      pose proof (Z.mod_pos_bound (pi_nread q + Z.of_nat k) PIPESIZE ltac:(done)). lia.
Qed.

Lemma pipe_pop q x c :
  pipe_rep q (x :: c) ->
  pi_data q !! Z.to_nat (pi_nread q mod PIPESIZE) = Some x /\
  pipe_rep (set_pi_nread (fun n => u32 (n + 1)) q) c.
Proof.
  intros [H1 H2 H3 H4 H5]. split.
  { specialize (H5 0%nat x eq_refl). by rewrite Z.add_0_r in H5. }
  simpl length in *. split; cbn [pi_data pi_nread pi_nwrite set_pi_nread].
  - done.
  - by apply wrap_range.
  - rewrite H3. unfold wrap. rewrite Zplus_mod_idemp_l. f_equal. lia.
  - lia.
  - intros k y Hk. specialize (H5 (S k) y Hk). rewrite <- H5. f_equal. f_equal.
    rewrite <- Zplus_mod_idemp_l, u32_mod_pipe, Zplus_mod_idemp_l. f_equal. lia.
Qed.

(** ** Helpers *)

Section Pipe.
Context {L : Layout}.

Lemma killed_ok p ps s :
  k_psched s !! p = Some ps -> Lproc p ∉ k_held s -> killed p s = Ok (ps_killed ps) s.
Proof.
  intros Hp Hno. apply run_wp. unfold killed. kunfold.
  apply wp_bind, wp_acquire; [done|]. apply wp_bind. eapply wp_deref; [done|].
  apply wp_bind. eapply wp_release; [done|]. apply wp_ret. split; [done|kst_eq].
Qed.

Lemma upd_pipe_ok a g q s :
  k_heap s !! a = Some (PPipe q) ->
  upd_pipe a g s = Ok tt (set_k_heap <[a := PPipe (g q)]> s).
Proof.
  intros H. apply run_wp. unfold upd_pipe, load_pipe, store.
  apply wp_bind. eapply wp_deref; [by rewrite H|]. by apply wp_modify.
Qed.

Lemma ubyte_other h x o pt va :
  h !! x ≫= as_ptes = None -> as_ptes o = None -> h !! x ≫= as_bytes = None -> as_bytes o = None ->
  ubyte (<[x := o]> h) pt va = ubyte h pt va.
Proof.
  intros H1 H2 H3 H4. unfold ubyte, user_page. rewrite translate_other by done.
  destruct (translate h pt va) as [v|]; cbn; [|done]. destruct (has v PTE_U); cbn; [|done].
  destruct (decide (PTE2PA v = x)) as [->|Hne]; [|by rewrite lookup_insert_ne].
  rewrite lookup_insert_eq, H3. cbn. by rewrite H4.
Qed.

(** the current process [p], not killed, in a state where [pi] is a pipe and
    no lock the pipe code takes is held *)
Record pipe_ctx (pi : Z) (p : nat) (pr : proc) (q : pipe) (s : kst) : Prop := {
  px_cur : k_cur s = Some p;
  px_proc : k_procs s !! p = Some pr;
  px_alive : exists ps, k_psched s !! p = Some ps /\ ps_killed ps = false;
  px_table : length (k_psched s) = NPROC;
  px_lock : Lpipe pi ∉ k_held s;
  px_plock : no_plock s;
  px_pipe : k_heap s !! pi = Some (PPipe q);
  px_pt : pt_ok (k_heap s) (p_pagetable pr);
  px_null : k_heap s !! 0 = None
}.

Section Write.
Context (pi addr : Z) (p : nat) (pr : proc) (q : pipe) (s : kst) (c bytes : list Z).
Context (Hctx : pipe_ctx pi p pr q s) (Hrep : pipe_rep q c) (Hopen : pi_readopen q = true).
Context (Haddr : 0 <= addr) (Hend : addr + Z.of_nat (length bytes) <= MAXVA).
Context (Hbytes : forall i, (i < length bytes)%nat ->
  ubyte (k_heap s) (p_pagetable pr) (addr + Z.of_nat i) = bytes !! i).
Context (Hroom : (length c + length bytes <= Z.to_nat PIPESIZE)%nat).

(** the state in the loop, with the pipe lock held and the pipe [q'] *)
Let st (q' : pipe) : kst := set_k_heap <[pi := PPipe q']> (set_k_held (cons (Lpipe pi)) s).

Lemma write_turn k q' :
  (k < length bytes)%nat -> pipe_rep q' (c ++ take k bytes) -> pi_readopen q' = true ->
  exists x, bytes !! k = Some x /\
    copyin (p_pagetable pr) (u64 (addr + Z.of_nat k)) 1 (st q') = Ok ([x], 0) (st q').
Proof using Hctx Haddr Hend Hbytes Hroom.
  intros Hk Hq' Ho. destruct (lookup_lt_is_Some_2 bytes k Hk) as [x Hx]. exists x. split; [done|].
  assert (Hnt : k_heap s !! pi ≫= as_ptes = None) by (by rewrite (px_pipe _ _ _ _ _ Hctx)).
  assert (Hnb : k_heap s !! pi ≫= as_bytes = None) by (by rewrite (px_pipe _ _ _ _ _ Hctx)).
  rewrite wrap_small by (unfold MAXVA in *; lia).
  apply (copyin_ok (p_pagetable pr) (addr + Z.of_nat k) (st q') [x]); cbn -[Z.of_nat].
  - apply pt_ok_other; [done|done|apply Hctx].
  - rewrite lookup_insert. case_decide; [done|by rewrite (px_null _ _ _ _ _ Hctx)].
  - lia.
  - change (Z.of_nat 1) with 1. lia.
  - intros i Hi. assert (i = 0%nat) as -> by lia. rewrite ubyte_other by done.
    rewrite Z.add_0_r. by rewrite Hbytes, Hx.
Qed.

(** C26. [pipewrite] is the enqueue of a bounded byte queue: with room for all
    the bytes and a reader that has not closed, it returns their number, the
    queue is followed by the bytes of user memory, and the processes waiting to
    read are made runnable. *)
Theorem pipewrite_enqueues :
  exists q', pipewrite pi addr (Z.of_nat (length bytes)) s =
    Ok (Z.of_nat (length bytes))
       (set_k_psched (wakeup_table (ChPipeRead pi) (Some p)) (set_k_heap <[pi := PPipe q']> s)) /\
    pipe_rep q' (c ++ bytes) /\ pi_readopen q' = pi_readopen q /\ pi_writeopen q' = pi_writeopen q.
Proof using All.
  enough (H : wp (pipewrite pi addr (Z.of_nat (length bytes))) s (fun r s' =>
    r = Z.of_nat (length bytes) /\ exists q',
    s' = set_k_psched (wakeup_table (ChPipeRead pi) (Some p)) (set_k_heap <[pi := PPipe q']> s) /\
    pipe_rep q' (c ++ bytes) /\ pi_readopen q' = pi_readopen q /\ pi_writeopen q' = pi_writeopen q)).
  { apply wp_ok in H as (r & s' & E & -> & q' & -> & H). eauto. }
  set (n := length bytes) in *. unfold pipewrite. kunfold.
  apply wp_bind. eapply wp_deref; [apply Hctx|]. apply wp_bind. eapply wp_deref; [apply Hctx|].
  apply wp_bind, wp_acquire; [apply Hctx|]. apply wp_bind.
  apply (wp_loop _ (fun i => Z.to_nat (Z.of_nat n - i)) (fun i s1 => exists k q',
    i = Z.of_nat k /\ (k <= n)%nat /\ s1 = st q' /\ pipe_rep q' (c ++ take k bytes) /\
    pi_readopen q' = pi_readopen q /\ pi_writeopen q' = pi_writeopen q)).
  { exists 0%nat, q. rewrite take_0, app_nil_r. split_and!; try done; [lia|].
    unfold st. kst_eq. symmetry. apply insert_id, Hctx. }
  { lia. }
  intros i s1 (k & q' & -> & Hk & -> & Hq' & Hro & Hwo). cbv beta.
  destruct (Z.of_nat k <? Z.of_nat n) eqn:E; zbool.
  - apply wp_bind. eapply wp_deref; [cbn; by rewrite lookup_insert_eq|].
    assert (pi_readopen q' = true) as -> by congruence. cbn [negb]. destruct (px_alive _ _ _ _ _ Hctx) as (ps & Hps & Halive).
    apply wp_bind. eapply wp_run; [apply (killed_ok p ps); [done|cbn]|].
    { pose proof (px_plock _ _ _ _ _ Hctx p). set_solver. }
    rewrite Halive, (pipe_full _ _ Hq'), bool_decide_false by (rewrite length_app, length_take; lia).
    destruct (write_turn k q' ltac:(lia) Hq' ltac:(congruence)) as (x & Hx & Hcopy).
    apply wp_bind. eapply wp_run; [exact Hcopy|]. cbn [snd Z.eqb].
    apply wp_bind. eapply wp_run; [apply upd_pipe_ok; cbn; by rewrite lookup_insert_eq|]. apply wp_ret.
    split; [|lia]. exists (S k), (push x q'). split_and!; [lia|lia| | |exact Hro|exact Hwo].
    + unfold st. kst_eq. by rewrite insert_insert_eq.
    + rewrite (take_S_r _ _ _ Hx), app_assoc. apply pipe_push; [done|].
      rewrite length_app, length_take. lia.
  - apply wp_ret. apply wp_bind. eapply wp_run; [apply wakeup_ok|].
    { apply Hctx. }
    { intros j. cbn. pose proof (px_plock _ _ _ _ _ Hctx j). set_solver. }
    apply wp_bind. eapply wp_release; [done|]. apply wp_ret. split; [lia|].
    exists q'. rewrite take_ge in Hq' by lia. split_and!; try done.
    cbn. rewrite (px_cur _ _ _ _ _ Hctx). kst_eq.
Qed.
End Write.

(** ** Reading *)

Lemma viewed_step pt addr src k x h h1 h2 :
  viewed pt addr src k h h1 -> copied pt (addr + Z.of_nat k) [x] 1 h1 h2 -> src !! k = Some x ->
  viewed pt addr src (S k) h h2.
Proof.
  intros [V1 V2 V3 V4 V5] [C1 C2 C3 C4 C5] Hx. split.
  - done.
  - intros va. by rewrite C2.
  - auto.
  - intros va Hva. rewrite C4, V4 by done. change (Z.of_nat 1) with 1.
    destruct (decide (va = addr + Z.of_nat k)) as [->|Hne].
    + rewrite !(proj2 (Z.leb_le _ _)), !(proj2 (Z.ltb_lt _ _)) by lia. cbn [andb].
      replace (addr + Z.of_nat k - addr) with (Z.of_nat k) by lia.
      by rewrite (proj2 (Z.ltb_lt _ _)), Z.sub_diag, Nat2Z.id, Hx by lia.
    + destruct (addr + Z.of_nat k <=? va) eqn:E1, (va <? addr + Z.of_nat k + 1) eqn:E2,
        (addr <=? va) eqn:E3, (va <? addr + Z.of_nat k) eqn:E4, (va <? addr + Z.of_nat (S k)) eqn:E5;
        zbool; (done || lia).
  - by rewrite C5.
Qed.

Lemma viewed_pipe pt addr src k h h1 pi q q' :
  viewed pt addr src k h h1 -> h1 !! pi = Some (PPipe q) ->
  viewed pt addr src k h (<[pi := PPipe q']> h1).
Proof.
  intros [V1 V2 V3 V4 V5] Hpi.
  assert (Hnt : h1 !! pi ≫= as_ptes = None) by (by rewrite Hpi).
  assert (Hnb : h1 !! pi ≫= as_bytes = None) by (by rewrite Hpi). split.
  - by apply pt_ok_other.
  - intros va. by rewrite translate_other.
  - intros va Hw. destruct (V3 va Hw) as (v & l & H1 & H2 & H3 & H4 & H5). exists v, l.
    rewrite translate_other by done. rewrite lookup_insert_ne by congruence. done.
  - intros va Hva. rewrite ubyte_other by done. by apply V4.
  - rewrite lookup_insert. case_decide; [done|done].
Qed.

Section Read.
Context (pi addr : Z) (p : nat) (pr : proc) (q : pipe) (s : kst) (c : list Z) (n : nat).
Context (Hctx : pipe_ctx pi p pr q s) (Hrep : pipe_rep q c) (Hun : unshared (k_heap s) (p_pagetable pr)).
Context (Hsome : c <> [] \/ pi_writeopen q = false).
Let m : nat := Nat.min n (length c).
Context (Haddr : 0 <= addr) (Hend : addr + Z.of_nat m <= MAXVA).
Context (Hw : forall i, (i < m)%nat -> uwritable (k_heap s) (p_pagetable pr) (addr + Z.of_nat i)).

Let st (h : gmap Z pobj) : kst := set_k_heap (fun _ => h) (set_k_held (cons (Lpipe pi)) s).

(** moving byte [k] of the queue to user memory *)
Lemma read_turn k h1 q' x :
  (k < m)%nat -> viewed (p_pagetable pr) addr c k (k_heap s) h1 -> h1 !! pi = Some (PPipe q') ->
  c !! k = Some x ->
  wp (copyout (p_pagetable pr) (u64 (addr + Z.of_nat k)) [x]) (st h1) (fun r s2 =>
    r = 0 /\ exists h2, s2 = st h2 /\ viewed (p_pagetable pr) addr c (S k) (k_heap s) h2 /\
    h2 !! pi = Some (PPipe q')).
Proof using Hun Haddr Hend Hw.
  intros Hk V Hpi Hx. rewrite wrap_small by (unfold MAXVA in *; lia).
  eapply wp_mono; [apply copyout_wp|].
  - apply V.
  - apply V.
  - by eapply viewed_unshared.
  - lia.
  - simpl length. lia.
  - intros i Hi. simpl in Hi. assert (i = 0%nat) as -> by lia. rewrite Z.add_0_r.
    apply V, Hw. lia.
  - intros r s2 (-> & C & Es). split; [done|]. exists (k_heap s2). split_and!.
    + rewrite Es at 1. unfold st. kst_eq.
    + by eapply viewed_step.
    + rewrite (cp_frame _ _ _ _ _ _ C); cbn; by rewrite Hpi.
Qed.

(** what [piperead] returns and leaves *)
Let read_post (r : Z) (s' : kst) : Prop :=
  r = Z.of_nat m /\ exists q' h',
    s' = set_k_psched (wakeup_table (ChPipeWrite pi) (Some p)) (set_k_heap (fun _ => h') s) /\
    h' !! pi = Some (PPipe q') /\ pipe_rep q' (drop m c) /\
    viewed (p_pagetable pr) addr c m (k_heap s) h'.

Lemma read_nowait : wp (piperead_wait pi p) (st (k_heap s)) (fun r s' => r = true /\ s' = st (k_heap s)).
Proof using Hctx Hrep Hsome.
  unfold piperead_wait, load_pipe.
  apply (wp_loop _ (fun _ => O) (fun _ s1 => s1 = st (k_heap s))); [done|by apply Nat.ltb_lt|].
  intros _ s1 ->. apply wp_bind. eapply wp_deref; [cbn; by rewrite (px_pipe _ _ _ _ _ Hctx)|].
  assert ((pi_nread q =? pi_nwrite q) && pi_writeopen q = false) as ->.
  { rewrite (pipe_empty _ _ Hrep). destruct Hsome as [Hc| ->]; [by rewrite bool_decide_false|apply andb_false_r]. }
  by apply wp_ret.
Qed.

Lemma read_finish k q' h1 :
  k = m -> h1 !! pi = Some (PPipe q') -> pipe_rep q' (drop k c) ->
  viewed (p_pagetable pr) addr c k (k_heap s) h1 ->
  wp (wakeup (ChPipeWrite pi);; release (Lpipe pi);; mret (Z.of_nat k)) (st h1) read_post.
Proof using All.
  intros -> Hpi Hq' V. apply wp_bind. eapply wp_run; [apply wakeup_ok|].
  { apply Hctx. }
  { intros j. cbn. pose proof (px_plock _ _ _ _ _ Hctx j). set_solver. }
  apply wp_bind. eapply wp_release; [done|]. apply wp_ret. split; [done|].
  exists q', h1. split_and!; try done. cbn. rewrite (px_cur _ _ _ _ _ Hctx). kst_eq.
Qed.

(** C27. [piperead] is the dequeue of a bounded byte queue: when the queue is not
    empty or no writer is left, it returns the number of bytes asked for or
    present, whichever is less; these bytes are in user memory at [addr], no
    other byte of the address space has changed, the rest stays in the queue
    and the processes waiting to write are made runnable. *)
Theorem piperead_dequeues :
  exists q' h', piperead pi addr (Z.of_nat n) s =
    Ok (Z.of_nat m)
       (set_k_psched (wakeup_table (ChPipeWrite pi) (Some p)) (set_k_heap (fun _ => h') s)) /\
    h' !! pi = Some (PPipe q') /\ pipe_rep q' (drop m c) /\
    (forall va, 0 <= va < MAXVA -> ubyte h' (p_pagetable pr) va =
       if (addr <=? va) && (va <? addr + Z.of_nat m) then c !! Z.to_nat (va - addr)
       else ubyte (k_heap s) (p_pagetable pr) va).
Proof using All.
  enough (H : wp (piperead pi addr (Z.of_nat n)) s read_post).
  { apply wp_ok in H as (r & s' & E & -> & q' & h' & -> & Hq & Hr & V). exists q', h'.
    split_and!; [done..|apply V]. }
  unfold piperead. kunfold.
  apply wp_bind. eapply wp_deref; [apply Hctx|]. apply wp_bind. eapply wp_deref; [apply Hctx|].
  apply wp_bind, wp_acquire; [apply Hctx|]. apply wp_bind.
  replace (set_k_held (cons (Lpipe pi)) s) with (st (k_heap s)) by (unfold st; kst_eq).
  eapply wp_mono; [apply read_nowait|]. intros r s1 [-> ->]. cbn [negb]. apply wp_bind.
  apply (wp_loop _ (fun i => Z.to_nat (Z.of_nat n - i)) (fun i s1 => exists k q' h1,
    i = Z.of_nat k /\ (k <= m)%nat /\ s1 = st h1 /\ h1 !! pi = Some (PPipe q') /\
    pipe_rep q' (drop k c) /\ viewed (p_pagetable pr) addr c k (k_heap s) h1)).
  { exists 0%nat, q, (k_heap s). rewrite drop_0. split_and!; try done; [lia|apply Hctx|].
    apply viewed_0; [apply Hctx|by rewrite (px_null _ _ _ _ _ Hctx)]. }
  { lia. }
  intros i s1 (k & q' & h1 & -> & Hk & -> & Hpi & Hq' & V). cbv beta.
  destruct (Z.of_nat k <? Z.of_nat n) eqn:E; zbool.
  2: { apply wp_ret. eapply read_finish; eauto. lia. }
  apply wp_bind. eapply wp_deref; [cbn; by rewrite Hpi|]. rewrite (pipe_empty _ _ Hq').
  case_bool_decide as Hemp.
  { apply wp_ret. eapply read_finish; eauto. apply (f_equal length) in Hemp. rewrite length_drop in Hemp. simpl in Hemp. lia. }
  destruct (drop k c) as [|x c'] eqn:Ec; [done|].
  assert (Hx : c !! k = Some x) by (by rewrite <- (Nat.add_0_r k), <- lookup_drop, Ec).
  apply lookup_lt_Some in Hx as Hlt. destruct (pipe_pop _ _ _ Hq') as [Hdata Hpop].
  apply wp_bind. eapply wp_deref; [exact Hdata|]. apply wp_bind.
  eapply wp_mono; [apply (read_turn k h1 q' x); (done || lia)|].
  intros r s2 (-> & h2 & -> & V2 & Hpi2). cbn [Z.eqb].
  apply wp_bind. eapply wp_run; [by apply upd_pipe_ok|]. apply wp_ret. split; [|lia].
  exists (S k), (set_pi_nread (fun x => u32 (x + 1)) q'), (<[pi := PPipe (set_pi_nread (fun x => u32 (x + 1)) q')]> h2).
  split_and!; [lia|lia|unfold st; kst_eq|by rewrite lookup_insert_eq| |by eapply viewed_pipe].
  enough (drop (S k) c = c') as -> by done.
  by rewrite <- Nat.add_1_r, <- drop_drop, Ec.
Qed.
End Read.
End Pipe.
