(* ===== verification/Sysfile.v ===== *)
(** * System call arguments ([syscall.c]) and file system calls ([sysfile.c])

    A system call gives its 64-bit result as an integer, -1 for errors.  The
    arguments are the registers [a0] to [a5] of the trap frame.  [sys_exec] is
    in file Exec. *)

From S2P Require Import Prelude Monad CString Types Kernel Kalloc Vm Uart Printf Console Bio Log Tx FsBlock Inode Dir File.
From stdpp Require Import base numbers list gmap strings.
From Stdlib Require Import ZArith Lia.

Open Scope Z_scope.

(** ** The trap frame *)

(** the index of a register in [struct trapframe] *)
Definition TF_KERNEL_SATP : nat := 0.
Definition TF_KERNEL_SP : nat := 1.
Definition TF_KERNEL_TRAP : nat := 2.
Definition TF_EPC : nat := 3.
Definition TF_KERNEL_HARTID : nat := 4.
Definition TF_SP : nat := 6.
Definition TF_A0 : nat := 14.
Definition TF_A1 : nat := 15.
Definition TF_A7 : nat := 21.

Definition tf_get (p i : nat) : K Z :=
  pr ← get_proc p;
  tf ← load_tf (p_trapframe pr);
  deref (fun _ => tf !! i).

Definition tf_set (p i : nat) (v : Z) : K unit :=
  pr ← get_proc p;
  tf ← load_tf (p_trapframe pr);
  store (p_trapframe pr) (PTf (<[i := v]> tf)).

(** ** Arguments *)

Section Args.
Context {L : Layout}.

Definition fetchaddr (addr : Z) : K (option Z) :=
  p ← myproc;
  pr ← get_proc p;
  if (p_sz pr <=? addr) || (p_sz pr <? u64 (addr + 8)) then mret None else
  r ← copyin (p_pagetable pr) addr 8;
  if negb (r.2 =? 0) then mret None else mret (Some (le_value r.1)).

(** [None] for the result -1; the string otherwise, whose [strlen] is the
    result *)
Definition fetchstr (addr max : Z) : K (option (list Z)) :=
  p ← myproc;
  pr ← get_proc p;
  r ← copyinstr (p_pagetable pr) addr max;
  if r.2 <? 0 then mret None else mret (Some r.1).

Definition argraw (n : Z) : K Z :=
  p ← myproc;
  if (0 <=? n) && (n <=? 5) then tf_get p (TF_A0 + Z.to_nat n) else panic "argraw".

Definition argint (n : Z) : K Z := x ← argraw n; mret (s32 x).

Definition argaddr (n : Z) : K Z := argraw n.

Definition argstr (n max : Z) : K (option (list Z)) := addr ← argaddr n; fetchstr addr max.

(** ** Descriptors *)

Definition argfd (n : Z) : K (option (Z * nat)) :=
  fd ← argint n;
  if (fd <? 0) || (Z.of_nat NOFILE <=? fd) then mret None else
  p ← myproc;
  pr ← get_proc p;
  f ← deref (fun _ => p_ofile pr !! Z.to_nat fd);
  mret ((fun f => (fd, f)) <$> f).

Definition set_ofile (fd : Z) (f : option nat) : K unit :=
  p ← myproc;
  upd_proc p (set_p_ofile <[Z.to_nat fd := f]>).

Definition fdalloc (f : nat) : K Z :=
  p ← myproc;
  r ← for_find (seqZ 0 (Z.of_nat NOFILE)) (fun fd =>
    pr ← get_proc p;
    g ← deref (fun _ => p_ofile pr !! Z.to_nat fd);
    match g with
    | None => upd_proc p (set_p_ofile <[Z.to_nat fd := Some f]>);; mret (Some fd)
    | Some _ => mret None
    end);
  mret (default (-1) r).

Definition sys_dup : K Z :=
  a ← argfd 0;
  match a with
  | None => mret (-1)
  | Some (_, f) =>
      fd ← fdalloc f;
      if fd <? 0 then mret (-1) else
      filedup f;;
      mret fd
  end.

Definition sys_read : K Z :=
  p ← argaddr 1;
  n ← argint 2;
  a ← argfd 0;
  match a with None => mret (-1) | Some (_, f) => fileread f p n end.

Definition sys_write : K Z :=
  p ← argaddr 1;
  n ← argint 2;
  a ← argfd 0;
  match a with None => mret (-1) | Some (_, f) => filewrite f p n end.

Definition sys_close : K Z :=
  a ← argfd 0;
  match a with
  | None => mret (-1)
  | Some (fd, f) => set_ofile fd None;; fileclose f;; mret 0
  end.

Definition sys_fstat : K Z :=
  st ← argaddr 1;
  a ← argfd 0;
  match a with None => mret (-1) | Some (_, f) => filestat f st end.

(** ** Links *)

(** an uninitialised [char name[DIRSIZ]] *)
Definition name0 : list Z := replicate (Z.to_nat DIRSIZ) 0.

(** the label [bad] of [sys_link] *)
Definition link_bad (ip : nat) : K Z :=
  ilock ip;;
  ipd ← idata ip;
  upd_inode_data ipd (set_d_nlink (fun n => s16 (n - 1)));;
  iupdate ip;;
  iunlockput ip;;
  end_op;;
  mret (-1).

(** [sys_link] after the link count of [ip] has been incremented *)
Definition link_into (ip : nat) (new : list Z) : K Z :=
  r ← nameiparent new name0;
  match r with
  | (None, _) => link_bad ip
  | (Some dp, name) =>
      ilock dp;;
      di ← get_ip dp;
      ii ← get_ip ip;
      e ← (if negb (i_dev di =? i_dev ii) then mret (-1) else dirlink dp name (i_inum ii));
      if e <? 0 then iunlockput dp;; link_bad ip else
      iunlockput dp;;
      iput ip;;
      end_op;;
      mret 0
  end.

Definition sys_link : K Z :=
  old ← argstr 0 MAXPATH;
  new ← (match old with None => mret None | Some _ => argstr 1 MAXPATH end);
  match old, new with
  | Some old, Some new =>
      begin_op;;
      r ← namei old;
      match r with
      | None => end_op;; mret (-1)
      | Some ip =>
          ilock ip;;
          ipd ← idata ip;
          d ← load_inode ipd;
          if d_type d =? T_DIR then iunlockput ip;; end_op;; mret (-1) else
          upd_inode_data ipd (set_d_nlink (fun n => s16 (n + 1)));;
          iupdate ip;;
          iunlock ip;;
          link_into ip new
      end
  | _, _ => mret (-1)
  end.

(** the size is read again at each turn; [off] is an [int] *)
Definition isdirempty (dp : nat) : K bool :=
  d ← idata dp;
  dd ← load_inode d;
  loop (dir_fuel (d_size dd)) (fun off =>
    d ← idata dp;
    dd ← load_inode d;
    if off <? d_size dd then
      de ← read_dirent dp off "isdirempty: readi";
      if negb (de_inum de =? 0) then mret (inr false) else mret (inl (off + sizeof_dirent))
    else mret (inr true)) (2 * sizeof_dirent).

(** the label [bad] of [sys_unlink] *)
Definition unlink_bad (dp : nat) : K Z := iunlockput dp;; end_op;; mret (-1).

(** [sys_unlink] once the entry for [ip] was found at [off] of [dp] *)
Definition unlink_at (dp ip : nat) (off : Z) : K Z :=
  ilock ip;;
  ipd ← idata ip;
  d ← load_inode ipd;
  if d_nlink d <? 1 then panic "unlink: nlink < 1" else
  empty ← (if d_type d =? T_DIR then isdirempty ip else mret true);
  if negb empty then iunlockput ip;; unlink_bad dp else
  modify (set_k_kbuf (fun _ => replicate (Z.to_nat sizeof_dirent) 0));;
  r ← writei dp (AStack 0) off sizeof_dirent;
  if negb (r =? sizeof_dirent) then panic "unlink: writei" else
  d ← load_inode ipd;
  when (d_type d =? T_DIR)
    (dd ← idata dp;
     upd_inode_data dd (set_d_nlink (fun n => s16 (n - 1)));;
     iupdate dp);;
  iunlockput dp;;
  upd_inode_data ipd (set_d_nlink (fun n => s16 (n - 1)));;
  iupdate ip;;
  iunlockput ip;;
  end_op;;
  mret 0.

Definition sys_unlink : K Z :=
  path ← argstr 0 MAXPATH;
  match path with
  | None => mret (-1)
  | Some path =>
      begin_op;;
      r ← nameiparent path name0;
      match r with
      | (None, _) => end_op;; mret (-1)
      | (Some dp, name) =>
          ilock dp;;
          if (namecmp name (chars ".") =? 0) || (namecmp name (chars "..") =? 0)
          then unlink_bad dp else
          r ← dirlookup dp name;
          match r with
          | None => unlink_bad dp
          | Some (ip, off) => unlink_at dp ip off
          end
      end
  end.

(** ** Creating and opening *)

(** the label [fail] of [create] *)
Definition create_fail (ip dp : nat) (ipd : Z) : K (option nat) :=
  upd_inode_data ipd (set_d_nlink (fun _ => 0));;
  iupdate ip;;
  iunlockput ip;;
  iunlockput dp;;
  mret None.

(** [create] with a fresh inode [ip] *)
Definition create_new (dp ip : nat) (name : list Z) (type major minor : Z) : K (option nat) :=
  ilock ip;;
  ipd ← idata ip;
  upd_inode_data ipd (fun d => set_d_nlink (fun _ => 1)
    (set_d_minor (fun _ => minor) (set_d_major (fun _ => major) d)));;
  iupdate ip;;
  ii ← get_ip ip;
  e ← (if type =? T_DIR then
         e ← dirlink ip (chars ".") (i_inum ii);
         if e <? 0 then mret e else
         di ← get_ip dp; dirlink ip (chars "..") (i_inum di)
       else mret 0);
  if e <? 0 then create_fail ip dp ipd else
  e ← dirlink dp name (i_inum ii);
  if e <? 0 then create_fail ip dp ipd else
  when (type =? T_DIR)
    (dd ← idata dp;
     upd_inode_data dd (set_d_nlink (fun n => s16 (n + 1)));;
     iupdate dp);;
  iunlockput dp;;
  mret (Some ip).

Definition create (path : list Z) (type major minor : Z) : K (option nat) :=
  r ← nameiparent path name0;
  match r with
  | (None, _) => mret None
  | (Some dp, name) =>
      ilock dp;;
      r ← dirlookup dp name;
      match r with
      | Some (ip, _) =>
          iunlockput dp;;
          ilock ip;;
          ipd ← idata ip;
          d ← load_inode ipd;
          if (type =? T_FILE) && ((d_type d =? T_FILE) || (d_type d =? T_DEVICE))
          then mret (Some ip)
          else iunlockput ip;; mret None
      | None =>
          di ← get_ip dp;
          r ← ialloc (i_dev di) type;
          match r with
          | None => iunlockput dp;; mret None
          | Some ip => create_new dp ip name type major minor
          end
      end
  end.

Definition flag (omode f : Z) : bool := negb (Z.land omode f =? 0).

(** what both error paths of [sys_open] after the lookup do *)
Definition open_bad (ip : nat) : K Z := iunlockput ip;; end_op;; mret (-1).

(** [sys_open] with the locked inode [ip] *)
Definition open_inode (ip : nat) (omode : Z) : K Z :=
  ipd ← idata ip;
  d ← load_inode ipd;
  if (d_type d =? T_DEVICE) && ((d_major d <? 0) || (NDEV <=? d_major d)) then open_bad ip else
  f ← filealloc;
  match f with
  | None => open_bad ip
  | Some f =>
      fd ← fdalloc f;
      if fd <? 0 then fileclose f;; open_bad ip else
      d ← load_inode ipd;
      (if d_type d =? T_DEVICE then
         upd_file f (fun g => set_f_major (fun _ => d_major d) (set_f_type (fun _ => FD_DEVICE) g))
       else
         upd_file f (fun g => set_f_off (fun _ => 0) (set_f_type (fun _ => FD_INODE) g)));;
      upd_file f (fun g =>
        set_f_writable (fun _ => flag omode O_WRONLY || flag omode O_RDWR)
          (set_f_readable (fun _ => negb (flag omode O_WRONLY)) (set_f_ip (fun _ => Some ip) g)));;
      d ← load_inode ipd;
      when (flag omode O_TRUNC && (d_type d =? T_FILE)) (itrunc ip);;
      iunlock ip;;
      end_op;;
      mret fd
  end.

Definition sys_open : K Z :=
  omode ← argint 1;
  path ← argstr 0 MAXPATH;
  match path with
  | None => mret (-1)
  | Some path =>
      begin_op;;
      if flag omode O_CREATE then
        r ← create path T_FILE 0 0;
        match r with
        | None => end_op;; mret (-1)
        | Some ip => open_inode ip omode
        end
      else
        r ← namei path;
        match r with
        | None => end_op;; mret (-1)
        | Some ip =>
            ilock ip;;
            ipd ← idata ip;
            d ← load_inode ipd;
            if (d_type d =? T_DIR) && negb (omode =? O_RDONLY) then open_bad ip
            else open_inode ip omode
        end
  end.

Definition sys_mkdir : K Z :=
  begin_op;;
  path ← argstr 0 MAXPATH;
  r ← (match path with None => mret None | Some path => create path T_DIR 0 0 end);
  match r with
  | None => end_op;; mret (-1)
  | Some ip => iunlockput ip;; end_op;; mret 0
  end.

Definition sys_mknod : K Z :=
  begin_op;;
  major ← argint 1;
  minor ← argint 2;
  path ← argstr 0 MAXPATH;
  r ← (match path with
       | None => mret None
       | Some path => create path T_DEVICE (s16 major) (s16 minor)
       end);
  match r with
  | None => end_op;; mret (-1)
  | Some ip => iunlockput ip;; end_op;; mret 0
  end.

Definition sys_chdir : K Z :=
  p ← myproc;
  begin_op;;
  path ← argstr 0 MAXPATH;
  r ← (match path with None => mret None | Some path => namei path end);
  match r with
  | None => end_op;; mret (-1)
  | Some ip =>
      ilock ip;;
      d ← idata ip;
      dd ← load_inode d;
      if negb (d_type dd =? T_DIR) then iunlockput ip;; end_op;; mret (-1) else
      iunlock ip;;
      pr ← get_proc p;
      cwd ← deref (fun _ => p_cwd pr);
      iput cwd;;
      end_op;;
      upd_proc p (set_p_cwd (fun _ => Some ip));;
      mret 0
  end.

(** ** Pipes *)

Definition sys_pipe : K Z :=
  p ← myproc;
  fdarray ← argaddr 0;
  r ← pipealloc;
  match r with
  | None => mret (-1)
  | Some (rf, wf) =>
      fd0 ← fdalloc rf;
      fd1 ← (if fd0 <? 0 then mret (-1) else fdalloc wf);
      if fd1 <? 0 then
        when (0 <=? fd0) (set_ofile fd0 None);;
        fileclose rf;; fileclose wf;; mret (-1)
      else
        pr ← get_proc p;
        e ← copyout (p_pagetable pr) fdarray (le_bytes 4 fd0);
        e ← (if e <? 0 then mret e else
             copyout (p_pagetable pr) (u64 (fdarray + 4)) (le_bytes 4 fd1));
        if e <? 0 then
          set_ofile fd0 None;; set_ofile fd1 None;;
          fileclose rf;; fileclose wf;; mret (-1)
        else mret 0
  end.

End Args.
