(* ===== verification/Proc.v ===== *)
(** * Processes ([proc.c])

    [struct proc *] is the index of the process.  [forkret] is in file Trap,
    the scheduler in file Sched; sleep, wakeup and kill are in file Kernel. *)

From S2P Require Import Prelude Monad CString Types Kernel Kalloc Vm Uart Printf Console Bio Log Tx FsBlock Inode Dir File Sysfile.
From stdpp Require Import base numbers list gmap strings.
From Stdlib Require Import ZArith Lia.

Open Scope Z_scope.

(** a trap frame [kalloc] has just filled with bytes 5 *)
Definition junk_tf : list Z := replicate 36 0x0505050505050505.

Definition procinit : K unit :=
  for_each (seq 0 NPROC) (fun i =>
    upd_psched i (set_ps_state (fun _ => UNUSED));;
    upd_proc i (set_p_kstack (fun _ => KSTACK (Z.of_nat i)))).

Definition allocpid : K Z :=
  acquire Lpid;;
  pid ← gets k_nextpid;
  modify (set_k_nextpid (fun n => n + 1));;
  release Lpid;;
  mret pid.

Section Proc.
Context {L : Layout}.

(** ** Page tables of processes *)

Definition proc_pagetable (p : nat) : K Z :=
  pagetable ← uvmcreate;
  if pagetable =? 0 then mret 0 else
  r ← mappages pagetable TRAMPOLINE PGSIZE tramp_addr (Z.lor PTE_R PTE_X);
  if r <? 0 then uvmfree pagetable 0;; mret 0 else
  pr ← get_proc p;
  r ← mappages pagetable TRAPFRAME PGSIZE (p_trapframe pr) (Z.lor PTE_R PTE_W);
  if r <? 0 then
    uvmunmap pagetable TRAMPOLINE 1 false;;
    uvmfree pagetable 0;;
    mret 0
  else mret pagetable.

Definition proc_freepagetable (pagetable sz : Z) : K unit :=
  uvmunmap pagetable TRAMPOLINE 1 false;;
  uvmunmap pagetable TRAPFRAME 1 false;;
  uvmfree pagetable sz.

(** ** Allocation *)

Definition freeproc (p : nat) : K unit :=
  pr ← get_proc p;
  when (negb (p_trapframe pr =? 0)) (kfree (p_trapframe pr));;
  upd_proc p (set_p_trapframe (fun _ => 0));;
  when (negb (p_pagetable pr =? 0)) (proc_freepagetable (p_pagetable pr) (p_sz pr));;
  upd_proc p (fun q => set_p_name <[0%nat := 0]> (set_p_parent (fun _ => None)
    (set_p_pid (fun _ => 0) (set_p_sz (fun _ => 0) (set_p_pagetable (fun _ => 0) q)))));;
  upd_psched p (fun q => set_ps_state (fun _ => UNUSED) (set_ps_xstate (fun _ => 0)
    (set_ps_killed (fun _ => false) (set_ps_chan (fun _ => None) q))));;
  pr ← get_proc p;
  when (negb (p_tx pr =? 0)) (txfree (p_tx pr));;
  upd_proc p (set_p_tx (fun _ => 0)).

(** the search for an unused entry; it is returned with its lock held *)
Definition find_unused : K (option nat) :=
  for_find (seq 0 NPROC) (fun i =>
    acquire (Lproc i);;
    ps ← get_psched i;
    if bool_decide (ps_state ps = UNUSED) then mret (Some i)
    else release (Lproc i);; mret None).

Definition allocproc : K (option nat) :=
  r ← find_unused;
  match r with
  | None => mret None
  | Some p =>
      pid ← allocpid;
      upd_proc p (set_p_pid (fun _ => pid));;
      upd_psched p (set_ps_state (fun _ => USED));;
      tf ← kalloc;
      upd_proc p (set_p_trapframe (fun _ => tf));;
      if tf =? 0 then freeproc p;; release (Lproc p);; mret None else
      store tf (PTf junk_tf);;
      pt ← proc_pagetable p;
      upd_proc p (set_p_pagetable (fun _ => pt));;
      if pt =? 0 then freeproc p;; release (Lproc p);; mret None else
      pr ← get_proc p;
      upd_proc p (set_p_context (fun _ =>
        forkret_addr :: (p_kstack pr + PGSIZE) :: replicate 12 0));;
      tx ← txalloc;
      upd_proc p (set_p_tx (fun _ => tx));;
      mret (Some p)
  end.

Definition userinit : K unit :=
  r ← allocproc;
  modify (set_k_initproc (fun _ => r));;
  match r with
  | None => stuck
  | Some p =>
      cwd ← namei (chars "/");
      upd_proc p (set_p_cwd (fun _ => cwd));;
      upd_psched p (set_ps_state (fun _ => RUNNABLE));;
      release (Lproc p)
  end.

Definition growproc (n : Z) : K Z :=
  p ← myproc;
  pr ← get_proc p;
  let sz := p_sz pr in
  if 0 <? n then
    if TRAPFRAME <? u64 (sz + n) then mret (-1) else
    sz ← uvmalloc (p_pagetable pr) sz (u64 (sz + n)) PTE_W;
    if sz =? 0 then mret (-1) else
    upd_proc p (set_p_sz (fun _ => sz));; mret 0
  else if n <? 0 then
    sz ← uvmdealloc (p_pagetable pr) sz (u64 (sz + n));
    upd_proc p (set_p_sz (fun _ => sz));; mret 0
  else upd_proc p (set_p_sz (fun _ => sz));; mret 0.

(** ** fork, exit and wait *)

Definition kfork : K Z :=
  p ← myproc;
  r ← allocproc;
  match r with
  | None => mret (-1)
  | Some np =>
      pr ← get_proc p;
      nr ← get_proc np;
      e ← uvmcopy (p_pagetable pr) (p_pagetable nr) (p_sz pr);
      if e <? 0 then freeproc np;; release (Lproc np);; mret (-1) else
      upd_proc np (set_p_sz (fun _ => p_sz pr));;
      tf ← load_tf (p_trapframe pr);
      store (p_trapframe nr) (PTf tf);;
      tf_set np TF_A0 0;;
      for_each (seq 0 NOFILE) (fun i =>
        f ← deref (fun _ => p_ofile pr !! i);
        match f with
        | None => mret tt
        | Some f => filedup f;; upd_proc np (set_p_ofile <[i := Some f]>)
        end);;
      cwd ← deref (fun _ => p_cwd pr);
      idup cwd;;
      upd_proc np (set_p_cwd (fun _ => Some cwd));;
      upd_proc np (set_p_name (splice 0 (safestrcpy (p_name pr) 16)));;
      nr ← get_proc np;
      release (Lproc np);;
      acquire Lwait;;
      upd_proc np (set_p_parent (fun _ => Some p));;
      release Lwait;;
      acquire (Lproc np);;
      upd_psched np (set_ps_state (fun _ => RUNNABLE));;
      release (Lproc np);;
      mret (p_pid nr)
  end.

Definition reparent (p : nat) : K unit :=
  for_each (seq 0 NPROC) (fun i =>
    pp ← get_proc i;
    when (bool_decide (p_parent pp = Some p))
      (init ← gets k_initproc;
       upd_proc i (set_p_parent (fun _ => init));;
       q ← deref (fun _ => init);
       wakeup (ChProc q))).

(** [kexit] does not return: it leaves the CPU for good.  A null parent is a
    channel nobody sleeps on. *)
Definition kexit (status : Z) : K unit :=
  p ← myproc;
  init ← gets k_initproc;
  if bool_decide (init = Some p) then panic "init exiting" else
  for_each (seq 0 NOFILE) (fun fd =>
    pr ← get_proc p;
    f ← deref (fun _ => p_ofile pr !! fd);
    match f with
    | None => mret tt
    | Some f => fileclose f;; upd_proc p (set_p_ofile <[fd := None]>)
    end);;
  begin_op;;
  pr ← get_proc p;
  cwd ← deref (fun _ => p_cwd pr);
  iput cwd;;
  end_op;;
  upd_proc p (set_p_cwd (fun _ => None));;
  acquire Lwait;;
  reparent p;;
  pr ← get_proc p;
  match p_parent pr with Some q => wakeup (ChProc q) | None => mret tt end;;
  acquire (Lproc p);;
  upd_psched p (fun q => set_ps_state (fun _ => ZOMBIE) (set_ps_xstate (fun _ => status) q));;
  release Lwait;;
  sched ChNone;;
  panic "zombie exit".

(** one scan of the table by [kwait]: the result to return, if there is one,
    and whether there are children *)
Fixpoint kwait_scan (p : nat) (addr : Z) (l : list nat) (havekids : bool) : K (option Z * bool) :=
  match l with
  | [] => mret (None, havekids)
  | i :: l =>
      pp ← get_proc i;
      if negb (bool_decide (p_parent pp = Some p)) then kwait_scan p addr l havekids else
      acquire (Lproc i);;
      ps ← get_psched i;
      if bool_decide (ps_state ps = ZOMBIE) then
        pr ← get_proc p;
        pp ← get_proc i;
        e ← (if addr =? 0 then mret 0
             else copyout (p_pagetable pr) addr (le_bytes 4 (ps_xstate ps)));
        if e <? 0 then
          release (Lproc i);; release Lwait;; mret (Some (-1), true)
        else
          freeproc i;;
          release (Lproc i);;
          release Lwait;;
          mret (Some (p_pid pp), true)
      else
        release (Lproc i);;
        kwait_scan p addr l true
  end.

Definition kwait (addr : Z) : K Z :=
  p ← myproc;
  acquire Lwait;;
  loop WAKEUPS (fun _ : unit =>
    r ← kwait_scan p addr (seq 0 NPROC) false;
    match r with
    | (Some v, _) => mret (inr v)
    | (None, havekids) =>
        stop ← (if negb havekids then mret true else killed p);
        if (stop : bool) then release Lwait;; mret (inr (-1))
        else sleep (ChProc p) Lwait;; mret (inl tt)
    end) tt.

Definition yield : K unit :=
  p ← myproc;
  acquire (Lproc p);;
  upd_psched p (set_ps_state (fun _ => RUNNABLE));;
  sched ChNone;;
  release (Lproc p).

End Proc.
