(* ===== verification/Exec.v ===== *)
(** * exec ([exec.c]) and [sys_exec] ([sysfile.c])

    The ELF headers are read into a buffer on the kernel stack and decoded;
    the argument strings are lists of characters. *)

From S2P Require Import Prelude Monad CString Types Kernel Kalloc Vm Uart Printf Console Bio Log Tx FsBlock Inode Dir File Sysfile Proc.
From stdpp Require Import base numbers list gmap strings.
From Stdlib Require Import ZArith Lia.

Open Scope Z_scope.

Definition ELF_MAGIC : Z := 0x464C457F.
Definition ELF_PROG_LOAD : Z := 1.

Record elfhdr := Mk_elfhdr { elf_magic : Z; elf_entry : Z; elf_phoff : Z; elf_phnum : Z }.
Definition sizeof_elfhdr : Z := 64.

(** the fields of [struct elfhdr] that are used *)
Definition decode_elfhdr (b : list Z) : elfhdr :=
  Mk_elfhdr (le_value (slice 0 4 b)) (le_value (slice 24 8 b)) (le_value (slice 32 8 b))
    (le_value (slice 56 2 b)).

Record proghdr := Mk_proghdr {
  ph_type : Z; ph_flags : Z; ph_off : Z; ph_vaddr : Z; ph_paddr : Z;
  ph_filesz : Z; ph_memsz : Z; ph_align : Z
}.
Definition sizeof_proghdr : Z := 56.

Definition decode_proghdr (b : list Z) : proghdr :=
  let f i := le_value (slice i 8 b) in
  Mk_proghdr (le_value (slice 0 4 b)) (le_value (slice 4 4 b))
    (f 8%nat) (f 16%nat) (f 24%nat) (f 32%nat) (f 40%nat) (f 48%nat).

Definition flags2perm (flags : Z) : Z :=
  let perm := if negb (Z.land flags 1 =? 0) then PTE_X else 0 in
  if negb (Z.land flags 2 =? 0) then Z.lor perm PTE_W else perm.

(** the program name: what follows the last slash *)
Fixpoint last_elem (s last : list Z) : list Z :=
  match s with
  | [] => last
  | c :: s' => if c =? 0 then last else last_elem s' (if c =? SLASH then s' else last)
  end.

Section Exec.
Context {L : Layout}.

Definition loadseg (pagetable va : Z) (ip : nat) (offset sz : Z) : K Z :=
  loop (S (S (Z.to_nat (sz / PGSIZE)))) (fun i =>
    if i <? sz then
      pa ← walkaddr pagetable (u64 (va + i));
      if pa =? 0 then panic "loadseg: address should exist" else
      let n := if sz - i <? PGSIZE then sz - i else PGSIZE in
      r ← readi ip (APage pa) (u32 (offset + i)) n;
      if negb (u32 r =? n) then mret (inr (-1)) else mret (inl (u32 (i + PGSIZE)))
    else mret (inr 0)) 0.

(** the label [bad] of [kexec] *)
Definition exec_bad (pagetable sz : Z) (ip : option nat) : K Z :=
  when (negb (pagetable =? 0)) (proc_freepagetable pagetable sz);;
  match ip with
  | Some ip => iunlockput ip;; end_op
  | None => mret tt
  end;;
  mret (-1).

(** one program header at [off]: [inl sz] for [goto bad] with that size of
    user memory, [inr sz] to go on *)
Definition load_ph (pagetable : Z) (ip : nat) (off sz : Z) : K (Z + Z) :=
  r ← readi ip (AStack 0) (u32 off) sizeof_proghdr;
  if negb (r =? sizeof_proghdr) then mret (inl sz) else
  b ← gets k_kbuf;
  let ph := decode_proghdr b in
  if negb (ph_type ph =? ELF_PROG_LOAD) then mret (inr sz) else
  if ph_memsz ph <? ph_filesz ph then mret (inl sz) else
  if u64 (ph_vaddr ph + ph_memsz ph) <? ph_vaddr ph then mret (inl sz) else
  if negb (ph_vaddr ph mod PGSIZE =? 0) then mret (inl sz) else
  sz1 ← uvmalloc pagetable sz (u64 (ph_vaddr ph + ph_memsz ph)) (flags2perm (ph_flags ph));
  if sz1 =? 0 then mret (inl sz) else
  r ← loadseg pagetable (ph_vaddr ph) ip (u32 (ph_off ph)) (u32 (ph_filesz ph));
  mret (if r <? 0 then inl sz1 else inr sz1).

Definition load_segments (pagetable : Z) (ip : nat) (elf : elfhdr) : K (Z + Z) :=
  loop (S (Z.to_nat (elf_phnum elf))) (fun '(i, off, sz) =>
    if i <? elf_phnum elf then
      r ← load_ph pagetable ip off sz;
      match r with
      | inl sz => mret (inr (inl sz))
      | inr sz => mret (inl (i + 1, s32 (off + sizeof_proghdr), sz))
      end
    else mret (inr (inr sz))) (0, s32 (elf_phoff elf), 0).

(** the argument strings pushed on the new stack: the stack pointer and the
    addresses, or [None] for [goto bad] *)
Fixpoint push_args (pagetable stackbase : Z) (argv : list (list Z)) (sp : Z) (ustack : list Z) :
    K (option (Z * list Z)) :=
  match argv with
  | [] => mret (Some (sp, ustack))
  | s :: argv =>
      if Z.of_nat MAXARG <=? Z.of_nat (length ustack) then mret None else
      let sp := u64 (sp - (strlen s + 1)) in
      let sp := sp - sp mod 16 in
      if sp <? stackbase then mret None else
      r ← copyout pagetable sp (take (Z.to_nat (strlen s + 1)) (s ++ [0]));
      if r <? 0 then mret None else
      push_args pagetable stackbase argv sp (ustack ++ [sp])
  end.

(** [kexec] from the user stack on; the file is closed *)
Definition exec_stack (p : nat) (path : list Z) (argv : list (list Z)) (entry pagetable sz : Z) : K Z :=
  pr ← get_proc p;
  let oldsz := p_sz pr in
  let sz := PGROUNDUP sz in
  sz1 ← uvmalloc pagetable sz (u64 (sz + (USERSTACK + 1) * PGSIZE)) PTE_W;
  if sz1 =? 0 then exec_bad pagetable sz None else
  let sz := sz1 in
  uvmclear pagetable (u64 (sz - (USERSTACK + 1) * PGSIZE));;
  let stackbase := u64 (sz - USERSTACK * PGSIZE) in
  r ← push_args pagetable stackbase argv sz [];
  match r with
  | None => exec_bad pagetable sz None
  | Some (sp, ustack) =>
      let argc := Z.of_nat (length ustack) in
      let sp := u64 (sp - (argc + 1) * 8) in
      let sp := sp - sp mod 16 in
      if sp <? stackbase then exec_bad pagetable sz None else
      r ← copyout pagetable sp (concat (map (le_bytes 8) (ustack ++ [0])));
      if r <? 0 then exec_bad pagetable sz None else
      tf_set p TF_A1 sp;;
      upd_proc p (set_p_name (splice 0 (safestrcpy (last_elem path path) 16)));;
      pr ← get_proc p;
      upd_proc p (fun q => set_p_sz (fun _ => sz) (set_p_pagetable (fun _ => pagetable) q));;
      tf_set p TF_EPC entry;;
      tf_set p TF_SP sp;;
      proc_freepagetable (p_pagetable pr) oldsz;;
      mret argc
  end.

Definition kexec (path : list Z) (argv : list (list Z)) : K Z :=
  p ← myproc;
  begin_op;;
  r ← namei path;
  match r with
  | None => end_op;; mret (-1)
  | Some ip =>
      ilock ip;;
      r ← readi ip (AStack 0) 0 sizeof_elfhdr;
      if negb (r =? sizeof_elfhdr) then exec_bad 0 0 (Some ip) else
      b ← gets k_kbuf;
      let elf := decode_elfhdr b in
      if negb (elf_magic elf =? ELF_MAGIC) then exec_bad 0 0 (Some ip) else
      pagetable ← proc_pagetable p;
      if pagetable =? 0 then exec_bad 0 0 (Some ip) else
      r ← load_segments pagetable ip elf;
      match r with
      | inl sz => exec_bad pagetable sz (Some ip)
      | inr sz =>
          iunlockput ip;;
          end_op;;
          exec_stack p path argv (elf_entry elf) pagetable sz
      end
  end.

(** ** sys_exec *)

(** [kfree] of the argument pages *)
Definition free_args (argv : list Z) : K unit := for_each argv kfree.

(** the loop that fetches the arguments: the pages allocated so far, and
    whether to go on to [kexec].  (What [fetchstr] stores in a page before it
    fails is not kept: the page is freed.) *)
Definition fetch_args (uargv : Z) : K (list Z * bool) :=
  loop (S MAXARG) (fun argv =>
    let i := Z.of_nat (length argv) in
    if Z.of_nat MAXARG <=? i then mret (inr (argv, false)) else
    r ← fetchaddr (u64 (uargv + 8 * i));
    match r with
    | None => mret (inr (argv, false))
    | Some uarg =>
        if uarg =? 0 then mret (inr (argv, true)) else
        a ← kalloc;
        if a =? 0 then mret (inr (argv, false)) else
        r ← fetchstr uarg PGSIZE;
        match r with
        | None => mret (inr (argv ++ [a], false))
        | Some str =>
            store a (PBytes (splice 0 str (replicate (Z.to_nat PGSIZE) 5)));;
            mret (inl (argv ++ [a]))
        end
    end) [].

(** the strings in the argument pages *)
Fixpoint arg_strings (argv : list Z) : K (list (list Z)) :=
  match argv with
  | [] => mret []
  | a :: argv => s ← load_bytes a; l ← arg_strings argv; mret (s :: l)
  end.

Definition sys_exec : K Z :=
  uargv ← argaddr 1;
  path ← argstr 0 MAXPATH;
  match path with
  | None => mret (-1)
  | Some path =>
      r ← fetch_args uargv;
      if (r.2 : bool) then
        args ← arg_strings r.1;
        ret ← kexec path args;
        free_args r.1;;
        mret ret
      else free_args r.1;; mret (-1)
  end.

End Exec.
