(* ===== verification/Sysproc.v ===== *)
(** * Process system calls ([sysproc.c]) *)

From S2P Require Import Prelude Monad CString Types Kernel Kalloc Vm Uart Printf Console Bio Log Tx FsBlock Inode Dir File Sysfile Proc.
From stdpp Require Import base numbers list gmap strings.
From Stdlib Require Import ZArith Lia.

Open Scope Z_scope.

Section Sysproc.
Context {L : Layout}.

Definition sys_exit : K Z := n ← argint 0; kexit n;; mret 0.

Definition sys_getpid : K Z := p ← myproc; pr ← get_proc p; mret (p_pid pr).

Definition sys_fork : K Z := kfork.

Definition sys_wait : K Z := p ← argaddr 0; kwait p.

Definition sys_sbrk : K Z :=
  n ← argint 0;
  t ← argint 1;
  p ← myproc;
  pr ← get_proc p;
  let addr := p_sz pr in
  if (t =? SBRK_EAGER) || (n <? 0) then
    r ← growproc n;
    if r <? 0 then mret (-1) else mret addr
  else
    if u64 (addr + n) <? addr then mret (-1) else
    if TRAPFRAME <? u64 (addr + n) then mret (-1) else
    upd_proc p (set_p_sz (fun sz => u64 (sz + n)));;
    mret addr.

Definition sys_pause : K Z :=
  n ← argint 0;
  let n := if n <? 0 then 0 else n in
  acquire Lticks;;
  ticks0 ← gets k_ticks;
  r ← loop WAKEUPS (fun _ : unit =>
    ticks ← gets k_ticks;
    if u32 (ticks - ticks0) <? n then
      p ← myproc;
      k ← killed p;
      if (k : bool) then release Lticks;; mret (inr false)
      else sleep ChTicks Lticks;; mret (inl tt)
    else mret (inr true)) tt;
  if (r : bool) then release Lticks;; mret 0 else mret (-1).

Definition sys_kill : K Z := pid ← argint 0; kkill pid.

Definition sys_uptime : K Z :=
  acquire Lticks;;
  xticks ← gets k_ticks;
  release Lticks;;
  mret xticks.

End Sysproc.
