(* ===== verification/Virtio.v ===== *)
(** * The disk driver ([virtio_disk.c])

    The queues the driver shares with the device are part of [v_vdisk]; the
    device acts on them while the driver sleeps.  [vk_used_didx] is
    [disk.used->idx]. *)

From S2P Require Import Prelude Monad CString Types Kernel Kalloc Vm Uart.
From stdpp Require Import base numbers list gmap strings.
From Stdlib Require Import ZArith Lia.

Open Scope Z_scope.

Definition NUM : nat := 8.
Definition VRING_DESC_F_NEXT : Z := 1.
Definition VRING_DESC_F_WRITE : Z := 2.
Definition VIRTIO_BLK_T_IN : Z := 0.
Definition VIRTIO_BLK_T_OUT : Z := 1.

Definition VIRTIO_MMIO_MAGIC_VALUE : Z := 0x000.
Definition VIRTIO_MMIO_VERSION : Z := 0x004.
Definition VIRTIO_MMIO_DEVICE_ID : Z := 0x008.
Definition VIRTIO_MMIO_VENDOR_ID : Z := 0x00c.
Definition VIRTIO_MMIO_DEVICE_FEATURES : Z := 0x010.
Definition VIRTIO_MMIO_DRIVER_FEATURES : Z := 0x020.
Definition VIRTIO_MMIO_QUEUE_SEL : Z := 0x030.
Definition VIRTIO_MMIO_QUEUE_NUM_MAX : Z := 0x034.
Definition VIRTIO_MMIO_QUEUE_NUM : Z := 0x038.
Definition VIRTIO_MMIO_QUEUE_READY : Z := 0x044.
Definition VIRTIO_MMIO_QUEUE_NOTIFY : Z := 0x050.
Definition VIRTIO_MMIO_INTERRUPT_STATUS : Z := 0x060.
Definition VIRTIO_MMIO_INTERRUPT_ACK : Z := 0x064.
Definition VIRTIO_MMIO_STATUS : Z := 0x070.
Definition VIRTIO_MMIO_QUEUE_DESC_LOW : Z := 0x080.
Definition VIRTIO_MMIO_QUEUE_DESC_HIGH : Z := 0x084.
Definition VIRTIO_MMIO_DRIVER_DESC_LOW : Z := 0x090.
Definition VIRTIO_MMIO_DRIVER_DESC_HIGH : Z := 0x094.
Definition VIRTIO_MMIO_DEVICE_DESC_LOW : Z := 0x0a0.
Definition VIRTIO_MMIO_DEVICE_DESC_HIGH : Z := 0x0a4.

Definition VIRTIO_CONFIG_S_ACKNOWLEDGE : Z := 1.
Definition VIRTIO_CONFIG_S_DRIVER : Z := 2.
Definition VIRTIO_CONFIG_S_DRIVER_OK : Z := 4.
Definition VIRTIO_CONFIG_S_FEATURES_OK : Z := 8.

Definition VIRTIO_BLK_F_RO : Z := 5.
Definition VIRTIO_BLK_F_SCSI : Z := 7.
Definition VIRTIO_BLK_F_CONFIG_WCE : Z := 11.
Definition VIRTIO_BLK_F_MQ : Z := 12.
Definition VIRTIO_F_ANY_LAYOUT : Z := 27.
Definition VIRTIO_RING_F_INDIRECT_DESC : Z := 28.
Definition VIRTIO_RING_F_EVENT_IDX : Z := 29.

(** [*R(r)] as a value and as the target of an assignment *)
Definition readR (r : Z) : K Z := x ← mmio_read (VIRTIO0 + r); mret (u32 x).
Definition writeR (r v : Z) : K unit := mmio_write (VIRTIO0 + r) (u32 v).

Definition get_vd : K vdisk := gets (fun s => v_vdisk (k_dev s)).
Definition upd_vd (f : vdisk -> vdisk) : K unit := upd_dev (set_v_vdisk f).

Definition zero_desc : vdesc := Mk_vdesc VNull 0 0 0.

Section Virtio.
Context {L : Layout}.

(** ** Initialisation *)

(** the features the driver does not want *)
Definition refused_features : list Z :=
  [VIRTIO_BLK_F_RO; VIRTIO_BLK_F_SCSI; VIRTIO_BLK_F_CONFIG_WCE; VIRTIO_BLK_F_MQ;
   VIRTIO_F_ANY_LAYOUT; VIRTIO_RING_F_EVENT_IDX; VIRTIO_RING_F_INDIRECT_DESC].

Definition negotiate (features : Z) : Z :=
  foldl (fun f b => Z.land f (Z.lnot (Z.shiftl 1 b))) features refused_features.

(** three pages for the queues; their contents are [vk_desc], the avail and
    the used ring, zeroed *)
Definition alloc_queues : K (Z * Z * Z) :=
  desc ← kalloc;
  avail ← kalloc;
  used ← kalloc;
  if (desc =? 0) || (avail =? 0) || (used =? 0) then panic "virtio disk kalloc" else
  upd_vd (fun d =>
    set_vk_used_didx (fun _ => 0) (set_vk_used_ring (fun _ => replicate NUM 0)
      (set_vk_avail_idx (fun _ => 0) (set_vk_avail_ring (fun _ => replicate NUM 0)
        (set_vk_desc (fun _ => replicate NUM zero_desc) d)))));;
  mret (desc, avail, used).

Definition virtio_disk_init : K unit :=
  magic ← readR VIRTIO_MMIO_MAGIC_VALUE;
  if negb (magic =? 0x74726976) then panic "could not find virtio disk" else
  version ← readR VIRTIO_MMIO_VERSION;
  if negb (version =? 2) then panic "could not find virtio disk" else
  device ← readR VIRTIO_MMIO_DEVICE_ID;
  if negb (device =? 2) then panic "could not find virtio disk" else
  vendor ← readR VIRTIO_MMIO_VENDOR_ID;
  if negb (vendor =? 0x554d4551) then panic "could not find virtio disk" else
  writeR VIRTIO_MMIO_STATUS 0;;
  let status := VIRTIO_CONFIG_S_ACKNOWLEDGE in
  writeR VIRTIO_MMIO_STATUS status;;
  let status := Z.lor status VIRTIO_CONFIG_S_DRIVER in
  writeR VIRTIO_MMIO_STATUS status;;
  features ← readR VIRTIO_MMIO_DEVICE_FEATURES;
  writeR VIRTIO_MMIO_DRIVER_FEATURES (negotiate features);;
  let status := Z.lor status VIRTIO_CONFIG_S_FEATURES_OK in
  writeR VIRTIO_MMIO_STATUS status;;
  status ← readR VIRTIO_MMIO_STATUS;
  if Z.land status VIRTIO_CONFIG_S_FEATURES_OK =? 0 then panic "virtio disk FEATURES_OK unset" else
  writeR VIRTIO_MMIO_QUEUE_SEL 0;;
  ready ← readR VIRTIO_MMIO_QUEUE_READY;
  if negb (ready =? 0) then panic "virtio disk should not be ready" else
  max ← readR VIRTIO_MMIO_QUEUE_NUM_MAX;
  if max =? 0 then panic "virtio disk has no queue 0" else
  if max <? Z.of_nat NUM then panic "virtio disk max queue too short" else
  q ← alloc_queues;
  let '(desc, avail, used) := q in
  writeR VIRTIO_MMIO_QUEUE_NUM (Z.of_nat NUM);;
  writeR VIRTIO_MMIO_QUEUE_DESC_LOW desc;;
  writeR VIRTIO_MMIO_QUEUE_DESC_HIGH (Z.shiftr desc 32);;
  writeR VIRTIO_MMIO_DRIVER_DESC_LOW avail;;
  writeR VIRTIO_MMIO_DRIVER_DESC_HIGH (Z.shiftr avail 32);;
  writeR VIRTIO_MMIO_DEVICE_DESC_LOW used;;
  writeR VIRTIO_MMIO_DEVICE_DESC_HIGH (Z.shiftr used 32);;
  writeR VIRTIO_MMIO_QUEUE_READY 1;;
  upd_vd (set_vk_free (fun _ => replicate NUM true));;
  writeR VIRTIO_MMIO_STATUS (Z.lor status VIRTIO_CONFIG_S_DRIVER_OK).

(** ** Descriptors *)

Definition alloc_desc : K Z :=
  r ← for_find (seq 0 NUM) (fun i =>
    d ← get_vd;
    f ← deref (fun _ => vk_free d !! i);
    if (f : bool) then
      upd_vd (set_vk_free <[i := false]>);; mret (Some (Z.of_nat i))
    else mret None);
  mret (default (-1) r).

Definition free_desc (i : Z) : K unit :=
  if Z.of_nat NUM <=? i then panic "free_desc 1" else
  d ← get_vd;
  f ← deref (fun _ => vk_free d !! Z.to_nat i);
  if (f : bool) then panic "free_desc 2" else
  upd_vd (set_vk_desc <[Z.to_nat i := zero_desc]>);;
  upd_vd (set_vk_free <[Z.to_nat i := true]>);;
  wakeup ChDiskFree.

(** a chain visits a descriptor at most once: freeing one twice panics *)
Definition free_chain (i : Z) : K unit :=
  loop (S NUM) (fun i =>
    d ← get_vd;
    e ← deref (fun _ => vk_desc d !! Z.to_nat i);
    free_desc i;;
    if negb (Z.land (vd_flags e) VRING_DESC_F_NEXT =? 0) then mret (inl (vd_next e))
    else mret (inr tt)) i.

(** the indices allocated, or [None] for the result -1 *)
Definition alloc3_desc : K (option (Z * Z * Z)) :=
  i0 ← alloc_desc;
  if i0 <? 0 then mret None else
  i1 ← alloc_desc;
  if i1 <? 0 then free_desc i0;; mret None else
  i2 ← alloc_desc;
  if i2 <? 0 then free_desc i0;; free_desc i1;; mret None else
  mret (Some (i0, i1, i2)).

(** ** Requests *)

(** the three descriptors of a request for buffer [b], whose data is at [pa] *)
Definition format_request (b : nat) (pa sector : Z) (write : bool) (idx : Z * Z * Z) : K unit :=
  let '(i0, i1, i2) := idx in
  let n0 := Z.to_nat i0 in
  upd_vd (set_vk_ops <[n0 :=
    Mk_vreq (if write then VIRTIO_BLK_T_OUT else VIRTIO_BLK_T_IN) 0 sector]>);;
  upd_vd (set_vk_desc <[n0 := Mk_vdesc (VOp n0) 16 VRING_DESC_F_NEXT i1]>);;
  upd_vd (set_vk_desc <[Z.to_nat i1 :=
    Mk_vdesc (VData pa) BSIZE
      (Z.lor (if write then 0 else VRING_DESC_F_WRITE) VRING_DESC_F_NEXT) i2]>);;
  upd_vd (set_vk_status <[n0 := 0xff]>);;
  upd_vd (set_vk_desc <[Z.to_nat i2 := Mk_vdesc (VStatus n0) 1 VRING_DESC_F_WRITE 0]>);;
  upd_buf b (set_b_disk (fun _ => true));;
  upd_vd (set_vk_info_b <[n0 := Some b]>).

(** put the chain in the avail ring and notify the device *)
Definition submit (i0 : Z) : K unit :=
  upd_vd (fun d => set_vk_avail_ring
    <[Z.to_nat (vk_avail_idx d mod Z.of_nat NUM) := i0]> d);;
  upd_vd (set_vk_avail_idx (fun i => u16 (i + 1)));;
  writeR VIRTIO_MMIO_QUEUE_NOTIFY 0.

Definition virtio_disk_rw (b : nat) (write : bool) : K unit :=
  bb ← get_buf b;
  let sector := u32 (b_blockno bb * (BSIZE / 512)) in
  acquire Lvdisk;;
  idx ← loop WAKEUPS (fun _ : unit =>
    r ← alloc3_desc;
    match r with
    | Some idx => mret (inr idx)
    | None => sleep ChDiskFree Lvdisk;; mret (inl tt)
    end) tt;
  bb ← get_buf b;
  format_request b (b_data bb) sector write idx;;
  submit idx.1.1;;
  loop WAKEUPS (fun _ : unit =>
    bb ← get_buf b;
    if b_disk bb then sleep (ChBuf b) Lvdisk;; mret (inl tt) else mret (inr tt)) tt;;
  upd_vd (set_vk_info_b <[Z.to_nat idx.1.1 := None]>);;
  free_chain idx.1.1;;
  release Lvdisk.

(** at most [NUM] requests are in flight, so at most [NUM] are completed *)
Definition virtio_disk_intr : K unit :=
  acquire Lvdisk;;
  st ← readR VIRTIO_MMIO_INTERRUPT_STATUS;
  writeR VIRTIO_MMIO_INTERRUPT_ACK (Z.land st 0x3);;
  loop (S NUM) (fun _ : unit =>
    d ← get_vd;
    if vk_used_idx d =? vk_used_didx d then mret (inr tt) else
    id ← deref (fun _ => vk_used_ring d !! Z.to_nat (vk_used_idx d mod Z.of_nat NUM));
    st ← deref (fun _ => vk_status d !! Z.to_nat id);
    if negb (st =? 0) then panic "virtio_disk_intr status" else
    b ← deref (fun _ => mjoin (vk_info_b d !! Z.to_nat id));
    upd_buf b (set_b_disk (fun _ => false));;
    wakeup (ChBuf b);;
    upd_vd (set_vk_used_idx (fun i => u16 (i + 1)));;
    mret (inl tt)) tt;;
  release Lvdisk.

End Virtio.
