(* ===== verification/Systx.v ===== *)
(** * The transaction system calls ([systx.c]) *)

From S2P Require Import Prelude Monad Types Kernel Kalloc Vm Bio Log Tx FsBlock Inode.
From stdpp Require Import base numbers list gmap strings.
From Stdlib Require Import ZArith Lia.

Open Scope Z_scope.

Section Systx.
Context {L : Layout}.

Definition sys_txbegin : K Z :=
  p ← myproc;
  pr ← get_proc p;
  let tx := p_tx pr in
  if tx =? 0 then mret (-1) else
  upd_tx tx (set_tx_status (fun _ => TX_ACTIVE));;
  upd_tx tx (set_tx_workset_size (fun _ => 0));;
  acquire Lticks;;
  tk ← gets k_ticks;
  upd_tx tx (set_tx_start_time (fun _ => tk));;
  release Lticks;;
  upd_tx tx (set_tx_retry_count (fun _ => 0));;
  t ← load_tx tx;
  when (tx_saved_tf t =? 0)
    (a ← kalloc; upd_tx tx (set_tx_saved_tf (fun _ => a)));;
  t ← load_tx tx;
  words ← load_tf (p_trapframe pr);
  (if tx_saved_tf t =? 0 then stuck else store (tx_saved_tf t) (PTf words));;
  upd_tx tx (set_tx_kjmp_valid (fun _ => false));;
  mret 0.

(** the loop of [sys_txcommit] that installs the shadow copies *)
Definition install_shadow (ops : tx_ops) (tx : Z) (k : nat) : K unit :=
  e ← get_entry tx k;
  o ← deref (fun _ => we_header e);
  a ← get_data_ptr o;
  kfree a;;
  e ← get_entry tx k;
  set_data_ptr o (we_shadow e).

Definition sys_txcommit : K Z :=
  p ← myproc;
  pr ← get_proc p;
  let tx := p_tx pr in
  if tx =? 0 then mret (-1) else
  t ← load_tx tx;
  if negb (tx_status t =? TX_ACTIVE) then mret (-1) else
  upd_tx tx (set_tx_status (fun _ => TX_COMMITTED));;
  for_workset tx lock_fn;;
  for_workset tx install_shadow;;
  for_workset tx unlock_fn;;
  for_workset tx (commit_fn iput);;
  upd_tx tx (set_tx_workset_size (fun _ => 0));;
  upd_tx tx (set_tx_kjmp_valid (fun _ => false));;
  mret 0.

Definition sys_txabort : K Z :=
  p ← myproc;
  pr ← get_proc p;
  let tx := p_tx pr in
  if tx =? 0 then mret (-1) else
  t ← load_tx tx;
  if negb (tx_status t =? TX_ACTIVE) then mret (-1) else
  upd_tx tx (set_tx_status (fun _ => TX_ABORTED));;
  for_workset tx lock_fn;;
  for_workset tx unlock_fn;;
  for_workset tx (abort_fn iput);;
  upd_tx tx (set_tx_workset_size (fun _ => 0));;
  upd_tx tx (set_tx_kjmp_valid (fun _ => false));;
  mret 0.

Definition sys_txstatus : K Z :=
  p ← myproc;
  pr ← get_proc p;
  if p_tx pr =? 0 then mret (-1) else
  t ← load_tx (p_tx pr);
  mret (u64 (tx_status t)).

End Systx.
