(* ===== verification/Syscall.v ===== *)
(** * System call dispatch ([syscall.c])

    [ksetjmp] returns a second time when [klongjmp] is called: the outcome
    [Longjmp] of the system call's body continues with the code after
    [ksetjmp].  The frame it was saved in is the frame of [syscall] at the top
    of the process's kernel stack, where every later call of the transaction
    has its frame too. *)

From S2P Require Import Prelude Monad CString Types Kernel Kalloc Vm Uart Printf Console Bio Log Tx FsBlock Inode Dir File Sysfile Proc Exec Sysproc Systx.
From stdpp Require Import base numbers list gmap strings.
From Stdlib Require Import ZArith Lia.

Open Scope Z_scope.

(** the system call numbers of [syscall.h] *)
Definition SYS_fork : Z := 1.
Definition SYS_exit : Z := 2.
Definition SYS_wait : Z := 3.
Definition SYS_pipe : Z := 4.
Definition SYS_read : Z := 5.
Definition SYS_kill : Z := 6.
Definition SYS_exec : Z := 7.
Definition SYS_fstat : Z := 8.
Definition SYS_chdir : Z := 9.
Definition SYS_dup : Z := 10.
Definition SYS_getpid : Z := 11.
Definition SYS_sbrk : Z := 12.
Definition SYS_pause : Z := 13.
Definition SYS_uptime : Z := 14.
Definition SYS_open : Z := 15.
Definition SYS_write : Z := 16.
Definition SYS_mknod : Z := 17.
Definition SYS_unlink : Z := 18.
Definition SYS_link : Z := 19.
Definition SYS_mkdir : Z := 20.
Definition SYS_close : Z := 21.
Definition SYS_txbegin : Z := 22.
Definition SYS_txcommit : Z := 23.
Definition SYS_txabort : Z := 24.
Definition SYS_txstatus : Z := 25.

(** [m], with [klongjmp] continuing in [h] *)
Fixpoint catch_res {A} (h : K A) (r : res kst A) : res kst A :=
  match r with
  | Longjmp s => h s
  | Block ch s k => Block ch s (fun s' => catch_res h (k s'))
  | r => r
  end.

Definition catch {A} (h m : K A) : K A := fun s => catch_res h (m s).

Section Syscall.
Context {L : Layout}.

Definition syscalls : list (Z * K Z) :=
  [(SYS_fork, sys_fork); (SYS_exit, sys_exit); (SYS_wait, sys_wait); (SYS_pipe, sys_pipe);
   (SYS_read, sys_read); (SYS_kill, sys_kill); (SYS_exec, sys_exec); (SYS_fstat, sys_fstat);
   (SYS_chdir, sys_chdir); (SYS_dup, sys_dup); (SYS_getpid, sys_getpid); (SYS_sbrk, sys_sbrk);
   (SYS_pause, sys_pause); (SYS_uptime, sys_uptime); (SYS_open, sys_open); (SYS_write, sys_write);
   (SYS_mknod, sys_mknod); (SYS_unlink, sys_unlink); (SYS_link, sys_link); (SYS_mkdir, sys_mkdir);
   (SYS_close, sys_close); (SYS_txbegin, sys_txbegin); (SYS_txcommit, sys_txcommit);
   (SYS_txabort, sys_txabort); (SYS_txstatus, sys_txstatus)].

(** [syscalls[num]], null for a number that is not in the table *)
Definition syscall_of (num : Z) : option (K Z) :=
  snd <$> List.find (fun e => fst e =? num) syscalls.

(** the code that runs when [ksetjmp] returns through [klongjmp] *)
Definition abort_return (p : nat) : K unit :=
  pr ← get_proc p;
  t ← load_tx (p_tx pr);
  saved ← load_tf (tx_saved_tf t);
  store (p_trapframe pr) (PTf saved);;
  tf_set p TF_A0 (u64 (-1)).

Definition dispatch (p : nat) : K unit :=
  a7 ← tf_get p TF_A7;
  let num := s32 a7 in
  match syscall_of num with
  | Some f => r ← f; tf_set p TF_A0 (u64 r)
  | None =>
      pr ← get_proc p;
      kprintf (chars "%d %s: unknown sys call %d" ++ [10])
        [ANum (p_pid pr); AStr (Some (p_name pr)); ANum num];;
      tf_set p TF_A0 (u64 (-1))
  end.

Definition syscall : K unit :=
  p ← myproc;
  pr ← get_proc p;
  act ← tx_active;
  when act
    (t ← load_tx (p_tx pr);
     when (negb (tx_kjmp_valid t))
       (upd_tx (p_tx pr) (set_tx_kjmp_valid (fun _ => true))));;
  catch (abort_return p) (dispatch p).

End Syscall.
