(* ===== verification/Trap.v ===== *)
(** * Traps and interrupts ([trap.c], [plic.c]), the first return of a process
      to user space ([forkret]), and the machine mode of boot ([start.c])

    [v_csr] holds the control and status registers; a write is read back.
    [r_time] and the claim register of the PLIC are answers of the hardware. *)

From S2P Require Import Prelude Monad CString Types Kernel Kalloc Vm Uart Printf Console Bio Log Tx FsBlock Inode Dir File Sysfile Proc Exec Sysproc Virtio Systx Syscall.
From stdpp Require Import base numbers list gmap strings.
From Stdlib Require Import ZArith Lia.

Open Scope Z_scope.

(** ** Registers ([riscv.h]) *)

Definition SSTATUS_SPP : Z := 2 ^ 8.
Definition SSTATUS_SPIE : Z := 2 ^ 5.
Definition SSTATUS_SIE : Z := 2 ^ 1.
Definition SATP_SV39 : Z := 8 * 2 ^ 60.
Definition MAKE_SATP (pagetable : Z) : Z := Z.lor SATP_SV39 (Z.shiftr pagetable 12).

Definition get_csr : K csr := gets (fun s => v_csr (k_dev s)).
Definition upd_csr (f : csr -> csr) : K unit := upd_dev (set_v_csr f).

Definition intr_on : K unit := upd_csr (set_cr_sstatus (fun x => Z.lor x SSTATUS_SIE)).
Definition intr_off : K unit := upd_csr (set_cr_sstatus (fun x => Z.land x (Z.lnot SSTATUS_SIE))).
Definition intr_get : K bool := c ← get_csr; mret (negb (Z.land (cr_sstatus c) SSTATUS_SIE =? 0)).

(** ** The interrupt controller *)

Definition UART0_IRQ : Z := 10.
Definition VIRTIO0_IRQ : Z := 1.
Definition PLIC_SENABLE (hart : Z) : Z := PLIC + 0x2080 + hart * 0x100.
Definition PLIC_SPRIORITY (hart : Z) : Z := PLIC + 0x201000 + hart * 0x2000.
Definition PLIC_SCLAIM (hart : Z) : Z := PLIC + 0x201004 + hart * 0x2000.

Definition cpuid : K Z := c ← get_csr; mret (s32 (cr_tp c)).

Definition plicinit : K unit :=
  mmio_write (PLIC + UART0_IRQ * 4) 1;;
  mmio_write (PLIC + VIRTIO0_IRQ * 4) 1.

Definition plicinithart : K unit :=
  hart ← cpuid;
  mmio_write (PLIC_SENABLE hart) (Z.lor (Z.shiftl 1 UART0_IRQ) (Z.shiftl 1 VIRTIO0_IRQ));;
  mmio_write (PLIC_SPRIORITY hart) 0.

Definition plic_claim : K Z :=
  hart ← cpuid;
  irq ← mmio_read (PLIC_SCLAIM hart);
  mret (s32 irq).

Definition plic_complete (irq : Z) : K unit :=
  hart ← cpuid;
  mmio_write (PLIC_SCLAIM hart) (u32 irq).

Section Trap.
Context {L : Layout}.

Definition trapinithart : K unit := upd_csr (set_cr_stvec (fun _ => kernelvec_addr)).

(** ** Interrupts *)

Definition clockintr : K unit :=
  id ← cpuid;
  when (id =? 0)
    (acquire Lticks;;
     modify (set_k_ticks (fun t => u32 (t + 1)));;
     wakeup ChTicks;;
     release Lticks);;
  upd_csr (fun c => set_cr_stimecmp (fun _ => u64 (cr_time c + 1000000)) c).

Definition devintr : K Z :=
  c ← get_csr;
  let scause := cr_scause c in
  if scause =? 0x8000000000000009 then
    irq ← plic_claim;
    (if irq =? UART0_IRQ then uartintr
     else if irq =? VIRTIO0_IRQ then virtio_disk_intr
     else when (negb (irq =? 0))
       (kprintf (chars "unexpected interrupt irq=%d" ++ [10]) [ANum irq]));;
    when (negb (irq =? 0)) (plic_complete irq);;
    mret 1
  else if scause =? 0x8000000000000005 then clockintr;; mret 2
  else mret 0.

(** ** Traps from user space *)

Definition prepare_return : K unit :=
  p ← myproc;
  intr_off;;
  upd_csr (set_cr_stvec (fun _ => TRAMPOLINE + uservec_off));;
  c ← get_csr;
  tf_set p TF_KERNEL_SATP (cr_satp c);;
  pr ← get_proc p;
  tf_set p TF_KERNEL_SP (p_kstack pr + PGSIZE);;
  tf_set p TF_KERNEL_TRAP usertrap_addr;;
  tf_set p TF_KERNEL_HARTID (cr_tp c);;
  upd_csr (set_cr_sstatus (fun x => Z.lor (Z.land x (Z.lnot SSTATUS_SPP)) SSTATUS_SPIE));;
  epc ← tf_get p TF_EPC;
  upd_csr (set_cr_sepc (fun _ => epc)).

(** what [usertrap] does for the cause of the trap; the device that
    interrupted *)
Definition handle_cause (p : nat) : K Z :=
  c ← get_csr;
  if cr_scause c =? 8 then
    k ← killed p;
    when k (kexit (-1));;
    epc ← tf_get p TF_EPC;
    tf_set p TF_EPC (u64 (epc + 4));;
    intr_on;;
    syscall;;
    mret 0
  else
    which ← devintr;
    if negb (which =? 0) then mret which else
    pr ← get_proc p;
    c ← get_csr;
    r ← (if (cr_scause c =? 15) || (cr_scause c =? 13)
         then vmfault (p_pagetable pr) (cr_stval c) else mret 0);
    if negb (r =? 0) then mret 0 else
    kprintf (chars "usertrap(): unexpected scause 0x%lx pid=%d" ++ [10])
      [ANum (cr_scause c); ANum (p_pid pr)];;
    kprintf (chars "            sepc=0x%lx stval=0x%lx" ++ [10])
      [ANum (cr_sepc c); ANum (cr_stval c)];;
    setkilled p;;
    mret 0.

Definition usertrap : K Z :=
  c ← get_csr;
  if negb (Z.land (cr_sstatus c) SSTATUS_SPP =? 0) then panic "usertrap: not from user mode" else
  upd_csr (set_cr_stvec (fun _ => kernelvec_addr));;
  p ← myproc;
  c ← get_csr;
  tf_set p TF_EPC (cr_sepc c);;
  which_dev ← handle_cause p;
  k ← killed p;
  when k (kexit (-1));;
  when (which_dev =? 2) yield;;
  prepare_return;;
  pr ← get_proc p;
  mret (MAKE_SATP (p_pagetable pr)).

(** ** Traps from the kernel *)

Definition kerneltrap : K unit :=
  c ← get_csr;
  let sepc := cr_sepc c in
  let sstatus := cr_sstatus c in
  if Z.land sstatus SSTATUS_SPP =? 0 then panic "kerneltrap: not from supervisor mode" else
  on ← intr_get;
  if (on : bool) then panic "kerneltrap: interrupts enabled" else
  which_dev ← devintr;
  (if which_dev =? 0 then
     c' ← get_csr;
     kprintf (chars "scause=0x%lx sepc=0x%lx stval=0x%lx" ++ [10])
       [ANum (cr_scause c); ANum (cr_sepc c'); ANum (cr_stval c')];;
     panic "kerneltrap"
   else mret tt);;
  cur ← gets k_cur;
  when ((which_dev =? 2) && bool_decide (is_Some cur)) yield;;
  upd_csr (set_cr_sepc (fun _ => sepc));;
  upd_csr (set_cr_sstatus (fun _ => sstatus)).

(** ** The first return to user space

    [forkret] of [proc.c]; the value is the argument of [userret]. *)

Definition forkret : K Z :=
  p ← myproc;
  release (Lproc p);;
  first ← gets (fun s => v_first (k_dev s));
  when first
    (fsinit ROOTDEV;;
     upd_dev (set_v_first (fun _ => false));;
     r ← kexec (chars "/init") [chars "/init"];
     tf_set p TF_A0 (u64 r);;
     if r =? -1 then panic "exec" else mret tt);;
  prepare_return;;
  pr ← get_proc p;
  mret (MAKE_SATP (p_pagetable pr)).

End Trap.

(** * Machine mode ([start.c])

    The registers [start] sets on each hart before [mret] takes it to [main]. *)

Definition MSTATUS_MPP_MASK : Z := Z.shiftl 3 11.
Definition MSTATUS_MPP_S : Z := Z.shiftl 1 11.
Definition SIE_SEIE : Z := Z.shiftl 1 9.
Definition SIE_STIE : Z := Z.shiftl 1 5.
Definition MIE_STIE : Z := Z.shiftl 1 5.

Record mregs := Mk_mregs {
  mr_mstatus : Z;
  mr_mepc : Z;
  mr_satp : Z;
  mr_medeleg : Z;
  mr_mideleg : Z;
  mr_sie : Z;
  mr_pmpaddr0 : Z;
  mr_pmpcfg0 : Z;
  mr_mie : Z;
  mr_menvcfg : Z;
  mr_mcounteren : Z;
  mr_stimecmp : Z;
  mr_tp : Z;
}.

(** [timerinit], with the time and the registers it reads *)
Definition timerinit (time : Z) (r : mregs) : mregs :=
  Mk_mregs (mr_mstatus r) (mr_mepc r) (mr_satp r) (mr_medeleg r) (mr_mideleg r) (mr_sie r)
    (mr_pmpaddr0 r) (mr_pmpcfg0 r)
    (Z.lor (mr_mie r) MIE_STIE)
    (Z.lor (mr_menvcfg r) (Z.shiftl 1 63))
    (Z.lor (mr_mcounteren r) 2)
    (u64 (time + 1000000))
    (mr_tp r).

(** [start] on hart [mhartid], up to [mret]; [main] is the address of [main] *)
Definition start (main mhartid time : Z) (r : mregs) : mregs :=
  let r := Mk_mregs
    (Z.lor (Z.land (mr_mstatus r) (u64 (Z.lnot MSTATUS_MPP_MASK))) MSTATUS_MPP_S)
    main 0 0xffff 0xffff
    (Z.lor (Z.lor (mr_sie r) SIE_SEIE) SIE_STIE)
    0x3fffffffffffff 0xf
    (mr_mie r) (mr_menvcfg r) (mr_mcounteren r) (mr_stimecmp r) (mr_tp r) in
  let r := timerinit time r in
  Mk_mregs (mr_mstatus r) (mr_mepc r) (mr_satp r) (mr_medeleg r) (mr_mideleg r) (mr_sie r)
    (mr_pmpaddr0 r) (mr_pmpcfg0 r) (mr_mie r) (mr_menvcfg r) (mr_mcounteren r) (mr_stimecmp r)
    (s32 mhartid).

(** [mret] leaves machine mode for supervisor mode and the other fields of
    [mstatus] are kept *)
Lemma start_mode main mhartid time r i :
  0 <= i < 64 ->
  Z.testbit (mr_mstatus (start main mhartid time r)) i =
  if decide (i = 11) then true else if decide (i = 12) then false else Z.testbit (mr_mstatus r) i.
Proof.
  intros Hi. cbn [start timerinit mr_mstatus]. rewrite Z.lor_spec, Z.land_spec.
  unfold wrap. rewrite Z.mod_pow2_bits_low, Z.lnot_spec by lia.
  change MSTATUS_MPP_MASK with (Z.lor (2 ^ 11) (2 ^ 12)). change MSTATUS_MPP_S with (2 ^ 11).
  rewrite Z.lor_spec, !Z.pow2_bits_eqb by lia.
  destruct (11 =? i) eqn:E1, (12 =? i) eqn:E2; zbool; repeat case_decide; subst; try lia; cbn;
    by rewrite ?andb_true_r, ?andb_false_r, ?orb_false_r, ?orb_true_r.
Qed.
