(* ===== verification/Asm.v ===== *)
(** * The assembly code

    [entry.S], [swtch.S], [kjmp.S], [kernelvec.S], [trampoline.S], the stubs
    generated by [usys.pl], and the inline assembly of [riscv.h], on a RISC-V
    hart with its registers, control registers and physical memory.

    Memory is accessed in double words at addresses that are multiples of 8,
    through the translation that [satp] selects; [walk satp va] is the physical
    address the MMU finds, [None] for a page fault.  [symbol] gives the address
    of a symbol and [link code] the address at which the rest [code] of a
    function is; the linker chooses both. *)

From S2P Require Import Prelude Types Vm Sysfile Syscall.
From stdpp Require Import base numbers list strings functions.
From Stdlib Require Import ZArith Lia.

Open Scope Z_scope.

(** ** The hart *)

Inductive reg :=
  | Ra | Sp | Gp | Tp | T0 | T1 | T2 | T3 | T4 | T5 | T6
  | S0 | S1 | S2 | S3 | S4 | S5 | S6 | S7 | S8 | S9 | S10 | S11
  | A0 | A1 | A2 | A3 | A4 | A5 | A6 | A7.

#[export] Instance reg_eq_dec : EqDecision reg.
Proof. solve_decision. Defined.

(** the control registers the kernel uses *)
Inductive csr :=
  | Mhartid | Mstatus | Mepc | Sstatus | Sip | Sie | Mie | Sepc | Medeleg | Mideleg | Stvec
  | Stimecmp | Menvcfg | Pmpcfg0 | Pmpaddr0 | Satp | Scause | Stval | Mcounteren | Time | Sscratch.

#[export] Instance csr_eq_dec : EqDecision csr.
Proof. solve_decision. Defined.

Record hart := Mk_hart { regs : reg -> Z; csrs : csr -> Z; mem : Z -> Z }.

Definition set_reg (r : reg) (v : Z) (m : hart) : hart := Mk_hart (<[r := v]> (regs m)) (csrs m) (mem m).
Definition set_csr (c : csr) (v : Z) (m : hart) : hart := Mk_hart (regs m) (<[c := v]> (csrs m)) (mem m).
Definition set_mem (a v : Z) (m : hart) : hart := Mk_hart (regs m) (csrs m) (<[a := v]> (mem m)).

(** ** Instructions *)

Inductive instr :=
  | Sd (rs : reg) (off : Z) (base : reg)
  | Ld (rd : reg) (off : Z) (base : reg)
  | Li (rd : reg) (imm : Z)
  | La (rd : reg) (sym : string)
  | Mv (rd rs : reg)
  | Addi (rd rs : reg) (imm : Z)
  | Add (rd rs1 rs2 : reg)
  | Mul (rd rs1 rs2 : reg)
  | Csrr (rd : reg) (c : csr)
  | Csrw (c : csr) (rs : reg)
  | Sfence_vma
  | Call (sym : string)
  | Jalr (rs : reg)
  | Ret
  | Sret
  | Ecall
  | Spin.

(** where control goes at the end of a run of instructions: to an address, or
    into the kernel by a trap *)
Inductive target := Jump (addr : Z) | Trap.

Section Exec.
Context (walk : Z -> Z -> option Z) (symbol : string -> Z) (link : list instr -> Z).

(** the physical address of a double word *)
Definition paddr (m : hart) (base : reg) (off : Z) : option Z :=
  match walk (csrs m Satp) (u64 (regs m base + off)) with
  | Some pa => if pa mod 8 =? 0 then Some pa else None
  | None => None
  end.

(** run the instructions up to a transfer of control; the result has the state,
    the target and the code that follows *)
Fixpoint exec (code : list instr) (m : hart) : option (hart * target * list instr) :=
  match code with
  | [] => None
  | i :: code =>
      match i with
      | Sd rs off base => pa ← paddr m base off; exec code (set_mem pa (regs m rs) m)
      | Ld rd off base => pa ← paddr m base off; exec code (set_reg rd (mem m pa) m)
      | Li rd imm => exec code (set_reg rd (u64 imm) m)
      | La rd sym => exec code (set_reg rd (symbol sym) m)
      | Mv rd rs => exec code (set_reg rd (regs m rs) m)
      | Addi rd rs imm => exec code (set_reg rd (u64 (regs m rs + imm)) m)
      | Add rd rs1 rs2 => exec code (set_reg rd (u64 (regs m rs1 + regs m rs2)) m)
      | Mul rd rs1 rs2 => exec code (set_reg rd (u64 (regs m rs1 * regs m rs2)) m)
      | Csrr rd c => exec code (set_reg rd (csrs m c) m)
      | Csrw c rs => exec code (set_csr c (regs m rs) m)
      | Sfence_vma => exec code m
      | Call sym => Some (set_reg Ra (link code) m, Jump (symbol sym), code)
      | Jalr rs => Some (set_reg Ra (link code) m, Jump (regs m rs), code)
      | Ret => Some (m, Jump (regs m Ra), code)
      | Sret => Some (m, Jump (csrs m Sepc), code)
      | Ecall => Some (m, Trap, code)
      | Spin => None
      end
  end.

End Exec.

(** registers stored at, and loaded from, offsets of a base register *)
Definition saves (base : reg) (l : list (reg * Z)) : list instr := (fun x => Sd x.1 x.2 base) <$> l.
Definition loads (base : reg) (l : list (reg * Z)) : list instr := (fun x => Ld x.1 x.2 base) <$> l.

(** ** entry.S *)

Definition entry_code : list instr :=
  [La Sp "stack0"; Li A0 (1024 * 4); Csrr A1 Mhartid; Addi A1 A1 1; Mul A0 A0 A1; Add Sp Sp A0;
   Call "start"; Spin].

(** ** swtch.S and kjmp.S *)

(** [struct context] of [proc.h], which [struct jmp_buf] of [setjmp.h] equals *)
Definition context_slots : list (reg * Z) :=
  [(Ra, 0); (Sp, 8); (S0, 16); (S1, 24); (S2, 32); (S3, 40); (S4, 48); (S5, 56); (S6, 64); (S7, 72);
   (S8, 80); (S9, 88); (S10, 96); (S11, 104)].

Definition swtch_code : list instr := saves A0 context_slots ++ loads A1 context_slots ++ [Ret].

Definition ksetjmp_code : list instr := saves A0 context_slots ++ [Li A0 0; Ret].

Definition klongjmp_code : list instr := loads A0 context_slots ++ [Mv A0 A1; Ret].

(** ** kernelvec.S *)

Definition kernelvec_saved : list (reg * Z) :=
  [(Ra, 0); (Gp, 16); (Tp, 24); (T0, 32); (T1, 40); (T2, 48); (A0, 72); (A1, 80); (A2, 88); (A3, 96);
   (A4, 104); (A5, 112); (A6, 120); (A7, 128); (T3, 216); (T4, 224); (T5, 232); (T6, 240)].

(** not [tp], in case the thread has moved to another hart *)
Definition kernelvec_restored : list (reg * Z) :=
  [(Ra, 0); (Gp, 16); (T0, 32); (T1, 40); (T2, 48); (A0, 72); (A1, 80); (A2, 88); (A3, 96);
   (A4, 104); (A5, 112); (A6, 120); (A7, 128); (T3, 216); (T4, 224); (T5, 232); (T6, 240)].

Definition kernelvec_code : list instr :=
  [Addi Sp Sp (-256)] ++ saves Sp kernelvec_saved ++ [Call "kerneltrap"] ++
  loads Sp kernelvec_restored ++ [Addi Sp Sp 256; Sret].

(** ** trampoline.S *)

(** the user registers in [struct trapframe], without [a0] *)
Definition trapframe_slots : list (reg * Z) :=
  [(Ra, 40); (Sp, 48); (Gp, 56); (Tp, 64); (T0, 72); (T1, 80); (T2, 88); (S0, 96); (S1, 104);
   (A1, 120); (A2, 128); (A3, 136); (A4, 144); (A5, 152); (A6, 160); (A7, 168);
   (S2, 176); (S3, 184); (S4, 192); (S5, 200); (S6, 208); (S7, 216); (S8, 224); (S9, 232); (S10, 240);
   (S11, 248); (T3, 256); (T4, 264); (T5, 272); (T6, 280)].

Definition userret_code : list instr :=
  [Sfence_vma; Csrw Satp A0; Sfence_vma; Li A0 TRAPFRAME] ++
  loads A0 trapframe_slots ++ [Ld A0 112 A0; Sret].

Definition uservec_code : list instr :=
  [Csrw Sscratch A0; Li A0 TRAPFRAME] ++ saves A0 trapframe_slots ++
  [Csrr T0 Sscratch; Sd T0 112 A0;
   Ld Sp 8 A0; Ld Tp 32 A0; Ld T0 16 A0; Ld T1 0 A0;
   Sfence_vma; Csrw Satp T1; Sfence_vma; Jalr T0] ++ userret_code.

(** ** usys.pl *)

(** [entry]: the stub of a system call *)
Definition usys_stub (num : Z) : list instr := [Li A7 num; Ecall; Ret].

(** the stubs, by the system call they are for *)
Definition usys_stubs : list (string * list instr) :=
  [("fork", usys_stub SYS_fork); ("exit", usys_stub SYS_exit); ("wait", usys_stub SYS_wait);
   ("pipe", usys_stub SYS_pipe); ("read", usys_stub SYS_read); ("write", usys_stub SYS_write);
   ("close", usys_stub SYS_close); ("kill", usys_stub SYS_kill); ("exec", usys_stub SYS_exec);
   ("open", usys_stub SYS_open); ("mknod", usys_stub SYS_mknod); ("unlink", usys_stub SYS_unlink);
   ("fstat", usys_stub SYS_fstat); ("link", usys_stub SYS_link); ("mkdir", usys_stub SYS_mkdir);
   ("chdir", usys_stub SYS_chdir); ("dup", usys_stub SYS_dup); ("getpid", usys_stub SYS_getpid);
   ("sbrk", usys_stub SYS_sbrk); ("pause", usys_stub SYS_pause); ("uptime", usys_stub SYS_uptime);
   ("txbegin", usys_stub SYS_txbegin); ("txcommit", usys_stub SYS_txcommit);
   ("txabort", usys_stub SYS_txabort); ("txstatus", usys_stub SYS_txstatus)]%string.

(** ** The inline assembly of riscv.h

    One instruction each; an argument comes in [a0] and a result is left there. *)

Definition machine_accessors : list (string * instr) :=
  [("r_mhartid", Csrr A0 Mhartid); ("r_mstatus", Csrr A0 Mstatus); ("w_mstatus", Csrw Mstatus A0);
   ("w_mepc", Csrw Mepc A0); ("r_sstatus", Csrr A0 Sstatus); ("w_sstatus", Csrw Sstatus A0);
   ("r_sip", Csrr A0 Sip); ("w_sip", Csrw Sip A0); ("r_sie", Csrr A0 Sie); ("w_sie", Csrw Sie A0);
   ("r_mie", Csrr A0 Mie); ("w_mie", Csrw Mie A0); ("w_sepc", Csrw Sepc A0); ("r_sepc", Csrr A0 Sepc);
   ("r_medeleg", Csrr A0 Medeleg); ("w_medeleg", Csrw Medeleg A0); ("r_mideleg", Csrr A0 Mideleg);
   ("w_mideleg", Csrw Mideleg A0); ("w_stvec", Csrw Stvec A0); ("r_stvec", Csrr A0 Stvec)]%string.

Definition supervisor_accessors : list (string * instr) :=
  [("r_stimecmp", Csrr A0 Stimecmp); ("w_stimecmp", Csrw Stimecmp A0); ("r_menvcfg", Csrr A0 Menvcfg);
   ("w_menvcfg", Csrw Menvcfg A0); ("w_pmpcfg0", Csrw Pmpcfg0 A0); ("w_pmpaddr0", Csrw Pmpaddr0 A0);
   ("w_satp", Csrw Satp A0); ("r_satp", Csrr A0 Satp); ("r_scause", Csrr A0 Scause);
   ("r_stval", Csrr A0 Stval); ("w_mcounteren", Csrw Mcounteren A0); ("r_mcounteren", Csrr A0 Mcounteren);
   ("r_time", Csrr A0 Time)]%string.

Definition register_accessors : list (string * instr) :=
  [("r_sp", Mv A0 Sp); ("r_tp", Mv A0 Tp); ("w_tp", Mv Tp A0); ("r_ra", Mv A0 Ra);
   ("sfence_vma", Sfence_vma)]%string.
