(* ===== verification/AsmFacts.v ===== *)
(** * What the assembly code does with the registers

    [swtch] and [klongjmp] come back to where the registers were saved, a trap
    from user mode and the return from it leave the user's registers alone, and
    so does an interrupt in the kernel; each hart starts on a stack of its own;
    the stubs of the system calls reach the handlers of their names. *)

From S2P Require Import Prelude Monad Types Kernel Vm Sysfile Proc Exec Sysproc Systx Syscall Asm.
From stdpp Require Import base numbers list strings functions sets.
From Stdlib Require Import ZArith Lia.

Open Scope Z_scope.

(** facts about the tables of slots are decided *)
Ltac slots := apply (bool_decide_unpack _); vm_compute; exact I.

(** ** Saving and loading sequences of registers *)

Section Sequences.
Context (walk : Z -> Z -> option Z) (symbol : string -> Z) (link : list instr -> Z).

Notation exec := (exec walk symbol link).

(** the slots of [l] behind the register [base] are at the physical address [pa] *)
Definition slots_at (m : hart) (base : reg) (pa : Z) (l : list (reg * Z)) : Prop :=
  forall x, x ∈ l -> walk (csrs m Satp) (u64 (regs m base + x.2)) = Some (pa + x.2) /\ (pa + x.2) mod 8 = 0.

Definition store_all (pa : Z) (l : list (reg * Z)) (R : reg -> Z) (M : Z -> Z) : Z -> Z :=
  fold_left (fun M x => <[pa + x.2 := R x.1]> M) l M.

Definition load_all (pa : Z) (l : list (reg * Z)) (M : Z -> Z) (R : reg -> Z) : reg -> Z :=
  fold_left (fun R x => <[x.1 := M (pa + x.2)]> R) l R.

(** one instruction *)
Lemma exec_li rd imm k m : exec (Li rd imm :: k) m = exec k (set_reg rd (u64 imm) m).
Proof. done. Qed.
Lemma exec_csrr rd c k m : exec (Csrr rd c :: k) m = exec k (set_reg rd (csrs m c) m).
Proof. done. Qed.
Lemma exec_csrw c rs k m : exec (Csrw c rs :: k) m = exec k (set_csr c (regs m rs) m).
Proof. done. Qed.
Lemma exec_addi rd rs imm k m : exec (Addi rd rs imm :: k) m = exec k (set_reg rd (u64 (regs m rs + imm)) m).
Proof. done. Qed.
Lemma exec_sfence k m : exec (Sfence_vma :: k) m = exec k m.
Proof. done. Qed.
Lemma exec_call sym k m : exec (Call sym :: k) m = Some (set_reg Ra (link k) m, Jump (symbol sym), k).
Proof. done. Qed.
Lemma exec_jalr rs k m : exec (Jalr rs :: k) m = Some (set_reg Ra (link k) m, Jump (regs m rs), k).
Proof. done. Qed.
Lemma exec_sret k m : exec (Sret :: k) m = Some (m, Jump (csrs m Sepc), k).
Proof. done. Qed.

Lemma paddr_slot m base pa l x :
  slots_at m base pa l -> x ∈ l -> paddr walk m base x.2 = Some (pa + x.2).
Proof. intros Hs Hx. destruct (Hs x Hx) as [Hw Ha]. unfold paddr. by rewrite Hw, Ha. Qed.

Lemma exec_saves base pa l k m :
  slots_at m base pa l ->
  exec (saves base l ++ k) m = exec k (Mk_hart (regs m) (csrs m) (store_all pa l (regs m) (mem m))).
Proof.
  revert m. induction l as [|x l IH]; intros m Hs; [by destruct m|]. simpl.
  rewrite (paddr_slot m base pa (x :: l) x) by (done || set_solver). simpl.
  rewrite (IH (set_mem _ _ _)); [done|]. intros y Hy. apply Hs. set_solver.
Qed.

Lemma exec_loads base pa l k m :
  slots_at m base pa l -> base ∉ l.*1 ->
  exec (loads base l ++ k) m = exec k (Mk_hart (load_all pa l (mem m) (regs m)) (csrs m) (mem m)).
Proof.
  revert m. induction l as [|x l IH]; intros m Hs Hb; [by destruct m|]. simpl.
  rewrite fmap_cons, not_elem_of_cons in Hb. destruct Hb as [Hb Hl].
  rewrite (paddr_slot m base pa (x :: l) x) by (done || set_solver). simpl.
  rewrite (IH (set_reg _ _ _)); [done| |done]. intros y Hy. simpl. rewrite fn_lookup_insert_ne by done.
  apply Hs. set_solver.
Qed.

Lemma store_all_out pa l R M a : (forall x, x ∈ l -> a <> pa + x.2) -> store_all pa l R M a = M a.
Proof.
  revert M. induction l as [|x l IH]; intros M Ha; simpl; [done|].
  rewrite IH by (intros y Hy; apply Ha; set_solver).
  rewrite fn_lookup_insert_ne; [done|]. intros E. apply (Ha x); [set_solver|done].
Qed.

Lemma store_all_in pa l R M r o : NoDup l.*2 -> (r, o) ∈ l -> store_all pa l R M (pa + o) = R r.
Proof.
  revert M. induction l as [|x l IH]; intros M Hd Hin; [by apply elem_of_nil in Hin|].
  rewrite fmap_cons, NoDup_cons in Hd. destruct Hd as [Hx Hd]. simpl.
  apply elem_of_cons in Hin as [<-|Hin]; [|by apply IH]. simpl in *.
  rewrite store_all_out, fn_lookup_insert; [done|]. intros y Hy E. apply Hx.
  replace o with y.2 by lia. by apply list_elem_of_fmap_2.
Qed.

Lemma load_all_out pa l M R r : r ∉ l.*1 -> load_all pa l M R r = R r.
Proof.
  revert R. induction l as [|x l IH]; intros R Hr; simpl; [done|].
  rewrite fmap_cons, not_elem_of_cons in Hr. destruct Hr as [Hx Hr].
  rewrite IH by done. by rewrite fn_lookup_insert_ne.
Qed.

Lemma load_all_in pa l M R r o : NoDup l.*1 -> (r, o) ∈ l -> load_all pa l M R r = M (pa + o).
Proof.
  revert R. induction l as [|x l IH]; intros R Hd Hin; [by apply elem_of_nil in Hin|].
  rewrite fmap_cons, NoDup_cons in Hd. destruct Hd as [Hx Hd]. simpl.
  apply elem_of_cons in Hin as [<-|Hin]; [|by apply IH]. simpl in *.
  by rewrite load_all_out, fn_lookup_insert.
Qed.

#[local] Arguments store_all : simpl never.
#[local] Arguments load_all : simpl never.

(** ** Context switches *)

(** the registers a C function expects to find unchanged after a call, by the
    RISC-V calling convention: the stack pointer and [s0] to [s11] *)
Definition callee_saved (r : reg) : Prop :=
  match r with
  | Sp | S0 | S1 | S2 | S3 | S4 | S5 | S6 | S7 | S8 | S9 | S10 | S11 => True
  | _ => False
  end.

Lemma context_nodup : NoDup context_slots.*1 /\ NoDup context_slots.*2.
Proof. split; slots. Qed.

(** [struct context] has a slot for each of them *)
Lemma context_slot r : callee_saved r -> exists o, (r, o) ∈ context_slots.
Proof.
  intros Hr. assert (r ∈ context_slots.*1) as ([r' o] & -> & Hin)%list_elem_of_fmap; [|by exists o].
  destruct r; try done; slots.
Qed.

(** [struct context] and [struct jmp_buf]: 14 double words *)
Definition sizeof_context : Z := 112.
Definition context_word (o : Z) : Prop := 0 <= o < sizeof_context /\ o mod 8 = 0.

(** the structure the register [base] points to is at the physical address [pa] *)
Definition context_at (m : hart) (base : reg) (pa : Z) : Prop := forall o, context_word o ->
  walk (csrs m Satp) (u64 (regs m base + o)) = Some (pa + o) /\ (pa + o) mod 8 = 0.

Definition apart (pa pb : Z) : Prop := pa + sizeof_context <= pb \/ pb + sizeof_context <= pa.

(** memory still holds what [m] had in the structure at [pa] *)
Definition same_context (pa : Z) (m m' : hart) : Prop :=
  forall o, context_word o -> mem m' (pa + o) = mem m (pa + o).

Lemma context_words x : x ∈ context_slots -> context_word x.2.
Proof.
  assert (Forall (fun x => 0 <= x.2 < sizeof_context /\ x.2 mod 8 = 0) context_slots) as H by slots.
  rewrite Forall_forall in H. apply H.
Qed.

Lemma context_at_slots m base pa : context_at m base pa -> slots_at m base pa context_slots.
Proof. intros H x Hx. by apply H, context_words. Qed.

Lemma apart_slots pa pb x y : apart pa pb -> x ∈ context_slots -> y ∈ context_slots -> pa + x.2 <> pb + y.2.
Proof. intros H [Hx _]%context_words [Hy _]%context_words. unfold apart in H. lia. Qed.

Lemma exec_swtch m pa pb :
  context_at m A0 pa -> context_at m A1 pb -> apart pa pb ->
  exists m', exec swtch_code m = Some (m', Jump (mem m pb), []) /\
    (forall r o, (r, o) ∈ context_slots -> regs m' r = mem m (pb + o) /\ mem m' (pa + o) = regs m r) /\
    (forall r, r ∉ context_slots.*1 -> regs m' r = regs m r) /\ csrs m' = csrs m /\
    (forall a, (forall x, x ∈ context_slots -> a <> pa + x.2) -> mem m' a = mem m a).
Proof.
  intros Ha%context_at_slots Hb%context_at_slots Hne. destruct context_nodup as [Hd1 Hd2]. unfold swtch_code.
  rewrite (exec_saves _ pa) by done. rewrite (exec_loads _ pb) by (done || slots). cbn [mem regs csrs].
  set (M := store_all pa _ _ _). set (R := load_all pb _ _ _).
  assert (forall r o, (r, o) ∈ context_slots -> R r = mem m (pb + o)) as HR.
  { intros r o Hin. unfold R. rewrite (load_all_in _ _ _ _ r o) by done.
    apply store_all_out. intros x Hx E. by apply (apart_slots pa pb x (r, o)). }
  eexists. split; [simpl; rewrite (HR Ra 0) by slots; by rewrite Z.add_0_r|]. simpl. split_and!.
  - intros r o Hin. split; [by apply HR|]. by apply store_all_in.
  - intros r Hr. by apply load_all_out.
  - done.
  - intros a Hout. by apply store_all_out.
Qed.

(** C33. A context switch is undone by the switch back.  A thread calls
    [swtch] with its own context at [pa] and another at [pb]: control leaves
    for the return address of the other context.  When later, on whichever
    hart and with whatever has happened in between, somebody calls [swtch] with
    this thread's context as the new one and its memory as [swtch] left it, the
    call of the thread returns to its caller with every callee-saved register,
    the stack pointer among them, as it was. *)
Theorem swtch_resumes m m1 m2 pa pb pc :
  context_at m A0 pa -> context_at m A1 pb -> apart pa pb ->
  (exists t, exec swtch_code m = Some (m1, t, [])) ->
  context_at m2 A0 pc -> context_at m2 A1 pa -> apart pc pa -> same_context pa m1 m2 ->
  exec swtch_code m = Some (m1, Jump (mem m pb), []) /\
  exists m3, exec swtch_code m2 = Some (m3, Jump (regs m Ra), []) /\
    (forall r, callee_saved r -> regs m3 r = regs m r).
Proof.
  intros Ha Hb Hab [t E] Hc Ha2 Hca Hsame. destruct (exec_swtch _ _ _ Ha Hb Hab) as (m1' & E1 & H1 & _).
  assert (m1' = m1) as -> by congruence. split; [done|].
  destruct (exec_swtch _ _ _ Hc Ha2 Hca) as (m3 & E3 & H3 & _).
  assert (forall r o, (r, o) ∈ context_slots -> mem m2 (pa + o) = regs m r) as Hmem.
  { intros r o Hin. rewrite (Hsame o) by exact (context_words _ Hin). by apply H1. }
  exists m3. split.
  - rewrite E3. rewrite <- (Hmem Ra 0) by slots. by rewrite Z.add_0_r.
  - intros r [o Hr]%context_slot. destruct (H3 r o Hr) as [-> _]. by apply Hmem.
Qed.

(** C31. [ksetjmp] stores the registers of its caller and returns 0; a later
    [klongjmp] with that buffer, unchanged, and a value returns from the call of
    [ksetjmp] once more: to the same place, with the value and with the stack
    pointer and the callee-saved registers as they were. *)
Theorem klongjmp_returns m m1 m2 pa :
  context_at m A0 pa -> (exists t, exec ksetjmp_code m = Some (m1, t, [])) ->
  context_at m2 A0 pa -> same_context pa m1 m2 ->
  exec ksetjmp_code m = Some (m1, Jump (regs m Ra), []) /\ regs m1 A0 = 0 /\
  (forall r, r <> A0 -> regs m1 r = regs m r) /\
  exists m3, exec klongjmp_code m2 = Some (m3, Jump (regs m Ra), []) /\ regs m3 A0 = regs m2 A1 /\
    (forall r, callee_saved r -> regs m3 r = regs m r) /\ mem m3 = mem m2.
Proof.
  intros Ha%context_at_slots [t E] Ha2%context_at_slots Hsame. destruct context_nodup as [Hd1 Hd2]. unfold ksetjmp_code in *.
  rewrite (exec_saves _ pa) in E |- * by done. simpl in E. injection E as <- <-.
  assert (forall r o, (r, o) ∈ context_slots -> mem m2 (pa + o) = regs m r) as Hmem.
  { intros r o Hin. rewrite (Hsame o) by exact (context_words _ Hin). by apply store_all_in. }
  split_and!; [done|done|intros r Hr; simpl; by rewrite fn_lookup_insert_ne|].
  unfold klongjmp_code. rewrite (exec_loads _ pa) by (done || slots). set (R := load_all pa _ _ _).
  assert (forall r o, (r, o) ∈ context_slots -> R r = regs m r) as HR.
  { intros r o Hin. unfold R. rewrite (load_all_in _ _ _ _ r o) by done. by apply Hmem. }
  eexists. split; [simpl; rewrite fn_lookup_insert_ne by done; simpl; by rewrite (HR Ra 0) by slots|].
  split_and!; [| |done].
  - simpl. rewrite fn_lookup_insert. apply load_all_out. slots.
  - intros r Hr. pose proof Hr as [o Hin]%context_slot. simpl. rewrite fn_lookup_insert_ne; [by eapply HR|].
    by intros <-.
Qed.

(** ** Traps from user mode *)

Lemma trapframe_nodup : NoDup trapframe_slots.*1 /\ NoDup trapframe_slots.*2.
Proof. split; slots. Qed.

Lemma trapframe_slot r : r <> A0 -> exists o, (r, o) ∈ trapframe_slots.
Proof.
  intros Hr. assert (r ∈ trapframe_slots.*1) as ([r' o] & -> & Hin)%list_elem_of_fmap; [|by exists o].
  destruct r; try slots. done.
Qed.

(** with the page table [satp], the trap frame is at the physical address [tf] *)
Definition tf_mapped (satp tf : Z) : Prop :=
  forall o, 0 <= o < 288 -> o mod 8 = 0 -> walk satp (u64 (TRAPFRAME + o)) = Some (tf + o) /\ (tf + o) mod 8 = 0.

Lemma u64_trapframe : u64 TRAPFRAME = TRAPFRAME.
Proof. done. Qed.

Lemma tf_slots m tf l :
  tf_mapped (csrs m Satp) tf -> regs m A0 = TRAPFRAME ->
  forallb (fun x => (0 <=? x.2) && (x.2 <? 288) && (x.2 mod 8 =? 0)) l = true -> slots_at m A0 tf l.
Proof.
  intros Hm Ha Hl x Hx. rewrite Ha. rewrite forallb_forall in Hl. apply list_elem_of_In, Hl in Hx. zbool.
  apply Hm; lia.
Qed.

Lemma trapframe_facts x : x ∈ trapframe_slots -> x.1 <> A0 /\ x.2 <> 112 /\ 40 <= x.2.
Proof.
  assert (Forall (fun x => x.1 <> A0 /\ x.2 <> 112 /\ 40 <= x.2) trapframe_slots) as H by slots.
  rewrite Forall_forall in H. apply H.
Qed.

Definition kernel_slots : list (reg * Z) := [(Sp, 8); (Tp, 32); (T0, 16); (T1, 0)].

Lemma exec_uservec m tf :
  tf_mapped (csrs m Satp) tf ->
  exists m1, exec uservec_code m = Some (m1, Jump (mem m (tf + 16)), userret_code) /\
    regs m1 Sp = mem m (tf + 8) /\ regs m1 Tp = mem m (tf + 32) /\ regs m1 Ra = link userret_code /\
    csrs m1 Satp = mem m tf /\
    (forall x, x ∈ trapframe_slots -> mem m1 (tf + x.2) = regs m x.1) /\ mem m1 (tf + 112) = regs m A0 /\
    (forall a, a <> tf + 112 -> (forall x, x ∈ trapframe_slots -> a <> tf + x.2) -> mem m1 a = mem m a).
Proof.
  intros Hm. destruct trapframe_nodup as [Hd1 Hd2].
  assert (uservec_code = [Csrw Sscratch A0; Li A0 TRAPFRAME] ++ saves A0 trapframe_slots ++ [Csrr T0 Sscratch] ++
    saves A0 [(T0, 112)] ++ loads A0 kernel_slots ++ [Sfence_vma; Csrw Satp T1; Sfence_vma; Jalr T0] ++ userret_code)
    as -> by reflexivity.
  cbn [app]. rewrite exec_csrw, exec_li, u64_trapframe. rewrite (exec_saves _ tf) by (by apply tf_slots).
  rewrite exec_csrr. rewrite (exec_saves _ tf) by (by apply tf_slots). rewrite (exec_loads _ tf) by (slots || by apply tf_slots).
  rewrite exec_sfence, exec_csrw, exec_sfence, exec_jalr. cbn [regs csrs mem set_reg set_csr]. set (R := <[T0 := _]> _). set (M := store_all tf [(T0, 112)] _ _).
  assert (forall a, a <> tf + 112 -> (forall x, x ∈ trapframe_slots -> a <> tf + x.2) -> M a = mem m a) as Hout.
  { intros a Ha Hx. unfold M. rewrite !store_all_out; [done|done|]. by intros x ->%list_elem_of_singleton. }
  assert (forall o, o < 40 -> M (tf + o) = mem m (tf + o)) as Hk.
  { intros o Ho. apply Hout; [lia|]. intros x Hx%trapframe_facts. lia. }
  assert (forall r o, (r, o) ∈ kernel_slots -> load_all tf kernel_slots M R r = mem m (tf + o)) as HR.
  { intros r o Hin. rewrite (load_all_in _ _ _ _ r o) by (done || slots). apply Hk.
    assert (Forall (fun x => x.2 < 40) kernel_slots) as H by slots. rewrite Forall_forall in H. apply (H _ Hin). }
  eexists. split; [by rewrite (HR T0 16) by slots|]. cbn [regs csrs mem set_reg set_csr]. split_and!.
  - rewrite fn_lookup_insert_ne by done. apply HR. slots.
  - rewrite fn_lookup_insert_ne by done. apply HR. slots.
  - by rewrite fn_lookup_insert.
  - rewrite fn_lookup_insert, (HR T1 0) by slots. by rewrite Z.add_0_r.
  - intros [r o] Hx. destruct (trapframe_facts _ Hx) as (H1 & H2 & _). simpl in *. unfold M.
    rewrite store_all_out by (intros x ->%list_elem_of_singleton; simpl; lia).
    rewrite (store_all_in _ _ _ _ r o) by done. by rewrite fn_lookup_insert_ne.
  - unfold M. rewrite (store_all_in _ _ _ _ T0 112) by slots. unfold R. by rewrite !fn_lookup_insert.
  - apply Hout.
Qed.

Lemma exec_userret m tf :
  tf_mapped (regs m A0) tf ->
  exists m3, exec userret_code m = Some (m3, Jump (csrs m Sepc), []) /\
    (forall x, x ∈ trapframe_slots -> regs m3 x.1 = mem m (tf + x.2)) /\ regs m3 A0 = mem m (tf + 112) /\
    csrs m3 Satp = regs m A0 /\ mem m3 = mem m.
Proof.
  intros Hm. destruct trapframe_nodup as [Hd1 Hd2].
  assert (userret_code = [Sfence_vma; Csrw Satp A0; Sfence_vma; Li A0 TRAPFRAME] ++ loads A0 trapframe_slots ++
    [Ld A0 112 A0; Sret]) as -> by reflexivity.
  cbn [app]. rewrite exec_sfence, exec_csrw, exec_sfence, exec_li, u64_trapframe.
  rewrite (exec_loads _ tf) by (slots || by apply tf_slots). cbn [regs csrs mem set_reg set_csr].
  set (R := load_all tf _ _ _). set (C := <[Satp := _]> _).
  assert (R A0 = TRAPFRAME) as HA.
  { unfold R. rewrite load_all_out by slots. apply fn_lookup_insert. }
  assert (paddr walk (Mk_hart R C (mem m)) A0 112 = Some (tf + 112)) as Hp.
  { apply (paddr_slot (Mk_hart R C (mem m)) A0 tf [(A0, 112)] (A0, 112)); [by apply tf_slots|slots]. }
  cbn [Asm.exec]. rewrite Hp. cbn [mbind option_bind]. eexists. split; [done|]. cbn [regs csrs mem set_reg].
  split_and!; [|by rewrite fn_lookup_insert|done|done].
  intros [r o] Hx. destruct (trapframe_facts _ Hx) as (H1 & _). simpl in *.
  rewrite fn_lookup_insert_ne by done. by apply load_all_in.
Qed.

(** C32. A trap is invisible to the user program.  [uservec] stores all 31
    registers of the user in the trap frame of the process, takes the kernel's
    page table, stack pointer and hart number from it and calls [usertrap] so
    that it returns to [userret].  When the kernel returns with the page table
    of the process and has changed nothing of the saved registers but [a0],
    [userret] goes back to [sepc] with every register as it was at the trap,
    and in [a0] what the kernel has left in the trap frame. *)
Theorem trap_roundtrip m m1 m2 tf :
  tf_mapped (csrs m Satp) tf -> (exists t k, exec uservec_code m = Some (m1, t, k)) ->
  tf_mapped (regs m2 A0) tf -> (forall x, x ∈ trapframe_slots -> mem m2 (tf + x.2) = mem m1 (tf + x.2)) ->
  exec uservec_code m = Some (m1, Jump (mem m (tf + 16)), userret_code) /\
  regs m1 Sp = mem m (tf + 8) /\ regs m1 Tp = mem m (tf + 32) /\ csrs m1 Satp = mem m tf /\
  regs m1 Ra = link userret_code /\ mem m1 (tf + 112) = regs m A0 /\
  exists m3, exec userret_code m2 = Some (m3, Jump (csrs m2 Sepc), []) /\ csrs m3 Satp = regs m2 A0 /\
    regs m3 A0 = mem m2 (tf + 112) /\ forall r, r <> A0 -> regs m3 r = regs m r.
Proof.
  intros Hm (t & k & E) Hm2 Hsame. destruct (exec_uservec _ _ Hm) as (m1' & E1 & H1 & H2 & H3 & H4 & H5 & H6 & _).
  assert (m1' = m1) as -> by congruence. destruct (exec_userret _ _ Hm2) as (m3 & E3 & G1 & G2 & G3 & _).
  split_and!; try done. exists m3. split_and!; try done.
  intros r [o Hr]%trapframe_slot. pose proof (G1 _ Hr) as Hg. simpl in Hg. rewrite Hg.
  pose proof (Hsame _ Hr) as Hs. simpl in Hs. rewrite Hs. apply (H5 _ Hr).
Qed.

(** ** Interrupts in the kernel *)

(** what a C function may do: callee-saved registers and [sp] are kept, and the
    frame of the caller is left alone *)
Definition c_call (sp : Z) (frame : list (reg * Z)) (m m' : hart) : Prop :=
  (forall r, callee_saved r -> regs m' r = regs m r) /\ csrs m' Satp = csrs m Satp /\
  (forall x, x ∈ frame -> mem m' (sp + x.2) = mem m (sp + x.2)).

Definition kernelvec_rest : list instr := loads Sp kernelvec_restored ++ [Addi Sp Sp 256; Sret].

Lemma restored_saved x : x ∈ kernelvec_restored -> x ∈ kernelvec_saved.
Proof.
  assert (Forall (fun x => x ∈ kernelvec_saved) kernelvec_restored) as H by slots.
  rewrite Forall_forall in H. apply H.
Qed.

Lemma kernelvec_regs r :
  r <> Tp -> r <> Sp ->
  (callee_saved r /\ r ∉ kernelvec_restored.*1) \/ exists o, (r, o) ∈ kernelvec_restored.
Proof.
  intros H1 H2. assert ((callee_saved r /\ r ∉ kernelvec_restored.*1) \/ r ∈ kernelvec_restored.*1)
    as [H|([r' o] & -> & H)%list_elem_of_fmap]; [|by left|right; by exists o].
  destruct r; try done; try (left; split; [exact I|slots]); right; slots.
Qed.

(** C34. An interrupt in the kernel is invisible to the code it interrupts.
    [kernelvec] saves the registers on the stack and calls [kerneltrap]; when
    that returns as a C function does, the rest of [kernelvec] goes back to
    [sepc] with every register as it was, except [tp], which is that of the hart
    the thread is on by then. *)
Theorem kernelvec_transparent m m1 m2 pa :
  0 <= regs m Sp < 2 ^ 64 -> slots_at (set_reg Sp (u64 (regs m Sp - 256)) m) Sp pa kernelvec_saved ->
  (exists t k, exec kernelvec_code m = Some (m1, t, k)) -> c_call pa kernelvec_saved m1 m2 ->
  exec kernelvec_code m = Some (m1, Jump (symbol "kerneltrap"), kernelvec_rest) /\
  regs m1 Sp = u64 (regs m Sp - 256) /\ regs m1 Ra = link kernelvec_rest /\
  exists m3, exec kernelvec_rest m2 = Some (m3, Jump (csrs m2 Sepc), []) /\
    regs m3 Tp = regs m2 Tp /\ forall r, r <> Tp -> regs m3 r = regs m r.
Proof.
  intros Hsp Hs (t & k & E) (Hc & Hsatp & Hfr).
  assert (kernelvec_code = Addi Sp Sp (-256) :: saves Sp kernelvec_saved ++ Call "kerneltrap" :: kernelvec_rest)
    as Ek by reflexivity. rewrite Ek in *. rewrite exec_addi in E |- *. rewrite (exec_saves _ pa) in E |- * by done.
  rewrite exec_call in E |- *. injection E as E _ _. cbn [regs csrs mem set_reg] in *.
  assert (regs m1 Sp = u64 (regs m Sp - 256)) as Hsp1 by (by rewrite <- E).
  assert (regs m2 Sp = regs m1 Sp) as Hsp2 by (by apply Hc).
  assert (forall r o, (r, o) ∈ kernelvec_saved -> r <> Sp -> mem m2 (pa + o) = regs m r) as Hmem.
  { intros r o Hin Hr. pose proof (Hfr _ Hin) as Hf. simpl in Hf. rewrite Hf, <- E. cbn [mem set_reg].
    rewrite (store_all_in _ _ _ _ r o) by (done || slots). by rewrite fn_lookup_insert_ne. }
  split_and!; [by rewrite E|done|by rewrite <- E|]. unfold kernelvec_rest.
  rewrite (exec_loads _ pa).
  - rewrite exec_addi, exec_sret. eexists. split; [done|]. cbn [regs csrs mem set_reg].
    set (R := load_all pa _ _ _). split; [rewrite fn_lookup_insert_ne by done; apply load_all_out; slots|].
    intros r Hr. destruct (decide (r = Sp)) as [->|Hne].
    + rewrite fn_lookup_insert. unfold R. rewrite load_all_out by slots. rewrite Hsp2, Hsp1.
      unfold wrap. rewrite Zplus_mod_idemp_l. replace (regs m Sp - 256 + 256) with (regs m Sp) by lia.
      by apply Z.mod_small.
    + rewrite fn_lookup_insert_ne by done. unfold R.
      destruct (kernelvec_regs r Hr Hne) as [(H1 & H3)|(o & Ho)].
      * assert (r <> Ra) by (by intros ->). rewrite load_all_out by done. rewrite Hc by done. rewrite <- E. cbn [regs set_reg].
        by rewrite !fn_lookup_insert_ne.
      * rewrite (load_all_in _ _ _ _ r o) by (done || slots). apply Hmem; [|done]. by apply restored_saved.
  - intros x Hx. rewrite Hsp2, Hsp1, Hsatp, <- E.
    destruct (Hs x (restored_saved x Hx)) as [Hw Ha]. cbn [regs csrs set_reg] in *. by rewrite fn_lookup_insert in Hw.
  - slots.
Qed.

(** ** Boot and system calls *)

(** each hart gets the 4096 bytes of [stack0] with its number *)
Theorem entry_stack m :
  exists m', exec entry_code m = Some (m', Jump (symbol "start"), [Spin]) /\
    (0 <= csrs m Mhartid < 2 ^ 32 -> 0 <= symbol "stack0" < 2 ^ 63 ->
     regs m' Sp = symbol "stack0" + 4096 * (csrs m Mhartid + 1)).
Proof.
  eexists. split; [done|]. intros Hh Hs. change (u64 (symbol "stack0" + u64 (u64 4096 * u64 (csrs m Mhartid + 1))) =
    symbol "stack0" + 4096 * (csrs m Mhartid + 1)).
  change (u64 4096) with 4096. rewrite (wrap_small 64 (csrs m Mhartid + 1)) by lia.
  rewrite (wrap_small 64 (4096 * _)) by lia. by rewrite wrap_small by lia.
Qed.

(** the handlers of [syscall.c], by name *)
Definition handlers {L : Layout} : list (string * K Z) :=
  [("fork", sys_fork); ("exit", sys_exit); ("wait", sys_wait); ("pipe", sys_pipe); ("read", sys_read);
   ("write", sys_write); ("close", sys_close); ("kill", sys_kill); ("exec", sys_exec); ("open", sys_open);
   ("mknod", sys_mknod); ("unlink", sys_unlink); ("fstat", sys_fstat); ("link", sys_link);
   ("mkdir", sys_mkdir); ("chdir", sys_chdir); ("dup", sys_dup); ("getpid", sys_getpid); ("sbrk", sys_sbrk);
   ("pause", sys_pause); ("uptime", sys_uptime); ("txbegin", sys_txbegin); ("txcommit", sys_txcommit);
   ("txabort", sys_txabort); ("txstatus", sys_txstatus)]%string.

(** Every stub of the user library traps with the number of its own system
    call in [a7]: the one at which the kernel's table has the handler of that
    name.  It changes no other register, and returns to its caller. *)
Theorem stubs_reach_handlers {L : Layout} name code m :
  (name, code) ∈ usys_stubs ->
  exists m' num f, exec code m = Some (m', Trap, [Ret]) /\ (forall r, r <> A7 -> regs m' r = regs m r) /\
    regs m' A7 = num /\ syscall_of (s32 num) = Some f /\ (name, f) ∈ handlers /\ mem m' = mem m.
Proof.
  intros Hin. unfold usys_stubs in Hin.
  repeat (apply elem_of_cons in Hin as [Hin|Hin];
    [injection Hin as -> ->; eexists _, _, _; split; [reflexivity|]; split; [intros r Hr; by apply fn_lookup_insert_ne|];
     split; [reflexivity|]; split; [reflexivity|]; split; [unfold handlers; repeat (left || right)|reflexivity] |]).
  by apply elem_of_nil in Hin.
Qed.

(** the accessors return to their caller; beside control registers they change
    only [a0], and [w_tp] the register [tp] *)
Theorem accessors_return name i m :
  (name, i) ∈ machine_accessors ++ supervisor_accessors ++ register_accessors ->
  exists m', exec [i; Ret] m = Some (m', Jump (regs m Ra), []) /\ mem m' = mem m /\
    forall r, r <> A0 -> (r = Tp -> name <> "w_tp"%string) -> regs m' r = regs m r.
Proof.
  intros Hin. cbn [app machine_accessors supervisor_accessors register_accessors] in Hin.
  repeat (apply elem_of_cons in Hin as [Hin|Hin];
    [injection Hin as -> ->; eexists; split; [reflexivity|]; split; [reflexivity|]; intros r Hr Ht;
     first [reflexivity|apply fn_lookup_insert_ne; naive_solver] |]).
  by apply elem_of_nil in Hin.
Qed.
End Sequences.
