(* ===== verification/Sched.v ===== *)
(** * Starting the kernel ([main.c]) and the scheduler ([proc.c])

    The locks [main] initialises have no state besides being free, so
    [printfinit], [trapinit] and [fileinit] leave no trace here.  [swtch] of
    the scheduler is a parameter: what the kernel thread of a process does
    from the moment it is switched to until it switches back. *)

From S2P Require Import Prelude Monad CString Types Kernel Kalloc Vm Uart Printf Console Bio Inode Proc Virtio Trap.
From stdpp Require Import base numbers list gmap strings.
From Stdlib Require Import ZArith Lia.

Open Scope Z_scope.

Section Main.
Context {L : Layout}.

Definition kvminit : K unit := pt ← kvmmake; upd_dev (set_v_kpgtbl (fun _ => pt)).

Definition kvminithart : K unit :=
  d ← gets k_dev; upd_csr (set_cr_satp (fun _ => MAKE_SATP (v_kpgtbl d))).

(** [main] up to the call of [scheduler]; the other harts come here when
    hart 0 has set [started] *)
Definition main : K unit :=
  c ← cpuid;
  if c =? 0 then
    consoleinit;;
    kprintf [10] [];;
    kprintf (chars "xv6 kernel is booting" ++ [10]) [];;
    kprintf [10] [];;
    kinit;;
    kvminit;;
    kvminithart;;
    procinit;;
    trapinithart;;
    plicinit;;
    plicinithart;;
    binit;;
    iinit;;
    virtio_disk_init;;
    userinit
  else
    kprintf (chars "hart %d starting" ++ [10]) [ANum c];;
    kvminithart;;
    trapinithart;;
    plicinithart.

End Main.

Section Scheduler.
Context (swtch : nat -> K unit).

(** the loop over the process table; [found] as in the C code *)
Fixpoint sched_procs (l : list nat) (found : bool) : K bool :=
  match l with
  | [] => mret found
  | p :: l =>
      acquire (Lproc p);;
      ps ← get_psched p;
      found ← (if bool_decide (ps_state ps = RUNNABLE) then
                 upd_psched p (set_ps_state (fun _ => RUNNING));;
                 modify (set_k_cur (fun _ => Some p));;
                 swtch p;;
                 modify (set_k_cur (fun _ => None));;
                 mret true
               else mret found);
      release (Lproc p);;
      sched_procs l found
  end.

(** one turn of the endless loop of [scheduler]; [false] when there was nothing
    to run, and the hart waits for an interrupt *)
Definition scheduler_turn : K bool :=
  intr_on;; intr_off;; sched_procs (seq 0 NPROC) false.

End Scheduler.

(** ** A process that sleeps runs again *)

Definition pstate (s : kst) (p : nat) : option procstate := ps_state <$> k_psched s !! p.

(** what [sleep] does when its process is switched to again *)
Definition sleep_resume (p : nat) (lk : lockid) : K unit :=
  upd_psched p (set_ps_chan (fun _ => None));; release (Lproc p);; acquire lk.

Lemma sleep_resume_ok p lk s :
  k_held s = [Lproc p] -> lk <> Lproc p ->
  sleep_resume p lk s =
  Ok tt (set_k_held (fun _ => [lk]) (set_k_psched (alter (set_ps_chan (fun _ => None)) p) s)).
Proof.
  intros Hh Hne. apply run_wp. unfold sleep_resume. kunfold. apply wp_bind, wp_modify. apply wp_bind.
  eapply wp_release; [cbn; exact Hh|]. apply wp_acquire; cbn; [set_solver|]. split; [done|kst_eq].
Qed.

Lemma sleep_blocks_resume ch lk s p pr ps :
  running p pr s -> k_held s = [lk] -> lk <> Lproc p -> k_psched s !! p = Some ps ->
  exists s1 k, sleep ch lk s = Block ch s1 k /\
    s1 = set_k_psched (alter (fun ps => set_ps_state (fun _ => SLEEPING)
                                          (set_ps_chan (fun _ => Some ch) ps)) p)
           (set_k_held (fun _ => [Lproc p]) s) /\
    forall s2, k s2 = sleep_resume p lk s2.
Proof.
  intros [Hc Hp _] Hh Hne Hps. unfold sleep, myproc, upd_psched.
  erewrite bind_ok by (unfold deref; by rewrite Hc).
  erewrite bind_ok by (apply acquire_ok; rewrite Hh; set_solver).
  erewrite bind_ok by (apply release_ok; cbn; rewrite Hh; set_solver).
  do 2 (erewrite bind_ok by reflexivity).
  match goal with |- context [mbind _ (sched ch) ?s0] => set (s1 := s0) end.
  assert (E : s1 = set_k_psched (alter (fun ps => set_ps_state (fun _ => SLEEPING)
    (set_ps_chan (fun _ => Some ch) ps)) p) (set_k_held (fun _ => [Lproc p]) s)).
  { unfold s1. kst_eq.
    - rewrite Hh. cbn. rewrite bool_decide_false by done. cbn. by rewrite bool_decide_true.
    - by apply alter_alter_at. }
  assert (H2 : k_psched s1 !! p = Some (set_ps_state (fun _ => SLEEPING) (set_ps_chan (fun _ => Some ch) ps))).
  { rewrite E. cbn. by rewrite list_lookup_alter_eq, Hps. }
  assert (H1 : k_held s1 = [Lproc p]) by (by rewrite E).
  assert (H3 : k_cur s1 = Some p) by (by rewrite E). clearbody s1.
  exists s1. eexists. split_and!; [apply bind_block|done|].
  - unfold sched, myproc, get_psched, holding.
    erewrite bind_ok by (unfold deref; by rewrite H3).
    erewrite bind_ok by reflexivity. rewrite H1, bool_decide_true by set_solver. cbn [negb].
    erewrite bind_ok by reflexivity. rewrite H1. cbn [length Nat.eqb negb].
    erewrite bind_ok by (unfold deref; by rewrite H2). reflexivity.
  - reflexivity.
Qed.

Lemma wakeup_makes_runnable ch s p ps :
  k_psched s !! p = Some ps -> ps_state ps = SLEEPING -> ps_chan ps = Some ch ->
  length (k_psched s) = NPROC -> no_plock s -> k_cur s <> Some p ->
  exists s', wakeup ch s = Ok tt s' /\ pstate s' p = Some RUNNABLE.
Proof.
  intros Hp Hst Hch Hlen Hno Hcur. eexists. split; [by apply wakeup_ok|].
  unfold pstate. cbn. unfold wakeup_table. rewrite list_lookup_imap, Hp. cbn. unfold wake1.
  rewrite bool_decide_false by congruence. by rewrite Hst, Hch, !bool_decide_true.
Qed.

(** the scheduler takes the CPU from a process that has called [sched], and
    gives it to process [p] *)
Definition switch_out (s : kst) : kst := set_k_cur (fun _ => None) (set_k_held (fun _ => []) s).
Definition switch_in (p : nat) (s : kst) : kst :=
  set_k_cur (fun _ => Some p) (set_k_held (fun _ => [Lproc p])
    (set_k_psched (alter (set_ps_state (fun _ => RUNNING)) p) s)).

Section Live.
Context (swtch : nat -> K unit).

(** what the scheduler relies on: the thread of [p] comes back holding only its
    own lock, and takes no other process out of the state RUNNABLE *)
Context (Hswtch : forall p s, k_held s = [Lproc p] -> length (k_psched s) = NPROC ->
  exists s', swtch p s = Ok tt s' /\ k_held s' = [Lproc p] /\ length (k_psched s') = NPROC /\
    forall q, q <> p -> pstate s q = Some RUNNABLE -> pstate s' q = Some RUNNABLE).

(** the scheduler passes over the processes before [p] *)
Lemma sched_procs_pass l rest found s p :
  k_held s = [] -> length (k_psched s) = NPROC -> Forall (fun q => q <> p /\ (q < NPROC)%nat) l ->
  pstate s p = Some RUNNABLE ->
  exists found' s', sched_procs swtch (l ++ rest) found s = sched_procs swtch rest found' s' /\
    k_held s' = [] /\ length (k_psched s') = NPROC /\ pstate s' p = Some RUNNABLE.
Proof using Hswtch.
  intros Hh Hlen Hl. revert found s Hh Hlen. induction Hl as [|q l [Hne Hq] _ IH]; intros found s Hh Hlen Hst.
  { by exists found, s. }
  cbn [app sched_procs]. erewrite bind_ok by (apply acquire_ok; rewrite Hh; set_solver).
  destruct (lookup_lt_is_Some_2 (k_psched s) q) as [ps Hps]; [lia|].
  erewrite bind_ok by (unfold get_psched, deref; cbn; by rewrite Hps).
  case_bool_decide as Hr.
  - set (sa := set_k_cur (fun _ => Some q)
      (set_k_psched (alter (set_ps_state (fun _ => RUNNING)) q) (set_k_held (cons (Lproc q)) s))).
    destruct (Hswtch q sa) as (sb & Eb & Hb1 & Hb2 & Hb3).
    { cbn. by rewrite Hh. }
    { cbn. by rewrite length_alter. }
    erewrite bind_ok; [|erewrite bind_ok by reflexivity; erewrite bind_ok by reflexivity;
      erewrite bind_ok by exact Eb; erewrite bind_ok by reflexivity; reflexivity].
    erewrite bind_ok by (apply release_ok; cbn; rewrite Hb1; set_solver).
    apply IH; cbn; [by rewrite Hb1, drop_lock_head|done|].
    unfold pstate in *. cbn. apply Hb3; [done|]. unfold sa. cbn. by rewrite list_lookup_alter_ne.
  - erewrite bind_ok by reflexivity.
    erewrite bind_ok by (apply release_ok; cbn; rewrite Hh; set_solver).
    apply IH; [cbn [k_held set_k_held]; rewrite Hh; apply drop_lock_head|done|done].
Qed.

Lemma scheduler_runs s p :
  (p < NPROC)%nat -> k_held s = [] -> length (k_psched s) = NPROC -> pstate s p = Some RUNNABLE ->
  exists sa sb, swtch p sa = Ok tt sb /\ k_cur sa = Some p /\ k_held sa = [Lproc p] /\
    pstate sa p = Some RUNNING /\
    scheduler_turn swtch s =
      (modify (set_k_cur (fun _ => None));; release (Lproc p);;
       sched_procs swtch (seq (S p) (NPROC - S p)) true) sb.
Proof using Hswtch.
  intros Hp Hh Hlen Hst. unfold scheduler_turn.
  do 2 (erewrite bind_ok by reflexivity).
  match goal with |- context [sched_procs _ (seq 0 _) _ ?s0] => set (s0' := s0) end.
  assert (seq 0 NPROC = seq 0 p ++ p :: seq (S p) (NPROC - S p)) as ->.
  { replace NPROC with (p + S (NPROC - S p))%nat at 1 by lia. by rewrite seq_app. }
  destruct (sched_procs_pass (seq 0 p) (p :: seq (S p) (NPROC - S p)) false s0' p)
    as (found & s1 & -> & Hh1 & Hlen1 & Hst1); [done|done| |done|].
  { apply Forall_seq. intros j Hj. lia. }
  cbn [sched_procs]. erewrite bind_ok by (apply acquire_ok; rewrite Hh1; set_solver).
  unfold pstate in Hst1. destruct (k_psched s1 !! p) as [ps|] eqn:Hps; [|done].
  erewrite bind_ok by (unfold get_psched, deref; cbn; by rewrite Hps).
  cbn in Hst1. rewrite bool_decide_true by congruence.
  set (sa := set_k_cur (fun _ => Some p)
    (set_k_psched (alter (set_ps_state (fun _ => RUNNING)) p) (set_k_held (cons (Lproc p)) s1))).
  destruct (Hswtch p sa) as (sb & Eb & _).
  { cbn. by rewrite Hh1. }
  { cbn. by rewrite length_alter. }
  exists sa, sb. split_and!; [done|done|cbn; by rewrite Hh1| |].
  - unfold pstate, sa. cbn. by rewrite list_lookup_alter_eq, Hps.
  - erewrite bind_ok; [|erewrite bind_ok by reflexivity; erewrite bind_ok by reflexivity;
      erewrite bind_ok by exact Eb; erewrite bind_ok by reflexivity; reflexivity].
    reflexivity.
Qed.

(** A sleeping process runs again, on one CPU.  [sleep] gives up the CPU with
    its process marked as waiting and the condition lock free; a [wakeup] of
    the channel in a state that has left the process so makes it RUNNABLE; the
    next turn of the scheduler that finds it so switches to it; and then
    [sleep] returns with the condition lock held again.  SleepLock has the
    interleavings of several CPUs. *)
Theorem sleeper_runs_again ch lk s p pr ps :
  running p pr s -> k_held s = [lk] -> lk <> Lproc p -> k_psched s !! p = Some ps ->
  exists s1 k, sleep ch lk s = Block ch s1 k /\ lk ∉ k_held s1 /\
    (forall s2, k_psched s2 !! p = k_psched s1 !! p -> length (k_psched s2) = NPROC ->
       no_plock s2 -> k_cur s2 <> Some p ->
       exists s3, wakeup ch s2 = Ok tt s3 /\ pstate s3 p = Some RUNNABLE) /\
    (forall s4, pstate s4 p = Some RUNNABLE -> length (k_psched s4) = NPROC -> k_held s4 = [] ->
       exists sa sb, swtch p sa = Ok tt sb /\ k_cur sa = Some p /\ pstate sa p = Some RUNNING /\
         scheduler_turn swtch s4 =
           (modify (set_k_cur (fun _ => None));; release (Lproc p);;
            sched_procs swtch (seq (S p) (NPROC - S p)) true) sb) /\
    (forall s5, k_held s5 = [Lproc p] -> exists s6, k s5 = Ok tt s6 /\ k_held s6 = [lk]).
Proof using Hswtch.
  intros Hrun Hh Hne Hps.
  destruct (sleep_blocks_resume ch lk s p pr ps Hrun Hh Hne Hps) as (s1 & k & Hs & -> & Hk).
  eexists _, k. split_and!; [done|cbn; set_solver| | |].
  - intros s2 E Hlen Hno Hc. cbn in E. rewrite list_lookup_alter_eq, Hps in E.
    eapply wakeup_makes_runnable; [exact E|done..].
  - intros s4 Hst Hlen H4. destruct (scheduler_runs s4 p) as (sa & sb & E1 & E2 & _ & E4 & E5); [|done..|eauto 8].
    rewrite <- Hlen. unfold pstate in Hst. apply lookup_lt_is_Some. by destruct (k_psched s4 !! p).
  - intros s5 H5. rewrite Hk, sleep_resume_ok by done. eauto.
Qed.
End Live.
