(* ===== verification/VirtioFacts.v ===== *)
(** * The disk driver and the block operation it implements

    The buffer cache is modelled on top of [disk_rw], the effect of one disk
    operation.  Here the driver itself is followed through a request: it
    formats three descriptors and sleeps, the device carries the request out,
    the interrupt handler wakes the process, and the process frees the
    descriptors.  The device is a parameter with the behaviour the virtio
    specification gives it. *)

From S2P Require Import Prelude Monad CString Types Kernel Vm Uart Bio Proc Virtio Trap Sched.
From stdpp Require Import base numbers list gmap strings.
From Stdlib Require Import ZArith Lia.

Open Scope Z_scope.

Notation vd s := (v_vdisk (k_dev s)).
Definition set_vd (f : vdisk -> vdisk) (s : kst) : kst := set_k_dev (set_v_vdisk f) s.

(** ** Free descriptors *)

Definition nfree_desc (l : list bool) : nat := length (filter (fun b => b = true) l).

Lemma nfree_take l i : l !! i = Some true -> S (nfree_desc (<[i := false]> l)) = nfree_desc l.
Proof.
  revert i. induction l as [|b l IH]; intros i Hi; [done|]. unfold nfree_desc in *.
  destruct i as [|i]; simpl in *; simplify_eq.
  - rewrite !filter_cons. repeat case_decide; simplify_eq. done.
  - rewrite !filter_cons. specialize (IH i Hi). repeat case_decide; simpl in *; lia.
Qed.

Lemma nfree_some l : (0 < nfree_desc l)%nat -> exists i, l !! i = Some true /\
  forall j, (j < i)%nat -> l !! j = Some false.
Proof.
  unfold nfree_desc. induction l as [|b l IH]; simpl; [lia|]. destruct b.
  - intros _. exists 0%nat. split; [done|lia].
  - rewrite filter_cons_False by done. intros H. destruct (IH H) as (i & Hi & Hj).
    exists (S i). split; [done|]. intros [|j] Hlt; [done|]. simpl. apply Hj. lia.
Qed.

Lemma for_find_split {S X R} (l1 l2 : list X) (x : X) (f : X -> ST S (option R)) s v s' :
  (forall y, In y l1 -> f y s = Ok None s) -> f x s = Ok (Some v) s' ->
  for_find (l1 ++ x :: l2) f s = Ok (Some v) s'.
Proof.
  intros H1 H2. induction l1 as [|y l1 IH]; simpl.
  - erewrite bind_ok by exact H2. done.
  - erewrite bind_ok by (apply H1; by left). apply IH. intros z Hz. apply H1. by right.
Qed.

Section Virtio.
Context {L : Layout}.

Lemma alloc_desc_ok s :
  length (vk_free (vd s)) = NUM -> (0 < nfree_desc (vk_free (vd s)))%nat ->
  exists i, vk_free (vd s) !! i = Some true /\
    alloc_desc s = Ok (Z.of_nat i) (set_vd (set_vk_free <[i := false]>) s).
Proof.
  intros Hlen Hn. destruct (nfree_some _ Hn) as (i & Hi & Hlt). exists i. split; [done|].
  apply lookup_lt_Some in Hi as Hi'. rewrite Hlen in Hi'. unfold alloc_desc.
  assert (seq 0 NUM = seq 0 i ++ i :: seq (S i) (NUM - S i)) as ->.
  { replace NUM with (i + S (NUM - S i))%nat at 1 by lia. by rewrite seq_app. }
  erewrite bind_ok; [|apply for_find_split].
  - done.
  - intros j Hj. apply in_seq in Hj. unfold get_vd. erewrite bind_ok by reflexivity.
    erewrite bind_ok by (unfold deref; by rewrite Hlt by lia). done.
  - unfold get_vd. erewrite bind_ok by reflexivity.
    erewrite bind_ok by (unfold deref; by rewrite Hi). done.
Qed.

(** the free list after the three descriptors are taken *)
Definition take3 (i0 i1 i2 : nat) (l : list bool) : list bool :=
  <[i2 := false]> (<[i1 := false]> (<[i0 := false]> l)).

Lemma alloc3_ok s :
  length (vk_free (vd s)) = NUM -> (3 <= nfree_desc (vk_free (vd s)))%nat ->
  exists i0 i1 i2, i0 <> i1 /\ i0 <> i2 /\ i1 <> i2 /\
    vk_free (vd s) !! i0 = Some true /\ vk_free (vd s) !! i1 = Some true /\
    vk_free (vd s) !! i2 = Some true /\
    alloc3_desc s = Ok (Some (Z.of_nat i0, Z.of_nat i1, Z.of_nat i2))
                       (set_vd (set_vk_free (take3 i0 i1 i2)) s).
Proof.
  intros Hlen Hn.
  destruct (alloc_desc_ok s) as (i0 & F0 & A0); [done|lia|].
  pose proof (nfree_take _ _ F0) as N0. set (s1 := set_vd (set_vk_free <[i0 := false]>) s) in *.
  destruct (alloc_desc_ok s1) as (i1 & F1 & A1); [cbn; by rewrite length_insert| |].
  { change (vk_free (vd s1)) with (<[i0 := false]> (vk_free (vd s))). lia. }
  pose proof (nfree_take _ _ F1) as N1. set (s2 := set_vd (set_vk_free <[i1 := false]>) s1) in *.
  destruct (alloc_desc_ok s2) as (i2 & F2 & A2); [cbn; by rewrite !length_insert| |].
  { change (vk_free (vd s2)) with (<[i1 := false]> (vk_free (vd s1))).
    change (vk_free (vd s1)) with (<[i0 := false]> (vk_free (vd s))) in *. lia. }
  cbn in F1, F2. apply lookup_lt_Some in F0 as L0.
  assert (H01 : i0 <> i1) by (intros ->; by rewrite list_lookup_insert_eq in F1).
  rewrite list_lookup_insert_ne in F1 by done. apply lookup_lt_Some in F1 as L1.
  assert (H12 : i1 <> i2) by (intros ->; rewrite list_lookup_insert_eq in F2; [done|by rewrite length_insert]).
  rewrite list_lookup_insert_ne in F2 by done.
  assert (H02 : i0 <> i2) by (intros ->; by rewrite list_lookup_insert_eq in F2).
  rewrite list_lookup_insert_ne in F2 by done.
  exists i0, i1, i2. split_and!; try done. unfold alloc3_desc.
  erewrite bind_ok by exact A0. rewrite (proj2 (Z.ltb_ge _ 0)) by lia.
  erewrite bind_ok by exact A1. rewrite (proj2 (Z.ltb_ge _ 0)) by lia.
  erewrite bind_ok by exact A2. rewrite (proj2 (Z.ltb_ge _ 0)) by lia. done.
Qed.

Lemma free_desc_ok i s :
  (i < NUM)%nat -> vk_free (vd s) !! i = Some false -> length (k_psched s) = NPROC -> no_plock s ->
  free_desc (Z.of_nat i) s =
  Ok tt (set_k_psched (wakeup_table ChDiskFree (k_cur s))
    (set_vd (fun d => set_vk_free <[i := true]> (set_vk_desc <[i := zero_desc]> d)) s)).
Proof.
  intros Hi Hf Hlen Hno. unfold free_desc. rewrite (proj2 (Z.leb_gt _ _)) by lia.
  unfold get_vd. erewrite bind_ok by reflexivity. rewrite Nat2Z.id.
  erewrite bind_ok by (unfold deref; by rewrite Hf). cbv beta iota.
  do 2 (erewrite bind_ok by reflexivity). rewrite wakeup_ok by done. done.
Qed.

(** the descriptors of a request, as [format_request] leaves them *)
Record chain3 (d : vdisk) (i0 i1 i2 : nat) (type sector pa : Z) : Prop := {
  c3_op : vk_ops d !! i0 = Some (Mk_vreq type 0 sector);
  c3_0 : vk_desc d !! i0 = Some (Mk_vdesc (VOp i0) 16 VRING_DESC_F_NEXT (Z.of_nat i1));
  c3_1 : vk_desc d !! i1 = Some (Mk_vdesc (VData pa) BSIZE
    (Z.lor (if type =? VIRTIO_BLK_T_OUT then 0 else VRING_DESC_F_WRITE) VRING_DESC_F_NEXT) (Z.of_nat i2));
  c3_2 : vk_desc d !! i2 = Some (Mk_vdesc (VStatus i0) 1 VRING_DESC_F_WRITE 0)
}.

Definition give3 (i0 i1 i2 : nat) (d : vdisk) : vdisk :=
  set_vk_free (fun l => <[i2 := true]> (<[i1 := true]> (<[i0 := true]> l)))
    (set_vk_desc (fun l => <[i2 := zero_desc]> (<[i1 := zero_desc]> (<[i0 := zero_desc]> l))) d).

Lemma free_chain_ok i0 i1 i2 type sector pa s :
  (i0 < NUM)%nat -> (i1 < NUM)%nat -> (i2 < NUM)%nat -> i0 <> i1 -> i0 <> i2 -> i1 <> i2 ->
  chain3 (vd s) i0 i1 i2 type sector pa ->
  vk_free (vd s) !! i0 = Some false -> vk_free (vd s) !! i1 = Some false ->
  vk_free (vd s) !! i2 = Some false -> length (k_psched s) = NPROC -> no_plock s ->
  exists procs, free_chain (Z.of_nat i0) s =
    Ok tt (set_k_psched (fun _ => procs) (set_vd (give3 i0 i1 i2) s)).
Proof.
  intros L0 L1 L2 N01 N02 N12 [_ C0 C1 C2] F0 F1 F2 Hlen Hno. unfold free_chain.
  unfold get_vd. change (S NUM) with (S (S (S 6))). eexists.
  erewrite loop_next.
  2: { erewrite bind_ok by reflexivity. rewrite Nat2Z.id.
       erewrite bind_ok by (unfold deref; by rewrite C0).
       erewrite bind_ok by (by apply free_desc_ok). reflexivity. }
  erewrite loop_next.
  2: { cbn [vd_next]. erewrite bind_ok by reflexivity. rewrite Nat2Z.id.
       erewrite bind_ok by (unfold deref; cbn; by rewrite list_lookup_insert_ne, C1 by done).
       erewrite bind_ok by (apply free_desc_ok; [done|cbn; by rewrite list_lookup_insert_ne
         |cbn; by rewrite ?length_wakeup_table, ?length_imap|done]).
       cbn [vd_flags]. by destruct (type =? VIRTIO_BLK_T_OUT). }
  erewrite loop_done.
  2: { cbn [vd_next]. erewrite bind_ok by reflexivity. rewrite Nat2Z.id.
       erewrite bind_ok by (unfold deref; cbn; by rewrite !list_lookup_insert_ne, C2 by done).
       erewrite bind_ok by (apply free_desc_ok; [done|cbn; by rewrite !list_lookup_insert_ne
         |cbn; by rewrite ?length_wakeup_table, ?length_imap|done]). reflexivity. }
  reflexivity.
Qed.

(** ** The request *)

(** the driver's tables have their sizes, and its indices are 16-bit numbers *)
Record vd_ok (d : vdisk) : Prop := {
  vo_desc : length (vk_desc d) = NUM;
  vo_avail : length (vk_avail_ring d) = NUM;
  vo_used : length (vk_used_ring d) = NUM;
  vo_free : length (vk_free d) = NUM;
  vo_info : length (vk_info_b d) = NUM;
  vo_status : length (vk_status d) = NUM;
  vo_ops : length (vk_ops d) = NUM;
  vo_aidx : 0 <= vk_avail_idx d < 2 ^ 16;
  vo_uidx : 0 <= vk_used_idx d < 2 ^ 16
}.

Definition op_type (write : bool) : Z := if write then VIRTIO_BLK_T_OUT else VIRTIO_BLK_T_IN.

(** the device has been given the chain that starts at [i0] *)
Definition offered (d : vdisk) (i0 : nat) : Prop :=
  vk_avail_ring d !! Z.to_nat (u16 (vk_avail_idx d - 1) mod Z.of_nat NUM) = Some (Z.of_nat i0).

(** the last thing the driver told the device is that the queue has a request *)
Definition notified (d : devst) : Prop :=
  last (v_out d) = Some (VIRTIO0 + VIRTIO_MMIO_QUEUE_NOTIFY, 0).

(** the driver tables after a request for buffer [b] was formatted and offered *)
Record requested (d d' : vdisk) (b i0 i1 i2 : nat) (write : bool) (sector pa : Z) : Prop := {
  rq_chain : chain3 d' i0 i1 i2 (op_type write) sector pa;
  rq_offered : offered d' i0;
  rq_info : vk_info_b d' = <[i0 := Some b]> (vk_info_b d);
  rq_status : length (vk_status d') = NUM;
  rq_free : vk_free d' = vk_free d;
  rq_used : vk_used_ring d' = vk_used_ring d /\ vk_used_idx d' = vk_used_idx d /\
            vk_used_didx d' = vk_used_didx d
}.

(** what the formatting and offering of a request do to the tables *)
Definition request_vd (b : nat) (pa sector : Z) (write : bool) (i0 i1 i2 : nat) (d : vdisk) : vdisk :=
  let d := set_vk_ops <[i0 := Mk_vreq (op_type write) 0 sector]> d in
  let d := set_vk_desc <[i0 := Mk_vdesc (VOp i0) 16 VRING_DESC_F_NEXT (Z.of_nat i1)]> d in
  let d := set_vk_desc <[i1 := Mk_vdesc (VData pa) BSIZE
             (Z.lor (if write then 0 else VRING_DESC_F_WRITE) VRING_DESC_F_NEXT) (Z.of_nat i2)]> d in
  let d := set_vk_status <[i0 := 0xff]> d in
  let d := set_vk_desc <[i2 := Mk_vdesc (VStatus i0) 1 VRING_DESC_F_WRITE 0]> d in
  let d := set_vk_info_b <[i0 := Some b]> d in
  let d := set_vk_avail_ring <[Z.to_nat (vk_avail_idx d mod Z.of_nat NUM) := Z.of_nat i0]> d in
  set_vk_avail_idx (fun i => u16 (i + 1)) d.

Lemma upd_vd_ok f s : upd_vd f s = Ok tt (set_vd f s).
Proof. done. Qed.

Lemma upd_buf_ok b f s : upd_buf b f s = Ok tt (set_k_bcache (alter f b) s).
Proof. done. Qed.

Lemma set_vd_vd f g s : set_vd f (set_vd g s) = set_vd (fun d => f (g d)) s.
Proof. done. Qed.

Lemma set_vd_bcache f g s : set_vd f (set_k_bcache g s) = set_k_bcache g (set_vd f s).
Proof. done. Qed.

Lemma request_ok b pa sector write i0 i1 i2 s :
  vd_ok (vd s) -> (i0 < NUM)%nat -> (i1 < NUM)%nat -> (i2 < NUM)%nat ->
  i0 <> i1 -> i0 <> i2 -> i1 <> i2 ->
  exists d', (format_request b pa sector write (Z.of_nat i0, Z.of_nat i1, Z.of_nat i2);;
              submit (Z.of_nat i0)) s =
    Ok tt (set_k_bcache (alter (set_b_disk (fun _ => true)) b) (set_k_dev (fun _ => d') s)) /\
    requested (vd s) (v_vdisk d') b i0 i1 i2 write sector pa /\ v_in d' = v_in (k_dev s) /\
    notified d'.
Proof.
  intros Hok L0 L1 L2 N01 N02 N12.
  exists (set_v_out (fun l => l ++ [(VIRTIO0 + VIRTIO_MMIO_QUEUE_NOTIFY, u32 0)])
    (set_v_vdisk (request_vd b pa sector write i0 i1 i2) (k_dev s))). split.
  { unfold format_request, submit, writeR, mmio_write. rewrite !Nat2Z.id.
    erewrite bind_ok.
    2: { do 5 (erewrite bind_ok by apply upd_vd_ok). erewrite bind_ok by apply upd_buf_ok.
         apply upd_vd_ok. }
    do 2 (erewrite bind_ok by apply upd_vd_ok). rewrite !set_vd_bcache, !set_vd_vd.
    unfold request_vd, set_vd. generalize (fun d : vdisk => set_vk_avail_idx (fun i => u16 (i + 1))
      (set_vk_avail_ring <[Z.to_nat (vk_avail_idx d mod Z.of_nat NUM) := Z.of_nat i0]> d)).
    intros f. unfold upd_dev, modify. f_equal. }
  destruct Hok as [H1 H2 H3 H4 H5 H6 H7 H8 H9]. split; [|split; [done|apply last_snoc]]. split; cbn; try done.
  - split; cbn.
    + by rewrite list_lookup_insert_eq by lia.
    + by rewrite !list_lookup_insert_ne, list_lookup_insert_eq by (done || lia).
    + rewrite list_lookup_insert_ne, list_lookup_insert_eq by (rewrite ?length_insert; done || lia).
      by destruct write.
    + by rewrite list_lookup_insert_eq by (rewrite !length_insert; lia).
  - unfold offered. cbn.
    assert (u16 (u16 (vk_avail_idx (vd s) + 1) - 1) = vk_avail_idx (vd s)) as ->.
    { unfold wrap. rewrite Zminus_mod_idemp_l. rewrite Z.add_simpl_r. by apply Z.mod_small. }
    apply list_lookup_insert_eq. rewrite H2.
    pose proof (Z.mod_pos_bound (vk_avail_idx (vd s)) 8 ltac:(done)). unfold NUM in *. lia.
  - by rewrite length_insert.
Qed.

(** ** The interrupt *)

Lemma virtio_intr_ok s i0 b x l :
  k_held s = [] -> length (k_psched s) = NPROC -> v_in (k_dev s) = x :: l ->
  0 <= vk_used_idx (vd s) < 2 ^ 16 ->
  vk_used_didx (vd s) = u16 (vk_used_idx (vd s) + 1) ->
  vk_used_ring (vd s) !! Z.to_nat (vk_used_idx (vd s) mod Z.of_nat NUM) = Some (Z.of_nat i0) ->
  vk_status (vd s) !! i0 = Some 0 -> vk_info_b (vd s) !! i0 = Some (Some b) ->
  exists d', virtio_disk_intr s =
    Ok tt (set_k_psched (wakeup_table (ChBuf b) (k_cur s))
      (set_k_bcache (alter (set_b_disk (fun _ => false)) b) (set_k_dev (fun _ => d') s))) /\
    v_vdisk d' = set_vk_used_idx (fun i => u16 (i + 1)) (vd s).
Proof.
  intros Hh Hlen Hin Hidx Hd Hring Hst Hinfo.
  set (d1 := set_v_out (fun o => o ++ [(VIRTIO0 + VIRTIO_MMIO_INTERRUPT_ACK, u32 (Z.land (u32 x) 0x3))])
    (set_v_in (fun _ => l) (k_dev s))).
  exists (set_v_vdisk (set_vk_used_idx (fun i => u16 (i + 1))) d1). split; [|done].
  assert (E1 : v_vdisk d1 = vd s) by done. unfold virtio_disk_intr, writeR.
  erewrite bind_ok by (apply acquire_ok; rewrite Hh; set_solver).
  erewrite bind_ok; [|unfold readR; erewrite bind_ok; [|unfold mmio_read; cbn; rewrite Hin; reflexivity]; reflexivity].
  erewrite bind_ok by reflexivity.
  set (s1 := set_k_dev (fun _ => d1) (set_k_held (cons Lvdisk) s)).
  match goal with |- mbind _ _ ?s0 = _ => replace s0 with s1 by kst_eq end. clearbody d1.
  change (S NUM) with (S (S 7)). erewrite bind_ok.
  2: { erewrite loop_next.
    2: { unfold get_vd. erewrite bind_ok by reflexivity. cbn [s1 k_dev set_k_dev set_k_held]. rewrite E1.
         rewrite Hd, (proj2 (Z.eqb_neq _ _)).
         - erewrite bind_ok by (unfold deref; by rewrite Hring). rewrite Nat2Z.id.
           erewrite bind_ok by (unfold deref; by rewrite Hst). cbn [Z.eqb negb].
           erewrite bind_ok by (unfold deref; by rewrite Hinfo).
           erewrite bind_ok by apply upd_buf_ok.
           erewrite bind_ok.
           2: { apply wakeup_ok; [done|]. intros j. cbn. rewrite Hh. set_solver. }
           erewrite bind_ok by apply upd_vd_ok. reflexivity.
         - unfold wrap. change (2 ^ 16) with 65536 in *. Z.to_euclidean_division_equations. lia. }
    erewrite loop_done; [reflexivity|].
    unfold get_vd. erewrite bind_ok by reflexivity. cbn -[Z.of_nat NUM Z.modulo wrap].
    by rewrite E1, Hd, Z.eqb_refl. }
  rewrite release_ok by (cbn; rewrite Hh; set_solver). by f_equal.
Qed.

(** ** The device *)

(** the used ring and the status byte after the device served the chain [i0] *)
Definition served (i0 : nat) (d : vdisk) : vdisk :=
  set_vk_used_didx (fun i => u16 (i + 1))
    (set_vk_used_ring <[Z.to_nat (vk_used_didx d mod Z.of_nat NUM) := Z.of_nat i0]>
      (set_vk_status <[i0 := 0]> d)).

(** a virtio block device: once it is notified it carries out the request it
    was offered, writes status 0 and puts the chain in the used ring *)
Record device_ok (dev : kst -> kst) : Prop := {
  dv_read s i0 i1 i2 blockno pa blk :
    chain3 (vd s) i0 i1 i2 VIRTIO_BLK_T_IN (blockno * 2) pa -> offered (vd s) i0 ->
    notified (k_dev s) -> k_disk s !! blockno = Some blk ->
    dev s = set_vd (served i0) (set_k_heap <[pa := PBuf blk]> s);
  dv_write s i0 i1 i2 blockno pa blk bytes :
    chain3 (vd s) i0 i1 i2 VIRTIO_BLK_T_OUT (blockno * 2) pa -> offered (vd s) i0 ->
    notified (k_dev s) -> k_disk s !! blockno = Some blk -> k_heap s !! pa = Some (PBuf bytes) ->
    dev s = set_vd (served i0)
      (set_k_dwrites (fun w => w ++ [(blockno, bytes)]) (set_k_disk <[blockno := bytes]> s))
}.

(** the interrupt handler after the device served the chain [i0] of buffer [b] *)
Lemma served_intr s i0 b x l :
  k_held s = [] -> length (k_psched s) = NPROC -> v_in (k_dev s) = x :: l ->
  0 <= vk_used_idx (vd s) < 2 ^ 16 -> vk_used_didx (vd s) = vk_used_idx (vd s) ->
  length (vk_used_ring (vd s)) = NUM -> (i0 < length (vk_status (vd s)))%nat ->
  vk_info_b (vd s) !! i0 = Some (Some b) ->
  exists d', virtio_disk_intr (set_vd (served i0) s) =
    Ok tt (set_k_psched (wakeup_table (ChBuf b) (k_cur s))
      (set_k_bcache (alter (set_b_disk (fun _ => false)) b)
        (set_k_dev (fun _ => d') (set_vd (served i0) s)))) /\
    v_vdisk d' = set_vk_used_idx (fun i => u16 (i + 1)) (served i0 (vd s)).
Proof.
  intros Hh Hlen Hin Hidx Hq Hring Hst Hinfo.
  apply (virtio_intr_ok (set_vd (served i0) s) i0 b x l); cbn; try done.
  - by rewrite Hq.
  - rewrite Hq. apply list_lookup_insert_eq. rewrite Hring.
    pose proof (Z.mod_pos_bound (vk_used_idx (vd s)) 8 ltac:(done)). unfold NUM. lia.
  - by apply list_lookup_insert_eq.
Qed.

(** the part of [virtio_disk_rw] after the first sleep *)
Definition rw_finish (b i0 : nat) : K unit :=
  loop 999 (fun _ : unit =>
    bb ← get_buf b;
    if b_disk bb then sleep (ChBuf b) Lvdisk;; mret (inl tt) else mret (inr tt)) tt;;
  upd_vd (set_vk_info_b <[i0 := None]>);;
  free_chain (Z.of_nat i0);;
  release Lvdisk.

(** what the process does once the interrupt handler has cleared [b->disk] *)
Lemma finish_ok b i0 i1 i2 type sector pa s4 bb4 :
  k_held s4 = [Lvdisk] -> length (k_psched s4) = NPROC ->
  k_bcache s4 !! b = Some bb4 -> b_disk bb4 = false ->
  (i0 < NUM)%nat -> (i1 < NUM)%nat -> (i2 < NUM)%nat -> i0 <> i1 -> i0 <> i2 -> i1 <> i2 ->
  chain3 (vd s4) i0 i1 i2 type sector pa ->
  vk_free (vd s4) !! i0 = Some false -> vk_free (vd s4) !! i1 = Some false ->
  vk_free (vd s4) !! i2 = Some false ->
  exists procs, rw_finish b i0 s4 = Ok tt (set_k_held (fun _ => []) (set_k_psched (fun _ => procs)
    (set_vd (give3 i0 i1 i2) (set_vd (set_vk_info_b <[i0 := None]>) s4)))).
Proof.
  intros Hh Hlen Hb4 Hd L0 L1 L2 N01 N02 N12 C F0 F1 F2.
  destruct (free_chain_ok i0 i1 i2 type sector pa (set_vd (set_vk_info_b <[i0 := None]>) s4))
    as [procs Efc]; [done..| |done|done|done|done| |].
  { by destruct C. }
  { intros j. cbn. rewrite Hh. set_solver. }
  exists procs. unfold rw_finish, get_buf. erewrite bind_ok.
  2: { change 999%nat with (S 998). eapply loop_done.
       erewrite bind_ok by (unfold deref; by rewrite Hb4). by rewrite Hd. }
  erewrite bind_ok by apply upd_vd_ok. erewrite bind_ok by exact Efc.
  rewrite release_ok by (cbn; rewrite Hh; set_solver). f_equal. unfold set_vd. kst_eq.
  rewrite Hh. apply drop_lock_head.
Qed.

(** the state [virtio_disk_rw] leaves when it goes to sleep, with devices [d1] *)
Definition rw_sleeping (b p : nat) (d1 : devst) (s : kst) : kst :=
  set_k_psched (alter (fun ps => set_ps_state (fun _ => SLEEPING)
                                   (set_ps_chan (fun _ => Some (ChBuf b)) ps)) p)
    (set_k_held (fun _ => [Lproc p])
       (set_k_bcache (alter (set_b_disk (fun _ => true)) b) (set_k_dev (fun _ => d1) s))).

(** the state the interrupt handler leaves, with devices [d3] *)
Definition rw_interrupted (b i0 : nat) (d3 : devst) (s : kst) : kst :=
  set_k_psched (wakeup_table (ChBuf b) (k_cur s))
    (set_k_bcache (alter (set_b_disk (fun _ => false)) b)
       (set_k_dev (fun _ => d3) (set_vd (served i0) s))).

Section Driver.
Context (b p : nat) (write : bool) (bb : buf) (pr : proc) (ps : psched) (s : kst).
Context (Hrun : running p pr s) (Hps : k_psched s !! p = Some ps) (Hheld : k_held s = []).
Context (Hb : k_bcache s !! b = Some bb).
Context (Hok : vd_ok (vd s)) (Hfree : (3 <= nfree_desc (vk_free (vd s)))%nat).

Lemma rw_blocks :
  exists i0 i1 i2 d1 k,
    i0 <> i1 /\ i0 <> i2 /\ i1 <> i2 /\
    vk_free (vd s) !! i0 = Some true /\ vk_free (vd s) !! i1 = Some true /\
    vk_free (vd s) !! i2 = Some true /\
    virtio_disk_rw b write s = Block (ChBuf b) (rw_sleeping b p d1 s) k /\
    requested (set_vk_free (take3 i0 i1 i2) (vd s)) (v_vdisk d1) b i0 i1 i2 write
      (u32 (b_blockno bb * (BSIZE / 512))) (b_data bb) /\
    v_in d1 = v_in (k_dev s) /\ notified d1 /\
    forall s4 s4', sleep_resume p Lvdisk s4 = Ok tt s4' -> k s4 = rw_finish b i0 s4'.
Proof using All.
  destruct (alloc3_ok (set_k_held (cons Lvdisk) s)) as (i0 & i1 & i2 & N01 & N02 & N12 & F0 & F1 & F2 & Ea);
    [apply Hok|exact Hfree|]. cbn in F0, F1, F2.
  pose proof (vo_free _ Hok) as HNUM.
  apply lookup_lt_Some in F0 as L0. apply lookup_lt_Some in F1 as L1. apply lookup_lt_Some in F2 as L2.
  rewrite HNUM in L0, L1, L2.
  set (s1 := set_vd (set_vk_free (take3 i0 i1 i2)) (set_k_held (cons Lvdisk) s)) in *.
  destruct (request_ok b (b_data bb) (u32 (b_blockno bb * (BSIZE / 512))) write i0 i1 i2 s1)
    as (d1 & Erq & Hrq & Hin & Hnot); [|done..|].
  { destruct Hok. split; cbn; try done. unfold take3. by rewrite !length_insert. }
  apply bind_inv in Erq as ([] & s2 & Efmt & Esub).
  set (s3 := set_k_bcache (alter (set_b_disk (fun _ => true)) b) (set_k_dev (fun _ => d1) s1)) in *.
  assert (Hb3 : k_bcache s3 !! b = Some (set_b_disk (fun _ => true) bb)).
  { unfold s3. cbn. by rewrite list_lookup_alter_eq, Hb. }
  destruct (sleep_blocks_resume (ChBuf b) Lvdisk s3 p pr ps) as (s4 & ksl & Hsl & -> & Hk).
  { destruct Hrun. by split. }
  { cbn. by rewrite Hheld. }
  { done. }
  { done. }
  eexists i0, i1, i2, d1, _. split_and!; try done.
  - unfold virtio_disk_rw, get_buf. erewrite bind_ok by (unfold deref; by rewrite Hb). cbv zeta.
    erewrite bind_ok by (apply acquire_ok; rewrite Hheld; set_solver).
    erewrite bind_ok; [|change WAKEUPS with (S 999); eapply loop_done; erewrite bind_ok by exact Ea; reflexivity].
    erewrite bind_ok by (unfold deref; cbn; by rewrite Hb).
    erewrite bind_ok by exact Efmt. erewrite bind_ok by exact Esub. cbn [fst].
    change WAKEUPS with (S 999). etrans; [eapply bind_block; cbn [loop]; eapply bind_block;
      erewrite bind_ok by (unfold deref; by rewrite Hb3); cbn [b_disk set_b_disk];
      eapply bind_block; exact Hsl|].
    done.
  - intros s4 s4' E. cbv beta. rewrite Hk, E. cbn [res_bind]. rewrite Nat2Z.id. reflexivity.
Qed.

End Driver.

Lemma take3_false i0 i1 i2 l j :
  j = i0 \/ j = i1 \/ j = i2 -> (j < length l)%nat -> take3 i0 i1 i2 l !! j = Some false.
Proof.
  intros Hj Hlt. unfold take3.
  destruct (decide (j = i2)) as [->|E2]; [by rewrite list_lookup_insert_eq by (by rewrite !length_insert)|].
  rewrite list_lookup_insert_ne by done.
  destruct (decide (j = i1)) as [->|E1]; [by rewrite list_lookup_insert_eq by (by rewrite !length_insert)|].
  rewrite list_lookup_insert_ne by done. assert (j = i0) as -> by tauto.
  by apply list_lookup_insert_eq.
Qed.

(** the state of the tables when the process goes on: taken descriptors given back *)
Lemma give_take i0 i1 i2 l :
  l !! i0 = Some true -> l !! i1 = Some true -> l !! i2 = Some true ->
  <[i2 := true]> (<[i1 := true]> (<[i0 := true]> (take3 i0 i1 i2 l))) = l.
Proof.
  intros F0 F1 F2. apply lookup_lt_Some in F0 as L0. apply lookup_lt_Some in F1 as L1.
  apply lookup_lt_Some in F2 as L2. unfold take3. apply list_eq. intros j.
  destruct (decide (j = i2)) as [->|E2]; [by rewrite list_lookup_insert_eq by (rewrite !length_insert; lia)|].
  rewrite list_lookup_insert_ne by done.
  destruct (decide (j = i1)) as [->|E1]; [by rewrite list_lookup_insert_eq by (rewrite !length_insert; lia)|].
  rewrite list_lookup_insert_ne by done.
  destruct (decide (j = i0)) as [->|E0]; [by rewrite list_lookup_insert_eq by (rewrite !length_insert; lia)|].
  by rewrite !list_lookup_insert_ne by done.
Qed.

Lemma wakeup_table_wakes ch c procs p ps :
  c <> Some p -> procs !! p = Some ps -> ps_state ps = SLEEPING -> ps_chan ps = Some ch ->
  ps_state <$> wakeup_table ch c procs !! p = Some RUNNABLE.
Proof.
  intros Hc Hp Hs Hch. unfold wakeup_table. rewrite list_lookup_imap, Hp. cbn. unfold wake1.
  by rewrite bool_decide_false, Hs, Hch, !bool_decide_true.
Qed.

(** what one disk operation does to memory and disk *)
Definition transfer (write : bool) (blockno pa : Z) (blk bytes : list Z) (s : kst) : kst :=
  if write then set_k_dwrites (fun w => w ++ [(blockno, bytes)]) (set_k_disk <[blockno := bytes]> s)
  else set_k_heap <[pa := PBuf blk]> s.

Lemma transfer_frame write blockno pa blk bytes s (s' := transfer write blockno pa blk bytes s) :
  k_dev s' = k_dev s /\ k_psched s' = k_psched s /\ k_held s' = k_held s /\ k_cur s' = k_cur s /\
  k_bcache s' = k_bcache s.
Proof. unfold s', transfer. by destruct write. Qed.

Lemma transfer_effect write blockno pa blk bytes s s1 :
  k_heap s1 = k_heap s -> k_disk s1 = k_disk s -> k_dwrites s1 = k_dwrites s ->
  k_heap (transfer write blockno pa blk bytes s1) = k_heap (transfer write blockno pa blk bytes s) /\
  k_disk (transfer write blockno pa blk bytes s1) = k_disk (transfer write blockno pa blk bytes s) /\
  k_dwrites (transfer write blockno pa blk bytes s1) = k_dwrites (transfer write blockno pa blk bytes s).
Proof. unfold transfer. destruct write; cbn; by intros -> -> ->. Qed.

Lemma disk_rw_transfer b bb write blk bytes s :
  k_bcache s !! b = Some bb -> k_disk s !! b_blockno bb = Some blk ->
  k_heap s !! b_data bb = Some (PBuf bytes) ->
  disk_rw b write s = Ok tt (transfer write (b_blockno bb) (b_data bb) blk bytes s).
Proof.
  intros Hb Hd Hh. unfold disk_rw, get_buf, load_buf, transfer.
  erewrite bind_ok by (unfold deref; by rewrite Hb).
  erewrite bind_ok by reflexivity. rewrite Hd. destruct write; [|done].
  erewrite bind_ok by (unfold deref; by rewrite Hh). done.
Qed.

Lemma device_transfer dev write s i0 i1 i2 blockno pa blk bytes :
  device_ok dev -> chain3 (vd s) i0 i1 i2 (op_type write) (blockno * 2) pa -> offered (vd s) i0 ->
  notified (k_dev s) -> k_disk s !! blockno = Some blk -> k_heap s !! pa = Some (PBuf bytes) ->
  dev s = set_vd (served i0) (transfer write blockno pa blk bytes s).
Proof.
  intros Hdev C O Hn Hd Hh. unfold transfer. destruct write; [by eapply dv_write|by eapply dv_read].
Qed.

Lemma set_b_disk_back x :
  b_disk x = false -> set_b_disk (fun _ => false) (set_b_disk (fun _ => true) x) = x.
Proof. destruct x. cbn. by intros ->. Qed.

Section Request.
Context (dev : kst -> kst) (Hdev : device_ok dev).
Context (b p : nat) (write : bool) (bb : buf) (pr : proc) (ps : psched) (s : kst) (blk bytes : list Z).
Context (Hrun : running p pr s) (Hps : k_psched s !! p = Some ps) (Hheld : k_held s = []).
Context (Hb : k_bcache s !! b = Some bb) (Hidle : b_disk bb = false).
Context (Hblock : 0 <= b_blockno bb < 2 ^ 31).
Context (Hdisk : k_disk s !! b_blockno bb = Some blk) (Hpage : k_heap s !! b_data bb = Some (PBuf bytes)).
Context (Hok : vd_ok (vd s)) (Hfree : (3 <= nfree_desc (vk_free (vd s)))%nat).
Context (Hquiet : vk_used_didx (vd s) = vk_used_idx (vd s)) (Hin : v_in (k_dev s) <> []).

(** the request up to the return of the interrupt handler *)
Lemma rw_served :
  exists i0 i1 i2 d1 d3 k,
    let s1 := switch_out (rw_sleeping b p d1 s) in
    i0 <> i1 /\ i0 <> i2 /\ i1 <> i2 /\
    vk_free (vd s) !! i0 = Some true /\ vk_free (vd s) !! i1 = Some true /\
    vk_free (vd s) !! i2 = Some true /\
    virtio_disk_rw b write s = Block (ChBuf b) (rw_sleeping b p d1 s) k /\
    requested (set_vk_free (take3 i0 i1 i2) (vd s)) (v_vdisk d1) b i0 i1 i2 write
      (b_blockno bb * 2) (b_data bb) /\
    virtio_disk_intr (dev s1) =
      Ok tt (rw_interrupted b i0 d3 (transfer write (b_blockno bb) (b_data bb) blk bytes s1)) /\
    v_vdisk d3 = set_vk_used_idx (fun i => u16 (i + 1)) (served i0 (v_vdisk d1)) /\
    forall s4 s4', sleep_resume p Lvdisk s4 = Ok tt s4' -> k s4 = rw_finish b i0 s4'.
Proof using All.
  destruct (rw_blocks b p write bb pr ps s Hrun Hps Hheld Hb Hok Hfree)
    as (i0 & i1 & i2 & d1 & k & N01 & N02 & N12 & F0 & F1 & F2 & Erw & Hrq & Ein & Hnot & Hk).
  replace (u32 (b_blockno bb * (BSIZE / 512))) with (b_blockno bb * 2) in Hrq
    by (change (BSIZE / 512) with 2; rewrite wrap_small; [done|change (2 ^ 32) with (2 ^ 31 * 2); lia]).
  pose proof Hrq as [HC HO HI HS HF (HU1 & HU2 & HU3)]. cbn in HI, HF, HU1, HU2, HU3.
  pose proof (vo_free _ Hok) as HNUM. apply lookup_lt_Some in F0 as L0. rewrite HNUM in L0.
  set (s1 := switch_out (rw_sleeping b p d1 s)). destruct (v_in (k_dev s)) as [|x l] eqn:Ev; [done|].
  set (st := transfer write (b_blockno bb) (b_data bb) blk bytes s1).
  destruct (transfer_frame write (b_blockno bb) (b_data bb) blk bytes s1) as (T1 & T2 & T3 & T4 & T5).
  fold st in T1, T2, T3, T4, T5. cbn in T1, T2, T3, T4, T5.
  destruct (served_intr st i0 b x l) as (d3 & Eintr & Ed3); rewrite ?T1, ?T3; [done| |done|..].
  { rewrite T2, length_alter. by destruct Hrun. }
  { rewrite HU2. apply Hok. }
  { by rewrite HU2, HU3. }
  { rewrite HU1. apply Hok. }
  { lia. }
  { rewrite HI. apply list_lookup_insert_eq. rewrite (vo_info _ Hok). lia. }
  rewrite T1 in Ed3. exists i0, i1, i2, d1, d3, k. split_and!; try done. fold s1 st.
  rewrite (device_transfer dev write s1 i0 i1 i2 (b_blockno bb) (b_data bb) blk bytes); [exact Eintr|done..].
Qed.

(** C12. A disk request through the driver is the block operation the buffer
    cache is built on.  [virtio_disk_rw] formats the request and sleeps; after
    the device has served it the interrupt handler makes the process runnable;
    the process then returns from [virtio_disk_rw] with memory, disk and
    buffers exactly as [disk_rw] leaves them, every descriptor free again and
    no lock held. *)
Theorem virtio_refines_disk_rw :
  exists s1 k s3 s5 sd,
    virtio_disk_rw b write s = Block (ChBuf b) s1 k /\
    virtio_disk_intr (dev (switch_out s1)) = Ok tt s3 /\ pstate s3 p = Some RUNNABLE /\
    k (switch_in p s3) = Ok tt s5 /\
    disk_rw b write s = Ok tt sd /\
    k_heap s5 = k_heap sd /\ k_disk s5 = k_disk sd /\ k_dwrites s5 = k_dwrites sd /\
    k_bcache s5 = k_bcache sd /\ k_held s5 = [] /\
    vk_free (vd s5) = vk_free (vd s) /\ vk_used_didx (vd s5) = vk_used_idx (vd s5).
Proof using All.
  destruct rw_served
    as (i0 & i1 & i2 & d1 & d3 & k & N01 & N02 & N12 & F0 & F1 & F2 & Erw & [HC _ _ _ HF (_ & HU2 & HU3)] & Eintr & E3 & Hk).
  cbn in HF, HU2, HU3. pose proof (vo_free _ Hok) as HNUM. apply lookup_lt_Some in F0 as L0.
  apply lookup_lt_Some in F1 as L1. apply lookup_lt_Some in F2 as L2. rewrite HNUM in L0, L1, L2.
  set (s1 := switch_out (rw_sleeping b p d1 s)) in *.
  set (st := transfer write (b_blockno bb) (b_data bb) blk bytes s1) in *.
  destruct (transfer_frame write (b_blockno bb) (b_data bb) blk bytes s1) as (T1 & T2 & T3 & T4 & T5).
  fold st in T1, T2, T3, T4, T5. cbn in T1, T2, T3, T4, T5.
  destruct (transfer_effect write (b_blockno bb) (b_data bb) blk bytes s s1) as (X1 & X2 & X3); [done..|].
  set (s3 := rw_interrupted b i0 d3 st) in *. change (vd s3 = set_vk_used_idx (fun i => u16 (i + 1)) (served i0 (v_vdisk d1))) in E3.
  set (s4 := set_k_held (fun _ => [Lvdisk])
    (set_k_psched (alter (set_ps_chan (fun _ => None)) p) (switch_in p s3))).
  destruct (finish_ok b i0 i1 i2 (op_type write) (b_blockno bb * 2) (b_data bb) s4
    (set_b_disk (fun _ => false) (set_b_disk (fun _ => true) bb))) as [procs Efin].
  { done. }
  { cbn -[wakeup_table]. rewrite !length_alter, length_wakeup_table, T2, length_alter. by destruct Hrun. }
  { cbn. rewrite T5. by rewrite !list_lookup_alter_eq, Hb. }
  { done. }
  1-6: done.
  { change (vd s4) with (vd s3). rewrite E3. by destruct HC. }
  1-3: change (vd s4) with (vd s3); rewrite E3; cbn -[take3]; rewrite HF; apply take3_false; (lia || tauto).
  exists (rw_sleeping b p d1 s), k, s3. eexists _, _. split_and!.
  - exact Erw.
  - exact Eintr.
  - unfold pstate, s3. cbn -[wakeup_table]. rewrite T4, T2.
    eapply wakeup_table_wakes; [done|by rewrite list_lookup_alter_eq, Hps|done|done].
  - rewrite (Hk _ s4) by (by apply sleep_resume_ok). exact Efin.
  - by apply disk_rw_transfer.
  - exact X1.
  - exact X2.
  - exact X3.
  - destruct (transfer_frame write (b_blockno bb) (b_data bb) blk bytes s) as (_ & _ & _ & _ & ->).
    cbn. rewrite T5. rewrite (alter_alter_at _ _ id), alter_id_at; [done|done|].
    intros y Hy. assert (y = bb) as -> by congruence. by apply set_b_disk_back.
  - done.
  - etrans; [|by apply (give_take i0 i1 i2)].
    change (<[i2 := true]> (<[i1 := true]> (<[i0 := true]> (vk_free (vd s3)))) =
            <[i2 := true]> (<[i1 := true]> (<[i0 := true]> (take3 i0 i1 i2 (vk_free (vd s)))))).
    rewrite E3. cbn -[take3]. by rewrite HF.
  - change (vk_used_didx (vd s3) = vk_used_idx (vd s3)). rewrite E3. cbn. by rewrite HU2, HU3, Hquiet.
Qed.
End Request.
End Virtio.
