(* ===== verification/SystxFacts.v ===== *)
(** * Committing and aborting a transaction

    The properties of the transaction system calls: what is suspended while a
    transaction is active, the installation of the shadow copies by
    [sys_txcommit], what an abort in the middle of a call leaves behind, and
    what the callers of [txshadow] make of its refusal. *)

From S2P Require Import Prelude Monad Types Kernel Kalloc Vm Uart Printf Echo Bio Log Tx Workset TxFacts FsBlock Inode Systx.
From stdpp Require Import base numbers list gmap strings sorting.
From Stdlib Require Import ZArith Lia.

Open Scope Z_scope.

Section SystxFacts.
Context {L : Layout}.

(** ** An active transaction *)

Record active (p : nat) (pr : proc) (t : transaction) (s : kst) : Prop := {
  ac_cur : k_cur s = Some p;
  ac_proc : k_procs s !! p = Some pr;
  ac_nonzero : p_tx pr <> 0;
  ac_tx : tx_at s (p_tx pr) = Some t;
  ac_status : tx_status t = TX_ACTIVE;
}.

Lemma tx_active_eq s p pr t :
  k_cur s = Some p -> k_procs s !! p = Some pr -> p_tx pr <> 0 -> tx_at s (p_tx pr) = Some t ->
  tx_active s = Ok (tx_status t =? TX_ACTIVE) s.
Proof.
  intros Hc Hp H0 Ht. unfold tx_active, myproc, get_proc.
  erewrite bind_ok by (unfold deref; by rewrite Hc).
  erewrite bind_ok by (unfold deref; by rewrite Hp).
  rewrite (proj2 (Z.eqb_neq _ _) H0).
  by erewrite bind_ok by (by apply load_tx_ok, tx_at_heap).
Qed.

Lemma active_true p pr t s : active p pr t s -> tx_active s = Ok true s.
Proof.
  intros [Hc Hp H0 Ht Hs]. rewrite (tx_active_eq s p pr t) by done. by rewrite Hs.
Qed.

(** C5. [txshadow] refuses an object when the workset is full or another
    transaction is the object's writer.  It prints the message for the case on
    the (idle) serial port, character by character, returns 0 and changes
    nothing else: no writer, no workset entry, no page.  It does not abort the
    transaction.  What happens is up to the caller: [bdata] panics, so that a
    conflict on a buffer stops the kernel, and [idata] unlocks the inode and
    aborts. *)
Theorem txshadow_refuses p pr t s o :
  in_tx p pr t s -> obj_ok o -> linear_find t o = None -> Lxobj o ∉ k_held s ->
  MAX_WORKSET <= tx_workset_size t \/ (exists w, writer s o = Some w /\ w <> 0 /\ w <> p_tx pr) ->
  Lpr ∉ k_held s -> echo_ready (length (refusal_msg t)) (k_dev s) ->
  let s' := set_k_dev (printed (refusal_msg t)) s in
  (forall ro ops, txshadow o ro ops s = Ok 0 s') /\
  (active p pr t s ->
   match o with
   | HBuf b => bdata b s = Panic "bdata: txshadow failed"
   | HInode ip => forall ro, idata_ ro ip s = ((iunlock ip;; tx_abort_now iput_deferred);; mret 0) s'
   end).
Proof.
  intros HT Ho Hn Hl Hr Hp He s'.
  assert (forall ro ops, txshadow o ro ops s = Ok 0 s') as Hsh by (intros ro ops; by apply (refused_runs p pr t s HT o Ho)).
  split; [done|]. intros HA. pose proof (active_true _ _ _ _ HA) as Ht. destruct HA as [A1 A2 _ A4 _]. destruct o as [ip|b].
  - intros ro. unfold idata_, txdata. erewrite bind_ok by (erewrite bind_ok by exact Ht; apply Hsh). done.
  - unfold bdata, myproc, get_proc. erewrite bind_ok by reflexivity. rewrite A1. erewrite bind_ok by exact Ht. cbn iota.
    erewrite bind_ok by (unfold deref; by rewrite A1). erewrite bind_ok by (unfold deref; by rewrite A2).
    erewrite bind_ok by (by apply load_tx_ok, tx_at_heap). by erewrite bind_ok by apply Hsh.
Qed.

(** ** Loops over the workset *)

Lemma wp_for_workset tx f t (I : nat -> kst -> Prop) s (Q : unit -> kst -> Prop) :
  ws_ok t -> I 0%nat s ->
  (forall k s, (k <= length (entries t))%nat -> I k s -> tx_at s tx = Some t) ->
  (forall k e s, entries t !! k = Some e -> I k s ->
     exists ops, we_ops e = Some ops /\ wp (f ops tx k) s (fun _ s' => I (S k) s')) ->
  (forall s', I (length (entries t)) s' -> Q tt s') ->
  wp (for_workset tx f) s Q.
Proof.
  intros Hws H0 Htx Hstep Hend. pose proof (length_entries _ Hws) as Hlen.
  pose proof (ws_size _ Hws) as Hsz. unfold for_workset.
  apply (wp_loop _ (fun k => length (entries t) - k)%nat
    (fun k s' => (k <= length (entries t))%nat /\ I k s')).
  - split; [lia|done].
  - unfold MAX_WORKSET in *. lia.
  - intros k s1 [Hk HI]. apply wp_bind. eapply wp_run.
    { apply load_tx_ok, tx_at_heap. by apply (Htx k). }
    destruct (Z.of_nat k <? tx_workset_size t) eqn:E; zbool.
    + destruct (lookup_lt_is_Some_2 (entries t) k) as [e He]; [lia|].
      destruct (Hstep k e s1 He HI) as (ops & Hops & Hwp).
      apply wp_bind. eapply wp_run; [by apply ws_entry_ok|].
      apply wp_bind. eapply wp_deref; [done|].
      apply wp_bind. eapply wp_mono; [exact Hwp|]. intros [] s' HI'. apply wp_ret.
      split; [split; [lia|done]|lia].
    + apply wp_ret. apply Hend. replace (length (entries t)) with k by lia. done.
Qed.

Lemma get_entry_ok t tx k e s :
  ws_ok t -> tx_at s tx = Some t -> entries t !! k = Some e -> get_entry tx k s = Ok e s.
Proof.
  intros Hws Ht He. unfold get_entry. erewrite bind_ok by (by apply load_tx_ok, tx_at_heap).
  by apply ws_entry_ok.
Qed.

(** ** Data pointers *)

Definition set_data (o : obj) (a : Z) : kst -> kst :=
  match o with
  | HBuf i => set_k_bcache (alter (set_b_data (fun _ => a)) i)
  | HInode i => set_k_itable (alter (set_i_data (fun _ => a)) i)
  end.

Lemma set_data_ptr_ok o a s : set_data_ptr o a s = Ok tt (set_data o a s).
Proof. by destruct o. Qed.

Lemma data_ptr_set_data o a s o' :
  data_ptr (set_data o a s) o' =
  if decide (o' = o) then (fun _ => a) <$> data_ptr s o' else data_ptr s o'.
Proof.
  destruct o as [i|i], o' as [j|j]; simpl; rewrite ?list_lookup_alter; repeat case_decide;
    simplify_eq; try done.
  - by destruct (k_itable s !! _).
  - by destruct (k_bcache s !! _).
Qed.

Lemma k_heap_set_data o a s : k_heap (set_data o a s) = k_heap s.
Proof. by destruct o. Qed.
Lemma k_freelist_set_data o a s : k_freelist (set_data o a s) = k_freelist s.
Proof. by destruct o. Qed.
Lemma k_held_set_data o a s : k_held (set_data o a s) = k_held s.
Proof. by destruct o. Qed.

(** ** Installing the shadow copies *)

(** the pages of a transaction about to commit: the objects' data pages are
    allocated pages of their own, and the shadows are not in use *)
Record commit_pages (s : kst) (t : transaction) (l : list Z) : Prop := {
  cg_ws : ws_ok t;
  cg_free : free_list s l;
  cg_held : Lkmem ∉ k_held s;
  cg_entry : forall k e, entries t !! k = Some e -> exists o a v, we_header e = Some o /\
    is_Some (we_ops e) /\ data_ptr s o = Some a /\ page_ok a /\ k_heap s !! a = Some v /\ is_data v;
  cg_inj : forall o o' a v, data_ptr s o = Some a -> data_ptr s o' = Some a ->
    k_heap s !! a = Some v -> is_data v -> o = o';
  cg_shadow : forall k e o, entries t !! k = Some e -> data_ptr s o <> Some (we_shadow e);
}.

(** the shadow that the first [k] entries give to [o] *)
Definition shadow_upto (t : transaction) (k : nat) (o : obj) : option Z :=
  we_shadow <$> List.find (fun e => bool_decide (we_header e = Some o)) (take k (entries t)).

Definition installed (s : kst) (t : transaction) (k : nat) (o : obj) : option Z :=
  match shadow_upto t k o with Some sh => Some sh | None => data_ptr s o end.

(** [o] is one of the first [k] objects *)
Definition among (t : transaction) (k : nat) (o : obj) : Prop :=
  exists i e, (i < k)%nat /\ entries t !! i = Some e /\ we_header e = Some o.

Lemma shadow_upto_none t k o : shadow_upto t k o = None <-> ~ among t k o.
Proof.
  unfold shadow_upto. destruct (List.find _ _) as [e|] eqn:E; simpl; (split; [try done|try done]).
  - intros Hn. exfalso. apply Hn. apply List.find_some in E as [Hin He].
    apply list_elem_of_In, list_elem_of_lookup in Hin as (i & Hi).
    apply lookup_take_Some in Hi as [Hi Hlt]. exists i, e. by apply bool_decide_eq_true in He.
  - intros _ (i & e & Hlt & Hi & He). eapply List.find_none in E.
    + by rewrite bool_decide_true in E.
    + apply list_elem_of_In, list_elem_of_lookup. exists i. by rewrite lookup_take_lt.
Qed.

Lemma header_unique t i j e e' o :
  ws_ok t -> entries t !! i = Some e -> entries t !! j = Some e' ->
  we_header e = Some o -> we_header e' = Some o -> i = j.
Proof.
  intros Hws Hi Hj He He'.
  assert (hdr e = hdr e') as E by (unfold hdr; by rewrite He, He').
  destruct (lt_eq_lt_dec i j) as [[H|H]|H]; [|done|];
    [pose proof (entries_lt t Hws _ _ _ _ Hi Hj H)|pose proof (entries_lt t Hws _ _ _ _ Hj Hi H)]; lia.
Qed.

Lemma find_snoc {A} (f : A -> bool) l x :
  List.find f (l ++ [x]) = match List.find f l with Some y => Some y
                           | None => if f x then Some x else None end.
Proof. induction l as [|y l IH]; simpl; [done|]. by destruct (f y). Qed.

Lemma shadow_upto_S t k e o o' :
  ws_ok t -> entries t !! k = Some e -> we_header e = Some o ->
  shadow_upto t (S k) o' = if decide (o' = o) then Some (we_shadow e) else shadow_upto t k o'.
Proof.
  intros Hws Hk He. unfold shadow_upto. rewrite (take_S_r _ _ e) by done.
  rewrite find_snoc. destruct (List.find _ (take k _)) as [a|] eqn:E.
  - apply List.find_some in E as [Hin Ha]. apply bool_decide_eq_true in Ha.
    apply list_elem_of_In, list_elem_of_lookup in Hin as (i & Hi).
    apply lookup_take_Some in Hi as [Hi Hlt]. case_decide as Eo; [|done]. subst o'.
    pose proof (header_unique _ _ _ _ _ _ Hws Hi Hk Ha He). lia.
  - rewrite He. case_decide as Eo.
    + subst o'. rewrite bool_decide_true by done. done.
    + rewrite bool_decide_false by congruence. done.
Qed.

Section Install.
Context (s : kst) (t : transaction) (l : list Z) (tx : Z).
Context (HC : commit_pages s t l) (Htx : tx_at s tx = Some t).

(** the state after the first [k] iterations *)
Record installing (k : nat) (s' : kst) : Prop := {
  il_held : k_held s' = k_held s;
  il_ptr : forall o, data_ptr s' o = installed s t k o;
  il_heap : forall a, (forall o, among t k o -> data_ptr s o <> Some a) ->
    k_heap s' !! a = k_heap s !! a;
  il_free : exists l', free_list s' (l' ++ l) /\
    forall a, a ∈ l' <-> exists o, among t k o /\ data_ptr s o = Some a;
}.

Lemma among_S k e o o' :
  entries t !! k = Some e -> we_header e = Some o -> among t (S k) o' <-> o' = o \/ among t k o'.
Proof using Type.
  intros Hk He. split.
  - intros (i & e' & Hlt & Hi & He'). destruct (decide (i = k)) as [->|Hne].
    + left. congruence.
    + right. exists i, e'. split; [lia|done].
  - intros [->|(i & e' & Hlt & Hi & He')]; [by exists k, e; repeat split; [lia|..]|].
    exists i, e'. split; [lia|done].
Qed.

Lemma among_entry k o : among t k o -> exists a v, data_ptr s o = Some a /\ page_ok a /\
  k_heap s !! a = Some v /\ is_data v.
Proof using HC.
  intros (i & e & _ & Hi & He). destruct (cg_entry _ _ _ HC i e Hi) as (o' & a & v & He' & _ & H).
  rewrite He in He'. injection He' as <-. eauto.
Qed.

Lemma installing_tx k s' : installing k s' -> tx_at s' tx = Some t.
Proof using HC Htx.
  intros HI. apply tx_at_heap. rewrite (il_heap _ _ HI); [by apply tx_at_heap|].
  intros o (a & v & Ha & _ & Hv & Hd)%among_entry E. rewrite Ha in E. injection E as ->.
  apply tx_at_heap in Htx. rewrite Htx in Hv. by injection Hv as <-.
Qed.

Lemma install_entry k e s' :
  entries t !! k = Some e -> installing k s' ->
  exists ops, we_ops e = Some ops /\
    wp (install_shadow ops tx k) s' (fun _ s'' => installing (S k) s'').
Proof using HC Htx.
  intros Hk HI. destruct (cg_entry _ _ _ HC k e Hk) as (o & a & v & He & [ops Hops] & Ha & Hpg & Hv & Hd).
  exists ops. split; [done|]. pose proof (installing_tx _ _ HI) as Ht. destruct HI as [IH IP IM (l' & IF & IL)].
  assert (~ among t k o) as Hno.
  { intros (i & e' & Hlt & Hi & He'). pose proof (header_unique _ _ _ _ _ _ (cg_ws _ _ _ HC) Hi Hk He' He). lia. }
  assert (data_ptr s' o = Some a) as Ha'.
  { rewrite IP. unfold installed. by rewrite (proj2 (shadow_upto_none t k o)). }
  assert (forall o', among t k o' -> data_ptr s o' <> Some a) as Hna.
  { intros o' Hin E. pose proof (cg_inj _ _ _ HC _ _ _ _ E Ha Hv Hd) as ->. done. }
  assert (k_heap s' !! a = Some v) as Hv' by (by rewrite IM).
  assert (a ∉ l' ++ l) as Hfa.
  { intros Hin. destruct (chain_run _ _ _ _ (free_chain _ _ IF) Hin) as [n Hn].
    rewrite Hv' in Hn. by injection Hn as ->. }
  destruct (kfree_spec s' (l' ++ l) a IF Hpg Hfa) as (s1 & E1 & F1 & Es1).
  { rewrite IH. apply (cg_held _ _ _ HC). }
  assert (forall o', data_ptr s1 o' = data_ptr s' o') as Hp1 by (intros []; by rewrite Es1).
  assert (tx <> a) as Hta by (intros ->; apply tx_at_heap in Ht; rewrite Hv' in Ht; by injection Ht as ->).
  assert (tx_at s1 tx = Some t) as Ht1.
  { apply tx_at_heap. rewrite Es1. ksimpl. rewrite lookup_insert_ne by done. by apply tx_at_heap. }
  unfold install_shadow. apply wp_bind. eapply wp_run; [by apply (get_entry_ok t); [apply HC|..]|].
  apply wp_bind. eapply wp_deref; [done|]. apply wp_bind. eapply wp_run; [by apply get_data_ptr_ok|].
  apply wp_bind. eapply wp_run; [exact E1|].
  apply wp_bind. eapply wp_run; [by apply (get_entry_ok t); [apply HC|..]|].
  eapply wp_run; [apply set_data_ptr_ok|]. split.
  - rewrite k_held_set_data, Es1. by ksimpl.
  - intros o'. rewrite data_ptr_set_data, Hp1, IP. unfold installed.
    rewrite (shadow_upto_S t k e o o' (cg_ws _ _ _ HC) Hk He). case_decide as Eo; [|done]. subst o'.
    by rewrite (proj2 (shadow_upto_none t k o)), Ha.
  - intros b Hb. rewrite k_heap_set_data, Es1. ksimpl. rewrite lookup_insert_ne.
    + apply IM. intros o' Hin. apply Hb. rewrite (among_S k e o o' Hk He). by right.
    + intros <-. apply (Hb o); [|done]. rewrite (among_S k e o o Hk He). by left.
  - exists (a :: l'). split.
    + eapply free_list_ext; [| |exact F1]; [intros; by rewrite k_heap_set_data|by rewrite k_freelist_set_data].
    + intros b. rewrite elem_of_cons, IL. split.
      * intros [->|(o' & Hin & Hb)]; [exists o|exists o']; rewrite (among_S k e o _ Hk He); auto.
      * intros (o' & Hin & Hb). rewrite (among_S k e o o' Hk He) in Hin.
        destruct Hin as [->|Hin]; [left; congruence|right; eauto].
Qed.

Lemma install_all : wp (for_workset tx install_shadow) s (fun _ s' => installing (length (entries t)) s').
Proof using HC Htx.
  apply (wp_for_workset _ _ t installing); [apply HC| | | |done].
  - split; [done| |done|exists []].
    + intros o. unfold installed. by rewrite (proj2 (shadow_upto_none t 0 o)) by (intros (? & ? & ? & _); lia).
    + split; [apply HC|]. intros a. split; [set_solver|]. intros (o & (? & ? & ? & _) & _). lia.
  - intros k s' _ HI. by eapply installing_tx.
  - intros k e s' Hk HI. by apply install_entry.
Qed.

End Install.

(** C8. Committing makes the transaction's writes the stable data: after the
    installation loop of [sys_txcommit] the stable data of every object of the
    workset is its shadow copy, the stable data of every other object is what
    it was, and exactly the replaced data pages have been freed. *)
Theorem txcommit_installs s t l tx :
  commit_pages s t l -> tx_at s tx = Some t ->
  exists s', for_workset tx install_shadow s = Ok tt s' /\
    (forall k e o, entries t !! k = Some e -> we_header e = Some o ->
       stable s' o = k_heap s !! we_shadow e) /\
    (forall o v, linear_find t o = None -> stable s o = Some v -> is_data v -> stable s' o = Some v) /\
    (exists l', free_list s' (l' ++ l) /\ forall a, a ∈ l' <->
       exists o, is_Some (linear_find t o) /\ data_ptr s o = Some a).
Proof.
  intros HC Ht. pose proof (install_all s t l tx HC Ht) as (? & s' & E & HI)%wp_ok. destruct x.
  exists s'. split; [done|]. set (n := length (entries t)) in *.
  assert (forall o, among t n o <-> is_Some (linear_find t o)) as Ham.
  { intros o. rewrite linear_find_is_Some. split.
    - intros (i & e & _ & Hi & He). exists e. split; [by eapply list_elem_of_lookup_2|done].
    - intros (e & (i & Hi)%list_elem_of_lookup & He). exists i, e. split; [by eapply lookup_lt_Some|done]. }
  destruct HI as [_ IP IM (l' & IF & IL)]. split_and!.
  - intros k e o Hk He. unfold stable. rewrite IP. unfold installed.
    assert (shadow_upto t n o = Some (we_shadow e)) as ->.
    { clear -HC Hk He. unfold n. destruct (shadow_upto t (length (entries t)) o) as [sh|] eqn:Es.
      - unfold shadow_upto in Es. destruct (List.find _ _) as [e'|] eqn:Ef; [|done].
        apply List.find_some in Ef as [Hin He']. apply bool_decide_eq_true in He'.
        rewrite firstn_all in Hin. apply list_elem_of_In, list_elem_of_lookup in Hin as (i & Hi).
        pose proof (header_unique _ _ _ _ _ _ (cg_ws _ _ _ HC) Hi Hk He' He) as ->.
        simpl in Es. congruence.
      - apply shadow_upto_none in Es. destruct Es. exists k, e. split; [by eapply lookup_lt_Some|done]. }
    simpl. apply IM. intros o' _. by apply (cg_shadow _ _ _ HC k).
  - intros o v Hn Hs Hd. unfold stable in *. rewrite IP. unfold installed.
    rewrite (proj2 (shadow_upto_none t n o)) by (rewrite Ham, Hn; by intros []).
    destruct (data_ptr s o) as [a|] eqn:Ea; [|done]. simpl in *. rewrite IM; [done|].
    intros o' Hin E'. pose proof (cg_inj _ _ _ HC _ _ _ _ E' Ea Hs Hd) as ->.
    apply Ham in Hin. rewrite Hn in Hin. by destruct Hin.
  - exists l'. split; [done|]. intros a. rewrite IL. by setoid_rewrite Ham.
Qed.

(** ** Aborting *)

Section Abort.
Context (p : nat) (pr : proc) (s : kst) (t : transaction) (l : list Z).
Context (HA : active p pr t s) (Hws : ws_ok t) (HF : free_list s l).
Context (HH : k_held s = []).
(** the shadows are pages of their own, and no block was newly allocated *)
Context (Hent : forall k e, entries t !! k = Some e -> we_newly_allocated e = false /\
  page_ok (we_shadow e) /\ (exists v, k_heap s !! we_shadow e = Some v /\ is_data v) /\
  match we_header e with
  | Some (HInode _) => we_ops e = Some inode_ops
  | Some (HBuf _) => we_ops e = Some buffer_ops
  | None => False
  end).
Context (Hinj : forall i j e e', entries t !! i = Some e -> entries t !! j = Some e' ->
  we_shadow e = we_shadow e' -> i = j).

Record aborting (k : nat) (s' : kst) : Prop := {
  ab_held : k_held s' = [];
  ab_cur : k_cur s' = k_cur s;
  ab_procs : k_procs s' = k_procs s;
  ab_ptr : forall o, data_ptr s' o = data_ptr s o;
  ab_heap : forall a, (forall i e, (i < k)%nat -> entries t !! i = Some e -> we_shadow e <> a) ->
    k_heap s' !! a = k_heap s !! a;
  ab_free : exists l', free_list s' (l' ++ l) /\
    forall a, a ∈ l' <-> exists i e, (i < k)%nat /\ entries t !! i = Some e /\ we_shadow e = a;
}.

Lemma aborting_active k s' : aborting k s' -> active p pr t s'.
Proof using HA Hent.
  intros [_ AC AP _ AM _]. destruct HA as [Hc Hp H0 Ht Hs]. split; try congruence.
  apply tx_at_heap. rewrite AM; [by apply tx_at_heap|]. intros i e _ Hi E.
  destruct (Hent i e Hi) as (_ & _ & (v & Hv & Hd) & _). rewrite E in Hv. apply tx_at_heap in Ht.
  rewrite Ht in Hv. by injection Hv as <-.
Qed.

(** freeing the shadow of entry [k] *)
Lemma abort_kfree k e s' :
  entries t !! k = Some e -> aborting k s' ->
  exists s1, kfree (we_shadow e) s' = Ok tt s1 /\ aborting (S k) s1.
Proof using HA Hent Hinj.
  intros Hk HI. destruct (Hent k e Hk) as (_ & Hpg & (v & Hv & Hd) & _).
  destruct HI as [AH AC AP AD AM (l' & AF & AL)].
  assert (k_heap s' !! we_shadow e = Some v) as Hv'.
  { rewrite AM; [done|]. intros i e' Hlt Hi E. pose proof (Hinj _ _ _ _ Hi Hk E). lia. }
  assert (we_shadow e ∉ l' ++ l) as Hnf.
  { intros Hin. destruct (chain_run _ _ _ _ (free_chain _ _ AF) Hin) as [n Hn].
    rewrite Hv' in Hn. by injection Hn as ->. }
  destruct (kfree_spec s' (l' ++ l) _ AF Hpg Hnf) as (s1 & E1 & F1 & Es1); [rewrite AH; clear; set_solver|].
  exists s1. split; [done|]. rewrite Es1 in *. split; ksimpl; try done.
  - intros a Ha. rewrite lookup_insert_ne.
    + apply AM. intros i e' Hlt. apply Ha. lia.
    + apply (Ha k e); [lia|done].
  - exists (we_shadow e :: l'). split; [done|]. intros a. rewrite elem_of_cons, AL. split.
    + intros [->|(i & e' & Hlt & Hi & Ea)]; [exists k, e; split; [lia|done]|].
      exists i, e'. split; [lia|done].
    + intros (i & e' & Hlt & Hi & Ea). destruct (decide (i = k)) as [->|Hne].
      * left. congruence.
      * right. exists i, e'. split; [lia|done].
Qed.

Lemma iput_active f ip s' : active p pr t s' -> iput_body f ip s' = Ok tt s'.
Proof using Type. intros Ha. unfold iput_body. by erewrite bind_ok by (by eapply active_true). Qed.

Lemma aborting_bunpin k b s' :
  aborting k s' -> exists s1, bunpin b s' = Ok tt s1 /\ aborting k s1.
Proof using Type.
  intros [AH AC AP AD AM (l' & AF & AL)].
  exists (set_k_bcache (alter (set_b_refcnt (fun n => u32 (n - 1))) b) s'). split.
  - apply run_wp. unfold bunpin. apply wp_bind, wp_acquire; [rewrite AH; clear; set_solver|].
    apply wp_bind. unfold upd_buf. apply wp_modify. eapply wp_release; [done|]. split; [done|kst_eq].
  - split; try done.
    + intros o. rewrite <- AD. destruct o as [i|i]; [done|]. simpl. rewrite list_lookup_alter.
      case_decide as E; [destruct E|done]. by destruct (k_bcache s' !! b).
    + exists l'. split; [|done]. by apply (free_list_ext s').
Qed.

Lemma abort_step k e s' :
  entries t !! k = Some e -> aborting k s' ->
  exists ops, we_ops e = Some ops /\
    wp (abort_fn iput_deferred ops (p_tx pr) k) s' (fun _ s'' => aborting (S k) s'').
Proof using HA Hws Hent Hinj.
  intros Hk HI. pose proof (aborting_active _ _ HI) as Ha.
  destruct (Hent k e Hk) as (Hnew & Hpg & _ & Hop).
  destruct (abort_kfree k e s' Hk HI) as (s1 & E1 & HI1). pose proof (aborting_active _ _ HI1) as Ha1.
  assert (negb (we_shadow e =? 0) = true) as Hnz
    by (by rewrite (proj2 (Z.eqb_neq _ _) (page_ok_pos _ Hpg))).
  destruct (we_header e) as [[ip|bp]|] eqn:Hh; [| |done]; (eexists; split; [exact Hop|]); simpl.
  - unfold inode_abort. apply wp_bind. eapply wp_run; [by apply (get_entry_ok t); [|apply Ha|]|].
    rewrite Hnz. apply wp_bind. eapply wp_run; [exact E1|].
    apply wp_bind. eapply wp_run; [by apply (get_entry_ok t); [|apply Ha1|]|].
    unfold hdr_inode. rewrite Hh. apply wp_bind, wp_ret.
    eapply wp_run; [by apply iput_active|done].
  - unfold buf_abort. apply wp_bind. eapply wp_run; [by apply (get_entry_ok t); [|apply Ha|]|].
    unfold hdr_buf. rewrite Hh, Hnew. apply wp_bind, wp_ret. apply wp_bind, wp_ret.
    apply wp_bind. eapply wp_run; [by apply (get_entry_ok t); [|apply Ha|]|].
    rewrite Hnz. apply wp_bind. eapply wp_run; [exact E1|].
    destruct (aborting_bunpin (S k) bp s1 HI1) as (s2 & E2 & HI2).
    eapply wp_run; [exact E2|done].
Qed.

Lemma abort_all : wp (for_workset (p_tx pr) (abort_fn iput_deferred)) s
  (fun _ s' => aborting (length (entries t)) s').
Proof using HA Hws HF HH Hent Hinj.
  apply (wp_for_workset _ _ t aborting); [done| | | |done].
  - split; try done. exists []. split; [done|]. intros a. split; [set_solver|].
    intros (? & ? & ? & _). lia.
  - intros k s' _ HI. apply (aborting_active _ _ HI).
  - intros k e s' Hk HI. by apply abort_step.
Qed.

Lemma tx_abort_now_run :
  tx_undo_size t = 0 ->
  exists s', aborting (length (entries t)) s' /\
    tx_abort_now iput_deferred s =
      if tx_kjmp_valid t then Longjmp s' else Panic "tx_abort_now: no kjmp set".
Proof using HA Hws HF HH Hent Hinj.
  intros Hu. pose proof abort_all as (u & s' & E & HI)%wp_ok. destruct u. exists s'. split; [done|].
  pose proof (aborting_active _ _ HI) as Ha'. destruct HA as [Hc Hp H0 Ht Hs].
  unfold tx_abort_now, myproc, get_proc.
  erewrite bind_ok by (unfold deref; by rewrite Hc).
  erewrite bind_ok by (unfold deref; by rewrite Hp). cbv zeta.
  rewrite (proj2 (Z.eqb_neq _ _) H0).
  erewrite bind_ok by (by apply load_tx_ok, tx_at_heap). rewrite Hs. simpl. rewrite Hu. simpl.
  erewrite bind_ok by reflexivity. erewrite bind_ok by exact E.
  erewrite bind_ok by (apply load_tx_ok, tx_at_heap, Ha'). by destruct (tx_kjmp_valid t).
Qed.

End Abort.

(** a transaction whose shadows can be thrown away *)
Record abortable (p : nat) (pr : proc) (s : kst) (t : transaction) (l : list Z) : Prop := {
  aa_active : active p pr t s;
  aa_ws : ws_ok t;
  aa_free : free_list s l;
  aa_held : k_held s = [];
  aa_entry : forall k e, entries t !! k = Some e -> we_newly_allocated e = false /\
    page_ok (we_shadow e) /\ (exists v, k_heap s !! we_shadow e = Some v /\ is_data v) /\
    match we_header e with
    | Some (HInode _) => we_ops e = Some inode_ops
    | Some (HBuf _) => we_ops e = Some buffer_ops
    | None => False
    end;
  aa_inj : forall i j e e', entries t !! i = Some e -> entries t !! j = Some e' ->
    we_shadow e = we_shadow e' -> i = j;
  aa_shadow : forall k e o, entries t !! k = Some e -> data_ptr s o <> Some (we_shadow e);
  aa_undo : tx_undo_size t = 0;
}.

(** C9. An abort in the middle of a system call throws the transaction's
    writes away.  When a jump buffer has been set, which [syscall] does on the
    first call in a transaction, [tx_abort_now] frees exactly the shadow copies,
    leaves the stable data of every object as it was, and jumps back to the
    system-call entry; the transaction itself is left as it was: still active,
    still listing the freed shadows.  With no jump buffer it panics. *)
Theorem tx_abort_now_discards p pr s t l :
  abortable p pr s t l ->
  if tx_kjmp_valid t then
    exists s' l', tx_abort_now iput_deferred s = Longjmp s' /\
      (forall o v, stable s o = Some v -> is_data v -> stable s' o = Some v) /\
      free_list s' (l' ++ l) /\
      (forall a, a ∈ l' <-> exists e, e ∈ entries t /\ we_shadow e = a) /\
      tx_at s' (p_tx pr) = Some t
  else tx_abort_now iput_deferred s = Panic "tx_abort_now: no kjmp set".
Proof.
  intros [HA Hws HF HH Hent Hinj Hsh Hu].
  destruct (tx_abort_now_run p pr s t l HA Hws HF HH Hent Hinj Hu) as (s' & HI & E).
  pose proof (aborting_active p pr s t l HA Hent _ _ HI) as Ha'. destruct (tx_kjmp_valid t); [|done].
  destruct HI as [_ _ _ AD AM (l' & AF & AL)]. exists s', l'. split; [done|]. split_and!.
  - intros o v Hs Hd. unfold stable in *. rewrite AD. destruct (data_ptr s o) as [a|] eqn:Ea; [|done].
    simpl in *. rewrite AM; [done|]. intros i e _ Hi E'. by apply (Hsh i e o Hi); rewrite E'.
  - done.
  - intros a. rewrite AL. split.
    + intros (i & e & _ & Hi & Ea). exists e. split; [by eapply list_elem_of_lookup_2|done].
    + intros (e & (i & Hi)%list_elem_of_lookup & Ea). exists i, e. split; [by eapply lookup_lt_Some|done].
  - apply Ha'.
Qed.

(** C10. While its transaction is active a process does not touch the log, the
    inodes on disk or the inodes' reference counts: [begin_op], [end_op],
    [log_write], [iupdate] and [iput] return without any effect.  (So the
    recursion of [iput] through [itrunc] and [tx_abort_now] into [iput] ends at
    once: [iput_deferred] is [iput] there.) *)
Theorem active_tx_defers p pr t s b ip :
  active p pr t s ->
  begin_op s = Ok tt s /\ end_op s = Ok tt s /\ log_write b s = Ok tt s /\
  iupdate ip s = Ok tt s /\ iput ip s = Ok tt s /\ iput_deferred ip s = iput ip s.
Proof.
  intros Ha. pose proof (active_true _ _ _ _ Ha) as E.
  unfold begin_op, end_op, log_write, iupdate, iput, iput_deferred, iput_body.
  repeat erewrite (bind_ok tx_active) by exact E. done.
Qed.

(** [sys_txcommit] and [sys_txabort] fail without any effect when the
    process has no transaction or its transaction is not active. *)
Theorem tx_calls_need_active p pr s :
  k_cur s = Some p -> k_procs s !! p = Some pr ->
  p_tx pr = 0 \/ (exists t, tx_at s (p_tx pr) = Some t /\ tx_status t <> TX_ACTIVE) ->
  sys_txcommit s = Ok (-1) s /\ sys_txabort s = Ok (-1) s.
Proof.
  intros Hc Hp H. unfold sys_txcommit, sys_txabort, myproc, get_proc.
  repeat erewrite (bind_ok (deref k_cur)) by (unfold deref; by rewrite Hc).
  repeat erewrite (bind_ok (deref (fun s0 => k_procs s0 !! p))) by (unfold deref; by rewrite Hp).
  destruct (decide (p_tx pr = 0)) as [->|Hne]; [done|].
  destruct H as [?|(t & Ht & Hs)]; [done|]. cbv zeta. rewrite (proj2 (Z.eqb_neq _ _) Hne).
  repeat erewrite (bind_ok (load_tx (p_tx pr))) by (by apply load_tx_ok, tx_at_heap).
  rewrite (proj2 (Z.eqb_neq _ _) Hs). done.
Qed.

(** ** sys_txbegin *)

(** the transaction [sys_txbegin] leaves, with its trap frame saved at [a] *)
Definition begun (tk a : Z) (t : transaction) : transaction :=
  set_tx_kjmp_valid (fun _ => false) (set_tx_saved_tf (fun _ => a) (set_tx_retry_count (fun _ => 0)
    (set_tx_start_time (fun _ => tk) (set_tx_workset_size (fun _ => 0)
      (set_tx_status (fun _ => TX_ACTIVE) t))))).

(** the page for the saved trap frame: the one the transaction has, or a new one *)
Lemma saved_page s tx t tf words l :
  k_heap s !! tx = Some (PTx t) -> k_held s = [] -> free_list s l ->
  k_heap s !! tf = Some (PTf words) ->
  (tx_saved_tf t = 0 /\ l <> []) \/
    (exists w, tx_saved_tf t <> 0 /\ k_heap s !! tx_saved_tf t = Some (PTf w)) ->
  exists a s', when (tx_saved_tf t =? 0) (a ← kalloc; upd_tx tx (set_tx_saved_tf (fun _ => a))) s
      = Ok tt s' /\ a <> 0 /\ a <> tx /\ (forall o, data_ptr s' o = data_ptr s o) /\
    k_heap s' !! tx = Some (PTx (set_tx_saved_tf (fun _ => a) t)) /\
    k_heap s' !! tf = Some (PTf words) /\
    (forall b v, k_heap s !! b = Some v -> is_data v -> b <> a /\ b <> tx /\ k_heap s' !! b = Some v).
Proof.
  intros Ht HH HF Htf Hsv. assert (tf <> tx) as Htt by congruence.
  assert (forall b v w, k_heap s !! b = Some v -> is_data v -> forall c, k_heap s !! c = Some w ->
    ~ is_data w -> b <> c) as Hsep by (intros b v w Hb Hd c Hcw Hn ->; congruence).
  destruct Hsv as [[Hz Hl]|(w & Hnz & Hw)].
  - destruct l as [|a l]; [done|]. destruct HF as [[Hf (next & Hrun & _)] _ Hpg].
    apply Forall_cons in Hpg as [Hpa _]. pose proof (page_ok_pos _ Hpa) as Ha0.
    assert (a <> tx) as Hat by congruence. assert (a <> tf) as Hap by congruence.
    eexists a, _. split.
    { rewrite Hz. simpl. erewrite bind_ok.
      2:{ apply (kalloc_run_cons _ a next); [done..|rewrite HH; clear; set_solver]. }
      apply upd_tx_ok. ksimpl. by rewrite lookup_insert_ne. }
    ksimpl. split_and!; [done|done|by intros []|apply lookup_insert_eq|by rewrite !lookup_insert_ne|].
    intros b v Hb Hd. pose proof (Hsep b v _ Hb Hd a Hrun ltac:(tauto)).
    pose proof (Hsep b v _ Hb Hd tx Ht ltac:(tauto)). by rewrite !lookup_insert_ne.
  - exists (tx_saved_tf t), s. rewrite (proj2 (Z.eqb_neq _ _) Hnz). split; [done|].
    split_and!; [done|congruence|done| |done|].
    + rewrite Ht. do 2 f_equal. by destruct t.
    + intros b v Hb Hd. pose proof (Hsep b v _ Hb Hd _ Hw ltac:(tauto)).
      by pose proof (Hsep b v _ Hb Hd tx Ht ltac:(tauto)).
Qed.

(** [sys_txbegin] starts a transaction with an empty workset and no jump
    buffer: the status is active, the start time is the current tick, the
    process's trap frame is saved in a page of the transaction's own (the one
    it has, or a newly allocated one), and the stable data of no object
    changes. *)
Theorem txbegin_starts p pr s t l words :
  k_cur s = Some p -> k_procs s !! p = Some pr -> p_tx pr <> 0 -> tx_at s (p_tx pr) = Some t ->
  k_held s = [] -> free_list s l -> k_heap s !! p_trapframe pr = Some (PTf words) ->
  (tx_saved_tf t = 0 /\ l <> []) \/
    (exists w, tx_saved_tf t <> 0 /\ k_heap s !! tx_saved_tf t = Some (PTf w)) ->
  exists s' a, sys_txbegin s = Ok 0 s' /\ a <> 0 /\
    tx_at s' (p_tx pr) = Some (begun (k_ticks s) a t) /\
    k_heap s' !! a = Some (PTf words) /\
    (forall o v, stable s o = Some v -> is_data v -> stable s' o = Some v).
Proof.
  intros Hc Hp H0 Ht HH HF Htf Hsv. apply tx_at_heap in Ht. set (tx := p_tx pr) in *.
  set (t4 := set_tx_retry_count (fun _ => 0) (set_tx_start_time (fun _ => k_ticks s)
    (set_tx_workset_size (fun _ => 0) (set_tx_status (fun _ => TX_ACTIVE) t)))).
  set (s4 := set_k_heap <[tx := PTx t4]> s).
  assert (forall b, b <> tx -> k_heap s4 !! b = k_heap s !! b) as H4
    by (intros b Hb; unfold s4; ksimpl; by rewrite lookup_insert_ne).
  assert (k_heap s4 !! tx = Some (PTx t4)) as Ht4 by (unfold s4; ksimpl; apply lookup_insert_eq).
  destruct (saved_page s4 tx t4 (p_trapframe pr) words l Ht4 HH) as
    (a & s5 & E5 & Ha0 & Hat & Hptr & Ht5 & Htf5 & Hd5).
  { apply (free_list_ext s); [|done|exact HF]. intros pa Hpa. apply H4. intros ->.
    destruct (chain_run _ _ _ _ (free_chain _ _ HF) Hpa). congruence. }
  { rewrite H4; [done|congruence]. }
  { destruct Hsv as [?|(w & ? & Hw)]; [by left|right]. exists w. split; [done|]. rewrite H4; [done|].
    change (tx_saved_tf t4) with (tx_saved_tf t). congruence. }
  exists (set_k_heap <[tx := PTx (begun (k_ticks s) a t)]> (set_k_heap <[a := PTf words]> s5)), a.
  split_and!; [|done| | |].
  - unfold sys_txbegin, myproc, get_proc. erewrite bind_ok by (unfold deref; by rewrite Hc).
    erewrite bind_ok by (unfold deref; by rewrite Hp). cbv zeta. fold tx.
    rewrite (proj2 (Z.eqb_neq _ _) H0). erewrite bind_ok by (by apply upd_tx_ok).
    erewrite bind_ok by apply upd_tx_again.
    erewrite bind_ok by (apply acquire_ok; ksimpl; rewrite HH; clear; set_solver).
    erewrite bind_ok by reflexivity.
    erewrite bind_ok by (apply upd_tx_ok; ksimpl; apply lookup_insert_eq).
    erewrite bind_ok by (apply release_ok; ksimpl; by left).
    erewrite bind_ok by (apply upd_tx_ok; ksimpl; apply lookup_insert_eq).
    match goal with |- (_ ≫= _) ?st = _ => replace st with s4 end.
    2:{ unfold s4. kst_eq. by rewrite !insert_insert_eq. }
    erewrite bind_ok by (by apply load_tx_ok). erewrite bind_ok by exact E5.
    erewrite bind_ok by (by apply load_tx_ok).
    erewrite bind_ok by (unfold load_tf, deref; by rewrite Htf5).
    change (tx_saved_tf (set_tx_saved_tf (fun _ => a) t4)) with a.
    rewrite (proj2 (Z.eqb_neq _ _) Ha0). erewrite bind_ok by reflexivity.
    erewrite bind_ok by (apply upd_tx_ok; ksimpl; by rewrite lookup_insert_ne). done.
  - apply tx_at_heap. ksimpl. apply lookup_insert_eq.
  - ksimpl. rewrite lookup_insert_ne by done. apply lookup_insert_eq.
  - intros o v Hs Hd. unfold stable in *. destruct (data_ptr s o) as [b|] eqn:Eb; [|done].
    simpl in Hs. assert (b <> tx) as Hbt by (intros ->; rewrite Ht in Hs; by injection Hs as <-).
    destruct (Hd5 b v ltac:(by rewrite H4) Hd) as (Hba & _ & Hb5).
    replace (data_ptr _ o) with (Some b); [simpl; by rewrite !lookup_insert_ne|].
    rewrite <- Eb. transitivity (data_ptr s5 o); [rewrite Hptr|]; by destruct o.
Qed.

End SystxFacts.
