(* ===== verification/SyscallFacts.v ===== *)
(** * System calls that a transaction conflict aborts

    [tx_abort_now] leaves a system call by [klongjmp]; [syscall] then gives the
    process the registers it had at [txbegin] and the result -1. *)

From S2P Require Import Prelude Monad CString Types Kernel Kalloc Vm Uart Printf Console Bio Log Tx Workset TxFacts FsBlock Inode Dir File Sysfile Proc Exec Sysproc Virtio Systx Syscall SystxFacts.
From stdpp Require Import base numbers list gmap strings.
From Stdlib Require Import ZArith Lia.

Open Scope Z_scope.

Section Abort.
Context {L : Layout}.

(** the state in which the handler is called: the jump buffer is set *)
Definition armed (tx : Z) (t : transaction) (s : kst) : kst :=
  if tx_kjmp_valid t then s
  else set_k_heap <[tx := PTx (set_tx_kjmp_valid (fun _ => true) t)]> s.

Lemma syscall_armed p pr t s :
  active p pr t s -> syscall s = catch (abort_return p) (dispatch p) (armed (p_tx pr) t s).
Proof.
  intros [Hc Hp H0 Ht Hs]. unfold syscall, myproc, get_proc.
  erewrite bind_ok by (unfold deref; by rewrite Hc).
  erewrite bind_ok by (unfold deref; by rewrite Hp).
  erewrite bind_ok by (by eapply tx_active_eq). rewrite Hs. change (TX_ACTIVE =? TX_ACTIVE) with true.
  cbn [when]. apply tx_at_heap in Ht. unfold armed.
  erewrite bind_ok; [reflexivity|]. erewrite bind_ok by (by apply load_tx_ok).
  destruct (tx_kjmp_valid t); [done|]. cbn [negb when]. by apply upd_tx_ok.
Qed.

(** C30. A system call that a conflict aborts returns to user mode as a failed
    [txbegin]: when the handler leaves by [klongjmp], [syscall] returns, and
    the trap frame of the process holds the registers the transaction saved,
    with -1 in [a0]; nothing else is changed after the abort. *)
Theorem aborted_syscall_returns p pr t s s1 t1 words a7 f saved :
  active p pr t s ->
  k_heap s !! p_trapframe pr = Some (PTf words) -> words !! TF_A7 = Some a7 ->
  syscall_of (s32 a7) = Some f ->
  f (armed (p_tx pr) t s) = Longjmp s1 ->
  k_procs s1 !! p = Some pr -> tx_at s1 (p_tx pr) = Some t1 ->
  k_heap s1 !! tx_saved_tf t1 = Some (PTf saved) ->
  syscall s = Ok tt (set_k_heap <[p_trapframe pr := PTf (<[TF_A0 := u64 (-1)]> saved)]> s1).
Proof.
  intros HA Htf Ha7 Hf Hjmp Hp1 Ht1 Hsv. rewrite (syscall_armed p pr t s HA).
  destruct HA as [Hc Hp H0 Ht Hs]. apply tx_at_heap in Ht, Ht1.
  unfold catch, dispatch, tf_get, get_proc.
  assert (Hp' : k_procs (armed (p_tx pr) t s) !! p = Some pr) by (unfold armed; by destruct (tx_kjmp_valid t)).
  assert (Htf' : k_heap (armed (p_tx pr) t s) !! p_trapframe pr = Some (PTf words)).
  { unfold armed. destruct (tx_kjmp_valid t); [done|]. cbn. rewrite lookup_insert_ne; [done|].
    intros E. rewrite E in Ht. congruence. }
  erewrite bind_ok.
  2: { erewrite bind_ok by (unfold deref; by rewrite Hp').
       erewrite bind_ok by (unfold load_tf, deref; by rewrite Htf'). unfold deref. rewrite Ha7. reflexivity. }
  cbv zeta. rewrite Hf. unfold mbind at 1, ST_bind at 1. rewrite Hjmp. cbn [res_bind catch_res].
  unfold abort_return, get_proc. erewrite bind_ok by (unfold deref; by rewrite Hp1).
  erewrite bind_ok by (by apply load_tx_ok).
  erewrite bind_ok by (unfold load_tf, deref; by rewrite Hsv).
  erewrite bind_ok by reflexivity. unfold tf_set, get_proc.
  erewrite bind_ok by (unfold deref; cbn; by rewrite Hp1).
  erewrite bind_ok by (unfold load_tf, deref; cbn; by rewrite lookup_insert_eq).
  unfold store, modify. f_equal. kst_eq. by rewrite insert_insert_eq.
Qed.
End Abort.
