(* ===== verification/Demo.v ===== *)
(** * A concrete machine

    A layout, a small formatted disk and a booted kernel state, on which the
    witnesses of the theorems are evaluated.  The disk has the layout [mkfs]
    gives a small image, with 16 of its inodes: boot block, super block, log (header and
    [LOGBLOCKS] blocks) at 2, inodes at 33, bitmap at 46, data from 47. *)

From S2P Require Import Prelude Monad Types Kernel Kalloc Vm Bio Log Tx FsBlock Inode Systx.
From stdpp Require Import base numbers list gmap strings.
From Stdlib Require Import ZArith Lia.

Open Scope Z_scope.

(** 120 pages of free memory *)
Definition demo_layout : Layout.
Proof.
  refine {| kend := PHYSTOP - 120 * PGSIZE; itable_addr := KERNBASE + 0x8000;
            bcache_addr := KERNBASE + 0x10000; tramp_addr := KERNBASE + 0x7000;
            etext := KERNBASE + 0x8000; forkret_addr := KERNBASE + 0x1000;
            kernelvec_addr := KERNBASE + 0x2000; usertrap_addr := KERNBASE + 0x3000;
            uservec_off := 0; userret_off := 0x9c |};
  unfold PHYSTOP, KERNBASE, PGSIZE, NINODE, NBUF, sizeof_inode, sizeof_buf; lia.
Defined.

#[local] Existing Instance demo_layout.

Definition demo_sb : superblock := Mk_superblock FSMAGIC 64 17 16 31 2 33 46.

Definition pad (l : list Z) : list Z := l ++ replicate (Z.to_nat BSIZE - length l) 0.

(** block 1: the super block *)
Definition demo_sb_block : list Z :=
  pad (concat (map (le_bytes 4) [FSMAGIC; 64; 17; 16; 31; 2; 33; 46])).

(** the root directory (inode 1) with one data block (47) and a file
    (inode 2) with one data block (48) *)
Definition demo_root : inode_data := Mk_inode_data T_DIR 0 0 1 64 (47 :: replicate 12 0).
Definition demo_file : inode_data := Mk_inode_data T_FILE 0 0 1 6 (48 :: replicate 12 0).

Definition demo_inode_block : list Z :=
  pad (replicate 64 0 ++ encode_dinode demo_root ++ encode_dinode demo_file).

(** blocks 0 to 48 are in use *)
Definition demo_bitmap : list Z := pad (replicate 6 255 ++ [1]).

Definition demo_disk : gmap Z (list Z) :=
  <[1 := demo_sb_block]> (<[33 := demo_inode_block]> (<[46 := demo_bitmap]>
  (<[48 := pad [79; 82; 73; 71; 73; 78]]>
   (list_to_map (map (fun b => (b, pad [])) (seqZ 0 64)))))).

Definition zero_slock : sleeplock := Mk_sleeplock false 0.
Definition zero_buf : buf := Mk_buf false false 0 0 zero_slock 0 0 0 init_xobj 0.
Definition zero_inode : inode := Mk_inode 0 0 0 zero_slock false init_xobj 0.
Definition zero_file : file := Mk_file FD_NONE 0 false false 0 None 0 0.
Definition zero_proc : proc :=
  Mk_proc 0 None 0 0 0 0 (replicate 14 0) (replicate NOFILE None) None (replicate 16 0) 0.
Definition zero_psched : psched := Mk_psched UNUSED None false 0.

Definition zero_vdisk : vdisk :=
  Mk_vdisk (replicate 8 (Mk_vdesc VNull 0 0 0)) (replicate 8 0) 0 (replicate 8 0) 0
    (replicate 8 false) 0 (replicate 8 None) (replicate 8 0) (replicate 8 (Mk_vreq 0 0 0)).
Definition zero_dev : devst :=
  Mk_devst [] [] (Mk_console (replicate 128 0) 0 0 0) false false false
    (Mk_csr 0 0 0 0 0 0 0 0 0) zero_vdisk 0 true.

(** memory as it is when the kernel starts: zero, except the disk *)
Definition power_on (d : gmap Z (list Z)) : kst :=
  Kst [] 0 ∅ d [] (replicate (S NBUF) zero_buf)
    (Mk_logstate 0 0 false 0 0 (replicate (Z.to_nat LOGBLOCKS) 0))
    (Mk_superblock 0 0 0 0 0 0 0 0)
    (replicate NINODE zero_inode) (replicate NFILE zero_file)
    (replicate NPROC zero_proc) (replicate NPROC zero_psched) None None 1 0 [] zero_dev.

(** the serial port ready for [n] characters *)
Definition idle_port (n : nat) (s : kst) : kst := set_k_dev (set_v_in (fun _ => replicate n 32)) s.

(** initialisation in the order of [main], then two processes with a
    transaction each, process 0 running; the file system is not yet mounted *)
Definition boot_kernel : K unit :=
  (kinit;; binit;; iinit;;
   tx0 ← txalloc;
   tf0 ← kalloc;
   store tf0 (PTf (replicate 36 0));;
   tx1 ← txalloc;
   tf1 ← kalloc;
   store tf1 (PTf (replicate 36 0));;
   upd_proc 0 (fun p => set_p_tx (fun _ => tx0) (set_p_trapframe (fun _ => tf0)
                          (set_p_pid (fun _ => 1) p)));;
   upd_proc 1 (fun p => set_p_tx (fun _ => tx1) (set_p_trapframe (fun _ => tf1)
                          (set_p_pid (fun _ => 2) p)));;
   modify (set_k_cur (fun _ => Some O))).

Definition boot (d : gmap Z (list Z)) : res kst unit :=
  (boot_kernel;; fsinit ROOTDEV) (power_on d).

Definition state_of {A} (r : res kst A) : kst :=
  match r with Ok _ s => s | Block _ s _ => s | Longjmp s => s | _ => power_on ∅ end.

Definition demo : kst := state_of (boot demo_disk).

Definition value_of {A} (d : A) (r : res kst A) : A := match r with Ok a _ => a | _ => d end.
