(* ===== verification/TxDemo.v ===== *)
(** * Checking the transaction invariants on a concrete state

    Boolean checkers for the free list and the workset, with their soundness,
    and transactions run on the small machine of file Demo. *)

From S2P Require Import Prelude Monad Types Kernel Kalloc Vm Bio Log Tx Workset TxFacts FsBlock Inode Systx SystxFacts Demo.
From stdpp Require Import base numbers list gmap strings sorting.
From Stdlib Require Import ZArith Lia.

Open Scope Z_scope.

#[local] Existing Instance demo_layout.

(** ** The free list *)

Fixpoint chainb (h : gmap Z pobj) (head : Z) (l : list Z) : bool :=
  match l with
  | [] => head =? 0
  | pa :: l => (head =? pa) && match h !! pa with Some (PRun next) => chainb h next l | _ => false end
  end.

Lemma chainb_sound h head l : chainb h head l = true -> chain h head l.
Proof.
  revert head. induction l as [|pa l IH]; intros head; simpl.
  - apply Z.eqb_eq.
  - rewrite andb_true_iff, Z.eqb_eq. intros [-> H]. split; [done|].
    destruct (h !! pa) as [[]|]; try done. eauto.
Qed.

(** the free list by following the links *)
Fixpoint follow (h : gmap Z pobj) (n : nat) (head : Z) : list Z :=
  match n with
  | O => []
  | S n => match h !! head with Some (PRun next) => head :: follow h n next | _ => [] end
  end.

Definition free_of (s : kst) : list Z := follow (k_heap s) 1000 (k_freelist s).

Definition page_okb (pa : Z) : bool := (pa mod PGSIZE =? 0) && (kend <=? pa) && (pa <? PHYSTOP).

Definition free_listb (s : kst) (l : list Z) : bool :=
  chainb (k_heap s) (k_freelist s) l && bool_decide (NoDup l) && forallb page_okb l.

Lemma page_okb_sound pa : page_okb pa = true -> page_ok pa.
Proof. unfold page_okb, page_ok. intros H. zbool. lia. Qed.

Lemma free_listb_sound s l : free_listb s l = true -> free_list s l.
Proof.
  unfold free_listb. rewrite !andb_true_iff, bool_decide_eq_true, forallb_forall.
  intros [[H1 H2] H3]. split; [by apply chainb_sound|done|].
  apply Forall_forall. intros pa Hpa%list_elem_of_In%H3. by apply page_okb_sound.
Qed.

(** ** Worksets *)

Definition obj_okb (o : obj) : bool :=
  match o with HInode i => (i <? NINODE)%nat | HBuf i => (i <? NBUF)%nat end.

Lemma obj_okb_sound o : obj_okb o = true -> obj_ok o.
Proof. destruct o; simpl; apply Nat.ltb_lt. Qed.

Definition entry_okb (e : workset_entry) : bool :=
  match we_header e with Some o => obj_okb o | None => false end.

Fixpoint sortedb (l : list workset_entry) : bool :=
  match l with
  | [] => true
  | a :: l => forallb (fun b => hdr a <? hdr b) l && sortedb l
  end.

Lemma sortedb_sound l : sortedb l = true -> StronglySorted hdr_lt l.
Proof.
  induction l as [|a l IH]; simpl; [constructor|].
  rewrite andb_true_iff, forallb_forall. intros [H1 H2]. constructor; [auto|].
  apply Forall_forall. intros b Hb%list_elem_of_In%H1. by apply Z.ltb_lt.
Qed.

Definition ws_okb (t : transaction) : bool :=
  (0 <=? tx_workset_size t) && (tx_workset_size t <=? MAX_WORKSET) &&
  (Z.of_nat (length (tx_workset t)) =? MAX_WORKSET) &&
  forallb entry_okb (entries t) && sortedb (entries t).

Lemma ws_okb_sound t : ws_okb t = true -> ws_ok t.
Proof.
  unfold ws_okb. rewrite !andb_true_iff, forallb_forall. intros [[[[H1 H2] H3] H4] H5]. zbool.
  split; [lia|done| |by apply sortedb_sound].
  apply Forall_forall. intros e He%list_elem_of_In%H4. unfold entry_okb in He.
  unfold entry_ok. destruct (we_header e) as [o|]; [|done]. exists o. split; [done|]. by apply obj_okb_sound.
Qed.

(** ** Transactions on the demo machine *)

Definition the_proc (s : kst) (p : nat) : proc := default zero_proc (k_procs s !! p).
Definition the_tx (s : kst) (p : nat) : transaction := default zero_tx (tx_at s (p_tx (the_proc s p))).

(** process 0 has started a transaction and holds the buffer of block 48 *)
Definition demo_begun : res kst nat := (sys_txbegin;; bread ROOTDEV 48) demo.
Definition st_begun : kst := state_of demo_begun.
Definition buf48 : nat := value_of 0%nat demo_begun.

(** ** Invariants over all processes and all objects *)

Definition all_objs (s : kst) : list obj :=
  (HInode <$> seq 0 (length (k_itable s))) ++ (HBuf <$> seq 0 (length (k_bcache s))).

Lemma data_ptr_in s o a : data_ptr s o = Some a -> o ∈ all_objs s.
Proof.
  unfold all_objs. rewrite elem_of_app, !list_elem_of_fmap. destruct o as [i|i]; simpl; intros H.
  - left. exists i. split; [done|]. apply elem_of_seq. split; [lia|].
    apply lookup_lt_is_Some. by destruct (k_itable s !! i).
  - right. exists i. split; [done|]. apply elem_of_seq. split; [lia|].
    apply lookup_lt_is_Some. by destruct (k_bcache s !! i).
Qed.

Definition is_datab (v : pobj) : bool := match v with PInode _ | PBuf _ => true | _ => false end.

Lemma is_datab_spec v : is_datab v = true <-> is_data v.
Proof. destruct v; simpl; split; done. Qed.

(** no two objects share a data page *)
Definition injb (s : kst) : bool :=
  forallb (fun o => forallb (fun o' =>
    bool_decide (o = o') || negb (bool_decide (data_ptr s o = data_ptr s o')) ||
    match stable s o with Some v => negb (is_datab v) | None => true end) (all_objs s)) (all_objs s).

Lemma injb_sound s o o' a v :
  injb s = true -> data_ptr s o = Some a -> data_ptr s o' = Some a -> k_heap s !! a = Some v ->
  is_data v -> o = o'.
Proof.
  intros H Ho Ho' Hv Hd. unfold injb in H. rewrite forallb_forall in H.
  specialize (H o ltac:(by apply list_elem_of_In, data_ptr_in with a)). rewrite forallb_forall in H.
  specialize (H o' ltac:(by apply list_elem_of_In, data_ptr_in with a)).
  unfold stable in H. rewrite Ho, Ho', (bool_decide_true (Some a = Some a)) in H by done.
  simpl in H. rewrite Hv in H. apply is_datab_spec in Hd. rewrite Hd in H.
  by case_bool_decide.
Qed.

(** no shadow is the data of an object *)
Definition shadowb (s : kst) (t : transaction) : bool :=
  forallb (fun e => forallb (fun o => negb (bool_decide (data_ptr s o = Some (we_shadow e))))
    (all_objs s)) (entries t).

Lemma shadowb_sound s t k e o :
  shadowb s t = true -> entries t !! k = Some e -> data_ptr s o <> Some (we_shadow e).
Proof.
  intros H Hk E. unfold shadowb in H. rewrite forallb_forall in H.
  specialize (H e ltac:(by apply list_elem_of_In, list_elem_of_lookup; eauto)).
  rewrite forallb_forall in H.
  specialize (H o ltac:(by apply list_elem_of_In, data_ptr_in with (we_shadow e))).
  rewrite bool_decide_true in H by done. done.
Qed.

Definition commit_entryb (s : kst) (e : workset_entry) : bool :=
  match we_header e, we_ops e with
  | Some o, Some _ =>
      match data_ptr s o with
      | Some a => page_okb a && match k_heap s !! a with Some v => is_datab v | None => false end
      | None => false
      end
  | _, _ => false
  end.

Definition commit_pagesb (s : kst) (t : transaction) (l : list Z) : bool :=
  ws_okb t && free_listb s l && bool_decide (k_held s = []) && forallb (commit_entryb s) (entries t) &&
  injb s && shadowb s t.

Lemma commit_pagesb_sound s t l : commit_pagesb s t l = true -> commit_pages s t l.
Proof.
  unfold commit_pagesb. rewrite !andb_true_iff, bool_decide_eq_true, forallb_forall.
  intros [[[[[H1 H2] H3] H4] H5] H6]. split.
  - by apply ws_okb_sound.
  - by apply free_listb_sound.
  - rewrite H3. set_solver.
  - intros k e Hk. specialize (H4 e ltac:(by apply list_elem_of_In, list_elem_of_lookup; eauto)).
    unfold commit_entryb in H4. destruct (we_header e) as [o|]; [|done].
    destruct (we_ops e) as [ops|]; [|done]. destruct (data_ptr s o) as [a|] eqn:Ea; [|done].
    apply andb_true_iff in H4 as [Hp Hv]. destruct (k_heap s !! a) as [v|] eqn:Ev; [|done].
    exists o, a, v. split_and!; [done|by eexists|done|by apply page_okb_sound|done|by apply is_datab_spec].
  - intros o o' a v. by apply injb_sound.
  - intros k e o. by apply shadowb_sound.
Qed.

(** ** Every process's transaction *)

Definition ownsb (s : kst) (a : Z) (t : transaction) : bool :=
  forallb (fun e => match we_header e with
                    | Some o => bool_decide (writer s o = Some a) | None => false end) (entries t).

Lemma ownsb_sound s a t : tx_at s a = Some t -> ownsb s a t = true -> owns s a.
Proof.
  intros Ht H t' o Ht' (e & He & Ho)%linear_find_is_Some. rewrite Ht in Ht'. injection Ht' as <-.
  unfold ownsb in H. rewrite forallb_forall in H. specialize (H e ltac:(by apply list_elem_of_In)).
  rewrite Ho in H. by apply bool_decide_eq_true in H.
Qed.

Definition proc_txb (s : kst) (pr : proc) : bool :=
  (p_tx pr =? 0) ||
  match tx_at s (p_tx pr) with Some t => ws_okb t && ownsb s (p_tx pr) t | None => false end.

Definition tx_invb (s : kst) : bool :=
  bool_decide (k_held s = []) && bool_decide (length (k_psched s) = NPROC) &&
  free_listb s (free_of s) && forallb (proc_txb s) (k_procs s).

Lemma tx_invb_sound s : tx_invb s = true -> tx_inv s.
Proof.
  unfold tx_invb. rewrite !andb_true_iff, !bool_decide_eq_true, forallb_forall.
  intros [[[H1 H2] H3] H4]. split; [done|done|eexists; by apply free_listb_sound|].
  intros p pr Hp H0. specialize (H4 pr ltac:(by apply list_elem_of_In, list_elem_of_lookup; eauto)).
  unfold proc_txb in H4. rewrite (proj2 (Z.eqb_neq _ _) H0) in H4. simpl in H4.
  destruct (tx_at s (p_tx pr)) as [t|] eqn:Et; [|done]. apply andb_true_iff in H4 as [Hw Ho].
  exists t. split; [done|]. split; [by apply ws_okb_sound|]. by apply (ownsb_sound s _ t).
Qed.

(** ** Transactions that can be aborted *)

Definition abort_entryb (s : kst) (e : workset_entry) : bool :=
  negb (we_newly_allocated e) && page_okb (we_shadow e) &&
  match k_heap s !! we_shadow e with Some v => is_datab v | None => false end &&
  match we_header e, we_ops e with
  | Some (HInode _), Some inode_ops => true
  | Some (HBuf _), Some buffer_ops => true
  | _, _ => false
  end.

Definition activeb (s : kst) (p : nat) (pr : proc) (t : transaction) : bool :=
  bool_decide (k_cur s = Some p) && negb (p_tx pr =? 0) && (tx_status t =? TX_ACTIVE).

Lemma activeb_sound s p pr t :
  activeb s p pr t = true -> k_procs s !! p = Some pr -> tx_at s (p_tx pr) = Some t -> active p pr t s.
Proof.
  unfold activeb. rewrite !andb_true_iff, bool_decide_eq_true. intros [[H1 H2] H3] Hp Ht. zbool. by split.
Qed.

Definition abortableb (s : kst) (t : transaction) (l : list Z) : bool :=
  ws_okb t && free_listb s l && bool_decide (k_held s = []) && forallb (abort_entryb s) (entries t) &&
  bool_decide (NoDup (we_shadow <$> entries t)) && shadowb s t && (tx_undo_size t =? 0).

Lemma abortableb_sound s p pr t l :
  abortableb s t l = true -> active p pr t s -> abortable p pr s t l.
Proof.
  unfold abortableb. rewrite !andb_true_iff, !bool_decide_eq_true, forallb_forall.
  intros [[[[[[H1 H2] H3] H4] H5] H6] H7] HA. zbool.
  split; [done|by apply ws_okb_sound|by apply free_listb_sound|done| | | |done].
  - intros k e Hk. specialize (H4 e ltac:(by apply list_elem_of_In, list_elem_of_lookup; eauto)).
    unfold abort_entryb in H4. rewrite !andb_true_iff in H4. destruct H4 as [[[A1 A2] A3] A4]. zbool.
    split_and!; [done|by apply page_okb_sound| |].
    + destruct (k_heap s !! we_shadow e) as [v|]; [|done]. exists v. split; [done|]. by apply is_datab_spec.
    + by destruct (we_header e) as [[]|], (we_ops e) as [[]|].
  - intros i j e e' Hi Hj E. eapply NoDup_lookup; [exact H5|rewrite list_lookup_fmap, Hi; done|].
    rewrite list_lookup_fmap, Hj. simpl. by rewrite E.
  - intros k e o. by apply shadowb_sound.
Qed.
