(* ===== verification/DemoFacts.v ===== *)
(** * Checking the invariants on a concrete state

    Boolean checkers for the invariants of the buffer cache and the log, with
    the proofs that they imply the invariants, for the witnesses. *)

From S2P Require Import Prelude Monad Types Kernel Kalloc Uart Echo Bio Lru BioFacts Log LogFacts LogCrash Demo.
From stdpp Require Import base numbers list gmap strings.
From Stdlib Require Import ZArith Lia.

Open Scope Z_scope.

(** ** The serial port *)

Definition echo_readyb (n : nat) (d : devst) : bool :=
  negb (v_panicked d) && (n <=? length (v_in d))%nat &&
  forallb (fun x => negb (Z.land (u8 x) LSR_TX_IDLE =? 0)) (v_in d).

Lemma echo_readyb_sound n d : echo_readyb n d = true -> echo_ready n d.
Proof.
  unfold echo_readyb. rewrite !andb_true_iff, negb_true_iff, Nat.leb_le, forallb_forall.
  intros [[H1 H2] H3]. split_and!; [done|done|]. apply Forall_forall. intros x Hx.
  apply list_elem_of_In, H3, negb_true_iff in Hx. by apply Z.eqb_neq.
Qed.

(** ** The buffer cache *)

Fixpoint dsegb (bc : list buf) (x : nat) (l : list nat) (y : nat) : bool :=
  match l with
  | [] => bool_decide (nextf bc x = Some y) && bool_decide (prevf bc y = Some x)
  | z :: l => bool_decide (nextf bc x = Some z) && bool_decide (prevf bc z = Some x) && dsegb bc z l y
  end.

Lemma dsegb_sound bc x l y : dsegb bc x l y = true -> dseg (nextf bc) (prevf bc) x l y.
Proof.
  revert x. induction l as [|z l IH]; intros x; simpl.
  - rewrite andb_true_iff, !bool_decide_eq_true. done.
  - rewrite !andb_true_iff, !bool_decide_eq_true. intros [[? ?] ?]. auto.
Qed.

(** the list of buffers by following the links *)
Definition lru_list (bc : list buf) : list nat :=
  (fix go n x := match n with
                 | O => []
                 | S n => match nextf bc x with
                          | Some y => if (y =? HEAD)%nat then [] else y :: go n y
                          | None => []
                          end
                 end) NBUF HEAD.

Definition all_bufs (s : kst) (P : buf -> bool) : bool :=
  forallb (fun i => match k_bcache s !! i with Some b => P b | None => true end) (seq 0 NBUF).

Lemma all_bufs_spec s P : all_bufs s P = true -> forall i b, cbuf s i b -> P b = true.
Proof.
  unfold all_bufs. rewrite forallb_forall. intros H i b [Hi Hb]. specialize (H i).
  rewrite Hb in H. apply H, list_elem_of_In, elem_of_seq. lia.
Qed.

Definition buf_okb (s : kst) (b : buf) : bool :=
  (0 <=? b_refcnt b) && (b_refcnt b <? 2 ^ 32) &&
  (negb (b_refcnt b =? 0) || negb (sl_locked (b_lock b))) &&
  (((b_dev b =? 0) && (b_refcnt b =? 0)) ||
   ((b_dev b =? ROOTDEV) && b_valid b &&
    match heap_bytes s (b_data b) with
    | Some bytes => negb (b_refcnt b =? 0) || bool_decide (k_disk s !! b_blockno b = Some bytes)
    | None => false
    end)).

Lemma buf_okb_sound s b : buf_okb s b = true -> buf_ok s b.
Proof.
  unfold buf_okb. rewrite !andb_true_iff, !orb_true_iff, !andb_true_iff. intros [[[H1 H2] H3] H4].
  zbool. split; [lia| |].
  - intros E. rewrite E in H3. destruct H3 as [H3|H3]; [done|]. by apply negb_true_iff.
  - destruct H4 as [[H4 H5]|[[H4 H5] H6]]; zbool; [by left|right].
    destruct (heap_bytes s (b_data b)) as [bytes|]; [|done]. split_and!; [done..|].
    exists bytes. split; [done|]. intros E. rewrite E in H6. simpl in H6.
    by apply bool_decide_eq_true in H6.
Qed.

(** distinct buffers have distinct blocks and distinct pages *)
Definition distinctb (b c : buf) : bool :=
  negb ((b_dev b =? ROOTDEV) && (b_dev c =? ROOTDEV) && (b_blockno b =? b_blockno c)) &&
  negb (b_data b =? b_data c).

Definition pairsb (bc : list buf) : bool :=
  forallb (fun i => forallb (fun j =>
    match bc !! i, bc !! j with
    | Some b, Some c => (i =? j)%nat || distinctb b c
    | _, _ => true
    end) (seq 0 NBUF)) (seq 0 NBUF).

Lemma pairsb_sound s i j b c :
  pairsb (k_bcache s) = true -> cbuf s i b -> cbuf s j c -> i <> j -> distinctb b c = true.
Proof.
  intros H [Hi Hb] [Hj Hc] Hne. unfold pairsb in H. rewrite forallb_forall in H.
  specialize (H i). rewrite forallb_forall in H. specialize (fun G => H G j). rewrite Hb, Hc in H.
  assert ((i =? j)%nat = false) as E by (by apply Nat.eqb_neq). rewrite E in H. apply H.
  - apply list_elem_of_In, elem_of_seq. lia.
  - apply list_elem_of_In, elem_of_seq. lia.
Qed.

Definition bio_invb (s : kst) (l : list nat) : bool :=
  dsegb (k_bcache s) HEAD l HEAD && bool_decide (NoDup l) && bool_decide (length l = NBUF) &&
  forallb (fun i => i <? NBUF)%nat l && bool_decide (length (k_bcache s) = S NBUF) &&
  all_bufs s (buf_okb s) && pairsb (k_bcache s).

Lemma nodup_seq_perm l n :
  NoDup l -> length l = n -> (forall i, i ∈ l -> (i < n)%nat) -> l ≡ₚ seq 0 n.
Proof.
  intros Hd Hl Hi. apply submseteq_length_Permutation.
  - apply NoDup_submseteq; [done|]. intros i Hin. apply elem_of_seq. specialize (Hi _ Hin). lia.
  - rewrite length_seq. lia.
Qed.

Lemma bio_invb_sound s l : bio_invb s l = true -> bio_inv s l.
Proof.
  unfold bio_invb. rewrite !andb_true_iff, !bool_decide_eq_true.
  intros [[[[[[H1 H2] H3] H4] H5] H6] H7]. rewrite forallb_forall in H4. split.
  - split; [by apply dsegb_sound| |done]. apply nodup_seq_perm; [done|done|].
    intros i Hi%list_elem_of_In%H4. by apply Nat.ltb_lt.
  - intros i b Hb. apply buf_okb_sound. by apply (all_bufs_spec _ _ H6 i b).
  - intros i j b c x Hb Hc [E1 E2]%is_block_spec [E3 E4]%is_block_spec.
    destruct (decide (i = j)) as [|Hne]; [done|].
    pose proof (pairsb_sound _ _ _ _ _ H7 Hb Hc Hne) as [Hd _]%andb_true_iff.
    rewrite E1, E3, E2, E4, !Z.eqb_refl in Hd. done.
  - intros i j b c Hb Hc E. destruct (decide (i = j)) as [|Hne]; [done|].
    pose proof (pairsb_sound _ _ _ _ _ H7 Hb Hc Hne) as [_ Hd]%andb_true_iff.
    rewrite E, Z.eqb_refl in Hd. done.
Qed.

(** ** Freshly booted *)

Definition unusedb (b : buf) : bool := (b_refcnt b =? 0) && negb (sl_locked (b_lock b)).

Lemma unused_refs s : all_bufs s unusedb = true -> forall x, refs s x = 0 /\ blocked s x = None.
Proof.
  intros H x. destruct (refs_cases s x) as [(i & b & Hb & _ & -> & ->)|?]; [|done].
  apply (all_bufs_spec _ _ H) in Hb. unfold unusedb in Hb. apply andb_true_iff in Hb as [Hr Hl].
  zbool. unfold lock_pid. by rewrite Hl.
Qed.

Definition runningb (p : nat) (s : kst) : bool :=
  bool_decide (k_cur s = Some p) && bool_decide (length (k_psched s) = NPROC).

Lemma runningb_sound p pr s : runningb p s = true -> k_procs s !! p = Some pr -> running p pr s.
Proof. unfold runningb. rewrite andb_true_iff, !bool_decide_eq_true. intros [? ?] ?. by split. Qed.

Definition rebootedb (p : nat) (s : kst) : bool :=
  runningb p s && bool_decide (k_held s = []) && bio_invb s (lru_list (k_bcache s)) &&
  all_bufs s unusedb && (2 <=? nfree s)%nat &&
  bool_decide (length (l_block (k_log s)) = Z.to_nat LOGBLOCKS) &&
  echo_readyb (132 * Z.to_nat LOGBLOCKS) (k_dev s).

Lemma rebootedb_sound p pr s :
  rebootedb p s = true -> k_procs s !! p = Some pr -> rebooted p pr s.
Proof.
  unfold rebootedb. rewrite !andb_true_iff, !bool_decide_eq_true.
  intros [[[[[[H1 H2] H3] H4] H5] H6] H7] Hp.
  split; [by apply runningb_sound|done| | |by apply Nat.leb_le|done|by apply echo_readyb_sound].
  - eexists. by apply bio_invb_sound.
  - by apply unused_refs.
Qed.

(** ** Ready to commit *)

Definition in_logb (start x : Z) : bool := (start <=? x) && (x <=? start + LOGBLOCKS).

Lemma in_logb_false start x : in_logb start x = false -> ~ in_log start x.
Proof. unfold in_logb, in_log. rewrite andb_false_iff. intros [H|H]; zbool; lia. Qed.

Definition log_okb (s : kst) (start : Z) (bls : list Z) : bool :=
  (l_dev (k_log s) =? ROOTDEV) && (l_start (k_log s) =? start) &&
  (l_n (k_log s) =? Z.of_nat (length bls)) &&
  bool_decide (take (length bls) (l_block (k_log s)) = bls) &&
  (0 <? start) && (start + LOGBLOCKS <? 2 ^ 31) && (Z.of_nat (length bls) <=? LOGBLOCKS) &&
  forallb (fun b => (0 <=? b) && (b <? 2 ^ 31) && negb (in_logb start b) &&
    bool_decide (is_Some (k_disk s !! b))) bls &&
  forallb (fun x => bool_decide (is_Some (k_disk s !! x))) (seqZ start (LOGBLOCKS + 1)) &&
  bool_decide (NoDup bls).

Lemma log_okb_sound s start bls : log_okb s start bls = true -> log_ok s start bls.
Proof.
  unfold log_okb. rewrite !andb_true_iff, !bool_decide_eq_true, !forallb_forall.
  intros [[[[[[[[[H1 H2] H3] H4] H5] H6] H7] H8] H9] H10]. zbool. split; try done.
  - intros i b Hb. rewrite <- H4 in Hb. by apply lookup_take_Some in Hb as [? _].
  - intros b Hb%list_elem_of_In%H8. rewrite !andb_true_iff, bool_decide_eq_true in Hb.
    destruct Hb as [[[? ?] Hn] ?]. zbool. split_and!; [lia|lia| |done].
    by apply in_logb_false.
  - intros x Hx. apply (bool_decide_eq_true (is_Some (k_disk s !! x))), H9, list_elem_of_In.
    apply elem_of_seqZ. lia.
Qed.

Definition quietb (s : kst) (start : Z) (bls : list Z) : bool :=
  bio_invb s (lru_list (k_bcache s)) &&
  all_bufs s (fun b => negb (in_logb start (b_blockno b)) || unusedb b) &&
  all_bufs s (fun b => negb (sl_locked (b_lock b))) &&
  all_bufs s (fun b => b_refcnt b + 1 <? 2 ^ 32) && (1 <=? nfree s)%nat.

Lemma quietb_sound s start bls : quietb s start bls = true -> log_quiet s start bls.
Proof.
  unfold quietb. rewrite !andb_true_iff. intros [[[[H1 H2] H3] H4] H5]. split.
  - eexists. by apply bio_invb_sound.
  - intros x Hx. destruct (refs_cases s x) as [(i & b & Hb & [_ Hn]%is_block_spec & -> & ->)|?]; [|done].
    apply (all_bufs_spec _ _ H2) in Hb. apply orb_true_iff in Hb as [Hb|Hb].
    + zbool. apply in_logb_false in Hb. subst. done.
    + unfold unusedb in Hb. apply andb_true_iff in Hb as [Hr Hl]. zbool.
      unfold lock_pid. by rewrite Hl.
  - intros x _. destruct (refs_cases s x) as [(i & b & Hb & _ & _ & ->)|[_ ?]]; [|done].
    apply (all_bufs_spec _ _ H3) in Hb. apply negb_true_iff in Hb. unfold lock_pid. by rewrite Hb.
  - intros x. destruct (refs_cases s x) as [(i & b & Hb & _ & -> & _)|[-> _]]; [|lia].
    apply (all_bufs_spec _ _ H4) in Hb. by zbool.
  - by apply Nat.leb_le.
Qed.

Definition readyb (p : nat) (s : kst) (start : Z) (bls : list Z) : bool :=
  runningb p s && bool_decide (k_held s = []) && log_okb s start bls && quietb s start bls &&
  forallb (fun b => 1 <=? refs s b) bls &&
  match k_disk s !! start with
  | Some hd => (Z.of_nat (length hd) =? BSIZE) && (int_at hd 0 =? 0)
  | None => false
  end.

Lemma readyb_sound p pr s start bls :
  readyb p s start bls = true -> k_procs s !! p = Some pr -> commit_ready p pr s start bls.
Proof.
  unfold readyb. rewrite !andb_true_iff, !bool_decide_eq_true, forallb_forall.
  intros [[[[[H1 H2] H3] H4] H5] H6] Hp.
  split; [by apply runningb_sound|done|by apply log_okb_sound|by apply quietb_sound| |].
  - intros b Hb%list_elem_of_In%H5. by zbool.
  - destruct (k_disk s !! start) as [hd|]; [|done]. apply andb_true_iff in H6 as [? ?]. zbool. eauto.
Qed.
