(* ===== verification/Examples.v ===== *)
(** * The theorems on concrete states

    Each example applies one theorem of the development to a state reached by
    running the model on the small machine of file Demo, which shows that the
    theorem's hypotheses can hold. *)

From S2P Require Import Prelude Monad Types Kernel Kalloc Vm Echo Bio Lru BioFacts Log LogFacts LogCrash Tx Workset TxFacts FsBlock Inode Systx SystxFacts Demo TxDemo DemoFacts.
From stdpp Require Import base numbers list gmap strings sorting.
From Stdlib Require Import ZArith Lia.

Open Scope Z_scope.

#[local] Existing Instance demo_layout.

(** ** The log *)

(** the machine restarted on disk [d], before the log is recovered *)
Definition restarted (d : gmap Z (list Z)) : kst := state_of (boot_kernel (idle_port (132 * Z.to_nat LOGBLOCKS) (power_on d))).

Definition proc_of (s : kst) (p : nat) : proc := default zero_proc (k_procs s !! p).

(** in a file system operation, after changing blocks 48 and 49 *)
Definition demo_op : kst := state_of ((
  begin_op;;
  b ← bread ROOTDEV 48;
  bdata_upd b (splice 0 [1; 2; 3]);; log_write b;; brelse b;;
  c ← bread ROOTDEV 49;
  bdata_upd c (splice 0 [4; 5; 6]);; log_write c;; brelse c) demo).

Lemma restarted_ok d : rebooted 0 (proc_of (restarted d) 0) (restarted d).
Proof. apply rebootedb_sound; vm_compute; reflexivity. Qed.

Lemma restarted_disk d : k_disk (restarted d) = d.
Proof. vm_compute. reflexivity. Qed.

Lemma demo_op_ready : commit_ready 0 (proc_of demo_op 0) demo_op 2 [48; 49].
Proof. apply readyb_sound; vm_compute; reflexivity. Qed.

Lemma commit_crash_atomic_witness :
  exists s' W r', commit demo_op = Ok tt s' /\ k_dwrites s' = k_dwrites demo_op ++ W /\
    initlog ROOTDEV demo_sb (restarted (apply_writes (take 3 W) (k_disk demo_op))) = Ok tt r' /\
    k_disk r' !! 48 = bview demo_op 48.
Proof.
  destruct (commit_crash_atomic 0 (proc_of demo_op 0) demo_op 2 [48; 49] demo_sb demo_op_ready
    ltac:(done) eq_refl) as (s' & W & E & EW & H).
  destruct (H 3%nat 0%nat _ _ (restarted_ok _) (restarted_disk _)) as (r' & E' & _ & Hr).
  exists s', W, r'. split; [exact E|]. split; [exact EW|]. split; [exact E'|].
  apply (Hr 48). unfold in_log, LOGBLOCKS, MAXOPBLOCKS. clear. lia.
Defined.

Lemma commit_installs_witness :
  exists s', commit demo_op = Ok tt s' /\ k_disk s' !! 48 = bview demo_op 48 /\
    exists hd, k_disk s' !! 2 = Some hd /\ int_at hd 0 = 0.
Proof.
  destruct (commit_installs 0 (proc_of demo_op 0) demo_op 2 [48; 49] demo_op_ready ltac:(done))
    as (s' & E & _ & (hd & Hd & _ & Hz) & _ & H & _).
  exists s'. split; [exact E|]. split; [apply H; left|]. exists hd. split; [exact Hd|exact Hz].
Defined.

(** ** Transactions *)

(** the data and the free page the next shadow will use *)
Definition v48 : pobj := default (PJunk 0) (stable st_begun (HBuf buf48)).
Definition sh48 : Z := default 0 (head (free_of st_begun)).

Lemma begun_in_tx : in_tx 0 (the_proc st_begun 0) (the_tx st_begun 0) st_begun.
Proof.
  split.
  - apply runningb_sound; vm_compute; reflexivity.
  - vm_compute. reflexivity.
  - apply ws_okb_sound. vm_compute. reflexivity.
Qed.

Lemma begun_can_shadow : can_shadow 0 (the_proc st_begun 0) (the_tx st_begun 0) st_begun
  (HBuf buf48) v48 sh48 (tail (free_of st_begun)).
Proof.
  split.
  - apply begun_in_tx.
  - apply obj_okb_sound. vm_compute. reflexivity.
  - vm_compute. reflexivity.
  - vm_compute. reflexivity.
  - left. vm_compute. reflexivity.
  - vm_compute. reflexivity.
  - vm_compute. exact I.
  - apply free_listb_sound. vm_compute. reflexivity.
  - split; vm_compute; intros H; inversion H.
Qed.

Lemma txshadow_isolates_witness :
  exists s' t', txshadow (HBuf buf48) false buffer_ops st_begun = Ok sh48 s' /\
    k_heap s' !! sh48 = Some v48 /\ ws_ok t'.
Proof.
  destruct (txshadow_isolates 0 _ _ _ _ _ _ _ false buffer_ops begun_can_shadow)
    as (s' & t' & E & Hsh & _ & Hws & _).
  exists s', t'. split; [exact E|]. split; [exact Hsh|exact Hws].
Defined.

Lemma read_your_writes_witness :
  exists s', txshadow (HBuf buf48) false buffer_ops st_begun = Ok sh48 s' /\
    txshadow (HBuf buf48) false buffer_ops (set_k_heap <[sh48 := PBuf [1]]> s')
      = Ok sh48 (set_k_heap <[sh48 := PBuf [1]]> s').
Proof.
  destruct (read_your_writes 0 _ _ _ _ _ _ _ false buffer_ops begun_can_shadow) as (s' & E & H).
  exists s'. split; [exact E|]. apply (H (PBuf [1]) false buffer_ops).
Defined.

(** process 1 has written block 48 in its transaction, process 0 has a
    transaction and the buffer, and the serial port is idle *)
Definition st_conflict : kst := state_of ((
  sys_txbegin;;
  modify (set_k_cur (fun _ => Some 1%nat));; sys_txbegin;;
  b ← bread ROOTDEV 48; txshadow (HBuf b) false buffer_ops;; brelse b;;
  modify (set_k_cur (fun _ => Some 0%nat));; bread ROOTDEV 48) (idle_port 201 demo)).

Lemma conflict_in_tx : in_tx 0 (the_proc st_conflict 0) (the_tx st_conflict 0) st_conflict.
Proof.
  split.
  - apply runningb_sound; vm_compute; reflexivity.
  - vm_compute. reflexivity.
  - apply ws_okb_sound. vm_compute. reflexivity.
Qed.

Lemma txshadow_refuses_witness :
  txshadow (HBuf buf48) false buffer_ops st_conflict = Ok 0 (set_k_dev (printed conflict_msg) st_conflict) /\
  bdata buf48 st_conflict = Panic "bdata: txshadow failed".
Proof.
  destruct (txshadow_refuses 0 _ _ st_conflict (HBuf buf48) conflict_in_tx) as [H1 H2].
  - apply obj_okb_sound. vm_compute. reflexivity.
  - vm_compute. reflexivity.
  - vm_compute. intros H. inversion H.
  - right. exists (default 0 (writer st_conflict (HBuf buf48))).
    split; [vm_compute; reflexivity|]. split; vm_compute; discriminate.
  - vm_compute. intros H. inversion H.
  - apply echo_readyb_sound. vm_compute. reflexivity.
  - split; [apply H1|]. apply H2. apply activeb_sound; vm_compute; reflexivity.
Defined.

(** both processes have started a transaction; process 0 holds block 48 *)
Definition st_two : kst := state_of ((
  modify (set_k_cur (fun _ => Some 1%nat));; sys_txbegin;;
  modify (set_k_cur (fun _ => Some 0%nat));; sys_txbegin;; bread ROOTDEV 48) demo).

(** process 0 has used block 48 *)
Definition st_used : kst := state_of (txshadow (HBuf buf48) false buffer_ops st_two).

Lemma two_inv : tx_inv st_two.
Proof. apply tx_invb_sound. vm_compute. reflexivity. Qed.

Lemma two_used : tx_step st_two st_used.
Proof.
  eapply (step_use 0 (the_proc st_two 0) (HBuf buf48)
    (default (PJunk 0) (stable st_two (HBuf buf48))) false buffer_ops).
  - vm_compute. reflexivity.
  - vm_compute. reflexivity.
  - vm_compute. discriminate.
  - apply obj_okb_sound. vm_compute. reflexivity.
  - vm_compute. eexists. reflexivity.
  - vm_compute. reflexivity.
  - vm_compute. exact I.
  - vm_compute. reflexivity.
Qed.

Lemma worksets_disjoint_witness : linear_find (the_tx st_used 1) (HBuf buf48) = None.
Proof.
  eapply (worksets_disjoint st_two st_used 0 (the_proc st_used 0) 1 (the_proc st_used 1) (the_tx st_used 0)
    (the_tx st_used 1)).
  - exact two_inv.
  - apply rtc_once, two_used.
  - vm_compute. reflexivity.
  - vm_compute. reflexivity.
  - vm_compute. discriminate.
  - vm_compute. discriminate.
  - vm_compute. discriminate.
  - vm_compute. reflexivity.
  - vm_compute. reflexivity.
  - vm_compute. eexists. reflexivity.
Defined.

Lemma find_workset_entry_correct_witness :
  find_workset_entry (the_tx st_used 0) (HBuf buf48) st_used
    = Ok (linear_find (the_tx st_used 0) (HBuf buf48)) st_used.
Proof.
  apply find_workset_entry_correct.
  - apply ws_okb_sound. vm_compute. reflexivity.
  - apply obj_okb_sound. vm_compute. reflexivity.
Defined.

(** process 0 has released the buffer; its transaction can commit or abort *)
Definition st_ready : kst := state_of (brelse buf48 st_used).

Lemma ready_pages : commit_pages st_ready (the_tx st_ready 0) (free_of st_ready).
Proof. apply commit_pagesb_sound. vm_compute. reflexivity. Qed.

Lemma txcommit_installs_witness :
  exists s', for_workset (p_tx (the_proc st_ready 0)) install_shadow st_ready = Ok tt s' /\
    exists l', free_list s' (l' ++ free_of st_ready).
Proof.
  destruct (txcommit_installs st_ready (the_tx st_ready 0) (free_of st_ready)
    (p_tx (the_proc st_ready 0)) ready_pages ltac:(vm_compute; reflexivity))
    as (s' & E & _ & _ & l' & Hl & _).
  exists s'. split; [exact E|]. exists l'. exact Hl.
Defined.

Lemma ready_active : active 0 (the_proc st_ready 0) (the_tx st_ready 0) st_ready.
Proof. apply activeb_sound; vm_compute; reflexivity. Qed.

(** the first system call of the transaction has set the jump buffer *)
Definition st_armed : kst :=
  state_of (upd_tx (p_tx (the_proc st_ready 0)) (set_tx_kjmp_valid (fun _ => true)) st_ready).

Lemma armed_abortable :
  abortable 0 (the_proc st_armed 0) st_armed (the_tx st_armed 0) (free_of st_armed).
Proof. apply abortableb_sound; [vm_compute; reflexivity|]. apply activeb_sound; vm_compute; reflexivity. Qed.

Lemma tx_abort_now_discards_witness :
  exists s' l', tx_abort_now iput_deferred st_armed = Longjmp s' /\ free_list s' (l' ++ free_of st_armed) /\
    we_shadow <$> entries (the_tx st_armed 0) <> [] /\
    tx_at s' (p_tx (the_proc st_armed 0)) = Some (the_tx st_armed 0).
Proof.
  pose proof (tx_abort_now_discards _ _ _ _ _ armed_abortable) as H.
  assert (tx_kjmp_valid (the_tx st_armed 0) = true) as E by (vm_compute; reflexivity). rewrite E in H.
  destruct H as (s' & l' & Hj & _ & Hf & _ & Ht).
  exists s', l'. split; [exact Hj|]. split; [exact Hf|]. split; [vm_compute; discriminate|exact Ht].
Defined.

Lemma active_tx_defers_witness : begin_op st_ready = Ok tt st_ready /\ iput 3 st_ready = Ok tt st_ready.
Proof.
  destruct (active_tx_defers _ _ _ _ 0%nat 3%nat ready_active) as (H1 & _ & _ & _ & H2 & _).
  split; [exact H1|exact H2].
Defined.

Lemma tx_calls_need_active_witness : sys_txcommit demo = Ok (-1) demo /\ sys_txabort demo = Ok (-1) demo.
Proof.
  apply (tx_calls_need_active 0 (the_proc demo 0)).
  - vm_compute. reflexivity.
  - vm_compute. reflexivity.
  - right. exists (the_tx demo 0). split; [vm_compute; reflexivity|vm_compute; discriminate].
Defined.

Lemma txbegin_starts_witness : exists s', sys_txbegin demo = Ok 0 s'.
Proof.
  destruct (txbegin_starts 0 (the_proc demo 0) demo (the_tx demo 0) (free_of demo) (replicate 36 0))
    as (s' & _ & E & _); [vm_compute; reflexivity|vm_compute; reflexivity|vm_compute; discriminate
    |vm_compute; reflexivity|vm_compute; reflexivity|apply free_listb_sound; vm_compute; reflexivity
    |vm_compute; reflexivity|left; split; [vm_compute; reflexivity|vm_compute; discriminate]|].
  exists s'. exact E.
Defined.
