(* ===== verification/CacheExamples.v ===== *)
(** * The theorems on pages, the buffer cache and the log on concrete states

    As file Examples, for the theorems of KallocFacts, BioProps and LogOps. *)

From S2P Require Import Prelude Monad Types Kernel Kalloc KallocFacts Vm Bio Lru BioFacts BioProps Log LogFacts LogCrash LogOps Tx FsBlock Inode Systx Demo TxDemo DemoFacts.
From stdpp Require Import base numbers list gmap strings.
From Stdlib Require Import ZArith Lia.

Open Scope Z_scope.

#[local] Existing Instance demo_layout.

(** ** Pages *)

Definition st_kinit : kst := state_of (kinit (power_on ∅)).
Definition st_kalloc : kst := state_of (kalloc st_kinit).
Definition pa_kalloc : Z := value_of 0 (kalloc st_kinit).

Lemma kalloc_history_witness :
  exists pa s', kalloc st_kalloc = Ok pa s' /\
    ((pa ∈ pages /\ pa ∉ [pa_kalloc] /\ pa mod PGSIZE = 0) \/
     (pa = 0 /\ s' = st_kalloc /\ [pa_kalloc] ≡ₚ pages)).
Proof.
  apply (kalloc_history (power_on ∅) st_kinit st_kalloc [pa_kalloc]).
  - vm_compute. reflexivity.
  - vm_compute. intros H. inversion H.
  - vm_compute. reflexivity.
  - apply rtc_once, step_kalloc; [vm_compute; reflexivity|vm_compute; discriminate].
Defined.

(** ** The buffer cache *)

Lemma binit_establishes_witness :
  exists s', binit st_kinit = Ok tt s' /\ bio_inv s' (reverse (seq 0 NBUF)).
Proof.
  destruct (binit_establishes st_kinit (free_of st_kinit)) as (s' & E & H & _).
  - vm_compute. reflexivity.
  - apply free_listb_sound. vm_compute. reflexivity.
  - vm_compute. lia.
  - vm_compute. intros H. inversion H.
  - exists s'. split; [exact E|exact H].
Defined.

Definition lru_of (s : kst) : list nat := lru_list (k_bcache s).

Lemma demo_bio_inv : bio_inv demo (lru_of demo).
Proof. apply bio_invb_sound. vm_compute. reflexivity. Qed.

Lemma demo_running : running 0 (the_proc demo 0) demo.
Proof. apply runningb_sound; vm_compute; reflexivity. Qed.

Definition bytes48 : list Z := default [] (k_disk demo !! 48).

Lemma bread_returns_block_witness :
  exists i s', bread ROOTDEV 48 demo = Ok i s' /\ bdata_get i s' = Ok bytes48 s'.
Proof.
  destruct (bread_returns_block demo (lru_of demo) 0 (the_proc demo 0) 48 bytes48)
    as (i & s' & E & H & _).
  - exact demo_bio_inv.
  - exact demo_running.
  - vm_compute. reflexivity.
  - vm_compute. reflexivity.
  - vm_compute. reflexivity.
  - vm_compute. reflexivity.
  - intros _. vm_compute. lia.
  - exists i, s'. split; [exact E|exact H].
Defined.

Lemma bget_takes_lru_witness :
  exists i s' l1 l2, bget ROOTDEV 48 demo = Ok i s' /\ lru_of demo = l1 ++ i :: l2.
Proof.
  destruct (bget_takes_lru demo (lru_of demo) 0 (the_proc demo 0) 48)
    as (i & s' & l1 & l2 & b & E & H & _).
  - exact demo_bio_inv.
  - exact demo_running.
  - vm_compute. reflexivity.
  - vm_compute. reflexivity.
  - vm_compute. lia.
  - exists i, s', l1, l2. split; [exact E|exact H].
Defined.

(** all buffers are in use *)
Definition st_full : kst := state_of (for_each (seqZ 0 30) (fun x => bread ROOTDEV x;; mret tt) demo).

Lemma full_used i b : (i < NBUF)%nat -> k_bcache st_full !! i = Some b -> b_refcnt b <> 0.
Proof.
  intros Hi Hb. assert (all_bufs st_full (fun b => negb (b_refcnt b =? 0)) = true) as H
    by (vm_compute; reflexivity).
  pose proof (all_bufs_spec _ _ H i b (conj Hi Hb)) as Hr. cbv beta in Hr.
  apply negb_true_iff, Z.eqb_neq in Hr. exact Hr.
Qed.

Lemma bget_no_buffers_witness : bget ROOTDEV 40 st_full = Panic "bget: no buffers".
Proof.
  apply (bget_no_buffers st_full (lru_of st_full) 40).
  - apply bio_invb_sound. vm_compute. reflexivity.
  - vm_compute. reflexivity.
  - vm_compute. reflexivity.
  - exact full_used.
Defined.

(** block 48 is locked by process 0 *)
Definition st_read : kst := state_of (bread ROOTDEV 48 demo).
Definition rbuf : nat := value_of 0%nat (bread ROOTDEV 48 demo).

Lemma read_bio_inv : bio_inv st_read (lru_of st_read).
Proof. apply bio_invb_sound. vm_compute. reflexivity. Qed.

Lemma read_running : running 0 (the_proc st_read 0) st_read.
Proof. apply runningb_sound; vm_compute; reflexivity. Qed.

Lemma brelse_moves_to_front_witness :
  exists s', brelse rbuf st_read = Ok tt s' /\ blocked s' 48 = None.
Proof.
  destruct (brelse_moves_to_front st_read (lru_of st_read) 0 (the_proc st_read 0) 48 rbuf)
    as (s' & E & _ & H & _).
  - exact read_bio_inv.
  - exact read_running.
  - vm_compute. reflexivity.
  - vm_compute. reflexivity.
  - vm_compute. reflexivity.
  - intros _. vm_compute. reflexivity.
  - exists s'. split; [exact E|exact H].
Defined.

Lemma bwrite_persists_witness :
  exists s', bwrite rbuf st_read = Ok tt s' /\ k_disk s' = <[48 := bytes48]> (k_disk st_read).
Proof.
  destruct (bwrite_persists st_read (lru_of st_read) 0 (the_proc st_read 0) 48 rbuf bytes48)
    as (s' & E & _ & H & _).
  - exact read_bio_inv.
  - exact read_running.
  - vm_compute. reflexivity.
  - vm_compute. reflexivity.
  - vm_compute. reflexivity.
  - vm_compute. reflexivity.
  - vm_compute. eexists. reflexivity.
  - exists s'. split; [exact E|exact H].
Defined.

(** ** The log *)

(** in an operation, block 48 locked *)
Definition st_op : kst := state_of ((begin_op;; bread ROOTDEV 48) demo).

Lemma log_write_absorbs_witness :
  exists s', log_write rbuf st_op = Ok tt s' /\ log_ok s' 2 [48].
Proof.
  destruct (log_write_absorbs st_op (lru_of st_op) (the_proc st_op 0) 2 [] 48 rbuf)
    as (s' & E & H & _).
  - apply bio_invb_sound. vm_compute. reflexivity.
  - vm_compute. reflexivity.
  - vm_compute. reflexivity.
  - apply log_okb_sound. vm_compute. reflexivity.
  - vm_compute. reflexivity.
  - vm_compute. reflexivity.
  - vm_compute. reflexivity.
  - lia.
  - unfold in_log, LOGBLOCKS, MAXOPBLOCKS. clear. lia.
  - vm_compute. eexists. reflexivity.
  - vm_compute. reflexivity.
  - vm_compute. reflexivity.
  - vm_compute. discriminate.
  - exists s'. split; [exact E|exact H].
Defined.
