(* ===== verification/FileExamples.v ===== *)
(** * The theorems on blocks, files and directories on concrete states

    Boolean checkers for the hypotheses of files FileProps and DirProps, with
    their soundness, and the theorems applied to the file and to the root
    directory of the small machine. *)

From S2P Require Import Prelude Monad CString Types Kernel Kalloc Vm VmFacts UserMem Transfer Uart Printf Echo Bio Lru BioFacts Log LogFacts LogCrash LogOps Tx FsBlock FsCtx Bitmap Inode FileData FileGrow Dir DirFacts FileWrite File FileProps DirProps TruncProps Systx Demo TxDemo DemoFacts.
From stdpp Require Import base numbers list gmap strings.
From Stdlib Require Import ZArith Lia.

Open Scope Z_scope.

#[local] Existing Instance demo_layout.

(** ** An operation in which no buffer is in use *)

Definition nonbufb (s : kst) (a : Z) : bool := all_bufs s (fun b => negb (b_data b =? a)).

Lemma nonbufb_sound s a : nonbufb s a = true -> nonbuf s a.
Proof. intros H i b Hb. apply (all_bufs_spec _ _ H) in Hb. by zbool. Qed.

Definition idleb (pr : proc) (s : kst) : bool :=
  match k_heap s !! p_tx pr with Some (PTx t) => negb (tx_status t =? TX_ACTIVE) | _ => p_tx pr =? 0 end.

Lemma idleb_sound pr s : idleb pr s = true -> tx_idle pr s.
Proof.
  unfold idleb, tx_idle. destruct (k_heap s !! p_tx pr) as [[]|]; intros H; zbool; eauto.
Qed.

Definition ctxb (p : nat) (pr : proc) (start : Z) (s : kst) : bool :=
  runningb p s && bool_decide (k_held s = []) && idleb pr s && nonbufb s (p_tx pr) &&
  bio_invb s (lru_list (k_bcache s)) && log_okb s start [] &&
  bool_decide (length (l_block (k_log s)) = Z.to_nat LOGBLOCKS) && (1 <=? l_outstanding (k_log s)) &&
  all_bufs s unusedb.

Lemma unused_view s l x : bio_inv s l -> all_bufs s unusedb = true -> bview s x = k_disk s !! x.
Proof. intros HI HU. symmetry. apply (clean_view s l); [done|]. by apply unused_refs. Qed.

Lemma ctxb_sound p pr start s :
  ctxb p pr start s = true -> k_procs s !! p = Some pr -> fs_ctx p pr start s [].
Proof.
  unfold ctxb. rewrite !andb_true_iff, !bool_decide_eq_true.
  intros [[[[[[[[H1 H2] H3] H4] H5] H6] H7] H8] H9] Hp. apply bio_invb_sound in H5. apply Z.leb_le in H8.
  split; [by apply runningb_sound|done|by apply idleb_sound|by apply nonbufb_sound|eauto|by apply log_okb_sound|done|lia| |].
  - intros x. destruct (unused_refs _ H9 x) as [Hr Hb]. unfold others, pinref.
    rewrite Hr, Hb, bool_decide_false by apply not_elem_of_nil. cbn. lia.
  - intros x _. by eapply unused_view.
Qed.

(** ** The bitmap and a file without indirect block, on the disk *)

Section Disk.
Context (start : Z) (s : kst) (sb : superblock).
Context (Hun : forall x, blocked s x = None).
Let v (x : Z) : option (list Z) := k_disk s !! x.

Definition loggableb (x : Z) : bool :=
  (0 <=? x) && (x <? 2 ^ 31) && negb (in_logb start x) && bool_decide (is_Some (v x)).

Lemma loggableb_sound x : loggableb x = true -> loggable start (k_disk s) x.
Proof using Type.
  unfold loggableb. rewrite !andb_true_iff, bool_decide_eq_true, negb_true_iff. intros [[[H1 H2] H3] H4].
  zbool. split_and!; [lia|lia|by apply in_logb_false|done].
Qed.

Definition blockb (x : Z) : bool :=
  match v x with Some bytes => Z.of_nat (length bytes) =? BSIZE | None => false end.

Lemma blockb_sound x : blockb x = true -> exists bytes, v x = Some bytes /\ Z.of_nat (length bytes) = BSIZE.
Proof using Type. unfold blockb. destruct (v x) as [bytes|]; [|done]. intros H. zbool. eauto. Qed.

Definition unmappedb (x : Z) : bool := forallb (fun b => negb (BBLOCK b sb =? x)) (seqZ 0 (sb_size sb)).

Lemma forallb_seqZ (P : Z -> bool) n k : forallb P (seqZ 0 n) = true -> 0 <= k < n -> P k = true.
Proof using Type. rewrite forallb_forall. intros H Hk. apply H, list_elem_of_In, elem_of_seqZ. lia. Qed.

Lemma unmappedb_sound x : unmappedb x = true -> unmapped sb x.
Proof using Type. intros H b Hb. apply (forallb_seqZ _ _ b), negb_true_iff in H; [|done]. by apply Z.eqb_neq. Qed.

Definition spaceb : bool :=
  (0 <? sb_size sb) && (sb_size sb <? 2 ^ 31) && used sb v 0 &&
  forallb (fun b => loggableb (BBLOCK b sb) && blockb (BBLOCK b sb) &&
    (used sb v b || loggableb b && unmappedb b)) (seqZ 0 (sb_size sb)).

Lemma spaceb_sound : spaceb = true -> space start s sb v.
Proof using Hun.
  unfold spaceb. rewrite !andb_true_iff. intros [[[H1 H2] H3] H4]. zbool.
  assert (forall b, 0 <= b < sb_size sb -> loggableb (BBLOCK b sb) = true /\ blockb (BBLOCK b sb) = true /\
    (used sb v b = true \/ loggableb b = true /\ unmappedb b = true)) as H.
  { intros b Hb. apply (forallb_seqZ _ _ b) in H4; [|done].
    by rewrite !andb_true_iff, orb_true_iff, andb_true_iff in H4; destruct H4 as [[? ?] ?]. }
  split; [lia|done| |].
  - intros b Hb. destruct (H b Hb) as (H5 & H6 & _).
    split_and!; [by apply loggableb_sound|done|by apply blockb_sound].
  - intros b Hb Hu. destruct (H b Hb) as (_ & _ & [?|[H5 H6]]); [congruence|].
    apply loggableb_sound in H5. split_and!; [apply H5..|done|apply H5|by apply unmappedb_sound].
Qed.

Definition fblockb (x : Z) : bool :=
  (0 <? x) && (x <? sb_size sb) && used sb v x && loggableb x && blockb x && unmappedb x.

Lemma fblockb_sound x : fblockb x = true -> fblock start s sb v x.
Proof using Hun.
  unfold fblockb. rewrite !andb_true_iff. intros [[[[[H1 H2] H3] H4] H5] H6]. zbool.
  split; [lia|done|by apply loggableb_sound|done|by apply blockb_sound|by apply unmappedb_sound].
Qed.

Definition addr_at (dd : inode_data) (bn : Z) : Z := nth (Z.to_nat bn) (d_addrs dd) 0.

Definition fileb (dd : inode_data) : bool :=
  (length (d_addrs dd) =? 13)%nat && (ind_addr dd =? 0) && (0 <=? d_size dd) && (d_size dd <=? NDIRECT * BSIZE) &&
  forallb (fun bn => let x := addr_at dd bn in
    ((x =? 0) && (d_size dd <=? bn * BSIZE)) ||
    fblockb x && forallb (fun bn' => negb (x =? addr_at dd bn') || (bn =? bn')) (seqZ 0 NDIRECT)) (seqZ 0 NDIRECT).

Lemma faddr_direct dd bn : ind_addr dd = 0 -> faddr v dd bn = if bn <? NDIRECT then addr_at dd bn else 0.
Proof using Type. intros H. unfold faddr. by rewrite H. Qed.

Lemma fileb_sound dd : fileb dd = true -> file_ok start s sb v dd.
Proof using Hun.
  unfold fileb. rewrite !andb_true_iff, Nat.eqb_eq. intros [[[[H1 H2] H3] H4] H5]. zbool.
  assert (forall bn, 0 <= bn -> faddr v dd bn <> 0 -> bn < NDIRECT /\ fblockb (faddr v dd bn) = true /\
    forall bn', 0 <= bn' -> faddr v dd bn = faddr v dd bn' -> bn = bn') as H.
  { intros bn Hbn. rewrite faddr_direct by done. destruct (bn <? NDIRECT) eqn:E; [|done]. zbool. intros Hne.
    apply (forallb_seqZ _ _ bn) in H5; [|done]. cbv beta zeta in H5.
    rewrite (proj2 (Z.eqb_neq _ _) Hne) in H5. apply andb_true_iff in H5 as [H5 H6].
    split_and!; [done|done|]. intros bn' Hbn'. rewrite faddr_direct by done. destruct (bn' <? NDIRECT) eqn:E'; [|done].
    zbool. intros Eq. apply (forallb_seqZ _ _ bn') in H6; [|done]. cbv beta in H6.
    rewrite Eq, Z.eqb_refl in H6. by apply Z.eqb_eq in H6. }
  split; [done|done| | | |].
  - intros bn [Hbn _] Hne. destruct (H bn Hbn Hne) as (_ & Hb & _). split; [by apply fblockb_sound|congruence].
  - intros bn bn' [Hbn _] [Hbn' _] Hne. by apply (H bn Hbn Hne).
  - change (MAXFILE * BSIZE) with 274432. change (NDIRECT * BSIZE) with 12288 in H4. lia.
  - intros bn Hbn Hs. rewrite faddr_direct by done. assert (bn < NDIRECT) by (unfold BSIZE in *; nia).
    rewrite (proj2 (Z.ltb_lt bn NDIRECT)) by done. apply (forallb_seqZ _ _ bn) in H5; [|done]. cbv beta zeta in H5.
    intros E. rewrite E in H5. apply orb_true_iff in H5 as [H5|H5]; [zbool; lia|done].
Qed.

(** the block of the inode *)
Definition inode_blockb (ii : inode) (dd : inode_data) : bool :=
  let x := IBLOCK (i_inum ii) sb in
  (ind_addr dd =? 0) && negb (x =? 0) && used sb v x && unmappedb x && blockb x && loggableb x &&
  forallb (fun bn => negb (x =? addr_at dd bn)) (seqZ 0 NDIRECT).

Lemma inode_blockb_sound ii dd :
  inode_blockb ii dd = true -> inode_block start s sb ii v dd (default [] (v (IBLOCK (i_inum ii) sb))).
Proof using Hun.
  unfold inode_blockb. cbv zeta. rewrite !andb_true_iff. intros [[[[[[H1 H2] H3] H4] H5] H6] H7]. zbool.
  destruct (blockb_sound _ H5) as (bytes & Hb & Hl). rewrite Hb. split; [|done|done|by apply loggableb_sound|done].
  split; [done|congruence| |by apply unmappedb_sound]. intros bn [Hbn _]. rewrite faddr_direct by done.
  destruct (bn <? NDIRECT) eqn:E; [|done]. zbool. apply (forallb_seqZ _ _ bn), negb_true_iff, Z.eqb_neq in H7; [|done]. done.
Qed.

End Disk.

(** ** From the checkers to the hypotheses of the theorems *)

Definition umemb (s : kst) : bool :=
  forallb (fun '(x, o) => match as_bytes o, as_ptes o with None, None => true | _, _ => nonbufb s x end)
    (map_to_list (k_heap s)).

Lemma umemb_sound s : umemb s = true -> umem_apart s.
Proof.
  unfold umemb. rewrite forallb_forall. intros H x Hx. apply nonbufb_sound.
  destruct (k_heap s !! x) as [o|] eqn:E; cbn in Hx; [|by destruct Hx as [[? ?]|[? ?]]].
  specialize (H (x, o)). cbn in H. destruct (as_bytes o) eqn:E1, (as_ptes o) eqn:E2;
    try (apply H, list_elem_of_In, elem_of_map_to_list; done). by destruct Hx as [[? ?]|[? ?]].
Qed.

Section State.
Context (p : nat) (pr : proc) (start : Z) (s : kst) (sb : superblock).
Context (Hctx : ctxb p pr start s = true) (Hpr : k_procs s !! p = Some pr).

Lemma state_unused : all_bufs s unusedb = true.
Proof using Hctx. by apply andb_true_iff in Hctx as [_ ?]. Qed.

Lemma state_view x : bview s x = k_disk s !! x.
Proof using Hctx Hpr.
  destruct (fx_inv _ _ _ _ _ (ctxb_sound p pr start s Hctx Hpr)) as [l Hl].
  apply (unused_view s l x Hl state_unused).
Qed.

Lemma state_unblocked x : blocked s x = None.
Proof using Hctx. apply unused_refs, state_unused. Qed.

Lemma state_space : spaceb start s sb = true -> space start s sb (bview s).
Proof using Hctx Hpr.
  intros H. apply (space_agree start s s sb (fun x => k_disk s !! x)); [done|done|exact state_view|].
  apply spaceb_sound; [exact state_unblocked|done].
Qed.

Lemma state_on_file ip ii dd :
  k_sb s = sb -> k_itable s !! ip = Some ii -> i_dev ii = ROOTDEV -> i_data ii <> 0 ->
  k_heap s !! i_data ii = Some (PInode dd) ->
  nonbufb s (i_data ii) && umemb s && fileb start s sb dd = true -> on_file p pr start sb s [] ip ii dd.
Proof using Hctx Hpr.
  intros H1 H2 H3 H4 H5 H. rewrite !andb_true_iff in H. destruct H as [[H6 H7] H8].
  split; [by apply ctxb_sound|done..|by apply nonbufb_sound|done| |by apply umemb_sound].
  apply (file_ok_agree start s s sb (fun x => k_disk s !! x)); [done|done|exact state_view|].
  by apply fileb_sound; [exact state_unblocked|].
Qed.

Lemma state_inode_block ii dd :
  inode_blockb start s sb ii dd = true ->
  inode_block start s sb ii (bview s) dd (default [] (k_disk s !! IBLOCK (i_inum ii) sb)).
Proof using Hctx Hpr.
  intros H. destruct (inode_blockb_sound start s sb state_unblocked ii dd H) as [[I1 I2 I3 I4] I5 I6 I7 I8].
  split; [|by rewrite state_view|done|done|done]. split; [|done| |done].
  - intros Hr. rewrite (used_agree sb (fun x => k_disk s !! x)); [by apply I1|exact state_view].
  - intros bn Hbn. rewrite (faddr_agree (fun x => k_disk s !! x)); [by apply I3|exact state_view].
Qed.

End State.

(** ** The file of the small machine *)

(** process 0 is in an operation and has the file locked; 1100 bytes on the stack *)
Definition open_demo : res kst nat :=
  (begin_op;; ip ← iget ROOTDEV 2; ilock ip;; mret ip) (idle_port 66 demo).
Definition fdata : list Z := replicate 1100 7.
Definition st_file : kst := set_k_kbuf (fun _ => fdata ++ replicate 1100 0) (state_of open_demo).
Definition fip : nat := value_of 0%nat open_demo.
Definition fii : inode := default zero_inode (k_itable st_file !! fip).
Definition fpr : proc := the_proc st_file 0.

Lemma file_ctxb : ctxb 0 fpr 2 st_file = true.
Proof. vm_compute. reflexivity. Qed.

Lemma file_proc : k_procs st_file !! 0%nat = Some fpr.
Proof. vm_compute. reflexivity. Qed.

Lemma file_ctx : fs_ctx 0 fpr 2 st_file [].
Proof. apply ctxb_sound; [exact file_ctxb|exact file_proc]. Qed.

Lemma file_space : space 2 st_file demo_sb (bview st_file).
Proof. apply (state_space 0 fpr); [exact file_ctxb|exact file_proc|]. vm_compute. reflexivity. Qed.

Lemma file_free : (20 < nfree st_file)%nat.
Proof. vm_compute. lia. Qed.

Lemma file_echo : echo_ready 66 (k_dev st_file).
Proof. apply echo_readyb_sound. vm_compute. reflexivity. Qed.

Lemma file_open : on_file 0 fpr 2 demo_sb st_file [] fip fii demo_file.
Proof.
  apply state_on_file; [exact file_ctxb|exact file_proc|vm_compute; reflexivity..|vm_compute; discriminate| |];
    vm_compute; reflexivity.
Qed.

Lemma balloc_takes_first_free_witness :
  exists b s', balloc ROOTDEV st_file = Ok b s' /\ exists bls', after_step 0 fpr 2 st_file s' bls'.
Proof.
  destruct (balloc_takes_first_free 0 fpr 2 demo_sb st_file []) as (b & s' & E & bls' & H & _).
  - exact file_ctx.
  - vm_compute. reflexivity.
  - exact file_space.
  - vm_compute. reflexivity.
  - pose proof file_free. lia.
  - exact file_echo.
  - exists b, s'. split; [exact E|]. exists bls'. exact H.
Defined.

Lemma bfree_frees_witness : exists s', bfree ROOTDEV 48 st_file = Ok tt s' /\ used demo_sb (bview s') 48 = false.
Proof.
  assert (used demo_sb (bview st_file) 48 = true) as Hu by (vm_compute; reflexivity).
  assert (0 <= 48 < sb_size demo_sb) as Hb by (vm_compute; split; [discriminate|reflexivity]).
  pose proof (bfree_frees 0 fpr 2 demo_sb st_file [] 48 file_ctx eq_refl file_space Hb eq_refl
    ltac:(pose proof file_free; lia)) as H. rewrite Hu in H. destruct H as (s' & E & _ & H & _).
  exists s'. split; [exact E|]. rewrite (H 48 Hb). reflexivity.
Defined.

Lemma readi_reads_witness :
  exists s', readi fip (AStack 0) 2 10 st_file = Ok 4 s' /\
    stack_got 0 (k_kbuf st_file) [73; 71; 73; 78] (k_heap s') (k_kbuf s').
Proof.
  destruct (readi_reads 0 fpr 2 demo_sb st_file [] fip fii demo_file (AStack 0) 2 10
    (stack_got 0 (k_kbuf st_file))) as (s' & E & H & _).
  - exact file_open.
  - lia.
  - lia.
  - lia.
  - pose proof file_free. lia.
  - apply stack_sink; [lia|]. vm_compute. lia.
  - reflexivity.
  - exists s'. split; [exact E|]. exact H.
Defined.

Lemma file_can_write :
  can_write 0 fpr 2 demo_sb st_file [] fip fii demo_file (AStack 0) 6 fdata
    (default [] (k_disk st_file !! IBLOCK (i_inum fii) demo_sb)) (stack_has 0 fdata).
Proof.
  split; [exact file_open|exact file_space| |vm_compute; split; [discriminate|reflexivity]|by apply stack_source
    |vm_compute; reflexivity|exact file_echo|vm_compute; discriminate|].
  - apply (state_inode_block 0 fpr); [exact file_ctxb|exact file_proc|]. vm_compute. reflexivity.
  - pose proof file_free. assert (write_cost demo_sb 6 (Z.of_nat (length fdata)) = 5) as -> by (vm_compute; reflexivity). lia.
Qed.

Lemma writei_writes_witness :
  exists r s', writei fip (AStack 0) 6 1100 st_file = Ok r s' /\ 0 <= r <= 1100.
Proof.
  destruct (writei_writes 0 fpr 2 demo_sb st_file [] fip fii demo_file (AStack 0) 6 fdata _ _ file_can_write)
    as (r & s' & E & H & _). exists r, s'. split; [exact E|exact H].
Defined.

Lemma write_read_roundtrip_witness :
  exists r s', (k ← writei fip (AStack 0) 6 1100; j ← readi fip (AStack 1100) 6 k; mret (k, j)) st_file = Ok (r, r) s' /\
    stack_got 1100 (k_kbuf st_file) (slice 0 (Z.to_nat r) fdata) (k_heap s') (k_kbuf s').
Proof.
  destruct (write_read_roundtrip 0 fpr 2 demo_sb st_file [] fip fii demo_file (AStack 0) 6 fdata _ _
    (AStack 1100) (stack_got 1100 (k_kbuf st_file)) file_can_write) as (r & s' & E & H & _).
  - vm_compute. discriminate.
  - vm_compute. discriminate.
  - apply stack_sink; [lia|]. vm_compute. lia.
  - vm_compute. reflexivity.
  - exists r, s'. split; [exact E|exact H].
Defined.


(** ** The root directory, with a name for the file in its second entry *)

Definition root_block : list Z := pad (replicate 16 0 ++ new_entry (chars "f") 2).
Definition open_root : res kst nat :=
  (begin_op;; ip ← iget ROOTDEV ROOTINO; ilock ip;; mret ip)
    (set_k_disk (insert 47 root_block) (idle_port 66 demo)).
Definition st_dir : kst := set_k_kbuf (fun _ => replicate 16 0) (state_of open_root).
Definition dip : nat := value_of 0%nat open_root.
Definition dii : inode := default zero_inode (k_itable st_dir !! dip).
Definition dpr : proc := the_proc st_dir 0.

Lemma dir_ctxb : ctxb 0 dpr 2 st_dir = true.
Proof. vm_compute. reflexivity. Qed.

Lemma dir_proc : k_procs st_dir !! 0%nat = Some dpr.
Proof. vm_compute. reflexivity. Qed.

Lemma dir_open : on_dir 0 dpr 2 demo_sb st_dir [] dip dii demo_root.
Proof.
  split; [|split; reflexivity|vm_compute; lia|vm_compute; lia].
  apply state_on_file; [exact dir_ctxb|exact dir_proc|vm_compute; reflexivity..|vm_compute; discriminate| |];
    vm_compute; reflexivity.
Qed.

Lemma dir_can_link :
  can_link 0 dpr 2 demo_sb st_dir [] dip dii demo_root (default [] (k_disk st_dir !! IBLOCK (i_inum dii) demo_sb)).
Proof.
  split; [exact dir_open| | | |vm_compute; discriminate|vm_compute; lia|vm_compute; discriminate].
  - apply (state_space 0 dpr); [exact dir_ctxb|exact dir_proc|]. vm_compute. reflexivity.
  - apply (state_inode_block 0 dpr); [exact dir_ctxb|exact dir_proc|]. vm_compute. reflexivity.
  - apply echo_readyb_sound. vm_compute. reflexivity.
Qed.

Lemma dirlookup_finds_witness :
  exists s', forall jp s'', iget ROOTDEV 2 s' = Ok jp s'' -> dirlookup dip (chars "f") st_dir = Ok (Some (jp, 16)) s''.
Proof.
  destruct (dirlookup_finds 0 dpr 2 demo_sb st_dir [] dip dii demo_root (chars "f") dir_open) as (s' & _ & H).
  assert (list_find (has_name (chars "f")) (dentries (bview st_dir) demo_root) =
    Some (1%nat, decode_dirent (new_entry (chars "f") 2))) as E by (vm_compute; reflexivity).
  rewrite E in H. exists s'. exact H.
Defined.

Lemma dirlink_adds_witness :
  exists r s', dirlink dip (chars "g") 2 st_dir = Ok r s' /\ (r = -1 \/ r = 0).
Proof.
  destruct (dirlink_adds 0 dpr 2 demo_sb st_dir [] dip dii demo_root _ (chars "g") 2 dir_can_link)
    as (r & s' & E & H).
  - split; reflexivity.
  - vm_compute. reflexivity.
  - exists r, s'. split; [exact E|]. destruct H as [[-> _]|[-> _]]; [left|right]; reflexivity.
Defined.

Lemma itrunc_frees_witness : exists s', itrunc fip st_file = Ok tt s' /\ used demo_sb (bview s') 48 = false.
Proof.
  destruct (itrunc_frees 0 fpr 2 demo_sb st_file [] fip fii demo_file
    (default [] (k_disk st_file !! IBLOCK (i_inum fii) demo_sb))) as (s' & bls' & E & _ & T & _).
  - split; [exact file_open|exact file_space| |vm_compute; discriminate|pose proof file_free; vm_compute in *; lia].
    apply (state_inode_block 0 fpr); [exact file_ctxb|exact file_proc|]. vm_compute. reflexivity.
  - exists s'. split; [exact E|]. apply not_true_is_false. intros Hu.
    apply (tc_used _ _ _ _ _ _ _ _ T 48) in Hu; [|vm_compute; split; [discriminate|reflexivity]].
    destruct Hu as [_ Hn]. apply Hn. left. split; [discriminate|]. exists 0. split; [|reflexivity].
    vm_compute; split; [discriminate|reflexivity].
Defined.
