(* ===== verification/Ulib.v ===== *)
(** * User programs: the system call interface and the C library ([ulib.c],
      [printf.c])

    A user program is a tree of its system calls: [UCall c k] makes the call
    [c] and goes on with its answer, [UExit] does not return, [UDone] is a
    return of the function, and [UCut] is where an endless loop is cut off
    after the turns that are looked at.  Running it against the answers the kernel gives
    ([run_user]) yields the calls it makes.

    Strings and buffers that are variables of the program are passed by value;
    the calls whose names end in [_at] pass an address instead.  A load or a
    store at such an address is answered by the machine; when it faults, the
    kernel kills the process and there are no more answers. *)

From S2P Require Import Prelude Monad CString Types Printf.
From stdpp Require Import base numbers list strings.
From Stdlib Require Import ZArith Lia.

Open Scope Z_scope.

(** ** System calls *)

Inductive ucall :=
  | Uopen (path : list Z) (mode : Z)
  | Uclose (fd : Z)
  | Uread (fd n : Z)
  | Uwrite (fd : Z) (bytes : list Z)
  | Ufork
  | Uexec (path : list Z) (argv : list (list Z))
  | Uwait
  | Upipe
  | Udup (fd : Z)
  | Uchdir (path : list Z)
  | Ufstat (fd : Z)
  | Umknod (path : list Z) (major minor : Z)
  | Umkdir (path : list Z)
  | Uunlink (path : list Z)
  | Ulink (old new : list Z)
  | Ukill (pid : Z)
  | Ugetpid
  | Upause (n : Z)
  | Uuptime
  | Usbrk (n mode : Z)
  | Utxbegin
  | Utxcommit
  | Utxabort
  | Utxstatus
  (* calls with a pointer the program has computed *)
  | Uopen_at (path mode : Z)
  | Uread_at (fd addr n : Z)
  | Uwrite_at (fd addr n : Z)
  | Uunlink_at (path : Z)
  | Ulink_at (old new : list Z + Z)
  | Uexec_at (path : list Z + Z) (argv : list (list Z + Z))
  | Upipe_at (fdarray : Z)
  (* the program's own accesses to memory at an address it has computed *)
  | Uload (addr n : Z)
  | Uloadstr (addr : Z)
  | Ustore (addr : Z) (bytes : list Z).

#[export] Instance ucall_eq_dec : EqDecision ucall.
Proof. solve_decision. Defined.

(** the answer: the return value, and what the call stored in user memory *)
Record answer := Mk_answer { a_ret : Z; a_data : list Z }.

Inductive uprog (A : Type) :=
  | UDone (a : A)
  | UCall (c : ucall) (k : answer -> uprog A)
  | UExit (status : Z)
  | UCut.
Arguments UDone {A} a.
Arguments UCall {A} c k.
Arguments UExit {A} status.
Arguments UCut {A}.

#[export] Instance uprog_ret : MRet uprog := fun A a => UDone a.

Fixpoint uprog_bind_ {A B} (f : A -> uprog B) (m : uprog A) : uprog B :=
  match m with
  | UDone a => f a
  | UCall c k => UCall c (fun x => uprog_bind_ f (k x))
  | UExit n => UExit n
  | UCut => UCut
  end.

#[export] Instance uprog_bind : MBind uprog := fun A B f m => uprog_bind_ f m.

Definition ucall_ (c : ucall) : uprog answer := UCall c (fun x => UDone x).
Definition usys (c : ucall) : uprog Z := x ← ucall_ c; mret (a_ret x).
Definition uexit {A} (n : Z) : uprog A := UExit n.

(** the calls a program makes, given the answers of the kernel; it stops where
    the answers do *)
Fixpoint run_user {A} (m : uprog A) (answers : list answer) : list ucall :=
  match m with
  | UCall c k => c :: match answers with x :: l => run_user (k x) l | [] => [] end
  | _ => []
  end.

(** [while] loops of user programs *)
Fixpoint uloop {X A} (fuel : nat) (body : X -> uprog (X + A)) (x : X) : uprog (option A) :=
  match fuel with
  | O => UDone None
  | S fuel => r ← body x; match r with inl x => uloop fuel body x | inr a => UDone (Some a) end
  end.

(** loops that go on after [turns] turns, but are not looked at further *)
Definition uwhile {X A} (turns : nat) (body : X -> uprog (X + A)) (x : X) : uprog A :=
  r ← uloop turns body x; match r with Some a => mret a | None => UCut end.

Fixpoint urepeat (n : nat) (m : uprog unit) : uprog unit :=
  match n with O => mret tt | S n => m;; urepeat n m end.
Definition uforever {A} (turns : nat) (m : uprog unit) : uprog A := urepeat turns m;; UCut.

(** [for] loops over the elements of a list, and those that [break]: the body
    answers whether to go on, the loop whether it has come to its end *)
Fixpoint ueach {X} (f : X -> uprog unit) (l : list X) : uprog unit :=
  match l with [] => mret tt | x :: l => f x;; ueach f l end.
Fixpoint ueach_break {X} (f : X -> uprog bool) (l : list X) : uprog bool :=
  match l with
  | [] => mret true
  | x :: l => b ← f x; if (b : bool) then ueach_break f l else mret false
  end.

(** [for] loops that carry a variable *)
Fixpoint ufold {X S} (f : X -> S -> uprog S) (l : list X) (s : S) : uprog S :=
  match l with [] => mret s | x :: l => s ← f x s; ufold f l s end.

(** what calls store in variables of the program: [wait(&xstatus)], where the
    variable keeps its value when nothing is stored, [pipe(fds)], and
    [read(fd, buf, n)] into a buffer *)
Definition uwait (xstatus : Z) : uprog (Z * Z) :=
  x ← ucall_ Uwait;
  mret (a_ret x, match a_data x with [] => xstatus | l => s32 (le_value (take 4 l)) end).
Definition upipe : uprog (Z * (Z * Z)) :=
  x ← ucall_ Upipe;
  mret (a_ret x, (s32 (le_value (slice 0 4 (a_data x))), s32 (le_value (slice 4 4 (a_data x))))).
Definition uread (fd n : Z) (buf : list Z) : uprog (Z * list Z) :=
  x ← ucall_ (Uread fd n); mret (a_ret x, splice 0 (a_data x) buf).

Definition uwhen (b : bool) (m : uprog unit) : uprog unit := if b then m else mret tt.

(** a call whose result is not used *)
Definition udo (c : ucall) : uprog unit := ucall_ c;; mret tt.

(** ** ulib.c

    The names that [string.c] also has are prefixed by [u]. *)

(** the bytes [strcpy] stores, with the nul *)
Fixpoint strcpy (t : list Z) : list Z :=
  match t with
  | [] => [0]
  | c :: t => if c =? 0 then [0] else c :: strcpy t
  end.

Fixpoint strcmp (p q : list Z) : Z :=
  match p with
  | [] => 0 - ch q
  | c :: p' => if negb (c =? 0) && (c =? ch q) then strcmp p' (tail q) else c - ch q
  end.

(** [strchr]: the string from the first [c] on *)
Fixpoint strchr (s : list Z) (c : Z) : option (list Z) :=
  match s with
  | [] => None
  | x :: s' => if x =? 0 then None else if x =? c then Some s else strchr s' c
  end.

Definition is_digit (c : Z) : bool := (48 <=? c) && (c <=? 57).

Fixpoint atoi_loop (s : list Z) (n : Z) : Z :=
  match s with
  | [] => n
  | c :: s => if is_digit c then atoi_loop s (s32 (n * 10 + c - 48)) else n
  end.

Definition atoi (s : list Z) : Z := atoi_loop s 0.

(** this [memmove] copies upwards exactly when the source is above *)
Definition umemmove (m : list Z) (dst src n : nat) : list Z :=
  if (dst <? src)%nat then copy_up m dst src n else copy_down m dst src n.

Definition umemcmp : list Z -> list Z -> nat -> Z := memcmp.
Definition umemcpy (m : list Z) (dst src n : nat) : list Z := umemmove m dst src n.

(** [gets]: the characters stored before the nul *)
Definition ugets (max : Z) : uprog (list Z) :=
  r ← uloop (S (Z.to_nat max)) (fun buf =>
    if Z.of_nat (length buf) + 1 <? max then
      x ← ucall_ (Uread 0 1);
      if a_ret x <? 1 then mret (inr buf) else
      let c := ch (a_data x) in
      if (c =? 10) || (c =? 13) then mret (inr (buf ++ [c])) else mret (inl (buf ++ [c]))
    else mret (inr buf)) [];
  mret (default [] r).

(** [stat]: the result and the bytes of the [struct stat] *)
Definition ustat (n : list Z) : uprog (Z * list Z) :=
  fd ← usys (Uopen n O_RDONLY);
  if fd <? 0 then mret (-1, []) else
  x ← ucall_ (Ufstat fd);
  usys (Uclose fd);;
  mret (a_ret x, a_data x).

(** [sbrk] and [sbrklazy] give pointers *)
Definition SBRK_ERROR : Z := u64 (-1).
Definition usbrk (n : Z) : uprog Z := r ← usys (Usbrk (s32 n) SBRK_EAGER); mret (u64 r).
Definition usbrklazy (n : Z) : uprog Z := r ← usys (Usbrk (s32 n) SBRK_LAZY); mret (u64 r).

(** [start]: the wrapper around [main] *)
Definition ustart (main : uprog Z) : uprog unit := r ← main; uexit r.

(** * Formatted output ([user/printf.c])

    [vformat] is the state machine of [vprintf] over the format string: the
    characters it passes to [putc], in order, and [None] where an argument
    that was not passed would be fetched. *)

Definition udigits : list Z := chars "0123456789ABCDEF".

Fixpoint udigit_loop (fuel : nat) (x base : Z) : list Z :=
  match fuel with
  | O => []
  | S fuel =>
      nth (Z.to_nat (x mod base)) udigits 0 ::
      (if x / base =? 0 then [] else udigit_loop fuel (x / base) base)
  end.

Definition uprintint (xx base : Z) (sgn : bool) : list Z :=
  let xx := s64 xx in
  let neg := sgn && (xx <? 0) in
  let x := u64 (if neg then - xx else xx) in
  rev (udigit_loop 64 x base ++ (if neg then [45] else [])).

Definition uprintptr (x : Z) : list Z :=
  48 :: 120 ::
  map (fun i => nth (Z.to_nat (Z.shiftr (u64 (Z.shiftl x (4 * i))) 60)) udigits 0) (seqZ 0 16).

(** [percent] is the state after a [%] *)
Fixpoint vformat (fmt : list Z) (percent : bool) (ap : list parg) : option (list Z) :=
  match fmt with
  | [] => Some []
  | c0 :: f1 =>
      if c0 =? 0 then Some []
      else if negb percent then
        if c0 =? 37 then vformat f1 true ap else (cons c0) <$> vformat f1 false ap
      else
        let c1 := ch f1 in
        let c2 := if c1 =? 0 then 0 else ch (tail f1) in
        let num (conv : Z -> list Z) (rest : list parg -> option (list Z)) :=
          match ap with ANum x :: ap => (app (conv x)) <$> rest ap | _ => None end in
        let skip1 ap := match f1 with _ :: f2 => vformat f2 false ap | [] => Some [] end in
        let skip2 ap := match f1 with _ :: _ :: f3 => vformat f3 false ap | _ => Some [] end in
        if c0 =? 100 then num (fun x => uprintint (s32 x) 10 true) (vformat f1 false)
        else if (c0 =? 108) && (c1 =? 100) then num (fun x => uprintint x 10 true) skip1
        else if (c0 =? 108) && (c1 =? 108) && (c2 =? 100)
          then num (fun x => uprintint x 10 true) skip2
        else if c0 =? 117 then num (fun x => uprintint (u32 x) 10 false) (vformat f1 false)
        else if (c0 =? 108) && (c1 =? 117) then num (fun x => uprintint x 10 false) skip1
        else if (c0 =? 108) && (c1 =? 108) && (c2 =? 117)
          then num (fun x => uprintint x 10 false) skip2
        else if c0 =? 120 then num (fun x => uprintint (u32 x) 16 false) (vformat f1 false)
        else if (c0 =? 108) && (c1 =? 120) then num (fun x => uprintint x 16 false) skip1
        else if (c0 =? 108) && (c1 =? 108) && (c2 =? 120)
          then num (fun x => uprintint x 16 false) skip2
        else if c0 =? 112 then num uprintptr (vformat f1 false)
        else if c0 =? 99 then num (fun x => [u8 x]) (vformat f1 false)
        else if c0 =? 115 then
          match ap with
          | AStr s :: ap => (app (cstr (default (chars "(null)") s))) <$> vformat f1 false ap
          | _ => None
          end
        else if c0 =? 37 then (cons 37) <$> vformat f1 false ap
        else (fun l => 37 :: c0 :: l) <$> vformat f1 false ap
  end.

(** one [write] per character *)
Fixpoint put_chars (fd : Z) (l : list Z) : uprog unit :=
  match l with
  | [] => mret tt
  | c :: l => usys (Uwrite fd [c]);; put_chars fd l
  end.

Definition fprintf (fd : Z) (fmt : list Z) (ap : list parg) : uprog unit :=
  put_chars fd (default [] (vformat fmt false ap)).

Definition uprintf (fmt : list Z) (ap : list parg) : uprog unit := fprintf 1 fmt ap.
