(* ===== verification/PrintFacts.v ===== *)
(** * Printed numbers

    What [printint] of the kernel and of the user library print, read back:
    the digits denote the number, and the conversion never needs more than the
    twenty characters of its buffer.  [atoi] reads what [printf] prints. *)

From S2P Require Import Prelude Monad CString Types Kernel Uart Printf Ulib.
From stdpp Require Import base numbers list strings.
From Stdlib Require Import ZArith Lia.

Open Scope Z_scope.

(** ** Reading a printed number *)

Definition digit_val (c : Z) : Z :=
  if (48 <=? c) && (c <=? 57) then c - 48
  else if (97 <=? c) && (c <=? 102) then c - 87
  else if (65 <=? c) && (c <=? 70) then c - 55
  else -1.

Definition read_num (base : Z) (l : list Z) : Z :=
  foldl (fun n c => n * base + digit_val c) 0 l.

Definition read_int (base : Z) (l : list Z) : Z :=
  match l with
  | c :: r => if decide (c = 45) then - read_num base r else read_num base l
  | [] => 0
  end.

(** the remainders the conversion loop goes through, the last digit first *)
Fixpoint residues (fuel : nat) (x base : Z) : list Z :=
  match fuel with
  | O => []
  | S fuel => x mod base :: (if x / base =? 0 then [] else residues fuel (x / base) base)
  end.

Lemma digit_loop_residues fuel x base :
  digit_loop fuel x base = map (fun d => nth (Z.to_nat d) digits 0) (residues fuel x base).
Proof.
  revert x. induction fuel as [|fuel IH]; intros x; [done|]. cbn [digit_loop residues map]. f_equal.
  destruct (x / base =? 0); [done|apply IH].
Qed.

Lemma udigit_loop_residues fuel x base :
  udigit_loop fuel x base = map (fun d => nth (Z.to_nat d) udigits 0) (residues fuel x base).
Proof.
  revert x. induction fuel as [|fuel IH]; intros x; [done|]. cbn [udigit_loop residues map]. f_equal.
  destruct (x / base =? 0); [done|apply IH].
Qed.

Lemma residues_range fuel x base : 0 < base -> Forall (fun d => 0 <= d < base) (residues fuel x base).
Proof.
  intros Hb. revert x. induction fuel as [|fuel IH]; intros x; simpl; [constructor|].
  constructor; [by apply Z.mod_pos_bound|]. destruct (x / base =? 0); [constructor|apply IH].
Qed.

(** [k] digits are enough below [base ^ k] *)
Lemma residues_length fuel x base k :
  1 < base -> (0 < k)%nat -> 0 <= x < base ^ Z.of_nat k -> (length (residues fuel x base) <= k)%nat.
Proof.
  intros Hb. revert x k. induction fuel as [|fuel IH]; intros x k Hk Hx; simpl; [lia|].
  destruct (x / base =? 0) eqn:E; simpl; zbool; [lia|].
  destruct k as [|[|k]]; [lia| |].
  - exfalso. apply E. apply Z.div_small. change (Z.of_nat 1) with 1 in Hx. lia.
  - apply le_n_S, IH; [lia|]. split; [apply Z.div_pos; lia|]. apply Z.div_lt_upper_bound; [lia|].
    rewrite <- Z.pow_succ_r, <- Nat2Z.inj_succ by lia. apply Hx.
Qed.

Lemma residues_value fuel x base :
  1 < base -> 0 <= x < base ^ Z.of_nat fuel ->
  foldr (fun d n => n * base + d) 0 (residues fuel x base) = x.
Proof.
  intros Hb. revert x. induction fuel as [|fuel IH]; intros x Hx.
  { change (base ^ Z.of_nat 0) with 1 in Hx. simpl. lia. }
  simpl. pose proof (Z.div_mod x base ltac:(lia)).
  destruct (x / base =? 0) eqn:E; simpl; zbool; [lia|].
  rewrite IH; [lia|]. split; [apply Z.div_pos; lia|]. apply Z.div_lt_upper_bound; [lia|].
  rewrite <- Z.pow_succ_r, <- Nat2Z.inj_succ by lia. apply Hx.
Qed.

(** ** A table of digits *)

Definition digit_table (ds : list Z) : Prop :=
  forall d, 0 <= d < 16 -> digit_val (nth (Z.to_nat d) ds 0) = d /\ nth (Z.to_nat d) ds 0 <> 45.

Lemma digit_table_check ds :
  forallb (fun d => (digit_val (nth d ds 0) =? Z.of_nat d) && negb (nth d ds 0 =? 45)) (seq 0 16) = true ->
  digit_table ds.
Proof.
  rewrite forallb_forall. intros H d Hd. specialize (H (Z.to_nat d)).
  rewrite in_seq in H. specialize (H ltac:(lia)). apply andb_true_iff in H as [H1 H2].
  apply negb_true_iff in H2. zbool. split; [lia|done].
Qed.

Lemma kernel_digits : digit_table digits.
Proof. by apply digit_table_check. Qed.

Lemma user_digits : digit_table udigits.
Proof. by apply digit_table_check. Qed.

Lemma read_num_rev ds base l :
  digit_table ds -> base <= 16 -> Forall (fun d => 0 <= d < base) l ->
  read_num base (rev (map (fun d => nth (Z.to_nat d) ds 0) l)) =
  foldr (fun d n => n * base + d) 0 l.
Proof.
  intros Ht Hb Hl. unfold read_num. induction Hl as [|d l Hd Hl IH]; [done|].
  cbn [map rev foldr]. rewrite foldl_app, IH. simpl. f_equal. apply Ht. lia.
Qed.

(** the whole conversion, for a table [ds] of digits *)
Definition convert (ds : list Z) (xx base : Z) (sign : bool) : list Z :=
  let neg := sign && (s64 xx <? 0) in
  map (fun d => nth (Z.to_nat d) ds 0) (residues 64 (u64 (if neg then - s64 xx else s64 xx)) base) ++
  (if neg then [45] else []).

Lemma u64_s64 xx : u64 (s64 xx) = u64 xx.
Proof.
  unfold wrap, swrap. rewrite Zminus_mod, Zmod_mod, <- Zminus_mod. f_equal. lia.
Qed.

Lemma read_int_digits ds base l :
  digit_table ds -> base <= 16 -> Forall (fun d => 0 <= d < base) l ->
  read_int base (rev (map (fun d => nth (Z.to_nat d) ds 0) l)) =
  read_num base (rev (map (fun d => nth (Z.to_nat d) ds 0) l)).
Proof.
  intros Ht Hb Hl. destruct (rev (map _ l)) as [|c r] eqn:E; [done|].
  simpl. rewrite decide_False; [done|]. intros ->.
  assert (Hin : In 45 (map (fun d => nth (Z.to_nat d) ds 0) l)).
  { apply in_rev. rewrite E. by left. }
  apply in_map_iff in Hin as (d & Hd & Hin). rewrite Forall_forall in Hl.
  destruct (Ht d) as [_ Hne]; [|done]. apply list_elem_of_In, Hl in Hin. lia.
Qed.

Lemma convert_spec ds xx base sign :
  digit_table ds -> base = 10 \/ base = 16 /\ sign = false ->
  (length (convert ds xx base sign) <= 20)%nat /\
  read_int base (rev (convert ds xx base sign)) = if sign then s64 xx else u64 xx.
Proof.
  intros Ht Hb. pose proof (swrap_range 64 xx ltac:(lia)) as Hs.
  change (2 ^ (64 - 1)) with 9223372036854775808 in Hs.
  assert (Hb' : 1 < base <= 16) by lia.
  assert (Hval : forall x, 0 <= x < 2 ^ 64 ->
    read_num base (rev (map (fun d => nth (Z.to_nat d) ds 0) (residues 64 x base))) = x).
  { intros x Hx. rewrite read_num_rev by (auto using residues_range with lia).
    apply residues_value; [lia|]. split; [lia|]. apply Z.lt_le_trans with (2 ^ 64); [lia|].
    apply Z.pow_le_mono_l. lia. }
  unfold convert. destruct (sign && (s64 xx <? 0)) eqn:En.
  - apply andb_true_iff in En as [-> En]. zbool. destruct Hb as [->|[_ ?]]; [|done].
    rewrite wrap_small by (change (2 ^ 64) with 18446744073709551616; lia).
    rewrite rev_app_distr. simpl rev at 1. cbn [app read_int]. rewrite decide_True by done.
    rewrite Hval by (change (2 ^ 64) with 18446744073709551616; lia). split; [|lia].
    rewrite length_app, length_map. simpl (length [_]).
    enough (length (residues 64 (- s64 xx) 10) <= 19)%nat by lia.
    apply residues_length; [lia..|]. change (10 ^ Z.of_nat 19) with 10000000000000000000. lia.
  - rewrite app_nil_r, read_int_digits, Hval by (auto using residues_range, wrap_range with lia).
    rewrite u64_s64. split.
    + rewrite length_map. apply residues_length; [lia..|].
      pose proof (wrap_range 64 xx ltac:(lia)). split; [lia|].
      apply Z.lt_le_trans with (2 ^ 64); [lia|]. destruct Hb as [->|[-> _]]; by apply Z.leb_le.
    + destruct sign; [|done]. simpl in En. zbool. rewrite <- u64_s64. apply wrap_small.
      change (2 ^ 64) with 18446744073709551616. lia.
Qed.

(** The kernel's [printint] never writes past its [char buf[20]], and what
    it prints reads back, with its sign, as the number it was given. *)
Theorem printint_correct xx base sign :
  base = 10 \/ base = 16 /\ sign = false ->
  (length (printint_buf xx base sign) <= 20)%nat /\
  read_int base (printint xx base sign) = if sign then s64 xx else u64 xx.
Proof.
  intros Hb. unfold printint.
  replace (printint_buf xx base sign) with (convert digits xx base sign).
  - apply convert_spec; [apply kernel_digits|done].
  - unfold printint_buf, convert. cbv zeta. by rewrite digit_loop_residues.
Qed.

(** ** [atoi] *)

Lemma foldl_digits_mono l n m : 0 <= n <= m -> n <= foldl (fun n c => n * 10 + digit_val c) m l \/ Exists (fun c => digit_val c < 0) l.
Proof.
  revert m. induction l as [|c l IH]; intros m H; simpl; [by left; lia|].
  destruct (decide (digit_val c < 0)); [right; by constructor|].
  destruct (IH (m * 10 + digit_val c)) as [?|?]; [lia|by left|right; by constructor].
Qed.

Lemma atoi_loop_value l n :
  0 <= n -> Forall (fun c => is_digit c = true) l ->
  foldl (fun n c => n * 10 + digit_val c) n l < 2 ^ 31 ->
  atoi_loop l n = foldl (fun n c => n * 10 + digit_val c) n l.
Proof.
  intros Hn Hl. revert n Hn. induction Hl as [|c l Hc Hl IH]; intros n Hn Hlt; [done|].
  simpl in *. rewrite Hc. unfold is_digit in Hc.
  assert (Hv : digit_val c = c - 48) by (unfold digit_val; by rewrite Hc).
  apply andb_true_iff in Hc as [? ?]. zbool. rewrite Hv in *.
  assert (Hle : n * 10 + (c - 48) <= foldl (fun n c => n * 10 + digit_val c) (n * 10 + (c - 48)) l).
  { destruct (foldl_digits_mono l (n * 10 + (c - 48)) (n * 10 + (c - 48))) as [?|He]; [lia|done|].
    apply Exists_exists in He as (d & Hin & Hd). rewrite Forall_forall in Hl. apply Hl in Hin.
    unfold digit_val in Hd. unfold is_digit in Hin. rewrite Hin in Hd.
    apply andb_true_iff in Hin as [? ?]. zbool. lia. }
  rewrite swrap_small by (change (2 ^ (32 - 1)) with (2 ^ 31); lia).
  replace (n * 10 + c - 48) with (n * 10 + (c - 48)) by lia. apply IH; lia.
Qed.

(** [atoi] reads back what the user library's [printf] prints for [%d]:
    for a number that is not negative, [atoi] of the digits is the number. *)
Theorem atoi_printint x : 0 <= x < 2 ^ 31 -> atoi (uprintint x 10 true) = x.
Proof.
  intros Hx. assert (Hs : s64 x = x).
  { apply swrap_small; [lia|]. change (2 ^ (64 - 1)) with 9223372036854775808.
    change (2 ^ 31) with 2147483648 in Hx. lia. }
  assert (Hu : uprintint x 10 true = rev (convert udigits x 10 true)).
  { unfold uprintint, convert. cbv zeta. by rewrite udigit_loop_residues. }
  destruct (convert_spec udigits x 10 true user_digits (or_introl eq_refl)) as [_ Hr].
  rewrite Hu. unfold convert in *. rewrite Hs in *.
  rewrite (proj2 (Z.ltb_ge x 0)), andb_false_r, app_nil_r in * by lia.
  assert (Hf := residues_range 64 (u64 x) 10 ltac:(lia)).
  rewrite read_int_digits in Hr by (auto using user_digits with lia).
  etrans; [|exact Hr]. apply atoi_loop_value; [lia| |unfold read_num in Hr; lia].
  apply Forall_rev, Forall_fmap. eapply Forall_impl; [exact Hf|]. intros d Hd.
  change (is_digit (nth (Z.to_nat d) udigits 0) = true). cbv beta in Hd.
  revert Hd. clear. intros Hd. pose proof (user_digits d ltac:(lia)) as [Hv _].
  unfold is_digit. unfold digit_val in Hv. generalize dependent (nth (Z.to_nat d) udigits 0).
  intros c Hv. destruct ((48 <=? c) && (c <=? 57)); [done|].
  repeat case_match; rewrite ?andb_true_iff in *; zbool; lia.
Qed.
