(* ===== verification/Sh.v ===== *)
(** * The shell ([sh.c])

    The parser works on positions in the line, as the C code works on pointers
    into it.  A parsing function of type [P] goes from a position to a result
    and a new position, or stops in [panic].  The node that [execcmd] allocates
    is filled while [parseredirs] already wraps it; here the redirections are
    collected and wrapped around the finished node. *)

From S2P Require Import Prelude Monad CString Types Printf Ulib.
From stdpp Require Import base numbers list strings.
From Stdlib Require Import ZArith Lia.

Open Scope Z_scope.

Definition MAXARGS : nat := 10.

(** a redirection: the extent of the file name, the mode and the descriptor *)
Record redir := Mk_redir { r_file : nat; r_efile : nat; r_mode : Z; r_fd : Z }.

Inductive cmd :=
  | EXEC (argv : list (nat * nat))
  | REDIR (c : cmd) (r : redir)
  | PIPE (left right : cmd)
  | LIST (left right : cmd)
  | BACK (c : cmd).

(** ** Parsing results *)

Inductive pres (A : Type) := POk (a : A) (s : nat) | PErr (msg : string) | PFuel.
Arguments POk {A} a s.
Arguments PErr {A} msg.
Arguments PFuel {A}.

Definition P (A : Type) : Type := nat -> pres A.

#[export] Instance P_ret : MRet P := fun A a s => POk a s.
#[export] Instance P_bind : MBind P := fun A B f m s =>
  match m s with
  | POk a s => f a s
  | PErr msg => PErr msg
  | PFuel => PFuel
  end.

Definition perr {A} (msg : string) : P A := fun _ => PErr msg.
Definition pfuel {A} : P A := fun _ => PFuel.

(** ** Tokens *)

Definition whitespace : list Z := [32; 9; 13; 10; 11].
Definition symbols : list Z := chars "<|>&;()".

Definition in_set (set : list Z) (c : Z) : bool := bool_decide (is_Some (strchr set c)).

Definition word_char (c : Z) : bool := negb (in_set whitespace c) && negb (in_set symbols c).

Section Parser.
Context (b : list Z) (es : nat).

Definition char_at (s : nat) : Z := nth s b 0.

(** [while (s < es && test) s++] *)
Fixpoint skip_while (test : Z -> bool) (n s : nat) : nat :=
  match n with
  | O => s
  | S n => if test (char_at s) then skip_while test n (S s) else s
  end.

Definition skip_ws (s : nat) : nat := skip_while (in_set whitespace) (es - s) s.
Definition skip_word (s : nat) : nat := skip_while word_char (es - s) s.

(** [gettoken]: the token, its extent, and the position after it *)
Definition gettoken : P (Z * nat * nat) := fun s =>
  let q := skip_ws s in
  let c := char_at q in
  let '(ret, eq) :=
    if c =? 0 then (c, q)
    else if (c =? 124) || (c =? 40) || (c =? 41) || (c =? 59) || (c =? 38) || (c =? 60)
      then (c, S q)
    else if c =? 62 then if char_at (S q) =? 62 then (43, S (S q)) else (c, S q)
    else (97, skip_word q) in
  POk (ret, q, eq) (skip_ws eq).

Definition peek (toks : list Z) : P bool := fun s =>
  let s := skip_ws s in
  POk (negb (char_at s =? 0) && in_set toks (char_at s)) s.

(** ** The grammar *)

(** every turn of a loop takes a token, so the length of the line is fuel
    enough *)
Fixpoint redirs (n : nat) : P (list redir) :=
  match n with
  | O => pfuel
  | S n =>
      m ← peek (chars "<>");
      if negb m then mret [] else
      t ← gettoken;
      u ← gettoken;
      let '(tok, q, eq) := u in
      if negb (tok =? 97) then perr "missing file for redirection" else
      let r :=
        if t.1.1 =? 60 then Mk_redir q eq O_RDONLY 0
        else if t.1.1 =? 62 then Mk_redir q eq (Z.lor (Z.lor O_WRONLY O_CREATE) O_TRUNC) 1
        else Mk_redir q eq (Z.lor O_WRONLY O_CREATE) 1 in
      rs ← redirs n;
      mret (r :: rs)
  end.

Definition parseredirs (c : cmd) : P cmd := rs ← redirs (S es); mret (foldl REDIR c rs).

(** the argument loop of [parseexec]; [argc] is at most [MAXARGS] *)
Fixpoint parseargs (n : nat) (argv : list (nat * nat)) (rs : list redir) : P cmd :=
  match n with
  | O => pfuel
  | S n =>
      m ← peek (chars "|)&;");
      if (m : bool) then mret (foldl REDIR (EXEC argv) rs) else
      t ← gettoken;
      let '(tok, q, eq) := t in
      if tok =? 0 then mret (foldl REDIR (EXEC argv) rs) else
      if negb (tok =? 97) then perr "syntax" else
      let argv := argv ++ [(q, eq)] in
      if (MAXARGS <=? length argv)%nat then perr "too many args" else
      rs' ← redirs (S es);
      parseargs n argv (rs ++ rs')
  end.

(** [while (peek(ps, es, "&"))] of [parseline] *)
Fixpoint parseback (n : nat) (c : cmd) : P cmd :=
  match n with
  | O => pfuel
  | S n =>
      m ← peek (chars "&");
      if (m : bool) then gettoken;; parseback n (BACK c) else mret c
  end.

Fixpoint parseline (n : nat) : P cmd :=
  match n with
  | O => pfuel
  | S n =>
      c ← parsepipe n;
      c ← parseback (S es) c;
      m ← peek (chars ";");
      if (m : bool) then gettoken;; r ← parseline n; mret (LIST c r) else mret c
  end
with parsepipe (n : nat) : P cmd :=
  match n with
  | O => pfuel
  | S n =>
      c ← parseexec n;
      m ← peek (chars "|");
      if (m : bool) then gettoken;; r ← parsepipe n; mret (PIPE c r) else mret c
  end
with parseexec (n : nat) : P cmd :=
  match n with
  | O => pfuel
  | S n =>
      m ← peek (chars "(");
      if (m : bool) then parseblock n else
      rs ← redirs (S es);
      parseargs (S MAXARGS) [] rs
  end
with parseblock (n : nat) : P cmd :=
  match n with
  | O => pfuel
  | S n =>
      m ← peek (chars "(");
      if negb m then perr "parseblock" else
      gettoken;;
      c ← parseline n;
      m ← peek (chars ")");
      if negb m then perr "syntax - missing )" else
      gettoken;;
      parseredirs c
  end.

(** a bracket or a semicolon takes at most four nested calls *)
Definition parse_fuel : nat := 4 * (es + 1).

End Parser.

(** ** Nul-termination *)

Fixpoint nulterminate (c : cmd) (b : list Z) : list Z :=
  match c with
  | EXEC argv => foldl (fun b a => <[a.2 := 0]> b) b argv
  | REDIR c r => <[r_efile r := 0]> (nulterminate c b)
  | PIPE l r | LIST l r => nulterminate r (nulterminate l b)
  | BACK c => nulterminate c b
  end.

(** the calls of [parsecmd] that parse: the tree, and where they stop *)
Definition parse_line (s : list Z) : pres cmd :=
  let es := Z.to_nat (strlen s) in
  (c ← parseline s es (parse_fuel es); _ ← peek s es []; mret c) O.

(** ** Running *)

(** [panic] of the shell *)
Definition sh_panic {A} (s : list Z) : uprog A :=
  fprintf 2 (chars "%s" ++ [10]) [AStr (Some s)];; uexit 1.

Definition fork1 : uprog Z :=
  pid ← usys Ufork;
  if pid =? -1 then sh_panic (chars "fork") else mret pid.

(** [parsecmd]: the tree and the line with its strings terminated.  (The case
    [PFuel] does not arise.) *)
Definition parsecmd (s : list Z) : uprog (cmd * list Z) :=
  match parse_line s with
  | POk c pos =>
      if negb (pos =? Z.to_nat (strlen s))%nat then
        fprintf 2 (chars "leftovers: %s" ++ [10]) [AStr (Some (drop pos s))];;
        sh_panic (chars "syntax")
      else mret (c, nulterminate c s)
  | PErr msg => sh_panic (chars msg)
  | PFuel => uexit 0
  end.

(** a string of the line *)
Definition str_at (b : list Z) (q : nat) : list Z := cstr (drop q b).

(** [runcmd] does not return; the answer to [pipe] holds the two descriptors *)
Fixpoint runcmd (b : list Z) (c : cmd) : uprog unit :=
  match c with
  | EXEC argv =>
      match argv with
      | [] => uexit 1
      | (q, _) :: _ =>
          usys (Uexec (str_at b q) (map (fun a => str_at b a.1) argv));;
          fprintf 2 (chars "exec %s failed" ++ [10]) [AStr (Some (str_at b q))];;
          uexit 0
      end
  | REDIR c r =>
      usys (Uclose (r_fd r));;
      fd ← usys (Uopen (str_at b (r_file r)) (r_mode r));
      if fd <? 0 then
        fprintf 2 (chars "open %s failed" ++ [10]) [AStr (Some (str_at b (r_file r)))];;
        uexit 1
      else runcmd b c
  | LIST l r =>
      pid ← fork1;
      if pid =? 0 then runcmd b l else
      usys Uwait;;
      runcmd b r
  | PIPE l r =>
      x ← ucall_ Upipe;
      if a_ret x <? 0 then sh_panic (chars "pipe") else
      let p0 := s32 (le_value (slice 0 4 (a_data x))) in
      let p1 := s32 (le_value (slice 4 4 (a_data x))) in
      pid ← fork1;
      if pid =? 0 then
        usys (Uclose 1);; usys (Udup p1);; usys (Uclose p0);; usys (Uclose p1);;
        runcmd b l
      else
        pid ← fork1;
        if pid =? 0 then
          usys (Uclose 0);; usys (Udup p0);; usys (Uclose p0);; usys (Uclose p1);;
          runcmd b r
        else
          usys (Uclose p0);; usys (Uclose p1);; usys Uwait;; usys Uwait;;
          uexit 0
  | BACK c =>
      pid ← fork1;
      if pid =? 0 then runcmd b c else uexit 0
  end.

(** [runcmd(parsecmd(cmd))] *)
Definition run_line (line : list Z) : uprog unit := r ← parsecmd line; runcmd r.2 r.1.

(** ** The main loop *)

Definition getcmd (nbuf : Z) : uprog (list Z) :=
  usys (Uwrite 2 (chars "$ "));; ugets nbuf.

(** the child that runs a line given after [tx] *)
Definition tx_child (line : list Z) : uprog unit :=
  r ← usys Utxbegin;
  if r <? 0 then fprintf 2 (chars "txbegin failed" ++ [10]) [];; uexit 1 else
  run_line line;;
  r ← usys Utxcommit;
  (if r <? 0 then
     fprintf 2 (chars "txcommit failed" ++ [10]) [];; usys Utxabort;; mret tt
   else mret tt);;
  uexit 0.

Definition skip_blanks : list Z -> list Z :=
  fix go l := match l with c :: l' => if (c =? 32) || (c =? 9) then go l' else l | [] => [] end.

(** one line of input *)
Definition sh_line (buf : list Z) : uprog unit :=
  let line := skip_blanks buf in
  if ch line =? 10 then mret tt else
  if bool_decide (take 3 line = chars "tx ") then
    pid ← fork1;
    if pid =? 0 then tx_child (drop 3 line) else
    usys Uwait;; mret tt
  else if bool_decide (take 3 line = chars "cd ") then
    let path := drop 3 (removelast (cstr line)) in
    r ← usys (Uchdir path);
    if r <? 0 then fprintf 2 (chars "cannot cd %s" ++ [10]) [AStr (Some path)] else mret tt
  else
    pid ← fork1;
    if pid =? 0 then run_line line else
    usys Uwait;; mret tt.

(** [main]: three descriptors, then at most [lines] lines of input *)
Definition sh_main (lines : nat) : uprog unit :=
  uloop 4 (fun _ : unit =>
    fd ← usys (Uopen (chars "console") O_RDWR);
    if fd <? 0 then mret (inr tt) else
    if 3 <=? fd then usys (Uclose fd);; mret (inr tt) else mret (inl tt)) tt;;
  uloop lines (fun _ : unit =>
    buf ← getcmd 100;
    if ch buf =? 0 then mret (inr tt) else
    sh_line buf;;
    mret (inl tt)) tt;;
  uexit 0.
