(* ===== verification/ShFacts.v ===== *)
(** * The shell: its parser terminates within the line, and what it runs

    The parser is shown total (the fuel of its functions is never used up),
    and everything in the tree it builds lies within the line.  The last part
    is about the commands given after [tx]. *)

From S2P Require Import Prelude Monad CString Types Printf Ulib Sh.
From stdpp Require Import base numbers list strings.
From Stdlib Require Import ZArith Lia.

Open Scope Z_scope.

(** ** Total correctness of parsing functions *)

(** [m] from [s] gives a result with [Q] or reports an error *)
Definition pwp {A} (m : P A) (Q : A -> nat -> Prop) (s : nat) : Prop :=
  match m s with
  | POk a s' => Q a s'
  | PErr _ => True
  | PFuel => False
  end.

Lemma pwp_bind {A B} (m : P A) (f : A -> P B) Q s :
  pwp m (fun a s' => pwp (f a) Q s') s -> pwp (m ≫= f) Q s.
Proof. unfold pwp. unfold mbind, P_bind. by destruct (m s). Qed.

Lemma pwp_mono {A} (m : P A) (Q Q' : A -> nat -> Prop) s :
  pwp m Q s -> (forall a s', Q a s' -> Q' a s') -> pwp m Q' s.
Proof. unfold pwp. destruct (m s); auto. Qed.

Lemma pwp_seq {A B} (m : P A) (f : A -> P B) Q R s :
  pwp m R s -> (forall a s', R a s' -> pwp (f a) Q s') -> pwp (m ≫= f) Q s.
Proof. intros H1 H2. apply pwp_bind. by eapply pwp_mono. Qed.

(** ** Trees within the line *)

(** the part of the line from [a.1] to [a.2] *)
Definition within (es : nat) (a : nat * nat) : Prop := (a.1 < a.2 <= es)%nat.

Fixpoint cmd_within (es : nat) (c : cmd) : Prop :=
  match c with
  | EXEC argv => Forall (within es) argv /\ (length argv < MAXARGS)%nat
  | REDIR c r => cmd_within es c /\ within es (r_file r, r_efile r)
  | PIPE l r | LIST l r => cmd_within es l /\ cmd_within es r
  | BACK c => cmd_within es c
  end.

Lemma redirs_within es c rs :
  cmd_within es c -> Forall (fun r => within es (r_file r, r_efile r)) rs ->
  cmd_within es (foldl REDIR c rs).
Proof. intros Hc Hrs. revert c Hc. induction Hrs; intros c Hc; simpl; [done|]. by apply IHHrs. Qed.

Section Parser.
Context (b : list Z) (es : nat).
Context (Hend : char_at b es = 0).

Lemma skip_while_bounds test n s :
  (s <= skip_while b test n s <= s + n)%nat.
Proof. revert s. induction n as [|n IH]; intros s; simpl; [lia|]. case_match; [|lia]. specialize (IH (S s)). lia. Qed.

Lemma skip_while_stop test n s :
  let s' := skip_while b test n s in s' = (s + n)%nat \/ test (char_at b s') = false.
Proof.
  revert s. induction n as [|n IH]; intros s; simpl; [left; lia|].
  destruct (test (char_at b s)) eqn:E; [|by right].
  destruct (IH (S s)) as [H|H]; [left; lia|by right].
Qed.

Lemma skip_ws_spec s :
  (s <= es)%nat ->
  let s' := skip_ws b es s in
  (s <= s' <= es)%nat /\ (char_at b s' <> 0 -> in_set whitespace (char_at b s') = false).
Proof.
  intros H. unfold skip_ws. cbv zeta. pose proof (skip_while_bounds (in_set whitespace) (es - s) s).
  split; [lia|]. intros Hc. destruct (skip_while_stop (in_set whitespace) (es - s) s) as [E|E]; [|done].
  rewrite E in Hc. replace (s + (es - s))%nat with es in Hc by lia. done.
Qed.

(** a character that is neither white space nor the end lies before the end *)
Lemma nonzero_before s : (s <= es)%nat -> char_at b s <> 0 -> (s < es)%nat.
Proof. intros H Hc. destruct (decide (s = es)) as [->|]; [done|lia]. Qed.

(** the characters [gettoken] does not single out make a word *)
Lemma is_word_char c :
  in_set whitespace c = false ->
  (c =? 124) || (c =? 40) || (c =? 41) || (c =? 59) || (c =? 38) || (c =? 60) = false ->
  (c =? 62) = false -> word_char c = true.
Proof.
  intros Hw H1 H2. unfold word_char. rewrite Hw. simpl. apply negb_true_iff.
  unfold in_set. apply bool_decide_false. change symbols with [60; 124; 62; 38; 59; 40; 41].
  rewrite !orb_false_iff, !Z.eqb_neq in H1. destruct H1 as (((((? & ?) & ?) & ?) & ?) & ?). zbool.
  cbn [strchr]. rewrite !(proj2 (Z.eqb_neq _ _)) by lia. by intros [? ?].
Qed.

Lemma gettoken_spec s :
  (s <= es)%nat ->
  pwp (gettoken b es) (fun '(tok, q, eq) s' =>
    (s <= q <= eq)%nat /\ (eq <= s' <= es)%nat /\ (tok <> 0 -> (q < eq)%nat)) s.
Proof.
  intros Hs. unfold gettoken, pwp.
  destruct (skip_ws_spec s Hs) as [Hq Hw]. set (q := skip_ws b es s) in *. cbv zeta.
  set (c := char_at b q) in *.
  assert (Hmain : forall tok eq, (q <= eq <= es)%nat -> (tok <> 0 -> (q < eq)%nat) ->
    (s <= q <= eq)%nat /\ (eq <= skip_ws b es eq <= es)%nat /\ (tok <> 0 -> (q < eq)%nat)).
  { intros tok eq He Ht. destruct (skip_ws_spec eq) as [? _]; [lia|]. split_and!; (done || lia). }
  destruct (c =? 0) eqn:E0; zbool.
  { rewrite E0. apply Hmain; [lia|done]. }
  assert (Hlt : (q < es)%nat) by (apply nonzero_before; [lia|done]).
  destruct ((c =? 124) || _ || _ || _ || _ || _) eqn:E1; [apply Hmain; lia|].
  destruct (c =? 62) eqn:E2.
  - destruct (char_at b (S q) =? 62) eqn:E3; [|apply Hmain; lia]. apply Z.eqb_eq in E3.
    assert (S q < es)%nat by (apply nonzero_before; [lia|by rewrite E3]). apply Hmain; lia.
  - pose proof (is_word_char c (Hw E0) E1 E2) as Hwc. unfold skip_word.
    destruct (es - q)%nat as [|k] eqn:Ek; [lia|]. cbn [skip_while]. fold c. rewrite Hwc.
    pose proof (skip_while_bounds word_char k (S q)). apply Hmain; lia.
Qed.

Lemma peek_spec toks s :
  (s <= es)%nat ->
  pwp (peek b es toks) (fun m s' =>
    (s <= s' <= es)%nat /\ (m = true -> char_at b (skip_ws b es s') <> 0)) s.
Proof.
  intros Hs. unfold peek, pwp. destruct (skip_ws_spec s Hs) as [Hq Hw].
  set (q := skip_ws b es s) in *. split; [lia|]. intros Hm. apply andb_true_iff in Hm as [Hc _].
  apply negb_true_iff in Hc. zbool.
  enough (skip_ws b es q = q) as -> by done.
  unfold skip_ws. destruct (es - q)%nat; [done|]. simpl. by rewrite Hw.
Qed.

(** a token that [peek] has seen moves the position *)
Lemma gettoken_advances s :
  (s <= es)%nat -> char_at b (skip_ws b es s) <> 0 ->
  pwp (gettoken b es) (fun _ s' => (s < s' <= es)%nat) s.
Proof.
  intros Hs Hc. pose proof (gettoken_spec s Hs) as H. unfold pwp in *.
  destruct (gettoken b es s) as [[[tok q] eq] s'| |] eqn:E; [|done..].
  enough (tok <> 0) by (destruct H as (? & ? & Hq); specialize (Hq ltac:(done)); lia).
  unfold gettoken in E. rewrite (proj2 (Z.eqb_neq _ _) Hc) in E. cbv zeta in E.
  repeat case_match; simplify_eq; done.
Qed.

(** after a successful [peek], [gettoken] and the rest *)
Lemma pwp_peek {B} toks (f : bool -> P B) Q s :
  (s <= es)%nat ->
  (forall m s', (s <= s' <= es)%nat -> (m = true -> char_at b (skip_ws b es s') <> 0) ->
    pwp (f m) Q s') ->
  pwp (peek b es toks ≫= f) Q s.
Proof. intros Hs H. eapply pwp_seq; [by apply peek_spec|]. intros m s' [? ?]. by apply H. Qed.

Lemma pwp_token {B} (f : Z * nat * nat -> P B) Q s :
  (s <= es)%nat -> char_at b (skip_ws b es s) <> 0 ->
  (forall t s', (s < s' <= es)%nat -> pwp (f t) Q s') -> pwp (gettoken b es ≫= f) Q s.
Proof. intros Hs Hc H. eapply pwp_seq; [by apply gettoken_advances|]. intros t s' ?. by apply H. Qed.

Lemma redirs_spec n s :
  (s <= es)%nat -> (es - s < n)%nat ->
  pwp (redirs b es n) (fun rs s' =>
    (s <= s' <= es)%nat /\ Forall (fun r => within es (r_file r, r_efile r)) rs) s.
Proof.
  revert s. induction n as [|n IH]; intros s Hs Hn; [lia|]. cbn [redirs].
  apply pwp_peek; [done|]. intros m s1 H1 Hm. destruct m; simpl; [|by split; [lia|]].
  apply pwp_token; [lia|auto|]. intros t s2 H2.
  eapply pwp_seq; [apply gettoken_spec; lia|]. intros [[tok q] eq] s3 (H3 & H4 & Htok).
  destruct (tok =? 97) eqn:E; simpl; [|done]. zbool.
  eapply pwp_seq; [apply IH; lia|]. intros rs s4 [H5 Hrs]. split; [lia|].
  constructor; [|done]. unfold within. specialize (Htok ltac:(lia)). repeat case_match; simpl; lia.
Qed.

Lemma parseargs_spec n argv rs s :
  (s <= es)%nat -> (MAXARGS < n + length argv)%nat -> (length argv < MAXARGS)%nat ->
  Forall (within es) argv -> Forall (fun r => within es (r_file r, r_efile r)) rs ->
  pwp (parseargs b es n argv rs) (fun c s' => (s <= s' <= es)%nat /\ cmd_within es c) s.
Proof.
  revert argv rs s. induction n as [|n IH]; intros argv rs s Hs Hn Hlen Ha Hr; [lia|]. cbn [parseargs].
  assert (Hret : forall s', (s <= s' <= es)%nat ->
    (s <= s' <= es)%nat /\ cmd_within es (foldl REDIR (EXEC argv) rs)).
  { intros s' ?. split; [done|]. by apply redirs_within. }
  apply pwp_peek; [done|]. intros m s1 H1 _. destruct m; [by apply Hret|].
  eapply pwp_seq; [apply gettoken_spec; lia|]. intros [[tok q] eq] s2 (H3 & H4 & Htok).
  destruct (tok =? 0) eqn:E0; [apply Hret; lia|]. zbool. specialize (Htok E0).
  destruct (tok =? 97); cbn [negb]; [|done].
  destruct (MAXARGS <=? length (argv ++ [(q, eq)]))%nat eqn:El; [done|]. apply Nat.leb_gt in El.
  rewrite length_app in El. simpl in El.
  eapply pwp_seq; [apply redirs_spec; lia|]. intros rs' s3 [H5 Hrs].
  eapply pwp_mono; [apply IH|].
  - lia.
  - rewrite length_app. simpl. lia.
  - rewrite length_app. simpl. lia.
  - apply Forall_app. split; [done|]. constructor; [|constructor]. unfold within. simpl. lia.
  - by apply Forall_app.
  - intros c s4 [? ?]. split; [lia|done].
Qed.

Lemma parseback_spec n c s :
  (s <= es)%nat -> (es - s < n)%nat -> cmd_within es c ->
  pwp (parseback b es n c) (fun c s' => (s <= s' <= es)%nat /\ cmd_within es c) s.
Proof.
  revert c s. induction n as [|n IH]; intros c s Hs Hn Hc; [lia|]. cbn [parseback].
  apply pwp_peek; [done|]. intros m s1 H1 Hm. destruct m; [|by split; [lia|]].
  apply pwp_token; [lia|auto|]. intros t s2 H2.
  eapply pwp_mono; [apply IH; [lia..|done]|]. intros c' s3 [? ?]. split; [lia|done].
Qed.

(** what each of the mutually recursive functions does with the fuel it has *)
Definition parses (p : nat -> P cmd) (extra : nat) (n : nat) : Prop :=
  forall s, (s <= es)%nat -> (4 * (es - s) + extra <= n)%nat ->
  pwp (p n) (fun c s' => (s <= s' <= es)%nat /\ cmd_within es c) s.

Lemma grammar_spec n :
  parses (parseline b es) 4 n /\ parses (parsepipe b es) 3 n /\
  parses (parseexec b es) 2 n /\ parses (parseblock b es) 1 n.
Proof.
  induction n as [|n (IHl & IHp & IHe & IHb)].
  { split_and!; intros s Hs Hn; lia. }
  split_and!; intros s Hs Hn.
  - cbn [parseline]. eapply pwp_seq; [apply IHp; lia|]. intros c1 s1 [H1 Hc1].
    eapply pwp_seq; [apply parseback_spec; [lia..|done]|]. intros c2 s2 [H2 Hc2].
    apply pwp_peek; [lia|]. intros m s3 H3 Hm. destruct m; [|by split; [lia|]].
    apply pwp_token; [lia|auto|]. intros t s4 H4.
    eapply pwp_seq; [apply IHl; lia|]. intros c5 s5 [H5 Hc5]. by split; [lia|].
  - cbn [parsepipe]. eapply pwp_seq; [apply IHe; lia|]. intros c1 s1 [H1 Hc1].
    apply pwp_peek; [lia|]. intros m s3 H3 Hm. destruct m; [|by split; [lia|]].
    apply pwp_token; [lia|auto|]. intros t s4 H4.
    eapply pwp_seq; [apply IHp; lia|]. intros c5 s5 [H5 Hc5]. by split; [lia|].
  - cbn [parseexec]. apply pwp_peek; [lia|]. intros m s1 H1 Hm. destruct m.
    { eapply pwp_mono; [apply IHb; lia|]. intros c s2 [? ?]. by split; [lia|]. }
    eapply pwp_seq; [apply redirs_spec; lia|]. intros rs s2 [H2 Hrs].
    eapply pwp_mono; [apply parseargs_spec|]; [lia|simpl; unfold MAXARGS; lia|simpl; unfold MAXARGS; lia|constructor|done|].
    intros c s3 [? ?]. by split; [lia|].
  - cbn [parseblock]. apply pwp_peek; [lia|]. intros m s1 H1 Hm. destruct m; simpl; [|done].
    apply pwp_token; [lia|auto|]. intros t s2 H2.
    eapply pwp_seq; [apply IHl; lia|]. intros c3 s3 [H3 Hc3].
    apply pwp_peek; [lia|]. intros m s4 H4 Hm4. destruct m; simpl; [|done].
    apply pwp_token; [lia|auto|]. intros t' s5 H5. unfold parseredirs.
    eapply pwp_seq; [apply redirs_spec; lia|]. intros rs s6 [H6 Hrs].
    split; [lia|]. by apply redirs_within.
Qed.
End Parser.

Lemma strlen_char s : char_at s (Z.to_nat (strlen s)) = 0.
Proof.
  unfold char_at. induction s as [|c s IH]; [done|]. simpl strlen. destruct (c =? 0) eqn:E; zbool; [done|].
  pose proof (strlen_cstr s). rewrite Z2Nat.inj_add, Nat.add_comm by lia. done.
Qed.

(** C38. The shell's parser terminates on every line, with a tree or an error:
    its recursion never runs away.  Every word and file name of the tree is a
    non-empty part of the line, so [nulterminate] writes only to the line and
    its terminator, and no command has more arguments than [argv] holds. *)
Theorem parse_line_total s :
  match parse_line s with
  | POk c pos => (pos <= Z.to_nat (strlen s))%nat /\ cmd_within (Z.to_nat (strlen s)) c
  | PErr _ => True
  | PFuel => False
  end.
Proof.
  set (es := Z.to_nat (strlen s)). pose proof (strlen_char s) as Hend. fold es in Hend.
  change (pwp (parseline s es (parse_fuel es) ≫= fun c => peek s es [] ≫= fun _ => mret c)
    (fun c pos => (pos <= es)%nat /\ cmd_within es c) O).
  destruct (grammar_spec s es Hend (parse_fuel es)) as (H & _).
  eapply pwp_seq; [apply H; unfold parse_fuel; lia|]. intros c s1 [H1 Hc].
  apply pwp_peek; [done|lia|]. intros m s2 H2 _. by split; [lia|].
Qed.

(** ** Commands after [tx] *)

(** every call of the program has [Pc], and if it returns, its value has [Q] *)
Inductive upost {A} (Pc : ucall -> Prop) (Q : A -> Prop) : uprog A -> Prop :=
| upost_done a : Q a -> upost Pc Q (UDone a)
| upost_call c k : Pc c -> (forall x, upost Pc Q (k x)) -> upost Pc Q (UCall c k)
| upost_exit n : upost Pc Q (UExit n)
| upost_cut : upost Pc Q UCut.

#[local] Hint Constructors upost : core.

Lemma upost_bind {A B} Pc (Q : A -> Prop) (R : B -> Prop) (m : uprog A) (f : A -> uprog B) :
  upost Pc Q m -> (forall a, Q a -> upost Pc R (f a)) -> upost Pc R (m ≫= f).
Proof. intros Hm Hf. induction Hm; cbn; auto. Qed.

Lemma upost_sys {B} (Pc : ucall -> Prop) (R : B -> Prop) c (f : Z -> uprog B) :
  Pc c -> (forall r, upost Pc R (f r)) -> upost Pc R (usys c ≫= f).
Proof. intros Hc Hf. cbn. auto. Qed.

Lemma upost_run {A} Pc (Q : A -> Prop) m answers :
  upost Pc Q m -> Forall Pc (run_user m answers).
Proof.
  intros Hm. revert answers. induction Hm; intros answers; simpl; [constructor| |constructor..].
  constructor; [done|]. destruct answers; auto.
Qed.

Section Calls.
Context (Pc : ucall -> Prop) (Hwrite : forall fd l, Pc (Uwrite fd l)).

Lemma fprintf_post {B} (R : B -> Prop) fd fmt ap (f : unit -> uprog B) :
  upost Pc R (f tt) -> upost Pc R (fprintf fd fmt ap ≫= f).
Proof.
  intros Hf. unfold fprintf. induction (default [] _) as [|c l IH]; simpl; [done|].
  cbn. auto.
Qed.

Lemma sh_panic_post {A} (R : A -> Prop) s : upost Pc R (sh_panic s).
Proof. apply fprintf_post. constructor. Qed.
End Calls.

(** the calls of [runcmd]: no transaction call is among them *)
Definition is_run_call (c : ucall) : Prop :=
  match c with Utxbegin | Utxcommit | Utxabort => False | _ => True end.

Lemma fork1_post {B} (R : B -> Prop) (f : Z -> uprog B) :
  (forall pid, upost is_run_call R (f pid)) -> upost is_run_call R (fork1 ≫= f).
Proof.
  intros Hf. unfold fork1. eapply (upost_bind _ (fun _ => True)); [|auto].
  apply upost_sys; [done|]. intros r. destruct (r =? -1); [|by constructor].
  by apply sh_panic_post.
Qed.

Lemma runcmd_post b c : upost is_run_call (fun _ => False) (runcmd b c).
Proof.
  induction c as [argv|c IH r|l IHl r IHr|l IHl r IHr|c IH]; cbn [runcmd].
  - destruct argv as [|[q e] argv]; [constructor|]. apply upost_sys; [done|]. intros _.
    apply fprintf_post; [done|constructor].
  - apply upost_sys; [done|]. intros _. apply upost_sys; [done|]. intros fd.
    destruct (fd <? 0); [|done]. apply fprintf_post; [done|constructor].
  - eapply (upost_bind _ (fun _ => True)); [by repeat constructor|]. intros x _.
    destruct (a_ret x <? 0).
    { by apply sh_panic_post. }
    cbv zeta. apply fork1_post. intros pid. destruct (pid =? 0).
    { do 4 (apply upost_sys; [done|]; intros ?). done. }
    apply fork1_post. intros pid'. destruct (pid' =? 0).
    { do 4 (apply upost_sys; [done|]; intros ?). done. }
    do 4 (apply upost_sys; [done|]; intros ?). constructor.
  - apply fork1_post. intros pid. destruct (pid =? 0); [done|]. by apply upost_sys.
  - apply fork1_post. intros pid. destruct (pid =? 0); [done|constructor].
Qed.

Lemma run_line_post line : upost is_run_call (fun _ => False) (run_line line).
Proof.
  unfold run_line. eapply (upost_bind _ (fun _ => True)); [|intros; apply runcmd_post].
  unfold parsecmd. destruct (parse_line line) as [c pos|msg|].
  - destruct (negb _); [|by constructor]. apply fprintf_post; [done|].
    by apply sh_panic_post.
  - by apply sh_panic_post.
  - constructor.
Qed.

(** C39. A command given to the shell after [tx] is never committed by the
    shell: [runcmd] does not return, so whatever the line and whatever the
    kernel answers, the child that begins the transaction makes no [txcommit]
    call. *)
Theorem tx_command_never_commits line answers :
  ~ In Utxcommit (run_user (tx_child line) answers).
Proof.
  enough (H : upost (fun c => c <> Utxcommit) (fun _ : unit => True) (tx_child line)).
  { intros Hin. apply (upost_run _ _ _ answers) in H. rewrite Forall_forall in H.
    by apply list_elem_of_In, H in Hin. }
  unfold tx_child. apply upost_sys; [done|]. intros r. destruct (r <? 0).
  { apply fprintf_post; [done|constructor]. }
  eapply (upost_bind _ (fun _ => False)); [|done].
  pose proof (run_line_post line) as H. revert H. generalize (run_line line).
  intros m Hm. induction Hm as [|c k Hc _ IH| |]; constructor; [done| |done].
  by intros ->.
Qed.
