(* ===== verification/Grep.v ===== *)
(** * Text utilities ([grep.c], [wc.c], [cat.c], [echo.c], [ls.c], [grind.c])

    The regular-expression matcher of [grep] and its line loop, the counters of
    [wc], and the smaller programs. *)

From S2P Require Import Prelude Monad CString Types Printf Ulib.
From stdpp Require Import base numbers list strings.
From Stdlib Require Import ZArith Lia.

Open Scope Z_scope.

(** ** The matcher

    [matchstar] calls [matchhere] with a shorter expression and itself with a
    shorter text, so it is a loop over the text inside the recursion over the
    expression. *)

Fixpoint matchstar_ (here : list Z -> bool) (c : Z) (text : list Z) : bool :=
  here text ||
  match text with
  | x :: text' =>
      if negb (x =? 0) && ((x =? c) || (c =? 46)) then matchstar_ here c text' else false
  | [] => false
  end.

(** fuel: the expression gets shorter with every nested call *)
Fixpoint matchhere_ (n : nat) (re text : list Z) : bool :=
  match n with
  | O => false
  | S n =>
      if ch re =? 0 then true
      else if ch (tail re) =? 42 then matchstar_ (matchhere_ n (tail (tail re))) (ch re) text
      else if (ch re =? 36) && (ch (tail re) =? 0) then ch text =? 0
      else if negb (ch text =? 0) && ((ch re =? 46) || (ch re =? ch text))
        then matchhere_ n (tail re) (tail text)
      else false
  end.

Definition matchhere (re text : list Z) : bool := matchhere_ (S (length re)) re text.
Definition matchstar (c : Z) (re text : list Z) : bool := matchstar_ (matchhere re) c text.

(** the [do ... while] loop of [match]: also at the end of the text *)
Fixpoint match_from (re text : list Z) : bool :=
  matchhere re text ||
  match text with
  | x :: text' => if x =? 0 then false else match_from re text'
  | [] => false
  end.

Definition match_ (re text : list Z) : bool :=
  if ch re =? 94 then matchhere (tail re) text else match_from re text.

(** ** grep *)

(** [strchr(p, '\n')]: the line and what follows the newline *)
Fixpoint split_line (p : list Z) : option (list Z * list Z) :=
  match p with
  | [] => None
  | c :: p =>
      if c =? 0 then None
      else if c =? 10 then Some ([], p)
      else (fun '(l, r) => (c :: l, r)) <$> split_line p
  end.

(** the loop over the lines of the buffer: what is written, and what is left.
    Each line is at least its newline *)
Fixpoint grep_lines (n : nat) (pattern p : list Z) : list (list Z) * list Z :=
  match n with
  | O => ([], p)
  | S n =>
      match split_line p with
      | None => ([], p)
      | Some (line, p) =>
          let '(out, rest) := grep_lines n pattern p in
          (if match_ pattern line then (line ++ [10]) :: out else out, rest)
      end
  end.

Fixpoint write_lines (fd : Z) (l : list (list Z)) : uprog unit :=
  match l with
  | [] => mret tt
  | x :: l => usys (Uwrite fd x);; write_lines fd l
  end.

(** [grep]: at most [reads] reads; the buffer holds 1023 characters and a nul *)
Definition grep (reads : nat) (pattern : list Z) (fd : Z) : uprog unit :=
  uloop reads (fun buf =>
    x ← ucall_ (Uread fd (1024 - Z.of_nat (length buf) - 1));
    if a_ret x <=? 0 then mret (inr tt) else
    let buf := buf ++ a_data x in
    let '(out, rest) := grep_lines (length buf) pattern buf in
    write_lines 1 out;;
    mret (inl rest)) [];;
  mret tt.

(** ** wc *)

Record counts := Mk_counts { n_l : Z; n_w : Z; n_c : Z; inword : bool }.

Definition wc_space : list Z := [32; 13; 9; 10; 11].

Definition wc_char (st : counts) (x : Z) : counts :=
  let l := if x =? 10 then n_l st + 1 else n_l st in
  if bool_decide (is_Some (strchr wc_space x)) then Mk_counts l (n_w st) (n_c st + 1) false
  else if negb (inword st) then Mk_counts l (n_w st + 1) (n_c st + 1) true
  else Mk_counts l (n_w st) (n_c st + 1) true.

Definition wc (reads : nat) (fd : Z) (name : list Z) : uprog unit :=
  r ← uloop reads (fun st =>
    x ← ucall_ (Uread fd 512);
    if a_ret x <=? 0 then mret (inr (st, a_ret x)) else
    mret (inl (foldl wc_char st (a_data x)))) (Mk_counts 0 0 0 false);
  match r with
  | None => mret tt
  | Some (st, n) =>
      if n <? 0 then uprintf (chars "wc: read error" ++ [10]) [];; uexit 1
      else uprintf (chars "%d %d %d %s" ++ [10])
             [ANum (n_l st); ANum (n_w st); ANum (n_c st); AStr (Some name)]
  end.

(** ** cat, echo *)

Definition cat (reads : nat) (fd : Z) : uprog unit :=
  r ← uloop reads (fun _ : unit =>
    x ← ucall_ (Uread fd 512);
    if a_ret x <=? 0 then mret (inr (a_ret x)) else
    n ← usys (Uwrite 1 (a_data x));
    if negb (n =? a_ret x) then fprintf 2 (chars "cat: write error" ++ [10]) [];; uexit 1
    else mret (inl tt)) tt;
  match r with
  | Some n =>
      if n <? 0 then fprintf 2 (chars "cat: read error" ++ [10]) [];; uexit 1 else mret tt
  | None => mret tt
  end.

(** the loop of [echo] over the arguments after the program name *)
Fixpoint echo_args (argv : list (list Z)) : uprog unit :=
  match argv with
  | [] => mret tt
  | a :: l =>
      usys (Uwrite 1 (cstr a));;
      usys (Uwrite 1 (match l with [] => [10] | _ => [32] end));;
      echo_args l
  end.

Definition echo_main (argv : list (list Z)) : uprog unit := echo_args (tail argv);; uexit 0.

(** ** ls *)

(** [fmtname]: the last element of the path, padded with blanks to [DIRSIZ] *)
Fixpoint after_slash (path name : list Z) : list Z :=
  match path with
  | [] => name
  | c :: p => after_slash p (if c =? 47 then p else name)
  end.

Definition fmtname (path : list Z) : list Z :=
  let p := after_slash (cstr path) (cstr path) in
  if DIRSIZ <=? strlen p then p
  else p ++ replicate (Z.to_nat (DIRSIZ - strlen p)) 32.

(** ** The random numbers of [grind.c] *)

(** [do_rand]: the new context, which is also the result *)
Definition do_rand (ctx : Z) : Z :=
  let x := ctx mod 0x7ffffffe + 1 in
  let hi := x / 127773 in
  let lo := x mod 127773 in
  let x := 16807 * lo - 2836 * hi in
  let x := if x <? 0 then x + 0x7fffffff else x in
  x - 1.
