(* ===== verification/GrepFacts.v ===== *)
(** * What the matcher of [grep] finds

    A pattern is read as a sequence of items with optional anchors, whose
    language is given by rules; [match_] decides whether the text has a
    segment in that language. *)

From S2P Require Import Prelude Monad CString Types Printf Ulib Grep.
From stdpp Require Import base numbers list strings.
From Stdlib Require Import ZArith Lia.

Open Scope Z_scope.

(** ** Patterns *)

(** one character, or any number of them; the character [.] stands for all *)
Inductive item := One (c : Z) | Many (c : Z).

Definition fits (c x : Z) : Prop := c = 46 \/ c = x.

Inductive lang : list item -> list Z -> Prop :=
| lang_nil : lang [] []
| lang_one c x items t : fits c x -> lang items t -> lang (One c :: items) (x :: t)
| lang_many c t1 items t : Forall (fits c) t1 -> lang items t -> lang (Many c :: items) (t1 ++ t).

(** the items of an expression, and whether it ends with the anchor [$] *)
Fixpoint parse_re (re : list Z) : list item * bool :=
  match re with
  | [] => ([], false)
  | c :: re1 =>
      match re1 with
      | [] => if decide (c = 36) then ([], true) else ([One c], false)
      | c1 :: re2 =>
          if decide (c1 = 42) then let '(its, e) := parse_re re2 in (Many c :: its, e)
          else let '(its, e) := parse_re re1 in (One c :: its, e)
      end
  end.

(** [re] matches a segment at the start of [text] *)
Definition matches_here (re text : list Z) : Prop :=
  exists mid post, text = mid ++ post /\ lang (parse_re re).1 mid /\
    ((parse_re re).2 = true -> post = []).

(** a segment anywhere, or at the start when the pattern begins with [^] *)
Definition matches (re text : list Z) : Prop :=
  match re with
  | 94 :: re => matches_here re text
  | _ => exists pre text', text = pre ++ text' /\ matches_here re text'
  end.

Notation nonul := (Forall (fun c : Z => c <> 0)).

Lemma fits_test c x : x <> 0 ->
  negb (x =? 0) && ((x =? c) || (c =? 46)) = true <-> fits c x.
Proof.
  intros Hx. unfold fits. rewrite andb_true_iff, orb_true_iff, negb_true_iff, !Z.eqb_eq, Z.eqb_neq.
  split; [intros [_ [->| ->]]|intros [->|<-]]; auto.
Qed.

(** ** The loop of [matchstar] *)

Lemma matchstar_spec here c text :
  nonul text ->
  matchstar_ here c text = true <->
  exists t1 t2, text = t1 ++ t2 /\ Forall (fits c) t1 /\ here t2 = true.
Proof.
  induction 1 as [|x text Hx Hn IH]; simpl; rewrite orb_true_iff.
  - split.
    + intros [H|]; [|done]. by exists [], [].
    + intros (t1 & t2 & E & _ & H). symmetry in E. apply app_eq_nil in E as [-> ->]. by left.
  - split.
    + intros [H|H]; [by exists [], (x :: text)|].
      destruct (negb (x =? 0) && ((x =? c) || (c =? 46))) eqn:E; [|done].
      apply fits_test in E; [|done]. apply IH in H as (t1 & t2 & -> & Hf & H).
      exists (x :: t1), t2. split_and!; [done|by constructor|done].
    + intros (t1 & t2 & E & Hf & H). destruct t1 as [|y t1]; simplify_list_eq; [by left|].
      right. apply Forall_cons in Hf as [Hy Hf].
      rewrite (proj2 (fits_test c y Hx) Hy). apply IH. eauto.
Qed.

(** ** [matchhere] *)

Lemma matches_star c re text :
  matches_here (c :: 42 :: re) text <->
  exists t1 t2, text = t1 ++ t2 /\ Forall (fits c) t1 /\ matches_here re t2.
Proof.
  unfold matches_here. cbn [parse_re]. rewrite decide_True by done.
  destruct (parse_re re) as [its e]. simpl. split.
  - intros (mid & post & -> & Hl & He). inversion Hl as [| |? t1 ? t ? Hl']; subst.
    exists t1, (t ++ post). rewrite app_assoc. eauto 8.
  - intros (t1 & t2 & -> & Hf & mid & post & -> & Hl & He).
    exists (t1 ++ mid), post. rewrite app_assoc. split_and!; [done|by constructor|done].
Qed.

Lemma matches_one c re text :
  ch re <> 42 -> ~ (c = 36 /\ re = []) ->
  matches_here (c :: re) text <->
  exists x text', text = x :: text' /\ fits c x /\ matches_here re text'.
Proof.
  intros H1 H2. unfold matches_here.
  assert (parse_re (c :: re) = (One c :: (parse_re re).1, (parse_re re).2)) as ->.
  { destruct re as [|c1 re]; simpl.
    - rewrite decide_False; [done|]. intros ->. by apply H2.
    - rewrite decide_False by done. by destruct (match re with [] => _ | _ => _ end). }
  simpl. split.
  - intros (mid & post & -> & Hl & He). inversion Hl as [|? x ? t|]; subst.
    exists x, (t ++ post). eauto 8.
  - intros (x & text' & -> & Hf & mid & post & -> & Hl & He).
    exists (x :: mid), post. split_and!; [done|by constructor|done].
Qed.

Lemma matches_eol text : matches_here [36] text <-> text = [].
Proof.
  unfold matches_here. simpl. split.
  - intros (mid & post & -> & Hl & He). inversion Hl. simpl. by apply He.
  - intros ->. exists [], []. split_and!; [done|constructor|done].
Qed.

Lemma nonul_ch l : nonul l -> ch l = 0 -> l = [].
Proof. intros [|c l' Hc _]; simpl; [done|]. by intros ->. Qed.

Lemma matchhere_spec n re text :
  nonul re -> nonul text -> (length re < n)%nat ->
  matchhere_ n re text = true <-> matches_here re text.
Proof.
  revert re text. induction n as [|n IH]; intros re text Hre Htext Hlen; [lia|].
  cbn [matchhere_]. destruct re as [|c re]; simpl ch; cbn [tail].
  { split; [intros _|done]. exists [], text. split_and!; [done|constructor|done]. }
  apply Forall_cons in Hre as [Hc Hre]. rewrite (proj2 (Z.eqb_neq c 0) Hc). simpl in Hlen.
  destruct (ch re =? 42) eqn:Es; zbool.
  - destruct re as [|c1 re]; [done|]. simpl in Es, Hlen. subst c1. apply Forall_cons in Hre as [_ Hre].
    rewrite matches_star, matchstar_spec by done. cbn [tail].
    split; intros (t1 & t2 & E & Hf & H); exists t1, t2; (split_and!; [done..|]).
    all: subst text; apply Forall_app in Htext as [_ Ht2]; apply IH; (done || lia).
  - destruct ((c =? 36) && (ch re =? 0)) eqn:Ee.
    + apply andb_true_iff in Ee as [Ec Er]. zbool. apply nonul_ch in Er as ->; [|done]. subst c.
      rewrite matches_eol, Z.eqb_eq. split; [by apply nonul_ch|by intros ->].
    + rewrite matches_one by
        (done || (intros [-> ->]; done)).
      destruct Htext as [|x text Hx Htext]; simpl.
      { split; [done|]. by intros (x & text' & ? & _). }
      rewrite (proj2 (Z.eqb_neq x 0) Hx). simpl.
      destruct ((c =? 46) || (c =? x)) eqn:Ef.
      * rewrite IH by (done || lia). rewrite orb_true_iff, !Z.eqb_eq in Ef. unfold fits.
        split; [eauto 8|]. intros (y & text' & [= <- <-] & _ & H). done.
      * rewrite orb_false_iff, !Z.eqb_neq in Ef. split; [done|].
        intros (y & text' & [= <- <-] & [?|?] & _); naive_solver.
Qed.

Lemma match_from_spec re text :
  nonul re -> nonul text ->
  match_from re text = true <-> exists pre text', text = pre ++ text' /\ matches_here re text'.
Proof.
  intros Hre. induction 1 as [|x text Hx Ht IH]; simpl; rewrite orb_true_iff; unfold matchhere.
  - rewrite matchhere_spec by (done || lia). split.
    + intros [H|]; [|done]. by exists [], [].
    + intros (pre & text' & E & H). symmetry in E. apply app_eq_nil in E as [-> ->]. by left.
  - rewrite matchhere_spec by (try lia; auto). rewrite (proj2 (Z.eqb_neq x 0) Hx), IH. split.
    + intros [H|(pre & text' & -> & H)]; [by exists [], (x :: text)|by exists (x :: pre), text'].
    + intros (pre & text' & E & H). destruct pre as [|y pre]; simplify_list_eq; [by left|right; eauto].
Qed.

(** C40. The matcher of [grep] decides regular-expression search: for strings
    without a nul it answers true exactly when the text has a segment in the
    language of the pattern, at the start of the text under [^] and at its end
    under [$]. *)
Theorem match_decides_search re text :
  nonul re -> nonul text -> match_ re text = true <-> matches re text.
Proof.
  intros Hre Ht. unfold match_, matches. destruct re as [|c re]; simpl ch.
  { by apply match_from_spec. }
  destruct (c =? 94) eqn:E; zbool.
  - subst c. apply Forall_cons in Hre as [_ Hre]. apply matchhere_spec; [done..|]. simpl. lia.
  - rewrite match_from_spec by done.
    repeat case_match; subst; done.
Qed.

(** ** The generator of [grind.c] *)

(** [16807 * lo - 2836 * hi] is not zero for an argument in range *)
Lemma schrage_nonzero x :
  0 < x < 0x7fffffff -> 16807 * (x mod 127773) - 2836 * (x / 127773) <> 0.
Proof.
  intros Hx E. pose proof (Z.div_mod x 127773 ltac:(lia)) as Hd.
  pose proof (Z.mod_pos_bound x 127773 ltac:(lia)).
  assert (Hdiv : (16807 | x / 127773)).
  { apply Z.gauss with 2836; [|done]. exists (x mod 127773). lia. }
  destruct Hdiv as [k Hk]. assert (k = 0 \/ k = 1) by lia. nia.
Qed.

(** [do_rand] is the Park-Miller generator: without a product wider than
    31 bits it steps [x] to [7^5 x mod (2^31 - 1)], shifted down by one, and its
    result stays in the range the comments give. *)
Theorem do_rand_park_miller ctx :
  do_rand ctx = (7 ^ 5 * (ctx mod 0x7ffffffe + 1)) mod (2 ^ 31 - 1) - 1 /\
  0 <= do_rand ctx <= 0x7ffffffd.
Proof.
  unfold do_rand. pose proof (Z.mod_pos_bound ctx 0x7ffffffe ltac:(lia)) as Hm.
  set (x := ctx mod 0x7ffffffe + 1). assert (Hx : 0 < x < 0x7fffffff) by lia.
  pose proof (schrage_nonzero x Hx) as Hnz. pose proof (Z.div_mod x 127773 ltac:(lia)) as Hd.
  pose proof (Z.mod_pos_bound x 127773 ltac:(lia)). clearbody x.
  change (7 ^ 5) with 16807. change (2 ^ 31 - 1) with 2147483647.
  set (hi := x / 127773) in *. set (lo := x mod 127773) in *.
  destruct (_ <? 0) eqn:E; zbool.
  - split; [|lia]. f_equal. apply (Z.mod_unique _ _ (hi - 1)); lia.
  - split; [|lia]. f_equal. apply (Z.mod_unique _ _ hi); lia.
Qed.
