(* ===== verification/Utils.v ===== *)
(** * The programs around the shell ([init.c], [ls.c], [cat.c], [rm.c], ...)

    The [main] functions of the small utilities, and [init].  [argv] holds the
    arguments with the name of the program first. *)

From S2P Require Import Prelude CString Types Printf Console FsBlock Inode Dir File Ulib Grep.
From stdpp Require Import base numbers list strings.
From Stdlib Require Import ZArith Lia.

Open Scope Z_scope.

(** a line of text for [fprintf] and [printf] *)
Definition text (s : string) : list Z := chars s ++ [10].

Definition arg (argv : list (list Z)) (i : nat) : list Z := nth i argv [].

(** the loops over the arguments that go on after each of them *)
Fixpoint each_arg (f : list Z -> uprog unit) (argv : list (list Z)) : uprog unit :=
  match argv with
  | [] => mret tt
  | a :: l => f a;; each_arg f l
  end.

(** the loops that stop with a message at the first failure *)
Fixpoint until_failure (call : list Z -> ucall) (message : string) (argv : list (list Z)) : uprog unit :=
  match argv with
  | [] => mret tt
  | a :: l =>
      r ← usys (call a);
      if r <? 0 then fprintf 2 (text message) [AStr (Some a)] else until_failure call message l
  end.

Definition kill_main (argv : list (list Z)) : uprog unit :=
  if (length argv <? 2)%nat then fprintf 2 (text "usage: kill pid...") [];; uexit 1 else
  each_arg (fun a => usys (Ukill (atoi a));; mret tt) (tail argv);;
  uexit 0.

Definition ln_main (argv : list (list Z)) : uprog unit :=
  if negb (length argv =? 3)%nat then fprintf 2 (text "Usage: ln old new") [];; uexit 1 else
  r ← usys (Ulink (arg argv 1) (arg argv 2));
  (if r <? 0
   then fprintf 2 (text "link %s %s: failed") [AStr (Some (arg argv 1)); AStr (Some (arg argv 2))]
   else mret tt);;
  uexit 0.

Definition mkdir_main (argv : list (list Z)) : uprog unit :=
  if (length argv <? 2)%nat then fprintf 2 (text "Usage: mkdir files...") [];; uexit 1 else
  until_failure Umkdir "mkdir: %s failed to create" (tail argv);;
  uexit 0.

Definition rm_main (argv : list (list Z)) : uprog unit :=
  if (length argv <? 2)%nat then fprintf 2 (text "Usage: rm files...") [];; uexit 1 else
  until_failure Uunlink "rm: %s failed to delete" (tail argv);;
  uexit 0.

Definition zombie_main : uprog unit :=
  pid ← usys Ufork;
  (if 0 <? pid then usys (Upause 5);; mret tt else mret tt);;
  uexit 0.

(** [cat], [wc] and [grep] over files; [reads] bounds the reads of one file *)
Definition cat_file (reads : nat) (name : list Z) : uprog unit :=
  fd ← usys (Uopen name O_RDONLY);
  if fd <? 0 then fprintf 2 (text "cat: cannot open %s") [AStr (Some name)];; uexit 1 else
  cat reads fd;;
  usys (Uclose fd);;
  mret tt.

Definition cat_main (reads : nat) (argv : list (list Z)) : uprog unit :=
  if (length argv <=? 1)%nat then cat reads 0;; uexit 0 else
  each_arg (cat_file reads) (tail argv);;
  uexit 0.

Definition wc_file (reads : nat) (name : list Z) : uprog unit :=
  fd ← usys (Uopen name O_RDONLY);
  if fd <? 0 then uprintf (text "wc: cannot open %s") [AStr (Some name)];; uexit 1 else
  wc reads fd name;;
  usys (Uclose fd);;
  mret tt.

Definition wc_main (reads : nat) (argv : list (list Z)) : uprog unit :=
  if (length argv <=? 1)%nat then wc reads 0 [];; uexit 0 else
  each_arg (wc_file reads) (tail argv);;
  uexit 0.

Definition grep_file (reads : nat) (pattern name : list Z) : uprog unit :=
  fd ← usys (Uopen name O_RDONLY);
  if fd <? 0 then uprintf (text "grep: cannot open %s") [AStr (Some name)];; uexit 1 else
  grep reads pattern fd;;
  usys (Uclose fd);;
  mret tt.

Definition grep_main (reads : nat) (argv : list (list Z)) : uprog unit :=
  if (length argv <=? 1)%nat then fprintf 2 (text "usage: grep pattern [file ...]") [];; uexit 1 else
  let pattern := arg argv 1 in
  if (length argv <=? 2)%nat then grep reads pattern 0;; uexit 0 else
  each_arg (grep_file reads pattern) (drop 2 argv);;
  uexit 0.

(** ** ls *)

Definition decode_stat (st : list Z) : stat :=
  Mk_stat (s32 (le_value (slice 0 4 st))) (le_value (slice 4 4 st)) (s16 (le_value (slice 8 2 st)))
    (s16 (le_value (slice 10 2 st))) (le_value (slice 16 8 st)).

Definition ls_entry (path : list Z) (st : stat) : uprog unit :=
  uprintf (text "%s %d %d %d")
    [AStr (Some (fmtname path)); ANum (st_type st); ANum (st_ino st); ANum (s32 (st_size st))].

(** one entry of the directory [path]: [p] is the byte after the slash *)
Definition ls_dirent (path : list Z) (de : list Z) : uprog unit :=
  let d := decode_dirent de in
  if de_inum d =? 0 then mret tt else
  let buf := path ++ [47] ++ cstr (de_name d) in
  r ← ustat buf;
  if r.1 <? 0 then uprintf (text "ls: cannot stat %s") [AStr (Some buf)]
  else ls_entry buf (decode_stat r.2).

(** [entries] bounds the reads of the directory *)
Definition ls (entries : nat) (path : list Z) : uprog unit :=
  fd ← usys (Uopen path O_RDONLY);
  if fd <? 0 then fprintf 2 (text "ls: cannot open %s") [AStr (Some path)] else
  x ← ucall_ (Ufstat fd);
  if a_ret x <? 0 then
    fprintf 2 (text "ls: cannot stat %s") [AStr (Some path)];; usys (Uclose fd);; mret tt
  else
  let st := decode_stat (a_data x) in
  (if (st_type st =? T_DEVICE) || (st_type st =? T_FILE) then ls_entry path st
   else if st_type st =? T_DIR then
     if 512 <? strlen path + 1 + DIRSIZ + 1 then uprintf (text "ls: path too long") []
     else
       uloop entries (fun _ : unit =>
         x ← ucall_ (Uread fd 16);
         if negb (a_ret x =? 16) then mret (inr tt) else
         ls_dirent (cstr path) (a_data x);;
         mret (inl tt)) tt;;
       mret tt
   else mret tt);;
  usys (Uclose fd);;
  mret tt.

Definition ls_main (entries : nat) (argv : list (list Z)) : uprog unit :=
  if (length argv <? 2)%nat then ls entries (chars ".");; uexit 0 else
  each_arg (ls entries) (tail argv);;
  uexit 0.

(** ** init *)

(** waiting for the shell [pid]: at most [waits] calls *)
Definition init_wait (waits : nat) (pid : Z) : uprog unit :=
  uloop waits (fun _ : unit =>
    wpid ← usys Uwait;
    if wpid =? pid then mret (inr tt)
    else if wpid <? 0 then uprintf (text "init: wait returned an error") [];; uexit 1
    else mret (inl tt)) tt;;
  mret tt.

(** [main] of [init], for [shells] starts of the shell *)
Definition init_main (shells waits : nat) : uprog unit :=
  fd ← usys (Uopen (chars "console") O_RDWR);
  (if fd <? 0 then
     usys (Umknod (chars "console") CONSOLE 0);; usys (Uopen (chars "console") O_RDWR);; mret tt
   else mret tt);;
  usys (Udup 0);;
  usys (Udup 0);;
  uloop shells (fun _ : unit =>
    uprintf (text "init: starting sh") [];;
    pid ← usys Ufork;
    if pid <? 0 then uprintf (text "init: fork failed") [];; uexit 1 else
    if pid =? 0 then
      usys (Uexec (chars "sh") [chars "sh"]);;
      uprintf (text "init: exec sh failed") [];;
      uexit 1
    else
      init_wait waits pid;;
      mret (inl tt : unit + unit)) tt;;
  mret tt.
