(* ===== verification/Umalloc.v ===== *)
(** * The user memory allocator ([umalloc.c])

    Pointers to [Header] are counted in units of [sizeof(Header)], 16 bytes;
    [m_hdr] holds the headers.  [base] is below the heap, which starts at the
    program break [m_brk] and can grow to [m_limit]. *)

From S2P Require Import Prelude Monad.
From stdpp Require Import base numbers list gmap strings.
From Stdlib Require Import ZArith Lia.

Open Scope Z_scope.

Record header := Mk_header { h_ptr : Z; h_size : Z }.

Record mstate := Mk_mstate {
  m_hdr : gmap Z header;
  m_freep : Z;
  m_brk : Z;
  m_limit : Z;
}.

Definition sizeof_header : Z := 16.

Notation MS := (ST mstate).

Definition get_hdr (p : Z) : MS header := deref (fun s => m_hdr s !! p).
Definition set_hdr (p : Z) (h : header) : MS unit :=
  modify (fun s => Mk_mstate (<[p := h]> (m_hdr s)) (m_freep s) (m_brk s) (m_limit s)).
Definition set_freep (p : Z) : MS unit :=
  modify (fun s => Mk_mstate (m_hdr s) p (m_brk s) (m_limit s)).
Definition get_freep : MS Z := gets m_freep.

(** a walk around the free list meets each header at most once *)
Definition ring_fuel : MS nat := gets (fun s => S (size (m_hdr s))).

(** [sbrk] of [nu] units: the old break, or [None] for [SBRK_ERROR].  The
    number of bytes is passed as an [int]; one that is negative would give
    memory back and has no meaning here. *)
Definition sbrk (nu : Z) : MS (option Z) := fun s =>
  let n := s32 (nu * sizeof_header) in
  let brk := m_brk s + n / sizeof_header in
  if n <? 0 then Stuck
  else if m_limit s <? brk then Ok None s
  else Ok (Some (m_brk s)) (Mk_mstate (m_hdr s) (m_freep s) brk (m_limit s)).

Section Umalloc.
Context (base : Z).

(** the search of [free] for the place of [bp] *)
Definition free_turn (bp p : Z) : MS (Z + Z) :=
  h ← get_hdr p;
  if (p <? bp) && (bp <? h_ptr h) then mret (inr p)
  else if (h_ptr h <=? p) && ((p <? bp) || (bp <? h_ptr h)) then mret (inr p)
  else mret (inl (h_ptr h)).

Definition free_find (bp : Z) : MS Z :=
  p ← get_freep;
  fuel ← ring_fuel;
  loop fuel (free_turn bp) p.

(** [free] of the block whose header is [bp] *)
Definition free_block (bp : Z) : MS unit :=
  p ← free_find bp;
  hb ← get_hdr bp;
  hp ← get_hdr p;
  (if bp + h_size hb =? h_ptr hp then
     hn ← get_hdr (h_ptr hp);
     set_hdr bp (Mk_header (h_ptr hn) (u32 (h_size hb + h_size hn)))
   else set_hdr bp (Mk_header (h_ptr hp) (h_size hb)));;
  hb ← get_hdr bp;
  hp ← get_hdr p;
  (if p + h_size hp =? bp then set_hdr p (Mk_header (h_ptr hb) (u32 (h_size hp + h_size hb)))
   else set_hdr p (Mk_header bp (h_size hp)));;
  set_freep p.

Definition free (ap : Z) : MS unit := free_block (ap - 1).

(** 0 when there is no more memory *)
Definition morecore (nu : Z) : MS Z :=
  let nu := if nu <? 4096 then 4096 else nu in
  r ← sbrk nu;
  match r with
  | None => mret 0
  | Some p =>
      set_hdr p (Mk_header 0 nu);;
      free (p + 1);;
      get_freep
  end.

Definition nunits (nbytes : Z) : Z := u32 (((nbytes + sizeof_header - 1) / sizeof_header) + 1).

(** take [n] units from the free block [p], whose predecessor is [prevp] *)
Definition take_block (prevp p : Z) (h : header) (n : Z) : MS Z :=
  r ← (if h_size h =? n then
         hp ← get_hdr prevp;
         set_hdr prevp (Mk_header (h_ptr h) (h_size hp));;
         mret p
       else
         set_hdr p (Mk_header (h_ptr h) (h_size h - n));;
         let q := p + (h_size h - n) in
         hq ← gets (fun s => default (Mk_header 0 0) (m_hdr s !! q));
         set_hdr q (Mk_header (h_ptr hq) n);;
         mret q);
  set_freep prevp;;
  mret (r + 1).

(** one turn of the loop of [malloc] *)
Definition malloc_turn (n : Z) (x : Z * Z) : MS ((Z * Z) + Z) :=
  let '(prevp, p) := x in
  h ← get_hdr p;
  if n <=? h_size h then r ← take_block prevp p h n; mret (inr r)
  else
    freep ← get_freep;
    if p =? freep then
      p ← morecore n;
      if p =? 0 then mret (inr 0) else
      h ← get_hdr p;
      mret (inl (p, h_ptr h))
    else mret (inl (p, h_ptr h)).

(** once around the list, then once more after [morecore] *)
Definition malloc (nbytes : Z) : MS Z :=
  let n := nunits nbytes in
  freep ← get_freep;
  when (freep =? 0) (set_hdr base (Mk_header base 0);; set_freep base);;
  prevp ← get_freep;
  hp ← get_hdr prevp;
  fuel ← ring_fuel;
  loop (2 * fuel + 2) (malloc_turn n) (prevp, h_ptr hp).

End Umalloc.
