(* ===== verification/UmallocFacts.v ===== *)
(** * The user memory allocator never gives memory out twice or loses it

    The free blocks form a ring in order of their addresses, which starts with
    the empty block [base].  A block is its address and its size in units; the
    free blocks and the blocks in use partition the heap. *)

From S2P Require Import Prelude Monad Umalloc.
From stdpp Require Import base numbers list gmap sorting.
From Stdlib Require Import ZArith Lia.

Open Scope Z_scope.

(** ** Blocks and the units they consist of *)

Notation block := (Z * Z)%type.

Definition units (l : list block) : list Z := l ≫= (fun b => seqZ b.1 b.2).

Lemma units_cons b l : units (b :: l) = seqZ b.1 b.2 ++ units l.
Proof. done. Qed.

Lemma units_app l1 l2 : units (l1 ++ l2) = units l1 ++ units l2.
Proof. apply bind_app. Qed.

#[export] Instance units_proper : Proper ((≡ₚ) ==> (≡ₚ)) units.
Proof. intros l1 l2 H. apply bind_Permutation, H. Qed.

(** two blocks next to each other are one block *)
Lemma units_join a n m l :
  0 <= n -> 0 <= m -> units ((a, n) :: (a + n, m) :: l) = units ((a, n + m) :: l).
Proof. intros Hn Hm. rewrite !units_cons; simpl. by rewrite seqZ_app, app_assoc by done. Qed.

Lemma units_in u l : u ∈ units l <-> exists b, b ∈ l /\ b.1 <= u < b.1 + b.2.
Proof.
  unfold units. rewrite list_elem_of_bind. setoid_rewrite elem_of_seqZ. naive_solver.
Qed.

(** different blocks have different addresses *)
Lemma nodup_addrs l :
  NoDup (units l) -> Forall (fun b => 0 < b.2) l -> NoDup l.*1.
Proof.
  induction l as [|b l IH]; intros Hd Hp; simpl; [constructor|].
  rewrite units_cons, NoDup_app in Hd. destruct Hd as (_ & Hd & Hl).
  apply Forall_cons in Hp as [Hb Hp]. constructor; [|by apply IH].
  intros (c & Hc & Hin)%list_elem_of_fmap. apply (Hd b.1); [apply elem_of_seqZ; lia|].
  apply units_in. exists c. split; [done|]. rewrite Forall_forall in Hp. specialize (Hp c Hin). lia.
Qed.

(** no block starts inside another one *)
Lemma inside_fresh l b q :
  NoDup (units l) -> Forall (fun b => 0 < b.2) l -> b ∈ l -> b.1 < q < b.1 + b.2 -> q ∉ l.*1.
Proof.
  intros Hd Hp [l' Hl]%elem_of_Permutation Hq (d & Hdq & Hin)%list_elem_of_fmap.
  rewrite Hl, units_cons, NoDup_app in Hd. destruct Hd as (_ & Hd & _).
  pose proof (proj1 (Forall_forall _ _) Hp d Hin) as Hpd. simpl in Hpd.
  rewrite Hl in Hin. apply elem_of_cons in Hin as [->|Hin]; [lia|].
  apply (Hd q); [apply elem_of_seqZ; lia|]. apply units_in. exists d. split; [done|lia].
Qed.

(** ** Chains of headers *)

Definition first_addr (l : list block) (nxt : Z) : Z :=
  match l with [] => nxt | b :: _ => b.1 end.

(** the headers of [l] are linked in this order, the last one to [nxt] *)
Fixpoint links (h : gmap Z header) (l : list block) (nxt : Z) : Prop :=
  match l with
  | [] => True
  | b :: l => h !! b.1 = Some (Mk_header (first_addr l nxt) b.2) /\ links h l nxt
  end.

Lemma first_addr_app l1 l2 nxt : first_addr (l1 ++ l2) nxt = first_addr l1 (first_addr l2 nxt).
Proof. by destruct l1. Qed.

Lemma links_app h l1 l2 nxt :
  links h (l1 ++ l2) nxt <-> links h l1 (first_addr l2 nxt) /\ links h l2 nxt.
Proof.
  induction l1 as [|b l1 IH]; simpl; [naive_solver|]. rewrite IH, first_addr_app. naive_solver.
Qed.

Lemma links_insert h l nxt a v : a ∉ l.*1 -> links (<[a := v]> h) l nxt <-> links h l nxt.
Proof.
  induction l as [|b l IH]; intros Ha; simpl; [done|].
  rewrite fmap_cons, not_elem_of_cons in Ha. destruct Ha as [Hab Ha].
  rewrite lookup_insert_ne, IH by done. done.
Qed.

Lemma mlinks_lookup h l nxt b :
  links h l nxt -> b ∈ l -> exists q, h !! b.1 = Some (Mk_header q b.2).
Proof.
  intros Hl Hb. induction Hb as [b l|b c l Hb IH]; destruct Hl as [H1 H2]; eauto.
Qed.

(** a ring is linked from wherever one starts *)
Lemma links_rotate h l1 l2 :
  links h (l1 ++ l2) (first_addr (l1 ++ l2) 0) -> l1 <> [] -> l2 <> [] ->
  links h (l2 ++ l1) (first_addr (l2 ++ l1) 0).
Proof. destruct l1, l2; try done. rewrite !links_app. naive_solver. Qed.

Lemma links_size h l nxt : links h l nxt -> NoDup l.*1 -> (length l <= size h)%nat.
Proof.
  intros Hl Hd. rewrite <- (length_fmap fst), <- (size_list_to_set (C := gset Z)) by done.
  rewrite <- size_dom. apply subseteq_size. intros a Ha.
  apply elem_of_list_to_set, list_elem_of_fmap in Ha as (b & -> & Hb).
  destruct (mlinks_lookup _ _ _ _ Hl Hb). by apply elem_of_dom.
Qed.

(** ** The search of [free] *)

Definition stop (bp p q : Z) : bool :=
  (p <? bp) && (bp <? q) || (q <=? p) && ((p <? bp) || (bp <? q)).

Lemma sorted_split (l : list block) bp :
  StronglySorted Z.lt l.*1 -> bp ∉ l.*1 -> first_addr l bp < bp ->
  exists pre p post, l = pre ++ p :: post /\ p.1 < bp /\ Forall (fun c => bp < c.1) post.
Proof.
  induction l as [|b l IH]; intros Hs Hn Hf; simpl in Hf; [lia|].
  rewrite fmap_cons in Hs, Hn. apply StronglySorted_cons in Hs as [Hb Hs].
  apply not_elem_of_cons in Hn as [_ Hn]. destruct l as [|c l]; [by exists [], b, []|].
  destruct (decide (c.1 < bp)) as [Hc|Hc].
  - destruct (IH Hs Hn Hc) as (pre & p & post & -> & H). by exists (b :: pre), p, post.
  - exists [], b, (c :: l). split_and!; [done|done|]. rewrite fmap_cons in Hs, Hn.
    apply not_elem_of_cons in Hn as [Hn _]. apply StronglySorted_cons in Hs as [Hs _].
    constructor; [lia|]. rewrite Forall_fmap in Hs. eapply Forall_impl; [done|]. simpl. lia.
Qed.

Lemma sorted_after (l1 l2 : list block) b c :
  StronglySorted Z.lt (l1 ++ b :: l2).*1 -> c ∈ l2 -> b.1 < c.1.
Proof.
  rewrite fmap_app, fmap_cons. intros Hs Hc. apply StronglySorted_app_1_r, StronglySorted_cons in Hs as [Hs _].
  rewrite Forall_fmap, Forall_forall in Hs. by apply Hs.
Qed.

Lemma free_turn_eq bp p s h :
  m_hdr s !! p = Some h ->
  free_turn bp p s = Ok (if stop bp p (h_ptr h) then inr p else inl (h_ptr h)) s.
Proof.
  intros Hh. unfold free_turn, get_hdr. erewrite bind_ok by (unfold deref; by rewrite Hh).
  unfold stop. destruct (_ && _); [done|]. by destruct (_ && _).
Qed.

Lemma free_walk bp l nxt fuel s :
  links (m_hdr s) l nxt ->
  (forall b q, b ∈ l -> m_hdr s !! b.1 = Some (Mk_header q b.2) -> stop bp b.1 q = false) ->
  loop (length l + fuel) (free_turn bp) (first_addr l nxt) s = loop fuel (free_turn bp) nxt s.
Proof.
  induction l as [|b l IH]; intros Hl Hst; [done|]. destruct Hl as [Hb Hl]. simpl length.
  rewrite Nat.add_succ_l. erewrite loop_next.
  - apply IH; [done|]. intros c q Hc. apply Hst. set_solver.
  - erewrite free_turn_eq by exact Hb. simpl. by rewrite (Hst b _ ltac:(set_solver) Hb).
Qed.

Definition with_hdr (s : mstate) (h : gmap Z header) : mstate :=
  Mk_mstate h (m_freep s) (m_brk s) (m_limit s).

Lemma wp_get_hdr p s h (Q : header -> mstate -> Prop) :
  m_hdr s !! p = Some h -> Q h s -> wp (get_hdr p) s Q.
Proof. intros Hh HQ. by apply wp_deref with h. Qed.

Lemma wp_set_hdr p h s (Q : unit -> mstate -> Prop) :
  Q tt (with_hdr s (<[p := h]> (m_hdr s))) -> wp (set_hdr p h) s Q.
Proof. done. Qed.

Lemma perm_take {A} (l1 l2 l3 : list A) x : (l1 ++ l2) ++ x :: l3 ≡ₚ l1 ++ x :: l2 ++ l3.
Proof. rewrite <- app_assoc. f_equiv. by rewrite Permutation_middle. Qed.

Lemma sorted_drop (l1 l2 : list block) c :
  StronglySorted Z.lt (l1 ++ c :: l2).*1 -> StronglySorted Z.lt (l1 ++ l2).*1.
Proof.
  rewrite !fmap_app, !StronglySorted_app, fmap_cons, StronglySorted_cons.
  intros (Hx & H1 & _ & H2). split_and!; [|done|done]. intros x y Hin Hy. apply Hx; [done|]. by right.
Qed.

Lemma sorted_between (pre : list block) p bp sz post :
  StronglySorted Z.lt (pre ++ p :: post).*1 -> p.1 < bp -> Forall (fun c => bp < c.1) post ->
  StronglySorted Z.lt ((pre ++ [p]) ++ (bp, sz) :: post).*1.
Proof.
  intros Hs Hp Hpost. rewrite cons_middle, app_assoc in Hs. rewrite fmap_app in *.
  apply StronglySorted_app in Hs as (Hx & Hs1 & Hs2). rewrite StronglySorted_app. split_and!; [|done|].
  - intros x y Hin [->|Hy]%elem_of_cons; [|by apply Hx]. simpl.
    rewrite fmap_app in Hs1. apply StronglySorted_app in Hs1 as (Hy & _ & _).
    rewrite fmap_app in Hin. apply elem_of_app in Hin as [Hin|Hin].
    + specialize (Hy x p.1 Hin ltac:(simpl; set_solver)). lia.
    + simpl in Hin. apply list_elem_of_singleton in Hin as ->. done.
  - simpl. apply StronglySorted_cons. split; [|done]. by rewrite Forall_fmap.
Qed.

Fixpoint last_addr (prev : Z) (l : list block) : Z :=
  match l with [] => prev | b :: l => last_addr b.1 l end.

Lemma last_addr_snoc prev l b : last_addr prev (l ++ [b]) = b.1.
Proof. revert prev. by induction l; simpl. Qed.

(** the loop of [malloc] passes the blocks that are too small *)
Lemma malloc_walk n l nxt fuel prevp s :
  links (m_hdr s) l nxt -> Forall (fun b => b.2 < n /\ b.1 <> m_freep s) l ->
  loop (length l + fuel) (malloc_turn n) (prevp, first_addr l nxt) s =
  loop fuel (malloc_turn n) (last_addr prevp l, nxt) s.
Proof.
  revert prevp. induction l as [|b l IH]; intros prevp Hl Hs; [done|]. destruct Hl as [Hb Hl].
  apply Forall_cons in Hs as [[Hsz Hf] Hs]. simpl length. rewrite Nat.add_succ_l. erewrite loop_next.
  - by apply IH.
  - unfold malloc_turn, get_hdr. simpl. erewrite bind_ok by (unfold deref; by rewrite Hb). simpl.
    destruct (Z.leb_spec n b.2); [lia|]. erewrite bind_ok by done. by destruct (Z.eqb_spec b.1 (m_freep s)).
Qed.

Lemma sbrk_eq nu s :
  0 < nu -> nu * sizeof_header < 2 ^ 31 ->
  sbrk nu s = if m_limit s <? m_brk s + nu then Ok None s
              else Ok (Some (m_brk s)) (Mk_mstate (m_hdr s) (m_freep s) (m_brk s + nu) (m_limit s)).
Proof.
  unfold sbrk, sizeof_header. intros H1 H2. rewrite swrap_small, Z.div_mul by lia.
  destruct (Z.ltb_spec (nu * 16) 0); [lia|done].
Qed.

Lemma first_fit n (l : list block) :
  (exists l1 b l2, l = l1 ++ b :: l2 /\ n <= b.2 /\ Forall (fun b => b.2 < n) l1) \/
  Forall (fun b => b.2 < n) l.
Proof.
  induction l as [|b l IH]; [by right|]. destruct (decide (n <= b.2)); [left; by exists [], b, l|].
  destruct IH as [(l1 & c & l2 & -> & Hc & H1)|H1]; [left|right; constructor; [lia|done]].
  exists (b :: l1), c, l2. split_and!; [done|done|]. constructor; [lia|done].
Qed.

(** ** The invariant *)

Section Heap.
Context (base lo : Z) (Hbase : 0 < base < lo).

Notation ring fs := ((base, 0) :: fs).

Record heap_inv (fs live : list block) (s : mstate) : Prop := Mk_heap_inv {
  hi_links : links (m_hdr s) (ring fs) base;
  hi_sorted : StronglySorted Z.lt (ring fs).*1;
  hi_live b : b ∈ live -> exists q, m_hdr s !! b.1 = Some (Mk_header q b.2);
  hi_part : units (fs ++ live) ≡ₚ seqZ lo (m_brk s - lo);
  hi_pos : Forall (fun b => 0 < b.2) (fs ++ live);
  hi_freep : m_freep s ∈ (ring fs).*1;
  hi_brk : lo <= m_brk s <= m_limit s;
  hi_limit : m_limit s < 2 ^ 32;
}.

(** blocks that partition the heap are inside it and have different addresses,
    none of which is [base] *)
Lemma part_inside (l : list block) brk b :
  units l ≡ₚ seqZ lo (brk - lo) -> Forall (fun b => 0 < b.2) l -> b ∈ l ->
  0 < b.2 /\ lo <= b.1 /\ b.1 + b.2 <= brk.
Proof using.
  intros Hu Hpos Hb. pose proof (proj1 (Forall_forall _ _) Hpos b Hb) as Hp. simpl in Hp.
  assert (forall u, b.1 <= u < b.1 + b.2 -> lo <= u < brk) as Hin.
  { intros u Hu'. assert (u ∈ units l) as H by (apply units_in; eauto).
    rewrite Hu, elem_of_seqZ in H. lia. }
  pose proof (Hin b.1 ltac:(lia)). pose proof (Hin (b.1 + b.2 - 1) ltac:(lia)). lia.
Qed.

Lemma part_nodup (l : list block) brk :
  units l ≡ₚ seqZ lo (brk - lo) -> Forall (fun b => 0 < b.2) l -> NoDup (base :: l.*1).
Proof using Hbase.
  intros Hu Hpos. constructor.
  - intros (b & Hb & Hin)%list_elem_of_fmap. pose proof (part_inside _ _ _ Hu Hpos Hin). lia.
  - apply nodup_addrs; [|done]. rewrite Hu. apply NoDup_seqZ.
Qed.

Lemma heap_inside fs live s b :
  heap_inv fs live s -> b ∈ fs ++ live -> 0 < b.2 /\ lo <= b.1 /\ b.1 + b.2 <= m_brk s.
Proof using. intros HI. apply part_inside; apply HI. Qed.

Lemma heap_nodup fs live s : heap_inv fs live s -> NoDup (ring fs ++ live).*1.
Proof using Hbase. intros HI. apply (part_nodup (fs ++ live) (m_brk s)); apply HI. Qed.

(** the search stops at [p] and nowhere else *)
Lemma stop_unique fs h pre p post bp b q :
  ring fs = pre ++ p :: post -> StronglySorted Z.lt (ring fs).*1 -> links h (ring fs) base ->
  base < bp -> p.1 < bp -> Forall (fun c => bp < c.1) post ->
  b ∈ ring fs -> h !! b.1 = Some (Mk_header q b.2) -> stop bp b.1 q = true <-> b = p.
Proof using Hbase.
  intros Hr Hs Hl Hb Hp Hpost Hin Hq.
  assert (forall c, c ∈ ring fs -> base <= c.1) as Hlow.
  { intros c [->|Hc]%elem_of_cons; [done|]. pose proof (sorted_after [] fs (base, 0) c Hs Hc). simpl in *. lia. }
  pose proof (Hlow b Hin) as Hbb. apply list_elem_of_split in Hin as (l1 & l2 & Hr').
  rewrite Hr' in Hs, Hl. apply links_app in Hl as [_ Hl]. simpl in Hl. destruct Hl as [Hq' _].
  rewrite Hq in Hq'. injection Hq' as ->. unfold stop.
  assert (forall c l, l2 = c :: l -> b.1 < c.1) as Hnext.
  { intros c l ->. eapply sorted_after; [done|]. set_solver. }
  rewrite Hr in Hr'. apply app_eq_inv in Hr' as [([|b' k] & -> & Hk)|([|p' k] & -> & Hk)];
    simpl in Hk; injection Hk as <- ->.
  1, 3: split; [done|]; intros _; destruct Hpost as [|c l2 Hc _]; simpl; lia.
  - assert (b.1 < p.1) by (eapply sorted_after; [done|]; set_solver).
    split; [|intros ->; lia]. intros Hst. exfalso. destruct k as [|c k]; simpl in *; [lia|].
    pose proof (Hnext c _ eq_refl).
    assert (c.1 < p.1); [|lia].
    rewrite cons_middle, (app_assoc l1) in Hs. eapply sorted_after; [exact Hs|]. set_solver.
  - assert (bp < b.1) by (rewrite Forall_forall in Hpost; apply Hpost; set_solver).
    split; [|intros ->; lia]. intros H'. exfalso. destruct l2 as [|c l2]; simpl in *; [lia|].
    pose proof (Hnext c _ eq_refl). lia.
Qed.

(** the ring as it is met from a block [c] on *)
Lemma ring_from fs h c :
  links h (ring fs) base -> c ∈ ring fs ->
  exists l, (c :: l) ≡ₚ ring fs /\ links h (c :: l) c.1.
Proof using Hbase.
  intros Hl Hc. apply list_elem_of_split in Hc as ([|b a] & l & E); simpl in E.
  { injection E as <- <-. by exists fs. }
  injection E as <- E. exists (l ++ (base, 0) :: a). rewrite E in *. split.
  - rewrite app_comm_cons, (app_comm_cons a). apply Permutation_app_comm.
  - rewrite app_comm_cons in *. rewrite links_app in *. naive_solver.
Qed.

Lemma free_find_finds fs live s pre p post bp :
  heap_inv fs live s -> ring fs = pre ++ p :: post ->
  base < bp -> p.1 < bp -> Forall (fun c => bp < c.1) post ->
  free_find bp s = Ok p.1 s.
Proof using Hbase.
  intros HI Hr Hb Hp Hpost. pose proof (hi_freep _ _ _ HI) as (c & Hc & Hin)%list_elem_of_fmap.
  destruct (ring_from _ _ _ (hi_links _ _ _ HI) Hin) as (l & Hl & Hlk).
  assert (p ∈ c :: l) as Hpl by (rewrite Hl, Hr; set_solver).
  pose proof (links_size _ _ _ (hi_links _ _ _ HI)) as Hsz.
  apply list_elem_of_split_l in Hpl as (l1 & l2 & E & Hn).
  assert (m_freep s = first_addr (l1 ++ p :: l2) 0) as Hfp by (by rewrite <- E).
  rewrite E in Hlk. apply links_app in Hlk as [Hl1 [Hlp _]].
  unfold free_find, get_freep, ring_fuel. erewrite bind_ok by done. erewrite bind_ok by done.
  assert (forall b, b ∈ l1 ++ p :: l2 -> b ∈ ring fs) as Hsub by (intros b; by rewrite <- E, Hl).
  rewrite Hfp, first_addr_app.
  replace (S (size (m_hdr s))) with (length l1 + S (size (m_hdr s) - length l1))%nat; [rewrite free_walk|].
  - apply loop_done. erewrite free_turn_eq by exact Hlp. simpl.
    by rewrite (proj2 (stop_unique fs _ pre p post bp p _ Hr (hi_sorted _ _ _ HI) (hi_links _ _ _ HI)
      Hb Hp Hpost ltac:(apply Hsub; set_solver) Hlp) eq_refl).
  - done.
  - intros b q Hbl Hq. apply not_true_iff_false. intros Hst.
    rewrite (stop_unique fs _ pre p post bp b _ Hr (hi_sorted _ _ _ HI) (hi_links _ _ _ HI)
      Hb Hp Hpost ltac:(apply Hsub; set_solver) Hq) in Hst. by subst.
  - apply (f_equal length) in E. rewrite (Permutation_length Hl), length_app in E. simpl in E.
    assert (length (ring fs) <= size (m_hdr s))%nat; [|simpl in *; lia].
    apply Hsz. pose proof (heap_nodup _ _ _ HI) as Hd. rewrite fmap_app in Hd. by apply NoDup_app in Hd as [Hd _].
Qed.

(** ** [free] *)

(** the block [(bp, sz)] has its place between [p] and [post] and is linked to
    [post], while the header of [p] is still to be set *)
Record placed (fs : list block) (p : block) (bp sz : Z) (post live : list block) (s : mstate) : Prop := {
  pl_pre : exists pre, ring fs = pre ++ [p] /\ links (m_hdr s) pre p.1;
  pl_p : exists q, m_hdr s !! p.1 = Some (Mk_header q p.2);
  pl_bp : m_hdr s !! bp = Some (Mk_header (first_addr post base) sz);
  pl_post : links (m_hdr s) post base;
  pl_sorted : StronglySorted Z.lt (ring fs ++ (bp, sz) :: post).*1;
  pl_live b : b ∈ live -> exists q, m_hdr s !! b.1 = Some (Mk_header q b.2);
  pl_part : units (fs ++ (bp, sz) :: post ++ live) ≡ₚ seqZ lo (m_brk s - lo);
  pl_pos : Forall (fun b => 0 < b.2) (fs ++ (bp, sz) :: post ++ live);
  pl_brk : lo <= m_brk s <= m_limit s;
  pl_limit : m_limit s < 2 ^ 32;
}.


Lemma ring_split fs pre p post :
  ring fs = pre ++ p :: post -> exists fs1, ring fs1 = pre ++ [p] /\ fs = fs1 ++ post.
Proof using.
  destruct pre as [|b pre]; simpl; intros E; injection E as <- ->; [by exists []|].
  exists (pre ++ [p]). by rewrite <- app_assoc.
Qed.

Lemma placed_intro fs1 pre p post bp sz live s :
  ring fs1 = pre ++ [p] -> links (m_hdr s) pre p.1 -> (exists q, m_hdr s !! p.1 = Some (Mk_header q p.2)) ->
  links (m_hdr s) post base -> StronglySorted Z.lt (pre ++ p :: post).*1 -> p.1 < bp ->
  Forall (fun c => bp < c.1) post -> bp ∉ live.*1 ->
  (forall b, b ∈ live -> exists q, m_hdr s !! b.1 = Some (Mk_header q b.2)) ->
  units (fs1 ++ (bp, sz) :: post ++ live) ≡ₚ seqZ lo (m_brk s - lo) ->
  Forall (fun b => 0 < b.2) (fs1 ++ (bp, sz) :: post ++ live) ->
  lo <= m_brk s <= m_limit s -> m_limit s < 2 ^ 32 ->
  placed fs1 p bp sz post live (with_hdr s (<[bp := Mk_header (first_addr post base) sz]> (m_hdr s))).
Proof using Hbase.
  intros Hr Hl1 [q Hq] Hl2 Hs Hp Hpost Hnl Hlive Hpart Hpos Hbrk Hlim.
  pose proof (sorted_between _ _ bp sz _ Hs Hp Hpost) as Hs'. rewrite <- Hr in Hs'.
  assert (forall c, c ∈ pre -> c.1 < p.1) as Hpre.
  { intros c Hc. rewrite fmap_app in Hs. eapply StronglySorted_app_1_elem_of; [exact Hs| |].
    - by apply list_elem_of_fmap_2. - simpl. set_solver. }
  split; simpl; try done.
  - exists pre. split; [done|]. apply links_insert; [|done].
    intros (c & -> & Hc)%list_elem_of_fmap. specialize (Hpre c Hc). lia.
  - exists q. rewrite lookup_insert_ne by lia. done.
  - by rewrite lookup_insert_eq.
  - apply links_insert; [|done]. intros (c & -> & Hc)%list_elem_of_fmap.
    rewrite Forall_forall in Hpost. specialize (Hpost c Hc). simpl in Hpost. lia.
  - intros b Hb. rewrite lookup_insert_ne; [by apply Hlive|]. intros ->. apply Hnl. by apply list_elem_of_fmap_2.
Qed.

(** a block that is in use is put in its place, and joined with the one above *)
Lemma free_upper fs live s pre p post bp sz :
  heap_inv fs ((bp, sz) :: live) s -> ring fs = pre ++ p :: post ->
  p.1 < bp -> Forall (fun c => bp < c.1) post ->
  wp (hb ← get_hdr bp;
      hp ← get_hdr p.1;
      if bp + h_size hb =? h_ptr hp then
        hn ← get_hdr (h_ptr hp);
        set_hdr bp (Mk_header (h_ptr hn) (u32 (h_size hb + h_size hn)))
      else set_hdr bp (Mk_header (h_ptr hp) (h_size hb))) s
    (fun _ s' => exists fs1 sz' post', placed fs1 p bp sz' post' live s' /\ sz <= sz' /\
       (length (fs1 ++ post') <= length fs)%nat /\ s' = with_hdr s (m_hdr s')).
Proof using Hbase.
  intros HI Hr Hp Hpost. destruct (ring_split _ _ _ _ Hr) as (fs1 & Hr1 & ->).
  pose proof HI as [Hl Hs Hlive Hpart Hpos _ Hbrk Hlim]. pose proof (heap_nodup _ _ _ HI) as Hd.
  destruct (Hlive (bp, sz) ltac:(set_solver)) as [q0 Hb]. simpl in Hb.
  rewrite Hr in Hl, Hs, Hd. apply links_app in Hl as [Hl1 [Hlp Hl2]].
  assert (bp ∉ (pre ++ p :: post).*1 /\ bp ∉ live.*1) as [Hnr Hnl].
  { rewrite fmap_app, NoDup_app in Hd. destruct Hd as (_ & Hx & Hd). simpl in Hd. inversion Hd; subst.
    split; [|done]. intros Hin. apply (Hx _ Hin). simpl. set_solver. }
  apply wp_bind, (wp_get_hdr _ _ _ _ Hb). apply wp_bind, (wp_get_hdr _ _ _ _ Hlp). simpl.
  destruct (heap_inside _ _ _ (bp, sz) HI ltac:(set_solver)) as (Hsz & Hlo & Hhi). simpl in *.
  destruct (Z.eqb_spec (bp + sz) (first_addr post base)) as [E|E].
  - destruct post as [|c post]; simpl in E; [lia|]. destruct Hl2 as [Hc Hl2].
    destruct (heap_inside _ _ _ c HI ltac:(set_solver)) as (Hcz & _ & Hci).
    simpl. apply wp_bind, (wp_get_hdr _ _ _ _ Hc), wp_set_hdr. simpl.
    rewrite wrap_small by lia. exists fs1, (sz + c.2), post.
    split_and!; [|lia|rewrite !length_app; simpl; lia|done].
    apply Forall_cons in Hpost as [_ Hpost]. eapply placed_intro; eauto.
    + rewrite cons_middle, app_assoc in *. by apply sorted_drop in Hs.
    + intros b Hb'. apply Hlive. set_solver.
    + rewrite <- Hpart, perm_take. destruct c as [a n]; simpl in E, Hcz; subst a.
      rewrite !(units_app fs1). f_equiv. simpl app. by rewrite units_join by lia.
    + rewrite perm_take in Hpos. rewrite Forall_app in *. destruct Hpos as [H1 H2]. split; [done|].
      rewrite !Forall_cons in *. simpl in *. rewrite Forall_cons in H2. split; [lia|]. naive_solver.
  - apply wp_set_hdr. exists fs1, sz, post. split_and!; [|lia|done|done].
    eapply placed_intro; eauto; try done.
    + intros b Hb'. apply Hlive. set_solver.
    + by rewrite <- Hpart, perm_take.
    + by rewrite perm_take in Hpos.
Qed.

Lemma links_around h l1 p sz l2 nxt q :
  links h l1 p -> links h l2 nxt -> p ∉ l1.*1 -> p ∉ l2.*1 -> q = first_addr l2 nxt ->
  links (<[p := Mk_header q sz]> h) (l1 ++ (p, sz) :: l2) nxt.
Proof using.
  intros H1 H2 Hn1 Hn2 ->. apply links_app. split; [by apply links_insert|]. split; [|by apply links_insert].
  simpl. by rewrite lookup_insert_eq.
Qed.

(** the last block below and its neighbour become one block, or are linked *)
Lemma lower_joined pre p sz post live s :
  placed (pre ++ [p]) p (p.1 + p.2) sz post live s -> 0 < p.2 ->
  p.1 ∉ ((base, 0) :: pre).*1 -> p.1 ∉ post.*1 -> links (m_hdr s) ((base, 0) :: pre) p.1 ->
  (forall v b, b ∈ live -> exists q, <[p.1 := v]> (m_hdr s) !! b.1 = Some (Mk_header q b.2)) ->
  heap_inv (pre ++ (p.1, p.2 + sz) :: post) live
    (Mk_mstate (<[p.1 := Mk_header (first_addr post base) (p.2 + sz)]> (m_hdr s)) p.1 (m_brk s) (m_limit s)).
Proof using Hbase.
  intros HP Hp Hn1 Hn2 Hl Hlive.
  pose proof (proj1 (Forall_forall _ _) (pl_pos _ _ _ _ _ _ _ HP) (p.1 + p.2, sz) ltac:(set_solver)) as Hsz.
  simpl in Hsz.
  split; cbn [m_hdr m_freep m_brk m_limit]; try apply HP; try apply Hlive.
  - rewrite app_comm_cons. apply links_around; [done|apply HP|done|done|done].
  - pose proof (pl_sorted _ _ _ _ _ _ _ HP) as Hs. apply sorted_drop in Hs.
    rewrite <- app_comm_cons, <- app_assoc in Hs. rewrite !fmap_cons, !fmap_app in *. done.
  - rewrite <- (pl_part _ _ _ _ _ _ _ HP), <- !app_assoc, !(units_app pre). f_equiv.
    destruct p as [a n]. cbn [fst snd app] in *. by rewrite units_join by lia.
  - pose proof (pl_pos _ _ _ _ _ _ _ HP) as Hpos. rewrite <- app_assoc in *.
    rewrite Forall_app in *. destruct Hpos as [H1 H2]. split; [done|].
    simpl in *. rewrite !Forall_cons in *. simpl. split; [lia|]. naive_solver.
  - rewrite fmap_cons, fmap_app, fmap_cons. set_solver.
Qed.

Lemma lower_linked fs1 p bp sz post live s :
  placed fs1 p bp sz post live s -> p.1 ∉ bp :: post.*1 ->
  (forall pre, ring fs1 = pre ++ [p] -> p.1 ∉ pre.*1) ->
  (forall v b, b ∈ live -> exists q, <[p.1 := v]> (m_hdr s) !! b.1 = Some (Mk_header q b.2)) ->
  heap_inv (fs1 ++ (bp, sz) :: post) live
    (Mk_mstate (<[p.1 := Mk_header bp p.2]> (m_hdr s)) p.1 (m_brk s) (m_limit s)).
Proof using Hbase.
  intros HP Hn2 Hn1 Hlive. destruct (pl_pre _ _ _ _ _ _ _ HP) as (pre & Hr & Hl). specialize (Hn1 _ Hr).
  split; cbn [m_hdr m_freep m_brk m_limit]; try apply HP; try apply Hlive.
  - rewrite app_comm_cons, Hr, <- app_assoc. simpl app. destruct p as [a n].
    apply links_around; [done| |done|done|done]. split; apply HP.
  - rewrite <- app_assoc. apply HP.
  - rewrite <- app_assoc. apply HP.
  - rewrite app_comm_cons, Hr, !fmap_app. set_solver.
Qed.

(** it is joined with the block below *)
Lemma free_lower fs1 p bp sz post live s :
  placed fs1 p bp sz post live s ->
  wp (hb ← get_hdr bp;
      hp ← get_hdr p.1;
      (if p.1 + h_size hp =? bp then set_hdr p.1 (Mk_header (h_ptr hb) (u32 (h_size hp + h_size hb)))
       else set_hdr p.1 (Mk_header bp (h_size hp)));;
      set_freep p.1) s
    (fun _ s' => exists fs', heap_inv fs' live s' /\ (exists b, b ∈ fs' /\ sz <= b.2) /\
       (length fs' <= S (length (fs1 ++ post)))%nat /\ m_brk s' = m_brk s /\ m_limit s' = m_limit s).
Proof using Hbase.
  intros HP. pose proof HP as [(pre & Hr & Hpre) [q Hp] Hb Hpost Hs Hlive Hpart Hpos Hbrk Hlim].
  pose proof (part_nodup _ _ Hpart Hpos) as Hd.
  pose proof (part_inside _ _ (bp, sz) Hpart Hpos ltac:(set_solver)) as (Hsz & Hlo & Hhi). simpl in Hsz, Hlo, Hhi.
  apply wp_bind, (wp_get_hdr _ _ _ _ Hb). apply wp_bind, (wp_get_hdr _ _ _ _ Hp). simpl.
  assert (NoDup (pre.*1 ++ p.1 :: bp :: post.*1 ++ live.*1)) as Hd'.
  { assert (base :: (fs1 ++ (bp, sz) :: post ++ live).*1 = (ring fs1).*1 ++ bp :: post.*1 ++ live.*1) as E
      by (by rewrite fmap_app; simpl; rewrite fmap_app).
    rewrite E, Hr, fmap_app, <- app_assoc in Hd. done. }
  apply NoDup_app in Hd' as (_ & Hx & Hd'). apply NoDup_cons in Hd' as [Hnp _].
  assert (p.1 ∉ pre.*1) as Hnpre by (intros Hin; apply (Hx _ Hin); set_solver).
  assert (p.1 <> bp /\ p.1 ∉ post.*1 /\ p.1 ∉ live.*1) as (Hnb & Hnpost & Hnlive) by set_solver.
  assert (forall v b, b ∈ live -> exists q, <[p.1 := v]> (m_hdr s) !! b.1 = Some (Mk_header q b.2)) as Hlive'.
  { intros v b Hin. rewrite lookup_insert_ne; [by apply Hlive|]. intros Heq. apply Hnlive. rewrite Heq.
    by apply list_elem_of_fmap_2. }
  apply wp_bind. destruct (Z.eqb_spec (p.1 + p.2) bp) as [E|E]; apply wp_set_hdr, wp_modify; simpl.
  - destruct pre as [|c pre]; simpl in Hr; injection Hr as Hc Hr; [subst p; simpl in E; lia|]. subst c fs1 bp.
    destruct (part_inside _ _ p Hpart Hpos ltac:(set_solver)) as (Hpz & Hplo & _).
    rewrite wrap_small by lia. exists (pre ++ (p.1, p.2 + sz) :: post). split_and!; [|exists (p.1, p.2 + sz)| |..].
    + by apply lower_joined.
    + split; [set_solver|simpl; lia].
    + rewrite !length_app. simpl. lia.
    + done.
    + done.
  - exists (fs1 ++ (bp, sz) :: post). split_and!; [|exists (bp, sz)| |..].
    + apply lower_linked; [done|set_solver| |done]. intros pre' Hr'. rewrite Hr in Hr'.
      by apply app_inj_2 in Hr' as [<- _].
    + split; [set_solver|simpl; lia].
    + rewrite !length_app. simpl. lia.
    + done.
    + done.
Qed.

(** a block in use becomes free memory *)
Lemma free_spec fs live s bp sz :
  heap_inv fs ((bp, sz) :: live) s ->
  wp (free (bp + 1)) s (fun _ s' => exists fs', heap_inv fs' live s' /\ (exists b, b ∈ fs' /\ sz <= b.2) /\
    (length fs' <= S (length fs))%nat /\ m_brk s' = m_brk s /\ m_limit s' = m_limit s).
Proof using Hbase.
  intros HI. destruct (heap_inside _ _ _ (bp, sz) HI ltac:(set_solver)) as (_ & Hlo & _). simpl in Hlo.
  assert (bp ∉ (ring fs).*1) as Hn.
  { pose proof (heap_nodup _ _ _ HI) as Hd. rewrite fmap_app, NoDup_app in Hd. destruct Hd as (_ & Hd & _).
    intros Hin. apply (Hd _ Hin). simpl. set_solver. }
  destruct (sorted_split (ring fs) bp (hi_sorted _ _ _ HI) Hn) as (pre & p & post & Hr & Hp & Hpost); [simpl; lia|].
  unfold free, free_block. replace (bp + 1 - 1) with bp by lia. apply wp_bind, wp_ok.
  eexists _, _. split; [eapply free_find_finds; eauto; lia|].
  pose proof (free_upper _ _ _ _ _ _ _ _ HI Hr Hp Hpost) as HU.
  apply wp_bind. eapply wp_mono; [exact (wp_bind_inv _ _ _ _ HU)|]. intros hb s1 H1. cbv beta in H1.
  apply wp_bind. eapply wp_mono; [exact (wp_bind_inv _ _ _ _ H1)|]. intros hp s2 H2. cbv beta in H2.
  apply wp_bind. eapply wp_mono; [exact H2|]. intros _ s' (fs1 & sz' & post' & HP & Hz & Hlen & Hs').
  eapply wp_mono; [by apply free_lower|].
  intros _ s3 (fs' & HI' & (b & Hb & Hbz) & Hlen' & Hbrk & Hlim). exists fs'.
  split_and!; [done|exists b; split; [done|lia]|lia| |]; [rewrite Hbrk, Hs'|rewrite Hlim, Hs']; done.
Qed.

(** ** [malloc] *)

(** a free block comes into use, or the upper part of it; [c] is the block before *)
Lemma take_all fs live s pre c b post :
  heap_inv fs live s -> ring fs = pre ++ c :: b :: post ->
  exists fs', heap_inv fs' (b :: live)
    (Mk_mstate (<[c.1 := Mk_header (first_addr post base) c.2]> (m_hdr s)) c.1 (m_brk s) (m_limit s)).
Proof using Hbase.
  intros HI Hr. pose proof HI as [Hl Hs Hlive Hpart Hpos _ Hbrk Hlim].
  pose proof (heap_nodup _ _ _ HI) as Hd. rewrite Hr in Hl, Hs, Hd.
  apply links_app in Hl as [Hl1 [Hc [Hb Hl2]]]. destruct (ring_split _ _ _ _ Hr) as (fs1 & Hr1 & ->).
  rewrite fmap_app, fmap_app, !fmap_cons, <- app_assoc in Hd. simpl in Hd.
  apply NoDup_app in Hd as (_ & Hx & Hd). apply NoDup_cons in Hd as [Hnc _].
  assert (c.1 ∉ pre.*1) by (intros Hin; apply (Hx _ Hin); set_solver).
  assert (b.1 <> c.1 /\ c.1 ∉ post.*1 /\ c.1 ∉ live.*1) as (Hnb & Hnp & Hnl) by set_solver.
  exists (fs1 ++ post). split; cbn [m_hdr m_freep m_brk m_limit]; try done.
  - rewrite app_comm_cons, Hr1, <- app_assoc. simpl app. destruct c. by apply links_around.
  - rewrite app_comm_cons, Hr1. rewrite cons_middle, app_assoc in Hs. by apply sorted_drop in Hs.
  - intros d [->|Hd]%elem_of_cons; [rewrite lookup_insert_ne by done; by eexists|].
    rewrite lookup_insert_ne; [by apply Hlive|]. intros Heq. apply Hnl. rewrite Heq. by apply list_elem_of_fmap_2.
  - rewrite perm_take, <- Hpart, <- app_assoc. done.
  - rewrite perm_take. by rewrite <- app_assoc in Hpos.
  - rewrite app_comm_cons, Hr1, !fmap_app. set_solver.
Qed.

Lemma take_part fs live s pre c b post n q0 :
  heap_inv fs live s -> ring fs = pre ++ c :: b :: post -> 0 < n < b.2 ->
  exists fs', heap_inv fs' ((b.1 + (b.2 - n), n) :: live)
    (Mk_mstate (<[b.1 + (b.2 - n) := Mk_header q0 n]> (<[b.1 := Mk_header (first_addr post base) (b.2 - n)]> (m_hdr s)))
       c.1 (m_brk s) (m_limit s)).
Proof using Hbase.
  intros HI Hr Hn. pose proof HI as [Hl Hs Hlive Hpart Hpos _ Hbrk Hlim].
  pose proof (heap_nodup _ _ _ HI) as Hd. destruct (ring_split _ _ _ _ Hr) as (k & Hk & Hfs).
  destruct (heap_inside _ _ _ b HI ltac:(set_solver)) as (_ & Hblo & _).
  assert (b.1 + (b.2 - n) ∉ (ring fs ++ live).*1) as Hq.
  { intros Hin. simpl in Hin. apply elem_of_cons in Hin as [Hin|Hin]; [lia|]. revert Hin.
    apply (inside_fresh _ b); [rewrite Hpart; apply NoDup_seqZ|done|rewrite Hfs; set_solver|lia]. }
  rewrite Hr in Hl, Hs, Hd, Hq. rewrite cons_middle, app_assoc in Hl, Hs, Hd, Hq.
  apply links_app in Hl as [Hl1 [Hb Hl2]]. rewrite !fmap_app, fmap_cons in Hd, Hq.
  rewrite <- app_assoc in Hd. apply NoDup_app in Hd as (_ & Hx & Hd). simpl in Hd. apply NoDup_cons in Hd as [Hnb _].
  assert (b.1 ∉ (pre ++ [c]).*1) by (rewrite fmap_app; intros Hin; apply (Hx _ Hin); set_solver).
  assert (b.1 ∉ post.*1 /\ b.1 ∉ live.*1) as (Hnp & Hnl) by set_solver.
  exists (k ++ (b.1, b.2 - n) :: post). split; cbn [m_hdr m_freep m_brk m_limit]; try done.
  - rewrite app_comm_cons, Hk. apply links_insert; [|by apply links_around].
    rewrite !fmap_app, fmap_cons. simpl. set_solver.
  - rewrite app_comm_cons, Hk. rewrite !fmap_app, !fmap_cons in *. done.
  - intros d [->|Hd]%elem_of_cons; [simpl; rewrite lookup_insert_eq; by eexists|].
    assert (d.1 ∈ live.*1) by (by apply list_elem_of_fmap_2).
    rewrite !lookup_insert_ne by (intros Heq; set_solver). by apply Hlive.
  - rewrite perm_take, <- Hpart, Hfs, <- app_assoc, !(units_app k). f_equiv. simpl app.
    destruct b as [a m]; cbn [fst snd] in *. replace m with ((m - n) + n) at 3 by lia.
    rewrite <- units_join by lia. f_equiv. by rewrite perm_swap.
  - rewrite perm_take. rewrite Hfs, <- app_assoc, Forall_app in Hpos. rewrite Forall_app.
    destruct Hpos as [H1 H2]. split; [done|]. simpl in *. rewrite !Forall_cons in *. simpl.
    split_and!; try lia. naive_solver.
  - rewrite app_comm_cons, Hk, !fmap_app. set_solver.
Qed.

Lemma take_block_spec fs live s pre c b post n h :
  heap_inv fs live s -> ring fs = pre ++ c :: b :: post -> 0 < n <= b.2 -> m_hdr s !! b.1 = Some h ->
  wp (take_block c.1 b.1 h n) s (fun r s' => exists fs', 1 < r /\
    heap_inv fs' ((r - 1, n) :: live) s' /\ m_brk s' = m_brk s /\ m_limit s' = m_limit s).
Proof using Hbase.
  intros HI Hr Hn Hh. pose proof (hi_links _ _ _ HI) as Hl. rewrite Hr in Hl.
  apply links_app in Hl as [_ [Hc [Hb _]]]. assert (h = Mk_header (first_addr post base) b.2) as -> by congruence.
  assert (b ∈ fs) as Hbf by (destruct pre; simpl in Hr; injection Hr as _ ->; set_solver).
  destruct (heap_inside _ _ _ b HI ltac:(set_solver)) as (_ & Hblo & _).
  unfold take_block. cbn [h_size h_ptr]. apply wp_bind. destruct (Z.eqb_spec b.2 n) as [<-|E].
  - apply wp_bind, (wp_get_hdr _ _ _ _ Hc), wp_bind, wp_set_hdr, wp_ret, wp_bind, wp_modify, wp_ret.
    destruct (take_all _ _ _ _ _ _ _ HI Hr) as [fs' HI']. exists fs'. split; [lia|].
    replace (b.1 + 1 - 1, b.2) with b by (destruct b; simpl; f_equal; lia). done.
  - apply wp_bind, wp_set_hdr. cbv zeta. apply wp_bind, wp_gets, wp_bind, wp_set_hdr, wp_ret, wp_bind, wp_modify, wp_ret.
    destruct (take_part _ _ _ _ _ _ _ n (h_ptr (default (Mk_header 0 0)
      (<[b.1 := Mk_header (first_addr post base) (b.2 - n)]> (m_hdr s) !! (b.1 + (b.2 - n))))) HI Hr) as [fs' HI']; [lia|].
    exists fs'. split; [lia|]. replace (b.1 + (b.2 - n) + 1 - 1) with (b.1 + (b.2 - n)) by lia. done.
Qed.

(** the heap grows by a block in use *)
Lemma heap_grow fs live s nu :
  heap_inv fs live s -> 0 < nu -> m_brk s + nu <= m_limit s ->
  heap_inv fs ((m_brk s, nu) :: live)
    (Mk_mstate (<[m_brk s := Mk_header 0 nu]> (m_hdr s)) (m_freep s) (m_brk s + nu) (m_limit s)).
Proof using Hbase.
  intros HI Hnu Hlim. assert (forall b, b ∈ ring fs ++ live -> b.1 <> m_brk s) as Hne.
  { intros b [->|Hb]%elem_of_cons; [pose proof (hi_brk _ _ _ HI); simpl; lia|].
    pose proof (heap_inside _ _ _ _ HI Hb). lia. }
  pose proof HI as [Hl Hs Hlive Hpart Hpos Hfp Hbrk Hlim'].
  split; cbn [m_hdr m_freep m_brk m_limit]; try done.
  - apply links_insert; [|done]. intros (b & Hb & Hin)%list_elem_of_fmap. apply (Hne b); [set_solver|done].
  - intros b [->|Hb]%elem_of_cons; [simpl; rewrite lookup_insert_eq; by eexists|].
    rewrite lookup_insert_ne; [by apply Hlive|]. intros Heq. apply (Hne b); [set_solver|done].
  - rewrite <- Permutation_middle, units_cons, Hpart. simpl.
    replace (m_brk s + nu - lo) with ((m_brk s - lo) + nu) by lia. rewrite seqZ_app by lia.
    replace (lo + (m_brk s - lo)) with (m_brk s) by lia. apply Permutation_app_comm.
  - rewrite <- Permutation_middle. by constructor.
  - lia.
Qed.

Lemma morecore_spec fs live s n :
  heap_inv fs live s -> 0 < n -> n * sizeof_header < 2 ^ 31 ->
  wp (morecore n) s (fun p s' =>
    p = 0 /\ s' = s /\ m_limit s < m_brk s + Z.max n 4096 \/
    exists fs', p <> 0 /\ p = m_freep s' /\ heap_inv fs' live s' /\ (exists b, b ∈ fs' /\ n <= b.2) /\
      (length fs' <= S (length fs))%nat /\ m_limit s' = m_limit s).
Proof using Hbase.
  intros HI Hn Hw. unfold morecore. set (nu := if n <? 4096 then 4096 else n).
  assert (nu = Z.max n 4096) as Hnu by (subst nu; destruct (Z.ltb_spec n 4096); lia).
  apply wp_bind, wp_ok. rewrite sbrk_eq by (unfold sizeof_header in *; lia).
  destruct (Z.ltb_spec (m_limit s) (m_brk s + nu)) as [Hl|Hl]; eexists _, _; (split; [done|]).
  { apply wp_ret. left. by rewrite <- Hnu. }
  apply wp_bind, wp_set_hdr, wp_bind. eapply wp_mono; [apply free_spec, (heap_grow _ _ _ nu HI); lia|].
  intros _ s' (fs' & HI' & (b & Hb & Hbz) & Hlen & _ & Hlim). apply wp_gets. right. exists fs'.
  split_and!; [|done|done|exists b; split; [done|lia]|done|done].
  pose proof (hi_freep _ _ _ HI') as (c & -> & [->|Hc]%elem_of_cons)%list_elem_of_fmap; [simpl; lia|].
  pose proof (heap_inside _ _ _ c HI' ltac:(set_solver)). lia.
Qed.

(** ** The loop of [malloc] *)

Lemma ring_next fs h c q b :
  links h (ring fs) base -> NoDup (ring fs).*1 -> c ∈ ring fs -> h !! c.1 = Some (Mk_header b.1 q) ->
  b ∈ fs -> exists pre post, ring fs = pre ++ c :: b :: post.
Proof using Hbase.
  intros Hl Hd Hc Hh Hb. apply list_elem_of_split in Hc as (pre & post & E). rewrite E in Hl, Hd.
  apply links_app in Hl as [_ [Hc _]]. rewrite Hh in Hc. injection Hc as Hc _.
  destruct post as [|b' post]; simpl in Hc.
  - exfalso. rewrite <- E in Hd. simpl in Hd. apply NoDup_cons in Hd as [Hd _]. apply Hd. rewrite <- Hc.
    by apply list_elem_of_fmap_2.
  - exists pre, post. rewrite E. do 2 f_equal. rewrite <- E in Hd.
    assert (b' = b) as ->; [|done].
    assert (b ∈ ring fs) as [i Hi]%list_elem_of_lookup by set_solver.
    assert (b' ∈ ring fs) as [j Hj]%list_elem_of_lookup by (rewrite E; set_solver).
    assert (i = j); [|congruence]. apply (NoDup_lookup _ _ _ b.1 Hd).
    + rewrite list_lookup_fmap, Hi. done.
    + rewrite list_lookup_fmap, Hj, Hc. done.
Qed.

(** the blocks in the order in which the loop meets them, which starts behind
    the block [c] of [freep] and ends with it *)
Lemma ring_order fs live s :
  heap_inv fs live s ->
  exists c l, c.1 = m_freep s /\ c :: l ≡ₚ ring fs /\ links (m_hdr s) (c :: l) c.1 /\
    m_hdr s !! c.1 = Some (Mk_header (first_addr l c.1) c.2) /\
    Forall (fun b => b.1 <> m_freep s) l /\ (length (c :: l) <= size (m_hdr s))%nat.
Proof using Hbase.
  intros HI. pose proof (hi_freep _ _ _ HI) as (c & Hc & Hin)%list_elem_of_fmap.
  destruct (ring_from _ _ _ (hi_links _ _ _ HI) Hin) as (l & Hl & Hlk). exists c, l.
  pose proof (heap_nodup _ _ _ HI) as Hd. rewrite fmap_app in Hd. apply NoDup_app in Hd as [Hd _].
  split_and!; [done|done|done|by destruct Hlk| |].
  - rewrite <- Hl in Hd. apply NoDup_cons in Hd as [Hd _]. apply Forall_forall. intros b Hb Heq. apply Hd.
    rewrite <- Hc, <- Heq. by apply list_elem_of_fmap_2.
  - rewrite (Permutation_length Hl). eapply links_size; [apply HI|done].
Qed.

(** when there is a block that is large enough, the loop finds one *)
Lemma malloc_found fs live s n c l l1 b l2 fuel :
  heap_inv fs live s -> c :: l ≡ₚ ring fs -> links (m_hdr s) (c :: l) c.1 ->
  Forall (fun b => b.1 <> m_freep s) l -> 0 < n ->
  l ++ [c] = l1 ++ b :: l2 -> n <= b.2 -> Forall (fun b => b.2 < n) l1 -> (length l < fuel)%nat ->
  wp (loop fuel (malloc_turn n) (c.1, first_addr l c.1)) s (fun r s' => exists fs', 1 < r /\
    heap_inv fs' ((r - 1, n) :: live) s' /\ m_brk s' = m_brk s /\ m_limit s' = m_limit s).
Proof using Hbase.
  intros HI Hl Hlk Hfp Hn E Hb Hsm Hfuel.
  assert (links (m_hdr s) ((c :: l1) ++ b :: l2) (first_addr l c.1)) as Hlk'.
  { rewrite <- app_comm_cons, <- E, app_comm_cons. apply links_app. split; [done|]. by destruct Hlk. }
  assert (forall d, d ∈ l1 ++ b :: l2 -> d ∈ ring fs) as Hsub.
  { intros d. rewrite <- E, <- Hl. set_solver. }
  assert (l1 = take (length l1) l) as Hl1.
  { pose proof (f_equal length E) as Hlen. rewrite !length_app in Hlen. simpl in Hlen.
    rewrite <- (take_app_le l [c]), E, take_app_length by lia. done. }
  assert (length l1 <= length l)%nat as Hle by (rewrite Hl1, length_take; lia).
  assert (b ∈ fs) as Hbf.
  { assert (b ∈ ring fs) as [->|]%elem_of_cons by (apply Hsub; set_solver); [simpl in Hb; lia|done]. }
  destruct (exists_last (l := c :: l1)) as (k & c' & Hk); [done|].
  assert (c' ∈ ring fs) as Hc'.
  { assert (c' ∈ c :: l1) as [->|Hin]%elem_of_cons by (rewrite Hk; set_solver).
    - rewrite <- Hl. set_solver. - apply Hsub. set_solver. }
  assert (last_addr c.1 l1 = c'.1) as Hlast by (by rewrite <- (last_addr_snoc 0 k c'), <- Hk).
  assert (links (m_hdr s) l1 b.1) as Hlk1 by (by apply links_app in Hlk' as [[_ ?] _]).
  rewrite Hk, <- app_assoc in Hlk'. apply links_app in Hlk' as [_ [Hh [Hhb _]]]. simpl in Hh.
  pose proof (heap_nodup _ _ _ HI) as Hd. rewrite fmap_app in Hd. apply NoDup_app in Hd as [Hd _].
  destruct (ring_next _ _ _ _ _ (hi_links _ _ _ HI) Hd Hc' Hh Hbf) as (pre & post & Hr).
  replace fuel with (length l1 + S (fuel - length l1 - 1))%nat by lia.
  replace (first_addr l c.1) with (first_addr l1 b.1)
    by (change b.1 with (first_addr (b :: l2) 0); rewrite <- first_addr_app, <- E; by rewrite first_addr_app).
  apply wp_ok. rewrite malloc_walk; [|done|].
  - apply wp_ok, wp_bind. rewrite Hlast. cbn [malloc_turn]. apply wp_bind, (wp_get_hdr _ _ _ _ Hhb). cbn [h_size].
    destruct (Z.leb_spec n b.2); [|lia]. apply wp_bind.
    eapply wp_mono; [by eapply take_block_spec|]. intros r s' Hq. by do 2 apply wp_ret.
  - rewrite Forall_forall in *. intros d Hdl. split; [by apply Hsm|]. apply Hfp. rewrite Hl1 in Hdl.
    by apply elem_of_take in Hdl as (? & ?%list_elem_of_lookup_2 & _).
Qed.

Lemma malloc_loop fs live s n hp :
  heap_inv fs live s -> 0 < n -> n * sizeof_header < 2 ^ 31 -> m_hdr s !! m_freep s = Some hp ->
  wp (loop (2 * S (size (m_hdr s)) + 2) (malloc_turn n) (m_freep s, h_ptr hp)) s (fun r s' =>
    r = 0 /\ s' = s /\ m_limit s < m_brk s + Z.max n 4096 /\ Forall (fun b => b.2 < n) fs \/
    exists fs', 1 < r /\ heap_inv fs' ((r - 1, n) :: live) s' /\ m_limit s' = m_limit s).
Proof using Hbase.
  intros HI Hn Hw Hhp. destruct (ring_order _ _ _ HI) as (c & l & Hc & Hl & Hlk & Hh & Hfp & Hsz).
  assert (hp = Mk_header (first_addr l c.1) c.2) as -> by (rewrite Hc in Hh; congruence). cbn [h_ptr].
  destruct (first_fit n (l ++ [c])) as [(l1 & b & l2 & E & Hb & Hsm)|Hsm].
  { rewrite <- Hc at 1. eapply wp_mono; [eapply malloc_found; eauto|].
    - simpl in Hsz. lia.
    - intros r s' (fs' & Hr & HI' & _ & Hlim). right. eauto. }
  apply Forall_app in Hsm as [Hsm Hsc]. apply Forall_cons in Hsc as [Hsc _]. simpl in Hsc.
  simpl in Hsz. replace (2 * S (size (m_hdr s)) + 2)%nat with (length l + S (2 * size (m_hdr s) + 3 - length l))%nat by lia.
  apply wp_ok. rewrite malloc_walk; [|by destruct Hlk|apply Forall_and; split; done].
  apply wp_ok, wp_bind. cbn [malloc_turn]. apply wp_bind, (wp_get_hdr _ _ _ _ Hh). cbn [h_size].
  destruct (Z.leb_spec n c.2); [lia|]. apply wp_bind, wp_gets. rewrite Hc, Z.eqb_refl.
  apply wp_bind. eapply wp_mono; [by apply (morecore_spec _ _ _ _ HI)|].
  intros p s' [(-> & -> & Hlim)|(fs' & Hp & Hpf & HI' & (d & Hd & Hdz) & Hlen & Hlim)].
  - do 2 apply wp_ret. left. split_and!; [done|done|done|].
    assert (Forall (fun b => b.2 < n) (ring fs)) as [_ H']%Forall_cons; [|done].
    rewrite <- Hl. by constructor.
  - pose proof (Permutation_length Hl) as Hn1. destruct (Z.eqb_spec p 0); [done|].
    destruct (ring_order _ _ _ HI') as (c' & l' & Hc' & Hl' & Hlk' & Hh' & Hfp' & Hsz').
    rewrite Hpf. rewrite <- Hc' at 1. apply wp_bind, (wp_get_hdr _ _ _ _ Hh'). cbn [h_ptr]. apply wp_ret.
    destruct (first_fit n (l' ++ [c'])) as [(l1 & b & l2 & E & Hb & Hsm')|Hsm'].
    + rewrite <- Hc'. eapply wp_mono; [eapply malloc_found; eauto|].
      * pose proof (Permutation_length Hl'). simpl in *. lia.
      * intros r s'' (fs'' & Hr & HI'' & _ & Hlim'). right. exists fs''. split_and!; [done|done|congruence].
    + exfalso. assert (d ∈ c' :: l') as Hin by (rewrite Hl'; set_solver).
      rewrite Forall_forall in Hsm'. specialize (Hsm' d ltac:(set_solver)). simpl in Hsm'. lia.
Qed.

(** ** Requests *)

Lemma heap_perm fs live live' s : live ≡ₚ live' -> heap_inv fs live s -> heap_inv fs live' s.
Proof using.
  intros Hp [Hl Hs Hlive Hpart Hpos Hfp Hbrk Hlim]. split; try done.
  - intros b. rewrite <- Hp. apply Hlive.
  - by rewrite <- Hp.
  - by rewrite <- Hp.
Qed.

(** the allocator before its first use, or with its ring *)
Definition allocator (live : list block) (s : mstate) : Prop :=
  (m_freep s = 0 /\ live = [] /\ m_brk s = lo /\ lo <= m_limit s < 2 ^ 32) \/
  exists fs, heap_inv fs live s.

Lemma nunits_eq nbytes :
  0 <= nbytes < 2 ^ 31 - 32 ->
  0 < nunits nbytes /\ nunits nbytes * sizeof_header < 2 ^ 31 /\
  nbytes <= (nunits nbytes - 1) * sizeof_header < nbytes + sizeof_header.
Proof using.
  unfold nunits, sizeof_header. intros H. pose proof (Z.div_mod (nbytes + 16 - 1) 16 ltac:(lia)).
  pose proof (Z.mod_pos_bound (nbytes + 16 - 1) 16 ltac:(lia)).
  rewrite wrap_small; lia.
Qed.

Lemma malloc_spec live s nbytes :
  allocator live s -> 0 <= nbytes < 2 ^ 31 - 32 ->
  wp (malloc base nbytes) s (fun p s' =>
    m_limit s' = m_limit s /\
    (p = 0 /\ allocator live s' /\ m_limit s < m_brk s + Z.max (nunits nbytes) 4096 \/
     1 < p /\ allocator ((p - 1, nunits nbytes) :: live) s')).
Proof using Hbase.
  intros HA Hn. destruct (nunits_eq _ Hn) as (Hpos & Hmax & _).
  assert (forall fs s, heap_inv fs live s -> 
    wp (prevp ← get_freep; hp ← get_hdr prevp; fuel ← ring_fuel;
        loop (2 * fuel + 2) (malloc_turn (nunits nbytes)) (prevp, h_ptr hp)) s (fun p s' =>
      m_limit s' = m_limit s /\
      (p = 0 /\ allocator live s' /\ m_limit s < m_brk s + Z.max (nunits nbytes) 4096 \/
       1 < p /\ allocator ((p - 1, nunits nbytes) :: live) s'))) as Hloop.
  { clear s HA. intros fs s HI. destruct (ring_order _ _ _ HI) as (c & l & Hc & _ & _ & Hh & _).
    apply wp_bind, wp_gets, wp_bind. rewrite <- Hc. apply (wp_get_hdr _ _ _ _ Hh), wp_bind, wp_gets.
    rewrite Hc in Hh |- *. eapply wp_mono; [by eapply malloc_loop|].
    intros p s' [(-> & -> & Hlim & _)|(fs' & Hp & HI' & Hlim)]; (split; [done|]); [left|right];
      split_and!; try done; by right; eexists. }
  unfold malloc. apply wp_bind, wp_gets. destruct HA as [(Hf & -> & Hb & Hlim)|[fs HI]].
  - rewrite Hf. simpl. apply wp_bind, wp_bind, wp_set_hdr, wp_modify. simpl.
    refine (Hloop [] _ _). split; simpl; try done.
    + rewrite lookup_insert_eq. done.
    + repeat constructor.
    + intros b Hin. by apply elem_of_nil in Hin.
    + by rewrite Hb, Z.sub_diag.
    + set_solver.
    + lia.
    + lia.
  - assert (m_freep s <> 0).
    { pose proof (hi_freep _ _ _ HI) as (c & -> & [->|Hc]%elem_of_cons)%list_elem_of_fmap; [simpl; lia|].
      pose proof (heap_inside _ _ _ c HI ltac:(set_solver)). lia. }
    destruct (Z.eqb_spec (m_freep s) 0); [done|]. apply wp_bind, wp_ret. by apply (Hloop fs).
Qed.

(** ** Histories of a program

    A program that uses the allocator knows the pointers it got and the sizes
    it asked for; it frees only what it has. *)

Inductive mop := Mmalloc (nbytes : Z) | Mfree (i : nat).

Definition mop_ok (op : mop) : Prop :=
  match op with Mmalloc nbytes => 0 <= nbytes < 2 ^ 31 - 32 | Mfree _ => True end.

Definition client (op : mop) (ptrs : list (Z * Z)) : MS (list (Z * Z)) :=
  match op with
  | Mmalloc nbytes => p ← malloc base nbytes; mret (if p =? 0 then ptrs else (p, nbytes) :: ptrs)
  | Mfree i =>
      match ptrs !! i with
      | None => mret ptrs
      | Some (p, _) => free p;; mret (delete i ptrs)
      end
  end.

Fixpoint history (ops : list mop) (ptrs : list (Z * Z)) : MS (list (Z * Z)) :=
  match ops with [] => mret ptrs | op :: ops => ptrs ← client op ptrs; history ops ptrs end.

(** the block that belongs to a pointer: its header and its data *)
Definition block_of (x : Z * Z) : block := (x.1 - 1, nunits x.2).

Lemma client_spec op ptrs s :
  allocator (block_of <$> ptrs) s -> mop_ok op ->
  Forall (fun x => 0 <= x.2 < 2 ^ 31 - 32) ptrs ->
  wp (client op ptrs) s (fun ptrs' s' => m_limit s' = m_limit s /\
    allocator (block_of <$> ptrs') s' /\ Forall (fun x => 0 <= x.2 < 2 ^ 31 - 32) ptrs').
Proof using Hbase.
  intros HA Hok Hf. destruct op as [nbytes|i]; simpl.
  - apply wp_bind. eapply wp_mono; [by apply malloc_spec|]. intros p s' [Hlim [(-> & HA' & _)|[Hp HA']]]; apply wp_ret; simpl.
    + done.
    + destruct (Z.eqb_spec p 0); [lia|]. split_and!; [done|done|]. by constructor.
  - destruct (ptrs !! i) as [[p n]|] eqn:Hi; [|by apply wp_ret].
    pose proof (delete_Permutation _ _ _ Hi) as Hperm.
    destruct HA as [(_ & He & _)|[fs HI]]; [by apply fmap_nil_inv in He; subst|].
    apply (heap_perm fs _ (block_of <$> (p, n) :: delete i ptrs)) in HI; [|by rewrite <- Hperm].
    apply wp_bind. replace p with (p - 1 + 1) at 1 by lia. eapply wp_mono; [eapply free_spec; exact HI|].
    intros _ s' (fs' & HI' & _ & _ & _ & Hlim). apply wp_ret. split_and!; [done|right; eauto|].
    rewrite Hperm in Hf. by apply Forall_cons in Hf as [_ Hf].
Qed.

Lemma history_spec ops ptrs s :
  allocator (block_of <$> ptrs) s -> Forall mop_ok ops ->
  Forall (fun x => 0 <= x.2 < 2 ^ 31 - 32) ptrs ->
  wp (history ops ptrs) s (fun ptrs' s' => m_limit s' = m_limit s /\
    allocator (block_of <$> ptrs') s' /\ Forall (fun x => 0 <= x.2 < 2 ^ 31 - 32) ptrs').
Proof using Hbase.
  revert ptrs s. induction ops as [|op ops IH]; intros ptrs s HA Hops Hf; simpl; [by apply wp_ret|].
  apply Forall_cons in Hops as [Hop Hops]. apply wp_bind. eapply wp_mono; [by apply client_spec|].
  intros ptrs' s' (Hlim & HA' & Hf'). rewrite <- Hlim. by apply IH.
Qed.
End Heap.

(** C37. However a program mixes [malloc] and [free], every call returns, and
    afterwards the heap consists exactly of the free blocks and of the blocks
    the program holds: no unit of memory is in two blocks and none is lost.
    Each block lies in the heap, with its header, and has room for the bytes
    that were asked for. *)
Theorem malloc_history base lo limit ops :
  0 < base < lo -> lo <= limit < 2 ^ 32 -> Forall mop_ok ops ->
  wp (history base ops []) (Mk_mstate ∅ 0 lo limit) (fun ptrs s' =>
    exists fs, units (fs ++ (block_of <$> ptrs)) ≡ₚ seqZ lo (m_brk s' - lo) /\ m_brk s' <= limit /\
      Forall (fun '(p, nbytes) => lo < p /\ p * sizeof_header + nbytes <= m_brk s' * sizeof_header) ptrs).
Proof.
  intros Hb Hlim Hops. eapply wp_mono.
  - apply (history_spec base lo Hb ops []); [left; simpl; split_and!; done || lia|done|done].
  - simpl. intros ptrs s' (Hl & [(_ & He & Hbrk & _)|[fs HI]] & Hf).
    + apply fmap_nil_inv in He as ->. exists []. rewrite Hbrk, Z.sub_diag. split_and!; [done|lia|done].
    + exists fs. pose proof (hi_brk _ _ _ _ _ HI). split_and!; [apply HI|lia|].
      rewrite Forall_forall in *. intros [p n] Hin. specialize (Hf _ Hin). simpl in Hf.
      destruct (nunits_eq _ Hf) as (_ & _ & Hroom).
      assert (block_of (p, n) ∈ fs ++ (block_of <$> ptrs)) as Hb' by (apply elem_of_app; right; by apply list_elem_of_fmap_2).
      destruct (heap_inside _ _ _ _ _ _ HI Hb') as (_ & H1 & H2). simpl in H1, H2. unfold sizeof_header in *. lia.
Qed.
