(* ===== verification/UtBasic.v ===== *)
(** * usertests.c: arguments of system calls, files, processes

    The tests of [usertests.c] up to [forktest].  A test is a user
    program that gets its name and ends with [exit(1)] when a check fails; it
    runs in a process of its own, so the buffer [buf] starts out as zeros.
    [turns] bounds the loops that end only with the answers of the kernel, and
    [junk] is the value of a variable that has not been initialised. *)

From S2P Require Import Prelude Monad CString Types Printf File Ulib Utils Umalloc.
From stdpp Require Import base numbers list strings gmap.
From Stdlib Require Import ZArith Lia.

Open Scope Z_scope.

Definition BUFSZ : Z := (MAXOPBLOCKS + 2) * BSIZE.
Definition ubuf : list Z := replicate (Z.to_nat BUFSZ) 0.

(** the shape of the checks: a message and [exit(1)] *)
Definition fail_if (b : bool) (fmt : list Z) (ap : list parg) : uprog unit :=
  uwhen b (uprintf fmt ap;; uexit 1).

Definition O_CRW : Z := Z.lor O_CREATE O_RDWR.
Definition O_CWR : Z := Z.lor O_CREATE O_WRONLY.
Definition O_CTW : Z := Z.lor (Z.lor O_CREATE O_TRUNC) O_WRONLY.

(** [s] as an argument of [printf] *)
Definition who (s : list Z) : parg := AStr (Some s).

Section Basic.
Context (turns : nat) (junk : Z).

(** ** Pointers that are not valid *)

Definition copyin_addrs : list Z :=
  [0x80000000; 0x3fffffe000; 0x3ffffff000; 0x4000000000; 0xffffffffffffffff].

Definition t_copyin (s : list Z) : uprog unit :=
  ueach (fun addr =>
    fd ← usys (Uopen (chars "copyin1") O_CWR);
    fail_if (fd <? 0) (text "open(copyin1) failed") [];;
    n ← usys (Uwrite_at fd addr 8192);
    fail_if (0 <=? n) (text "write(fd, %p, 8192) returned %d, not -1") [ANum addr; ANum n];;
    udo (Uclose fd);;
    udo (Uunlink (chars "copyin1"));;
    n ← usys (Uwrite_at 1 addr 8192);
    fail_if (0 <? n) (text "write(1, %p, 8192) returned %d, not -1 or 0") [ANum addr; ANum n];;
    x ← upipe;
    fail_if (x.1 <? 0) (text "pipe() failed") [];;
    n ← usys (Uwrite_at x.2.2 addr 8192);
    fail_if (0 <? n) (text "write(pipe, %p, 8192) returned %d, not -1 or 0") [ANum addr; ANum n];;
    udo (Uclose x.2.1);;
    udo (Uclose x.2.2)) copyin_addrs.

Definition t_copyout (s : list Z) : uprog unit :=
  ueach (fun addr =>
    fd ← usys (Uopen (chars "README") 0);
    fail_if (fd <? 0) (text "open(README) failed") [];;
    n ← usys (Uread_at fd addr 8192);
    fail_if (0 <? n) (text "read(fd, %p, 8192) returned %d, not -1 or 0") [ANum addr; ANum n];;
    udo (Uclose fd);;
    x ← upipe;
    fail_if (x.1 <? 0) (text "pipe() failed") [];;
    n ← usys (Uwrite x.2.2 (chars "x"));
    fail_if (negb (n =? 1)) (text "pipe write failed") [];;
    n ← usys (Uread_at x.2.1 addr 8192);
    fail_if (0 <? n) (text "read(pipe, %p, 8192) returned %d, not -1 or 0") [ANum addr; ANum n];;
    udo (Uclose x.2.1);;
    udo (Uclose x.2.2)) (0 :: copyin_addrs).

Definition t_copyinstr1 (s : list Z) : uprog unit :=
  ueach (fun addr =>
    fd ← usys (Uopen_at addr O_CWR);
    fail_if (0 <=? fd) (text "open(%p) returned %d, not -1") [ANum addr; ANum fd]) copyin_addrs.

Definition t_copyinstr2 (s : list Z) : uprog unit :=
  let b := replicate (Z.to_nat MAXPATH) 120 in
  ret ← usys (Uunlink b);
  fail_if (negb (ret =? -1)) (text "unlink(%s) returned %d, not -1") [AStr (Some b); ANum ret];;
  fd ← usys (Uopen b O_CWR);
  fail_if (negb (fd =? -1)) (text "open(%s) returned %d, not -1") [AStr (Some b); ANum fd];;
  ret ← usys (Ulink b b);
  fail_if (negb (ret =? -1)) (text "link(%s, %s) returned %d, not -1")
    [AStr (Some b); AStr (Some b); ANum ret];;
  ret ← usys (Uexec b [chars "xx"]);
  fail_if (negb (ret =? -1)) (text "exec(%s) returned %d, not -1") [AStr (Some b); ANum fd];;
  pid ← usys Ufork;
  fail_if (pid <? 0) (text "fork failed") [];;
  uwhen (pid =? 0)
    (let big := replicate (Z.to_nat PGSIZE) 120 in
     ret ← usys (Uexec (chars "echo") [big; big; big]);
     fail_if (negb (ret =? -1)) (text "exec(echo, BIG) returned %d, not -1") [ANum fd];;
     uexit 747);;
  w ← uwait 0;
  fail_if (negb (w.2 =? 747)) (text "exec(echo, BIG) succeeded, should have failed") [].

(** a check whose message shows the string at the address [b] *)
Definition fail_str (c : bool) (b : Z) (fmt : list Z) (ap : list Z -> list parg) : uprog unit :=
  uwhen c (x ← ucall_ (Uloadstr b); uprintf fmt (ap (a_data x));; uexit 1).

Definition t_copyinstr3 (s : list Z) : uprog unit :=
  usbrk 8192;;
  top ← usbrk 0;
  uwhen (negb (top mod PGSIZE =? 0)) (usbrk (PGSIZE - top mod PGSIZE);; mret tt);;
  top ← usbrk 0;
  fail_if (negb (top mod PGSIZE =? 0)) (text "oops") [];;
  let b := u64 (top - 1) in
  udo (Ustore b [120]);;
  ret ← usys (Uunlink_at b);
  fail_str (negb (ret =? -1)) b (text "unlink(%s) returned %d, not -1") (fun x => [AStr (Some x); ANum ret]);;
  fd ← usys (Uopen_at b O_CWR);
  fail_str (negb (fd =? -1)) b (text "open(%s) returned %d, not -1") (fun x => [AStr (Some x); ANum fd]);;
  ret ← usys (Ulink_at (inr b) (inr b));
  fail_str (negb (ret =? -1)) b (text "link(%s, %s) returned %d, not -1")
    (fun x => [AStr (Some x); AStr (Some x); ANum ret]);;
  ret ← usys (Uexec_at (inr b) [inl (chars "xx")]);
  fail_str (negb (ret =? -1)) b (text "exec(%s) returned %d, not -1") (fun x => [AStr (Some x); ANum fd]).

Definition t_rwsbrk (s : list Z) : uprog unit :=
  a ← usbrk 8192;
  fail_if (a =? SBRK_ERROR) (text "sbrk(rwsbrk) failed") [];;
  r ← usbrk (-8192);
  fail_if (r =? SBRK_ERROR) (text "sbrk(rwsbrk) shrink failed") [];;
  fd ← usys (Uopen (chars "rwsbrk") O_CWR);
  fail_if (fd <? 0) (text "open(rwsbrk) failed") [];;
  n ← usys (Uwrite_at fd (u64 (a + PGSIZE)) 1024);
  fail_if (0 <=? n) (text "write(fd, %p, 1024) returned %d, not -1") [ANum (u64 (a + PGSIZE)); ANum n];;
  udo (Uclose fd);;
  udo (Uunlink (chars "rwsbrk"));;
  fd ← usys (Uopen (chars "README") O_RDONLY);
  fail_if (fd <? 0) (text "open(README) failed") [];;
  n ← usys (Uread_at fd (u64 (a + PGSIZE)) 10);
  fail_if (0 <=? n) (text "read(fd, %p, 10) returned %d, not -1") [ANum (u64 (a + PGSIZE)); ANum n];;
  udo (Uclose fd);;
  uexit 0.

(** ** O_TRUNC *)

Definition t_truncate1 (s : list Z) : uprog unit :=
  udo (Uunlink (chars "truncfile"));;
  fd1 ← usys (Uopen (chars "truncfile") (Z.lor (Z.lor O_CREATE O_WRONLY) O_TRUNC));
  udo (Uwrite fd1 (chars "abcd"));;
  udo (Uclose fd1);;
  fd2 ← usys (Uopen (chars "truncfile") O_RDONLY);
  n ← usys (Uread fd2 32);
  fail_if (negb (n =? 4)) (text "%s: read %d bytes, wanted 4") [who s; ANum n];;
  fd1 ← usys (Uopen (chars "truncfile") (Z.lor O_WRONLY O_TRUNC));
  fd3 ← usys (Uopen (chars "truncfile") O_RDONLY);
  n ← usys (Uread fd3 32);
  uwhen (negb (n =? 0))
    (uprintf (text "aaa fd3=%d") [ANum fd3];;
     uprintf (text "%s: read %d bytes, wanted 0") [who s; ANum n];; uexit 1);;
  n ← usys (Uread fd2 32);
  uwhen (negb (n =? 0))
    (uprintf (text "bbb fd2=%d") [ANum fd2];;
     uprintf (text "%s: read %d bytes, wanted 0") [who s; ANum n];; uexit 1);;
  udo (Uwrite fd1 (chars "abcdef"));;
  n ← usys (Uread fd3 32);
  fail_if (negb (n =? 6)) (text "%s: read %d bytes, wanted 6") [who s; ANum n];;
  n ← usys (Uread fd2 32);
  fail_if (negb (n =? 2)) (text "%s: read %d bytes, wanted 2") [who s; ANum n];;
  udo (Uunlink (chars "truncfile"));;
  udo (Uclose fd1);;
  udo (Uclose fd2);;
  udo (Uclose fd3).

Definition t_truncate2 (s : list Z) : uprog unit :=
  udo (Uunlink (chars "truncfile"));;
  fd1 ← usys (Uopen (chars "truncfile") O_CTW);
  udo (Uwrite fd1 (chars "abcd"));;
  fd2 ← usys (Uopen (chars "truncfile") (Z.lor O_TRUNC O_WRONLY));
  n ← usys (Uwrite fd1 (chars "x"));
  fail_if (negb (n =? -1)) (text "%s: write returned %d, expected -1") [who s; ANum n];;
  udo (Uunlink (chars "truncfile"));;
  udo (Uclose fd1);;
  udo (Uclose fd2).

Definition t_truncate3 (s : list Z) : uprog unit :=
  fd ← usys (Uopen (chars "truncfile") O_CTW);
  udo (Uclose fd);;
  pid ← usys Ufork;
  fail_if (pid <? 0) (text "%s: fork failed") [who s];;
  uwhen (pid =? 0)
    (ueach (fun _ =>
       fd ← usys (Uopen (chars "truncfile") O_WRONLY);
       fail_if (fd <? 0) (text "%s: open failed") [who s];;
       n ← usys (Uwrite fd (chars "1234567890"));
       fail_if (negb (n =? 10)) (text "%s: write got %d, expected 10") [who s; ANum n];;
       udo (Uclose fd);;
       fd ← usys (Uopen (chars "truncfile") O_RDONLY);
       udo (Uread fd 32);;
       udo (Uclose fd)) (seqZ 0 100);;
     uexit 0);;
  ueach (fun _ =>
    fd ← usys (Uopen (chars "truncfile") (Z.lor (Z.lor O_CREATE O_WRONLY) O_TRUNC));
    fail_if (fd <? 0) (text "%s: open failed") [who s];;
    n ← usys (Uwrite fd (chars "xxx"));
    fail_if (negb (n =? 3)) (text "%s: write got %d, expected 3") [who s; ANum n];;
    udo (Uclose fd)) (seqZ 0 150);;
  w ← uwait junk;
  udo (Uunlink (chars "truncfile"));;
  uexit w.2.

(** ** Directories and inodes *)

Definition t_iputtest (s : list Z) : uprog unit :=
  r ← usys (Umkdir (chars "iputdir"));
  fail_if (r <? 0) (text "%s: mkdir failed") [who s];;
  r ← usys (Uchdir (chars "iputdir"));
  fail_if (r <? 0) (text "%s: chdir iputdir failed") [who s];;
  r ← usys (Uunlink (chars "../iputdir"));
  fail_if (r <? 0) (text "%s: unlink ../iputdir failed") [who s];;
  r ← usys (Uchdir (chars "/"));
  fail_if (r <? 0) (text "%s: chdir / failed") [who s].

Definition t_exitiputtest (s : list Z) : uprog unit :=
  pid ← usys Ufork;
  fail_if (pid <? 0) (text "%s: fork failed") [who s];;
  uwhen (pid =? 0)
    (r ← usys (Umkdir (chars "iputdir"));
     fail_if (r <? 0) (text "%s: mkdir failed") [who s];;
     r ← usys (Uchdir (chars "iputdir"));
     fail_if (r <? 0) (text "%s: child chdir failed") [who s];;
     r ← usys (Uunlink (chars "../iputdir"));
     fail_if (r <? 0) (text "%s: unlink ../iputdir failed") [who s];;
     uexit 0);;
  w ← uwait junk;
  uexit w.2.

Definition t_openiputtest (s : list Z) : uprog unit :=
  r ← usys (Umkdir (chars "oidir"));
  fail_if (r <? 0) (text "%s: mkdir oidir failed") [who s];;
  pid ← usys Ufork;
  fail_if (pid <? 0) (text "%s: fork failed") [who s];;
  uwhen (pid =? 0)
    (fd ← usys (Uopen (chars "oidir") O_RDWR);
     fail_if (0 <=? fd) (text "%s: open directory for write succeeded") [who s];;
     uexit 0);;
  udo (Upause 1);;
  r ← usys (Uunlink (chars "oidir"));
  fail_if (negb (r =? 0)) (text "%s: unlink failed") [who s];;
  w ← uwait junk;
  uexit w.2.

(** ** Simple file system tests *)

Definition t_opentest (s : list Z) : uprog unit :=
  fd ← usys (Uopen (chars "echo") 0);
  fail_if (fd <? 0) (text "%s: open echo failed!") [who s];;
  udo (Uclose fd);;
  fd ← usys (Uopen (chars "doesnotexist") 0);
  fail_if (0 <=? fd) (text "%s: open doesnotexist succeeded!") [who s].

Definition t_writetest (s : list Z) : uprog unit :=
  let N := 100 in let SZ := 10 in
  fd ← usys (Uopen (chars "small") O_CRW);
  fail_if (fd <? 0) (text "%s: error: creat small failed!") [who s];;
  ueach (fun i =>
    n ← usys (Uwrite fd (chars "aaaaaaaaaa"));
    fail_if (negb (n =? SZ)) (text "%s: error: write aa %d new file failed") [who s; ANum i];;
    n ← usys (Uwrite fd (chars "bbbbbbbbbb"));
    fail_if (negb (n =? SZ)) (text "%s: error: write bb %d new file failed") [who s; ANum i]) (seqZ 0 N);;
  udo (Uclose fd);;
  fd ← usys (Uopen (chars "small") O_RDONLY);
  fail_if (fd <? 0) (text "%s: error: open small failed!") [who s];;
  i ← usys (Uread fd (N * SZ * 2));
  fail_if (negb (i =? N * SZ * 2)) (text "%s: read failed") [who s];;
  udo (Uclose fd);;
  r ← usys (Uunlink (chars "small"));
  fail_if (r <? 0) (text "%s: unlink small failed") [who s].

(** the first [int] of the buffer *)
Definition int0 (buf : list Z) : Z := s32 (le_value (take 4 buf)).
Definition set_int0 (i : Z) (buf : list Z) : list Z := splice 0 (le_bytes 4 i) buf.

Definition t_writebig (s : list Z) : uprog unit :=
  fd ← usys (Uopen (chars "big") O_CRW);
  fail_if (fd <? 0) (text "%s: error: creat big failed!") [who s];;
  ueach (fun i =>
    n ← usys (Uwrite fd (take (Z.to_nat BSIZE) (set_int0 i ubuf)));
    fail_if (negb (n =? BSIZE)) (text "%s: error: write big file failed i=%d") [who s; ANum i]) (seqZ 0 MAXFILE);;
  udo (Uclose fd);;
  fd ← usys (Uopen (chars "big") O_RDONLY);
  fail_if (fd <? 0) (text "%s: error: open big failed!") [who s];;
  uwhile turns (fun '(n, buf) =>
    x ← uread fd BSIZE buf;
    let i := x.1 in
    if i =? 0 then
      fail_if (negb (n =? MAXFILE)) (chars "%s: read only %d blocks from big") [who s; ANum n];;
      mret (inr tt)
    else
      fail_if (negb (i =? BSIZE)) (text "%s: read failed %d") [who s; ANum i];;
      fail_if (negb (int0 x.2 =? n)) (text "%s: read content of block %d is %d") [who s; ANum n; ANum (int0 x.2)];;
      mret (inl (n + 1, x.2))) (0, set_int0 (MAXFILE - 1) ubuf);;
  udo (Uclose fd);;
  r ← usys (Uunlink (chars "big"));
  fail_if (r <? 0) (text "%s: unlink big failed") [who s].

Definition t_createtest (s : list Z) : uprog unit :=
  let N := 52 in
  ueach (fun i =>
    fd ← usys (Uopen [97; 48 + i] O_CRW);
    udo (Uclose fd)) (seqZ 0 N);;
  ueach (fun i => udo (Uunlink [97; 48 + i])) (seqZ 0 N).

Definition t_dirtest (s : list Z) : uprog unit :=
  r ← usys (Umkdir (chars "dir0"));
  fail_if (r <? 0) (text "%s: mkdir failed") [who s];;
  r ← usys (Uchdir (chars "dir0"));
  fail_if (r <? 0) (text "%s: chdir dir0 failed") [who s];;
  r ← usys (Uchdir (chars ".."));
  fail_if (r <? 0) (text "%s: chdir .. failed") [who s];;
  r ← usys (Uunlink (chars "dir0"));
  fail_if (r <? 0) (text "%s: unlink dir0 failed") [who s].

Definition t_exectest (s : list Z) : uprog unit :=
  udo (Uunlink (chars "echo-ok"));;
  pid ← usys Ufork;
  fail_if (pid <? 0) (text "%s: fork failed") [who s];;
  uwhen (pid =? 0)
    (udo (Uclose 1);;
     fd ← usys (Uopen (chars "echo-ok") O_CWR);
     fail_if (fd <? 0) (text "%s: create failed") [who s];;
     fail_if (negb (fd =? 1)) (text "%s: wrong fd") [who s];;
     r ← usys (Uexec (chars "echo") [chars "echo"; chars "OK"]);
     fail_if (r <? 0) (text "%s: exec echo failed") [who s]);;
  w ← uwait junk;
  uwhen (negb (w.1 =? pid)) (uprintf (text "%s: wait failed!") [who s]);;
  uwhen (negb (w.2 =? 0)) (uexit w.2);;
  fd ← usys (Uopen (chars "echo-ok") O_RDONLY);
  fail_if (fd <? 0) (text "%s: open failed") [who s];;
  x ← uread fd 2 [junk; junk; junk];
  fail_if (negb (x.1 =? 2)) (text "%s: read failed") [who s];;
  udo (Uunlink (chars "echo-ok"));;
  if (nth 0 x.2 0 =? 79) && (nth 1 x.2 0 =? 75) then uexit 0
  else uprintf (text "%s: wrong output") [who s];; uexit 1.

(** ** Pipes and processes *)

Definition t_pipe1 (s : list Z) : uprog unit :=
  let N := 5 in let SZ := 1033 in
  x ← upipe;
  let fds0 := x.2.1 in let fds1 := x.2.2 in
  fail_if (negb (x.1 =? 0)) (text "%s: pipe() failed") [who s];;
  pid ← usys Ufork;
  if pid =? 0 then
    udo (Uclose fds0);;
    ueach (fun n =>
      r ← usys (Uwrite fds1 (map (fun i => u8 (n * SZ + i)) (seqZ 0 SZ)));
      fail_if (negb (r =? SZ)) (text "%s: pipe1 oops 1") [who s]) (seqZ 0 N);;
    uexit 0
  else if 0 <? pid then
    udo (Uclose fds1);;
    r ← uwhile turns (fun '(total, cc, seq, buf) =>
      x ← uread fds0 cc buf;
      let n := x.1 in
      if 0 <? n then
        if forallb (fun i => nth (Z.to_nat i) x.2 0 =? u8 (seq + i)) (seqZ 0 n) then
          let cc := cc * 2 in
          mret (inl (total + n, if BUFSZ <? cc then BUFSZ else cc, seq + n, x.2))
        else uprintf (text "%s: pipe1 oops 2") [who s];; mret (inr None)
      else mret (inr (Some total))) (0, 1, 0, ubuf);
    match r with
    | None => mret tt
    | Some total =>
        fail_if (negb (total =? N * SZ)) (text "%s: pipe1 oops 3 total %d") [who s; ANum total];;
        udo (Uclose fds0);;
        w ← uwait junk;
        uexit w.2
    end
  else uprintf (text "%s: fork() failed") [who s];; uexit 1.

Definition t_killstatus (s : list Z) : uprog unit :=
  ufold (fun _ xst =>
    pid1 ← usys Ufork;
    fail_if (pid1 <? 0) (text "%s: fork failed") [who s];;
    uwhen (pid1 =? 0) (uforever turns (udo Ugetpid));;
    udo (Upause 1);;
    udo (Ukill pid1);;
    w ← uwait xst;
    fail_if (negb (w.2 =? -1)) (text "%s: status should be -1") [who s];;
    mret w.2) (seqZ 0 100) junk;;
  uexit 0.

Definition t_preempt (s : list Z) : uprog unit :=
  pid1 ← usys Ufork;
  fail_if (pid1 <? 0) (chars "%s: fork failed") [who s];;
  uwhen (pid1 =? 0) (uforever turns (mret tt));;
  pid2 ← usys Ufork;
  fail_if (pid2 <? 0) (text "%s: fork failed") [who s];;
  uwhen (pid2 =? 0) (uforever turns (mret tt));;
  x ← upipe;
  let pfds0 := x.2.1 in let pfds1 := x.2.2 in
  pid3 ← usys Ufork;
  fail_if (pid3 <? 0) (text "%s: fork failed") [who s];;
  uwhen (pid3 =? 0)
    (udo (Uclose pfds0);;
     n ← usys (Uwrite pfds1 (chars "x"));
     uwhen (negb (n =? 1)) (uprintf (chars "%s: preempt write error") [who s]);;
     udo (Uclose pfds1);;
     uforever turns (mret tt));;
  udo (Uclose pfds1);;
  n ← usys (Uread pfds0 BUFSZ);
  if negb (n =? 1) then uprintf (chars "%s: preempt read error") [who s]
  else
    udo (Uclose pfds0);;
    uprintf (chars "kill... ") [];;
    udo (Ukill pid1);;
    udo (Ukill pid2);;
    udo (Ukill pid3);;
    uprintf (chars "wait... ") [];;
    udo Uwait;;
    udo Uwait;;
    udo Uwait.

Definition t_exitwait (s : list Z) : uprog unit :=
  ueach (fun i =>
    pid ← usys Ufork;
    fail_if (pid <? 0) (text "%s: fork failed") [who s];;
    if negb (pid =? 0) then
      w ← uwait junk;
      fail_if (negb (w.1 =? pid)) (text "%s: wait wrong pid") [who s];;
      fail_if (negb (i =? w.2)) (text "%s: wait wrong exit status") [who s]
    else uexit i) (seqZ 0 100).

Definition t_reparent (s : list Z) : uprog unit :=
  master_pid ← usys Ugetpid;
  ueach (fun _ =>
    pid ← usys Ufork;
    fail_if (pid <? 0) (text "%s: fork failed") [who s];;
    if negb (pid =? 0) then
      r ← usys Uwait;
      fail_if (negb (r =? pid)) (text "%s: wait wrong pid") [who s]
    else
      pid2 ← usys Ufork;
      uwhen (pid2 <? 0) (udo (Ukill master_pid);; uexit 1);;
      uexit 0) (seqZ 0 200);;
  uexit 0.

Definition t_twochildren (s : list Z) : uprog unit :=
  ueach (fun _ =>
    pid1 ← usys Ufork;
    fail_if (pid1 <? 0) (text "%s: fork failed") [who s];;
    if pid1 =? 0 then uexit 0
    else
      pid2 ← usys Ufork;
      fail_if (pid2 <? 0) (text "%s: fork failed") [who s];;
      if pid2 =? 0 then uexit 0 else udo Uwait;; udo Uwait) (seqZ 0 1000).

Definition t_forkfork (s : list Z) : uprog unit :=
  let N := 2 in
  ueach (fun _ =>
    pid ← usys Ufork;
    fail_if (pid <? 0) (chars "%s: fork failed") [who s];;
    uwhen (pid =? 0)
      (ueach (fun _ =>
         pid1 ← usys Ufork;
         uwhen (pid1 <? 0) (uexit 1);;
         uwhen (pid1 =? 0) (uexit 0);;
         udo Uwait) (seqZ 0 200);;
       uexit 0)) (seqZ 0 N);;
  ufold (fun _ xstatus =>
    w ← uwait xstatus;
    fail_if (negb (w.2 =? 0)) (chars "%s: fork in child failed") [who s];;
    mret w.2) (seqZ 0 N) junk;;
  mret tt.

Definition t_forkforkfork (s : list Z) : uprog unit :=
  udo (Uunlink (chars "stopforking"));;
  pid ← usys Ufork;
  fail_if (pid <? 0) (chars "%s: fork failed") [who s];;
  uwhen (pid =? 0)
    (uforever turns
       (fd ← usys (Uopen (chars "stopforking") 0);
        uwhen (0 <=? fd) (uexit 0);;
        r ← usys Ufork;
        uwhen (r <? 0) (fd ← usys (Uopen (chars "stopforking") O_CRW); udo (Uclose fd))));;
  udo (Upause 20);;
  fd ← usys (Uopen (chars "stopforking") O_CRW);
  udo (Uclose fd);;
  udo Uwait;;
  udo (Upause 10).

Definition t_reparent2 (s : list Z) : uprog unit :=
  ueach (fun _ =>
    pid1 ← usys Ufork;
    fail_if (pid1 <? 0) (text "fork failed") [];;
    uwhen (pid1 =? 0) (udo Ufork;; udo Ufork;; uexit 0);;
    udo Uwait) (seqZ 0 800);;
  uexit 0.

End Basic.

(** * Memory of a process, shared files, links, directories: [mem] to [forktest] *)

(** checks of the result of one call *)
Section Checks.
Context (s : list Z).

Definition want_zero (c : ucall) (msg : string) : uprog unit :=
  r ← usys c; fail_if (negb (r =? 0)) (text msg) [who s].
Definition want_nonzero (c : ucall) (msg : string) : uprog unit :=
  r ← usys c; fail_if (r =? 0) (text msg) [who s].
Definition want_neg (c : ucall) (msg : string) : uprog unit :=
  r ← usys c; fail_if (0 <=? r) (text msg) [who s].
Definition want_nonneg (c : ucall) (msg : string) : uprog unit :=
  r ← usys c; fail_if (r <? 0) (text msg) [who s].

End Checks.

Section Files.
Context (turns : nat) (junk : Z).

(** ** Memory

    The allocator runs on its own state; the first word of each block, which
    links the blocks, is kept in [words]. *)

Definition mem_child (base : Z) : MS bool :=
  r ← loop turns (fun '(words, m1) =>
    m2 ← malloc base 10001;
    if m2 =? 0 then mret (inr (words, m1)) else mret (inl (<[m2 := m1]> words, m2))) (∅ : gmap Z Z, 0);
  loop turns (fun '(words, m1) =>
    if m1 =? 0 then mret (inr tt) else
    m2 ← deref (fun _ => words !! m1);
    free m1;;
    mret (inl (words, m2))) r;;
  m1 ← malloc base (1024 * 20);
  if m1 =? 0 then mret false else free m1;; mret true.

Definition t_mem (base : Z) (heap : mstate) (s : list Z) : uprog unit :=
  pid ← usys Ufork;
  if pid =? 0 then
    match mem_child base heap with
    | Ok true _ => uexit 0
    | Ok false _ => uprintf (text "%s: couldn't allocate mem?!!") [who s];; uexit 1
    | _ => UCut
    end
  else
    w ← uwait junk;
    uwhen (w.2 =? -1) (uexit 0);;
    uexit w.2.

(** ** Files shared between processes *)

Definition count_of (c : Z) (l : list Z) : Z := Z.of_nat (length (filter (fun x => x = c) l)).

Definition t_sharedfd (s : list Z) : uprog unit :=
  let N := 1000 in let SZ := 10 in
  udo (Uunlink (chars "sharedfd"));;
  fd ← usys (Uopen (chars "sharedfd") O_CRW);
  fail_if (fd <? 0) (chars "%s: cannot open sharedfd for writing") [who s];;
  pid ← usys Ufork;
  let buf := replicate (Z.to_nat SZ) (if pid =? 0 then 99 else 112) in
  ueach (fun _ =>
    n ← usys (Uwrite fd buf);
    fail_if (negb (n =? SZ)) (text "%s: write sharedfd failed") [who s]) (seqZ 0 N);;
  (if pid =? 0 then uexit 0 else w ← uwait junk; uwhen (negb (w.2 =? 0)) (uexit w.2));;
  udo (Uclose fd);;
  fd ← usys (Uopen (chars "sharedfd") 0);
  fail_if (fd <? 0) (text "%s: cannot open sharedfd for reading") [who s];;
  r ← uwhile turns (fun '(nc, np, buf) =>
    x ← uread fd SZ buf;
    if 0 <? x.1 then mret (inl (nc + count_of 99 x.2, np + count_of 112 x.2, x.2))
    else mret (inr (nc, np))) (0, 0, buf);
  udo (Uclose fd);;
  udo (Uunlink (chars "sharedfd"));;
  if (r.1 =? N * SZ) && (r.2 =? N * SZ) then uexit 0
  else uprintf (text "%s: nc/np test fails") [who s];; uexit 1.

Definition t_fourfiles (s : list Z) : uprog unit :=
  let N := 12 in let NCHILD := 4 in let SZ := 500 in
  let fname i := [102; 48 + i] in
  ueach (fun pi =>
    udo (Uunlink (fname pi));;
    pid ← usys Ufork;
    fail_if (pid <? 0) (text "%s: fork failed") [who s];;
    uwhen (pid =? 0)
      (fd ← usys (Uopen (fname pi) O_CRW);
       fail_if (fd <? 0) (text "%s: create failed") [who s];;
       ueach (fun _ =>
         n ← usys (Uwrite fd (replicate (Z.to_nat SZ) (48 + pi)));
         fail_if (negb (n =? SZ)) (text "write failed %d") [ANum n]) (seqZ 0 N);;
       uexit 0)) (seqZ 0 NCHILD);;
  ufold (fun _ xstatus =>
    w ← uwait xstatus;
    uwhen (negb (w.2 =? 0)) (uexit w.2);;
    mret w.2) (seqZ 0 NCHILD) junk;;
  ufold (fun i buf =>
    fd ← usys (Uopen (fname i) 0);
    r ← uwhile turns (fun '(total, buf) =>
      x ← uread fd BUFSZ buf;
      if 0 <? x.1 then
        fail_if (negb (forallb (fun j => nth (Z.to_nat j) x.2 0 =? 48 + i) (seqZ 0 x.1))) (text "%s: wrong char") [who s];;
        mret (inl (total + x.1, x.2))
      else mret (inr (total, x.2))) (0, buf);
    udo (Uclose fd);;
    fail_if (negb (r.1 =? N * SZ)) (text "wrong length %d") [ANum r.1];;
    udo (Uunlink (fname i));;
    mret r.2) (seqZ 0 NCHILD) ubuf;;
  mret tt.

Definition t_createdelete (s : list Z) : uprog unit :=
  let N := 20 in let NCHILD := 4 in
  let name pi i := [112 + pi; 48 + i] in
  ueach (fun pi =>
    pid ← usys Ufork;
    fail_if (pid <? 0) (text "%s: fork failed") [who s];;
    uwhen (pid =? 0)
      (ueach (fun i =>
         fd ← usys (Uopen (name pi i) O_CRW);
         fail_if (fd <? 0) (text "%s: create failed") [who s];;
         udo (Uclose fd);;
         uwhen ((0 <? i) && (i mod 2 =? 0)) (want_nonneg s (Uunlink (name pi (i / 2))) "%s: unlink failed"))
         (seqZ 0 N);;
       uexit 0)) (seqZ 0 NCHILD);;
  ufold (fun _ xstatus =>
    w ← uwait xstatus;
    uwhen (negb (w.2 =? 0)) (uexit 1);;
    mret w.2) (seqZ 0 NCHILD) junk;;
  ueach (fun i =>
    ueach (fun pi =>
      fd ← usys (Uopen (name pi i) 0);
      (if ((i =? 0) || (N / 2 <=? i)) && (fd <? 0) then
         uprintf (text "%s: oops createdelete %s didn't exist") [who s; AStr (Some (name pi i))];; uexit 1
       else if (1 <=? i) && (i <? N / 2) && (0 <=? fd) then
         uprintf (text "%s: oops createdelete %s did exist") [who s; AStr (Some (name pi i))];; uexit 1
       else mret tt);;
      uwhen (0 <=? fd) (udo (Uclose fd))) (seqZ 0 NCHILD)) (seqZ 0 N);;
  ueach (fun i => ueach (fun pi => udo (Uunlink (name pi i))) (seqZ 0 NCHILD)) (seqZ 0 N).

(** ** Links *)

Definition t_unlinkread (s : list Z) : uprog unit :=
  let SZ := 5 in
  fd ← usys (Uopen (chars "unlinkread") O_CRW);
  fail_if (fd <? 0) (text "%s: create unlinkread failed") [who s];;
  udo (Uwrite fd (chars "hello"));;
  udo (Uclose fd);;
  fd ← usys (Uopen (chars "unlinkread") O_RDWR);
  fail_if (fd <? 0) (text "%s: open unlinkread failed") [who s];;
  want_zero s (Uunlink (chars "unlinkread")) "%s: unlink unlinkread failed";;
  fd1 ← usys (Uopen (chars "unlinkread") O_CRW);
  udo (Uwrite fd1 (chars "yyy"));;
  udo (Uclose fd1);;
  x ← uread fd BUFSZ ubuf;
  fail_if (negb (x.1 =? SZ)) (chars "%s: unlinkread read failed") [who s];;
  fail_if (negb (nth 0 x.2 0 =? 104)) (text "%s: unlinkread wrong data") [who s];;
  n ← usys (Uwrite fd (take 10 x.2));
  fail_if (negb (n =? 10)) (text "%s: unlinkread write failed") [who s];;
  udo (Uclose fd);;
  udo (Uunlink (chars "unlinkread")).

Definition t_linktest (s : list Z) : uprog unit :=
  let SZ := 5 in
  udo (Uunlink (chars "lf1"));;
  udo (Uunlink (chars "lf2"));;
  fd ← usys (Uopen (chars "lf1") O_CRW);
  fail_if (fd <? 0) (text "%s: create lf1 failed") [who s];;
  n ← usys (Uwrite fd (chars "hello"));
  fail_if (negb (n =? SZ)) (text "%s: write lf1 failed") [who s];;
  udo (Uclose fd);;
  want_nonneg s (Ulink (chars "lf1") (chars "lf2")) "%s: link lf1 lf2 failed";;
  udo (Uunlink (chars "lf1"));;
  want_neg s (Uopen (chars "lf1") 0) "%s: unlinked lf1 but it is still there!";;
  fd ← usys (Uopen (chars "lf2") 0);
  fail_if (fd <? 0) (text "%s: open lf2 failed") [who s];;
  n ← usys (Uread fd BUFSZ);
  fail_if (negb (n =? SZ)) (text "%s: read lf2 failed") [who s];;
  udo (Uclose fd);;
  want_neg s (Ulink (chars "lf2") (chars "lf2")) "%s: link lf2 lf2 succeeded! oops";;
  udo (Uunlink (chars "lf2"));;
  want_neg s (Ulink (chars "lf2") (chars "lf1")) "%s: link non-existent succeeded! oops";;
  want_neg s (Ulink (chars ".") (chars "lf1")) "%s: link . lf1 succeeded! oops".

(** the listing of the directory: [fa] marks the files seen, [n] counts them *)
Definition concreate_list (s : list Z) (fd : Z) : uprog Z :=
  let N := 40 in
  uwhile turns (fun '(fa, n, de) =>
    x ← uread fd 16 de;
    let de := x.2 in
    if 0 <? x.1 then
      if le_value (take 2 de) =? 0 then mret (inl (fa, n, de)) else
      let name := drop 2 de in
      if (nth 0 name 0 =? 67) && (nth 2 name 0 =? 0) then
        let i := nth 1 name 0 - 48 in
        fail_if ((i <? 0) || (N <=? i)) (text "%s: concreate weird file %s") [who s; AStr (Some (cstr name))];;
        fail_if (nth (Z.to_nat i) fa false) (text "%s: concreate duplicate file %s") [who s; AStr (Some (cstr name))];;
        mret (inl (<[Z.to_nat i := true]> fa, n + 1, de))
      else mret (inl (fa, n, de))
    else mret (inr n)) (replicate (Z.to_nat N) false, 0, replicate 16 junk).

Definition t_concreate (s : list Z) : uprog unit :=
  let N := 40 in
  let file i := [67; 48 + i] in
  ueach (fun i =>
    udo (Uunlink (file i));;
    pid ← usys Ufork;
    (if negb (pid =? 0) && (i mod 3 =? 1) then udo (Ulink (chars "C0") (file i))
     else if (pid =? 0) && (i mod 5 =? 1) then udo (Ulink (chars "C0") (file i))
     else
       fd ← usys (Uopen (file i) O_CRW);
       fail_if (fd <? 0) (text "concreate create %s failed") [AStr (Some (file i))];;
       udo (Uclose fd));;
    if pid =? 0 then uexit 0
    else w ← uwait junk; uwhen (negb (w.2 =? 0)) (uexit 1)) (seqZ 0 N);;
  fd ← usys (Uopen (chars ".") 0);
  n ← concreate_list s fd;
  udo (Uclose fd);;
  fail_if (negb (n =? N)) (text "%s: concreate not enough files in directory listing") [who s];;
  ueach (fun i =>
    pid ← usys Ufork;
    fail_if (pid <? 0) (text "%s: fork failed") [who s];;
    (if ((i mod 3 =? 0) && (pid =? 0)) || ((i mod 3 =? 1) && negb (pid =? 0))
     then urepeat 6 (fd ← usys (Uopen (file i) 0); udo (Uclose fd))
     else urepeat 6 (udo (Uunlink (file i))));;
    if pid =? 0 then uexit 0 else udo Uwait) (seqZ 0 N).

Definition t_linkunlink (s : list Z) : uprog unit :=
  udo (Uunlink (chars "x"));;
  pid ← usys Ufork;
  fail_if (pid <? 0) (text "%s: fork failed") [who s];;
  ufold (fun _ x =>
    let x := u32 (x * 1103515245 + 12345) in
    (if x mod 3 =? 0 then fd ← usys (Uopen (chars "x") O_CRW); udo (Uclose fd)
     else if x mod 3 =? 1 then udo (Ulink (chars "cat") (chars "x"))
     else udo (Uunlink (chars "x")));;
    mret x) (seqZ 0 100) (if pid =? 0 then 97 else 1);;
  if negb (pid =? 0) then udo Uwait else uexit 0.

(** ** Directories *)

Definition t_subdir (s : list Z) : uprog unit :=
  udo (Uunlink (chars "ff"));;
  want_zero s (Umkdir (chars "dd")) "%s: mkdir dd failed";;
  fd ← usys (Uopen (chars "dd/ff") O_CRW);
  fail_if (fd <? 0) (text "%s: create dd/ff failed") [who s];;
  udo (Uwrite fd (chars "ff"));;
  udo (Uclose fd);;
  want_neg s (Uunlink (chars "dd")) "%s: unlink dd (non-empty dir) succeeded!";;
  want_zero s (Umkdir (chars "/dd/dd")) "%s: subdir mkdir dd/dd failed";;
  fd ← usys (Uopen (chars "dd/dd/ff") O_CRW);
  fail_if (fd <? 0) (text "%s: create dd/dd/ff failed") [who s];;
  udo (Uwrite fd (chars "FF"));;
  udo (Uclose fd);;
  fd ← usys (Uopen (chars "dd/dd/../ff") 0);
  fail_if (fd <? 0) (text "%s: open dd/dd/../ff failed") [who s];;
  x ← uread fd BUFSZ ubuf;
  fail_if (negb (x.1 =? 2) || negb (nth 0 x.2 0 =? 102)) (text "%s: dd/dd/../ff wrong content") [who s];;
  udo (Uclose fd);;
  want_zero s (Ulink (chars "dd/dd/ff") (chars "dd/dd/ffff")) "%s: link dd/dd/ff dd/dd/ffff failed";;
  want_zero s (Uunlink (chars "dd/dd/ff")) "%s: unlink dd/dd/ff failed";;
  want_neg s (Uopen (chars "dd/dd/ff") O_RDONLY) "%s: open (unlinked) dd/dd/ff succeeded";;
  want_zero s (Uchdir (chars "dd")) "%s: chdir dd failed";;
  want_zero s (Uchdir (chars "dd/../../dd")) "%s: chdir dd/../../dd failed";;
  want_zero s (Uchdir (chars "dd/../../../dd")) "%s: chdir dd/../../../dd failed";;
  want_zero s (Uchdir (chars "./..")) "%s: chdir ./.. failed";;
  fd ← usys (Uopen (chars "dd/dd/ffff") 0);
  fail_if (fd <? 0) (text "%s: open dd/dd/ffff failed") [who s];;
  n ← usys (Uread fd BUFSZ);
  fail_if (negb (n =? 2)) (text "%s: read dd/dd/ffff wrong len") [who s];;
  udo (Uclose fd);;
  want_neg s (Uopen (chars "dd/dd/ff") O_RDONLY) "%s: open (unlinked) dd/dd/ff succeeded!";;
  want_neg s (Uopen (chars "dd/ff/ff") O_CRW) "%s: create dd/ff/ff succeeded!";;
  want_neg s (Uopen (chars "dd/xx/ff") O_CRW) "%s: create dd/xx/ff succeeded!";;
  want_neg s (Uopen (chars "dd") O_CREATE) "%s: create dd succeeded!";;
  want_neg s (Uopen (chars "dd") O_RDWR) "%s: open dd rdwr succeeded!";;
  want_neg s (Uopen (chars "dd") O_WRONLY) "%s: open dd wronly succeeded!";;
  want_nonzero s (Ulink (chars "dd/ff/ff") (chars "dd/dd/xx")) "%s: link dd/ff/ff dd/dd/xx succeeded!";;
  want_nonzero s (Ulink (chars "dd/xx/ff") (chars "dd/dd/xx")) "%s: link dd/xx/ff dd/dd/xx succeeded!";;
  want_nonzero s (Ulink (chars "dd/ff") (chars "dd/dd/ffff")) "%s: link dd/ff dd/dd/ffff succeeded!";;
  want_nonzero s (Umkdir (chars "dd/ff/ff")) "%s: mkdir dd/ff/ff succeeded!";;
  want_nonzero s (Umkdir (chars "dd/xx/ff")) "%s: mkdir dd/xx/ff succeeded!";;
  want_nonzero s (Umkdir (chars "dd/dd/ffff")) "%s: mkdir dd/dd/ffff succeeded!";;
  want_nonzero s (Uunlink (chars "dd/xx/ff")) "%s: unlink dd/xx/ff succeeded!";;
  want_nonzero s (Uunlink (chars "dd/ff/ff")) "%s: unlink dd/ff/ff succeeded!";;
  want_nonzero s (Uchdir (chars "dd/ff")) "%s: chdir dd/ff succeeded!";;
  want_nonzero s (Uchdir (chars "dd/xx")) "%s: chdir dd/xx succeeded!";;
  want_zero s (Uunlink (chars "dd/dd/ffff")) "%s: unlink dd/dd/ff failed";;
  want_zero s (Uunlink (chars "dd/ff")) "%s: unlink dd/ff failed";;
  want_nonzero s (Uunlink (chars "dd")) "%s: unlink non-empty dd succeeded!";;
  want_nonneg s (Uunlink (chars "dd/dd")) "%s: unlink dd/dd failed";;
  want_nonneg s (Uunlink (chars "dd")) "%s: unlink dd failed".

(** the values 499, 499 + 471, ... below [BUFSZ] *)
Definition t_bigwrite (s : list Z) : uprog unit :=
  udo (Uunlink (chars "bigwrite"));;
  ueach (fun k =>
    let sz := 499 + 471 * k in
    fd ← usys (Uopen (chars "bigwrite") O_CRW);
    fail_if (fd <? 0) (text "%s: cannot create bigwrite") [who s];;
    ueach (fun _ =>
      cc ← usys (Uwrite fd (take (Z.to_nat sz) ubuf));
      fail_if (negb (cc =? sz)) (text "%s: write(%d) ret %d") [who s; ANum sz; ANum cc]) (seqZ 0 2);;
    udo (Uclose fd);;
    udo (Uunlink (chars "bigwrite"))) (seqZ 0 ((BUFSZ - 499 + 470) / 471)).

Definition t_bigfile (s : list Z) : uprog unit :=
  let N := 20 in let SZ := 600 in
  udo (Uunlink (chars "bigfile.dat"));;
  fd ← usys (Uopen (chars "bigfile.dat") O_CRW);
  fail_if (fd <? 0) (chars "%s: cannot create bigfile") [who s];;
  ueach (fun i =>
    n ← usys (Uwrite fd (replicate (Z.to_nat SZ) i));
    fail_if (negb (n =? SZ)) (text "%s: write bigfile failed") [who s]) (seqZ 0 N);;
  udo (Uclose fd);;
  fd ← usys (Uopen (chars "bigfile.dat") 0);
  fail_if (fd <? 0) (text "%s: cannot open bigfile") [who s];;
  total ← uwhile turns (fun '(i, total, buf) =>
    x ← uread fd (SZ / 2) buf;
    let cc := x.1 in
    fail_if (cc <? 0) (text "%s: read bigfile failed") [who s];;
    if cc =? 0 then mret (inr total) else
    fail_if (negb (cc =? SZ / 2)) (text "%s: short read bigfile") [who s];;
    fail_if (negb (nth 0 x.2 0 =? i / 2) || negb (nth (Z.to_nat (SZ / 2 - 1)) x.2 0 =? i / 2))
      (text "%s: read bigfile wrong data") [who s];;
    mret (inl (i + 1, total + cc, x.2))) (0, 0, splice 0 (replicate (Z.to_nat SZ) (N - 1)) ubuf);
  udo (Uclose fd);;
  fail_if (negb (total =? N * SZ)) (text "%s: read bigfile wrong total") [who s];;
  udo (Uunlink (chars "bigfile.dat")).

Definition t_fourteen (s : list Z) : uprog unit :=
  want_zero s (Umkdir (chars "12345678901234")) "%s: mkdir 12345678901234 failed";;
  want_zero s (Umkdir (chars "12345678901234/123456789012345"))
    "%s: mkdir 12345678901234/123456789012345 failed";;
  fd ← usys (Uopen (chars "123456789012345/123456789012345/123456789012345") O_CREATE);
  fail_if (fd <? 0) (text "%s: create 123456789012345/123456789012345/123456789012345 failed") [who s];;
  udo (Uclose fd);;
  fd ← usys (Uopen (chars "12345678901234/12345678901234/12345678901234") 0);
  fail_if (fd <? 0) (text "%s: open 12345678901234/12345678901234/12345678901234 failed") [who s];;
  udo (Uclose fd);;
  want_nonzero s (Umkdir (chars "12345678901234/12345678901234"))
    "%s: mkdir 12345678901234/12345678901234 succeeded!";;
  want_nonzero s (Umkdir (chars "123456789012345/12345678901234"))
    "%s: mkdir 12345678901234/123456789012345 succeeded!";;
  udo (Uunlink (chars "123456789012345/12345678901234"));;
  udo (Uunlink (chars "12345678901234/12345678901234"));;
  udo (Uunlink (chars "12345678901234/12345678901234/12345678901234"));;
  udo (Uunlink (chars "123456789012345/123456789012345/123456789012345"));;
  udo (Uunlink (chars "12345678901234/123456789012345"));;
  udo (Uunlink (chars "12345678901234")).

Definition t_rmdot (s : list Z) : uprog unit :=
  want_zero s (Umkdir (chars "dots")) "%s: mkdir dots failed";;
  want_zero s (Uchdir (chars "dots")) "%s: chdir dots failed";;
  want_nonzero s (Uunlink (chars ".")) "%s: rm . worked!";;
  want_nonzero s (Uunlink (chars "..")) "%s: rm .. worked!";;
  want_zero s (Uchdir (chars "/")) "%s: chdir / failed";;
  want_nonzero s (Uunlink (chars "dots/.")) "%s: unlink dots/. worked!";;
  want_nonzero s (Uunlink (chars "dots/..")) "%s: unlink dots/.. worked!";;
  want_zero s (Uunlink (chars "dots")) "%s: unlink dots failed!".

Definition t_dirfile (s : list Z) : uprog unit :=
  fd ← usys (Uopen (chars "dirfile") O_CREATE);
  fail_if (fd <? 0) (text "%s: create dirfile failed") [who s];;
  udo (Uclose fd);;
  want_nonzero s (Uchdir (chars "dirfile")) "%s: chdir dirfile succeeded!";;
  want_neg s (Uopen (chars "dirfile/xx") 0) "%s: create dirfile/xx succeeded!";;
  want_neg s (Uopen (chars "dirfile/xx") O_CREATE) "%s: create dirfile/xx succeeded!";;
  want_nonzero s (Umkdir (chars "dirfile/xx")) "%s: mkdir dirfile/xx succeeded!";;
  want_nonzero s (Uunlink (chars "dirfile/xx")) "%s: unlink dirfile/xx succeeded!";;
  want_nonzero s (Ulink (chars "README") (chars "dirfile/xx")) "%s: link to dirfile/xx succeeded!";;
  want_zero s (Uunlink (chars "dirfile")) "%s: unlink dirfile failed!";;
  want_neg s (Uopen (chars ".") O_RDWR) "%s: open . for writing succeeded!";;
  fd ← usys (Uopen (chars ".") 0);
  n ← usys (Uwrite fd (chars "x"));
  fail_if (0 <? n) (text "%s: write . succeeded!") [who s];;
  udo (Uclose fd).

Definition t_iref (s : list Z) : uprog unit :=
  let count := seqZ 0 (Z.of_nat NINODE + 1) in
  ueach (fun _ =>
    want_zero s (Umkdir (chars "irefd")) "%s: mkdir irefd failed";;
    want_zero s (Uchdir (chars "irefd")) "%s: chdir irefd failed";;
    udo (Umkdir []);;
    udo (Ulink (chars "README") []);;
    fd ← usys (Uopen [] O_CREATE);
    uwhen (0 <=? fd) (udo (Uclose fd));;
    fd ← usys (Uopen (chars "xx") O_CREATE);
    uwhen (0 <=? fd) (udo (Uclose fd));;
    udo (Uunlink (chars "xx"))) count;;
  ueach (fun _ => udo (Uchdir (chars ".."));; udo (Uunlink (chars "irefd"))) count;;
  udo (Uchdir (chars "/")).

(** ** fork runs out *)

(** the number of successful forks before the first failure, at most [N] *)
Fixpoint fork_many (n N : nat) : uprog Z :=
  match N with
  | O => mret (Z.of_nat n)
  | S N =>
      pid ← usys Ufork;
      if pid <? 0 then mret (Z.of_nat n)
      else if pid =? 0 then uexit 0
      else fork_many (S n) N
  end.

Definition t_forktest (s : list Z) : uprog unit :=
  n ← fork_many 0 1000;
  fail_if (n =? 0) (text "%s: no fork at all!") [who s];;
  fail_if (n =? 1000) (text "%s: fork claimed to work 1000 times!") [who s];;
  ueach (fun _ => want_nonneg s Uwait "%s: wait stopped early") (seqZ 0 n);;
  r ← usys Uwait;
  fail_if (negb (r =? -1)) (text "%s: wait got too many") [who s].

End Files.
