(* ===== verification/UtMem.v ===== *)
(** * usertests.c: the address space, the slow tests and the driver

    The tests from [sbrkbasic] to [lazy_sbrk], the slow tests, and the tables
    and functions that run them.  [char] is unsigned on RISC-V. *)

From S2P Require Import Prelude CString Types Vm Printf File Ulib Utils Umalloc UtBasic.
From stdpp Require Import base numbers list strings.
From Stdlib Require Import ZArith Lia.

Open Scope Z_scope.

(** one byte, or one pointer, at an address *)
Definition peek8 (a : Z) : uprog Z := x ← ucall_ (Uload a 1); mret (nth 0 (a_data x) 0).
Definition poke8 (a v : Z) : uprog unit := udo (Ustore a [u8 v]).
Definition peek64 (a : Z) : uprog Z := x ← ucall_ (Uload a 8); mret (le_value (a_data x)).
Definition poke64 (a v : Z) : uprog unit := udo (Ustore a (le_bytes 8 v)).

(** the addresses [from], [from + step], ... below [to] *)
Definition addrs (from to step : Z) : list Z :=
  map (fun k => from + step * k) (seqZ 0 ((to - from + step - 1) / step)).

Section Mem.
Context (turns : nat) (junk : Z).

Definition t_sbrkbasic (s : list Z) : uprog unit :=
  let TOOMUCH := 1024 * 1024 * 1024 in
  pid ← usys Ufork;
  fail_if (pid <? 0) (text "fork failed in sbrkbasic") [];;
  uwhen (pid =? 0)
    (a ← usbrk TOOMUCH;
     uwhen (a =? SBRK_ERROR) (uexit 0);;
     ueach (fun b => poke8 b 99) (addrs a (a + TOOMUCH) PGSIZE);;
     uexit 1);;
  w ← uwait junk;
  fail_if (w.2 =? 1) (text "%s: too much memory allocated!") [who s];;
  a ← usbrk 0;
  a ← ufold (fun i a =>
    b ← usbrk 1;
    fail_if (negb (b =? a)) (text "%s: sbrk test failed %d %p %p") [who s; ANum i; ANum a; ANum b];;
    poke8 b 1;;
    mret (u64 (b + 1))) (seqZ 0 5000) a;
  pid ← usys Ufork;
  fail_if (pid <? 0) (text "%s: sbrk test fork failed") [who s];;
  usbrk 1;;
  c ← usbrk 1;
  fail_if (negb (c =? u64 (a + 1))) (text "%s: sbrk test failed post-fork") [who s];;
  uwhen (pid =? 0) (uexit 0);;
  w ← uwait w.2;
  uexit w.2.

Definition t_sbrkmuch (s : list Z) : uprog unit :=
  let BIG := 100 * 1024 * 1024 in
  oldbrk ← usbrk 0;
  a ← usbrk 0;
  p ← usbrk (BIG - a);
  fail_if (negb (p =? a)) (text "%s: sbrk test failed to grow big address space; enough phys mem?") [who s];;
  let lastaddr := BIG - 1 in
  poke8 lastaddr 99;;
  a ← usbrk 0;
  c ← usbrk (- PGSIZE);
  fail_if (c =? SBRK_ERROR) (text "%s: sbrk could not deallocate") [who s];;
  c ← usbrk 0;
  fail_if (negb (c =? u64 (a - PGSIZE)))
    (text "%s: sbrk deallocation produced wrong address, a %p c %p") [who s; ANum a; ANum c];;
  a ← usbrk 0;
  c ← usbrk PGSIZE;
  bad ← (if negb (c =? a) then mret true else r ← usbrk 0; mret (negb (r =? u64 (a + PGSIZE))));
  fail_if bad (text "%s: sbrk re-allocation failed, a %p c %p") [who s; ANum a; ANum c];;
  v ← peek8 lastaddr;
  fail_if (v =? 99) (text "%s: sbrk de-allocation didn't really deallocate") [who s];;
  a ← usbrk 0;
  r ← usbrk 0;
  c ← usbrk (- (r - oldbrk));
  fail_if (negb (c =? a)) (text "%s: sbrk downsize failed, a %p c %p") [who s; ANum a; ANum c].

Definition t_kernmem (s : list Z) : uprog unit :=
  ueach (fun a =>
    pid ← usys Ufork;
    fail_if (pid <? 0) (text "%s: fork failed") [who s];;
    uwhen (pid =? 0)
      (v ← peek8 a;
       uprintf (text "%s: oops could read %p = %x") [who s; ANum a; ANum v];;
       uexit 1);;
    w ← uwait junk;
    uwhen (negb (w.2 =? -1)) (uexit 1)) (addrs KERNBASE (KERNBASE + 2000000) 50000).

(** MAXVA, shifted left until it leaves the 64 bits *)
Definition t_MAXVAplus (s : list Z) : uprog unit :=
  ueach (fun k =>
    let a := MAXVA * 2 ^ k in
    pid ← usys Ufork;
    fail_if (pid <? 0) (text "%s: fork failed") [who s];;
    uwhen (pid =? 0)
      (poke8 a 99;;
       uprintf (text "%s: oops wrote %p") [who s; ANum a];;
       uexit 1);;
    w ← uwait junk;
    uwhen (negb (w.2 =? -1)) (uexit 1)) (seqZ 0 26).

Definition t_sbrkfail (s : list Z) : uprog unit :=
  let BIG := 100 * 1024 * 1024 in
  x ← upipe;
  let fds0 := x.2.1 in let fds1 := x.2.2 in
  fail_if (negb (x.1 =? 0)) (text "%s: pipe() failed") [who s];;
  r ← ufold (fun _ '(pids, failed, scratch) =>
    pid ← usys Ufork;
    uwhen (pid =? 0)
      (b ← usbrk 0;
       r ← usbrk (BIG - b);
       (if r =? SBRK_ERROR then udo (Uwrite fds1 (chars "0")) else udo (Uwrite fds1 (chars "1")));;
       uforever turns (udo (Upause 1000)));;
    if negb (pid =? -1) then
      x ← uread fds0 1 scratch;
      mret (pids ++ [pid], failed || (nth 0 x.2 0 =? 48), x.2)
    else mret (pids ++ [pid], failed, scratch)) (seqZ 0 10) ([], false, [junk]);
  let pids := r.1.1 in
  uwhen (negb r.1.2) (uprintf (text "%s: no allocation failed; allocate more?") [who s]);;
  c ← usbrk PGSIZE;
  ueach (fun pid => uwhen (negb (pid =? -1)) (udo (Ukill pid);; udo Uwait)) pids;;
  fail_if (c =? SBRK_ERROR) (text "%s: failed sbrk leaked memory") [who s];;
  pid ← usys Ufork;
  fail_if (pid <? 0) (text "%s: fork failed") [who s];;
  uwhen (pid =? 0)
    (a ← usbrk (10 * BIG);
     uwhen (a =? SBRK_ERROR) (uexit 0);;
     uprintf (text "%s: allocate a lot of memory succeeded %d") [who s; ANum (10 * BIG)];;
     uexit 1);;
  w ← uwait junk;
  uwhen (negb (w.2 =? 0)) (uexit 1).

Definition t_sbrkarg (s : list Z) : uprog unit :=
  a ← usbrk PGSIZE;
  fd ← usys (Uopen (chars "sbrk") O_CWR);
  udo (Uunlink (chars "sbrk"));;
  fail_if (fd <? 0) (text "%s: open sbrk failed") [who s];;
  n ← usys (Uwrite_at fd a PGSIZE);
  fail_if (n <? 0) (text "%s: write sbrk failed") [who s];;
  udo (Uclose fd);;
  a ← usbrk PGSIZE;
  want_zero s (Upipe_at a) "%s: pipe() failed".

Definition t_validatetest (s : list Z) : uprog unit :=
  let hi := 1100 * 1024 in
  ueach (fun p =>
    r ← usys (Ulink_at (inl (chars "nosuchfile")) (inr p));
    fail_if (negb (r =? -1)) (text "%s: link should not succeed") [who s]) (addrs 0 (hi + 1) PGSIZE).

(** [uninit] is the contents of the array of that name *)
Definition t_bsstest (uninit : list Z) (s : list Z) : uprog unit :=
  ueach (fun c => fail_if (negb (c =? 0)) (text "%s: bss test failed") [who s]) (take 10000 uninit).

Definition t_bigargtest (s : list Z) : uprog unit :=
  udo (Uunlink (chars "bigarg-ok"));;
  pid ← usys Ufork;
  (if pid =? 0 then
     let big := replicate 399 32 in
     udo (Uexec (chars "echo") (replicate (MAXARG - 1) big));;
     fd ← usys (Uopen (chars "bigarg-ok") O_CREATE);
     udo (Uclose fd);;
     uexit 0
   else fail_if (pid <? 0) (text "%s: bigargtest: fork failed") [who s]);;
  w ← uwait junk;
  uwhen (negb (w.2 =? 0)) (uexit w.2);;
  fd ← usys (Uopen (chars "bigarg-ok") 0);
  fail_if (fd <? 0) (text "%s: bigarg test failed!") [who s];;
  udo (Uclose fd).

(** the name f0000, f0001, ... of file [n] *)
Definition fsfull_name (n : Z) : list Z :=
  [102; u8 (48 + n / 1000); u8 (48 + (n mod 1000) / 100); u8 (48 + (n mod 100) / 10); u8 (48 + n mod 10)].

Definition t_fsfull : uprog unit :=
  uprintf (text "fsfull test") [];;
  nfiles ← uwhile turns (fun nfiles =>
    let name := fsfull_name nfiles in
    uprintf (text "writing %s") [AStr (Some name)];;
    fd ← usys (Uopen name O_CRW);
    if fd <? 0 then uprintf (text "open %s failed") [AStr (Some name)];; mret (inr nfiles)
    else
      total ← uwhile turns (fun total =>
        cc ← usys (Uwrite fd (take (Z.to_nat BSIZE) ubuf));
        if cc <? BSIZE then mret (inr total) else mret (inl (total + cc))) 0;
      uprintf (text "wrote %d bytes") [ANum total];;
      udo (Uclose fd);;
      if total =? 0 then mret (inr nfiles) else mret (inl (nfiles + 1))) 0;
  ueach (fun k => udo (Uunlink (fsfull_name (nfiles - k)))) (seqZ 0 (nfiles + 1));;
  uprintf (text "fsfull test finished") [].

Definition t_argptest (s : list Z) : uprog unit :=
  fd ← usys (Uopen (chars "init") O_RDONLY);
  fail_if (fd <? 0) (text "%s: open failed") [who s];;
  top ← usbrk 0;
  udo (Uread_at fd (u64 (top - 1)) (-1));;
  udo (Uclose fd).

(** [sp]: the stack pointer [r_sp()] gives *)
Definition t_stacktest (sp : Z) (s : list Z) : uprog unit :=
  pid ← usys Ufork;
  (if pid =? 0 then
     v ← peek8 (u64 (sp - USERSTACK * PGSIZE));
     uprintf (text "%s: stacktest: read below stack %d") [who s; ANum v];;
     uexit 1
   else fail_if (pid <? 0) (text "%s: fork failed") [who s]);;
  w ← uwait junk;
  if w.2 =? -1 then uexit 0 else uexit w.2.

Definition t_nowrite (s : list Z) : uprog unit :=
  ufold (fun addr xstatus =>
    pid ← usys Ufork;
    (if pid =? 0 then
       udo (Ustore addr (le_bytes 4 10));;
       uprintf (text "%s: write to %p did not fail!") [who s; ANum addr];;
       uexit 0
     else fail_if (pid <? 0) (text "%s: fork failed") [who s]);;
    w ← uwait xstatus;
    uwhen (w.2 =? 0) (uexit 1);;
    mret w.2) (0 :: copyin_addrs) junk;;
  uexit 0.

Definition BIGPTR : Z := 0xeaeb0b5b00002f5e.

Definition t_pgbug (s : list Z) : uprog unit :=
  udo (Uexec_at (inr BIGPTR) []);;
  udo (Upipe_at BIGPTR);;
  uexit 0.

Definition t_sbrkbugs (s : list Z) : uprog unit :=
  pid ← usys Ufork;
  fail_if (pid <? 0) (text "fork failed") [];;
  uwhen (pid =? 0)
    (sz ← usbrk 0;
     usbrk (- s32 sz);;
     uexit 0);;
  udo Uwait;;
  pid ← usys Ufork;
  fail_if (pid <? 0) (text "fork failed") [];;
  uwhen (pid =? 0)
    (sz ← usbrk 0;
     usbrk (- (s32 sz - 3500));;
     uexit 0);;
  udo Uwait;;
  pid ← usys Ufork;
  fail_if (pid <? 0) (text "fork failed") [];;
  uwhen (pid =? 0)
    (sz ← usbrk 0;
     usbrk (10 * PGSIZE + 2048 - sz);;
     usbrk (-10);;
     uexit 0);;
  udo Uwait;;
  uexit 0.

Definition t_sbrklast (s : list Z) : uprog unit :=
  top ← usbrk 0;
  uwhen (negb (top mod PGSIZE =? 0)) (usbrk (PGSIZE - top mod PGSIZE);; mret tt);;
  usbrk PGSIZE;;
  usbrk 10;;
  usbrk (-20);;
  top ← usbrk 0;
  let p := u64 (top - 64) in
  poke8 p 120;;
  poke8 (u64 (p + 1)) 0;;
  fd ← usys (Uopen_at p (Z.lor O_RDWR O_CREATE));
  udo (Uwrite_at fd p 1);;
  udo (Uclose fd);;
  fd ← usys (Uopen_at p O_RDWR);
  poke8 p 0;;
  udo (Uread_at fd p 1);;
  v ← peek8 p;
  uwhen (negb (v =? 120)) (uexit 1).

Definition t_sbrk8000 (s : list Z) : uprog unit :=
  usbrk 0x80000004;;
  top ← usbrk 0;
  v ← peek8 (u64 (top - 1));
  poke8 (u64 (top - 1)) (v + 1).

Definition t_badarg (s : list Z) : uprog unit :=
  ueach (fun _ => udo (Uexec_at (inl (chars "echo")) [inr 0xffffffff])) (seqZ 0 50000);;
  uexit 0.

(** ** Lazy allocation *)

Definition REGION_SZ : Z := 1024 * 1024 * 1024.

Definition t_lazy_alloc (s : list Z) : uprog unit :=
  prev_end ← usbrklazy REGION_SZ;
  fail_if (prev_end =? SBRK_ERROR) (text "sbrklazy() failed") [];;
  let region := addrs (prev_end + PGSIZE) (prev_end + REGION_SZ) (64 * PGSIZE) in
  ueach (fun i => poke64 i i) region;;
  ueach (fun i =>
    v ← peek64 i;
    fail_if (negb (v =? i)) (text "failed to read value from memory") []) region;;
  uexit 0.

Definition t_lazy_unmap (s : list Z) : uprog unit :=
  prev_end ← usbrklazy REGION_SZ;
  fail_if (prev_end =? SBRK_ERROR) (text "sbrklazy() failed") [];;
  let region := addrs (prev_end + PGSIZE) (prev_end + REGION_SZ) (PGSIZE * PGSIZE) in
  ueach (fun i => poke64 i i) region;;
  ueach (fun i =>
    pid ← usys Ufork;
    if pid <? 0 then uprintf (text "error forking") [];; uexit 1
    else if pid =? 0 then
      usbrklazy (-1 * REGION_SZ);;
      poke64 i i;;
      uexit 0
    else
      w ← uwait junk;
      fail_if (w.2 =? 0) (text "memory not unmapped") []) region;;
  uexit 0.

Definition t_lazy_copy (s : list Z) : uprog unit :=
  p ← usbrk 0;
  usbrklazy (4 * PGSIZE);;
  udo (Uopen_at (u64 (p + 8192)) 0);;
  xx ← usbrk 0;
  ret ← usbrk (- (xx + 1));
  fail_if (negb (ret =? xx)) (text "sbrk(sbrk(0)+1) returned %p, not old sz") [ANum ret];;
  ueach (fun bad =>
    fd ← usys (Uopen (chars "README") 0);
    fail_if (fd <? 0) (text "cannot open README") [];;
    n ← usys (Uread_at fd bad 512);
    fail_if (0 <=? n) (text "read succeeded") [];;
    udo (Uclose fd);;
    fd ← usys (Uopen (chars "junk") (Z.lor (Z.lor O_CREATE O_RDWR) O_TRUNC));
    fail_if (fd <? 0) (text "cannot open junk") [];;
    n ← usys (Uwrite_at fd bad 512);
    fail_if (0 <=? n) (text "write succeeded") [];;
    udo (Uclose fd))
    [0x3fffffc000; 0x3fffffd000; 0x3fffffe000; 0x3ffffff000; 0x4000000000; 0x8000000000];;
  uexit 0.

(** comparisons of a pointer with 0 by [<] are unsigned, so never true *)
Definition t_lazy_sbrk (s : list Z) : uprog unit :=
  p ← usbrk 0;
  p ← uwhile turns (fun p =>
    if p <? MAXVA - 2 ^ 30 then
      usbrklazy (2 ^ 30);;
      p ← usbrklazy 0;
      mret (inl p)
    else mret (inr p)) p;
  let n := s32 (TRAPFRAME - PGSIZE - p) in
  p1 ← usbrklazy n;
  fail_if (negb (p1 =? p)) (text "sbrklazy(%d) returned %p, not expected %p") [ANum n; ANum p1; ANum p];;
  p ← usbrk PGSIZE;
  fail_if (negb (p =? TRAPFRAME - PGSIZE)) (text "sbrk(%d) returned %p, not expected TRAPFRAME-PGSIZE")
    [ANum PGSIZE; ANum p];;
  poke8 p 1;;
  v ← peek8 (u64 (p + 1));
  fail_if (negb (v =? 0)) (text "sbrk() returned non-zero-filled memory") [];;
  p ← usbrk 1;
  fail_if (negb (p =? u64 (-1))) (text "sbrk(1) returned %p, expected error") [ANum p];;
  p ← usbrklazy 1;
  fail_if (negb (p =? u64 (-1))) (text "sbrklazy(1) returned %p, expected error") [ANum p];;
  uexit 0.

End Mem.

(** * The slow tests and the driver *)

Section Drive.
Context (turns : nat) (junk : Z).

(** ** The slow tests *)

Definition t_bigdir (s : list Z) : uprog unit :=
  let N := 500 in
  let name i := [120; 48 + i / 64; 48 + i mod 64] in
  udo (Uunlink (chars "bd"));;
  fd ← usys (Uopen (chars "bd") O_CREATE);
  fail_if (fd <? 0) (text "%s: bigdir create failed") [who s];;
  udo (Uclose fd);;
  ueach (fun i =>
    r ← usys (Ulink (chars "bd") (name i));
    fail_if (negb (r =? 0)) (text "%s: bigdir i=%d link(bd, %s) failed") [who s; ANum i; AStr (Some (name i))])
    (seqZ 0 N);;
  udo (Uunlink (chars "bd"));;
  ueach (fun i =>
    r ← usys (Uunlink (name i));
    fail_if (negb (r =? 0)) (chars "%s: bigdir unlink failed") [who s]) (seqZ 0 N).

Definition t_manywrites (s : list Z) : uprog unit :=
  let nchildren := 4 in let howmany := 30 in
  ueach (fun ci =>
    pid ← usys Ufork;
    fail_if (pid <? 0) (text "fork failed") [];;
    uwhen (pid =? 0)
      (let name := [98; 97 + ci] in
       udo (Uunlink name);;
       ueach (fun _ =>
         ueach (fun _ =>
           fd ← usys (Uopen name O_CRW);
           fail_if (fd <? 0) (text "%s: cannot create %s") [who s; AStr (Some name)];;
           cc ← usys (Uwrite fd ubuf);
           fail_if (negb (cc =? BUFSZ)) (text "%s: write(%d) ret %d") [who s; ANum BUFSZ; ANum cc];;
           udo (Uclose fd)) (seqZ 0 (ci + 1));;
         udo (Uunlink name)) (seqZ 0 howmany);;
       udo (Uunlink name);;
       uexit 0)) (seqZ 0 nchildren);;
  ueach (fun _ => w ← uwait 0; uwhen (negb (w.2 =? 0)) (uexit w.2)) (seqZ 0 nchildren);;
  uexit 0.

Definition t_badwrite (s : list Z) : uprog unit :=
  let assumed_free := 600 in
  udo (Uunlink (chars "junk"));;
  ueach (fun _ =>
    fd ← usys (Uopen (chars "junk") O_CWR);
    fail_if (fd <? 0) (text "open junk failed") [];;
    udo (Uwrite_at fd 0xffffffffff 1);;
    udo (Uclose fd);;
    udo (Uunlink (chars "junk"))) (seqZ 0 assumed_free);;
  fd ← usys (Uopen (chars "junk") O_CWR);
  fail_if (fd <? 0) (text "open junk failed") [];;
  n ← usys (Uwrite fd (chars "x"));
  fail_if (negb (n =? 1)) (text "write failed") [];;
  udo (Uclose fd);;
  udo (Uunlink (chars "junk"));;
  uexit 0.

Definition t_execout (s : list Z) : uprog unit :=
  ueach (fun avail =>
    pid ← usys Ufork;
    if pid <? 0 then uprintf (text "fork failed") [];; uexit 1
    else if pid =? 0 then
      uwhile turns (fun _ : unit =>
        a ← usbrk PGSIZE;
        if a =? SBRK_ERROR then mret (inr tt) else
        poke8 (u64 (a + PGSIZE - 1)) 1;;
        mret (inl tt)) tt;;
      ueach (fun _ => usbrk (- PGSIZE);; mret tt) (seqZ 0 avail);;
      udo (Uclose 1);;
      udo (Uexec (chars "echo") [chars "echo"; chars "x"]);;
      uexit 0
    else udo Uwait) (seqZ 0 15);;
  uexit 0.

Definition zz_name (i : Z) : list Z := [122; 122; 48 + i / 32; 48 + i mod 32].
Definition big_name (i : Z) : list Z := [98; 105; 103; 48 + i].

(** [buf], whose bytes are written, is not initialised; the loop over the
    files also ends when [done] is set *)
Definition t_diskfull (s : list Z) : uprog unit :=
  udo (Uunlink (chars "diskfulldir"));;
  ueach_break (fun fi =>
    udo (Uunlink (big_name fi));;
    fd ← usys (Uopen (big_name fi) (Z.lor (Z.lor O_CREATE O_RDWR) O_TRUNC));
    if fd <? 0 then
      uprintf (text "%s: could not create file %s") [who s; AStr (Some (big_name fi))];; mret false
    else
      more ← ueach_break (fun _ =>
        n ← usys (Uwrite fd (replicate (Z.to_nat BSIZE) junk));
        if negb (n =? BSIZE) then udo (Uclose fd);; mret false else mret true) (seqZ 0 MAXFILE);
      udo (Uclose fd);;
      mret (more : bool)) (seqZ 0 (127 - 48));;
  let nzz := 128 in
  ueach_break (fun i =>
    udo (Uunlink (zz_name i));;
    fd ← usys (Uopen (zz_name i) (Z.lor (Z.lor O_CREATE O_RDWR) O_TRUNC));
    if fd <? 0 then mret false else udo (Uclose fd);; mret true) (seqZ 0 nzz);;
  r ← usys (Umkdir (chars "diskfulldir"));
  uwhen (r =? 0) (uprintf (text "%s: mkdir(diskfulldir) unexpectedly succeeded!") [who s]);;
  udo (Uunlink (chars "diskfulldir"));;
  ueach (fun i => udo (Uunlink (zz_name i))) (seqZ 0 nzz);;
  ueach (fun i => udo (Uunlink (big_name i))) (seqZ 0 (127 - 48)).

Definition t_outofinodes (s : list Z) : uprog unit :=
  let nzz := 32 * 32 in
  ueach_break (fun i =>
    udo (Uunlink (zz_name i));;
    fd ← usys (Uopen (zz_name i) (Z.lor (Z.lor O_CREATE O_RDWR) O_TRUNC));
    if fd <? 0 then mret false else udo (Uclose fd);; mret true) (seqZ 0 nzz);;
  ueach (fun i => udo (Uunlink (zz_name i))) (seqZ 0 nzz).

Definition slowtests : list ((list Z -> uprog unit) * list Z) :=
  [(t_bigdir, chars "bigdir"); (t_manywrites, chars "manywrites"); (t_badwrite, chars "badwrite");
   (t_execout, chars "execout"); (t_diskfull, chars "diskfull"); (t_outofinodes, chars "outofinodes")].

(** ** The quick tests

    [base], [heap]: the allocator of [mem]; [sp]: the stack pointer in
    [stacktest]; [uninit]: the array [bsstest] looks at. *)

Definition quicktests (base : Z) (heap : mstate) (sp : Z) (uninit : list Z)
    : list ((list Z -> uprog unit) * list Z) :=
  [(t_copyin, chars "copyin"); (t_copyout, chars "copyout"); (t_copyinstr1, chars "copyinstr1");
   (t_copyinstr2, chars "copyinstr2"); (t_copyinstr3, chars "copyinstr3"); (t_rwsbrk, chars "rwsbrk");
   (t_truncate1, chars "truncate1"); (t_truncate2, chars "truncate2");
   (t_truncate3 junk, chars "truncate3"); (t_openiputtest junk, chars "openiput");
   (t_exitiputtest junk, chars "exitiput"); (t_iputtest, chars "iput"); (t_opentest, chars "opentest");
   (t_writetest, chars "writetest"); (t_writebig turns, chars "writebig");
   (t_createtest, chars "createtest"); (t_dirtest, chars "dirtest"); (t_exectest junk, chars "exectest");
   (t_pipe1 turns junk, chars "pipe1"); (t_killstatus turns junk, chars "killstatus");
   (t_preempt turns, chars "preempt"); (t_exitwait junk, chars "exitwait"); (t_reparent, chars "reparent");
   (t_twochildren, chars "twochildren"); (t_forkfork junk, chars "forkfork");
   (t_forkforkfork turns, chars "forkforkfork"); (t_reparent2, chars "reparent2");
   (t_mem turns junk base heap, chars "mem"); (t_sharedfd turns junk, chars "sharedfd");
   (t_fourfiles turns junk, chars "fourfiles"); (t_createdelete junk, chars "createdelete");
   (t_unlinkread, chars "unlinkread"); (t_linktest, chars "linktest");
   (t_concreate turns junk, chars "concreate"); (t_linkunlink, chars "linkunlink");
   (t_subdir, chars "subdir"); (t_bigwrite, chars "bigwrite"); (t_bigfile turns, chars "bigfile");
   (t_fourteen, chars "fourteen"); (t_rmdot, chars "rmdot"); (t_dirfile, chars "dirfile");
   (t_iref, chars "iref"); (t_forktest, chars "forktest"); (t_sbrkbasic junk, chars "sbrkbasic");
   (t_sbrkmuch, chars "sbrkmuch"); (t_kernmem junk, chars "kernmem"); (t_MAXVAplus junk, chars "MAXVAplus");
   (t_sbrkfail turns junk, chars "sbrkfail"); (t_sbrkarg, chars "sbrkarg");
   (t_validatetest, chars "validatetest"); (t_bsstest uninit, chars "bsstest");
   (t_bigargtest junk, chars "bigargtest"); (t_argptest, chars "argptest");
   (t_stacktest junk sp, chars "stacktest"); (t_nowrite junk, chars "nowrite"); (t_pgbug, chars "pgbug");
   (t_sbrkbugs, chars "sbrkbugs"); (t_sbrklast, chars "sbrklast"); (t_sbrk8000, chars "sbrk8000");
   (t_badarg, chars "badarg"); (t_lazy_alloc, chars "lazy_alloc"); (t_lazy_unmap junk, chars "lazy_unmap");
   (t_lazy_copy, chars "lazy_copy"); (t_lazy_sbrk turns, chars "lazy_sbrk")].

(** ** The driver *)

(** each test in a process of its own; whether it succeeded *)
Definition t_run (f : list Z -> uprog unit) (s : list Z) : uprog bool :=
  uprintf (chars "test %s: ") [who s];;
  pid ← usys Ufork;
  if pid <? 0 then uprintf (text "runtest: fork error") [];; uexit 1
  else if pid =? 0 then f s;; uexit 0
  else
    w ← uwait junk;
    (if negb (w.2 =? 0) then uprintf (text "FAILED") [] else uprintf (text "OK") []);;
    mret (w.2 =? 0).

(** [justone]: the only test to run, if there is one *)
Fixpoint runtests (tests : list ((list Z -> uprog unit) * list Z)) (justone : option (list Z))
    (continuous ntests : Z) : uprog Z :=
  match tests with
  | [] => mret ntests
  | (f, s) :: tests =>
      if match justone with None => true | Some one => strcmp s one =? 0 end then
        ok ← t_run f s;
        if negb (ok : bool) && negb (continuous =? 2)
        then uprintf (text "SOME TESTS FAILED") [];; mret (-1)
        else runtests tests justone continuous (ntests + 1)
      else runtests tests justone continuous ntests
  end.

Definition countfree : uprog Z :=
  sz0 ← usbrk 0;
  n ← uwhile turns (fun n =>
    a ← usbrk PGSIZE;
    if a =? SBRK_ERROR then mret (inr n) else mret (inl (n + 1))) 0;
  sz ← usbrk 0;
  usbrk (- (sz - sz0));;
  mret n.

Section Drivetests.
Context (quicktests slowtests : list ((list Z -> uprog unit) * list Z)).

(** one round; [inl tt] when it has come to its end, otherwise the result *)
Definition drive_round (quick : bool) (continuous : Z) (justone : option (list Z)) : uprog (unit + Z) :=
  uprintf (text "usertests starting") [];;
  free0 ← countfree;
  n ← runtests quicktests justone continuous 0;
  if (n <? 0) && negb (continuous =? 2) then mret (inr 1) else
  let ntests := if n <? 0 then 0 else n in
  r ← (if quick then mret (Some ntests) else
       uwhen (match justone with None => true | Some _ => false end)
         (uprintf (text "usertests slow tests starting") []);;
       n ← runtests slowtests justone continuous 0;
       if (n <? 0) && negb (continuous =? 2) then mret None
       else mret (Some (if n <? 0 then ntests else ntests + n)));
  match r with
  | None => mret (inr 1)
  | Some ntests =>
      free1 ← countfree;
      uwhen (free1 <? free0)
        (uprintf (text "FAILED -- lost some free pages %d (out of %d)") [ANum free1; ANum free0]);;
      if (free1 <? free0) && negb (continuous =? 2) then mret (inr 1)
      else if match justone with Some _ => ntests =? 0 | None => false end then
        uprintf (text "NO TESTS EXECUTED") [];; mret (inr 1)
      else mret (inl tt)
  end.

Definition drivetests (quick : bool) (continuous : Z) (justone : option (list Z)) : uprog Z :=
  uwhile turns (fun _ : unit =>
    r ← drive_round quick continuous justone;
    match r with
    | inr n => mret (inr n)
    | inl _ => if negb (continuous =? 0) then mret (inl tt) else mret (inr 0)
    end) tt.

Definition usertests_main (argv : list (list Z)) : uprog unit :=
  let go quick continuous justone :=
    r ← drivetests quick continuous justone;
    uwhen (negb (r =? 0)) (uexit 1);;
    uprintf (text "ALL TESTS PASSED") [];;
    uexit 0 in
  let two := (length argv =? 2)%nat in
  if two && (strcmp (arg argv 1) (chars "-q") =? 0) then go true 0 None
  else if two && (strcmp (arg argv 1) (chars "-c") =? 0) then go false 1 None
  else if two && (strcmp (arg argv 1) (chars "-C") =? 0) then go false 2 None
  else if two && negb (ch (arg argv 1) =? 45) then go false 0 (Some (arg argv 1))
  else if (1 <? length argv)%nat then uprintf (text "Usage: usertests [-c] [-C] [-q] [testname]") [];; uexit 1
  else go false 0 None.

End Drivetests.

End Drive.
