(* ===== verification/TxTests.v ===== *)
(** * The tests of transactions ([test_helpers.c], [txtest.c], [txtiming_test.c])

    User programs as in file Ulib.  The tests that a [main] leaves out with
    [if (false)] are here too.  [junk] is the value of a variable that has not
    been initialised; the allocator of the timing tests runs on its own state,
    with [base] as in file Umalloc.  The [sort] of the helpers sorts. *)

From S2P Require Import Prelude Monad CString Types Printf File Ulib Utils Umalloc UtBasic.
From stdpp Require Import base numbers list gmap strings.
From Stdlib Require Import ZArith Lia.
From Stdlib Require Sorted.

Open Scope Z_scope.

(** ** Helpers *)

Definition write_all (fd : Z) (s : list Z) : uprog unit :=
  n ← usys (Uwrite fd (cstr s));
  fail_if (negb (n =? strlen s)) (text "write failed") [].

Definition reset_file (path contents : list Z) : uprog unit :=
  udo (Uunlink path);;
  fd ← usys (Uopen path O_CRW);
  fail_if (fd <? 0) (text "open(create) failed") [];;
  write_all fd contents;;
  udo (Uclose fd).

(** the body of the inner loop of [sort] *)
Definition order_pair (i j : nat) (arr : list Z) : list Z :=
  if nth j arr 0 <? nth i arr 0 then
    let tmp := nth i arr 0 in
    <[j := tmp]> (<[i := nth j arr 0]> arr)
  else arr.

Definition sort (arr : list Z) (n : nat) : list Z :=
  fold_left (fun arr i => fold_left (fun arr j => order_pair i j arr) (seq (i + 1) (n - (i + 1))) arr)
    (seq 0 (n - 1)) arr.

Section Tests.
Context (junk : Z).

Definition print_file (tag path : list Z) : uprog unit :=
  fd ← usys (Uopen path O_RDONLY);
  if fd <? 0 then uprintf (text "%s: open failed") [who tag] else
  x ← uread fd 127 (replicate 128 junk);
  if x.1 <? 0 then uprintf (text "%s: read failed") [who tag];; udo (Uclose fd) else
  let buf := <[Z.to_nat x.1 := 0]> x.2 in
  uprintf (chars "%s: " ++ [34] ++ chars "%s" ++ [34; 10]) [who tag; who buf];;
  udo (Uclose fd).

Definition child_print (tag path : list Z) : uprog unit :=
  pid ← usys Ufork;
  fail_if (pid <? 0) (text "fork failed") [];;
  (if pid =? 0 then
     st ← usys Utxstatus;
     uprintf (text "Child txstatus: %d") [ANum st];;
     print_file tag path;;
     uexit 0
   else mret tt);;
  udo Uwait.

(** ** txtest.c *)

Definition TESTFILE : list Z := chars "txdemo.txt".

(** the two tests begin alike: the file is written in a transaction *)
Definition shadow_write : uprog unit :=
  reset_file TESTFILE (chars "ORIGIN");;
  print_file (chars "Initial stable") TESTFILE;;
  r ← usys Utxbegin;
  uprintf (text "txbegin: %d") [ANum r];;
  uwhen (r <? 0) (uexit 1);;
  fd ← usys (Uopen TESTFILE O_RDWR);
  uwhen (fd <? 0) (uprintf (text "open(O_RDWR) failed") [];; udo Utxabort;; uexit 1);;
  write_all fd (chars "SHADOW");;
  udo (Uclose fd).

Definition print_status : uprog unit :=
  st ← usys Utxstatus; uprintf (text "txstatus: %d") [ANum st].

Definition test_commit : uprog unit :=
  uprintf (text "––– TEST_COMMIT –––") [];;
  shadow_write;;
  print_status;;
  print_file (chars "Inside tx (shadow)") TESTFILE;;
  child_print (chars "Outside tx before commit (stable)") TESTFILE;;
  r ← usys Utxcommit;
  uprintf (text "txcommit: %d") [ANum r];;
  uwhen (r <? 0) (uexit 1);;
  uprintf (text "—–– Final State ———") [];;
  print_status;;
  child_print (chars "Outside tx after commit (stable)") TESTFILE;;
  print_file (chars "After commit (stable)") TESTFILE;;
  uprintf [10] [];;
  udo (Uunlink TESTFILE).

Definition test_abort : uprog unit :=
  uprintf (text "––– TEST_ABORT –––") [];;
  shadow_write;;
  print_file (chars "Inside tx (shadow)") TESTFILE;;
  child_print (chars "Outside tx before abort (stable)") TESTFILE;;
  r ← usys Utxabort;
  uprintf (text "txabort: %d") [ANum r];;
  uwhen (r <? 0) (uexit 1);;
  uprintf (text "—–– Final State ———") [];;
  print_status;;
  child_print (chars "Outside tx after abort (ORIGIN)") TESTFILE;;
  print_file (chars "After abort (ORIGIN)") TESTFILE;;
  uprintf [10] [];;
  udo (Uunlink TESTFILE).

(** child and parent of [test_ww_conflict] write the same file, each in its
    transaction, and tell the other by a pipe; [rd] and [wr] are the ends of
    the pipes that the process keeps *)
Definition ww_begin (me : string) (contents : list Z) : uprog unit :=
  r ← usys Utxbegin;
  fail_if (r <? 0) (chars me ++ text ": txbegin failed") [];;
  uprintf (chars me ++ text ": txbegin success") [];;
  fd ← usys (Uopen TESTFILE O_RDWR);
  uwhen (fd <? 0) (uprintf (chars me ++ text ": open failed") [];; udo Utxabort;; uexit 1);;
  write_all fd contents;;
  udo (Uclose fd).

Definition ww_child (rd wr : Z) : uprog unit :=
  ww_begin "Child" (chars "CHILD");;
  udo (Uwrite wr (chars "r"));;
  udo (Uread rd 1);;
  r ← usys Utxcommit;
  uprintf (text "Child txcommit: %d") [ANum r];;
  (if r =? 0 then print_file (chars "Child: txcommit success") TESTFILE
   else uprintf (text "Child: txcommit failed due to conflict") []);;
  udo (Uclose rd);;
  udo (Uclose wr);;
  uexit 0.

Definition ww_parent (rd wr : Z) : uprog unit :=
  ww_begin "Parent" (chars "PARENT");;
  udo (Uread rd 1);;
  udo (Uwrite wr (chars "r"));;
  r ← usys Utxcommit;
  uprintf (text "Parent txcommit: %d") [ANum r];;
  (if r =? 0 then print_file (chars "Parent: txcommit success") TESTFILE
   else uprintf (text "Parent: commit failed (conflict)") []);;
  udo Uwait;;
  uprintf (text "—–– Final State ———") [];;
  print_file (chars "Actual") TESTFILE;;
  uprintf (text "Expected: exactly one of PARENT or CHILD, not ORIGIN") [];;
  uprintf [10] [];;
  udo (Uclose rd);;
  udo (Uclose wr);;
  udo (Uunlink TESTFILE).

Definition test_ww_conflict : uprog unit :=
  uprintf (text "––– TEST_WW_CONFLICT –––") [];;
  reset_file TESTFILE (chars "ORIGIN");;
  print_file (chars "Initial stable") TESTFILE;;
  p2c ← upipe;
  c2p ← upipe;
  pid ← usys Ufork;
  fail_if (pid <? 0) (text "fork failed") [];;
  if pid =? 0 then
    udo (Uclose p2c.2.2);;
    udo (Uclose c2p.2.1);;
    ww_child p2c.2.1 c2p.2.2
  else
    udo (Uclose p2c.2.1);;
    udo (Uclose c2p.2.2);;
    ww_parent c2p.2.1 p2c.2.2.

Definition test_multiple_writes : uprog unit :=
  uprintf (text "––– TEST_MULTIPLE_WRITES –––") [];;
  reset_file TESTFILE [];;
  udo Utxbegin;;
  ueach (fun s =>
    fd ← usys (Uopen TESTFILE O_RDWR);
    write_all fd s;;
    udo (Uclose fd)) [chars "AAAA"; chars "BBBB"; chars "CCCC"];;
  udo Utxcommit;;
  uprintf (text "—–– Final State ———") [];;
  print_file (chars "Actual") TESTFILE;;
  uprintf (text "Expected: CCCC") [];;
  uprintf [10] [];;
  udo (Uunlink TESTFILE).

Definition test_nested : uprog unit :=
  uprintf (text "––– TEST_NESTED –––") [];;
  r ← usys Utxbegin;
  uwhen (r <? 0) (uexit 1);;
  r ← usys Utxbegin;
  uprintf (text "Second txbegin: %d") [ANum r];;
  uprintf [10] [];;
  udo Utxabort;;
  udo Utxabort.

Definition txtest_main : uprog unit :=
  test_commit;;
  test_abort;;
  test_multiple_writes;;
  test_ww_conflict;;
  uwhen false test_nested;;
  uexit 0.

(** ** txtiming_test.c *)

Definition MAX_TRIALS : nat := 100.
Definition BATCH_TRIALS : nat := 10.
Definition NUM_WRITE_OPT : Z := 3.
Definition WRITE_SIZE_OPT : Z := 1.

Definition total_writes : Z :=
  if NUM_WRITE_OPT =? 1 then 256 else if NUM_WRITE_OPT =? 2 then 1024
  else if NUM_WRITE_OPT =? 3 then 4096 else 256.
Definition wr_size : Z :=
  if WRITE_SIZE_OPT =? 1 then 16 else if WRITE_SIZE_OPT =? 2 then 32
  else if WRITE_SIZE_OPT =? 3 then 64 else 16.
Definition batch_sizes : list Z := [1; 2; 4; 8; 16; 32; 64; 128].

Context (base : Z).

(** calls of the allocator *)
Definition umalloc (n : Z) (heap : mstate) : uprog (Z * mstate) :=
  match malloc base n heap with Ok p heap => mret (p, heap) | _ => UCut end.
Definition ufree (p : Z) (heap : mstate) : uprog mstate :=
  match free p heap with Ok _ heap => mret heap | _ => UCut end.

Definition alloc_buf (n : Z) (heap : mstate) : uprog (Z * mstate) :=
  m ← umalloc n heap;
  fail_if (m.1 =? 0) (text "malloc failed") [];;
  mret m.

Definition open_rdwr : uprog Z :=
  fd ← usys (Uopen TESTFILE O_RDWR);
  fail_if (fd <? 0) (text "open(O_RDWR) failed") [];;
  mret fd.

(** [count] writes of [buf] *)
Definition write_batch (fd : Z) (buf : list Z) (count : Z) : uprog unit :=
  ueach (fun _ =>
    n ← usys (Uwrite fd buf);
    fail_if (negb (n =? Z.of_nat (length buf))) (text "write failed") []) (seqZ 0 count).

Definition tx_or_exit (c : ucall) : uprog unit := r ← usys c; uwhen (r <? 0) (uexit 1).

Definition test_tx_vs_notx (heap : mstate) : uprog mstate :=
  uprintf (text "=== tx_vs_notx ===") [];;
  reset_file TESTFILE [];;
  let wr_size := 16 in
  m ← alloc_buf wr_size heap;
  let buf := replicate (Z.to_nat wr_size) 65 in
  uprintf (text "------ Transactional mode ------") [];;
  ueach (fun fw =>
    sum ← ufold (fun j sum =>
      fd ← open_rdwr;
      start ← usys Uuptime;
      tx_or_exit Utxbegin;;
      write_batch fd buf fw;;
      udo (Uclose fd);;
      tx_or_exit Utxcommit;;
      end_ ← usys Uuptime;
      uwhen (Nat.eqb (j mod 10) 0) (reset_file TESTFILE []);;
      mret (s32 (sum + s32 (end_ - start)))) (seq 0 MAX_TRIALS) 0;
    fprintf 2 (text "TX -- Avg. time elapsed for %d writes across %d trials: %d ms")
      [ANum fw; ANum (Z.of_nat MAX_TRIALS); ANum (Z.quot sum (Z.of_nat MAX_TRIALS))])
    [4; 8; 16; 32; 64; 128; 256; 512; 1024];;
  uprintf (text "--------------------------------") [];;
  ufree m.1 m.2.

(** the rounds of one batch size: [batch] is run [total_writes / size] times
    in each of the trials, which are timed *)
Definition batch_rounds (i : nat) (size : Z) (batch : uprog unit) : uprog Z :=
  ufold (fun j sum =>
    fprintf 2 (text "DEBUG: Here! i = %d, Trial #%d") [ANum (Z.of_nat i); ANum (Z.of_nat j)];;
    start ← usys Uuptime;
    ueach (fun _ => batch) (seqZ 0 (total_writes / size));;
    end_ ← usys Uuptime;
    mret (s32 (sum + s32 (end_ - start)))) (seq 0 BATCH_TRIALS) 0.

Definition test_optimal_batch (heap : mstate) : uprog mstate :=
  uprintf (text "=== test_optimal_batch ===") [];;
  reset_file TESTFILE [];;
  m ← alloc_buf wr_size heap;
  let buf := replicate (Z.to_nat wr_size) 66 in
  ueach (fun i =>
    let size := nth i batch_sizes 0 in
    sum ← batch_rounds i size
      (tx_or_exit Utxbegin;;
       fd ← open_rdwr;
       write_batch fd buf size;;
       udo (Uclose fd);;
       tx_or_exit Utxcommit);
    reset_file TESTFILE [];;
    fprintf 2 (text "TX -- Time elapsed for %d total writes, batch size of %d, avg over %d trials: %d ms")
      [ANum total_writes; ANum size; ANum (Z.of_nat BATCH_TRIALS);
       ANum (Z.quot sum (Z.of_nat BATCH_TRIALS))]) (seq 0 8);;
  ufree m.1 m.2.

Definition test_optimal_batch_notx (heap : mstate) : uprog mstate :=
  uprintf (text "=== test_optimal_batch_notx ===") [];;
  reset_file TESTFILE [];;
  m ← alloc_buf wr_size heap;
  let buf := replicate (Z.to_nat wr_size) 66 in
  ueach (fun i =>
    let size := nth i batch_sizes 0 in
    sum ← batch_rounds i size
      (fd ← open_rdwr;
       write_batch fd buf size;;
       udo (Uclose fd));
    reset_file TESTFILE [];;
    fprintf 2 (text "No TX -- Time elapsed for %d total writes, batch size of %d, avg over %d trials: %d ms")
      [ANum total_writes; ANum size; ANum (Z.of_nat BATCH_TRIALS);
       ANum (Z.quot sum (Z.of_nat BATCH_TRIALS))]) (seq 0 8);;
  ufree m.1 m.2.

(** one trial of [test_tx_tail_latency], timed *)
Definition tail_trial (buf : list Z) (batch_size : Z) : uprog Z :=
  start ← usys Uuptime;
  tx_or_exit Utxbegin;;
  fd ← open_rdwr;
  write_batch fd buf batch_size;;
  udo (Uclose fd);;
  tx_or_exit Utxcommit;;
  end_ ← usys Uuptime;
  mret (s32 (end_ - start)).

(** the array is not checked to have been allocated: its elements would be
    stored at address 0 then *)
Definition tail_trials (p : Z) (buf : list Z) (batch_size : Z) (n : nat) : uprog (list Z) :=
  ufold (fun i latencies =>
    t ← tail_trial buf batch_size;
    uwhen (p =? 0) (udo (Ustore (4 * Z.of_nat i) (le_bytes 4 t)));;
    fprintf 2 (text "DEBUG: Latency observed for i = %d, batch size of %d: %d ms")
      [ANum (Z.of_nat i); ANum batch_size; ANum t];;
    mret (<[i := t]> latencies)) (seq 0 n) (replicate n junk).

Definition latency_report (latencies : list Z) (n : nat) (batch_size : Z) : uprog unit :=
  let latencies := sort latencies n in
  let at_ i := nth i latencies 0 in
  let count (P : Z -> bool) := Z.of_nat (length (filter (fun t => P t = true) (take n latencies))) in
  uprintf (text "Latency stats (batch=%d):") [ANum batch_size];;
  uprintf (text "min: %d ms") [ANum (at_ 0%nat)];;
  uprintf (text "p50: %d ms") [ANum (at_ (n * 50 / 100)%nat)];;
  uprintf (text "p90: %d ms") [ANum (at_ (n * 90 / 100)%nat)];;
  uprintf (text "p99: %d ms") [ANum (at_ (n * 99 / 100)%nat)];;
  uprintf (text "max: %d ms") [ANum (at_ (n - 1)%nat)];;
  uprintf (text "distribution:") [];;
  uprintf (text "0–3ms:   %d") [ANum (count (fun t => t <=? 3))];;
  uprintf (text "3–10ms:  %d") [ANum (count (fun t => negb (t <=? 3) && (t <=? 10)))];;
  uprintf (text "10+ ms:  %d") [ANum (count (fun t => negb (t <=? 3) && negb (t <=? 10)))];;
  uprintf (text "——————————————————————————————————") [].

Definition test_tx_tail_latency (heap : mstate) : uprog mstate :=
  uprintf (text "=== test_tail_latency ===") [];;
  reset_file TESTFILE [];;
  let batch_size := 256 in
  m ← alloc_buf wr_size heap;
  l ← umalloc (Z.of_nat MAX_TRIALS * 4) m.2;
  latencies ← tail_trials l.1 (replicate (Z.to_nat wr_size) 67) batch_size MAX_TRIALS;
  latency_report latencies MAX_TRIALS batch_size;;
  heap ← ufree m.1 l.2;
  ufree l.1 heap.

Definition txtiming_main (heap : mstate) : uprog unit :=
  heap ← (if false then test_tx_tail_latency heap else mret heap);
  heap ← test_optimal_batch heap;
  heap ← test_optimal_batch_notx heap;
  heap ← (if false then test_tx_vs_notx heap else mret heap);
  uexit 0.

End Tests.

(** * [sort] sorts

    After the turn [i] of the outer loop the element [i] is the least of those
    from [i] on. *)

(** ** One exchange *)

Lemma nth_insert (l : list Z) i j x :
  (i < length l)%nat -> nth j (<[i := x]> l) 0 = if decide (i = j) then x else nth j l 0.
Proof.
  intros Hi. rewrite !nth_lookup. case_decide as E.
  - subst. by rewrite list_lookup_insert_eq.
  - by rewrite list_lookup_insert_ne.
Qed.

(** what [order_pair i j] with [i < j < n] does not change: the elements,
    and the places outside [i .. n-1], where elements only change places *)
Record rearranged (i n : nat) (l l' : list Z) : Prop := Mk_rearranged {
  ra_perm : l' ≡ₚ l;
  ra_below a : (a < i)%nat -> nth a l' 0 = nth a l 0;
  ra_drop : drop n l' = drop n l;
  ra_from b : (i <= b < n)%nat -> exists b', (i <= b' < n)%nat /\ nth b l' 0 = nth b' l 0;
}.

Lemma rearranged_refl i n l : rearranged i n l l.
Proof. split; try done. eauto. Qed.

Lemma rearranged_trans i n l1 l2 l3 : rearranged i n l1 l2 -> rearranged i n l2 l3 -> rearranged i n l1 l3.
Proof.
  intros [P1 A1 D1 F1] [P2 A2 D2 F2]. split; [by rewrite P2| |congruence|].
  - intros a Ha. rewrite A2, A1; done.
  - intros b Hb. destruct (F2 b Hb) as (b' & Hb' & ->). apply F1, Hb'.
Qed.

Lemma rearranged_length i n l l' : rearranged i n l l' -> length l' = length l.
Proof. intros [P _ _ _]. by rewrite P. Qed.

Lemma order_pair_rearranged i j n l :
  (i < j < n)%nat -> (n <= length l)%nat -> rearranged i n l (order_pair i j l).
Proof.
  intros Hij Hn. unfold order_pair. case_match; [|apply rearranged_refl].
  destruct (lookup_lt_is_Some_2 l i ltac:(lia)) as [x Hx].
  destruct (lookup_lt_is_Some_2 l j ltac:(lia)) as [y Hy].
  split.
  - rewrite !nth_lookup, Hx, Hy. by apply Permutation_insert_swap.
  - intros a Ha. rewrite !nth_insert by (rewrite ?length_insert; lia). by repeat case_decide; try lia.
  - by rewrite !drop_insert_lt by lia.
  - intros b Hb. rewrite !nth_insert by (rewrite ?length_insert; lia).
    repeat case_decide; [exists i|exists j|exists b]; done || (split; [lia|done]).
Qed.

Lemma order_pair_orders i j l :
  (i < j < length l)%nat ->
  nth i (order_pair i j l) 0 <= nth i l 0 /\ nth i (order_pair i j l) 0 <= nth j (order_pair i j l) 0 /\
  (forall b, b <> i -> b <> j -> nth b (order_pair i j l) 0 = nth b l 0).
Proof.
  intros Hij. unfold order_pair. destruct (Z.ltb_spec (nth j l 0) (nth i l 0)) as [E|E]; [|done].
  rewrite !nth_insert by (rewrite ?length_insert; lia). repeat case_decide; try lia.
  split_and!; try lia. intros b Hbi Hbj.
  rewrite !nth_insert by (rewrite ?length_insert; lia). by repeat case_decide; try lia.
Qed.

(** ** The two loops *)

Lemma fold_seq_inv {X} (P : nat -> X -> Prop) (f : X -> nat -> X) a n x :
  P a x -> (forall k y, (a <= k < a + n)%nat -> P k y -> P (S k) (f y k)) ->
  P (a + n)%nat (fold_left f (seq a n) x).
Proof.
  revert a x. induction n as [|n IH]; intros a x H0 Hf; simpl; [by rewrite Nat.add_0_r|].
  rewrite <- Nat.add_succ_comm. apply IH; [apply Hf; [lia|done]|].
  intros k y Hk. apply Hf. lia.
Qed.

Lemma sort_turn_min i n l :
  (i < n <= length l)%nat ->
  let l' := fold_left (fun arr j => order_pair i j arr) (seq (i + 1) (n - (i + 1))) l in
  rearranged i n l l' /\ (forall b, (i <= b < n)%nat -> nth i l' 0 <= nth b l' 0).
Proof.
  intros Hi. set (P k l' := rearranged i n l l' /\ (forall b, (i <= b < k)%nat -> nth i l' 0 <= nth b l' 0)).
  enough (P (i + 1 + (n - (i + 1)))%nat
    (fold_left (fun arr j => order_pair i j arr) (seq (i + 1) (n - (i + 1))) l)) as [H1 H2].
  { split; [done|]. intros b Hb. apply H2. lia. }
  apply fold_seq_inv.
  { split; [apply rearranged_refl|]. intros b Hb. assert (b = i) as -> by lia. lia. }
  intros k y Hk [Hr Hm]. pose proof (rearranged_length _ _ _ _ Hr).
  destruct (order_pair_orders i k y ltac:(lia)) as (H1 & H2 & H3). split.
  - eapply rearranged_trans; [done|]. apply order_pair_rearranged; lia.
  - intros b Hb. destruct (decide (b = k)) as [->|]; [done|]. destruct (decide (b = i)) as [->|]; [lia|].
    rewrite (H3 b) by done. specialize (Hm b ltac:(lia)). lia.
Qed.

Lemma sort_inv n l :
  (n <= length l)%nat ->
  rearranged 0 n l (sort l n) /\
  (forall a b, (a < n - 1)%nat -> (a <= b < n)%nat -> nth a (sort l n) 0 <= nth b (sort l n) 0).
Proof.
  intros Hn. set (P k l' := rearranged 0 n l l' /\
    (forall a b, (a < k)%nat -> (a <= b < n)%nat -> nth a l' 0 <= nth b l' 0)).
  change (P (0 + (n - 1))%nat (sort l n)). unfold sort. apply fold_seq_inv.
  { split; [apply rearranged_refl|lia]. }
  intros k y Hk [Hr Hm]. pose proof (rearranged_length _ _ _ _ Hr).
  destruct (sort_turn_min k n y ltac:(lia)) as [[Hp Ha Hd Hf] Hmin]. split.
  - eapply rearranged_trans; [done|]. split; [done|lia|done|].
    intros b Hb. destruct (decide (b < k)%nat); [exists b; split; [lia|by apply Ha]|].
    destruct (Hf b ltac:(lia)) as (b' & Hb' & ->). exists b'. split; [lia|done].
  - intros a b Hak Hb. destruct (decide (a = k)) as [->|]; [apply Hmin; lia|].
    rewrite Ha by lia. destruct (decide (b < k)%nat); [rewrite Ha by lia; apply Hm; lia|].
    destruct (Hf b ltac:(lia)) as (b' & Hb' & ->). apply Hm; lia.
Qed.

Lemma sorted_nth (l : list Z) :
  (forall a, (S a < length l)%nat -> nth a l 0 <= nth (S a) l 0) -> Sorted.Sorted Z.le l.
Proof.
  induction l as [|x l IH]; intros H; constructor.
  - apply IH. intros a Ha. apply (H (S a)). simpl. lia.
  - destruct l as [|y l]; constructor. apply (H 0%nat). simpl. lia.
Qed.

(** [sort(arr, n)] puts the first [n] elements of the array in ascending
    order; it only moves elements, and does not touch those from [n] on. *)
Theorem sort_sorts (arr : list Z) (n : nat) :
  (n <= length arr)%nat ->
  Sorted.Sorted Z.le (take n (sort arr n)) /\ take n (sort arr n) ≡ₚ take n arr /\
  drop n (sort arr n) = drop n arr.
Proof.
  intros Hn. destruct (sort_inv n arr Hn) as [Hr Hm]. pose proof (rearranged_length _ _ _ _ Hr) as Hl.
  destruct Hr as [Hp _ Hd _]. split_and!; [| |done].
  - apply sorted_nth. rewrite length_take. intros a Ha.
    rewrite !nth_lookup, !lookup_take_lt, <- !nth_lookup by lia. apply Hm; lia.
  - apply (inj (fun l => l ++ drop n arr)). rewrite <- Hd at 1. by rewrite !take_drop.
Qed.
