(* ===== verification/Stress.v ===== *)
(** * Programs that stress the kernel

    [grind.c], which makes system calls at random from several processes, and
    the small programs [forktest.c], [stressfs.c], [logstress.c], [dorphan.c]
    and [forphan.c].  User programs as in file Ulib; [turns] bounds the loops
    without an end, [junk] is the value of a variable that has not been
    initialised. *)

From S2P Require Import Prelude CString Types Printf Inode File Ulib Grep Utils UtBasic.
From stdpp Require Import base numbers list strings.
From Stdlib Require Import ZArith Lia.

Open Scope Z_scope.

Section Stress.
Context (turns : nat) (junk : Z).

(** ** grind.c *)

Definition rand (rand_next : Z) : Z * Z := let x := do_rand rand_next in (s32 x, x).

Definition close_open (path : string) : uprog unit :=
  fd ← usys (Uopen (chars path) O_CRW); udo (Uclose fd).
Definition reopen (fd : Z) (path : string) : uprog Z :=
  udo (Uclose fd);; usys (Uopen (chars path) O_CRW).
Definition chdir_or_exit (path : string) (msg : string) : uprog unit :=
  r ← usys (Uchdir (chars path)); fail_if (negb (r =? 0)) (text msg) [].

(** the variables of [go] *)
Record gostate := Mk_gostate { g_fd : Z; g_buf : list Z; g_iters : Z; g_rand : Z }.

(** the cases 1 to 12: names, on the files of the parent and of [grindir] *)
Definition go_names (what : Z) (fd : Z) (buf : list Z) : uprog (Z * list Z) :=
  let keep (m : uprog unit) := m;; mret (fd, buf) in
  if what =? 1 then keep (close_open "grindir/../a")
  else if what =? 2 then keep (close_open "grindir/../grindir/../b")
  else if what =? 3 then keep (udo (Uunlink (chars "grindir/../a")))
  else if what =? 4 then keep
    (chdir_or_exit "grindir" "grind: chdir grindir failed";;
     udo (Uunlink (chars "../b"));;
     udo (Uchdir (chars "/")))
  else if what =? 5 then fd ← reopen fd "/grindir/../a"; mret (fd, buf)
  else if what =? 6 then fd ← reopen fd "/./grindir/./../b"; mret (fd, buf)
  else if what =? 7 then keep (udo (Uwrite fd buf))
  else if what =? 8 then x ← uread fd 999 buf; mret (fd, x.2)
  else if what =? 9 then keep
    (udo (Umkdir (chars "grindir/../a"));;
     close_open "a/../a/./a";;
     udo (Uunlink (chars "a/a")))
  else if what =? 10 then keep
    (udo (Umkdir (chars "/../b"));;
     close_open "grindir/../b/b";;
     udo (Uunlink (chars "b/b")))
  else if what =? 11 then keep
    (udo (Uunlink (chars "b"));; udo (Ulink (chars "../grindir/./../a") (chars "../b")))
  else if what =? 12 then keep
    (udo (Uunlink (chars "../grindir/../a"));; udo (Ulink (chars ".././b") (chars "/grindir/../a")))
  else mret (fd, buf).

(** [fork], with what the child does; the child's program does not return *)
Definition fork_child (child : uprog unit) : uprog Z :=
  pid ← usys Ufork;
  if pid =? 0 then child;; uexit 0
  else fail_if (pid <? 0) (text "grind: fork failed") [];; mret pid.

(** the cases 13 to 20: processes, memory and pipes *)
Definition go_procs (what break0 : Z) : uprog unit :=
  if what =? 13 then fork_child (mret tt);; udo Uwait
  else if what =? 14 then fork_child (udo Ufork;; udo Ufork);; udo Uwait
  else if what =? 15 then usbrk 6011;; mret tt
  else if what =? 16 then
    b ← usbrk 0;
    uwhen (break0 <? b) (b ← usbrk 0; usbrk (- (b - break0));; mret tt)
  else if what =? 17 then
    pid ← fork_child (close_open "a");
    chdir_or_exit "../grindir/.." "grind: chdir failed";;
    udo (Ukill pid);;
    udo Uwait
  else if what =? 18 then
    fork_child (pid ← usys Ugetpid; udo (Ukill pid));; udo Uwait
  else if what =? 19 then
    x ← upipe;
    fail_if (x.1 <? 0) (text "grind: pipe failed") [];;
    let fds := x.2 in
    fork_child
      (udo Ufork;;
       udo Ufork;;
       n ← usys (Uwrite fds.2 (chars "x"));
       uwhen (negb (n =? 1)) (uprintf (text "grind: pipe write failed") []);;
       n ← usys (Uread fds.1 1);
       uwhen (negb (n =? 1)) (uprintf (text "grind: pipe read failed") []));;
    udo (Uclose fds.1);;
    udo (Uclose fds.2);;
    udo Uwait
  else if what =? 20 then
    fork_child
      (udo (Uunlink (chars "a"));;
       udo (Umkdir (chars "a"));;
       udo (Uchdir (chars "a"));;
       udo (Uunlink (chars "../a"));;
       udo (Uopen (chars "x") O_CRW);;
       udo (Uunlink (chars "x")));;
    udo Uwait
  else mret tt.

(** the case 21: a new file can be made, and its [stat] is right *)
Definition go_create : uprog unit :=
  udo (Uunlink (chars "c"));;
  fd1 ← usys (Uopen (chars "c") O_CRW);
  fail_if (fd1 <? 0) (text "grind: create c failed") [];;
  n ← usys (Uwrite fd1 (chars "x"));
  fail_if (negb (n =? 1)) (text "grind: write c failed") [];;
  x ← ucall_ (Ufstat fd1);
  fail_if (negb (a_ret x =? 0)) (text "grind: fstat failed") [];;
  let st := decode_stat (a_data x) in
  fail_if (negb (st_size st =? 1)) (text "grind: fstat reports wrong size %d") [ANum (s32 (st_size st))];;
  fail_if (200 <? st_ino st) (text "grind: fstat reports crazy i-number %d") [ANum (st_ino st)];;
  udo (Uclose fd1);;
  udo (Uunlink (chars "c")).

(** the case 22, [echo hi | cat]: the failures go to file descriptor 2 *)
Definition efail_if (b : bool) (msg : string) (status : Z) : uprog unit :=
  uwhen b (fprintf 2 (text msg) [];; uexit status).

(** [close(n); dup(fd)], which has to give [n] *)
Definition move_fd (fd n status : Z) : uprog unit :=
  udo (Uclose n);;
  r ← usys (Udup fd);
  efail_if (negb (r =? n)) "grind: dup failed" status;;
  udo (Uclose fd).

Definition exec_or_exit (path : string) (args : list string) (msg : string) (status : Z) : uprog unit :=
  udo (Uexec (chars path) (chars <$> args));;
  fprintf 2 (text msg) [];;
  uexit status.

Definition read_into (fd : Z) (i : nat) (buf : list Z) : uprog (list Z) :=
  x ← ucall_ (Uread fd 1); mret (splice i (a_data x) buf).

Definition go_pipeline : uprog unit :=
  x ← upipe;
  efail_if (x.1 <? 0) "grind: pipe failed" 1;;
  y ← upipe;
  efail_if (y.1 <? 0) "grind: pipe failed" 1;;
  let aa := x.2 in let bb := y.2 in
  pid1 ← usys Ufork;
  uwhen (pid1 =? 0)
    (ueach (fun fd => udo (Uclose fd)) [bb.1; bb.2; aa.1];;
     move_fd aa.2 1 1;;
     exec_or_exit "grindir/../echo" ["echo"; "hi"]%string "grind: echo: not found" 2);;
  efail_if (pid1 <? 0) "grind: fork failed" 3;;
  pid2 ← usys Ufork;
  uwhen (pid2 =? 0)
    (ueach (fun fd => udo (Uclose fd)) [aa.2; bb.1];;
     move_fd aa.1 0 4;;
     move_fd bb.2 1 5;;
     exec_or_exit "/cat" ["cat"]%string "grind: cat: not found" 6);;
  efail_if (pid2 <? 0) "grind: fork failed" 7;;
  ueach (fun fd => udo (Uclose fd)) [aa.1; aa.2; bb.2];;
  buf ← read_into bb.1 0 [0; 0; 0; 0];
  buf ← read_into bb.1 1 buf;
  buf ← read_into bb.1 2 buf;
  udo (Uclose bb.1);;
  w1 ← uwait junk;
  w2 ← uwait junk;
  fail_if (negb (w1.2 =? 0) || negb (w2.2 =? 0) || negb (strcmp buf (text "hi") =? 0))
    (chars "grind: exec pipeline failed %d %d " ++ [34] ++ chars "%s" ++ [34; 10])
    [ANum w1.2; ANum w2.2; who buf].

(** one turn of the loop *)
Definition go_turn (which_child : bool) (break0 : Z) (g : gostate) : uprog gostate :=
  let iters := u64 (g_iters g + 1) in
  uwhen (iters mod 500 =? 0) (udo (Uwrite 1 (if which_child then chars "B" else chars "A")));;
  let '(r, rand_next) := rand (g_rand g) in
  let what := r mod 23 in
  x ← (if what <=? 12 then go_names what (g_fd g) (g_buf g) else
       (if what =? 21 then go_create else if what =? 22 then go_pipeline
        else go_procs what break0);;
       mret (g_fd g, g_buf g));
  mret (Mk_gostate x.1 x.2 iters rand_next).

Definition go (which_child : bool) (rand_next : Z) : uprog unit :=
  break0 ← usbrk 0;
  udo (Umkdir (chars "grindir"));;
  chdir_or_exit "grindir" "grind: chdir grindir failed";;
  udo (Uchdir (chars "/"));;
  uwhile turns (fun g => g ← go_turn which_child break0 g; mret (inl g))
    (Mk_gostate (-1) (replicate 999 0) 0 rand_next).

Definition grind_iter (rand_next : Z) : uprog unit :=
  udo (Uunlink (chars "a"));;
  udo (Uunlink (chars "b"));;
  pid1 ← usys Ufork;
  fail_if (pid1 <? 0) (text "grind: fork failed") [];;
  uwhen (pid1 =? 0) (go false (Z.lxor rand_next 31);; uexit 0);;
  pid2 ← usys Ufork;
  fail_if (pid2 <? 0) (text "grind: fork failed") [];;
  uwhen (pid2 =? 0) (go true (Z.lxor rand_next 7177);; uexit 0);;
  w ← uwait (-1);
  uwhen (negb (w.2 =? 0)) (udo (Ukill pid1);; udo (Ukill pid2));;
  uwait (-1);;
  uexit 0.

Definition grind_main : uprog unit :=
  uwhile turns (fun rand_next =>
    pid ← usys Ufork;
    uwhen (pid =? 0) (grind_iter rand_next;; uexit 0);;
    uwhen (0 <? pid) (udo Uwait);;
    udo (Upause 20);;
    mret (inl (u64 (rand_next + 1)))) 1.

(** ** forktest.c *)

Definition fprint (s : list Z) : uprog unit := udo (Uwrite 1 s).

Definition forktest : uprog unit :=
  let fail_if b msg := uwhen b (fprint (text msg);; uexit 1) in
  fprint (text "fork test");;
  n ← fork_many 0 1000;
  fail_if (n =? 1000) "fork claimed to work N times!"%string;;
  ueach (fun _ => r ← usys Uwait; fail_if (r <? 0) "wait stopped early"%string) (seqZ 0 n);;
  r ← usys Uwait;
  fail_if (negb (r =? -1)) "wait got too many"%string;;
  fprint (text "fork test OK").

Definition forktest_main : uprog unit := forktest;; uexit 0.

(** ** stressfs.c *)

(** the value of [i] after the loop of forks: each child forks the next *)
Fixpoint fork_chain (i : Z) (n : nat) : uprog Z :=
  match n with
  | O => mret i
  | S n => pid ← usys Ufork; if 0 <? pid then mret i else fork_chain (i + 1) n
  end.

Definition stressfs_main : uprog unit :=
  uprintf (text "stressfs starting") [];;
  let data := replicate 512 97 in
  i ← fork_chain 0 4;
  uprintf (text "write %d") [ANum i];;
  let path := chars "stressfs" ++ [48 + i] in
  fd ← usys (Uopen path O_CRW);
  ueach (fun _ => udo (Uwrite fd data)) (seqZ 0 20);;
  udo (Uclose fd);;
  uprintf (text "read") [];;
  fd ← usys (Uopen path O_RDONLY);
  ueach (fun _ => udo (Uread fd 512)) (seqZ 0 20);;
  udo (Uclose fd);;
  udo Uwait;;
  uexit 0.

(** ** logstress.c

    The writes are of [SZ] bytes, more than the array [buf] has: [memset]
    fills the memory behind it too. *)

Definition logstress_child (argv : list (list Z)) (i : nat) : uprog unit :=
  let SZ := 2000 in
  fd ← usys (Uopen (arg argv i) O_CRW);
  fail_if (fd <? 0) (text "%s: create %s failed") [who (arg argv 0); who (arg argv i)];;
  ueach (fun _ =>
    n ← usys (Uwrite fd (replicate (Z.to_nat SZ) (u8 (48 + Z.of_nat i))));
    fail_if (negb (n =? SZ)) (text "write failed %d") [ANum n]) (seqZ 0 250);;
  uexit 0.

Definition logstress_main (argv : list (list Z)) : uprog Z :=
  ueach (fun i =>
    pid1 ← usys Ufork;
    fail_if (pid1 <? 0) (text "%s: fork failed") [who (arg argv 0)];;
    uwhen (pid1 =? 0) (logstress_child argv i)) (seq 1 (length argv - 1));;
  ufold (fun _ xstatus =>
    w ← uwait xstatus;
    uwhen (negb (w.2 =? 0)) (uexit w.2);;
    mret w.2) (seq 1 (length argv - 1)) junk;;
  mret 0.

(** ** dorphan.c and forphan.c *)

Definition dorphan_main (argv : list (list Z)) : uprog unit :=
  let s := arg argv 0 in
  want_zero s (Umkdir (chars "dd")) "%s: mkdir dd failed";;
  want_zero s (Uchdir (chars "dd")) "%s: chdir dd failed";;
  want_nonneg s (Uunlink (chars "../dd")) "%s: unlink failed";;
  uprintf (text "wait for kill and reclaim") [];;
  uforever turns (udo (Upause 1000)).

Definition forphan_main (argv : list (list Z)) : uprog unit :=
  let s := arg argv 0 in let ff := chars "file0" in
  fd ← usys (Uopen ff O_CWR);
  fail_if (fd <? 0) (text "%s: open failed") [who s];;
  x ← ucall_ (Ufstat fd);
  uwhen (a_ret x <? 0)
    (fprintf 2 (text "%s: cannot stat %s") [who s; who (chars "ff")];; uexit 1);;
  want_nonneg s (Uunlink ff) "%s: unlink failed";;
  r ← usys (Uopen ff O_RDONLY);
  fail_if (negb (r =? -1)) (text "%s: open successed") [who s];;
  uprintf (text "wait for kill and reclaim %d") [ANum (st_ino (decode_stat (a_data x)))];;
  uforever turns (udo (Upause 1000)).

End Stress.
