(* ===== verification/Mkfs.v ===== *)
(** * The file system image ([mkfs.c])

    The image is a map from block numbers to blocks; [mkfs] builds it from the
    files to install.  A failed assertion stops the program.  The host and
    RISC-V are both little-endian, so [xshort] and [xint] only truncate. *)

From S2P Require Import Prelude Monad CString Types Kernel Log FsBlock Inode Dir.
From stdpp Require Import base numbers list gmap strings.
From Stdlib Require Import ZArith Lia.

Open Scope Z_scope.

Definition NINODES : Z := 200.
Definition nbitmap : Z := FSSIZE / BPB + 1.
Definition ninodeblocks : Z := NINODES / IPB + 1.
Definition nlog : Z := LOGBLOCKS + 1.
Definition nmeta : Z := 2 + nlog + ninodeblocks + nbitmap.
Definition nblocks : Z := FSSIZE - nmeta.

Definition xshort (x : Z) : Z := le_value (le_bytes 2 x).
Definition xint (x : Z) : Z := le_value (le_bytes 4 x).

Record image := Mk_image {
  im_disk : gmap Z (list Z);
  im_freeinode : Z;
  im_freeblock : Z;
}.

Notation MK := (ST image).

Definition assert_ (b : bool) : MK unit := if b then mret tt else panic "assertion failed".

Definition zeroes : list Z := replicate (Z.to_nat BSIZE) 0.

(** [wsect] and [rsect]; reading past the end of the image
    makes [mkfs] die *)
Definition wsect (sec : Z) (buf : list Z) : MK unit :=
  modify (fun s => Mk_image (<[sec := buf]> (im_disk s)) (im_freeinode s) (im_freeblock s)).
Definition rsect (sec : Z) : MK (list Z) :=
  b ← gets (fun s => im_disk s !! sec);
  match b with Some buf => mret buf | None => panic "read" end.

(** [freeblock++] and [freeinode++] *)
Definition take_freeblock : MK Z := fun s =>
  Ok (im_freeblock s) (Mk_image (im_disk s) (im_freeinode s) (u32 (im_freeblock s + 1))).
Definition take_freeinode : MK Z := fun s =>
  Ok (im_freeinode s) (Mk_image (im_disk s) (u32 (im_freeinode s + 1)) (im_freeblock s)).

Definition mk_sb : superblock :=
  Mk_superblock FSMAGIC (xint FSSIZE) (xint nblocks) (xint NINODES) (xint nlog) (xint 2)
    (xint (2 + nlog)) (xint (2 + nlog + ninodeblocks)).

Definition encode_sb (sb : superblock) : list Z :=
  concat (map (le_bytes 4) [sb_magic sb; sb_size sb; sb_nblocks sb; sb_ninodes sb; sb_nlog sb;
                            sb_logstart sb; sb_inodestart sb; sb_bmapstart sb]).

(** ** Inodes *)

Definition winode (inum : Z) (d : inode_data) : MK unit :=
  let bn := IBLOCK inum mk_sb in
  buf ← rsect bn;
  wsect bn (splice (dinode_off inum) (encode_dinode d) buf).

Definition rinode (inum : Z) : MK inode_data :=
  let bn := IBLOCK inum mk_sb in
  buf ← rsect bn;
  mret (decode_dinode (slice (dinode_off inum) 64 buf)).

Definition mk_ialloc (type : Z) : MK Z :=
  inum ← take_freeinode;
  winode inum (Mk_inode_data (xshort type) 0 0 (xshort 1) (xint 0) (replicate 13 0));;
  mret inum.

(** the data block of file block [fbn], allocated if it is not there; [d] is
    the copy of the inode *)
Definition mk_bmap (d : inode_data) (fbn : Z) : MK (inode_data * Z) :=
  let addr d i := nth (Z.to_nat i) (d_addrs d) 0 in
  let ensure d i :=
    if xint (addr d i) =? 0
    then b ← take_freeblock; mret (set_d_addrs <[Z.to_nat i := xint b]> d)
    else mret d in
  if fbn <? NDIRECT then
    d ← ensure d fbn;
    mret (d, xint (addr d fbn))
  else
    d ← ensure d NDIRECT;
    indirect ← rsect (xint (addr d NDIRECT));
    let j := fbn - NDIRECT in
    if word_at indirect j =? 0 then
      b ← take_freeblock;
      wsect (xint (addr d NDIRECT)) (put_word j (xint b) indirect);;
      mret (d, xint (xint b))
    else mret (d, xint (word_at indirect j)).

(** every turn copies at least one byte *)
Definition iappend (inum : Z) (p : list Z) : MK unit :=
  d ← rinode inum;
  r ← loop (S (length p)) (fun '(d, off, p) =>
    if 0 <? Z.of_nat (length p) then
      let fbn := off / BSIZE in
      assert_ (fbn <? MAXFILE);;
      r ← mk_bmap d fbn;
      let '(d, x) := r in
      let n1 := Z.min (Z.of_nat (length p)) ((fbn + 1) * BSIZE - off) in
      buf ← rsect x;
      wsect x (splice (Z.to_nat (off - fbn * BSIZE)) (take (Z.to_nat n1) p) buf);;
      mret (inl (d, u32 (off + n1), drop (Z.to_nat n1) p))
    else mret (inr (d, off))) (d, xint (d_size d), p);
  winode inum (set_d_size (fun _ => xint r.2) r.1).

(** ** The bitmap *)

Definition set_bit (buf : list Z) (i : nat) : list Z :=
  alter (fun x => Z.lor x (Z.shiftl 1 (Z.of_nat i mod 8))) (i / 8)%nat buf.

Definition mk_bitmap (used : nat) : list Z := foldl set_bit zeroes (seq 0 used).

Definition mk_balloc (used : Z) : MK unit :=
  assert_ (used <? BPB);;
  wsect (sb_bmapstart mk_sb) (mk_bitmap (Z.to_nat used)).

(** ** main *)

Definition mk_dirent (inum : Z) (name : list Z) : list Z :=
  encode_dirent (Mk_dirent (xshort inum) (strncpy name (Z.to_nat DIRSIZ))).

(** the name a file gets: without [user/] and a leading underscore *)
Definition shortname (path : list Z) : list Z :=
  let s := if strncmp path (chars "user/") 5 =? 0 then drop 5 path else path in
  if ch s =? 95 then tail s else s.

(** [while ((cc = read(fd, buf, sizeof(buf))) > 0) iappend(inum, buf, cc)] *)
Definition append_file (inum : Z) (content : list Z) : MK unit :=
  loop (S (length content)) (fun p =>
    if (0 <? length p)%nat then
      iappend inum (take (Z.to_nat BSIZE) p);; mret (inl (drop (Z.to_nat BSIZE) p))
    else mret (inr tt)) content.

Definition install_file (rootino : Z) (f : list Z * list Z) : MK unit :=
  let '(path, content) := f in
  assert_ (negb (bool_decide (SLASH ∈
    (if strncmp path (chars "user/") 5 =? 0 then drop 5 path else path))));;
  let name := shortname path in
  assert_ (strlen name <=? DIRSIZ);;
  inum ← mk_ialloc T_FILE;
  iappend rootino (mk_dirent inum name);;
  append_file inum content.

Definition mkfs (files : list (list Z * list Z)) : MK unit :=
  for_each (seqZ 0 FSSIZE) (fun i => wsect i zeroes);;
  wsect 1 (splice 0 (encode_sb mk_sb) zeroes);;
  rootino ← mk_ialloc T_DIR;
  assert_ (rootino =? ROOTINO);;
  iappend rootino (mk_dirent rootino (chars "."));;
  iappend rootino (mk_dirent rootino (chars ".."));;
  for_each files (install_file rootino);;
  din ← rinode rootino;
  let off := xint (d_size din) in
  let off := (off / BSIZE + 1) * BSIZE in
  winode rootino (set_d_size (fun _ => xint off) din);;
  used ← gets im_freeblock;
  mk_balloc used.

Definition empty_image : image := Mk_image ∅ 1 nmeta.
