(* ===== verification/Spinlock.v ===== *)
(** * Spinlocks on several CPUs ([spinlock.c])

    The kernel model of the other files sees a lock from one CPU.  Here the
    CPUs interleave: a CPU takes a lock in the steps of [acquire] (interrupts
    off and the [holding] test, the atomic swap that succeeds or spins, the
    recording of the owner) and gives it back in the steps of [release] (the
    clearing of the owner, the store of 0, [pop_off]). *)

From S2P Require Import Prelude.
From stdpp Require Import base numbers list functions relations.
From Stdlib Require Import ZArith Lia.

Open Scope Z_scope.

(** ** The state *)

Record spinlock := Mk_spinlock { lk_locked : bool; lk_cpu : option nat }.

Record cpu := Mk_cpu { c_noff : Z; c_intena : bool; c_intr : bool }.

(** where a CPU is in [acquire] and [release] *)
Inductive place :=
  | Outside | Spinning (l : nat) | Swapped (l : nat) | Releasing (l : nat) | Popping (l : nat).

#[export] Instance place_eq_dec : EqDecision place.
Proof. solve_decision. Defined.

Record mach := Mk_mach { locks : nat -> spinlock; cpus : nat -> cpu; places : nat -> place }.

Definition initlock : spinlock := Mk_spinlock false None.

(** ** push_off, pop_off, holding *)

Definition push_off (c : cpu) : cpu :=
  Mk_cpu (c_noff c + 1) (if c_noff c =? 0 then c_intr c else c_intena c) false.

(** [None] where [pop_off] panics *)
Definition pop_off (c : cpu) : option cpu :=
  if c_intr c then None
  else if c_noff c <? 1 then None
  else Some (Mk_cpu (c_noff c - 1) (c_intena c) ((c_noff c - 1 =? 0) && c_intena c)).

Definition holding_cpu (lk : spinlock) (i : nat) : bool :=
  lk_locked lk && bool_decide (lk_cpu lk = Some i).

(** ** The steps, with [N] locks *)

Inductive lstep (N : nat) : mach -> mach -> Prop :=
  | acquire_enter m i l :
      (l < N)%nat -> places m i = Outside -> holding_cpu (locks m l) i = false ->
      lstep N m (Mk_mach (locks m) (<[i := push_off (cpus m i)]> (cpus m))
                   (<[i := Spinning l]> (places m)))
  | acquire_spin m i l :
      places m i = Spinning l -> lk_locked (locks m l) = true -> lstep N m m
  | acquire_swap m i l :
      places m i = Spinning l -> lk_locked (locks m l) = false ->
      lstep N m (Mk_mach (<[l := Mk_spinlock true (lk_cpu (locks m l))]> (locks m)) (cpus m)
                   (<[i := Swapped l]> (places m)))
  | acquire_done m i l :
      places m i = Swapped l ->
      lstep N m (Mk_mach (<[l := Mk_spinlock (lk_locked (locks m l)) (Some i)]> (locks m)) (cpus m)
                   (<[i := Outside]> (places m)))
  | release_enter m i l :
      places m i = Outside -> holding_cpu (locks m l) i = true ->
      lstep N m (Mk_mach (<[l := Mk_spinlock (lk_locked (locks m l)) None]> (locks m)) (cpus m)
                   (<[i := Releasing l]> (places m)))
  | release_store m i l :
      places m i = Releasing l ->
      lstep N m (Mk_mach (<[l := Mk_spinlock false (lk_cpu (locks m l))]> (locks m)) (cpus m)
                   (<[i := Popping l]> (places m)))
  | release_done m i l c :
      places m i = Popping l -> pop_off (cpus m i) = Some c ->
      lstep N m (Mk_mach (locks m) (<[i := c]> (cpus m)) (<[i := Outside]> (places m))).

(** all locks initialised, no CPU in [acquire] or [release] *)
Definition mach0 (m : mach) : Prop :=
  (forall l, locks m l = initlock) /\ (forall i, places m i = Outside /\ c_noff (cpus m i) = 0).

(** ** The invariant *)

(** [i] has swapped a 1 into [l] and is not the recorded owner *)
Definition between (m : mach) (i l : nat) : Prop :=
  places m i = Swapped l \/ places m i = Releasing l.

(** CPU [i] is in a critical section of [l]: its swap has succeeded and it has
    not yet stored 0 *)
Definition owns_lock (m : mach) (i l : nat) : Prop :=
  between m i l \/ holding_cpu (locks m l) i = true.

(** [i] is in [acquire] or [release] without having [l] *)
Definition aside (m : mach) (i l : nat) : Prop :=
  places m i = Spinning l \/ places m i = Popping l.

(** CPU [i] is taking, holding or giving back [l] *)
Definition engaged (m : mach) (i l : nat) : bool :=
  bool_decide (places m i = Spinning l) || bool_decide (places m i = Popping l) ||
  bool_decide (places m i = Swapped l) ||
  bool_decide (places m i = Releasing l) || holding_cpu (locks m l) i.

Fixpoint count (f : nat -> bool) (n : nat) : Z :=
  match n with O => 0 | S n => (if f n then 1 else 0) + count f n end.

Record lock_inv (N : nat) (m : mach) : Prop := {
  li_free : forall l, lk_locked (locks m l) = false -> lk_cpu (locks m l) = None;
  li_between : forall i l, between m i l ->
    (l < N)%nat /\ lk_locked (locks m l) = true /\ lk_cpu (locks m l) = None;
  li_unique : forall i j l, between m i l -> between m j l -> i = j;
  li_popping : forall i l, places m i = Popping l -> lk_cpu (locks m l) <> Some i;
  li_range : forall i l, engaged m i l = true -> (l < N)%nat;
  li_noff : forall i, c_noff (cpus m i) = count (engaged m i) N;
  li_intr : forall i, 0 < c_noff (cpus m i) -> c_intr (cpus m i) = false;
}.

Lemma count_ext f g n : (forall k, (k < n)%nat -> f k = g k) -> count f n = count g n.
Proof. induction n as [|n IH]; intros H; simpl; [done|]. rewrite H, IH by (intros; try apply H; lia). done. Qed.

Lemma count_nonneg f n : 0 <= count f n.
Proof. induction n; simpl; [lia|]. destruct (f n); lia. Qed.

Lemma count_flip f g n l :
  (l < n)%nat -> f l = false -> g l = true -> (forall k, k <> l -> f k = g k) ->
  count g n = count f n + 1.
Proof.
  intros Hl Hf Hg H. induction n as [|n IH]; [lia|]. simpl. destruct (decide (n = l)) as [->|Hne].
  - rewrite Hf, Hg, (count_ext f g l) by (intros; apply H; lia). lia.
  - rewrite (H n) by done. rewrite IH by lia. lia.
Qed.

Lemma count_pos f n l : (l < n)%nat -> f l = true -> 0 < count f n.
Proof.
  induction n as [|n IH]; intros Hl Hf; [lia|]. simpl. pose proof (count_nonneg f n).
  destruct (decide (n = l)) as [->|]; [rewrite Hf; lia|]. destruct (f n); [lia|]. apply IH; [lia|done].
Qed.

(** decide which entry of an updated function is read *)
Ltac fn_cases := unfold insert, fn_insert in *; simpl in *; repeat case_decide; simplify_eq/=.

Lemma holding_true lk i : holding_cpu lk i = true <-> lk_locked lk = true /\ lk_cpu lk = Some i.
Proof. unfold holding_cpu. rewrite andb_true_iff, bool_decide_eq_true. done. Qed.

Lemma engaged_true m i l :
  engaged m i l = true <-> aside m i l \/ between m i l \/ holding_cpu (locks m l) i = true.
Proof.
  unfold engaged, between, aside. rewrite !orb_true_iff, !bool_decide_eq_true. tauto.
Qed.

Lemma engaged_false m i l :
  engaged m i l = false <-> ~ aside m i l /\ ~ between m i l /\ holding_cpu (locks m l) i = false.
Proof.
  rewrite <- not_true_iff_false, engaged_true, <- not_true_iff_false. tauto.
Qed.

Lemma engaged_ext m m' i j l l' :
  (aside m i l <-> aside m' j l') ->
  (between m i l \/ holding_cpu (locks m l) i = true <->
   between m' j l' \/ holding_cpu (locks m' l') j = true) ->
  engaged m i l = engaged m' j l'.
Proof. intros H1 H2. apply eq_true_iff_eq. rewrite !engaged_true. tauto. Qed.

(** what a step does to the locks a CPU is engaged with *)
Lemma acquire_enter_engaged m i l j k :
  places m i = Outside ->
  engaged (Mk_mach (locks m) (<[i := push_off (cpus m i)]> (cpus m)) (<[i := Spinning l]> (places m))) j k
  = (if decide (j = i /\ k = l) then true else engaged m j k).
Proof.
  intros Hp. case_decide as E; [destruct E as [-> ->]; apply engaged_true; left; left; simpl; apply fn_lookup_insert|].
  apply engaged_ext; unfold between, aside; simpl; fn_cases; try tauto; rewrite Hp; intuition congruence.
Qed.

Section Steps.
Context (N : nat) (m : mach) (HI : lock_inv N m).

Lemma acquire_swap_engaged i l j k :
  places m i = Spinning l -> lk_locked (locks m l) = false ->
  engaged (Mk_mach (<[l := Mk_spinlock true (lk_cpu (locks m l))]> (locks m)) (cpus m)
     (<[i := Swapped l]> (places m))) j k = engaged m j k.
Proof using HI.
  intros Hp Hl. pose proof (li_free _ _ HI l Hl) as Hc. apply eq_true_iff_eq.
  rewrite !engaged_true, !holding_true. unfold between, aside. fn_cases; intuition congruence.
Qed.

Lemma acquire_done_engaged i l j k :
  places m i = Swapped l ->
  engaged (Mk_mach (<[l := Mk_spinlock (lk_locked (locks m l)) (Some i)]> (locks m)) (cpus m)
     (<[i := Outside]> (places m))) j k = engaged m j k.
Proof using HI.
  intros Hp. destruct (li_between _ _ HI i l (or_introl Hp)) as (_ & Hl & Hc). apply eq_true_iff_eq.
  rewrite !engaged_true, !holding_true. unfold between, aside. fn_cases; intuition congruence.
Qed.

Lemma release_enter_engaged i l j k :
  places m i = Outside -> holding_cpu (locks m l) i = true ->
  engaged (Mk_mach (<[l := Mk_spinlock (lk_locked (locks m l)) None]> (locks m)) (cpus m)
     (<[i := Releasing l]> (places m))) j k = engaged m j k.
Proof using HI.
  intros Hp [Hl Hc]%holding_true. apply eq_true_iff_eq.
  rewrite !engaged_true, !holding_true. unfold between, aside. fn_cases; intuition congruence.
Qed.

Lemma release_store_engaged i l j k :
  places m i = Releasing l ->
  engaged (Mk_mach (<[l := Mk_spinlock false (lk_cpu (locks m l))]> (locks m)) (cpus m)
     (<[i := Popping l]> (places m))) j k = engaged m j k.
Proof using HI.
  intros Hp. destruct (li_between _ _ HI i l (or_intror Hp)) as (_ & Hl & Hc). apply eq_true_iff_eq.
  rewrite !engaged_true, !holding_true. unfold between, aside. fn_cases; intuition congruence.
Qed.

Lemma release_done_engaged i l c j k :
  places m i = Popping l ->
  engaged (Mk_mach (locks m) (<[i := c]> (cpus m)) (<[i := Outside]> (places m))) j k
  = (if decide (j = i /\ k = l) then false else engaged m j k).
Proof using HI.
  intros Hp. pose proof (li_popping _ _ HI i l Hp) as Hc. case_decide as E.
  - destruct E as [-> ->]. apply engaged_false. unfold between, aside, holding_cpu. simpl.
    rewrite !fn_lookup_insert, (bool_decide_eq_false_2 _ Hc), andb_false_r. intuition congruence.
  - apply eq_true_iff_eq.
    rewrite !engaged_true, !holding_true. unfold between, aside. fn_cases; intuition congruence.
Qed.

End Steps.

(** the clauses of the invariant about the locks *)
Definition locks_ok (N : nat) (m : mach) : Prop :=
  (forall l, lk_locked (locks m l) = false -> lk_cpu (locks m l) = None) /\
  (forall i l, between m i l -> (l < N)%nat /\ lk_locked (locks m l) = true /\ lk_cpu (locks m l) = None) /\
  (forall i j l, between m i l -> between m j l -> i = j).

Lemma between_insert (L : nat -> spinlock) C (Pl : nat -> place) i p j l :
  between (Mk_mach L C (<[i := p]> Pl)) j l <->
  (if decide (i = j) then p = Swapped l \/ p = Releasing l else Pl j = Swapped l \/ Pl j = Releasing l).
Proof. unfold between. simpl. unfold insert, fn_insert. by case_decide. Qed.

Lemma lstep_locks N m m' : lock_inv N m -> lstep N m m' -> locks_ok N m'.
Proof.
  intros [F B U _ R _ _] Hs.
  destruct Hs as [m i l Hl Hp Hh|m i l Hp Hl|m i l Hp Hl|m i l Hp|m i l Hp Hh|m i l Hp|m i l c Hp Hc].
  - split_and!; [done| |].
    + intros j k. rewrite between_insert. case_decide; [intuition congruence|apply B].
    + intros j1 j2 k. rewrite !between_insert. repeat case_decide; try intuition congruence. apply U.
  - done.
  - assert (l < N)%nat by (apply (R i l), engaged_true; left; by left).
    assert (forall j, ~ between m j l) as Hn by (intros j Hj; destruct (B _ _ Hj) as (_ & ? & _); congruence).
    split_and!.
    + intros k. fn_cases; [done|apply F].
    + intros j k. rewrite between_insert. case_decide as E.
      * intros [[= <-]|?]; [|done]. fn_cases. rewrite F by done. done.
      * intros Hj. destruct (B j k Hj) as (? & ? & ?). fn_cases; [by destruct (Hn j)|done].
    + intros j1 j2 k. rewrite !between_insert. repeat case_decide; subst; try done.
      * intros [[= ->]|?] Hj; [|done]. by destruct (Hn j2).
      * intros Hj [[= ->]|?]; [|done]. by destruct (Hn j1).
      * apply U.
  - destruct (B i l (or_introl Hp)) as (_ & Hl & Hc). split_and!.
    + intros k. fn_cases; [congruence|apply F].
    + intros j k. rewrite between_insert. case_decide as E; [intuition congruence|]. intros Hj.
      destruct (B j k Hj) as (? & ? & ?). fn_cases; [|done]. destruct E. apply (U i j k); [by left|done].
    + intros j1 j2 k. rewrite !between_insert. repeat case_decide; try intuition congruence. apply U.
  - apply holding_true in Hh as [Hl Hc].
    assert (l < N)%nat by (apply (R i l), engaged_true; right; right; by apply holding_true).
    assert (forall j, ~ between m j l) as Hn by (intros j Hj; destruct (B _ _ Hj) as (_ & _ & ?); congruence).
    split_and!.
    + intros k. fn_cases; [done|apply F].
    + intros j k. rewrite between_insert. case_decide as E.
      * intros [?|[= <-]]; [done|]. fn_cases. done.
      * intros Hj. destruct (B j k Hj) as (? & ? & ?). fn_cases; done.
    + intros j1 j2 k. rewrite !between_insert. repeat case_decide; subst; try done.
      * intros [?|[= ->]] Hj; [done|]. by destruct (Hn j2).
      * intros Hj [?|[= ->]]; [done|]. by destruct (Hn j1).
      * apply U.
  - destruct (B i l (or_intror Hp)) as (_ & Hl & Hk). split_and!.
    + intros k. fn_cases; [done|apply F].
    + intros j k. rewrite between_insert. case_decide as E; [intuition congruence|]. intros Hj.
      destruct (B j k Hj) as (? & ? & ?). fn_cases; [|done]. destruct E. apply (U i j k); [by right|done].
    + intros j1 j2 k. rewrite !between_insert. repeat case_decide; try intuition congruence. apply U.
  - split_and!; [done| |].
    + intros j k. rewrite between_insert. case_decide; [intuition congruence|apply B].
    + intros j1 j2 k. rewrite !between_insert. repeat case_decide; try intuition congruence. apply U.
Qed.

Lemma lstep_popping N m m' :
  lock_inv N m -> lstep N m m' ->
  forall i l, places m' i = Popping l -> lk_cpu (locks m' l) <> Some i.
Proof.
  intros HI Hs. pose proof (li_popping _ _ HI) as P. pose proof (li_between _ _ HI) as B.
  destruct Hs as [m i l Hl Hp Hh|m i l Hp Hl|m i l Hp Hl|m i l Hp|m i l Hp Hh|m i l Hp|m i l c Hp Hc];
    try done; intros j k; fn_cases; try done; try apply P;
    try (intros; congruence).
  destruct (B j k (or_intror Hp)) as (_ & _ & ->). done.
Qed.

(** the clauses about the CPUs, from what the step does to [engaged] *)
Lemma push_noff m m' i l N :
  lock_inv N m -> (l < N)%nat -> engaged m i l = false ->
  (forall j k, engaged m' j k = if decide (j = i /\ k = l) then true else engaged m j k) ->
  (forall j, cpus m' j = if decide (i = j) then push_off (cpus m i) else cpus m j) ->
  (forall j, c_noff (cpus m' j) = count (engaged m' j) N) /\
  (forall j, 0 < c_noff (cpus m' j) -> c_intr (cpus m' j) = false).
Proof.
  intros HI Hl He Eg Ec. split; intros j; rewrite Ec; case_decide as E; subst; simpl.
  - rewrite (li_noff _ _ HI). symmetry. apply count_flip with (l := l); [done|done| |].
    + rewrite Eg. by rewrite decide_True.
    + intros k Hk. rewrite Eg, decide_False by tauto. done.
  - rewrite (li_noff _ _ HI). apply count_ext. intros k _. rewrite Eg, decide_False; [done|]. intuition congruence.
  - done.
  - apply (li_intr _ _ HI).
Qed.

Lemma pop_noff m m' i l c N :
  lock_inv N m -> (l < N)%nat -> engaged m i l = true -> pop_off (cpus m i) = Some c ->
  (forall j k, engaged m' j k = if decide (j = i /\ k = l) then false else engaged m j k) ->
  (forall j, cpus m' j = if decide (i = j) then c else cpus m j) ->
  (forall j, c_noff (cpus m' j) = count (engaged m' j) N) /\
  (forall j, 0 < c_noff (cpus m' j) -> c_intr (cpus m' j) = false).
Proof.
  intros HI Hl He Hc Eg Ec. unfold pop_off in Hc.
  destruct (c_intr (cpus m i)); [done|]. destruct (c_noff (cpus m i) <? 1); [done|]. injection Hc as <-.
  split; intros j; rewrite Ec; case_decide as E; subst; simpl.
  - rewrite (li_noff _ _ HI). rewrite (count_flip (engaged m' j) (engaged m j) N l); [lia|done| |done|].
    + rewrite Eg. by rewrite decide_True.
    + intros k Hk. rewrite Eg, decide_False by tauto. done.
  - rewrite (li_noff _ _ HI). apply count_ext. intros k _. rewrite Eg, decide_False; [done|]. intuition congruence.
  - intros Hp. destruct (c_noff (cpus m j) - 1 =? 0) eqn:E; [|done]. zbool. lia.
  - apply (li_intr _ _ HI).
Qed.

Lemma same_noff m m' N :
  lock_inv N m -> (forall j k, engaged m' j k = engaged m j k) -> (forall j, cpus m' j = cpus m j) ->
  (forall j, c_noff (cpus m' j) = count (engaged m' j) N) /\
  (forall j, 0 < c_noff (cpus m' j) -> c_intr (cpus m' j) = false).
Proof.
  intros HI Eg Ec. split; intros j; rewrite Ec; [|apply (li_intr _ _ HI)].
  rewrite (li_noff _ _ HI). apply count_ext. intros. by rewrite Eg.
Qed.

Lemma lstep_inv N m m' : lock_inv N m -> lstep N m m' -> lock_inv N m'.
Proof.
  intros HI Hs. pose proof (lstep_locks _ _ _ HI Hs) as (F & B & U).
  pose proof (lstep_popping _ _ _ HI Hs) as P.
  enough ((forall i l, engaged m' i l = true -> (l < N)%nat) /\
    (forall j, c_noff (cpus m' j) = count (engaged m' j) N) /\
    (forall j, 0 < c_noff (cpus m' j) -> c_intr (cpus m' j) = false)) as (R & C & I) by done.
  clear F B U P. pose proof (li_range _ _ HI) as R.
  destruct Hs as [m i l Hl Hp Hh|m i l Hp Hl|m i l Hp Hl|m i l Hp|m i l Hp Hh|m i l Hp|m i l c Hp Hc].
  - split.
    + intros j k. rewrite acquire_enter_engaged by done. case_decide; [intuition congruence|apply R].
    + apply (push_noff m _ i l); [done|done| |intros; by apply acquire_enter_engaged|done].
      apply engaged_false. unfold between, aside. rewrite Hp. intuition congruence.
  - destruct HI. done.
  - split; [intros j k; rewrite (acquire_swap_engaged N) by done; apply R|].
    apply (same_noff m); [done|intros; by apply (acquire_swap_engaged N)|done].
  - split; [intros j k; rewrite (acquire_done_engaged N) by done; apply R|].
    apply (same_noff m); [done|intros; by apply (acquire_done_engaged N)|done].
  - split; [intros j k; rewrite (release_enter_engaged N) by done; apply R|].
    apply (same_noff m); [done|intros; by apply (release_enter_engaged N)|done].
  - split; [intros j k; rewrite (release_store_engaged N) by done; apply R|].
    apply (same_noff m); [done|intros; by apply (release_store_engaged N)|done].
  - assert (engaged m i l = true) as He by (apply engaged_true; left; by right). split.
    + intros j k. rewrite (release_done_engaged N m HI i l c) by done. case_decide; [done|apply R].
    + apply (pop_noff m _ i l c); [done|by eapply R|done|done|intros; by apply (release_done_engaged N m HI)|done].
Qed.

Lemma mach0_inv N m : mach0 m -> lock_inv N m.
Proof.
  intros [Hl Hc]. assert (forall i l, engaged m i l = false) as He.
  { intros i l. apply engaged_false. unfold between, aside. rewrite Hl. destruct (Hc i) as [-> _].
    intuition congruence. }
  split.
  - intros l _. by rewrite Hl.
  - intros i l [H|H]; destruct (Hc i); congruence.
  - intros i j l [H|H]; destruct (Hc i); congruence.
  - intros i l H. destruct (Hc i). congruence.
  - intros i l. by rewrite He.
  - intros i. destruct (Hc i) as [_ ->]. rewrite (count_ext _ (fun _ => false)) by (intros; apply He).
    clear. by induction N.
  - intros i. destruct (Hc i) as [_ ->]. lia.
Qed.

Lemma owns_engaged m i l : owns_lock m i l -> engaged m i l = true.
Proof. intros H. apply engaged_true. destruct H; auto. Qed.

(** C23. Spinlocks exclude: however the steps of [acquire] and [release] of the
    CPUs interleave, at most one CPU is in a critical section of a lock, it has
    interrupts off as long as it is in one, and the [pop_off] of a [release]
    never panics. *)
Theorem spinlocks_exclude N m0 m :
  mach0 m0 -> rtc (lstep N) m0 m ->
  (forall i j l, owns_lock m i l -> owns_lock m j l -> i = j) /\
  (forall i l, owns_lock m i l -> c_intr (cpus m i) = false) /\
  (forall i l, places m i = Releasing l \/ places m i = Popping l ->
     is_Some (pop_off (cpus m i))).
Proof.
  intros H0 Hr. assert (lock_inv N m) as HI.
  { apply (mach0_inv N) in H0. clear -H0 Hr. induction Hr; eauto using lstep_inv. }
  assert (forall i l, engaged m i l = true -> 0 < c_noff (cpus m i)) as Hpos.
  { intros i l He. rewrite (li_noff _ _ HI). apply count_pos with l; [by apply (li_range _ _ HI i)|done]. }
  assert (forall i l, engaged m i l = true -> c_intr (cpus m i) = false) as Hoff
    by (intros i l He; by eapply (li_intr _ _ HI), Hpos).
  split_and!.
  - intros i j l [Hi|Hi] [Hj|Hj].
    + by apply (li_unique _ _ HI i j l).
    + apply holding_true in Hj as [_ ?]. destruct (li_between _ _ HI _ _ Hi) as (_ & _ & ?). congruence.
    + apply holding_true in Hi as [_ ?]. destruct (li_between _ _ HI _ _ Hj) as (_ & _ & ?). congruence.
    + apply holding_true in Hi as [_ ?], Hj as [_ ?]. congruence.
  - intros i l Ho. by eapply Hoff, owns_engaged.
  - intros i l Hp. assert (engaged m i l = true) as He.
    { apply engaged_true. unfold aside, between. tauto. }
    unfold pop_off. rewrite (Hoff i l He). specialize (Hpos i l He).
    destruct (c_noff (cpus m i) <? 1) eqn:E; zbool; [lia|eauto].
Qed.
