(* ===== verification/SleepLock.v ===== *)
(** Sleep locks on several CPUs: the kernel threads of a process table run
    [acquiresleep], [releasesleep], [yield] and [kkill] (sleeplock.c, proc.c)
    at once, each thread one operation at a time, and the schedulers of the
    CPUs pick processes up and put them down in between.  The code of each
    function is the list of its operations on shared data in the order of the
    source, so the order in which [sleep] takes [p->lock] and lets the
    caller's lock go is visible to the other threads.  The theorem is that
    the sleep lock excludes, that its [pid] names its holder, that none of the
    panics of [acquire], [release] and [sched] can be reached, and that no
    wakeup is lost. *)

From stdpp Require Import base list option relations functions.
From Stdlib Require Import Lia.
From S2P Require Import Prelude Monad Types.

(** ** The operations and the code *)

(** The locks of the model: the spinlock [lk->lk] inside the sleep lock, and
    the [p->lock] of each process. *)
Inductive splock :=
  | LK
  | LP (q : nat).

#[export] Instance splock_eq_dec : EqDecision splock.
Proof. solve_decision. Defined.

(** One operation on shared data.  [WakeIf] is the test and the assignment of
    [wakeup] under [p->lock], [KillWake] those of [kkill]; [WhileLocked] is one
    test of the loop of [acquiresleep]. *)
Inductive op :=
  | Acquire (l : splock)
  | Release (l : splock)
  | SetChan (c : option wchan)
  | SetState (st : procstate)
  | Sched
  | WakeIf (q : nat) (c : wchan)
  | KillWake (q : nat)
  | WhileLocked
  | SetLocked (b : bool)
  | SetPid (v : option nat)
  | Return.

#[export] Instance op_eq_dec : EqDecision op.
Proof. solve_decision. Defined.

(** Who holds a lock: a process's kernel thread, or a scheduler, which holds
    [p->lock] while it looks at [p] and again after [p] has switched back. *)
Inductive holder :=
  | Free
  | Thread (p : nat)
  | Scanning
  | SwitchedBack.

#[export] Instance holder_eq_dec : EqDecision holder.
Proof. solve_decision. Defined.

(** The shared state.  [sl_locked] and [sl_pid] are the fields of the sleep
    lock, with a process standing for its pid; [code] is what each kernel
    thread has still to do, [oncpu] whether it is on a CPU, and [inside]
    whether it is between its [acquiresleep] and its [releasesleep]. *)
Record shared := Mk_shared {
  held : splock -> holder;
  sl_locked : bool;
  sl_pid : option nat;
  pstate : nat -> procstate;
  pchan : nat -> option wchan;
  code : nat -> list op;
  oncpu : nat -> bool;
  inside : nat -> bool
}.

Section sleeplock.
Context (N : nat) (ch : wchan).

(** [sleep(chan, lk)]: [p->lock] is taken before [lk] is let go. *)
Definition sleep_code (p : nat) : list op :=
  [Acquire (LP p); Release LK; SetChan (Some ch); SetState SLEEPING; Sched;
   SetChan None; Release (LP p); Acquire LK].

(** The body of [wakeup(chan)]'s loop for the process [q]. *)
Definition wakeup_turn (p q : nat) : list op :=
  if decide (q = p) then []
  else [Acquire (LP q); WakeIf q ch; Release (LP q)].

Definition wakeup_code (p : nat) : list op :=
  concat (wakeup_turn p <$> seq 0 N).

(** [yield()], which a timer interrupt calls. *)
Definition yield_code (p : nat) : list op :=
  [Acquire (LP p); SetState RUNNABLE; Sched; Release (LP p)].

(** [kkill(pid)] for the pid of the process [q]: the processes before it are
    locked and let go, [q] is woken whatever it sleeps on. *)
Definition kkill_code (q : nat) : list op :=
  concat ((fun i => [Acquire (LP i); Release (LP i)]) <$> seq 0 q) ++
  [Acquire (LP q); KillWake q; Release (LP q)].

(** [acquiresleep(lk)]; [Return] is its return to the caller. *)
Definition acquiresleep_code (p : nat) : list op :=
  [Acquire LK; WhileLocked; SetLocked true; SetPid (Some p); Release LK;
   Return].

(** [releasesleep(lk)]. *)
Definition releasesleep_code (p : nat) : list op :=
  Acquire LK :: SetLocked false :: SetPid None :: wakeup_code p ++ [Release LK].

(** ** Steps *)

Definition set_held (l : splock) (h : holder) (s : shared) : shared :=
  Mk_shared (<[l:=h]> (held s)) (sl_locked s) (sl_pid s) (pstate s) (pchan s)
    (code s) (oncpu s) (inside s).
Definition set_locked (b : bool) (s : shared) : shared :=
  Mk_shared (held s) b (sl_pid s) (pstate s) (pchan s) (code s) (oncpu s)
    (inside s).
Definition set_pid (v : option nat) (s : shared) : shared :=
  Mk_shared (held s) (sl_locked s) v (pstate s) (pchan s) (code s) (oncpu s)
    (inside s).
Definition set_state (p : nat) (st : procstate) (s : shared) : shared :=
  Mk_shared (held s) (sl_locked s) (sl_pid s) (<[p:=st]> (pstate s)) (pchan s)
    (code s) (oncpu s) (inside s).
Definition set_chan (p : nat) (c : option wchan) (s : shared) : shared :=
  Mk_shared (held s) (sl_locked s) (sl_pid s) (pstate s) (<[p:=c]> (pchan s))
    (code s) (oncpu s) (inside s).
Definition set_code (p : nat) (c : list op) (s : shared) : shared :=
  Mk_shared (held s) (sl_locked s) (sl_pid s) (pstate s) (pchan s)
    (<[p:=c]> (code s)) (oncpu s) (inside s).
Definition set_oncpu (p : nat) (b : bool) (s : shared) : shared :=
  Mk_shared (held s) (sl_locked s) (sl_pid s) (pstate s) (pchan s) (code s)
    (<[p:=b]> (oncpu s)) (inside s).
Definition set_inside (p : nat) (b : bool) (s : shared) : shared :=
  Mk_shared (held s) (sl_locked s) (sl_pid s) (pstate s) (pchan s) (code s)
    (oncpu s) (<[p:=b]> (inside s)).

(** [mycpu()->noff == 1] in [sched]: [p->lock] is the only spinlock held. *)
Definition only_plock (p : nat) (s : shared) : bool :=
  bool_decide (held s LK <> Thread p) &&
  forallb (fun q => bool_decide (q = p \/ held s (LP q) <> Thread p)) (seq 0 N).

(** What the thread [p] does in one operation; [s] already has the rest of
    its code.  [None] is a spin in [acquire], or a panic of [release] or
    [sched].  The check of [intr_get()] in [sched] is left out: interrupts are
    off while [p->lock] is held, which Spinlock shows. *)
Definition run_op (p : nat) (o : op) (s : shared) : option shared :=
  match o with
  | Acquire l => if decide (held s l = Free)
                 then Some (set_held l (Thread p) s) else None
  | Release l => if decide (held s l = Thread p)
                 then Some (set_held l Free s) else None
  | SetChan c => Some (set_chan p c s)
  | SetState st => Some (set_state p st s)
  | Sched =>
      if bool_decide (held s (LP p) = Thread p) && only_plock p s &&
         bool_decide (pstate s p <> RUNNING)
      then Some (set_oncpu p false (set_held (LP p) SwitchedBack s)) else None
  | WakeIf q c =>
      Some (if decide (pstate s q = SLEEPING /\ pchan s q = Some c)
            then set_state q RUNNABLE s else s)
  | KillWake q =>
      Some (if decide (pstate s q = SLEEPING)
            then set_state q RUNNABLE s else s)
  | WhileLocked =>
      Some (if sl_locked s
            then set_code p (sleep_code p ++ WhileLocked :: code s p) s else s)
  | SetLocked b => Some (set_locked b s)
  | SetPid v => Some (set_pid v s)
  | Return => Some (set_inside p true s)
  end.

(** A timer interrupt can only come where interrupts are on: where the thread
    holds no spinlock. *)
Inductive step (s : shared) : shared -> Prop :=
  | step_op p o c s' :
      oncpu s p = true -> code s p = o :: c ->
      run_op p o (set_code p c s) = Some s' -> step s s'
  | step_acquiresleep p :
      oncpu s p = true -> code s p = [] -> inside s p = false ->
      step s (set_code p (acquiresleep_code p) s)
  | step_releasesleep p :
      oncpu s p = true -> code s p = [] -> inside s p = true ->
      step s (set_code p (releasesleep_code p) (set_inside p false s))
  | step_kkill p q :
      oncpu s p = true -> code s p = [] ->
      step s (set_code p (kkill_code q) s)
  | step_yield p :
      oncpu s p = true -> (forall l, held s l <> Thread p) ->
      step s (set_code p (yield_code p ++ code s p) s)
  | scheduler_acquire p :
      held s (LP p) = Free -> step s (set_held (LP p) Scanning s)
  | scheduler_skip p :
      held s (LP p) = Scanning -> pstate s p <> RUNNABLE ->
      step s (set_held (LP p) Free s)
  | scheduler_swtch p :
      held s (LP p) = Scanning -> pstate s p = RUNNABLE ->
      step s (set_oncpu p true
                (set_held (LP p) (Thread p) (set_state p RUNNING s)))
  | scheduler_release p :
      held s (LP p) = SwitchedBack -> step s (set_held (LP p) Free s).

(** Where the threads start: every lock is free, a process is running
    outside the kernel's locks, or it is new and its thread starts in
    [forkret], which releases [p->lock]; the rest of the table is unused. *)
Definition initial (s : shared) : Prop :=
  (forall l, held s l = Free) /\ sl_locked s = false /\ sl_pid s = None /\
  forall p, inside s p = false /\
    ((p < N)%nat /\ oncpu s p = true /\ pstate s p = RUNNING /\ code s p = [] \/
     oncpu s p = false /\ code s p = [Release (LP p)] /\
     ((p < N)%nat /\ pstate s p = RUNNABLE \/ pstate s p = UNUSED)).

(** What [holdingsleep(lk)] answers to the process [p]. *)
Definition holdingsleep_at (p : nat) (s : shared) : bool :=
  sl_locked s && bool_decide (sl_pid s = Some p).

(** ** What the rest of a thread's code says *)

(** The next operation on [l] is its release: the thread holds [l]. *)
Fixpoint needs (l : splock) (c : list op) : bool :=
  match c with
  | [] => false
  | Acquire l' :: c => if decide (l = l') then false else needs l c
  | Release l' :: c => if decide (l = l') then true else needs l c
  | _ :: c => needs l c
  end.

(** The thread goes to sleep before it looks at [lk->locked] again. *)
Fixpoint intends (c : list op) : bool :=
  match c with
  | SetState st :: _ => bool_decide (st = SLEEPING)
  | (Sched | WhileLocked) :: _ | [] => false
  | _ :: c => intends c
  end.

(** The next operation on the sleep lock's fields. *)
Fixpoint mark (c : list op) : option op :=
  match c with
  | [] => None
  | (WhileLocked | SetLocked _ | SetPid _ | Return) as o :: _ => Some o
  | _ :: c => mark c
  end.

(** What each operation needs of the code after it. *)
Definition op_ok (p : nat) (o : op) (c : list op) : Prop :=
  match o with
  | Acquire l => needs l c = true
  | Release l => needs l c = false /\ (l = LK -> forall q, WakeIf q ch ∉ c)
  | SetChan _ => needs (LP p) c = true
  | SetState st => needs (LP p) c = true /\ head c = Some Sched /\
                   (st = SLEEPING \/ st = RUNNABLE)
  | Sched => (forall l, needs l c = true <-> l = LP p) /\ intends c = false
  | WakeIf q v => q <> p /\ v = ch /\ needs (LP q) c = true /\ needs LK c = true
  | KillWake q => needs (LP q) c = true
  | WhileLocked => (forall l, needs l c = true <-> l = LK) /\
                   (forall q, WakeIf q ch ∉ c) /\ mark c = Some (SetLocked true) /\
                   intends c = false
  | SetLocked true => needs LK c = true /\ mark c = Some (SetPid (Some p))
  | SetLocked false => needs LK c = true /\ mark c = Some (SetPid None) /\
                       intends c = false /\
                       forall q, (q < N)%nat -> q <> p -> WakeIf q ch ∈ c
  | SetPid (Some q) => needs LK c = true /\ mark c = Some Return /\ q = p
  | SetPid None => needs LK c = true /\ mark c = None
  | Return => mark c = None
  end.

(** Code of the thread [p] between two operations. *)
Definition point_ok (p : nat) (c : list op) : Prop :=
  (intends c = true -> needs LK c = true \/ needs (LP p) c = true) /\
  (mark c = Some (SetLocked true) \/ (exists v, mark c = Some (SetPid v)) ->
   needs LK c = true).

(** [SLEEPING] is written after the channel, and [sched] called after the
    state is written. *)
Definition order_ok (o : op) (c : list op) : Prop :=
  (head c = Some (SetState SLEEPING) -> o = SetChan (Some ch)) /\
  (head c = Some Sched -> exists st, o = SetState st).

Fixpoint wf (p : nat) (c : list op) : Prop :=
  point_ok p c /\
  match c with
  | [] => True
  | o :: c' => op_ok p o c' /\ wf p c' /\ order_ok o c'
  end.
(** ** The code of the functions is well formed *)

(** locks compared in code that is written out *)
Ltac code_simpl :=
  cbn [needs intends mark app];
  repeat first [rewrite decide_True by done | rewrite decide_False by done].

(** the facts of a point whose code is written out *)
Ltac point :=
  split; code_simpl;
  [intros ?; simplify_eq; auto; try congruence | intros [?|[??]]; simplify_eq; auto].

Lemma wf_point p c : wf p c -> point_ok p c.
Proof. destruct c; by intros [??]. Qed.

Lemma wf_cons p o c :
  wf p c -> point_ok p (o :: c) -> op_ok p o c -> order_ok o c -> wf p (o :: c).
Proof. by split. Qed.

Lemma wf_nil p : wf p [].
Proof. split; [point|done]. Qed.

Lemma no_wakeif_nil q : WakeIf q ch ∉ [].
Proof. apply not_elem_of_nil. Qed.

#[local] Hint Resolve wf_nil no_wakeif_nil : core.

(** one operation of code that is written out; the code after it comes first *)
Ltac code_op :=
  apply wf_cons;
  [|point
  |cbn [op_ok]; code_simpl; split_and?; intros; simplify_eq;
   rewrite ?not_elem_of_cons; split_and?; eauto
  |split; intros ?; simplify_eq/=; eauto; try congruence].

Lemma wf_sleep p c : wf p (WhileLocked :: c) -> wf p (sleep_code p ++ WhileLocked :: c).
Proof.
  intros Hw. pose proof Hw as (Hp & (Hn & Hq & Hm & Hi) & Hc & _).
  assert (needs LK c = true) as Hlk by by apply Hn.
  assert (forall q, needs (LP q) c = false) as Hlp.
  { intros q. destruct (needs (LP q) c) eqn:E; [|done]. by apply Hn in E. }
  unfold sleep_code. cbn [app].
  code_op. code_op. code_op. code_op. code_op. code_op. code_op. code_op.
  1: exact Hw.
  repeat case_decide; simplify_eq; [done|done|].
  destruct l; [done|]. rewrite Hlp. naive_solver.
Qed.

(** Without [p->lock] the thread is not about to sleep. *)
Lemma free_head p c :
  wf p c -> needs (LP p) c = false ->
  head c <> Some (SetState SLEEPING) /\ head c <> Some Sched.
Proof.
  intros Hw Hn. destruct c as [|o c]; [done|]. destruct Hw as (_ & Hok & _).
  split; intros [= ->]; cbn in *.
  - by destruct Hok as [? _]; congruence.
  - destruct Hok as [Hl _]. destruct (Hl (LP p)) as [_ Hl']. specialize (Hl' eq_refl).
    congruence.
Qed.

Lemma wf_yield p c :
  (forall l, needs l c = false) -> wf p c -> wf p (yield_code p ++ c).
Proof.
  intros Hn Hw. unfold yield_code. cbn [app].
  destruct (wf_point p c Hw) as [Hi Hm].
  assert (intends c = false) by (destruct (intends c); naive_solver).
  code_op. code_op. code_op. code_op. 1: exact Hw.
  all: try (apply Hm; eauto). 1-2: by destruct (free_head p c Hw (Hn _)).
  case_decide; [done|]. by rewrite Hn.
Qed.

Lemma wf_acquiresleep p : wf p (acquiresleep_code p).
Proof.
  unfold acquiresleep_code.
  code_op. code_op. code_op. code_op. code_op. code_op.
  all: eauto. by case_decide.
Qed.

(** Code inside [releasesleep] after it has written the fields. *)
Record waking (p : nat) (c : list op) : Prop := {
  wk_lk : needs LK c = true;
  wk_lp q : needs (LP q) c = false;
  wk_intends : intends c = false;
  wk_mark : mark c = None;
  wk_head : head c <> Some (SetState SLEEPING) /\ head c <> Some Sched;
  wk_wf : wf p c
}.

Lemma waking_one p q c : waking p c -> waking p (wakeup_turn p q ++ c).
Proof.
  intros [Hlk Hlp Hi Hm [Hh1 Hh2] Hw]. unfold wakeup_turn. case_decide; [done|].
  split; code_simpl; try done.
  - intros q'. case_decide; [done|auto].
  - code_op. code_op. code_op. 1: done.
Qed.

Lemma waking_code p qs : waking p (concat (wakeup_turn p <$> qs) ++ [Release LK]).
Proof.
  induction qs as [|q qs IH]; [split; try done; code_op; eauto|].
  cbn [fmap list_fmap concat]. rewrite <- app_assoc. by apply waking_one.
Qed.

Lemma wakeup_code_wakes p q : (q < N)%nat -> q <> p -> WakeIf q ch ∈ wakeup_code p.
Proof.
  intros Hq Hp. apply list_elem_of_In, in_concat. exists (wakeup_turn p q).
  split.
  - apply in_map, list_elem_of_In, elem_of_seq. lia.
  - unfold wakeup_turn. rewrite decide_False by done. simpl. auto.
Qed.

Lemma wf_releasesleep p : wf p (releasesleep_code p).
Proof.
  destruct (waking_code p (seq 0 N)) as [Hlk Hlp Hi Hm [Hh1 Hh2] Hw].
  unfold releasesleep_code. fold (wakeup_code p) in *.
  code_op. code_op. code_op. 1: done.
  apply elem_of_cons. right. apply elem_of_app. left. by apply wakeup_code_wakes.
Qed.

(** Code that does not touch the sleep lock and whose locks are its own. *)
Record plain (p : nat) (c : list op) : Prop := {
  pl_needs l : needs l c = false;
  pl_intends : intends c = false;
  pl_mark : mark c = None;
  pl_head : head c <> Some (SetState SLEEPING) /\ head c <> Some Sched;
  pl_wf : wf p c
}.

Lemma plain_kkill p q : plain p (kkill_code q).
Proof.
  unfold kkill_code. generalize (seq 0 q). intros qs.
  induction qs as [|q' qs [Hn Hi Hm [Hh1 Hh2] Hw]]; cbn [fmap list_fmap concat app].
  - split; code_simpl; try done; [intros l; by case_decide|].
    code_op. code_op. code_op. 1: eauto.
  - split; code_simpl; try done; [intros l; by case_decide|].
    code_op. code_op. 1: eauto.
Qed.

(** ** The invariant *)

(** The locks a thread holds are those its code still releases; a thread that
    is not on a CPU holds none, and continues with its [p->lock] handed over. *)
Record locks_at (s : shared) (p : nat) : Prop := {
  lk_wf : wf p (code s p);
  lk_on : oncpu s p = true -> forall l, held s l = Thread p <-> needs l (code s p) = true;
  lk_off : oncpu s p = false ->
    forall l, held s l <> Thread p /\ (needs l (code s p) = true <-> l = LP p)
}.

(** The state of a process follows its thread: on a CPU it is RUNNING until
    just before [sched], and a sleeping process sleeps on the lock. *)
Record state_at (s : shared) (p : nat) : Prop := {
  st_on : oncpu s p = true ->
    if decide (head (code s p) = Some Sched)
    then pstate s p = SLEEPING \/ pstate s p = RUNNABLE else pstate s p = RUNNING;
  st_off : oncpu s p = false ->
    head (code s p) <> Some Sched /\ intends (code s p) = false;
  st_far : (N <= p)%nat -> oncpu s p = false /\ pstate s p = UNUSED;
  st_chan : pstate s p = SLEEPING -> pchan s p = Some ch;
  st_next : head (code s p) = Some (SetState SLEEPING) -> pchan s p = Some ch
}.

(** A process that sleeps, or has decided to, found the lock taken; if it is
    free by now, the thread that freed it still has to wake the process. *)
Definition doze_at (s : shared) (p : nat) : Prop :=
  intends (code s p) = true \/ pstate s p = SLEEPING ->
  sl_locked s = true \/
  exists r, r <> p /\ held s LK = Thread r /\ WakeIf p ch ∈ code s r.

(** Where a thread is in its use of the sleep lock: the next operation on the
    lock's fields, and whether it is between the two calls. *)
Definition stage : Type := option op * bool.

Definition stage_of (s : shared) (p : nat) : stage := (mark (code s p), inside s p).

(** It has written [locked = 1] and not yet [locked = 0]. *)
Definition owns (g : stage) : bool :=
  match g with
  | (Some (SetPid (Some _) | Return | SetLocked false), _) | (_, true) => true
  | _ => false
  end.

(** ... and [pid] as well. *)
Definition named (g : stage) : bool :=
  match g with
  | (Some (Return | SetLocked false), _) | (_, true) => true
  | _ => false
  end.

(** It holds [lk->lk] and has seen, or made, [locked = 0]. *)
Definition frees (g : stage) : bool :=
  match g with
  | (Some (SetLocked true | SetPid None), _) => true
  | _ => false
  end.

Record marks_ok (st : nat -> stage) (lk : bool) (pid : option nat) : Prop := {
  mk_inside p : snd (st p) = true -> fst (st p) = None;
  mk_locked p : owns (st p) = true -> lk = true;
  mk_unique p q : owns (st p) = true -> owns (st q) = true -> p = q;
  mk_free p : frees (st p) = true -> lk = false;
  mk_pid p : named (st p) = true -> pid = Some p;
  mk_named p : pid = Some p -> named (st p) = true \/ fst (st p) = Some (SetPid None)
}.

Record inv (s : shared) : Prop := {
  inv_locks p : locks_at s p;
  inv_state p : state_at s p;
  inv_doze p : doze_at s p;
  inv_marks : marks_ok (stage_of s) (sl_locked s) (sl_pid s)
}.

(** ** The locks *)

(** lookups in the updated components, at [p] or elsewhere *)
Ltac fsimpl :=
  cbn [held sl_locked sl_pid pstate pchan code oncpu inside set_held set_locked
       set_pid set_state set_chan set_code set_oncpu set_inside] in *;
  rewrite ?fn_lookup_insert in *;
  repeat (rewrite fn_lookup_insert_ne in * by congruence).

Lemma locks_frame s s' p :
  locks_at s p -> code s' p = code s p -> oncpu s' p = oncpu s p ->
  (forall l, held s' l = Thread p <-> held s l = Thread p) -> locks_at s' p.
Proof.
  intros [Hw Hon Hoff] Hc Ho Hh. split; rewrite Hc, ?Ho; [done| |].
  - intros H l. rewrite Hh. auto.
  - intros H l. destruct (Hoff H l) as [Hn Hl]. split; [|done]. by rewrite Hh.
Qed.

Lemma sched_inv r s s' :
  run_op r Sched s = Some s' ->
  held s (LP r) = Thread r /\
  s' = set_oncpu r false (set_held (LP r) SwitchedBack s).
Proof.
  cbn. case_bool_decide; [|done]. destruct (only_plock r s); [|done].
  case_bool_decide; [|done]. intros [= <-]. done.
Qed.

(** What an operation of another thread leaves alone. *)
Lemma run_op_other r o s s' p :
  run_op r o s = Some s' -> p <> r ->
  code s' p = code s p /\ oncpu s' p = oncpu s p /\ inside s' p = inside s p /\
  pchan s' p = pchan s p /\
  (forall l, held s' l = Thread p <-> held s l = Thread p) /\
  (pstate s' p = pstate s p \/ pstate s p = SLEEPING /\ pstate s' p = RUNNABLE /\
   ((exists c, o = WakeIf p c) \/ o = KillWake p)).
Proof.
  intros Hr Hp.
  assert (forall l h, held s l = Free \/ held s l = Thread r -> h <> Thread p ->
    forall l', (<[l:=h]> (held s)) l' = Thread p <-> held s l' = Thread p) as Hh.
  { intros l h Hl Hn l'. destruct (decide (l' = l)) as [->|].
    - rewrite fn_lookup_insert. split; [done|]. intros E. destruct Hl; congruence.
    - by rewrite fn_lookup_insert_ne. }
  destruct (decide (o = Sched)) as [->|Ho].
  { apply sched_inv in Hr as [Hl ->]. fsimpl. split_and!; auto. }
  destruct o; cbn in Hr; repeat first [case_decide|case_match]; simplify_eq; fsimpl; try (by split_and!; auto).
  - split_and!; auto. apply Hh; [auto|congruence].
  - destruct_and!. split_and!; try done. destruct (decide (p = q)) as [->|]; fsimpl; [|by left].
    right. naive_solver.
  - destruct (decide (p = q)) as [->|]; fsimpl; split_and!; try done; [right|left]; naive_solver.
Qed.

Lemma locks_other r o c s s' p :
  locks_at s p -> run_op r o (set_code r c s) = Some s' -> p <> r -> locks_at s' p.
Proof.
  intros HL Hr Hp. destruct (run_op_other _ _ _ _ _ Hr Hp) as (Hc & Ho & _ & _ & Hh & _).
  fsimpl. by apply (locks_frame s).
Qed.

Lemma needs_sleep p c l :
  (forall l, needs l c = true <-> l = LK) ->
  needs l (sleep_code p ++ WhileLocked :: c) = true <-> l = LK.
Proof.
  intros Hn. specialize (Hn l). unfold sleep_code. cbn [needs app].
  repeat case_decide; simplify_eq; naive_solver.
Qed.

Lemma locks_self r o c s s' :
  locks_at s r -> oncpu s r = true -> code s r = o :: c ->
  run_op r o (set_code r c s) = Some s' -> locks_at s' r.
Proof.
  intros [Hw Hon _] Ho Hc Hr. specialize (Hon Ho). rewrite Hc in Hw, Hon.
  destruct Hw as (Hp & Hok & Hw & Hord).
  destruct (decide (o = Sched)) as [->|Hns].
  { apply sched_inv in Hr as [Hl ->]. destruct Hok as (Hn & _).
    split; fsimpl; [done|done|]. intros _ l. split; [|done].
    destruct (decide (l = LP r)) as [->|Hl']; fsimpl; [done|].
    intros Hh. apply Hon, Hn in Hh. done. }
  destruct o; cbn -[sleep_code] in Hr; repeat first [case_decide|case_match]; simplify_eq;
    split; fsimpl; try done; try congruence.
  - intros _ l'. specialize (Hon l'). cbn [needs] in Hon. cbn in Hok.
    destruct (decide (l' = l)) as [->|]; fsimpl; [naive_solver|done].
  - intros _ l'. specialize (Hon l'). cbn [needs] in Hon. destruct Hok as [Hok _].
    destruct (decide (l' = l)) as [->|]; fsimpl; [by rewrite Hok|done].
  - apply wf_sleep. by split.
  - intros _ l. rewrite Hon. destruct Hok as [Hn _]. rewrite needs_sleep by done. apply Hn.
Qed.

(** A thread that holds [lk->lk] is on a CPU, and nobody else holds it. *)
Lemma holds_needs s p l :
  locks_at s p -> held s l = Thread p -> oncpu s p = true /\ needs l (code s p) = true.
Proof.
  intros [_ Hon Hoff] Hh. destruct (oncpu s p).
  - split; [done|]. by apply Hon.
  - by destruct (Hoff eq_refl l) as [? _].
Qed.

Lemma needs_holds s p l :
  locks_at s p -> needs l (code s p) = true -> l <> LP p \/ oncpu s p = true ->
  held s l = Thread p.
Proof.
  intros [_ Hon Hoff] Hn H. destruct (oncpu s p); [by apply Hon|].
  destruct (Hoff eq_refl l) as [_ Hl]. naive_solver.
Qed.

(** ** The states *)

Lemma state_other r o c s s' p :
  state_at s p ->
  run_op r o (set_code r c s) = Some s' -> p <> r -> state_at s' p.
Proof.
  intros [Hon Hoff Hfar Hch Hnx] Hr Hp.
  destruct (run_op_other _ _ _ _ _ Hr Hp) as (Hc & Ho & _ & Hv & _ & Hs).
  fsimpl. destruct Hs as [Hs|(Hs & Hs' & Hop)]; [split; rewrite ?Hc, ?Ho, ?Hv, ?Hs; done|].
  split; rewrite ?Hc, ?Ho, ?Hv, ?Hs'; try done.
  - intros H. specialize (Hon H). case_decide as Hd; [by right|congruence].
  - intros H. destruct (Hfar H). congruence.
Qed.

(** What an operation of its own does to a running thread. *)
Lemma run_op_self r o c s s' :
  run_op r o (set_code r c s) = Some s' -> o <> Sched -> pstate s r = RUNNING ->
  oncpu s' r = oncpu s r /\
  (code s' r = c \/ o = WhileLocked /\ sl_locked s = true /\
   code s' r = sleep_code r ++ WhileLocked :: c) /\
  pstate s' r = (if o is SetState st then st else RUNNING) /\
  pchan s' r = (if o is SetChan v then v else pchan s r).
Proof.
  intros Hr Hns Hp.
  destruct o; cbn -[sleep_code] in Hr; repeat first [case_decide|case_match]; simplify_eq; fsimpl;
    try (by split_and!; auto).
  - destruct (decide (q = r)) as [->|]; fsimpl; [intuition congruence|by split_and!; auto].
Qed.

Lemma state_running s p :
  oncpu s p = true -> pstate s p = RUNNING -> (p < N)%nat ->
  head (code s p) <> Some Sched ->
  (head (code s p) = Some (SetState SLEEPING) -> pchan s p = Some ch) -> state_at s p.
Proof.
  intros Ho Hp Hn Hh Hc. split; rewrite ?Ho, ?Hp; try done; [|lia].
  by rewrite decide_False.
Qed.

Lemma state_self r o c s s' :
  locks_at s r -> state_at s r -> oncpu s r = true -> code s r = o :: c ->
  run_op r o (set_code r c s) = Some s' -> state_at s' r.
Proof.
  intros [Hw _ _] [Hon Hoff Hfar Hch Hnx] Ho Hc Hr. specialize (Hon Ho).
  rewrite Hc in *. destruct Hw as (_ & Hok & _ & Ho1 & Ho2).
  assert (r < N)%nat as Hn.
  { destruct (decide (N <= r)%nat) as [H|]; [|lia]. destruct (Hfar H). congruence. }
  destruct (decide (o = Sched)) as [->|Hns].
  { apply sched_inv in Hr as [Hl ->]. destruct Hok as [_ Hi].
    split; fsimpl; try done.
    - intros _. split; [|done]. intros H. by destruct (Ho2 H).
    - lia.
    - intros H. by specialize (Ho1 H). }
  rewrite decide_False in Hon by (simpl; congruence).
  destruct (run_op_self _ _ _ _ _ Hr Hns Hon) as (Ho' & Hcode & Hs & Hv). rewrite Ho in Ho'.
  assert (o <> WhileLocked -> code s' r = c) as Hc' by naive_solver.
  destruct o as [| |v|st| | | | | | |]; try done;
    try (apply state_running; [done|done|done| |];
         [destruct Hcode as [->|(_ & _ & ->)]; [intros H; by destruct (Ho2 H)|done]
         |destruct Hcode as [->|(_ & _ & ->)]; [intros H; by specialize (Ho1 H)|done]]).
  - apply state_running; [done|done|done| |].
    + rewrite Hc' by done. intros H. by destruct (Ho2 H).
    + rewrite Hc', Hv by done. intros H. specialize (Ho1 H). congruence.
  - destruct Hok as (_ & Hd & Hst). split; rewrite ?Hc', ?Ho', ?Hs, ?Hv by done; try done.
    + intros _. by rewrite Hd, decide_True.
    + lia.
    + intros ->. by apply Hnx.
    + by rewrite Hd.
Qed.

(** ** No lost wakeup *)

Definition dozing (s : shared) (p : nat) : Prop :=
  intends (code s p) = true \/ pstate s p = SLEEPING.

Lemma dozing_lt s p : state_at s p -> dozing s p -> (p < N)%nat.
Proof.
  intros [_ Hoff Hfar _ _] Hd. destruct (decide (p < N)%nat); [done|].
  destruct Hfar as [Ho Hs]; [lia|]. destruct (Hoff Ho) as [_ Hi].
  destruct Hd; congruence.
Qed.

(** A process about to sleep, or asleep, was so before the step, unless it
    has just found the lock taken. *)
Lemma dozing_before r o c s s' p :
  locks_at s r -> state_at s r -> oncpu s r = true -> code s r = o :: c ->
  run_op r o (set_code r c s) = Some s' -> dozing s' p ->
  dozing s p \/ sl_locked s' = true.
Proof.
  intros [Hw _ _] [Hon _ _ _ _] Ho Hc Hr Hd. specialize (Hon Ho). rewrite Hc in *.
  destruct Hw as (_ & Hok & _). unfold dozing in *.
  destruct (decide (p = r)) as [->|Hp].
  2: { destruct (run_op_other _ _ _ _ _ Hr Hp) as (Hc' & _ & _ & _ & _ & Hs). fsimpl.
       left. rewrite Hc' in Hd. destruct Hs as [Hs|(Hs & _)]; [rewrite Hs in Hd|]; auto. }
  destruct (decide (o = Sched)) as [->|Hns].
  { apply sched_inv in Hr as [_ ->]. fsimpl. destruct Hok as [_ Hi].
    left. right. destruct Hd; congruence. }
  rewrite decide_False in Hon by (simpl; congruence).
  destruct (run_op_self _ _ _ _ _ Hr Hns Hon) as (_ & [Hcode|(-> & Hl & _)] & Hs & _).
  2: { right. cbn -[sleep_code] in Hr. rewrite Hl in Hr. by simplify_eq. }
  left. left. rewrite Hcode, Hs, Hc in *. destruct o; cbn in *; try (destruct Hd; congruence).
  - apply bool_decide_eq_true. destruct Hd as [Hd|]; [|done].
    destruct Hok as (_ & Hh & _). destruct c; simplify_eq/=.
  - destruct Hok as (_ & _ & _ & Hi). destruct Hd; congruence.
Qed.

(** The process that is woken is not about to sleep any more. *)
Lemma wakeup_awake r c s s' p :
  locks_at s r -> locks_at s p -> state_at s p -> oncpu s r = true ->
  code s r = WakeIf p ch :: c ->
  run_op r (WakeIf p ch) (set_code r c s) = Some s' -> ~ dozing s' p.
Proof.
  intros HLr HLp HSp Ho Hc Hr Hd.
  pose proof (lk_wf _ _ HLr) as Hw. rewrite Hc in Hw.
  destruct Hw as (_ & (Hp & _ & Hnp & Hnl) & _).
  assert (held s (LP p) = Thread r) as Hhp.
  { apply needs_holds; [done|by rewrite Hc|by right]. }
  assert (held s LK = Thread r) as Hhl.
  { apply needs_holds; [done|by rewrite Hc|by right]. }
  destruct (run_op_other r (WakeIf p ch) _ s' p Hr Hp) as (Hcp & _). cbn in Hr. fsimpl.
  destruct Hd as [Hd|Hd].
  - rewrite Hcp in Hd. destruct (wf_point _ _ (lk_wf _ _ HLp)) as [Hi _].
    destruct (Hi Hd) as [Hn|Hn].
    + assert (held s LK = Thread p) by (apply needs_holds; auto). congruence.
    + destruct (oncpu s p) eqn:Hop.
      * assert (held s (LP p) = Thread p) by (apply needs_holds; auto). congruence.
      * destruct (st_off _ _ HSp Hop). congruence.
  - case_decide as Hs; simplify_eq; fsimpl; [done|].
    apply Hs. split; [done|]. by apply (st_chan _ _ HSp).
Qed.

(** A lock stays with a thread until it releases it. *)
Lemma run_op_held r o s s' :
  run_op r o s = Some s' -> held s LK = Thread r -> o <> Release LK ->
  held s' LK = Thread r.
Proof.
  intros Hr Hh Ho. destruct (decide (o = Sched)) as [->|Hns].
  { apply sched_inv in Hr as [_ ->]. by fsimpl. }
  destruct o; cbn -[sleep_code] in Hr; repeat first [case_decide|case_match];
    simplify_eq; fsimpl; try done.
  all: destruct (decide (l = LK)) as [->|]; fsimpl; congruence.
Qed.

Lemma run_op_code r o c s s' :
  run_op r o (set_code r c s) = Some s' -> o <> WhileLocked -> code s' r = c.
Proof.
  intros Hr Ho. destruct o; cbn in Hr; repeat first [case_decide|case_match];
    simplify_eq; by fsimpl.
Qed.

Lemma doze_op r o c s s' p :
  locks_at s r -> state_at s r -> locks_at s p -> state_at s p -> state_at s' p ->
  doze_at s p -> oncpu s r = true -> code s r = o :: c ->
  run_op r o (set_code r c s) = Some s' -> doze_at s' p.
Proof.
  intros HLr HSr HLp HSp HSp' HD Ho Hc Hr Hd.
  destruct (dozing_before _ _ _ _ _ _ HLr HSr Ho Hc Hr Hd) as [Hd0|Hl]; [|by left].
  pose proof (lk_wf _ _ HLr) as Hw. rewrite Hc in Hw. destruct Hw as (_ & Hok & Hw & _).
  destruct (HD Hd0) as [Hl|(r0 & Hr0 & Hh & Hin)].
  - destruct (decide (o = SetLocked false)) as [->|Hnf].
    + right. exists r. destruct Hok as (Hn & _ & Hi & Hwk).
      assert (held s LK = Thread r) as Hh by (apply needs_holds; [done|by rewrite Hc|auto]).
      assert (r <> p) as Hne.
      { intros ->. pose proof (st_on _ _ HSr Ho) as Hs. rewrite Hc in Hs. cbn in Hs.
        cbn in Hr. simplify_eq. destruct Hd as [Hd|Hd]; fsimpl; congruence. }
      pose proof (dozing_lt _ _ HSp Hd0) as Hlt.
      cbn in Hr. simplify_eq. fsimpl. split_and!; auto.
    + left. destruct o; cbn -[sleep_code] in Hr; repeat first [case_decide|case_match];
        simplify_eq; fsimpl; try done. by destruct b.
  - right. exists r0. destruct (decide (r0 = r)) as [->|Hne].
    + rewrite Hc in Hin. apply elem_of_cons in Hin as [<-|Hin].
      { by destruct (wakeup_awake r c s s' p HLr HLp HSp Ho Hc Hr). }
      assert (o <> Release LK) as Hnr.
      { intros ->. destruct Hok as [_ Hnw]. by apply (Hnw eq_refl p). }
      assert (o <> WhileLocked) as Hnw.
      { intros ->. destruct Hok as (_ & Hnw & _). by apply (Hnw p). }
      split_and!; [done|by eapply run_op_held|].
      erewrite run_op_code; eauto.
    + destruct (run_op_other _ _ _ _ _ Hr Hne) as (Hc' & _ & _ & _ & Hh' & _).
      fsimpl. rewrite Hc'. split_and!; try done. by apply Hh'.
Qed.

(** ** The holder of the sleep lock *)

Lemma marks_ext st st' lk pid :
  (forall p, st' p = st p) -> marks_ok st lk pid -> marks_ok st' lk pid.
Proof. intros H [H1 H2 H3 H4 H5 H6]. split; setoid_rewrite H; done. Qed.

Lemma named_owns g : named g = true -> owns g = true.
Proof. destruct g as [[[]|] []]; cbn; try done; repeat case_match; done. Qed.

(** stages of the thread that moves, and of another one *)
Ltac stages r :=
  repeat match goal with
  | |- forall _, _ => intros ?
  end;
  repeat match goal with
  | |- context [<[r:=_]> _ ?p] =>
      destruct (decide (p = r)) as [->|]; fsimpl
  | H : context [<[r:=_]> _ ?p] |- _ =>
      destruct (decide (p = r)) as [->|]; fsimpl
  end.

(** A thread moves between stages in which it has, or has not, the lock. *)
Lemma marks_move st lk pid r g :
  marks_ok st lk pid -> owns g = owns (st r) -> named g = named (st r) ->
  (snd g = true -> fst g = None) -> (frees g = true -> lk = false) ->
  fst (st r) <> Some (SetPid None) -> marks_ok (<[r:=g]> st) lk pid.
Proof.
  intros [H1 H2 H3 H4 H5 H6] Ho Hn Hi Hf Hd. split; stages r; eauto.
  left. destruct (H6 r); congruence.
Qed.

(** [lk->locked = 1] *)
Lemma marks_take st pid r :
  marks_ok st false pid -> (forall p, p <> r -> frees (st p) = false) ->
  named (st r) = false -> fst (st r) <> Some (SetPid None) ->
  marks_ok (<[r:=(Some (SetPid (Some r)), false)]> st) true pid.
Proof.
  intros [H1 H2 H3 H4 H5 H6] Hex Hn Hd.
  assert (forall p, owns (st p) = true -> False) as Hno by (intros p Hp; by apply H2 in Hp).
  split; stages r; try done; eauto; try (exfalso; by eapply Hno).
  destruct (H6 r); congruence.
Qed.

(** [lk->pid = myproc()->pid] *)
Lemma marks_name st lk pid r :
  marks_ok st lk pid -> owns (st r) = true ->
  marks_ok (<[r:=(Some Return, false)]> st) lk (Some r).
Proof.
  intros [H1 H2 H3 H4 H5 H6] Ho.
  split; stages r; try done; eauto; [|congruence].
  f_equal. by apply H3; [|apply named_owns].
Qed.

(** [lk->locked = 0] *)
Lemma marks_clear st lk pid r :
  marks_ok st lk pid -> owns (st r) = true ->
  marks_ok (<[r:=(Some (SetPid None), false)]> st) false pid.
Proof.
  intros [H1 H2 H3 H4 H5 H6] Ho.
  split; stages r; try done; eauto.
Qed.

(** [lk->pid = 0] *)
Lemma marks_unname st lk pid r g :
  marks_ok st lk pid -> frees (st r) = true -> owns g = false -> frees g = false ->
  (snd g = true -> fst g = None) ->
  marks_ok (<[r:=g]> st) lk None.
Proof.
  intros [H1 H2 H3 H4 H5 H6] Hf Ho Hg Hi.
  split; stages r; try done; eauto; try congruence.
  - apply named_owns in H. congruence.
  - apply named_owns, H2 in H. apply H4 in Hf. congruence.
Qed.

(** The threads in front of a write of the fields hold [lk->lk]. *)
Lemma frees_lk s p : locks_at s p -> frees (stage_of s p) = true -> held s LK = Thread p.
Proof.
  intros HL Hf. apply needs_holds; [done| |by left].
  destruct (wf_point _ _ (lk_wf _ _ HL)) as [_ Hm]. apply Hm.
  unfold stage_of in Hf. destruct (mark (code s p)) as [[| | | | | | | |[]|[]|]|]; simplify_eq/=; eauto.
Qed.

Lemma stage_other r o c s s' p :
  run_op r o (set_code r c s) = Some s' -> p <> r -> stage_of s' p = stage_of s p.
Proof.
  intros Hr Hp. destruct (run_op_other _ _ _ _ _ Hr Hp) as (Hc & _ & Hi & _).
  fsimpl. unfold stage_of. by rewrite Hc, Hi.
Qed.

Lemma marks_op r o c s s' :
  inv s -> oncpu s r = true -> code s r = o :: c ->
  run_op r o (set_code r c s) = Some s' ->
  marks_ok (stage_of s') (sl_locked s') (sl_pid s').
Proof.
  intros [HL HS _ HM] Ho Hc Hr.
  pose proof (lk_wf _ _ (HL r)) as Hw. rewrite Hc in Hw. destruct Hw as (_ & Hok & _).
  assert (forall g, stage_of s' r = g -> forall p, stage_of s' p = (<[r:=g]> (stage_of s)) p) as Hst.
  { intros g Hg p. destruct (decide (p = r)) as [->|Hp]; fsimpl; [done|by eapply stage_other]. }
  assert (stage_of s r = (mark (o :: c), inside s r)) as Hsr by (unfold stage_of; by rewrite Hc).
  pose proof (mk_inside _ _ _ HM r) as Hi. rewrite Hsr in Hi. cbn [fst snd] in Hi.
  assert (forall m, mark (o :: c) = Some m -> inside s r = false) as Hf.
  { intros m Hm. destruct (inside s r); [|done]. rewrite Hi in Hm; done. }
  destruct o as [| | | | | | | |b|v|]; cbn -[sleep_code] in Hr;
    repeat first [case_decide|case_match]; simplify_eq;
    try (apply (marks_ext (stage_of s)); [|cbn; first [exact HM|by rewrite H]]; intros p; destruct (decide (p = r)) as [->|];
         unfold stage_of; fsimpl; by rewrite ?Hc).
  all: eapply marks_ext; [by apply Hst|]; unfold stage_of at 1; fsimpl;
    rewrite (Hf _ eq_refl) in *; cbn in Hsr.
  - destruct Hok as (_ & _ & Hm & _). rewrite H. apply marks_move; rewrite ?Hm, ?Hsr; done.
  - destruct b; destruct Hok as [Hlk Hok].
    + rewrite Hok. 
      assert (sl_locked s = false) as Hl by (apply (mk_free _ _ _ HM r); by rewrite Hsr).
      rewrite Hl in HM. apply marks_take; [done| |by rewrite Hsr|by rewrite Hsr].
      intros p Hp. apply not_true_is_false. intros Hfp%frees_lk; [|done].
      assert (held s LK = Thread r) by (apply frees_lk; [done|by rewrite Hsr]). congruence.
    + destruct Hok as [-> _]. eapply marks_clear; [done|by rewrite Hsr].
  - destruct v as [q|]; destruct Hok as [Hlk Hok].
    + destruct Hok as [-> ->]. eapply marks_name; [done|by rewrite Hsr].
    + rewrite Hok. eapply marks_unname; try done. by rewrite Hsr.
  - rewrite Hok. apply marks_move; rewrite ?Hsr; done.
Qed.

(** ** The invariant holds *)

Lemma inv_op r o c s s' :
  inv s -> oncpu s r = true -> code s r = o :: c ->
  run_op r o (set_code r c s) = Some s' -> inv s'.
Proof.
  intros HI Ho Hc Hr. pose proof HI as [HL HS HD _].
  assert (forall p, locks_at s' p) as HL'.
  { intros p. destruct (decide (p = r)) as [->|]; [by eapply locks_self|by eapply locks_other]. }
  assert (forall p, state_at s' p) as HS'.
  { intros p. destruct (decide (p = r)) as [->|]; [by eapply state_self|by eapply state_other]. }
  split; [done|done| |by eapply marks_op]. intros p. by apply (doze_op r o c s s' p).
Qed.

(** A running thread that holds no lock starts on other code. *)
Lemma inv_start r c' s s' :
  inv s -> oncpu s r = true -> (forall l, needs l (code s r) = false) ->
  wf r c' -> (forall l, needs l c' = false) -> intends c' = false ->
  held s' = held s -> sl_locked s' = sl_locked s -> pstate s' = pstate s ->
  pchan s' = pchan s -> oncpu s' = oncpu s -> code s' = <[r:=c']> (code s) ->
  marks_ok (stage_of s') (sl_locked s') (sl_pid s') -> inv s'.
Proof.
  intros [HL HS HD HM] Ho Hn Hw Hn' Hi Eh El Es Ev Eo Ec HM'.
  assert (pstate s r = RUNNING /\ (r < N)%nat) as [Hr Hlt].
  { destruct (HS r) as [Hon _ Hfar _ _]. specialize (Hon Ho).
    destruct (free_head _ _ (lk_wf _ _ (HL r)) (Hn _)) as [_ Hh].
    rewrite decide_False in Hon by done. split; [done|].
    destruct (decide (N <= r)%nat) as [H|]; [|lia]. destruct (Hfar H). congruence. }
  destruct (free_head _ _ Hw (Hn' _)) as [Hh1 Hh2].
  split; [intros p..|done]; destruct (decide (p = r)) as [->|Hp].
  - destruct (HL r) as [_ Hon _]. split; rewrite Ec, ?Eh, ?Eo, ?Ho; fsimpl; try done.
    intros _ l. by rewrite Hon, Hn, Hn' by done.
  - apply (locks_frame s); rewrite ?Ec, ?Eo, ?Eh; fsimpl; done.
  - apply state_running; rewrite ?Ec, ?Es, ?Eo; fsimpl; done.
  - destruct (HS p). split; rewrite ?Ec, ?Es, ?Eo, ?Ev; fsimpl; done.
  - intros [H|H]; rewrite ?Ec, ?Es in H; fsimpl; congruence.
  - intros Hd. rewrite Ec, Es in Hd. fsimpl. rewrite El, Eh.
    destruct (HD p Hd) as [|(r0 & Hr0 & Hh & Hin)]; [by left|right].
    exists r0. split_and!; try done. rewrite Ec.
    destruct (decide (r0 = r)) as [->|]; fsimpl; [|done].
    apply (holds_needs s r LK) in Hh as [_ Hh]; [|done]. congruence.
Qed.

(** A scheduler takes or lets go the lock of a process. *)
Lemma inv_scheduler p h s :
  inv s -> (forall q, held s (LP p) <> Thread q) -> (forall q, h <> Thread q) ->
  inv (set_held (LP p) h s).
Proof.
  intros [HL HS HD HM] Hh Hh'. split; [intros q..|done].
  - apply (locks_frame s); [done..|]. intros l.
    destruct (decide (l = LP p)) as [->|]; fsimpl; [|done]. split; intros; [by destruct (Hh' q)|by destruct (Hh q)].
  - destruct (HS q). by split.
  - intros Hd. fsimpl. by apply HD.
Qed.

Lemma inv_swtch p s :
  inv s -> held s (LP p) = Scanning -> pstate s p = RUNNABLE ->
  inv (set_oncpu p true (set_held (LP p) (Thread p) (set_state p RUNNING s))).
Proof.
  intros [HL HS HD HM] Hh Hs.
  assert (oncpu s p = false) as Ho.
  { destruct (oncpu s p) eqn:Ho; [|done]. pose proof (st_on _ _ (HS p) Ho) as H.
    case_decide as Hd; [|congruence]. destruct (code s p) as [|o c] eqn:Hc; simplify_eq/=.
    assert (held s (LP p) = Thread p); [|congruence]. apply needs_holds; [done| |by right].
    pose proof (lk_wf _ _ (HL p)) as Hw. rewrite Hc in *. destruct Hw as (_ & [Hn _] & _).
    by apply Hn. }
  destruct (st_off _ _ (HS p) Ho) as [Hhd Hi].
  split; [intros q..|done]; destruct (decide (q = p)) as [->|Hq]; fsimpl.
  - destruct (HL p) as [Hw _ Hoff]. split; fsimpl; try done.
    intros _ l. destruct (Hoff Ho l) as [Hl Hn].
    destruct (decide (l = LP p)) as [->|]; fsimpl; naive_solver.
  - apply (locks_frame s); fsimpl; try done. intros l.
    destruct (decide (l = LP p)) as [->|]; fsimpl; [|done]. split; congruence.
  - apply state_running; fsimpl; try done; [|by apply (st_next _ _ (HS p))].
    destruct (decide (p < N)%nat); [done|]. destruct (st_far _ _ (HS p)); [lia|congruence].
  - destruct (HS q). split; by fsimpl.
  - intros [H|H]; fsimpl; congruence.
  - intros H. fsimpl. by apply HD.
Qed.

Lemma inv_step s s' : inv s -> step s s' -> inv s'.
Proof.
  intros HI Hst. pose proof (inv_marks s HI) as HM.
  assert (forall p, code s p = [] -> stage_of s p = (None, inside s p)) as Hsp.
  { intros p Hc. unfold stage_of. by rewrite Hc. }
  destruct Hst as [p o c s' Ho Hc Hr|p Ho Hc Hi|p Ho Hc Hi|p q Ho Hc|p Ho Hn|p Hh|p Hh Hs|p Hh Hs|p Hh].
  - by eapply inv_op.
  - eapply (inv_start p (acquiresleep_code p) s); try done; try (intros l; by rewrite Hc).
    + apply wf_acquiresleep.
    + intros l. cbn. by case_decide.
    + apply (marks_ext (<[p:=(Some WhileLocked, false)]> (stage_of s))).
      { intros q. unfold stage_of. destruct (decide (q = p)) as [->|]; fsimpl; by rewrite ?Hi. }
      apply marks_move; rewrite ?Hsp, ?Hi by done; done.
  - destruct (waking_code p (seq 0 N)) as [_ Hlp Hni _ _ _]. fold (wakeup_code p) in *.
    eapply (inv_start p (releasesleep_code p) s); try done; try (intros l; by rewrite Hc).
    + apply wf_releasesleep.
    + intros l. cbn. case_decide; [done|]. destruct l; [done|apply Hlp].
    + apply (marks_ext (<[p:=(Some (SetLocked false), false)]> (stage_of s))).
      { intros q. unfold stage_of. by destruct (decide (q = p)) as [->|]; fsimpl. }
      apply marks_move; rewrite ?Hsp, ?Hi by done; done.
  - destruct (plain_kkill p q) as [Hn Hni Hm _ Hw].
    eapply (inv_start p (kkill_code q) s); try done; try (intros l; by rewrite Hc).
    apply (marks_ext (stage_of s)); [|done].
    intros p'. unfold stage_of. destruct (decide (p' = p)) as [->|]; fsimpl; by rewrite ?Hm, ?Hc.
  - pose proof (inv_locks _ HI p) as HL.
    assert (forall l, needs l (code s p) = false) as Hno.
    { intros l. apply not_true_is_false. rewrite <- (lk_on _ _ HL Ho). apply Hn. }
    eapply (inv_start p (yield_code p ++ code s p) s); try done.
    + apply wf_yield; [done|apply HL].
    + intros l. cbn. repeat case_decide; done.
    + apply (marks_ext (stage_of s)); [|done].
      intros p'. unfold stage_of. by destruct (decide (p' = p)) as [->|]; fsimpl.
  - apply inv_scheduler; [done|by rewrite Hh|done].
  - apply inv_scheduler; [done|by rewrite Hh|done].
  - by apply inv_swtch.
  - apply inv_scheduler; [done|by rewrite Hh|done].
Qed.

Lemma inv_initial s : initial s -> inv s.
Proof.
  intros (Hh & Hl & Hpid & Hp).
  split; [intros p; destruct (Hp p) as [Hi Hc]..|].
  - destruct Hc as [(_ & Ho & _ & Hc)|(Ho & Hc & _)]; split; rewrite ?Ho, Hc; eauto; try done.
    + intros _ l. rewrite Hh. split; done.
    + code_op; eauto.
    + intros _ l. rewrite Hh. split; [done|]. cbn. by case_decide.
  - destruct Hc as [(Hn & Ho & Hs & Hc)|(Ho & Hc & Hs)].
    + by apply state_running; rewrite ?Hc.
    + split; rewrite ?Ho, ?Hc; try done; destruct Hs as [[Hn Hs]|Hs]; rewrite ?Hs; try done; lia.
  - intros Hd. destruct Hc as [(_ & _ & Hs & Hc)|(_ & Hc & Hs)]; rewrite Hc in Hd; cbn in Hd;
      (destruct Hd as [|Hd]; [done|]); [congruence|destruct Hs as [[_ ?]|?]; congruence].
  - assert (forall p, stage_of s p = (None, false)) as Hst.
    { intros p. unfold stage_of. destruct (Hp p) as [-> [(_ & _ & _ & ->)|(_ & -> & _)]]; done. }
    rewrite Hpid. split; intros p; rewrite ?Hst; done.
Qed.

Lemma inv_reachable s0 s : initial s0 -> rtc step s0 s -> inv s.
Proof.
  intros Hi%inv_initial Hr. induction Hr; [done|]. eauto using inv_step.
Qed.

(** ** What the invariant gives *)

Lemma holdingsleep_inside s p : inv s -> code s p = [] -> holdingsleep_at p s = inside s p.
Proof.
  intros HI Hc. destruct (inv_marks _ HI) as [_ Hl _ _ Hn Hm].
  assert (stage_of s p = (None, inside s p)) as Hs by (unfold stage_of; by rewrite Hc).
  unfold holdingsleep_at. destruct (inside s p).
  - rewrite (Hl p), (Hn p) by (by rewrite Hs). by rewrite bool_decide_eq_true_2.
  - rewrite bool_decide_eq_false_2; [apply andb_false_r|].
    intros [H|H]%Hm; by rewrite Hs in H.
Qed.

(** The only operation that cannot be done at once is [acquire] of a lock
    someone else holds. *)
Lemma only_spins s p o c :
  inv s -> oncpu s p = true -> code s p = o :: c -> run_op p o (set_code p c s) = None ->
  exists l, o = Acquire l /\ held s l <> Free /\ held s l <> Thread p.
Proof.
  intros HI Ho Hc Hr. destruct (inv_locks _ HI p) as [Hw Hon _]. specialize (Hon Ho).
  rewrite Hc in Hw, Hon. destruct Hw as (_ & Hok & _).
  destruct (decide (o = Sched)) as [->|Hns].
  2: { destruct o; cbn -[sleep_code] in Hr; repeat case_decide; try done.
       - exists l. split_and!; [done|done|]. rewrite Hon. cbn. by case_decide.
       - destruct H. apply Hon. cbn. by case_decide. }
  exfalso. destruct Hok as [Hn _].
  pose proof (st_on _ _ (inv_state _ HI p) Ho) as Hs. rewrite Hc in Hs.
  rewrite decide_True in Hs by done. cbn -[only_plock] in Hr.
  rewrite !bool_decide_eq_true_2 in Hr by (try (apply Hon, Hn; done); destruct Hs; congruence).
  assert (only_plock p (set_code p c s) = true) as Hl; [|by rewrite Hl in Hr].
  unfold only_plock. fsimpl. apply andb_true_iff. split.
  - apply bool_decide_eq_true. by intros ?%Hon%Hn.
  - apply forallb_forall. intros q _. apply bool_decide_eq_true.
    destruct (decide (q = p)); [by left|right]. intros ?%Hon%Hn. congruence.
Qed.

(** C11. Any number of processes, on any number of CPUs, call [acquiresleep]
    and [releasesleep] on one sleep lock, are preempted by timer interrupts
    and killed by each other, in any interleaving of the operations of these
    functions, of [sleep], [wakeup] and [sched], and of the schedulers.  Then
    no two processes are between [acquiresleep] and [releasesleep] at once;
    [holdingsleep] answers a process outside these functions exactly whether
    it has the lock; no wakeup is lost: a process that sleeps on the lock
    finds it taken, or the thread that freed it holds [lk->lk] and still has
    to come to this process in [wakeup]; and no panic of [acquire], [release]
    or [sched] is reached: the one thing a thread can have to wait for is a
    spinlock that somebody else holds. *)
Theorem sleeplock_no_lost_wakeup s0 s :
  initial s0 -> rtc step s0 s ->
  (forall p q, inside s p = true -> inside s q = true -> p = q) /\
  (forall p, code s p = [] -> holdingsleep_at p s = inside s p) /\
  (forall p, pstate s p = SLEEPING ->
     sl_locked s = true \/
     exists r, r <> p /\ held s LK = Thread r /\ WakeIf p ch ∈ code s r) /\
  (forall p o c, oncpu s p = true -> code s p = o :: c ->
     run_op p o (set_code p c s) = None ->
     exists l, o = Acquire l /\ held s l <> Free /\ held s l <> Thread p).
Proof.
  intros Hi Hr. pose proof (inv_reachable _ _ Hi Hr) as HI. split_and!.
  - intros p q Hp Hq. apply (mk_unique _ _ _ (inv_marks _ HI)); unfold stage_of;
      [rewrite Hp|rewrite Hq]; cbn; by repeat case_match.
  - intros p. by apply holdingsleep_inside.
  - intros p Hp. apply (inv_doze _ HI). by right.
  - intros p o c. by apply only_spins.
Qed.

(** ** A run *)

(** The thread [p] does [n] operations. *)
Fixpoint run_ops (n : nat) (p : nat) (s : shared) : option shared :=
  match n with
  | O => Some s
  | S n =>
      match code s p with
      | o :: c =>
          if oncpu s p then run_op p o (set_code p c s) ≫= run_ops n p else None
      | [] => None
      end
  end.

Lemma run_ops_steps n p s s' : run_ops n p s = Some s' -> rtc step s s'.
Proof.
  revert s. induction n as [|n IH]; intros s H; [by simplify_eq/=|]. cbn in H.
  destruct (code s p) as [|o c] eqn:Hc; [done|]. destruct (oncpu s p) eqn:Ho; [|done].
  destruct (run_op p o (set_code p c s)) as [s1|] eqn:Hr; [|done].
  eapply rtc_l; [by eapply step_op|auto].
Qed.

Definition run_to (n : nat) (p : nat) (s : shared) : shared :=
  default s (run_ops n p s).

Lemma run_to_steps n p s :
  (if run_ops n p s is Some _ then true else false) = true -> rtc step s (run_to n p s).
Proof.
  unfold run_to. destruct (run_ops n p s) eqn:H; [|done]. intros _. by eapply run_ops_steps.
Qed.

End sleeplock.

(** Two processes on two CPUs: the first takes the lock, the second goes to
    sleep on it, the first has begun to release it. *)
Definition two_running : shared :=
  Mk_shared (fun _ => Free) false None
    (fun p => if (p <? 2)%nat then RUNNING else UNUSED) (fun _ => None)
    (fun p => if (p <? 2)%nat then [] else [Release (LP p)])
    (fun p => (p <? 2)%nat) (fun _ => false).

Definition lock_chan : wchan := ChBuf 0.

Definition first_has : shared :=
  run_to 2 lock_chan 6 0 (set_code 0 (acquiresleep_code 0) two_running).
Definition second_sleeps : shared :=
  run_to 2 lock_chan 7 1 (set_code 1 (acquiresleep_code 1) first_has).
Definition first_frees : shared :=
  run_to 2 lock_chan 2 0
    (set_code 0 (releasesleep_code 2 lock_chan 0) (set_inside 0 false second_sleeps)).

Lemma first_frees_reached : rtc (step 2 lock_chan) two_running first_frees.
Proof.
  eapply rtc_l; [by apply (step_acquiresleep _ _ _ 0)|].
  etrans; [by apply (run_to_steps 2 lock_chan 6 0); vm_compute|].
  eapply rtc_l; [apply (step_acquiresleep _ _ _ 1); by vm_compute|].
  etrans; [by apply (run_to_steps 2 lock_chan 7 1); vm_compute|].
  eapply rtc_l; [apply (step_releasesleep _ _ _ 0); by vm_compute|].
  by apply (run_to_steps 2 lock_chan 2 0); vm_compute.
Qed.

Lemma two_initial : initial 2 two_running.
Proof.
  split_and!; try done. intros p. split; [done|]. unfold two_running.
  cbn [oncpu pstate code]. destruct (Nat.ltb_spec p 2) as [H|H]; [left|right]; auto.
Qed.

Lemma sleeplock_no_lost_wakeup_witness :
  pstate first_frees 1 = SLEEPING /\ sl_locked first_frees = false /\
  inside second_sleeps 0 = true /\
  exists r, r <> 1%nat /\ held first_frees LK = Thread r /\
            WakeIf 1 lock_chan ∈ code first_frees r.
Proof.
  split; [by vm_compute|]. split; [by vm_compute|]. split; [by vm_compute|].
  destruct (sleeplock_no_lost_wakeup 2 lock_chan _ _ two_initial first_frees_reached)
    as (_ & _ & Hw & _).
  destruct (Hw 1%nat) as [Hl|Hr]; [by vm_compute| |exact Hr]. vm_compute in Hl. discriminate.
Defined.
