(* ===== verification/UnitExamples.v ===== *)
(** * The properties of the routines, the assembly code and the user programs at
      concrete inputs *)

From S2P Require Import Prelude Monad CString Types Kernel Uart Printf Bio FsBlock Inode Dir DirFacts Ulib PrintFacts Grep GrepFacts Umalloc UmallocFacts Spinlock Demo Vm Asm AsmFacts.
From stdpp Require Import base numbers list gmap strings relations.
From Stdlib Require Import ZArith Lia.

Open Scope Z_scope.

(** ** Spinlocks *)

Definition idle_mach : mach :=
  Mk_mach (fun _ => initlock) (fun _ => Mk_cpu 0 false true) (fun _ => Outside).

(** CPU 0 has taken lock 1, CPU 2 waits for it *)
Definition busy_mach : mach :=
  Mk_mach (<[1%nat := Mk_spinlock true (Some 0%nat)]> (<[1%nat := Mk_spinlock true None]> (locks idle_mach)))
    (<[2%nat := push_off (Mk_cpu 0 false true)]> (<[0%nat := push_off (Mk_cpu 0 false true)]> (cpus idle_mach)))
    (<[2%nat := Spinning 1]> (<[0%nat := Outside]> (<[0%nat := Swapped 1]> (<[0%nat := Spinning 1]> (places idle_mach))))).

Lemma spinlocks_exclude_witness :
  (forall i j l, owns_lock busy_mach i l -> owns_lock busy_mach j l -> i = j) /\
  (forall i l, owns_lock busy_mach i l -> c_intr (cpus busy_mach i) = false) /\
  (forall i l, places busy_mach i = Releasing l \/ places busy_mach i = Popping l -> is_Some (pop_off (cpus busy_mach i))).
Proof.
  apply (spinlocks_exclude 3 idle_mach busy_mach).
  - by split.
  - eapply rtc_l; [apply (acquire_enter 3 idle_mach 0 1); [lia|done|done]|].
    eapply rtc_l; [eapply (acquire_swap 3 _ 0 1); done|].
    eapply rtc_l; [eapply (acquire_done 3 _ 0 1); done|].
    eapply rtc_l; [eapply (acquire_enter 3 _ 2 1); [lia|done|done]|].
    apply rtc_refl.
Defined.

(** ** Strings, names and records *)

Lemma memmove_correct_witness :
  memmove [1; 2; 3; 4; 5] 1 0 3 = splice 1 (slice 0 3 [1; 2; 3; 4; 5]) [1; 2; 3; 4; 5].
Proof. apply memmove_correct; simpl; lia. Defined.

Lemma skipelem_splits_witness :
  match skipelem (chars "a//bb/") (replicate 14 0) with
  | None => path_elems (chars "a//bb/") = []
  | Some (path', name') =>
      exists e, path_elems (chars "a//bb/") = e :: path_elems path' /\ e <> [] /\ ~ In SLASH e /\
        take (Z.to_nat DIRSIZ) (cstr name') = take (Z.to_nat DIRSIZ) e /\
        length name' = Z.to_nat DIRSIZ /\ (length path' < length (chars "a//bb/"))%nat
  end.
Proof. apply skipelem_splits. reflexivity. Defined.

Lemma dirent_roundtrip_witness :
  let bytes := encode_dirent (Mk_dirent (u16 7) (strncpy (chars "file") (Z.to_nat DIRSIZ))) in
  let de := decode_dirent bytes in
  Z.of_nat (length bytes) = sizeof_dirent /\ de_inum de = 7 /\
  (namecmp (chars "file") (de_name de) = 0 <->
   take (Z.to_nat DIRSIZ) (cstr (chars "file")) = take (Z.to_nat DIRSIZ) (cstr (chars "file"))).
Proof. apply (dirent_roundtrip (chars "file") 7 (chars "file")). lia. Defined.

Lemma demo_file_ok : dinode_ok demo_file.
Proof.
  split; cbn -[replicate]; unfold T_FILE; try lia; [reflexivity|].
  apply Forall_cons. split; [lia|]. apply Forall_replicate. lia.
Qed.

Lemma dinode_roundtrip_witness :
  let blk' := splice (dinode_off 18) (encode_dinode demo_file) (pad []) in
  decode_dinode (slice (dinode_off 18) 64 blk') = demo_file /\ length blk' = length (pad []) /\
  (3 mod IPB <> 18 mod IPB -> slice (dinode_off 3) 64 blk' = slice (dinode_off 3) 64 (pad [])).
Proof. apply (dinode_roundtrip demo_file 18 3 (pad [])); [apply demo_file_ok|reflexivity]. Defined.

(** ** Printing and matching *)

Lemma printint_correct_witness :
  (length (printint_buf (- 2 ^ 63) 10 true) <= 20)%nat /\
  read_int 10 (printint (- 2 ^ 63) 10 true) = s64 (- 2 ^ 63).
Proof. apply (printint_correct (- 2 ^ 63) 10 true). by left. Defined.

Lemma atoi_printint_witness : atoi (uprintint 2147483647 10 true) = 2147483647.
Proof. apply atoi_printint. lia. Defined.

Lemma match_decides_search_witness :
  match_ (chars "^a.*c$") (chars "abbc") = true <-> matches (chars "^a.*c$") (chars "abbc").
Proof. apply match_decides_search; repeat constructor; done. Defined.

(** ** The allocator of user programs *)

Definition demo_mops : list mop := [Mmalloc 100; Mmalloc 5000; Mfree 1; Mmalloc 10; Mfree 0; Mfree 0; Mmalloc 60000].

Lemma malloc_history_witness :
  (exists s, history 1 demo_mops [] (Mk_mstate ∅ 0 256 65536) = Ok [(602, 60000)] s) /\
  wp (history 1 demo_mops []) (Mk_mstate ∅ 0 256 65536) (fun ptrs s' =>
    exists fs, units (fs ++ (block_of <$> ptrs)) ≡ₚ seqZ 256 (m_brk s' - 256) /\ m_brk s' <= 65536 /\
      Forall (fun '(p, nbytes) => 256 < p /\ p * sizeof_header + nbytes <= m_brk s' * sizeof_header) ptrs).
Proof.
  split; [eexists; vm_compute; reflexivity|].
  apply (malloc_history 1 256 65536 demo_mops); [lia|lia|]. repeat constructor; vm_compute; done.
Defined.

(** ** Registers *)

Definition flat (satp va : Z) : option Z := Some va.
Definition user_walk (satp va : Z) : option Z := Some (va - TRAPFRAME + 8192).
Definition no_symbol (x : string) : Z := 4096.
Definition no_link (k : list instr) : Z := 4100.

(** the machine after the instructions *)
Definition after (walk : Z -> Z -> option Z) (code : list instr) (m : hart) : hart :=
  match exec walk no_symbol no_link code m with Some (m', _, _) => m' | None => m end.

Lemma after_run walk code m :
  (if exec walk no_symbol no_link code m then true else false) = true ->
  exists t k, exec walk no_symbol no_link code m = Some (after walk code m, t, k).
Proof. unfold after. destruct (exec _ _ _ code m) as [[[m' t] k]|]; [eauto|done]. Qed.

Lemma after_all walk code m :
  match exec walk no_symbol no_link code m with Some (_, _, []) => true | _ => false end = true ->
  exists t, exec walk no_symbol no_link code m = Some (after walk code m, t, []).
Proof. unfold after. destruct (exec _ _ _ code m) as [[[m' t] [|]]|]; [eauto|done|done]. Qed.

(** a hart with [a0] and [a1] as given *)
Definition hart_with (a0 a1 : Z) (M : Z -> Z) : hart :=
  Mk_hart (fun r => match r with A0 => a0 | A1 => a1 | Sp => 16384 | _ => 5 end) (fun _ => 0) M.

Lemma mem_with a0 a1 M : mem (hart_with a0 a1 M) = M.
Proof. done. Qed.

Lemma slots_check m base pa l :
  Forall (fun x => flat (csrs m Satp) (u64 (regs m base + x.2)) = Some (pa + x.2) /\ (pa + x.2) mod 8 = 0) l ->
  slots_at flat m base pa l.
Proof. rewrite Forall_forall. intros H x Hx. by apply H. Qed.

Lemma context_check m base pa :
  regs m base = pa -> 0 <= pa < 2 ^ 32 -> pa mod 8 = 0 -> context_at flat m base pa.
Proof.
  intros E Hpa Hm o [Ho Ho8]. rewrite E. unfold flat, sizeof_context in *. rewrite wrap_small by lia.
  split; [done|]. by rewrite Z.add_mod, Hm, Ho8.
Qed.

Definition switching : hart := hart_with 8192 12288 (fun a => a).
Definition switched : hart := after flat swtch_code switching.
Definition switching_back : hart := hart_with 20480 8192 (mem switched).

Lemma swtch_resumes_witness :
  exists m3, exec flat no_symbol no_link swtch_code switching_back = Some (m3, Jump 5, []) /\
    (forall r, callee_saved r -> regs m3 r = regs switching r).
Proof.
  destruct (swtch_resumes flat no_symbol no_link switching switched switching_back 8192 12288 20480) as [_ H].
  - apply context_check; done.
  - apply context_check; done.
  - unfold apart, sizeof_context. lia.
  - apply after_all. vm_compute. reflexivity.
  - apply context_check; done.
  - apply context_check; done.
  - unfold apart, sizeof_context. lia.
  - intros x _. apply (f_equal (fun M => M _)), mem_with.
  - exact H.
Defined.

Definition jumping : hart := after flat ksetjmp_code switching.
Definition jumping_back : hart := hart_with 8192 (-1) (mem jumping).

Lemma klongjmp_returns_witness :
  exists m3, exec flat no_symbol no_link klongjmp_code jumping_back = Some (m3, Jump 5, []) /\ regs m3 A0 = -1.
Proof.
  destruct (klongjmp_returns flat no_symbol no_link switching jumping jumping_back 8192) as (_ & _ & _ & m3 & E & H & _).
  - apply context_check; done.
  - apply after_all. vm_compute. reflexivity.
  - apply context_check; done.
  - intros x _. apply (f_equal (fun M => M _)), mem_with.
  - exists m3. split; [exact E|exact H].
Defined.

Lemma user_mapped satp : tf_mapped user_walk satp 8192.
Proof.
  intros o Ho Hm. unfold user_walk. rewrite wrap_small by (unfold TRAPFRAME, TRAMPOLINE, MAXVA, PGSIZE; lia).
  split; [f_equal; lia|]. Z.to_euclidean_division_equations. lia.
Qed.

Definition trapping : hart := hart_with 7 8 (fun a => a).
Definition trapped : hart := after user_walk uservec_code trapping.
Definition returning : hart := hart_with 9 8 (mem trapped).

Lemma trap_roundtrip_witness :
  exists m3, exec user_walk no_symbol no_link userret_code returning = Some (m3, Jump 0, []) /\
    forall r, r <> A0 -> regs m3 r = regs trapping r.
Proof.
  destruct (trap_roundtrip user_walk no_symbol no_link trapping trapped returning 8192)
    as (_ & _ & _ & _ & _ & _ & m3 & E & _ & _ & H).
  - apply user_mapped.
  - apply after_run. vm_compute. reflexivity.
  - apply user_mapped.
  - intros x _. apply (f_equal (fun M => M _)), mem_with.
  - exists m3. split; [exact E|exact H].
Defined.

Definition interrupted : hart := after flat kernelvec_code switching.

Lemma kernelvec_transparent_witness :
  exists m3, exec flat no_symbol no_link kernelvec_rest interrupted = Some (m3, Jump 0, []) /\
    forall r, r <> Tp -> regs m3 r = regs switching r.
Proof.
  destruct (kernelvec_transparent flat no_symbol no_link switching interrupted interrupted 16128)
    as (_ & _ & _ & m3 & E & _ & H).
  - split; [discriminate|reflexivity].
  - apply slots_check. slots.
  - apply after_run. vm_compute. reflexivity.
  - unfold c_call. auto.
  - exists m3. split; [exact E|exact H].
Defined.
