(* ===== verification/KernelExamples.v ===== *)
(** * The properties of memory, pipes, devices and scheduling on small states *)

From S2P Require Import Prelude Monad CString Types Kernel Kalloc KallocFacts Vm VmFacts UserMem Uart Printf Console ConsoleFacts Bio Log LogSpace Tx FsBlock Inode Dir File PipeFacts Sysfile Proc Virtio Systx Syscall Trap Sched VirtioFacts SystxFacts SyscallFacts Demo TxDemo.
From stdpp Require Import base numbers list gmap strings relations.
From Stdlib Require Import ZArith Lia.

Open Scope Z_scope.

#[local] Existing Instance demo_layout.

(** ** Mapping a page *)

Notation PT := 0x87f90000.
Notation L1 := 0x87f91000.
Notation L0 := 0x87f92000.
Notation U1 := 0x87f93000.
Notation U2 := 0x87f94000.
Notation PIPE := 0x87f95000.
Notation F1 := 0x87f96000.
Notation F2 := 0x87f97000.

(** an empty page table and two free pages *)
Definition map_heap : gmap Z pobj := <[PT := zero_ptes]> (<[F1 := PRun F2]> (<[F2 := PRun 0]> ∅)).
Definition map_state : kst := set_k_freelist (fun _ => F1) (set_k_heap (fun _ => map_heap) (power_on ∅)).

Lemma mappages_maps_witness :
  exists r s' fl', mappages PT 0x1000 (1 * PGSIZE) U1 22 map_state = Ok r s' /\
    ((r = 0 /\ mapped PT 0x1000 U1 22 1 map_state [F1; F2] s' fl') \/
     (r = -1 /\ fl' = [] /\ exists k, 0 <= k < 1 /\ mapped PT 0x1000 U1 22 k map_state [F1; F2] s' fl')).
Proof.
  apply (mappages_maps PT 0x1000 U1 22 1 map_state [F1; F2]).
  - apply free_listb_sound. vm_compute. reflexivity.
  - cbn. set_solver.
  - by apply pt_ok_zero.
  - lia.
  - lia.
  - reflexivity.
  - vm_compute. discriminate.
  - lia.
  - vm_compute. reflexivity.
  - intros i _. by apply translate_zero.
Defined.

(** ** User memory *)

(** two user pages at 0x1000 and 0x2000, not adjacent in physical memory *)
Definition tree0 : gmap Z pobj := <[PT := zero_ptes]> ∅.
Definition tree1 : gmap Z pobj :=
  <[PT := PPte (<[0%nat := Z.lor (PA2PTE L1) PTE_V]> (replicate 512 0))]> (<[L1 := zero_ptes]> tree0).
Definition tree2 : gmap Z pobj :=
  <[L1 := PPte (<[0%nat := Z.lor (PA2PTE L0) PTE_V]> (replicate 512 0))]> (<[L0 := zero_ptes]> tree1).
Definition leafs1 : list Z := <[1%nat := leaf_pte U2 22]> (replicate 512 0).
Definition tree3 : gmap Z pobj := <[L0 := PPte leafs1]> tree2.
Definition tree4 : gmap Z pobj := <[L0 := PPte (<[2%nat := leaf_pte U1 22]> leafs1)]> tree3.

(** evaluation of a closed side condition *)
Ltac comp := vm_compute; first [reflexivity|discriminate|split; [discriminate|reflexivity]|lia].

Lemma tree1_linked : linked tree0 PT 0 L1 tree1.
Proof. apply linked_intro; comp. Qed.

Lemma tree2_linked : linked tree1 L1 0 L0 tree2.
Proof. apply linked_intro; comp. Qed.

Lemma tree1_ok : pt_ok tree1 PT.
Proof. apply (pt_ok_linked tree0 PT PT 0 L1); [by apply pt_ok_zero|by left|done|apply tree1_linked]. Qed.

Lemma tree2_ok : pt_ok tree2 PT.
Proof. apply (pt_ok_linked tree1 PT L1 0 L0); [apply tree1_ok|right; by exists 0%nat|done|apply tree2_linked]. Qed.

Lemma tree3_ok : pt_ok tree3 PT.
Proof. apply (leaf_pt_ok tree2 PT L1 L0 0 0 1 (replicate 512 0)); [apply tree2_ok|comp..]. Qed.

Lemma tree4_ok : pt_ok tree4 PT.
Proof. apply (leaf_pt_ok tree3 PT L1 L0 0 0 2 leafs1); [apply tree3_ok|comp..]. Qed.

Lemma tree2_translate va : translate tree2 PT va = None.
Proof.
  rewrite (translate_linked tree1 PT L1 0 L0 tree2); [|apply tree1_ok|right; by exists 0%nat|done|apply tree2_linked].
  rewrite (translate_linked tree0 PT PT 0 L1 tree1); [|by apply pt_ok_zero|by left|done|apply tree1_linked].
  by apply translate_zero.
Qed.

Lemma tree4_translate va v :
  translate tree4 PT va = Some v ->
  pxi 2 va = 0%nat /\ pxi 1 va = 0%nat /\
  ((pxi 0 va = 2%nat /\ v = leaf_pte U1 22) \/ (pxi 0 va = 1%nat /\ v = leaf_pte U2 22)).
Proof.
  unfold tree4. rewrite (leaf_translate tree3 PT L1 L0 0 0 2 leafs1) by (apply tree3_ok || comp).
  unfold tree3, leafs1. rewrite (leaf_translate tree2 PT L1 L0 0 0 1 (replicate 512 0)) by (apply tree2_ok || comp).
  rewrite tree2_translate. repeat case_decide; try done; intros [= <-]; naive_solver.
Qed.

(** ** Copying to and from user memory *)

Definition pipe0 : pipe := Mk_pipe (replicate 512 0) 0 0 true true.

(** the address space of a process, its pages full of zeros, and an empty pipe *)
Definition user_heap : gmap Z pobj :=
  <[PIPE := PPipe pipe0]> (<[U1 := zero_page]> (<[U2 := zero_page]> tree4)).

Lemma user_heap_ok : pt_ok user_heap PT.
Proof. repeat (apply pt_ok_other; [done..|]). apply tree4_ok. Qed.

Lemma user_heap_translate va : translate user_heap PT va = translate tree4 PT va.
Proof. unfold user_heap. by rewrite !translate_other. Qed.

Lemma pxi_PX level va va' : pxi level va = pxi level va' -> 0 <= PX level va -> 0 <= PX level va' -> PX level va = PX level va'.
Proof. unfold pxi. lia. Qed.

Lemma user_heap_unshared : unshared user_heap PT.
Proof.
  assert (Hpos : forall level va, 0 <= PX level va) by (intros; apply Z.land_nonneg; right; done).
  intros va va' pa Hva Hva'. unfold user_page. rewrite !user_heap_translate.
  destruct (translate tree4 PT va) as [v|] eqn:E; cbn; [|done].
  destruct (translate tree4 PT va') as [v'|] eqn:E'; cbn; [|done].
  apply tree4_translate in E as (H2 & H1 & H0), E' as (H2' & H1' & H0').
  intros Hv Hv'. apply PX_page; [done..| | |]; apply pxi_PX; try apply Hpos; [congruence..|].
  destruct H0 as [[-> ->]|[-> ->]], H0' as [[-> ->]|[-> ->]]; try done; vm_compute in Hv, Hv'; congruence.
Qed.

Definition user_state : kst := set_k_heap (fun _ => user_heap) (power_on ∅).

Lemma user_heap_writable va : va / PGSIZE = 1 \/ va / PGSIZE = 2 -> uwritable user_heap PT va.
Proof.
  intros H. assert (exists pa, translate user_heap PT va = Some (leaf_pte pa 22) /\ (pa = U1 \/ pa = U2)) as (pa & E & Hpa).
  { destruct H as [H|H].
    - exists U2. rewrite (translate_page _ _ va 0x1000) by done. split; [comp|by right].
    - exists U1. rewrite (translate_page _ _ va 0x2000) by done. split; [comp|by left]. }
  exists (leaf_pte pa 22), (replicate (Z.to_nat PGSIZE) 0).
  destruct Hpa as [->| ->]; split_and!; (done || comp).
Qed.

(** four bytes across the boundary of the two pages *)
Lemma copyout_copyin_witness :
  exists s', copyout PT 0x1ffe [1; 2; 3; 4] user_state = Ok 0 s' /\
    (forall va', 0 <= va' < MAXVA ->
       ubyte (k_heap s') PT va' =
       if (0x1ffe <=? va') && (va' <? 0x1ffe + 4) then [1; 2; 3; 4] !! Z.to_nat (va' - 0x1ffe)
       else ubyte (k_heap user_state) PT va') /\
    copyin PT 0x1ffe 4 s' = Ok ([1; 2; 3; 4], 0) s'.
Proof.
  apply (copyout_copyin PT 0x1ffe [1; 2; 3; 4] user_state).
  - apply user_heap_ok.
  - reflexivity.
  - apply user_heap_unshared.
  - lia.
  - vm_compute. discriminate.
  - intros i Hi. apply user_heap_writable. cbn in Hi.
    destruct i as [|[|[|[|]]]]; [left; reflexivity|left; reflexivity|right; reflexivity|right; reflexivity|lia].
Defined.

(** ** Pipes *)

(** process 0 runs in this address space *)
Definition pipe_proc : proc := set_p_pagetable (fun _ => PT) zero_proc.
Definition with_heap (h : gmap Z pobj) : kst :=
  set_k_heap (fun _ => h) (set_k_cur (fun _ => Some 0%nat) (set_k_procs <[0%nat := pipe_proc]> (power_on ∅))).

Lemma with_heap_ctx h q :
  h !! PIPE = Some (PPipe q) -> pt_ok h PT -> h !! 0 = None -> pipe_ctx PIPE 0 pipe_proc q (with_heap h).
Proof.
  intros Hp Hok H0. split; [reflexivity|reflexivity|by exists zero_psched|reflexivity| | |done..].
  - cbn. set_solver.
  - intros j. cbn. set_solver.
Qed.

Lemma pipe0_rep : pipe_rep pipe0 [].
Proof. split; [comp..|done]. Qed.

Lemma pipewrite_enqueues_witness :
  exists q', pipewrite PIPE 0x1000 3 (with_heap user_heap) =
    Ok 3 (set_k_psched (wakeup_table (ChPipeRead PIPE) (Some 0%nat))
           (set_k_heap <[PIPE := PPipe q']> (with_heap user_heap))) /\
    pipe_rep q' [0; 0; 0] /\ pi_readopen q' = true /\ pi_writeopen q' = true.
Proof.
  apply (pipewrite_enqueues PIPE 0x1000 0 pipe_proc pipe0 (with_heap user_heap) [] [0; 0; 0]).
  - apply with_heap_ctx; [reflexivity|apply user_heap_ok|reflexivity].
  - apply pipe0_rep.
  - reflexivity.
  - lia.
  - vm_compute. discriminate.
  - intros i Hi. cbn in Hi. destruct i as [|[|[|]]]; [comp|comp|comp|lia].
  - apply Nat.leb_le; reflexivity.
Defined.

(** a pipe with three bytes, the first of them at the end of the ring *)
Definition pipe3 : pipe :=
  Mk_pipe (<[511%nat := 7]> (<[0%nat := 8]> (<[1%nat := 9]> (replicate 512 0)))) 4294967295 2 true true.

Lemma pipe3_rep : pipe_rep pipe3 [7; 8; 9].
Proof. split; [comp..|]. intros k x Hk. destruct k as [|[|[|k]]]; [injection Hk as <-; comp..|done]. Qed.

Definition read_heap : gmap Z pobj := <[PIPE := PPipe pipe3]> user_heap.

Lemma read_heap_translate va : translate read_heap PT va = translate user_heap PT va.
Proof. unfold read_heap. by rewrite translate_other. Qed.

Lemma piperead_dequeues_witness :
  exists q' h', piperead PIPE 0x1fff 2 (with_heap read_heap) =
    Ok 2 (set_k_psched (wakeup_table (ChPipeWrite PIPE) (Some 0%nat))
           (set_k_heap (fun _ => h') (with_heap read_heap))) /\
    h' !! PIPE = Some (PPipe q') /\ pipe_rep q' [9] /\
    (forall va, 0 <= va < MAXVA -> ubyte h' PT va =
       if (0x1fff <=? va) && (va <? 0x1fff + 2) then [7; 8; 9] !! Z.to_nat (va - 0x1fff)
       else ubyte read_heap PT va).
Proof.
  apply (piperead_dequeues PIPE 0x1fff 0 pipe_proc pipe3 (with_heap read_heap) [7; 8; 9] 2).
  - apply with_heap_ctx; [reflexivity|by apply pt_ok_other, user_heap_ok|reflexivity].
  - apply pipe3_rep.
  - intros va va' pa. unfold user_page. cbn. rewrite !read_heap_translate. apply user_heap_unshared.
  - by left.
  - lia.
  - vm_compute. discriminate.
  - intros i Hi. cbn in Hi |- *.
    destruct (user_heap_writable (0x1fff + Z.of_nat i)) as (v & l & Ht & HU & HW & Hl & Hn).
    { destruct i as [|[|]]; [left; reflexivity|right; reflexivity|lia]. }
    exists v, l. rewrite read_heap_translate. split_and!; try done.
    unfold read_heap. rewrite lookup_insert_ne; [done|]. intros E. by rewrite <- E in Hl.
Defined.

(** ** Sleeping and being scheduled *)

(** a thread that comes straight back *)
Definition yielding (p : nat) : K unit := mret tt.

Definition sleeper : kst := set_k_held (fun _ => [Lticks]) (with_heap ∅).

Lemma sleeper_runs_again_witness :
  exists s1 k, sleep ChTicks Lticks sleeper = Block ChTicks s1 k /\ Lticks ∉ k_held s1 /\
    (forall s2, k_psched s2 !! 0%nat = k_psched s1 !! 0%nat -> length (k_psched s2) = NPROC ->
       no_plock s2 -> k_cur s2 <> Some 0%nat ->
       exists s3, wakeup ChTicks s2 = Ok tt s3 /\ pstate s3 0 = Some RUNNABLE) /\
    (forall s4, pstate s4 0 = Some RUNNABLE -> length (k_psched s4) = NPROC -> k_held s4 = [] ->
       exists sa sb, yielding 0 sa = Ok tt sb /\ k_cur sa = Some 0%nat /\ pstate sa 0 = Some RUNNING /\
         scheduler_turn yielding s4 =
           (modify (set_k_cur (fun _ => None));; release (Lproc 0);;
            sched_procs yielding (seq 1 (NPROC - 1)) true) sb) /\
    (forall s5, k_held s5 = [Lproc 0] -> exists s6, k s5 = Ok tt s6 /\ k_held s6 = [Lticks]).
Proof.
  apply (sleeper_runs_again yielding ltac:(intros p s; by exists s) ChTicks Lticks sleeper 0 pipe_proc zero_psched).
  - split; reflexivity.
  - reflexivity.
  - discriminate.
  - reflexivity.
Defined.

(** ** The console *)

(** a transmitter that is always idle *)
Definition cons_state : kst := idle_port 3 (power_on ∅).

Lemma consoleintr_edits_witness :
  exists s', consoleintr 97 cons_state = Ok tt s' /\ cons_post cons_state ([], [97]) s'.
Proof.
  apply (consoleintr_edits 97 [] [] cons_state).
  - split; [|constructor]. split; [comp..|]. intros k x Hk. discriminate Hk.
  - split_and!; [reflexivity|vm_compute; lia|].
    repeat (constructor; [vm_compute; discriminate|]). constructor.
  - lia.
  - discriminate.
  - reflexivity.
  - intros j. cbn. set_solver.
  - cbn. set_solver.
Defined.

(** ** The disk driver *)

(** a device that, once notified, follows the chain it was offered *)
Definition demo_device (s : kst) : kst :=
  let d := vd s in
  if bool_decide (last (v_out (k_dev s)) <> Some (VIRTIO0 + VIRTIO_MMIO_QUEUE_NOTIFY, 0)) then s else
  match vk_avail_ring d !! Z.to_nat (u16 (vk_avail_idx d - 1) mod Z.of_nat NUM) with
  | Some i0 =>
      let i0 := Z.to_nat i0 in
      match vk_desc d !! i0, vk_ops d !! i0 with
      | Some d0, Some op =>
          match vk_desc d !! Z.to_nat (vd_next d0) with
          | Some (Mk_vdesc (VData pa) _ _ _) =>
              let blockno := vr_sector op / 2 in
              if vr_type op =? VIRTIO_BLK_T_IN then
                match k_disk s !! blockno with
                | Some blk => set_vd (served i0) (set_k_heap <[pa := PBuf blk]> s)
                | None => s
                end
              else
                match k_heap s !! pa with
                | Some (PBuf bytes) =>
                    set_vd (served i0)
                      (set_k_dwrites (fun w => w ++ [(blockno, bytes)]) (set_k_disk <[blockno := bytes]> s))
                | _ => s
                end
          | _ => s
          end
      | _, _ => s
      end
  | None => s
  end.

Lemma demo_device_ok : device_ok demo_device.
Proof.
  split; intros *; intros [Hop H0 H1 _] Hoff Hnot Hdisk; [|intros Hpage]; unfold demo_device;
    rewrite bool_decide_eq_false_2 by (by intros H); rewrite Hoff, Nat2Z.id, H0, Hop;
    cbn [vd_next]; rewrite Nat2Z.id, H1; cbn [vr_sector vr_type]; rewrite Z.div_mul by done;
    [change (VIRTIO_BLK_T_IN =? VIRTIO_BLK_T_IN) with true|change (VIRTIO_BLK_T_OUT =? VIRTIO_BLK_T_IN) with false];
    cbv iota; [by rewrite Hdisk|by rewrite Hpage].
Qed.

Definition disk_buf : buf := set_b_data (fun _ => F1) (set_b_blockno (fun _ => 5) zero_buf).

(** process 0 with buffer 3 of block 5, the queues empty *)
Definition disk_state : kst :=
  set_k_dev (fun d => set_v_in (fun _ => [0]) (set_v_vdisk (set_vk_free (fun _ => replicate 8 true)) d))
    (set_k_bcache <[3%nat := disk_buf]>
      (set_k_disk (fun _ => {[5 := [1; 2; 3]]}) (with_heap {[F1 := PBuf [4; 5; 6]]}))).

Lemma virtio_refines_disk_rw_witness :
  exists s1 k s3 s5 sd,
    virtio_disk_rw 3 true disk_state = Block (ChBuf 3) s1 k /\
    virtio_disk_intr (demo_device (switch_out s1)) = Ok tt s3 /\ pstate s3 0 = Some RUNNABLE /\
    k (switch_in 0 s3) = Ok tt s5 /\
    disk_rw 3 true disk_state = Ok tt sd /\
    k_heap s5 = k_heap sd /\ k_disk s5 = k_disk sd /\ k_dwrites s5 = k_dwrites sd /\
    k_bcache s5 = k_bcache sd /\ k_held s5 = [] /\
    vk_free (vd s5) = vk_free (vd disk_state) /\ vk_used_didx (vd s5) = vk_used_idx (vd s5).
Proof.
  apply (virtio_refines_disk_rw demo_device demo_device_ok 3 0 true disk_buf pipe_proc zero_psched
           disk_state [1; 2; 3] [4; 5; 6]); try reflexivity.
  - split; reflexivity.
  - cbn. lia.
  - split; comp.
  - vm_compute. lia.
  - discriminate.
Defined.

(** ** Space in the log *)

(** calls on the log: an operation begins, or the one at place [k] logs buffer [b] *)
Inductive log_call := LBegin | LWrite (k b : nat).

Definition log_run1 (o : log_call) (c : kst * list Z) : option (kst * list Z) :=
  let '(s, ws) := c in
  match o, tx_active s with
  | LBegin, Ok false _ => match begin_op s with Ok tt s' => Some (s', 0 :: ws) | _ => None end
  | LWrite k b, Ok false _ =>
      match log_write b s, ws !! k with
      | Ok tt s', Some w =>
          let w' := w + (l_n (k_log s') - l_n (k_log s)) in
          if w' <=? MAXOPBLOCKS then Some (s', take k ws ++ w' :: drop (S k) ws) else None
      | _, _ => None
      end
  | _, _ => None
  end.

Definition log_run (ops : list log_call) (c : kst * list Z) : option (kst * list Z) :=
  foldl (fun c o => c ≫= log_run1 o) (Some c) ops.

Lemma tx_active_reads s b s' : tx_active s = Ok b s' -> s' = s.
Proof.
  assert (forall A (f : kst -> option A) s a s', deref f s = Ok a s' -> s' = s) as Hd.
  { intros A f s1 a s2. unfold deref. by destruct (f s1); [intros [= _ ->]|]. }
  unfold tx_active, myproc, get_proc, load_tx. intros H.
  apply bind_inv in H as (p & s1 & ->%Hd & H). apply bind_inv in H as (pr & s2 & ->%Hd & H).
  destruct (p_tx pr =? 0); [by injection H as _ ->|].
  apply bind_inv in H as (t & s3 & ->%Hd & H). by injection H as _ ->.
Qed.

Lemma log_run1_sound o c c' : log_run1 o c = Some c' -> log_step c c'.
Proof.
  destruct c as [s ws]. unfold log_run1. intros H.
  destruct o as [|k b], (tx_active s) as [[] s1| | | |] eqn:Ht; try done; pose proof (tx_active_reads _ _ _ Ht) as ->.
  - destruct (begin_op s) as [[] s'| | | |] eqn:E; [|done..]. injection H as <-.
    apply (step_begin s); [done|]. rewrite E. constructor.
  - destruct (log_write b s) as [[] s'| | | |] eqn:E; [|done..]. destruct (ws !! k) as [w|] eqn:Hk; [|done].
    destruct (_ <=? _) eqn:Hle; [|done]. injection H as <-. zbool.
    rewrite <- (take_drop_middle ws k w Hk) at 1. by apply (step_write s s' b).
Qed.

Lemma log_run_sound ops c c' : log_run ops c = Some c' -> rtc log_step c c'.
Proof.
  revert c. induction ops as [|o ops IH]; intros c; unfold log_run; simpl.
  - intros [= <-]. apply rtc_refl.
  - destruct (log_run1 o c) as [c1|] eqn:E; cycle 1.
    { by assert (foldl (fun c o => c ≫= log_run1 o) None ops = None) as -> by (clear; by induction ops). }
    intros H. eapply rtc_l; [by eapply log_run1_sound|]. by apply IH.
Qed.

(** 30 buffers of different blocks *)
Definition log_machine : kst :=
  set_k_bcache (fun _ => (fun n => set_b_blockno (fun _ => 100 + n) zero_buf) <$> seqZ 0 30)
    (set_k_log (set_l_block (fun _ => replicate (Z.to_nat LOGBLOCKS) 0)) (with_heap ∅)).

(** three operations, each of which logs ten blocks, in turns *)
Definition three_ops : list log_call :=
  replicate 3 LBegin ++ ((fun n => LWrite (n mod 3) n) <$> seq 0 30).

Definition log_state (ops : list log_call) : kst := default log_machine (fst <$> log_run ops (log_machine, [])).

Lemma log_writable ops b :
  (match tx_active (log_state ops) with Ok false _ => true | _ => false end) &&
  bool_decide (k_held (log_state ops) = []) && bool_decide (is_Some (k_bcache (log_state ops) !! b)) = true ->
  writable b (log_state ops).
Proof.
  rewrite !andb_true_iff, !bool_decide_eq_true. intros [[H1 H2] H3].
  destruct (tx_active (log_state ops)) as [[] s1| | | |] eqn:Ht; try done. pose proof (tx_active_reads _ _ _ Ht) as ->.
  split; [done|rewrite H2; apply not_elem_of_nil..|done].
Qed.

(** with a share left the write succeeds; when three operations have logged ten
    blocks each, writing a block that is in the log panics *)
Lemma log_never_overflows_witness :
  (exists s', log_write 29 (log_state (take 32 three_ops)) = Ok tt s') /\
  log_write 0 (log_state three_ops) = Panic "too big a transaction".
Proof.
  assert (log_fresh log_machine) as Hf by (split_and!; reflexivity).
  split.
  - destruct (log_never_overflows log_machine (log_state (take 32 three_ops)) [10; 10; 9] Hf) as (_ & _ & H).
    + apply (log_run_sound (take 32 three_ops)). vm_compute. reflexivity.
    + apply (proj1 (H 29%nat (log_writable (take 32 three_ops) 29 ltac:(vm_compute; reflexivity))) 9); [right; right; left|]; reflexivity.
  - destruct (log_never_overflows log_machine (log_state three_ops) [10; 10; 10] Hf) as (_ & _ & H).
    + apply (log_run_sound three_ops). vm_compute. reflexivity.
    + apply (H 0%nat (log_writable three_ops 0 ltac:(vm_compute; reflexivity))). vm_compute. reflexivity.
Defined.

(** ** A system call cut short by a conflict *)

(** process 1 uses inode 2 in its transaction; process 0, in another one, is
    about to call [fstat] on a descriptor of that inode *)
Definition st_fstat : kst := state_of ((
  modify (set_k_cur (fun _ => Some 1%nat));; sys_txbegin;;
  ip ← iget ROOTDEV 2; ilock ip;; idata ip;; iunlock ip;;
  modify (set_k_ftable <[0%nat := Mk_file FD_INODE 1 true true 0 (Some ip) 0 0]>);;
  modify (set_k_cur (fun _ => Some 0%nat));; sys_txbegin;;
  tf_set 0 TF_A7 SYS_fstat;;
  upd_proc 0 (set_p_ofile <[0%nat := Some 0%nat]>)) (idle_port 201 demo)).

Definition is_longjmp {A} (r : res kst A) : bool := match r with Longjmp _ => true | _ => false end.

Lemma is_longjmp_eq {A} (r : res kst A) : is_longjmp r = true -> r = Longjmp (state_of r).
Proof. by destruct r. Qed.

Definition tf_words (s : kst) (pa : Z) : list Z := match k_heap s !! pa with Some (PTf l) => l | _ => [] end.

Definition st_aborted : kst :=
  state_of (sys_fstat (armed (p_tx (the_proc st_fstat 0)) (the_tx st_fstat 0) st_fstat)).

Lemma fstat_aborts :
  sys_fstat (armed (p_tx (the_proc st_fstat 0)) (the_tx st_fstat 0) st_fstat) = Longjmp st_aborted.
Proof. unfold st_aborted. apply is_longjmp_eq. vm_compute. reflexivity. Qed.

Lemma aborted_syscall_returns_witness :
  syscall st_fstat = Ok tt (set_k_heap
    <[p_trapframe (the_proc st_fstat 0) :=
        PTf (<[TF_A0 := u64 (-1)]> (tf_words st_aborted (tx_saved_tf (the_tx st_aborted 0))))]> st_aborted).
Proof.
  apply (aborted_syscall_returns 0 (the_proc st_fstat 0) (the_tx st_fstat 0) st_fstat st_aborted
    (the_tx st_aborted 0) (tf_words st_fstat (p_trapframe (the_proc st_fstat 0))) SYS_fstat sys_fstat).
  - split; vm_compute; (reflexivity || discriminate).
  - vm_compute. reflexivity.
  - vm_compute. reflexivity.
  - reflexivity.
  - exact fstat_aborts.
  - vm_compute. reflexivity.
  - vm_compute. reflexivity.
  - vm_compute. reflexivity.
Defined.
